(* ===== verification/_CoqProject ===== *)
-Q . S2P
Prelude.v
Config.v
Ring.v
Arena.v
ArenaSpec.v
ArenaClient.v
ArenaProps.v
Errno.v
AsyncGate.v
Path.v
Proc.v
Guest.v
Wait.v
Pipe.v
Pool.v
Fd.v
FdSpec.v
FdProps.v
Process.v
ProcessSpec.v
ProcessProps.v
Vfs.v
Tmpfs.v
TmpfsSpec.v
TmpfsProps.v
Mpu.v
Runtime.v
Policy.v
Event.v
Region.v
RegionProps.v
VforkProps.v
Lifecycle.v
Quiet.v
Signal.v
SignalProps.v
SysSignal.v
Child.v
SignalRoute.v
ChildProps.v
Exit.v
Futex.v
Trap.v
Console.v
ConsoleProps.v
Blocked.v
BlockedProps.v
Fork.v
ForkProps.v
Footprint.v
Loader.v
LoaderSpec.v
RelocProps.v
LoaderProps.v
Bootstrap.v
Image.v
Exec.v
ExecSpec.v
ExecProps.v
ExecArgs.v
Stat.v
Pty.v
PtyProps.v
Run.v
RunKeep.v
RunProps.v
NetfsWire.v
Netfs.v
NetfsSpec.v
NetfsPump.v
NetfsProps.v
NetfsSession.v
NetfsAccount.v
SysFd.v
SysMm.v
Overlay.v
SysPath.v
Poll.v
SysTime.v
Dir.v
