(* ===== verification/Prelude.v ===== *)
(** * Verification of lxp, a Linux personality for MMU-less microcontrollers

    lxp runs Linux programs on an RTOS.  A guest traps into the personality; a trap that can
    finish at once does, and anything else is handed to one coordinator task, which owns the
    process table and asks the RTOS port to start, park, resume or abort the native task
    behind each process slot.  There is no MMU: kernel pools and guest memory share one flat
    address space, all pools are static arrays, and identities that outlive a call carry a
    generation.  The development models that core, from the allocator up to the coordinator's
    run loop, the system calls on descriptors, paths, memory, time, signals and readiness, the
    file systems behind them and the 9P client, and proves what keeps them sound.

    ** Layers and files

    - Foundations.  This file: machine integers, flat memory, static pools, automation.
      [Config]: build constants, ABI numbers, error codes.  The model is of the 32-bit
      target; a C integer is a [Z], with the wrap-around written where it can happen.
    - Memory.  [Arena], [ArenaSpec], [ArenaClient], [ArenaProps] (src/lxp_arena.c): the
      allocator over flat memory, its refinement of a list of blocks, and the client view
      (live extents, frame of the rest).  [Ring] (src/fs/lxp_ring.h): the byte ring.  [Mpu]
      (include/lxp/arch/cortex_m_mpu.h): protection-unit descriptors.
    - Boundary.  [Guest] (src/lxp_guest.c): range checks, dispatch views, checked copies.
      [Path] (src/fs/lxp_path.c): normalization, joins, prefix tests, symlinks.
    - Process core.  [Proc] (src/proc/lxp_proc.h): the records, field for field.  [Wait]
      (intents, waits and signal policy), [Pool], [Process], [ProcessSpec], [ProcessProps]
      (src/proc/lxp_process.c): counted resources, fork, discard, init.
    - Files.  [Fd], [FdSpec], [FdProps] (src/fs/lxp_fd.c) against the class [FileOps], the
      interface a descriptor kind implements; [Pipe], [Vfs] (with eventfd), [Tmpfs],
      [TmpfsSpec], [TmpfsProps] (src/fs/lxp_tmpfs.c), a client of the arena; [Console],
      [ConsoleProps] (terminal settings and the console, src/fs/lxp_tty.c, lxp_console.c);
      [Pty], [PtyProps] (src/pty/lxp_pty.c); [Stat], the guest layouts of attributes and
      directory records.
    - Slots and tasks.  [Runtime] (slots, regions and the run's record), [Policy] (the memory
      policy a port programs the MPU from), [Event] (pending hints and the fair claim),
      [Region], [RegionProps], [VforkProps] (src/run/lxp_region.c), [Lifecycle]
      (src/run/lxp_lifecycle.c), [Quiet] (what a lifecycle request leaves
      alone), [Errno], and [AsyncGate] (src/lxp_async_gate.c), the one place where two threads
      share a word.
    - Signals and children.  [Signal], [SignalProps] (src/lxp_signal.c): the saved-frame
      stack, delivery and sigreturn.  [SysSignal]: the signal system calls.  [SignalRoute]: kill
      targeting and delivery to a parked task.
      [Child], [ChildProps]: child events, wait4, thread-group exit.
    - Programs.  [Bootstrap]: the CPIO reader, the initial stack,
      interpreter scripts.  [Footprint], [Loader], [LoaderSpec], [RelocProps], [LoaderProps]
      (src/lxp_loader.c): the FDPIC loader over flat memory, with the sets of addresses it
      reads and writes.  [Image] (src/run/lxp_image.c): the image transaction.  [ExecArgs]:
      the capture of argv and envp.
    - Coordinator.  [Trap]: the top half of a system call.  [Futex].  [Exit]; [Fork],
      [ForkProps]; [Exec], [ExecSpec], [ExecProps]: the transactions that end, copy and
      replace a process.  [Blocked],
      [BlockedProps]: the scan that retries blocked operations.  [Run] (src/lxp_run.c,
      src/run/lxp_primary.c): the event dispatcher, the run loop and the teardown; [RunKeep],
      [RunProps]: the accounts a run keeps.
    - 9P client (src/netfs/lxp_netfs.c).  [NetfsWire]: codec, framing and transport, over
      the host's socket operations as a record whose law, the class [LawfulNet], says only
      that they respect the buffer lengths ([StreamSocket] adds that received bytes are the
      next of a stream).  [Netfs]: connection, request pool, replies,
      pump and entry points.  [NetfsSpec], [NetfsPump], [NetfsProps]: well-formedness,
      memory safety and the walk message.  [NetfsSession], [NetfsAccount]: who holds which
      fid.
    - System calls and name spaces.  [SysFd] (src/sys/lxp_sys_fd.c): the descriptor calls,
      dispatched through a kind's table of operations.  [SysMm] (src/sys/lxp_sys_mm.c): break,
      mappings and their authority list.  [Overlay] (src/fs/lxp_overlay.c, lxp_mount.c): the
      tmpfs over the read-only root, and the mount table.  [SysPath]
      (src/sys/lxp_sys_path.c): the path calls, mount(2) and umount(2).  [Poll]
      (src/fs/lxp_poll.c): poll and select.  [SysTime] (src/sys/lxp_sys_time.c).  [Dir]
      (src/fs/lxp_dir.c, lxp_rootfs.c): directory listings and the rootfs kind.

    Components meet at interfaces: [FileOps] (what the descriptor layer asks of a kind of
    file), [ArenaClient] (what the allocator promises its clients), the RTOS task, memory
    and console operations as records of callbacks with their laws as classes ([RetryLaws],
    [CancelLaws], [Transport] and the like), [LawfulNet] and [StreamSocket], [FileTable] and [StreamWrite] (a kind's
    operations as the descriptor calls use them, and a kind that is a byte stream),
    [RootMount] with [RootMountLaws] (where the backing state keeps the tmpfs, and that
    opens and closes of its nodes are the tmpfs's own), [MountTable] with [HostfsMounts] (a
    mount's operations, and what the host file system's mount calls do to its mountpoint).
    The theorems about a client are proved against the interface.

    ** How the code is represented

    A pointer into a static pool is the index of the object, [None] for NULL; a pointer into
    memory is an address.  Functions that change state take it and return it; the names are
    those of the C functions.  Error results are the negative errno the code returns.  A loop
    over a pool is a search or a fold over the list; loops whose bound is data have fuel, with
    a lemma that the fuel chosen suffices: the arena's walks take one step per 16-byte
    granule, the gate's retry at most as many steps as the worker can interfere, the loader's
    loops one step per table entry, the 9P loops one step per byte of the transport buffer
    (each round sends, receives or consumes at least one), the mount table's walk one step per
    mount, the parser of mount options one per byte; the hops of a symlink that leaves the
    root are the eight the code allows.  Where an access can be out of
    bounds the operation returns [None], and a theorem says it never does.  The run loop is
    iterated a given number of passes; the theorems hold for every number.  Host services
    (RTOS callbacks, clocks, region placement, sockets, entropy) are parameters of the
    definitions that call them, and theorems hold for all of them, under the laws named.

    ** What is proved

    - The run: over any number of passes of the coordinator's loop, for every behaviour of
      guests, RTOS and providers, descriptors, address spaces and the other process objects
      stay counted exactly and region records well formed, unless an execve meets an image on
      which the loader does not end (RunProps); a burst of events does not starve the scan;
      the teardown ends if the port stops refusing, stops every task before it releases
      anything, and empties every process pool before the final reset.
    - Allocator: in every reachable state extents are aligned, disjoint and inside the
      region; alloc and free refine first-fit with coalescing; realloc keeps contents; a
      corrupted header makes every operation refuse without touching memory.
    - Boundary: no copy touches a byte the task was not granted; a view dies with the slot
      or region generation it captured; resolved paths are normalized and bounded.
    - Processes and descriptors: reference counts equal the number of references; the last
      close and only the last releases; fork and init leave nothing behind when they fail.
    - Files: pipes and pseudo-terminals deliver the byte stream that was written, through the
      line discipline; a tmpfs write changes exactly the file it names, an unlinked file lives
      until its last close, the pool never leaks; eventfd counters saturate.
    - Tasks: region capabilities are counted and final once retired; a vfork child's
      writes are undone before its parent resumes; every lifecycle request, whatever the
      RTOS answers, leaves a settled slot or the failed state the code records; spawns happen only after publication; the event
      claim is fair and loses nothing; the memory policy grants nothing beyond the address
      space.
    - Signals and children: a handler's return restores the interrupted frame and mask; an
      interrupted call resumes; no exit status is lost within the queue's budget, and wait4
      takes the oldest that matches.
    - Programs: the loader reads and writes only what the image and the region allow, ends
      exactly when its table strides are sound, and places every segment (a copied text within
      its half of the region); argv, envp, the
      stack and the archive read back what was put in; fork and exec do all or nothing.
    - Blocked work: no futex wake is lost through the calls of other tasks, the loop never
      sleeps past a deadline that was still ahead at its scan, and the service classes take
      turns.
    - 9P: against any server and any sequence of calls the client stays in bounds and every
      loop ends; frames come out of the stream whole and in order, however it is cut; the walk
      message carries exactly the path's components; until a connection is lost every fid has
      exactly one holder and none leaks.
    - System calls (for select: where polling a descriptor only observes; for the read-only
      root: where every entry's parent has an entry): writev delivers a prefix of the concatenated buffers and reports its
      length; mmap and munmap keep exactly the live mappings, disjoint and inside the arena,
      and new pages are zero; no sequence of calls makes a writable node that hides a name of
      the read-only root; every path is answered by the longest mountpoint above it; select
      agrees with a specification over sets of descriptors; a directory read in pieces lists
      every entry once.
    - Concurrency: under every interleaving of the gate's two sides a result is collected at
      most once and by the request it belongs to, and cancellation terminates.

    Several files end with a closed computation that shows where the code falls short of what
    its comments promise (a dropped exit status, a relocation loop that never ends, a fid
    shared across a reconnection, a snapshot the teardown's loop skips); the statement says
    which.

    ** Not modelled

    The relocatable-module half of the loader; sockets and host-file providers; device
    drivers; procfs text and the fixed nodes of devfs, which enter the mounts and listings
    as parameters; configuration checks; diagnostics and latency samples; the RTOS ports and
    their assembly; the table from system-call numbers to handlers, a parameter of the trap
    and the dispatcher, and the identity calls it holds.  These are glue to hosts and
    hardware, or formatting, and the sources that would say how they behave are the
    vendors'.  Caches are not modelled: maintenance is the identity on the flat memory.  A
    guest that runs while the coordinator is inside a port callback is represented only by
    what the callback returns. *)

From stdpp Require Export base numbers list list_numbers.
From Stdlib Require Export ZArith Lia ZifyBool.

Local Open Scope Z_scope.

(** Lemmas that automate the common cases: frames of the descriptor pools, and reading a
    field of an updated record. *)
Create HintDb fd.
Create HintDb task_fields.

(** lia understands division and remainder by constants. *)
Ltac Zify.zify_post_hook ::= Z.div_mod_to_equations.

(** ** Machine integers

    The target is a 32-bit ARM Cortex-M: [size_t], [uintptr_t], [int] and
    [long] are 32 bits wide.  A C integer is a [Z]; unsigned arithmetic that can
    leave the range of its type is written with one of the wraps below. *)

Definition u8 (z : Z) : Z := z mod 2 ^ 8.
Definition u16 (z : Z) : Z := z mod 2 ^ 16.
Definition u32 (z : Z) : Z := z mod 2 ^ 32.
Definition u64 (z : Z) : Z := z mod 2 ^ 64.

(** Two's-complement reading of a 32-bit pattern: the C cast to [int]. *)
Definition s32 (z : Z) : Z := (z + 2 ^ 31) mod 2 ^ 32 - 2 ^ 31.
Definition s64 (z : Z) : Z := (z + 2 ^ 63) mod 2 ^ 64 - 2 ^ 63.

Definition SIZE_MAX : Z := 2 ^ 32 - 1.
Definition UINTPTR_MAX : Z := 2 ^ 32 - 1.
Definition UINT16_MAX : Z := 2 ^ 16 - 1.
Definition UINT32_MAX : Z := 2 ^ 32 - 1.
Definition UINT64_MAX : Z := 2 ^ 64 - 1.
Definition INT64_MAX : Z := 2 ^ 63 - 1.

(** C truth values. *)
Definition b2z (b : bool) : Z := if b then 1 else 0.

Lemma u8_range z : 0 <= u8 z < 256.
Proof. unfold u8. lia. Qed.

Lemma u8_small z : 0 <= z < 256 -> u8 z = z.
Proof. unfold u8. lia. Qed.

Lemma u8_idemp z : u8 (u8 z) = u8 z.
Proof. unfold u8. lia. Qed.

Lemma u16_small z : 0 <= z < 65536 -> u16 z = z.
Proof. unfold u16. lia. Qed.

Lemma u32_range z : 0 <= u32 z < 2 ^ 32.
Proof. unfold u32. lia. Qed.

Lemma u32_small z : 0 <= z < 2 ^ 32 -> u32 z = z.
Proof. unfold u32. lia. Qed.

Lemma u64_small z : 0 <= z < 2 ^ 64 -> u64 z = z.
Proof. unfold u64. lia. Qed.

Lemma u64_range z : 0 <= u64 z < 2 ^ 64.
Proof. unfold u64. lia. Qed.

(** ** Bit masks *)

Lemma land_15 x : Z.land x 15 = x mod 16.
Proof. change 15 with (Z.ones 4). by rewrite Z.land_ones by lia. Qed.

(** Clearing the low [k] bits of a 32-bit value rounds it down to a multiple of
    [2 ^ k]. *)
Lemma land_mask_down x k :
  0 <= x < 2 ^ 32 -> 0 <= k <= 32 ->
  Z.land x (Z.ones 32 - Z.ones k) = x - x mod 2 ^ k.
Proof.
  intros Hx Hk.
  assert (Hm : Z.ones 32 - Z.ones k = Z.shiftl (Z.ones (32 - k)) k).
  { rewrite Z.shiftl_mul_pow2, !Z.ones_equiv by lia.
    assert (Hp : 2 ^ 32 = 2 ^ (32 - k) * 2 ^ k) by (rewrite <- Z.pow_add_r by lia; f_equal; lia).
    lia. }
  assert (Hr : x - x mod 2 ^ k = Z.shiftl (Z.shiftr x k) k).
  { rewrite Z.shiftl_mul_pow2, Z.shiftr_div_pow2 by lia.
    pose proof (Z.div_mod x (2 ^ k) ltac:(lia)). lia. }
  rewrite Hm, Hr. apply Z.bits_inj'. intros i Hi.
  rewrite Z.land_spec.
  destruct (Z.ltb_spec i k).
  - rewrite (Z.shiftl_spec_low _ k i), (Z.shiftl_spec_low _ k i) by lia.
    by rewrite andb_false_r.
  - rewrite !Z.shiftl_spec, Z.shiftr_spec by lia.
    replace (i - k + k) with i by lia.
    destruct (Z.ltb_spec i 32).
    + rewrite Z.ones_spec_low by lia. by rewrite andb_true_r.
    + rewrite (Z.ones_spec_high (32 - k) (i - k)) by lia.
      rewrite andb_false_r. symmetry.
      apply Z.bits_above_log2; [lia|].
      destruct (decide (x = 0)) as [->|]; [simpl; lia|].
      apply Z.log2_lt_pow2; [lia|].
      apply Z.lt_le_trans with (2 ^ 32); [lia|].
      apply Z.pow_le_mono_r; lia.
Qed.

Lemma land_down16 x : 0 <= x < 2 ^ 32 -> Z.land x 0xFFFFFFF0 = x - x mod 16.
Proof. intros. by apply (land_mask_down x 4). Qed.

Lemma land_down256 x : 0 <= x < 2 ^ 32 -> Z.land x 0xFFFFFF00 = x - x mod 256.
Proof. intros. by apply (land_mask_down x 8). Qed.

(** Disjoint bit fields add up. *)
Lemma lor_shift_add a b k : 0 <= k -> 0 <= a < 2 ^ k -> Z.lor a (Z.shiftl b k) = a + b * 2 ^ k.
Proof.
  intros Hk Ha. rewrite <- Z.shiftl_mul_pow2 by lia.
  pose proof (Z.add_lor_land a (Z.shiftl b k)) as Hadd.
  enough (Z.land a (Z.shiftl b k) = 0) by lia.
  apply Z.bits_inj'. intros i Hi. rewrite Z.land_spec, Z.bits_0.
  destruct (Z.ltb_spec i k).
  - rewrite Z.shiftl_spec_low by lia. apply andb_false_r.
  - enough (Z.testbit a i = false) as -> by done.
    rewrite <- (Z.mod_small a (2 ^ k)) by lia. apply Z.mod_pow2_bits_high. lia.
Qed.

(** ** Flat memory

    Without an MMU the coordinator, its pools and every guest share one address
    space.  Memory is a total map from addresses to cells; a cell is read as a
    byte, whatever integer it holds. *)

Definition mem : Type := Z -> Z.

Definition load8 (m : mem) (a : Z) : Z := u8 (m a).

Fixpoint mem_read (m : mem) (a : Z) (n : nat) : list Z :=
  match n with
  | O => []
  | S k => load8 m a :: mem_read m (a + 1) k
  end.

(** [memcpy] into memory: [bs] lands at [a, a + length bs). *)
Definition mem_write (m : mem) (a : Z) (bs : list Z) : mem :=
  fun x => if (a <=? x) && (x <? a + Z.of_nat (length bs))
           then nth (Z.to_nat (x - a)) bs 0
           else m x.

(** [memset(a, c, n)]. *)
Definition mem_set (m : mem) (a c n : Z) : mem :=
  mem_write m a (replicate (Z.to_nat n) c).

(** Little-endian 32-bit accesses. *)
Definition load32 (m : mem) (a : Z) : Z :=
  load8 m a + 2 ^ 8 * load8 m (a + 1) + 2 ^ 16 * load8 m (a + 2) + 2 ^ 24 * load8 m (a + 3).

Definition bytes32 (v : Z) : list Z :=
  [u8 v; u8 (v / 2 ^ 8); u8 (v / 2 ^ 16); u8 (v / 2 ^ 24)].

Definition store32 (m : mem) (a v : Z) : mem := mem_write m a (bytes32 v).

(** The value of a little-endian byte string, and the string of a value. *)
Fixpoint le_val (bs : list Z) : Z :=
  match bs with
  | [] => 0
  | b :: t => u8 b + 2 ^ 8 * le_val t
  end.

Fixpoint le_bytes (n : nat) (v : Z) : list Z :=
  match n with
  | O => []
  | S k => u8 v :: le_bytes k (v / 2 ^ 8)
  end.

Lemma length_le_bytes n v : length (le_bytes n v) = n.
Proof. revert v. induction n; intros; simpl; [done|]. by rewrite IHn. Qed.

Lemma le_val_bytes n v : le_val (le_bytes n v) = v mod 2 ^ (8 * Z.of_nat n).
Proof.
  revert v. induction n as [|n IH]; intros v.
  { simpl. by rewrite Z.mod_1_r. }
  cbn [le_bytes le_val]. rewrite IH, u8_idemp. unfold u8.
  replace (8 * Z.of_nat (S n)) with (8 + 8 * Z.of_nat n) by lia.
  rewrite Z.pow_add_r by lia.
  rewrite Z.rem_mul_r by lia. lia.
Qed.

Lemma le_val_bytes32 v : le_val (bytes32 v) = u32 v.
Proof. unfold bytes32. cbn [le_val]. rewrite !u8_idemp. unfold u8, u32. lia. Qed.

Lemma length_mem_read m a n : length (mem_read m a n) = n.
Proof. revert a. induction n; intros; simpl; [done|]. by rewrite IHn. Qed.

Lemma nth_mem_read m a n i :
  (i < n)%nat -> nth i (mem_read m a n) 0 = load8 m (a + Z.of_nat i).
Proof.
  revert a i. induction n as [|n IH]; intros a i Hi; [lia|].
  destruct i as [|i]; simpl.
  - f_equal; lia.
  - rewrite IH by lia. f_equal; lia.
Qed.

Lemma mem_read_ext m m' a n :
  (forall x, a <= x < a + Z.of_nat n -> load8 m x = load8 m' x) ->
  mem_read m a n = mem_read m' a n.
Proof.
  revert a. induction n as [|n IH]; intros a H; simpl; [done|].
  f_equal; [apply H; lia|]. apply IH. intros; apply H; lia.
Qed.

Lemma mem_read_app m a n k :
  mem_read m a (n + k) = mem_read m a n ++ mem_read m (a + Z.of_nat n) k.
Proof.
  revert a. induction n as [|n IH]; intros a; simpl.
  - f_equal; lia.
  - rewrite IH. do 2 f_equal. f_equal; lia.
Qed.

Lemma mem_write_in m a bs x :
  a <= x < a + Z.of_nat (length bs) ->
  mem_write m a bs x = nth (Z.to_nat (x - a)) bs 0.
Proof.
  intros H. unfold mem_write.
  destruct (Z.leb_spec a x); [|lia].
  destruct (Z.ltb_spec x (a + Z.of_nat (length bs))); [done|lia].
Qed.

Lemma mem_write_out m a bs x :
  x < a \/ a + Z.of_nat (length bs) <= x -> mem_write m a bs x = m x.
Proof.
  intros H. unfold mem_write.
  destruct (Z.leb_spec a x); [|done].
  destruct (Z.ltb_spec x (a + Z.of_nat (length bs))); [lia|done].
Qed.

Lemma load8_write_out m a bs x :
  x < a \/ a + Z.of_nat (length bs) <= x -> load8 (mem_write m a bs) x = load8 m x.
Proof. intros H. unfold load8. by rewrite mem_write_out. Qed.

(** Reading back what was just written, and reading around it. *)
Lemma mem_read_write_same m a bs :
  mem_read (mem_write m a bs) a (length bs) = map u8 bs.
Proof.
  apply nth_ext with (d := 0) (d' := u8 0).
  { by rewrite length_mem_read, length_map. }
  intros i Hi. rewrite length_mem_read in Hi.
  rewrite nth_mem_read by done. unfold load8.
  rewrite mem_write_in by lia. rewrite map_nth. do 2 f_equal. lia.
Qed.

Lemma mem_read_write_disj m a bs b n :
  b + Z.of_nat n <= a \/ a + Z.of_nat (length bs) <= b ->
  mem_read (mem_write m a bs) b n = mem_read m b n.
Proof. intros H. apply mem_read_ext. intros x Hx. apply load8_write_out. lia. Qed.

Lemma map_u8_mem_read m a n : map u8 (mem_read m a n) = mem_read m a n.
Proof. revert a. induction n; intros; simpl; [done|]. unfold load8 at 1. by rewrite u8_idemp, IHn. Qed.

Lemma load32_range m a : 0 <= load32 m a < 2 ^ 32.
Proof.
  unfold load32, load8.
  pose proof (u8_range (m a)). pose proof (u8_range (m (a + 1))).
  pose proof (u8_range (m (a + 2))). pose proof (u8_range (m (a + 3))). lia.
Qed.

Lemma load32_ext m m' a :
  (forall x, a <= x < a + 4 -> load8 m x = load8 m' x) -> load32 m a = load32 m' a.
Proof. intros H. unfold load32. by rewrite !H by lia. Qed.

Lemma load32_write_out m a bs b :
  b + 4 <= a \/ a + Z.of_nat (length bs) <= b ->
  load32 (mem_write m a bs) b = load32 m b.
Proof. intros H. apply load32_ext. intros x Hx. apply load8_write_out. lia. Qed.

Lemma load32_store32_same m a v : load32 (store32 m a v) a = u32 v.
Proof.
  unfold load32, load8, store32.
  rewrite !mem_write_in by (simpl; lia).
  replace (a - a) with 0 by lia. replace (a + 1 - a) with 1 by lia.
  replace (a + 2 - a) with 2 by lia. replace (a + 3 - a) with 3 by lia.
  change (Z.to_nat 0) with 0%nat. change (Z.to_nat 1) with 1%nat.
  change (Z.to_nat 2) with 2%nat. change (Z.to_nat 3) with 3%nat.
  cbn [bytes32 nth]. rewrite !u8_idemp. unfold u8, u32. lia.
Qed.

Lemma load32_store32_disj m a v b :
  b + 4 <= a \/ a + 4 <= b -> load32 (store32 m a v) b = load32 m b.
Proof. intros. apply load32_write_out. simpl. lia. Qed.

Lemma load8_store32_out m a v x :
  x < a \/ a + 4 <= x -> load8 (store32 m a v) x = load8 m x.
Proof. intros. apply load8_write_out. simpl. lia. Qed.

(** ** Static pools

    The program keeps its objects in fixed arrays.  A pool is a list whose length
    never changes; an index is the C [int] or [size_t].  [aget] is the array read
    (the default stands for an access no caller makes), [aset] the array write. *)

Section Pools.
Context {A : Type}.
Implicit Types (l : list A) (i j : Z) (x d : A) (f : A -> bool).

Definition aget d l i : A := nth (Z.to_nat i) l d.
Definition aset l i x : list A := <[Z.to_nat i := x]> l.
Definition alen l : Z := Z.of_nat (length l).

Lemma length_aset l i x : length (aset l i x) = length l.
Proof. apply length_insert. Qed.

Lemma alen_aset l i x : alen (aset l i x) = alen l.
Proof. unfold alen. by rewrite length_aset. Qed.

Lemma aget_lookup d l i x : l !! Z.to_nat i = Some x -> aget d l i = x.
Proof. intros H. unfold aget. by apply nth_lookup_Some with (d := d) in H. Qed.

Lemma lookup_aget d l i : 0 <= i < alen l -> l !! Z.to_nat i = Some (aget d l i).
Proof.
  intros Hi. unfold aget, alen in *. rewrite nth_lookup.
  destruct (lookup_lt_is_Some_2 l (Z.to_nat i)) as [y Hy]; [lia|].
  by rewrite Hy.
Qed.

Lemma aget_aset_eq d l i x : 0 <= i < alen l -> aget d (aset l i x) i = x.
Proof.
  intros Hi. apply aget_lookup. apply list_lookup_insert_eq.
  unfold alen in Hi. lia.
Qed.

Lemma aget_aset_ne d l i j x :
  0 <= i -> 0 <= j -> i <> j -> aget d (aset l i x) j = aget d l j.
Proof.
  intros. unfold aget, aset. rewrite !nth_lookup.
  rewrite list_lookup_insert_ne; [done|lia].
Qed.

Lemma aget_aset d l i j x :
  0 <= i < alen l -> 0 <= j ->
  aget d (aset l i x) j = if decide (i = j) then x else aget d l j.
Proof.
  intros. case_decide; [subst; by apply aget_aset_eq|].
  by apply aget_aset_ne; lia.
Qed.

Lemma aset_aget d l i : 0 <= i < alen l -> aset l i (aget d l i) = l.
Proof. intros. apply list_insert_id. by apply lookup_aget. Qed.

Lemma aset_aset l i x y : aset (aset l i x) i y = aset l i y.
Proof. apply list_insert_insert_eq. Qed.

Lemma Forall_aset (P : A -> Prop) l i x : Forall P l -> P x -> Forall P (aset l i x).
Proof. intros. by apply Forall_insert. Qed.

Lemma Forall_aget (P : A -> Prop) d l i :
  Forall P l -> 0 <= i < alen l -> P (aget d l i).
Proof.
  intros H Hi. eapply (Forall_lookup_1 _ l); [done|]. by apply (lookup_aget d).
Qed.

(** [for (i = 0; i < n; i++) if (f(pool[i])) ...break]: the first matching index. *)
Fixpoint find_from f l i : option Z :=
  match l with
  | [] => None
  | x :: t => if f x then Some i else find_from f t (i + 1)
  end.

Definition find_first f l : option Z := find_from f l 0.

Lemma find_from_some f l i k :
  find_from f l i = Some k ->
  exists p x q, l = p ++ x :: q /\ k = i + alen p /\ f x = true /\
                Forall (fun y => f y = false) p.
Proof.
  revert i. induction l as [|y l IH]; intros i H; simpl in H; [done|].
  destruct (f y) eqn:E.
  - injection H as <-. exists [], y, l. unfold alen. simpl. split_and!; try done. lia.
  - destruct (IH _ H) as (p & x & q & -> & -> & Hf & Hp).
    exists (y :: p), x, q. unfold alen. simpl. split_and!; try done; [lia|].
    by constructor.
Qed.

Lemma find_from_none f l i : find_from f l i = None <-> Forall (fun y => f y = false) l.
Proof.
  revert i. induction l as [|y l IH]; intros i; simpl.
  { split; [constructor|done]. }
  destruct (f y) eqn:E.
  - split; [done|]. intros H. inversion H. congruence.
  - rewrite IH. split; [by constructor|]. by inversion 1.
Qed.

(** The found index is in range, satisfies the test, and is the least such. *)
Lemma find_first_some d f l k :
  find_first f l = Some k ->
  0 <= k < alen l /\ f (aget d l k) = true /\
  forall j, 0 <= j < k -> f (aget d l j) = false.
Proof.
  intros (p & x & q & -> & -> & Hf & Hp)%find_from_some.
  unfold aget, alen. rewrite length_app.
  replace (Z.to_nat (0 + Z.of_nat (length p))) with (length p) by lia.
  cbn [length]. split_and!; try lia.
  - by rewrite nth_middle.
  - intros j Hj. rewrite app_nth1 by lia.
    rewrite Forall_forall in Hp. apply Hp. apply list_elem_of_In, nth_In. lia.
Qed.

Lemma find_first_none d f l j :
  find_first f l = None -> 0 <= j < alen l -> f (aget d l j) = false.
Proof. intros H%find_from_none Hj. by apply (Forall_aget _ d) with (i := j) in H. Qed.

Lemma find_first_none_iff f l : find_first f l = None <-> Forall (fun y => f y = false) l.
Proof. apply find_from_none. Qed.

(** A unique match at [k] with no earlier match is what the scan returns. *)
Lemma find_first_intro d f l k :
  0 <= k < alen l -> f (aget d l k) = true ->
  (forall j, 0 <= j < k -> f (aget d l j) = false) -> find_first f l = Some k.
Proof.
  intros Hk Hf Hlt. destruct (find_first f l) as [j|] eqn:E.
  - apply (find_first_some d) in E as (Hj & Hfj & Hmin).
    destruct (Ztrichotomy j k) as [H|[->|H]]; [|done|].
    + rewrite Hlt in Hfj by lia. done.
    + rewrite Hmin in Hf by lia. done.
  - rewrite (find_first_none d _ _ k E Hk) in Hf. done.
Qed.
End Pools.

(** ** Little-endian strings as lists *)

Lemma map_u8_le_bytes n v : map u8 (le_bytes n v) = le_bytes n v.
Proof. revert v. induction n as [|n IH]; intros v; [done|]. cbn [le_bytes map]. by rewrite u8_idemp, IH. Qed.

Lemma le_val_range bs : 0 <= le_val bs < 2 ^ (8 * alen bs).
Proof.
  induction bs as [|x bs IH]; [by unfold alen; simpl|]. cbn [le_val].
  replace (8 * alen (x :: bs)) with (8 + 8 * alen bs) by (unfold alen; cbn [length]; lia).
  rewrite Z.pow_add_r by (unfold alen; lia). pose proof (u8_range x). change (2 ^ 8) with 256 in *. nia.
Qed.

Lemma filter_ext_in {A} (P Q : A -> Prop) `{!forall x, Decision (P x), !forall x, Decision (Q x)} (l : list A) :
  (forall x, x ∈ l -> P x <-> Q x) -> filter P l = filter Q l.
Proof.
  induction l as [|x l IH]; intros HPQ; [done|]. rewrite !filter_cons.
  assert (Hx : P x <-> Q x) by (apply HPQ, elem_of_cons; by left).
  rewrite IH by (intros y Hy; apply HPQ, elem_of_cons; by right).
  destruct (decide (P x)), (decide (Q x)); tauto.
Qed.

(** Case analysis on the outermost conditional or match of the goal, keeping the
    equation, and clean-up of the resulting equalities. *)
Ltac case_goal :=
  match goal with
  | |- context [if ?b then _ else _] => destruct b eqn:?
  | |- context [match ?x with _ => _ end] => destruct x eqn:?
  end.

Ltac case_hyp H :=
  match type of H with
  | context [if ?b then _ else _] => destruct b eqn:?
  | context [match ?x with _ => _ end] => destruct x eqn:?
  end.

Ltac inv_pairs :=
  repeat match goal with
  | H : (_, _) = (_, _) |- _ => injection H as ?; subst
  | H : Some _ = Some _ |- _ => injection H as ?; subst
  | H : None = Some _ |- _ => discriminate H
  | H : Some _ = None |- _ => discriminate H
  end.
