(* ===== verification/Config.v ===== *)
(** * Build constants

    The sizing knobs (include/lxp/lxp_config.h, at their defaults), the Linux ABI
    numbers (src/lxp_linux_uapi.h) and the host error codes
    (include/lxp/lxp_types.h) the modelled code uses.  Proofs never unfold a pool
    size further than its positivity. *)

From S2P Require Import Prelude.
Local Open Scope Z_scope.

(** ** include/lxp/lxp_config.h *)
Definition LXP_NREG : Z := 8.
Definition LXP_NSLOT : Z := LXP_NREG + 4.
Definition LXP_NPIPE : Z := 4.
Definition LXP_PIPE_BUF : Z := 4096.
Definition LXP_PTY_BUF : Z := 1024.
Definition LXP_MAX_FDS : Z := 32.
Definition LXP_SIGNAL_NEST_MAX : Z := 2.
Definition LXP_PATH_MAX : Z := 256.
Definition LXP_MAX_CHILD : Z := 8.
Definition LXP_WFS_POOL : Z := 64 * 1024.
Definition LXP_ARENA_MAX_MAPPINGS : Z := 128.
Definition LXP_RESOURCE_POOL_COUNT : Z := LXP_NSLOT.
Definition LXP_CONSOLE_TYPEAHEAD : Z := 64.
Definition LXP_MAX_OFD : Z := LXP_NSLOT * LXP_MAX_FDS.

(** ** Linux errno values *)
Definition LXP_EPERM : Z := 1.
Definition LXP_ENOENT : Z := 2.
Definition LXP_ESRCH : Z := 3.
Definition LXP_EINTR : Z := 4.
Definition LXP_EIO : Z := 5.
Definition LXP_E2BIG : Z := 7.
Definition LXP_ENOEXEC : Z := 8.
Definition LXP_EBADF : Z := 9.
Definition LXP_ECHILD : Z := 10.
Definition LXP_EAGAIN : Z := 11.
Definition LXP_ENOMEM : Z := 12.
Definition LXP_EACCES : Z := 13.
Definition LXP_EFAULT : Z := 14.
Definition LXP_EBUSY : Z := 16.
Definition LXP_EEXIST : Z := 17.
Definition LXP_EXDEV : Z := 18.
Definition LXP_ENODEV : Z := 19.
Definition LXP_ENOTDIR : Z := 20.
Definition LXP_EISDIR : Z := 21.
Definition LXP_EINVAL : Z := 22.
Definition LXP_EMFILE : Z := 24.
Definition LXP_ENOTTY : Z := 25.
Definition LXP_EFBIG : Z := 27.
Definition LXP_ENOSPC : Z := 28.
Definition LXP_ESPIPE : Z := 29.
Definition LXP_EROFS : Z := 30.
Definition LXP_EPIPE : Z := 32.
Definition LXP_ERANGE : Z := 34.
Definition LXP_ENAMETOOLONG : Z := 36.
Definition LXP_ENOSYS : Z := 38.
Definition LXP_ENOTEMPTY : Z := 39.
Definition LXP_ELOOP : Z := 40.
Definition LXP_EOVERFLOW : Z := 75.
Definition LXP_EOPNOTSUPP : Z := 95.
Definition LXP_EADDRINUSE : Z := 98.
Definition LXP_EADDRNOTAVAIL : Z := 99.
Definition LXP_ENETUNREACH : Z := 101.
Definition LXP_ECONNRESET : Z := 104.
Definition LXP_ETIMEDOUT : Z := 110.
Definition LXP_ECONNREFUSED : Z := 111.

(** Linux's internal restart code (src/run/lxp_coordinator.h). *)
Definition LXP_ERESTARTSYS : Z := 512.

(** ** Open flags, modes and poll bits *)
Definition LXP_O_ACCMODE : Z := 0x3.
Definition LXP_O_RDONLY : Z := 0x0.
Definition LXP_O_WRONLY : Z := 0x1.
Definition LXP_O_RDWR : Z := 0x2.
Definition LXP_O_NONBLOCK : Z := 0x800.
Definition LXP_O_CLOEXEC : Z := 0x80000.
Definition LXP_S_IFMT : Z := 0xf000.
Definition LXP_S_IFREG : Z := 0x8000.
Definition LXP_S_IFDIR : Z := 0x4000.
Definition LXP_S_IFBLK : Z := 0x6000.
Definition LXP_S_IFCHR : Z := 0x2000.
Definition LXP_S_IFLNK : Z := 0xa000.
Definition LXP_S_IFSOCK : Z := 0xc000.
Definition LXP_S_IFIFO : Z := 0x1000.
Definition LXP_POLLIN : Z := 1.
Definition LXP_POLLOUT : Z := 4.
Definition LXP_EFD_SEMAPHORE : Z := 1.
Definition LXP_AT_FDCWD : Z := -100.
Definition LXP_SEEK_SET : Z := 0.
Definition LXP_SEEK_CUR : Z := 1.
Definition LXP_SEEK_END : Z := 2.

(** ** clone(2) flags *)
Definition LXP_CLONE_VM : Z := 0x100.
Definition LXP_CLONE_FS : Z := 0x200.
Definition LXP_CLONE_FILES : Z := 0x400.
Definition LXP_CLONE_SIGHAND : Z := 0x800.
Definition LXP_CLONE_THREAD : Z := 0x10000.
Definition LXP_WNOHANG : Z := 1.
Definition LXP_WUNTRACED : Z := 2.

(** ** Signals *)
Definition LXP_NSIG : Z := 65.
Definition LXP_SIG_DFL : Z := 0.
Definition LXP_SIG_IGN : Z := 1.
Definition LXP_SIGINT : Z := 2.
Definition LXP_SIGKILL : Z := 9.
Definition LXP_SIGUSR1 : Z := 10.
Definition LXP_SIGSEGV : Z := 11.
Definition LXP_SIGUSR2 : Z := 12.
Definition LXP_SIGPIPE : Z := 13.
Definition LXP_SIGALRM : Z := 14.
Definition LXP_SIGTERM : Z := 15.
Definition LXP_SIGCHLD : Z := 17.
Definition LXP_SIGCONT : Z := 18.
Definition LXP_SIGSTOP : Z := 19.
Definition LXP_SIGTSTP : Z := 20.
Definition LXP_SIGTTIN : Z := 21.
Definition LXP_SIGTTOU : Z := 22.
Definition LXP_SIGURG : Z := 23.
Definition LXP_SIGWINCH : Z := 28.

(** ** Host error codes (lxp_err_t) *)
Definition LXP_OK : Z := 0.
Definition LXP_ERR_NOT_REGISTERED : Z := -1.
Definition LXP_ERR_INVALID_PARAM : Z := -2.
Definition LXP_ERR_NO_MEMORY : Z := -3.
Definition LXP_ERR_TIMEOUT : Z := -4.
Definition LXP_ERR_NOT_SUPPORTED : Z := -5.
Definition LXP_ERR_QUEUE_FULL : Z := -6.
Definition LXP_ERR_NET_REFUSED : Z := -8.
Definition LXP_ERR_NET_UNREACHABLE : Z := -9.
Definition LXP_ERR_NET_ADDR_IN_USE : Z := -10.
Definition LXP_ERR_NET_RESET : Z := -11.
Definition LXP_ERR_NET_CLOSED : Z := -13.
Definition LXP_ERR_WOULD_BLOCK : Z := -18.
Definition LXP_ERR_EOF : Z := -19.
Definition LXP_ERR_NOT_FOUND : Z := -21.
Definition LXP_ERR_NET_ADDR_NOT_AVAILABLE : Z := -22.
Definition LXP_ERR_ALREADY_EXISTS : Z := -23.
Definition LXP_ERR_NO_SPACE : Z := -24.
Definition LXP_ERR_NOT_DIR : Z := -25.
Definition LXP_ERR_IS_DIR : Z := -26.
Definition LXP_ERR_NOT_EMPTY : Z := -27.
Definition LXP_ERR_READ_ONLY : Z := -28.
Definition LXP_ERR_IO : Z := -29.
Definition LXP_ERR_BUSY : Z := -30.
Definition LXP_ERR_NAME_TOO_LONG : Z := -31.
Definition LXP_ERR_BAD_HANDLE : Z := -32.
Definition LXP_ERR_PERMISSION : Z := -33.
Definition LXP_ERR_CROSS_DEVICE : Z := -34.

(** [flags & mask] as a C condition. *)
Definition has (flags mask : Z) : bool := negb (Z.land flags mask =? 0).
