(* ===== verification/Ring.v ===== *)
(** * Byte ring

    src/fs/lxp_ring.h: the wrap-correct ring shared by pipes and ptys, each access
    at most two copies.  The ring is shown to be a bounded FIFO queue: [ring_view]
    is the queue of buffered bytes, reading takes a prefix of it, writing appends
    to it. *)

From S2P Require Import Prelude Config.
Local Open Scope Z_scope.

(** [&buf[a]] for [n] bytes, and [memcpy(&buf[a], bs, length bs)]. *)
Definition slice (l : list Z) (a n : Z) : list Z := take (Z.to_nat n) (drop (Z.to_nat a) l).
Definition splice (l : list Z) (a : Z) (bs : list Z) : list Z :=
  take (Z.to_nat a) l ++ bs ++ drop (Z.to_nat a + length bs) l.

(** Result: the bytes copied to [dst], then [*rpos], [*count] and the return value. *)
Definition lxp_ring_read (buf : list Z) (cap rpos count len : Z)
  : list Z * Z * Z * Z :=
  let len := if len >? count then count else len in
  let n1 := cap - rpos in
  let n1 := if n1 >? len then len else n1 in
  let out := slice buf rpos n1 ++ slice buf 0 (len - n1) in
  (out, (rpos + len) mod cap, count - len, len).

(** Result: the buffer, [*wpos], [*count] and the return value. *)
Definition lxp_ring_write (buf : list Z) (cap wpos count : Z) (src : list Z) (len : Z)
  : list Z * Z * Z * Z :=
  let space := cap - count in
  let len := if len >? space then space else len in
  let n1 := cap - wpos in
  let n1 := if n1 >? len then len else n1 in
  let buf := splice buf wpos (slice src 0 n1) in
  let buf := splice buf 0 (slice src n1 (len - n1)) in
  (buf, (wpos + len) mod cap, count + len, len).

(** ** The queue a ring holds *)

Definition ring_view (buf : list Z) (cap rpos count : Z) : list Z :=
  map (fun i => aget 0 buf ((rpos + Z.of_nat i) mod cap)) (seq 0 (Z.to_nat count)).

(** Cursors in range; the write cursor is [count] bytes after the read cursor. *)
Definition ring_wf (buf : list Z) (cap rpos wpos count : Z) : Prop :=
  0 < cap /\ alen buf = cap /\ 0 <= rpos < cap /\ 0 <= count <= cap /\
  wpos = (rpos + count) mod cap.

(** ** Lemmas *)

Lemma mod_wrap a cap : 0 < cap -> 0 <= a < 2 * cap ->
  a mod cap = if a <? cap then a else a - cap.
Proof.
  intros Hc Ha. destruct (Z.ltb_spec a cap).
  - by rewrite Z.mod_small by lia.
  - symmetry. apply Z.mod_unique_pos with 1; lia.
Qed.

Lemma length_slice l a n :
  0 <= a -> 0 <= n -> a + n <= alen l -> length (slice l a n) = Z.to_nat n.
Proof. intros. unfold slice, alen in *. rewrite length_take, length_drop. lia. Qed.

Lemma aget_slice l a n i :
  0 <= a -> 0 <= i < n -> aget 0 (slice l a n) i = aget 0 l (a + i).
Proof.
  intros. unfold aget, slice. rewrite !nth_lookup.
  rewrite lookup_take_lt by lia. rewrite lookup_drop. do 3 f_equal. lia.
Qed.

Lemma length_splice l a bs :
  0 <= a -> a + Z.of_nat (length bs) <= alen l -> length (splice l a bs) = length l.
Proof.
  intros. unfold splice, alen in *. rewrite !length_app, length_take, length_drop. lia.
Qed.

Lemma aget_splice l a bs i :
  0 <= a -> a + Z.of_nat (length bs) <= alen l -> 0 <= i ->
  aget 0 (splice l a bs) i =
  if (a <=? i) && (i <? a + Z.of_nat (length bs)) then aget 0 bs (i - a) else aget 0 l i.
Proof.
  intros Ha Hl Hi. unfold aget, splice, alen in *.
  destruct (Z.leb_spec a i); simpl.
  - rewrite app_nth2; rewrite length_take; [|lia].
    destruct (Z.ltb_spec i (a + Z.of_nat (length bs))).
    + rewrite app_nth1 by lia. f_equal. lia.
    + rewrite app_nth2 by lia. rewrite !nth_lookup, lookup_drop.
      do 2 f_equal. lia.
  - rewrite app_nth1 by (rewrite length_take; lia).
    rewrite !nth_lookup, lookup_take_lt by lia. done.
Qed.

Lemma length_ring_view buf cap rpos count :
  length (ring_view buf cap rpos count) = Z.to_nat count.
Proof. unfold ring_view. by rewrite length_map, length_seq. Qed.

Lemma aget_ring_view buf cap rpos count i :
  0 <= i < count -> aget 0 (ring_view buf cap rpos count) i = aget 0 buf ((rpos + i) mod cap).
Proof.
  intros. unfold aget at 1, ring_view. rewrite nth_lookup, list_lookup_fmap.
  rewrite lookup_seq_lt by lia. simpl. do 2 f_equal. f_equal. lia.
Qed.

(** Lists of bytes are equal when they agree at every index. *)
Lemma aget_ext (l l' : list Z) :
  length l = length l' ->
  (forall i, 0 <= i < alen l -> aget 0 l i = aget 0 l' i) -> l = l'.
Proof.
  intros Hl H. apply nth_ext with (d := 0) (d' := 0); [done|].
  intros n Hn. specialize (H (Z.of_nat n)). unfold aget, alen in H.
  rewrite Nat2Z.id in H. apply H. lia.
Qed.

Lemma aget_app (l l' : list Z) i :
  0 <= i -> aget 0 (l ++ l') i = if i <? alen l then aget 0 l i else aget 0 l' (i - alen l).
Proof.
  intros. unfold aget, alen. destruct (Z.ltb_spec i (Z.of_nat (length l))).
  - by rewrite app_nth1 by lia.
  - rewrite app_nth2 by lia. f_equal. lia.
Qed.

Lemma aget_take (l : list Z) n i : 0 <= i < n -> aget 0 (take (Z.to_nat n) l) i = aget 0 l i.
Proof. intros. unfold aget. rewrite !nth_lookup, lookup_take_lt by lia. done. Qed.

Lemma aget_drop (l : list Z) n i :
  0 <= i -> 0 <= n -> aget 0 (drop (Z.to_nat n) l) i = aget 0 l (n + i).
Proof. intros. unfold aget. rewrite !nth_lookup, lookup_drop. do 2 f_equal. lia. Qed.

Section RingFacts.
Context (buf : list Z) (cap rpos wpos count : Z).
Hypothesis wf : ring_wf buf cap rpos wpos count.

Lemma ring_read_spec len :
  0 <= len ->
  let n := Z.min len count in
  let '(out, rpos', count', r) := lxp_ring_read buf cap rpos count len in
  r = n /\ out = take (Z.to_nat n) (ring_view buf cap rpos count) /\
  ring_view buf cap rpos' count' = drop (Z.to_nat n) (ring_view buf cap rpos count) /\
  ring_wf buf cap rpos' wpos count'.
Proof.
  intros Hlen. destruct wf as (Hc & Hb & Hr & Hn & Hw).
  unfold lxp_ring_read. set (k := if len >? count then count else len).
  assert (Hk : k = Z.min len count) by (unfold k; destruct (Z.gtb_spec len count); lia).
  set (n1 := if cap - rpos >? k then k else cap - rpos).
  assert (Hn1 : n1 = Z.min k (cap - rpos)) by (unfold n1; destruct (Z.gtb_spec (cap - rpos) k); lia).
  rewrite <- Hk. clearbody k n1. unfold ring_wf.
  split_and!; try done; try lia.
  - apply aget_ext.
    { rewrite length_app, !length_slice, length_take, length_ring_view by lia. lia. }
    intros i Hi. unfold alen in Hi. rewrite length_app, !length_slice in Hi by lia.
    rewrite aget_take, aget_ring_view, aget_app, mod_wrap by lia.
    unfold alen. rewrite length_slice by lia.
    destruct (Z.ltb_spec i (Z.of_nat (Z.to_nat n1))); rewrite aget_slice by lia;
      destruct (Z.ltb_spec (rpos + i) cap); f_equal; lia.
  - apply aget_ext.
    { rewrite length_drop, !length_ring_view. lia. }
    intros i Hi. unfold alen in Hi. rewrite length_ring_view in Hi.
    rewrite aget_drop, !aget_ring_view by lia. f_equal.
    rewrite Zplus_mod_idemp_l. f_equal. lia.
  - rewrite Zplus_mod_idemp_l, Hw. f_equal. lia.
Qed.

Lemma ring_write_spec src len :
  0 <= len <= alen src ->
  let n := Z.min len (cap - count) in
  let '(buf', wpos', count', r) := lxp_ring_write buf cap wpos count src len in
  r = n /\
  ring_view buf' cap rpos count' = ring_view buf cap rpos count ++ take (Z.to_nat n) src /\
  ring_wf buf' cap rpos wpos' count'.
Proof.
  intros Hlen. destruct wf as (Hc & Hb & Hr & Hn & Hw).
  unfold lxp_ring_write. set (k := if len >? cap - count then cap - count else len).
  assert (Hk : k = Z.min len (cap - count))
    by (unfold k; destruct (Z.gtb_spec len (cap - count)); lia).
  set (n1 := if cap - wpos >? k then k else cap - wpos).
  assert (Hw' : 0 <= wpos < cap) by (subst wpos; apply Z.mod_pos_bound; lia).
  assert (Hn1 : n1 = Z.min k (cap - wpos)) by (unfold n1; destruct (Z.gtb_spec (cap - wpos) k); lia).
  rewrite <- Hk. clearbody k n1.
  set (b1 := splice buf wpos (slice src 0 n1)).
  assert (Hb1 : length b1 = length buf).
  { apply length_splice; [lia|]. rewrite length_slice by lia. lia. }
  assert (Hb2 : length (splice b1 0 (slice src n1 (k - n1))) = length buf).
  { rewrite length_splice; [done|lia|]. unfold alen in *. rewrite length_slice; unfold alen; lia. }
  unfold ring_wf. split_and!; try done; try lia.
  - apply aget_ext.
    { rewrite length_app, !length_ring_view, length_take. unfold alen in Hlen. lia. }
    intros i Hi. unfold alen in Hi. rewrite length_ring_view in Hi.
    rewrite aget_ring_view, aget_app by lia.
    unfold alen. rewrite length_ring_view. fold (alen src) in *.
    rewrite aget_splice; [|lia|unfold alen in *; rewrite length_slice; unfold alen; lia
                          |apply Z.mod_pos_bound; lia].
    rewrite length_slice by lia.
    unfold b1. rewrite aget_splice;
      [|lia|rewrite length_slice by lia; lia|apply Z.mod_pos_bound; lia].
    rewrite length_slice by lia.
    assert (Hw2 : wpos = rpos + count /\ rpos + count < cap \/
                  wpos = rpos + count - cap /\ cap <= rpos + count).
    { rewrite Hw, mod_wrap by lia. destruct (Z.ltb_spec (rpos + count) cap); lia. }
    clear Hw.
    rewrite (mod_wrap (rpos + i)) by lia.
    destruct (Z.ltb_spec i (Z.of_nat (Z.to_nat count))).
    + rewrite aget_ring_view, mod_wrap by lia.
      destruct (Z.ltb_spec (rpos + i) cap); destruct Hw2;
        repeat case_goal; try done; lia.
    + rewrite aget_take by lia.
      destruct (Z.ltb_spec (rpos + i) cap); destruct Hw2;
        repeat case_goal; try lia; rewrite aget_slice by lia; f_equal; lia.
  - unfold alen in *. lia.
  - rewrite Hw, Zplus_mod_idemp_l. f_equal. lia.
Qed.
End RingFacts.
