(* ===== verification/Arena.v ===== *)
(** * Arena allocator

    src/lxp_arena.c: the first-fit physical-block allocator behind brk, mmap and the
    tmpfs pool.  Block headers live in the managed buffer, which a guest can write,
    so the headers are bytes of the flat memory; the control block
    ([lxp_arena]) is privileged.  Every operation first walks and validates the whole
    layout.

    On the 32-bit target [struct lxp_arena_blk] is
    [{ size_t payload; uint32_t is_free; uint32_t magic; }], 12 bytes, rounded to a
    16-byte header.  A null block or pointer is address 0. *)

From S2P Require Import Prelude Config.
Local Open Scope Z_scope.

Definition LXP_ARENA_ALIGN : Z := 16.
Definition ARENA_MAGIC : Z := 0x4f415242.

(** [~(size_t)(LXP_ARENA_ALIGN - 1)]. *)
Definition ALIGN_MASK : Z := 0xFFFFFFF0.

(** [sizeof(struct lxp_arena_blk)] rounded up. *)
Definition ARENA_HDR : Z := Z.land (12 + (LXP_ARENA_ALIGN - 1)) ALIGN_MASK.

Record lxp_arena := mk_arena {
  ar_base : Z;
  ar_size : Z;
  ar_used : Z;
  ar_high_water : Z;
  ar_first : Z;
  ar_mappings : list (Z * Z)   (* addr, len *)
}.

Definition arena_zero : lxp_arena :=
  mk_arena 0 0 0 0 0 (replicate (Z.to_nat LXP_ARENA_MAX_MAPPINGS) (0, 0)).

(** Header fields of the block at address [b]. *)
Definition b_payload (m : mem) (b : Z) : Z := load32 m b.
Definition b_is_free (m : mem) (b : Z) : Z := load32 m (b + 4).
Definition b_magic (m : mem) (b : Z) : Z := load32 m (b + 8).
Definition set_payload (m : mem) (b v : Z) : mem := store32 m b v.
Definition set_is_free (m : mem) (b v : Z) : mem := store32 m (b + 4) v.
Definition set_magic (m : mem) (b v : Z) : mem := store32 m (b + 8) v.

Definition arena_align (n : Z) : Z :=
  if n >? SIZE_MAX - (LXP_ARENA_ALIGN - 1) then 0
  else Z.land (n + (LXP_ARENA_ALIGN - 1)) ALIGN_MASK.

Definition blk_payload (b : Z) : Z := b + ARENA_HDR.

Definition arena_clear_mappings (A : lxp_arena) : lxp_arena :=
  mk_arena (ar_base A) (ar_size A) (ar_used A) (ar_high_water A) (ar_first A)
           (map (fun _ => (0, 0)) (ar_mappings A)).

(** Write a free header of [payload] bytes at [b] (payload, is_free, magic). *)
Definition put_free_header (m : mem) (b payload : Z) : mem :=
  set_magic (set_is_free (set_payload m b payload) b 1) b ARENA_MAGIC.

Definition arena_lay_first (m : mem) (A : lxp_arena) : mem * lxp_arena :=
  (put_free_header m (ar_base A) (ar_size A - ARENA_HDR),
   mk_arena (ar_base A) (ar_size A) 0 (ar_high_water A) (ar_base A) (ar_mappings A)).

(** ** Layout validation *)

(** The [while (cur < end)] walk of [arena_layout_valid]: the used footprint it
    totals, or [None] where the C code returns false.  The guards bound [footprint]
    by [remain], so no sum leaves 32 bits. *)
Fixpoint layout_walk (fuel : nat) (m : mem) (asize cur end_ used : Z) : option Z :=
  if cur <? end_ then
    match fuel with
    | O => None
    | S fuel =>
        let remain := end_ - cur in
        if remain <? ARENA_HDR then None
        else if negb (b_magic m cur =? ARENA_MAGIC) || (b_is_free m cur >? 1)
                || (b_payload m cur <? LXP_ARENA_ALIGN)
                || negb (Z.land (b_payload m cur) (LXP_ARENA_ALIGN - 1) =? 0)
                || (b_payload m cur >? remain - ARENA_HDR)
        then None
        else
          let footprint := ARENA_HDR + b_payload m cur in
          if b_is_free m cur =? 0 then
            if used >? asize - footprint then None
            else layout_walk fuel m asize (cur + footprint) end_ (used + footprint)
          else layout_walk fuel m asize (cur + footprint) end_ used
    end
  else if cur =? end_ then Some used else None.

(** Each block takes at least a header and one alignment unit, so this many steps
    cover every tiling of the region. *)
Definition arena_fuel (A : lxp_arena) : nat :=
  S (Z.to_nat (ar_size A / (ARENA_HDR + LXP_ARENA_ALIGN))).

Definition arena_layout_valid (m : mem) (A : lxp_arena) : bool :=
  if (ar_base A =? 0) || negb (ar_first A =? ar_base A)
     || (ar_size A <? ARENA_HDR + LXP_ARENA_ALIGN)
     || negb (Z.land (ar_size A) (LXP_ARENA_ALIGN - 1) =? 0) then false
  else
    let base := ar_base A in
    if negb (Z.land base (LXP_ARENA_ALIGN - 1) =? 0) || (base >? UINTPTR_MAX - ar_size A)
    then false
    else match layout_walk (arena_fuel A) m (ar_size A) base (base + ar_size A) 0 with
         | None => false
         | Some used => used =? ar_used A
         end.

(** ** Block search (on a validated layout) *)

(** [arena_find_payload]: the block whose payload starts at [target], with the block
    before it. *)
Fixpoint find_walk (fuel : nat) (m : mem) (target cur end_ : Z) (prev : option Z)
  : option (Z * option Z) :=
  if cur <? end_ then
    match fuel with
    | O => None
    | S fuel =>
        if blk_payload cur =? target then Some (cur, prev)
        else find_walk fuel m target (cur + ARENA_HDR + b_payload m cur) end_ (Some cur)
    end
  else None.

Definition arena_find_payload (m : mem) (A : lxp_arena) (ptr : Z) : option (Z * option Z) :=
  find_walk (arena_fuel A) m ptr (ar_base A) (ar_base A + ar_size A) None.

(** The first-fit search of [lxp_arena_alloc]. *)
Fixpoint fit_walk (fuel : nat) (m : mem) (need cur end_ : Z) : option Z :=
  if cur <? end_ then
    match fuel with
    | O => None
    | S fuel =>
        if negb (b_is_free m cur =? 0) && (b_payload m cur >=? need) then Some cur
        else fit_walk fuel m need (cur + ARENA_HDR + b_payload m cur) end_
    end
  else None.

(** ** Operations *)

Definition lxp_arena_init (m : mem) (A : lxp_arena) (buf size : Z) : Z * mem * lxp_arena :=
  if buf =? 0 then (LXP_ERR_INVALID_PARAM, m, A)
  else if buf >? UINTPTR_MAX - (LXP_ARENA_ALIGN - 1) then (LXP_ERR_INVALID_PARAM, m, A)
  else
    let start := Z.land (buf + (LXP_ARENA_ALIGN - 1)) ALIGN_MASK in
    let adjust := start - buf in
    if size <=? adjust then (LXP_ERR_INVALID_PARAM, m, A)
    else
      let usable := Z.land (size - adjust) ALIGN_MASK in
      if usable <? ARENA_HDR + LXP_ARENA_ALIGN then (LXP_ERR_NO_MEMORY, m, A)
      else
        let A := mk_arena (buf + adjust) usable (ar_used A) 0 (ar_first A) (ar_mappings A) in
        let A := arena_clear_mappings A in
        let '(m, A) := arena_lay_first m A in
        (LXP_OK, m, A).

(** Shrink block [b] to [need] and lay a free block over its tail, when the tail can
    host a header and a minimum slot. [total] is the payload being divided. *)
Definition split_block (m : mem) (b total need : Z) : mem :=
  if total - need >=? ARENA_HDR + LXP_ARENA_ALIGN
  then set_payload (put_free_header m (b + ARENA_HDR + need) (total - need - ARENA_HDR)) b need
  else m.

Definition arena_set_used (A : lxp_arena) (used : Z) : lxp_arena :=
  mk_arena (ar_base A) (ar_size A) used
           (if used >? ar_high_water A then used else ar_high_water A)
           (ar_first A) (ar_mappings A).

Definition arena_set_mappings (A : lxp_arena) (l : list (Z * Z)) : lxp_arena :=
  mk_arena (ar_base A) (ar_size A) (ar_used A) (ar_high_water A) (ar_first A) l.

Definition lxp_arena_alloc (m : mem) (A : lxp_arena) (size : Z) : Z * mem * lxp_arena :=
  if (ar_first A =? 0) || negb (arena_layout_valid m A) then (0, m, A)
  else
    let need := arena_align (if size =? 0 then 1 else size) in
    if need =? 0 then (0, m, A)
    else match fit_walk (arena_fuel A) m need (ar_base A) (ar_base A + ar_size A) with
         | None => (0, m, A)
         | Some b =>
             let m := split_block m b (b_payload m b) need in
             let footprint := ARENA_HDR + b_payload m b in
             if ar_used A >? ar_size A - footprint then (0, m, A)
             else (blk_payload b, set_is_free m b 0, arena_set_used A (ar_used A + footprint))
         end.

Definition lxp_arena_calloc (m : mem) (A : lxp_arena) (size : Z) : Z * mem * lxp_arena :=
  let need := arena_align (if size =? 0 then 1 else size) in
  if need =? 0 then (0, m, A)
  else
    let '(p, m, A) := lxp_arena_alloc m A size in
    if p =? 0 then (p, m, A) else (p, mem_set m p 0 need, A).

(** Mark block [b] free and coalesce forward: absorb a free successor. *)
Definition free_forward (m : mem) (b end_ : Z) : mem :=
  let m := set_is_free m b 1 in
  let next := b + ARENA_HDR + b_payload m b in
  if (next <? end_) && negb (b_is_free m next =? 0)
  then set_magic (set_payload m b (b_payload m b + (ARENA_HDR + b_payload m next))) next 0
  else m.

(** Backward coalescing: a free predecessor absorbs the free block at [b]. *)
Definition free_backward (m : mem) (prev : option Z) (b : Z) : mem :=
  match prev with
  | Some p =>
      if negb (b_is_free m p =? 0)
      then set_magic (set_payload m p (b_payload m p + (ARENA_HDR + b_payload m b))) b 0
      else m
  | None => m
  end.

(** False changes nothing: an interior pointer, a foreign pointer or a double free. *)
Definition arena_free_block (m : mem) (A : lxp_arena) (ptr : Z) : bool * mem * lxp_arena :=
  if (ptr =? 0) || negb (arena_layout_valid m A) then (false, m, A)
  else match arena_find_payload m A ptr with
       | None => (false, m, A)
       | Some (b, prev) =>
           if negb (b_is_free m b =? 0) then (false, m, A)
           else
             let footprint := ARENA_HDR + b_payload m b in
             if ar_used A <? footprint then (false, m, A)
             else
               let A' := mk_arena (ar_base A) (ar_size A) (ar_used A - footprint)
                                  (ar_high_water A) (ar_first A) (ar_mappings A) in
               let m := free_forward m b (ar_base A + ar_size A) in
               (true, free_backward m prev b, A')
       end.

(** Clear every mapping record of [addr]. *)
Definition mappings_forget (addr : Z) (l : list (Z * Z)) : list (Z * Z) :=
  map (fun r => if r.1 =? addr then (0, 0) else r) l.

Definition lxp_arena_free (m : mem) (A : lxp_arena) (ptr : Z) : mem * lxp_arena :=
  let '(ok, m, A) := arena_free_block m A ptr in
  if negb ok then (m, A)
  else (m, arena_set_mappings A (mappings_forget ptr (ar_mappings A))).

Definition lxp_arena_realloc (m : mem) (A : lxp_arena) (ptr size : Z) : Z * mem * lxp_arena :=
  if ptr =? 0 then lxp_arena_alloc m A size
  else if negb (arena_layout_valid m A) then (0, m, A)
  else
    let need := arena_align (if size =? 0 then 1 else size) in
    if need =? 0 then (0, m, A)
    else match arena_find_payload m A ptr with
         | None => (0, m, A)
         | Some (b, _) =>
             if negb (b_is_free m b =? 0) then (0, m, A)
             else
               let old := b_payload m b in
               if need <=? old then (ptr, m, A)
               else
                 let end_ := ar_base A + ar_size A in
                 let next := b + ARENA_HDR + old in
                 let combined := old + ARENA_HDR + b_payload m next in
                 if (next <? end_) && negb (b_is_free m next =? 0) && (combined >=? need) then
                   (* grow into the following free block *)
                   let m := set_payload (set_magic m next 0) b combined in
                   let m := split_block m b combined need in
                   let A := arena_set_used A (ar_used A + (b_payload m b - old)) in
                   (ptr, m,
                    arena_set_mappings A
                      (map (fun r => if r.1 =? ptr then (r.1, size) else r) (ar_mappings A)))
                 else
                   (* allocate, copy, free *)
                   let '(r, m1, A1) := lxp_arena_alloc m A size in
                   if r =? 0 then (0, m1, A1)
                   else
                     let m2 := mem_write m1 r
                                 (mem_read m1 ptr (Z.to_nat (if old <? size then old else size))) in
                     let tracked := find_first (fun q => q.1 =? ptr) (ar_mappings A1) in
                     let '(ok, m3, A3) := arena_free_block m2 A1 ptr in
                     if negb ok then
                       let '(m4, A4) := lxp_arena_free m3 A3 r in (0, m4, A4)
                     else
                       let A4 := match tracked with
                                 | Some i => arena_set_mappings A3 (aset (ar_mappings A3) i (r, size))
                                 | None => A3
                                 end in
                       (r, m3, A4)
         end.

Definition lxp_arena_alloc_tracked (m : mem) (A : lxp_arena) (size : Z) : Z * mem * lxp_arena :=
  match find_first (fun q => q.1 =? 0) (ar_mappings A) with
  | None => (0, m, A)
  | Some slot =>
      let '(p, m, A) := lxp_arena_alloc m A size in
      if p =? 0 then (0, m, A)
      else (p, m, arena_set_mappings A (aset (ar_mappings A) slot (p, size)))
  end.

Definition lxp_arena_free_tracked (m : mem) (A : lxp_arena) (ptr size : Z)
  : bool * mem * lxp_arena :=
  if ptr =? 0 then (false, m, A)
  else match find_first (fun q => (q.1 =? ptr) && (q.2 =? size)) (ar_mappings A) with
       | None => (false, m, A)
       | Some i =>
           let '(ok, m, A) := arena_free_block m A ptr in
           if negb ok then (false, m, A)
           else (true, m, arena_set_mappings A (aset (ar_mappings A) i (0, 0)))
       end.

Definition lxp_arena_reset (m : mem) (A : lxp_arena) : mem * lxp_arena :=
  if ar_base A =? 0 then (m, A) else arena_lay_first m (arena_clear_mappings A).

Definition lxp_arena_owns (A : lxp_arena) (ptr : Z) : bool :=
  if ptr =? 0 then false
  else if ar_base A >? UINTPTR_MAX - ar_size A then false
  else (ptr >=? ar_base A) && (ptr <? ar_base A + ar_size A).
