(* ===== verification/ArenaSpec.v ===== *)
(** * The arena as an allocator over a list of blocks

    The abstract arena is the list of its blocks in address order, each a payload
    size and a free bit.  [arena_inv m A bs] says that the headers found in memory
    [m] tile the region of control block [A] exactly as [bs].  The layout check of
    the code is equivalent to the existence of such a list, and every operation
    refines the corresponding operation on lists, leaving the payload bytes of every
    other block alone. *)

From S2P Require Import Prelude Config Arena.
Local Open Scope Z_scope.

Definition blk : Type := Z * bool.

(** The bytes a list of blocks covers, and the part of it that is allocated. *)
Fixpoint extent (bs : list blk) : Z :=
  match bs with
  | [] => 0
  | (p, _) :: t => 16 + p + extent t
  end.

Fixpoint used_of (bs : list blk) : Z :=
  match bs with
  | [] => 0
  | (p, fr) :: t => (if fr then 0 else 16 + p) + used_of t
  end.

Definition blk_wf (b : blk) : Prop := 16 <= b.1 /\ b.1 mod 16 = 0.

Definition hdr_ok (m : mem) (a : Z) (b : blk) : Prop :=
  b_payload m a = b.1 /\ b_is_free m a = b2z b.2 /\ b_magic m a = ARENA_MAGIC.

(** The headers from [cur] on describe [bs]. *)
Fixpoint tiles (m : mem) (cur : Z) (bs : list blk) : Prop :=
  match bs with
  | [] => True
  | b :: t => hdr_ok m cur b /\ tiles m (cur + 16 + b.1) t
  end.

Definition arena_inv (m : mem) (A : lxp_arena) (bs : list blk) : Prop :=
  0 < ar_base A /\ ar_first A = ar_base A /\ ar_base A mod 16 = 0 /\
  32 <= ar_size A /\ ar_size A mod 16 = 0 /\ ar_base A + ar_size A <= UINTPTR_MAX /\
  Forall blk_wf bs /\ extent bs = ar_size A /\ used_of bs = ar_used A /\
  tiles m (ar_base A) bs.

(** No two adjacent blocks are both free. *)
Fixpoint coalesced (bs : list blk) : Prop :=
  match bs with
  | (_, f1) :: (((_, f2) :: _) as t) => (f1 = true -> f2 = false) /\ coalesced t
  | _ => True
  end.

(** ** Abstract operations *)

(** First fit: the blocks before, the payload of the chosen block, those after. *)
Fixpoint a_fit (need : Z) (bs : list blk) : option (list blk * Z * list blk) :=
  match bs with
  | [] => None
  | (p, fr) :: t =>
      if fr && (p >=? need) then Some ([], p, t)
      else match a_fit need t with
           | None => None
           | Some (l1, q, l2) => Some ((p, fr) :: l1, q, l2)
           end
  end.

(** The blocks an extent of [total] payload bytes becomes when [need] of them are
    handed out; [fr] is the free bit of the first. *)
Definition carve (fr : bool) (total need : Z) : list blk :=
  if total - need >=? 32 then [(need, fr); (total - need - 16, true)] else [(total, fr)].

(** The offset of the new payload and the new block list. *)
Definition a_alloc (need : Z) (bs : list blk) : option (Z * list blk) :=
  match a_fit need bs with
  | None => None
  | Some (l1, p, l2) => Some (extent l1 + 16, l1 ++ carve false p need ++ l2)
  end.

(** The block whose payload is at offset [off]. *)
Fixpoint a_locate (off : Z) (bs : list blk) : option (list blk * blk * list blk) :=
  match bs with
  | [] => None
  | b :: t =>
      if off =? 16 then Some ([], b, t)
      else match a_locate (off - (16 + b.1)) t with
           | None => None
           | Some (l1, c, l2) => Some (b :: l1, c, l2)
           end
  end.

(** Absorb a free block that follows a free block of [p] bytes. *)
Definition a_join_next (p : Z) (l2 : list blk) : Z * list blk :=
  match l2 with
  | (q, true) :: t => (p + (16 + q), t)
  | _ => (p, l2)
  end.

(** The block before [(p, true)] absorbs it when it is free. *)
Definition a_join_prev (l1 : list blk) (p : Z) : list blk :=
  match last l1 with
  | Some (r, true) => removelast l1 ++ [(r + (16 + p), true)]
  | _ => l1 ++ [(p, true)]
  end.

Definition a_free (off : Z) (bs : list blk) : option (list blk) :=
  match a_locate off bs with
  | Some (l1, (p, false), l2) =>
      let '(p', l2') := a_join_next p l2 in Some (a_join_prev l1 p' ++ l2')
  | _ => None
  end.

(** ** List facts *)

Lemma extent_app l1 l2 : extent (l1 ++ l2) = extent l1 + extent l2.
Proof. induction l1 as [|[p f] t IH]; simpl; lia. Qed.

Lemma used_of_app l1 l2 : used_of (l1 ++ l2) = used_of l1 + used_of l2.
Proof. induction l1 as [|[p f] t IH]; simpl; lia. Qed.

Lemma extent_nonneg bs : Forall blk_wf bs -> 0 <= extent bs.
Proof.
  induction bs as [|[p f] t IH]; intros H; simpl; [lia|].
  inversion H as [|? ? [Hp _]]; subst. simpl in Hp. specialize (IH ltac:(done)). lia.
Qed.

Lemma extent_mod bs : Forall blk_wf bs -> extent bs mod 16 = 0.
Proof.
  induction bs as [|[p f] t IH]; intros H; simpl; [done|].
  inversion H as [|? ? [Hp Hm]]; subst. simpl in Hm. specialize (IH ltac:(done)). lia.
Qed.

Lemma used_bounds bs : Forall blk_wf bs -> 0 <= used_of bs <= extent bs.
Proof.
  induction bs as [|[p f] t IH]; intros H; simpl; [lia|].
  inversion H as [|? ? [Hp _]]; subst. simpl in Hp. specialize (IH ltac:(done)).
  destruct f; lia.
Qed.

Lemma length_extent bs : Forall blk_wf bs -> Z.of_nat (length bs) * 32 <= extent bs.
Proof.
  induction bs as [|[p f] t IH]; intros H; cbn [length extent]; [lia|].
  inversion H as [|? ? [Hp _]]; subst. simpl in Hp. specialize (IH ltac:(done)). lia.
Qed.

Lemma tiles_app m cur l1 l2 :
  tiles m cur (l1 ++ l2) <-> tiles m cur l1 /\ tiles m (cur + extent l1) l2.
Proof.
  revert cur. induction l1 as [|[p f] t IH]; intros cur; simpl.
  - rewrite Z.add_0_r. tauto.
  - rewrite IH. replace (cur + 16 + p + extent t) with (cur + (16 + p + extent t)) by lia. tauto.
Qed.

(** Only the bytes the blocks cover matter. *)
Lemma hdr_ok_frame m m' a b :
  (forall x, a <= x < a + 16 -> load8 m' x = load8 m x) -> hdr_ok m a b -> hdr_ok m' a b.
Proof.
  intros H (H1 & H2 & H3). unfold hdr_ok, b_payload, b_is_free, b_magic in *.
  rewrite !(load32_ext m' m) by (intros; apply H; lia). done.
Qed.

Lemma tiles_frame m m' cur bs :
  Forall blk_wf bs ->
  (forall x, cur <= x < cur + extent bs -> load8 m' x = load8 m x) ->
  tiles m cur bs -> tiles m' cur bs.
Proof.
  revert cur. induction bs as [|[p f] t IH]; intros cur Hwf H Ht; [done|].
  inversion Hwf as [|? ? [Hp _] Hwt]; subst. simpl in Hp.
  pose proof (extent_nonneg t Hwt). destruct Ht as [Hh Ht]. cbn [tiles extent fst] in *. split.
  - eapply hdr_ok_frame; [|done]. intros. apply H. lia.
  - apply IH; [done| |done]. intros. apply H. lia.
Qed.

(** ** The layout check *)

Lemma hdr_value : ARENA_HDR = 16.
Proof. reflexivity. Qed.

Ltac arena_consts :=
  rewrite ?hdr_value in *; unfold LXP_ARENA_ALIGN, ARENA_MAGIC, UINTPTR_MAX, SIZE_MAX in *;
  change (16 - 1) with 15 in *; rewrite ?land_15 in *.

Lemma b_payload_range m a : 0 <= b_payload m a < 2 ^ 32.
Proof. apply load32_range. Qed.

Lemma b_is_free_range m a : 0 <= b_is_free m a < 2 ^ 32.
Proof. apply load32_range. Qed.

(** The walk accepts exactly the tilings of the rest of the region, and totals them. *)
Lemma layout_walk_sound fuel m asize cur end_ used u :
  cur <= end_ ->
  layout_walk fuel m asize cur end_ used = Some u ->
  exists bs, Forall blk_wf bs /\ extent bs = end_ - cur /\ tiles m cur bs /\
             u = used + used_of bs.
Proof.
  revert cur used. induction fuel as [|fuel IH]; intros cur used Hle H; simpl in H; arena_consts.
  { destruct (Z.ltb_spec cur end_); [done|].
    destruct (Z.eqb_spec cur end_); [|done]. injection H as <-.
    exists []. simpl. split_and!; [constructor|lia|done|lia]. }
  destruct (Z.ltb_spec cur end_); cycle 1.
  { destruct (Z.eqb_spec cur end_); [|done]. injection H as <-.
    exists []. simpl. split_and!; [constructor|lia|done|lia]. }
  destruct (_ <? 16) eqn:Hrem; [done|].
  destruct (_ || _) eqn:Hbad; [done|].
  pose proof (b_is_free_range m cur).
  set (p := b_payload m cur) in *. set (f := b_is_free m cur) in *.
  assert (Hok : forall fr, f = b2z fr -> hdr_ok m cur (p, fr)).
  { intros fr Hf. unfold hdr_ok. fold p f. simpl. split_and!; try done. unfold ARENA_MAGIC. lia. }
  destruct (Z.eqb_spec f 0) as [Hf|Hf].
  - destruct (used >? asize - (16 + p)) eqn:Hu; [done|].
    apply IH in H as (bs & Hwf & He & Ht & ->); [|lia].
    exists ((p, false) :: bs). cbn [extent used_of tiles fst]. split_and!.
    + constructor; [|done]. split; simpl; lia.
    + lia.
    + apply Hok. by rewrite Hf.
    + by replace (cur + 16 + p) with (cur + (16 + p)) by lia.
    + lia.
  - apply IH in H as (bs & Hwf & He & Ht & ->); [|lia].
    exists ((p, true) :: bs). cbn [extent used_of tiles fst]. split_and!.
    + constructor; [|done]. split; simpl; lia.
    + lia.
    + apply Hok. simpl. lia.
    + by replace (cur + 16 + p) with (cur + (16 + p)) by lia.
    + lia.
Qed.

Lemma layout_walk_complete fuel m asize bs : forall cur used,
  Forall blk_wf bs -> tiles m cur bs ->
  0 <= used -> used + extent bs <= asize -> (length bs <= fuel)%nat ->
  layout_walk fuel m asize cur (cur + extent bs) used = Some (used + used_of bs).
Proof.
  revert fuel. induction bs as [|[p fr] bs IH]; intros fuel cur used Hwf Ht Hu Hs Hf.
  { simpl. rewrite Z.add_0_r. destruct fuel; simpl; rewrite Z.ltb_irrefl, Z.eqb_refl; f_equal; lia. }
  destruct fuel as [|fuel]; [simpl in Hf; lia|].
  inversion Hwf as [|? ? [Hp Hm] Hwt]; subst. cbn [fst] in Hp, Hm.
  pose proof (extent_nonneg bs Hwt). pose proof (used_bounds bs Hwt).
  cbn [tiles fst extent used_of] in *. destruct Ht as ((H1 & H2 & H3) & Ht). cbn [fst snd] in *.
  cbn [layout_walk]. rewrite H1, H2, H3. arena_consts.
  destruct (cur <? _) eqn:E1; [|lia]. destruct (_ <? 16) eqn:E2; [lia|].
  destruct (_ || _) eqn:E3.
  { destruct fr; simpl in E3; lia. }
  replace (cur + (16 + p + extent bs)) with (cur + (16 + p) + extent bs) by lia.
  destruct fr; cbn [b2z Z.eqb].
  - rewrite IH; [f_equal; lia|done| |lia|lia|simpl in Hf; lia].
    by replace (cur + (16 + p)) with (cur + 16 + p) by lia.
  - destruct (used >? _) eqn:E4; [lia|].
    rewrite IH; [f_equal; lia|done| |lia|lia|simpl in Hf; lia].
    by replace (cur + (16 + p)) with (cur + 16 + p) by lia.
Qed.

Lemma arena_fuel_enough A bs :
  Forall blk_wf bs -> extent bs = ar_size A -> (length bs <= arena_fuel A)%nat.
Proof.
  intros Hwf He. pose proof (length_extent bs Hwf). unfold arena_fuel. arena_consts.
  change (16 + 16) with 32. lia.
Qed.

Lemma arena_inv_valid m A bs : arena_inv m A bs -> arena_layout_valid m A = true.
Proof.
  intros (Hb & Hf & Hbm & Hs & Hsm & Hend & Hwf & He & Hu & Ht).
  unfold arena_layout_valid. arena_consts. unfold UINTPTR_MAX in *.
  rewrite Hf. destruct (_ || _) eqn:E1; [lia|]. destruct (_ || _) eqn:E2 in |- *; [lia|].
  rewrite <- He, layout_walk_complete; try done; try lia.
  by apply arena_fuel_enough.
Qed.

Lemma arena_valid_inv m A :
  0 <= ar_base A -> arena_layout_valid m A = true -> exists bs, arena_inv m A bs.
Proof.
  intros Hb H. unfold arena_layout_valid in H. arena_consts. unfold UINTPTR_MAX in *.
  destruct (_ || _) eqn:E1 in H; [done|]. destruct (_ || _) eqn:E2 in H; [done|].
  destruct (layout_walk _ _ _ _ _ _) as [u|] eqn:E; [|done].
  apply layout_walk_sound in E as (bs & Hwf & He & Ht & ->); [|lia].
  exists bs. unfold arena_inv, UINTPTR_MAX. split_and!; try done; lia.
Qed.

(** ** The searches *)

Lemma fit_walk_spec m need bs : forall fuel cur,
  Forall blk_wf bs -> tiles m cur bs -> (length bs <= fuel)%nat ->
  fit_walk fuel m need cur (cur + extent bs) =
  match a_fit need bs with
  | None => None
  | Some (l1, _, _) => Some (cur + extent l1)
  end.
Proof.
  induction bs as [|[p fr] bs IH]; intros fuel cur Hwf Ht Hf.
  { simpl. rewrite Z.add_0_r. destruct fuel; simpl; by rewrite Z.ltb_irrefl. }
  destruct fuel as [|fuel]; [simpl in Hf; lia|].
  inversion Hwf as [|? ? [Hp Hm] Hwt]; subst. cbn [fst] in Hp, Hm.
  pose proof (extent_nonneg bs Hwt).
  cbn [tiles fst extent] in *. destruct Ht as ((H1 & H2 & H3) & Ht). cbn [fst snd] in *.
  cbn [fit_walk a_fit]. rewrite H1, H2. arena_consts.
  destruct (cur <? _) eqn:E1; [|lia].
  replace (negb (b2z fr =? 0)) with fr by (by destruct fr).
  destruct (fr && (p >=? need)) eqn:E2; [simpl; f_equal; lia|].
  replace (cur + (16 + p + extent bs)) with (cur + 16 + p + extent bs) by lia.
  rewrite IH; [|done|done|simpl in Hf; lia].
  destruct (a_fit need bs) as [[[l1 q] l2]|]; [|done]. simpl. f_equal. lia.
Qed.

Lemma find_walk_spec m target bs : forall fuel cur prev,
  Forall blk_wf bs -> tiles m cur bs -> (length bs <= fuel)%nat ->
  find_walk fuel m target cur (cur + extent bs) prev =
  match a_locate (target - cur) bs with
  | None => None
  | Some (l1, _, _) =>
      Some (cur + extent l1,
            match last l1 with
            | None => prev
            | Some r => Some (cur + extent l1 - 16 - r.1)
            end)
  end.
Proof.
  induction bs as [|[p fr] bs IH]; intros fuel cur prev Hwf Ht Hf.
  { simpl. rewrite Z.add_0_r. destruct fuel; simpl; by rewrite Z.ltb_irrefl. }
  destruct fuel as [|fuel]; [simpl in Hf; lia|].
  inversion Hwf as [|? ? [Hp Hm] Hwt]; subst. cbn [fst] in Hp, Hm.
  pose proof (extent_nonneg bs Hwt).
  cbn [tiles fst extent] in *. destruct Ht as ((H1 & H2 & H3) & Ht). cbn [fst snd] in *.
  cbn [find_walk a_locate fst]. unfold blk_payload. rewrite H1. arena_consts.
  destruct (cur <? _) eqn:E1; [|lia].
  replace (target - cur =? 16) with (cur + 16 =? target) by lia.
  destruct (cur + 16 =? target) eqn:E2; [simpl; do 2 f_equal; lia|].
  replace (cur + (16 + p + extent bs)) with (cur + 16 + p + extent bs) by lia.
  rewrite IH; [|done|done|simpl in Hf; lia].
  replace (target - (cur + 16 + p)) with (target - cur - (16 + p)) by lia.
  destruct (a_locate _ bs) as [[[l1 c] l2]|]; [|done].
  rewrite last_cons. cbn [extent]. do 2 f_equal; [lia|].
  destruct l1 as [|[q g] l1] using rev_ind.
  - simpl. f_equal. lia.
  - rewrite last_snoc. f_equal. lia.
Qed.

Lemma a_fit_some need bs l1 p l2 :
  a_fit need bs = Some (l1, p, l2) -> bs = l1 ++ (p, true) :: l2 /\ need <= p.
Proof.
  revert l1. induction bs as [|[q fr] bs IH]; intros l1 H; simpl in H; [done|].
  destruct (fr && (q >=? need)) eqn:E.
  - injection H as <- <- <-. destruct fr; [|done]. split; [done|lia].
  - destruct (a_fit need bs) as [[[l1' q'] l2']|] eqn:E'; [|done].
    injection H as <- <- <-. destruct (IH _ eq_refl) as [-> ?]. done.
Qed.

(** Nothing before the chosen block would have fitted. *)
Lemma a_fit_first need bs l1 p l2 :
  a_fit need bs = Some (l1, p, l2) ->
  Forall (fun b : blk => b.2 = false \/ b.1 < need) l1.
Proof.
  revert l1. induction bs as [|[q fr] bs IH]; intros l1 H; simpl in H; [done|].
  destruct (fr && (q >=? need)) eqn:E.
  - injection H as <- <- <-. constructor.
  - destruct (a_fit need bs) as [[[l1' q'] l2']|] eqn:E'; [|done].
    injection H as <- <- <-. constructor; [|by apply IH].
    simpl. destruct fr; [right; lia|by left].
Qed.

Lemma a_fit_none need bs :
  a_fit need bs = None -> Forall (fun b : blk => b.2 = false \/ b.1 < need) bs.
Proof.
  induction bs as [|[q fr] bs IH]; intros H; simpl in H; [constructor|].
  destruct (fr && (q >=? need)) eqn:E; [done|].
  destruct (a_fit need bs) as [[[? ?] ?]|]; [done|].
  constructor; [|by apply IH]. simpl. destruct fr; [right; lia|by left].
Qed.

Lemma a_locate_some off bs l1 b l2 :
  a_locate off bs = Some (l1, b, l2) -> bs = l1 ++ b :: l2 /\ off = extent l1 + 16.
Proof.
  revert off l1. induction bs as [|c bs IH]; intros off l1 H; simpl in H; [done|].
  destruct (Z.eqb_spec off 16).
  - injection H as <- <- <-. split; [done|simpl; lia].
  - destruct (a_locate _ bs) as [[[l1' c'] l2']|] eqn:E; [|done].
    injection H as <- <- <-. destruct (IH _ _ E) as [-> ?].
    split; [done|]. destruct c as [q f]. simpl in *. lia.
Qed.

Lemma a_locate_mid l1 b l2 :
  Forall blk_wf l1 -> a_locate (extent l1 + 16) (l1 ++ b :: l2) = Some (l1, b, l2).
Proof.
  induction l1 as [|[q f] l1 IH]; intros Hwf; simpl; [done|].
  inversion Hwf as [|? ? [Hq _] Hwt]; subst. simpl in Hq. pose proof (extent_nonneg l1 Hwt).
  destruct (Z.eqb_spec (16 + q + extent l1 + 16) 16); [lia|].
  replace (16 + q + extent l1 + 16 - (16 + q)) with (extent l1 + 16) by lia.
  by rewrite IH.
Qed.

(** ** Header writes *)

Lemma load8_header_write m b k v x :
  0 <= k -> x < b + k \/ b + k + 4 <= x -> load8 (store32 m (b + k) v) x = load8 m x.
Proof. intros. apply load8_store32_out. lia. Qed.

Lemma put_free_header_ok m b p :
  0 <= p < 2 ^ 32 -> hdr_ok (put_free_header m b p) b (p, true).
Proof.
  intros Hp. unfold hdr_ok, put_free_header, b_payload, b_is_free, b_magic,
    set_magic, set_is_free, set_payload.
  split_and!.
  - rewrite !load32_store32_disj by lia. rewrite load32_store32_same. by rewrite u32_small.
  - rewrite load32_store32_disj by lia. by rewrite load32_store32_same.
  - by rewrite load32_store32_same.
Qed.

Lemma put_free_header_frame m b p x :
  x < b \/ b + 12 <= x -> load8 (put_free_header m b p) x = load8 m x.
Proof.
  intros. unfold put_free_header, set_magic, set_is_free, set_payload.
  by rewrite !load8_store32_out by lia.
Qed.

Lemma set_payload_ok m b p q fr :
  0 <= q < 2 ^ 32 -> hdr_ok m b (p, fr) -> hdr_ok (set_payload m b q) b (q, fr).
Proof.
  intros Hq (H1 & H2 & H3). unfold hdr_ok, b_payload, b_is_free, b_magic, set_payload in *.
  simpl in *. rewrite load32_store32_same, !load32_store32_disj by lia.
  by rewrite u32_small.
Qed.

Lemma set_payload_frame m b q x :
  x < b \/ b + 4 <= x -> load8 (set_payload m b q) x = load8 m x.
Proof. intros. by apply load8_store32_out. Qed.

Lemma set_is_free_ok m b p fr fr' :
  hdr_ok m b (p, fr) -> hdr_ok (set_is_free m b (b2z fr')) b (p, fr').
Proof.
  intros (H1 & H2 & H3). unfold hdr_ok, b_payload, b_is_free, b_magic, set_is_free in *.
  simpl in *. rewrite load32_store32_same, !load32_store32_disj by lia.
  split_and!; try done. by destruct fr'.
Qed.

Lemma set_is_free_frame m b v x :
  x < b + 4 \/ b + 8 <= x -> load8 (set_is_free m b v) x = load8 m x.
Proof. intros. apply load8_store32_out. lia. Qed.

Lemma set_magic_frame m b v x :
  x < b + 8 \/ b + 12 <= x -> load8 (set_magic m b v) x = load8 m x.
Proof. intros. apply load8_store32_out. lia. Qed.

(** The bytes [split_block] may touch. *)
Definition split_touch (b total need x : Z) : Prop :=
  total - need >= 32 /\ (b <= x < b + 4 \/ b + 16 + need <= x < b + 16 + need + 12).

Lemma split_block_frame m b total need x :
  0 <= need -> ~ split_touch b total need x -> load8 (split_block m b total need) x = load8 m x.
Proof.
  intros Hn Hx. unfold split_block, split_touch in *. arena_consts.
  destruct (_ >=? _) eqn:E; [|done].
  rewrite set_payload_frame by lia. by rewrite put_free_header_frame by lia.
Qed.

Lemma split_block_ok m b total need fr :
  16 <= need <= total -> total < 2 ^ 32 -> hdr_ok m b (total, fr) ->
  tiles (split_block m b total need) b (carve fr total need).
Proof.
  intros Hn Ht Hok. unfold split_block, carve. arena_consts. change (16 + 16) with 32.
  destruct (_ >=? _) eqn:E; [|done].
  cbn [tiles fst]. split_and!; [| |done].
  - apply set_payload_ok with total; [lia|].
    eapply hdr_ok_frame; [|done]. intros x Hx. apply put_free_header_frame. lia.
  - eapply hdr_ok_frame; [|apply put_free_header_ok; lia].
    intros x Hx. apply set_payload_frame. lia.
Qed.

Lemma split_block_payload m b total need fr :
  16 <= need <= total -> total < 2 ^ 32 -> hdr_ok m b (total, fr) ->
  b_payload (split_block m b total need) b = if total - need >=? 32 then need else total.
Proof.
  intros Hn Ht Hok. pose proof (split_block_ok m b total need fr Hn Ht Hok) as H.
  unfold carve in H. destruct (_ >=? _); destruct H as [[H _] _]; done.
Qed.

Lemma carve_facts fr total need :
  16 <= need <= total -> need mod 16 = 0 -> total mod 16 = 0 ->
  Forall blk_wf (carve fr total need) /\ extent (carve fr total need) = 16 + total /\
  used_of (carve fr total need) =
    if fr then 0 else 16 + (if total - need >=? 32 then need else total).
Proof.
  intros Hn Hm Ht. unfold carve. destruct (_ >=? _) eqn:E; cbn [extent used_of].
  - split_and!; [|lia|destruct fr; lia].
    repeat constructor; simpl; lia.
  - split_and!; [|lia|destruct fr; lia]. repeat constructor; simpl; lia.
Qed.

(** ** Allocation *)

Lemma arena_align_spec n :
  1 <= n < 2 ^ 32 ->
  arena_align n = 0 /\ n > 2 ^ 32 - 16 \/
  n <= arena_align n < n + 16 /\ arena_align n mod 16 = 0 /\ 16 <= arena_align n <= 2 ^ 32 - 16.
Proof.
  intros Hn. unfold arena_align, ALIGN_MASK. arena_consts.
  destruct (n >? _) eqn:E; [left; lia|right].
  rewrite land_down16 by lia. lia.
Qed.

(** The request as the allocator rounds it. *)
Definition request (size : Z) : Z := arena_align (if size =? 0 then 1 else size).

Lemma request_spec size :
  0 <= size < 2 ^ 32 ->
  request size = 0 \/ size <= request size /\ request size mod 16 = 0 /\
                      16 <= request size <= 2 ^ 32 - 16.
Proof.
  intros Hs. unfold request.
  destruct (arena_align_spec (if size =? 0 then 1 else size)) as [[H _]|H];
    destruct (Z.eqb_spec size 0); lia.
Qed.

(** Everything of the control block but [used] and [high_water]. *)
Definition same_ctl (A A' : lxp_arena) : Prop :=
  ar_base A' = ar_base A /\ ar_size A' = ar_size A /\ ar_first A' = ar_first A /\
  ar_mappings A' = ar_mappings A.

(** Replacing the blocks [mid] in the middle of a layout by blocks of the same total
    extent, when only bytes of that extent changed. *)
Lemma tiles_replace m m' base l1 mid mid' l2 :
  Forall blk_wf l1 -> Forall blk_wf l2 -> Forall blk_wf mid' ->
  extent mid' = extent mid ->
  (forall x, x < base + extent l1 \/ base + extent l1 + extent mid <= x -> load8 m' x = load8 m x) ->
  tiles m base (l1 ++ mid ++ l2) -> tiles m' (base + extent l1) mid' ->
  tiles m' base (l1 ++ mid' ++ l2).
Proof.
  intros W1 W2 Wm He Hx Ht Hm. rewrite !tiles_app in *. destruct Ht as (T1 & Tm & T2).
  pose proof (extent_nonneg _ W1). pose proof (extent_nonneg _ Wm). split_and!.
  - eapply tiles_frame; [done| |done]. intros; apply Hx; lia.
  - done.
  - rewrite He. eapply tiles_frame; [done| |done]. intros; apply Hx; lia.
Qed.

Lemma arena_alloc_refines m A bs size :
  arena_inv m A bs -> 0 <= size < 2 ^ 32 ->
  match (if request size =? 0 then None else a_fit (request size) bs) with
  | None => lxp_arena_alloc m A size = (0, m, A)
  | Some (l1, p, l2) =>
      exists m' A',
        lxp_arena_alloc m A size = (ar_base A + extent l1 + 16, m', A') /\
        arena_inv m' A' (l1 ++ carve false p (request size) ++ l2) /\ same_ctl A A' /\
        forall x, x < ar_base A + extent l1 \/ ar_base A + extent l1 + (16 + p) <= x ->
                  load8 m' x = load8 m x
  end.
Proof.
  intros HI Hs. pose proof (arena_inv_valid _ _ _ HI) as HV.
  destruct HI as (Hb & Hf & Hbm & Hsz & Hsm & Hend & Hwf & He & Hu & Ht).
  unfold lxp_arena_alloc. rewrite HV, Hf. fold (request size).
  destruct (Z.eqb_spec (ar_base A) 0); [lia|]. cbn [orb negb].
  destruct (Z.eqb_spec (request size) 0) as [|Hr0]; [done|].
  destruct (request_spec size Hs) as [|(R1 & R2 & R3)]; [done|].
  replace (ar_base A + ar_size A) with (ar_base A + extent bs) by lia.
  rewrite fit_walk_spec by (done || by apply arena_fuel_enough).
  destruct (a_fit (request size) bs) as [[[l1 p] l2]|] eqn:Efit; [|done].
  apply a_fit_some in Efit as [-> Hp].
  set (need := request size) in *. set (b := ar_base A + extent l1) in *.
  apply Forall_app in Hwf as [W1 [[Wp Wm] W2]%Forall_cons]. simpl in Wp, Wm.
  pose proof (extent_nonneg _ W1). pose proof (extent_nonneg _ W2).
  pose proof (used_bounds _ W1). pose proof (used_bounds _ W2).
  rewrite extent_app in He. rewrite used_of_app in Hu. cbn [extent used_of] in He, Hu.
  unfold UINTPTR_MAX in Hend.
  assert (Hok : hdr_ok m b (p, true)).
  { apply tiles_app in Ht as [_ [? _]]. done. }
  assert (Hbp : b_payload m b = p) by apply Hok.
  rewrite Hbp, (split_block_payload m b p need true) by (done || lia).
  arena_consts. set (fp := if p - need >=? 32 then need else p).
  assert (Hfp : need <= fp <= p) by (unfold fp; destruct (_ >=? _); lia).
  destruct (_ >? _) eqn:Eu; [lia|].
  destruct (carve_facts false p need) as (C1 & C2 & C3); [lia..|].
  do 2 eexists. split; [reflexivity|].
  assert (Hframe : forall x, x < b \/ b + (16 + p) <= x ->
            load8 (set_is_free (split_block m b p need) b 0) x = load8 m x).
  { intros x Hx. rewrite set_is_free_frame by lia.
    apply split_block_frame; [lia|]. unfold split_touch. lia. }
  split; [|split; [done|done]].
  unfold arena_inv, arena_set_used, UINTPTR_MAX. simpl. split_and!; try done.
  - apply Forall_app; split; [done|]. by apply Forall_app.
  - rewrite !extent_app, C2. lia.
  - rewrite !used_of_app, C3. fold fp. lia.
  - apply tiles_replace with (m := m) (mid := [(p, true)]); try done.
    + rewrite C2. simpl. lia.
    + intros x Hx. apply Hframe. simpl in Hx. fold b in Hx. lia.
    + pose proof (split_block_ok m b p need true ltac:(lia) ltac:(lia) Hok) as T.
      unfold carve in *. destruct (p - need >=? 32) eqn:E.
      * destruct T as (T1 & T2 & _). cbn [tiles fst] in *. split_and!; [| |done].
        -- by apply (set_is_free_ok _ _ need true false).
        -- eapply hdr_ok_frame; [|done]. intros; apply set_is_free_frame. lia.
      * destruct T as (T1 & _). split; [|done]. by apply (set_is_free_ok _ _ p true false).
Qed.

(** ** Release *)

(** [x] is a byte of some block header. *)
Definition hdr_byte (base : Z) (bs : list blk) (x : Z) : Prop :=
  exists pre c post, bs = pre ++ c :: post /\ base + extent pre <= x < base + extent pre + 16.

Lemma payload_not_hdr base l1 p f l2 x :
  Forall blk_wf (l1 ++ (p, f) :: l2) ->
  base + extent l1 + 16 <= x < base + extent l1 + 16 + p -> ~ hdr_byte base (l1 ++ (p, f) :: l2) x.
Proof.
  intros Hwf Hx (pre & c & post & Heq & Hr).
  apply Forall_app in Hwf as [W1 [_ W2]%Forall_cons].
  destruct (app_eq_inv _ _ _ _ Heq) as [(k & Hk & Hk2)|(k & Hk & Hk2)].
  - destruct k as [|d k].
    + simpl in Hk2. rewrite app_nil_r in Hk. subst. lia.
    + simpl in Hk2. injection Hk2 as -> ->. subst l1.
      apply Forall_app in W1 as [_ [Wc Wk]%Forall_cons].
      pose proof (extent_nonneg _ Wk). rewrite extent_app in Hx. destruct d as [q g].
      destruct Wc as [Wc _]. cbn [extent fst] in *. lia.
  - subst pre. destruct k as [|d k].
    + rewrite app_nil_r in Hr. lia.
    + simpl in Hk2. injection Hk2 as <- ->. apply Forall_app in W2 as [W2 _].
      pose proof (extent_nonneg _ W2). rewrite extent_app in Hr. cbn [extent] in Hr. lia.
Qed.

Lemma free_forward_spec m b p l2 :
  Forall blk_wf ((p, false) :: l2) -> p + extent l2 < 2 ^ 32 - 32 ->
  tiles m b ((p, false) :: l2) ->
  let m' := free_forward m b (b + (16 + p) + extent l2) in
  let '(p', l2') := a_join_next p l2 in
  tiles m' b ((p', true) :: l2') /\
  forall x, ~ (b <= x < b + 16) -> (l2 = [] \/ ~ (b + 16 + p <= x < b + 16 + p + 16)) ->
            load8 m' x = load8 m x.
Proof.
  intros [[Wp Wm] W2]%Forall_cons Hsz (Hok & Ht). simpl in Wp, Wm.
  pose proof (set_is_free_ok m b p false true Hok) as Hok1. unfold free_forward.
  set (m1 := set_is_free m b 1) in *.
  assert (Hf1 : forall x, x < b + 4 \/ b + 8 <= x -> load8 m1 x = load8 m x)
    by (intros; by apply set_is_free_frame).
  assert (Hp1 : b_payload m1 b = p) by apply Hok1. rewrite Hp1. arena_consts. cbn [fst] in Ht.
  destruct l2 as [|[q [|]] t].
  - simpl. destruct (_ <? _) eqn:E; [lia|]. split; [done|]. intros; apply Hf1; lia.
  - assert (Ht1 : tiles m1 (b + 16 + p) ((q, true) :: t)).
    { eapply tiles_frame; [done| |done]. intros. apply Hf1. lia. }
    destruct Ht1 as [(Q1 & Q2 & Q3) Ht1]. cbn [fst snd] in *. rewrite Q1, Q2.
    apply Forall_cons in W2 as [[Wq Wqm] W2]. pose proof (extent_nonneg _ W2).
    cbn [extent a_join_next fst] in *.
    destruct (_ <? _) eqn:E; [|lia]. cbn [andb b2z Z.eqb negb].
    assert (Hf2 : forall x, x < b \/ b + 12 <= x < b + 16 + p \/ b + 16 + p + 16 <= x ->
        load8 (set_magic (set_payload m1 b (p + (16 + q))) (b + 16 + p) 0) x = load8 m1 x).
    { intros. rewrite set_magic_frame by lia. apply set_payload_frame. lia. }
    split; [split|].
    + eapply hdr_ok_frame; [|apply (set_payload_ok m1 b p (p + (16 + q)) true); [lia|done]].
      intros. apply set_magic_frame. lia.
    + cbn [fst]. replace (b + 16 + (p + (16 + q))) with (b + 16 + p + 16 + q) by lia.
      eapply tiles_frame; [done| |done]. intros. apply Hf2. lia.
    + intros x Hx [|Hn]; [done|]. rewrite Hf2 by lia. apply Hf1. lia.
  - assert (Ht1 : tiles m1 (b + 16 + p) ((q, false) :: t)).
    { eapply tiles_frame; [done| |done]. intros. apply Hf1. lia. }
    pose proof Ht1 as [(Q1 & Q2 & Q3) _]. cbn [fst snd] in *. rewrite Q2.
    cbn [b2z Z.eqb negb]. rewrite andb_false_r. cbn [a_join_next].
    split; [done|]. intros; apply Hf1; lia.
Qed.

Definition prev_of (base : Z) (l1 : list blk) : option Z :=
  match last l1 with
  | None => None
  | Some r => Some (base + extent l1 - 16 - r.1)
  end.

Lemma free_backward_spec m base l1 p l2 :
  Forall blk_wf (l1 ++ (p, true) :: l2) -> extent (l1 ++ (p, true) :: l2) < 2 ^ 32 ->
  tiles m base (l1 ++ (p, true) :: l2) ->
  let m' := free_backward m (prev_of base l1) (base + extent l1) in
  tiles m' base (a_join_prev l1 p ++ l2) /\
  forall x, ~ hdr_byte base (l1 ++ (p, true) :: l2) x -> load8 m' x = load8 m x.
Proof.
  intros Hwf Hsz Ht. unfold prev_of, a_join_prev, free_backward.
  destruct l1 as [|[r fr] l1 _] using rev_ind; [simpl; done|].
  rewrite last_snoc, removelast_last.
  replace ((l1 ++ [(r, fr)]) ++ (p, true) :: l2) with (l1 ++ (r, fr) :: (p, true) :: l2) in *
    by (by rewrite <- app_assoc).
  cbn [app fst] in *.
  apply Forall_app in Hwf as [W1 [[Wr Wrm] [[Wp Wpm] W2]%Forall_cons]%Forall_cons].
  cbn [fst] in *.
  pose proof (extent_nonneg _ W1). pose proof (extent_nonneg _ W2).
  rewrite !extent_app in *. cbn [extent] in *.
  set (a := base + extent l1). set (b := base + (extent l1 + (16 + r + 0))).
  replace (b - 16 - r) with a by lia.
  pose proof Ht as (T1 & (R1 & R2 & R3) & (P1 & P2 & P3) & T2)%tiles_app.
  cbn [fst snd] in *. fold a in R1, R2, R3, P1, P2, P3, T2.
  replace (a + 16 + r) with b in P1, P2, P3, T2 by lia.
  rewrite R1, R2, P1. arena_consts.
  destruct fr; cbn [b2z Z.eqb negb]; [|by rewrite <- !app_assoc].
  assert (Hf : forall x, x < a \/ a + 4 <= x < b \/ b + 12 <= x ->
      load8 (set_magic (set_payload m a (r + (16 + p))) b 0) x = load8 m x).
  { intros. rewrite set_magic_frame by lia. apply set_payload_frame. lia. }
  split.
  - apply tiles_app. rewrite extent_app. cbn [extent].
    replace (base + (extent l1 + (16 + (r + (16 + p)) + 0))) with (b + 16 + p) by lia.
    split; [apply tiles_app; split|].
    + eapply tiles_frame; [done| |done]. intros. apply Hf. lia.
    + fold a. split; [|done].
      eapply hdr_ok_frame; [|apply (set_payload_ok m a r (r + (16 + p)) true); [lia|done]].
      intros. apply set_magic_frame. lia.
    + eapply tiles_frame; [done| |done]. intros. apply Hf. lia.
  - intros x Hx. apply Hf.
    assert (~ (a <= x < a + 16)).
    { intros ?. apply Hx. exists l1, (r, true), ((p, true) :: l2). split; [done|lia]. }
    assert (~ (b <= x < b + 16)); [|lia].
    intros ?. apply Hx. exists (l1 ++ [(r, true)]), (p, true), l2.
    rewrite <- app_assoc, extent_app. cbn [extent]. split; [done|lia].
Qed.

Lemma a_join_next_facts p l2 p' l2' :
  a_join_next p l2 = (p', l2') -> blk_wf (p, true) -> Forall blk_wf l2 ->
  blk_wf (p', true) /\ Forall blk_wf l2' /\ p' + extent l2' = p + extent l2 /\
  used_of l2' = used_of l2.
Proof.
  intros H [Wp Wm] W2. simpl in Wp, Wm. unfold a_join_next in H.
  destruct l2 as [|[q [|]] t]; injection H as <- <-; cbn [extent used_of].
  - split_and!; try done; split; simpl; lia.
  - apply Forall_cons in W2 as [[Wq Wqm] W2]. simpl in Wq, Wqm.
    split_and!; try done; [split; simpl; lia|lia].
  - split_and!; try done; split; simpl; lia.
Qed.

Lemma a_join_prev_facts l1 p :
  Forall blk_wf l1 -> blk_wf (p, true) ->
  Forall blk_wf (a_join_prev l1 p) /\ extent (a_join_prev l1 p) = extent l1 + (16 + p) /\
  used_of (a_join_prev l1 p) = used_of l1.
Proof.
  intros W1 [Wp Wm]. simpl in Wp, Wm. unfold a_join_prev.
  destruct l1 as [|[r fr] l1 _] using rev_ind.
  - simpl. split_and!; try lia. repeat constructor; simpl; lia.
  - rewrite last_snoc, removelast_last. apply Forall_app in W1 as [W1 [[Wr Wrm] _]%Forall_cons].
    simpl in Wr, Wrm. destruct fr; rewrite !extent_app, !used_of_app; cbn [extent used_of].
    + split_and!; try lia. apply Forall_app. split; [done|]. repeat constructor; simpl; lia.
    + split_and!; try lia. rewrite <- app_assoc. apply Forall_app. split; [done|].
      repeat constructor; simpl; lia.
Qed.

Lemma hdr_byte_forward base l1 p l2 p' l2' x :
  a_join_next p l2 = (p', l2') -> blk_wf (p, true) -> Forall blk_wf l2 ->
  hdr_byte base (l1 ++ (p', true) :: l2') x -> hdr_byte base (l1 ++ (p, false) :: l2) x.
Proof.
  intros Hj [Wp _] W2 (pre & c & post & Heq & Hr). simpl in Wp.
  destruct (app_eq_inv _ _ _ _ Heq) as [(k & -> & Hk2)|(k & -> & Hk2)].
  - destruct k as [|d k]; simpl in Hk2; injection Hk2 as -> ->.
    + exists pre, (p, false), l2. rewrite app_nil_r. done.
    + exists pre, d, (k ++ (p, false) :: l2). rewrite <- app_assoc. done.
  - destruct k as [|d k]; simpl in Hk2.
    + rewrite app_nil_r in Hr. exists l1, (p, false), l2. done.
    + injection Hk2 as <- ->. rewrite extent_app in Hr. cbn [extent] in Hr.
      unfold a_join_next in Hj. destruct l2 as [|[q [|]] t]; injection Hj as <- Hj.
      * by destruct k.
      * subst t. exists (l1 ++ (p, false) :: (q, true) :: k), c, post.
        rewrite <- app_assoc, extent_app. cbn [extent app]. split; [done|lia].
      * exists (l1 ++ (p, false) :: k), c, post.
        rewrite <- app_assoc, extent_app, Hj. cbn [extent app]. split; [done|lia].
Qed.

Lemma arena_free_refines m A bs ptr :
  arena_inv m A bs ->
  match (if ptr =? 0 then None else a_locate (ptr - ar_base A) bs) with
  | Some (l1, (p, false), l2) =>
      let '(p', l2') := a_join_next p l2 in
      exists m' A',
        arena_free_block m A ptr = (true, m', A') /\
        arena_inv m' A' (a_join_prev l1 p' ++ l2') /\ same_ctl A A' /\
        ar_high_water A' = ar_high_water A /\ ar_used A' = ar_used A - (16 + p) /\
        forall x, ~ hdr_byte (ar_base A) bs x -> load8 m' x = load8 m x
  | _ => arena_free_block m A ptr = (false, m, A)
  end.
Proof.
  intros HI. pose proof (arena_inv_valid _ _ _ HI) as HV.
  destruct HI as (Hb & Hf & Hbm & Hsz & Hsm & Hend & Hwf & He & Hu & Ht).
  unfold UINTPTR_MAX in Hend. unfold arena_free_block. rewrite HV.
  destruct (Z.eqb_spec ptr 0) as [|Hp0]; [done|]. cbn [orb negb]. unfold arena_find_payload.
  replace (ar_base A + ar_size A) with (ar_base A + extent bs) by lia.
  rewrite find_walk_spec by (done || by apply arena_fuel_enough).
  destruct (a_locate _ bs) as [[[l1 [p fr]] l2]|] eqn:Eloc; [|done].
  apply a_locate_some in Eloc as [-> Hoff]. fold (prev_of (ar_base A) l1).
  set (b := ar_base A + extent l1) in *.
  assert (Hok : hdr_ok m b (p, fr)) by (apply tiles_app in Ht as [_ [? _]]; done).
  destruct Hok as (Hb1 & Hb2 & Hb3). cbn [fst snd] in *. rewrite Hb2.
  destruct fr; [done|]. cbn [b2z Z.eqb negb]. rewrite Hb1. arena_consts.
  pose proof Hwf as [W1 [[Wp Wm] W2]%Forall_cons]%Forall_app. cbn [fst] in *.
  pose proof (extent_nonneg _ W1). pose proof (extent_nonneg _ W2).
  pose proof (used_bounds _ W1). pose proof (used_bounds _ W2).
  rewrite used_of_app in Hu. rewrite extent_app in He. cbn [extent used_of] in He, Hu.
  destruct (_ <? _) eqn:Eu; [lia|].
  destruct (a_join_next p l2) as [p' l2'] eqn:Ej.
  pose proof (free_forward_spec m b p l2) as FF. rewrite Ej in FF.
  destruct FF as [FT FX]; [by constructor|lia|by apply tiles_app in Ht as [_ ?]|].
  match goal with |- context [free_forward m b ?e] => replace e with (b + (16 + p) + extent l2)
    by (rewrite ?extent_app; cbn [extent]; lia) end.
  set (m1 := free_forward m b (b + (16 + p) + extent l2)) in *.
  destruct (a_join_next_facts _ _ _ _ Ej) as (J1 & J2 & J3 & J4); [done|done|].
  assert (T1 : tiles m1 (ar_base A) (l1 ++ (p', true) :: l2')).
  { apply tiles_app. split; [|done].
    eapply tiles_frame; [done| |by apply tiles_app in Ht as [? _]]. intros. apply FX; lia. }
  destruct (free_backward_spec m1 (ar_base A) l1 p' l2') as [BT BX];
    [apply Forall_app; split; [done|by constructor]|rewrite extent_app; cbn [extent]; lia|done|].
  destruct (a_join_prev_facts l1 p' W1 J1) as (P1 & P2 & P3).
  do 2 eexists. split; [reflexivity|]. split_and!; try done.
  - unfold arena_inv, UINTPTR_MAX. simpl. split_and!; try done.
    + by apply Forall_app.
    + rewrite extent_app. lia.
    + rewrite used_of_app. lia.
  - intros x Hx. rewrite BX.
    + apply FX.
      { intros Hi. apply Hx. exists l1, (p, false), l2. done. }
      destruct l2 as [|[q g] t]; [by left|]. right. intros Hi.
      apply Hx. exists (l1 ++ [(p, false)]), (q, g), t.
      rewrite <- app_assoc, extent_app. cbn [extent app]. split; [done|lia].
    + intros Hh. apply Hx. by eapply hdr_byte_forward.
Qed.
