(* ===== verification/ArenaClient.v ===== *)
(** * What the arena promises its clients

    [arena_rep c m A L]: the arena is well formed, fully coalesced when [c] is set,
    and its live allocations are exactly the extents [L] (payload address and
    capacity).  A guest that rewrites headers can leave two adjacent free blocks, so
    the clauses that do not need coalescing are proved for both values of [c].  Each
    operation is specified on [L] alone: allocation adds one fresh aligned extent,
    release removes one, reallocation keeps the contents, and no operation changes a
    byte of any other live extent. *)

From S2P Require Import Prelude Config Arena ArenaSpec.
From stdpp Require Import sorting.
Local Open Scope Z_scope.

(** The live extents of a block list laid out from [cur]. *)
Fixpoint live (cur : Z) (bs : list blk) : list (Z * Z) :=
  match bs with
  | [] => []
  | (p, fr) :: t => (if fr then [] else [(cur + 16, p)]) ++ live (cur + 16 + p) t
  end.

Definition arena_rep (strict : bool) (m : mem) (A : lxp_arena) (L : list (Z * Z)) : Prop :=
  exists bs, arena_inv m A bs /\ (strict = true -> coalesced bs) /\ L = live (ar_base A) bs.

(** ** Live extents *)

Lemma live_app cur l1 l2 : live cur (l1 ++ l2) = live cur l1 ++ live (cur + extent l1) l2.
Proof.
  revert cur. induction l1 as [|[p fr] t IH]; intros cur; simpl.
  - by rewrite Z.add_0_r.
  - rewrite IH, <- app_assoc. do 3 f_equal. lia.
Qed.

Lemma live_lookup cur bs a q :
  (a, q) ∈ live cur bs <->
  exists l1 l2, bs = l1 ++ (q, false) :: l2 /\ a = cur + extent l1 + 16.
Proof.
  split.
  - revert cur. induction bs as [|[p fr] t IH]; intros cur H; [by apply not_elem_of_nil in H|].
    cbn [live] in H. apply elem_of_app in H as [H|H].
    + destruct fr; [by apply not_elem_of_nil in H|]. apply list_elem_of_singleton in H.
      injection H as -> ->. exists [], t. split; [done|simpl; lia].
    + destruct (IH _ H) as (l1 & l2 & -> & ->). exists ((p, fr) :: l1), l2.
      split; [done|simpl; lia].
  - intros (l1 & l2 & -> & ->). rewrite live_app. apply elem_of_app. right.
    simpl. left.
Qed.

(** Every live extent is in range, aligned and separated from the next by a header. *)
Lemma live_bounds cur bs a q :
  Forall blk_wf bs -> (a, q) ∈ live cur bs ->
  cur + 16 <= a /\ a + q <= cur + extent bs /\ 16 <= q /\ (a - cur) mod 16 = 0.
Proof.
  intros Hwf (l1 & l2 & -> & ->)%live_lookup.
  apply Forall_app in Hwf as [W1 [[Wq Wm] W2]%Forall_cons]. simpl in Wq, Wm.
  pose proof (extent_nonneg _ W1). pose proof (extent_nonneg _ W2). pose proof (extent_mod _ W1).
  rewrite extent_app. cbn [extent]. lia.
Qed.

Lemma live_sorted cur bs :
  Forall blk_wf bs ->
  StronglySorted (fun x y : Z * Z => x.1 + x.2 + 16 <= y.1) (live cur bs).
Proof.
  revert cur. induction bs as [|[p fr] t IH]; intros cur Hwf; simpl; [constructor|].
  apply Forall_cons in Hwf as [[Wp _] Wt]. destruct fr; simpl; [by apply IH|].
  constructor; [by apply IH|]. apply Forall_forall. intros [a q] Hin. simpl.
  apply live_bounds in Hin; [lia|done].
Qed.

(** ** Coalescing *)

Definition ends_free (bs : list blk) : bool :=
  match last bs with Some (_, f) => f | None => false end.
Definition starts_free (bs : list blk) : bool :=
  match bs with (_, f) :: _ => f | [] => false end.

Lemma coalesced_cons b bs :
  coalesced (b :: bs) <-> coalesced bs /\ (b.2 = true -> starts_free bs = false).
Proof. destruct b as [p f], bs as [|[q g] t]; simpl; naive_solver. Qed.

Lemma coalesced_app l1 l2 :
  coalesced (l1 ++ l2) <->
  coalesced l1 /\ coalesced l2 /\ (ends_free l1 = true -> starts_free l2 = false).
Proof.
  induction l1 as [|b l1 IH]; [simpl; naive_solver|].
  cbn [app]. rewrite !coalesced_cons, IH. unfold ends_free. rewrite last_cons.
  destruct l1 as [|c l1 _] using rev_ind.
  - simpl. destruct b as [p f]. simpl. naive_solver.
  - rewrite last_snoc. assert (starts_free ((l1 ++ [c]) ++ l2) = starts_free (l1 ++ [c])) as ->.
    { destruct l1; done. }
    destruct c. naive_solver.
Qed.

Lemma coalesced_carve l1 p need l2 :
  coalesced (l1 ++ (p, true) :: l2) -> coalesced (l1 ++ carve false p need ++ l2).
Proof.
  rewrite !coalesced_app, coalesced_cons. intros (H1 & (H2 & H3) & H4). simpl in H3.
  unfold carve. destruct (_ >=? _); cbn [app]; rewrite ?coalesced_app, ?coalesced_cons;
    unfold ends_free; simpl; naive_solver.
Qed.

Lemma coalesced_grow l1 p q t need :
  coalesced (l1 ++ (p, false) :: (q, true) :: t) ->
  coalesced (l1 ++ carve false (p + 16 + q) need ++ t).
Proof.
  rewrite !coalesced_app, !coalesced_cons. intros (H1 & ((H2 & H3) & H5) & H4). simpl in H3.
  unfold carve. destruct (_ >=? _); cbn [app]; rewrite ?coalesced_app, ?coalesced_cons;
    unfold ends_free; simpl; naive_solver.
Qed.

Lemma coalesced_free l1 p l2 p' l2' :
  a_join_next p l2 = (p', l2') -> coalesced (l1 ++ (p, false) :: l2) ->
  coalesced (a_join_prev l1 p' ++ l2').
Proof.
  intros Hj. rewrite !coalesced_app, !coalesced_cons. intros (H1 & (H2 & _) & _).
  assert (Hn : coalesced l2' /\ starts_free l2' = false).
  { unfold a_join_next in Hj. destruct l2 as [|[q [|]] t]; injection Hj as <- <-; try done.
    apply coalesced_cons in H2 as [? H]. simpl in H. naive_solver. }
  destruct Hn as [Hn1 Hn2]. split_and!; [|done|by rewrite Hn2].
  unfold a_join_prev. destruct l1 as [|[r f] l1 _] using rev_ind; [done|].
  rewrite last_snoc, removelast_last. apply coalesced_app in H1 as (H1 & _ & H3).
  destruct f; rewrite !coalesced_app; simpl in *; [naive_solver|].
  unfold ends_free. rewrite last_snoc. naive_solver.
Qed.

(** When nothing is allocated a coalesced arena is one free extent. *)
Lemma coalesced_all_free bs :
  coalesced bs -> Forall blk_wf bs -> used_of bs = 0 -> bs = [] \/ exists p, bs = [(p, true)].
Proof.
  intros Hc Hwf Hu. destruct bs as [|[p f] [|[q g] t]]; [by left| |].
  - apply Forall_cons in Hwf as [[Wp _] _]. simpl in *. destruct f; [|lia]. right. by exists p.
  - exfalso. apply Forall_cons in Hwf as [[Wp _] [[Wq _] Wt]%Forall_cons].
    pose proof (used_bounds _ Wt). simpl in *. destruct f, g; lia.
Qed.

(** ** Client specifications *)

Section Clients.
Context (st : bool).

(** Two extents do not overlap. *)
Definition apart (x y : Z * Z) : Prop := x.1 + x.2 <= y.1 \/ y.1 + y.2 <= x.1.

(** [m'] has the bytes of [m] at every extent of [L]. *)
Definition preserves (m m' : mem) (L : list (Z * Z)) : Prop :=
  forall a q, (a, q) ∈ L -> mem_read m' a (Z.to_nat q) = mem_read m a (Z.to_nat q).

Lemma preserves_intro m m' L :
  (forall a q x, (a, q) ∈ L -> a <= x < a + q -> load8 m' x = load8 m x) -> preserves m m' L.
Proof. intros H a q Hin. apply mem_read_ext. intros x Hx. apply (H a q); [done|lia]. Qed.

Lemma preserves_load8 m m' L a q x :
  preserves m m' L -> (a, q) ∈ L -> a <= x < a + q -> load8 m' x = load8 m x.
Proof.
  intros HP Hin Hx. specialize (HP a q Hin).
  pose proof (nth_mem_read m' a (Z.to_nat q) (Z.to_nat (x - a)) ltac:(lia)) as N1.
  pose proof (nth_mem_read m a (Z.to_nat q) (Z.to_nat (x - a)) ltac:(lia)) as N2.
  rewrite HP, N2 in N1. by replace (a + Z.of_nat (Z.to_nat (x - a))) with x in N1 by lia.
Qed.

(** The extents around a block, given where they sit. *)
Lemma live_around base l1 l2 w a q :
  Forall blk_wf l1 -> Forall blk_wf l2 ->
  (a, q) ∈ live base l1 ++ live (base + extent l1 + w) l2 ->
  16 <= q /\ (base + 16 <= a /\ a + q <= base + extent l1 \/ base + extent l1 + w + 16 <= a).
Proof.
  intros W1 W2 [H|H]%elem_of_app; apply live_bounds in H; try done; lia.
Qed.

Lemma live_carve base l1 p need l2 :
  need <= p ->
  let fp := if p - need >=? 32 then need else p in
  live base (l1 ++ carve false p need ++ l2) ≡ₚ
  (base + extent l1 + 16, fp) :: live base l1 ++ live (base + extent l1 + (16 + p)) l2.
Proof.
  intros Hn fp. rewrite !live_app. unfold carve, fp. destruct (_ >=? _) eqn:E; cbn [live app extent].
  - rewrite <- Permutation_middle. do 2 f_equiv. apply reflexive_eq. f_equal. lia.
  - rewrite <- Permutation_middle. do 2 f_equiv. apply reflexive_eq. f_equal. lia.
Qed.

(** No byte outside the managed region changes. *)
Definition inside (A : lxp_arena) (m m' : mem) : Prop :=
  forall x, x < ar_base A \/ ar_base A + ar_size A <= x -> load8 m' x = load8 m x.

Lemma inside_refl A m : inside A m m.
Proof. done. Qed.

Lemma inside_trans A A' m m' m'' :
  ar_base A' = ar_base A -> ar_size A' = ar_size A ->
  inside A m m' -> inside A' m' m'' -> inside A m m''.
Proof. unfold inside. intros -> -> H1 H2 x Hx. by rewrite H2, H1. Qed.

Lemma inside_write A m a bs :
  ar_base A <= a -> a + Z.of_nat (length bs) <= ar_base A + ar_size A ->
  inside A m (mem_write m a bs).
Proof. intros H1 H2 x Hx. apply load8_write_out. lia. Qed.

(** Allocation: either it fails and changes nothing, or it adds one fresh extent. *)
Lemma alloc_client m A L size :
  arena_rep st m A L -> 0 <= size < 2 ^ 32 ->
  let '(r, m', A') := lxp_arena_alloc m A size in
  (r = 0 /\ m' = m /\ A' = A) \/
  exists cap L', size <= request size <= cap /\ 0 < r /\ r mod 16 = 0 /\ ar_base A + 16 <= r /\
    r + cap <= ar_base A + ar_size A /\
    arena_rep st m' A' L' /\ L' ≡ₚ (r, cap) :: L /\ same_ctl A A' /\
    (forall e, e ∈ L -> apart (r, cap) e) /\ preserves m m' L /\ inside A m m'.
Proof.
  intros (bs & HI & Hc & ->) Hs. pose proof (arena_alloc_refines m A bs size HI Hs) as HR.
  destruct (if request size =? 0 then None else _) as [[[l1 p] l2]|] eqn:Efit.
  2: { rewrite HR. left. done. }
  destruct (Z.eqb_spec (request size) 0); [done|].
  destruct (request_spec size Hs) as [|(R1 & R2 & R3)]; [done|].
  destruct HR as (m' & A' & -> & HI' & Hctl & Hframe). right.
  apply a_fit_some in Efit as [-> Hp].
  destruct HI as (Hb & _ & Hbm & Hsz & Hsm & Hend & Hwf & He & _ & _).
  pose proof Hwf as [W1 [[Wp Wm] W2]%Forall_cons]%Forall_app. simpl in Wp, Wm.
  rewrite extent_app in He. cbn [extent] in He.
  pose proof (extent_nonneg _ W1). pose proof (extent_nonneg _ W2). pose proof (extent_mod _ W1).
  set (fp := if p - request size >=? 32 then request size else p).
  assert (Hfp : request size <= fp <= p) by (unfold fp; destruct (_ >=? _); lia).
  assert (HL : live (ar_base A) (l1 ++ (p, true) :: l2) =
               live (ar_base A) l1 ++ live (ar_base A + extent l1 + (16 + p)) l2).
  { rewrite live_app. cbn [live app]. do 2 f_equal. lia. }
  exists fp, (live (ar_base A) (l1 ++ carve false p (request size) ++ l2)).
  split_and!; try lia; try done.
  - exists (l1 ++ carve false p (request size) ++ l2). split_and!; [done|intros; apply coalesced_carve; auto|].
    by destruct Hctl as (-> & _).
  - rewrite HL. apply live_carve. done.
  - intros [a q] Hin. rewrite HL in Hin. apply live_around in Hin; [|done|done].
    unfold apart. simpl. lia.
  - apply preserves_intro. intros a q x Hin Hx. rewrite HL in Hin.
    apply live_around in Hin; [|done|done]. apply Hframe. lia.
  - intros x Hx. apply Hframe. lia.
Qed.

(** Release: exactly the live payload addresses can be released. *)
Lemma live_locate base bs a q :
  Forall blk_wf bs -> (a, q) ∈ live base bs ->
  exists l1 l2, bs = l1 ++ (q, false) :: l2 /\ a_locate (a - base) bs = Some (l1, (q, false), l2) /\
                a = base + extent l1 + 16.
Proof.
  intros Hwf (l1 & l2 & -> & ->)%live_lookup. exists l1, l2. split_and!; try done.
  replace (base + extent l1 + 16 - base) with (extent l1 + 16) by lia.
  apply Forall_app in Hwf as [W1 _]. by apply a_locate_mid.
Qed.

Lemma live_join base l1 p l2 p' l2' :
  Forall blk_wf l1 -> a_join_next p l2 = (p', l2') ->
  live base (a_join_prev l1 p' ++ l2') = live base l1 ++ live (base + extent l1 + (16 + p)) l2.
Proof.
  intros W1 Hj. rewrite live_app.
  assert (Hp : live base (a_join_prev l1 p') = live base l1 /\
               extent (a_join_prev l1 p') = extent l1 + (16 + p')).
  { unfold a_join_prev. destruct l1 as [|[r f] l1 _] using rev_ind; [simpl; split; [done|lia]|].
    rewrite last_snoc, removelast_last.
    destruct f; rewrite ?live_app, ?extent_app; cbn [live extent app]; rewrite ?app_nil_r;
      split; try done; lia. }
  destruct Hp as [-> ->]. f_equal.
  unfold a_join_next in Hj. destruct l2 as [|[q [|]] t]; injection Hj as <- <-; cbn [live app];
    repeat (f_equal; try lia).
Qed.

Lemma free_client m A L a q :
  arena_rep st m A L -> (a, q) ∈ L ->
  exists m' A' L', arena_free_block m A a = (true, m', A') /\ arena_rep st m' A' L' /\
    L ≡ₚ (a, q) :: L' /\ same_ctl A A' /\ ar_high_water A' = ar_high_water A /\
    preserves m m' L /\ inside A m m'.
Proof.
  intros (bs & HI & Hc & ->) Hin. pose proof (arena_free_refines m A bs a HI) as HR.
  pose proof HI as (Hb & _ & _ & _ & _ & _ & Hwf & _).
  destruct (live_locate _ _ _ _ Hwf Hin) as (l1 & l2 & -> & Hloc & Ha).
  pose proof Hwf as [W1 [_ W2]%Forall_cons]%Forall_app. pose proof (extent_nonneg _ W1).
  destruct (Z.eqb_spec a 0); [lia|]. rewrite Hloc in HR.
  destruct (a_join_next q l2) as [p' l2'] eqn:Ej.
  destruct HR as (m' & A' & -> & HI' & Hctl & Hhw & _ & Hframe).
  exists m', A', (live (ar_base A) (a_join_prev l1 p' ++ l2')). split_and!; try done.
  - exists (a_join_prev l1 p' ++ l2'). split_and!; [done|intros; eapply coalesced_free; eauto|].
    by destruct Hctl as (-> & _).
  - rewrite (live_join _ _ _ _ _ _ W1 Ej), live_app. cbn [live app].
    rewrite <- Permutation_middle. rewrite Ha. do 2 f_equiv. apply reflexive_eq. f_equal. lia.
  - apply preserves_intro. intros c r x Hc' Hx. apply Hframe.
    apply live_lookup in Hc' as (k1 & k2 & Heq & Hcc). rewrite Heq in Hwf |- *.
    apply payload_not_hdr; [done|lia].
  - intros x Hx. apply Hframe. intros (pre & c & post & Heq & Hr).
    destruct HI as (_ & _ & _ & _ & _ & _ & _ & He & _). rewrite Heq in Hwf, He.
    pose proof Hwf as [V1 [[Vc _] V2]%Forall_cons]%Forall_app.
    pose proof (extent_nonneg _ V1). pose proof (extent_nonneg _ V2).
    rewrite extent_app in He. destruct c as [s g]. cbn [extent fst] in *. lia.
Qed.

Lemma free_client_foreign m A L a :
  arena_rep st m A L -> (forall q, (a, q) ∉ L) -> arena_free_block m A a = (false, m, A).
Proof.
  intros (bs & HI & Hc & ->) Hout. pose proof (arena_free_refines m A bs a HI) as HR.
  destruct (if a =? 0 then None else _) as [[[l1 [p fr]] l2]|] eqn:E; [|done].
  destruct fr; [done|]. exfalso. destruct (a =? 0); [done|].
  apply a_locate_some in E as [-> Hoff]. apply (Hout p).
  apply live_lookup. exists l1, l2. split; [done|lia].
Qed.

(** ** Writes inside a live extent *)

Lemma rep_write m A L a q x bs :
  arena_rep st m A L -> (a, q) ∈ L -> a <= x -> x + Z.of_nat (length bs) <= a + q ->
  arena_rep st (mem_write m x bs) A L.
Proof.
  intros (bl & HI & Hc & ->) Hin Hx Hl.
  exists bl. split_and!; [|done|done].
  destruct HI as (Hb & Hf & Hbm & Hsz & Hsm & Hend & Hwf & He & Hu & Ht).
  unfold arena_inv. split_and!; try done.
  apply live_lookup in Hin as (l1 & l2 & -> & ->).
  pose proof Hwf as [W1 [[Wq _] W2]%Forall_cons]%Forall_app. simpl in Wq.
  replace (l1 ++ (q, false) :: l2) with (l1 ++ [(q, false)] ++ l2) in * by done.
  pose proof Ht as (T1 & Tq & T2)%tiles_app.
  apply tiles_replace with (m := m) (mid := [(q, false)]); try done.
  - apply Forall_app in Hwf as [_ [? _]%Forall_app]. done.
  - intros y Hy. apply load8_write_out. simpl in Hy. lia.
  - split; [|done]. eapply hdr_ok_frame; [|done]. intros y Hy. apply load8_write_out. lia.
Qed.

Lemma arena_rep_typed m A L :
  arena_rep st m A L -> 0 < ar_base A /\ 0 <= ar_size A /\ ar_base A + ar_size A < 2 ^ 32.
Proof.
  intros (bs & (Hb & _ & _ & Hs & _ & Hend & _) & _). unfold UINTPTR_MAX in Hend. lia.
Qed.

Lemma rep_in_range m A L a q :
  arena_rep st m A L -> (a, q) ∈ L ->
  ar_base A + 16 <= a /\ a + q <= ar_base A + ar_size A /\ 16 <= q /\ a mod 16 = 0.
Proof.
  intros (bs & (Hb & _ & Hbm & _ & _ & _ & Hwf & He & _) & _ & ->) Hin.
  apply live_bounds in Hin; [lia|done].
Qed.

Lemma rep_disjoint m A L a q L0 :
  arena_rep st m A L -> L ≡ₚ (a, q) :: L0 -> forall e, e ∈ L0 -> apart (a, q) e.
Proof.
  intros (bs & (_ & _ & _ & _ & _ & _ & Hwf & _) & _ & ->) HP e He.
  pose proof (live_sorted (ar_base A) bs Hwf) as HS.
  assert (Hin : (a, q) ∈ live (ar_base A) bs) by (rewrite HP; left).
  apply list_elem_of_split in Hin as (k1 & k2 & Hk). rewrite Hk in HP, HS.
  rewrite <- Permutation_middle in HP. apply Permutation_cons_inv in HP.
  rewrite <- HP in He. apply elem_of_app in He as [He|He]; unfold apart.
  - apply StronglySorted_app_1_elem_of with (x1 := e) (x2 := (a, q)) in HS; [simpl in *; lia|done|left].
  - apply StronglySorted_app_1_r in HS. inversion HS as [|? ? _ HF]; subst.
    rewrite Forall_forall in HF. specialize (HF e He). simpl in *. lia.
Qed.

(** ** Reallocation *)

(** Growing in place over a free successor. *)
Lemma grow_spec m b p q t need :
  Forall blk_wf ((p, false) :: (q, true) :: t) -> p + q + extent t < 2 ^ 32 - 32 ->
  16 <= need -> p < need <= p + 16 + q -> need mod 16 = 0 ->
  tiles m b ((p, false) :: (q, true) :: t) ->
  let next := b + 16 + p in
  let total := p + 16 + q in
  let m1 := set_payload (set_magic m next 0) b total in
  let m' := split_block m1 b total need in
  tiles m' b (carve false total need ++ t) /\
  b_payload m' b = (if total - need >=? 32 then need else total) /\
  forall x, x < b \/ b + 16 <= x < b + 16 + p \/ b + 16 + total <= x -> load8 m' x = load8 m x.
Proof.
  intros [[Wp Wpm] [[Wq Wqm] Wt]%Forall_cons]%Forall_cons Hsz Hn Hnp Hnm (Hok & Hq & Ht) next total m1 m'.
  cbn [fst] in *. pose proof (extent_nonneg _ Wt).
  assert (F1 : forall x, x < b \/ b + 4 <= x < next + 8 \/ next + 12 <= x -> load8 m1 x = load8 m x).
  { intros. unfold m1. rewrite set_payload_frame by lia. apply set_magic_frame. lia. }
  assert (Hok1 : hdr_ok m1 b (total, false)).
  { apply set_payload_ok with p; [lia|]. eapply hdr_ok_frame; [|done].
    intros. apply set_magic_frame. lia. }
  assert (F2 : forall x, x < b \/ b + 16 <= x < b + 16 + p \/ b + 16 + total <= x ->
                 load8 m' x = load8 m x).
  { intros x Hx. unfold m'. rewrite split_block_frame; [|lia|unfold split_touch; lia].
    apply F1. lia. }
  destruct (carve_facts false total need) as (C1 & C2 & _); [lia..|].
  split_and!; [| |done].
  - apply tiles_app. split.
    + apply split_block_ok; [lia|lia|done].
    + rewrite C2. replace (b + (16 + total)) with (b + 16 + p + 16 + q) by lia.
      eapply tiles_frame; [done| |done]. intros. apply F2. lia.
  - apply split_block_payload with false; [lia|lia|done].
Qed.

(** The extents that stay when [(a, q)] is resized. *)
Definition resized (st : bool) (m : mem) (A : lxp_arena) (L : list (Z * Z)) (a q size r : Z)
    (m' : mem) (A' : lxp_arena) : Prop :=
  exists cap L0 L', size <= cap /\ r <> 0 /\ L ≡ₚ (a, q) :: L0 /\
    arena_rep st m' A' L' /\ L' ≡ₚ (r, cap) :: L0 /\ preserves m m' L0 /\ inside A m m' /\
    ar_base A' = ar_base A /\ ar_size A' = ar_size A /\
    mem_read m' r (Z.to_nat (Z.min q size)) = mem_read m a (Z.to_nat (Z.min q size)).

(** A change of the mapping records alone. *)
Lemma rep_mappings m A L l : arena_rep st m A L -> arena_rep st m (arena_set_mappings A l) L.
Proof. intros (bs & HI & Hc & ->). exists bs. done. Qed.

Lemma realloc_grow_client m A bs l1 p q t a size :
  arena_inv m A bs -> (st = true -> coalesced bs) -> 0 <= size < 2 ^ 32 ->
  bs = l1 ++ (p, false) :: (q, true) :: t -> a = ar_base A + extent l1 + 16 ->
  p < request size <= p + 16 + q ->
  let b := ar_base A + extent l1 in
  let total := p + 16 + q in
  let m' := split_block (set_payload (set_magic m (b + 16 + p) 0) b total) b total (request size) in
  let A' := arena_set_used A (ar_used A + (b_payload m' b - p)) in
  resized st m A (live (ar_base A) bs) a p size a m' A'.
Proof.
  intros HI Hc Hs -> -> Hr b total m' A'.
  destruct HI as (Hb & Hf & Hbm & Hsz & Hsm & Hend & Hwf & He & Hu & Ht). unfold UINTPTR_MAX in Hend.
  pose proof Hwf as [W1 Wm]%Forall_app.
  pose proof Wm as [[Wp Wpm] [[Wq Wqm] Wt]%Forall_cons]%Forall_cons. cbn [fst] in *.
  pose proof (extent_nonneg _ W1). pose proof (extent_nonneg _ Wt).
  rewrite extent_app in He. rewrite used_of_app in Hu. cbn [extent used_of] in He, Hu.
  destruct (request_spec size Hs) as [|(R1 & R2 & R3)]; [lia|].
  pose proof Ht as [T1 Tm]%tiles_app.
  destruct (grow_spec m b p q t (request size)) as (GT & GP & GF); [done|lia|lia|lia|done|done|].
  fold total m' in GT, GP, GF.
  destruct (carve_facts false total (request size)) as (C1 & C2 & C3); [lia..|].
  set (fp := if total - request size >=? 32 then request size else total) in *.
  assert (Hfp : request size <= fp <= total) by (unfold fp; destruct (_ >=? _); lia).
  set (L0 := live (ar_base A) l1 ++ live (ar_base A + extent l1 + (16 + total)) t).
  exists fp, L0, (live (ar_base A) (l1 ++ carve false total (request size) ++ t)).
  split_and!; try lia; try done.
  - unfold L0. rewrite live_app. cbn [live app]. rewrite <- Permutation_middle. do 2 f_equiv.
    apply reflexive_eq. f_equal. lia.
  - exists (l1 ++ carve false total (request size) ++ t). split_and!; [|intros; apply coalesced_grow; auto|done].
    unfold arena_inv, A', UINTPTR_MAX. rewrite GP. simpl. split_and!; try done.
    + apply Forall_app; split; [done|]. by apply Forall_app.
    + rewrite !extent_app. lia.
    + rewrite !used_of_app, C3. fold fp. lia.
    + apply tiles_app. split; [|done]. eapply tiles_frame; [done| |done]. intros. apply GF. lia.
  - unfold L0. apply live_carve. lia.
  - apply preserves_intro. intros c r x Hin Hx. unfold L0 in Hin.
    apply live_around in Hin; [|done|done]. apply GF. lia.
  - intros x Hx. apply GF. lia.
  - apply mem_read_ext. intros x Hx. apply GF. lia.
Qed.

(** Moving: allocate, copy, release. *)
Lemma realloc_move_client m A L a q size :
  arena_rep st m A L -> (a, q) ∈ L -> 0 <= size < 2 ^ 32 -> 
  let '(r, m1, A1) := lxp_arena_alloc m A size in
  r <> 0 ->
  let n := if q <? size then q else size in
  let m2 := mem_write m1 r (mem_read m1 a (Z.to_nat n)) in
  exists m3 A3, arena_free_block m2 A1 a = (true, m3, A3) /\ resized st m A L a q size r m3 A3.
Proof.
  intros HR Hin Hs. pose proof (alloc_client m A L size HR Hs) as HA.
  destruct (lxp_arena_alloc m A size) as [[r m1] A1].
  destruct HA as [(-> & -> & ->)|(cap & L1 & Hcap & Hr & Hal & Hlo & Hhi & HR1 & HP1 & Hctl & Hdis & Hpres & Hin1)];
    [done|]. intros Hr0 n m2.
  assert (Hn : n = Z.min q size) by (unfold n; destruct (Z.ltb_spec q size); lia).
  pose proof (rep_in_range _ _ _ _ _ HR Hin) as (Ha1 & Ha2 & Ha3 & _).
  assert (HR2 : arena_rep st m2 A1 L1).
  { apply rep_write with r cap; [done|rewrite HP1; left|lia|rewrite length_mem_read; lia]. }
  assert (HaL1 : (a, q) ∈ L1) by (rewrite HP1; by right).
  destruct (free_client m2 A1 L1 a q HR2 HaL1) as (m3 & A3 & L3 & -> & HR3 & HP3 & Hctl3 & _ & Hpres3 & Hin3).
  exists m3, A3. split; [done|].
  pose proof Hin as (k1 & k2 & Hk)%list_elem_of_split.
  assert (HL0 : L ≡ₚ (a, q) :: k1 ++ k2) by (rewrite Hk; symmetry; apply Permutation_middle).
  assert (HP3' : L3 ≡ₚ (r, cap) :: k1 ++ k2).
  { rewrite HP1, HL0 in HP3. symmetry. apply (Permutation_cons_inv (a := (a, q))).
    rewrite <- HP3. apply perm_swap. }
  assert (Hdis2 : apart (r, cap) (a, q)) by (apply Hdis; done). unfold apart in Hdis2.
  simpl in Hdis2.
  exists cap, (k1 ++ k2), L3. destruct Hctl as (E1 & E2 & _). destruct Hctl3 as (E3 & E4 & _).
  split_and!; try done; try congruence; try lia.
  - apply preserves_intro. intros c s x Hc Hx.
    assert (HcL : (c, s) ∈ L) by (rewrite HL0; by right).
    assert (HcL1 : (c, s) ∈ L1) by (rewrite HP1; by right).
    rewrite (preserves_load8 _ _ _ c s x Hpres3 HcL1 Hx). unfold m2.
    rewrite load8_write_out; [by apply (preserves_load8 _ _ _ c s x Hpres HcL)|].
    rewrite length_mem_read. specialize (Hdis (c, s) HcL). unfold apart in Hdis. simpl in Hdis. lia.
  - apply inside_trans with A1 m2; try done.
    apply inside_trans with A m1; try done. apply inside_write; rewrite ?length_mem_read; lia.
  - rewrite <- Hn. transitivity (mem_read m2 r (Z.to_nat n)).
    + apply mem_read_ext. intros x Hx.
      apply (preserves_load8 _ _ _ r cap x Hpres3); [rewrite HP1; left|lia].
    + pose proof (mem_read_write_same m1 r (mem_read m1 a (Z.to_nat n))) as Hw.
      rewrite length_mem_read in Hw. fold m2 in Hw. rewrite Hw, map_u8_mem_read.
      apply mem_read_ext. intros x Hx. apply (preserves_load8 _ _ _ a q x Hpres Hin). lia.
Qed.

(** ** The operations on live extents *)

Lemma realloc_client m A L a q size :
  arena_rep st m A L -> (a, q) ∈ L -> 0 <= size < 2 ^ 32 ->
  let '(r, m', A') := lxp_arena_realloc m A a size in
  (r = 0 /\ m' = m /\ A' = A) \/ resized st m A L a q size r m' A'.
Proof.
  intros HR Hin Hs. pose proof (rep_in_range _ _ _ _ _ HR Hin) as (Ha1 & Ha2 & Ha3 & _).
  pose proof (arena_rep_typed _ _ _ HR) as (Hb & _).
  pose proof HR as (bs & HI & Hc & HL). pose proof (arena_inv_valid _ _ _ HI) as HV.
  unfold lxp_arena_realloc. destruct (Z.eqb_spec a 0); [lia|]. rewrite HV. cbn [negb].
  fold (request size). destruct (Z.eqb_spec (request size) 0); [by left|].
  destruct (request_spec size Hs) as [|(R1 & R2 & R3)]; [done|].
  pose proof HI as (_ & _ & _ & _ & _ & Hend & Hwf & He & Hu & Ht).
  rewrite HL in Hin. destruct (live_locate _ _ _ _ Hwf Hin) as (l1 & l2 & Hbs & Hloc & Haa).
  unfold arena_find_payload.
  replace (ar_base A + ar_size A) with (ar_base A + extent bs) by lia.
  rewrite find_walk_spec by (done || by apply arena_fuel_enough). rewrite Hloc.
  set (b := ar_base A + extent l1).
  assert (Hok : tiles m b ((q, false) :: l2)) by (rewrite Hbs in Ht; by apply tiles_app in Ht as [_ ?]).
  destruct Hok as ((B1 & B2 & B3) & T2). cbn [fst snd] in *. rewrite B1, B2. cbn [b2z Z.eqb negb].
  destruct (request size <=? q) eqn:Efits.
  { right. pose proof Hin as (k1 & k2 & Hk)%list_elem_of_split. rewrite <- HL in Hk.
    exists q, (k1 ++ k2), L. split_and!; try done; try lia.
    - rewrite Hk. symmetry. apply Permutation_middle.
    - rewrite Hk. symmetry. apply Permutation_middle. }
  arena_consts. rewrite <- HL in Hin.
  destruct ((b + 16 + q <? _) && _ && _) eqn:Egrow.
  - right. destruct l2 as [|[c [|]] t].
    + rewrite Hbs, extent_app in Egrow. simpl in Egrow. lia.
    + destruct T2 as ((Q1 & Q2 & Q3) & _). cbn [fst snd] in *. rewrite Q1 in *.
      pose proof (realloc_grow_client m A bs l1 q c t a size HI Hc Hs Hbs Haa ltac:(lia)) as HG.
      cbv zeta in HG. fold b in HG. rewrite <- HL in HG.
      destruct HG as (cap & L0 & L' & G1 & G2 & G3 & G4 & G5 & G6 & G7 & G8 & G9 & G10).
      by exists cap, L0, L'.
    + destruct T2 as ((Q1 & Q2 & Q3) & _). cbn [fst snd] in *. rewrite Q2 in Egrow.
      simpl in Egrow. lia.
  - pose proof (realloc_move_client m A L a q size HR Hin Hs) as HM.
    pose proof (alloc_client m A L size HR Hs) as HA.
    destruct (lxp_arena_alloc m A size) as [[r m1] A1].
    destruct (Z.eqb_spec r 0) as [->|Hr0].
    { left. destruct HA as [(_ & -> & ->)|(cap & L1 & _ & ? & _)]; [done|lia]. }
    destruct (HM Hr0) as (m3 & A3 & -> & HZ). cbn [negb]. right.
    destruct HZ as (cap & L0 & L' & G1 & G2 & G3 & G4 & G5 & G6 & G7 & G8 & G9 & G10).
    exists cap, L0, L'. destruct (find_first _ _); done.
Qed.

(** A pointer that is no live payload start is refused by every operation. *)
Lemma realloc_client_foreign m A L a size :
  arena_rep st m A L -> a <> 0 -> (forall q, (a, q) ∉ L) ->
  lxp_arena_realloc m A a size = (0, m, A).
Proof.
  intros (bs & HI & Hc & ->) Ha Hout. unfold lxp_arena_realloc.
  rewrite (arena_inv_valid _ _ _ HI). destruct (Z.eqb_spec a 0); [done|]. cbn [negb].
  destruct (_ =? 0); [done|].
  destruct HI as (_ & _ & _ & _ & _ & _ & Hwf & He & _ & Ht). unfold arena_find_payload.
  replace (ar_base A + ar_size A) with (ar_base A + extent bs) by lia.
  rewrite find_walk_spec by (done || by apply arena_fuel_enough).
  destruct (a_locate _ bs) as [[[l1 [p fr]] l2]|] eqn:E; [|done].
  apply a_locate_some in E as [-> Hoff].
  destruct fr.
  - apply tiles_app in Ht as (_ & (_ & B2 & _) & _). cbn [snd b2z] in B2. by rewrite B2.
  - exfalso. apply (Hout p). apply live_lookup. exists l1, l2. split; [done|lia].
Qed.

(** ** Start and reset *)

Lemma lay_first_rep m A :
  0 < ar_base A -> ar_base A mod 16 = 0 -> 32 <= ar_size A -> ar_size A mod 16 = 0 ->
  ar_base A + ar_size A <= UINTPTR_MAX ->
  let '(m', A') := arena_lay_first m A in
  arena_rep st m' A' [] /\ inside A m m' /\ ar_base A' = ar_base A /\ ar_size A' = ar_size A.
Proof.
  intros Hb Hbm Hs Hsm Hend. unfold arena_lay_first. arena_consts. unfold UINTPTR_MAX in *.
  split_and!; try done.
  - exists [(ar_size A - 16, true)]. split_and!; [|done|done].
    unfold arena_inv, UINTPTR_MAX. cbn [ar_base ar_size ar_first ar_used extent used_of tiles].
    split_and!; try done; try lia.
    + repeat constructor; simpl; lia.
    + apply put_free_header_ok. lia.
  - intros x Hx. apply put_free_header_frame. lia.
Qed.

Lemma init_client m A buf size :
  0 <= buf -> 0 <= size -> buf + size <= UINTPTR_MAX ->
  let '(rc, m', A') := lxp_arena_init m A buf size in
  (rc <> LXP_OK /\ m' = m /\ A' = A) \/
  (rc = LXP_OK /\ arena_rep st m' A' [] /\ ar_used A' = 0 /\ ar_high_water A' = 0 /\
   buf <= ar_base A' < buf + 16 /\ ar_base A' + ar_size A' <= buf + size /\ inside A' m m').
Proof.
  intros Hb Hs Hend. unfold lxp_arena_init. unfold ALIGN_MASK. arena_consts. unfold UINTPTR_MAX in *.
  destruct (Z.eqb_spec buf 0); [by left|].
  destruct (_ >? _) eqn:E1; [by left|].
  rewrite land_down16 by lia.
  destruct (_ <=? _) eqn:E2; [by left|].
  rewrite land_down16 by lia.
  destruct (_ <? _) eqn:E3; [by left|].
  set (A0 := arena_clear_mappings _).
  assert (HB0 : ar_base A0 = buf + (buf + 15 - (buf + 15) mod 16 - buf)) by done.
  assert (HS0 : ar_size A0 = size - (buf + 15 - (buf + 15) mod 16 - buf) -
                (size - (buf + 15 - (buf + 15) mod 16 - buf)) mod 16) by done.
  pose proof (lay_first_rep m A0 ltac:(lia) ltac:(lia) ltac:(lia) ltac:(lia)
                ltac:(unfold UINTPTR_MAX; lia)) as H.
  destruct (arena_lay_first m A0) as [m' A'] eqn:EL.
  destruct H as (HR & HI & HB & HS). unfold arena_lay_first in EL. right.
  split_and!; try done; try lia.
  - by injection EL as _ <-.
  - by injection EL as _ <-.
  - unfold inside in *. by rewrite HB, HS.
Qed.

Lemma reset_client m A L :
  arena_rep st m A L ->
  let '(m', A') := lxp_arena_reset m A in
  arena_rep st m' A' [] /\ inside A m m' /\ ar_base A' = ar_base A /\ ar_size A' = ar_size A.
Proof.
  intros (bs & (Hb & Hf & Hbm & Hs & Hsm & Hend & _) & _). unfold lxp_arena_reset.
  destruct (Z.eqb_spec (ar_base A) 0); [lia|].
  apply (lay_first_rep m (arena_clear_mappings A)); done.
Qed.

(** Zeroed allocation: as allocation, and the requested bytes read as zero. *)
Lemma calloc_client m A L size :
  arena_rep st m A L -> 0 <= size < 2 ^ 32 ->
  let '(r, m', A') := lxp_arena_calloc m A size in
  (r = 0 /\ m' = m /\ A' = A) \/
  exists cap L', size <= cap /\ 0 < r /\ arena_rep st m' A' L' /\ L' ≡ₚ (r, cap) :: L /\
    same_ctl A A' /\ preserves m m' L /\ inside A m m' /\
    mem_read m' r (Z.to_nat size) = replicate (Z.to_nat size) 0.
Proof.
  intros HR Hs. unfold lxp_arena_calloc. fold (request size).
  destruct (Z.eqb_spec (request size) 0); [by left|].
  pose proof (alloc_client m A L size HR Hs) as HA.
  destruct (lxp_arena_alloc m A size) as [[r m1] A1].
  destruct HA as [(-> & -> & ->)|(cap & L1 & Hcap & Hr & Hal & Hlo & Hhi & HR1 & HP1 & Hctl & Hdis & Hpres & Hin1)];
    [by left|].
  destruct (Z.eqb_spec r 0); [lia|]. right. exists cap, L1.
  assert (Hlen : Z.of_nat (length (replicate (Z.to_nat (request size)) 0)) = request size)
    by (rewrite length_replicate; lia).
  unfold mem_set. split_and!; try done; try lia.
  - apply rep_write with r cap; [done|rewrite HP1; left|lia|lia].
  - apply preserves_intro. intros a q x Hin Hx. rewrite load8_write_out.
    + by apply (preserves_load8 _ _ _ a q x Hpres).
    + specialize (Hdis (a, q) Hin). unfold apart in Hdis. simpl in Hdis. lia.
  - destruct Hctl as (E1 & E2 & _). apply inside_trans with A m1; try done. apply inside_write; lia.
  - pose proof (mem_read_write_same m1 r (replicate (Z.to_nat (request size)) 0)) as Hw.
    rewrite length_replicate in Hw.
    replace (Z.to_nat (request size)) with
      (Z.to_nat size + Z.to_nat (request size - size))%nat in Hw at 2 by lia.
    rewrite mem_read_app in Hw. apply (f_equal (take (Z.to_nat size))) in Hw.
    rewrite take_app_length' in Hw by (by rewrite length_mem_read). rewrite Hw.
    rewrite fmap_replicate, take_replicate. f_equal. lia.
Qed.

End Clients.
