(* ===== verification/ArenaProps.v ===== *)
(** * Properties of the arena allocator

    The theorems about src/lxp_arena.c.  A run of the arena is a sequence of its
    operations with arbitrary C arguments, interleaved with stores that stay inside
    a live allocation ([arena_step]). *)

From S2P Require Import Prelude Config Arena ArenaSpec ArenaClient.
From stdpp Require Import relations.
Local Open Scope Z_scope.

(** ** Operation sequences *)

Definition size_arg (n : Z) : Prop := 0 <= n < 2 ^ 32.

(** The operations with their C arguments. *)
Inductive arena_op :=
| OpAlloc (n : Z)
| OpCalloc (n : Z)
| OpRealloc (p n : Z)
| OpFree (p : Z)
| OpAllocTracked (n : Z)
| OpFreeTracked (p n : Z)
| OpReset.

Definition op_ok (op : arena_op) : Prop :=
  match op with
  | OpAlloc n | OpCalloc n | OpRealloc _ n | OpAllocTracked n => size_arg n
  | _ => True
  end.

Definition run_op (op : arena_op) (m : mem) (A : lxp_arena) : mem * lxp_arena :=
  match op with
  | OpAlloc n => let '(_, m, A) := lxp_arena_alloc m A n in (m, A)
  | OpCalloc n => let '(_, m, A) := lxp_arena_calloc m A n in (m, A)
  | OpRealloc p n => let '(_, m, A) := lxp_arena_realloc m A p n in (m, A)
  | OpFree p => lxp_arena_free m A p
  | OpAllocTracked n => let '(_, m, A) := lxp_arena_alloc_tracked m A n in (m, A)
  | OpFreeTracked p n => let '(_, m, A) := lxp_arena_free_tracked m A p n in (m, A)
  | OpReset => lxp_arena_reset m A
  end.

Inductive arena_step : mem * lxp_arena -> mem * lxp_arena -> Prop :=
| step_op m A op : op_ok op -> arena_step (m, A) (run_op op m A)
| step_store m A L a q x bs :
    arena_rep true m A L -> (a, q) ∈ L -> a <= x -> x + Z.of_nat (length bs) <= a + q ->
    arena_step (m, A) (mem_write m x bs, A).

(** What an operation keeps of the arena it runs on. *)
Definition keeps (st : bool) (m : mem) (A : lxp_arena) (m' : mem) (A' : lxp_arena) : Prop :=
  (exists L', arena_rep st m' A' L') /\ inside A m m' /\
  ar_base A' = ar_base A /\ ar_size A' = ar_size A.

Lemma keeps_refl st m A L : arena_rep st m A L -> keeps st m A m A.
Proof. intros H. unfold keeps. split_and!; try done. by exists L. Qed.

Lemma keeps_mappings st m A m' A' l : keeps st m A m' A' -> keeps st m A m' (arena_set_mappings A' l).
Proof.
  intros ((L' & H) & ? & ? & ?). unfold keeps. split_and!; try done.
  exists L'. by apply rep_mappings.
Qed.

Lemma live_dec (L : list (Z * Z)) a : (exists q, (a, q) ∈ L) \/ (forall q, (a, q) ∉ L).
Proof.
  induction L as [|[b p] L [[q Hq]|IH]].
  - right. intros q Hq. by apply not_elem_of_nil in Hq.
  - left. exists q. by right.
  - destruct (decide (a = b)) as [->|Hne]; [left; exists p; left|].
    right. intros q [Hq|Hq]%elem_of_cons; [congruence|]. by apply (IH q).
Qed.

Lemma alloc_keeps st m A L n r m' A' :
  arena_rep st m A L -> size_arg n -> lxp_arena_alloc m A n = (r, m', A') -> keeps st m A m' A'.
Proof.
  intros HR Hn E. pose proof (alloc_client st m A L n HR Hn) as H. rewrite E in H.
  destruct H as [(-> & -> & ->)|(cap & L' & _ & _ & _ & _ & _ & H & _ & (B & S & _) & _ & _ & I)].
  - by eapply keeps_refl.
  - unfold keeps. split_and!; try done. by exists L'.
Qed.

Lemma free_block_keeps st m A L p r m' A' :
  arena_rep st m A L -> arena_free_block m A p = (r, m', A') -> keeps st m A m' A'.
Proof.
  intros HR E. destruct (live_dec L p) as [[q Hq]|Hno].
  - destruct (free_client st m A L p q HR Hq) as (m1 & A1 & L1 & E' & H & _ & (B & S & _) & _ & _ & I).
    rewrite E' in E. injection E as <- <- <-. unfold keeps. split_and!; try done. by exists L1.
  - rewrite (free_client_foreign st m A L p HR Hno) in E. injection E as <- <- <-.
    by eapply keeps_refl.
Qed.

Lemma realloc_keeps st m A L p n r m' A' :
  arena_rep st m A L -> size_arg n -> lxp_arena_realloc m A p n = (r, m', A') -> keeps st m A m' A'.
Proof.
  intros HR Hn E. destruct (decide (p = 0)) as [->|Hp].
  { unfold lxp_arena_realloc in E. simpl in E. by eapply alloc_keeps. }
  destruct (live_dec L p) as [[q Hq]|Hno].
  - pose proof (realloc_client st m A L p q n HR Hq Hn) as H. rewrite E in H.
    destruct H as [(-> & -> & ->)|(cap & L0 & L' & _ & _ & _ & H & _ & _ & I & B & S & _)].
    + by eapply keeps_refl.
    + unfold keeps. split_and!; try done. by exists L'.
  - rewrite (realloc_client_foreign st m A L p n HR Hp Hno) in E. injection E as <- <- <-.
    by eapply keeps_refl.
Qed.

Lemma calloc_keeps st m A L n r m' A' :
  arena_rep st m A L -> size_arg n -> lxp_arena_calloc m A n = (r, m', A') -> keeps st m A m' A'.
Proof.
  intros HR Hn E. pose proof (calloc_client st m A L n HR Hn) as H. rewrite E in H.
  destruct H as [(-> & -> & ->)|(cap & L' & _ & _ & H & _ & (B & S & _) & _ & I & _)].
  - by eapply keeps_refl.
  - unfold keeps. split_and!; try done. by exists L'.
Qed.

Lemma run_op_keeps st m A L op :
  arena_rep st m A L -> op_ok op ->
  let '(m', A') := run_op op m A in keeps st m A m' A'.
Proof.
  intros HR Hok. destruct op as [n|n|p n|p|n|p n|]; simpl in *.
  - destruct (lxp_arena_alloc m A n) as [[r m1] A1] eqn:E. by eapply alloc_keeps.
  - destruct (lxp_arena_calloc m A n) as [[r m1] A1] eqn:E. by eapply calloc_keeps.
  - destruct (lxp_arena_realloc m A p n) as [[r m1] A1] eqn:E. by eapply realloc_keeps.
  - unfold lxp_arena_free. destruct (arena_free_block m A p) as [[ok m1] A1] eqn:E.
    apply (free_block_keeps st m A L) in E; [|done].
    destruct ok; [by apply keeps_mappings|done].
  - unfold lxp_arena_alloc_tracked. destruct (find_first _ _); [|by eapply keeps_refl].
    destruct (lxp_arena_alloc m A n) as [[p m1] A1] eqn:E.
    apply (alloc_keeps st m A L) in E; [|done|done].
    destruct (p =? 0); [done|by apply keeps_mappings].
  - unfold lxp_arena_free_tracked. destruct (p =? 0); [by eapply keeps_refl|].
    destruct (find_first _ _); [|by eapply keeps_refl].
    destruct (arena_free_block m A p) as [[ok m1] A1] eqn:E.
    apply (free_block_keeps st m A L) in E; [|done].
    destruct ok; [by apply keeps_mappings|done].
  - pose proof (reset_client st m A L HR) as HC.
    destruct (lxp_arena_reset m A) as [m1 A1]. destruct HC as (? & ? & ? & ?).
    unfold keeps. split_and!; try done. by exists [].
Qed.

Lemma step_keeps m A L m' A' :
  arena_rep true m A L -> arena_step (m, A) (m', A') -> keeps true m A m' A'.
Proof.
  intros HR H. inversion H as [? ? op Hop E|? ? L0 a q x bs HR0 Hin Hx Hl]; subst.
  - pose proof (run_op_keeps true m A L op HR Hop) as HK.
    by match goal with E : run_op _ _ _ = _ |- _ => rewrite E in HK end.
  - unfold keeps. split_and!; try done.
    + exists L0. by apply rep_write with a q.
    + pose proof (rep_in_range _ _ _ _ _ _ HR0 Hin). apply inside_write; lia.
Qed.

Lemma steps_keep s s' :
  rtc arena_step s s' -> forall L, arena_rep true s.1 s.2 L -> keeps true s.1 s.2 s'.1 s'.2.
Proof.
  induction 1 as [s|[m A] [m1 A1] [m2 A2] Hst _ IH]; intros L HR.
  - by eapply keeps_refl.
  - destruct (step_keeps _ _ _ _ _ HR Hst) as ((L1 & HR1) & I1 & B1 & S1).
    destruct (IH L1 HR1) as ((L2 & HR2) & I2 & B2 & S2). simpl in *.
    unfold keeps. split_and!; try congruence; [by exists L2|].
    by apply inside_trans with A1 m1.
Qed.

(** ** Properties *)

(** C2: Starting from a successful [lxp_arena_init] over a buffer, any sequence of arena
    operations with any arguments, interleaved with stores that stay inside live
    allocations, leaves an arena whose live allocations are aligned to
    [LXP_ARENA_ALIGN], lie inside the buffer and are pairwise disjoint, and has
    changed no byte outside the buffer. *)
Theorem arena_reachable_safe m0 A0 buf size m A m' A' :
  0 <= buf -> 0 <= size -> buf + size <= UINTPTR_MAX ->
  lxp_arena_init m0 A0 buf size = (LXP_OK, m, A) ->
  rtc arena_step (m, A) (m', A') ->
  exists L, arena_rep true m' A' L /\
    (forall a q, (a, q) ∈ L -> buf <= a /\ a + q <= buf + size /\ a mod LXP_ARENA_ALIGN = 0) /\
    (forall a q L0, L ≡ₚ (a, q) :: L0 -> forall e, e ∈ L0 -> apart (a, q) e) /\
    (forall x, x < buf \/ buf + size <= x -> load8 m' x = load8 m0 x).
Proof.
  intros Hb Hs Hend Hinit Hrun.
  pose proof (init_client true m0 A0 buf size Hb Hs Hend) as HI. rewrite Hinit in HI.
  destruct HI as [[? _]|(_ & HR & _ & _ & HB & HE & I0)]; [done|].
  destruct (steps_keep _ _ Hrun [] HR) as ((L & HR') & I1 & B1 & S1). simpl in *.
  exists L. split_and!; [done| | |].
  - intros a q Hin. pose proof (rep_in_range _ _ _ _ _ _ HR' Hin).
    unfold LXP_ARENA_ALIGN. lia.
  - intros a q L0 HP e He. by apply (rep_disjoint true m' A' L a q L0).
  - intros x Hx. rewrite I1 by lia. apply I0. lia.
Qed.

Definition wit_mem : mem := fun _ => 0.
Definition wit_arena : mem * lxp_arena :=
  let '(_, m, A) := lxp_arena_init wit_mem arena_zero 4096 256 in (m, A).

Lemma arena_reachable_safe_witness :
  exists L, arena_rep true (run_op (OpAlloc 20) wit_arena.1 wit_arena.2).1
                      (run_op (OpAlloc 20) wit_arena.1 wit_arena.2).2 L.
Proof.
  destruct (arena_reachable_safe wit_mem arena_zero 4096 256 wit_arena.1 wit_arena.2
              (run_op (OpAlloc 20) wit_arena.1 wit_arena.2).1
              (run_op (OpAlloc 20) wit_arena.1 wit_arena.2).2) as (L & H & _).
  - lia.
  - lia.
  - unfold UINTPTR_MAX. lia.
  - reflexivity.
  - apply rtc_once. rewrite <- (surjective_pairing (run_op _ _ _)).
    apply step_op. simpl. unfold size_arg. lia.
  - by exists L.
Defined.

(** [lxp_arena_alloc] refines first-fit allocation on the list of blocks: it takes the
    first free block whose payload holds the rounded request, splits off the tail when
    another header and a minimum slot fit in it, and otherwise fails changing nothing;
    only bytes of the chosen block change. *)
Theorem arena_alloc_refines_first_fit m A bs size :
  arena_inv m A bs -> size_arg size ->
  match (if request size =? 0 then None else a_alloc (request size) bs) with
  | None => lxp_arena_alloc m A size = (0, m, A)
  | Some (off, bs') =>
      exists m' A', lxp_arena_alloc m A size = (ar_base A + off, m', A') /\
        arena_inv m' A' bs' /\ same_ctl A A' /\
        forall x, ~ (ar_base A + off - 16 <= x < ar_base A + ar_size A) -> load8 m' x = load8 m x
  end.
Proof.
  intros HI Hs. pose proof (arena_alloc_refines m A bs size HI Hs) as HR.
  destruct HI as (_ & _ & _ & _ & _ & _ & Hwf & He & _).
  unfold a_alloc. destruct (request size =? 0); [done|].
  destruct (a_fit (request size) bs) as [[[l1 p] l2]|] eqn:E; [|done].
  destruct HR as (m' & A' & Heq & HI' & Hc & Hx). exists m', A'.
  replace (ar_base A + (extent l1 + 16)) with (ar_base A + extent l1 + 16) by lia.
  split_and!; try done. intros x Hn. apply Hx.
  apply a_fit_some in E as [-> _]. apply Forall_app in Hwf as [_ [_ W2]%Forall_cons].
  pose proof (extent_nonneg _ W2). rewrite extent_app in He. cbn [extent] in He. lia.
Qed.

Lemma wit_arena_inv : arena_inv wit_arena.1 wit_arena.2 [(240, true)].
Proof.
  unfold arena_inv. split_and!; try (vm_compute; congruence); try (vm_compute; reflexivity).
  - repeat constructor; vm_compute; congruence.
  - simpl. unfold hdr_ok. split_and!; vm_compute; reflexivity.
Qed.

Lemma arena_alloc_refines_first_fit_witness :
  exists m' A', lxp_arena_alloc wit_arena.1 wit_arena.2 20 = (4096 + 16, m', A') /\
    arena_inv m' A' [(32, false); (192, true)].
Proof.
  pose proof (arena_alloc_refines_first_fit wit_arena.1 wit_arena.2 [(240, true)] 20
                wit_arena_inv ltac:(unfold size_arg; lia)) as H.
  replace (if request 20 =? 0 then None else a_alloc (request 20) [(240, true)])
    with (Some (16, [(32, false); (192, true)])) in H
    by (vm_compute; reflexivity).
  destruct H as (m' & A' & H1 & H2 & _). exists m', A'. split; [exact H1|exact H2].
Defined.

(** [lxp_arena_free] refines release with boundary coalescing: a pointer that is the
    payload start of an allocated block returns that block, merged with a free
    successor and a free predecessor, touching header bytes only; any other pointer
    (interior, foreign, double free) changes nothing. *)
Theorem arena_free_refines_coalescing m A bs ptr :
  arena_inv m A bs -> ptr <> 0 ->
  match a_free (ptr - ar_base A) bs with
  | None => lxp_arena_free m A ptr = (m, A)
  | Some bs' =>
      exists m' A', lxp_arena_free m A ptr = (m', A') /\ arena_inv m' A' bs' /\
        ar_high_water A' = ar_high_water A /\
        ar_mappings A' = mappings_forget ptr (ar_mappings A) /\
        forall x, ~ hdr_byte (ar_base A) bs x -> load8 m' x = load8 m x
  end.
Proof.
  intros HI Hp. pose proof (arena_free_refines m A bs ptr HI) as HR.
  unfold a_free, lxp_arena_free. destruct (Z.eqb_spec ptr 0); [done|].
  destruct (a_locate _ bs) as [[[l1 [p [|]]] l2]|]; [by rewrite HR| |by rewrite HR].
  destruct (a_join_next p l2) as [p' l2'].
  destruct HR as (m' & A' & -> & HI' & (E1 & E2 & E3 & E4) & Hhw & _ & Hx). cbn [negb].
  do 2 eexists. split; [reflexivity|]. rewrite E4. done.
Qed.

Definition wit_alloc : mem * lxp_arena := run_op (OpAlloc 20) wit_arena.1 wit_arena.2.

Lemma wit_alloc_inv : arena_inv wit_alloc.1 wit_alloc.2 [(32, false); (192, true)].
Proof.
  unfold arena_inv. split_and!; try (vm_compute; congruence); try (vm_compute; reflexivity).
  - repeat constructor; vm_compute; congruence.
  - cbn [tiles]. unfold hdr_ok. split_and!; vm_compute; reflexivity.
Qed.

Lemma arena_free_refines_coalescing_witness :
  exists m' A', lxp_arena_free wit_alloc.1 wit_alloc.2 4112 = (m', A') /\
    arena_inv m' A' [(240, true)].
Proof.
  pose proof (arena_free_refines_coalescing wit_alloc.1 wit_alloc.2
                [(32, false); (192, true)] 4112 wit_alloc_inv ltac:(lia)) as H.
  replace (a_free _ _) with (Some [(240, true)]) in H by (vm_compute; reflexivity).
  destruct H as (m' & A' & H1 & H2 & _). exists m', A'. split; [exact H1|exact H2].
Defined.

(** [lxp_arena_realloc] of a live allocation either fails leaving memory and control
    block untouched, or returns an allocation that holds the requested size and starts
    with the old contents, while every other live allocation keeps its place and its
    bytes. *)
Theorem arena_realloc_keeps_contents m A L a q size :
  arena_rep true m A L -> (a, q) ∈ L -> size_arg size ->
  let '(r, m', A') := lxp_arena_realloc m A a size in
  (r = 0 /\ m' = m /\ A' = A) \/
  exists cap L0 L', size <= cap /\ L ≡ₚ (a, q) :: L0 /\
    arena_rep true m' A' L' /\ L' ≡ₚ (r, cap) :: L0 /\ preserves m m' L0 /\
    mem_read m' r (Z.to_nat (Z.min q size)) = mem_read m a (Z.to_nat (Z.min q size)).
Proof.
  intros HR Hin Hs. pose proof (realloc_client true m A L a q size HR Hin Hs) as H.
  destruct (lxp_arena_realloc m A a size) as [[r m'] A'].
  destruct H as [?|(cap & L0 & L' & H1 & _ & H2 & H3 & H4 & H5 & _ & _ & _ & H6)]; [by left|].
  right. by exists cap, L0, L'.
Qed.

Lemma arena_realloc_keeps_contents_witness :
  let '(r, m', A') := lxp_arena_realloc wit_alloc.1 wit_alloc.2 4112 100 in
  r = 4112 /\ mem_read m' r 32 = mem_read wit_alloc.1 4112 32.
Proof.
  assert (HR : arena_rep true wit_alloc.1 wit_alloc.2 [(4112, 32)]).
  { exists [(32, false); (192, true)]. split_and!; [exact wit_alloc_inv|done|done]. }
  pose proof (arena_realloc_keeps_contents wit_alloc.1 wit_alloc.2 [(4112, 32)] 4112 32 100 HR
                ltac:(left) ltac:(unfold size_arg; lia)) as H.
  destruct (lxp_arena_realloc wit_alloc.1 wit_alloc.2 4112 100) as [[r m'] A'] eqn:E.
  assert (Hr : r = 4112) by (apply (f_equal (fun t => t.1.1)) in E; vm_compute in E; done).
  destruct H as [(H & _)|(cap & L0 & L' & _ & _ & _ & _ & _ & H)]; [subst; done|].
  split; [done|exact H].
Defined.

(** A control block as [lxp_arena_init] leaves it; it lives outside guest memory. *)
Definition ctl_ok (A : lxp_arena) : Prop :=
  0 < ar_base A /\ ar_base A mod 16 = 0 /\ 32 <= ar_size A /\ ar_size A mod 16 = 0 /\
  ar_base A + ar_size A <= UINTPTR_MAX.

#[export] Instance arena_op_eq_dec : EqDecision arena_op.
Proof. solve_decision. Defined.

Lemma run_op_invalid m A op :
  arena_layout_valid m A = false -> op <> OpReset -> run_op op m A = (m, A).
Proof.
  intros HV Hop. destruct op as [n|n|p n|p|n|p n|]; simpl;
    unfold lxp_arena_calloc, lxp_arena_realloc, lxp_arena_free, lxp_arena_alloc_tracked,
      lxp_arena_free_tracked, lxp_arena_alloc, arena_free_block;
    rewrite ?HV, ?orb_true_r; simpl; repeat case_goal; inv_pairs; done.
Qed.

(** Whatever bytes a guest writes over the block headers, no arena operation changes a
    byte outside the managed region or moves the region: corruption of the layout is
    contained. *)
Theorem arena_corruption_contained m A op m' A' :
  ctl_ok A -> op_ok op -> run_op op m A = (m', A') ->
  inside A m m' /\ ar_base A' = ar_base A /\ ar_size A' = ar_size A.
Proof.
  intros (Hb & Hbm & Hs & Hsm & Hend) Hop E.
  destruct (arena_layout_valid m A) eqn:HV.
  - destruct (arena_valid_inv m A) as [bs HI]; [lia|done|].
    pose proof (run_op_keeps false m A (live (ar_base A) bs) op) as HK. rewrite E in HK.
    destruct HK as (_ & H1 & H2 & H3); [by exists bs|done|done].
  - destruct (decide (op = OpReset)) as [->|Hne].
    + simpl in E. unfold lxp_arena_reset in E. destruct (Z.eqb_spec (ar_base A) 0); [lia|].
      pose proof (lay_first_rep true m (arena_clear_mappings A)) as HL. rewrite E in HL.
      destruct HL as (_ & H1 & H2 & H3); done.
    + rewrite (run_op_invalid m A op HV Hne) in E. by injection E as <- <-.
Qed.

Lemma arena_corruption_contained_witness :
  let m := mem_set wit_arena.1 4096 255 64 in
  let r := run_op (OpAlloc 20) m wit_arena.2 in
  arena_layout_valid m wit_arena.2 = false /\ inside wit_arena.2 m r.1.
Proof.
  intros m r. split; [vm_compute; reflexivity|].
  destruct (arena_corruption_contained m wit_arena.2 (OpAlloc 20) r.1 r.2) as (H & _).
  - unfold ctl_ok. split_and!; vm_compute; congruence.
  - simpl. unfold size_arg. lia.
  - apply surjective_pairing.
  - exact H.
Defined.

(** C40: [arena_layout_valid] is exact: it accepts a memory precisely when the region is
    tiled by well-formed blocks, so a check that passes cannot be fooled by a forged
    header, and an intact arena never fails it. *)
Theorem arena_layout_check_exact m A :
  ctl_ok A ->
  (arena_layout_valid m A = true <-> exists bs, arena_inv m A bs).
Proof.
  intros (Hb & Hbm & Hs & Hsm & Hend). split.
  - intros HV. apply arena_valid_inv; [lia|done].
  - intros [bs HI]. by apply (arena_inv_valid m A bs).
Qed.

Lemma arena_layout_check_exact_witness :
  ctl_ok wit_arena.2 /\ arena_layout_valid wit_arena.1 wit_arena.2 = true.
Proof.
  assert (H : ctl_ok wit_arena.2) by (unfold ctl_ok; split_and!; vm_compute; congruence).
  split; [exact H|].
  apply (arena_layout_check_exact wit_arena.1 wit_arena.2 H).
  exists [(240, true)]. exact wit_arena_inv.
Defined.
