(* ===== verification/Errno.v ===== *)
(** * Error translation (src/lxp_errno.c)

    Provider results as the guest sees them, and errno results as a host sees them.
    A C [switch] over integers is a table of its cases, in source order, and a default. *)

From S2P Require Import Prelude Config.
Local Open Scope Z_scope.

(** [switch (v) { case k: return r; ...; default: return d; }] *)
Fixpoint switch (v : Z) (cases : list (Z * Z)) (d : Z) : Z :=
  match cases with
  | [] => d
  | (k, r) :: t => if v =? k then r else switch v t d
  end.

Definition lxp_errno_from_err (err : Z) : Z :=
  switch err
    [ (LXP_OK, 0); (LXP_ERR_EOF, 0);
      (LXP_ERR_WOULD_BLOCK, - LXP_EAGAIN); (LXP_ERR_QUEUE_FULL, - LXP_EAGAIN);
      (LXP_ERR_NOT_REGISTERED, - LXP_ENODEV);
      (LXP_ERR_INVALID_PARAM, - LXP_EINVAL);
      (LXP_ERR_BUSY, - LXP_EBUSY);
      (LXP_ERR_READ_ONLY, - LXP_EROFS);
      (LXP_ERR_PERMISSION, - LXP_EACCES);
      (LXP_ERR_NO_MEMORY, - LXP_ENOMEM);
      (LXP_ERR_TIMEOUT, - LXP_ETIMEDOUT);
      (LXP_ERR_NOT_SUPPORTED, - LXP_EOPNOTSUPP);
      (LXP_ERR_NOT_FOUND, - LXP_ENOENT);
      (LXP_ERR_ALREADY_EXISTS, - LXP_EEXIST);
      (LXP_ERR_NO_SPACE, - LXP_ENOSPC);
      (LXP_ERR_NOT_DIR, - LXP_ENOTDIR);
      (LXP_ERR_IS_DIR, - LXP_EISDIR);
      (LXP_ERR_NOT_EMPTY, - LXP_ENOTEMPTY);
      (LXP_ERR_NAME_TOO_LONG, - LXP_ENAMETOOLONG);
      (LXP_ERR_BAD_HANDLE, - LXP_EBADF);
      (LXP_ERR_CROSS_DEVICE, - LXP_EXDEV);
      (LXP_ERR_NET_REFUSED, - LXP_ECONNREFUSED);
      (LXP_ERR_NET_UNREACHABLE, - LXP_ENETUNREACH);
      (LXP_ERR_NET_ADDR_IN_USE, - LXP_EADDRINUSE);
      (LXP_ERR_NET_ADDR_NOT_AVAILABLE, - LXP_EADDRNOTAVAIL);
      (LXP_ERR_NET_RESET, - LXP_ECONNRESET);
      (LXP_ERR_NET_CLOSED, - LXP_EPIPE) ]
    (- LXP_EIO).

Definition lxp_net_errno_from_err (err : Z) : Z :=
  if err =? LXP_ERR_TIMEOUT then - LXP_EAGAIN else lxp_errno_from_err err.

Definition lxp_err_from_errno (err : Z) : Z :=
  switch err
    [ (0, LXP_OK);
      (- LXP_EAGAIN, LXP_ERR_WOULD_BLOCK);
      (- LXP_ENODEV, LXP_ERR_NOT_REGISTERED);
      (- LXP_EINVAL, LXP_ERR_INVALID_PARAM); (- LXP_E2BIG, LXP_ERR_INVALID_PARAM);
      (- LXP_EBUSY, LXP_ERR_BUSY);
      (- LXP_EROFS, LXP_ERR_READ_ONLY);
      (- LXP_EACCES, LXP_ERR_PERMISSION); (- LXP_EPERM, LXP_ERR_PERMISSION);
      (- LXP_ENOMEM, LXP_ERR_NO_MEMORY);
      (- LXP_ETIMEDOUT, LXP_ERR_TIMEOUT);
      (- LXP_EOPNOTSUPP, LXP_ERR_NOT_SUPPORTED); (- LXP_ENOEXEC, LXP_ERR_NOT_SUPPORTED);
      (- LXP_ENOSYS, LXP_ERR_NOT_SUPPORTED);
      (- LXP_ENOENT, LXP_ERR_NOT_FOUND);
      (- LXP_EEXIST, LXP_ERR_ALREADY_EXISTS);
      (- LXP_ENOSPC, LXP_ERR_NO_SPACE);
      (- LXP_ENOTDIR, LXP_ERR_NOT_DIR);
      (- LXP_EISDIR, LXP_ERR_IS_DIR);
      (- LXP_ENOTEMPTY, LXP_ERR_NOT_EMPTY);
      (- LXP_ENAMETOOLONG, LXP_ERR_NAME_TOO_LONG);
      (- LXP_EBADF, LXP_ERR_BAD_HANDLE);
      (- LXP_EXDEV, LXP_ERR_CROSS_DEVICE);
      (- LXP_ECONNREFUSED, LXP_ERR_NET_REFUSED);
      (- LXP_ENETUNREACH, LXP_ERR_NET_UNREACHABLE);
      (- LXP_EADDRINUSE, LXP_ERR_NET_ADDR_IN_USE);
      (- LXP_EADDRNOTAVAIL, LXP_ERR_NET_ADDR_NOT_AVAILABLE);
      (- LXP_ECONNRESET, LXP_ERR_NET_RESET);
      (- LXP_EPIPE, LXP_ERR_NET_CLOSED) ]
    LXP_ERR_IO.

(** Every value a [switch] returns satisfies a predicate its cases and default do. *)
Lemma switch_all (P : Z -> Prop) v cases d :
  Forall (fun c => P c.2) cases -> P d -> P (switch v cases d).
Proof.
  induction 1 as [|[k r] t Hk Ht IH]; simpl; [done|]. intros. case_goal; [done|auto].
Qed.

(** Translating a provider result to errno, back to a host code and to errno again
    changes nothing, and the errno is always in the range the guest ABI reads as 0 or an
    error: a result that crosses both boundaries keeps its meaning. *)
Theorem errno_translation_stable err :
  lxp_errno_from_err (lxp_err_from_errno (lxp_errno_from_err err)) = lxp_errno_from_err err /\
  -4095 <= lxp_errno_from_err err <= 0.
Proof.
  unfold lxp_errno_from_err at 3 4 5. split.
  - apply (switch_all (fun e => lxp_errno_from_err (lxp_err_from_errno e) = e));
      repeat constructor.
  - apply (switch_all (fun e => -4095 <= e <= 0)); repeat constructor; vm_compute; congruence.
Qed.
