(* ===== verification/AsyncGate.v ===== *)
(** * Completion gate for asynchronous providers (src/lxp_async_gate.c)

    One gate is shared by the coordinator, which enters, cancels and collects requests,
    and by one provider worker, which completes them.  Each operation is a function on
    the gate built from the individual stores and compare-exchanges of the code; the
    second half interleaves those accesses in a transition system and shows that a
    completion is collected only by the request it belongs to, once, and never after
    that request was cancelled. *)

From S2P Require Import Prelude Config.
From stdpp Require Import relations.
Local Open Scope Z_scope.

(** ** The gate *)

Inductive lxp_async_gate_state :=
  | LXP_ASYNC_IDLE
  | LXP_ASYNC_ACTIVE
  | LXP_ASYNC_COMPLETE
  | LXP_ASYNC_RETIRING.

#[export] Instance gate_state_eq_dec : EqDecision lxp_async_gate_state.
Proof. solve_decision. Defined.

Inductive lxp_async_gate_action :=
  | LXP_ASYNC_GATE_SYNC
  | LXP_ASYNC_GATE_SUBMIT
  | LXP_ASYNC_GATE_BLOCK
  | LXP_ASYNC_GATE_COLLECT.

Inductive lxp_async_gate_publish :=
  | LXP_ASYNC_GATE_DROP
  | LXP_ASYNC_GATE_WAKE.

Inductive lxp_async_gate_cancel_result :=
  | LXP_ASYNC_GATE_CANCEL_NONE
  | LXP_ASYNC_GATE_CANCEL_ACTIVE
  | LXP_ASYNC_GATE_CANCEL_COMPLETE.

Record lxp_async_gate := mk_gate {
  selected_owner : Z;
  request_owner : Z;
  request_tag : Z;
  gate_state : lxp_async_gate_state;
}.

(** ** Individual accesses *)

Definition set_selected (g : lxp_async_gate) (o : Z) : lxp_async_gate :=
  mk_gate o (request_owner g) (request_tag g) (gate_state g).

Definition set_owner (g : lxp_async_gate) (o : Z) : lxp_async_gate :=
  mk_gate (selected_owner g) o (request_tag g) (gate_state g).

Definition set_tag (g : lxp_async_gate) (t : Z) : lxp_async_gate :=
  mk_gate (selected_owner g) (request_owner g) t (gate_state g).

Definition set_state (g : lxp_async_gate) (s : lxp_async_gate_state) : lxp_async_gate :=
  mk_gate (selected_owner g) (request_owner g) (request_tag g) s.

(** [__atomic_compare_exchange_n] on the state word. *)
Definition cas (g : lxp_async_gate) (expected desired : lxp_async_gate_state)
  : bool * lxp_async_gate :=
  if decide (gate_state g = expected) then (true, set_state g desired) else (false, g).

(** ** Operations *)

Definition gate_retire (g : lxp_async_gate) : lxp_async_gate :=
  set_state (set_tag (set_owner g 0) 0) LXP_ASYNC_IDLE.

Definition lxp_async_gate_init (g : lxp_async_gate) : lxp_async_gate :=
  mk_gate 0 0 0 LXP_ASYNC_IDLE.

Definition lxp_async_gate_select (g : lxp_async_gate) (owner : Z) : lxp_async_gate :=
  set_selected g owner.

Definition lxp_async_gate_selected (g : lxp_async_gate) : Z := selected_owner g.

Definition lxp_async_gate_enter (g : lxp_async_gate) (tag : Z)
  : lxp_async_gate_action * lxp_async_gate :=
  if selected_owner g =? 0 then (LXP_ASYNC_GATE_SYNC, g)
  else match gate_state g with
       | LXP_ASYNC_COMPLETE =>
           if (request_owner g =? selected_owner g) && (request_tag g =? tag)
           then (LXP_ASYNC_GATE_COLLECT, g)
           else (LXP_ASYNC_GATE_BLOCK, g)
       | LXP_ASYNC_IDLE =>
           (LXP_ASYNC_GATE_SUBMIT,
            set_state (set_tag (set_owner g (selected_owner g)) tag) LXP_ASYNC_ACTIVE)
       | _ => (LXP_ASYNC_GATE_BLOCK, g)
       end.

Definition lxp_async_gate_abort (g : lxp_async_gate) : lxp_async_gate :=
  let '(ok, g) := cas g LXP_ASYNC_ACTIVE LXP_ASYNC_RETIRING in
  if ok then gate_retire g else g.

Definition lxp_async_gate_complete (g : lxp_async_gate)
  : lxp_async_gate_publish * lxp_async_gate :=
  let '(ok, g) := cas g LXP_ASYNC_ACTIVE LXP_ASYNC_COMPLETE in
  if ok then (LXP_ASYNC_GATE_WAKE, g) else (LXP_ASYNC_GATE_DROP, g).

Definition lxp_async_gate_dropped (g : lxp_async_gate) : lxp_async_gate :=
  if decide (gate_state g = LXP_ASYNC_RETIRING) then gate_retire g else g.

Definition lxp_async_gate_collected (g : lxp_async_gate) : lxp_async_gate :=
  let '(ok, g) := cas g LXP_ASYNC_COMPLETE LXP_ASYNC_RETIRING in
  if ok then gate_retire g else g.

(** The retry loop of [lxp_async_gate_cancel].  [other n] is what the worker does to the
    gate between the load and the compare-exchange of the [n]-th iteration; [None] is an
    iteration count that the fuel did not cover. *)
Fixpoint cancel_loop (fuel n : nat) (other : nat -> lxp_async_gate -> lxp_async_gate)
    (g : lxp_async_gate) (owner : Z)
  : option (lxp_async_gate_cancel_result * lxp_async_gate) :=
  match fuel with
  | O => None
  | S fuel =>
      let state := gate_state g in
      if bool_decide (state <> LXP_ASYNC_ACTIVE) && bool_decide (state <> LXP_ASYNC_COMPLETE)
         || negb (request_owner g =? owner)
      then Some (LXP_ASYNC_GATE_CANCEL_NONE, g)
      else
        let '(ok, g) := cas (other n g) state LXP_ASYNC_RETIRING in
        if negb ok then cancel_loop fuel (S n) other g owner
        else if decide (state = LXP_ASYNC_COMPLETE)
             then Some (LXP_ASYNC_GATE_CANCEL_COMPLETE, g)
             else Some (LXP_ASYNC_GATE_CANCEL_ACTIVE, g)
  end.

Definition lxp_async_gate_cancel (fuel : nat) (other : nat -> lxp_async_gate -> lxp_async_gate)
    (g : lxp_async_gate) (owner : Z)
  : option (lxp_async_gate_cancel_result * lxp_async_gate) :=
  if owner =? 0 then Some (LXP_ASYNC_GATE_CANCEL_NONE, g)
  else cancel_loop fuel 0 other g owner.

(** What the worker can do to the gate while the coordinator is inside cancel: nothing,
    or publish its completion. *)
Definition worker_interference (f : lxp_async_gate -> lxp_async_gate) : Prop :=
  forall g, f g = g \/ f g = (lxp_async_gate_complete g).2.

Lemma complete_cases g :
  (gate_state g = LXP_ASYNC_ACTIVE /\
   (lxp_async_gate_complete g).2 = set_state g LXP_ASYNC_COMPLETE) \/
  (gate_state g <> LXP_ASYNC_ACTIVE /\ (lxp_async_gate_complete g).2 = g).
Proof. unfold lxp_async_gate_complete, cas. destruct (decide _); simpl; auto. Qed.

(** The goal names what a computed call returns. *)
Ltac returns := do 2 eexists; split; [reflexivity|]; simpl; eauto 10.

(** The cancel loop ends: whatever the worker publishes between its loads and its
    compare-exchanges, two iterations decide.  It refuses an owner that does not hold
    the request, and otherwise leaves the gate RETIRING with the request's identity
    still published, reporting whether a completion was already stored. *)
Theorem gate_cancel_terminates g owner other :
  (forall n, worker_interference (other n)) ->
  exists r g', lxp_async_gate_cancel 2 other g owner = Some (r, g') /\
  match r with
  | LXP_ASYNC_GATE_CANCEL_NONE =>
      g' = g /\ (owner = 0 \/ request_owner g <> owner \/ gate_state g = LXP_ASYNC_IDLE \/
                 gate_state g = LXP_ASYNC_RETIRING)
  | _ => owner <> 0 /\ request_owner g = owner /\ g' = set_state g LXP_ASYNC_RETIRING /\
         (gate_state g = LXP_ASYNC_ACTIVE \/
          gate_state g = LXP_ASYNC_COMPLETE /\ r = LXP_ASYNC_GATE_CANCEL_COMPLETE)
  end.
Proof.
  intros Hw. unfold lxp_async_gate_cancel.
  destruct (Z.eqb_spec owner 0) as [->|Ho]; [returns|].
  destruct g as [sel ow tg st]. simpl.
  destruct (Z.eqb_spec ow owner) as [->|]; simpl; [|rewrite orb_true_r; returns].
  rewrite orb_false_r. destruct st; simpl.
  - returns.
  - destruct (Hw 0%nat (mk_gate sel owner tg LXP_ASYNC_ACTIVE)) as [->| ->]; simpl; [returns|].
    rewrite Z.eqb_refl. unfold set_state. simpl.
    destruct (Hw 1%nat (mk_gate sel owner tg LXP_ASYNC_COMPLETE)) as [->| ->]; simpl; returns.
  - destruct (Hw 0%nat (mk_gate sel owner tg LXP_ASYNC_COMPLETE)) as [->| ->]; simpl; returns.
  - returns.
Qed.

Lemma gate_cancel_terminates_witness :
  exists r g', lxp_async_gate_cancel 2 (fun _ g => (lxp_async_gate_complete g).2)
                 (mk_gate 42 42 3 LXP_ASYNC_ACTIVE) 42 = Some (r, g') /\
               g' = mk_gate 42 42 3 LXP_ASYNC_RETIRING.
Proof.
  destruct (gate_cancel_terminates (mk_gate 42 42 3 LXP_ASYNC_ACTIVE) 42
              (fun _ g => (lxp_async_gate_complete g).2)) as (r & g' & H & _).
  - intros n g. by right.
  - exists r, g'. split; [exact H|]. vm_compute in H. congruence.
Defined.

(** ** Interleaving the coordinator and the worker

    A request is its owner, its tag and a serial number of its submission.  The
    coordinator and the worker each have a program counter inside the operation they
    run; every step is one shared access of the code above.  [box] is the provider's
    saved result, written by the worker before it completes. *)

Definition request : Type := Z * Z * nat.

Inductive coord_pc :=
  | CoIdle                                          (* between operations *)
  | CoEntering (tag : Z)                            (* identity stored, ACTIVE not yet *)
  | CoSubmitting                                    (* SUBMIT returned *)
  | CoCollecting                                    (* COLLECT returned *)
  | CoCancelling (owner : Z)                        (* at the load of the cancel loop *)
  | CoCancelCas (owner : Z) (seen : lxp_async_gate_state)
  | CoCleaning                                      (* CANCEL_COMPLETE returned *)
  | CoRetire1 | CoRetire2 | CoRetire3.              (* the stores of gate_retire *)

Inductive worker_pc :=
  | WoIdle
  | WoDone (r : request)                            (* result saved, not yet published *)
  | WoDropping                                      (* DROP returned *)
  | WoRetire1 | WoRetire2 | WoRetire3.

Record gsys := mk_gsys {
  gs_gate : lxp_async_gate;
  gs_co : coord_pc;
  gs_wo : worker_pc;
  gs_job : option request;       (* queued to the worker *)
  gs_box : option request;       (* whose result the provider holds *)
  gs_next : nat;                 (* next submission serial *)
  gs_cancelled : list nat;
  gs_collected : list request;
}.

(** The submission the gate is busy with. *)
Definition current (s : gsys) : request :=
  (request_owner (gs_gate s), request_tag (gs_gate s), pred (gs_next s)).

Inductive gate_step : gsys -> gsys -> Prop :=
  (* coordinator: select and enter *)
  | co_select g w j b n x c o :
      gate_step (mk_gsys g CoIdle w j b n x c)
                (mk_gsys (lxp_async_gate_select g o) CoIdle w j b n x c)
  | co_enter_no g w j b n x c tag a :
      lxp_async_gate_enter g tag = (a, g) -> a <> LXP_ASYNC_GATE_COLLECT ->
      gate_step (mk_gsys g CoIdle w j b n x c) (mk_gsys g CoIdle w j b n x c)
  | co_enter_collect g w j b n x c tag :
      lxp_async_gate_enter g tag = (LXP_ASYNC_GATE_COLLECT, g) ->
      gate_step (mk_gsys g CoIdle w j b n x c) (mk_gsys g CoCollecting w j b n x c)
  | co_enter_identity g w j b n x c tag :
      (lxp_async_gate_enter g tag).1 = LXP_ASYNC_GATE_SUBMIT ->
      gate_step (mk_gsys g CoIdle w j b n x c)
                (mk_gsys (set_tag (set_owner g (selected_owner g)) tag) (CoEntering tag) w j b n x c)
  | co_enter_publish g w j b n x c tag :
      gate_step (mk_gsys g (CoEntering tag) w j b n x c)
                (mk_gsys (set_state g LXP_ASYNC_ACTIVE) CoSubmitting w j b (S n) x c)
  (* coordinator: queue the request, or roll it back *)
  | co_queue g w b n x c :
      gate_step (mk_gsys g CoSubmitting w None b n x c)
                (mk_gsys g CoIdle w (Some (request_owner g, request_tag g, pred n)) b n x c)
  | co_abort g w j b n x c :
      (cas g LXP_ASYNC_ACTIVE LXP_ASYNC_RETIRING).1 = true ->
      gate_step (mk_gsys g CoSubmitting w j b n x c)
                (mk_gsys (cas g LXP_ASYNC_ACTIVE LXP_ASYNC_RETIRING).2 CoRetire1 w j b n x c)
  (* coordinator: take the saved result *)
  | co_collect g w j r n x c :
      (cas g LXP_ASYNC_COMPLETE LXP_ASYNC_RETIRING).1 = true ->
      gate_step (mk_gsys g CoCollecting w j (Some r) n x c)
                (mk_gsys (cas g LXP_ASYNC_COMPLETE LXP_ASYNC_RETIRING).2 CoRetire1 w j None n x (r :: c))
  (* coordinator: cancel *)
  | co_cancel_start g w j b n x c o :
      o <> 0 ->
      gate_step (mk_gsys g CoIdle w j b n x c) (mk_gsys g (CoCancelling o) w j b n x c)
  | co_cancel_none g w j b n x c o :
      gate_state g <> LXP_ASYNC_ACTIVE /\ gate_state g <> LXP_ASYNC_COMPLETE \/
      request_owner g <> o ->
      gate_step (mk_gsys g (CoCancelling o) w j b n x c) (mk_gsys g CoIdle w j b n x c)
  | co_cancel_load g w j b n x c o :
      gate_state g = LXP_ASYNC_ACTIVE \/ gate_state g = LXP_ASYNC_COMPLETE ->
      request_owner g = o ->
      gate_step (mk_gsys g (CoCancelling o) w j b n x c)
                (mk_gsys g (CoCancelCas o (gate_state g)) w j b n x c)
  | co_cancel_retry g w j b n x c o seen :
      (cas g seen LXP_ASYNC_RETIRING).1 = false ->
      gate_step (mk_gsys g (CoCancelCas o seen) w j b n x c)
                (mk_gsys g (CoCancelling o) w j b n x c)
  | co_cancel_won g w j b n x c o seen :
      (cas g seen LXP_ASYNC_RETIRING).1 = true ->
      gate_step (mk_gsys g (CoCancelCas o seen) w j b n x c)
                (mk_gsys (cas g seen LXP_ASYNC_RETIRING).2
                   (if decide (seen = LXP_ASYNC_COMPLETE) then CoCleaning else CoIdle)
                   w j b n (pred n :: x) c)
  | co_cleaned g w j b n x c :
      gate_state g = LXP_ASYNC_RETIRING ->
      gate_step (mk_gsys g CoCleaning w j b n x c) (mk_gsys g CoRetire1 w j None n x c)
  (* coordinator: gate_retire *)
  | co_retire1 g w j b n x c :
      gate_step (mk_gsys g CoRetire1 w j b n x c) (mk_gsys (set_owner g 0) CoRetire2 w j b n x c)
  | co_retire2 g w j b n x c :
      gate_step (mk_gsys g CoRetire2 w j b n x c) (mk_gsys (set_tag g 0) CoRetire3 w j b n x c)
  | co_retire3 g w j b n x c :
      gate_step (mk_gsys g CoRetire3 w j b n x c)
                (mk_gsys (set_state g LXP_ASYNC_IDLE) CoIdle w j b n x c)
  (* worker: execute, publish, or drop *)
  | wo_execute g c0 r b n x c :
      gate_step (mk_gsys g c0 WoIdle (Some r) b n x c) (mk_gsys g c0 (WoDone r) None (Some r) n x c)
  | wo_wake g c0 r j b n x c :
      (lxp_async_gate_complete g).1 = LXP_ASYNC_GATE_WAKE ->
      gate_step (mk_gsys g c0 (WoDone r) j b n x c)
                (mk_gsys (lxp_async_gate_complete g).2 c0 WoIdle j b n x c)
  | wo_drop g c0 r j b n x c :
      (lxp_async_gate_complete g).1 = LXP_ASYNC_GATE_DROP ->
      gate_step (mk_gsys g c0 (WoDone r) j b n x c) (mk_gsys g c0 WoDropping j None n x c)
  | wo_dropped g c0 j b n x c :
      gate_state g = LXP_ASYNC_RETIRING ->
      gate_step (mk_gsys g c0 WoDropping j b n x c) (mk_gsys g c0 WoRetire1 j b n x c)
  | wo_retire1 g c0 j b n x c :
      gate_step (mk_gsys g c0 WoRetire1 j b n x c) (mk_gsys (set_owner g 0) c0 WoRetire2 j b n x c)
  | wo_retire2 g c0 j b n x c :
      gate_step (mk_gsys g c0 WoRetire2 j b n x c) (mk_gsys (set_tag g 0) c0 WoRetire3 j b n x c)
  | wo_retire3 g c0 j b n x c :
      gate_step (mk_gsys g c0 WoRetire3 j b n x c)
                (mk_gsys (set_state g LXP_ASYNC_IDLE) c0 WoIdle j b n x c).

Definition gsys_init : gsys :=
  mk_gsys (lxp_async_gate_init (mk_gate 0 0 0 LXP_ASYNC_IDLE)) CoIdle WoIdle None None 0 [] [].

(** Who is active in each gate state, and what the shared cells then hold. *)
Definition gate_phase (s : gsys) : Prop :=
  let cur := current s in
  let id := pred (gs_next s) in
  let quiet := gs_wo s = WoIdle /\ gs_job s = None in
  match gate_state (gs_gate s) with
  | LXP_ASYNC_IDLE =>
      quiet /\ (gs_co s = CoIdle \/ (exists o, gs_co s = CoCancelling o) \/
                exists t, gs_co s = CoEntering t)
  | LXP_ASYNC_ACTIVE =>
      (0 < gs_next s)%nat /\ id ∉ gs_cancelled s /\ id ∉ (gs_collected s).*2 /\
      (quiet /\ gs_co s = CoSubmitting \/
       (gs_wo s = WoIdle /\ gs_job s = Some cur \/
        gs_wo s = WoDone cur /\ gs_job s = None /\ gs_box s = Some cur) /\
       (gs_co s = CoIdle \/ (exists o, gs_co s = CoCancelling o) \/
        exists o, gs_co s = CoCancelCas o LXP_ASYNC_ACTIVE))
  | LXP_ASYNC_COMPLETE =>
      (0 < gs_next s)%nat /\ id ∉ gs_cancelled s /\ id ∉ (gs_collected s).*2 /\
      quiet /\ gs_box s = Some cur /\
      (gs_co s = CoIdle \/ gs_co s = CoCollecting \/ (exists o, gs_co s = CoCancelling o) \/
       exists o seen, gs_co s = CoCancelCas o seen)
  | LXP_ASYNC_RETIRING =>
      quiet /\ (gs_co s = CoCleaning \/ gs_co s = CoRetire1 \/ gs_co s = CoRetire2 \/
                gs_co s = CoRetire3) \/
      (gs_co s = CoIdle \/ exists o, gs_co s = CoCancelling o) /\
      (gs_wo s = WoIdle /\ (exists r, gs_job s = Some r) \/
       (exists r, gs_wo s = WoDone r) /\ gs_job s = None \/
       (gs_wo s = WoDropping \/ gs_wo s = WoRetire1 \/ gs_wo s = WoRetire2 \/
        gs_wo s = WoRetire3) /\ gs_job s = None)
  end.

(** Ghost history: serials are below [gs_next]; nothing is collected twice, and nothing
    cancelled is ever collected. *)
Definition gate_history (s : gsys) : Prop :=
  (forall i, i ∈ gs_cancelled s -> (i < gs_next s)%nat) /\
  (forall i, i ∈ (gs_collected s).*2 -> (i < gs_next s)%nat) /\
  NoDup (gs_collected s).*2 /\
  (forall i, i ∈ gs_cancelled s -> i ∉ (gs_collected s).*2).

Definition gate_inv (s : gsys) : Prop := gate_phase s /\ gate_history s.

Lemma gate_inv_init : gate_inv gsys_init.
Proof.
  unfold gate_inv, gate_phase, gate_history. simpl.
  split_and!; try (intros i Hi; by apply not_elem_of_nil in Hi); try constructor; auto.
Qed.

(** Case analysis on the phase of a state whose gate word is known. *)
Ltac gate_cases :=
  repeat match goal with
  | H : _ /\ _ |- _ => destruct H
  | H : _ \/ _ |- _ => destruct H
  | H : exists _, _ |- _ => destruct H
  end; simplify_eq/=.

Lemma gate_phase_step s s' : gate_step s s' -> gate_inv s -> gate_phase s'.
Proof.
  intros Hs (HP & Hx & Hc & _).
  destruct Hs; destruct g as [sel ow tg st];
    unfold gate_phase, current, lxp_async_gate_enter, lxp_async_gate_complete, cas in *; simpl in *;
    destruct st; simpl in *; gate_cases; repeat case_match; simplify_eq/=;
    try (split_and!; eauto 12; fail); eauto 20.
  all: split_and!; eauto 12; try lia; intros Hi; first [apply Hx in Hi|apply Hc in Hi]; lia.
Qed.

Lemma gate_history_step s s' : gate_step s s' -> gate_inv s -> gate_history s'.
Proof.
  intros Hs (HP & Hx & Hc & Hn & Hd).
  destruct Hs; unfold gate_history in *; simpl in *; try done.
  - split_and!; try done; intros i Hi; [apply Hx in Hi|apply Hc in Hi]; lia.
  - destruct g as [sel ow tg st]. unfold gate_phase, current, cas in *. simpl in *.
    destruct st; simpl in *; try done. gate_cases. split_and!.
    + done.
    + intros i [->|Hi]%elem_of_cons; [lia|auto].
    + by constructor.
    + intros i Hi [->|Hi']%elem_of_cons; [done|by apply (Hd i)].
  - destruct g as [sel ow tg st]. unfold gate_phase, current, cas in *. simpl in *.
    destruct (decide (st = seen)) as [->|]; [|done].
    destruct seen; simpl in *; gate_cases; split_and!; try done;
      intros i [->|Hi]%elem_of_cons; auto; lia.
Qed.

Lemma gate_inv_reachable s : rtc gate_step gsys_init s -> gate_inv s.
Proof.
  intros H. remember gsys_init as s0 eqn:E.
  assert (gate_inv s0) as H0 by (subst; apply gate_inv_init). clear E.
  induction H as [|x y z Hxy _ IH]; [done|]. apply IH.
  split; [by eapply gate_phase_step|by eapply gate_history_step].
Qed.

(** C39: In every interleaving of the coordinator's and the worker's accesses: when an
    enter decides COLLECT, the saved result is that of the very request (owner, tag and
    submission) that asks for it, the worker is quiescent, and the submission was neither
    cancelled nor collected before; over a whole run no result is collected twice and no
    cancelled submission's result is ever collected. *)
Theorem gate_collects_own_result_once s :
  rtc gate_step gsys_init s ->
  (forall tag, (lxp_async_gate_enter (gs_gate s) tag).1 = LXP_ASYNC_GATE_COLLECT ->
     let id := pred (gs_next s) in
     gs_box s = Some (selected_owner (gs_gate s), tag, id) /\
     gs_wo s = WoIdle /\ gs_job s = None /\
     id ∉ gs_cancelled s /\ id ∉ (gs_collected s).*2) /\
  NoDup (gs_collected s).*2 /\
  (forall i, i ∈ gs_cancelled s -> i ∉ (gs_collected s).*2).
Proof.
  intros (HP & _ & _ & Hn & Hd)%gate_inv_reachable. split; [|done].
  intros tag Ht. destruct s as [[sel ow tg st] co wo j b n x c].
  unfold gate_phase, current, lxp_async_gate_enter in *. simpl in *.
  destruct (sel =? 0); [done|]. destruct st; try done. simpl in *.
  destruct (Z.eqb_spec ow sel), (Z.eqb_spec tg tag); simpl in *; try done. subst.
  destruct HP as (_ & H1 & H2 & [H3 H4] & H5 & _). done.
Qed.

Lemma gate_collects_own_result_once_witness :
  let g := mk_gate 42 42 3 LXP_ASYNC_COMPLETE in
  exists s, gs_gate s = g /\ gs_box s = Some (42, 3, 0%nat) /\ rtc gate_step gsys_init s.
Proof.
  intros g.
  assert (H : rtc gate_step gsys_init
                (mk_gsys g CoIdle WoIdle None (Some (42, 3, 0%nat)) 1 [] [])).
  { eapply rtc_l; [apply (co_select _ _ _ _ _ _ _ 42)|].
    eapply rtc_l; [apply (co_enter_identity _ _ _ _ _ _ _ 3); reflexivity|].
    eapply rtc_l; [apply co_enter_publish|].
    eapply rtc_l; [apply co_queue|].
    eapply rtc_l; [apply wo_execute|].
    eapply rtc_l; [apply wo_wake; reflexivity|]. apply rtc_refl. }
  destruct (gate_collects_own_result_once _ H) as [H1 _].
  destruct (H1 3 eq_refl) as [H2 _].
  eexists. split; [|split; [exact H2|exact H]]. reflexivity.
Defined.
