(* ===== verification/Path.v ===== *)
(** * Path resolution (src/fs/lxp_path.c)

    A C string is the list of its bytes before the terminator.  The loops of
    [normalize_abs] run on fuel, one unit per iteration; [normalize_abs_spec] shows that
    the fuel given is enough and that the result is the component-wise reading of the
    path.  The operations that take a guest pointer ([lxp_resolve_path] and its *at form)
    are in Guest.v, over the string part here. *)

From S2P Require Import Prelude Config.
Local Open Scope Z_scope.

Definition SLASH : Z := 47.
Definition DOT : Z := 46.
Definition LXP_SYMLOOP_MAX : Z := 8.
Definition LXP_PATH_HASH_INIT : Z := 2166136261.

(** A path result: an error number, or the string written to [out]. *)
Definition path_result : Type := (Z + list Z)%type.

(** The longest prefix of bytes satisfying [p], and the rest: the scanning loops of the
    code. *)
Fixpoint span (p : Z -> bool) (s : list Z) : list Z * list Z :=
  match s with
  | [] => ([], [])
  | c :: t => if p c then let '(a, b) := span p t in (c :: a, b) else ([], c :: t)
  end.

Definition is_slash (c : Z) : bool := c =? SLASH.
Definition not_slash (c : Z) : bool := negb (c =? SLASH).

(** ".." on the output: drop the last component, then its separating slash. *)
Definition drop_component (out : list Z) : list Z :=
  match (span not_slash (rev out)).2 with
  | [] => []
  | _ :: t => rev t
  end.

Fixpoint norm_loop (fuel : nat) (s out : list Z) (outlen : Z) : option path_result :=
  match fuel with
  | O => None
  | S fuel =>
      match (span is_slash s).2 with
      | [] => Some (inr out)
      | s =>
          let '(seg, s) := span not_slash s in
          if decide (seg = [DOT]) then norm_loop fuel s out outlen
          else if decide (seg = [DOT; DOT]) then norm_loop fuel s (drop_component out) outlen
          else if alen out + 1 + alen seg >=? outlen then Some (inl (- LXP_ENAMETOOLONG))
          else norm_loop fuel s (out ++ SLASH :: seg) outlen
      end
  end.

(** Each iteration consumes a byte, so the length of the input bounds their number. *)
Definition normalize_abs (s : list Z) (outlen : Z) : path_result :=
  match norm_loop (S (length s)) s [] outlen with
  | None => inl 0
  | Some (inl e) => inl e
  | Some (inr []) => inr [SLASH]
  | Some (inr out) => inr out
  end.

(** Append [src] to [joined], keeping [margin] bytes of the buffer free. *)
Fixpoint join_checked (margin : Z) (joined src : list Z) : option (list Z) :=
  match src with
  | [] => Some joined
  | c :: t => if alen joined + margin >=? LXP_PATH_MAX then None
              else join_checked margin (joined ++ [c]) t
  end.

Definition resolve_from (base s : list Z) (outlen : Z) : path_result :=
  let prefixed :=
    match s with
    | c :: _ => if c =? SLASH then Some [] else
                match join_checked 2 [] base with
                | None => None
                | Some j => Some (j ++ [SLASH])
                end
    | [] => match join_checked 2 [] base with
            | None => None
            | Some j => Some (j ++ [SLASH])
            end
    end in
  match prefixed with
  | None => inl (- LXP_ENAMETOOLONG)
  | Some joined =>
      match join_checked 1 joined s with
      | None => inl (- LXP_ENAMETOOLONG)
      | Some joined => normalize_abs joined outlen
      end
  end.

(** [s] is [None] for a NULL pointer. *)
Definition lxp_resolve_path_trusted (s : option (list Z)) (outlen : Z) : path_result :=
  match s with
  | Some (c :: t) => if c =? SLASH then normalize_abs (c :: t) outlen else inl (- LXP_EINVAL)
  | _ => inl (- LXP_EINVAL)
  end.

(** ** The read-only root filesystem: a flat table of paths (include/lxp/lxp_program.h) *)

Record lxp_file := mk_file {
  f_path : list Z;
  f_data : option (list Z);      (* NULL, or at least [f_size] bytes *)
  f_size : Z;
  f_mode : Z;
}.

Definition no_file : lxp_file := mk_file [] None 0 0.

Definition lxp_file_mode (f : lxp_file) : Z :=
  if f_mode f =? 0 then Z.lor LXP_S_IFREG 420 else f_mode f.

Definition is_symlink (f : lxp_file) : bool :=
  Z.land (lxp_file_mode f) LXP_S_IFMT =? LXP_S_IFLNK.

(** [count] entries starting at [fs] are the list itself; an index or -1. *)
Definition fsx_lookup (fs : list lxp_file) (abspath : list Z) : Z :=
  match find_first (fun f => bool_decide (f_path f = abspath)) fs with
  | Some i => i
  | None => -1
  end.

(** The bytes up to and including the last slash: [strrchr(link, '/') + 1]. *)
Definition dir_prefix (link : list Z) : list Z := rev (span not_slash (rev link)).2.

(** A buffer read back as a C string ends at its first NUL. *)
Definition cstr (bs : list Z) : list Z := (span (fun c => negb (c =? 0)) bs).1.

(** [target] holds at least [len] bytes and need not be terminated. *)
Definition lxp_path_link_target (link target : list Z) (len outlen : Z) : path_result :=
  let relative := (len =? 0) || negb (aget 0 target 0 =? SLASH) in
  let raw := if relative then dir_prefix link else [] in
  if relative && (alen raw >=? LXP_PATH_MAX) then inl (- LXP_ENAMETOOLONG)
  else if alen raw + len >=? LXP_PATH_MAX then inl (- LXP_ENAMETOOLONG)
  else normalize_abs (cstr (raw ++ take (Z.to_nat len) target)) outlen.

Fixpoint follow_loop (hops : nat) (fs : list lxp_file) (idx : Z) : Z :=
  match hops with
  | O => idx
  | S hops =>
      if idx <? 0 then idx
      else
        let lnk := aget no_file fs idx in
        if negb (is_symlink lnk) then idx
        else match f_data lnk with
             | None => -1
             | Some tgt =>
                 if f_size lnk =? 0 then -1
                 else match lxp_path_link_target (f_path lnk) tgt (f_size lnk) LXP_PATH_MAX with
                      | inl _ => -1
                      | inr abs => follow_loop hops fs (fsx_lookup fs abs)
                      end
             end
  end.

Definition fsx_follow (fs : list lxp_file) (idx : Z) : Z :=
  follow_loop (Z.to_nat LXP_SYMLOOP_MAX) fs idx.

(** [fs] is [None] for a NULL table. *)
Definition lxp_rootfs_resolve_index (fs : option (list lxp_file)) (abspath : option (list Z)) : Z :=
  match fs, abspath with
  | Some fs, Some abspath => fsx_follow fs (fsx_lookup fs abspath)
  | _, _ => -1
  end.

Definition lxp_rootfs_resolve (fs : list lxp_file) (abspath : list Z)
  : Z + (option (list Z) * Z) :=
  let idx := lxp_rootfs_resolve_index (Some fs) (Some abspath) in
  if idx <? 0 then inl (- LXP_ENOENT)
  else let f := aget no_file fs idx in inr (f_data f, f_size f).

(** ** Prefix and child tests *)

Definition lxp_path_under (path prefix : list Z) : Z :=
  let n := alen prefix in
  if (n =? 1) && (aget 0 prefix 0 =? SLASH)
  then (if aget 0 path 0 =? SLASH then 1 else 0)
  else if (n =? 0) || negb (bool_decide (take (length prefix) path = prefix)) then 0
  else if (aget 0 path n =? 0) || (aget 0 path n =? SLASH) then n else 0.

Definition has_slash (s : list Z) : bool := existsb is_slash s.

Definition lxp_path_child_name (dir path : list Z) : option (list Z) :=
  if (aget 0 dir 0 =? SLASH) && (aget 0 dir 1 =? 0) then
    if negb (aget 0 path 0 =? SLASH) || (aget 0 path 1 =? 0) then None
    else if has_slash (drop 1 path) then None else Some (drop 1 path)
  else
    let dl := length dir in
    if negb (bool_decide (take dl path = dir)) || negb (aget 0 path (alen dir) =? SLASH) then None
    else let name := drop (dl + 1) path in
         if negb (aget 0 name 0 =? 0) && negb (has_slash name) then Some name else None.

Fixpoint lxp_path_hash (hash : Z) (text : list Z) : Z :=
  match text with
  | [] => hash
  | c :: t => lxp_path_hash (u32 (Z.lxor hash c * 16777619)) t
  end.

(** ** Component-wise reading of a path *)

Definition flush (seg : list Z) : list (list Z) := match seg with [] => [] | _ => [seg] end.

Fixpoint comp_acc (seg s : list Z) : list (list Z) :=
  match s with
  | [] => flush seg
  | c :: t => if is_slash c then flush seg ++ comp_acc [] t else comp_acc (seg ++ [c]) t
  end.

(** The non-empty components between slashes. *)
Definition components (s : list Z) : list (list Z) := comp_acc [] s.

(** A stack of components as a string, each introduced by a slash. *)
Fixpoint render (st : list (list Z)) : list Z :=
  match st with [] => [] | c :: t => SLASH :: c ++ render t end.

(** As an absolute path; the empty stack is the root. *)
Definition render_abs (st : list (list Z)) : list Z :=
  match st with [] => [SLASH] | _ => render st end.

(** Reference normalization: fold the components over a stack. *)
Fixpoint canon (outlen : Z) (st cs : list (list Z)) : Z + list (list Z) :=
  match cs with
  | [] => inr st
  | c :: cs =>
      if decide (c = [DOT]) then canon outlen st cs
      else if decide (c = [DOT; DOT]) then canon outlen (removelast st) cs
      else if alen (render st) + 1 + alen c >=? outlen then inl (- LXP_ENAMETOOLONG)
      else canon outlen (st ++ [c]) cs
  end.

(** A component of a normalized path. *)
Definition plain (c : list Z) : Prop :=
  c <> [] /\ Forall (fun x => x <> SLASH) c /\ c <> [DOT] /\ c <> [DOT; DOT].

Lemma span_spec p s :
  s = (span p s).1 ++ (span p s).2 /\ Forall (fun c => p c = true) (span p s).1 /\
  match (span p s).2 with [] => True | c :: _ => p c = false end.
Proof.
  induction s as [|c t IH]; simpl; [done|].
  destruct (p c) eqn:E; [|done]. destruct (span p t) as [a b]. simpl in *.
  destruct IH as (-> & H2 & H3). split_and!; [done|by constructor|done].
Qed.

Lemma span_app p a b :
  Forall (fun c => p c = true) a -> match b with [] => True | c :: _ => p c = false end ->
  span p (a ++ b) = (a, b).
Proof.
  intros Ha Hb. induction Ha as [|c a Hc Ha IH]; simpl.
  - destruct b as [|c b]; [done|]. simpl. by rewrite Hb.
  - by rewrite Hc, IH.
Qed.

Lemma not_slash_iff c : not_slash c = true <-> c <> SLASH.
Proof. unfold not_slash. destruct (Z.eqb_spec c SLASH); split; intros; done. Qed.

Lemma not_slash_all a : Forall (fun c => not_slash c = true) a <-> Forall (fun x => x <> SLASH) a.
Proof. by apply Forall_iff; intros; apply not_slash_iff. Qed.

Lemma comp_acc_app seg a b :
  Forall (fun x => x <> SLASH) a -> comp_acc seg (a ++ b) = comp_acc (seg ++ a) b.
Proof.
  intros Ha. revert seg. induction Ha as [|c a Hc Ha IH]; intros seg; simpl; [by rewrite app_nil_r|].
  unfold is_slash. destruct (Z.eqb_spec c SLASH); [done|]. rewrite IH. by rewrite <- app_assoc.
Qed.

Lemma comp_acc_boundary seg b :
  match b with [] => True | c :: _ => c = SLASH end -> comp_acc seg b = flush seg ++ components b.
Proof.
  destruct b as [|c b]; simpl; [by rewrite app_nil_r|]. intros ->. done.
Qed.

Lemma components_skip s : components s = components (span is_slash s).2.
Proof.
  induction s as [|c t IH]; [done|]. simpl. unfold components at 1. simpl.
  destruct (is_slash c) eqn:E; simpl; [|unfold components; simpl; by rewrite E].
  destruct (span is_slash t). exact IH.
Qed.

(** One round of the code's outer loop reads exactly one component. *)
Lemma components_round s :
  match (span is_slash s).2 with
  | [] => components s = []
  | s' => let '(seg, r) := span not_slash s' in
          components s = seg :: components r /\ seg <> [] /\
          Forall (fun x => x <> SLASH) seg /\ (length r < length s)%nat
  end.
Proof.
  rewrite (components_skip s).
  destruct (span_spec is_slash s) as (Hs & _ & Hn).
  destruct (span is_slash s) as [sl s']. cbn [fst snd] in *. destruct s' as [|c t]; [done|].
  destruct (span_spec not_slash (c :: t)) as (Hs' & Ha & Hb).
  destruct (span not_slash (c :: t)) as [seg r] eqn:E. simpl in Hs', Ha, Hb.
  assert (Hne : seg <> []).
  { intros ->. simpl in Hs'. subst r. unfold is_slash, not_slash in *.
    destruct (c =? SLASH); done. }
  apply not_slash_all in Ha. split_and!; try done.
  - rewrite Hs'. unfold components at 1. rewrite comp_acc_app by done.
    rewrite comp_acc_boundary by (destruct r; [done|]; unfold not_slash in Hb;
      destruct (Z.eqb_spec z SLASH); done).
    by destruct seg.
  - rewrite Hs, Hs', !length_app. destruct seg; [done|]. simpl. lia.
Qed.

Lemma render_app a b : render (a ++ b) = render a ++ render b.
Proof. induction a as [|c a IH]; simpl; [done|]. by rewrite IH, <- app_assoc. Qed.

Lemma drop_component_render st :
  Forall plain st -> drop_component (render st) = render (removelast st).
Proof.
  destruct st as [|c st _] using rev_ind; [done|]. intros [_ [Hc _]%Forall_cons]%Forall_app.
  destruct Hc as (Hne & Hs & _).
  rewrite removelast_last, render_app. simpl. rewrite app_nil_r. unfold drop_component.
  rewrite rev_app_distr. simpl. rewrite <- app_assoc. rewrite span_app.
  - simpl. by rewrite rev_involutive.
  - apply not_slash_all. by apply Forall_rev.
  - simpl. unfold not_slash. by rewrite Z.eqb_refl.
Qed.

Lemma Forall_removelast {A} (P : A -> Prop) l : Forall P l -> Forall P (removelast l).
Proof.
  destruct l as [|x l _] using rev_ind; [done|]. rewrite removelast_last.
  by intros [? _]%Forall_app.
Qed.

Lemma norm_loop_spec fuel s st outlen :
  (length s < fuel)%nat -> Forall plain st ->
  norm_loop fuel s (render st) outlen =
  Some (match canon outlen st (components s) with inl e => inl e | inr st' => inr (render st') end).
Proof.
  revert s st. induction fuel as [|fuel IH]; intros s st Hf Hst; [lia|]. cbn [norm_loop].
  pose proof (components_round s) as Hr. destruct (span is_slash s).2 as [|c t] eqn:E.
  { by rewrite Hr. }
  destruct (span not_slash (c :: t)) as [seg r]. destruct Hr as (-> & Hne & Hseg & Hlen).
  cbn [canon]. destruct (decide (seg = [DOT])); [apply IH; [lia|done]|].
  destruct (decide (seg = [DOT; DOT])).
  { rewrite drop_component_render by done. apply IH; [lia|by apply Forall_removelast]. }
  case_goal; [done|].
  replace (render st ++ SLASH :: seg) with (render (st ++ [seg]))
    by (rewrite render_app; simpl; by rewrite app_nil_r).
  apply IH; [lia|]. apply Forall_app. split; [done|]. by repeat constructor.
Qed.

(** [normalize_abs] is the reference normalization. *)
Lemma normalize_abs_canon s outlen :
  normalize_abs s outlen =
  match canon outlen [] (components s) with inl e => inl e | inr st => inr (render_abs st) end.
Proof.
  unfold normalize_abs. change ([] : list Z) with (render []) at 1.
  rewrite norm_loop_spec by (simpl; try constructor; lia).
  destruct (canon outlen [] (components s)) as [e|[|c st]]; done.
Qed.

(** The stack without a bound on the buffer. *)
Fixpoint collapse (st cs : list (list Z)) : list (list Z) :=
  match cs with
  | [] => st
  | c :: cs => if decide (c = [DOT]) then collapse st cs
               else if decide (c = [DOT; DOT]) then collapse (removelast st) cs
               else collapse (st ++ [c]) cs
  end.

(** A component that is not empty and holds no slash. *)
Definition segment (c : list Z) : Prop := c <> [] /\ Forall (fun x => x <> SLASH) c.

Lemma plain_segment c : plain c -> segment c.
Proof. unfold plain, segment. tauto. Qed.

Lemma flush_segment seg : Forall (fun x => x <> SLASH) seg -> Forall segment (flush seg).
Proof. intros. destruct seg; simpl; [constructor|]. repeat constructor; [done|by inv H|by inv H]. Qed.

Lemma comp_acc_segments seg s : Forall (fun x => x <> SLASH) seg -> Forall segment (comp_acc seg s).
Proof.
  revert seg. induction s as [|c t IH]; intros seg H; simpl; [by apply flush_segment|].
  unfold is_slash. destruct (Z.eqb_spec c SLASH).
  - apply Forall_app. split; [by apply flush_segment|]. apply IH. constructor.
  - apply IH. apply Forall_app. by repeat constructor.
Qed.

Lemma canon_sound outlen st cs st' :
  Forall segment cs -> Forall plain st -> alen (render st) < outlen ->
  canon outlen st cs = inr st' ->
  Forall plain st' /\ alen (render st') < outlen /\ st' = collapse st cs.
Proof.
  intros Hcs. revert st. induction Hcs as [|c cs [Hc1 Hc2] _ IH]; intros st Hst Hb H; simpl in *.
  { by injection H as <-. }
  destruct (decide (c = [DOT])); [by apply IH|]. destruct (decide (c = [DOT; DOT])).
  - apply IH; try done; [by apply Forall_removelast|].
    destruct st as [|x st _] using rev_ind; [done|].
    rewrite removelast_last. rewrite render_app in Hb. unfold alen in *.
    rewrite length_app in Hb. lia.
  - destruct (_ >=? _) eqn:E in H; [done|]. apply IH; try done.
    + apply Forall_app. by repeat constructor.
    + rewrite render_app. simpl. rewrite app_nil_r. unfold alen in *.
      rewrite length_app. simpl. lia.
Qed.

(** A failure means the input does not fit. *)
Lemma canon_fails outlen st cs e :
  canon outlen st cs = inl e ->
  e = - LXP_ENAMETOOLONG /\ outlen <= alen (render st) + alen (render cs).
Proof.
  revert st. induction cs as [|c cs IH]; intros st H; simpl in *; [done|].
  unfold alen in *. simpl. rewrite length_app.
  destruct (decide (c = [DOT])); [apply IH in H; lia|]. destruct (decide (c = [DOT; DOT])).
  - apply IH in H as [-> H]. split; [done|].
    destruct st as [|x st _] using rev_ind; [simpl in *; lia|].
    rewrite removelast_last in H. rewrite render_app, length_app. lia.
  - destruct (_ >=? _) eqn:E in H.
    + injection H as <-. split; [done|]. lia.
    + apply IH in H as [-> H]. split; [done|].
      rewrite render_app, length_app in H. simpl in H. rewrite app_nil_r in H. lia.
Qed.

Lemma comp_acc_length seg s :
  alen (render (comp_acc seg s)) <= alen seg + alen s + 1.
Proof.
  revert seg. induction s as [|c t IH]; intros seg; simpl.
  - destruct seg; unfold alen; simpl; [lia|]. rewrite app_nil_r. lia.
  - destruct (is_slash c).
    + rewrite render_app. specialize (IH []). unfold alen in *. rewrite length_app.
      destruct seg; simpl in *; [lia|]. rewrite app_nil_r. lia.
    + specialize (IH (seg ++ [c])). unfold alen in *. rewrite length_app in IH. simpl in *. lia.
Qed.

Lemma components_render st b :
  Forall segment st -> match b with [] => True | c :: _ => c = SLASH end ->
  components (render st ++ b) = st ++ components b.
Proof.
  intros Hst Hb. induction Hst as [|c st [Hne Hc] _ IH]; [done|].
  simpl. unfold components at 1. simpl. rewrite <- app_assoc, comp_acc_app by done.
  rewrite comp_acc_boundary by (destruct st; simpl; done).
  rewrite IH. by destruct c.
Qed.

Lemma components_render_abs st : Forall segment st -> components (render_abs st) = st.
Proof.
  intros H. destruct st as [|c st]; [done|]. unfold render_abs.
  rewrite <- (app_nil_r (render _)), components_render by done. apply app_nil_r.
Qed.

Lemma canon_idle outlen st cs :
  Forall plain cs -> alen (render (st ++ cs)) < outlen -> canon outlen st cs = inr (st ++ cs).
Proof.
  intros Hcs. revert st. induction Hcs as [|c cs Hc Hcs IH]; intros st Hb; simpl.
  { by rewrite app_nil_r. }
  destruct Hc as (Hne & Hs & H1 & H2). do 2 (rewrite decide_False by done).
  destruct (_ >=? _) eqn:E.
  - rewrite render_app in Hb. unfold alen in *. simpl in Hb. rewrite !length_app in Hb.
    simpl in Hb. rewrite length_app in Hb. lia.
  - rewrite IH by (by rewrite <- app_assoc). by rewrite <- app_assoc.
Qed.

Lemma render_abs_length st n :
  2 <= n -> alen (render st) < n -> alen (render_abs st) < n.
Proof. intros. destruct st; [unfold alen; simpl; lia|done]. Qed.

(** C38: [normalize_abs] either reports that the input is too long for the buffer, or writes
    the absolute path whose components are those of the input with "." removed and ".."
    cancelling its predecessor (never leaving the root): every component is non-empty,
    slash-free and neither "." nor "..", the string and its terminator fit the buffer,
    and normalizing it again returns it unchanged. *)
Theorem normalize_abs_correct s outlen :
  2 <= outlen ->
  match normalize_abs s outlen with
  | inl e => e = - LXP_ENAMETOOLONG /\ outlen <= alen s + 1
  | inr out => exists st, out = render_abs st /\ st = collapse [] (components s) /\
                 Forall plain st /\ alen out < outlen /\ normalize_abs out outlen = inr out
  end.
Proof.
  intros Ho. rewrite normalize_abs_canon.
  destruct (canon outlen [] (components s)) as [e|st] eqn:E.
  - apply canon_fails in E as [-> H]. split; [done|].
    pose proof (comp_acc_length [] s). unfold components, alen in *. simpl in *. lia.
  - apply canon_sound in E as (H1 & H2 & H3);
      [|by apply comp_acc_segments|done|unfold alen; simpl; lia].
    exists st. split_and!; try done; [by apply render_abs_length|].
    rewrite normalize_abs_canon, components_render_abs
      by (eapply Forall_impl; [exact H1|apply plain_segment]).
    by rewrite (canon_idle outlen [] st).
Qed.

Lemma normalize_abs_correct_witness :
  2 <= 16 /\ normalize_abs [47; 97; 47; 46; 46; 47; 47; 98; 47] 16 = inr [47; 98].
Proof.
  split; [lia|].
  pose proof (normalize_abs_correct [47; 97; 47; 46; 46; 47; 47; 98; 47] 16 ltac:(lia)) as H.
  destruct (normalize_abs _ _) as [e|out]; [destruct H as [_ H]; vm_compute in H; congruence|].
  destruct H as (st & -> & -> & _). reflexivity.
Defined.

(** ** Prefixes and children, by components *)

(** A component of a C string holds no NUL. *)
Definition textual (c : list Z) : Prop := Forall (fun x => x <> 0) c.

(** A normalized stack of textual components, as the kernel's stored paths are. *)
Definition canonical (st : list (list Z)) : Prop := Forall plain st /\ Forall textual st.

Lemma canonical_segments st : canonical st -> Forall segment st.
Proof. intros [H _]. eapply Forall_impl; [exact H|apply plain_segment]. Qed.

Lemma render_textual st : Forall textual st -> Forall (fun x => x <> 0) (render st).
Proof.
  induction 1; simpl; [constructor|]. constructor; [done|]. by apply Forall_app.
Qed.

Lemma render_head st : match render st with [] => True | c :: _ => c = SLASH end.
Proof. by destruct st. Qed.

Lemma nth_app_boundary (a b : list Z) d : nth (length a) (a ++ b) d = nth 0 b d.
Proof. rewrite app_nth2 by lia. by rewrite Nat.sub_diag. Qed.

(** A string prefix at a component boundary is a prefix of the stacks. *)
Lemma render_prefix st1 st2 :
  Forall segment st1 -> Forall segment st2 -> Forall textual st1 ->
  (take (length (render st2)) (render st1) = render st2 /\
   (nth (length (render st2)) (render st1) 0 = 0 \/
    nth (length (render st2)) (render st1) 0 = SLASH)) <->
  exists t, st1 = st2 ++ t.
Proof.
  intros H1 H2 Ht. split.
  - intros [Hp Hn]. rewrite <- (take_drop (length (render st2)) (render st1)) in Hn.
    pose proof (components_render_abs st1 H1) as Hc.
    set (rest := drop (length (render st2)) (render st1)) in *.
    assert (Hr : render st1 = render st2 ++ rest)
      by (rewrite <- Hp at 1; unfold rest; by rewrite take_drop).
    rewrite Hp, nth_app_boundary in Hn.
    assert (Hb : match rest with [] => True | c :: _ => c = SLASH end).
    { destruct rest as [|c rest]; [done|]. simpl in Hn. destruct Hn as [->|]; [|done].
      apply render_textual in Ht. rewrite Hr in Ht.
      by apply Forall_app in Ht as [_ [? _]%Forall_cons]. }
    exists (components rest). rewrite <- components_render by done. rewrite <- Hr.
    destruct st1 as [|c st1]; [|done]. simpl in Hr.
    by destruct (render st2), rest.
  - intros [t ->]. rewrite render_app, take_app_length, nth_app_boundary. split; [done|].
    pose proof (render_head t). destruct (render t); auto.
Qed.

(** [lxp_path_under] is the component-wise prefix test on normalized paths ("/data"
    covers "/data/x" and not "/database", and everything lies below "/"), and returns the
    length of the prefix string. *)
Theorem path_under_components st1 st2 :
  canonical st1 -> canonical st2 ->
  lxp_path_under (render_abs st1) (render_abs st2) =
  (if decide (st2 `prefix_of` st1) then alen (render_abs st2) else 0) /\
  0 < alen (render_abs st2).
Proof.
  intros C1 C2. pose proof (canonical_segments _ C1) as S1. pose proof (canonical_segments _ C2) as S2.
  destruct C1 as [_ T1]. split; [|destruct st2; unfold alen; simpl; lia].
  unfold lxp_path_under. destruct st2 as [|c2 st2].
  - rewrite decide_True by (by exists st1). destruct st1; reflexivity.
  - set (pre := render_abs (c2 :: st2)). pose proof (render_prefix st1 (c2 :: st2) S1 S2 T1) as HP.
    assert (Hlen : 2 <= alen pre).
    { apply Forall_cons in S2 as [[Hne _] _]. destruct c2; [done|].
      unfold pre, alen. simpl. lia. }
    destruct (Z.eqb_spec (alen pre) 1); [lia|]. destruct (Z.eqb_spec (alen pre) 0); [lia|].
    cbn [andb orb]. change (render (c2 :: st2)) with pre in HP.
    assert (HP' : (bool_decide (take (length pre) (render_abs st1) = pre) &&
                   ((aget 0 (render_abs st1) (alen pre) =? 0) ||
                    (aget 0 (render_abs st1) (alen pre) =? SLASH))) = true <->
                  (c2 :: st2) `prefix_of` st1).
    { unfold aget, alen. rewrite Nat2Z.id. destruct st1 as [|c1 st1].
      - split; [|by intros [t Ht]]. intros H. exfalso.
        apply andb_true_iff in H as [H%bool_decide_eq_true _].
        apply (f_equal length) in H. rewrite length_take in H. unfold alen in Hlen.
        change (length (render_abs [])) with 1%nat in H. lia.
      - rewrite <- HP. unfold render_abs.
        rewrite andb_true_iff, orb_true_iff, bool_decide_eq_true, !Z.eqb_eq. done. }
    destruct (decide _) as [Hd|Hd]; [apply HP' in Hd|rewrite <- HP', not_true_iff_false in Hd];
      destruct (bool_decide _), (_ || _); simpl in *; done.
Qed.

Lemma path_under_components_witness :
  canonical [[97]; [98]] /\ lxp_path_under (render_abs [[97]; [98]]) (render_abs [[97]]) = 2 /\
  lxp_path_under (render_abs [[97; 98]]) (render_abs [[97]]) = 0.
Proof.
  assert (C1 : canonical [[97]; [98]]) by (split; repeat constructor; done).
  assert (C2 : canonical [[97]]) by (split; repeat constructor; done).
  assert (C3 : canonical [[97; 98]]) by (split; repeat constructor; done).
  split_and!; [done| |].
  - destruct (path_under_components _ _ C1 C2) as [-> _].
    rewrite decide_True; [reflexivity|]. by exists [[98]].
  - destruct (path_under_components _ _ C3 C2) as [-> _].
    rewrite decide_False; [reflexivity|]. by intros [t Ht].
Defined.

Lemma has_slash_false s : has_slash s = false <-> Forall (fun x => x <> SLASH) s.
Proof.
  unfold has_slash. induction s as [|c s IH]; simpl; [by split|].
  rewrite orb_false_iff, IH, Forall_cons. unfold is_slash. by rewrite Z.eqb_neq.
Qed.

(** A single component is rendered with one slash, a deeper stack with more. *)
Lemma render_single p name :
  Forall segment p -> name <> [] -> Forall (fun x => x <> SLASH) name ->
  render p = SLASH :: name -> p = [name].
Proof.
  intros Hp Hne Hs H. rewrite <- (components_render_abs p Hp).
  destruct p as [|c p]; [done|]. unfold render_abs. rewrite H.
  unfold components. simpl. rewrite <- (app_nil_r name), comp_acc_app by done.
  simpl. rewrite app_nil_r. by destruct name.
Qed.

Lemma child_of_root p name :
  canonical p -> lxp_path_child_name [SLASH] (render_abs p) = Some name <-> p = [name].
Proof.
  intros Cp. pose proof (canonical_segments _ Cp) as Sp. destruct Cp as [_ Tp].
  unfold lxp_path_child_name. simpl. destruct p as [|c p]; [split; intros; done|].
  apply Forall_cons in Sp as [[Hne Hc] Sp]. apply Forall_cons in Tp as [Tc _].
  destruct c as [|x c]; [done|]. apply Forall_cons in Tc as [Hx _]. simpl.
  change (aget 0 _ 1) with x.
  destruct (Z.eqb_spec x 0); [done|]. unfold is_slash at 1.
  apply Forall_cons in Hc as [Hx' Hc]. destruct (Z.eqb_spec x SLASH); [done|]. cbn [orb negb].
  change (existsb is_slash (c ++ render p)) with (has_slash (c ++ render p)).
  destruct p as [|c' p]; simpl.
  - rewrite app_nil_r. rewrite (proj2 (has_slash_false c) Hc). split; intros; congruence.
  - destruct (has_slash (c ++ SLASH :: c' ++ render p)) eqn:E; [split; intros; congruence|].
    apply has_slash_false, Forall_app in E as [_ [? _]%Forall_cons]. done.
Qed.

Lemma child_of_dir d p name :
  d <> [] -> canonical d -> canonical p ->
  lxp_path_child_name (render_abs d) (render_abs p) = Some name <-> p = d ++ [name].
Proof.
  intros Hd Cd Cp. pose proof (canonical_segments _ Cd) as Sd.
  pose proof (canonical_segments _ Cp) as Sp.
  destruct d as [|[|x c] d]; [done|by apply Forall_cons in Sd as [[? _] _]|].
  assert (Hx : x <> 0) by (destruct Cd as [_ [[? _]%Forall_cons _]%Forall_cons]; done).
  unfold lxp_path_child_name. rewrite (proj2 (Z.eqb_neq (aget 0 (render_abs _) 1) 0)) by done.
  rewrite andb_false_r. set (dd := (x :: c) :: d) in *. change (render_abs dd) with (render dd).
  unfold aget, alen. rewrite Nat2Z.id. split.
  - intros H. destruct (bool_decide_reflect (take (length (render dd)) (render_abs p) = render dd))
      as [Hp|]; [|done]. destruct (Z.eqb_spec (nth (length (render dd)) (render_abs p) 0) SLASH)
      as [Hn|]; [|done]. cbn [negb orb] in H.
    destruct p as [|c1 p]; [by (destruct c; simpl in Hp)|]. change (render_abs (c1 :: p)) with (render (c1 :: p)) in *.
    destruct (proj1 (render_prefix (c1 :: p) dd Sp Sd ltac:(apply Cp)) (conj Hp (or_intror Hn)))
      as [t Ht]. rewrite Ht in *. f_equal.
    rewrite render_app, nth_app_boundary in Hn. rewrite render_app in H.
    rewrite drop_app_ge in H by lia. replace (length (render dd) + 1 - length (render dd))%nat with 1%nat in H by lia.
    destruct t as [|c2 t]; [done|]. simpl in H.
    destruct (_ && _) eqn:E in H; [|done]. injection H as <-.
    apply andb_true_iff in E as [_ E%negb_true_iff%has_slash_false].
    apply Forall_app in Sp as [_ [S2 _]%Forall_cons].
    destruct t as [|c3 t]; [by rewrite app_nil_r|]. apply Forall_app in E as [_ [E _]%Forall_cons]. done.
  - intros ->. destruct Cp as [_ [_ [Tn _]%Forall_cons]%Forall_app].
    apply Forall_app in Sp as [_ [[Hne Hn] _]%Forall_cons].
    change (render_abs (dd ++ [name])) with (render (dd ++ [name])). clearbody dd.
    rewrite render_app, take_app_length, bool_decide_true, nth_app_boundary by done.
    simpl. rewrite app_nil_r, drop_app_ge by lia.
    replace (length (render dd) + 1 - length (render dd))%nat with 1%nat by lia. change (drop 1 (SLASH :: name)) with name.
    rewrite (proj2 (has_slash_false name) Hn). destruct name as [|y name]; [done|].
    apply Forall_cons in Tn as [Hy _]. simpl. destruct (Z.eqb_spec y 0); done.
Qed.

(** [lxp_path_child_name] names exactly the entries one component below a directory:
    on normalized paths it returns [name] iff the path is the directory's components
    followed by [name], the root directory included. *)
Theorem path_child_name_exact d p name :
  canonical d -> canonical p ->
  (lxp_path_child_name (render_abs d) (render_abs p) = Some name <-> p = d ++ [name]).
Proof.
  intros Cd Cp. destruct d as [|c d]; [by apply child_of_root|by apply child_of_dir].
Qed.

Lemma path_child_name_exact_witness :
  canonical [[97]] /\ lxp_path_child_name (render_abs [[97]]) (render_abs [[97]; [98]]) = Some [98].
Proof.
  assert (C1 : canonical [[97]; [98]]) by (split; repeat constructor; done).
  assert (C2 : canonical [[97]]) by (split; repeat constructor; done).
  split; [done|]. by apply (path_child_name_exact _ _ [98] C2 C1).
Defined.

(** Chained calls hash the concatenation. *)
Lemma path_hash_app h a b : lxp_path_hash h (a ++ b) = lxp_path_hash (lxp_path_hash h a) b.
Proof. revert h. induction a as [|c a IH]; intros h; simpl; [done|]. apply IH. Qed.

(** ** Following symlinks *)

Lemma fsx_lookup_range fs abs : -1 <= fsx_lookup fs abs < alen fs.
Proof.
  unfold fsx_lookup. destruct (find_first _ fs) eqn:E; [|unfold alen; lia].
  apply (find_first_some no_file) in E. lia.
Qed.

(** One hop of the follow loop. *)
Definition hop (fs : list lxp_file) (i : Z) : Z := follow_loop 1 fs i.

(** Where following stops: a failed lookup, or a file that is not a link. *)
Definition terminal (fs : list lxp_file) (i : Z) : Prop :=
  i < 0 \/ is_symlink (aget no_file fs i) = false.

Lemma follow_terminal n fs i : terminal fs i -> follow_loop n fs i = i.
Proof.
  intros H. destruct n; [done|]. simpl. destruct (Z.ltb_spec i 0); [done|].
  destruct H as [?| ->]; [lia|done].
Qed.

Lemma follow_loop_hops n fs i : follow_loop n fs i = Nat.iter n (hop fs) i.
Proof.
  revert i. induction n as [|n IH]; intros i; [done|].
  rewrite Nat.iter_succ_r, <- IH. unfold hop. simpl.
  destruct (Z.ltb_spec i 0); [rewrite follow_terminal; [done|by left]|].
  destruct (is_symlink _) eqn:E; simpl; [|rewrite follow_terminal; [done|by right]].
  repeat case_goal; try done; rewrite follow_terminal; try done; by left.
Qed.

Lemma hops_range n fs i : i < alen fs -> Nat.iter n (hop fs) i < alen fs.
Proof.
  intros Hi. induction n as [|n IH]; [done|]. simpl. unfold hop at 1. simpl.
  pose proof (fsx_lookup_range fs). unfold alen in *.
  repeat case_goal; try lia. by apply H.
Qed.

Lemma hops_stay k n fs i :
  (k <= n)%nat -> terminal fs (Nat.iter k (hop fs) i) ->
  Nat.iter n (hop fs) i = Nat.iter k (hop fs) i.
Proof.
  intros Hk Ht. replace n with ((n - k) + k)%nat by lia. rewrite Nat.iter_add.
  rewrite <- follow_loop_hops. by apply follow_terminal.
Qed.

(** Resolving a path through the rootfs follows the chain of symlinks: if the chain
    from the looked-up entry ends within [LXP_SYMLOOP_MAX] hops, in a file that is not a
    link or in a failed lookup, that is what is returned; and the index is always -1 or
    inside the table. *)
Theorem rootfs_resolve_follows_chain fs path k :
  (Z.of_nat k <= LXP_SYMLOOP_MAX) ->
  terminal fs (Nat.iter k (hop fs) (fsx_lookup fs path)) ->
  lxp_rootfs_resolve_index (Some fs) (Some path) = Nat.iter k (hop fs) (fsx_lookup fs path) /\
  lxp_rootfs_resolve_index (Some fs) (Some path) < alen fs.
Proof.
  intros Hk Ht. unfold lxp_rootfs_resolve_index, fsx_follow. rewrite follow_loop_hops.
  split; [apply hops_stay; [unfold LXP_SYMLOOP_MAX in *; lia|done]|].
  apply hops_range, fsx_lookup_range.
Qed.

(** "/sbin" -> "bin" -> "/bin", a directory; and "/loop", which names itself. *)
Definition demo_fs : list lxp_file :=
  [ mk_file [47; 115] (Some [98]) 1 0xa1ff; mk_file [47; 98] None 0 0x41ed;
    mk_file [47; 108] (Some [108]) 1 0xa1ff ].

Lemma rootfs_resolve_follows_chain_witness :
  Z.of_nat 1 <= LXP_SYMLOOP_MAX /\
  lxp_rootfs_resolve_index (Some demo_fs) (Some [47; 115]) = 1.
Proof.
  split; [vm_compute; congruence|].
  destruct (rootfs_resolve_follows_chain demo_fs [47; 115] 1) as [-> _].
  - vm_compute; congruence.
  - right. reflexivity.
  - reflexivity.
Defined.

(** A chain that does not end in [LXP_SYMLOOP_MAX] hops is not reported as a failure:
    the last link reached is returned as if it were the file, so a link that names itself
    resolves to the link. *)
Theorem symlink_loop_resolves_to_link :
  exists fs path i, lxp_rootfs_resolve_index (Some fs) (Some path) = i /\ 0 <= i /\
    is_symlink (aget no_file fs i) = true.
Proof. exists demo_fs, [47; 108], 2. split_and!; [reflexivity|lia|reflexivity]. Qed.
