(* ===== verification/Proc.v ===== *)
(** * Process-core data (src/proc/lxp_proc.h, include/lxp/lxp_identity.h)

    The records of the process core, field for field; a field is read by its projection
    and written by the [set_] function of its name.  A pointer into one of the static
    pools is the index of the object, [None] for NULL; host callbacks and foreign
    pointers are opaque addresses.  Tagged unions are inductive types, so exactly the
    payload that the tag selects exists. *)

From S2P Require Import Prelude Config.
Local Open Scope Z_scope.

(** ** Identities *)

(** A generation-qualified reference, to a process slot or to a program region. *)
Record lxp_ref := mk_ref { ref_index : Z; ref_generation : Z }.

Definition lxp_slot_ref (index generation : Z) : lxp_ref := mk_ref index generation.
Definition lxp_slot_ref_none : lxp_ref := lxp_slot_ref (-1) 0.
Definition lxp_region_ref_none : lxp_ref := mk_ref (-1) 0.

Definition lxp_slot_ref_equal (a b : lxp_ref) : bool :=
  (ref_index a =? ref_index b) && (ref_generation a =? ref_generation b).
Definition lxp_region_ref_equal (a b : lxp_ref) : bool :=
  (ref_index a =? ref_index b) && (ref_generation a =? ref_generation b).

#[export] Instance lxp_ref_eq_dec : EqDecision lxp_ref.
Proof. solve_decision. Defined.

Lemma ref_equal_eq a b : lxp_region_ref_equal a b = true <-> a = b.
Proof.
  unfold lxp_region_ref_equal. destruct a, b. simpl.
  rewrite andb_true_iff, !Z.eqb_eq. split; [intros []|intros [=]]; subst; auto.
Qed.

(** ** Descriptors and refcounted resources *)

(** Descriptor kinds. *)
Definition LXP_FD_FREE : Z := 0.
Definition LXP_FD_CONSOLE : Z := 1.
Definition LXP_FD_FILE : Z := 2.
Definition LXP_FD_PIPE : Z := 3.
Definition LXP_FD_TMPFS : Z := 4.
Definition LXP_FD_PROC : Z := 5.
Definition LXP_FD_DEV : Z := 6.
Definition LXP_FD_SOCKET : Z := 7.
Definition LXP_FD_EVENTFD : Z := 8.
Definition LXP_FD_PTY : Z := 9.
Definition LXP_FD_NET : Z := 10.
Definition LXP_FD_HOSTFS : Z := 11.
Definition LXP_FD_KIND_COUNT : Z := LXP_FD_HOSTFS + 1.
Definition LXP_CHILD_EXITED : Z := 0.
Definition LXP_CHILD_STOPPED : Z := 1.
Definition LXP_STOP_NONE : Z := 0.
Definition LXP_STOP_PARKED : Z := 1.
Definition LXP_STOP_READY : Z := 2.

(** A refcounted open-file description. *)
Record lxp_ofd := mk_ofd {
  ofd_refs : Z;
  ofd_kind : Z;
  ofd_rw : Z;
  ofd_nonblock : Z;
  ofd_accmode : Z;
  ofd_file_idx : Z;
  ofd_offset : Z;
}.

Definition set_ofd_refs (x : lxp_ofd) (v : Z) : lxp_ofd :=
  mk_ofd v (ofd_kind x) (ofd_rw x) (ofd_nonblock x) (ofd_accmode x) (ofd_file_idx x)
    (ofd_offset x).

Definition set_ofd_kind (x : lxp_ofd) (v : Z) : lxp_ofd :=
  mk_ofd (ofd_refs x) v (ofd_rw x) (ofd_nonblock x) (ofd_accmode x) (ofd_file_idx x)
    (ofd_offset x).

Definition set_ofd_rw (x : lxp_ofd) (v : Z) : lxp_ofd :=
  mk_ofd (ofd_refs x) (ofd_kind x) v (ofd_nonblock x) (ofd_accmode x) (ofd_file_idx x)
    (ofd_offset x).

Definition set_ofd_nonblock (x : lxp_ofd) (v : Z) : lxp_ofd :=
  mk_ofd (ofd_refs x) (ofd_kind x) (ofd_rw x) v (ofd_accmode x) (ofd_file_idx x) (ofd_offset x).

Definition set_ofd_accmode (x : lxp_ofd) (v : Z) : lxp_ofd :=
  mk_ofd (ofd_refs x) (ofd_kind x) (ofd_rw x) (ofd_nonblock x) v (ofd_file_idx x) (ofd_offset x).

Definition set_ofd_file_idx (x : lxp_ofd) (v : Z) : lxp_ofd :=
  mk_ofd (ofd_refs x) (ofd_kind x) (ofd_rw x) (ofd_nonblock x) (ofd_accmode x) v (ofd_offset x).

Definition set_ofd_offset (x : lxp_ofd) (v : Z) : lxp_ofd :=
  mk_ofd (ofd_refs x) (ofd_kind x) (ofd_rw x) (ofd_nonblock x) (ofd_accmode x) (ofd_file_idx x) v.

Definition ofd_zero : lxp_ofd := mk_ofd 0 0 0 0 0 0 0.

(** A descriptor-table entry: description index plus one (zero: free), and FD_CLOEXEC. *)
Record lxp_fd := mk_fd {
  fd_ofd : Z;
  fd_cloexec : Z;
}.

Definition fd_zero : lxp_fd := mk_fd 0 0.

(** A refcounted descriptor table of LXP_MAX_FDS entries. *)
Record lxp_files := mk_files {
  files_refs : Z;
  files_fd : list lxp_fd;
}.

Definition set_files_refs (x : lxp_files) (v : Z) : lxp_files :=
  mk_files v (files_fd x).

Definition set_files_fd (x : lxp_files) (v : list lxp_fd) : lxp_files :=
  mk_files (files_refs x) v.

Definition files_zero : lxp_files := mk_files 0 (replicate (Z.to_nat LXP_MAX_FDS) fd_zero).

(** Refcounted cwd and umask. *)
Record lxp_fs_context := mk_fs_context {
  fsc_refs : Z;
  fsc_umask : Z;
  fsc_cwd : list Z;
}.

Definition set_fsc_refs (x : lxp_fs_context) (v : Z) : lxp_fs_context :=
  mk_fs_context v (fsc_umask x) (fsc_cwd x).

Definition set_fsc_umask (x : lxp_fs_context) (v : Z) : lxp_fs_context :=
  mk_fs_context (fsc_refs x) v (fsc_cwd x).

Definition set_fsc_cwd (x : lxp_fs_context) (v : list Z) : lxp_fs_context :=
  mk_fs_context (fsc_refs x) (fsc_umask x) v.

Definition fs_context_zero : lxp_fs_context := mk_fs_context 0 0 [].

(** Refcounted signal dispositions. *)
Record lxp_sighand := mk_sighand {
  sh_refs : Z;
  sh_handler : list Z;
  sh_restorer : Z;
  sh_restart : Z;
}.

Definition set_sh_refs (x : lxp_sighand) (v : Z) : lxp_sighand :=
  mk_sighand v (sh_handler x) (sh_restorer x) (sh_restart x).

Definition set_sh_handler (x : lxp_sighand) (v : list Z) : lxp_sighand :=
  mk_sighand (sh_refs x) v (sh_restorer x) (sh_restart x).

Definition set_sh_restorer (x : lxp_sighand) (v : Z) : lxp_sighand :=
  mk_sighand (sh_refs x) (sh_handler x) v (sh_restart x).

Definition set_sh_restart (x : lxp_sighand) (v : Z) : lxp_sighand :=
  mk_sighand (sh_refs x) (sh_handler x) (sh_restorer x) v.

Definition sighand_zero : lxp_sighand :=
  mk_sighand 0 (replicate (Z.to_nat LXP_NSIG) 0) 0 0.

(** A refcounted NOMMU address space. *)
Record lxp_mm := mk_mm {
  mm_refs : Z;
  mm_device_generation : Z;
  mm_exec_generation : Z;
  mm_arena : option Z;
  mm_brk_base : Z;
  mm_brk_cur : Z;
  mm_brk_max : Z;
  mm_region : lxp_ref;
  mm_region_lo : Z;
  mm_region_hi : Z;
  mm_pool_lo : Z;
  mm_pool_hi : Z;
  mm_is_dynamic : Z;
  mm_copied_text_executable : Z;
  mm_copied_text_base : Z;
  mm_copied_text_size : Z;
  mm_dev_map_lo : list Z;
  mm_dev_map_hi : list Z;
  mm_dev_map_attrs : list Z;
}.

Definition set_mm_refs (x : lxp_mm) (v : Z) : lxp_mm :=
  mk_mm v (mm_device_generation x) (mm_exec_generation x) (mm_arena x) (mm_brk_base x)
    (mm_brk_cur x) (mm_brk_max x) (mm_region x) (mm_region_lo x) (mm_region_hi x) (mm_pool_lo x)
    (mm_pool_hi x) (mm_is_dynamic x) (mm_copied_text_executable x) (mm_copied_text_base x)
    (mm_copied_text_size x) (mm_dev_map_lo x) (mm_dev_map_hi x) (mm_dev_map_attrs x).

Definition set_mm_device_generation (x : lxp_mm) (v : Z) : lxp_mm :=
  mk_mm (mm_refs x) v (mm_exec_generation x) (mm_arena x) (mm_brk_base x) (mm_brk_cur x)
    (mm_brk_max x) (mm_region x) (mm_region_lo x) (mm_region_hi x) (mm_pool_lo x) (mm_pool_hi x)
    (mm_is_dynamic x) (mm_copied_text_executable x) (mm_copied_text_base x)
    (mm_copied_text_size x) (mm_dev_map_lo x) (mm_dev_map_hi x) (mm_dev_map_attrs x).

Definition set_mm_exec_generation (x : lxp_mm) (v : Z) : lxp_mm :=
  mk_mm (mm_refs x) (mm_device_generation x) v (mm_arena x) (mm_brk_base x) (mm_brk_cur x)
    (mm_brk_max x) (mm_region x) (mm_region_lo x) (mm_region_hi x) (mm_pool_lo x) (mm_pool_hi x)
    (mm_is_dynamic x) (mm_copied_text_executable x) (mm_copied_text_base x)
    (mm_copied_text_size x) (mm_dev_map_lo x) (mm_dev_map_hi x) (mm_dev_map_attrs x).

Definition set_mm_arena (x : lxp_mm) (v : option Z) : lxp_mm :=
  mk_mm (mm_refs x) (mm_device_generation x) (mm_exec_generation x) v (mm_brk_base x)
    (mm_brk_cur x) (mm_brk_max x) (mm_region x) (mm_region_lo x) (mm_region_hi x) (mm_pool_lo x)
    (mm_pool_hi x) (mm_is_dynamic x) (mm_copied_text_executable x) (mm_copied_text_base x)
    (mm_copied_text_size x) (mm_dev_map_lo x) (mm_dev_map_hi x) (mm_dev_map_attrs x).

Definition set_mm_brk_base (x : lxp_mm) (v : Z) : lxp_mm :=
  mk_mm (mm_refs x) (mm_device_generation x) (mm_exec_generation x) (mm_arena x) v (mm_brk_cur x)
    (mm_brk_max x) (mm_region x) (mm_region_lo x) (mm_region_hi x) (mm_pool_lo x) (mm_pool_hi x)
    (mm_is_dynamic x) (mm_copied_text_executable x) (mm_copied_text_base x)
    (mm_copied_text_size x) (mm_dev_map_lo x) (mm_dev_map_hi x) (mm_dev_map_attrs x).

Definition set_mm_brk_cur (x : lxp_mm) (v : Z) : lxp_mm :=
  mk_mm (mm_refs x) (mm_device_generation x) (mm_exec_generation x) (mm_arena x) (mm_brk_base x) v
    (mm_brk_max x) (mm_region x) (mm_region_lo x) (mm_region_hi x) (mm_pool_lo x) (mm_pool_hi x)
    (mm_is_dynamic x) (mm_copied_text_executable x) (mm_copied_text_base x)
    (mm_copied_text_size x) (mm_dev_map_lo x) (mm_dev_map_hi x) (mm_dev_map_attrs x).

Definition set_mm_brk_max (x : lxp_mm) (v : Z) : lxp_mm :=
  mk_mm (mm_refs x) (mm_device_generation x) (mm_exec_generation x) (mm_arena x) (mm_brk_base x)
    (mm_brk_cur x) v (mm_region x) (mm_region_lo x) (mm_region_hi x) (mm_pool_lo x) (mm_pool_hi x)
    (mm_is_dynamic x) (mm_copied_text_executable x) (mm_copied_text_base x)
    (mm_copied_text_size x) (mm_dev_map_lo x) (mm_dev_map_hi x) (mm_dev_map_attrs x).

Definition set_mm_region (x : lxp_mm) (v : lxp_ref) : lxp_mm :=
  mk_mm (mm_refs x) (mm_device_generation x) (mm_exec_generation x) (mm_arena x) (mm_brk_base x)
    (mm_brk_cur x) (mm_brk_max x) v (mm_region_lo x) (mm_region_hi x) (mm_pool_lo x)
    (mm_pool_hi x) (mm_is_dynamic x) (mm_copied_text_executable x) (mm_copied_text_base x)
    (mm_copied_text_size x) (mm_dev_map_lo x) (mm_dev_map_hi x) (mm_dev_map_attrs x).

Definition mm_zero : lxp_mm :=
  mk_mm 0 0 0 None 0 0 0 (mk_ref 0 0) 0 0 0 0 0 0 0 0 [0; 0] [0; 0] [0; 0].

(** Process-wide identity, job control and child reaping. *)
Record lxp_thread_group := mk_group {
  tg_refs : Z;
  tg_tgid : Z;
  tg_ppid : Z;
  tg_pgid : Z;
  tg_exiting : Z;
  tg_exit_status : Z;
  tg_child_pid : list Z;
  tg_child_status : list Z;
  tg_child_kind : list Z;
  tg_child_count : Z;
  tg_live_children : Z;
}.

Definition set_tg_refs (x : lxp_thread_group) (v : Z) : lxp_thread_group :=
  mk_group v (tg_tgid x) (tg_ppid x) (tg_pgid x) (tg_exiting x) (tg_exit_status x)
    (tg_child_pid x) (tg_child_status x) (tg_child_kind x) (tg_child_count x) (tg_live_children x).

Definition set_tg_tgid (x : lxp_thread_group) (v : Z) : lxp_thread_group :=
  mk_group (tg_refs x) v (tg_ppid x) (tg_pgid x) (tg_exiting x) (tg_exit_status x)
    (tg_child_pid x) (tg_child_status x) (tg_child_kind x) (tg_child_count x) (tg_live_children x).

Definition set_tg_ppid (x : lxp_thread_group) (v : Z) : lxp_thread_group :=
  mk_group (tg_refs x) (tg_tgid x) v (tg_pgid x) (tg_exiting x) (tg_exit_status x)
    (tg_child_pid x) (tg_child_status x) (tg_child_kind x) (tg_child_count x) (tg_live_children x).

Definition set_tg_pgid (x : lxp_thread_group) (v : Z) : lxp_thread_group :=
  mk_group (tg_refs x) (tg_tgid x) (tg_ppid x) v (tg_exiting x) (tg_exit_status x)
    (tg_child_pid x) (tg_child_status x) (tg_child_kind x) (tg_child_count x) (tg_live_children x).

Definition set_tg_exiting (x : lxp_thread_group) (v : Z) : lxp_thread_group :=
  mk_group (tg_refs x) (tg_tgid x) (tg_ppid x) (tg_pgid x) v (tg_exit_status x) (tg_child_pid x)
    (tg_child_status x) (tg_child_kind x) (tg_child_count x) (tg_live_children x).

Definition set_tg_exit_status (x : lxp_thread_group) (v : Z) : lxp_thread_group :=
  mk_group (tg_refs x) (tg_tgid x) (tg_ppid x) (tg_pgid x) (tg_exiting x) v (tg_child_pid x)
    (tg_child_status x) (tg_child_kind x) (tg_child_count x) (tg_live_children x).

Definition set_tg_child_pid (x : lxp_thread_group) (v : list Z) : lxp_thread_group :=
  mk_group (tg_refs x) (tg_tgid x) (tg_ppid x) (tg_pgid x) (tg_exiting x) (tg_exit_status x) v
    (tg_child_status x) (tg_child_kind x) (tg_child_count x) (tg_live_children x).

Definition set_tg_child_status (x : lxp_thread_group) (v : list Z) : lxp_thread_group :=
  mk_group (tg_refs x) (tg_tgid x) (tg_ppid x) (tg_pgid x) (tg_exiting x) (tg_exit_status x)
    (tg_child_pid x) v (tg_child_kind x) (tg_child_count x) (tg_live_children x).

Definition set_tg_child_kind (x : lxp_thread_group) (v : list Z) : lxp_thread_group :=
  mk_group (tg_refs x) (tg_tgid x) (tg_ppid x) (tg_pgid x) (tg_exiting x) (tg_exit_status x)
    (tg_child_pid x) (tg_child_status x) v (tg_child_count x) (tg_live_children x).

Definition set_tg_child_count (x : lxp_thread_group) (v : Z) : lxp_thread_group :=
  mk_group (tg_refs x) (tg_tgid x) (tg_ppid x) (tg_pgid x) (tg_exiting x) (tg_exit_status x)
    (tg_child_pid x) (tg_child_status x) (tg_child_kind x) v (tg_live_children x).

Definition set_tg_live_children (x : lxp_thread_group) (v : Z) : lxp_thread_group :=
  mk_group (tg_refs x) (tg_tgid x) (tg_ppid x) (tg_pgid x) (tg_exiting x) (tg_exit_status x)
    (tg_child_pid x) (tg_child_status x) (tg_child_kind x) (tg_child_count x) v.

Definition group_zero : lxp_thread_group :=
  let z := replicate (Z.to_nat LXP_MAX_CHILD) 0 in mk_group 0 0 0 0 0 0 z z z 0 0.

(** ** Deferred work *)

Inductive lxp_intent :=
  | LXP_INTENT_NONE
  | LXP_INTENT_DEFERRED_SYSCALL
  | LXP_INTENT_FORK (flags child_stack : Z)
  | LXP_INTENT_EXEC
  | LXP_INTENT_EXIT (group : bool).

Inductive lxp_intent_kind := IK_NONE | IK_DEFERRED_SYSCALL | IK_FORK | IK_EXEC | IK_EXIT.

#[export] Instance intent_kind_eq_dec : EqDecision lxp_intent_kind.
Proof. solve_decision. Defined.

Definition intent_kind (i : lxp_intent) : lxp_intent_kind :=
  match i with
  | LXP_INTENT_NONE => IK_NONE
  | LXP_INTENT_DEFERRED_SYSCALL => IK_DEFERRED_SYSCALL
  | LXP_INTENT_FORK _ _ => IK_FORK
  | LXP_INTENT_EXEC => IK_EXEC
  | LXP_INTENT_EXIT _ => IK_EXIT
  end.

Inductive lxp_wait_kind :=
  | LXP_WAIT_NONE | LXP_WAIT_TIMER | LXP_WAIT_CHILD | LXP_WAIT_FUTEX | LXP_WAIT_PIPE
  | LXP_WAIT_CONSOLE | LXP_WAIT_DEVICE | LXP_WAIT_SOCKET | LXP_WAIT_NETFS | LXP_WAIT_HOSTFS
  | LXP_WAIT_PTY | LXP_WAIT_SIGSUSPEND | LXP_WAIT_POLL.

#[export] Instance wait_kind_eq_dec : EqDecision lxp_wait_kind.
Proof. solve_decision. Defined.

Inductive wait_data :=
  | WD_NONE
  | WD_TIMER (deadline_us : Z)
  | WD_CHILD (pid options status : Z)
  | WD_FUTEX (uaddr deadline_us : Z) (woken : bool)
  | WD_IO (object request buffer length offset command deadline_us : Z)
  | WD_SOCKET (object nfds buffer length deadline_us readfds writefds exceptfds : Z)
  | WD_POLL (pollfds nfds deadline_us readfds writefds exceptfds : Z)
  | WD_HOSTFS (nr : Z) (args : list Z) (owner : Z).

(** Why a task is blocked. *)
Record lxp_wait := mk_wait {
  w_kind : lxp_wait_kind;
  w_op : Z;
  w_flags : Z;
  w_enqueued_us : Z;
  w_data : wait_data;
}.

Definition set_w_kind (x : lxp_wait) (v : lxp_wait_kind) : lxp_wait :=
  mk_wait v (w_op x) (w_flags x) (w_enqueued_us x) (w_data x).

Definition set_w_op (x : lxp_wait) (v : Z) : lxp_wait :=
  mk_wait (w_kind x) v (w_flags x) (w_enqueued_us x) (w_data x).

Definition set_w_flags (x : lxp_wait) (v : Z) : lxp_wait :=
  mk_wait (w_kind x) (w_op x) v (w_enqueued_us x) (w_data x).

Definition set_w_enqueued_us (x : lxp_wait) (v : Z) : lxp_wait :=
  mk_wait (w_kind x) (w_op x) (w_flags x) v (w_data x).

Definition set_w_data (x : lxp_wait) (v : wait_data) : lxp_wait :=
  mk_wait (w_kind x) (w_op x) (w_flags x) (w_enqueued_us x) v.

Definition wait_zero : lxp_wait := mk_wait LXP_WAIT_NONE 0 0 0 WD_NONE.

(** A Linux task. *)
Record lxp_proc := mk_proc {
  p_guest_view : option Z;  (* active dispatch view *)
  p_mm : option Z;
  p_write_fn : Z;
  p_read_fn : Z;
  p_console_poll : Z;
  p_io_ctx : Z;
  p_fs : Z;  (* rootfs table *)
  p_fs_count : Z;
  p_files : option Z;
  p_pid : Z;
  p_nice : Z;
  p_group : option Z;
  p_comm : list Z;
  p_fs_context : option Z;
  p_exit_status : Z;
  p_exit_reason : Z;
  p_exit_signal : Z;
  p_exit_detail : Z;
  p_exit_address : Z;
  p_stopped : Z;
  p_stop_kind : Z;
  p_stop_sig : Z;
  p_stop_r0 : Z;
  p_sighand : option Z;
  p_sig_blocked : Z;
  p_sigsuspend_saved_mask : Z;
  p_sigsuspend_active : Z;
  p_intent : lxp_intent;
  p_wait : lxp_wait;
  p_exec_file_idx : Z;
  p_exec_capture : option Z;
  p_alive : Z;
  p_vfork_parent : lxp_ref;
  p_snapshot : lxp_ref;
  p_stack_lo : Z;
  p_is_fdpic : Z;
  p_pending_sigs : Z;
  p_alarm_deadline_us : Z;
  p_alarm_interval_us : Z;
}.

Definition set_p_guest_view (x : lxp_proc) (v : option Z) : lxp_proc :=
  mk_proc v (p_mm x) (p_write_fn x) (p_read_fn x) (p_console_poll x) (p_io_ctx x) (p_fs x)
    (p_fs_count x) (p_files x) (p_pid x) (p_nice x) (p_group x) (p_comm x) (p_fs_context x)
    (p_exit_status x) (p_exit_reason x) (p_exit_signal x) (p_exit_detail x) (p_exit_address x)
    (p_stopped x) (p_stop_kind x) (p_stop_sig x) (p_stop_r0 x) (p_sighand x) (p_sig_blocked x)
    (p_sigsuspend_saved_mask x) (p_sigsuspend_active x) (p_intent x) (p_wait x)
    (p_exec_file_idx x) (p_exec_capture x) (p_alive x) (p_vfork_parent x) (p_snapshot x)
    (p_stack_lo x) (p_is_fdpic x) (p_pending_sigs x) (p_alarm_deadline_us x)
    (p_alarm_interval_us x).

Definition set_p_mm (x : lxp_proc) (v : option Z) : lxp_proc :=
  mk_proc (p_guest_view x) v (p_write_fn x) (p_read_fn x) (p_console_poll x) (p_io_ctx x) (p_fs x)
    (p_fs_count x) (p_files x) (p_pid x) (p_nice x) (p_group x) (p_comm x) (p_fs_context x)
    (p_exit_status x) (p_exit_reason x) (p_exit_signal x) (p_exit_detail x) (p_exit_address x)
    (p_stopped x) (p_stop_kind x) (p_stop_sig x) (p_stop_r0 x) (p_sighand x) (p_sig_blocked x)
    (p_sigsuspend_saved_mask x) (p_sigsuspend_active x) (p_intent x) (p_wait x)
    (p_exec_file_idx x) (p_exec_capture x) (p_alive x) (p_vfork_parent x) (p_snapshot x)
    (p_stack_lo x) (p_is_fdpic x) (p_pending_sigs x) (p_alarm_deadline_us x)
    (p_alarm_interval_us x).

Definition set_p_write_fn (x : lxp_proc) (v : Z) : lxp_proc :=
  mk_proc (p_guest_view x) (p_mm x) v (p_read_fn x) (p_console_poll x) (p_io_ctx x) (p_fs x)
    (p_fs_count x) (p_files x) (p_pid x) (p_nice x) (p_group x) (p_comm x) (p_fs_context x)
    (p_exit_status x) (p_exit_reason x) (p_exit_signal x) (p_exit_detail x) (p_exit_address x)
    (p_stopped x) (p_stop_kind x) (p_stop_sig x) (p_stop_r0 x) (p_sighand x) (p_sig_blocked x)
    (p_sigsuspend_saved_mask x) (p_sigsuspend_active x) (p_intent x) (p_wait x)
    (p_exec_file_idx x) (p_exec_capture x) (p_alive x) (p_vfork_parent x) (p_snapshot x)
    (p_stack_lo x) (p_is_fdpic x) (p_pending_sigs x) (p_alarm_deadline_us x)
    (p_alarm_interval_us x).

Definition set_p_read_fn (x : lxp_proc) (v : Z) : lxp_proc :=
  mk_proc (p_guest_view x) (p_mm x) (p_write_fn x) v (p_console_poll x) (p_io_ctx x) (p_fs x)
    (p_fs_count x) (p_files x) (p_pid x) (p_nice x) (p_group x) (p_comm x) (p_fs_context x)
    (p_exit_status x) (p_exit_reason x) (p_exit_signal x) (p_exit_detail x) (p_exit_address x)
    (p_stopped x) (p_stop_kind x) (p_stop_sig x) (p_stop_r0 x) (p_sighand x) (p_sig_blocked x)
    (p_sigsuspend_saved_mask x) (p_sigsuspend_active x) (p_intent x) (p_wait x)
    (p_exec_file_idx x) (p_exec_capture x) (p_alive x) (p_vfork_parent x) (p_snapshot x)
    (p_stack_lo x) (p_is_fdpic x) (p_pending_sigs x) (p_alarm_deadline_us x)
    (p_alarm_interval_us x).

Definition set_p_console_poll (x : lxp_proc) (v : Z) : lxp_proc :=
  mk_proc (p_guest_view x) (p_mm x) (p_write_fn x) (p_read_fn x) v (p_io_ctx x) (p_fs x)
    (p_fs_count x) (p_files x) (p_pid x) (p_nice x) (p_group x) (p_comm x) (p_fs_context x)
    (p_exit_status x) (p_exit_reason x) (p_exit_signal x) (p_exit_detail x) (p_exit_address x)
    (p_stopped x) (p_stop_kind x) (p_stop_sig x) (p_stop_r0 x) (p_sighand x) (p_sig_blocked x)
    (p_sigsuspend_saved_mask x) (p_sigsuspend_active x) (p_intent x) (p_wait x)
    (p_exec_file_idx x) (p_exec_capture x) (p_alive x) (p_vfork_parent x) (p_snapshot x)
    (p_stack_lo x) (p_is_fdpic x) (p_pending_sigs x) (p_alarm_deadline_us x)
    (p_alarm_interval_us x).

Definition set_p_io_ctx (x : lxp_proc) (v : Z) : lxp_proc :=
  mk_proc (p_guest_view x) (p_mm x) (p_write_fn x) (p_read_fn x) (p_console_poll x) v (p_fs x)
    (p_fs_count x) (p_files x) (p_pid x) (p_nice x) (p_group x) (p_comm x) (p_fs_context x)
    (p_exit_status x) (p_exit_reason x) (p_exit_signal x) (p_exit_detail x) (p_exit_address x)
    (p_stopped x) (p_stop_kind x) (p_stop_sig x) (p_stop_r0 x) (p_sighand x) (p_sig_blocked x)
    (p_sigsuspend_saved_mask x) (p_sigsuspend_active x) (p_intent x) (p_wait x)
    (p_exec_file_idx x) (p_exec_capture x) (p_alive x) (p_vfork_parent x) (p_snapshot x)
    (p_stack_lo x) (p_is_fdpic x) (p_pending_sigs x) (p_alarm_deadline_us x)
    (p_alarm_interval_us x).

Definition set_p_fs (x : lxp_proc) (v : Z) : lxp_proc :=
  mk_proc (p_guest_view x) (p_mm x) (p_write_fn x) (p_read_fn x) (p_console_poll x) (p_io_ctx x) v
    (p_fs_count x) (p_files x) (p_pid x) (p_nice x) (p_group x) (p_comm x) (p_fs_context x)
    (p_exit_status x) (p_exit_reason x) (p_exit_signal x) (p_exit_detail x) (p_exit_address x)
    (p_stopped x) (p_stop_kind x) (p_stop_sig x) (p_stop_r0 x) (p_sighand x) (p_sig_blocked x)
    (p_sigsuspend_saved_mask x) (p_sigsuspend_active x) (p_intent x) (p_wait x)
    (p_exec_file_idx x) (p_exec_capture x) (p_alive x) (p_vfork_parent x) (p_snapshot x)
    (p_stack_lo x) (p_is_fdpic x) (p_pending_sigs x) (p_alarm_deadline_us x)
    (p_alarm_interval_us x).

Definition set_p_fs_count (x : lxp_proc) (v : Z) : lxp_proc :=
  mk_proc (p_guest_view x) (p_mm x) (p_write_fn x) (p_read_fn x) (p_console_poll x) (p_io_ctx x)
    (p_fs x) v (p_files x) (p_pid x) (p_nice x) (p_group x) (p_comm x) (p_fs_context x)
    (p_exit_status x) (p_exit_reason x) (p_exit_signal x) (p_exit_detail x) (p_exit_address x)
    (p_stopped x) (p_stop_kind x) (p_stop_sig x) (p_stop_r0 x) (p_sighand x) (p_sig_blocked x)
    (p_sigsuspend_saved_mask x) (p_sigsuspend_active x) (p_intent x) (p_wait x)
    (p_exec_file_idx x) (p_exec_capture x) (p_alive x) (p_vfork_parent x) (p_snapshot x)
    (p_stack_lo x) (p_is_fdpic x) (p_pending_sigs x) (p_alarm_deadline_us x)
    (p_alarm_interval_us x).

Definition set_p_files (x : lxp_proc) (v : option Z) : lxp_proc :=
  mk_proc (p_guest_view x) (p_mm x) (p_write_fn x) (p_read_fn x) (p_console_poll x) (p_io_ctx x)
    (p_fs x) (p_fs_count x) v (p_pid x) (p_nice x) (p_group x) (p_comm x) (p_fs_context x)
    (p_exit_status x) (p_exit_reason x) (p_exit_signal x) (p_exit_detail x) (p_exit_address x)
    (p_stopped x) (p_stop_kind x) (p_stop_sig x) (p_stop_r0 x) (p_sighand x) (p_sig_blocked x)
    (p_sigsuspend_saved_mask x) (p_sigsuspend_active x) (p_intent x) (p_wait x)
    (p_exec_file_idx x) (p_exec_capture x) (p_alive x) (p_vfork_parent x) (p_snapshot x)
    (p_stack_lo x) (p_is_fdpic x) (p_pending_sigs x) (p_alarm_deadline_us x)
    (p_alarm_interval_us x).

Definition set_p_pid (x : lxp_proc) (v : Z) : lxp_proc :=
  mk_proc (p_guest_view x) (p_mm x) (p_write_fn x) (p_read_fn x) (p_console_poll x) (p_io_ctx x)
    (p_fs x) (p_fs_count x) (p_files x) v (p_nice x) (p_group x) (p_comm x) (p_fs_context x)
    (p_exit_status x) (p_exit_reason x) (p_exit_signal x) (p_exit_detail x) (p_exit_address x)
    (p_stopped x) (p_stop_kind x) (p_stop_sig x) (p_stop_r0 x) (p_sighand x) (p_sig_blocked x)
    (p_sigsuspend_saved_mask x) (p_sigsuspend_active x) (p_intent x) (p_wait x)
    (p_exec_file_idx x) (p_exec_capture x) (p_alive x) (p_vfork_parent x) (p_snapshot x)
    (p_stack_lo x) (p_is_fdpic x) (p_pending_sigs x) (p_alarm_deadline_us x)
    (p_alarm_interval_us x).

Definition set_p_nice (x : lxp_proc) (v : Z) : lxp_proc :=
  mk_proc (p_guest_view x) (p_mm x) (p_write_fn x) (p_read_fn x) (p_console_poll x) (p_io_ctx x)
    (p_fs x) (p_fs_count x) (p_files x) (p_pid x) v (p_group x) (p_comm x) (p_fs_context x)
    (p_exit_status x) (p_exit_reason x) (p_exit_signal x) (p_exit_detail x) (p_exit_address x)
    (p_stopped x) (p_stop_kind x) (p_stop_sig x) (p_stop_r0 x) (p_sighand x) (p_sig_blocked x)
    (p_sigsuspend_saved_mask x) (p_sigsuspend_active x) (p_intent x) (p_wait x)
    (p_exec_file_idx x) (p_exec_capture x) (p_alive x) (p_vfork_parent x) (p_snapshot x)
    (p_stack_lo x) (p_is_fdpic x) (p_pending_sigs x) (p_alarm_deadline_us x)
    (p_alarm_interval_us x).

Definition set_p_group (x : lxp_proc) (v : option Z) : lxp_proc :=
  mk_proc (p_guest_view x) (p_mm x) (p_write_fn x) (p_read_fn x) (p_console_poll x) (p_io_ctx x)
    (p_fs x) (p_fs_count x) (p_files x) (p_pid x) (p_nice x) v (p_comm x) (p_fs_context x)
    (p_exit_status x) (p_exit_reason x) (p_exit_signal x) (p_exit_detail x) (p_exit_address x)
    (p_stopped x) (p_stop_kind x) (p_stop_sig x) (p_stop_r0 x) (p_sighand x) (p_sig_blocked x)
    (p_sigsuspend_saved_mask x) (p_sigsuspend_active x) (p_intent x) (p_wait x)
    (p_exec_file_idx x) (p_exec_capture x) (p_alive x) (p_vfork_parent x) (p_snapshot x)
    (p_stack_lo x) (p_is_fdpic x) (p_pending_sigs x) (p_alarm_deadline_us x)
    (p_alarm_interval_us x).

Definition set_p_comm (x : lxp_proc) (v : list Z) : lxp_proc :=
  mk_proc (p_guest_view x) (p_mm x) (p_write_fn x) (p_read_fn x) (p_console_poll x) (p_io_ctx x)
    (p_fs x) (p_fs_count x) (p_files x) (p_pid x) (p_nice x) (p_group x) v (p_fs_context x)
    (p_exit_status x) (p_exit_reason x) (p_exit_signal x) (p_exit_detail x) (p_exit_address x)
    (p_stopped x) (p_stop_kind x) (p_stop_sig x) (p_stop_r0 x) (p_sighand x) (p_sig_blocked x)
    (p_sigsuspend_saved_mask x) (p_sigsuspend_active x) (p_intent x) (p_wait x)
    (p_exec_file_idx x) (p_exec_capture x) (p_alive x) (p_vfork_parent x) (p_snapshot x)
    (p_stack_lo x) (p_is_fdpic x) (p_pending_sigs x) (p_alarm_deadline_us x)
    (p_alarm_interval_us x).

Definition set_p_fs_context (x : lxp_proc) (v : option Z) : lxp_proc :=
  mk_proc (p_guest_view x) (p_mm x) (p_write_fn x) (p_read_fn x) (p_console_poll x) (p_io_ctx x)
    (p_fs x) (p_fs_count x) (p_files x) (p_pid x) (p_nice x) (p_group x) (p_comm x) v
    (p_exit_status x) (p_exit_reason x) (p_exit_signal x) (p_exit_detail x) (p_exit_address x)
    (p_stopped x) (p_stop_kind x) (p_stop_sig x) (p_stop_r0 x) (p_sighand x) (p_sig_blocked x)
    (p_sigsuspend_saved_mask x) (p_sigsuspend_active x) (p_intent x) (p_wait x)
    (p_exec_file_idx x) (p_exec_capture x) (p_alive x) (p_vfork_parent x) (p_snapshot x)
    (p_stack_lo x) (p_is_fdpic x) (p_pending_sigs x) (p_alarm_deadline_us x)
    (p_alarm_interval_us x).

Definition set_p_exit_status (x : lxp_proc) (v : Z) : lxp_proc :=
  mk_proc (p_guest_view x) (p_mm x) (p_write_fn x) (p_read_fn x) (p_console_poll x) (p_io_ctx x)
    (p_fs x) (p_fs_count x) (p_files x) (p_pid x) (p_nice x) (p_group x) (p_comm x)
    (p_fs_context x) v (p_exit_reason x) (p_exit_signal x) (p_exit_detail x) (p_exit_address x)
    (p_stopped x) (p_stop_kind x) (p_stop_sig x) (p_stop_r0 x) (p_sighand x) (p_sig_blocked x)
    (p_sigsuspend_saved_mask x) (p_sigsuspend_active x) (p_intent x) (p_wait x)
    (p_exec_file_idx x) (p_exec_capture x) (p_alive x) (p_vfork_parent x) (p_snapshot x)
    (p_stack_lo x) (p_is_fdpic x) (p_pending_sigs x) (p_alarm_deadline_us x)
    (p_alarm_interval_us x).

Definition set_p_exit_reason (x : lxp_proc) (v : Z) : lxp_proc :=
  mk_proc (p_guest_view x) (p_mm x) (p_write_fn x) (p_read_fn x) (p_console_poll x) (p_io_ctx x)
    (p_fs x) (p_fs_count x) (p_files x) (p_pid x) (p_nice x) (p_group x) (p_comm x)
    (p_fs_context x) (p_exit_status x) v (p_exit_signal x) (p_exit_detail x) (p_exit_address x)
    (p_stopped x) (p_stop_kind x) (p_stop_sig x) (p_stop_r0 x) (p_sighand x) (p_sig_blocked x)
    (p_sigsuspend_saved_mask x) (p_sigsuspend_active x) (p_intent x) (p_wait x)
    (p_exec_file_idx x) (p_exec_capture x) (p_alive x) (p_vfork_parent x) (p_snapshot x)
    (p_stack_lo x) (p_is_fdpic x) (p_pending_sigs x) (p_alarm_deadline_us x)
    (p_alarm_interval_us x).

Definition set_p_exit_signal (x : lxp_proc) (v : Z) : lxp_proc :=
  mk_proc (p_guest_view x) (p_mm x) (p_write_fn x) (p_read_fn x) (p_console_poll x) (p_io_ctx x)
    (p_fs x) (p_fs_count x) (p_files x) (p_pid x) (p_nice x) (p_group x) (p_comm x)
    (p_fs_context x) (p_exit_status x) (p_exit_reason x) v (p_exit_detail x) (p_exit_address x)
    (p_stopped x) (p_stop_kind x) (p_stop_sig x) (p_stop_r0 x) (p_sighand x) (p_sig_blocked x)
    (p_sigsuspend_saved_mask x) (p_sigsuspend_active x) (p_intent x) (p_wait x)
    (p_exec_file_idx x) (p_exec_capture x) (p_alive x) (p_vfork_parent x) (p_snapshot x)
    (p_stack_lo x) (p_is_fdpic x) (p_pending_sigs x) (p_alarm_deadline_us x)
    (p_alarm_interval_us x).

Definition set_p_exit_detail (x : lxp_proc) (v : Z) : lxp_proc :=
  mk_proc (p_guest_view x) (p_mm x) (p_write_fn x) (p_read_fn x) (p_console_poll x) (p_io_ctx x)
    (p_fs x) (p_fs_count x) (p_files x) (p_pid x) (p_nice x) (p_group x) (p_comm x)
    (p_fs_context x) (p_exit_status x) (p_exit_reason x) (p_exit_signal x) v (p_exit_address x)
    (p_stopped x) (p_stop_kind x) (p_stop_sig x) (p_stop_r0 x) (p_sighand x) (p_sig_blocked x)
    (p_sigsuspend_saved_mask x) (p_sigsuspend_active x) (p_intent x) (p_wait x)
    (p_exec_file_idx x) (p_exec_capture x) (p_alive x) (p_vfork_parent x) (p_snapshot x)
    (p_stack_lo x) (p_is_fdpic x) (p_pending_sigs x) (p_alarm_deadline_us x)
    (p_alarm_interval_us x).

Definition set_p_exit_address (x : lxp_proc) (v : Z) : lxp_proc :=
  mk_proc (p_guest_view x) (p_mm x) (p_write_fn x) (p_read_fn x) (p_console_poll x) (p_io_ctx x)
    (p_fs x) (p_fs_count x) (p_files x) (p_pid x) (p_nice x) (p_group x) (p_comm x)
    (p_fs_context x) (p_exit_status x) (p_exit_reason x) (p_exit_signal x) (p_exit_detail x) v
    (p_stopped x) (p_stop_kind x) (p_stop_sig x) (p_stop_r0 x) (p_sighand x) (p_sig_blocked x)
    (p_sigsuspend_saved_mask x) (p_sigsuspend_active x) (p_intent x) (p_wait x)
    (p_exec_file_idx x) (p_exec_capture x) (p_alive x) (p_vfork_parent x) (p_snapshot x)
    (p_stack_lo x) (p_is_fdpic x) (p_pending_sigs x) (p_alarm_deadline_us x)
    (p_alarm_interval_us x).

Definition set_p_stopped (x : lxp_proc) (v : Z) : lxp_proc :=
  mk_proc (p_guest_view x) (p_mm x) (p_write_fn x) (p_read_fn x) (p_console_poll x) (p_io_ctx x)
    (p_fs x) (p_fs_count x) (p_files x) (p_pid x) (p_nice x) (p_group x) (p_comm x)
    (p_fs_context x) (p_exit_status x) (p_exit_reason x) (p_exit_signal x) (p_exit_detail x)
    (p_exit_address x) v (p_stop_kind x) (p_stop_sig x) (p_stop_r0 x) (p_sighand x)
    (p_sig_blocked x) (p_sigsuspend_saved_mask x) (p_sigsuspend_active x) (p_intent x) (p_wait x)
    (p_exec_file_idx x) (p_exec_capture x) (p_alive x) (p_vfork_parent x) (p_snapshot x)
    (p_stack_lo x) (p_is_fdpic x) (p_pending_sigs x) (p_alarm_deadline_us x)
    (p_alarm_interval_us x).

Definition set_p_stop_kind (x : lxp_proc) (v : Z) : lxp_proc :=
  mk_proc (p_guest_view x) (p_mm x) (p_write_fn x) (p_read_fn x) (p_console_poll x) (p_io_ctx x)
    (p_fs x) (p_fs_count x) (p_files x) (p_pid x) (p_nice x) (p_group x) (p_comm x)
    (p_fs_context x) (p_exit_status x) (p_exit_reason x) (p_exit_signal x) (p_exit_detail x)
    (p_exit_address x) (p_stopped x) v (p_stop_sig x) (p_stop_r0 x) (p_sighand x)
    (p_sig_blocked x) (p_sigsuspend_saved_mask x) (p_sigsuspend_active x) (p_intent x) (p_wait x)
    (p_exec_file_idx x) (p_exec_capture x) (p_alive x) (p_vfork_parent x) (p_snapshot x)
    (p_stack_lo x) (p_is_fdpic x) (p_pending_sigs x) (p_alarm_deadline_us x)
    (p_alarm_interval_us x).

Definition set_p_stop_sig (x : lxp_proc) (v : Z) : lxp_proc :=
  mk_proc (p_guest_view x) (p_mm x) (p_write_fn x) (p_read_fn x) (p_console_poll x) (p_io_ctx x)
    (p_fs x) (p_fs_count x) (p_files x) (p_pid x) (p_nice x) (p_group x) (p_comm x)
    (p_fs_context x) (p_exit_status x) (p_exit_reason x) (p_exit_signal x) (p_exit_detail x)
    (p_exit_address x) (p_stopped x) (p_stop_kind x) v (p_stop_r0 x) (p_sighand x)
    (p_sig_blocked x) (p_sigsuspend_saved_mask x) (p_sigsuspend_active x) (p_intent x) (p_wait x)
    (p_exec_file_idx x) (p_exec_capture x) (p_alive x) (p_vfork_parent x) (p_snapshot x)
    (p_stack_lo x) (p_is_fdpic x) (p_pending_sigs x) (p_alarm_deadline_us x)
    (p_alarm_interval_us x).

Definition set_p_stop_r0 (x : lxp_proc) (v : Z) : lxp_proc :=
  mk_proc (p_guest_view x) (p_mm x) (p_write_fn x) (p_read_fn x) (p_console_poll x) (p_io_ctx x)
    (p_fs x) (p_fs_count x) (p_files x) (p_pid x) (p_nice x) (p_group x) (p_comm x)
    (p_fs_context x) (p_exit_status x) (p_exit_reason x) (p_exit_signal x) (p_exit_detail x)
    (p_exit_address x) (p_stopped x) (p_stop_kind x) (p_stop_sig x) v (p_sighand x)
    (p_sig_blocked x) (p_sigsuspend_saved_mask x) (p_sigsuspend_active x) (p_intent x) (p_wait x)
    (p_exec_file_idx x) (p_exec_capture x) (p_alive x) (p_vfork_parent x) (p_snapshot x)
    (p_stack_lo x) (p_is_fdpic x) (p_pending_sigs x) (p_alarm_deadline_us x)
    (p_alarm_interval_us x).

Definition set_p_sighand (x : lxp_proc) (v : option Z) : lxp_proc :=
  mk_proc (p_guest_view x) (p_mm x) (p_write_fn x) (p_read_fn x) (p_console_poll x) (p_io_ctx x)
    (p_fs x) (p_fs_count x) (p_files x) (p_pid x) (p_nice x) (p_group x) (p_comm x)
    (p_fs_context x) (p_exit_status x) (p_exit_reason x) (p_exit_signal x) (p_exit_detail x)
    (p_exit_address x) (p_stopped x) (p_stop_kind x) (p_stop_sig x) (p_stop_r0 x) v
    (p_sig_blocked x) (p_sigsuspend_saved_mask x) (p_sigsuspend_active x) (p_intent x) (p_wait x)
    (p_exec_file_idx x) (p_exec_capture x) (p_alive x) (p_vfork_parent x) (p_snapshot x)
    (p_stack_lo x) (p_is_fdpic x) (p_pending_sigs x) (p_alarm_deadline_us x)
    (p_alarm_interval_us x).

Definition set_p_sig_blocked (x : lxp_proc) (v : Z) : lxp_proc :=
  mk_proc (p_guest_view x) (p_mm x) (p_write_fn x) (p_read_fn x) (p_console_poll x) (p_io_ctx x)
    (p_fs x) (p_fs_count x) (p_files x) (p_pid x) (p_nice x) (p_group x) (p_comm x)
    (p_fs_context x) (p_exit_status x) (p_exit_reason x) (p_exit_signal x) (p_exit_detail x)
    (p_exit_address x) (p_stopped x) (p_stop_kind x) (p_stop_sig x) (p_stop_r0 x) (p_sighand x) v
    (p_sigsuspend_saved_mask x) (p_sigsuspend_active x) (p_intent x) (p_wait x)
    (p_exec_file_idx x) (p_exec_capture x) (p_alive x) (p_vfork_parent x) (p_snapshot x)
    (p_stack_lo x) (p_is_fdpic x) (p_pending_sigs x) (p_alarm_deadline_us x)
    (p_alarm_interval_us x).

Definition set_p_sigsuspend_saved_mask (x : lxp_proc) (v : Z) : lxp_proc :=
  mk_proc (p_guest_view x) (p_mm x) (p_write_fn x) (p_read_fn x) (p_console_poll x) (p_io_ctx x)
    (p_fs x) (p_fs_count x) (p_files x) (p_pid x) (p_nice x) (p_group x) (p_comm x)
    (p_fs_context x) (p_exit_status x) (p_exit_reason x) (p_exit_signal x) (p_exit_detail x)
    (p_exit_address x) (p_stopped x) (p_stop_kind x) (p_stop_sig x) (p_stop_r0 x) (p_sighand x)
    (p_sig_blocked x) v (p_sigsuspend_active x) (p_intent x) (p_wait x) (p_exec_file_idx x)
    (p_exec_capture x) (p_alive x) (p_vfork_parent x) (p_snapshot x) (p_stack_lo x) (p_is_fdpic x)
    (p_pending_sigs x) (p_alarm_deadline_us x) (p_alarm_interval_us x).

Definition set_p_sigsuspend_active (x : lxp_proc) (v : Z) : lxp_proc :=
  mk_proc (p_guest_view x) (p_mm x) (p_write_fn x) (p_read_fn x) (p_console_poll x) (p_io_ctx x)
    (p_fs x) (p_fs_count x) (p_files x) (p_pid x) (p_nice x) (p_group x) (p_comm x)
    (p_fs_context x) (p_exit_status x) (p_exit_reason x) (p_exit_signal x) (p_exit_detail x)
    (p_exit_address x) (p_stopped x) (p_stop_kind x) (p_stop_sig x) (p_stop_r0 x) (p_sighand x)
    (p_sig_blocked x) (p_sigsuspend_saved_mask x) v (p_intent x) (p_wait x) (p_exec_file_idx x)
    (p_exec_capture x) (p_alive x) (p_vfork_parent x) (p_snapshot x) (p_stack_lo x) (p_is_fdpic x)
    (p_pending_sigs x) (p_alarm_deadline_us x) (p_alarm_interval_us x).

Definition set_p_intent (x : lxp_proc) (v : lxp_intent) : lxp_proc :=
  mk_proc (p_guest_view x) (p_mm x) (p_write_fn x) (p_read_fn x) (p_console_poll x) (p_io_ctx x)
    (p_fs x) (p_fs_count x) (p_files x) (p_pid x) (p_nice x) (p_group x) (p_comm x)
    (p_fs_context x) (p_exit_status x) (p_exit_reason x) (p_exit_signal x) (p_exit_detail x)
    (p_exit_address x) (p_stopped x) (p_stop_kind x) (p_stop_sig x) (p_stop_r0 x) (p_sighand x)
    (p_sig_blocked x) (p_sigsuspend_saved_mask x) (p_sigsuspend_active x) v (p_wait x)
    (p_exec_file_idx x) (p_exec_capture x) (p_alive x) (p_vfork_parent x) (p_snapshot x)
    (p_stack_lo x) (p_is_fdpic x) (p_pending_sigs x) (p_alarm_deadline_us x)
    (p_alarm_interval_us x).

Definition set_p_wait (x : lxp_proc) (v : lxp_wait) : lxp_proc :=
  mk_proc (p_guest_view x) (p_mm x) (p_write_fn x) (p_read_fn x) (p_console_poll x) (p_io_ctx x)
    (p_fs x) (p_fs_count x) (p_files x) (p_pid x) (p_nice x) (p_group x) (p_comm x)
    (p_fs_context x) (p_exit_status x) (p_exit_reason x) (p_exit_signal x) (p_exit_detail x)
    (p_exit_address x) (p_stopped x) (p_stop_kind x) (p_stop_sig x) (p_stop_r0 x) (p_sighand x)
    (p_sig_blocked x) (p_sigsuspend_saved_mask x) (p_sigsuspend_active x) (p_intent x) v
    (p_exec_file_idx x) (p_exec_capture x) (p_alive x) (p_vfork_parent x) (p_snapshot x)
    (p_stack_lo x) (p_is_fdpic x) (p_pending_sigs x) (p_alarm_deadline_us x)
    (p_alarm_interval_us x).

Definition set_p_exec_file_idx (x : lxp_proc) (v : Z) : lxp_proc :=
  mk_proc (p_guest_view x) (p_mm x) (p_write_fn x) (p_read_fn x) (p_console_poll x) (p_io_ctx x)
    (p_fs x) (p_fs_count x) (p_files x) (p_pid x) (p_nice x) (p_group x) (p_comm x)
    (p_fs_context x) (p_exit_status x) (p_exit_reason x) (p_exit_signal x) (p_exit_detail x)
    (p_exit_address x) (p_stopped x) (p_stop_kind x) (p_stop_sig x) (p_stop_r0 x) (p_sighand x)
    (p_sig_blocked x) (p_sigsuspend_saved_mask x) (p_sigsuspend_active x) (p_intent x) (p_wait x)
    v (p_exec_capture x) (p_alive x) (p_vfork_parent x) (p_snapshot x) (p_stack_lo x)
    (p_is_fdpic x) (p_pending_sigs x) (p_alarm_deadline_us x) (p_alarm_interval_us x).

Definition set_p_exec_capture (x : lxp_proc) (v : option Z) : lxp_proc :=
  mk_proc (p_guest_view x) (p_mm x) (p_write_fn x) (p_read_fn x) (p_console_poll x) (p_io_ctx x)
    (p_fs x) (p_fs_count x) (p_files x) (p_pid x) (p_nice x) (p_group x) (p_comm x)
    (p_fs_context x) (p_exit_status x) (p_exit_reason x) (p_exit_signal x) (p_exit_detail x)
    (p_exit_address x) (p_stopped x) (p_stop_kind x) (p_stop_sig x) (p_stop_r0 x) (p_sighand x)
    (p_sig_blocked x) (p_sigsuspend_saved_mask x) (p_sigsuspend_active x) (p_intent x) (p_wait x)
    (p_exec_file_idx x) v (p_alive x) (p_vfork_parent x) (p_snapshot x) (p_stack_lo x)
    (p_is_fdpic x) (p_pending_sigs x) (p_alarm_deadline_us x) (p_alarm_interval_us x).

Definition set_p_alive (x : lxp_proc) (v : Z) : lxp_proc :=
  mk_proc (p_guest_view x) (p_mm x) (p_write_fn x) (p_read_fn x) (p_console_poll x) (p_io_ctx x)
    (p_fs x) (p_fs_count x) (p_files x) (p_pid x) (p_nice x) (p_group x) (p_comm x)
    (p_fs_context x) (p_exit_status x) (p_exit_reason x) (p_exit_signal x) (p_exit_detail x)
    (p_exit_address x) (p_stopped x) (p_stop_kind x) (p_stop_sig x) (p_stop_r0 x) (p_sighand x)
    (p_sig_blocked x) (p_sigsuspend_saved_mask x) (p_sigsuspend_active x) (p_intent x) (p_wait x)
    (p_exec_file_idx x) (p_exec_capture x) v (p_vfork_parent x) (p_snapshot x) (p_stack_lo x)
    (p_is_fdpic x) (p_pending_sigs x) (p_alarm_deadline_us x) (p_alarm_interval_us x).

Definition set_p_vfork_parent (x : lxp_proc) (v : lxp_ref) : lxp_proc :=
  mk_proc (p_guest_view x) (p_mm x) (p_write_fn x) (p_read_fn x) (p_console_poll x) (p_io_ctx x)
    (p_fs x) (p_fs_count x) (p_files x) (p_pid x) (p_nice x) (p_group x) (p_comm x)
    (p_fs_context x) (p_exit_status x) (p_exit_reason x) (p_exit_signal x) (p_exit_detail x)
    (p_exit_address x) (p_stopped x) (p_stop_kind x) (p_stop_sig x) (p_stop_r0 x) (p_sighand x)
    (p_sig_blocked x) (p_sigsuspend_saved_mask x) (p_sigsuspend_active x) (p_intent x) (p_wait x)
    (p_exec_file_idx x) (p_exec_capture x) (p_alive x) v (p_snapshot x) (p_stack_lo x)
    (p_is_fdpic x) (p_pending_sigs x) (p_alarm_deadline_us x) (p_alarm_interval_us x).

Definition set_p_snapshot (x : lxp_proc) (v : lxp_ref) : lxp_proc :=
  mk_proc (p_guest_view x) (p_mm x) (p_write_fn x) (p_read_fn x) (p_console_poll x) (p_io_ctx x)
    (p_fs x) (p_fs_count x) (p_files x) (p_pid x) (p_nice x) (p_group x) (p_comm x)
    (p_fs_context x) (p_exit_status x) (p_exit_reason x) (p_exit_signal x) (p_exit_detail x)
    (p_exit_address x) (p_stopped x) (p_stop_kind x) (p_stop_sig x) (p_stop_r0 x) (p_sighand x)
    (p_sig_blocked x) (p_sigsuspend_saved_mask x) (p_sigsuspend_active x) (p_intent x) (p_wait x)
    (p_exec_file_idx x) (p_exec_capture x) (p_alive x) (p_vfork_parent x) v (p_stack_lo x)
    (p_is_fdpic x) (p_pending_sigs x) (p_alarm_deadline_us x) (p_alarm_interval_us x).

Definition set_p_stack_lo (x : lxp_proc) (v : Z) : lxp_proc :=
  mk_proc (p_guest_view x) (p_mm x) (p_write_fn x) (p_read_fn x) (p_console_poll x) (p_io_ctx x)
    (p_fs x) (p_fs_count x) (p_files x) (p_pid x) (p_nice x) (p_group x) (p_comm x)
    (p_fs_context x) (p_exit_status x) (p_exit_reason x) (p_exit_signal x) (p_exit_detail x)
    (p_exit_address x) (p_stopped x) (p_stop_kind x) (p_stop_sig x) (p_stop_r0 x) (p_sighand x)
    (p_sig_blocked x) (p_sigsuspend_saved_mask x) (p_sigsuspend_active x) (p_intent x) (p_wait x)
    (p_exec_file_idx x) (p_exec_capture x) (p_alive x) (p_vfork_parent x) (p_snapshot x) v
    (p_is_fdpic x) (p_pending_sigs x) (p_alarm_deadline_us x) (p_alarm_interval_us x).

Definition set_p_is_fdpic (x : lxp_proc) (v : Z) : lxp_proc :=
  mk_proc (p_guest_view x) (p_mm x) (p_write_fn x) (p_read_fn x) (p_console_poll x) (p_io_ctx x)
    (p_fs x) (p_fs_count x) (p_files x) (p_pid x) (p_nice x) (p_group x) (p_comm x)
    (p_fs_context x) (p_exit_status x) (p_exit_reason x) (p_exit_signal x) (p_exit_detail x)
    (p_exit_address x) (p_stopped x) (p_stop_kind x) (p_stop_sig x) (p_stop_r0 x) (p_sighand x)
    (p_sig_blocked x) (p_sigsuspend_saved_mask x) (p_sigsuspend_active x) (p_intent x) (p_wait x)
    (p_exec_file_idx x) (p_exec_capture x) (p_alive x) (p_vfork_parent x) (p_snapshot x)
    (p_stack_lo x) v (p_pending_sigs x) (p_alarm_deadline_us x) (p_alarm_interval_us x).

Definition set_p_pending_sigs (x : lxp_proc) (v : Z) : lxp_proc :=
  mk_proc (p_guest_view x) (p_mm x) (p_write_fn x) (p_read_fn x) (p_console_poll x) (p_io_ctx x)
    (p_fs x) (p_fs_count x) (p_files x) (p_pid x) (p_nice x) (p_group x) (p_comm x)
    (p_fs_context x) (p_exit_status x) (p_exit_reason x) (p_exit_signal x) (p_exit_detail x)
    (p_exit_address x) (p_stopped x) (p_stop_kind x) (p_stop_sig x) (p_stop_r0 x) (p_sighand x)
    (p_sig_blocked x) (p_sigsuspend_saved_mask x) (p_sigsuspend_active x) (p_intent x) (p_wait x)
    (p_exec_file_idx x) (p_exec_capture x) (p_alive x) (p_vfork_parent x) (p_snapshot x)
    (p_stack_lo x) (p_is_fdpic x) v (p_alarm_deadline_us x) (p_alarm_interval_us x).

Definition set_p_alarm_deadline_us (x : lxp_proc) (v : Z) : lxp_proc :=
  mk_proc (p_guest_view x) (p_mm x) (p_write_fn x) (p_read_fn x) (p_console_poll x) (p_io_ctx x)
    (p_fs x) (p_fs_count x) (p_files x) (p_pid x) (p_nice x) (p_group x) (p_comm x)
    (p_fs_context x) (p_exit_status x) (p_exit_reason x) (p_exit_signal x) (p_exit_detail x)
    (p_exit_address x) (p_stopped x) (p_stop_kind x) (p_stop_sig x) (p_stop_r0 x) (p_sighand x)
    (p_sig_blocked x) (p_sigsuspend_saved_mask x) (p_sigsuspend_active x) (p_intent x) (p_wait x)
    (p_exec_file_idx x) (p_exec_capture x) (p_alive x) (p_vfork_parent x) (p_snapshot x)
    (p_stack_lo x) (p_is_fdpic x) (p_pending_sigs x) v (p_alarm_interval_us x).

Definition set_p_alarm_interval_us (x : lxp_proc) (v : Z) : lxp_proc :=
  mk_proc (p_guest_view x) (p_mm x) (p_write_fn x) (p_read_fn x) (p_console_poll x) (p_io_ctx x)
    (p_fs x) (p_fs_count x) (p_files x) (p_pid x) (p_nice x) (p_group x) (p_comm x)
    (p_fs_context x) (p_exit_status x) (p_exit_reason x) (p_exit_signal x) (p_exit_detail x)
    (p_exit_address x) (p_stopped x) (p_stop_kind x) (p_stop_sig x) (p_stop_r0 x) (p_sighand x)
    (p_sig_blocked x) (p_sigsuspend_saved_mask x) (p_sigsuspend_active x) (p_intent x) (p_wait x)
    (p_exec_file_idx x) (p_exec_capture x) (p_alive x) (p_vfork_parent x) (p_snapshot x)
    (p_stack_lo x) (p_is_fdpic x) (p_pending_sigs x) (p_alarm_deadline_us x) v.

(** An all-zero task record. *)
Definition proc_zero : lxp_proc :=
  mk_proc None None 0 0 0 0 0 0 None 0 0 None [] None 0 0 0 0 0 0 0 0 0 None 0 0 0 LXP_INTENT_NONE
    wait_zero 0 None 0 (mk_ref 0 0) (mk_ref 0 0) 0 0 0 0 0.

(** ** Signal helpers of the header *)

Definition lxp_sig_bit (sig : Z) : Z :=
  if (sig >=? 1) && (sig <=? 64) then Z.shiftl 1 (sig - 1) else 0.

Definition lxp_sig_blocked (p : lxp_proc) (sig : Z) : bool :=
  if (sig =? LXP_SIGKILL) || (sig =? LXP_SIGSTOP) then false
  else has (p_sig_blocked p) (lxp_sig_bit sig).

(** [sh] is the object [proc->sighand] points to, [None] when it is NULL. *)
Definition lxp_sig_handler_get (sh : option lxp_sighand) (sig : Z) : Z :=
  match sh with
  | Some h => if (sig >=? 0) && (sig <? LXP_NSIG) then aget 0 (sh_handler h) sig else LXP_SIG_DFL
  | None => LXP_SIG_DFL
  end.

Definition lxp_sig_restorer_get (sh : option lxp_sighand) : Z :=
  match sh with Some h => sh_restorer h | None => 0 end.

Definition lxp_sig_restarts (sh : option lxp_sighand) (sig : Z) : bool :=
  match sh with Some h => has (sh_restart h) (lxp_sig_bit sig) | None => false end.

(** ** The static pools *)

(** The objects of the process core and of the descriptor layer. *)
Record kst := mk_kst {
  k_ofd : list lxp_ofd;
  k_files : list lxp_files;
  k_fs_context : list lxp_fs_context;
  k_sighand : list lxp_sighand;
  k_mm : list lxp_mm;
  k_groups : list lxp_thread_group;
}.

Definition set_k_ofd (x : kst) (v : list lxp_ofd) : kst :=
  mk_kst v (k_files x) (k_fs_context x) (k_sighand x) (k_mm x) (k_groups x).

Definition set_k_files (x : kst) (v : list lxp_files) : kst :=
  mk_kst (k_ofd x) v (k_fs_context x) (k_sighand x) (k_mm x) (k_groups x).

Definition set_k_fs_context (x : kst) (v : list lxp_fs_context) : kst :=
  mk_kst (k_ofd x) (k_files x) v (k_sighand x) (k_mm x) (k_groups x).

Definition set_k_sighand (x : kst) (v : list lxp_sighand) : kst :=
  mk_kst (k_ofd x) (k_files x) (k_fs_context x) v (k_mm x) (k_groups x).

Definition set_k_mm (x : kst) (v : list lxp_mm) : kst :=
  mk_kst (k_ofd x) (k_files x) (k_fs_context x) (k_sighand x) v (k_groups x).

Definition set_k_groups (x : kst) (v : list lxp_thread_group) : kst :=
  mk_kst (k_ofd x) (k_files x) (k_fs_context x) (k_sighand x) (k_mm x) v.
