(* ===== verification/Guest.v ===== *)
(** * Guest memory boundary (src/lxp_guest.c)

    Every kernel access to a guest pointer passes the range check here, under a
    dispatch-local view that ties it to a slot and a region generation.  The boundary's
    environment holds the objects the checks read: address spaces, tasks, views, the
    slots' generation counters and the shared rootfs span.  Tasks, views and counters
    are named by their index; guest memory is the flat memory of the prelude. *)

From S2P Require Import Prelude Config Proc Path.
Local Open Scope Z_scope.

Definition LXP_GUEST_READ : Z := 1.
Definition LXP_GUEST_WRITE : Z := 2.
Definition LXP_GUEST_READ_WRITE : Z := 3.

Record lxp_guest_view := mk_view {
  v_proc : option Z;
  v_mm : option Z;
  v_slot : lxp_ref;
  v_region : lxp_ref;
  v_slot_generation : option Z;      (* address of the slot's generation counter *)
  v_access : Z;
  v_active : bool;
}.

Definition view_zero : lxp_guest_view :=
  mk_view None None (mk_ref 0 0) (mk_ref 0 0) None 0 false.

Record genv := mk_genv {
  ge_mm : list lxp_mm;
  ge_procs : list lxp_proc;
  ge_views : list lxp_guest_view;
  ge_gens : list Z;
  ge_rootfs_lo : Z;
  ge_rootfs_hi : Z;
}.

Definition proc_at (G : genv) (p : Z) : lxp_proc := aget proc_zero (ge_procs G) p.
Definition view_at (G : genv) (v : Z) : lxp_guest_view := aget view_zero (ge_views G) v.

(** [proc->mm], dereferenced. *)
Definition mm_at (G : genv) (p : Z) : option lxp_mm :=
  match p_mm (proc_at G p) with
  | Some i => Some (aget mm_zero (ge_mm G) i)
  | None => None
  end.

Definition set_procs (G : genv) (ps : list lxp_proc) : genv :=
  mk_genv (ge_mm G) ps (ge_views G) (ge_gens G) (ge_rootfs_lo G) (ge_rootfs_hi G).
Definition set_views (G : genv) (vs : list lxp_guest_view) : genv :=
  mk_genv (ge_mm G) (ge_procs G) vs (ge_gens G) (ge_rootfs_lo G) (ge_rootfs_hi G).

(** ** Range checks *)

Definition in_range (a lo hi : Z) : bool := (a >=? lo) && (a <? hi).

Definition guest_range_hi (G : genv) (mm : option lxp_mm) (address access : Z) : Z :=
  match mm with
  | None => 0
  | Some mm =>
      if in_range address (mm_region_lo mm) (mm_region_hi mm) then mm_region_hi mm
      else if (mm_pool_hi mm >? mm_pool_lo mm) && in_range address (mm_pool_lo mm) (mm_pool_hi mm)
      then mm_pool_hi mm
      else
        let dev i := (aget 0 (mm_dev_map_hi mm) i >? aget 0 (mm_dev_map_lo mm) i) &&
                     in_range address (aget 0 (mm_dev_map_lo mm) i) (aget 0 (mm_dev_map_hi mm) i) in
        if dev 0 then aget 0 (mm_dev_map_hi mm) 0
        else if dev 1 then aget 0 (mm_dev_map_hi mm) 1
        else if negb (has access LXP_GUEST_WRITE) && (ge_rootfs_hi G >? ge_rootfs_lo G) &&
                in_range address (ge_rootfs_lo G) (ge_rootfs_hi G)
        then ge_rootfs_hi G
        else 0
  end.

(** [access] is an unsigned mask; bits outside READ|WRITE are refused. *)
Definition bad_access (access : Z) : bool :=
  negb (Z.land access (2 ^ 32 - 1 - LXP_GUEST_READ_WRITE) =? 0) || (access =? 0).

Definition lxp_guest_range_ok (G : genv) (mm : option lxp_mm) (address len access : Z) : bool :=
  if bad_access access then false
  else if len =? 0 then true
  else let end_ := u32 (address + len) in
       if end_ <? address then false
       else let hi := guest_range_hi G mm address access in negb (hi =? 0) && (end_ <=? hi).

(** ** Views *)

(** [slot_generation] is [None] for a NULL counter; [vid] is the view's address. *)
Definition lxp_guest_view_begin (G : genv) (p : Z) (slot : lxp_ref) (slot_generation : option Z)
    (access vid : Z) : Z * genv :=
  let pr := proc_at G p in
  match p_mm pr, slot_generation, p_guest_view pr with
  | Some mi, Some gen, None =>
      if bad_access access then (- LXP_EINVAL, G)
      else if negb (aget 0 (ge_gens G) gen =? ref_generation slot) then (- LXP_ESRCH, G)
      else
        let region := mm_region (aget mm_zero (ge_mm G) mi) in
        if (ref_index region <? 0) || (ref_generation region =? 0) || (ref_index slot <? 0) ||
           (ref_generation slot =? 0)
        then (- LXP_EFAULT, G)
        else
          let v := mk_view (Some p) (Some mi) slot region (Some gen) (u8 access) true in
          (LXP_OK, set_procs (set_views G (aset (ge_views G) vid v))
                     (aset (ge_procs G) p (set_p_guest_view pr (Some vid))))
  | _, _, _ => (- LXP_EINVAL, G)
  end.

Definition lxp_guest_view_is_current (G : genv) (vid : Z) : bool :=
  let v := view_at G vid in
  v_active v &&
  match v_proc v, v_slot_generation v, v_mm v with
  | Some p, Some gen, Some mi =>
      bool_decide (p_guest_view (proc_at G p) = Some vid) &&
      (aget 0 (ge_gens G) gen =? ref_generation (v_slot v)) &&
      bool_decide (p_mm (proc_at G p) = Some mi) &&
      lxp_region_ref_equal (mm_region (aget mm_zero (ge_mm G) mi)) (v_region v)
  | _, _, _ => false
  end.

Definition lxp_guest_view_slot (G : genv) (p : Z) : Z + lxp_ref :=
  match p_guest_view (proc_at G p) with
  | Some vid => if lxp_guest_view_is_current G vid then inr (v_slot (view_at G vid))
                else inl (- LXP_ESRCH)
  | None => inl (- LXP_ESRCH)
  end.

Definition lxp_guest_view_end (G : genv) (vid : Z) : genv :=
  let v := view_at G vid in
  if negb (v_active v) then G
  else
    let G1 := match v_proc v with
              | Some p => if bool_decide (p_guest_view (proc_at G p) = Some vid)
                          then set_procs G (aset (ge_procs G) p (set_p_guest_view (proc_at G p) None))
                          else G
              | None => G
              end in
    set_views G1 (aset (ge_views G1) vid
                    (mk_view None None (v_slot v) (v_region v) None (v_access v) false)).

(** ** Checked copies *)

(** Whether the view installed on [p], if any, is current and grants [access]. *)
Definition view_grants (G : genv) (p access : Z) : bool :=
  match p_guest_view (proc_at G p) with
  | None => true
  | Some vid => lxp_guest_view_is_current G vid &&
                (Z.land (v_access (view_at G vid)) access =? access)
  end.

Definition lxp_guest_access_ok (G : genv) (p address len : Z) (write : bool) : bool :=
  let access := if write then LXP_GUEST_WRITE else LXP_GUEST_READ in
  match mm_at G p with
  | None => false
  | Some mm => if negb (view_grants G p access) then false
               else lxp_guest_range_ok G (Some mm) address len access
  end.

(** The kernel-side buffer is a list of bytes; the result is the bytes copied out. *)
Definition lxp_copy_from_guest (G : genv) (m : mem) (p src len : Z) : Z + list Z :=
  if negb (lxp_guest_access_ok G p src len false) then inl (- LXP_EFAULT)
  else inr (mem_read m src (Z.to_nat len)).

Definition lxp_copy_to_guest (G : genv) (m : mem) (p dst : Z) (src : list Z) : Z * mem :=
  if negb (lxp_guest_access_ok G p dst (alen src) true) then (- LXP_EFAULT, m)
  else (0, mem_write m dst src).

Definition lxp_guest_get_u32 (G : genv) (m : mem) (p src : Z) : Z + Z :=
  match lxp_copy_from_guest G m p src 4 with
  | inl e => inl e
  | inr bs => inr (le_val bs)
  end.

Definition lxp_guest_put_u32 (G : genv) (m : mem) (p dst value : Z) : Z * mem :=
  lxp_copy_to_guest G m p dst (bytes32 value).

(** The scan of [lxp_guest_strnlen], [limit] bytes from [src]. *)
Fixpoint strnlen_scan (m : mem) (src : Z) (limit : nat) (i : Z) : Z :=
  match limit with
  | O => - LXP_EFAULT
  | S k => if load8 m (src + i) =? 0 then i else strnlen_scan m src k (i + 1)
  end.

(** Its view check, on the read bit alone. *)
Definition view_refuses_read (G : genv) (p : Z) : bool :=
  match p_guest_view (proc_at G p) with
  | None => false
  | Some vid => negb (lxp_guest_view_is_current G vid) ||
                (Z.land (v_access (view_at G vid)) LXP_GUEST_READ =? 0)
  end.

Definition lxp_guest_strnlen (G : genv) (m : mem) (p src max : Z) : Z :=
  match mm_at G p with
  | None => - LXP_EFAULT
  | Some mm =>
      if view_refuses_read G p then - LXP_EFAULT
      else
        let hi := guest_range_hi G (Some mm) src LXP_GUEST_READ in
        if hi =? 0 then - LXP_EFAULT
        else let available := hi - src in
             let limit := if available <? max then available else max in
             strnlen_scan m src (Z.to_nat limit) 0
  end.

(** The copy loop: [n] bytes of capacity left, [dst] what was stored so far. *)
Fixpoint copy_string_loop (G : genv) (m : mem) (p src : Z) (n : nat) (dst : list Z) : Z + list Z :=
  match n with
  | O => inl (- LXP_E2BIG)
  | S n =>
      match lxp_copy_from_guest G m p (u32 (src + alen dst)) 1 with
      | inl rc => inl rc
      | inr bs => let byte := aget 0 bs 0 in
                  if byte =? 0 then inr dst else copy_string_loop G m p src n (dst ++ [byte])
      end
  end.

Definition lxp_copy_string_from_guest (G : genv) (m : mem) (p capacity src : Z) : Z + list Z :=
  if capacity =? 0 then inl (- LXP_E2BIG)
  else copy_string_loop G m p src (Z.to_nat capacity) [].

(** ** Path syscalls' entry: a guest string resolved against the task's cwd *)

(** The string at [src], read up to its terminator within [n] bytes. *)
Definition guest_cstr (m : mem) (src : Z) (n : nat) : list Z := cstr (mem_read m src n).

Definition lxp_resolve_path (G : genv) (m : mem) (p : Z) (cwd : list Z) (src outlen : Z)
  : path_result :=
  if lxp_guest_strnlen G m p src LXP_PATH_MAX <? 0 then inl (- LXP_EFAULT)
  else resolve_from cwd (guest_cstr m src (Z.to_nat LXP_PATH_MAX)) outlen.

(** [dir_path] is [lxp_vfs_dir_path] of the descriptor. *)
Definition lxp_resolve_path_at (G : genv) (m : mem) (p : Z) (cwd : list Z)
    (dir_path : Z -> path_result) (dirfd src outlen : Z) : path_result :=
  if dirfd =? LXP_AT_FDCWD then lxp_resolve_path G m p cwd src outlen
  else if lxp_guest_strnlen G m p src LXP_PATH_MAX <? 0 then inl (- LXP_EFAULT)
  else
    let s := guest_cstr m src (Z.to_nat LXP_PATH_MAX) in
    if aget 0 s 0 =? SLASH then resolve_from [SLASH] s outlen
    else match dir_path dirfd with
         | inl rc => inl rc
         | inr base => resolve_from base s outlen
         end.

(** ** What is granted *)

(** The bytes a task may name: its region, the shared pool window, its device mappings,
    and for reads the rootfs span. *)
Definition granted (G : genv) (mm : lxp_mm) (write : bool) (a : Z) : Prop :=
  mm_region_lo mm <= a < mm_region_hi mm \/
  mm_pool_lo mm <= a < mm_pool_hi mm \/
  (exists i, (i = 0 \/ i = 1) /\ aget 0 (mm_dev_map_lo mm) i <= a < aget 0 (mm_dev_map_hi mm) i) \/
  write = false /\ ge_rootfs_lo G <= a < ge_rootfs_hi G.

Definition access_of (write : bool) : Z := if write then LXP_GUEST_WRITE else LXP_GUEST_READ.

Lemma in_range_iff a lo hi : in_range a lo hi = true <-> lo <= a < hi.
Proof. unfold in_range. lia. Qed.

(** The ceiling found for an address bounds one granted range that holds it. *)
Lemma range_hi_granted G mm address write a :
  guest_range_hi G (Some mm) address (access_of write) <> 0 ->
  address <= a < guest_range_hi G (Some mm) address (access_of write) ->
  granted G mm write a.
Proof.
  unfold guest_range_hi, granted, in_range. intros Hz Ha.
  destruct (_ && _) eqn:E1 in Hz, Ha; [left; lia|right].
  destruct (_ && _) eqn:E2 in Hz, Ha; [left; lia|right].
  destruct (_ && _) eqn:E3 in Hz, Ha; [left; exists 0; lia|].
  destruct (_ && _) eqn:E4 in Hz, Ha; [left; exists 1; lia|right].
  destruct (_ && _) eqn:E5 in Hz, Ha; [|done]. destruct write; [done|]. split; [done|lia].
Qed.

Lemma range_ok_bounds G mm address len write :
  0 <= address < 2 ^ 32 -> 0 < len < 2 ^ 32 ->
  lxp_guest_range_ok G (Some mm) address len (access_of write) = true ->
  address + len < 2 ^ 32 /\
  guest_range_hi G (Some mm) address (access_of write) <> 0 /\
  address + len <= guest_range_hi G (Some mm) address (access_of write).
Proof.
  intros Ha Hl H. unfold lxp_guest_range_ok in H.
  destruct (bad_access _); [done|]. destruct (Z.eqb_spec len 0); [lia|].
  destruct (Z.ltb_spec (u32 (address + len)) address) as [|Hge]; [done|].
  apply andb_true_iff in H as [H1%negb_true_iff%Z.eqb_neq H2%Z.leb_le].
  unfold u32 in *. lia.
Qed.

(** A wrapped or empty range aside, an accepted range is granted byte by byte. *)
Lemma range_ok_granted G mm address len write a :
  0 <= address < 2 ^ 32 -> 0 <= len < 2 ^ 32 ->
  lxp_guest_range_ok G (Some mm) address len (access_of write) = true ->
  address <= a < address + len -> granted G mm write a.
Proof.
  intros Ha Hl H Hin. destruct (decide (len = 0)); [lia|].
  destruct (range_ok_bounds G mm address len write) as (H1 & H2 & H3); [done|lia|done|].
  apply (range_hi_granted G mm address); [done|lia].
Qed.

Lemma access_ok_granted G p address len write a :
  0 <= address < 2 ^ 32 -> 0 <= len < 2 ^ 32 ->
  lxp_guest_access_ok G p address len write = true -> address <= a < address + len ->
  exists mm, mm_at G p = Some mm /\ granted G mm write a.
Proof.
  intros Ha Hl H Hin. unfold lxp_guest_access_ok in H.
  destruct (mm_at G p) as [mm|]; [|done]. exists mm. split; [done|].
  destruct (view_grants _ _ _); [|done]. by apply (range_ok_granted G mm address len write).
Qed.

(** C37: A copy into guest memory either fails with EFAULT and changes nothing, or succeeds,
    stores exactly the source bytes at the destination, and every byte it changed is one
    the task was granted for writing: its region, the pool window or a device mapping,
    never the rootfs. *)
Theorem copy_to_guest_contained G m p dst src :
  0 <= dst < 2 ^ 32 -> alen src < 2 ^ 32 ->
  let '(rc, m') := lxp_copy_to_guest G m p dst src in
  (rc = - LXP_EFAULT /\ m' = m) \/
  rc = 0 /\ mem_read m' dst (length src) = map u8 src /\
  forall a, load8 m' a <> load8 m a -> exists mm, mm_at G p = Some mm /\ granted G mm true a.
Proof.
  intros Hd Hl. unfold lxp_copy_to_guest.
  destruct (lxp_guest_access_ok G p dst (alen src) true) eqn:E; simpl; [right|by left].
  split; [done|]. split; [apply mem_read_write_same|].
  intros a Hne. destruct (decide (dst <= a < dst + alen src)) as [Hin|Hout].
  - apply (access_ok_granted G p dst (alen src) true); unfold alen in *; try done; lia.
  - exfalso. apply Hne. apply load8_write_out. unfold alen in Hout. lia.
Qed.

(** A task with region [0x1000, 0x2000) and no view installed. *)
Definition demo_mm : lxp_mm :=
  mk_mm 1 1 1 None 0 0 0 (mk_ref 0 1) 4096 8192 0 0 0 0 0 0 [0; 0] [0; 0] [0; 0].
Definition demo_genv : genv :=
  mk_genv [demo_mm] [set_p_mm proc_zero (Some 0)] [view_zero] [7] 0 0.

Lemma copy_to_guest_contained_witness :
  (lxp_copy_to_guest demo_genv (fun _ => 0) 0 4100 [1; 2]).1 = 0 /\
  mem_read (lxp_copy_to_guest demo_genv (fun _ => 0) 0 4100 [1; 2]).2 4100 2 = [1; 2].
Proof.
  pose proof (copy_to_guest_contained demo_genv (fun _ => 0) 0 4100 [1; 2] ltac:(lia)
                ltac:(unfold alen; simpl; lia)) as H.
  change (lxp_copy_to_guest demo_genv (fun _ => 0) 0 4100 [1; 2])
    with (0, mem_write (fun _ => 0) 4100 [1; 2]) in *.
  destruct H as [[H _]|(_ & H & _)]; [done|]. split; [done|exact H].
Defined.

(** A copy out of guest memory returns the bytes at the source only if each of them is
    one the task was granted for reading; otherwise EFAULT. *)
Theorem copy_from_guest_contained G m p src len :
  0 <= src < 2 ^ 32 -> 0 <= len < 2 ^ 32 ->
  match lxp_copy_from_guest G m p src len with
  | inl e => e = - LXP_EFAULT
  | inr bs => bs = mem_read m src (Z.to_nat len) /\
      forall a, src <= a < src + len -> exists mm, mm_at G p = Some mm /\ granted G mm false a
  end.
Proof.
  intros Hs Hl. unfold lxp_copy_from_guest.
  destruct (lxp_guest_access_ok G p src len false) eqn:E; simpl; [|done].
  split; [done|]. intros a Ha. by apply (access_ok_granted G p src len false).
Qed.

Lemma copy_from_guest_contained_witness :
  0 <= 4100 < 2 ^ 32 /\ lxp_copy_from_guest demo_genv (fun a => a) 0 4100 2 = inr [4; 5].
Proof.
  split; [lia|].
  pose proof (copy_from_guest_contained demo_genv (fun a => a) 0 4100 2 ltac:(lia) ltac:(lia)) as H.
  destruct (lxp_copy_from_guest _ _ _ _ _) eqn:E; [vm_compute in E; congruence|].
  destruct H as [-> _]. reflexivity.
Defined.

(** ** Strings *)

Lemma strnlen_scan_spec m src limit i :
  let r := strnlen_scan m src limit i in
  (r = - LXP_EFAULT /\ forall j, i <= j < i + Z.of_nat limit -> load8 m (src + j) <> 0) \/
  (i <= r < i + Z.of_nat limit /\ load8 m (src + r) = 0 /\
   forall j, i <= j < r -> load8 m (src + j) <> 0).
Proof.
  revert i. induction limit as [|k IH]; intros i; simpl.
  - left. split; [done|lia].
  - destruct (Z.eqb_spec (load8 m (src + i)) 0) as [E|E].
    + right. split_and!; [lia|lia|done|lia].
    + destruct (IH (i + 1)) as [[H1 H2]|(H1 & H2 & H3)].
      * left. split; [done|]. intros j Hj. destruct (decide (j = i)) as [->|]; [done|]. apply H2. lia.
      * right. split_and!; [lia|lia|done|]. intros j Hj.
        destruct (decide (j = i)) as [->|]; [done|]. apply H3. lia.
Qed.

(** A length [lxp_guest_strnlen] reports is that of a NUL-terminated string of fewer
    than [max] bytes lying, terminator included, in memory the task may read; anything
    else is EFAULT. *)
Theorem guest_strnlen_sound G m p src max :
  0 <= src -> 0 <= max ->
  let r := lxp_guest_strnlen G m p src max in
  r = - LXP_EFAULT \/
  (0 <= r < max /\ load8 m (src + r) = 0 /\ (forall j, 0 <= j < r -> load8 m (src + j) <> 0) /\
   forall a, src <= a <= src + r -> exists mm, mm_at G p = Some mm /\ granted G mm false a).
Proof.
  intros Hs Hm. unfold lxp_guest_strnlen. destruct (mm_at G p) as [mm|]; [|by left].
  destruct (view_refuses_read G p); [by left|].
  destruct (Z.eqb_spec (guest_range_hi G (Some mm) src LXP_GUEST_READ) 0) as [|Hz]; [by left|].
  set (hi := guest_range_hi G (Some mm) src LXP_GUEST_READ) in *.
  set (limit := if hi - src <? max then hi - src else max).
  destruct (strnlen_scan_spec m src (Z.to_nat limit) 0) as [[H _]|(H1 & H2 & H3)]; [by left|right].
  assert (limit <= max /\ limit <= hi - src) by (unfold limit; destruct (Z.ltb_spec (hi - src) max); lia).
  split_and!; [lia|lia|done|done|]. intros a Ha. exists mm. split; [done|].
  apply (range_hi_granted G mm src false); [done|]. change (access_of false) with LXP_GUEST_READ.
  fold hi. lia.
Qed.

Lemma guest_strnlen_sound_witness :
  let m := mem_write (fun _ => 0) 4100 [97; 98; 0] in
  lxp_guest_strnlen demo_genv m 0 4100 256 = 2 /\ load8 m 4102 = 0.
Proof.
  intros m. pose proof (guest_strnlen_sound demo_genv m 0 4100 256 ltac:(lia) ltac:(lia)) as H.
  change (lxp_guest_strnlen demo_genv m 0 4100 256) with 2 in *. split; [done|].
  destruct H as [H|(_ & H & _)]; [done|exact H].
Defined.

(** A resolved path is normalized and fits, whatever the guest passed. *)
Lemma resolve_from_plain base s outlen out :
  2 <= outlen -> resolve_from base s outlen = inr out ->
  exists st, out = render_abs st /\ Forall plain st /\ alen out < outlen.
Proof.
  intros Ho H. unfold resolve_from in H.
  destruct (match s with [] => _ | _ :: _ => _ end) as [j|]; [|done].
  destruct (join_checked 1 j s) as [j'|]; [|done].
  rewrite normalize_abs_canon in H. destruct (canon outlen [] (components j')) as [e|st] eqn:E; [done|].
  injection H as <-. apply canon_sound in E as (H1 & H2 & _);
    [|by apply comp_acc_segments|done|unfold alen; simpl; lia].
  exists st. split_and!; [done|done|by apply render_abs_length].
Qed.

(** A path syscall's argument resolves to a normalized absolute path that fits the
    caller's buffer, or to an error; it is never dereferenced unless it is a terminated
    string inside memory the task may read. *)
Theorem resolve_path_checked G m p cwd src outlen :
  2 <= outlen ->
  match lxp_resolve_path G m p cwd src outlen with
  | inl e => e = - LXP_EFAULT \/ e = - LXP_ENAMETOOLONG
  | inr out => 0 <= lxp_guest_strnlen G m p src LXP_PATH_MAX /\
      exists st, out = render_abs st /\ Forall plain st /\ alen out < outlen
  end.
Proof.
  intros Ho. unfold lxp_resolve_path.
  destruct (Z.ltb_spec (lxp_guest_strnlen G m p src LXP_PATH_MAX) 0); [by left|].
  destruct (resolve_from _ _ _) as [e|out] eqn:E.
  - right. unfold resolve_from in E.
    destruct (match guest_cstr _ _ _ with [] => _ | _ :: _ => _ end) as [j|]; [|congruence].
    destruct (join_checked 1 j _) as [j'|]; [|congruence]. rewrite normalize_abs_canon in E.
    destruct (canon _ _ _) eqn:E2; [|congruence]. injection E as <-. by apply canon_fails in E2 as [-> _].
  - split; [done|]. by apply (resolve_from_plain _ _ _ _ Ho E).
Qed.

Lemma resolve_path_checked_witness :
  let m := mem_write (fun _ => 0) 4100 [97; 0] in
  2 <= 256 /\ lxp_resolve_path demo_genv m 0 [47; 98] 4100 256 = inr [47; 98; 47; 97].
Proof.
  intros m. split; [lia|].
  pose proof (resolve_path_checked demo_genv m 0 [47; 98] 4100 256 ltac:(lia)) as H.
  destruct (lxp_resolve_path demo_genv m 0 [47; 98] 4100 256) as [e|out] eqn:E;
    vm_compute in E; [congruence|]. injection E as <-. reflexivity.
Defined.

(** ** Views *)

Lemma aget_set_procs G ps p : proc_at (set_procs G ps) p = aget proc_zero ps p.
Proof. done. Qed.

Lemma p_mm_set_view p v : p_mm (set_p_guest_view p v) = p_mm p.
Proof. by destruct p. Qed.

Lemma p_view_set_view p v : p_guest_view (set_p_guest_view p v) = v.
Proof. by destruct p. Qed.

(** Beginning a view on an unbound task of a live slot and region installs a current
    view that reports the slot; it stays in force only while the slot's generation, the
    task's address space and the region's generation are the captured ones, and it does
    not survive its end: when any of these changed, every access is refused. *)
Theorem guest_view_lifetime G p slot gen access vid G' :
  0 <= p < alen (ge_procs G) -> 0 <= vid < alen (ge_views G) ->
  lxp_guest_view_begin G p slot (Some gen) access vid = (LXP_OK, G') ->
  lxp_guest_view_is_current G' vid = true /\ lxp_guest_view_slot G' p = inr slot /\
  lxp_guest_view_is_current (lxp_guest_view_end G' vid) vid = false /\
  forall G2, view_at G2 vid = view_at G' vid -> p_guest_view (proc_at G2 p) = Some vid ->
    (aget 0 (ge_gens G2) gen <> ref_generation slot \/ p_mm (proc_at G2 p) <> p_mm (proc_at G p) \/
     option_map mm_region (mm_at G2 p) <> option_map mm_region (mm_at G p)) ->
    forall address len write, lxp_guest_access_ok G2 p address len write = false.
Proof.
  intros Hp Hv H. unfold lxp_guest_view_begin in H.
  destruct (p_mm (proc_at G p)) as [mi|] eqn:Em; [|done].
  destruct (p_guest_view (proc_at G p)) eqn:Eg; [done|].
  destruct (bad_access access); [done|].
  destruct (Z.eqb_spec (aget 0 (ge_gens G) gen) (ref_generation slot)) as [Hgen|]; [|done].
  cbn [negb] in H. set (region := mm_region _) in *.
  destruct (_ || _) in H; [done|]. injection H as <-.
  set (v := mk_view (Some p) (Some mi) slot region (Some gen) (u8 access) true).
  set (G' := set_procs _ _).
  assert (Hview : view_at G' vid = v) by (unfold view_at, G'; simpl; by rewrite aget_aset_eq).
  assert (Hproc : proc_at G' p = set_p_guest_view (proc_at G p) (Some vid))
    by (unfold G'; rewrite aget_set_procs; by rewrite aget_aset_eq).
  assert (Hcur : lxp_guest_view_is_current G' vid = true).
  { unfold lxp_guest_view_is_current. rewrite Hview. simpl.
    rewrite Hproc, p_view_set_view, p_mm_set_view, Em, !bool_decide_true by done.
    rewrite (proj2 (Z.eqb_eq _ _) Hgen). simpl. by apply ref_equal_eq. }
  split_and!; [done| | |].
  - unfold lxp_guest_view_slot. by rewrite Hproc, p_view_set_view, Hcur, Hview.
  - unfold lxp_guest_view_is_current, lxp_guest_view_end. rewrite Hview. simpl.
    unfold view_at, set_views. cbn [ge_views]. rewrite aget_aset_eq; [done|].
    destruct (bool_decide _); unfold G', alen in *; cbn [ge_views set_procs set_views];
      by rewrite length_aset.
  - intros G2 Hv2 Hp2 Hch address len write. unfold lxp_guest_access_ok.
    destruct (mm_at G2 p) as [mm2|] eqn:Emm; [|done].
    assert (view_grants G2 p (if write then LXP_GUEST_WRITE else LXP_GUEST_READ) = false) as ->; [|done].
    unfold view_grants. rewrite Hp2.
    assert (lxp_guest_view_is_current G2 vid = false) as ->; [|done].
    unfold lxp_guest_view_is_current. rewrite Hv2, Hview. simpl. rewrite Hp2, bool_decide_true by done.
    simpl. destruct (Z.eqb_spec (aget 0 (ge_gens G2) gen) (ref_generation slot)); [|done]. simpl.
    destruct (bool_decide_reflect (p_mm (proc_at G2 p) = Some mi)) as [E2|]; [|done]. simpl.
    apply not_true_iff_false. rewrite ref_equal_eq. intros Hr.
    destruct Hch as [Hc|[Hc|Hc]]; [done|congruence|]. apply Hc.
    rewrite <- Emm. unfold mm_at. rewrite E2, Em. simpl. by rewrite Hr.
Qed.

Lemma guest_view_lifetime_witness :
  let G' := (lxp_guest_view_begin demo_genv 0 (mk_ref 0 7) (Some 0) 3 0).2 in
  lxp_guest_view_is_current G' 0 = true /\
  lxp_guest_view_is_current (lxp_guest_view_end G' 0) 0 = false.
Proof.
  intros G'.
  destruct (guest_view_lifetime demo_genv 0 (mk_ref 0 7) 0 3 0 G') as (H1 & _ & H2 & _).
  - unfold alen. simpl. lia.
  - unfold alen. simpl. lia.
  - reflexivity.
  - split; [exact H1|exact H2].
Defined.
