(* ===== verification/Wait.v ===== *)
(** * Deferred work and signal policy of a task

    The intent and wait records of src/proc/lxp_process.c, through which a syscall hands
    its task to the coordinator, and the per-process signal policy of
    src/signal/lxp_signal_policy.c.  All of it acts on one task record. *)

From S2P Require Import Prelude Config Proc.
From stdpp Require Import relations.
Local Open Scope Z_scope.

Definition LXP_EXIT_REASON_SIGNAL : Z := 2.

(** ** Intents and waits *)

Definition lxp_intent_begin (p : lxp_proc) (intent : lxp_intent) : Z * lxp_proc :=
  if decide (intent_kind intent = IK_NONE) then (- LXP_EINVAL, p)
  else if bool_decide (intent_kind (p_intent p) <> IK_NONE) ||
          bool_decide (w_kind (p_wait p) <> LXP_WAIT_NONE)
  then (- LXP_EAGAIN, p)
  else (0, set_p_intent p intent).

Definition lxp_intent_complete (p : lxp_proc) (expected : lxp_intent_kind) : Z * lxp_proc :=
  if bool_decide (expected = IK_NONE) || bool_decide (intent_kind (p_intent p) <> expected)
  then (- LXP_EINVAL, p)
  else (0, set_p_intent p LXP_INTENT_NONE).

Definition lxp_intent_exit (p : lxp_proc) (group : Z) : Z * lxp_proc :=
  (0, set_p_intent p (LXP_INTENT_EXIT (negb (group =? 0)))).

(** [now] is what [lxp_time_us] stores, [None] when the host clock fails and stores
    nothing. *)
Definition lxp_wait_begin (now : option Z) (p : lxp_proc) (wait : lxp_wait) : Z * lxp_proc :=
  if decide (w_kind wait = LXP_WAIT_NONE) then (- LXP_EINVAL, p)
  else if bool_decide (w_kind (p_wait p) <> LXP_WAIT_NONE) ||
          bool_decide (intent_kind (p_intent p) <> IK_NONE)
  then (- LXP_EAGAIN, p)
  else
    let w := match now with Some t => set_w_enqueued_us wait t | None => wait end in
    (0, set_p_wait p w).

Definition lxp_wait_park (now : option Z) (p : lxp_proc) (wait : lxp_wait) : Z * lxp_proc :=
  let '(rc, p) := lxp_wait_begin now p wait in
  (if rc =? 0 then 0 else - LXP_EAGAIN, p).

Definition wait_finish (p : lxp_proc) (expected : lxp_wait_kind) : Z * lxp_proc :=
  if bool_decide (expected = LXP_WAIT_NONE) || bool_decide (w_kind (p_wait p) <> expected)
  then (- LXP_EINVAL, p)
  else (0, set_p_wait p wait_zero).

Definition lxp_wait_complete (p : lxp_proc) (expected : lxp_wait_kind) : Z * lxp_proc :=
  wait_finish p expected.
Definition lxp_wait_interrupt (p : lxp_proc) (expected : lxp_wait_kind) : Z * lxp_proc :=
  wait_finish p expected.
Definition lxp_wait_timeout (p : lxp_proc) (expected : lxp_wait_kind) : Z * lxp_proc :=
  wait_finish p expected.

Definition lxp_wait_cancel (p : lxp_proc) : Z * lxp_proc := (0, set_p_wait p wait_zero).

(** ** Niceness *)

Definition clamp_nice (nice : Z) : Z :=
  if nice <? -20 then -20 else if nice >? 19 then 19 else nice.

Definition lxp_proc_nice_get (p : lxp_proc) : Z := p_nice p.
Definition lxp_proc_nice_set (p : lxp_proc) (nice : Z) : lxp_proc := set_p_nice p (clamp_nice nice).
Definition lxp_nice_weight (nice : Z) : Z := 20 - clamp_nice nice.

(** ** Signal policy *)

(** The scan for a deliverable signal, from [sig], [n] numbers long. *)
Fixpoint deliverable_scan (p : lxp_proc) (n : nat) (sig : Z) : Z :=
  match n with
  | O => 0
  | S n => if has (p_pending_sigs p) (lxp_sig_bit sig) && negb (lxp_sig_blocked p sig) then sig
           else deliverable_scan p n (sig + 1)
  end.

Definition lxp_pending_deliverable (p : lxp_proc) : Z :=
  if p_pending_sigs p =? 0 then 0 else deliverable_scan p (Z.to_nat (LXP_NSIG - 1)) 1.

Definition lxp_pending_take (p : lxp_proc) : Z * lxp_proc :=
  let sig := lxp_pending_deliverable p in
  (sig, if sig =? 0 then p
        else set_p_pending_sigs p (Z.land (p_pending_sigs p) (Z.lnot (lxp_sig_bit sig)))).

Definition lxp_sig_default_ignore (sig : Z) : bool :=
  (sig =? LXP_SIGCHLD) || (sig =? LXP_SIGCONT) || (sig =? LXP_SIGURG) || (sig =? LXP_SIGWINCH).

Definition lxp_sig_swallowed (sh : option lxp_sighand) (sig : Z) : bool :=
  let h := lxp_sig_handler_get sh sig in
  if h =? LXP_SIG_IGN then true
  else if (h =? LXP_SIG_DFL) && lxp_sig_default_ignore sig then true else false.

Definition lxp_sig_is_stop (sig : Z) : bool :=
  (sig =? LXP_SIGSTOP) || (sig =? LXP_SIGTSTP) || (sig =? LXP_SIGTTIN) || (sig =? LXP_SIGTTOU).

Definition lxp_sig_stops_proc (sh : option lxp_sighand) (sig : Z) : bool :=
  if negb (lxp_sig_is_stop sig) then false
  else if sig =? LXP_SIGSTOP then true
  else lxp_sig_handler_get sh sig =? LXP_SIG_DFL.

Definition stop_mask : Z :=
  Z.lor (Z.lor (Z.lor (lxp_sig_bit LXP_SIGSTOP) (lxp_sig_bit LXP_SIGTSTP))
               (lxp_sig_bit LXP_SIGTTIN)) (lxp_sig_bit LXP_SIGTTOU).

Definition lxp_signal_latch (p : lxp_proc) (sig : Z) : lxp_proc :=
  if (sig <=? 0) || (sig >=? LXP_NSIG) then p
  else
    let pending := p_pending_sigs p in
    let pending := if sig =? LXP_SIGCONT then Z.land pending (Z.lnot stop_mask)
                   else if lxp_sig_is_stop sig
                        then Z.land pending (Z.lnot (lxp_sig_bit LXP_SIGCONT))
                        else pending in
    set_p_pending_sigs p (Z.lor pending (lxp_sig_bit sig)).

Definition lxp_signal_terminate (p : lxp_proc) (sig reason detail address : Z) : lxp_proc :=
  let p := (lxp_intent_exit p 0).2 in
  let p := set_p_exit_status p (128 + sig) in
  let p := set_p_exit_reason p reason in
  let p := set_p_exit_signal p (u8 sig) in
  let p := set_p_exit_detail p detail in
  set_p_exit_address p address.

(** ** Exclusive ownership of the deferred state *)

Inductive deferred_op :=
  | OpIntentBegin (i : lxp_intent)
  | OpIntentComplete (k : lxp_intent_kind)
  | OpIntentExit (group : Z)
  | OpWaitBegin (now : option Z) (w : lxp_wait)
  | OpWaitFinish (k : lxp_wait_kind)
  | OpWaitCancel.

Definition deferred_run (op : deferred_op) (p : lxp_proc) : Z * lxp_proc :=
  match op with
  | OpIntentBegin i => lxp_intent_begin p i
  | OpIntentComplete k => lxp_intent_complete p k
  | OpIntentExit g => lxp_intent_exit p g
  | OpWaitBegin now w => lxp_wait_begin now p w
  | OpWaitFinish k => wait_finish p k
  | OpWaitCancel => lxp_wait_cancel p
  end.

Definition deferred_step (p p' : lxp_proc) : Prop := exists op, p' = (deferred_run op p).2.

(** No task owes the coordinator both an action and a wait; only an exit may be raised
    over a wait in progress. *)
Definition deferred_excl (p : lxp_proc) : Prop :=
  p_intent p = LXP_INTENT_NONE \/ w_kind (p_wait p) = LXP_WAIT_NONE \/
  exists g, p_intent p = LXP_INTENT_EXIT g.

Lemma p_wait_set_intent p v : p_wait (set_p_intent p v) = p_wait p.
Proof. by destruct p. Qed.
Lemma p_intent_set_intent p v : p_intent (set_p_intent p v) = v.
Proof. by destruct p. Qed.
Lemma p_wait_set_wait p v : p_wait (set_p_wait p v) = v.
Proof. by destruct p. Qed.
Lemma p_intent_set_wait p v : p_intent (set_p_wait p v) = p_intent p.
Proof. by destruct p. Qed.
#[export] Hint Rewrite p_wait_set_intent p_intent_set_intent p_wait_set_wait p_intent_set_wait
  : task_fields.

Lemma intent_kind_none i : intent_kind i = IK_NONE -> i = LXP_INTENT_NONE.
Proof. by destruct i. Qed.

Lemma deferred_step_excl p p' : deferred_step p p' -> deferred_excl p -> deferred_excl p'.
Proof.
  intros [op ->] H. unfold deferred_excl in *.
  destruct op as [i|k|g|now w|k|]; simpl.
  - unfold lxp_intent_begin. destruct (decide _); [done|]. destruct (_ || _) eqn:E; [done|].
    simpl. autorewrite with task_fields. right. left.
    apply orb_false_iff in E as [_ E%bool_decide_eq_false]. by apply dec_stable.
  - unfold lxp_intent_complete. destruct (_ || _); [done|]. left.
    simpl. by autorewrite with task_fields.
  - autorewrite with task_fields. right. right. by eexists.
  - unfold lxp_wait_begin. destruct (decide _); [done|]. destruct (_ || _) eqn:E; [done|].
    simpl. autorewrite with task_fields. left. apply intent_kind_none.
    apply orb_false_iff in E as [_ E%bool_decide_eq_false]. by apply dec_stable.
  - unfold wait_finish. destruct (_ || _); [done|]. simpl. autorewrite with task_fields. auto.
  - autorewrite with task_fields. auto.
Qed.

(** Whatever a task and the coordinator begin, complete or cancel, in any order, the
    task never owes both an action and a blocking wait (an exit aside, which may
    overtake a wait), and beginning either is refused while anything is outstanding. *)
Theorem deferred_state_exclusive p p' :
  rtc deferred_step p p' -> deferred_excl p ->
  deferred_excl p' /\
  ((p_intent p' <> LXP_INTENT_NONE \/ w_kind (p_wait p') <> LXP_WAIT_NONE) ->
   (forall i, intent_kind i <> IK_NONE -> lxp_intent_begin p' i = (- LXP_EAGAIN, p')) /\
   (forall now w, w_kind w <> LXP_WAIT_NONE -> lxp_wait_begin now p' w = (- LXP_EAGAIN, p'))).
Proof.
  intros Hs Hp. split.
  - induction Hs; [done|]. apply IHHs. by eapply deferred_step_excl.
  - intros Hbusy.
    assert (Hk : intent_kind (p_intent p') <> IK_NONE \/ w_kind (p_wait p') <> LXP_WAIT_NONE).
    { destruct Hbusy as [H|]; [left|by right]. intros E. by apply H, intent_kind_none. }
    split; intros; unfold lxp_intent_begin, lxp_wait_begin; rewrite decide_False by done;
      (destruct (_ || _) eqn:E; [done|]);
      apply orb_false_iff in E as [?%bool_decide_eq_false ?%bool_decide_eq_false]; tauto.
Qed.

Lemma deferred_state_exclusive_witness :
  deferred_excl (deferred_run (OpIntentBegin LXP_INTENT_EXEC) proc_zero).2 /\
  lxp_intent_begin (deferred_run (OpIntentBegin LXP_INTENT_EXEC) proc_zero).2 LXP_INTENT_EXEC =
    (- LXP_EAGAIN, (deferred_run (OpIntentBegin LXP_INTENT_EXEC) proc_zero).2).
Proof.
  destruct (deferred_state_exclusive proc_zero
              (deferred_run (OpIntentBegin LXP_INTENT_EXEC) proc_zero).2) as [H1 H2].
  - apply rtc_once. by eexists.
  - by left.
  - split; [exact H1|]. apply H2; [by left|done].
Defined.

(** ** Pending signals as a set *)

Definition pending (p : lxp_proc) (sig : Z) : bool := Z.testbit (p_pending_sigs p) (sig - 1).

Lemma testbit_sig_bit sig i :
  1 <= sig <= 64 -> 0 <= i -> Z.testbit (lxp_sig_bit sig) i = (i =? sig - 1).
Proof.
  intros Hs Hi. unfold lxp_sig_bit.
  replace ((sig >=? 1) && (sig <=? 64)) with true by (symmetry; lia).
  rewrite Z.shiftl_spec by done. destruct (Z.eqb_spec i (sig - 1)) as [->|].
  - by rewrite Z.sub_diag.
  - destruct (Z.ltb_spec i (sig - 1)); [by rewrite Z.testbit_neg_r by lia|].
    apply Z.bits_above_log2; simpl; lia.
Qed.

Lemma has_sig_bit x sig : 1 <= sig <= 64 -> has x (lxp_sig_bit sig) = Z.testbit x (sig - 1).
Proof.
  intros Hs. unfold has. destruct (Z.eqb_spec (Z.land x (lxp_sig_bit sig)) 0) as [E|E]; simpl.
  - apply (f_equal (fun v => Z.testbit v (sig - 1))) in E.
    rewrite Z.land_spec, testbit_sig_bit, Z.eqb_refl, andb_true_r, Z.testbit_0_l in E by lia. done.
  - destruct (Z.testbit x (sig - 1)) eqn:Ex; [done|]. exfalso. apply E. apply Z.bits_inj'.
    intros i Hi. rewrite Z.land_spec, testbit_sig_bit, Z.testbit_0_l by lia.
    destruct (Z.eqb_spec i (sig - 1)) as [->|]; [by rewrite Ex|by rewrite andb_false_r].
Qed.

Lemma pending_set p v sig : pending (set_p_pending_sigs p v) sig = Z.testbit v (sig - 1).
Proof. by destruct p. Qed.

Lemma deliverable_scan_spec p n sig :
  1 <= sig -> sig + Z.of_nat n <= LXP_NSIG ->
  let r := deliverable_scan p n sig in
  let ready s := pending p s = true /\ lxp_sig_blocked p s = false in
  (r = 0 /\ forall s, sig <= s < sig + Z.of_nat n -> ~ ready s) \/
  (sig <= r < sig + Z.of_nat n /\ ready r /\ forall s, sig <= s < r -> ~ ready s).
Proof.
  unfold LXP_NSIG. revert sig. induction n as [|n IH]; intros sig H1 H2; simpl.
  { left. split; [done|lia]. }
  rewrite has_sig_bit by lia. fold (pending p sig).
  destruct (pending p sig && negb (lxp_sig_blocked p sig)) eqn:E.
  - right. apply andb_true_iff in E as [Ea Eb%negb_true_iff]. split_and!; [lia|lia|done|done|lia].
  - assert (Hn : ~ (pending p sig = true /\ lxp_sig_blocked p sig = false)).
    { intros [Ea Eb]. by rewrite Ea, Eb in E. }
    destruct (IH (sig + 1)) as [[Hr Hs]|(Hr & Hq & Hs)]; [lia|lia| |].
    + left. split; [done|]. intros s Hin. destruct (decide (s = sig)) as [->|]; [done|]. apply Hs. lia.
    + right. split_and!; [lia|lia|apply Hq|apply Hq|]. intros s Hin.
      destruct (decide (s = sig)) as [->|]; [done|]. apply Hs. lia.
Qed.

(** [lxp_pending_take] returns the lowest pending signal that is not blocked (SIGKILL
    and SIGSTOP are never blocked) and removes that one alone; it returns 0, changing
    nothing, exactly when no pending signal is deliverable. *)
Theorem pending_take_lowest p sig p' :
  lxp_pending_take p = (sig, p') ->
  let ready s := pending p s = true /\ lxp_sig_blocked p s = false in
  (sig = 0 /\ p' = p /\ forall s, 1 <= s <= 64 -> ~ ready s) \/
  (1 <= sig <= 64 /\ ready sig /\ (forall s, 1 <= s < sig -> ~ ready s) /\
   forall s, 1 <= s -> pending p' s = (pending p s && negb (s =? sig))).
Proof.
  intros H ready. unfold lxp_pending_take, lxp_pending_deliverable in H.
  destruct (Z.eqb_spec (p_pending_sigs p) 0) as [E0|_];
    apply pair_equal_spec in H as [Hs Hp'].
  { left. simpl in Hp'. subst sig. split_and!; [done|by rewrite <- Hp'|]. intros s Hr [Hp _]. unfold pending in Hp.
    by rewrite E0, Z.testbit_0_l in Hp. }
  pose proof (deliverable_scan_spec p (Z.to_nat (LXP_NSIG - 1)) 1 ltac:(lia)
                ltac:(unfold LXP_NSIG; lia)) as Hd.
  cbv zeta in Hd. rewrite Hs in Hd, Hp'. subst p'. change (1 + Z.of_nat (Z.to_nat (LXP_NSIG - 1))) with 65 in Hd.
  destruct Hd as [[Hr Hall]|(Hr & Hq & Hmin)].
  - left. rewrite Hr. split_and!; [done|done|]. intros s Hin. apply Hall. lia.
  - right. split_and!; [lia|lia|exact Hq|done|]. intros s Hs1.
    destruct (Z.eqb_spec sig 0); [lia|]. rewrite pending_set, Z.land_spec, Z.lnot_spec by lia.
    rewrite testbit_sig_bit by lia. unfold pending. f_equal. f_equal.
    destruct (Z.eqb_spec (s - 1) (sig - 1)), (Z.eqb_spec s sig); lia.
Qed.

Lemma pending_take_lowest_witness :
  let p := lxp_signal_latch (lxp_signal_latch proc_zero LXP_SIGCHLD) LXP_SIGINT in
  (lxp_pending_take p).1 = LXP_SIGINT /\ pending (lxp_pending_take p).2 LXP_SIGCHLD = true.
Proof.
  intros p.
  destruct (pending_take_lowest p (lxp_pending_take p).1 (lxp_pending_take p).2)
    as [(_ & _ & H)|(_ & _ & _ & H)].
  - apply surjective_pairing.
  - exfalso. apply (H LXP_SIGINT); [vm_compute; split; congruence|split; reflexivity].
  - split; [reflexivity|]. rewrite H by (vm_compute; congruence). reflexivity.
Defined.

(** SIGCONT and a stop signal are never pending together. *)
Definition job_control_excl (p : lxp_proc) : Prop :=
  pending p LXP_SIGCONT = true -> forall s, lxp_sig_is_stop s = true -> pending p s = false.

Lemma is_stop_range s : lxp_sig_is_stop s = true -> 19 <= s <= 22.
Proof. unfold lxp_sig_is_stop, LXP_SIGSTOP, LXP_SIGTSTP, LXP_SIGTTIN, LXP_SIGTTOU. lia. Qed.

Lemma testbit_stop_mask i : 0 <= i -> Z.testbit stop_mask i = lxp_sig_is_stop (i + 1).
Proof.
  intros Hi. unfold stop_mask, lxp_sig_is_stop. rewrite !Z.lor_spec.
  rewrite !testbit_sig_bit by (try done; vm_compute; split; congruence).
  unfold LXP_SIGSTOP, LXP_SIGTSTP, LXP_SIGTTIN, LXP_SIGTTOU. lia.
Qed.

Lemma pending_latch p sig s :
  1 <= sig <= 64 -> 1 <= s ->
  pending (lxp_signal_latch p sig) s =
  (s =? sig) || pending p s &&
    negb ((sig =? LXP_SIGCONT) && lxp_sig_is_stop s || lxp_sig_is_stop sig && (s =? LXP_SIGCONT)).
Proof.
  intros Hs H1. unfold lxp_signal_latch.
  destruct (_ || _) eqn:E; [unfold LXP_NSIG in E; lia|]. rewrite pending_set, Z.lor_spec.
  rewrite testbit_sig_bit by lia. rewrite orb_comm. unfold pending.
  assert (Heq : (s - 1 =? sig - 1) = (s =? sig)) by lia. rewrite Heq. f_equal.
  destruct (Z.eqb_spec sig LXP_SIGCONT) as [->|].
  - rewrite Z.land_spec, Z.lnot_spec, testbit_stop_mask by lia.
    replace (s - 1 + 1) with s by lia. cbn. by rewrite orb_false_r.
  - destruct (lxp_sig_is_stop sig); cbn [andb orb negb]; [|by rewrite andb_true_r].
    rewrite Z.land_spec, Z.lnot_spec, testbit_sig_bit by (unfold LXP_SIGCONT; lia).
    f_equal. f_equal. unfold LXP_SIGCONT. lia.
Qed.

(** Publishing a signal sets it pending and keeps every unrelated pending signal; and
    since a SIGCONT discards pending stops and a stop discards a pending SIGCONT, the two
    are never pending together, so the last one generated wins. *)
Theorem signal_latch_last_wins p sig :
  1 <= sig <= 64 -> job_control_excl p ->
  pending (lxp_signal_latch p sig) sig = true /\
  job_control_excl (lxp_signal_latch p sig) /\
  (forall s, 1 <= s -> s <> LXP_SIGCONT -> lxp_sig_is_stop s = false -> s <> sig ->
     pending (lxp_signal_latch p sig) s = pending p s) /\
  (sig = LXP_SIGCONT -> forall s, lxp_sig_is_stop s = true ->
     pending (lxp_signal_latch p sig) s = false).
Proof.
  intros Hs Hp. split_and!.
  - rewrite pending_latch, Z.eqb_refl by lia. done.
  - intros Hc s Hst. pose proof (is_stop_range s Hst) as Hr.
    rewrite pending_latch in Hc by (unfold LXP_SIGCONT; lia).
    rewrite pending_latch by lia. rewrite Hst.
    destruct (Z.eqb_spec sig LXP_SIGCONT) as [->|Hne].
    + destruct (Z.eqb_spec s LXP_SIGCONT) as [->|]; [done|]. simpl. by rewrite andb_false_r.
    + destruct (Z.eqb_spec LXP_SIGCONT sig) as [E|_]; [done|]. simpl in Hc.
      rewrite andb_true_r in Hc. apply andb_true_iff in Hc as [Hc Hn%negb_true_iff].
      destruct (Z.eqb_spec s sig) as [->|]; [by rewrite Hst in Hn|]. simpl.
      by rewrite (Hp Hc s Hst).
  - intros s H1 Hc Hst Hne. rewrite pending_latch by lia. rewrite Hst.
    destruct (Z.eqb_spec s sig); [done|]. destruct (Z.eqb_spec s LXP_SIGCONT); [done|].
    rewrite !andb_false_r. by rewrite andb_true_r.
  - intros -> s Hst. pose proof (is_stop_range s Hst). rewrite pending_latch by lia.
    rewrite Hst. destruct (Z.eqb_spec s LXP_SIGCONT) as [->|]; [done|]. simpl. by rewrite andb_false_r.
Qed.

Lemma signal_latch_last_wins_witness :
  1 <= LXP_SIGCONT <= 64 /\
  job_control_excl (lxp_signal_latch (lxp_signal_latch proc_zero LXP_SIGTSTP) LXP_SIGCONT).
Proof.
  assert (H0 : job_control_excl proc_zero) by (intros H; vm_compute in H; congruence).
  destruct (signal_latch_last_wins proc_zero LXP_SIGTSTP ltac:(vm_compute; split; congruence) H0)
    as (_ & H1 & _).
  destruct (signal_latch_last_wins (lxp_signal_latch proc_zero LXP_SIGTSTP) LXP_SIGCONT
              ltac:(vm_compute; split; congruence) H1) as (_ & H2 & _).
  split; [vm_compute; split; congruence|exact H2].
Defined.
