(* ===== verification/Pipe.v ===== *)
(** * Pipes (src/fs/lxp_pipe.c)

    A pipe is a slot of a static pool: a byte ring with counts of open read and write
    ends.  Guest buffers are addresses in the flat memory.  The theorems show that a
    pipe is a byte stream: what is read is, in order, what was written; that readiness is
    exactly the absence of blocking; and that a slot is recycled with its last end. *)

From S2P Require Import Prelude Config Ring Proc Wait.
From stdpp Require Import relations.
Local Open Scope Z_scope.

Record lxp_pipe := mk_pipe {
  pp_buf : list Z;
  pp_rpos : Z;
  pp_wpos : Z;
  pp_count : Z;
  pp_readers : Z;
  pp_writers : Z;
  pp_used : bool;
}.

Definition pipe_init (used : bool) : lxp_pipe :=
  mk_pipe (replicate (Z.to_nat LXP_PIPE_BUF) 0) 0 0 0 0 0 used.
Definition pipe_zero : lxp_pipe := pipe_init false.

Definition pipe_at (g : list lxp_pipe) (pi : Z) : lxp_pipe := aget pipe_zero g pi.

(** ** Operations *)

Definition lxp_pipe_alloc (g : list lxp_pipe) : Z * list lxp_pipe :=
  match find_first (fun pp => negb (pp_used pp)) g with
  | Some i => (i, aset g i (pipe_init true))
  | None => (-1, g)
  end.

(** Set the count of one kind of end. *)
Definition set_ends (pp : lxp_pipe) (write_end : bool) (n : Z) : lxp_pipe :=
  if write_end
  then mk_pipe (pp_buf pp) (pp_rpos pp) (pp_wpos pp) (pp_count pp) (pp_readers pp) n (pp_used pp)
  else mk_pipe (pp_buf pp) (pp_rpos pp) (pp_wpos pp) (pp_count pp) n (pp_writers pp) (pp_used pp).

Definition ends (pp : lxp_pipe) (write_end : bool) : Z :=
  if write_end then pp_writers pp else pp_readers pp.

Definition pipe_bad (g : list lxp_pipe) (pi : Z) : bool :=
  (pi <? 0) || (pi >=? LXP_NPIPE) || negb (pp_used (pipe_at g pi)).

Definition lxp_pipe_end_open (g : list lxp_pipe) (pi : Z) (write_end : bool) : list lxp_pipe :=
  if pipe_bad g pi then g
  else let pp := pipe_at g pi in
       if negb (ends pp write_end =? UINT16_MAX)
       then aset g pi (set_ends pp write_end (ends pp write_end + 1)) else g.

Definition lxp_pipe_end_close (g : list lxp_pipe) (pi : Z) (write_end : bool) : list lxp_pipe :=
  if pipe_bad g pi then g
  else let pp := pipe_at g pi in
       let pp := if ends pp write_end >? 0 then set_ends pp write_end (ends pp write_end - 1) else pp in
       if (pp_readers pp =? 0) && (pp_writers pp =? 0) then aset g pi pipe_zero else aset g pi pp.

Definition lxp_pipe_discard (g : list lxp_pipe) (pi : Z) : list lxp_pipe :=
  if (pi >=? 0) && (pi <? LXP_NPIPE) && (pp_readers (pipe_at g pi) =? 0) &&
     (pp_writers (pipe_at g pi) =? 0)
  then aset g pi pipe_zero else g.

Definition lxp_pipe_runtime_reset (g : list lxp_pipe) : list lxp_pipe :=
  replicate (Z.to_nat LXP_NPIPE) pipe_zero.

Definition lxp_pipe_try_read (g : list lxp_pipe) (m : mem) (pi buf len : Z)
  : Z * list lxp_pipe * mem :=
  let pp := pipe_at g pi in
  if pp_count pp =? 0 then (if pp_writers pp >? 0 then - LXP_EAGAIN else 0, g, m)
  else let '(out, rpos, count, r) :=
         lxp_ring_read (pp_buf pp) LXP_PIPE_BUF (pp_rpos pp) (pp_count pp) len in
       (r, aset g pi (mk_pipe (pp_buf pp) rpos (pp_wpos pp) count (pp_readers pp) (pp_writers pp)
                              (pp_used pp)), mem_write m buf out).

Definition lxp_pipe_try_write (g : list lxp_pipe) (m : mem) (pi buf len : Z)
  : Z * list lxp_pipe :=
  let pp := pipe_at g pi in
  if pp_readers pp =? 0 then (- LXP_EPIPE, g)
  else if pp_count pp =? LXP_PIPE_BUF then (- LXP_EAGAIN, g)
  else let '(bf, wpos, count, r) :=
         lxp_ring_write (pp_buf pp) LXP_PIPE_BUF (pp_wpos pp) (pp_count pp)
           (mem_read m buf (Z.to_nat len)) len in
       (r, aset g pi (mk_pipe bf (pp_rpos pp) wpos count (pp_readers pp) (pp_writers pp) (pp_used pp))).

Definition lxp_pipe_retry (g : list lxp_pipe) (m : mem) (p : lxp_proc) : Z * list lxp_pipe * mem :=
  match w_kind (p_wait p), w_data (p_wait p) with
  | LXP_WAIT_PIPE, WD_IO object _ buffer len _ _ _ =>
      if w_op (p_wait p) =? 1 then lxp_pipe_try_read g m object buffer len
      else if w_op (p_wait p) =? 2 then (lxp_pipe_try_write g m object buffer len, m)
      else (0, g, m)
  | LXP_WAIT_PIPE, _ => (0, g, m)
  | _, _ => (- LXP_EINVAL, g, m)
  end.

Definition lxp_pipe_poll (g : list lxp_pipe) (pi rw : Z) : Z :=
  let pp := pipe_at g pi in
  if rw =? 0 then (if (pp_count pp >? 0) || (pp_writers pp =? 0) then LXP_POLLIN else 0)
  else (if (pp_count pp <? LXP_PIPE_BUF) || (pp_readers pp =? 0) then LXP_POLLOUT else 0).

(** ** File operations *)

Definition pipe_wait (op object buffer len : Z) : lxp_wait :=
  mk_wait LXP_WAIT_PIPE op 0 0 (WD_IO object 0 buffer len 0 0 0).

Definition fop_read_pipe (now : option Z) (g : list lxp_pipe) (m : mem) (p : lxp_proc)
    (s : lxp_ofd) (buf len : Z) : Z * list lxp_pipe * mem * lxp_proc :=
  if negb (ofd_rw s =? 0) then (- LXP_EBADF, g, m, p)
  else let '(r, g, m) := lxp_pipe_try_read g m (ofd_file_idx s) buf len in
       if r =? - LXP_EAGAIN then
         if negb (ofd_nonblock s =? 0) then (- LXP_EAGAIN, g, m, p)
         else let '(rc, p) := lxp_wait_park now p (pipe_wait 1 (ofd_file_idx s) buf len) in
              (rc, g, m, p)
       else (r, g, m, p).

Definition fop_write_pipe (now : option Z) (sh : option lxp_sighand) (g : list lxp_pipe) (m : mem)
    (p : lxp_proc) (s : lxp_ofd) (buf len : Z) : Z * list lxp_pipe * lxp_proc :=
  if negb (ofd_rw s =? 1) then (- LXP_EBADF, g, p)
  else let '(r, g) := lxp_pipe_try_write g m (ofd_file_idx s) buf len in
       if r =? - LXP_EAGAIN then
         if negb (ofd_nonblock s =? 0) then (- LXP_EAGAIN, g, p)
         else let '(rc, p) := lxp_wait_park now p (pipe_wait 2 (ofd_file_idx s) buf len) in
              (rc, g, p)
       else if (r =? - LXP_EPIPE) && negb (lxp_sig_handler_get sh LXP_SIGPIPE =? LXP_SIG_IGN)
            then (r, g, lxp_signal_terminate p LXP_SIGPIPE LXP_EXIT_REASON_SIGNAL 0 0)
            else (r, g, p).

Definition fop_close_pipe (g : list lxp_pipe) (s : lxp_ofd) : list lxp_pipe :=
  lxp_pipe_end_close g (ofd_file_idx s) (negb (ofd_rw s =? 0)).

Definition fop_poll_pipe (g : list lxp_pipe) (s : lxp_ofd) : Z :=
  lxp_pipe_poll g (ofd_file_idx s) (ofd_rw s).

(** ** Invariant *)

Definition pipe_wf (pp : lxp_pipe) : Prop :=
  ring_wf (pp_buf pp) LXP_PIPE_BUF (pp_rpos pp) (pp_wpos pp) (pp_count pp) /\
  0 <= pp_readers pp <= UINT16_MAX /\ 0 <= pp_writers pp <= UINT16_MAX /\
  (pp_used pp = false -> pp = pipe_zero).

Definition pipes_wf (g : list lxp_pipe) : Prop := alen g = LXP_NPIPE /\ Forall pipe_wf g.

(** The bytes queued in a pipe, oldest first. *)
Definition pipe_bytes (g : list lxp_pipe) (pi : Z) : list Z :=
  let pp := pipe_at g pi in ring_view (pp_buf pp) LXP_PIPE_BUF (pp_rpos pp) (pp_count pp).

Lemma pipe_init_wf u : pipe_wf (pipe_init u).
Proof.
  unfold pipe_wf, ring_wf, pipe_init.
  cbn [pp_buf pp_rpos pp_wpos pp_count pp_readers pp_writers pp_used].
  unfold alen. rewrite length_replicate. unfold LXP_PIPE_BUF, UINT16_MAX.
  split_and!; try lia. by intros ->.
Qed.

Lemma pipe_at_wf g pi : pipes_wf g -> pipe_wf (pipe_at g pi).
Proof.
  intros [Hl Hf]. unfold pipe_at, aget. destruct (decide (Z.to_nat pi < length g)%nat).
  - rewrite Forall_forall in Hf. apply Hf, list_elem_of_In, nth_In. lia.
  - rewrite nth_overflow by lia. apply pipe_init_wf.
Qed.

Lemma pipes_wf_aset g pi pp : pipes_wf g -> pipe_wf pp -> pipes_wf (aset g pi pp).
Proof. intros [Hl Hf] Hp. split; [by rewrite alen_aset|by apply Forall_aset]. Qed.

Lemma pipe_at_aset g pi pj pp :
  0 <= pi < alen g -> 0 <= pj ->
  pipe_at (aset g pi pp) pj = if decide (pi = pj) then pp else pipe_at g pj.
Proof. intros. unfold pipe_at. by rewrite aget_aset. Qed.

Arguments pipe_init : simpl never.

(** Reading and writing one pipe, in terms of its queue. *)
Lemma try_read_spec g m pi buf len :
  pipes_wf g -> 0 <= pi < LXP_NPIPE -> 0 <= len ->
  let '(r, g', m') := lxp_pipe_try_read g m pi buf len in
  let q := pipe_bytes g pi in
  pipes_wf g' /\ (forall pj, 0 <= pj -> pj <> pi -> pipe_at g' pj = pipe_at g pj) /\
  pp_used (pipe_at g' pi) = pp_used (pipe_at g pi) /\
  ((q = [] /\ g' = g /\ m' = m /\ r = if pp_writers (pipe_at g pi) >? 0 then - LXP_EAGAIN else 0) \/
   (q <> [] /\ r = Z.min len (alen q) /\ m' = mem_write m buf (take (Z.to_nat r) q) /\
    pipe_bytes g' pi = drop (Z.to_nat r) q)).
Proof.
  intros Hwf Hi Hlen. pose proof (pipe_at_wf g pi Hwf) as (Hr & He1 & He2 & Hu).
  destruct Hwf as [Hl Hf]. unfold lxp_pipe_try_read, pipe_bytes.
  set (pp := pipe_at g pi) in *. pose proof Hr as (_ & _ & _ & Hc & _).
  destruct (Z.eqb_spec (pp_count pp) 0) as [E|E].
  - split_and!; try done. left. by rewrite E.
  - pose proof (ring_read_spec _ _ _ _ _ Hr len Hlen) as HS. cbv zeta in HS.
    destruct (lxp_ring_read _ _ _ _ _) as [[[out rpos] count] r].
    destruct HS as (-> & -> & HV & HW). split_and!.
    + split; [by rewrite alen_aset|]. apply Forall_aset; [done|]. unfold pipe_wf. simpl.
      split_and!; try done; try lia. intros Hff. specialize (Hu Hff). fold pp in Hu.
      rewrite Hu in E. exfalso. apply E. reflexivity.
    + intros pj Hj Hne. rewrite pipe_at_aset by lia. by rewrite decide_False.
    + rewrite pipe_at_aset, decide_True by lia. done.
    + right. pose proof (length_ring_view (pp_buf pp) LXP_PIPE_BUF (pp_rpos pp) (pp_count pp)) as HL.
      split_and!.
      * intros Hn. rewrite Hn in HL. simpl in HL. lia.
      * unfold alen. rewrite HL. lia.
      * done.
      * rewrite pipe_at_aset, decide_True by lia. simpl. done.
Qed.

Lemma try_write_spec g m pi buf len :
  pipes_wf g -> 0 <= pi < LXP_NPIPE -> 0 <= len ->
  let '(r, g') := lxp_pipe_try_write g m pi buf len in
  let q := pipe_bytes g pi in
  pipes_wf g' /\ (forall pj, 0 <= pj -> pj <> pi -> pipe_at g' pj = pipe_at g pj) /\
  pp_used (pipe_at g' pi) = pp_used (pipe_at g pi) /\
  ((pp_readers (pipe_at g pi) = 0 /\ r = - LXP_EPIPE /\ g' = g) \/
   (pp_readers (pipe_at g pi) <> 0 /\ alen q = LXP_PIPE_BUF /\ r = - LXP_EAGAIN /\ g' = g) \/
   (pp_readers (pipe_at g pi) <> 0 /\ alen q < LXP_PIPE_BUF /\ r = Z.min len (LXP_PIPE_BUF - alen q) /\
    pipe_bytes g' pi = q ++ take (Z.to_nat r) (mem_read m buf (Z.to_nat len)))).
Proof.
  intros Hwf Hi Hlen. pose proof (pipe_at_wf g pi Hwf) as (Hr & He1 & He2 & Hu).
  destruct Hwf as [Hl Hf]. unfold lxp_pipe_try_write, pipe_bytes.
  set (pp := pipe_at g pi) in *. pose proof Hr as (_ & _ & _ & Hc & _).
  assert (HL : alen (ring_view (pp_buf pp) LXP_PIPE_BUF (pp_rpos pp) (pp_count pp)) = pp_count pp)
    by (unfold alen; rewrite length_ring_view; lia).
  destruct (Z.eqb_spec (pp_readers pp) 0) as [E0|E0]; [split_and!; auto; done|].
  destruct (Z.eqb_spec (pp_count pp) LXP_PIPE_BUF) as [E|E]; [split_and!; auto; try done|].
  { right. left. by rewrite HL. }
  pose proof (ring_write_spec _ _ _ _ _ Hr (mem_read m buf (Z.to_nat len)) len
                ltac:(unfold alen; rewrite length_mem_read; lia)) as HS. cbv zeta in HS.
  destruct (lxp_ring_write _ _ _ _ _ _) as [[[bf wpos] count] r]. destruct HS as (-> & HV & HW).
  split_and!.
  - split; [by rewrite alen_aset|]. apply Forall_aset; [done|]. unfold pipe_wf. simpl.
    split_and!; try done; try lia. intros Hff. specialize (Hu Hff). fold pp in Hu.
    rewrite Hu in E0. exfalso. apply E0. reflexivity.
  - intros pj Hj Hne. rewrite pipe_at_aset by lia. by rewrite decide_False.
  - rewrite pipe_at_aset, decide_True by lia. done.
  - right. right. rewrite HL. split_and!; try done; [lia|].
    rewrite pipe_at_aset, decide_True by lia. simpl. done.
Qed.

(** Endpoint changes keep the queue of every pipe that stays in use. *)
Lemma end_change_spec g pj (op : list lxp_pipe -> Z -> bool -> list lxp_pipe) e :
  op = lxp_pipe_end_open \/ op = lxp_pipe_end_close ->
  pipes_wf g ->
  pipes_wf (op g pj e) /\
  forall pi, 0 <= pi -> pp_used (pipe_at (op g pj e) pi) = true ->
    pp_used (pipe_at g pi) = true -> pipe_bytes (op g pj e) pi = pipe_bytes g pi.
Proof.
  intros Hop Hwf. pose proof (pipe_at_wf g pj Hwf) as (Hr & He1 & He2 & Hu).
  assert (Hset : forall n, 0 <= n <= UINT16_MAX -> pp_used (pipe_at g pj) = true ->
            pipe_wf (set_ends (pipe_at g pj) e n)).
  { intros n Hn Hus. unfold pipe_wf, set_ends. destruct e; simpl; split_and!; try done; try lia;
      by rewrite Hus. }
  assert (Hbytes : forall pp', ~ (pipe_bad g pj = true) ->
            (pp' = pipe_zero \/ exists n, pp' = set_ends (pipe_at g pj) e n \/ pp' = pipe_at g pj) ->
            forall pi, 0 <= pi -> pp_used (pipe_at (aset g pj pp') pi) = true ->
            pipe_bytes (aset g pj pp') pi = pipe_bytes g pi).
  { intros pp' Hb Hpp pi Hpi Hus. unfold pipe_bytes, pipe_bad in *. destruct Hwf as [Hl _].
    rewrite pipe_at_aset in * by lia. destruct (decide (pj = pi)) as [->|]; [|done].
    destruct Hpp as [->|[n [->| ->]]]; [by unfold pipe_zero in Hus| |done].
    unfold set_ends. by destruct e. }
  destruct Hop as [-> | ->]; unfold lxp_pipe_end_open, lxp_pipe_end_close;
    destruct (pipe_bad g pj) eqn:Eb; try (split; [done|by intros]).
  - assert (Hus : pp_used (pipe_at g pj) = true) by (unfold pipe_bad in Eb; destruct (pp_used _); [done|lia]).
    destruct (Z.eqb_spec (ends (pipe_at g pj) e) UINT16_MAX); simpl; [split; [done|by intros]|].
    split.
    + apply pipes_wf_aset; [done|]. apply Hset; [|done]. unfold ends in *. destruct e; lia.
    + intros pi Hpi Hus' _. apply Hbytes; [congruence|right; eexists; by left|done|done].
  - assert (Hus : pp_used (pipe_at g pj) = true) by (unfold pipe_bad in Eb; destruct (pp_used _); [done|lia]).
    set (pp' := if ends _ _ >? 0 then _ else _).
    assert (Hpp : exists n, pp' = set_ends (pipe_at g pj) e n \/ pp' = pipe_at g pj)
      by (unfold pp'; destruct (_ >? 0); [eexists; by left|exists 0; by right]).
    assert (Hw : pipe_wf pp').
    { unfold pp'. destruct (ends (pipe_at g pj) e >? 0) eqn:E; [|by apply pipe_at_wf].
      apply Hset; [|done]. unfold ends in *. destruct e; lia. }
    destruct (_ && _); (split; [apply pipes_wf_aset; [done|]|]).
    + apply pipe_init_wf.
    + intros pi Hpi Hus' _. apply Hbytes; [congruence|by left|done|done].
    + done.
    + intros pi Hpi Hus' _. apply Hbytes; [congruence|by right|done|done].
Qed.

(** ** The stream *)

(** One step of the pool, with everything written to and read from pipe [pi] so far. *)
Inductive pipe_step (pi : Z) : list lxp_pipe * list Z * list Z ->
                               list lxp_pipe * list Z * list Z -> Prop :=
  | ps_write g w r m buf len n g' :
      0 <= len -> lxp_pipe_try_write g m pi buf len = (n, g') ->
      pipe_step pi (g, w, r) (g', w ++ take (Z.to_nat n) (mem_read m buf (Z.to_nat len)), r)
  | ps_read g w r m buf len n g' m' :
      0 <= len -> lxp_pipe_try_read g m pi buf len = (n, g', m') ->
      pipe_step pi (g, w, r) (g', w, r ++ mem_read m' buf (Z.to_nat n))
  | ps_write_other g w r m pj buf len n g' :
      0 <= pj < LXP_NPIPE -> pj <> pi -> 0 <= len -> lxp_pipe_try_write g m pj buf len = (n, g') ->
      pipe_step pi (g, w, r) (g', w, r)
  | ps_read_other g w r m pj buf len n g' m' :
      0 <= pj < LXP_NPIPE -> pj <> pi -> 0 <= len -> lxp_pipe_try_read g m pj buf len = (n, g', m') ->
      pipe_step pi (g, w, r) (g', w, r)
  | ps_open g w r pj e :
      pp_used (pipe_at (lxp_pipe_end_open g pj e) pi) = true ->
      pipe_step pi (g, w, r) (lxp_pipe_end_open g pj e, w, r)
  | ps_close g w r pj e :
      pp_used (pipe_at (lxp_pipe_end_close g pj e) pi) = true ->
      pipe_step pi (g, w, r) (lxp_pipe_end_close g pj e, w, r).

Definition stream_inv (pi : Z) (s : list lxp_pipe * list Z * list Z) : Prop :=
  let '(g, w, r) := s in
  pipes_wf g /\ pp_used (pipe_at g pi) = true /\ map u8 w = w /\ w = r ++ pipe_bytes g pi.

Lemma map_u8_take n m a k : map u8 (take n (mem_read m a k)) = take n (mem_read m a k).
Proof. by rewrite <- firstn_map, map_u8_mem_read. Qed.

Lemma pipe_bytes_ext g g' pi : pipe_at g' pi = pipe_at g pi -> pipe_bytes g' pi = pipe_bytes g pi.
Proof. unfold pipe_bytes. by intros ->. Qed.

Lemma stream_step pi s s' :
  0 <= pi < LXP_NPIPE -> pipe_step pi s s' -> stream_inv pi s -> stream_inv pi s'.
Proof.
  intros Hi Hs Hinv. destruct Hs as
    [g w r m buf len n g' Hl E|g w r m buf len n g' m' Hl E|g w r m pj buf len n g' Hj Hne Hl E
    |g w r m pj buf len n g' m' Hj Hne Hl E|g w r pj e Hu'|g w r pj e Hu'];
    destruct Hinv as (Hwf & Hu & Hb & Hw); unfold stream_inv.
  - pose proof (try_write_spec g m pi buf len Hwf Hi Hl) as H. rewrite E in H.
    destruct H as (H1 & _ & H2 & [(_ & -> & ->)|[(_ & _ & -> & ->)|(_ & _ & Hn & H3)]]).
    + rewrite app_nil_r. by split_and!.
    + rewrite app_nil_r. by split_and!.
    + split_and!; [done|congruence| |].
      * by rewrite map_app, Hb, map_u8_take.
      * by rewrite H3, app_assoc, <- Hw.
  - pose proof (try_read_spec g m pi buf len Hwf Hi Hl) as H. rewrite E in H.
    destruct H as (H1 & _ & H2 & [(Hq & -> & -> & ->)|(_ & Hn & -> & H3)]).
    + replace (Z.to_nat _) with 0%nat by (destruct (_ >? 0); reflexivity).
      simpl. rewrite app_nil_r. by split_and!.
    + split_and!; [done|congruence|done|]. rewrite H3.
      assert (HL : length (take (Z.to_nat n) (pipe_bytes g pi)) = Z.to_nat n)
        by (rewrite length_take; unfold alen in Hn; lia).
      pose proof (mem_read_write_same m buf (take (Z.to_nat n) (pipe_bytes g pi))) as HM.
      rewrite HL in HM. rewrite HM.
      assert (Hbq : map u8 (pipe_bytes g pi) = pipe_bytes g pi)
        by (rewrite Hw, map_app in Hb; by apply app_inj_2 in Hb as [_ ?]; rewrite ?length_map).
      by rewrite <- firstn_map, Hbq, <- app_assoc, take_drop.
  - pose proof (try_write_spec g m pj buf len Hwf Hj Hl) as H. rewrite E in H.
    destruct H as (H1 & H2 & _). specialize (H2 pi ltac:(lia) ltac:(done)).
    split_and!; [done|by rewrite H2|done|]. by rewrite (pipe_bytes_ext g).
  - pose proof (try_read_spec g m pj buf len Hwf Hj Hl) as H. rewrite E in H.
    destruct H as (H1 & H2 & _). specialize (H2 pi ltac:(lia) ltac:(done)).
    split_and!; [done|by rewrite H2|done|]. by rewrite (pipe_bytes_ext g).
  - destruct (end_change_spec g pj lxp_pipe_end_open e) as [H1 H2]; [by left|done|].
    split_and!; try done. by rewrite H2 by (done || lia).
  - destruct (end_change_spec g pj lxp_pipe_end_close e) as [H1 H2]; [by right|done|].
    split_and!; try done. by rewrite H2 by (done || lia).
Qed.

(** C36: A pipe is a byte stream: from its allocation on, through any interleaving of reads
    and writes of any length on any pipes and of end openings and closings that keep it
    in use, the bytes written to it are the bytes read from it followed by the bytes it
    still holds, in order, none lost, duplicated or altered. *)
Theorem pipe_stream_integrity g0 pi g1 g w r :
  pipes_wf g0 -> lxp_pipe_alloc g0 = (pi, g1) -> 0 <= pi ->
  rtc (pipe_step pi) (g1, [], []) (g, w, r) ->
  w = r ++ pipe_bytes g pi /\ pipes_wf g.
Proof.
  intros Hwf Ha Hpi Hs. unfold lxp_pipe_alloc in Ha.
  destruct (find_first _ g0) as [i|] eqn:E; [|injection Ha as <- _; lia].
  apply (find_first_some pipe_zero) in E as (Hi & _). injection Ha as -> <-.
  destruct Hwf as [Hl Hf]. rewrite Hl in Hi.
  assert (H0 : stream_inv pi (aset g0 pi (pipe_init true), [], [])).
  { split_and!; [|by rewrite pipe_at_aset, decide_True by lia|done|].
    - apply pipes_wf_aset; [done|apply pipe_init_wf].
    - unfold pipe_bytes. rewrite pipe_at_aset, decide_True by lia. reflexivity. }
  revert H0. generalize (aset g0 pi (pipe_init true), @nil Z, @nil Z) Hs. clear -Hi.
  remember (g, w, r) as s' eqn:Es. intros s Hs H0. revert Es. induction Hs as [s|s s1 s2 H1 H2 IH].
  - intros ->. destruct H0 as (? & _ & _ & ?). done.
  - apply IH. by eapply stream_step.
Qed.

Definition pipes_zero : list lxp_pipe := replicate (Z.to_nat LXP_NPIPE) pipe_zero.

Lemma pipes_zero_wf : pipes_wf pipes_zero.
Proof.
  split; [reflexivity|]. apply Forall_replicate. apply pipe_init_wf.
Qed.

Lemma pipe_stream_integrity_witness :
  let g1 := (lxp_pipe_alloc pipes_zero).2 in
  let g2 := lxp_pipe_end_open g1 0 false in
  let g3 := (lxp_pipe_try_write g2 (fun a => a) 0 65 3).2 in
  pipe_bytes g3 0 = [65; 66; 67].
Proof.
  intros g1 g2 g3.
  destruct (pipe_stream_integrity pipes_zero 0 g1 g3 [65; 66; 67] []) as [H _].
  - exact pipes_zero_wf.
  - reflexivity.
  - lia.
  - eapply rtc_l; [apply (ps_open 0 g1 [] [] 0 false); vm_compute; reflexivity|].
    apply rtc_once.
    apply (ps_write 0 g2 [] [] (fun a => a) 65 3 3 g3); [lia|vm_compute; reflexivity].
  - symmetry. exact H.
Defined.

(** poll(2) readiness is exact: a read end is reported readable iff a read would not
    block, a write end writable iff a write would not block (an error or end of file
    counts as not blocking). *)
Theorem pipe_poll_exact g m pi buf len :
  pipes_wf g -> 0 <= pi < LXP_NPIPE -> 0 <= len ->
  (lxp_pipe_poll g pi 0 = LXP_POLLIN <-> (lxp_pipe_try_read g m pi buf len).1.1 <> - LXP_EAGAIN) /\
  (lxp_pipe_poll g pi 1 = LXP_POLLOUT <-> (lxp_pipe_try_write g m pi buf len).1 <> - LXP_EAGAIN).
Proof.
  intros Hwf Hi Hl. pose proof (pipe_at_wf g pi Hwf) as ((_ & _ & _ & Hc & _) & _).
  pose proof (try_read_spec g m pi buf len Hwf Hi Hl) as HR.
  pose proof (try_write_spec g m pi buf len Hwf Hi Hl) as HW.
  destruct (lxp_pipe_try_read g m pi buf len) as [[r g1] m1]. destruct (lxp_pipe_try_write g m pi buf len) as [n g2].
  assert (HL : alen (pipe_bytes g pi) = pp_count (pipe_at g pi))
    by (unfold alen, pipe_bytes; rewrite length_ring_view; lia).
  unfold lxp_pipe_poll, LXP_POLLIN, LXP_POLLOUT, LXP_EAGAIN, LXP_EPIPE in *. simpl. split.
  - destruct HR as (_ & _ & _ & [(Hq & _ & _ & ->)|(Hq & -> & _)]).
    + rewrite Hq in HL. unfold alen in HL. simpl in HL. rewrite <- HL. simpl.
      pose proof (pipe_at_wf g pi Hwf) as (_ & _ & Hw & _).
      destruct (Z.eqb_spec (pp_writers (pipe_at g pi)) 0), (Z.gtb_spec (pp_writers (pipe_at g pi)) 0); lia.
    + assert (0 < pp_count (pipe_at g pi)).
      { rewrite <- HL. unfold alen. destruct (pipe_bytes g pi); [done|simpl; lia]. }
      destruct (_ || _) eqn:E; lia.
  - destruct HW as (_ & _ & _ & [(H1 & -> & _)|[(H1 & H2 & -> & _)|(H1 & H2 & -> & _)]]);
      destruct (_ || _) eqn:E; lia.
Qed.

Lemma pipe_poll_exact_witness :
  pipes_wf pipes_zero /\ lxp_pipe_poll pipes_zero 0 0 = LXP_POLLIN.
Proof.
  split; [exact pipes_zero_wf|].
  apply (pipe_poll_exact pipes_zero (fun _ => 0) 0 0 1 pipes_zero_wf ltac:(vm_compute; split; congruence)
           ltac:(lia)). vm_compute. congruence.
Defined.
