(* ===== verification/Pool.v ===== *)
(** * Refcounted resource pools (src/proc/lxp_process.c)

    The five process resources are static pools of objects that lead with a reference
    count.  [RefCounted] is what such an object offers; the operations below are the
    code's allocation, sharing and release, and the lemmas state them against the list of
    owners: the count of an object is the number of owners that point to it, and an
    object without owners is all zero. *)

From S2P Require Import Prelude Config Proc.
Local Open Scope Z_scope.

Class RefCounted (T : Type) := {
  refs_of : T -> Z;
  with_refs : T -> Z -> T;
  zero_of : T;
  refs_with : forall x n, refs_of (with_refs x n) = n;
  refs_zero : refs_of zero_of = 0;
  with_with : forall x n k, with_refs (with_refs x n) k = with_refs x k;
  with_self : forall x, with_refs x (refs_of x) = x;
}.

#[export] Instance files_refcounted : RefCounted lxp_files.
Proof. refine {| refs_of := files_refs; with_refs := set_files_refs; zero_of := files_zero |};
  try reflexivity; intros []; reflexivity. Defined.

#[export] Instance fs_context_refcounted : RefCounted lxp_fs_context.
Proof. refine {| refs_of := fsc_refs; with_refs := set_fsc_refs; zero_of := fs_context_zero |};
  try reflexivity; intros []; reflexivity. Defined.

#[export] Instance sighand_refcounted : RefCounted lxp_sighand.
Proof. refine {| refs_of := sh_refs; with_refs := set_sh_refs; zero_of := sighand_zero |};
  try reflexivity; intros []; reflexivity. Defined.

#[export] Instance mm_refcounted : RefCounted lxp_mm.
Proof. refine {| refs_of := mm_refs; with_refs := set_mm_refs; zero_of := mm_zero |};
  try reflexivity; intros []; reflexivity. Defined.

#[export] Instance group_refcounted : RefCounted lxp_thread_group.
Proof. refine {| refs_of := tg_refs; with_refs := set_tg_refs; zero_of := group_zero |};
  try reflexivity; intros []; reflexivity. Defined.

Section Pool.
Context {T : Type} `{RefCounted T}.
Implicit Types (l : list T) (i : Z) (x : T) (ow : list (option Z)).

Definition item l i : T := aget zero_of l i.

(** The first object with no references, cleared and owned once. *)
Definition resource_new l : option (Z * list T) :=
  match find_first (fun x => refs_of x =? 0) l with
  | Some i => Some (i, aset l i (with_refs zero_of 1))
  | None => None
  end.

(** [item->refs++]. *)
Definition resource_share l i : list T := aset l i (with_refs (item l i) (refs_of (item l i) + 1)).

(** [if (item->refs > 0 && --item->refs == 0) memset(item, 0, ...)]. *)
Definition resource_put l i : list T :=
  let x := item l i in
  if refs_of x >? 0 then
    if refs_of x - 1 =? 0 then aset l i zero_of else aset l i (with_refs x (refs_of x - 1))
  else l.

(** ** Owners *)

(** How many of the owners point to object [i]. *)
Fixpoint owned ow i : Z :=
  match ow with
  | [] => 0
  | Some j :: t => (if j =? i then 1 else 0) + owned t i
  | None :: t => owned t i
  end.

Definition pool_inv l ow : Prop :=
  (forall i, 0 <= i < alen l ->
     refs_of (item l i) = owned ow i /\ (refs_of (item l i) = 0 -> item l i = zero_of)) /\
  (forall i, Some i ∈ ow -> 0 <= i < alen l).

Lemma owned_nonneg ow i : 0 <= owned ow i.
Proof. induction ow as [|[j|] t IH]; simpl; [lia| |done]. case_match; lia. Qed.

Lemma owned_pos ow i : Some i ∈ ow -> 0 < owned ow i.
Proof.
  induction ow as [|o t IH]; [by intros ?%not_elem_of_nil|]. intros [<-|Hi]%elem_of_cons; simpl.
  - rewrite Z.eqb_refl. pose proof (owned_nonneg t i). lia.
  - apply IH in Hi. destruct o; [case_match; lia|done].
Qed.

Lemma owned_permutation ow ow' i : ow ≡ₚ ow' -> owned ow i = owned ow' i.
Proof. induction 1 as [|[x|] ?? _ IH|[x|] [y|] t|]; simpl; lia. Qed.

#[global] Instance pool_inv_proper l : Proper ((≡ₚ) ==> iff) (pool_inv l).
Proof.
  intros ow ow' HP. unfold pool_inv.
  setoid_rewrite (owned_permutation ow ow' _ HP). by setoid_rewrite HP.
Qed.

Lemma item_aset l i j x :
  0 <= i < alen l -> 0 <= j -> item (aset l i x) j = if decide (i = j) then x else item l j.
Proof. intros. unfold item. by rewrite aget_aset. Qed.

(** Dropping an owner that points nowhere changes nothing. *)
Lemma pool_inv_none l ow : pool_inv l (None :: ow) <-> pool_inv l ow.
Proof.
  unfold pool_inv. simpl. split; intros [H1 H2]; (split; [done|]); intros i Hi; apply H2.
  - by apply elem_of_cons; right.
  - by apply elem_of_cons in Hi as [|].
Qed.

(** Rewriting an object's contents with the same count. *)
Lemma pool_inv_update l ow i x :
  0 <= i < alen l -> 0 < refs_of (item l i) -> refs_of x = refs_of (item l i) ->
  pool_inv l ow -> pool_inv (aset l i x) ow.
Proof.
  intros Hi Hp Hr [H1 H2]. split; rewrite alen_aset; [|done]. intros j Hj.
  rewrite item_aset by lia. destruct (decide (i = j)) as [<-|]; [|by apply H1].
  rewrite Hr. split; [by apply H1|lia].
Qed.

Lemma resource_new_inv l ow i l' :
  resource_new l = Some (i, l') -> pool_inv l ow ->
  0 <= i < alen l /\ l' = aset l i (with_refs zero_of 1) /\ item l i = zero_of /\
  owned ow i = 0 /\ pool_inv l' (Some i :: ow).
Proof.
  intros E [H1 H2]. unfold resource_new in E.
  destruct (find_first _ l) as [k|] eqn:Ef; [|done]. injection E as -> <-.
  apply (find_first_some zero_of) in Ef as (Hi & Hz%Z.eqb_eq & _). fold (item l i) in Hz.
  destruct (H1 i Hi) as [Ho Hzero]. split_and!; [lia|lia|done|by apply Hzero|congruence|].
  split; rewrite alen_aset.
  - intros j Hj. rewrite item_aset by lia. simpl. destruct (decide (i = j)) as [<-|Hne].
    + rewrite refs_with, Z.eqb_refl. split; [lia|lia].
    + destruct (Z.eqb_spec i j); [done|]. by apply H1.
  - intros j [[= ->]|Hj]%elem_of_cons; auto.
Qed.

(** An allocated object filled in by its owner. *)
Lemma new_filled_inv l ow i l' x :
  resource_new l = Some (i, l') -> pool_inv l ow -> refs_of x = 1 ->
  pool_inv (aset l i x) (Some i :: ow).
Proof.
  intros E HP Hx. destruct (resource_new_inv l ow i l' E HP) as (Hi & -> & _ & _ & HP').
  rewrite <- (aset_aset l i (with_refs zero_of 1)).
  apply pool_inv_update; [by rewrite alen_aset| | |done];
    rewrite item_aset, decide_True by lia; rewrite refs_with; lia.
Qed.

Lemma resource_share_inv l ow i :
  Some i ∈ ow -> pool_inv l ow -> pool_inv (resource_share l i) (Some i :: ow).
Proof.
  intros Hin [H1 H2]. pose proof (H2 i Hin) as Hi. pose proof (owned_pos ow i Hin).
  unfold resource_share. split; rewrite alen_aset.
  - intros j Hj. rewrite item_aset by lia. simpl. destruct (decide (i = j)) as [<-|Hne].
    + rewrite refs_with, Z.eqb_refl. destruct (H1 i Hi) as [-> _]. split; lia.
    + destruct (Z.eqb_spec i j); [done|]. by apply H1.
  - intros j [[= ->]|Hj]%elem_of_cons; auto.
Qed.

Lemma resource_put_inv l ow i :
  pool_inv l (Some i :: ow) -> pool_inv (resource_put l i) ow.
Proof.
  intros [H1 H2]. assert (Hi : 0 <= i < alen l) by (apply H2; by left).
  destruct (H1 i Hi) as [Hr _]. simpl in Hr. rewrite Z.eqb_refl in Hr.
  pose proof (owned_nonneg ow i). unfold resource_put.
  destruct (Z.gtb_spec (refs_of (item l i)) 0); [|lia].
  assert (Hother : forall x, (refs_of x = owned ow i /\ (refs_of x = 0 -> x = zero_of)) ->
            pool_inv (aset l i x) ow).
  { intros x Hx. split; rewrite alen_aset.
    - intros j Hj. rewrite item_aset by lia. destruct (decide (i = j)) as [<-|Hne]; [done|].
      destruct (H1 j Hj) as [Hrj Hz]. simpl in Hrj. destruct (Z.eqb_spec i j); [done|].
      split; [lia|done].
    - intros j Hj. apply H2. by right. }
  destruct (Z.eqb_spec (refs_of (item l i) - 1) 0); apply Hother.
  - rewrite refs_zero. split; [lia|done].
  - rewrite refs_with. split; [lia|lia].
Qed.

(** Releasing undoes sharing and allocation exactly. *)
Lemma put_share l ow i :
  Some i ∈ ow -> pool_inv l ow -> resource_put (resource_share l i) i = l.
Proof.
  intros Hin [H1 H2]. pose proof (H2 i Hin) as Hi. pose proof (owned_pos ow i Hin).
  destruct (H1 i Hi) as [Hr _]. unfold resource_put, resource_share.
  rewrite item_aset, decide_True, refs_with by lia.
  destruct (Z.gtb_spec (refs_of (item l i) + 1) 0); [|lia].
  destruct (Z.eqb_spec (refs_of (item l i) + 1 - 1) 0); [lia|].
  rewrite aset_aset, with_with. replace (refs_of (item l i) + 1 - 1) with (refs_of (item l i)) by lia.
  rewrite with_self. by apply aset_aget.
Qed.

Lemma put_owned_once l i x :
  0 <= i < alen l -> refs_of x = 1 -> item l i = zero_of -> resource_put (aset l i x) i = l.
Proof.
  intros Hi Hx Hz. unfold resource_put. rewrite item_aset, decide_True by lia. rewrite Hx. simpl.
  rewrite aset_aset, <- Hz. by apply aset_aget.
Qed.
End Pool.
