(* ===== verification/Fd.v ===== *)
(** * Descriptor tables and open-file descriptions (src/fs/lxp_fd.c)

    A descriptor table entry names an open-file description by its pool index plus one;
    the description counts the entries that name it, over all tables, and its backing
    object is released when the last one goes.  What a descriptor kind does is behind
    the [FileOps] interface (the file-operation table of src/fs/lxp_vfs.c): the theorems
    here hold for every implementation of it.

    [t] is the task's table ([proc->files]), [None] for NULL. *)

From S2P Require Import Prelude Config Proc Pool.
From stdpp Require Import relations.
Local Open Scope Z_scope.

(** The per-kind operations the descriptor layer calls, over the backing objects [B]. *)
Class FileOps (B : Type) := {
  fops_present : Z -> bool;              (* the kind has an operation table *)
  fops_close : B -> lxp_ofd -> B;        (* its [close], or nothing when it has none *)
  fops_node_open : B -> Z -> Z * B;      (* [lxp_wfs_open]: hold a writable node *)
  fops_node_close : B -> Z -> B;         (* [lxp_wfs_close]: release it *)
}.

Section Fd.
Context {B : Type} `{FileOps B}.
Implicit Types (k : kst) (b : B) (t : option Z) (fd : Z).

Definition ofd_at k i : lxp_ofd := aget ofd_zero (k_ofd k) i.
Definition entry k (ti fd : Z) : lxp_fd := aget fd_zero (files_fd (item (k_files k) ti)) fd.

(** Store a table entry. *)
Definition set_entry k (ti fd : Z) (e : lxp_fd) : kst :=
  let f := item (k_files k) ti in
  set_k_files k (aset (k_files k) ti (set_files_fd f (aset (files_fd f) fd e))).

Definition set_ofd k i (o : lxp_ofd) : kst := set_k_ofd k (aset (k_ofd k) i o).

(** The description a descriptor refers to, as a pool index. *)
Definition fd_lookup k t fd : option Z :=
  match t with
  | None => None
  | Some ti =>
      if (fd <? 0) || (fd >=? LXP_MAX_FDS) then None
      else let v := fd_ofd (entry k ti fd) in
           if (v =? 0) || (v >? LXP_MAX_OFD) then None
           else if ofd_refs (ofd_at k (v - 1)) =? 0 then None else Some (v - 1)
  end.

Definition lxp_fd_description k t fd : option Z := fd_lookup k t fd.

Definition lxp_fd_kind k t fd : Z :=
  match fd_lookup k t fd with Some o => ofd_kind (ofd_at k o) | None => LXP_FD_FREE end.

Definition lxp_fd_backing k t fd : Z :=
  match fd_lookup k t fd with Some o => ofd_file_idx (ofd_at k o) | None => -1 end.

Definition lxp_fd_open k t (kind backing offset flags : Z) : Z * kst :=
  match t with
  | None => (- LXP_EMFILE, k)
  | Some ti =>
      if (kind >=? LXP_FD_KIND_COUNT) || negb (fops_present kind) then (- LXP_EMFILE, k)
      else match find_first (fun o => ofd_refs o =? 0) (k_ofd k) with
           | None => (- LXP_EMFILE, k)
           | Some oi =>
               match find_first (fun e => fd_ofd e =? 0) (files_fd (item (k_files k) ti)) with
               | None => (- LXP_EMFILE, k)
               | Some fd =>
                   let o := mk_ofd 1 kind 0 (b2z (has flags LXP_O_NONBLOCK))
                              (u8 (Z.land flags LXP_O_ACCMODE)) backing offset in
                   (fd, set_entry (set_ofd k oi o) ti fd
                          (mk_fd (u16 (oi + 1)) (b2z (has flags LXP_O_CLOEXEC))))
               end
           end
  end.

(** Install (kind, idx) opened with [flags]; a writable node is held while it is open
    (src/sys/lxp_sys_fd.c). *)
Definition lxp_sys_fd_alloc k b t (kind idx off flags : Z) : Z * kst * B :=
  let '(rc, b) := if kind =? LXP_FD_TMPFS then fops_node_open b idx else (0, b) in
  if negb (rc =? 0) then (- LXP_EMFILE, k, b)
  else let '(fd, k) := lxp_fd_open k t kind idx off flags in
       (fd, k, if (fd <? 0) && (kind =? LXP_FD_TMPFS) then fops_node_close b idx else b).

Definition lxp_fd_install k b t (kind idx flags : Z) : Z * kst * B :=
  lxp_sys_fd_alloc k b t kind idx 0 flags.

Definition lxp_fd_set_end k t fd (end_ : Z) : Z * kst :=
  match fd_lookup k t fd with
  | None => (- LXP_EBADF, k)
  | Some o => (0, set_ofd k o (set_ofd_rw (ofd_at k o) (b2z (negb (end_ =? 0)))))
  end.

Definition lxp_fd_set_cloexec k t fd (enabled : Z) : Z * kst :=
  match t, fd_lookup k t fd with
  | Some ti, Some _ =>
      (0, set_entry k ti fd (mk_fd (fd_ofd (entry k ti fd)) (b2z (negb (enabled =? 0)))))
  | _, _ => (- LXP_EBADF, k)
  end.

Definition lxp_fd_get_cloexec k t fd : Z :=
  match t, fd_lookup k t fd with
  | Some ti, Some _ => b2z (negb (fd_cloexec (entry k ti fd) =? 0))
  | _, _ => - LXP_EBADF
  end.

Definition lxp_fd_free_count k t : Z :=
  match t with
  | None => 0
  | Some ti => alen (filter (fun e => fd_ofd e = 0) (files_fd (item (k_files k) ti)))
  end.

Definition lxp_fd_close k b t fd : Z * kst * B :=
  match t, fd_lookup k t fd with
  | Some ti, Some oi =>
      let k := set_entry k ti fd fd_zero in
      let o := set_ofd_refs (ofd_at k oi) (u16 (ofd_refs (ofd_at k oi) - 1)) in
      if ofd_refs o =? 0 then
        let b := if (ofd_kind o <? LXP_FD_KIND_COUNT) && fops_present (ofd_kind o)
                 then fops_close b o else b in
        (0, set_ofd k oi ofd_zero, b)
      else (0, set_ofd k oi o, b)
  | _, _ => (- LXP_EBADF, k, b)
  end.

(** [for (int fd = 0; fd < LXP_MAX_FDS; fd++)]. *)
Definition all_fds : list Z := seqZ 0 LXP_MAX_FDS.

Definition close_step t (s : kst * B) fd : kst * B :=
  let '(_, k, b) := lxp_fd_close s.1 s.2 t fd in (k, b).

(** [for (...) (void)lxp_fd_close(proc, fd);] *)
Definition close_every t (s : kst * B) : kst * B := foldl (close_step t) s all_fds.

Definition lxp_fd_close_all k b t : kst * B :=
  match t with None => (k, b) | Some _ => close_every t (k, b) end.

Definition cloexec_step t (s : kst * B) fd : kst * B :=
  if lxp_fd_get_cloexec s.1 t fd >? 0 then close_step t s fd else s.

Definition lxp_fd_close_on_exec k b t : kst * B :=
  match t with None => (k, b) | Some _ => foldl (cloexec_step t) (k, b) all_fds end.

Definition lxp_fd_runtime_reset k : kst :=
  set_k_ofd k (replicate (Z.to_nat LXP_MAX_OFD) ofd_zero).

(** [ofd->refs++] of the description of [fd], if any. *)
Definition retain_step t k fd : kst :=
  match fd_lookup k t fd with
  | Some o => set_ofd k o (set_ofd_refs (ofd_at k o) (u16 (ofd_refs (ofd_at k o) + 1)))
  | None => k
  end.

Definition refs_full k t fd : bool :=
  match fd_lookup k t fd with Some o => ofd_refs (ofd_at k o) =? UINT16_MAX | None => false end.

Definition lxp_fd_table_retain k t : Z * kst :=
  match t with
  | None => (-1, k)
  | Some _ => if existsb (refs_full k t) all_fds then (-1, k)
              else (0, foldl (retain_step t) k all_fds)
  end.

Definition fd_retain k (o : Z) : Z * kst :=
  if ofd_refs (ofd_at k o) =? UINT16_MAX then (-1, k)
  else (0, set_ofd k o (set_ofd_refs (ofd_at k o) (u16 (ofd_refs (ofd_at k o) + 1)))).

Definition lxp_fd_dup_to k b t (oldfd newfd cloexec : Z) : Z * kst * B :=
  match t, fd_lookup k t oldfd with
  | Some ti, Some o =>
      if (newfd <? 0) || (newfd >=? LXP_MAX_FDS) then (- LXP_EBADF, k, b)
      else if oldfd =? newfd then (newfd, k, b)
      else
        let old_ofd := fd_ofd (entry k ti oldfd) in
        let '(rc, k) := fd_retain k o in
        if negb (rc =? 0) then (- LXP_EMFILE, k, b)
        else
          let '(k, b) := if negb (fd_ofd (entry k ti newfd) =? 0)
                         then close_step t (k, b) newfd else (k, b) in
          (newfd, set_entry k ti newfd (mk_fd old_ofd (b2z (negb (cloexec =? 0)))), b)
  | _, _ => (- LXP_EBADF, k, b)
  end.

Definition lxp_fd_dup_min k t (oldfd minfd cloexec : Z) : Z * kst :=
  match t, fd_lookup k t oldfd with
  | Some ti, Some o =>
      if (minfd <? 0) || (minfd >=? LXP_MAX_FDS) then (- LXP_EMFILE, k)
      else match find_first (fun fd => fd_ofd (entry k ti fd) =? 0) (seqZ minfd (LXP_MAX_FDS - minfd)) with
           | None => (- LXP_EMFILE, k)
           | Some j =>
               let fd := minfd + j in
               let '(rc, k) := fd_retain k o in
               if negb (rc =? 0) then (- LXP_EMFILE, k)
               else (fd, set_entry k ti fd
                           (mk_fd (fd_ofd (entry k ti oldfd)) (b2z (negb (cloexec =? 0)))))
           end
  | _, _ => (- LXP_EBADF, k)
  end.
End Fd.
