(* ===== verification/FdSpec.v ===== *)
(** * Descriptor reference counts: invariant and preservation

    The central invariant of the descriptor layer: a description's count is the number of
    table entries that name it, and an unreferenced description is clear.  Operations that
    retain before they store an entry pass through states where the two differ; the
    invariant is therefore stated with a debt [d], the surplus of each count. *)

From S2P Require Import Prelude Config Proc Pool Fd.

Local Open Scope Z_scope.

(** ** Counting entries *)

Definition ind (b : bool) : Z := if b then 1 else 0.

Fixpoint cnt (l : list lxp_fd) (v : Z) : Z :=
  match l with [] => 0 | e :: t => ind (fd_ofd e =? v) + cnt t v end.

Fixpoint total_refs (fs : list lxp_files) (v : Z) : Z :=
  match fs with [] => 0 | f :: t => cnt (files_fd f) v + total_refs t v end.

Lemma cnt_app a b v : cnt (a ++ b) v = cnt a v + cnt b v.
Proof. induction a; simpl; lia. Qed.

Lemma total_app a b v : total_refs (a ++ b) v = total_refs a v + total_refs b v.
Proof. induction a; simpl; lia. Qed.

(** An array as the parts before and after an index. *)
Lemma aget_split {A} d (l : list A) i :
  0 <= i < alen l -> exists a b, l = a ++ aget d l i :: b /\ length a = Z.to_nat i.
Proof.
  intros Hi. apply (lookup_aget d) in Hi as Hl. apply list_elem_of_split_length in Hl as (a & b & E & Hlen).
  by exists a, b.
Qed.

Lemma aset_split {A} (a b : list A) x y i : length a = Z.to_nat i -> aset (a ++ x :: b) i y = a ++ y :: b.
Proof.
  intros Hl. unfold aset. rewrite <- Hl. rewrite insert_app_r_alt by lia. by rewrite Nat.sub_diag.
Qed.

Lemma cnt_aset l fd e v :
  0 <= fd < alen l ->
  cnt (aset l fd e) v = cnt l v - ind (fd_ofd (aget fd_zero l fd) =? v) + ind (fd_ofd e =? v).
Proof.
  intros Hi. destruct (aget_split fd_zero l fd Hi) as (a & b & E & Hl).
  set (x := aget fd_zero l fd) in *. clearbody x. subst l.
  rewrite aset_split by done. rewrite !cnt_app. simpl. lia.
Qed.

Lemma total_aset fs ti f v :
  0 <= ti < alen fs ->
  total_refs (aset fs ti f) v = total_refs fs v - cnt (files_fd (item fs ti)) v + cnt (files_fd f) v.
Proof.
  intros Hi. unfold item. destruct (aget_split zero_of fs ti Hi) as (a & b & E & Hl).
  set (x := aget zero_of fs ti) in *. clearbody x. subst fs.
  rewrite aset_split by done. rewrite !total_app. simpl. lia.
Qed.

Lemma cnt_bound l v : 0 <= cnt l v <= alen l.
Proof. induction l as [|e t IH]; unfold alen in *; simpl; [lia|]. destruct (_ =? _); simpl; lia. Qed.

Lemma total_nonneg fs v : 0 <= total_refs fs v.
Proof. induction fs as [|f t IH]; simpl; [lia|]. pose proof (cnt_bound (files_fd f) v). lia. Qed.

Lemma total_item fs ti v : 0 <= ti < alen fs -> cnt (files_fd (item fs ti)) v <= total_refs fs v.
Proof.
  intros Hi. unfold item. destruct (aget_split zero_of fs ti Hi) as (a & b & E & _).
  rewrite E at 2. rewrite total_app. simpl.
  pose proof (total_nonneg a v). pose proof (total_nonneg b v). lia.
Qed.

Lemma cnt_aget l fd v :
  0 <= fd < alen l -> fd_ofd (aget fd_zero l fd) = v -> 0 < cnt l v.
Proof.
  intros Hi Hv. destruct (aget_split fd_zero l fd Hi) as (a & b & E & _).
  rewrite E, cnt_app. simpl. rewrite Hv, Z.eqb_refl.
  pose proof (cnt_bound a v). pose proof (cnt_bound b v). simpl. lia.
Qed.

(** ** The invariant *)

Definition table_wf (f : lxp_files) : Prop :=
  alen (files_fd f) = LXP_MAX_FDS /\ Forall (fun e => 0 <= fd_ofd e <= LXP_MAX_OFD) (files_fd f).

Definition fd_inv_owing (k : kst) (d : Z -> Z) : Prop :=
  alen (k_ofd k) = LXP_MAX_OFD /\ alen (k_files k) = LXP_RESOURCE_POOL_COUNT /\
  Forall table_wf (k_files k) /\
  forall i, 0 <= i < LXP_MAX_OFD ->
    ofd_refs (ofd_at k i) = total_refs (k_files k) (i + 1) + d i /\
    (ofd_refs (ofd_at k i) = 0 -> ofd_at k i = ofd_zero).

Definition fd_inv (k : kst) : Prop := fd_inv_owing k (fun _ => 0).

(** The task's table is one of the pool. *)
Definition table_ok (k : kst) (t : option Z) : Prop :=
  match t with Some ti => 0 <= ti < alen (k_files k) | None => True end.

Lemma total_bound fs v : Forall table_wf fs -> total_refs fs v <= LXP_MAX_FDS * alen fs.
Proof.
  induction 1 as [|f t [Hf _] _ IH]; unfold alen in *; simpl; [lia|].
  pose proof (cnt_bound (files_fd f) v) as Hc. unfold alen in Hc. lia.
Qed.

Lemma item_table_wf k ti : Forall table_wf (k_files k) -> 0 <= ti < alen (k_files k) ->
  table_wf (item (k_files k) ti).
Proof.
  intros Hf Hi. rewrite Forall_forall in Hf. apply Hf. unfold item.
  eapply list_elem_of_lookup_2. by apply lookup_aget.
Qed.

Lemma ofd_at_set k i j o :
  0 <= i < alen (k_ofd k) -> 0 <= j ->
  ofd_at (set_ofd k i o) j = if decide (i = j) then o else ofd_at k j.
Proof. intros. unfold ofd_at, set_ofd. simpl. by rewrite aget_aset. Qed.

Lemma ofd_at_set_entry k ti fd e i : ofd_at (set_entry k ti fd e) i = ofd_at k i.
Proof. done. Qed.

Lemma entry_set_ofd k i o ti fd : entry (set_ofd k i o) ti fd = entry k ti fd.
Proof. done. Qed.

Lemma alen_files_set_entry k ti fd e : alen (k_files (set_entry k ti fd e)) = alen (k_files k).
Proof. unfold set_entry. simpl. by rewrite alen_aset. Qed.

Lemma entry_set_entry k ti fd e fd' :
  Forall table_wf (k_files k) -> 0 <= ti < alen (k_files k) -> 0 <= fd < LXP_MAX_FDS -> 0 <= fd' ->
  entry (set_entry k ti fd e) ti fd' = if decide (fd = fd') then e else entry k ti fd'.
Proof.
  intros Hf Hi Hfd Hfd'. unfold entry, set_entry. simpl. rewrite item_aset, decide_True by lia.
  destruct (item_table_wf k ti Hf Hi) as [Hl _].
  change (files_fd (set_files_fd _ ?l)) with l. rewrite aget_aset by (rewrite ?Hl; lia). done.
Qed.

(** Storing an entry moves one reference. *)
Lemma set_entry_inv k d ti fd e :
  fd_inv_owing k d -> 0 <= ti < alen (k_files k) -> 0 <= fd < LXP_MAX_FDS ->
  0 <= fd_ofd e <= LXP_MAX_OFD ->
  fd_inv_owing (set_entry k ti fd e)
    (fun i => d i + ind (fd_ofd (entry k ti fd) =? i + 1) - ind (fd_ofd e =? i + 1)).
Proof.
  intros (H1 & H2 & H3 & H4) Hti Hfd He. destruct (item_table_wf k ti H3 Hti) as [Hl Hent].
  split_and!; [done|by rewrite alen_files_set_entry| |].
  - unfold set_entry. simpl. apply Forall_aset; [done|]. split; simpl.
    + by rewrite alen_aset.
    + by apply Forall_aset.
  - intros i Hi. rewrite ofd_at_set_entry. destruct (H4 i Hi) as [Hr Hz]. split; [|done].
    unfold set_entry, entry. simpl. rewrite total_aset by done.
    change (files_fd (set_files_fd _ ?l)) with l. rewrite cnt_aset by lia. lia.
Qed.

(** Changing a count changes the debt. *)
Lemma set_ofd_inv k d o x :
  fd_inv_owing k d -> 0 <= o < LXP_MAX_OFD -> (ofd_refs x = 0 -> x = ofd_zero) ->
  fd_inv_owing (set_ofd k o x)
    (fun i => d i + (if decide (o = i) then ofd_refs x - ofd_refs (ofd_at k o) else 0)).
Proof.
  intros (H1 & H2 & H3 & H4) Ho Hx. split_and!; [|done|done|].
  - unfold set_ofd. simpl. by rewrite alen_aset.
  - intros i Hi. rewrite ofd_at_set by lia. destruct (H4 i Hi) as [Hr Hz].
    destruct (decide (o = i)) as [<-|]; [|split; [simpl; lia|done]]. split; [simpl; lia|done].
Qed.

Lemma fd_inv_owing_ext k d d' : (forall i, 0 <= i < LXP_MAX_OFD -> d i = d' i) ->
  fd_inv_owing k d -> fd_inv_owing k d'.
Proof.
  intros E (H1 & H2 & H3 & H4). split_and!; try done. intros i Hi. rewrite <- E by done. by apply H4.
Qed.

Lemma fd_lookup_some k t fd o :
  fd_lookup k t fd = Some o ->
  exists ti, t = Some ti /\ 0 <= fd < LXP_MAX_FDS /\ fd_ofd (entry k ti fd) = o + 1 /\
    o < LXP_MAX_OFD /\ ofd_refs (ofd_at k o) <> 0.
Proof.
  unfold fd_lookup. destruct t as [ti|]; [|done].
  destruct ((fd <? 0) || (fd >=? LXP_MAX_FDS)) eqn:E1; [done|].
  set (v := fd_ofd (entry k ti fd)). destruct ((v =? 0) || (v >? LXP_MAX_OFD)) eqn:E2; [done|].
  destruct (Z.eqb_spec (ofd_refs (ofd_at k (v - 1))) 0); [done|].
  intros [= <-]. exists ti. split_and!; try done; lia.
Qed.

(** Under the invariant, an entry is free or names a live description. *)
Lemma fd_lookup_entry k d ti fd :
  fd_inv_owing k d -> (forall i, 0 <= d i) -> 0 <= ti < alen (k_files k) -> 0 <= fd < LXP_MAX_FDS ->
  fd_lookup k (Some ti) fd =
  (if fd_ofd (entry k ti fd) =? 0 then None else Some (fd_ofd (entry k ti fd) - 1)) /\
  0 <= fd_ofd (entry k ti fd) <= LXP_MAX_OFD.
Proof.
  intros (H1 & H2 & H3 & H4) Hd Hti Hfd. destruct (item_table_wf k ti H3 Hti) as [Hl Hent].
  assert (Hv : 0 <= fd_ofd (entry k ti fd) <= LXP_MAX_OFD).
  { unfold entry. rewrite Forall_forall in Hent. apply Hent.
    eapply list_elem_of_lookup_2. apply (lookup_aget fd_zero). lia. }
  split; [|done]. unfold fd_lookup.
  destruct ((fd <? 0) || (fd >=? LXP_MAX_FDS)) eqn:E1; [lia|].
  destruct (Z.eqb_spec (fd_ofd (entry k ti fd)) 0); [done|]. simpl.
  destruct (Z.gtb_spec (fd_ofd (entry k ti fd)) LXP_MAX_OFD); [lia|].
  destruct (Z.eqb_spec (ofd_refs (ofd_at k (fd_ofd (entry k ti fd) - 1))) 0) as [E|]; [|done].
  exfalso. destruct (H4 (fd_ofd (entry k ti fd) - 1)) as [Hr _]; [lia|].
  rewrite E in Hr. replace (fd_ofd (entry k ti fd) - 1 + 1) with (fd_ofd (entry k ti fd)) in Hr by lia.
  pose proof (total_item (k_files k) ti (fd_ofd (entry k ti fd)) Hti).
  pose proof (cnt_aget (files_fd (item (k_files k) ti)) fd (fd_ofd (entry k ti fd)) ltac:(lia) eq_refl).
  specialize (Hd (fd_ofd (entry k ti fd) - 1)). lia.
Qed.

(** Under the invariant a descriptor names a description of the pool. *)
Lemma fd_lookup_live k d t fd o :
  fd_inv_owing k d -> (forall i, 0 <= d i <= LXP_MAX_FDS) -> table_ok k t -> fd_lookup k t fd = Some o ->
  exists ti, t = Some ti /\ 0 <= fd < LXP_MAX_FDS /\ fd_ofd (entry k ti fd) = o + 1 /\
    0 <= o < LXP_MAX_OFD /\ ofd_refs (ofd_at k o) <> 0.
Proof.
  intros HI Hd Ht El. pose proof El as (ti & -> & Hfd & He & Ho & Hr)%fd_lookup_some.
  destruct (fd_lookup_entry k d ti fd HI ltac:(intros; apply Hd) Ht Hfd) as [E Hv].
  exists ti. split_and!; try done; try lia. rewrite E in El.
  destruct (Z.eqb_spec (fd_ofd (entry k ti fd)) 0); [done|lia].
Qed.

(** Debts the operations run up: at most one per descriptor. *)
Definition small (d : Z -> Z) : Prop := forall i, 0 <= d i <= LXP_MAX_FDS.

(** Pool sizes keep every count far from the width of the field. *)
Lemma refs_range k d o :
  fd_inv_owing k d -> small d -> 0 <= o < LXP_MAX_OFD -> 0 <= ofd_refs (ofd_at k o) <= 1000.
Proof.
  intros (H1 & H2 & H3 & H4) Hd Ho. destruct (H4 o Ho) as [-> _].
  pose proof (total_bound (k_files k) (o + 1) H3) as Hb. pose proof (total_nonneg (k_files k) (o + 1)).
  rewrite H2 in Hb. specialize (Hd o).
  unfold LXP_RESOURCE_POOL_COUNT, LXP_NSLOT, LXP_NREG, LXP_MAX_FDS in *. lia.
Qed.

(** What no descriptor operation on another description touches. *)
Definition same_tables (k k' : kst) : Prop :=
  alen (k_files k') = alen (k_files k) /\
  (forall ti, files_refs (item (k_files k') ti) = files_refs (item (k_files k) ti)) /\
  k_fs_context k' = k_fs_context k /\ k_sighand k' = k_sighand k /\ k_mm k' = k_mm k /\
  k_groups k' = k_groups k.

Lemma same_tables_refl k : same_tables k k.
Proof. by unfold same_tables. Qed.

Lemma same_tables_trans k1 k2 k3 : same_tables k1 k2 -> same_tables k2 k3 -> same_tables k1 k3.
Proof.
  intros (A1 & A2 & A3 & A4 & A5 & A6) (B1 & B2 & B3 & B4 & B5 & B6).
  split_and!; congruence.
Qed.

Lemma same_tables_set_ofd k o x : same_tables k (set_ofd k o x).
Proof. by unfold same_tables. Qed.

Lemma same_tables_set_entry k ti fd e :
  0 <= ti < alen (k_files k) -> same_tables k (set_entry k ti fd e).
Proof.
  intros Hti. unfold same_tables. split_and!; try done; [apply alen_files_set_entry|].
  intros tj. unfold set_entry. simpl. unfold item, aget, aset, alen in *.
  rewrite !nth_lookup. destruct (decide (Z.to_nat ti = Z.to_nat tj)) as [<-|Hne].
  - rewrite list_lookup_insert_eq by lia. simpl.
    destruct (lookup_lt_is_Some_2 (k_files k) (Z.to_nat ti)) as [y Hy]; [lia|]. by rewrite Hy.
  - by rewrite list_lookup_insert_ne.
Qed.

#[export] Hint Resolve same_tables_refl same_tables_set_ofd same_tables_set_entry : fd.

Section Preservation.
Context {B : Type} `{FileOps B}.
Implicit Types (k : kst) (b : B) (t : option Z) (d : Z -> Z).

(** Closing: the entry is cleared; the description loses one reference, and with the last
    one it is released through its kind and cleared. *)
Lemma fd_close_spec k b d t fd :
  fd_inv_owing k d -> small d -> table_ok k t ->
  let '(rc, k', b') := lxp_fd_close k b t fd in
  fd_inv_owing k' d /\ same_tables k k' /\
  match t, fd_lookup k t fd with
  | Some ti, Some o =>
      rc = 0 /\ fd_lookup k' t fd = None /\
      (forall fd', 0 <= fd' -> fd' <> fd -> entry k' ti fd' = entry k ti fd') /\
      (forall j, 0 <= j -> j <> o -> ofd_at k' j = ofd_at k j) /\
      if ofd_refs (ofd_at k o) =? 1
      then ofd_at k' o = ofd_zero /\
           b' = (if (ofd_kind (ofd_at k o) <? LXP_FD_KIND_COUNT) && fops_present (ofd_kind (ofd_at k o))
                 then fops_close b (set_ofd_refs (ofd_at k o) 0) else b)
      else ofd_at k' o = set_ofd_refs (ofd_at k o) (ofd_refs (ofd_at k o) - 1) /\ b' = b
  | _, _ => rc = - LXP_EBADF /\ k' = k /\ b' = b
  end.
Proof.
  intros HI Hd Ht. unfold lxp_fd_close. destruct t as [ti|]; [|by split_and!; auto with fd].
  destruct (fd_lookup k (Some ti) fd) as [o|] eqn:El; [|by split_and!; auto with fd].
  destruct (fd_lookup_live k d (Some ti) fd o HI Hd Ht El) as (ti' & [= <-] & Hfd & He & Ho & Hr).
  simpl in Ht. pose proof (refs_range k d o HI Hd Ho) as Hrange.
  rewrite !ofd_at_set_entry. set (x := ofd_at k o) in *.
  pose proof (set_entry_inv k d ti fd fd_zero HI Ht Hfd ltac:(simpl; unfold LXP_MAX_OFD, LXP_NSLOT, LXP_NREG, LXP_MAX_FDS; lia)) as HE.
  set (k1 := set_entry k ti fd fd_zero) in *.
  assert (Hfin : forall y, (ofd_refs y = 0 -> y = ofd_zero) -> ofd_refs y = ofd_refs x - 1 ->
            let k' := set_ofd k1 o y in
            fd_inv_owing k' d /\ same_tables k k' /\ fd_lookup k' (Some ti) fd = None /\
            (forall fd', 0 <= fd' -> fd' <> fd -> entry k' ti fd' = entry k ti fd') /\
            (forall j, 0 <= j -> j <> o -> ofd_at k' j = ofd_at k j) /\ ofd_at k' o = y).
  { intros y Hy Hry k'. destruct HI as (H1 & H2 & H3 & H4).
    assert (Hk1 : alen (k_ofd k1) = LXP_MAX_OFD) by exact H1. split_and!.
    - eapply fd_inv_owing_ext; [|apply (set_ofd_inv k1 _ o y HE Ho Hy)].
      intros i Hi. rewrite He, Hry. change (ofd_at k1 o) with x.
      change (fd_ofd fd_zero) with 0. unfold ind.
      destruct (Z.eqb_spec (o + 1) (i + 1)), (decide (o = i)), (Z.eqb_spec 0 (i + 1)); lia.
    - apply same_tables_trans with k1; [by apply same_tables_set_entry|apply same_tables_set_ofd].
    - unfold fd_lookup. destruct (_ || _); [done|]. unfold k'. rewrite entry_set_ofd.
      unfold k1. rewrite entry_set_entry by (done || lia). by rewrite decide_True.
    - intros fd' Hf Hne. unfold k'. rewrite entry_set_ofd. unfold k1.
      rewrite entry_set_entry by (done || lia). by rewrite decide_False.
    - intros j Hj Hne. unfold k'. rewrite ofd_at_set by lia.
      by rewrite decide_False.
    - unfold k'. rewrite ofd_at_set by lia. by rewrite decide_True. }
  assert (Hu : u16 (ofd_refs x - 1) = ofd_refs x - 1) by (apply u16_small; lia).
  rewrite Hu. change (ofd_refs (set_ofd_refs x ?n)) with n. change (ofd_kind (set_ofd_refs x ?n)) with (ofd_kind x).
  destruct (Z.eqb_spec (ofd_refs x - 1) 0) as [E|E].
  - destruct (Hfin ofd_zero) as (F1 & F2 & F3 & F4 & F5 & F6); [done|simpl; lia|].
    destruct (Z.eqb_spec (ofd_refs x) 1); [|lia]. split_and!; try done. by rewrite E.
  - destruct (Hfin (set_ofd_refs x (ofd_refs x - 1))) as (F1 & F2 & F3 & F4 & F5 & F6); [done|done|].
    destruct (Z.eqb_spec (ofd_refs x) 1); [lia|]. by split_and!.
Qed.

Lemma max_ofd_val : LXP_MAX_OFD = 384.
Proof. reflexivity. Qed.

Lemma small_zero : small (fun _ => 0).
Proof. intros i. unfold LXP_MAX_FDS. lia. Qed.

(** Opening takes the first free description and the lowest free descriptor. *)
Lemma fd_open_spec k t kind backing offset flags :
  fd_inv k -> table_ok k t ->
  let '(rc, k') := lxp_fd_open k t kind backing offset flags in
  fd_inv k' /\ same_tables k k' /\
  ((rc = - LXP_EMFILE /\ k' = k) \/
   exists ti o, t = Some ti /\ 0 <= rc < LXP_MAX_FDS /\ fd_lookup k t rc = None /\
     (forall fd, 0 <= fd < rc -> fd_lookup k t fd <> None) /\
     fd_lookup k' t rc = Some o /\ ofd_refs (ofd_at k o) = 0 /\
     (forall fd, 0 <= fd -> fd <> rc -> entry k' ti fd = entry k ti fd) /\
     (forall j, 0 <= j -> j <> o -> ofd_at k' j = ofd_at k j) /\
     ofd_at k' o = mk_ofd 1 kind 0 (b2z (has flags LXP_O_NONBLOCK))
                     (u8 (Z.land flags LXP_O_ACCMODE)) backing offset).
Proof.
  intros HI Ht. unfold lxp_fd_open. destruct t as [ti|]; [|by auto with fd].
  destruct (_ || _); [by auto with fd|].
  destruct (find_first _ (k_ofd k)) as [o|] eqn:Eo; [|by auto with fd].
  destruct (find_first _ (files_fd _)) as [fd|] eqn:Ef; [|by auto with fd].
  pose proof HI as (H1 & H2 & H3 & H4). simpl in Ht. destruct (item_table_wf k ti H3 Ht) as [Hl _].
  apply (find_first_some ofd_zero) in Eo as (Ho & Hr%Z.eqb_eq & _). fold (ofd_at k o) in Hr.
  apply (find_first_some fd_zero) in Ef as (Hfd & He%Z.eqb_eq & Hmin).
  fold (entry k ti fd) in He. rewrite Hl in Hfd. rewrite H1 in Ho.
  set (x := mk_ofd 1 _ _ _ _ _ _). set (k1 := set_ofd k o x).
  assert (Hk1 : fd_inv_owing k1 (fun i => if decide (o = i) then 1 else 0)).
  { eapply fd_inv_owing_ext; [|apply (set_ofd_inv k (fun _ => 0) o x HI Ho)]; [|done].
    intros i Hi. rewrite Hr. simpl. destruct (decide (o = i)); lia. }
  assert (Hu : u16 (o + 1) = o + 1) by (apply u16_small; rewrite max_ofd_val in Ho; lia).
  rewrite Hu. set (e := mk_fd (o + 1) _). set (k2 := set_entry k1 ti fd e).
  assert (Hk2 : fd_inv k2).
  { eapply fd_inv_owing_ext; [|apply (set_entry_inv k1 _ ti fd e Hk1 Ht Hfd)]; [|simpl; lia].
    intros i Hi. change (entry k1 ti fd) with (entry k ti fd). rewrite He. unfold ind, e. cbn [fd_ofd].
    destruct (decide (o = i)), (Z.eqb_spec 0 (i + 1)), (Z.eqb_spec (o + 1) (i + 1)); lia. }
  assert (Hent : forall fd', 0 <= fd' -> entry k2 ti fd' = if decide (fd = fd') then e else entry k ti fd').
  { intros fd' Hf. unfold k2. rewrite entry_set_entry by (done || lia). done. }
  assert (Hlow : forall fd', 0 <= fd' < fd -> fd_lookup k (Some ti) fd' <> None).
  { intros fd' Hf. destruct (fd_lookup_entry k _ ti fd' HI ltac:(intros; lia) Ht ltac:(lia)) as [-> _].
    specialize (Hmin fd' Hf). fold (entry k ti fd') in Hmin. by rewrite Hmin. }
  split_and!; [done| |].
  - apply same_tables_trans with k1; [apply same_tables_set_ofd|by apply same_tables_set_entry].
  - right. exists ti, o. split_and!; try done; try lia.
    + unfold fd_lookup. destruct (_ || _); [done|]. by rewrite He.
    + assert (Ht2 : 0 <= ti < alen (k_files k2)) by (unfold k2; by rewrite alen_files_set_entry).
      destruct (fd_lookup_entry k2 _ ti fd Hk2 ltac:(intros; lia) Ht2 Hfd) as [-> _].
      rewrite Hent, decide_True by lia. unfold e. cbn [fd_ofd].
      destruct (Z.eqb_spec (o + 1) 0); [lia|]. f_equal. lia.
    + intros fd' Hf Hne. rewrite Hent by lia. by rewrite decide_False.
    + intros j Hj Hne. unfold k2. rewrite ofd_at_set_entry. unfold k1. rewrite ofd_at_set by lia.
      by rewrite decide_False.
    + unfold k2. rewrite ofd_at_set_entry. unfold k1. rewrite ofd_at_set by lia. by rewrite decide_True.
Qed.

(** Retaining one description. *)
Lemma fd_retain_spec k d o :
  fd_inv_owing k d -> small d -> 0 <= o < LXP_MAX_OFD -> ofd_refs (ofd_at k o) <> 0 ->
  exists k', fd_retain k o = (0, k') /\ same_tables k k' /\
    (forall ti fd, entry k' ti fd = entry k ti fd) /\
    (forall j, 0 <= j -> ofd_at k' j = if decide (o = j) then set_ofd_refs (ofd_at k o) (ofd_refs (ofd_at k o) + 1)
                                      else ofd_at k j) /\
    fd_inv_owing k' (fun i => d i + if decide (o = i) then 1 else 0).
Proof.
  intros HI Hd Ho Hr. pose proof (refs_range k d o HI Hd Ho) as Hrange. unfold fd_retain, UINT16_MAX.
  destruct (Z.eqb_spec (ofd_refs (ofd_at k o)) (2 ^ 16 - 1)); [lia|].
  rewrite u16_small by lia. eexists. split; [reflexivity|]. split_and!; try done.
  - intros j Hj. pose proof HI as (H1 & _). apply ofd_at_set; lia.
  - eapply fd_inv_owing_ext; [|apply set_ofd_inv; [done|done|]]; [|simpl; lia].
    intros i Hi. cbn beta. change (ofd_refs (set_ofd_refs ?x ?n)) with n. destruct (decide (o = i)); lia.
Qed.

(** Storing the retained description in a free entry settles the debt. *)
Lemma settle_spec k ti fd o c :
  fd_inv_owing k (fun i => if decide (o = i) then 1 else 0) ->
  0 <= ti < alen (k_files k) -> 0 <= fd < LXP_MAX_FDS -> 0 <= o < LXP_MAX_OFD ->
  fd_ofd (entry k ti fd) = 0 ->
  let k' := set_entry k ti fd (mk_fd (o + 1) c) in
  fd_inv k' /\ fd_lookup k' (Some ti) fd = Some o /\
  forall fd', 0 <= fd' -> fd' <> fd -> entry k' ti fd' = entry k ti fd'.
Proof.
  intros HI Ht Hfd Ho He k'. pose proof HI as (H1 & H2 & H3 & H4).
  assert (HI' : fd_inv k').
  { eapply fd_inv_owing_ext; [|apply (set_entry_inv k _ ti fd _ HI Ht Hfd)]; [|simpl; lia].
    intros i Hi. rewrite He. unfold ind. cbn [fd_ofd].
    destruct (decide (o = i)), (Z.eqb_spec 0 (i + 1)), (Z.eqb_spec (o + 1) (i + 1)); lia. }
  assert (Hent : forall fd', 0 <= fd' -> entry k' ti fd' = if decide (fd = fd') then mk_fd (o + 1) c else entry k ti fd')
    by (intros; by apply entry_set_entry).
  split_and!; [done| |].
  - assert (Ht' : 0 <= ti < alen (k_files k')) by (unfold k'; by rewrite alen_files_set_entry).
    destruct (fd_lookup_entry k' _ ti fd HI' ltac:(intros; lia) Ht' Hfd) as [-> _].
    rewrite Hent, decide_True by lia. cbn [fd_ofd]. destruct (Z.eqb_spec (o + 1) 0); [lia|]. f_equal. lia.
  - intros fd' Hf Hne. rewrite Hent by done. by rewrite decide_False.
Qed.

(** A descriptor's lookup depends on its entry only. *)
Lemma fd_lookup_same k k' ti fd :
  fd_inv k -> fd_inv k' -> same_tables k k' -> 0 <= ti < alen (k_files k) -> 0 <= fd < LXP_MAX_FDS ->
  entry k' ti fd = entry k ti fd -> fd_lookup k' (Some ti) fd = fd_lookup k (Some ti) fd.
Proof.
  intros HI HI' (Hl & _) Ht Hfd He.
  destruct (fd_lookup_entry k _ ti fd HI ltac:(intros; lia) Ht Hfd) as [-> _].
  destruct (fd_lookup_entry k' _ ti fd HI' ltac:(intros; lia) ltac:(by rewrite Hl) Hfd) as [-> _].
  by rewrite He.
Qed.

Lemma one_debt_small o : small (fun i => if decide (o = i) then 1 else 0).
Proof. intros i. unfold LXP_MAX_FDS. case_decide; lia. Qed.

(** The debt of one retained description, from a balanced state. *)
Lemma retain_one k o :
  fd_inv k -> 0 <= o < LXP_MAX_OFD -> ofd_refs (ofd_at k o) <> 0 ->
  exists k', fd_retain k o = (0, k') /\ same_tables k k' /\
    (forall ti fd, entry k' ti fd = entry k ti fd) /\
    fd_inv_owing k' (fun i => if decide (o = i) then 1 else 0).
Proof.
  intros HI Ho Hr.
  destruct (fd_retain_spec k _ o HI small_zero Ho Hr) as (k' & E1 & E2 & E3 & _ & E5).
  exists k'. split_and!; try done.
Qed.

Lemma fd_dup_to_spec k b t oldfd newfd cloexec :
  fd_inv k -> table_ok k t ->
  let '(rc, k', b') := lxp_fd_dup_to k b t oldfd newfd cloexec in
  fd_inv k' /\ same_tables k k' /\
  match fd_lookup k t oldfd with
  | Some o => if (newfd <? 0) || (newfd >=? LXP_MAX_FDS) then rc = - LXP_EBADF /\ k' = k /\ b' = b
              else rc = newfd /\ fd_lookup k' t newfd = Some o /\ fd_lookup k' t oldfd = Some o
  | None => rc = - LXP_EBADF /\ k' = k /\ b' = b
  end.
Proof.
  intros HI Ht. unfold lxp_fd_dup_to. destruct t as [ti|]; [|by auto with fd].
  destruct (fd_lookup k (Some ti) oldfd) as [o|] eqn:El; [|by auto with fd].
  destruct ((newfd <? 0) || (newfd >=? LXP_MAX_FDS)) eqn:En; [by auto with fd|].
  destruct (Z.eqb_spec oldfd newfd) as [->|Hne]; [by auto with fd|].
  destruct (fd_lookup_live k _ _ oldfd o HI small_zero Ht El) as (ti' & [= <-] & Hfd & He & Ho & Hr).
  simpl in Ht. destruct (retain_one k o HI Ho Hr) as (k1 & E1 & T1 & N1 & I1).
  rewrite E1. cbn [negb Z.eqb]. pose proof (one_debt_small o) as Hsm.
  assert (Ht1 : 0 <= ti < alen (k_files k1)) by (destruct T1 as (-> & _); done).
  assert (Hmid : exists k2 b2,
    (if negb (fd_ofd (entry k1 ti newfd) =? 0) then close_step (Some ti) (k1, b) newfd else (k1, b)) = (k2, b2) /\
    fd_inv_owing k2 (fun i => if decide (o = i) then 1 else 0) /\ same_tables k1 k2 /\
    fd_ofd (entry k2 ti newfd) = 0 /\ entry k2 ti oldfd = entry k1 ti oldfd).
  { destruct (Z.eqb_spec (fd_ofd (entry k1 ti newfd)) 0) as [Ez|Ez]; cbn [negb].
    { exists k1, b. split_and!; auto with fd. }
    unfold close_step. cbn [fst snd]. pose proof (fd_close_spec k1 b _ (Some ti) newfd I1 Hsm Ht1) as HC.
    destruct (lxp_fd_close k1 b (Some ti) newfd) as [[rc k2] b2]. exists k2, b2.
    destruct HC as (I2 & T2 & HC).
    destruct (fd_lookup_entry k1 _ ti newfd I1 ltac:(intros; apply Hsm) Ht1 ltac:(lia)) as [EL _].
    rewrite EL, (proj2 (Z.eqb_neq _ _) Ez) in HC. destruct HC as (_ & HN & HE & _).
    split; [done|]. split; [done|]. split; [done|]. split; [|apply HE; lia].
    destruct (fd_lookup_entry k2 _ ti newfd I2 ltac:(intros; apply Hsm) ltac:(destruct T2 as (-> & _); done) ltac:(lia)) as [EL2 _].
    rewrite EL2 in HN. by destruct (Z.eqb_spec (fd_ofd (entry k2 ti newfd)) 0). }
  destruct Hmid as (k2 & b2 & -> & I2 & T2 & Ez & Eo). rewrite He.
  assert (Ht2 : 0 <= ti < alen (k_files k2)) by (destruct T2 as (-> & _); done).
  destruct (settle_spec k2 ti newfd o (b2z (negb (cloexec =? 0))) I2 Ht2 ltac:(lia) Ho Ez) as (F1 & F2 & F3).
  set (k3 := set_entry _ _ _ _) in *.
  assert (T3 : same_tables k k3).
  { apply same_tables_trans with k1; [done|]. apply same_tables_trans with k2; [done|].
    by apply same_tables_set_entry. }
  split_and!; try done. rewrite <- El. apply fd_lookup_same; try done.
  rewrite F3 by lia. by rewrite Eo, N1.
Qed.

(** A refusal leaves the state alone. *)
Ltac fails := split; [done|split; [auto with fd|left; split; [reflexivity|done]]].

Lemma fd_dup_min_spec k t oldfd minfd cloexec :
  fd_inv k -> table_ok k t ->
  let '(rc, k') := lxp_fd_dup_min k t oldfd minfd cloexec in
  fd_inv k' /\ same_tables k k' /\
  ((rc < 0 /\ k' = k) \/
   (minfd <= rc < LXP_MAX_FDS /\ fd_lookup k t rc = None /\
    (forall fd, minfd <= fd < rc -> fd_lookup k t fd <> None) /\
    fd_lookup k' t rc = fd_lookup k t oldfd /\ fd_lookup k' t oldfd = fd_lookup k t oldfd)).
Proof.
  intros HI Ht. unfold lxp_fd_dup_min. destruct t as [ti|]; [|fails].
  destruct (fd_lookup k (Some ti) oldfd) as [o|] eqn:El; [|fails].
  destruct ((minfd <? 0) || (minfd >=? LXP_MAX_FDS)) eqn:En; [fails|].
  destruct (find_first _ _) as [j|] eqn:Ef; [|fails].
  destruct (fd_lookup_live k _ _ oldfd o HI small_zero Ht El) as (ti' & [= <-] & Hfd & He & Ho & Hr).
  simpl in Ht. destruct (retain_one k o HI Ho Hr) as (k1 & E1 & T1 & N1 & I1).
  rewrite E1. cbn [negb Z.eqb].
  assert (Ht1 : 0 <= ti < alen (k_files k1)) by (destruct T1 as (-> & _); done).
  apply (find_first_some 0) in Ef as (Hj & Hz & Hmin).
  unfold alen in Hj. rewrite length_seqZ in Hj.
  assert (Hseq : forall i, 0 <= i < LXP_MAX_FDS - minfd -> aget 0 (seqZ minfd (LXP_MAX_FDS - minfd)) i = minfd + i).
  { intros i Hi. apply aget_lookup. rewrite lookup_seqZ. lia. }
  rewrite Hseq in Hz by lia. apply Z.eqb_eq in Hz. rewrite N1, He.
  destruct (settle_spec k1 ti (minfd + j) o (b2z (negb (cloexec =? 0))) I1 Ht1 ltac:(lia) Ho
              ltac:(by rewrite N1)) as (F1 & F2 & F3).
  set (k3 := set_entry _ _ _ _) in *.
  assert (T3 : same_tables k k3)
    by (apply same_tables_trans with k1; [done|by apply same_tables_set_entry]).
  assert (HL : forall fd, 0 <= fd < LXP_MAX_FDS -> fd_lookup k (Some ti) fd = None <-> fd_ofd (entry k ti fd) = 0).
  { intros fd Hf. destruct (fd_lookup_entry k _ ti fd HI ltac:(intros; lia) Ht Hf) as [-> _].
    destruct (Z.eqb_spec (fd_ofd (entry k ti fd)) 0); split; done. }
  split_and!; try done. right. split_and!; try lia.
  - apply HL; [lia|done].
  - intros fd Hf Hnone. apply HL in Hnone; [|lia].
    specialize (Hmin (fd - minfd) ltac:(lia)). rewrite Hseq in Hmin by lia.
    replace (minfd + (fd - minfd)) with fd in Hmin by lia. lia.
  - done.
  - rewrite <- El. apply fd_lookup_same; try done. rewrite F3; [by rewrite N1|lia|].
    intros ->. rewrite Hz in He. lia.
Qed.

(** An entry that is free stays free, and the closed one becomes free. *)
Lemma close_step_spec k b d ti fd :
  fd_inv_owing k d -> small d -> 0 <= ti < alen (k_files k) -> 0 <= fd < LXP_MAX_FDS ->
  let '(k', b') := close_step (Some ti) (k, b) fd in
  fd_inv_owing k' d /\ same_tables k k' /\ fd_ofd (entry k' ti fd) = 0 /\
  forall fd', 0 <= fd' < LXP_MAX_FDS -> fd_ofd (entry k ti fd') = 0 -> fd_ofd (entry k' ti fd') = 0.
Proof.
  intros HI Hd Ht Hfd. unfold close_step. cbn [fst snd].
  pose proof (fd_close_spec k b d (Some ti) fd HI Hd Ht) as HC.
  destruct (lxp_fd_close k b (Some ti) fd) as [[rc k'] b']. destruct HC as (I' & T' & HC).
  assert (Hfree : forall k2 fd', fd_inv_owing k2 d -> 0 <= ti < alen (k_files k2) ->
            0 <= fd' < LXP_MAX_FDS -> fd_lookup k2 (Some ti) fd' = None -> fd_ofd (entry k2 ti fd') = 0).
  { intros k2 fd' I2 Ht2 Hf HN.
    destruct (fd_lookup_entry k2 d ti fd' I2 ltac:(intros; apply Hd) Ht2 Hf) as [E _].
    rewrite E in HN. by destruct (Z.eqb_spec (fd_ofd (entry k2 ti fd')) 0). }
  assert (Ht' : 0 <= ti < alen (k_files k')) by (destruct T' as (-> & _); done).
  destruct (fd_lookup k (Some ti) fd) as [o|] eqn:El.
  - destruct HC as (_ & HN & HE & _). split_and!; try done; [by apply Hfree|].
    intros fd' Hf Hz. destruct (decide (fd' = fd)) as [->|]; [by apply Hfree|]. by rewrite HE by lia.
  - destruct HC as (_ & -> & _). split_and!; try done. by apply Hfree.
Qed.

Lemma close_fold_spec d ti fds : small d -> Forall (fun fd => 0 <= fd < LXP_MAX_FDS) fds ->
  forall k b, fd_inv_owing k d -> 0 <= ti < alen (k_files k) ->
  let '(k', b') := foldl (close_step (Some ti)) (k, b) fds in
  fd_inv_owing k' d /\ same_tables k k' /\
  forall fd, 0 <= fd < LXP_MAX_FDS -> fd ∈ fds \/ fd_ofd (entry k ti fd) = 0 -> fd_ofd (entry k' ti fd) = 0.
Proof.
  intros Hd Hf. induction Hf as [|fd fds Hfd _ IH]; intros k b HI Ht; cbn [foldl].
  - split_and!; auto with fd. by intros fd Hr [?%not_elem_of_nil|].
  - pose proof (close_step_spec k b d ti fd HI Hd Ht Hfd) as HS.
    destruct (close_step (Some ti) (k, b) fd) as [k1 b1]. destruct HS as (I1 & T1 & Z1 & Z2).
    assert (Ht1 : 0 <= ti < alen (k_files k1)) by (destruct T1 as (-> & _); done).
    specialize (IH k1 b1 I1 Ht1). destruct (foldl _ (k1, b1) fds) as [k2 b2].
    destruct IH as (I2 & T2 & Z3). split_and!; [done|by eapply same_tables_trans|].
    intros fd' Hr Hin. apply Z3; [done|]. destruct Hin as [[->|Hin]%elem_of_cons|Hz]; auto.
Qed.

Lemma all_fds_range : Forall (fun fd => 0 <= fd < LXP_MAX_FDS) all_fds.
Proof.
  unfold all_fds. apply Forall_forall. intros fd Hfd%elem_of_seqZ. lia.
Qed.

Lemma close_every_spec k b d ti :
  fd_inv_owing k d -> small d -> 0 <= ti < alen (k_files k) ->
  let '(k', b') := close_every (Some ti) (k, b) in
  fd_inv_owing k' d /\ same_tables k k' /\
  forall fd, 0 <= fd < LXP_MAX_FDS -> fd_ofd (entry k' ti fd) = 0.
Proof.
  intros HI Hd Ht. unfold close_every.
  pose proof (close_fold_spec d ti all_fds Hd all_fds_range k b HI Ht) as HF.
  destruct (foldl _ (k, b) all_fds) as [k' b']. destruct HF as (F1 & F2 & F3).
  split_and!; try done. intros fd Hfd. apply F3; [done|]. left. apply elem_of_seqZ. lia.
Qed.

Lemma fd_close_on_exec_inv k b t :
  fd_inv k -> table_ok k t ->
  fd_inv (lxp_fd_close_on_exec k b t).1 /\ same_tables k (lxp_fd_close_on_exec k b t).1.
Proof.
  intros HI Ht. unfold lxp_fd_close_on_exec. destruct t as [ti|]; [|by auto with fd].
  simpl in Ht. assert (Hf := all_fds_range). revert k b HI Ht.
  induction Hf as [|fd fds Hfd _ IH]; intros k b HI Ht; cbn [foldl]; [by auto with fd|].
  unfold cloexec_step at 2 4. cbn [fst snd]. destruct (_ >? 0); [|by apply IH].
  pose proof (close_step_spec k b _ ti fd HI small_zero Ht Hfd) as HS.
  destruct (close_step (Some ti) (k, b) fd) as [k1 b1]. destruct HS as (I1 & T1 & _).
  destruct (IH k1 b1 I1 ltac:(destruct T1 as (-> & _); done)) as [I2 T2].
  split; [done|by eapply same_tables_trans].
Qed.

(** Flags of a descriptor or of a description carry no reference. *)
Lemma fd_set_end_inv k t fd e :
  fd_inv k -> table_ok k t ->
  fd_inv (lxp_fd_set_end k t fd e).2 /\ same_tables k (lxp_fd_set_end k t fd e).2.
Proof.
  intros HI Ht. unfold lxp_fd_set_end.
  destruct (fd_lookup k t fd) as [o|] eqn:El; [|by auto with fd]. cbn [snd].
  destruct (fd_lookup_live k _ _ fd o HI small_zero Ht El) as (ti & -> & Hfd & He & Ho & Hr).
  split; [|apply same_tables_set_ofd].
  eapply fd_inv_owing_ext; [|apply set_ofd_inv; [exact HI|done|]]; [|by intros].
  intros i Hi. cbn beta. change (ofd_refs (set_ofd_rw ?x ?n)) with (ofd_refs x). destruct (decide _); lia.
Qed.

Lemma fd_set_cloexec_inv k t fd e :
  fd_inv k -> table_ok k t ->
  fd_inv (lxp_fd_set_cloexec k t fd e).2 /\ same_tables k (lxp_fd_set_cloexec k t fd e).2.
Proof.
  intros HI Ht. unfold lxp_fd_set_cloexec. destruct t as [ti|]; [|by auto with fd].
  destruct (fd_lookup k (Some ti) fd) as [o|] eqn:El; [|by auto with fd]. cbn [snd].
  destruct (fd_lookup_live k _ _ fd o HI small_zero Ht El) as (ti' & [= <-] & Hfd & He & Ho & Hr).
  split; [|by apply same_tables_set_entry].
  eapply fd_inv_owing_ext; [|apply (set_entry_inv k _ ti fd _ HI Ht Hfd)]; [|cbn [fd_ofd]; lia].
  intros i Hi. cbn [fd_ofd]. lia.
Qed.
End Preservation.
