(* ===== verification/FdProps.v ===== *)
(** * Descriptor-layer theorems

    The reference-count invariant over every sequence of descriptor operations, and what
    open, close and dup do, for any set of file operations. *)

From S2P Require Import Prelude Config Proc Pool Fd FdSpec.
From stdpp Require Import relations.
Local Open Scope Z_scope.

Inductive fd_op :=
  | FdOpen (kind backing offset flags : Z)
  | FdClose (fd : Z)
  | FdDupTo (oldfd newfd cloexec : Z)
  | FdDupMin (oldfd minfd cloexec : Z)
  | FdSetEnd (fd e : Z)
  | FdSetCloexec (fd e : Z)
  | FdCloseAll
  | FdCloseOnExec.

Section Steps.
Context {B : Type} `{FileOps B}.

Definition fd_run (op : fd_op) (t : option Z) (s : kst * B) : kst * B :=
  match op with
  | FdOpen kind backing offset flags => ((lxp_fd_open s.1 t kind backing offset flags).2, s.2)
  | FdClose fd => close_step t s fd
  | FdDupTo o n c => let '(_, k, b) := lxp_fd_dup_to s.1 s.2 t o n c in (k, b)
  | FdDupMin o n c => ((lxp_fd_dup_min s.1 t o n c).2, s.2)
  | FdSetEnd fd e => ((lxp_fd_set_end s.1 t fd e).2, s.2)
  | FdSetCloexec fd e => ((lxp_fd_set_cloexec s.1 t fd e).2, s.2)
  | FdCloseAll => lxp_fd_close_all s.1 s.2 t
  | FdCloseOnExec => lxp_fd_close_on_exec s.1 s.2 t
  end.

(** Some task runs some operation on its table. *)
Definition fd_step (s s' : kst * B) : Prop :=
  exists op t, table_ok s.1 t /\ s' = fd_run op t s.

Lemma fd_step_inv s s' : fd_step s s' -> fd_inv s.1 -> fd_inv s'.1.
Proof.
  destruct s as [k b]. intros (op & t & Ht & ->) HI. simpl in Ht, HI.
  destruct op as [kd bk off fl|fd|o n c|o n c|fd e|fd e| |]; simpl.
  - pose proof (fd_open_spec k t kd bk off fl HI Ht) as HS. destruct (lxp_fd_open _ _ _ _ _ _). apply HS.
  - unfold close_step. cbn [fst snd].
    pose proof (fd_close_spec k b _ t fd HI small_zero Ht) as HS.
    destruct (lxp_fd_close k b t fd) as [[? ?] ?]. apply HS.
  - pose proof (fd_dup_to_spec k b t o n c HI Ht) as HS.
    destruct (lxp_fd_dup_to k b t o n c) as [[? ?] ?]. apply HS.
  - pose proof (fd_dup_min_spec k t o n c HI Ht) as HS. destruct (lxp_fd_dup_min k t o n c). apply HS.
  - by apply fd_set_end_inv.
  - by apply fd_set_cloexec_inv.
  - destruct t as [ti|]; [|done]. pose proof (close_every_spec k b _ ti HI small_zero Ht) as HS.
    unfold lxp_fd_close_all. destruct (close_every (Some ti) (k, b)). apply HS.
  - by apply fd_close_on_exec_inv.
Qed.

(** C3: Through every sequence of opens, closes, dups, flag changes and exec-time closes by
    any tasks on any tables, each open-file description's reference count is exactly the
    number of descriptor entries that name it, unreferenced descriptions are clear, and
    every non-empty entry resolves to the live description it names. *)
Theorem fd_refcounts_exact s s' :
  rtc fd_step s s' -> fd_inv s.1 ->
  (forall o, 0 <= o < LXP_MAX_OFD ->
     ofd_refs (ofd_at s'.1 o) = total_refs (k_files s'.1) (o + 1) /\
     (ofd_refs (ofd_at s'.1 o) = 0 -> ofd_at s'.1 o = ofd_zero)) /\
  (forall ti fd, 0 <= ti < alen (k_files s'.1) -> 0 <= fd < LXP_MAX_FDS ->
     fd_ofd (entry s'.1 ti fd) <> 0 ->
     fd_lookup s'.1 (Some ti) fd = Some (fd_ofd (entry s'.1 ti fd) - 1)).
Proof.
  intros Hs HI. assert (HI' : fd_inv s'.1).
  { induction Hs as [|s s1 s2 H1 _ IH]; [done|]. apply IH. by eapply fd_step_inv. }
  split.
  - intros o Ho. destruct HI' as (_ & _ & _ & HR). destruct (HR o Ho) as [Hr Hz]. split; [lia|done].
  - intros ti fd Hti Hfd Hne.
    destruct (fd_lookup_entry s'.1 _ ti fd HI' ltac:(intros; lia) Hti Hfd) as [-> _].
    by destruct (Z.eqb_spec (fd_ofd (entry s'.1 ti fd)) 0).
Qed.

(** close(2) clears the descriptor and drops one reference; the backing object is
    released, through its kind's operation and exactly once, when and only when that was
    the last reference; a descriptor that is not open is refused without effect. *)
Theorem fd_close_releases_last k b t fd :
  fd_inv k -> table_ok k t ->
  let '(rc, k', b') := lxp_fd_close k b t fd in
  match fd_lookup k t fd with
  | None => rc = - LXP_EBADF /\ k' = k /\ b' = b
  | Some o =>
      rc = 0 /\ fd_lookup k' t fd = None /\
      if ofd_refs (ofd_at k o) =? 1
      then ofd_at k' o = ofd_zero /\
           b' = (if (ofd_kind (ofd_at k o) <? LXP_FD_KIND_COUNT) && fops_present (ofd_kind (ofd_at k o))
                 then fops_close b (set_ofd_refs (ofd_at k o) 0) else b)
      else ofd_at k' o = set_ofd_refs (ofd_at k o) (ofd_refs (ofd_at k o) - 1) /\ b' = b
  end.
Proof.
  intros HI Ht. pose proof (fd_close_spec k b _ t fd HI small_zero Ht) as HS.
  destruct (lxp_fd_close k b t fd) as [[rc k'] b']. destruct HS as (_ & _ & HS).
  destruct (fd_lookup k t fd) as [o|] eqn:E.
  - pose proof E as (ti & -> & _)%fd_lookup_some. rewrite E in HS. destruct HS as (H1 & H2 & _ & _ & H3). done.
  - destruct t; [by rewrite E in HS|done].
Qed.

(** open(2) installs a fresh description, referenced once, in the lowest free
    descriptor and disturbs no other descriptor; when the table or the description pool
    is full, or the kind is unknown, it fails with EMFILE changing nothing. *)
Theorem fd_open_lowest k t kind backing offset flags :
  fd_inv k -> table_ok k t ->
  let '(fd, k') := lxp_fd_open k t kind backing offset flags in
  (fd = - LXP_EMFILE /\ k' = k) \/
  exists ti o, t = Some ti /\ 0 <= fd < LXP_MAX_FDS /\ fd_lookup k t fd = None /\
    (forall f, 0 <= f < fd -> fd_lookup k t f <> None) /\
    fd_lookup k' t fd = Some o /\ ofd_refs (ofd_at k o) = 0 /\
    ofd_refs (ofd_at k' o) = 1 /\ ofd_kind (ofd_at k' o) = kind /\
    ofd_file_idx (ofd_at k' o) = backing /\
    (forall f, 0 <= f < LXP_MAX_FDS -> f <> fd -> fd_lookup k' t f = fd_lookup k t f).
Proof.
  intros HI Ht. pose proof (fd_open_spec k t kind backing offset flags HI Ht) as HS.
  destruct (lxp_fd_open k t kind backing offset flags) as [fd k']. destruct HS as (HI' & HT & [?|HS]); [by left|right].
  destruct HS as (ti & o & -> & H1 & H2 & H3 & H4 & H5 & H6 & H7 & H8).
  exists ti, o. split_and!; try done; try lia; try (by rewrite H8).
  intros f Hf Hne. apply fd_lookup_same; try done. apply H6; [lia|done].
Qed.

(** dup2(2) makes the new descriptor an alias of the old one's description, closing
    what it held, keeps the old descriptor, and preserves exact reference counts even
    when both already name the same description. *)
Theorem fd_dup_shares k b t oldfd newfd cloexec o :
  fd_inv k -> table_ok k t -> fd_lookup k t oldfd = Some o -> 0 <= newfd < LXP_MAX_FDS ->
  let '(rc, k', b') := lxp_fd_dup_to k b t oldfd newfd cloexec in
  rc = newfd /\ fd_lookup k' t newfd = Some o /\ fd_lookup k' t oldfd = Some o /\ fd_inv k'.
Proof.
  intros HI Ht El Hn. pose proof (fd_dup_to_spec k b t oldfd newfd cloexec HI Ht) as HS.
  destruct (lxp_fd_dup_to k b t oldfd newfd cloexec) as [[rc k'] b']. destruct HS as (HI' & _ & HS).
  rewrite El in HS. destruct ((newfd <? 0) || (newfd >=? LXP_MAX_FDS)) eqn:E; [lia|].
  by destruct HS as (-> & -> & ->).
Qed.
End Steps.

(** ** Witnesses: a file-operation table that records what it releases *)

#[export] Instance log_ops : FileOps (list lxp_ofd) := {|
  fops_present := fun kind => (1 <=? kind) && (kind <=? LXP_FD_PTY);
  fops_close := fun log o => o :: log;
  fops_node_open := fun log _ => (0, log);
  fops_node_close := fun log _ => log;
|}.

Definition kst_zero : kst :=
  mk_kst (replicate (Z.to_nat LXP_MAX_OFD) ofd_zero)
         (replicate (Z.to_nat LXP_RESOURCE_POOL_COUNT) files_zero) [] [] [] [].

Lemma total_zero n v : v <> 0 -> total_refs (replicate n files_zero) v = 0.
Proof.
  intros Hv. induction n as [|n IH]; [done|]. cbn [replicate total_refs]. rewrite IH.
  unfold files_zero. cbn [files_fd]. generalize (Z.to_nat LXP_MAX_FDS).
  intros j. induction j as [|j IHj]; [done|]. cbn [replicate cnt]. unfold ind.
  change (fd_ofd fd_zero) with 0. destruct (Z.eqb_spec 0 v); [congruence|]. lia.
Qed.

Lemma kst_zero_inv : fd_inv kst_zero.
Proof.
  split_and!; [reflexivity|reflexivity| |].
  - apply Forall_replicate. split; [reflexivity|]. apply Forall_replicate. cbn. unfold LXP_MAX_OFD,
      LXP_NSLOT, LXP_NREG, LXP_MAX_FDS. lia.
  - intros i Hi. unfold ofd_at, kst_zero, aget. cbn [k_ofd k_files]. rewrite nth_repeat || rewrite nth_lookup.
    rewrite lookup_replicate_2 by lia. cbn. rewrite total_zero by lia. done.
Qed.

(** A pipe end opened twice over, once by dup. *)
Definition demo_fds : kst * list lxp_ofd :=
  fd_run (FdDupTo 0 5 0) (Some 0) (fd_run (FdOpen LXP_FD_PIPE 2 0 0) (Some 0) (kst_zero, [])).

Lemma demo_fds_inv : fd_inv demo_fds.1.
Proof.
  unfold demo_fds. apply (fd_step_inv (fd_run (FdOpen LXP_FD_PIPE 2 0 0) (Some 0) (kst_zero, []))).
  { eexists _, _. split; [|done]. vm_compute. split; congruence. }
  apply (fd_step_inv (kst_zero, [])); [|apply kst_zero_inv].
  eexists _, _. split; [|done]. vm_compute. split; congruence.
Qed.

Lemma fd_refcounts_exact_witness : ofd_refs (ofd_at demo_fds.1 0) = 2.
Proof.
  destruct (fd_refcounts_exact (kst_zero, @nil lxp_ofd) demo_fds) as [H _].
  - eapply rtc_l; [|apply rtc_once]; eexists _, _; split; [|reflexivity| |reflexivity];
      vm_compute; split; congruence.
  - exact kst_zero_inv.
  - destruct (H 0) as [-> _]; [vm_compute; split; congruence|vm_compute; reflexivity].
Defined.

Lemma fd_close_releases_last_witness :
  let '(rc, k', b') := lxp_fd_close demo_fds.1 demo_fds.2 (Some 0) 5 in
  rc = 0 /\ ofd_refs (ofd_at k' 0) = 1 /\ b' = [].
Proof.
  pose proof (fd_close_releases_last demo_fds.1 demo_fds.2 (Some 0) 5 demo_fds_inv
                ltac:(vm_compute; split; congruence)) as H.
  destruct (lxp_fd_close demo_fds.1 demo_fds.2 (Some 0) 5) as [[rc k'] b'].
  replace (fd_lookup demo_fds.1 (Some 0) 5) with (Some 0) in H by (vm_compute; reflexivity).
  destruct H as (H1 & _ & H3).
  replace (ofd_refs (ofd_at demo_fds.1 0) =? 1) with false in H3 by (vm_compute; reflexivity).
  destruct H3 as [H3 H4]. split_and!; [exact H1| |].
  - rewrite H3. vm_compute. reflexivity.
  - rewrite H4. vm_compute. reflexivity.
Defined.

Lemma fd_open_lowest_witness :
  let '(fd, k') := lxp_fd_open demo_fds.1 (Some 0) LXP_FD_PIPE 3 0 0 in
  fd = 1 /\ fd_lookup k' (Some 0) 1 = Some 1.
Proof.
  pose proof (fd_open_lowest demo_fds.1 (Some 0) LXP_FD_PIPE 3 0 0 demo_fds_inv
                ltac:(vm_compute; split; congruence)) as H.
  destruct (lxp_fd_open demo_fds.1 (Some 0) LXP_FD_PIPE 3 0 0) as [fd k'] eqn:E.
  assert (Hfd : fd = 1) by (apply (f_equal fst) in E; vm_compute in E; congruence).
  split; [exact Hfd|]. subst fd. destruct H as [[H _]|(ti & o & _ & _ & _ & _ & H & _)]; [vm_compute in H; congruence|].
  apply (f_equal snd) in E. cbn [snd] in E. rewrite <- E. vm_compute. reflexivity.
Defined.

Lemma fd_dup_shares_witness :
  let '(rc, k', b') := lxp_fd_dup_to demo_fds.1 demo_fds.2 (Some 0) 5 7 0 in
  rc = 7 /\ fd_lookup k' (Some 0) 7 = Some 0.
Proof.
  pose proof (fd_dup_shares demo_fds.1 demo_fds.2 (Some 0) 5 7 0 0 demo_fds_inv
                ltac:(vm_compute; split; congruence) ltac:(vm_compute; reflexivity)
                ltac:(vm_compute; split; congruence)) as H.
  destruct (lxp_fd_dup_to demo_fds.1 demo_fds.2 (Some 0) 5 7 0) as [[rc k'] b'].
  destruct H as (H1 & H2 & _). split; [exact H1|exact H2].
Defined.
