(* ===== verification/Process.v ===== *)
(** * Process resources: fork, clone and release (src/proc/lxp_process.c)

    Each task points into five pools, and clone(2) decides for each whether the child
    shares the parent's object or gets its own.  The functions take the pools, the
    backing objects of descriptors and the task record, and return them changed.
    A [goto fail] is the call it jumps to. *)

From S2P Require Import Prelude Config Proc Pool Fd Wait Arena.
Local Open Scope Z_scope.

Section Process.
Context {B : Type} `{FileOps B}.
Implicit Types (k : kst) (b : B) (p child parent : lxp_proc).

(** ** Allocation *)

Definition files_new k : option (Z * kst) :=
  match resource_new (k_files k) with
  | Some (i, l) => Some (i, set_k_files k l)
  | None => None
  end.

Definition fs_context_new k : option (Z * kst) :=
  match resource_new (k_fs_context k) with
  | Some (i, l) =>
      let c := set_fsc_cwd (set_fsc_umask (item l i) 18) [47] in
      Some (i, set_k_fs_context k (aset l i c))
  | None => None
  end.

Definition sighand_new k : option (Z * kst) :=
  match resource_new (k_sighand k) with
  | Some (i, l) => Some (i, set_k_sighand k l)
  | None => None
  end.

Definition mm_new k : option (Z * kst) :=
  match resource_new (k_mm k) with
  | Some (i, l) =>
      let x := set_mm_exec_generation
                 (set_mm_device_generation (set_mm_region (item l i) lxp_region_ref_none) 1) 1 in
      Some (i, set_k_mm k (aset l i x))
  | None => None
  end.

Definition group_new k : option (Z * kst) :=
  match resource_new (k_groups k) with
  | Some (i, l) => Some (i, set_k_groups k l)
  | None => None
  end.

(** ** Release *)

Definition files_put k b p : kst * B * lxp_proc :=
  match p_files p with
  | None => (k, b, p)
  | Some ti =>
      let f := item (k_files k) ti in
      if files_refs f =? 0 then (k, b, set_p_files p None)
      else
        let k := set_k_files k (aset (k_files k) ti (set_files_refs f (files_refs f - 1))) in
        if files_refs f - 1 =? 0 then
          let '(k, b) := close_every (Some ti) (k, b) in
          (set_k_files k (aset (k_files k) ti files_zero), b, set_p_files p None)
        else (k, b, set_p_files p None)
  end.

Definition lxp_proc_resources_put k b p : kst * B * lxp_proc :=
  let '(k, b, p) := files_put k b p in
  let '(k, p) := match p_fs_context p with
                 | Some i => (set_k_fs_context k (resource_put (k_fs_context k) i),
                              set_p_fs_context p None)
                 | None => (k, p)
                 end in
  let '(k, p) := match p_sighand p with
                 | Some i => (set_k_sighand k (resource_put (k_sighand k) i), set_p_sighand p None)
                 | None => (k, p)
                 end in
  (k, b, p).

Definition lxp_proc_mm_put k p : kst * lxp_proc :=
  match p_mm p with
  | Some i => (set_k_mm k (resource_put (k_mm k) i), set_p_mm p None)
  | None => (k, p)
  end.

Definition lxp_proc_group_put k p : kst * lxp_proc :=
  match p_group p with
  | Some i => (set_k_groups k (resource_put (k_groups k) i), set_p_group p None)
  | None => (k, p)
  end.

(** ** Descriptor tables *)

Definition lxp_fd_fork_inherit k child : Z * kst * lxp_proc :=
  match p_files child with
  | None => (- LXP_EINVAL, k, child)
  | Some source =>
      match files_new k with
      | None => (- LXP_ENOMEM, k, child)
      | Some (copy, k) =>
          let k := set_k_files k (aset (k_files k) copy
                     (set_files_fd (item (k_files k) copy) (files_fd (item (k_files k) source)))) in
          let '(rc, k) := lxp_fd_table_retain k (Some copy) in
          if negb (rc =? 0)
          then (- LXP_EAGAIN, set_k_files k (aset (k_files k) copy files_zero), child)
          else (0, k, set_p_files child (Some copy))
      end
  end.

Definition lxp_proc_files_unshare k p : Z * kst * lxp_proc :=
  match p_files p with
  | None => (- LXP_EINVAL, k, p)
  | Some shared =>
      if files_refs (item (k_files k) shared) =? 1 then (0, k, p)
      else let '(rc, k, p) := lxp_fd_fork_inherit k p in
           if negb (rc =? 0) then (rc, k, p)
           else let f := item (k_files k) shared in
                (0, set_k_files k (aset (k_files k) shared (set_files_refs f (files_refs f - 1))), p)
  end.

(** ** Inheritance *)

(** The three stages of [lxp_proc_resources_fork]: whether it may go on, the value of
    [rc], the pools and the child.  [rc] is only written where the code assigns it. *)
Definition fork_files k child (pf clone_flags : Z) : bool * Z * kst * lxp_proc :=
  let rc := - LXP_EAGAIN in
  if has clone_flags LXP_CLONE_FILES then
    if files_refs (item (k_files k) pf) =? UINT16_MAX then (false, rc, k, child)
    else (true, rc, set_k_files k (resource_share (k_files k) pf), set_p_files child (Some pf))
  else
    let '(rc, k, child) := lxp_fd_fork_inherit k (set_p_files child (Some pf)) in
    if negb (rc =? 0) then (false, rc, k, set_p_files child None) else (true, rc, k, child).

Definition fork_context (rc : Z) k child (pc clone_flags : Z) : bool * Z * kst * lxp_proc :=
  if has clone_flags LXP_CLONE_FS then
    if fsc_refs (item (k_fs_context k) pc) =? UINT16_MAX then (false, rc, k, child)
    else (true, rc, set_k_fs_context k (resource_share (k_fs_context k) pc),
          set_p_fs_context child (Some pc))
  else match fs_context_new k with
       | None => (false, - LXP_ENOMEM, k, child)
       | Some (i, k) =>
           let src := item (k_fs_context k) pc in
           let c := set_fsc_umask (set_fsc_cwd (item (k_fs_context k) i) (fsc_cwd src)) (fsc_umask src) in
           (true, rc, set_k_fs_context k (aset (k_fs_context k) i c), set_p_fs_context child (Some i))
       end.

Definition fork_sighand (rc : Z) k child (ps clone_flags : Z) : bool * Z * kst * lxp_proc :=
  if has clone_flags LXP_CLONE_SIGHAND then
    if sh_refs (item (k_sighand k) ps) =? UINT16_MAX then (false, rc, k, child)
    else (true, rc, set_k_sighand k (resource_share (k_sighand k) ps), set_p_sighand child (Some ps))
  else match sighand_new k with
       | None => (false, - LXP_ENOMEM, k, child)
       | Some (i, k) =>
           let src := item (k_sighand k) ps in
           let x := set_sh_restart
                      (set_sh_restorer (set_sh_handler (item (k_sighand k) i) (sh_handler src))
                         (sh_restorer src)) (sh_restart src) in
           (true, rc, set_k_sighand k (aset (k_sighand k) i x), set_p_sighand child (Some i))
       end.

(** [fail:] release what was acquired, return [rc]. *)
Definition fork_fail (rc : Z) k b child : Z * kst * B * lxp_proc :=
  let '(k, b, child) := lxp_proc_resources_put k b child in (rc, k, b, child).

Definition lxp_proc_resources_fork k b child parent (clone_flags : Z) : Z * kst * B * lxp_proc :=
  match p_files parent, p_fs_context parent, p_sighand parent with
  | Some pf, Some pc, Some ps =>
      let child := set_p_sighand (set_p_fs_context (set_p_files child None) None) None in
      let '(ok, rc, k, child) := fork_files k child pf clone_flags in
      if negb ok then fork_fail rc k b child
      else
        let '(ok, rc, k, child) := fork_context rc k child pc clone_flags in
        if negb ok then fork_fail rc k b child
        else
          let '(ok, rc, k, child) := fork_sighand rc k child ps clone_flags in
          if negb ok then fork_fail rc k b child else (0, k, b, child)
  | _, _, _ => (- LXP_EINVAL, k, b, child)
  end.

Definition lxp_proc_mm_fork k child parent (clone_flags : Z) : Z * kst * lxp_proc :=
  match p_mm parent with
  | None => (- LXP_EINVAL, k, child)
  | Some pm =>
      let child := set_p_mm child None in
      if has clone_flags LXP_CLONE_VM then
        if mm_refs (item (k_mm k) pm) =? UINT16_MAX then (- LXP_EAGAIN, k, child)
        else (0, set_k_mm k (resource_share (k_mm k) pm), set_p_mm child (Some pm))
      else match mm_new k with
           | None => (- LXP_ENOMEM, k, child)
           | Some (copy, k) =>
               let refs := mm_refs (item (k_mm k) copy) in
               (0, set_k_mm k (aset (k_mm k) copy (set_mm_refs (item (k_mm k) pm) refs)),
                set_p_mm child (Some copy))
           end
  end.

Definition lxp_proc_group_fork k child parent (clone_flags child_pid : Z) : Z * kst * lxp_proc :=
  match p_group parent with
  | None => (- LXP_EINVAL, k, child)
  | Some pg =>
      if child_pid <=? 0 then (- LXP_EINVAL, k, child)
      else
        let child := set_p_group child None in
        if has clone_flags LXP_CLONE_THREAD then
          if tg_refs (item (k_groups k) pg) =? UINT16_MAX then (- LXP_EAGAIN, k, child)
          else (0, set_k_groups k (resource_share (k_groups k) pg), set_p_group child (Some pg))
        else match group_new k with
             | None => (- LXP_ENOMEM, k, child)
             | Some (i, k) =>
                 let src := item (k_groups k) pg in
                 let g := set_tg_pgid (set_tg_ppid (set_tg_tgid (item (k_groups k) i) child_pid)
                                         (tg_tgid src)) (tg_pgid src) in
                 (0, set_k_groups k (aset (k_groups k) i g), set_p_group child (Some i))
             end
  end.

Definition proc_child_reset child : lxp_proc :=
  set_p_snapshot (set_p_vfork_parent proc_zero lxp_slot_ref_none) lxp_region_ref_none.

Definition lxp_proc_child_discard k b child : kst * B * lxp_proc :=
  let '(k, b, child) := lxp_proc_resources_put k b child in
  let '(k, child) := lxp_proc_mm_put k child in
  let '(k, child) := lxp_proc_group_put k child in
  (k, b, proc_child_reset child).

Definition proc_child_copy_values child parent (child_pid : Z) : lxp_proc :=
  let c := proc_child_reset child in
  let c := set_p_write_fn c (p_write_fn parent) in
  let c := set_p_read_fn c (p_read_fn parent) in
  let c := set_p_console_poll c (p_console_poll parent) in
  let c := set_p_io_ctx c (p_io_ctx parent) in
  let c := set_p_fs c (p_fs parent) in
  let c := set_p_fs_count c (p_fs_count parent) in
  let c := set_p_pid c child_pid in
  let c := set_p_nice c (lxp_proc_nice_get parent) in
  let c := set_p_comm c (p_comm parent) in
  let c := set_p_sig_blocked c (p_sig_blocked parent) in
  let c := set_p_exec_file_idx c (p_exec_file_idx parent) in
  let c := set_p_stack_lo c (p_stack_lo parent) in
  set_p_is_fdpic c (p_is_fdpic parent).

Definition thread_flags : Z :=
  Z.lor (Z.lor LXP_CLONE_THREAD LXP_CLONE_VM) LXP_CLONE_SIGHAND.

(** The child's record is distinct from the parent's. *)
Definition proc_init_child k b child parent (clone_flags child_pid : Z) (thread : bool)
  : Z * kst * B * lxp_proc :=
  match p_mm parent, p_files parent, p_fs_context parent, p_sighand parent, p_group parent with
  | Some _, Some _, Some _, Some _, Some _ =>
      if child_pid <=? 0 then (- LXP_EINVAL, k, b, child)
      else if has clone_flags LXP_CLONE_SIGHAND && negb (has clone_flags LXP_CLONE_VM)
      then (- LXP_EINVAL, k, b, child)
      else if (if thread then negb (Z.land clone_flags thread_flags =? thread_flags)
               else has clone_flags LXP_CLONE_THREAD)
      then (- LXP_EINVAL, k, b, child)
      else
        let child := proc_child_copy_values child parent child_pid in
        let '(rc, k, child) := lxp_proc_mm_fork k child parent clone_flags in
        let '(rc, k, b, child) := if rc =? 0 then lxp_proc_resources_fork k b child parent clone_flags
                                  else (rc, k, b, child) in
        let '(rc, k, child) := if rc =? 0 then lxp_proc_group_fork k child parent clone_flags child_pid
                               else (rc, k, child) in
        if negb (rc =? 0)
        then let '(k, b, child) := lxp_proc_child_discard k b child in (rc, k, b, child)
        else (rc, k, b, child)
  | _, _, _, _, _ => (- LXP_EINVAL, k, b, child)
  end.

Definition lxp_proc_init_process_child k b child parent (clone_flags child_pid : Z) :=
  proc_init_child k b child parent clone_flags child_pid false.
Definition lxp_proc_init_thread_child k b child parent (clone_flags child_tid : Z) :=
  proc_init_child k b child parent clone_flags child_tid true.

(** Release all of a task's resources, the unwinding of [lxp_proc_init]. *)
Definition init_unwind k b p : kst * B * lxp_proc :=
  let '(k, b, p) := lxp_proc_resources_put k b p in
  let '(k, p) := lxp_proc_mm_put k p in
  let '(k, p) := lxp_proc_group_put k p in
  (k, b, p).

(** A pool's [new] stored in the task's field: the object, or NULL. *)
Definition take_new (r : option (Z * kst)) k : option Z * kst :=
  match r with Some (i, k) => (Some i, k) | None => (None, k) end.

(** The arena is a control block at address [arena] with its memory. *)
Definition lxp_proc_init k b (m : mem) (A : lxp_arena) (arena brk_bytes : Z)
  : Z * kst * B * mem * lxp_arena * lxp_proc :=
  let p := proc_zero in
  let '(mm, k) := take_new (mm_new k) k in
  let '(grp, k) := take_new (group_new k) k in
  let '(fls, k) := take_new (files_new k) k in
  let '(fsc, k) := take_new (fs_context_new k) k in
  let '(sh, k) := take_new (sighand_new k) k in
  let p := set_p_sighand (set_p_fs_context (set_p_files (set_p_group (set_p_mm p mm) grp) fls) fsc) sh in
  let unwind k b m A p := let '(k, b, p) := init_unwind k b p in (- LXP_ENOMEM, k, b, m, A, p) in
  match mm, grp, fls, fsc, sh with
  | Some mi, Some gi, Some fi, Some _, Some _ =>
      let k := set_k_mm k (aset (k_mm k) mi (set_mm_arena (item (k_mm k) mi) (Some arena))) in
      let p := set_p_pid p 1 in
      let k := set_k_groups k (aset (k_groups k) gi
                 (set_tg_pgid (set_tg_tgid (item (k_groups k) gi) 1) 1)) in
      let '(f0, k, b) := lxp_fd_install k b (p_files p) LXP_FD_CONSOLE 0 LXP_O_RDWR in
      if negb (f0 =? 0) then unwind k b m A p
      else let '(f1, k, b) := lxp_fd_install k b (p_files p) LXP_FD_CONSOLE 1 LXP_O_RDWR in
      if negb (f1 =? 1) then unwind k b m A p
      else let '(f2, k, b) := lxp_fd_install k b (p_files p) LXP_FD_CONSOLE 1 LXP_O_RDWR in
      if negb (f2 =? 2) then unwind k b m A p
      else if brk_bytes =? 0 then (0, k, b, m, A, p)
      else
        let '(brk, m, A) := lxp_arena_alloc m A brk_bytes in
        if brk =? 0 then unwind k b m A p
        else
          let x := item (k_mm k) mi in
          let x := set_mm_brk_max (set_mm_brk_cur (set_mm_brk_base x brk) brk) (brk + brk_bytes) in
          (0, set_k_mm k (aset (k_mm k) mi x), b, m, A, p)
  | _, _, _, _, _ => unwind k b m A p
  end.
End Process.

Definition lxp_proc_runtime_reset (k : kst) : kst :=
  let n := Z.to_nat LXP_RESOURCE_POOL_COUNT in
  mk_kst (k_ofd k) (replicate n files_zero) (replicate n fs_context_zero)
         (replicate n sighand_zero) (replicate n mm_zero) (replicate n group_zero).

Definition lxp_proc_set_rootfs (p : lxp_proc) (files count : Z) : lxp_proc :=
  set_p_fs_count (set_p_fs p files) (if negb (files =? 0) && (count >? 0) then count else 0).
