(* ===== verification/ProcessSpec.v ===== *)
(** * Process resources: ownership is exact

    [kinv] is the state of the five pools and of the descriptor layer against the lists of
    owners: every reference count equals the number of tasks that hold the object, every
    unowned object is clear.  Each operation of Process.v moves owners in and out. *)

From S2P Require Import Prelude Config Proc Pool Fd FdSpec Process.
Local Open Scope Z_scope.

(** ** Descriptor layer under changes of the other pools *)

Lemma total_refs_map fs fs' v : map files_fd fs = map files_fd fs' -> total_refs fs v = total_refs fs' v.
Proof.
  revert fs'. induction fs as [|f t IH]; intros [|f' t'] E; try done. simpl in *.
  injection E as E1 E2. by rewrite E1, (IH t').
Qed.

Lemma table_wf_map fs fs' : map files_fd fs = map files_fd fs' -> Forall table_wf fs -> Forall table_wf fs'.
Proof.
  revert fs'. induction fs as [|f t IH]; intros [|f' t'] E Hf; try done. simpl in *.
  injection E as E1 E2. apply Forall_cons in Hf as [[H1 H2] H3]. constructor; [|by apply IH].
  split; by rewrite <- E1.
Qed.

(** The layer sees only the descriptions and the tables' entries. *)
Lemma fd_inv_ext k k' d :
  k_ofd k' = k_ofd k -> map files_fd (k_files k') = map files_fd (k_files k) ->
  fd_inv_owing k d -> fd_inv_owing k' d.
Proof.
  intros E1 E2 (H1 & H2 & H3 & H4). split_and!.
  - by rewrite E1.
  - unfold alen in *. apply (f_equal length) in E2. rewrite !length_map in E2. by rewrite E2.
  - by eapply table_wf_map.
  - intros i Hi. unfold ofd_at in *. rewrite E1, (total_refs_map _ (k_files k)) by done. by apply H4.
Qed.

Lemma map_aset {A C} (f : A -> C) l i x : map f (aset l i x) = aset (map f l) i (f x).
Proof. unfold aset. apply list_fmap_insert. Qed.

Lemma map_files_fd_refs fs ti f :
  0 <= ti < alen fs -> files_fd f = files_fd (item fs ti) -> map files_fd (aset fs ti f) = map files_fd fs.
Proof.
  intros Hi E. rewrite map_aset, E. unfold item, aget.
  apply list_insert_id. change (map files_fd fs) with (files_fd <$> fs). rewrite list_lookup_fmap.
  pose proof (lookup_aget zero_of fs ti Hi) as ->. done.
Qed.

Lemma cnt_free l v : v <> 0 -> (forall fd, 0 <= fd < alen l -> fd_ofd (aget fd_zero l fd) = 0) -> cnt l v = 0.
Proof.
  intros Hv. induction l as [|e t IH]; intros Hz; [done|]. simpl. rewrite IH.
  - specialize (Hz 0). unfold aget, alen in Hz. simpl in Hz. rewrite Hz by lia.
    unfold ind. destruct (Z.eqb_spec 0 v); [congruence|lia].
  - intros fd Hfd. specialize (Hz (fd + 1)). unfold aget, alen in *. simpl in Hz.
    replace (Z.to_nat (fd + 1)) with (S (Z.to_nat fd)) in Hz by lia. apply Hz. lia.
Qed.

Lemma cnt_files_zero v : v <> 0 -> cnt (files_fd files_zero) v = 0.
Proof.
  intros Hv. apply cnt_free; [done|]. intros fd Hfd. unfold files_zero, aget. cbn [files_fd].
  rewrite nth_lookup. destruct (replicate _ fd_zero !! Z.to_nat fd) as [e|] eqn:E; [|done].
  by apply lookup_replicate in E as [-> _].
Qed.

Lemma files_zero_wf : table_wf files_zero.
Proof.
  split; [reflexivity|]. unfold files_zero. cbn [files_fd]. apply Forall_replicate. cbn [fd_ofd fd_zero].
  unfold LXP_MAX_OFD, LXP_NSLOT, LXP_NREG, LXP_MAX_FDS. lia.
Qed.

(** Replacing a table whose entries are all free by another such table. *)
Lemma fd_inv_replace_free k d ti f :
  fd_inv_owing k d -> 0 <= ti < alen (k_files k) -> table_wf f ->
  (forall v, v <> 0 -> cnt (files_fd (item (k_files k) ti)) v = 0) ->
  fd_inv_owing (set_k_files k (aset (k_files k) ti f)) (fun i => d i - cnt (files_fd f) (i + 1)).
Proof.
  intros (H1 & H2 & H3 & H4) Hi Hf Hz. split_and!; [done| | |].
  - cbn [k_files set_k_files]. by rewrite alen_aset.
  - cbn [k_files set_k_files]. by apply Forall_aset.
  - intros i Hr. change (ofd_at (set_k_files k _) i) with (ofd_at k i). destruct (H4 i Hr) as [-> Hzz].
    split; [|done]. cbn [k_files set_k_files]. rewrite total_aset by done. rewrite Hz by lia. lia.
Qed.

(** ** Only the caller's table changes *)

Definition only_table (ti : Z) (k k' : kst) : Prop :=
  exists f, k_files k' = aset (k_files k) ti f /\ files_refs f = files_refs (item (k_files k) ti) /\
    k_fs_context k' = k_fs_context k /\ k_sighand k' = k_sighand k /\ k_mm k' = k_mm k /\
    k_groups k' = k_groups k.

Lemma only_table_refl ti k : 0 <= ti < alen (k_files k) -> only_table ti k k.
Proof.
  intros Hi. exists (item (k_files k) ti). split_and!; try done. symmetry. by apply aset_aget.
Qed.

Lemma only_table_trans ti k1 k2 k3 :
  0 <= ti < alen (k_files k1) -> only_table ti k1 k2 -> only_table ti k2 k3 -> only_table ti k1 k3.
Proof.
  intros Hi (f & E1 & R1 & A1 & A2 & A3 & A4) (g & E2 & R2 & B1 & B2 & B3 & B4).
  exists g. rewrite E2, E1, aset_aset. split_and!; try congruence.
  rewrite R2, E1, item_aset, decide_True by lia. done.
Qed.

Lemma only_table_set_entry ti k fd e : only_table ti k (set_entry k ti fd e).
Proof. eexists. split_and!; try done. Qed.

Lemma only_table_set_ofd ti k o x : 0 <= ti < alen (k_files k) -> only_table ti k (set_ofd k o x).
Proof. intros Hi. apply (only_table_refl ti k Hi). Qed.
#[export] Hint Resolve only_table_refl only_table_set_entry only_table_set_ofd : fd.

Section Ops.
Context {B : Type} `{FileOps B}.

Lemma only_table_close k b ti fd :
  0 <= ti < alen (k_files k) -> only_table ti k (close_step (B:=B) (Some ti) (k, b) fd).1.
Proof.
  intros Hi. unfold close_step, lxp_fd_close. cbn [fst snd].
  destruct (fd_lookup k (Some ti) fd); [|by apply only_table_refl].
  assert (Hk : forall o x, only_table ti k (set_ofd (set_entry k ti fd fd_zero) o x)).
  { intros o x. eapply only_table_trans; [done|apply only_table_set_entry|].
    apply only_table_set_ofd. by rewrite alen_files_set_entry. }
  destruct (_ =? 0); apply Hk.
Qed.

Lemma only_table_alen ti k k' : only_table ti k k' -> alen (k_files k') = alen (k_files k).
Proof. intros (f & -> & _). by rewrite alen_aset. Qed.

Lemma only_table_close_fold ti fds k (b : B) :
  0 <= ti < alen (k_files k) -> only_table ti k (foldl (close_step (Some ti)) (k, b) fds).1.
Proof.
  revert k b. induction fds as [|fd fds IH]; intros k b Hi; cbn [foldl]; [by apply only_table_refl|].
  pose proof (only_table_close k b ti fd Hi) as H1.
  destruct (close_step (Some ti) (k, b) fd) as [k1 b1]. cbn [fst] in H1.
  eapply only_table_trans; [done|exact H1|]. apply IH. by rewrite (only_table_alen ti k).
Qed.

Lemma only_table_close_every ti k (b : B) :
  0 <= ti < alen (k_files k) -> only_table ti k (close_every (Some ti) (k, b)).1.
Proof. apply only_table_close_fold. Qed.

Lemma only_table_open k ti kind backing offset flags :
  0 <= ti < alen (k_files k) -> only_table ti k (lxp_fd_open k (Some ti) kind backing offset flags).2.
Proof.
  intros Hi. unfold lxp_fd_open. repeat case_match; simplify_eq/=; auto with fd.
  eapply only_table_trans; [done|by apply only_table_set_ofd|apply only_table_set_entry].
Qed.
End Ops.

(** ** Retaining a whole table *)

Definition entries (k : kst) (ti : Z) (fds : list Z) : list lxp_fd := map (entry k ti) fds.

Lemma map_aget_seqZ {A} (d : A) l : map (aget d l) (seqZ 0 (alen l)) = l.
Proof.
  apply list_eq. intros i. change (map ?f ?x) with (f <$> x). rewrite list_lookup_fmap.
  destruct (decide (i < length l)%nat) as [Hi|Hi].
  - rewrite (proj2 (lookup_seqZ 0 (alen l) i (Z.of_nat i))) by (unfold alen; lia). simpl.
    unfold aget. rewrite Nat2Z.id, nth_lookup.
    destruct (lookup_lt_is_Some_2 l i Hi) as [x ->]. done.
  - rewrite (lookup_ge_None_2 l i) by lia.
    rewrite (lookup_ge_None_2 (seqZ 0 (alen l)) i) by (rewrite length_seqZ; unfold alen; lia). done.
Qed.

(** What the loop reads: valid entries whose descriptions are live and far from full. *)
Definition retainable (k : kst) (ti : Z) (fds : list Z) : Prop :=
  alen (k_ofd k) = LXP_MAX_OFD /\
  Forall (fun fd => 0 <= fd < LXP_MAX_FDS /\ 0 <= fd_ofd (entry k ti fd) <= LXP_MAX_OFD /\
     (fd_ofd (entry k ti fd) <> 0 -> ofd_refs (ofd_at k (fd_ofd (entry k ti fd) - 1)) <> 0)) fds /\
  forall i, 0 <= i < LXP_MAX_OFD -> 0 <= ofd_refs (ofd_at k i) /\
    ofd_refs (ofd_at k i) + alen fds < 65535.

Lemma lookup_valid k ti fd :
  0 <= fd < LXP_MAX_FDS -> 0 <= fd_ofd (entry k ti fd) <= LXP_MAX_OFD ->
  (fd_ofd (entry k ti fd) <> 0 -> ofd_refs (ofd_at k (fd_ofd (entry k ti fd) - 1)) <> 0) ->
  fd_lookup k (Some ti) fd =
  (if fd_ofd (entry k ti fd) =? 0 then None else Some (fd_ofd (entry k ti fd) - 1)).
Proof.
  intros Hfd Hv Hr. unfold fd_lookup. destruct ((fd <? 0) || (fd >=? LXP_MAX_FDS)) eqn:E; [lia|].
  destruct (Z.eqb_spec (fd_ofd (entry k ti fd)) 0); [done|]. simpl.
  destruct (Z.gtb_spec (fd_ofd (entry k ti fd)) LXP_MAX_OFD); [lia|].
  destruct (Z.eqb_spec (ofd_refs (ofd_at k (fd_ofd (entry k ti fd) - 1))) 0); [|done]. by apply Hr in n.
Qed.

Lemma retain_fold k ti fds :
  retainable k ti fds ->
  let k' := foldl (retain_step (Some ti)) k fds in
  k_files k' = k_files k /\ k_fs_context k' = k_fs_context k /\ k_sighand k' = k_sighand k /\
  k_mm k' = k_mm k /\ k_groups k' = k_groups k /\ alen (k_ofd k') = LXP_MAX_OFD /\
  forall i, 0 <= i < LXP_MAX_OFD ->
    ofd_at k' i = set_ofd_refs (ofd_at k i) (ofd_refs (ofd_at k i) + cnt (entries k ti fds) (i + 1)).
Proof.
  revert k. induction fds as [|fd fds IH]; intros k (H1 & H2 & H3); cbn [foldl].
  { split_and!; try done. intros i Hi. simpl. rewrite Z.add_0_r. by destruct (ofd_at k i). }
  apply Forall_cons in H2 as [(Hfd & Hv & Hr) H2].
  assert (Hstep : retain_step (Some ti) k fd =
    if fd_ofd (entry k ti fd) =? 0 then k
    else let o := fd_ofd (entry k ti fd) - 1 in
         set_ofd k o (set_ofd_refs (ofd_at k o) (u16 (ofd_refs (ofd_at k o) + 1)))).
  { unfold retain_step. rewrite lookup_valid by done. by destruct (_ =? 0). }
  rewrite Hstep. clear Hstep. set (v := fd_ofd (entry k ti fd)) in *.
  unfold alen in H3. cbn [length] in H3.
  destruct (Z.eqb_spec v 0) as [Ez|Ez].
  - destruct (IH k) as (F1 & F2 & F3 & F4 & F5 & F6 & F7).
    { split_and!; try done. intros i Hi. destruct (H3 i Hi). unfold alen. lia. }
    split_and!; try done. intros i Hi. rewrite F7 by done. f_equal. f_equal.
    unfold entries. cbn [map cnt]. fold v. rewrite Ez. unfold ind.
    destruct (Z.eqb_spec 0 (i + 1)); lia.
  - cbv zeta. set (x := set_ofd_refs _ _). set (k1 := set_ofd k (v - 1) x).
    assert (Hu : u16 (ofd_refs (ofd_at k (v - 1)) + 1) = ofd_refs (ofd_at k (v - 1)) + 1).
    { apply u16_small. destruct (H3 (v - 1)); lia. }
    assert (Hat : forall i, 0 <= i -> ofd_at k1 i = if decide (v - 1 = i) then x else ofd_at k i)
      by (intros; unfold k1; apply ofd_at_set; lia).
    assert (Hx : ofd_refs x = ofd_refs (ofd_at k (v - 1)) + 1) by exact Hu.
    destruct (IH k1) as (F1 & F2 & F3 & F4 & F5 & F6 & F7).
    { split_and!.
      - unfold k1, set_ofd. cbn. by rewrite alen_aset.
      - eapply Forall_impl; [exact H2|]. intros fd' (A1 & A2 & A3).
        change (entry k1 ti fd') with (entry k ti fd'). split_and!; try done; try lia.
        intros Hne. specialize (A3 Hne). rewrite Hat by lia.
        destruct (decide _); [destruct (H3 (v - 1)); lia|done].
      - intros i Hi. rewrite Hat by lia. destruct (H3 i Hi), (H3 (v - 1)); [lia|].
        unfold alen. destruct (decide (v - 1 = i)) as [<-|]; rewrite ?Hx; lia. }
    split_and!; try done. intros i Hi. rewrite F7, Hat by lia.
    change (entries k1 ti fds) with (entries k ti fds). unfold entries. cbn [map cnt]. fold v. unfold ind.
    destruct (decide (v - 1 = i)) as [<-|Hne].
    + rewrite Hx. replace (v - 1 + 1) with v by lia. rewrite Z.eqb_refl.
      unfold x. destruct (ofd_at k (v - 1)). cbn. f_equal. lia.
    + destruct (Z.eqb_spec v (i + 1)); [lia|]. f_equal.
Qed.

(** The pre-check passes. *)
Lemma refs_not_full k ti fds : retainable k ti fds -> fds <> [] -> existsb (refs_full k (Some ti)) fds = false.
Proof.
  intros (H1 & H2 & H3) Hne. apply not_true_iff_false. rewrite existsb_exists.
  intros (fd & Hin & Hf). apply list_elem_of_In in Hin. rewrite Forall_forall in H2.
  destruct (H2 fd Hin) as (Hfd & Hv & Hr). unfold refs_full in Hf. rewrite lookup_valid in Hf by done.
  destruct (Z.eqb_spec (fd_ofd (entry k ti fd)) 0); [done|]. apply Z.eqb_eq in Hf.
  destruct (H3 (fd_ofd (entry k ti fd) - 1)); [lia|]. unfold UINT16_MAX, alen in *. destruct fds; [done|].
  cbn [length] in *. lia.
Qed.

(** Copying a table into a fresh slot and retaining it balances the counts. *)
Lemma table_copy_inv k src copy :
  fd_inv k -> 0 <= src < alen (k_files k) -> 0 <= copy < alen (k_files k) -> src <> copy ->
  item (k_files k) copy = files_zero ->
  let k1 := set_k_files k (aset (k_files k) copy (mk_files 1 (files_fd (item (k_files k) src)))) in
  exists k2, lxp_fd_table_retain k1 (Some copy) = (0, k2) /\ fd_inv k2 /\ k_files k2 = k_files k1 /\
    k_fs_context k2 = k_fs_context k /\ k_sighand k2 = k_sighand k /\ k_mm k2 = k_mm k /\
    k_groups k2 = k_groups k.
Proof.
  intros HI Hsrc Hcopy Hne Hz k1. pose proof HI as (H1 & H2 & H3 & H4).
  set (F := files_fd (item (k_files k) src)) in *.
  destruct (item_table_wf k src H3 Hsrc) as [HlF HF]. fold F in HlF, HF.
  assert (Hent : forall fd, entry k1 copy fd = entry k src fd).
  { intros fd. unfold entry, k1. cbn [k_files set_k_files]. rewrite item_aset, decide_True by lia. done. }
  assert (HR : retainable k1 copy all_fds).
  { split_and!; [done| |].
    - apply Forall_forall. intros fd Hfd%elem_of_seqZ. assert (Hfd' : 0 <= fd < LXP_MAX_FDS) by lia.
      rewrite Hent. destruct (fd_lookup_entry k _ src fd HI ltac:(intros; lia) Hsrc Hfd') as [EL Hv].
      split_and!; try done; try lia. intros Hnz. rewrite (proj2 (Z.eqb_neq _ _) Hnz) in EL.
      by apply fd_lookup_some in EL as (? & _ & _ & _ & _ & Hr).
    - intros i Hi. change (ofd_at k1 i) with (ofd_at k i).
      pose proof (refs_range k _ i HI small_zero Hi). unfold all_fds, alen. rewrite length_seqZ.
      unfold LXP_MAX_FDS. lia. }
  destruct (retain_fold k1 copy all_fds HR) as (F1 & F2 & F3 & F4 & F5 & F6 & F7).
  exists (foldl (retain_step (Some copy)) k1 all_fds). split_and!; try done.
  - unfold lxp_fd_table_retain. by rewrite (refs_not_full k1 copy all_fds HR).
  - set (k2 := foldl _ _ _) in *.
    assert (Hcnt : forall v, cnt (entries k1 copy all_fds) v = cnt F v).
    { intros v. unfold entries, all_fds. rewrite (map_ext _ (aget fd_zero F)) by (intros; by rewrite Hent).
      by rewrite <- HlF, map_aget_seqZ. }
    assert (Hfree : forall v, v <> 0 -> cnt (files_fd (item (k_files k) copy)) v = 0)
      by (intros v Hv; rewrite Hz; by apply cnt_files_zero).
    destruct (fd_inv_replace_free k _ copy (mk_files 1 F) HI Hcopy ltac:(done) Hfree) as (J1 & J2 & J3 & J4).
    fold k1 in J1, J2, J3, J4. split_and!; [done|by rewrite F1|by rewrite F1|].
    intros i Hi. rewrite F7 by done. rewrite F1, Hcnt. destruct (J4 i Hi) as [Hr Hzz].
    cbn [files_fd] in Hr. change (ofd_refs (set_ofd_refs ?a ?b)) with b. split; [lia|].
    intros Hs. change (ofd_at k1 i) with (ofd_at k i) in *. pose proof (cnt_bound F (i + 1)) as Hb.
    pose proof (refs_range k _ i HI small_zero Hi) as Hrr.
    assert (Hr0 : ofd_refs (ofd_at k i) = 0) by lia. rewrite (Hzz Hr0).
    assert (Hc0 : cnt F (i + 1) = 0) by lia. rewrite Hc0. done.
Qed.

(** ** Owners of the five pools *)

Definition kinv (k : kst) (fo co so mo go : list (option Z)) : Prop :=
  fd_inv k /\ pool_inv (k_files k) fo /\ pool_inv (k_fs_context k) co /\
  pool_inv (k_sighand k) so /\ pool_inv (k_mm k) mo /\ pool_inv (k_groups k) go.

(** Few enough owners for every count to fit its field. *)
Definition few (ow : list (option Z)) : Prop := alen ow < UINT16_MAX.

Lemma owned_le ow i : owned ow i <= alen ow.
Proof.
  induction ow as [|[j|] t IH]; unfold alen in *; cbn [owned length]; [lia| |lia].
  destruct (j =? i); lia.
Qed.

Lemma few_not_full {T} `{RefCounted T} (l : list T) ow i :
  pool_inv l ow -> few ow -> Some i ∈ ow -> (refs_of (item l i) =? UINT16_MAX) = false.
Proof.
  intros [H1 H2] Hf Hi. destruct (H1 i (H2 i Hi)) as [-> _]. pose proof (owned_le ow i).
  unfold few in Hf. lia.
Qed.

Lemma set_p_files_same p : p_files p = None -> set_p_files p None = p.
Proof. destruct p. simpl. by intros ->. Qed.
Lemma set_p_fs_context_same p : p_fs_context p = None -> set_p_fs_context p None = p.
Proof. destruct p. simpl. by intros ->. Qed.
Lemma set_p_sighand_same p : p_sighand p = None -> set_p_sighand p None = p.
Proof. destruct p. simpl. by intros ->. Qed.
Lemma set_p_mm_same p : p_mm p = None -> set_p_mm p None = p.
Proof. destruct p. simpl. by intros ->. Qed.
Lemma set_p_group_same p : p_group p = None -> set_p_group p None = p.
Proof. destruct p. simpl. by intros ->. Qed.

(** The six parts of the invariant. *)
Ltac kinv_split := unfold kinv; split; [|split; [|split; [|split; [|split]]]].

Section Owners.
Context {B : Type} `{FileOps B}.
Implicit Types (k : kst) (b : B) (p child parent : lxp_proc) (fo co so mo go : list (option Z)).

(** Dropping a table reference; the last one closes every descriptor first. *)
Lemma files_put_inv k b p fo co so mo go :
  kinv k (p_files p :: fo) co so mo go ->
  let '(k', b', p') := files_put k b p in
  kinv k' fo co so mo go /\ p' = set_p_files p None.
Proof.
  intros (HI & Hf & Hc & Hs & Hm & Hg). unfold files_put.
  destruct (p_files p) as [ti|] eqn:Ep; try rewrite Ep in Hf.
  2:{ apply (proj1 (pool_inv_none _ _)) in Hf. split; [by kinv_split|by rewrite set_p_files_same]. }
  pose proof (resource_put_inv _ _ _ Hf) as Hput. unfold resource_put in Hput.
  destruct Hf as [Hr Hin]. assert (Hti : 0 <= ti < alen (k_files k)) by (apply Hin; by left).
  destruct (Hr ti Hti) as [Hrefs _]. cbn [owned] in Hrefs. rewrite Z.eqb_refl in Hrefs.
  pose proof (owned_nonneg fo ti). cbn [refs_of files_refcounted with_refs zero_of] in *.
  set (f := item (k_files k) ti) in *. destruct (Z.eqb_spec (files_refs f) 0); [lia|].
  destruct (Z.gtb_spec (files_refs f) 0); [|lia].
  set (k1 := set_k_files k _).
  assert (HI1 : fd_inv k1).
  { eapply fd_inv_ext; [| |exact HI]; [done|]. by apply map_files_fd_refs. }
  destruct (Z.eqb_spec (files_refs f - 1) 0) as [E|E].
  2:{ split; [|done]. by kinv_split. }
  assert (Hti1 : 0 <= ti < alen (k_files k1)) by (unfold k1; cbn; by rewrite alen_aset).
  pose proof (close_every_spec k1 b _ ti HI1 small_zero Hti1) as HC.
  pose proof (only_table_close_every ti k1 b Hti1) as HO.
  destruct (close_every _ (k1, b)) as [k2 b2]. destruct HC as (I2 & _ & Z2). cbn [fst] in HO.
  destruct HO as (g & E2 & _ & A1 & A2 & A3 & A4).
  assert (Hti2 : 0 <= ti < alen (k_files k2)) by (rewrite E2, alen_aset; done).
  assert (Hl2 : alen (files_fd (item (k_files k2) ti)) = LXP_MAX_FDS)
    by (apply item_table_wf; [apply I2|done]).
  split; [|done]. kinv_split; cbn [k_files k_fs_context k_sighand k_mm k_groups set_k_files].
  - eapply fd_inv_owing_ext; [|apply (fd_inv_replace_free k2 _ ti files_zero I2 Hti2 files_zero_wf)].
    + intros i Hi. cbn beta. rewrite cnt_files_zero by lia. lia.
    + intros v Hv. apply cnt_free; [done|]. intros fd Hfd. apply Z2. lia.
  - rewrite E2, aset_aset. unfold k1. cbn [k_files set_k_files]. by rewrite aset_aset.
  - by rewrite A1.
  - by rewrite A2.
  - by rewrite A3.
  - by rewrite A4.
Qed.

Lemma resources_put_inv k b p fo co so mo go :
  kinv k (p_files p :: fo) (p_fs_context p :: co) (p_sighand p :: so) mo go ->
  let '(k', b', p') := lxp_proc_resources_put k b p in
  kinv k' fo co so mo go /\
  p' = set_p_sighand (set_p_fs_context (set_p_files p None) None) None.
Proof.
  intros HK. unfold lxp_proc_resources_put.
  pose proof (files_put_inv k b p fo _ _ mo go HK) as HF.
  destruct (files_put k b p) as [[k1 b1] p1]. destruct HF as [(HI & Hf & Hc & Hs & Hm & Hg) ->].
  set (p1 := set_p_files p None).
  change (p_fs_context p) with (p_fs_context p1) in Hc. change (p_sighand p) with (p_sighand p1) in Hs.
  assert (H2 : exists k2, (match p_fs_context p1 with
      | Some i => (set_k_fs_context k1 (resource_put (k_fs_context k1) i), set_p_fs_context p1 None)
      | None => (k1, p1) end) = (k2, set_p_fs_context p1 None) /\
      kinv k2 fo co (p_sighand p1 :: so) mo go).
  { destruct (p_fs_context p1) as [i|] eqn:E; eexists; (split; [first [done|by rewrite set_p_fs_context_same]|]).
    - try rewrite E in Hc. kinv_split; try done. by apply resource_put_inv.
    - try rewrite E in Hc. apply (proj1 (pool_inv_none _ _)) in Hc. by kinv_split. }
  destruct H2 as (k2 & -> & (HI2 & Hf2 & Hc2 & Hs2 & Hm2 & Hg2)).
  set (p2 := set_p_fs_context p1 None). change (p_sighand p1) with (p_sighand p2) in Hs2.
  destruct (p_sighand p2) as [i|] eqn:E; (split; [|first [done|by rewrite set_p_sighand_same]]).
  - try rewrite E in Hs2. kinv_split; try done. by apply resource_put_inv.
  - try rewrite E in Hs2. apply (proj1 (pool_inv_none _ _)) in Hs2. by kinv_split.
Qed.

Lemma mm_put_inv k p fo co so mo go :
  kinv k fo co so (p_mm p :: mo) go ->
  kinv (lxp_proc_mm_put k p).1 fo co so mo go /\ (lxp_proc_mm_put k p).2 = set_p_mm p None.
Proof.
  intros (HI & Hf & Hc & Hs & Hm & Hg). unfold lxp_proc_mm_put.
  destruct (p_mm p) as [i|] eqn:E; (split; [|first [done|by rewrite set_p_mm_same]]).
  - try rewrite E in Hm. kinv_split; try done. by apply resource_put_inv.
  - try rewrite E in Hm. apply (proj1 (pool_inv_none _ _)) in Hm. by kinv_split.
Qed.

Lemma group_put_inv k p fo co so mo go :
  kinv k fo co so mo (p_group p :: go) ->
  kinv (lxp_proc_group_put k p).1 fo co so mo go /\ (lxp_proc_group_put k p).2 = set_p_group p None.
Proof.
  intros (HI & Hf & Hc & Hs & Hm & Hg). unfold lxp_proc_group_put.
  destruct (p_group p) as [i|] eqn:E; (split; [|first [done|by rewrite set_p_group_same]]).
  - try rewrite E in Hg. kinv_split; try done. by apply resource_put_inv.
  - try rewrite E in Hg. apply (proj1 (pool_inv_none _ _)) in Hg. by kinv_split.
Qed.

(** A copied table is owned by the child alone and shares every description. *)
Lemma fork_inherit_inv k child src fo co so mo go :
  p_files child = Some src -> Some src ∈ fo -> kinv k fo co so mo go ->
  let '(rc, k', child') := lxp_fd_fork_inherit k child in
  (rc = - LXP_ENOMEM /\ k' = k /\ child' = child) \/
  exists copy, rc = 0 /\ child' = set_p_files child (Some copy) /\ kinv k' (Some copy :: fo) co so mo go /\
    owned fo copy = 0 /\ files_fd (item (k_files k') copy) = files_fd (item (k_files k) src).
Proof.
  intros Ep Hin (HI & Hf & Hc & Hs & Hm & Hg). unfold lxp_fd_fork_inherit. rewrite Ep.
  unfold files_new. destruct (resource_new (k_files k)) as [[copy l]|] eqn:En; [|by left].
  destruct (resource_new_inv _ _ _ _ En Hf) as (Hcopy & -> & Hz & Hown & Hf').
  pose proof (owned_pos fo src Hin). assert (Hne : src <> copy) by (intros ->; lia).
  assert (Hsrc : 0 <= src < alen (k_files k)) by (by apply Hf).
  cbn [k_files set_k_files]. rewrite !item_aset by lia. rewrite decide_True, decide_False by done.
  rewrite aset_aset. set (F := files_fd (item (k_files k) src)).
  change (set_files_fd (with_refs zero_of 1) F) with (mk_files 1 F).
  set (k1 := set_k_files (set_k_files k _) _).
  destruct (table_copy_inv k src copy HI Hsrc Hcopy Hne Hz) as (k2 & E2 & I2 & F2 & A1 & A2 & A3 & A4).
  fold F in E2, F2. change (set_k_files k (aset (k_files k) copy (mk_files 1 F))) with k1 in E2, F2.
  rewrite E2. cbn [negb Z.eqb]. right. exists copy. split; [done|]. split; [done|]. split; [kinv_split; try done|split; [done|]].
  - rewrite F2. unfold k1. cbn [k_files set_k_files].
    by apply (new_filled_inv _ _ _ _ _ En Hf).
  - by rewrite A1.
  - by rewrite A2.
  - by rewrite A3.
  - by rewrite A4.
  - rewrite F2. unfold k1. cbn [k_files set_k_files]. rewrite item_aset, decide_True by lia. done.
Qed.

(** Each stage adds one owner, or fails for want of an object with nothing changed. *)
Lemma fork_files_inv k child pf flags fo co so mo go :
  p_files child = None -> Some pf ∈ fo -> few fo -> kinv k fo co so mo go ->
  let '(ok, rc, k', child') := fork_files k child pf flags in
  if ok : bool then exists t, child' = set_p_files child (Some t) /\ kinv k' (Some t :: fo) co so mo go /\
    (if has flags LXP_CLONE_FILES then t = pf else owned fo t = 0)
  else rc = - LXP_ENOMEM /\ k' = k /\ child' = child.
Proof.
  intros Hnone Hin Hfew HK. pose proof HK as (HI & Hf & Hc & Hs & Hm & Hg). unfold fork_files.
  destruct (has flags LXP_CLONE_FILES).
  - pose proof (few_not_full (k_files k) fo pf Hf Hfew Hin) as E.
    cbn [refs_of files_refcounted] in E. rewrite E. exists pf. split; [by destruct child|].
    assert (Hpf : 0 <= pf < alen (k_files k)) by (by apply Hf).
    split; [|done]. kinv_split; try done; [|by apply resource_share_inv].
    eapply fd_inv_ext; [| |exact HI]; [done|]. by apply map_files_fd_refs.
  - set (c1 := set_p_files _ (Some pf)).
    pose proof (fork_inherit_inv k c1 pf fo co so mo go eq_refl Hin HK) as HF.
    destruct (lxp_fd_fork_inherit k c1) as [[rc k'] c'].
    destruct HF as [(-> & -> & ->)|(t & -> & -> & HK' & Hown & _)]; cbn [negb Z.eqb LXP_ENOMEM Z.opp].
    + split_and!; try done. unfold c1. destruct child. simpl in *. by subst.
    + exists t. split; [by destruct child|]. by split.
Qed.

Lemma fork_context_inv rc k child pc flags fo co so mo go :
  Some pc ∈ co -> few co -> kinv k fo co so mo go ->
  let '(ok, rc', k', child') := fork_context rc k child pc flags in
  if ok : bool then rc' = rc /\ exists t, child' = set_p_fs_context child (Some t) /\
                    kinv k' fo (Some t :: co) so mo go /\ (if has flags LXP_CLONE_FS then t = pc else owned co t = 0)
  else rc' = - LXP_ENOMEM /\ k' = k /\ child' = child.
Proof.
  intros Hin Hfew (HI & Hf & Hc & Hs & Hm & Hg). unfold fork_context.
  destruct (has flags LXP_CLONE_FS).
  - pose proof (few_not_full (k_fs_context k) co pc Hc Hfew Hin) as E.
    cbn [refs_of fs_context_refcounted] in E. rewrite E. split; [done|]. exists pc. split; [done|].
    split; [|done]. kinv_split; try done. by apply resource_share_inv.
  - unfold fs_context_new. destruct (resource_new (k_fs_context k)) as [[i l]|] eqn:En; [|done].
    destruct (resource_new_inv _ _ _ _ En Hc) as (Hi & -> & Hz & Hown & Hc'). split; [done|].
    exists i. split; [done|]. split; [|done]. kinv_split; try done. cbn [k_fs_context set_k_fs_context].
    rewrite !aset_aset. apply (new_filled_inv _ _ _ _ _ En Hc).
    rewrite ?item_aset, ?decide_True by (rewrite ?alen_aset; lia). done.
Qed.

Lemma fork_sighand_inv rc k child ps flags fo co so mo go :
  Some ps ∈ so -> few so -> kinv k fo co so mo go ->
  let '(ok, rc', k', child') := fork_sighand rc k child ps flags in
  if ok : bool then rc' = rc /\ exists t, child' = set_p_sighand child (Some t) /\
                    kinv k' fo co (Some t :: so) mo go /\ (if has flags LXP_CLONE_SIGHAND then t = ps else owned so t = 0)
  else rc' = - LXP_ENOMEM /\ k' = k /\ child' = child.
Proof.
  intros Hin Hfew (HI & Hf & Hc & Hs & Hm & Hg). unfold fork_sighand.
  destruct (has flags LXP_CLONE_SIGHAND).
  - pose proof (few_not_full (k_sighand k) so ps Hs Hfew Hin) as E.
    cbn [refs_of sighand_refcounted] in E. rewrite E. split; [done|]. exists ps. split; [done|].
    split; [|done]. kinv_split; try done. by apply resource_share_inv.
  - unfold sighand_new. destruct (resource_new (k_sighand k)) as [[i l]|] eqn:En; [|done].
    destruct (resource_new_inv _ _ _ _ En Hs) as (Hi & -> & Hz & Hown & Hs'). split; [done|].
    exists i. split; [done|]. split; [|done]. kinv_split; try done. cbn [k_sighand set_k_sighand].
    rewrite !aset_aset. apply (new_filled_inv _ _ _ _ _ En Hs).
    rewrite ?item_aset, ?decide_True by (rewrite ?alen_aset; lia). done.
Qed.

Lemma mm_fork_inv k child parent pm flags fo co so mo go :
  p_mm parent = Some pm -> Some pm ∈ mo -> few mo -> kinv k fo co so mo go ->
  let '(rc, k', child') := lxp_proc_mm_fork k child parent flags in
  (rc = - LXP_ENOMEM /\ k' = k /\ child' = set_p_mm child None) \/
  exists t, rc = 0 /\ child' = set_p_mm child (Some t) /\ kinv k' fo co so (Some t :: mo) go /\
    (if has flags LXP_CLONE_VM then t = pm else owned mo t = 0).
Proof.
  intros Ep Hin Hfew (HI & Hf & Hc & Hs & Hm & Hg). unfold lxp_proc_mm_fork. rewrite Ep.
  destruct (has flags LXP_CLONE_VM).
  - pose proof (few_not_full (k_mm k) mo pm Hm Hfew Hin) as E.
    cbn [refs_of mm_refcounted] in E. rewrite E. right. exists pm. split; [done|]. split; [by destruct child|].
    split; [|done]. kinv_split; try done. by apply resource_share_inv.
  - unfold mm_new. destruct (resource_new (k_mm k)) as [[i l]|] eqn:En; [|by left].
    destruct (resource_new_inv _ _ _ _ En Hm) as (Hi & -> & Hz & Hown & Hm'). right.
    exists i. split; [done|]. split; [by destruct child|]. split; [|done]. kinv_split; try done. cbn [k_mm set_k_mm].
    rewrite !aset_aset. apply (new_filled_inv _ _ _ _ _ En Hm).
    change (refs_of (set_mm_refs ?a ?n)) with n.
    rewrite ?item_aset, ?decide_True by (rewrite ?alen_aset; lia). done.
Qed.

Lemma group_fork_inv k child parent pg flags pid fo co so mo go :
  p_group parent = Some pg -> 0 < pid -> Some pg ∈ go -> few go -> kinv k fo co so mo go ->
  let '(rc, k', child') := lxp_proc_group_fork k child parent flags pid in
  (rc = - LXP_ENOMEM /\ k' = k /\ child' = set_p_group child None) \/
  exists t, rc = 0 /\ child' = set_p_group child (Some t) /\ kinv k' fo co so mo (Some t :: go) /\
    (if has flags LXP_CLONE_THREAD then t = pg else owned go t = 0).
Proof.
  intros Ep Hpid Hin Hfew (HI & Hf & Hc & Hs & Hm & Hg). unfold lxp_proc_group_fork. rewrite Ep.
  destruct (Z.leb_spec pid 0); [lia|]. destruct (has flags LXP_CLONE_THREAD).
  - pose proof (few_not_full (k_groups k) go pg Hg Hfew Hin) as E.
    cbn [refs_of group_refcounted] in E. rewrite E. right. exists pg. split; [done|]. split; [by destruct child|].
    split; [|done]. kinv_split; try done. by apply resource_share_inv.
  - unfold group_new. destruct (resource_new (k_groups k)) as [[i l]|] eqn:En; [|by left].
    destruct (resource_new_inv _ _ _ _ En Hg) as (Hi & -> & Hz & Hown & Hg'). right.
    exists i. split; [done|]. split; [by destruct child|]. split; [|done]. kinv_split; try done. cbn [k_groups set_k_groups].
    rewrite !aset_aset. apply (new_filled_inv _ _ _ _ _ En Hg).
    rewrite ?item_aset, ?decide_True by (rewrite ?alen_aset; lia). done.
Qed.
End Owners.
