(* ===== verification/ProcessProps.v ===== *)
(** * Theorems on process creation and release

    Against the list of live tasks: forking adds one owner to each pool or leaves them
    balanced, releasing removes exactly the task's own references. *)

From S2P Require Import Prelude Config Proc Pool Fd FdSpec FdProps Arena Process ProcessSpec.
Local Open Scope Z_scope.

(** Follow the checks of a known return code. *)
Ltac run_rc :=
  repeat progress (try change (- LXP_ENOMEM =? 0) with false; try change (0 =? 0) with true;
                   cbv beta iota; cbn [negb]).

(** The pools are exactly owned by the tasks [ps]. *)
Definition proc_inv (k : kst) (ps : list lxp_proc) : Prop :=
  kinv k (map p_files ps) (map p_fs_context ps) (map p_sighand ps) (map p_mm ps) (map p_group ps).

(** A record that holds no object of any pool. *)
Definition owns_nothing (p : lxp_proc) : Prop :=
  p_files p = None /\ p_fs_context p = None /\ p_sighand p = None /\ p_mm p = None /\ p_group p = None.

(** A record that holds one of each. *)
Definition owns_each (p : lxp_proc) : Prop :=
  p_files p <> None /\ p_fs_context p <> None /\ p_sighand p <> None /\ p_mm p <> None /\ p_group p <> None.

(** No more tasks than process slots. *)
Definition few_procs (ps : list lxp_proc) : Prop := alen ps <= LXP_NSLOT.

Lemma few_procs_map {C} (f : lxp_proc -> C) ps : few_procs ps -> alen (map f ps) < UINT16_MAX.
Proof.
  unfold few_procs, alen, UINT16_MAX, LXP_NSLOT, LXP_NREG. rewrite length_map. lia.
Qed.

Lemma in_owners {C} (f : lxp_proc -> option C) ps p x : p ∈ ps -> f p = Some x -> Some x ∈ map f ps.
Proof. intros Hp <-. by apply list_elem_of_fmap_2. Qed.

Section Fork.
Context {B : Type} `{FileOps B}.
Implicit Types (k : kst) (b : B) (child parent : lxp_proc) (ps : list lxp_proc).

(** The child's references after a successful stage sequence, or everything undone. *)
Lemma resources_fork_inv k b child parent flags fo co so mo go pf pc psh :
  p_files parent = Some pf -> p_fs_context parent = Some pc -> p_sighand parent = Some psh ->
  Some pf ∈ fo -> Some pc ∈ co -> Some psh ∈ so -> few fo -> few co -> few so ->
  kinv k fo co so mo go ->
  let '(rc, k', b', child') := lxp_proc_resources_fork k b child parent flags in
  (rc = - LXP_ENOMEM /\ kinv k' fo co so mo go /\
   child' = set_p_sighand (set_p_fs_context (set_p_files child None) None) None) \/
  exists t u v, rc = 0 /\ kinv k' (Some t :: fo) (Some u :: co) (Some v :: so) mo go /\
    child' = set_p_sighand (set_p_fs_context (set_p_files child (Some t)) (Some u)) (Some v) /\
    (has flags LXP_CLONE_FILES = true -> t = pf) /\ (has flags LXP_CLONE_FS = true -> u = pc) /\
    (has flags LXP_CLONE_SIGHAND = true -> v = psh).
Proof.
  intros Ef Ec Es If Ic Is Ff Fc Fs HK. unfold lxp_proc_resources_fork. rewrite Ef, Ec, Es.
  set (c0 := set_p_sighand _ None).
  pose proof (fork_files_inv k c0 pf flags fo co so mo go eq_refl If Ff HK) as H1.
  destruct (fork_files k c0 pf flags) as [[[ok1 rc1] k1] c1]. destruct ok1; cbn [negb].
  2:{ destruct H1 as (-> & -> & ->). unfold fork_fail.
      assert (HK' : kinv k (p_files c0 :: fo) (p_fs_context c0 :: co) (p_sighand c0 :: so) mo go).
      { destruct HK as (? & ? & ? & ? & ? & ?). kinv_split; try done; by apply pool_inv_none. }
      pose proof (resources_put_inv k b c0 fo co so mo go HK') as HP.
      destruct (lxp_proc_resources_put k b c0) as [[k' b'] c']. destruct HP as [HP ->].
      left. split_and!; [done|done|by destruct child]. }
  destruct H1 as (t & -> & HK1 & Ht).
  pose proof (fork_context_inv rc1 k1 (set_p_files c0 (Some t)) pc flags (Some t :: fo) co so mo go Ic Fc HK1) as H2.
  destruct (fork_context rc1 k1 _ pc flags) as [[[ok2 rc2] k2] c2]. destruct ok2; cbn [negb].
  2:{ destruct H2 as (-> & -> & ->). unfold fork_fail. set (c1 := set_p_files c0 (Some t)).
      assert (HK' : kinv k1 (p_files c1 :: fo) (p_fs_context c1 :: co) (p_sighand c1 :: so) mo go).
      { destruct HK1 as (? & ? & ? & ? & ? & ?). kinv_split; try done; by apply pool_inv_none. }
      pose proof (resources_put_inv k1 b c1 fo co so mo go HK') as HP.
      destruct (lxp_proc_resources_put k1 b c1) as [[k' b'] c']. destruct HP as [HP ->].
      left. split_and!; [done|done|by destruct child]. }
  destruct H2 as (-> & u & -> & HK2 & Hu). set (c2 := set_p_fs_context _ (Some u)).
  pose proof (fork_sighand_inv rc1 k2 c2 psh flags (Some t :: fo) (Some u :: co) so mo go Is Fs HK2) as H3.
  destruct (fork_sighand rc1 k2 c2 psh flags) as [[[ok3 rc3] k3] c3]. destruct ok3; cbn [negb].
  2:{ destruct H3 as (-> & -> & ->). unfold fork_fail.
      assert (HK' : kinv k2 (p_files c2 :: fo) (p_fs_context c2 :: co) (p_sighand c2 :: so) mo go).
      { destruct HK2 as (? & ? & ? & ? & ? & ?). kinv_split; try done; by apply pool_inv_none. }
      pose proof (resources_put_inv k2 b c2 fo co so mo go HK') as HP.
      destruct (lxp_proc_resources_put k2 b c2) as [[k' b'] c']. destruct HP as [HP ->].
      left. split_and!; [done|done|by destruct child]. }
  destruct H3 as (-> & v & -> & HK3 & Hv). right. exists t, u, v. split; [done|]. split; [done|].
  split; [by destruct child|]. split_and!; intros E; rewrite E in *; done.
Qed.

(** A record that holds nothing adds nothing. *)
Lemma kinv_none5 k fo co so mo go :
  kinv k fo co so mo go ->
  kinv k (None :: fo) (None :: co) (None :: so) (None :: mo) (None :: go).
Proof. intros (? & ? & ? & ? & ? & ?). kinv_split; try done; by apply pool_inv_none. Qed.

(** Releasing a child record that owns up to one object of each pool. *)
Lemma discard_inv k b child fo co so mo go :
  kinv k (p_files child :: fo) (p_fs_context child :: co) (p_sighand child :: so)
    (p_mm child :: mo) (p_group child :: go) ->
  let '(k', b', child') := lxp_proc_child_discard k b child in
  kinv k' fo co so mo go /\ child' = proc_child_reset child.
Proof.
  intros HK. unfold lxp_proc_child_discard.
  pose proof (resources_put_inv k b child fo co so _ _ HK) as HR.
  destruct (lxp_proc_resources_put k b child) as [[k1 b1] c1]. destruct HR as [HK1 ->].
  set (c1 := set_p_sighand _ None). change (p_mm child) with (p_mm c1) in HK1.
  change (p_group child) with (p_group c1) in HK1.
  pose proof (mm_put_inv k1 c1 fo co so mo _ HK1) as HM.
  destruct (lxp_proc_mm_put k1 c1) as [k2 c2]. cbn [fst snd] in HM. destruct HM as [HK2 ->].
  set (c2 := set_p_mm c1 None). change (p_group c1) with (p_group c2) in HK2.
  pose proof (group_put_inv k2 c2 fo co so mo go HK2) as HG.
  destruct (lxp_proc_group_put k2 c2) as [k3 c3]. cbn [fst snd] in HG. destruct HG as [HK3 ->]. done.
Qed.

(** A new task holds one reference of each pool, or nothing was taken and the record is as
    it was or cleared. *)
Lemma init_child_inv k b child parent flags pid (thread : bool) ps :
  proc_inv k ps -> few_procs ps -> parent ∈ ps ->
  let '(rc, k', b', child') := proc_init_child k b child parent flags pid thread in
  (rc <> 0 /\ proc_inv k' ps /\ (child' = child \/ child' = proc_child_reset child)) \/
  (rc = 0 /\ proc_inv k' (child' :: ps) /\ p_pid child' = pid /\ p_alive child' = 0 /\ p_snapshot child' = lxp_region_ref_none /\
   (has flags LXP_CLONE_VM = true -> p_mm child' = p_mm parent) /\
   (has flags LXP_CLONE_FILES = true -> p_files child' = p_files parent) /\
   (has flags LXP_CLONE_FS = true -> p_fs_context child' = p_fs_context parent) /\
   (has flags LXP_CLONE_SIGHAND = true -> p_sighand child' = p_sighand parent) /\
   (has flags LXP_CLONE_THREAD = true -> p_group child' = p_group parent)).
Proof.
  intros HK Hfew Hin. unfold proc_init_child.
  destruct (p_mm parent) as [pm|] eqn:Em; [|by (left; auto)].
  destruct (p_files parent) as [pf|] eqn:Ef; [|by (left; auto)].
  destruct (p_fs_context parent) as [pc|] eqn:Ec; [|by (left; auto)].
  destruct (p_sighand parent) as [psh|] eqn:Es; [|by (left; auto)].
  destruct (p_group parent) as [pg|] eqn:Eg; [|by (left; auto)].
  destruct (Z.leb_spec pid 0); [by (left; auto)|]. destruct (_ && _); [by (left; auto)|].
  destruct (if thread then _ else _); [by (left; auto)|].
  set (c0 := proc_child_copy_values child parent pid). unfold proc_inv in HK.
  set (fo := map p_files ps) in *. set (co := map p_fs_context ps) in *. set (so := map p_sighand ps) in *.
  set (mo := map p_mm ps) in *. set (go := map p_group ps) in *.
  assert (Fm : few mo) by apply (few_procs_map p_mm ps Hfew).
  assert (Ff : few fo) by apply (few_procs_map p_files ps Hfew).
  assert (Fc : few co) by apply (few_procs_map p_fs_context ps Hfew).
  assert (Fs : few so) by apply (few_procs_map p_sighand ps Hfew).
  assert (Fg : few go) by apply (few_procs_map p_group ps Hfew).
  pose proof (mm_fork_inv k c0 parent pm flags fo co so mo go Em (in_owners p_mm ps _ _ Hin Em) Fm HK) as H1.
  destruct (lxp_proc_mm_fork k c0 parent flags) as [[rc1 k1] c1].
  destruct H1 as [(-> & -> & ->)|(t & -> & -> & HK1 & Ht)]; run_rc.
  { pose proof (discard_inv k b (set_p_mm c0 None) fo co so mo go (kinv_none5 _ _ _ _ _ _ HK)) as HD.
    destruct (lxp_proc_child_discard k b _) as [[k' b'] c']. left. split; [done|]. split; [exact (proj1 HD)|right; exact (proj2 HD)]. }
  set (c1 := set_p_mm c0 (Some t)).
  pose proof (resources_fork_inv k1 b c1 parent flags fo co so (Some t :: mo) go pf pc psh Ef Ec Es
    (in_owners p_files ps _ _ Hin Ef) (in_owners p_fs_context ps _ _ Hin Ec)
    (in_owners p_sighand ps _ _ Hin Es) Ff Fc Fs HK1) as H2.
  destruct (lxp_proc_resources_fork k1 b c1 parent flags) as [[[rc2 k2] b2] c2].
  destruct H2 as [(-> & HK2 & ->)|(t1 & t2 & t3 & -> & HK2 & -> & G1 & G2 & G3)];
    run_rc.
  { set (c2 := set_p_sighand _ None).
    assert (HK2' : kinv k2 (p_files c2 :: fo) (p_fs_context c2 :: co) (p_sighand c2 :: so)
                     (p_mm c2 :: mo) (p_group c2 :: go)).
    { destruct HK2 as (? & ? & ? & ? & ? & ?). kinv_split; try done; by apply pool_inv_none. }
    pose proof (discard_inv k2 b2 c2 fo co so mo go HK2') as HD.
    destruct (lxp_proc_child_discard k2 b2 c2) as [[k' b'] c']. left. split; [done|]. split; [exact (proj1 HD)|right; exact (proj2 HD)]. }
  set (c2 := set_p_sighand _ (Some t3)).
  pose proof (group_fork_inv k2 c2 parent pg flags pid _ _ _ _ go Eg ltac:(lia)
    (in_owners p_group ps _ _ Hin Eg) Fg HK2) as H3.
  destruct (lxp_proc_group_fork k2 c2 parent flags pid) as [[rc3 k3] c3].
  destruct H3 as [(-> & -> & ->)|(t4 & -> & -> & HK3 & Hg)]; run_rc.
  { set (c3 := set_p_group c2 None).
    assert (HK3' : kinv k2 (p_files c3 :: fo) (p_fs_context c3 :: co) (p_sighand c3 :: so)
                     (p_mm c3 :: mo) (p_group c3 :: go)).
    { destruct HK2 as (? & ? & ? & ? & ? & ?). kinv_split; try done; by apply pool_inv_none. }
    pose proof (discard_inv k2 b2 c3 fo co so mo go HK3') as HD.
    destruct (lxp_proc_child_discard k2 b2 c3) as [[k' b'] c']. left. split; [done|]. split; [exact (proj1 HD)|right; exact (proj2 HD)]. }
  right. split; [done|]. split; [exact HK3|]. split; [done|].
  split; [done|]. split; [done|].
  split_and!; intros E; rewrite ?E in *; cbn; f_equal; auto.
Qed.

(** Creating a process or thread is transactional.  On success the new task holds
    exactly one reference in each of the five pools (address space, descriptor table, cwd
    context, signal dispositions, thread group), sharing the parent's object exactly where
    the clone flags say so; on any failure every reference acquired on the way is
    released, so the pools are again exactly owned by the tasks that existed before. *)
Theorem fork_is_transactional k b child parent flags pid (thread : bool) ps :
  proc_inv k ps -> few_procs ps -> parent ∈ ps ->
  let '(rc, k', b', child') := proc_init_child k b child parent flags pid thread in
  (rc <> 0 /\ proc_inv k' ps) \/
  (rc = 0 /\ proc_inv k' (child' :: ps) /\ p_pid child' = pid /\
   (has flags LXP_CLONE_VM = true -> p_mm child' = p_mm parent) /\
   (has flags LXP_CLONE_FILES = true -> p_files child' = p_files parent) /\
   (has flags LXP_CLONE_FS = true -> p_fs_context child' = p_fs_context parent) /\
   (has flags LXP_CLONE_SIGHAND = true -> p_sighand child' = p_sighand parent) /\
   (has flags LXP_CLONE_THREAD = true -> p_group child' = p_group parent)).
Proof.
  intros HK Hfew Hin. pose proof (init_child_inv k b child parent flags pid thread ps HK Hfew Hin) as Hi.
  destruct (proc_init_child _ _ _ _ _ _ _) as [[[rc k'] b'] child']. naive_solver.
Qed.

(** Releasing a task's resources takes away exactly its own references: the pools are
    left exactly owned by the other tasks, objects it alone held are cleared, and with the
    last user of a descriptor table every descriptor in it is closed. *)
Theorem discard_releases_own_references k b child ps :
  proc_inv k (child :: ps) ->
  let '(k', b', child') := lxp_proc_child_discard k b child in
  proc_inv k' ps /\ p_mm child' = None /\ p_files child' = None /\ p_fs_context child' = None /\
  p_sighand child' = None /\ p_group child' = None.
Proof.
  intros HK. pose proof (discard_inv k b child _ _ _ _ _ HK) as HD.
  destruct (lxp_proc_child_discard k b child) as [[k' b'] c']. destruct HD as [HD ->]. done.
Qed.

(** ** The initial task *)

Lemma take_new_mm k fo co so mo go :
  kinv k fo co so mo go ->
  let '(o, k') := take_new (mm_new k) k in kinv k' fo co so (o :: mo) go.
Proof.
  intros (? & ? & ? & ? & Hm & ?). unfold take_new, mm_new.
  destruct (resource_new (k_mm k)) as [[i l]|] eqn:E; [|kinv_split; try done; by apply pool_inv_none].
  destruct (resource_new_inv _ _ _ _ E Hm) as (Hi & -> & _). kinv_split; try done.
  cbn [k_mm set_k_mm]. rewrite aset_aset. apply (new_filled_inv _ _ _ _ _ E Hm).
  rewrite item_aset, decide_True by lia. done.
Qed.

Lemma take_new_group k fo co so mo go :
  kinv k fo co so mo go ->
  let '(o, k') := take_new (group_new k) k in kinv k' fo co so mo (o :: go).
Proof.
  intros (? & ? & ? & ? & ? & Hg). unfold take_new, group_new.
  destruct (resource_new (k_groups k)) as [[i l]|] eqn:E; kinv_split; try done.
  - by apply (resource_new_inv _ _ _ _ E Hg).
  - by apply pool_inv_none.
Qed.

Lemma take_new_sighand k fo co so mo go :
  kinv k fo co so mo go ->
  let '(o, k') := take_new (sighand_new k) k in kinv k' fo co (o :: so) mo go.
Proof.
  intros (? & ? & ? & Hs & ? & ?). unfold take_new, sighand_new.
  destruct (resource_new (k_sighand k)) as [[i l]|] eqn:E; kinv_split; try done.
  - by apply (resource_new_inv _ _ _ _ E Hs).
  - by apply pool_inv_none.
Qed.

Lemma take_new_fs_context k fo co so mo go :
  kinv k fo co so mo go ->
  let '(o, k') := take_new (fs_context_new k) k in kinv k' fo (o :: co) so mo go.
Proof.
  intros (? & ? & Hc & ? & ? & ?). unfold take_new, fs_context_new.
  destruct (resource_new (k_fs_context k)) as [[i l]|] eqn:E; [|kinv_split; try done; by apply pool_inv_none].
  destruct (resource_new_inv _ _ _ _ E Hc) as (Hi & -> & _). kinv_split; try done.
  cbn [k_fs_context set_k_fs_context]. rewrite aset_aset. apply (new_filled_inv _ _ _ _ _ E Hc).
  rewrite item_aset, decide_True by lia. done.
Qed.

Lemma take_new_files k fo co so mo go :
  kinv k fo co so mo go ->
  let '(o, k') := take_new (files_new k) k in kinv k' (o :: fo) co so mo go.
Proof.
  intros (HI & Hf & ? & ? & ? & ?). unfold take_new, files_new.
  destruct (resource_new (k_files k)) as [[i l]|] eqn:E; [|kinv_split; try done; by apply pool_inv_none].
  destruct (resource_new_inv _ _ _ _ E Hf) as (Hi & -> & Hz & _ & Hf'). kinv_split; try done.
  eapply fd_inv_ext; [| |exact HI]; [done|]. apply map_files_fd_refs; [done|]. by rewrite Hz.
Qed.

Lemma init_unwind_inv k b p fo co so mo go :
  kinv k (p_files p :: fo) (p_fs_context p :: co) (p_sighand p :: so) (p_mm p :: mo) (p_group p :: go) ->
  kinv (init_unwind k b p).1.1 fo co so mo go /\ owns_nothing (init_unwind k b p).2.
Proof.
  intros HK. unfold init_unwind.
  pose proof (resources_put_inv k b p fo co so _ _ HK) as HR.
  destruct (lxp_proc_resources_put k b p) as [[k1 b1] p1]. destruct HR as [HK1 ->].
  set (p1 := set_p_sighand _ None).
  pose proof (mm_put_inv k1 p1 fo co so mo _ HK1) as HM.
  destruct (lxp_proc_mm_put k1 p1) as [k2 p2]. cbn [fst snd] in HM. destruct HM as [HK2 ->].
  pose proof (group_put_inv k2 (set_p_mm p1 None) fo co so mo go HK2) as HG.
  destruct (lxp_proc_group_put k2 (set_p_mm p1 None)) as [k3 p3]. cbn [fst snd] in *. by destruct HG as [HK3 ->].
Qed.

(** Installing a descriptor of a kind that needs no node. *)
Lemma install_inv k b ti kind idx flags fo co so mo go :
  kind <> LXP_FD_TMPFS -> Some ti ∈ fo -> kinv k fo co so mo go ->
  kinv (lxp_fd_install k b (Some ti) kind idx flags).1.2 fo co so mo go.
Proof.
  intros Hk Hin (HI & Hf & Hc & Hs & Hm & Hg). unfold lxp_fd_install, lxp_sys_fd_alloc.
  destruct (Z.eqb_spec kind LXP_FD_TMPFS); [done|]. cbn [negb Z.eqb].
  assert (Hti : 0 <= ti < alen (k_files k)) by (by apply Hf).
  pose proof (fd_open_spec k (Some ti) kind idx 0 flags HI Hti) as HO.
  pose proof (only_table_open k ti kind idx 0 flags Hti) as HT.
  destruct (lxp_fd_open k (Some ti) kind idx 0 flags) as [fd k']. destruct HO as (HI' & _).
  cbn [fst snd] in *. destruct HT as (f & E & Hr & E1 & E2 & E3 & E4).
  kinv_split; rewrite ?E1, ?E2, ?E3, ?E4; try done. rewrite E. pose proof (owned_pos fo ti Hin).
  apply pool_inv_update; try done. destruct Hf as [Hf _]. destruct (Hf ti Hti) as [-> _]. done.
Qed.

(** Rewriting an owned object. *)
Lemma kinv_mm_update k fo co so mo go i x :
  Some i ∈ mo -> mm_refs x = mm_refs (item (k_mm k) i) -> kinv k fo co so mo go ->
  kinv (set_k_mm k (aset (k_mm k) i x)) fo co so mo go.
Proof.
  intros Hin Hr (? & ? & ? & ? & Hm & ?). kinv_split; try done. pose proof (owned_pos mo i Hin).
  assert (Hi : 0 <= i < alen (k_mm k)) by (by apply Hm).
  apply pool_inv_update; try done. destruct Hm as [Hm _]. destruct (Hm i Hi) as [-> _]. done.
Qed.

Lemma kinv_group_update k fo co so mo go i x :
  Some i ∈ go -> tg_refs x = tg_refs (item (k_groups k) i) -> kinv k fo co so mo go ->
  kinv (set_k_groups k (aset (k_groups k) i x)) fo co so mo go.
Proof.
  intros Hin Hr (? & ? & ? & ? & ? & Hg). kinv_split; try done. pose proof (owned_pos go i Hin).
  assert (Hi : 0 <= i < alen (k_groups k)) by (by apply Hg).
  apply pool_inv_update; try done. destruct Hg as [Hg _]. destruct (Hg i Hi) as [-> _]. done.
Qed.

Lemma proc_init_inv k b m A arena brk_bytes ps :
  proc_inv k ps ->
  let '(rc, k', b', m', A', p) := lxp_proc_init k b m A arena brk_bytes in
  (rc = - LXP_ENOMEM /\ proc_inv k' ps /\ owns_nothing p) \/ (rc = 0 /\ proc_inv k' (p :: ps) /\ p_pid p = 1 /\ owns_each p).
Proof.
  intros HK. unfold proc_inv in HK. unfold lxp_proc_init.
  set (fo := map p_files ps) in *. set (co := map p_fs_context ps) in *. set (so := map p_sighand ps) in *.
  set (mo := map p_mm ps) in *. set (go := map p_group ps) in *.
  apply take_new_mm in HK. destruct (take_new (mm_new k) k) as [mm k1].
  apply take_new_group in HK. destruct (take_new (group_new k1) k1) as [grp k2].
  apply take_new_files in HK. destruct (take_new (files_new k2) k2) as [fls k3].
  apply take_new_fs_context in HK. destruct (take_new (fs_context_new k3) k3) as [fsc k4].
  apply take_new_sighand in HK. destruct (take_new (sighand_new k4) k4) as [sh k5].
  set (p0 := set_p_sighand _ sh).
  assert (Hun : forall k' b' (m' : mem) (A' : lxp_arena) p', p_files p' = fls -> p_fs_context p' = fsc -> p_sighand p' = sh ->
    p_mm p' = mm -> p_group p' = grp -> kinv k' (fls :: fo) (fsc :: co) (sh :: so) (mm :: mo) (grp :: go) ->
    let '(rc, k'', _, _, _, p) := (let '(k, b, p) := init_unwind k' b' p' in (- LXP_ENOMEM, k, b, m', A', p)) in
    (rc = - LXP_ENOMEM /\ proc_inv k'' ps /\ owns_nothing p) \/ (rc = 0 /\ proc_inv k'' (p :: ps) /\ p_pid p = 1 /\ owns_each p)).
  { intros k' b' m' A' p' <- <- <- <- <- HK'. pose proof (init_unwind_inv k' b' p' _ _ _ _ _ HK') as HU.
    destruct (init_unwind k' b' p') as [[k'' b''] p'']. left. split; [done|exact HU]. }
  destruct mm as [mi|]; [|by apply Hun]. destruct grp as [gi|]; [|by apply Hun].
  destruct fls as [fi|]; [|by apply Hun]. destruct fsc as [ci|]; [|by apply Hun].
  destruct sh as [si|]; [|by apply Hun].
  set (k6 := set_k_mm k5 _). set (p1 := set_p_pid p0 1). set (k7 := set_k_groups k6 _).
  assert (HK7 : kinv k7 (Some fi :: fo) (Some ci :: co) (Some si :: so) (Some mi :: mo) (Some gi :: go)).
  { apply kinv_group_update; [by left|done|]. apply kinv_mm_update; [by left|done|done]. }
  change (p_files p1) with (Some fi).
  assert (Hins : forall k' b' i, kinv k' (Some fi :: fo) (Some ci :: co) (Some si :: so) (Some mi :: mo) (Some gi :: go) ->
    kinv (lxp_fd_install k' b' (Some fi) LXP_FD_CONSOLE i LXP_O_RDWR).1.2
      (Some fi :: fo) (Some ci :: co) (Some si :: so) (Some mi :: mo) (Some gi :: go))
    by (intros; apply install_inv; [done|by left|done]).
  pose proof (Hins k7 b 0 HK7) as HK8.
  destruct (lxp_fd_install k7 b (Some fi) LXP_FD_CONSOLE 0 LXP_O_RDWR) as [[f0 k8] b8]. cbn [fst snd] in HK8.
  destruct (f0 =? 0); cbn [negb]; [|by apply Hun].
  pose proof (Hins k8 b8 1 HK8) as HK9.
  destruct (lxp_fd_install k8 b8 (Some fi) LXP_FD_CONSOLE 1 LXP_O_RDWR) as [[f1 k9] b9]. cbn [fst snd] in HK9.
  destruct (f1 =? 1); cbn [negb]; [|by apply Hun].
  pose proof (Hins k9 b9 1 HK9) as HK10.
  destruct (lxp_fd_install k9 b9 (Some fi) LXP_FD_CONSOLE 1 LXP_O_RDWR) as [[f2 k10] b10]. cbn [fst snd] in HK10.
  destruct (f2 =? 2); cbn [negb]; [|by apply Hun].
  destruct (brk_bytes =? 0); [by right|].
  destruct (lxp_arena_alloc m A brk_bytes) as [[brk m'] A']. destruct (brk =? 0); [by apply Hun|].
  right. split; [done|]. split; [apply kinv_mm_update; [by left|done|done]|done].
Qed.
(** Initialising the first task is transactional too: it returns 0 with one object of
    each pool owned by the task and its standard streams installed, or ENOMEM with every
    object it had taken released again. *)
Theorem proc_init_transactional k b m A arena brk_bytes ps :
  proc_inv k ps ->
  let '(rc, k', b', m', A', p) := lxp_proc_init k b m A arena brk_bytes in
  (rc = - LXP_ENOMEM /\ proc_inv k' ps /\ owns_nothing p) \/ (rc = 0 /\ proc_inv k' (p :: ps) /\ p_pid p = 1 /\ owns_each p).
Proof. apply proc_init_inv. Qed.
End Fork.

(** ** Witnesses *)

Definition boot_kst : kst := lxp_proc_runtime_reset kst_zero.

Lemma pool_inv_empty {T} `{RefCounted T} n : pool_inv (replicate n zero_of) [].
Proof.
  split; [|by intros i ?%not_elem_of_nil]. intros i Hi. unfold item, aget, alen in *.
  rewrite length_replicate in Hi. rewrite nth_lookup, lookup_replicate_2 by lia. simpl.
  by rewrite refs_zero.
Qed.

Lemma boot_kst_inv : proc_inv boot_kst [].
Proof.
  unfold proc_inv. cbn [map]. kinv_split; [|exact (pool_inv_empty _)..].
  eapply fd_inv_ext; [| |exact kst_zero_inv]; done.
Qed.

Definition demo_arena : lxp_arena :=
  let '(_, _, A) := lxp_arena_init (fun _ => 0) arena_zero 4096 4096 in A.
Definition demo_amem : mem :=
  let '(_, m, _) := lxp_arena_init (fun _ => 0) arena_zero 4096 4096 in m.

Lemma proc_init_transactional_witness :
  let '(rc, k', b', m', A', p) := lxp_proc_init boot_kst (@nil lxp_ofd) demo_amem demo_arena 64 256 in
  rc = 0 /\ proc_inv k' [p].
Proof.
  pose proof (proc_init_transactional boot_kst (@nil lxp_ofd) demo_amem demo_arena 64 256 []
                boot_kst_inv) as H.
  assert (Hrc : (lxp_proc_init boot_kst (@nil lxp_ofd) demo_amem demo_arena 64 256).1.1.1.1.1 = 0)
    by (vm_compute; reflexivity).
  destruct (lxp_proc_init boot_kst _ demo_amem demo_arena 64 256) as [[[[[rc k'] b'] m'] A'] p].
  cbn [fst] in Hrc. subst rc. split; [reflexivity|].
  destruct H as [[H _]|(_ & H & _)]; [vm_compute in H; congruence|exact H].
Defined.

(** The first task, booted on empty pools. *)
Definition boot : Z * kst * list lxp_ofd * mem * lxp_arena * lxp_proc :=
  lxp_proc_init boot_kst [] demo_amem demo_arena 64 256.
Definition boot_k : kst := boot.1.1.1.1.2.
Definition boot_proc : lxp_proc := boot.2.

Lemma boot_cases :
  let '(rc, k', b', m', A', p) := boot in
  (rc = - LXP_ENOMEM /\ proc_inv k' [] /\ owns_nothing p) \/ (rc = 0 /\ proc_inv k' [p] /\ p_pid p = 1 /\ owns_each p).
Proof. unfold boot. apply proc_init_inv. exact boot_kst_inv. Qed.

Lemma boot_inv : proc_inv boot_k [boot_proc].
Proof.
  assert (Hrc : boot.1.1.1.1.1 = 0) by (vm_compute; reflexivity).
  pose proof boot_cases as H. unfold boot_k, boot_proc.
  destruct boot as [[[[[rc k'] b'] m'] A'] p]. cbn [fst snd] in *. subst rc.
  destruct H as [[H _]|(_ & H & _)]; [vm_compute in H; congruence|exact H].
Qed.

Lemma fork_is_transactional_witness :
  let '(rc, k', b', c') := proc_init_child boot_k (@nil lxp_ofd) proc_zero boot_proc
                             (Z.lor LXP_CLONE_VM LXP_CLONE_FILES) 2 false in
  rc = 0 /\ p_files c' = p_files boot_proc /\ proc_inv k' [c'; boot_proc].
Proof.
  pose proof (fork_is_transactional boot_k (@nil lxp_ofd) proc_zero boot_proc
                (Z.lor LXP_CLONE_VM LXP_CLONE_FILES) 2 false [boot_proc] boot_inv
                ltac:(vm_compute; congruence) ltac:(left)) as H.
  assert (Hrc : (proc_init_child boot_k (@nil lxp_ofd) proc_zero boot_proc
                   (Z.lor LXP_CLONE_VM LXP_CLONE_FILES) 2 false).1.1.1 = 0) by (vm_compute; reflexivity).
  destruct (proc_init_child boot_k _ proc_zero boot_proc _ 2 false) as [[[rc k'] b'] c'].
  cbn [fst] in Hrc. destruct H as [[H _]|(_ & H1 & _ & _ & H2 & _)]; [done|].
  split; [exact Hrc|]. split; [apply H2; reflexivity|exact H1].
Defined.

Lemma discard_releases_own_references_witness :
  let '(k', b', c') := lxp_proc_child_discard boot_k (@nil lxp_ofd) boot_proc in
  proc_inv k' [] /\ p_files c' = None.
Proof.
  pose proof (discard_releases_own_references boot_k (@nil lxp_ofd) boot_proc [] boot_inv) as H.
  destruct (lxp_proc_child_discard boot_k _ boot_proc) as [[k' b'] c'].
  destruct H as (H1 & _ & H2 & _). split; [exact H1|exact H2].
Defined.

(** ** A reference count that is full *)

Definition full_context : kst :=
  set_k_fs_context boot_k (aset (k_fs_context boot_k) 0
    (set_fsc_refs (item (k_fs_context boot_k) 0) UINT16_MAX)).

(** When the cwd context's reference count is full and the descriptor table was copied
    rather than shared, the roll-back releases everything but returns 0: the error code
    was overwritten by the copy's success, so the caller sees a child without resources
    reported as created.  (Sixteen-bit counts against a dozen slots make the state
    unreachable in this configuration.) *)
Theorem fork_full_context_reports_success :
  let '(rc, k', b', c') :=
    lxp_proc_resources_fork full_context (@nil lxp_ofd) proc_zero boot_proc LXP_CLONE_FS in
  rc = 0 /\ p_files c' = None /\ p_fs_context c' = None /\ p_sighand c' = None.
Proof. vm_compute. done. Qed.
