(* ===== verification/Vfs.v ===== *)
(** * Shared file helpers and eventfd (src/fs/lxp_vfs.c, src/fs/lxp_eventfd.c)

    In-memory reads at an offset, seek arithmetic in 64-bit signed integers, path copies
    and directory names; and the eventfd counters, the smallest descriptor kind. *)

From S2P Require Import Prelude Config Proc Pool Path Guest Fd.
Local Open Scope Z_scope.

(** ** src/fs/lxp_vfs.c *)

Definition lxp_vfs_readable (o : lxp_ofd) : bool :=
  negb (Z.land (ofd_accmode o) LXP_O_ACCMODE =? LXP_O_WRONLY).
Definition lxp_vfs_writable (o : lxp_ofd) : bool :=
  negb (Z.land (ofd_accmode o) LXP_O_ACCMODE =? LXP_O_RDONLY).

(** The object is the bytes at [data, data + size). *)
Definition lxp_vfs_read_mem (G : genv) (m : mem) (p data size_ buf len off : Z) : Z * mem :=
  if off >=? size_ then (0, m)
  else let n := size_ - off in
       let n := if n >? len then len else n in
       let '(rc, m') := lxp_copy_to_guest G m p buf (mem_read m (data + off) (Z.to_nat n)) in
       if negb (rc =? 0) then (- LXP_EFAULT, m') else (n, m').

Definition lxp_vfs_seek (o : lxp_ofd) (end_ off whence : Z) : Z * lxp_ofd :=
  let base := if whence =? LXP_SEEK_SET then Some 0
              else if whence =? LXP_SEEK_CUR then Some (ofd_offset o)
              else if whence =? LXP_SEEK_END then Some end_ else None in
  match base with
  | None => (- LXP_EINVAL, o)
  | Some base =>
      if (off >? 0) && (base >? INT64_MAX - off) then (- LXP_EOVERFLOW, o)
      else let pos := base + off in
           if pos <? 0 then (- LXP_EINVAL, o)
           else if pos >? SIZE_MAX then (- LXP_EOVERFLOW, o)
           else (pos, set_ofd_offset o pos)
  end.

Definition lxp_vfs_copy_path (path : list Z) (cap : Z) : path_result :=
  if alen path >=? cap then inl (- LXP_ENAMETOOLONG) else inr path.

(** The kind's [dir_path] and [fstat] operations, [None] where the table has none; [fstat]
    yields the mode it reports. *)
Definition lxp_vfs_dir_path (k : kst) (t : option Z)
    (dir_path : Z -> option (lxp_ofd -> Z -> path_result)) (fstat : Z -> option (lxp_ofd -> Z + Z))
    (fd cap : Z) : path_result :=
  match lxp_fd_description k t fd with
  | None => inl (- LXP_EBADF)
  | Some oi =>
      let o := ofd_at k oi in
      match dir_path (ofd_kind o) with
      | Some op => op o cap
      | None =>
          match fstat (ofd_kind o) with
          | Some op => match op o with
                       | inr mode => if Z.land mode LXP_S_IFMT =? LXP_S_IFDIR
                                     then inl (- LXP_EOPNOTSUPP) else inl (- LXP_ENOTDIR)
                       | inl _ => inl (- LXP_ENOTDIR)
                       end
          | None => inl (- LXP_ENOTDIR)
          end
      end
  end.

(** Seek arithmetic never leaves 64-bit range and decides exactly: the new position is
    the base plus the offset when that is a valid file position, and it is stored; a
    negative one is EINVAL, one past what the offset can hold EOVERFLOW, and on any error
    the descriptor keeps its position. *)
Theorem vfs_seek_exact o end_ off whence :
  0 <= ofd_offset o <= SIZE_MAX -> 0 <= end_ <= INT64_MAX -> - 2 ^ 63 <= off <= INT64_MAX ->
  0 <= whence <= 2 ->
  let base := if whence =? 0 then 0 else if whence =? 1 then ofd_offset o else end_ in
  let '(r, o') := lxp_vfs_seek o end_ off whence in
  (0 <= base + off <= SIZE_MAX /\ r = base + off /\ o' = set_ofd_offset o r) \/
  (base + off < 0 /\ r = - LXP_EINVAL /\ o' = o) \/
  (SIZE_MAX < base + off /\ r = - LXP_EOVERFLOW /\ o' = o).
Proof.
  intros Ho He Hf Hw base. unfold lxp_vfs_seek, LXP_SEEK_SET, LXP_SEEK_CUR, LXP_SEEK_END.
  assert (Hb : (if whence =? 0 then Some 0 else if whence =? 1 then Some (ofd_offset o)
                else if whence =? 2 then Some end_ else None) = Some base).
  { unfold base. destruct (Z.eqb_spec whence 0), (Z.eqb_spec whence 1), (Z.eqb_spec whence 2); lia || done. }
  rewrite Hb. assert (0 <= base <= INT64_MAX).
  { unfold base, SIZE_MAX, INT64_MAX in *.
    destruct (Z.eqb_spec whence 0), (Z.eqb_spec whence 1); lia. }
  unfold SIZE_MAX, INT64_MAX in *.
  destruct ((off >? 0) && (base >? 2 ^ 63 - 1 - off)) eqn:E1; [right; right; split_and!; [lia|done..]|].
  destruct (Z.ltb_spec (base + off) 0); [right; left; done|].
  destruct (Z.gtb_spec (base + off) (2 ^ 32 - 1)); [right; right; split_and!; [lia|done..]|].
  left. split_and!; [lia|lia|done..].
Qed.

Lemma vfs_seek_exact_witness :
  lxp_vfs_seek (mk_ofd 1 2 0 0 0 0 10) 100 (-5) 1 = (5, mk_ofd 1 2 0 0 0 0 5).
Proof.
  pose proof (vfs_seek_exact (mk_ofd 1 2 0 0 0 0 10) 100 (-5) 1
                ltac:(vm_compute; split; congruence) ltac:(vm_compute; split; congruence)
                ltac:(vm_compute; split; congruence) ltac:(lia)) as H.
  destruct (lxp_vfs_seek _ 100 (-5) 1) as [r o'].
  destruct H as [(_ & -> & ->)|[(H & _)|(H & _)]]; [reflexivity|vm_compute in H; congruence..].
Defined.

(** ** src/fs/lxp_eventfd.c *)

Definition LXP_NEVENTFD : Z := 8.

Record efd := mk_efd { efd_ctr : Z; efd_flags : Z; efd_used : bool }.
Definition efd_zero : efd := mk_efd 0 0 false.
Definition efd_at (g : list efd) (i : Z) : efd := aget efd_zero g i.

Definition efd_new (g : list efd) (initval flags : Z) : Z * list efd :=
  match find_first (fun e => negb (efd_used e)) g with
  | Some i => (i, aset g i (mk_efd initval (u16 flags) true))
  | None => (- LXP_EMFILE, g)
  end.

Definition efd_set_used (g : list efd) (i : Z) (u : bool) : list efd :=
  aset g i (mk_efd (efd_ctr (efd_at g i)) (efd_flags (efd_at g i)) u).

(** [install] is [lxp_fd_install] of the new counter for the calling task. *)
Definition lxp_eventfd_open {S} (install : S -> Z -> Z -> Z * S) (s : S) (g : list efd)
    (initval flags : Z) : Z * S * list efd :=
  let '(ei, g) := efd_new g initval flags in
  if ei <? 0 then (ei, s, g)
  else let '(fd, s) := install s ei
         (Z.lor LXP_O_RDWR (Z.land flags (Z.lor LXP_O_NONBLOCK LXP_O_CLOEXEC))) in
       if fd <? 0 then (- LXP_EMFILE, s, efd_set_used g ei false) else (fd, s, g).

Definition lxp_eventfd_runtime_reset : list efd := replicate (Z.to_nat LXP_NEVENTFD) efd_zero.

Definition efd_in (i : Z) : bool := (i >=? 0) && (i <? LXP_NEVENTFD).

Definition efd_close (g : list efd) (ei : Z) : list efd :=
  if efd_in ei then efd_set_used g ei false else g.

Definition efd_readable (g : list efd) (ei : Z) : bool :=
  efd_in ei && negb (efd_ctr (efd_at g ei) =? 0).

Definition efd_read (G : genv) (m : mem) (g : list efd) (p ei buf len : Z) : Z * list efd * mem :=
  if negb (efd_in ei) || negb (efd_used (efd_at g ei)) then (- LXP_EBADF, g, m)
  else if len <? 8 then (- LXP_EINVAL, g, m)
  else let e := efd_at g ei in
       if efd_ctr e =? 0 then (- LXP_EAGAIN, g, m)
       else let v := if has (efd_flags e) LXP_EFD_SEMAPHORE then 1 else efd_ctr e in
            let '(rc, m) := lxp_copy_to_guest G m p buf (le_bytes 8 v) in
            if negb (rc =? 0) then (- LXP_EFAULT, g, m)
            else (8, aset g ei (mk_efd (efd_ctr e - v) (efd_flags e) (efd_used e)), m).

Definition efd_write (G : genv) (m : mem) (g : list efd) (p ei buf len : Z) : Z * list efd :=
  if negb (efd_in ei) || negb (efd_used (efd_at g ei)) then (- LXP_EBADF, g)
  else if len <? 8 then (- LXP_EINVAL, g)
  else match lxp_copy_from_guest G m p buf 8 with
       | inl _ => (- LXP_EFAULT, g)
       | inr bs =>
           let v := le_val bs in
           let e := efd_at g ei in
           if v =? UINT64_MAX then (- LXP_EINVAL, g)
           else let ctr := if UINT64_MAX - efd_ctr e - 1 <? v then UINT64_MAX - 1
                           else efd_ctr e + v in
                (8, aset g ei (mk_efd ctr (efd_flags e) (efd_used e)))
       end.

Definition fop_poll_eventfd (g : list efd) (s : lxp_ofd) : Z :=
  Z.lor LXP_POLLOUT (if efd_readable g (ofd_file_idx s) then LXP_POLLIN else 0).
Definition fop_close_eventfd (g : list efd) (s : lxp_ofd) : list efd := efd_close g (ofd_file_idx s).

(** Counters stay below the reserved value, so the subtractions above never wrap. *)
Definition efd_wf (g : list efd) : Prop :=
  alen g = LXP_NEVENTFD /\ Forall (fun e => 0 <= efd_ctr e <= UINT64_MAX - 1) g.

Lemma efd_at_wf g i : efd_wf g -> 0 <= i < LXP_NEVENTFD -> 0 <= efd_ctr (efd_at g i) <= UINT64_MAX - 1.
Proof.
  intros [Hl Hf] Hi. rewrite Forall_forall in Hf. apply Hf.
  eapply list_elem_of_lookup_2. apply (lookup_aget efd_zero). lia.
Qed.

Lemma efd_wf_aset g i e : efd_wf g -> 0 <= efd_ctr e <= UINT64_MAX - 1 -> efd_wf (aset g i e).
Proof. intros [Hl Hf] He. split; [by rewrite alen_aset|by apply Forall_aset]. Qed.

(** An eventfd counter is a saturating semaphore: a successful write adds the guest's
    value, stopping at the largest representable count; a successful read delivers the
    count (or one, in semaphore mode) to the guest and takes exactly that away; the counter
    always stays in range, failures change nothing, and poll reports readable exactly when
    a read would not return EAGAIN. *)
Theorem eventfd_counts G m g p ei buf len :
  efd_wf g -> 0 <= ei < LXP_NEVENTFD -> efd_used (efd_at g ei) = true -> 8 <= len ->
  let c := efd_ctr (efd_at g ei) in
  let '(r, g', m') := efd_read G m g p ei buf len in
  let '(w, g'') := efd_write G m g p ei buf len in
  efd_wf g' /\ efd_wf g'' /\
  (efd_readable g ei = true <-> r <> - LXP_EAGAIN) /\
  (r = 8 -> let v := if has (efd_flags (efd_at g ei)) LXP_EFD_SEMAPHORE then 1 else c in
     1 <= v <= c /\ efd_ctr (efd_at g' ei) = c - v /\ mem_read m' buf 8 = le_bytes 8 v) /\
  (r <> 8 -> g' = g) /\
  (w = 8 -> efd_ctr (efd_at g'' ei) = Z.min (UINT64_MAX - 1) (c + le_val (mem_read m buf 8))) /\
  (w <> 8 -> g'' = g).
Proof.
  intros Hwf Hei Hu Hlen c. pose proof (efd_at_wf g ei Hwf Hei) as Hc. fold c in Hc.
  pose proof Hwf as [Hl _]. unfold efd_read, efd_write, efd_readable, efd_in. rewrite Hu.
  destruct (Z.geb_spec ei 0); [|lia]. destruct (Z.ltb_spec ei LXP_NEVENTFD); [|lia].
  destruct (Z.ltb_spec len 8); [lia|]. cbn [andb negb orb]. fold c.
  assert (Hw : let '(w, g'') := match lxp_copy_from_guest G m p buf 8 with
      | inl _ => (- LXP_EFAULT, g)
      | inr bs => if le_val bs =? UINT64_MAX then (- LXP_EINVAL, g)
          else (8, aset g ei (mk_efd (if UINT64_MAX - c - 1 <? le_val bs then UINT64_MAX - 1
                 else c + le_val bs) (efd_flags (efd_at g ei)) (efd_used (efd_at g ei)))) end in
      efd_wf g'' /\ (w = 8 -> efd_ctr (efd_at g'' ei) = Z.min (UINT64_MAX - 1) (c + le_val (mem_read m buf 8))) /\
      (w <> 8 -> g'' = g)).
  { unfold lxp_copy_from_guest. destruct (lxp_guest_access_ok _ _ _ _ _); cbn [negb]; [|done].
    change (Z.to_nat 8) with 8%nat. set (v := le_val (mem_read m buf 8)).
    assert (0 <= v < 2 ^ 64).
    { pose proof (le_val_range (mem_read m buf 8)) as Hr. unfold alen in Hr.
      rewrite length_mem_read in Hr. exact Hr. }
    destruct (v =? UINT64_MAX); [done|]. unfold UINT64_MAX in *.
    assert (Hn : forall x, x = (if 2 ^ 64 - 1 - c - 1 <? v then 2 ^ 64 - 1 - 1 else c + v) ->
              x = Z.min (2 ^ 64 - 1 - 1) (c + v) /\ 0 <= x <= 2 ^ 64 - 1 - 1).
    { intros x ->. destruct (Z.ltb_spec (2 ^ 64 - 1 - c - 1) v); lia. }
    destruct (Hn _ eq_refl) as [E Hr]. split_and!; try done.
    - apply efd_wf_aset; [done|exact Hr].
    - intros _. unfold efd_at. rewrite aget_aset_eq by lia. exact E. }
  rewrite Hu in Hw. destruct (match lxp_copy_from_guest G m p buf 8 with inl _ => _ | inr _ => _ end) as [w g''].
  destruct Hw as (W1 & W2 & W3).
  destruct (Z.eqb_spec c 0) as [E0|E0].
  { split_and!; try done. }
  set (v := if has _ _ then 1 else c). assert (Hv : 1 <= v <= c) by (unfold v; destruct (has _ _); lia).
  unfold lxp_copy_to_guest. destruct (lxp_guest_access_ok _ _ _ _ _); cbn [negb Z.eqb LXP_EFAULT Z.opp].
  - split_and!; try done.
    + apply efd_wf_aset; [done|]. cbn. lia.
    + intros _. split; [done|]. split.
      * unfold efd_at. rewrite aget_aset_eq by lia. done.
      * pose proof (mem_read_write_same m buf (le_bytes 8 v)) as HM.
        by rewrite length_le_bytes, map_u8_le_bytes in HM.
  - split_and!; try done.
Qed.

Lemma eventfd_counts_witness :
  let g := [mk_efd 5 0 true; efd_zero; efd_zero; efd_zero; efd_zero; efd_zero; efd_zero; efd_zero] in
  efd_wf g /\ (efd_read demo_genv (fun _ => 0) g 0 0 4100 8).1.1 = 8 /\
  efd_ctr (efd_at (efd_read demo_genv (fun _ => 0) g 0 0 4100 8).1.2 0) = 0.
Proof.
  intros g. assert (Hwf : efd_wf g).
  { split; [reflexivity|]. repeat constructor; vm_compute; congruence. }
  split; [exact Hwf|].
  pose proof (eventfd_counts demo_genv (fun _ => 0) g 0 0 4100 8 Hwf ltac:(unfold LXP_NEVENTFD; lia)
                eq_refl ltac:(lia)) as H.
  assert (E : (efd_read demo_genv (fun _ => 0) g 0 0 4100 8).1.1 = 8) by (vm_compute; reflexivity).
  split; [exact E|]. cbv zeta in H.
  destruct (efd_read demo_genv (fun _ => 0) g 0 0 4100 8) as [[r g'] m'].
  destruct (efd_write demo_genv (fun _ => 0) g 0 0 4100 8) as [w g''].
  cbn [fst snd] in *. destruct H as (_ & _ & _ & H & _). destruct (H E) as (_ & H' & _).
  rewrite H'. reflexivity.
Defined.
