(* ===== verification/Tmpfs.v ===== *)
(** * Writable files (src/fs/lxp_tmpfs.c)

    A fixed table of nodes keyed by absolute path; the bytes of a file are one allocation
    of an arena laid over a static pool.  [pool] is the address of that pool.  A node's path
    is the C string without its terminator and [w_data] is 0 for NULL. *)

From S2P Require Import Prelude Config Proc Pool Path Guest Fd Vfs Arena.
Local Open Scope Z_scope.

Definition LXP_NWNODE : Z := 32.

Record lxp_wnode := mk_wnode {
  w_path : list Z;
  w_mode : Z;
  w_data : Z;
  w_size : Z;
  w_cap : Z;
  w_used : bool;
  w_open_refs : Z;
  w_linked : bool;
}.

Definition wnode_zero : lxp_wnode := mk_wnode [] 0 0 0 0 false 0 false.

Definition set_w_path (w : lxp_wnode) (v : list Z) : lxp_wnode :=
  mk_wnode v (w_mode w) (w_data w) (w_size w) (w_cap w) (w_used w) (w_open_refs w) (w_linked w).
Definition set_w_block (w : lxp_wnode) (data cap : Z) : lxp_wnode :=
  mk_wnode (w_path w) (w_mode w) data (w_size w) cap (w_used w) (w_open_refs w) (w_linked w).
Definition set_w_size (w : lxp_wnode) (v : Z) : lxp_wnode :=
  mk_wnode (w_path w) (w_mode w) (w_data w) v (w_cap w) (w_used w) (w_open_refs w) (w_linked w).
Definition set_w_open_refs (w : lxp_wnode) (v : Z) : lxp_wnode :=
  mk_wnode (w_path w) (w_mode w) (w_data w) (w_size w) (w_cap w) (w_used w) v (w_linked w).
Definition set_w_linked (w : lxp_wnode) (v : bool) : lxp_wnode :=
  mk_wnode (w_path w) (w_mode w) (w_data w) (w_size w) (w_cap w) (w_used w) (w_open_refs w) v.

(** The file-system state: [g_wnodes], [g_wfs_arena], [g_wfs_ready], and memory. *)
Record wfs := mk_wfs {
  f_nodes : list lxp_wnode;
  f_arena : lxp_arena;
  f_ready : bool;
  f_mem : mem;
}.

Definition set_f_nodes (F : wfs) (v : list lxp_wnode) : wfs := mk_wfs v (f_arena F) (f_ready F) (f_mem F).
Definition set_f_mem (F : wfs) (v : mem) : wfs := mk_wfs (f_nodes F) (f_arena F) (f_ready F) v.

Definition lxp_wnode_at (F : wfs) (i : Z) : lxp_wnode := aget wnode_zero (f_nodes F) i.
Definition put_wnode (F : wfs) (i : Z) (w : lxp_wnode) : wfs := set_f_nodes F (aset (f_nodes F) i w).

Definition wnode_in (i : Z) : bool := (i >=? 0) && (i <? LXP_NWNODE).

Definition named (abspath : list Z) (w : lxp_wnode) : bool :=
  w_used w && w_linked w && bool_decide (w_path w = abspath).

Definition lxp_wfs_find (F : wfs) (abspath : list Z) : Z :=
  match find_first (named abspath) (f_nodes F) with Some i => i | None => -1 end.

Definition lxp_wfs_create (F : wfs) (abspath : list Z) (mode : Z) : Z * wfs :=
  if alen abspath >=? LXP_PATH_MAX then (-1, F)
  else match find_first (fun w => negb (w_used w)) (f_nodes F) with
       | Some i => (i, put_wnode F i (mk_wnode abspath mode 0 0 0 true 0 true))
       | None => (-1, F)
       end.

Section Tmpfs.
Context (pool : Z).

(** Growth: the capacity asked for first, and the least one. *)
Definition MAX_PAYLOAD : Z := LXP_WFS_POOL - LXP_ARENA_ALIGN.
Definition wfs_mincap (need : Z) : Z := Z.land (need + 255) 0xFFFFFF00.
Definition wfs_ncap (cap need : Z) : Z :=
  let ncap := wfs_mincap need in
  let ncap := if cap >? MAX_PAYLOAD / 2 then MAX_PAYLOAD
              else if u32 (cap * 2) >? ncap then u32 (cap * 2) else ncap in
  if ncap >? MAX_PAYLOAD then MAX_PAYLOAD else ncap.

Definition wfs_ensure_ready (F : wfs) : wfs :=
  if f_ready F then F
  else let '(_, m, A) := lxp_arena_init (f_mem F) (f_arena F) pool LXP_WFS_POOL in
       mk_wfs (f_nodes F) A true m.

Definition wfs_realloc (F : wfs) (data cap : Z) : Z * wfs :=
  let '(nd, m, A) := lxp_arena_realloc (f_mem F) (f_arena F) data cap in
  (nd, mk_wfs (f_nodes F) A (f_ready F) m).

Definition lxp_wfs_reserve (F : wfs) (i need : Z) : Z * wfs :=
  let w := lxp_wnode_at F i in
  if need <=? w_cap w then (0, F)
  else if need >? MAX_PAYLOAD then (-1, F)
  else if need >? SIZE_MAX - 255 then (-1, F)
  else
    let mincap := wfs_mincap need in
    let ncap := wfs_ncap (w_cap w) need in
    let F := wfs_ensure_ready F in
    let '(nd, F) := wfs_realloc F (w_data w) ncap in
    if negb (nd =? 0) then (0, put_wnode F i (set_w_block w nd ncap))
    else if ncap =? mincap then (-1, F)
    else let '(nd, F) := wfs_realloc F (w_data w) mincap in
         if nd =? 0 then (-1, F) else (0, put_wnode F i (set_w_block w nd mincap)).

Definition wfs_reclaim (F : wfs) (i : Z) : wfs :=
  let w := lxp_wnode_at F i in
  let F := if negb (w_data w =? 0)
           then let '(m, A) := lxp_arena_free (f_mem F) (f_arena F) (w_data w) in
                mk_wfs (f_nodes F) A (f_ready F) m
           else F in
  put_wnode F i wnode_zero.

Definition lxp_wfs_open (F : wfs) (i : Z) : Z * wfs :=
  if negb (wnode_in i) || negb (w_used (lxp_wnode_at F i)) ||
     (w_open_refs (lxp_wnode_at F i) =? UINT16_MAX)
  then (-1, F)
  else (0, put_wnode F i (set_w_open_refs (lxp_wnode_at F i) (w_open_refs (lxp_wnode_at F i) + 1))).

Definition lxp_wfs_close (F : wfs) (i : Z) : wfs :=
  if negb (wnode_in i) || negb (w_used (lxp_wnode_at F i)) ||
     (w_open_refs (lxp_wnode_at F i) =? 0)
  then F
  else let w := set_w_open_refs (lxp_wnode_at F i) (w_open_refs (lxp_wnode_at F i) - 1) in
       let F := put_wnode F i w in
       if (w_open_refs w =? 0) && negb (w_linked w) then wfs_reclaim F i else F.

Definition lxp_wfs_free (F : wfs) (i : Z) : wfs :=
  if negb (wnode_in i) || negb (w_used (lxp_wnode_at F i)) then F
  else let w := set_w_path (set_w_linked (lxp_wnode_at F i) false) [] in
       let F := put_wnode F i w in
       if w_open_refs w =? 0 then wfs_reclaim F i else F.

Definition wfs_has_descendant (F : wfs) (dir : list Z) : bool :=
  existsb (fun w => w_used w && w_linked w && negb (bool_decide (w_path w = dir)) &&
                    negb (lxp_path_under (w_path w) dir =? 0)) (f_nodes F).

(** A linked node other than [i] at or below [dir]. *)
Definition below (i : Z) (dir : list Z) (j : Z) (w : lxp_wnode) : bool :=
  negb (j =? i) && w_used w && w_linked w && negb (lxp_path_under (w_path w) dir =? 0).

Definition lxp_wfs_rename (F : wfs) (i : Z) (newabs : list Z) : Z * wfs :=
  let node := lxp_wnode_at F i in
  let old := w_path node in
  if bool_decide (old = newabs) then (0, F)
  else if alen newabs >=? LXP_PATH_MAX then (- LXP_ENAMETOOLONG, F)
  else
    let is_dir := Z.land (w_mode node) LXP_S_IFMT =? LXP_S_IFDIR in
    if is_dir && negb (lxp_path_under newabs old =? 0) then (- LXP_EINVAL, F)
    else
      let di := lxp_wfs_find F newabs in
      if (di >=? 0) && wfs_has_descendant F newabs then (- LXP_ENOTEMPTY, F)
      else
        let too_long j w := is_dir && below i old j w &&
                            (alen (w_path w) - alen old + alen newabs >=? LXP_PATH_MAX) in
        if existsb id (imap (fun j w => too_long (Z.of_nat j) w) (f_nodes F))
        then (- LXP_ENAMETOOLONG, F)
        else
          let F := if di >=? 0 then lxp_wfs_free F di else F in
          let move j w := if is_dir && below i old j w
                          then set_w_path w (newabs ++ drop (length old) (w_path w)) else w in
          let F := set_f_nodes F (imap (fun j w => move (Z.of_nat j) w) (f_nodes F)) in
          (0, put_wnode F i (set_w_path (lxp_wnode_at F i) newabs)).

(** ** Descriptor operations *)

Definition is_dir_mode (mode : Z) : bool := Z.land mode LXP_S_IFMT =? LXP_S_IFDIR.

Definition fop_pread_tmpfs (G : genv) (F : wfs) (p : Z) (s : lxp_ofd) (buf len off : Z) : Z * wfs :=
  let t := lxp_wnode_at F (ofd_file_idx s) in
  if is_dir_mode (w_mode t) then (- LXP_EISDIR, F)
  else let '(n, m) := lxp_vfs_read_mem G (f_mem F) p (w_data t) (w_size t) buf len off in
       (n, set_f_mem F m).

Definition fop_read_tmpfs (G : genv) (F : wfs) (p : Z) (s : lxp_ofd) (buf len : Z) : Z * wfs * lxp_ofd :=
  let '(n, F) := fop_pread_tmpfs G F p s buf len (ofd_offset s) in
  (n, F, if n >? 0 then set_ofd_offset s (u32 (ofd_offset s + n)) else s).

Definition fop_pwrite_tmpfs (G : genv) (F : wfs) (p : Z) (s : lxp_ofd) (buf len off : Z) : Z * wfs :=
  if off >? SIZE_MAX then (- LXP_EFBIG, F)
  else
    let i := ofd_file_idx s in
    if is_dir_mode (w_mode (lxp_wnode_at F i)) then (- LXP_EBADF, F)
    else if u32 (off + len) <? len then (- LXP_EINVAL, F)
    else
      let '(rc, F) := lxp_wfs_reserve F i (u32 (off + len)) in
      if negb (rc =? 0) then (- LXP_EFBIG, F)
      else
        let t := lxp_wnode_at F i in
        let F := if off >? w_size t
                 then set_f_mem F (mem_set (f_mem F) (w_data t + w_size t) 0 (off - w_size t)) else F in
        match lxp_copy_from_guest G (f_mem F) p buf len with
        | inl _ => (- LXP_EFAULT, F)
        | inr bs =>
            let F := set_f_mem F (mem_write (f_mem F) (w_data t + off) bs) in
            (len, if u32 (off + len) >? w_size t
                  then put_wnode F i (set_w_size t (u32 (off + len))) else F)
        end.

Definition fop_write_tmpfs (G : genv) (F : wfs) (p : Z) (s : lxp_ofd) (buf len : Z) : Z * wfs * lxp_ofd :=
  let '(n, F) := fop_pwrite_tmpfs G F p s buf len (ofd_offset s) in
  (n, F, if n >? 0 then set_ofd_offset s (u32 (ofd_offset s + n)) else s).

Definition fop_lseek_tmpfs (F : wfs) (s : lxp_ofd) (off whence : Z) : Z * lxp_ofd :=
  lxp_vfs_seek s (w_size (lxp_wnode_at F (ofd_file_idx s))) off whence.

Definition fop_ftruncate_tmpfs (F : wfs) (s : lxp_ofd) (length_ : Z) : Z * wfs :=
  let i := ofd_file_idx s in
  let t := lxp_wnode_at F i in
  if is_dir_mode (w_mode t) then (- LXP_EISDIR, F)
  else if length_ >? SIZE_MAX then (- LXP_EFBIG, F)
  else if length_ >? w_size t
  then let '(rc, F) := lxp_wfs_reserve F i length_ in
       if negb (rc =? 0) then (- LXP_EFBIG, F)
       else let t := lxp_wnode_at F i in
            let F := set_f_mem F (mem_set (f_mem F) (w_data t + w_size t) 0 (length_ - w_size t)) in
            (0, put_wnode F i (set_w_size t length_))
  else (0, put_wnode F i (set_w_size t length_)).

Definition fop_close_tmpfs (F : wfs) (s : lxp_ofd) : wfs := lxp_wfs_close F (ofd_file_idx s).

Definition fop_dir_path_tmpfs (F : wfs) (s : lxp_ofd) (cap : Z) : path_result :=
  let w := lxp_wnode_at F (ofd_file_idx s) in
  if negb (is_dir_mode (w_mode w)) then inl (- LXP_ENOTDIR)
  else if negb (w_linked w) then inl (- LXP_ENOENT)
  else lxp_vfs_copy_path (w_path w) cap.

End Tmpfs.
