(* ===== verification/TmpfsSpec.v ===== *)
(** * Invariant of the writable files

    The live extents of the arena are exactly the data blocks of the nodes: no block is
    shared, none is lost.  From this follow the frame properties of growing, writing and
    reclaiming one file. *)

From S2P Require Import Prelude Config Proc Pool Path Guest Fd Vfs Arena ArenaSpec ArenaClient Tmpfs.
Local Open Scope Z_scope.

(** ** Extents owned by the nodes *)

Definition blk_of (w : lxp_wnode) (q : Z) : list (Z * Z) :=
  if w_data w =? 0 then [] else [(w_data w, q)].

(** [q i] is the payload size of the block of node [i]. *)
Fixpoint owned_from (i : Z) (q : Z -> Z) (ns : list lxp_wnode) : list (Z * Z) :=
  match ns with
  | [] => []
  | w :: t => blk_of w (q i) ++ owned_from (i + 1) q t
  end.
Definition owned (q : Z -> Z) (ns : list lxp_wnode) : list (Z * Z) := owned_from 0 q ns.

Lemma owned_from_ext i q q' ns :
  (forall j, i <= j < i + alen ns -> q' j = q j) -> owned_from i q' ns = owned_from i q ns.
Proof.
  revert i. induction ns as [|w t IH]; intros i Hq; [done|]. cbn [owned_from].
  unfold alen in *. cbn [length] in Hq. rewrite Hq by lia. f_equal. apply IH. intros j Hj. apply Hq. lia.
Qed.

Lemma owned_from_insert i q q' ns (k : nat) w :
  (k < length ns)%nat -> (forall j, j <> i + Z.of_nat k -> q' j = q j) ->
  owned_from i q' (<[k := w]> ns) ≡ₚ
  blk_of w (q' (i + Z.of_nat k)) ++ owned_from i q (<[k := wnode_zero]> ns).
Proof.
  revert i k. induction ns as [|x t IH]; intros i k Hk Hq; [simpl in Hk; lia|].
  destruct k as [|k]; cbn [list_insert insert owned_from].
  - change (blk_of wnode_zero (q i)) with (@nil (Z * Z)). replace (i + Z.of_nat 0) with i by lia.
    cbn [app]. f_equiv. rewrite (owned_from_ext _ q q'); [done|]. intros j Hj. apply Hq. lia.
  - change (list_insert k w t) with (<[k := w]> t). change (list_insert k wnode_zero t) with (<[k := wnode_zero]> t).
    simpl in Hk. rewrite (Hq i) by lia. rewrite (IH (i + 1) k) by (first [lia | intros j Hj; apply Hq; lia]).
    replace (i + 1 + Z.of_nat k) with (i + Z.of_nat (S k)) by lia.
    rewrite !app_assoc. apply Permutation_app_tail, Permutation_app_comm.
Qed.

Lemma owned_aset q q' ns i w :
  0 <= i < alen ns -> (forall j, j <> i -> q' j = q j) ->
  owned q' (aset ns i w) ≡ₚ blk_of w (q' i) ++ owned q (aset ns i wnode_zero).
Proof.
  intros Hi Hq. unfold owned, aset, alen in *.
  rewrite (owned_from_insert 0 q q' ns (Z.to_nat i) w) by (first [lia | intros j Hj; apply Hq; lia]).
  do 3 f_equiv. lia.
Qed.

Lemma owned_at q ns i : 0 <= i < alen ns ->
  owned q ns ≡ₚ blk_of (aget wnode_zero ns i) (q i) ++ owned q (aset ns i wnode_zero).
Proof.
  intros Hi. rewrite <- (aset_aget wnode_zero ns i) at 1 by done. by apply owned_aset.
Qed.

Lemma owned_in q ns j : 0 <= j < alen ns -> w_data (aget wnode_zero ns j) <> 0 ->
  (w_data (aget wnode_zero ns j), q j) ∈ owned q ns.
Proof.
  intros Hj Hd. rewrite (owned_at q ns j Hj). unfold blk_of.
  destruct (Z.eqb_spec (w_data (aget wnode_zero ns j)) 0); [done|]. left.
Qed.

Lemma owned_none i q ns : Forall (fun w => w_data w = 0) ns -> owned_from i q ns = [].
Proof.
  intros Hb. revert i. induction Hb as [|w t Hw Ht IH]; intros i; [done|].
  cbn [owned_from]. unfold blk_of. rewrite Hw. apply IH.
Qed.

(** ** The invariant *)

Definition node_ok (w : lxp_wnode) : Prop :=
  0 <= w_size w <= w_cap w /\ w_cap w <= MAX_PAYLOAD /\ 0 <= w_data w /\
  (w_data w = 0 -> w_cap w = 0) /\ (w_used w = false -> w_data w = 0).

(** The static pool: aligned, and inside the address space. *)
Definition pool_ok (pool : Z) : Prop := 0 < pool /\ pool mod 16 = 0 /\ pool + LXP_WFS_POOL <= UINTPTR_MAX.

Definition blocks_ok (pool : Z) (F : wfs) : Prop :=
  if f_ready F
  then exists q L, arena_rep true (f_mem F) (f_arena F) L /\ L ≡ₚ owned q (f_nodes F) /\
         (forall i, 0 <= i < LXP_NWNODE -> w_data (lxp_wnode_at F i) <> 0 -> w_cap (lxp_wnode_at F i) <= q i) /\
         ar_base (f_arena F) = pool /\ ar_size (f_arena F) = LXP_WFS_POOL
  else Forall (fun w => w_data w = 0) (f_nodes F).

Definition wfs_inv (pool : Z) (F : wfs) : Prop :=
  alen (f_nodes F) = LXP_NWNODE /\ Forall node_ok (f_nodes F) /\ blocks_ok pool F.

(** The bytes of file [i]. *)
Definition content (F : wfs) (i : Z) : list Z :=
  mem_read (f_mem F) (w_data (lxp_wnode_at F i)) (Z.to_nat (w_size (lxp_wnode_at F i))).

(** [F'] has the same bytes in every file. *)
Definition same_content (F F' : wfs) : Prop :=
  forall j, 0 <= j < LXP_NWNODE -> content F' j = content F j.

(** Memory changes stay in the pool. *)
Definition pool_only (pool : Z) (m m' : mem) : Prop :=
  forall x, x < pool \/ pool + LXP_WFS_POOL <= x -> load8 m' x = load8 m x.

Lemma node_at_ok pool F i : wfs_inv pool F -> 0 <= i < LXP_NWNODE -> node_ok (lxp_wnode_at F i).
Proof. intros (Hl & Hn & _) Hi. apply (Forall_aget node_ok wnode_zero); [done|lia]. Qed.

Lemma node_at_put F i w j : alen (f_nodes F) = LXP_NWNODE -> 0 <= i < LXP_NWNODE -> 0 <= j ->
  lxp_wnode_at (put_wnode F i w) j = if decide (i = j) then w else lxp_wnode_at F j.
Proof.
  intros Hl Hi Hj. unfold lxp_wnode_at, put_wnode, set_f_nodes. cbn [f_nodes]. by rewrite aget_aset by lia.
Qed.

Lemma node_ok_zero : node_ok wnode_zero.
Proof. unfold node_ok, MAX_PAYLOAD, LXP_WFS_POOL, LXP_ARENA_ALIGN. cbn. lia. Qed.

Lemma content_empty F i : w_size (lxp_wnode_at F i) <= 0 -> content F i = [].
Proof. intros H. unfold content. by replace (Z.to_nat (w_size (lxp_wnode_at F i))) with 0%nat by lia. Qed.

Lemma rep_ext st m m' A L : arena_rep st m A L -> (forall x, load8 m' x = load8 m x) -> arena_rep st m' A L.
Proof.
  intros (bs & HI & Hc & ->) Hx. exists bs. split; [|done].
  destruct HI as (H1 & H2 & H3 & H4 & H5 & H6 & H7 & H8 & H9 & H10). unfold arena_inv.
  repeat (split; [done|]). eapply tiles_frame; [done|intros; apply Hx|done].
Qed.

(** ** The pool is laid out on first use *)

Lemma arena_init_ok m A pool : pool_ok pool ->
  let '(rc, m', A') := lxp_arena_init m A pool LXP_WFS_POOL in
  arena_rep true m' A' [] /\ ar_base A' = pool /\ ar_size A' = LXP_WFS_POOL /\ pool_only pool m m'.
Proof.
  intros (H1 & H2 & H3). unfold UINTPTR_MAX in *.
  unfold lxp_arena_init, ALIGN_MASK. unfold LXP_ARENA_ALIGN, UINTPTR_MAX. rewrite hdr_value.
  change (16 - 1) with 15. destruct (Z.eqb_spec pool 0); [lia|]. unfold LXP_WFS_POOL in *.
  destruct (Z.gtb_spec pool (2 ^ 32 - 1 - 15)); [lia|]. rewrite !land_down16 by lia.
  replace (pool + 15 - (pool + 15) mod 16) with pool by lia.
  replace (pool - pool) with 0 by lia. rewrite (Z.sub_0_r (64 * 1024)), Z.add_0_r.
  change (64 * 1024 <=? 0) with false. change (64 * 1024 - 64 * 1024 mod 16) with 65536.
  change (65536 <? 16 + 16) with false. cbv iota.
  set (A0 := arena_clear_mappings _).
  pose proof (lay_first_rep true m A0 H1 H2 ltac:(cbn; lia) ltac:(reflexivity)
                ltac:(unfold UINTPTR_MAX; cbn; lia)) as HX.
  destruct (arena_lay_first m A0) as [m' A']. destruct HX as (R & I & B & S).
  split; [done|]. split; [exact B|]. split; [exact S|]. exact I.
Qed.

Lemma ensure_ready_spec pool F : pool_ok pool -> wfs_inv pool F ->
  let F' := wfs_ensure_ready pool F in
  wfs_inv pool F' /\ f_ready F' = true /\ f_nodes F' = f_nodes F /\ same_content F F' /\
  pool_only pool (f_mem F) (f_mem F').
Proof.
  intros Hp (Hl & Hn & Hb). unfold wfs_ensure_ready. destruct (f_ready F) eqn:Er; [done|].
  pose proof (arena_init_ok (f_mem F) (f_arena F) pool Hp) as HX.
  destruct (lxp_arena_init _ _ _ _) as [[rc m] A]. destruct HX as (R & B & S & P). cbv zeta.
  unfold blocks_ok in Hb. rewrite Er in Hb.
  assert (Hsz : forall j, 0 <= j < LXP_NWNODE -> w_size (lxp_wnode_at F j) <= 0).
  { intros j Hj. pose proof (Forall_aget node_ok wnode_zero _ j Hn ltac:(lia)) as (N1 & _ & _ & N4 & _).
    pose proof (Forall_aget _ wnode_zero _ j Hb ltac:(lia)) as N5. unfold lxp_wnode_at. specialize (N4 N5). lia. }
  split; [|split; [done|split; [done|split; [|done]]]].
  - split; [done|]. split; [done|]. unfold blocks_ok. cbn [f_ready f_mem f_arena f_nodes].
    exists (fun _ => 0), []. split; [done|]. split.
    + unfold owned. by rewrite owned_none.
    + split; [|done]. intros i Hi Hd. exfalso. apply Hd.
      exact (Forall_aget _ wnode_zero _ i Hb ltac:(lia)).
  - intros j Hj. rewrite !content_empty by (apply Hsz; done). done.
Qed.

(** ** Growing a file *)

(** Resizing the block of one node, whether it has one or not. *)
Lemma block_resize m A L w q c L0 :
  arena_rep true m A L -> L ≡ₚ blk_of w q ++ L0 -> node_ok w -> (w_data w <> 0 -> w_cap w <= q) ->
  w_cap w <= c < 2 ^ 32 ->
  let '(nd, m', A') := lxp_arena_realloc m A (w_data w) c in
  (nd = 0 /\ m' = m /\ A' = A) \/
  exists cap L', 0 < nd /\ c <= cap /\ arena_rep true m' A' L' /\ L' ≡ₚ (nd, cap) :: L0 /\
    preserves m m' L0 /\ inside A m m' /\ ar_base A' = ar_base A /\ ar_size A' = ar_size A /\
    mem_read m' nd (Z.to_nat (w_size w)) = mem_read m (w_data w) (Z.to_nat (w_size w)).
Proof.
  intros HR HL (N1 & N2 & N3 & N4 & _) Hq Hc. unfold blk_of in HL.
  destruct (Z.eqb_spec (w_data w) 0) as [E|E].
  - rewrite E. unfold lxp_arena_realloc. rewrite Z.eqb_refl.
    pose proof (alloc_client true m A L c HR ltac:(lia)) as HX.
    destruct (lxp_arena_alloc m A c) as [[nd m'] A'].
    destruct HX as [?|(cap & L' & X1 & X2 & _ & _ & _ & X3 & X4 & X5 & _ & X6 & X7)]; [by left|].
    right. exists cap, L'. replace (Z.to_nat (w_size w)) with 0%nat by (specialize (N4 E); lia).
    destruct X5 as (B & S & _). cbn [app] in HL. split_and!; try done; try lia.
    + by rewrite X4, HL.
    + intros a qq Hin. apply X6. by rewrite HL.
  - pose proof (realloc_client true m A L (w_data w) q c HR) as HX.
    assert (Hin : (w_data w, q) ∈ L) by (rewrite HL; left). specialize (HX Hin ltac:(lia)).
    destruct (lxp_arena_realloc m A (w_data w) c) as [[nd m'] A'].
    destruct HX as [?|(cap & L1 & L' & X1 & X2 & X3 & X4 & X5 & X6 & X7 & X8 & X9 & X10)]; [by left|].
    right. exists cap, L'.
    assert (HP : L1 ≡ₚ L0) by (rewrite X3 in HL; by apply Permutation_cons_inv in HL).
    assert (Hnd : (nd, cap) ∈ L') by (rewrite X5; left).
    pose proof (rep_in_range true _ _ _ _ _ X4 Hnd) as (Y1 & _). pose proof (arena_rep_typed true _ _ _ X4) as (Y2 & _).
    split_and!; try done; try lia.
    + by rewrite X5, HP.
    + intros a qq Hin'. apply X6. by rewrite HP.
    + replace (Z.to_nat (Z.min q c)) with (Z.to_nat (w_size w) + Z.to_nat (Z.min q c - w_size w))%nat in X10
        by (specialize (Hq E); lia).
      rewrite !mem_read_app in X10. apply app_inj_1 in X10 as [X10 _]; [done|]. by rewrite !length_mem_read.
Qed.

(** Files whose block is among preserved extents keep their bytes. *)
Lemma preserved_content q ns m m' i j :
  0 <= i < alen ns -> 0 <= j < alen ns -> i <> j -> node_ok (aget wnode_zero ns j) ->
  (w_data (aget wnode_zero ns j) <> 0 -> w_cap (aget wnode_zero ns j) <= q j) ->
  preserves m m' (owned q (aset ns i wnode_zero)) ->
  mem_read m' (w_data (aget wnode_zero ns j)) (Z.to_nat (w_size (aget wnode_zero ns j))) =
  mem_read m (w_data (aget wnode_zero ns j)) (Z.to_nat (w_size (aget wnode_zero ns j))).
Proof.
  intros Hi Hj Hne (N1 & _ & _ & N4 & _) Hq HP. destruct (decide (w_data (aget wnode_zero ns j) = 0)) as [E|E].
  - specialize (N4 E). by replace (Z.to_nat (w_size (aget wnode_zero ns j))) with 0%nat by lia.
  - specialize (Hq E). apply mem_read_ext. intros x Hx.
    apply (preserves_load8 _ _ _ (w_data (aget wnode_zero ns j)) (q j) x HP); [|lia].
    pose proof (owned_in q (aset ns i wnode_zero) j) as HO. rewrite alen_aset in HO.
    rewrite aget_aset_ne in HO by lia. by apply HO.
Qed.

Lemma block_sizes_put (q : Z -> Z) i c : exists q', q' i = c /\ forall j, j <> i -> q' j = q j.
Proof.
  exists (fun j => if decide (j = i) then c else q j).
  split; [by rewrite decide_True|]. intros j Hj. by rewrite decide_False.
Qed.

Lemma wfs_realloc_spec pool F i c :
  wfs_inv pool F -> f_ready F = true -> 0 <= i < LXP_NWNODE ->
  let w := lxp_wnode_at F i in
  w_used w = true -> w_cap w <= c < 2 ^ 32 ->
  let '(nd, F1) := wfs_realloc F (w_data w) c in
  (nd = 0 /\ F1 = F) \/
  (nd <> 0 /\ f_nodes F1 = f_nodes F /\ pool_only pool (f_mem F) (f_mem F1) /\
   let F2 := put_wnode F1 i (set_w_block w nd c) in wfs_inv pool F2 /\ same_content F F2).
Proof.
  intros Hi Hr Hin w Hu Hc. pose proof (node_at_ok pool F i Hi Hin) as Hw. fold w in Hw.
  pose proof Hi as (Hl & Hn & Hb). unfold blocks_ok in Hb. rewrite Hr in Hb.
  destruct Hb as (q & L & HR & HP & Hq & HB & HS). unfold wfs_realloc.
  rewrite (owned_at q (f_nodes F) i) in HP by lia. fold (lxp_wnode_at F i) w in HP.
  pose proof (block_resize _ _ _ w (q i) c _ HR HP Hw ltac:(apply (Hq i Hin)) Hc) as HX.
  destruct (lxp_arena_realloc _ _ _ _) as [[nd m'] A'].
  destruct HX as [(-> & -> & ->)|(cap & L' & X1 & X2 & X3 & X4 & X5 & X6 & X7 & X8 & X9)].
  { left. split; [done|]. by destruct F. }
  right. split; [lia|]. split; [done|].
  assert (Hmax : c <= MAX_PAYLOAD).
  { pose proof (rep_in_range true _ _ _ nd cap X3 ltac:(rewrite X4; left)) as (Y1 & Y2 & _).
    rewrite X7, X8, HS in *. unfold MAX_PAYLOAD, LXP_ARENA_ALIGN. lia. }
  split; [intros x Hx; apply X6; rewrite HB, HS; lia|]. cbv zeta. set (w' := set_w_block w nd c).
  assert (Hat : forall j, 0 <= j -> lxp_wnode_at (put_wnode (mk_wfs (f_nodes F) A' (f_ready F) m') i w') j =
                 if decide (i = j) then w' else lxp_wnode_at F j).
  { intros j Hj. by rewrite node_at_put by (done || lia). }
  split; [split; [|split]|].
  - unfold put_wnode, set_f_nodes. cbn [f_nodes]. by rewrite alen_aset.
  - unfold put_wnode, set_f_nodes. cbn [f_nodes]. apply Forall_aset; [done|].
    destruct Hw as (W1 & W2 & W3 & W4 & W5). unfold node_ok, w', set_w_block. cbn. split_and!; lia || congruence.
  - unfold blocks_ok. change (f_ready (put_wnode (mk_wfs (f_nodes F) A' (f_ready F) m') i w')) with (f_ready F). rewrite Hr.
    destruct (block_sizes_put q i cap) as (q' & Q1 & Q2).
    exists q', L'. split; [exact X3|].
    split; [|split; [|exact (conj (eq_trans X7 HB) (eq_trans X8 HS))]].
    + change (f_nodes (put_wnode _ i w')) with (aset (f_nodes F) i w'). rewrite X4, (owned_aset q q') by (lia || done).
      unfold blk_of, w', set_w_block. cbn [w_data]. destruct (Z.eqb_spec nd 0); [lia|]. by rewrite Q1.
    + intros j Hj. rewrite node_at_put by (done || lia). destruct (decide (i = j)) as [<-|Hne].
      * rewrite Q1. unfold w'. cbn. lia.
      * rewrite Q2 by done. by apply Hq.
  - intros j Hj. unfold content. rewrite Hat by lia. cbn [f_mem put_wnode set_f_nodes].
    destruct (decide (i = j)) as [<-|Hne]; [exact X9|].
    apply (preserved_content q (f_nodes F) _ _ i j); try lia; try done.
    + by apply (node_at_ok pool).
    + by apply Hq.
Qed.

Lemma wfs_mincap_spec need : 0 <= need <= MAX_PAYLOAD -> need <= wfs_mincap need < 2 ^ 32.
Proof.
  intros H. unfold wfs_mincap. unfold MAX_PAYLOAD, LXP_WFS_POOL, LXP_ARENA_ALIGN in H.
  rewrite land_down256 by lia. lia.
Qed.

Lemma wfs_ncap_spec cap need : 0 <= cap < need -> need <= MAX_PAYLOAD ->
  need <= wfs_ncap cap need <= MAX_PAYLOAD.
Proof.
  intros H1 H2. pose proof (wfs_mincap_spec need ltac:(lia)). unfold wfs_ncap.
  unfold MAX_PAYLOAD, LXP_WFS_POOL, LXP_ARENA_ALIGN in *. rewrite u32_small by lia.
  repeat case_match; lia.
Qed.

Lemma pool_only_trans pool m m' m'' : pool_only pool m m' -> pool_only pool m' m'' -> pool_only pool m m''.
Proof. intros H1 H2 x Hx. by rewrite H2, H1. Qed.

Lemma same_content_trans F F' F'' : same_content F F' -> same_content F' F'' -> same_content F F''.
Proof. intros H1 H2 j Hj. by rewrite H2, H1. Qed.

(** Reserving: every file keeps its bytes and, unless the pool is exhausted, the node can
    then hold [need] bytes. *)
Lemma reserve_spec pool F i need :
  pool_ok pool -> wfs_inv pool F -> 0 <= i < LXP_NWNODE -> w_used (lxp_wnode_at F i) = true -> 0 <= need ->
  let '(rc, F') := lxp_wfs_reserve pool F i need in
  wfs_inv pool F' /\ same_content F F' /\ pool_only pool (f_mem F) (f_mem F') /\
  exists d c, f_nodes F' = aset (f_nodes F) i (set_w_block (lxp_wnode_at F i) d c) /\
    ((rc = 0 /\ need <= c) \/ (rc = -1 /\ f_nodes F' = f_nodes F)).
Proof.
  intros Hp Hi Hin Hu Hneed. pose proof Hi as (Hl & _). unfold lxp_wfs_reserve.
  set (w := lxp_wnode_at F i) in *.
  assert (Hself : f_nodes F = aset (f_nodes F) i (set_w_block w (w_data w) (w_cap w))).
  { replace (set_w_block w (w_data w) (w_cap w)) with w by (by destruct w). symmetry. apply aset_aget. lia. }
  destruct (Z.leb_spec need (w_cap w)).
  { split; [done|]. split; [done|]. split; [done|]. exists (w_data w), (w_cap w). split; [done|]. by left. }
  destruct (Z.gtb_spec need MAX_PAYLOAD).
  { split; [done|]. split; [done|]. split; [done|]. exists (w_data w), (w_cap w). split; [done|]. by right. }
  destruct (Z.gtb_spec need (SIZE_MAX - 255)).
  { split; [done|]. split; [done|]. split; [done|]. exists (w_data w), (w_cap w). split; [done|]. by right. }
  pose proof (node_at_ok pool F i Hi Hin) as (W1 & _). fold w in W1.
  pose proof (wfs_ncap_spec (w_cap w) need ltac:(lia) ltac:(lia)) as Hnc.
  pose proof (wfs_mincap_spec need ltac:(lia)) as Hmc.
  destruct (ensure_ready_spec pool F Hp Hi) as (Hi1 & Hr1 & Hn1 & Hc1 & Ho1).
  set (F1 := wfs_ensure_ready pool F) in *.
  assert (Hw1 : lxp_wnode_at F1 i = w) by (unfold lxp_wnode_at; by rewrite Hn1).
  pose proof (wfs_realloc_spec pool F1 i (wfs_ncap (w_cap w) need) Hi1 Hr1 Hin) as HX. cbv zeta in HX.
  rewrite Hw1 in HX. specialize (HX Hu ltac:(unfold MAX_PAYLOAD, LXP_WFS_POOL, LXP_ARENA_ALIGN in *; lia)).
  destruct (wfs_realloc F1 (w_data w) (wfs_ncap (w_cap w) need)) as [nd F2].
  destruct HX as [(-> & ->)|(Hnd & Hn2 & Ho2 & Hi2 & Hc2)]; cbn [Z.eqb negb].
  2:{ destruct (Z.eqb_spec nd 0); [done|]. cbn [negb]. split; [done|]. split; [by eapply same_content_trans|].
      split; [by eapply pool_only_trans|]. exists nd, (wfs_ncap (w_cap w) need).
      split; [unfold put_wnode, set_f_nodes; cbn [f_nodes]; by rewrite Hn2, Hn1|]. left. lia. }
  destruct (Z.eqb_spec (wfs_ncap (w_cap w) need) (wfs_mincap need)) as [En|En].
  { split; [done|]. split; [done|]. split; [done|]. exists (w_data w), (w_cap w).
    split; [by rewrite Hn1|]. right. by rewrite Hn1. }
  pose proof (wfs_realloc_spec pool F1 i (wfs_mincap need) Hi1 Hr1 Hin) as HX. cbv zeta in HX.
  rewrite Hw1 in HX. specialize (HX Hu ltac:(lia)).
  destruct (wfs_realloc F1 (w_data w) (wfs_mincap need)) as [nd F2].
  destruct HX as [(-> & ->)|(Hnd & Hn2 & Ho2 & Hi2 & Hc2)]; cbn [Z.eqb].
  - split; [done|]. split; [done|]. split; [done|]. exists (w_data w), (w_cap w).
    split; [by rewrite Hn1|]. right. by rewrite Hn1.
  - destruct (Z.eqb_spec nd 0); [done|]. split; [done|]. split; [by eapply same_content_trans|].
    split; [by eapply pool_only_trans|]. exists nd, (wfs_mincap need).
    split; [unfold put_wnode, set_f_nodes; cbn [f_nodes]; by rewrite Hn2, Hn1|]. left. lia.
Qed.

(** ** Writing inside a file's block *)

Lemma node_write pool F i x bs :
  pool_ok pool -> wfs_inv pool F -> 0 <= i < LXP_NWNODE ->
  let w := lxp_wnode_at F i in
  w_data w <= x -> x + alen bs <= w_data w + w_cap w ->
  let F' := set_f_mem F (mem_write (f_mem F) x bs) in
  wfs_inv pool F' /\ (forall j, 0 <= j < LXP_NWNODE -> j <> i -> content F' j = content F j) /\
  pool_only pool (f_mem F) (f_mem F').
Proof.
  intros Hp Hi Hin w Hx Hlen F'. unfold alen in Hlen. pose proof Hi as (Hl & Hn & Hb).
  pose proof (node_at_ok pool F i Hi Hin) as (W1 & W2 & W3 & W4 & W5). fold w in W1, W2, W3, W4, W5.
  destruct (decide (w_data w = 0)) as [E|E].
  - assert (Hnil : bs = []) by (destruct bs; [done|specialize (W4 E); cbn [length] in Hlen; lia]). subst bs.
    assert (Hld : forall y, load8 (mem_write (f_mem F) x []) y = load8 (f_mem F) y).
    { intros y. apply load8_write_out. cbn [length]. lia. }
    split; [|split].
    + split; [done|]. split; [done|]. unfold blocks_ok in *. cbn [F' set_f_mem f_ready f_mem f_arena f_nodes].
      destruct (f_ready F); [|done]. destruct Hb as (q & L & HR & Hrest). exists q, L. split; [|exact Hrest].
      eapply rep_ext; [exact HR|done].
    + intros j Hj _. apply mem_read_ext. intros y _. apply Hld.
    + intros y _. apply Hld.
  - unfold blocks_ok in Hb. destruct (f_ready F) eqn:Er.
    2:{ exfalso. apply E. exact (Forall_aget _ wnode_zero _ i Hb ltac:(lia)). }
    destruct Hb as (q & L & HR & HP & Hq & HB & HS). pose proof (Hq i Hin E) as Hqi. fold w in Hqi.
    assert (HP' : L ≡ₚ (w_data w, q i) :: owned q (aset (f_nodes F) i wnode_zero)).
    { rewrite HP, (owned_at q _ i) by lia. fold (lxp_wnode_at F i) w. unfold blk_of.
      by destruct (Z.eqb_spec (w_data w) 0). }
    assert (HinL : (w_data w, q i) ∈ L) by (rewrite HP'; left).
    pose proof (rep_in_range true _ _ _ _ _ HR HinL) as (R1 & R2 & _).
    split; [|split].
    + split; [done|]. split; [done|]. unfold blocks_ok. cbn [F' set_f_mem f_ready f_mem f_arena f_nodes].
      rewrite Er. exists q, L. split; [eapply rep_write; [exact HR|exact HinL|lia|lia]|]. done.
    + intros j Hj Hne. unfold content. change (lxp_wnode_at F' j) with (lxp_wnode_at F j).
      apply (preserved_content q (f_nodes F) _ _ i j); try lia; try done.
      * by apply (node_at_ok pool).
      * by apply Hq.
      * apply preserves_intro. intros a k y Ha Hy. apply load8_write_out.
        pose proof (rep_disjoint true _ _ _ _ _ _ HR HP' (a, k) Ha) as Hd. unfold apart in Hd. cbn in Hd. lia.
    + intros y Hy. apply load8_write_out. unfold LXP_WFS_POOL in *. lia.
Qed.

(** ** Changing a node without touching its block *)

Lemma node_update pool F i w' :
  wfs_inv pool F -> 0 <= i < LXP_NWNODE ->
  w_data w' = w_data (lxp_wnode_at F i) -> w_cap w' = w_cap (lxp_wnode_at F i) -> node_ok w' ->
  wfs_inv pool (put_wnode F i w') /\
  (forall j, 0 <= j < LXP_NWNODE -> j <> i -> content (put_wnode F i w') j = content F j).
Proof.
  intros (Hl & Hn & Hb) Hin Hd Hc Hok. split.
  - unfold wfs_inv, put_wnode. cbn [set_f_nodes f_nodes]. rewrite alen_aset. split; [done|].
    split; [by apply Forall_aset|]. unfold blocks_ok in *. cbn [set_f_nodes f_ready f_mem f_arena f_nodes].
    destruct (f_ready F).
    + destruct Hb as (q & L & HR & HP & Hq & HB). exists q, L. split; [done|]. split; [|split; [|done]].
      * rewrite HP, (owned_at q (f_nodes F) i), (owned_aset q q _ i w') by (done || lia).
        unfold blk_of. unfold lxp_wnode_at in Hd. by rewrite Hd.
      * intros j Hj. unfold lxp_wnode_at. cbn [set_f_nodes f_nodes]. rewrite aget_aset by lia. destruct (decide (i = j)) as [<-|]; [|by apply Hq].
        rewrite Hd, Hc. by apply Hq.
    + apply Forall_aset; [done|]. rewrite Hd. exact (Forall_aget _ wnode_zero _ i Hb ltac:(lia)).
  - intros j Hj Hne. unfold content. rewrite node_at_put, decide_False by (done || lia). done.
Qed.

(** ** Reclaiming a file *)

Lemma reclaim_spec pool F i :
  wfs_inv pool F -> 0 <= i < LXP_NWNODE ->
  let F' := wfs_reclaim F i in
  wfs_inv pool F' /\ f_nodes F' = aset (f_nodes F) i wnode_zero /\
  (forall j, 0 <= j < LXP_NWNODE -> j <> i -> content F' j = content F j) /\
  pool_only pool (f_mem F) (f_mem F').
Proof.
  intros Hi Hin. pose proof Hi as (Hl & Hn & Hb). unfold wfs_reclaim. set (w := lxp_wnode_at F i).
  pose proof (node_at_ok pool F i Hi Hin) as (W1 & W2 & W3 & W4 & W5). fold w in W1, W2, W3, W4, W5.
  destruct (Z.eqb_spec (w_data w) 0) as [E|E]; cbn [negb].
  - cbv zeta. destruct (node_update pool F i wnode_zero Hi Hin) as [H1 H2].
    + fold w. by rewrite E.
    + fold w. by rewrite (W4 E).
    + apply node_ok_zero.
    + by split_and!.
  - unfold blocks_ok in Hb. destruct (f_ready F) eqn:Er.
    2:{ exfalso. apply E. exact (Forall_aget _ wnode_zero _ i Hb ltac:(lia)). }
    destruct Hb as (q & L & HR & HP & Hq & HB & HS).
    assert (HP' : L ≡ₚ (w_data w, q i) :: owned q (aset (f_nodes F) i wnode_zero)).
    { rewrite HP, (owned_at q _ i) by lia. fold (lxp_wnode_at F i) w. unfold blk_of.
      by destruct (Z.eqb_spec (w_data w) 0). }
    assert (HinL : (w_data w, q i) ∈ L) by (rewrite HP'; left).
    destruct (free_client true _ _ _ _ _ HR HinL) as (m' & A' & L' & Ef & HR' & HPL & Hctl & _ & Hpr & Hins).
    unfold lxp_arena_free. rewrite Ef. cbn [negb]. cbv zeta.
    assert (HP2 : L' ≡ₚ owned q (aset (f_nodes F) i wnode_zero)).
    { rewrite HPL in HP'. by apply Permutation_cons_inv in HP'. }
    destruct Hctl as (C1 & C2 & _). split; [|split; [done|split]].
    + unfold wfs_inv, put_wnode. cbn [set_f_nodes f_nodes]. rewrite alen_aset. split; [done|].
      split; [apply Forall_aset; [done|apply node_ok_zero]|]. unfold blocks_ok.
      cbn [set_f_nodes f_ready f_mem f_arena f_nodes]. exists q, L'.
      split; [by apply rep_mappings|]. split; [done|]. split; [|cbn; by rewrite C1, C2].
      intros j Hj. unfold lxp_wnode_at. cbn [set_f_nodes f_nodes]. rewrite aget_aset by lia.
      destruct (decide (i = j)) as [<-|]; [done|]. by apply Hq.
    + intros j Hj Hne. unfold content. rewrite node_at_put, decide_False by (done || lia).
      apply (preserved_content q (f_nodes F) _ _ i j); try lia; try done.
      * by apply (node_at_ok pool).
      * by apply Hq.
      * intros a k Ha. apply Hpr. rewrite HP'. by right.
    + intros y Hy. apply Hins. rewrite HB, HS. lia.
Qed.
