(* ===== verification/TmpfsProps.v ===== *)
(** * Properties of the writable files

    Writing, truncating, unlinking and closing one file, against its bytes: what the file
    holds afterwards, that no other file changes, and that the pool never leaks. *)

From S2P Require Import Prelude Config Proc Pool Path Guest Fd Vfs Arena ArenaSpec ArenaClient Tmpfs TmpfsSpec.
Local Open Scope Z_scope.

(** Byte [k] of file [i]. *)
Definition fbyte (F : wfs) (i k : Z) : Z := load8 (f_mem F) (w_data (lxp_wnode_at F i) + k).

Lemma fbyte_nth F i k : 0 <= k < w_size (lxp_wnode_at F i) -> fbyte F i k = nth (Z.to_nat k) (content F i) 0.
Proof.
  intros Hk. unfold fbyte, content. rewrite nth_mem_read by lia. f_equal. lia.
Qed.

Lemma content_of_bytes F F' i :
  w_size (lxp_wnode_at F' i) = w_size (lxp_wnode_at F i) ->
  (forall k, 0 <= k < w_size (lxp_wnode_at F i) -> fbyte F' i k = fbyte F i k) -> content F' i = content F i.
Proof.
  intros Hs Hb. unfold content. rewrite Hs. apply nth_ext with (d := 0) (d' := 0).
  { by rewrite !length_mem_read. }
  intros k Hk. rewrite length_mem_read in Hk. rewrite !nth_mem_read by lia. apply Hb. lia.
Qed.

(** Every other file is as it was, record and bytes. *)
Definition others_same (F F' : wfs) (i : Z) : Prop :=
  forall j, 0 <= j < LXP_NWNODE -> j <> i ->
    lxp_wnode_at F' j = lxp_wnode_at F j /\ content F' j = content F j.

Lemma others_same_trans F F' F'' i : others_same F F' i -> others_same F' F'' i -> others_same F F'' i.
Proof. intros H1 H2 j Hj Hne. destruct (H2 j Hj Hne), (H1 j Hj Hne). split; congruence. Qed.

(** Reserving, seen from the file. *)
Lemma reserve_file pool F i need :
  pool_ok pool -> wfs_inv pool F -> 0 <= i < LXP_NWNODE -> w_used (lxp_wnode_at F i) = true -> 0 <= need ->
  let '(rc, F') := lxp_wfs_reserve pool F i need in
  wfs_inv pool F' /\ others_same F F' i /\ pool_only pool (f_mem F) (f_mem F') /\ content F' i = content F i /\
  (exists d c, lxp_wnode_at F' i = set_w_block (lxp_wnode_at F i) d c) /\
  (rc = 0 \/ rc = -1) /\ (rc = 0 -> need <= w_cap (lxp_wnode_at F' i)) /\
  (forall k, 0 <= k < w_size (lxp_wnode_at F i) -> fbyte F' i k = fbyte F i k).
Proof.
  intros Hp Hi Hin Hu Hn. pose proof (reserve_spec pool F i need Hp Hi Hin Hu Hn) as HX.
  destruct (lxp_wfs_reserve pool F i need) as [rc F']. destruct HX as (H1 & H2 & H3 & d & c & H4 & H5).
  pose proof Hi as (Hl & _). assert (Hat : forall j, 0 <= j -> lxp_wnode_at F' j =
    if decide (i = j) then set_w_block (lxp_wnode_at F i) d c else lxp_wnode_at F j).
  { intros j Hj. unfold lxp_wnode_at at 1. rewrite H4, aget_aset by lia. done. }
  assert (Hself : lxp_wnode_at F' i = set_w_block (lxp_wnode_at F i) d c) by (rewrite Hat by lia; by rewrite decide_True).
  split; [done|]. split; [|split; [done|split; [by apply H2|split; [by exists d, c|split; [|split]]]]].
  - intros j Hj Hne. split; [rewrite Hat by lia; by rewrite decide_False|by apply H2].
  - destruct H5 as [(-> & _)|(-> & _)]; auto.
  - intros ->. rewrite Hself. cbn. destruct H5 as [(_ & ?)|(? & _)]; [done|lia].
  - intros k Hk. rewrite !fbyte_nth by (rewrite ?Hself; done). by rewrite H2.
Qed.

(** Storing bytes in the block of file [i]. *)
Lemma store_file pool F i off bs :
  pool_ok pool -> wfs_inv pool F -> 0 <= i < LXP_NWNODE -> 0 <= off ->
  off + alen bs <= w_cap (lxp_wnode_at F i) ->
  let F' := set_f_mem F (mem_write (f_mem F) (w_data (lxp_wnode_at F i) + off) bs) in
  wfs_inv pool F' /\ others_same F F' i /\ pool_only pool (f_mem F) (f_mem F') /\
  (forall k, off <= k < off + alen bs -> fbyte F' i k = u8 (nth (Z.to_nat (k - off)) bs 0)) /\
  (forall k, k < off \/ off + alen bs <= k -> fbyte F' i k = fbyte F i k).
Proof.
  intros Hp Hi Hin Hoff Hlen F'.
  destruct (node_write pool F i (w_data (lxp_wnode_at F i) + off) bs Hp Hi Hin ltac:(lia) ltac:(lia)) as (H1 & H2 & H3).
  split; [done|]. split; [intros j Hj Hne; split; [done|by apply H2]|]. split; [done|]. unfold alen in *.
  split; intros k Hk; unfold fbyte, load8; change (lxp_wnode_at F' i) with (lxp_wnode_at F i);
    cbn [F' set_f_mem f_mem].
  - rewrite mem_write_in by lia. do 3 f_equal. lia.
  - by rewrite mem_write_out by lia.
Qed.

(** Changing the size of file [i] within its block. *)
Lemma resize_file pool F i n :
  wfs_inv pool F -> 0 <= i < LXP_NWNODE -> 0 <= n <= w_cap (lxp_wnode_at F i) ->
  let F' := put_wnode F i (set_w_size (lxp_wnode_at F i) n) in
  wfs_inv pool F' /\ others_same F F' i /\ w_size (lxp_wnode_at F' i) = n /\ f_mem F' = f_mem F /\
  (forall k, fbyte F' i k = fbyte F i k).
Proof.
  intros Hi Hin Hn F'. pose proof (node_at_ok pool F i Hi Hin) as (W1 & W2 & W3 & W4 & W5).
  pose proof Hi as (Hl & _).
  destruct (node_update pool F i (set_w_size (lxp_wnode_at F i) n) Hi Hin eq_refl eq_refl) as [H1 H2].
  { unfold node_ok, set_w_size. cbn. split_and!; lia || done. }
  assert (Hself : lxp_wnode_at F' i = set_w_size (lxp_wnode_at F i) n)
    by (unfold F'; by rewrite node_at_put, decide_True by (done || lia)).
  split; [done|]. split; [|split; [by rewrite Hself|split; [done|]]].
  - intros j Hj Hne. split; [unfold F'; by rewrite node_at_put, decide_False by (done || lia)|by apply H2].
  - intros k. unfold fbyte. by rewrite Hself.
Qed.

(** Filling the gap between the end of the file and [n] with zeros. *)
Lemma zero_gap pool F i n :
  pool_ok pool -> wfs_inv pool F -> 0 <= i < LXP_NWNODE -> n <= w_cap (lxp_wnode_at F i) ->
  let sz := w_size (lxp_wnode_at F i) in
  let F' := if n >? sz
            then set_f_mem F (mem_set (f_mem F) (w_data (lxp_wnode_at F i) + sz) 0 (n - sz)) else F in
  wfs_inv pool F' /\ others_same F F' i /\ pool_only pool (f_mem F) (f_mem F') /\
  lxp_wnode_at F' i = lxp_wnode_at F i /\
  (forall k, 0 <= k < sz -> fbyte F' i k = fbyte F i k) /\ (forall k, sz <= k < n -> fbyte F' i k = 0).
Proof.
  intros Hp Hi Hin Hn sz. pose proof (node_at_ok pool F i Hi Hin) as (W1 & _). fold sz in W1.
  destruct (Z.gtb_spec n sz).
  2:{ cbv zeta. split; [done|]. split; [done|]. split; [done|]. split; [done|]. split; [done|]. intros; lia. }
  unfold mem_set. assert (Hal : alen (replicate (Z.to_nat (n - sz)) 0) = n - sz)
    by (unfold alen; rewrite length_replicate; lia).
  destruct (store_file pool F i sz (replicate (Z.to_nat (n - sz)) 0) Hp Hi Hin ltac:(lia) ltac:(lia))
    as (H1 & H2 & H3 & H4 & H5). cbv zeta. split; [done|]. split; [done|]. split; [done|]. split; [done|].
  split; [intros k Hk; apply H5; lia|]. intros k Hk. rewrite H4 by lia. rewrite nth_lookup.
  rewrite lookup_replicate_2 by lia. done.
Qed.

(** C6: A write to a file puts the guest's bytes at the offset and nothing else anywhere: the
    file is as long as it was or reaches to the end of the write, the bytes outside the write
    are the old ones, a gap beyond the old end reads as zeros rather than stale pool bytes,
    and every other file keeps its record and its bytes even when the block had to move.  A
    write that fails leaves the bytes of every file, this one included, as they were. *)
Theorem tmpfs_pwrite_exact pool G F p s buf len off :
  pool_ok pool -> wfs_inv pool F -> 0 <= ofd_file_idx s < LXP_NWNODE ->
  w_used (lxp_wnode_at F (ofd_file_idx s)) = true -> 0 <= off -> 0 <= len < 2 ^ 32 ->
  buf + len <= pool \/ pool + LXP_WFS_POOL <= buf ->
  let i := ofd_file_idx s in
  let sz := w_size (lxp_wnode_at F i) in
  let '(n, F') := fop_pwrite_tmpfs pool G F p s buf len off in
  wfs_inv pool F' /\ others_same F F' i /\ pool_only pool (f_mem F) (f_mem F') /\
  ((n < 0 /\ content F' i = content F i) \/
   (n = len /\ w_size (lxp_wnode_at F' i) = Z.max sz (off + len) /\
    forall k, 0 <= k < w_size (lxp_wnode_at F' i) -> fbyte F' i k =
      if decide (off <= k < off + len) then load8 (f_mem F) (buf + (k - off))
      else if decide (k < sz) then fbyte F i k else 0)).
Proof.
  intros Hp Hi Hin Hu Hoff Hlen Hbuf i sz. unfold fop_pwrite_tmpfs. fold i.
  destruct (Z.gtb_spec off SIZE_MAX); [split; [done|]; split; [done|]; split; [done|]; left; done|].
  destruct (is_dir_mode _); [split; [done|]; split; [done|]; split; [done|]; left; done|].
  destruct (Z.ltb_spec (u32 (off + len)) len) as [|Hnw];
    [split; [done|]; split; [done|]; split; [done|]; left; done|].
  assert (Ew : u32 (off + len) = off + len).
  { unfold SIZE_MAX, u32 in *. assert (off + len < 2 ^ 32 \/ 2 ^ 32 <= off + len) as [|Hw] by lia; [lia|].
    rewrite <- (Z.mod_unique (off + len) (2 ^ 32) 1 (off + len - 2 ^ 32)) in Hnw by lia. lia. }
  rewrite Ew. pose proof (reserve_file pool F i (off + len) Hp Hi Hin Hu ltac:(lia)) as HX.
  destruct (lxp_wfs_reserve pool F i (off + len)) as [rc F1].
  destruct HX as (I1 & O1 & P1 & C1 & (d & c & E1) & Hrc & Hcap & B1).
  destruct (Z.eqb_spec rc 0) as [->|Hne]; cbn [negb].
  2:{ split; [done|]. split; [done|]. split; [done|]. left. done. }
  specialize (Hcap eq_refl). assert (Hsz1 : w_size (lxp_wnode_at F1 i) = sz) by (by rewrite E1).
  destruct (zero_gap pool F1 i off Hp I1 Hin ltac:(lia)) as (I2 & O2 & P2 & E2 & B2 & Z2).
  cbv zeta in I2, O2, P2, E2, B2, Z2. set (F2 := if off >? _ then _ else F1) in *.
  rewrite Hsz1 in B2, Z2. rewrite <- E2 in Hcap.
  assert (O12 : others_same F F2 i) by (by eapply others_same_trans).
  assert (P12 : pool_only pool (f_mem F) (f_mem F2)) by (by eapply pool_only_trans).
  unfold lxp_copy_from_guest. destruct (lxp_guest_access_ok _ _ _ _ _); cbn [negb].
  2:{ split; [done|]. split; [done|]. split; [done|]. left. split; [done|].
      apply content_of_bytes; [rewrite E2; exact Hsz1|]. intros k Hk. fold sz in Hk. by rewrite B2, B1. }
  set (bs := mem_read (f_mem F2) buf (Z.to_nat len)).
  assert (Hal : alen bs = len) by (unfold alen, bs; rewrite length_mem_read; lia).
  rewrite <- E2. destruct (store_file pool F2 i off bs Hp I2 Hin Hoff ltac:(lia)) as (I3 & O3 & P3 & S3 & B3).
  set (F3 := set_f_mem F2 _) in *. rewrite Hal in S3, B3.
  assert (E3 : lxp_wnode_at F3 i = lxp_wnode_at F2 i) by done.
  assert (Hread : forall k, off <= k < off + len -> u8 (nth (Z.to_nat (k - off)) bs 0) = load8 (f_mem F) (buf + (k - off))).
  { intros k Hk. unfold bs. rewrite nth_mem_read by lia. unfold load8 at 1. rewrite u8_idemp.
    change (load8 (f_mem F2) (buf + Z.of_nat (Z.to_nat (k - off))) = load8 (f_mem F) (buf + (k - off))).
    rewrite P12 by lia. f_equal. lia. }
  assert (Hb : forall k, 0 <= k < Z.max sz (off + len) -> fbyte F3 i k =
      if decide (off <= k < off + len) then load8 (f_mem F) (buf + (k - off))
      else if decide (k < sz) then fbyte F i k else 0).
  { intros k Hk. destruct (decide (off <= k < off + len)); [by rewrite S3, Hread by lia|].
    rewrite B3 by lia. destruct (decide (k < sz)); [by rewrite B2, B1 by lia|]. apply Z2. lia. }
  assert (O13 : others_same F F3 i) by (by eapply others_same_trans).
  assert (P13 : pool_only pool (f_mem F) (f_mem F3)) by (by eapply pool_only_trans).
  assert (Hsz3 : w_size (lxp_wnode_at F2 i) = sz) by (by rewrite E2).
  rewrite Hsz3. destruct (Z.gtb_spec (off + len) sz) as [Hg|Hg].
  - rewrite <- E3 in Hcap |- *.
    destruct (resize_file pool F3 i (off + len) I3 Hin ltac:(lia)) as (I4 & O4 & S4 & M4 & B4).
    split; [done|]. split; [by eapply others_same_trans|]. split; [by rewrite M4|]. right.
    split; [done|]. split; [rewrite S4; lia|]. intros k Hk. rewrite S4 in Hk. rewrite B4. apply Hb. lia.
  - split; [done|]. split; [done|]. split; [done|]. right. split; [done|].
    rewrite E3, Hsz3. split; [lia|]. intros k Hk. apply Hb. lia.
Qed.

(** Truncating sets the length: bytes below the new length that the file had are kept,
    new ones read as zero, and no other file changes.  When it fails, no file has changed. *)
Theorem tmpfs_ftruncate_exact pool F s n :
  pool_ok pool -> wfs_inv pool F -> 0 <= ofd_file_idx s < LXP_NWNODE ->
  w_used (lxp_wnode_at F (ofd_file_idx s)) = true -> 0 <= n ->
  let i := ofd_file_idx s in
  let sz := w_size (lxp_wnode_at F i) in
  let '(rc, F') := fop_ftruncate_tmpfs pool F s n in
  wfs_inv pool F' /\ others_same F F' i /\ pool_only pool (f_mem F) (f_mem F') /\
  ((rc < 0 /\ content F' i = content F i) \/
   (rc = 0 /\ w_size (lxp_wnode_at F' i) = n /\
    forall k, 0 <= k < n -> fbyte F' i k = if decide (k < sz) then fbyte F i k else 0)).
Proof.
  intros Hp Hi Hin Hu Hn i sz. unfold fop_ftruncate_tmpfs. fold i.
  destruct (is_dir_mode _); [split; [done|]; split; [done|]; split; [done|]; left; done|].
  destruct (Z.gtb_spec n SIZE_MAX); [split; [done|]; split; [done|]; split; [done|]; left; done|].
  pose proof (node_at_ok pool F i Hi Hin) as (W1 & _). fold sz in W1 |- *.
  destruct (Z.gtb_spec n sz) as [Hg|Hg].
  - pose proof (reserve_file pool F i n Hp Hi Hin Hu Hn) as HX.
    destruct (lxp_wfs_reserve pool F i n) as [rc F1].
    destruct HX as (I1 & O1 & P1 & C1 & (d & c & E1) & Hrc & Hcap & B1).
    destruct (Z.eqb_spec rc 0) as [->|Hne]; cbn [negb].
    2:{ split; [done|]. split; [done|]. split; [done|]. left. done. }
    specialize (Hcap eq_refl). assert (Hsz1 : w_size (lxp_wnode_at F1 i) = sz) by (by rewrite E1).
    destruct (zero_gap pool F1 i n Hp I1 Hin Hcap) as (I2 & O2 & P2 & E2 & B2 & Z2).
    cbv zeta in I2, O2, P2, E2, B2, Z2. rewrite Hsz1 in *.
    destruct (Z.gtb_spec n sz); [|lia]. set (F2 := set_f_mem F1 _) in *. rewrite <- E2 in Hcap |- *.
    destruct (resize_file pool F2 i n I2 Hin ltac:(lia)) as (I4 & O4 & S4 & M4 & B4).
    split; [done|]. split; [by eapply others_same_trans; [exact O1|eapply others_same_trans]|].
    split; [rewrite M4; by eapply pool_only_trans|]. right. split; [done|]. split; [done|].
    intros k Hk. rewrite B4. destruct (decide (k < sz)); [by rewrite B2, B1 by lia|]. apply Z2. lia.
  - destruct (resize_file pool F i n Hi Hin ltac:(lia)) as (I4 & O4 & S4 & M4 & B4).
    split; [done|]. split; [done|]. split; [by rewrite M4|]. right. split; [done|]. split; [done|].
    intros k Hk. rewrite B4. by destruct (decide (k < sz)); [|lia].
Qed.

(** ** Unlinking and closing *)

Lemma find_not pool F i path : wfs_inv pool F -> 0 <= i < LXP_NWNODE -> w_linked (lxp_wnode_at F i) = false ->
  lxp_wfs_find F path <> i.
Proof.
  intros (Hl & _) Hin Hlk. unfold lxp_wfs_find.
  destruct (find_first (named path) (f_nodes F)) as [k|] eqn:E; [|lia]. intros ->.
  apply (find_first_some wnode_zero) in E as (_ & E & _). unfold named in E.
  fold (lxp_wnode_at F i) in E. rewrite Hlk in E. by rewrite andb_false_r in E.
Qed.

Lemma put_refs_file pool F i w' :
  wfs_inv pool F -> 0 <= i < LXP_NWNODE -> w_used w' = w_used (lxp_wnode_at F i) ->
  w_data w' = w_data (lxp_wnode_at F i) -> w_cap w' = w_cap (lxp_wnode_at F i) ->
  w_size w' = w_size (lxp_wnode_at F i) ->
  let F' := put_wnode F i w' in
  wfs_inv pool F' /\ others_same F F' i /\ content F' i = content F i /\ lxp_wnode_at F' i = w'.
Proof.
  intros Hi Hin Hu Hd Hc Hs F'. pose proof (node_at_ok pool F i Hi Hin) as (W1 & W2 & W3 & W4 & W5).
  pose proof Hi as (Hl & _). destruct (node_update pool F i w' Hi Hin Hd Hc) as [H1 H2].
  { unfold node_ok. rewrite Hu, Hd, Hc, Hs. done. }
  assert (Hself : lxp_wnode_at F' i = w') by (unfold F'; by rewrite node_at_put, decide_True by (done || lia)).
  split; [done|]. split; [|split; [|done]].
  - intros j Hj Hne. split; [unfold F'; by rewrite node_at_put, decide_False by (done || lia)|by apply H2].
  - unfold content. by rewrite Hself, Hd, Hs.
Qed.

Lemma reclaim_file pool F i : wfs_inv pool F -> 0 <= i < LXP_NWNODE ->
  wfs_inv pool (wfs_reclaim F i) /\ others_same F (wfs_reclaim F i) i /\
  lxp_wnode_at (wfs_reclaim F i) i = wnode_zero.
Proof.
  intros Hi Hin. pose proof Hi as (Hl & _). destruct (reclaim_spec pool F i Hi Hin) as (H1 & H2 & H3 & _).
  split; [done|]. split.
  - intros j Hj Hne. split; [|by apply H3]. unfold lxp_wnode_at. rewrite H2. by apply aget_aset_ne; lia.
  - unfold lxp_wnode_at. rewrite H2. apply aget_aset_eq. lia.
Qed.

(** One close of an unlinked open file. *)
Lemma close_unlinked pool F i :
  wfs_inv pool F -> 0 <= i < LXP_NWNODE -> w_used (lxp_wnode_at F i) = true ->
  w_linked (lxp_wnode_at F i) = false -> 0 < w_open_refs (lxp_wnode_at F i) ->
  let F' := lxp_wfs_close F i in
  wfs_inv pool F' /\ others_same F F' i /\
  if w_open_refs (lxp_wnode_at F i) =? 1 then lxp_wnode_at F' i = wnode_zero
  else content F' i = content F i /\ w_used (lxp_wnode_at F' i) = true /\ w_linked (lxp_wnode_at F' i) = false /\
       w_open_refs (lxp_wnode_at F' i) = w_open_refs (lxp_wnode_at F i) - 1.
Proof.
  intros Hi Hin Hu Hlk Hr. unfold lxp_wfs_close, wnode_in.
  destruct (Z.geb_spec i 0); [|lia]. destruct (Z.ltb_spec i LXP_NWNODE); [|lia]. rewrite Hu.
  destruct (Z.eqb_spec (w_open_refs (lxp_wnode_at F i)) 0); [lia|]. cbn [andb negb orb].
  set (w := set_w_open_refs _ _). destruct (put_refs_file pool F i w Hi Hin) as (H1 & H2 & H3 & H4); [done..|].
  change (w_linked w) with (w_linked (lxp_wnode_at F i)). rewrite Hlk.
  change (w_open_refs w) with (w_open_refs (lxp_wnode_at F i) - 1).
  destruct (Z.eqb_spec (w_open_refs (lxp_wnode_at F i)) 1) as [E|E].
  - rewrite E. cbn [Z.sub Z.eqb andb negb]. change (1 - 1 =? 0) with true. cbn [andb].
    destruct (reclaim_file pool (put_wnode F i w) i H1 Hin) as (R1 & R2 & R3).
    split; [done|]. split; [by eapply others_same_trans|]. done.
  - destruct (Z.eqb_spec (w_open_refs (lxp_wnode_at F i) - 1) 0); [lia|]. cbn [andb].
    split; [done|]. split; [done|]. rewrite H4. done.
Qed.

Lemma closes_unlinked pool F i (n : nat) :
  wfs_inv pool F -> 0 <= i < LXP_NWNODE -> w_used (lxp_wnode_at F i) = true ->
  w_linked (lxp_wnode_at F i) = false -> Z.of_nat n <= w_open_refs (lxp_wnode_at F i) ->
  let F' := Nat.iter n (fun F => lxp_wfs_close F i) F in
  wfs_inv pool F' /\ others_same F F' i /\
  (Z.of_nat n < w_open_refs (lxp_wnode_at F i) ->
     content F' i = content F i /\ w_used (lxp_wnode_at F' i) = true /\ w_linked (lxp_wnode_at F' i) = false /\
     w_open_refs (lxp_wnode_at F' i) = w_open_refs (lxp_wnode_at F i) - Z.of_nat n) /\
  (0 < Z.of_nat n -> Z.of_nat n = w_open_refs (lxp_wnode_at F i) -> lxp_wnode_at F' i = wnode_zero).
Proof.
  intros Hi Hin Hu Hlk. induction n as [|n IH]; intros Hn.
  { cbn [Nat.iter nat_rect]. split; [done|]. split; [done|]. split; [|lia]. intros _. split_and!; try done. lia. }
  destruct IH as (I1 & O1 & K1 & _); [lia|]. destruct (K1 ltac:(lia)) as (C1 & U1 & L1 & R1).
  rewrite Nat.iter_succ. set (F1 := Nat.iter n _ F) in *.
  destruct (close_unlinked pool F1 i I1 Hin U1 L1 ltac:(lia)) as (I2 & O2 & K2). cbv zeta in *.
  split; [done|]. split; [by eapply others_same_trans|].
  rewrite R1 in K2. destruct (Z.eqb_spec (w_open_refs (lxp_wnode_at F i) - Z.of_nat n) 1) as [E|E].
  - split; [lia|]. intros _ _. exact K2.
  - split; [|lia]. intros _. destruct K2 as (-> & ? & ? & ->). split_and!; try done. lia.
Qed.

(** Unlinking removes the name and not an open file: from then on no path finds the node,
    but its bytes stay through every close but the last; the last close clears the node and
    returns its block, and no other file is affected at any point. *)
Theorem tmpfs_unlinked_until_last_close pool F i n :
  wfs_inv pool F -> 0 <= i < LXP_NWNODE -> w_used (lxp_wnode_at F i) = true ->
  0 < w_open_refs (lxp_wnode_at F i) -> Z.of_nat n <= w_open_refs (lxp_wnode_at F i) ->
  let F' := Nat.iter n (fun F => lxp_wfs_close F i) (lxp_wfs_free F i) in
  wfs_inv pool F' /\ others_same F F' i /\ (forall path, lxp_wfs_find F' path <> i) /\
  (Z.of_nat n < w_open_refs (lxp_wnode_at F i) -> content F' i = content F i /\ w_used (lxp_wnode_at F' i) = true) /\
  (Z.of_nat n = w_open_refs (lxp_wnode_at F i) -> lxp_wnode_at F' i = wnode_zero).
Proof.
  intros Hi Hin Hu Hr Hn. unfold lxp_wfs_free, wnode_in.
  destruct (Z.geb_spec i 0); [|lia]. destruct (Z.ltb_spec i LXP_NWNODE); [|lia]. rewrite Hu. cbn [andb negb orb].
  set (w := set_w_path _ _). destruct (put_refs_file pool F i w Hi Hin) as (H1 & H2 & H3 & H4); [done..|].
  change (w_open_refs w) with (w_open_refs (lxp_wnode_at F i)).
  destruct (Z.eqb_spec (w_open_refs (lxp_wnode_at F i)) 0); [lia|].
  pose proof (closes_unlinked pool (put_wnode F i w) i n H1 Hin) as HX. rewrite !H4 in HX.
  specialize (HX Hu eq_refl Hn). cbv zeta in *. destruct HX as (I & O & K & Z0).
  change (w_open_refs w) with (w_open_refs (lxp_wnode_at F i)) in *. set (F' := Nat.iter _ _ _) in *.
  split; [done|]. split; [by eapply others_same_trans|]. split.
  - intros path. apply (find_not pool); [done..|].
    destruct (decide (Z.of_nat n < w_open_refs (lxp_wnode_at F i))) as [Hlt|Hge]; [by apply K|].
    by rewrite Z0 by lia.
  - split; [intros Hlt; destruct (K Hlt) as (-> & ? & _); by split|]. intros Heq. apply Z0; lia.
Qed.

(** ** The pool comes back whole *)

Lemma live_nil_free cur bs : live cur bs = [] -> used_of bs = 0.
Proof.
  revert cur. induction bs as [|[p fr] t IH]; intros cur; [done|]. cbn [live used_of].
  destruct fr; [|done]. cbn [app]. intros E. by rewrite (IH _ E).
Qed.

(** An arena without live extents satisfies any request that fits its region. *)
Lemma empty_arena_alloc m A c :
  arena_rep true m A [] -> 0 < c <= ar_size A - 16 -> (lxp_arena_alloc m A c).1.1 <> 0.
Proof.
  intros (bs & HI & Hc & HL) Hsz. pose proof HI as (Hb & _ & _ & Hs32 & Hsm & Hend & Hwf & He & _).
  unfold UINTPTR_MAX in Hend. specialize (Hc eq_refl). symmetry in HL. apply live_nil_free in HL.
  destruct (coalesced_all_free bs Hc Hwf HL) as [->|(p & ->)]; [cbn in He; lia|].
  cbn [extent] in He. pose proof (arena_alloc_refines m A _ c HI ltac:(lia)) as HR.
  assert (Er : request c = c + 15 - (c + 15) mod 16).
  { unfold request, arena_align, SIZE_MAX, LXP_ARENA_ALIGN, ALIGN_MASK. destruct (Z.eqb_spec c 0); [lia|].
    destruct (Z.gtb_spec c (2 ^ 32 - 1 - (16 - 1))); [lia|]. by rewrite land_down16 by lia. }
  apply Forall_cons in Hwf as [[Wp Wm] _]. cbn [fst] in Wp, Wm.
  destruct (Z.eqb_spec (request c) 0); [lia|]. cbn [a_fit] in HR.
  destruct (Z.geb_spec p (request c)); [|lia]. cbn [andb] in HR.
  destruct HR as (m' & A' & -> & _). cbn [fst extent]. lia.
Qed.

(** The pool never leaks: once no file holds data, whatever sequence of growth, moves and
    removals came before, a single file can again take the largest size a file can have. *)
Theorem tmpfs_pool_reclaimed pool F i :
  pool_ok pool -> wfs_inv pool F -> 0 <= i < LXP_NWNODE ->
  Forall (fun w => w_data w = 0) (f_nodes F) ->
  (lxp_wfs_reserve pool F i MAX_PAYLOAD).1 = 0.
Proof.
  intros Hp Hi Hin Hall. pose proof Hi as (Hl & Hn & _).
  pose proof (Forall_aget _ wnode_zero _ i Hall ltac:(lia)) as Hd. cbv beta in Hd.
  fold (lxp_wnode_at F i) in Hd. pose proof (node_at_ok pool F i Hi Hin) as (_ & _ & _ & W4 & _).
  unfold lxp_wfs_reserve. rewrite (W4 Hd). change (MAX_PAYLOAD <=? 0) with false.
  change (MAX_PAYLOAD >? MAX_PAYLOAD) with false. change (MAX_PAYLOAD >? SIZE_MAX - 255) with false. cbv iota zeta.
  change (wfs_ncap 0 MAX_PAYLOAD) with MAX_PAYLOAD.
  destruct (ensure_ready_spec pool F Hp Hi) as ((_ & _ & Hb) & Hr1 & Hn1 & _).
  unfold blocks_ok in Hb. rewrite Hr1, Hn1 in Hb. destruct Hb as (q & L & HR & HP & _ & HB & HS).
  unfold owned in HP. rewrite owned_none in HP by done. apply Permutation_nil_r in HP. subst L.
  unfold wfs_realloc. rewrite Hd. unfold lxp_arena_realloc. rewrite Z.eqb_refl.
  pose proof (empty_arena_alloc _ _ MAX_PAYLOAD HR ltac:(rewrite HS; vm_compute; split; congruence)) as HX.
  destruct (lxp_arena_alloc _ _ _) as [[nd m'] A']. cbn [fst] in HX.
  destruct (Z.eqb_spec nd 0); [done|]. done.
Qed.

(** ** Witnesses *)

Definition demo_pool : Z := 0x60000000.
Definition demo_file (refs : Z) : lxp_wnode := mk_wnode [47; 97] 0x81a4 0 0 0 true refs true.
Definition demo_wfs (refs : Z) : wfs :=
  mk_wfs (demo_file refs :: replicate 31 wnode_zero) arena_zero false (fun a => a).
Definition demo_ofd : lxp_ofd := mk_ofd 1 LXP_FD_TMPFS 0 0 0 0 0.

Lemma demo_pool_ok : pool_ok demo_pool.
Proof. unfold pool_ok. vm_compute. intuition congruence. Qed.

Lemma demo_wfs_inv refs : wfs_inv demo_pool (demo_wfs refs).
Proof.
  assert (Hok : node_ok (demo_file refs)).
  { unfold node_ok, demo_file, MAX_PAYLOAD, LXP_WFS_POOL, LXP_ARENA_ALIGN. cbn. lia. }
  split; [reflexivity|]. split.
  - unfold demo_wfs. cbn [f_nodes]. constructor; [exact Hok|]. apply Forall_replicate, node_ok_zero.
  - unfold blocks_ok, demo_wfs. cbn [f_ready f_nodes]. constructor; [done|]. by apply Forall_replicate.
Qed.

Lemma tmpfs_pwrite_exact_witness :
  let '(n, F') := fop_pwrite_tmpfs demo_pool demo_genv (demo_wfs 1) 0 demo_ofd 4100 3 2 in
  n = 3 /\ w_size (lxp_wnode_at F' 0) = 5 /\ fbyte F' 0 1 = 0 /\ fbyte F' 0 2 = load8 (fun a => a) 4100.
Proof.
  pose proof (tmpfs_pwrite_exact demo_pool demo_genv (demo_wfs 1) 0 demo_ofd 4100 3 2 demo_pool_ok
                (demo_wfs_inv 1) ltac:(vm_compute; split; congruence) eq_refl ltac:(lia) ltac:(lia)
                ltac:(left; vm_compute; congruence)) as H.
  assert (E : (fop_pwrite_tmpfs demo_pool demo_genv (demo_wfs 1) 0 demo_ofd 4100 3 2).1 = 3)
    by (vm_compute; reflexivity).
  cbv zeta in H. destruct (fop_pwrite_tmpfs _ _ _ _ _ _ _ _) as [n F']. cbn [fst] in E. subst n.
  destruct H as (_ & _ & _ & [(H & _)|(_ & Hs & Hb)]); [lia|].
  change (ofd_file_idx demo_ofd) with 0 in *. change (w_size (lxp_wnode_at (demo_wfs 1) 0)) with 0 in *.
  rewrite Hs in Hb |- *. split; [done|]. split; [done|]. by rewrite !Hb by (vm_compute; split; congruence).
Defined.

Lemma tmpfs_ftruncate_exact_witness :
  let '(rc, F') := fop_ftruncate_tmpfs demo_pool (demo_wfs 1) demo_ofd 100 in
  rc = 0 /\ w_size (lxp_wnode_at F' 0) = 100 /\ fbyte F' 0 99 = 0.
Proof.
  pose proof (tmpfs_ftruncate_exact demo_pool (demo_wfs 1) demo_ofd 100 demo_pool_ok (demo_wfs_inv 1)
                ltac:(vm_compute; split; congruence) eq_refl ltac:(lia)) as H.
  assert (E : (fop_ftruncate_tmpfs demo_pool (demo_wfs 1) demo_ofd 100).1 = 0) by (vm_compute; reflexivity).
  cbv zeta in H. destruct (fop_ftruncate_tmpfs _ _ _ _) as [rc F']. cbn [fst] in E. subst rc.
  destruct H as (_ & _ & _ & [(H & _)|(_ & Hs & Hb)]); [lia|].
  split; [done|]. split; [done|]. exact (Hb 99 ltac:(lia)).
Defined.

Lemma tmpfs_unlinked_until_last_close_witness :
  let F1 := Nat.iter 1 (fun F => lxp_wfs_close F 0) (lxp_wfs_free (demo_wfs 2) 0) in
  let F2 := Nat.iter 2 (fun F => lxp_wfs_close F 0) (lxp_wfs_free (demo_wfs 2) 0) in
  w_used (lxp_wnode_at F1 0) = true /\ lxp_wnode_at F2 0 = wnode_zero.
Proof.
  intros F1 F2.
  destruct (tmpfs_unlinked_until_last_close demo_pool (demo_wfs 2) 0 1 (demo_wfs_inv 2)
              ltac:(vm_compute; split; congruence) eq_refl ltac:(vm_compute; reflexivity) ltac:(vm_compute; congruence))
    as (_ & _ & _ & H1 & _).
  destruct (tmpfs_unlinked_until_last_close demo_pool (demo_wfs 2) 0 2 (demo_wfs_inv 2)
              ltac:(vm_compute; split; congruence) eq_refl ltac:(vm_compute; reflexivity) ltac:(vm_compute; congruence))
    as (_ & _ & _ & _ & H2).
  split; [apply H1; vm_compute; reflexivity|apply H2; vm_compute; reflexivity].
Defined.

Lemma tmpfs_pool_reclaimed_witness :
  MAX_PAYLOAD = 65520 /\ (lxp_wfs_reserve demo_pool (demo_wfs 0) 0 MAX_PAYLOAD).1 = 0.
Proof.
  split; [reflexivity|]. apply tmpfs_pool_reclaimed; [exact demo_pool_ok|apply demo_wfs_inv|vm_compute; split; congruence|].
  unfold demo_wfs. cbn [f_nodes]. constructor; [done|]. by apply Forall_replicate.
Defined.

(** ** A write of no bytes *)

(** A positioned write of zero bytes beyond the end of a file is not without effect, as
    write(2) has it for regular files: it returns 0 but leaves the file extended to the
    offset with zeros. *)
Theorem tmpfs_empty_write_extends :
  let '(n, F') := fop_pwrite_tmpfs demo_pool demo_genv (demo_wfs 1) 0 demo_ofd 4100 0 100 in
  w_size (lxp_wnode_at (demo_wfs 1) 0) = 0 /\ n = 0 /\ w_size (lxp_wnode_at F' 0) = 100.
Proof. vm_compute. auto. Qed.
