(* ===== verification/Mpu.v ===== *)
(** * PMSAv7 descriptors (include/lxp/arch/cortex_m_mpu.h)

    Decoding and encoding of the two MPU registers of a region, the range tests a port
    uses before it trusts a region, and the comparison of a live register snapshot with
    what was programmed.  The hardware's own rule (which region decides an address) is
    the specification at the end; the register reader is the port's. *)

From S2P Require Import Prelude.
Local Open Scope Z_scope.

Definition LXP_CORTEX_M_MPU_MAX_REGIONS : Z := 16.

Record lxp_cortex_m_mpu_region := mk_mpu_region {
  mr_rbar : Z;
  mr_rasr : Z;
  mr_base : Z;
  mr_size : Z;
  mr_subregion_disable : Z;
  mr_texscb : Z;
  mr_access : Z;
  mr_execute_never : Z;
  mr_enabled : Z;
}.

Record lxp_cortex_m_mpu_snapshot := mk_mpu_snapshot {
  ms_ctrl : Z;
  ms_count : Z;
  ms_regions : list lxp_cortex_m_mpu_region;
}.

Record lxp_cortex_m_mpu_expectation := mk_mpu_expectation {
  me_base : Z;
  me_size : Z;
  me_subregion_disable : Z;
  me_texscb : Z;
  me_access : Z;
  me_execute_never : Z;
}.

(** A pointer argument is an [option], [None] the null pointer.  [out] tells whether the
    destination pointer is non-null; the result is what it receives, [None] where the
    function returns -1. *)
Definition lxp_cortex_m_mpu_region_decode (out : bool) (rbar rasr : Z)
  : option lxp_cortex_m_mpu_region :=
  if negb out then None
  else
    let size_field := Z.land (Z.shiftr rasr 1) 0x1f in
    let enabled := u8 (Z.land rasr 1) in
    if negb (enabled =? 0) && (size_field <? 4) then None
    else
      let size := if negb (enabled =? 0) then Z.shiftl 1 (size_field + 1) else 0 in
      let base := if negb (enabled =? 0) && (size <? Z.shiftl 1 32)
                  then Z.land rbar (u32 (Z.lnot (u32 (u32 size - 1)))) else 0 in
      Some (mk_mpu_region rbar rasr base size (u8 (Z.shiftr rasr 8))
              (u8 (Z.land (Z.shiftr rasr 16) 0x3f)) (u8 (Z.land (Z.shiftr rasr 24) 0x7))
              (u8 (Z.land (Z.shiftr rasr 28) 1)) enabled).

(** [__builtin_clzll] of a nonzero 64-bit value. *)
Definition clzll (x : Z) : Z := 63 - Z.log2 x.

Definition lxp_cortex_m_mpu_rasr_size (size : Z) : Z :=
  if (size <? 32) || (size >? Z.shiftl 1 32) || negb (Z.land size (size - 1) =? 0) then 0
  else Z.lor 1 (u32 (Z.shiftl (u32 (62 - clzll size)) 1)).

Definition lxp_cortex_m_mpu_rasr (size access texscb execute_never subregion_disable : Z) : Z :=
  let rasr := lxp_cortex_m_mpu_rasr_size size in
  if rasr =? 0 then 0
  else Z.lor (Z.lor (Z.lor (Z.lor rasr
         (u32 (Z.shiftl subregion_disable 8)))
         (u32 (Z.shiftl (Z.land texscb 0x3f) 16)))
         (u32 (Z.shiftl (Z.land access 7) 24)))
         (u32 (Z.shiftl (if negb (execute_never =? 0) then 1 else 0) 28)).

Definition subregion_disabled (r : lxp_cortex_m_mpu_region) (i : Z) : bool :=
  negb (Z.land (mr_subregion_disable r) (u32 (Z.shiftl 1 i)) =? 0).

(** [for (i = lo; i <= hi; i++)] over subregion numbers. *)
Definition subregions (lo hi : Z) : list Z := seqZ lo (hi - lo + 1).

Definition lxp_cortex_m_mpu_region_contains (region : option lxp_cortex_m_mpu_region)
    (base len : Z) : bool :=
  match region with
  | None => false
  | Some r =>
      if (mr_enabled r =? 0) || (len =? 0) || (u64 (base + len) >? Z.shiftl 1 32) then false
      else
        let first := base in
        let end_ := u64 (first + len) in
        let region_first := mr_base r in
        let region_end := u64 (region_first + mr_size r) in
        if (first <? region_first) || (end_ >? region_end) then false
        else if (mr_size r <? 256) || (mr_subregion_disable r =? 0) then true
        else
          let subregion_size := mr_size r / 8 in
          let first_subregion := u32 (u64 (first - region_first) / subregion_size) in
          let last_subregion := u32 (u64 (end_ - 1 - region_first) / subregion_size) in
          forallb (fun i => negb (subregion_disabled r i))
                  (subregions first_subregion last_subregion)
  end.

Definition lxp_cortex_m_mpu_region_overlaps_enabled (region : option lxp_cortex_m_mpu_region)
    (base len : Z) : bool :=
  match region with
  | None => false
  | Some r =>
      if (mr_enabled r =? 0) || (len =? 0) || (u64 (base + len) >? Z.shiftl 1 32) then false
      else
        let first := base in
        let end_ := u64 (first + len) in
        let region_first := mr_base r in
        let region_end := u64 (region_first + mr_size r) in
        if (first >=? region_end) || (end_ <=? region_first) then false
        else if (mr_size r <? 256) || (mr_subregion_disable r =? 0) then true
        else
          let subregion_size := mr_size r / 8 in
          existsb (fun i =>
            if subregion_disabled r i then false
            else
              let subregion_first := u64 (region_first + u64 (i * subregion_size)) in
              let subregion_end := u64 (subregion_first + subregion_size) in
              (first <? subregion_end) && (end_ >? subregion_first))
            (subregions 0 7)
  end.

Definition lxp_cortex_m_mpu_region_matches (region : option lxp_cortex_m_mpu_region)
    (base size subregion_disable texscb access execute_never : Z) : bool :=
  match region with
  | None => false
  | Some r =>
      negb (mr_enabled r =? 0) && (mr_base r =? base) && (mr_size r =? size) &&
      (mr_subregion_disable r =? subregion_disable) && (mr_texscb r =? texscb) &&
      (mr_access r =? access) && (mr_execute_never r =? execute_never)
  end.

Definition lxp_cortex_m_mpu_region_matches_expectation
    (region : option lxp_cortex_m_mpu_region) (expected : option lxp_cortex_m_mpu_expectation) : bool :=
  match expected with
  | None => false
  | Some e => lxp_cortex_m_mpu_region_matches region (me_base e) (me_size e)
                (me_subregion_disable e) (me_texscb e) (me_access e) (me_execute_never e)
  end.

Definition lxp_cortex_m_mpu_descriptor_matches (rbar rasr : Z)
    (expected : option lxp_cortex_m_mpu_expectation) : bool :=
  match lxp_cortex_m_mpu_region_decode true rbar rasr with
  | None => false
  | Some region => lxp_cortex_m_mpu_region_matches_expectation (Some region) expected
  end.

Definition mpu_region_zero : lxp_cortex_m_mpu_region := mk_mpu_region 0 0 0 0 0 0 0 0 0.

Definition snapshot_region (s : lxp_cortex_m_mpu_snapshot) (i : Z) : lxp_cortex_m_mpu_region :=
  aget mpu_region_zero (ms_regions s) i.

(** The loop from the highest-numbered region down; [n] is the loop's [i]. *)
Fixpoint effective_scan (s : lxp_cortex_m_mpu_snapshot) (e : lxp_cortex_m_mpu_expectation)
    (n : nat) : bool :=
  match n with
  | O => false
  | S k =>
      let region := snapshot_region s (Z.of_nat k) in
      if negb (lxp_cortex_m_mpu_region_overlaps_enabled (Some region) (me_base e) (u32 (me_size e)))
      then effective_scan s e k
      else lxp_cortex_m_mpu_region_matches_expectation (Some region) (Some e)
  end.

Definition lxp_cortex_m_mpu_snapshot_effective_matches
    (snapshot : option lxp_cortex_m_mpu_snapshot) (expected : option lxp_cortex_m_mpu_expectation) : bool :=
  match snapshot, expected with
  | Some s, Some e =>
      if (me_size e =? 0) || (ms_count s =? 0) || (ms_count s >? LXP_CORTEX_M_MPU_MAX_REGIONS) ||
         (me_size e >? SIZE_MAX)
      then false
      else effective_scan s e (Z.to_nat (ms_count s))
  | _, _ => false
  end.

Definition lxp_cortex_m_mpu_snapshot_region_holds (snapshot : option lxp_cortex_m_mpu_snapshot)
    (number rbar rasr effective : Z) : bool :=
  match snapshot with
  | None => false
  | Some s =>
      if (number >=? ms_count s) || (number >=? LXP_CORTEX_M_MPU_MAX_REGIONS) then false
      else if rasr =? 0 then mr_enabled (snapshot_region s number) =? 0
      else
        match lxp_cortex_m_mpu_region_decode true rbar rasr with
        | None => false
        | Some native =>
            let expected := mk_mpu_expectation (mr_base native) (mr_size native)
                              (mr_subregion_disable native) (mr_texscb native)
                              (mr_access native) (mr_execute_never native) in
            lxp_cortex_m_mpu_region_matches_expectation (Some (snapshot_region s number)) (Some expected) &&
            ((effective =? 0) ||
             lxp_cortex_m_mpu_snapshot_effective_matches (Some s) (Some expected))
        end
  end.

(** ** The hardware's rule

    A region decides an address when it is enabled, the address lies in it and, from 256
    bytes on, the address's eighth of the region is not disabled.  Of the regions that
    decide an address the highest-numbered one gives its attributes. *)

Definition hw_covers (r : lxp_cortex_m_mpu_region) (a : Z) : bool :=
  negb (mr_enabled r =? 0) && (mr_base r <=? a) && (a <? mr_base r + mr_size r) &&
  ((mr_size r <? 256) || negb (Z.testbit (mr_subregion_disable r) ((a - mr_base r) / (mr_size r / 8)))).

Fixpoint hw_deciding (regions : list lxp_cortex_m_mpu_region) (a : Z) : option lxp_cortex_m_mpu_region :=
  match regions with
  | [] => None
  | r :: rest =>
      match hw_deciding rest a with
      | Some r' => Some r'
      | None => if hw_covers r a then Some r else None
      end
  end.

(** What the hardware grants at an address: permission, memory type, execute-never. *)
Definition hw_attributes (s : lxp_cortex_m_mpu_snapshot) (a : Z) : option (Z * Z * Z) :=
  match hw_deciding (take (Z.to_nat (ms_count s)) (ms_regions s)) a with
  | Some r => Some (mr_access r, mr_texscb r, mr_execute_never r)
  | None => None
  end.

(** * Properties of the MPU descriptors

    The register encoding round-trips, the range tests decide exactly the hardware's
    coverage of every byte of the range, and a snapshot that holds a programmed region
    effectively gives every address of the region the programmed attributes. *)

(** ** Fields *)

Lemma field_div x k n : 0 <= k -> 0 <= n -> Z.land (Z.shiftr x k) (Z.ones n) = x / 2 ^ k mod 2 ^ n.
Proof. intros. by rewrite Z.land_ones, Z.shiftr_div_pow2 by lia. Qed.

(** A 32-bit power of two, and the mask of its multiples. *)
Lemma mask_pow2 x k :
  0 <= x < 2 ^ 32 -> 0 <= k < 32 ->
  Z.land x (u32 (Z.lnot (u32 (u32 (2 ^ k) - 1)))) = x - x mod 2 ^ k.
Proof.
  intros Hx Hk. rewrite <- land_mask_down by lia. f_equal.
  assert (H1 : 1 <= 2 ^ k) by (apply (Z.pow_le_mono_r 2 0 k); lia).
  assert (H2 : 2 ^ k < 2 ^ 32) by (apply Z.pow_lt_mono_r; lia).
  rewrite (u32_small (2 ^ k)) by lia. rewrite (u32_small (2 ^ k - 1)) by lia.
  rewrite !Z.ones_equiv. unfold u32, Z.lnot.
  replace (Z.pred (- (2 ^ k - 1))) with ((2 ^ 32 - 2 ^ k) + (-1) * 2 ^ 32) by lia.
  rewrite Z.mod_add by lia. rewrite Z.mod_small by lia. lia.
Qed.

Definition region_wf (r : lxp_cortex_m_mpu_region) : Prop :=
  0 <= mr_subregion_disable r < 256 /\
  (mr_enabled r <> 0 ->
   0 <= mr_base r /\ mr_base r + mr_size r <= 2 ^ 32 /\
   exists k, 5 <= k <= 32 /\ mr_size r = 2 ^ k /\ mr_base r mod 2 ^ k = 0).

(** Every field of a decoded region, in terms of the two registers. *)
Lemma decode_fields rbar rasr :
  0 <= rbar < 2 ^ 32 -> 0 <= rasr < 2 ^ 32 ->
  let field := rasr / 2 mod 32 in
  lxp_cortex_m_mpu_region_decode true rbar rasr =
  if (rasr mod 2 =? 1) && (field <? 4) then None
  else Some (mk_mpu_region rbar rasr
         (if rasr mod 2 =? 1 then if field <? 31 then rbar - rbar mod 2 ^ (field + 1) else 0 else 0)
         (if rasr mod 2 =? 1 then 2 ^ (field + 1) else 0)
         (rasr / 2 ^ 8 mod 2 ^ 8) (rasr / 2 ^ 16 mod 2 ^ 6) (rasr / 2 ^ 24 mod 2 ^ 3)
         (rasr / 2 ^ 28 mod 2) (rasr mod 2)).
Proof.
  intros Hb Hr field. unfold lxp_cortex_m_mpu_region_decode. cbn [negb].
  change 0x1f with (Z.ones 5). change 0x3f with (Z.ones 6). change 0x7 with (Z.ones 3).
  rewrite !(field_div rasr) by lia.
  replace (Z.land (Z.shiftr rasr 28) 1) with (rasr / 2 ^ 28 mod 2 ^ 1)
    by (rewrite <- field_div by lia; reflexivity).
  replace (Z.land rasr 1) with (rasr mod 2) by (symmetry; exact (Z.land_ones rasr 1 ltac:(lia))).
  rewrite Z.shiftr_div_pow2 by lia.
  change (rasr / 2 ^ 1 mod 2 ^ 5) with field.
  assert (Hf : 0 <= field < 32) by (unfold field; lia).
  rewrite (u8_small (rasr mod 2)) by lia.
  replace (negb (rasr mod 2 =? 0)) with (rasr mod 2 =? 1) by lia.
  destruct ((rasr mod 2 =? 1) && (field <? 4)) eqn:E; [done|].
  rewrite Z.shiftl_1_l. change (Z.shiftl 1 32) with (2 ^ 32).
  change (u8 (rasr / 2 ^ 8)) with (rasr / 2 ^ 8 mod 2 ^ 8).
  rewrite !u8_small by lia.
  assert (Hbase : (if (rasr mod 2 =? 1) && ((if rasr mod 2 =? 1 then 2 ^ (field + 1) else 0) <? 2 ^ 32)
                   then Z.land rbar (u32 (Z.lnot (u32 (u32 (if rasr mod 2 =? 1 then 2 ^ (field + 1) else 0) - 1))))
                   else 0) =
                  (if rasr mod 2 =? 1 then if field <? 31 then rbar - rbar mod 2 ^ (field + 1) else 0 else 0)).
  { destruct (rasr mod 2 =? 1); [|done]. cbn [andb].
    destruct (Z.ltb_spec field 31).
    - assert (2 ^ (field + 1) < 2 ^ 32) by (apply Z.pow_lt_mono_r; lia).
      rewrite (proj2 (Z.ltb_lt _ _)) by lia. apply mask_pow2; lia.
    - replace field with 31 by lia. done. }
  rewrite Hbase. reflexivity.
Qed.

Lemma decode_wf rbar rasr r :
  0 <= rbar < 2 ^ 32 -> 0 <= rasr < 2 ^ 32 ->
  lxp_cortex_m_mpu_region_decode true rbar rasr = Some r -> region_wf r.
Proof.
  intros Hb Hr H. rewrite (decode_fields rbar rasr Hb Hr) in H.
  set (field := rasr / 2 mod 32) in H.
  assert (Hf : 0 <= field < 32) by (unfold field; lia). clearbody field.
  destruct ((rasr mod 2 =? 1) && (field <? 4)) eqn:E; [done|].
  injection H as <-. unfold region_wf. cbn [mr_subregion_disable mr_enabled mr_base mr_size].
  split; [lia|]. intros Hen. replace (rasr mod 2 =? 1) with true in * by lia.
  cbn [andb] in E. destruct (Z.ltb_spec field 31).
  - assert (Hp : 2 ^ 32 = 2 ^ (field + 1) * 2 ^ (31 - field)).
    { rewrite <- Z.pow_add_r by lia. f_equal. lia. }
    assert (Hpos : 0 < 2 ^ (field + 1)) by (apply Z.pow_pos_nonneg; lia).
    assert (Hpos2 : 0 < 2 ^ (31 - field)) by (apply Z.pow_pos_nonneg; lia).
    pose proof (Z.div_mod rbar (2 ^ (field + 1)) ltac:(lia)) as Hd.
    pose proof (Z.mod_pos_bound rbar (2 ^ (field + 1)) Hpos) as Hm.
    assert (Hq : rbar / 2 ^ (field + 1) < 2 ^ (31 - field))
      by (apply Z.div_lt_upper_bound; lia).
    assert (Hq0 : 0 <= rbar / 2 ^ (field + 1)) by (apply Z.div_pos; lia).
    replace (rbar - rbar mod 2 ^ (field + 1)) with (rbar / 2 ^ (field + 1) * 2 ^ (field + 1)) by lia.
    split; [nia|]. split; [nia|]. exists (field + 1).
    split; [lia|]. split; [done|]. apply Z.mod_mul. lia.
  - replace field with 31 by lia. split; [lia|]. split; [done|].
    exists 32. split; [lia|]. split; reflexivity.
Qed.

(** ** The encoder *)

(** The classic test for a power of two. *)
Lemma land_pred_pow2 n : 0 < n -> Z.land n (n - 1) = 0 <-> n = 2 ^ Z.log2 n.
Proof.
  intros Hn. pose proof (Z.log2_spec n Hn) as [Hlo Hhi].
  pose proof (Z.log2_nonneg n) as Hk. set (k := Z.log2 n) in *. split.
  - intros Hz. destruct (decide (n = 2 ^ k)) as [|Hne]; [done|exfalso].
    assert (Hb : Z.testbit (Z.land n (n - 1)) k = true).
    { rewrite Z.land_spec. apply andb_true_intro; split.
      - apply Z.bit_log2. lia.
      - replace k with (Z.log2 (n - 1)) by (apply Z.log2_unique; lia).
        apply Z.bit_log2. lia. }
    rewrite Hz, Z.bits_0 in Hb. done.
  - intros Hz. clearbody k. subst n. replace (2 ^ k - 1) with (Z.ones k) by (rewrite Z.ones_equiv; lia).
    rewrite Z.land_ones by lia. apply Z.mod_same. lia.
Qed.

Lemma rasr_size_pow2 k : 5 <= k <= 32 -> lxp_cortex_m_mpu_rasr_size (2 ^ k) = 1 + 2 * (k - 1).
Proof.
  intros Hk. unfold lxp_cortex_m_mpu_rasr_size, clzll. change (Z.shiftl 1 32) with (2 ^ 32).
  assert (H1 : 2 ^ 5 <= 2 ^ k) by (apply Z.pow_le_mono_r; lia).
  assert (H2 : 2 ^ k <= 2 ^ 32) by (apply Z.pow_le_mono_r; lia).
  rewrite (proj2 (land_pred_pow2 (2 ^ k) ltac:(lia))) by (rewrite Z.log2_pow2; lia).
  replace (_ || _ || _) with false by lia.
  rewrite Z.log2_pow2 by lia. rewrite (u32_small (62 - (63 - k))) by lia.
  rewrite u32_small by (rewrite Z.shiftl_mul_pow2; lia).
  rewrite lor_shift_add by lia. lia.
Qed.

Lemma rasr_size_zero size :
  lxp_cortex_m_mpu_rasr_size size = 0 <-> forall k, 5 <= k <= 32 -> size <> 2 ^ k.
Proof.
  split.
  - intros H k Hk ->. rewrite rasr_size_pow2 in H by done. lia.
  - intros H. unfold lxp_cortex_m_mpu_rasr_size. change (Z.shiftl 1 32) with (2 ^ 32).
    destruct (_ || _) eqn:E; [done|exfalso].
    assert (Hz : size = 2 ^ Z.log2 size) by (apply land_pred_pow2; lia).
    apply (H (Z.log2 size)); [|done].
    split; [apply Z.log2_le_pow2; lia|].
    pose proof (Z.log2_le_mono size (2 ^ 32) ltac:(lia)) as Hm. by rewrite Z.log2_pow2 in Hm.
Qed.

(** The encoded register as a number: one summand per field. *)
Lemma rasr_value k access texscb xn srd :
  5 <= k <= 32 -> 0 <= access < 8 -> 0 <= texscb < 64 -> 0 <= xn < 2 -> 0 <= srd < 256 ->
  lxp_cortex_m_mpu_rasr (2 ^ k) access texscb xn srd =
  1 + 2 * (k - 1) + srd * 2 ^ 8 + texscb * 2 ^ 16 + access * 2 ^ 24 + xn * 2 ^ 28.
Proof.
  intros Hk Ha Ht Hx Hs. unfold lxp_cortex_m_mpu_rasr. rewrite rasr_size_pow2 by done.
  replace (1 + 2 * (k - 1) =? 0) with false by lia.
  change 0x3f with (Z.ones 6). change 7 with (Z.ones 3).
  rewrite !Z.land_ones, !Z.mod_small by lia.
  replace (if negb (xn =? 0) then 1 else 0) with xn by (destruct (Z.eqb_spec xn 0); simpl; lia).
  rewrite !u32_small by (rewrite Z.shiftl_mul_pow2; lia).
  rewrite (lor_shift_add _ srd 8), (lor_shift_add _ texscb 16), (lor_shift_add _ access 24),
    (lor_shift_add _ xn 28) by lia. done.
Qed.

Lemma aligned_add_mod base low k :
  5 <= k -> 0 <= base -> base mod 2 ^ k = 0 -> 0 <= low < 32 -> (base + low) mod 2 ^ k = low.
Proof.
  intros Hk Hb Hal Hlow. assert (H1 : 2 ^ 5 <= 2 ^ k) by (apply Z.pow_le_mono_r; lia).
  rewrite Z.add_mod, Hal, Z.add_0_l, Z.mod_mod by lia. apply Z.mod_small. lia.
Qed.

Lemma aligned_add_small base low k :
  5 <= k <= 32 -> 0 <= base < 2 ^ 32 -> base mod 2 ^ k = 0 -> 0 <= low < 32 -> base + low < 2 ^ 32.
Proof.
  intros Hk Hb Hal Hlow.
  assert (Hm : base mod 2 ^ 5 = 0).
  { apply Z.mod_divide; [lia|]. apply Z.mod_divide in Hal; [|lia].
    apply Z.divide_trans with (2 ^ k); [|done].
    exists (2 ^ (k - 5)). rewrite <- Z.pow_add_r by lia. f_equal. lia. }
  lia.
Qed.

(** The bits of RASR that carry a field. *)
Definition RASR_FIELDS : Z := 0x173fff3f.

Lemma rasr_fields_value rasr :
  0 <= rasr < 2 ^ 32 ->
  Z.land rasr RASR_FIELDS =
  rasr mod 2 + 2 * (rasr / 2 mod 32) + (rasr / 2 ^ 8 mod 2 ^ 8) * 2 ^ 8 +
  (rasr / 2 ^ 16 mod 2 ^ 6) * 2 ^ 16 + (rasr / 2 ^ 24 mod 2 ^ 3) * 2 ^ 24 +
  (rasr / 2 ^ 28 mod 2) * 2 ^ 28.
Proof.
  intros Hr. unfold RASR_FIELDS.
  change 0x173fff3f with
    (Z.lor (Z.lor (Z.lor (Z.ones 6) (Z.shiftl (Z.ones 14) 8)) (Z.shiftl (Z.ones 3) 24)) (Z.shiftl (Z.ones 1) 28)).
  rewrite !Z.land_lor_distr_r.
  assert (Hf : forall n k, 0 <= n -> 0 <= k ->
            Z.land rasr (Z.shiftl (Z.ones n) k) = Z.shiftl (rasr / 2 ^ k mod 2 ^ n) k).
  { intros n k Hn Hk. rewrite <- field_div by done. apply Z.bits_inj'. intros i Hi.
    rewrite Z.land_spec, !Z.shiftl_spec, Z.land_spec by lia.
    destruct (Z.ltb_spec i k).
    - rewrite !(Z.testbit_neg_r _ (i - k)) by lia. by rewrite andb_false_r.
    - rewrite Z.shiftr_spec by lia. by replace (i - k + k) with i by lia. }
  rewrite !Hf, Z.land_ones by lia.
  rewrite (lor_shift_add _ _ 8), (lor_shift_add _ _ 24), (lor_shift_add _ _ 28) by lia. lia.
Qed.

(** Encoding and decoding of region descriptors are inverse.  A region of [2 ^ k] bytes
    (32 bytes to 4 GiB) at an aligned base, with any in-range attributes, decodes from its
    encoded registers to exactly those values, whatever the low (region number) bits of
    RBAR; an enabled descriptor re-encodes to its own register, reserved bits apart; and
    the encoder answers 0 for exactly the sizes the register cannot express. *)
Theorem mpu_rasr_roundtrip :
  (forall k base low access texscb xn srd,
     5 <= k <= 32 -> 0 <= base < 2 ^ 32 -> base mod 2 ^ k = 0 -> 0 <= low < 32 ->
     0 <= access < 8 -> 0 <= texscb < 64 -> 0 <= xn < 2 -> 0 <= srd < 256 ->
     let rasr := lxp_cortex_m_mpu_rasr (2 ^ k) access texscb xn srd in
     lxp_cortex_m_mpu_region_decode true (base + low) rasr =
     Some (mk_mpu_region (base + low) rasr base (2 ^ k) srd texscb access xn 1)) /\
  (forall rbar rasr r,
     0 <= rbar < 2 ^ 32 -> 0 <= rasr < 2 ^ 32 ->
     lxp_cortex_m_mpu_region_decode true rbar rasr = Some r -> mr_enabled r <> 0 ->
     lxp_cortex_m_mpu_rasr (mr_size r) (mr_access r) (mr_texscb r) (mr_execute_never r)
       (mr_subregion_disable r) = Z.land rasr RASR_FIELDS) /\
  (forall size access texscb xn srd,
     lxp_cortex_m_mpu_rasr size access texscb xn srd = 0 <->
     forall k, 5 <= k <= 32 -> size <> 2 ^ k).
Proof.
  split; [|split].
  - intros k base low access texscb xn srd Hk Hb Hal Hlow Ha Ht Hx Hs rasr.
    assert (Hv : rasr = _) by exact (rasr_value k access texscb xn srd Hk Ha Ht Hx Hs).
    clearbody rasr.
    assert (Hl : base + low < 2 ^ 32 /\ (base + low) mod 2 ^ k = low).
    { split; [|apply aligned_add_mod; lia]. apply aligned_add_small with k; lia. }
    rewrite decode_fields by lia.
    replace (rasr / 2 mod 32) with (k - 1) by lia. replace (rasr mod 2) with 1 by lia.
    replace (k - 1 + 1) with k by lia. replace (k - 1 <? 4) with false by lia.
    cbn [andb Z.eqb Pos.eqb]. rewrite (proj2 Hl).
    replace (rasr / 2 ^ 8 mod 2 ^ 8) with srd by lia.
    replace (rasr / 2 ^ 16 mod 2 ^ 6) with texscb by lia.
    replace (rasr / 2 ^ 24 mod 2 ^ 3) with access by lia.
    replace (rasr / 2 ^ 28 mod 2) with xn by lia.
    destruct (Z.ltb_spec (k - 1) 31); [by replace (base + low - low) with base by lia|].
    replace k with 32 in * by lia. by replace base with 0 by lia.
  - intros rbar rasr r Hb Hr H Hen. rewrite (decode_fields rbar rasr Hb Hr) in H.
    destruct (_ && _) eqn:E; [done|]. injection H as <-.
    cbn [mr_enabled mr_size mr_access mr_texscb mr_execute_never mr_subregion_disable] in *.
    replace (rasr mod 2 =? 1) with true in * by lia. cbn [andb] in E.
    rewrite rasr_value, rasr_fields_value by lia. lia.
  - intros size access texscb xn srd. rewrite <- rasr_size_zero.
    unfold lxp_cortex_m_mpu_rasr. case_goal; [lia|]. split; [|lia].
    intros (((Hz & _)%Z.lor_eq_0_iff & _)%Z.lor_eq_0_iff & _)%Z.lor_eq_0_iff.
    apply Z.lor_eq_0_iff in Hz as [Hz _]. lia.
Qed.

(** ** The range tests *)

Lemma land_bit x i : 0 <= i -> (Z.land x (2 ^ i) =? 0) = negb (Z.testbit x i).
Proof.
  intros Hi. destruct (Z.testbit x i) eqn:E; simpl.
  - apply Z.eqb_neq. intros Hz.
    assert (Hb : Z.testbit (Z.land x (2 ^ i)) i = true)
      by (rewrite Z.land_spec, E, Z.pow2_bits_true; done).
    rewrite Hz, Z.bits_0 in Hb. done.
  - apply Z.eqb_eq. apply Z.bits_inj'. intros j Hj.
    rewrite Z.land_spec, Z.pow2_bits_eqb, Z.bits_0 by done.
    destruct (Z.eqb_spec i j) as [->|]; [by rewrite E|apply andb_false_r].
Qed.

Lemma subregion_disabled_bit r i :
  0 <= i < 8 -> subregion_disabled r i = Z.testbit (mr_subregion_disable r) i.
Proof.
  intros Hi. unfold subregion_disabled. rewrite Z.shiftl_1_l, u32_small.
  - rewrite land_bit by lia. apply negb_involutive.
  - split; [apply Z.pow_nonneg; lia|apply Z.pow_lt_mono_r; lia].
Qed.

Lemma elem_of_subregions i lo hi : i ∈ subregions lo hi <-> lo <= i <= hi.
Proof. unfold subregions. rewrite elem_of_seqZ. lia. Qed.

(** A large region is eight subregions of [d] bytes. *)
Lemma size_eighths k : 8 <= k <= 32 -> exists d, 32 <= d <= 2 ^ 29 /\ 2 ^ k = 8 * d /\ 2 ^ k / 8 = d.
Proof.
  intros Hk. assert (Hp : 2 ^ k = 8 * 2 ^ (k - 3)).
  { replace 8 with (2 ^ 3) by done. rewrite <- Z.pow_add_r by lia. f_equal. lia. }
  exists (2 ^ (k - 3)). split; [split|split; [done|]].
  - apply (Z.pow_le_mono_r 2 5); lia.
  - apply Z.pow_le_mono_r; lia.
  - rewrite Hp, Z.mul_comm. apply Z.div_mul. lia.
Qed.

Lemma pow2_large k : 0 <= k -> (2 ^ k <? 256) = false -> 8 <= k.
Proof.
  intros Hk H. destruct (Z.le_gt_cases 8 k) as [|Hlt]; [done|].
  assert (2 ^ k < 2 ^ 8) by (apply Z.pow_lt_mono_r; lia). lia.
Qed.

(** The subregions the bytes of a range lie in are those between the first and the last. *)
Lemma range_subregions (P : Z -> Prop) d lo hi :
  0 < d -> lo < hi ->
  (forall a, lo <= a < hi -> P (a / d)) <-> (forall i, lo / d <= i <= (hi - 1) / d -> P i).
Proof.
  intros Hd Hlt. split.
  - intros H i [Hi1 Hi2].
    pose proof (Z.div_mod lo d ltac:(lia)) as H1. pose proof (Z.mod_pos_bound lo d Hd) as H2.
    pose proof (Z.div_mod (hi - 1) d ltac:(lia)) as H3. pose proof (Z.mod_pos_bound (hi - 1) d Hd) as H4.
    assert (Hd1 : Z.max lo (i * d) / d = i).
    { symmetry. apply Z.div_unique with (r := Z.max lo (i * d) - i * d); nia. }
    rewrite <- Hd1. apply H. nia.
  - intros H a Ha. apply H. split; apply Z.div_le_mono; lia.
Qed.

Lemma hw_covers_plain r a :
  mr_enabled r <> 0 -> (mr_size r <? 256) || (mr_subregion_disable r =? 0) = true ->
  hw_covers r a = (mr_base r <=? a) && (a <? mr_base r + mr_size r).
Proof.
  intros Hen H. unfold hw_covers. replace (mr_enabled r =? 0) with false by lia. cbn [negb andb].
  apply orb_true_iff in H as [->|Hz%Z.eqb_eq]; [by rewrite andb_true_r|].
  rewrite Hz, Z.bits_0, orb_true_r. apply andb_true_r.
Qed.

Lemma hw_covers_split r d a :
  mr_enabled r <> 0 -> mr_size r = 8 * d -> 32 <= d -> mr_size r / 8 = d ->
  hw_covers r a = true <->
  mr_base r <= a < mr_base r + 8 * d /\ Z.testbit (mr_subregion_disable r) ((a - mr_base r) / d) = false.
Proof.
  intros Hen Hs Hd Hdiv. unfold hw_covers. rewrite Hdiv, Hs.
  replace (8 * d <? 256) with false by lia.
  destruct (Z.testbit _ _); lia.
Qed.

Lemma contains_spec r base len :
  region_wf r -> 0 <= base < 2 ^ 32 -> 0 <= len < 2 ^ 32 ->
  lxp_cortex_m_mpu_region_contains (Some r) base len = true <->
  0 < len /\ forall a, base <= a < base + len -> hw_covers r a = true.
Proof.
  intros [_ Hwf] Hb Hl. unfold lxp_cortex_m_mpu_region_contains.
  change (Z.shiftl 1 32) with (2 ^ 32). rewrite !(u64_small (base + len)) by lia.
  destruct (Z.eqb_spec (mr_enabled r) 0) as [E0|Hen]; cbn [orb].
  { split; [done|]. intros [Hpos Hall]. specialize (Hall base ltac:(lia)).
    unfold hw_covers in Hall. by rewrite E0 in Hall. }
  destruct (Hwf Hen) as (Hb0 & Hend & k & Hk & Hs & _).
  assert (Hs5 : 2 ^ 5 <= 2 ^ k) by (apply Z.pow_le_mono_r; lia).
  assert (Hin : forall a, hw_covers r a = true -> mr_base r <= a < mr_base r + mr_size r).
  { intros a Ha. unfold hw_covers in Ha. lia. }
  destruct ((len =? 0) || (base + len >? 2 ^ 32)) eqn:E1.
  { split; [done|]. intros [Hpos Hall].
    pose proof (Hin _ (Hall (base + len - 1) ltac:(lia))). lia. }
  rewrite (u64_small (mr_base r + mr_size r)) by lia.
  destruct ((base <? mr_base r) || (base + len >? mr_base r + mr_size r)) eqn:E2.
  { split; [done|]. intros [_ Hall].
    pose proof (Hin _ (Hall base ltac:(lia))).
    pose proof (Hin _ (Hall (base + len - 1) ltac:(lia))). lia. }
  destruct ((mr_size r <? 256) || (mr_subregion_disable r =? 0)) eqn:E3.
  { split; [|done]. intros _. split; [lia|]. intros a Ha. rewrite hw_covers_plain by done. lia. }
  apply orb_false_iff in E3 as [E3 _]. rewrite Hs in E3.
  destruct (size_eighths k (conj (pow2_large k ltac:(lia) E3) (proj2 Hk))) as (d & Hd & Hs8 & Hdiv).
  rewrite <- Hs in Hs8, Hdiv. rewrite Hdiv, !(u64_small (_ - mr_base r)) by lia.
  rewrite !u32_small.
  2: { split; [apply Z.div_pos; lia|apply Z.div_lt_upper_bound; lia]. }
  2: { split; [apply Z.div_pos; lia|apply Z.div_lt_upper_bound; lia]. }
  rewrite forallb_forall.
  pose proof (range_subregions (fun i => Z.testbit (mr_subregion_disable r) i = false) d
                (base - mr_base r) (base + len - mr_base r) ltac:(lia) ltac:(lia)) as Hr.
  replace (base + len - mr_base r - 1) with (base + len - 1 - mr_base r) in Hr by lia.
  assert (H8 : forall i, (base - mr_base r) / d <= i <= (base + len - 1 - mr_base r) / d -> 0 <= i < 8).
  { intros i Hi. split; [apply Z.le_trans with (2 := proj1 Hi); apply Z.div_pos; lia|].
    apply Z.le_lt_trans with (1 := proj2 Hi). apply Z.div_lt_upper_bound; lia. }
  pose proof (fun a => hw_covers_split r d a Hen Hs8 ltac:(lia) Hdiv) as Hc.
  split.
  - intros H. split; [lia|]. intros a Ha. apply Hc. split; [lia|].
    apply (proj2 Hr); [|lia]. intros i Hi.
    pose proof (H i (proj1 (list_elem_of_In _ _) (proj2 (elem_of_subregions _ _ _) Hi))) as Hi2.
    rewrite subregion_disabled_bit in Hi2 by auto. by apply negb_true_iff.
  - intros [_ Hall] i Hi%list_elem_of_In%elem_of_subregions.
    rewrite subregion_disabled_bit by auto.
    apply negb_true_iff. apply (proj1 Hr); [|done]. intros a Ha.
    destruct (proj1 (Hc _) (Hall (a + mr_base r) ltac:(lia))) as [_ Hbit].
    by replace (a + mr_base r - mr_base r) with a in Hbit by lia.
Qed.

Lemma overlaps_spec r base len :
  region_wf r -> 0 <= base < 2 ^ 32 -> 0 <= len < 2 ^ 32 ->
  lxp_cortex_m_mpu_region_overlaps_enabled (Some r) base len = true <->
  base + len <= 2 ^ 32 /\ exists a, base <= a < base + len /\ hw_covers r a = true.
Proof.
  intros [_ Hwf] Hb Hl. unfold lxp_cortex_m_mpu_region_overlaps_enabled.
  change (Z.shiftl 1 32) with (2 ^ 32). rewrite !(u64_small (base + len)) by lia.
  destruct (Z.eqb_spec (mr_enabled r) 0) as [E0|Hen]; cbn [orb].
  { split; [done|]. intros (_ & a & _ & Ha). unfold hw_covers in Ha. by rewrite E0 in Ha. }
  destruct (Hwf Hen) as (Hb0 & Hend & k & Hk & Hs & _).
  assert (Hs5 : 2 ^ 5 <= 2 ^ k) by (apply Z.pow_le_mono_r; lia).
  assert (Hin : forall a, hw_covers r a = true -> mr_base r <= a < mr_base r + mr_size r).
  { intros a Ha. unfold hw_covers in Ha. lia. }
  destruct ((len =? 0) || (base + len >? 2 ^ 32)) eqn:E1.
  { split; [done|]. intros (Hle & a & Ha & _). lia. }
  rewrite !(u64_small (mr_base r + mr_size r)) by lia.
  destruct ((base >=? mr_base r + mr_size r) || (base + len <=? mr_base r)) eqn:E2.
  { split; [done|]. intros (_ & a & Ha & Hc%Hin). lia. }
  destruct ((mr_size r <? 256) || (mr_subregion_disable r =? 0)) eqn:E3.
  { split; [|done]. intros _. split; [lia|]. exists (Z.max base (mr_base r)).
    rewrite hw_covers_plain by done. lia. }
  apply orb_false_iff in E3 as [E3 _]. rewrite Hs in E3.
  destruct (size_eighths k (conj (pow2_large k ltac:(lia) E3) (proj2 Hk))) as (d & Hd & Hs8 & Hdiv).
  rewrite <- Hs in Hs8, Hdiv. rewrite Hdiv, existsb_exists.
  pose proof (fun a => hw_covers_split r d a Hen Hs8 ltac:(lia) Hdiv) as Hc.
  split.
  - intros (i & Hi%list_elem_of_In%elem_of_subregions & H).
    rewrite subregion_disabled_bit in H by lia.
    destruct (Z.testbit _ i) eqn:Hbit; [done|].
    rewrite (u64_small (i * d)), (u64_small (mr_base r + i * d)), u64_small in H by nia.
    split; [lia|]. exists (Z.max base (mr_base r + i * d)). split; [nia|].
    apply Hc. split; [nia|].
    enough ((Z.max base (mr_base r + i * d) - mr_base r) / d = i) as -> by done.
    symmetry. apply Z.div_unique with (r := Z.max base (mr_base r + i * d) - mr_base r - i * d); nia.
  - intros (Hle & a & Ha & (Har & Hbit)%Hc).
    pose proof (Z.div_mod (a - mr_base r) d ltac:(lia)) as H1.
    pose proof (Z.mod_pos_bound (a - mr_base r) d ltac:(lia)) as H2.
    set (i := (a - mr_base r) / d) in *.
    assert (Hi : 0 <= i < 8) by nia.
    exists i. split; [apply list_elem_of_In, elem_of_subregions; lia|].
    rewrite subregion_disabled_bit, Hbit by lia.
    rewrite (u64_small (i * d)), (u64_small (mr_base r + i * d)), u64_small by nia. nia.
Qed.

(** C35: The two range tests of a decoded region decide the hardware's rule byte by byte:
    contains holds exactly when the range is not empty and every byte of it is in an
    enabled part of the region, overlaps exactly when the range stays in the address space
    and some byte is.  Disabled subregions and ranges that reach the end of the 32-bit
    space are included. *)
Theorem mpu_range_tests_exact rbar rasr r base len :
  0 <= rbar < 2 ^ 32 -> 0 <= rasr < 2 ^ 32 -> 0 <= base < 2 ^ 32 -> 0 <= len < 2 ^ 32 ->
  lxp_cortex_m_mpu_region_decode true rbar rasr = Some r ->
  (lxp_cortex_m_mpu_region_contains (Some r) base len = true <->
   0 < len /\ forall a, base <= a < base + len -> hw_covers r a = true) /\
  (lxp_cortex_m_mpu_region_overlaps_enabled (Some r) base len = true <->
   base + len <= 2 ^ 32 /\ exists a, base <= a < base + len /\ hw_covers r a = true).
Proof.
  intros Hb Hr Hbase Hlen H%decode_wf; [|done..].
  split; [by apply contains_spec|by apply overlaps_spec].
Qed.

(** ** The effective mapping *)

Lemma hw_deciding_snoc l r a :
  hw_deciding (l ++ [r]) a = if hw_covers r a then Some r else hw_deciding l a.
Proof.
  induction l as [|x l IH]; simpl; [by destruct (hw_covers r a)|].
  rewrite IH. by destruct (hw_covers r a).
Qed.

(** An expectation as the region it describes. *)
Definition expected_region (e : lxp_cortex_m_mpu_expectation) : lxp_cortex_m_mpu_region :=
  mk_mpu_region 0 0 (me_base e) (me_size e) (me_subregion_disable e) (me_texscb e) (me_access e)
    (me_execute_never e) 1.

Lemma matches_fields r e :
  lxp_cortex_m_mpu_region_matches_expectation (Some r) (Some e) = true ->
  (forall a, hw_covers r a = hw_covers (expected_region e) a) /\
  mr_access r = me_access e /\ mr_texscb r = me_texscb e /\ mr_execute_never r = me_execute_never e.
Proof.
  cbn [lxp_cortex_m_mpu_region_matches_expectation lxp_cortex_m_mpu_region_matches].
  rewrite !andb_true_iff, !Z.eqb_eq. intros ((((((Hen & Hb) & Hs) & Hd) & Ht) & Ha) & Hx).
  split; [|done]. intros a. unfold hw_covers, expected_region.
  cbn [mr_base mr_size mr_subregion_disable mr_enabled]. by rewrite Hen, Hb, Hs, Hd.
Qed.

Lemma take_snapshot s k :
  (k < length (ms_regions s))%nat ->
  take (S k) (ms_regions s) = take k (ms_regions s) ++ [snapshot_region s (Z.of_nat k)].
Proof.
  intros Hk. apply take_S_r. unfold snapshot_region.
  rewrite <- (Nat2Z.id k) at 1. apply lookup_aget. unfold alen. lia.
Qed.

Lemma effective_scan_decides s e n a :
  Forall region_wf (ms_regions s) -> (n <= length (ms_regions s))%nat ->
  0 <= me_base e < 2 ^ 32 -> 0 <= me_size e < 2 ^ 32 -> me_base e + me_size e <= 2 ^ 32 ->
  effective_scan s e n = true -> hw_covers (expected_region e) a = true ->
  exists r, hw_deciding (take n (ms_regions s)) a = Some r /\
    mr_access r = me_access e /\ mr_texscb r = me_texscb e /\ mr_execute_never r = me_execute_never e.
Proof.
  intros Hwf Hn Hb Hs Hend. induction n as [|k IH]; [done|]. cbn [effective_scan].
  rewrite (u32_small (me_size e)) by done.
  rewrite take_snapshot, hw_deciding_snoc by lia.
  set (r := snapshot_region s (Z.of_nat k)).
  assert (Hr : region_wf r).
  { apply (Forall_aget _ mpu_region_zero (ms_regions s)); [done|]. unfold alen. lia. }
  destruct (lxp_cortex_m_mpu_region_overlaps_enabled _ _ _) eqn:Hov; cbn [negb].
  - intros (Hcov & Hattr)%matches_fields Ha. rewrite Hcov, Ha. by exists r.
  - intros Hscan Ha. enough (hw_covers r a = false) as -> by (apply IH; [lia|done..]).
    destruct (hw_covers r a) eqn:Hc; [|done].
    rewrite (proj2 (overlaps_spec r (me_base e) (me_size e) Hr Hb Hs)) in Hov; [done|].
    split; [done|]. exists a. split; [|done].
    unfold hw_covers, expected_region in Ha. cbn [mr_base mr_size mr_enabled] in Ha. lia.
Qed.

(** A live snapshot that holds a programmed descriptor effectively gives the hardware
    exactly the programmed attributes at every address the descriptor covers, whatever
    the other regions are; a snapshot that holds the empty descriptor has that region
    deciding no address. *)
Theorem mpu_region_holds_effective s number rbar rasr :
  Forall region_wf (ms_regions s) -> length (ms_regions s) = Z.to_nat LXP_CORTEX_M_MPU_MAX_REGIONS ->
  0 <= number -> 0 <= rbar < 2 ^ 32 -> 0 <= rasr < 2 ^ 32 ->
  lxp_cortex_m_mpu_snapshot_region_holds (Some s) number rbar rasr 1 = true ->
  (forall native a,
     lxp_cortex_m_mpu_region_decode true rbar rasr = Some native -> hw_covers native a = true ->
     hw_attributes s a = Some (mr_access native, mr_texscb native, mr_execute_never native)) /\
  (rasr = 0 -> forall a, hw_covers (snapshot_region s number) a = false).
Proof.
  intros Hwf Hlen Hn Hb Hr H. cbn [lxp_cortex_m_mpu_snapshot_region_holds] in H.
  destruct (_ || _) in H; [done|]. destruct (Z.eqb_spec rasr 0) as [->|Hnz].
  { split; [|intros _ a; unfold hw_covers; by rewrite H].
    intros native a Hd Ha. rewrite (decode_fields rbar 0 Hb Hr) in Hd.
    injection Hd as <-. done. }
  split; [|lia]. intros native a Hd Ha. rewrite Hd in H.
  destruct (decode_wf _ _ _ Hb Hr Hd) as [_ Hnw].
  apply andb_prop in H as [_ H]. cbn [Z.eqb orb lxp_cortex_m_mpu_snapshot_effective_matches] in H.
  destruct (_ || _) eqn:E in H; [done|]. cbn [me_size] in E. unfold SIZE_MAX in E.
  assert (Hen : mr_enabled native <> 0) by (unfold hw_covers in Ha; lia).
  destruct (Hnw Hen) as (Hb0 & Hend & k & Hk & Hs & _).
  assert (0 < 2 ^ k) by (apply Z.pow_pos_nonneg; lia).
  apply (effective_scan_decides s _ _ a) in H as (r & Hdec & Hacc & Htex & Hxn);
    cbn [me_base me_size] in *; [|done| |lia..|].
  - unfold hw_attributes. rewrite Hdec, Hacc, Htex, Hxn. done.
  - rewrite Hlen. unfold LXP_CORTEX_M_MPU_MAX_REGIONS in *. lia.
  - revert Ha. unfold hw_covers, expected_region. cbn [mr_base mr_size mr_enabled mr_subregion_disable me_base me_size me_subregion_disable].
    destruct (mr_enabled native =? 0); [done|]. done.
Qed.

(** *** Witnesses: the pool and the guest region of the port's own tests, an 8 MiB region whose
    first subregion is off, under a smaller region with other attributes. *)

Definition demo_region (rbar rasr : Z) : lxp_cortex_m_mpu_region :=
  default mpu_region_zero (lxp_cortex_m_mpu_region_decode true rbar rasr).

Definition demo_pool_rasr : Z := lxp_cortex_m_mpu_rasr 0x800000 3 0x0b 1 0x01.
Definition demo_guest_rasr : Z := lxp_cortex_m_mpu_rasr 0x40000 6 0x07 0 0.

Definition demo_snapshot : lxp_cortex_m_mpu_snapshot :=
  mk_mpu_snapshot 5 8
    ([demo_region 0xc0000000 demo_pool_rasr; demo_region 0xc0100002 demo_guest_rasr]
     ++ replicate 14 mpu_region_zero).

Lemma demo_region_wf rbar rasr :
  (0 <=? rbar) && (rbar <? 2 ^ 32) && (0 <=? rasr) && (rasr <? 2 ^ 32) = true ->
  region_wf (demo_region rbar rasr).
Proof.
  intros H. unfold demo_region.
  destruct (lxp_cortex_m_mpu_region_decode true rbar rasr) as [r|] eqn:E.
  - apply (decode_wf rbar rasr); [lia..|done].
  - split; [done|]. intros Hen. by destruct Hen.
Qed.

Lemma demo_regions_wf : Forall region_wf (ms_regions demo_snapshot).
Proof.
  apply Forall_app; split.
  - apply Forall_cons; split; [|apply Forall_cons; split; [|by constructor]];
      apply demo_region_wf; vm_compute; reflexivity.
  - apply Forall_replicate. split; [done|]. intros H. by destruct H.
Qed.

Lemma mpu_rasr_roundtrip_witness :
  lxp_cortex_m_mpu_region_decode true (0xc0100000 + 0x12) demo_guest_rasr =
  Some (mk_mpu_region (0xc0100000 + 0x12) demo_guest_rasr 0xc0100000 (2 ^ 18) 0 7 6 0 1).
Proof. apply (proj1 mpu_rasr_roundtrip 18 0xc0100000 0x12 6 7 0 0); done. Defined.

Lemma mpu_range_tests_exact_witness :
  lxp_cortex_m_mpu_region_contains (Some (demo_region 0xc0000000 demo_pool_rasr)) 0xc00ff000 0x2000 = false /\
  exists a, 0xc00ff000 <= a < 0xc00ff000 + 0x2000 /\
            hw_covers (demo_region 0xc0000000 demo_pool_rasr) a = true.
Proof.
  split; [by vm_compute|].
  apply (proj2 (mpu_range_tests_exact 0xc0000000 demo_pool_rasr _ 0xc00ff000 0x2000
    ltac:(done) ltac:(by vm_compute) ltac:(done) ltac:(done) ltac:(vm_compute; reflexivity))).
  by vm_compute.
Defined.

Lemma mpu_region_holds_effective_witness :
  hw_attributes demo_snapshot 0xc0120000 = Some (6, 7, 0).
Proof.
  apply (proj1 (mpu_region_holds_effective demo_snapshot 1 0xc0100002 demo_guest_rasr
    demo_regions_wf ltac:(done) ltac:(done) ltac:(done) ltac:(by vm_compute) ltac:(by vm_compute))
    (demo_region 0xc0100002 demo_guest_rasr)); by vm_compute.
Defined.
