(* ===== verification/Runtime.v ===== *)
(** * The coordinator's runtime store (src/run/lxp_runtime_store.h, src/lxp_run.c,
      src/run/lxp_guest_event.c)

    One record holds what the coordinator keeps for a run: the process slots with their
    generations, the program regions with their leases, the regions' allocators, the vfork
    guards and the pending-event bits.  This file has the slot operations, the derivation
    of a slot's memory policy, and event publication with its fair claim. *)

From S2P Require Import Prelude Config Proc Pool Guest Wait Arena.
Local Open Scope Z_scope.

(** ** Records *)

Record lxp_resume_ctx := mk_resume {
  rc_r4_11 : list Z; rc_r12 : Z; rc_lr : Z; rc_sp : Z; rc_pc : Z;
  rc_r1 : Z; rc_r2 : Z; rc_r3 : Z; rc_xpsr : Z;
}.
Definition resume_zero : lxp_resume_ctx := mk_resume (replicate 8 0) 0 0 0 0 0 0 0 0.
Definition set_rc_sp (c : lxp_resume_ctx) (sp : Z) : lxp_resume_ctx :=
  mk_resume (rc_r4_11 c) (rc_r12 c) (rc_lr c) sp (rc_pc c) (rc_r1 c) (rc_r2 c) (rc_r3 c) (rc_xpsr c).

Definition DEFER_IDLE : Z := 0.
Definition DEFER_FILLING : Z := 1.
Definition DEFER_READY : Z := 2.
Definition DEFER_RUNNING : Z := 3.

Record deferred_req := mk_deferred { dr_a0 : Z; dr_owner : lxp_ref; dr_state : Z }.

(** Host lifecycle states of a slot's native task. *)
Inductive slot_lifecycle :=
  | SLOT_FREE | SLOT_STARTING | SLOT_RUNNING | SLOT_PARKING | SLOT_PARKED | SLOT_RESUMING
  | SLOT_EXITING | SLOT_DEAD | SLOT_FAILED.

#[export] Instance slot_lifecycle_eq_dec : EqDecision slot_lifecycle.
Proof. solve_decision. Defined.

Record lxp_slot_runtime := mk_slot {
  sl_proc : lxp_proc;
  sl_resume : lxp_resume_ctx;
  sl_deferred : deferred_req;
  sl_syscall_r0 : Z;
  sl_generation : Z;
  sl_host_state : slot_lifecycle;
  sl_runnable : bool;
}.

Definition slot_zero : lxp_slot_runtime :=
  mk_slot proc_zero resume_zero (mk_deferred 0 (mk_ref 0 0) DEFER_IDLE) 0 0 SLOT_FREE false.

Definition set_sl_proc (s : lxp_slot_runtime) (p : lxp_proc) : lxp_slot_runtime :=
  mk_slot p (sl_resume s) (sl_deferred s) (sl_syscall_r0 s) (sl_generation s) (sl_host_state s) (sl_runnable s).
Definition set_sl_resume (s : lxp_slot_runtime) (c : lxp_resume_ctx) : lxp_slot_runtime :=
  mk_slot (sl_proc s) c (sl_deferred s) (sl_syscall_r0 s) (sl_generation s) (sl_host_state s) (sl_runnable s).
Definition set_sl_deferred_state (s : lxp_slot_runtime) (st : Z) : lxp_slot_runtime :=
  mk_slot (sl_proc s) (sl_resume s) (mk_deferred (dr_a0 (sl_deferred s)) (dr_owner (sl_deferred s)) st)
    (sl_syscall_r0 s) (sl_generation s) (sl_host_state s) (sl_runnable s).
Definition set_sl_generation (s : lxp_slot_runtime) (g : Z) : lxp_slot_runtime :=
  mk_slot (sl_proc s) (sl_resume s) (sl_deferred s) (sl_syscall_r0 s) g (sl_host_state s) (sl_runnable s).
Definition set_sl_host_state (s : lxp_slot_runtime) (h : slot_lifecycle) : lxp_slot_runtime :=
  mk_slot (sl_proc s) (sl_resume s) (sl_deferred s) (sl_syscall_r0 s) (sl_generation s) h (sl_runnable s).
Definition set_sl_runnable (s : lxp_slot_runtime) (r : bool) : lxp_slot_runtime :=
  mk_slot (sl_proc s) (sl_resume s) (sl_deferred s) (sl_syscall_r0 s) (sl_generation s) (sl_host_state s) r.

Record lxp_region_runtime := mk_region { rg_lease_owner : lxp_ref; rg_refs : Z; rg_generation : Z }.
Definition region_zero : lxp_region_runtime := mk_region (mk_ref 0 0) 0 0.

Record vfork_snapshot_guard := mk_guard {
  gd_parent : lxp_ref; gd_parent_region : lxp_ref; gd_snapshot : lxp_ref;
}.
Definition guard_zero : vfork_snapshot_guard := mk_guard (mk_ref 0 0) (mk_ref 0 0) (mk_ref 0 0).

(** The runtime, with the pools and the memory it works on. *)
Record lxp_runtime := mk_rt {
  rt_k : kst;
  rt_mem : mem;
  rt_views : list lxp_guest_view;
  rt_rootfs_lo : Z;
  rt_rootfs_hi : Z;
  rt_slots : list lxp_slot_runtime;
  rt_regions : list lxp_region_runtime;
  rt_arenas : list lxp_arena;
  rt_vfork_guard : list vfork_snapshot_guard;
  rt_lifecycle_epoch : Z;
  rt_primary_pending : list Z;
}.

Definition set_rt_k (x : lxp_runtime) (v : kst) : lxp_runtime :=
  mk_rt v (rt_mem x) (rt_views x) (rt_rootfs_lo x) (rt_rootfs_hi x) (rt_slots x) (rt_regions x)
    (rt_arenas x) (rt_vfork_guard x) (rt_lifecycle_epoch x) (rt_primary_pending x).
Definition set_rt_mem (x : lxp_runtime) (v : mem) : lxp_runtime :=
  mk_rt (rt_k x) v (rt_views x) (rt_rootfs_lo x) (rt_rootfs_hi x) (rt_slots x) (rt_regions x)
    (rt_arenas x) (rt_vfork_guard x) (rt_lifecycle_epoch x) (rt_primary_pending x).
Definition set_rt_views (x : lxp_runtime) (v : list lxp_guest_view) : lxp_runtime :=
  mk_rt (rt_k x) (rt_mem x) v (rt_rootfs_lo x) (rt_rootfs_hi x) (rt_slots x) (rt_regions x)
    (rt_arenas x) (rt_vfork_guard x) (rt_lifecycle_epoch x) (rt_primary_pending x).
Definition set_rt_slots (x : lxp_runtime) (v : list lxp_slot_runtime) : lxp_runtime :=
  mk_rt (rt_k x) (rt_mem x) (rt_views x) (rt_rootfs_lo x) (rt_rootfs_hi x) v (rt_regions x)
    (rt_arenas x) (rt_vfork_guard x) (rt_lifecycle_epoch x) (rt_primary_pending x).
Definition set_rt_regions (x : lxp_runtime) (v : list lxp_region_runtime) : lxp_runtime :=
  mk_rt (rt_k x) (rt_mem x) (rt_views x) (rt_rootfs_lo x) (rt_rootfs_hi x) (rt_slots x) v
    (rt_arenas x) (rt_vfork_guard x) (rt_lifecycle_epoch x) (rt_primary_pending x).
Definition set_rt_arenas (x : lxp_runtime) (v : list lxp_arena) : lxp_runtime :=
  mk_rt (rt_k x) (rt_mem x) (rt_views x) (rt_rootfs_lo x) (rt_rootfs_hi x) (rt_slots x) (rt_regions x)
    v (rt_vfork_guard x) (rt_lifecycle_epoch x) (rt_primary_pending x).
Definition set_rt_vfork_guard (x : lxp_runtime) (v : list vfork_snapshot_guard) : lxp_runtime :=
  mk_rt (rt_k x) (rt_mem x) (rt_views x) (rt_rootfs_lo x) (rt_rootfs_hi x) (rt_slots x) (rt_regions x)
    (rt_arenas x) v (rt_lifecycle_epoch x) (rt_primary_pending x).
Definition set_rt_lifecycle_epoch (x : lxp_runtime) (v : Z) : lxp_runtime :=
  mk_rt (rt_k x) (rt_mem x) (rt_views x) (rt_rootfs_lo x) (rt_rootfs_hi x) (rt_slots x) (rt_regions x)
    (rt_arenas x) (rt_vfork_guard x) v (rt_primary_pending x).
Definition set_rt_primary_pending (x : lxp_runtime) (v : list Z) : lxp_runtime :=
  mk_rt (rt_k x) (rt_mem x) (rt_views x) (rt_rootfs_lo x) (rt_rootfs_hi x) (rt_slots x) (rt_regions x)
    (rt_arenas x) (rt_vfork_guard x) (rt_lifecycle_epoch x) v.

Definition slot_at (R : lxp_runtime) (s : Z) : lxp_slot_runtime := aget slot_zero (rt_slots R) s.
Definition region_at (R : lxp_runtime) (r : Z) : lxp_region_runtime := aget region_zero (rt_regions R) r.
Definition guard_at (R : lxp_runtime) (s : Z) : vfork_snapshot_guard := aget guard_zero (rt_vfork_guard R) s.
Definition put_slot (R : lxp_runtime) (s : Z) (x : lxp_slot_runtime) : lxp_runtime :=
  set_rt_slots R (aset (rt_slots R) s x).
Definition put_region (R : lxp_runtime) (r : Z) (x : lxp_region_runtime) : lxp_runtime :=
  set_rt_regions R (aset (rt_regions R) r x).
Definition sproc (R : lxp_runtime) (s : Z) : lxp_proc := sl_proc (slot_at R s).
Definition put_proc (R : lxp_runtime) (s : Z) (p : lxp_proc) : lxp_runtime :=
  put_slot R s (set_sl_proc (slot_at R s) p).

(** [proc->mm] of a task, dereferenced. *)
Definition mm_of (R : lxp_runtime) (p : lxp_proc) : option lxp_mm :=
  option_map (aget mm_zero (k_mm (rt_k R))) (p_mm p).

(** The guest boundary's environment is part of the runtime. *)
Definition rt_genv (R : lxp_runtime) : genv :=
  mk_genv (k_mm (rt_k R)) (map sl_proc (rt_slots R)) (rt_views R) (map sl_generation (rt_slots R))
    (rt_rootfs_lo R) (rt_rootfs_hi R).
Definition rt_put_genv (R : lxp_runtime) (G : genv) : lxp_runtime :=
  set_rt_views (set_rt_slots R (zip_with set_sl_proc (rt_slots R) (ge_procs G))) (ge_views G).

(** ** Slots (src/lxp_run.c) *)

Definition slot_in (s : Z) : bool := (s >=? 0) && (s <? LXP_NSLOT).
Definition region_in (r : Z) : bool := (r >=? 0) && (r <? LXP_NREG).

Definition lxp_slot_runnable_load (R : lxp_runtime) (s : Z) : bool := sl_runnable (slot_at R s).
Definition lxp_slot_runnable_store (R : lxp_runtime) (s : Z) (r : bool) : lxp_runtime :=
  put_slot R s (set_sl_runnable (slot_at R s) r).
Definition lxp_deferred_state_load (R : lxp_runtime) (s : Z) : Z := dr_state (sl_deferred (slot_at R s)).
Definition lxp_deferred_state_store (R : lxp_runtime) (s st : Z) : lxp_runtime :=
  put_slot R s (set_sl_deferred_state (slot_at R s) st).

(** The generation after [g]: 32 bits, skipping zero. *)
Definition generation_next (g : Z) : Z :=
  let next := u32 (g + 1) in if next =? 0 then u32 (next + 1) else next.

Definition lxp_deferred_slot_reassign (R : lxp_runtime) (s : Z) : lxp_runtime :=
  let R := lxp_deferred_state_store R s DEFER_IDLE in
  put_slot R s (set_sl_generation (slot_at R s) (generation_next (sl_generation (slot_at R s)))).

Definition lxp_slot_generation (R : lxp_runtime) (s : Z) : Z := sl_generation (slot_at R s).

Definition lxp_slot_ref_at (R : lxp_runtime) (s : Z) : lxp_ref :=
  if slot_in s then mk_ref s (lxp_slot_generation R s) else lxp_slot_ref_none.

Definition lxp_slot_host_state (R : lxp_runtime) (s : Z) : slot_lifecycle :=
  if slot_in s then sl_host_state (slot_at R s) else SLOT_FAILED.

(** src/run/lxp_diag.c: the epoch a census is qualified by. *)
Definition diag_epoch_next (epoch : Z) : Z :=
  let e := u32 (epoch + 1) in if negb (e =? 0) then e else 1.
Definition lxp_diag_lifecycle_changed (R : lxp_runtime) : lxp_runtime :=
  set_rt_lifecycle_epoch R (diag_epoch_next (rt_lifecycle_epoch R)).

Definition lxp_slot_set_host_state (R : lxp_runtime) (s : Z) (st : slot_lifecycle) : lxp_runtime :=
  if slot_in s && bool_decide (sl_host_state (slot_at R s) <> st)
  then lxp_diag_lifecycle_changed (put_slot R s (set_sl_host_state (slot_at R s) st))
  else R.

Definition lxp_slot_ref_current (R : lxp_runtime) (s : Z) : Z * option lxp_ref :=
  if negb (slot_in s) then (LXP_ERR_INVALID_PARAM, None)
  else if (lxp_slot_generation R s =? 0) || (p_alive (sproc R s) =? 0) then (LXP_ERR_NOT_FOUND, None)
  else (0, Some (lxp_slot_ref_at R s)).

Definition lxp_slot_ref_is_current (R : lxp_runtime) (ref : lxp_ref) : bool :=
  slot_in (ref_index ref) && negb (ref_generation ref =? 0) &&
  (lxp_slot_generation R (ref_index ref) =? ref_generation ref) &&
  negb (p_alive (sproc R (ref_index ref)) =? 0).

Definition lxp_slot_resume_view (R : lxp_runtime) (ref : lxp_ref) : option lxp_resume_ctx :=
  if lxp_slot_ref_is_current R ref then Some (sl_resume (slot_at R (ref_index ref))) else None.

Definition lxp_slot_resume_clone_for_fork (R : lxp_runtime) (child parent : lxp_ref) (child_sp : Z)
    : Z * lxp_runtime :=
  if negb (slot_in (ref_index child)) || (ref_generation child =? 0) ||
     (ref_index child =? ref_index parent) ||
     negb (lxp_slot_generation R (ref_index child) =? ref_generation child) ||
     negb (p_alive (sproc R (ref_index child)) =? 0) || negb (lxp_slot_ref_is_current R parent)
  then (- LXP_ESRCH, R)
  else (0, put_slot R (ref_index child)
             (set_sl_resume (slot_at R (ref_index child))
                (set_rc_sp (sl_resume (slot_at R (ref_index parent))) child_sp))).

Definition lxp_slot_ref_is_runnable (R : lxp_runtime) (ref : lxp_ref) : bool :=
  if negb (slot_in (ref_index ref)) || (ref_generation ref =? 0) ||
     negb (lxp_slot_runnable_load R (ref_index ref))
  then false
  else (lxp_slot_generation R (ref_index ref) =? ref_generation ref) &&
       negb (p_alive (sproc R (ref_index ref)) =? 0).

(** A region reference that names the region's present generation. *)
Definition region_ref_live (R : lxp_runtime) (region : lxp_ref) : bool :=
  region_in (ref_index region) && negb (ref_generation region =? 0) &&
  (rg_generation (region_at R (ref_index region)) =? ref_generation region).

Definition lxp_slot_region_ref (R : lxp_runtime) (ref : lxp_ref) : Z * option lxp_ref :=
  if negb (lxp_slot_ref_is_current R ref) then (LXP_ERR_NOT_FOUND, None)
  else match mm_of R (sproc R (ref_index ref)) with
       | None => (LXP_ERR_NOT_FOUND, None)
       | Some mm => if negb (region_ref_live R (mm_region mm)) then (LXP_ERR_INVALID_PARAM, None)
                    else (0, Some (mm_region mm))
       end.

(** ** A sample runtime

    Slot 0 runs in region 0 with a device window; the other slots and regions are free. *)
Definition demo_mm : lxp_mm :=
  mk_mm 1 1 1 None 0 0 0 (mk_ref 0 3) 0x20000000 0x20040000 0x30000000 0x30000100 1 0 0 0
    [0x40000000; 0] [0x40000400; 0] [2; 0].
Definition demo_proc : lxp_proc :=
  set_p_stack_lo (set_p_alive (set_p_mm proc_zero (Some 0)) 1) 0x20000010.
Definition demo_rt : lxp_runtime :=
  mk_rt (mk_kst [] [] [] [] [demo_mm] []) (fun a => a) [] 0 0
    (set_sl_runnable (set_sl_host_state (set_sl_generation (set_sl_proc slot_zero demo_proc) 7) SLOT_RUNNING) true
       :: set_sl_generation slot_zero 5 :: replicate 10 slot_zero)
    (mk_region lxp_slot_ref_none 1 3 :: replicate 7 (mk_region lxp_slot_ref_none 0 0))
    (replicate 8 arena_zero) (replicate 12 (mk_guard lxp_slot_ref_none lxp_region_ref_none lxp_region_ref_none))
    0 [0].
