(* ===== verification/Policy.v ===== *)
(** * A slot's memory policy (src/lxp_run.c, include/lxp/lxp_seam.h)

    The immutable description from which a port programs the memory protection unit: the
    slot and address space it is for, the executable text copied into the region and the
    device windows the address space was granted. *)

From S2P Require Import Prelude Config Proc Pool Guest Wait Arena Runtime.
Local Open Scope Z_scope.

Definition LXP_MEMORY_DEVICE_MAX : Z := 2.
Definition LXP_PROG_REGION_SIZE : Z := 0x40000.
Definition LXP_MAP_DEV : Z := 2.

Record lxp_device_capability := mk_cap { cap_base : Z; cap_size : Z; cap_attrs : Z }.
Definition cap_zero : lxp_device_capability := mk_cap 0 0 0.

Record lxp_memory_policy := mk_policy {
  pol_slot : lxp_ref;
  pol_address_space : lxp_ref;
  pol_device_generation : Z;
  pol_exec_generation : Z;
  pol_copied_text_base : Z;
  pol_copied_text_size : Z;
  pol_copied_text_executable : Z;
  pol_device_count : Z;
  pol_pad : Z;
  pol_devices : list lxp_device_capability;
}.

Definition cap_at (pol : lxp_memory_policy) (i : Z) : lxp_device_capability :=
  aget cap_zero (pol_devices pol) i.

Definition text_check (pol : lxp_memory_policy) : bool :=
  let base := pol_copied_text_base pol in
  let size := pol_copied_text_size pol in
  if negb (pol_copied_text_executable pol =? 0)
  then negb ((base =? 0) || negb (size =? LXP_PROG_REGION_SIZE / 2) ||
             negb (Z.land base (u32 (size - 1)) =? 0) || (size >? UINTPTR_MAX - base))
  else negb (negb (base =? 0) || negb (size =? 0)).

Definition cap_check (pol : lxp_memory_policy) (i : Z) : bool :=
  let cap := cap_at pol i in
  if i <? pol_device_count pol
  then negb ((cap_size cap =? 0) || (cap_size cap >? UINTPTR_MAX - cap_base cap) ||
             (cap_attrs cap >? LXP_MAP_DEV))
  else negb (negb (cap_base cap =? 0) || negb (cap_size cap =? 0) || negb (cap_attrs cap =? 0)).

Definition lxp_memory_policy_validate (pol : lxp_memory_policy) : Z :=
  if negb (slot_in (ref_index (pol_slot pol))) || (ref_generation (pol_slot pol) =? 0) ||
     negb (region_in (ref_index (pol_address_space pol))) ||
     (ref_generation (pol_address_space pol) =? 0) || (pol_device_generation pol =? 0) ||
     (pol_exec_generation pol =? 0) || (pol_copied_text_executable pol >? 1) ||
     (pol_device_count pol >? LXP_MEMORY_DEVICE_MAX) || negb (pol_pad pol =? 0)
  then LXP_ERR_INVALID_PARAM
  else if negb (text_check pol) then LXP_ERR_INVALID_PARAM
  else if negb (forallb (cap_check pol) [0; 1]) then LXP_ERR_INVALID_PARAM
  else LXP_OK.

(** The device loop: an empty range is skipped, the others are appended. *)
Definition policy_add_device (mm : lxp_mm) (pol : lxp_memory_policy) (i : Z) : lxp_memory_policy :=
  let lo := aget 0 (mm_dev_map_lo mm) i in
  let hi := aget 0 (mm_dev_map_hi mm) i in
  if hi <=? lo then pol
  else mk_policy (pol_slot pol) (pol_address_space pol) (pol_device_generation pol)
         (pol_exec_generation pol) (pol_copied_text_base pol) (pol_copied_text_size pol)
         (pol_copied_text_executable pol) (pol_device_count pol + 1) (pol_pad pol)
         (aset (pol_devices pol) (pol_device_count pol)
            (mk_cap lo (hi - lo) (aget 0 (mm_dev_map_attrs mm) i))).

Definition text_bounds_ok (mm : lxp_mm) : bool :=
  negb ((negb (mm_copied_text_executable mm =? 0) &&
         (negb (mm_copied_text_base mm =? mm_region_lo mm) ||
          (mm_copied_text_base mm >=? mm_region_hi mm) ||
          (mm_copied_text_size mm >? mm_region_hi mm - mm_copied_text_base mm))) ||
        ((mm_copied_text_executable mm =? 0) &&
         (negb (mm_copied_text_base mm =? 0) || negb (mm_copied_text_size mm =? 0)))).

(** The result code, and what [*out] holds, [None] where it was not written. *)
Definition lxp_slot_memory_policy (R : lxp_runtime) (ref : lxp_ref) : Z * option lxp_memory_policy :=
  if negb (lxp_slot_ref_is_current R ref) then (LXP_ERR_NOT_FOUND, None)
  else match mm_of R (sproc R (ref_index ref)) with
       | None => (LXP_ERR_INVALID_PARAM, None)
       | Some mm =>
           if (mm_device_generation mm =? 0) || (mm_exec_generation mm =? 0)
           then (LXP_ERR_INVALID_PARAM, None)
           else if negb (region_ref_live R (mm_region mm)) then (LXP_ERR_INVALID_PARAM, None)
           else
             let out := mk_policy ref (mm_region mm) (mm_device_generation mm)
                          (mm_exec_generation mm) (mm_copied_text_base mm) (mm_copied_text_size mm)
                          (mm_copied_text_executable mm) 0 0 [cap_zero; cap_zero] in
             if negb (text_bounds_ok mm) then (LXP_ERR_INVALID_PARAM, Some out)
             else let out := policy_add_device mm (policy_add_device mm out 0) 1 in
                  (lxp_memory_policy_validate out, Some out)
       end.

Record lxp_memory_policy_key := mk_key {
  key_slot : lxp_ref; key_address_space : lxp_ref; key_device_generation : Z;
  key_exec_generation : Z; key_copied_text_base : Z; key_copied_text_size : Z;
  key_copied_text_executable : Z;
}.

Definition lxp_memory_policy_make_key (pol : lxp_memory_policy) : lxp_memory_policy_key :=
  if negb (lxp_memory_policy_validate pol =? LXP_OK) then mk_key (mk_ref 0 0) (mk_ref 0 0) 0 0 0 0 0
  else mk_key (pol_slot pol) (pol_address_space pol) (pol_device_generation pol)
         (pol_exec_generation pol) (pol_copied_text_base pol) (pol_copied_text_size pol)
         (pol_copied_text_executable pol).

Definition lxp_memory_policy_key_same_view (a b : lxp_memory_policy_key) : bool :=
  lxp_region_ref_equal (key_address_space a) (key_address_space b) &&
  (key_device_generation a =? key_device_generation b) &&
  (key_exec_generation a =? key_exec_generation b) &&
  (key_copied_text_base a =? key_copied_text_base b) &&
  (key_copied_text_size a =? key_copied_text_size b) &&
  (key_copied_text_executable a =? key_copied_text_executable b).

Definition lxp_memory_policy_key_equal (a b : lxp_memory_policy_key) : bool :=
  lxp_slot_ref_equal (key_slot a) (key_slot b) && lxp_memory_policy_key_same_view a b.

Definition lxp_memory_policy_address_space_matches_key (pol : lxp_memory_policy)
    (key : lxp_memory_policy_key) : bool :=
  (lxp_memory_policy_validate pol =? LXP_OK) &&
  lxp_region_ref_equal (pol_address_space pol) (key_address_space key) &&
  (pol_device_generation pol =? key_device_generation key) &&
  (pol_exec_generation pol =? key_exec_generation key) &&
  (pol_copied_text_base pol =? key_copied_text_base key) &&
  (pol_copied_text_size pol =? key_copied_text_size key) &&
  (pol_copied_text_executable pol =? key_copied_text_executable key).

Definition lxp_memory_policy_matches_key (pol : lxp_memory_policy) (key : lxp_memory_policy_key) : bool :=
  (lxp_memory_policy_validate pol =? LXP_OK) &&
  lxp_slot_ref_equal (pol_slot pol) (key_slot key) &&
  lxp_memory_policy_address_space_matches_key pol key.

(** ** What a policy grants *)

(** A device byte the policy opens, and one the address space was granted. *)
Definition policy_device_byte (pol : lxp_memory_policy) (a attrs : Z) : Prop :=
  exists i, 0 <= i < pol_device_count pol /\
    cap_base (cap_at pol i) <= a < cap_base (cap_at pol i) + cap_size (cap_at pol i) /\
    cap_attrs (cap_at pol i) = attrs.
Definition mm_device_byte (mm : lxp_mm) (a attrs : Z) : Prop :=
  exists i, 0 <= i < LXP_MEMORY_DEVICE_MAX /\
    aget 0 (mm_dev_map_lo mm) i <= a < aget 0 (mm_dev_map_hi mm) i /\
    aget 0 (mm_dev_map_attrs mm) i = attrs.

Lemma cap_first x : aget cap_zero (aset [cap_zero; cap_zero] 0 x) 0 = x.
Proof. done. Qed.
Lemma cap_both_0 x y : aget cap_zero (aset (aset [cap_zero; cap_zero] 0 x) (0 + 1) y) 0 = x.
Proof. done. Qed.
Lemma cap_both_1 x y : aget cap_zero (aset (aset [cap_zero; cap_zero] 0 x) (0 + 1) y) 1 = y.
Proof. done. Qed.

Lemma policy_devices_exact mm pol :
  pol_device_count pol = 0 -> pol_devices pol = [cap_zero; cap_zero] ->
  let out := policy_add_device mm (policy_add_device mm pol 0) 1 in
  forall a attrs, policy_device_byte out a attrs <-> mm_device_byte mm a attrs.
Proof.
  intros Hc Hd out a attrs. unfold out, policy_add_device, mm_device_byte, policy_device_byte, cap_at.
  assert (Hrange : forall P : Z -> Prop, (exists i, 0 <= i < LXP_MEMORY_DEVICE_MAX /\ P i) <-> P 0 \/ P 1).
  { intros P. unfold LXP_MEMORY_DEVICE_MAX. split.
    - intros (i & Hi & HP). assert (i = 0 \/ i = 1) as [-> | ->] by lia; auto.
    - intros [HP|HP]; eexists; split; try exact HP; lia. }
  rewrite Hrange.
  destruct (Z.leb_spec (aget 0 (mm_dev_map_hi mm) 0) (aget 0 (mm_dev_map_lo mm) 0));
    destruct (Z.leb_spec (aget 0 (mm_dev_map_hi mm) 1) (aget 0 (mm_dev_map_lo mm) 1));
    cbn [pol_device_count pol_devices]; rewrite ?Hc, ?Hd.
  - split; [intros (i & Hi & _); lia|]. intros [(? & _)|(? & _)]; lia.
  - split.
    + intros (i & Hi & Hb & Ha). assert (i = 0) as -> by lia. rewrite cap_first in Hb, Ha.
      cbn in Hb, Ha. right. split; [lia|done].
    + intros [(? & _)|(? & Ha)]; [lia|]. exists 0. rewrite cap_first. cbn. split_and!; lia || done.
  - split.
    + intros (i & Hi & Hb & Ha). assert (i = 0) as -> by lia. rewrite cap_first in Hb, Ha.
      cbn in Hb, Ha. left. split; [lia|done].
    + intros [(? & Ha)|(? & _)]; [|lia]. exists 0. rewrite cap_first. cbn. split_and!; lia || done.
  - split.
    + intros (i & Hi & Hb & Ha). assert (i = 0 \/ i = 1) as [-> | ->] by lia;
        rewrite ?cap_both_0, ?cap_both_1 in Hb, Ha; cbn in Hb, Ha; [left|right]; (split; [lia|done]).
    + intros [(? & Ha)|(? & Ha)]; [exists 0|exists 1]; rewrite ?cap_both_0, ?cap_both_1; cbn;
        split_and!; lia || done.
Qed.

Lemma policy_add_device_keeps mm pol i :
  let out := policy_add_device mm pol i in
  pol_slot out = pol_slot pol /\ pol_address_space out = pol_address_space pol /\
  pol_copied_text_base out = pol_copied_text_base pol /\
  pol_copied_text_size out = pol_copied_text_size pol /\
  pol_copied_text_executable out = pol_copied_text_executable pol.
Proof. unfold policy_add_device. destruct (_ <=? _); done. Qed.

Lemma text_bounds_inside mm a :
  text_bounds_ok mm = true ->
  mm_copied_text_base mm <= a < mm_copied_text_base mm + mm_copied_text_size mm ->
  mm_region_lo mm <= a < mm_region_hi mm.
Proof.
  unfold text_bounds_ok. intros H%negb_true_iff Ha. apply orb_false_iff in H as [H1 H2].
  destruct (Z.eqb_spec (mm_copied_text_executable mm) 0); cbn [negb andb] in *; lia.
Qed.

(** The policy a port programs the MPU from grants a task nothing beyond its address
    space: it exists only for a current slot whose address space holds the region's present
    generation; its executable text lies inside that region; and the device bytes it opens
    are exactly those mapped into the address space, with their attributes, none of them
    wrapping around the address range. *)
Theorem slot_memory_policy_exact R ref pol :
  lxp_slot_memory_policy R ref = (LXP_OK, Some pol) ->
  lxp_slot_ref_is_current R ref = true /\ pol_slot pol = ref /\
  exists mm, mm_of R (sproc R (ref_index ref)) = Some mm /\
    pol_address_space pol = mm_region mm /\ region_ref_live R (mm_region mm) = true /\
    (forall a, pol_copied_text_base pol <= a < pol_copied_text_base pol + pol_copied_text_size pol ->
       mm_region_lo mm <= a < mm_region_hi mm) /\
    (forall a attrs, policy_device_byte pol a attrs <-> mm_device_byte mm a attrs) /\
    (forall a attrs, policy_device_byte pol a attrs -> a < 2 ^ 32 /\ attrs <= LXP_MAP_DEV).
Proof.
  unfold lxp_slot_memory_policy. destruct (lxp_slot_ref_is_current R ref) eqn:Ec; [|done]. cbn [negb].
  destruct (mm_of _ _) as [mm|] eqn:Em; [|done]. destruct (_ || _); [done|].
  destruct (region_ref_live _ _) eqn:El; [|done]. cbn [negb].
  destruct (text_bounds_ok mm) eqn:Et; [|done]. cbn [negb].
  set (p0 := mk_policy _ _ _ _ _ _ _ _ _ _). intros [= Hv <-]. split; [done|].
  pose proof (policy_add_device_keeps mm p0 0) as (A1 & A2 & A3 & A4 & A5).
  pose proof (policy_add_device_keeps mm (policy_add_device mm p0 0) 1) as (B1 & B2 & B3 & B4 & B5).
  cbv zeta in *. rewrite B1, B2, B3, B4, A1, A2, A3, A4. split; [done|]. exists mm.
  pose proof (policy_devices_exact mm p0 eq_refl eq_refl) as Hd. cbv zeta in Hd.
  split; [done|]. split; [done|]. split; [done|]. split; [intros a; by apply text_bounds_inside|].
  split; [exact Hd|]. intros a attrs (i & Hi & Hb & <-).
  set (out := policy_add_device _ _ _) in *. unfold lxp_memory_policy_validate in Hv.
  destruct (_ || _) eqn:E1 in Hv; [done|]. destruct (negb (text_check _)); [done|].
  destruct (forallb _ _) eqn:E2 in Hv; [|done].
  apply orb_false_iff in E1 as [E1 _]. apply orb_false_iff in E1 as [_ E1].
  unfold LXP_MEMORY_DEVICE_MAX in E1. rewrite forallb_forall in E2.
  assert (Hc : cap_check out i = true).
  { apply E2. assert (i = 0 \/ i = 1) as [-> | ->] by lia; simpl; auto. }
  unfold cap_check in Hc. destruct (Z.ltb_spec i (pol_device_count out)); [|lia].
  unfold UINTPTR_MAX in *. lia.
Qed.

Lemma slot_memory_policy_exact_witness :
  exists pol, lxp_slot_memory_policy demo_rt (mk_ref 0 7) = (LXP_OK, Some pol) /\
    pol_slot pol = mk_ref 0 7 /\ policy_device_byte pol 0x40000123 2.
Proof.
  destruct (lxp_slot_memory_policy demo_rt (mk_ref 0 7)) as [r [pol|]] eqn:E;
    [|vm_compute in E; congruence].
  assert (r = LXP_OK) as -> by (vm_compute in E; injection E as <- _; reflexivity).
  exists pol. split; [done|].
  destruct (slot_memory_policy_exact demo_rt (mk_ref 0 7) pol E) as (_ & H1 & mm & Hm & _ & _ & _ & H2 & _).
  split; [exact H1|]. apply H2. exists 0.
  assert (mm = demo_mm) as -> by (vm_compute in Hm; injection Hm as <-; reflexivity).
  unfold LXP_MEMORY_DEVICE_MAX. split; [lia|]. split; [vm_compute; split; congruence|reflexivity].
Defined.
