(* ===== verification/Event.v ===== *)
(** * Event publication and the fair claim (src/run/lxp_guest_event.c)

    A pending bit per slot is a hint that the slot has an event; the claim walks the slots
    from a rotating cursor, clears the hints it looks at and returns the first slot whose
    state still carries one, with its class. *)

From S2P Require Import Prelude Config Proc Pool Guest Wait Arena Runtime.
Local Open Scope Z_scope.

Definition LXP_EVENT_WORD_BITS : Z := 32.
Definition LXP_EVENT_WORDS : Z := (LXP_NSLOT + LXP_EVENT_WORD_BITS - 1) / LXP_EVENT_WORD_BITS.

Inductive lxp_ev_class :=
  | LXP_EV_NONE | LXP_EV_EXIT | LXP_EV_EXEC | LXP_EV_FORK | LXP_EV_DEFER | LXP_EV_STOP | LXP_EV_SLEEP
  | LXP_EV_FUTEXWAIT | LXP_EV_WAITPARK | LXP_EV_PIPE | LXP_EV_DEVWAIT | LXP_EV_SOCKWAIT
  | LXP_EV_NETFSWAIT | LXP_EV_PTYWAIT | LXP_EV_SIGSUSPEND | LXP_EV_CONSOLEWAIT.

#[export] Instance lxp_ev_class_eq_dec : EqDecision lxp_ev_class.
Proof. solve_decision. Defined.

Definition event_word (s : Z) : Z := s / LXP_EVENT_WORD_BITS.
Definition event_bit (s : Z) : Z := Z.shiftl 1 (s mod LXP_EVENT_WORD_BITS).
Definition pending_word (R : lxp_runtime) (s : Z) : Z := aget 0 (rt_primary_pending R) (event_word s).

Definition lxp_primary_slot_mark (R : lxp_runtime) (s : Z) : lxp_runtime :=
  if negb (slot_in s) then R
  else set_rt_primary_pending R
         (aset (rt_primary_pending R) (event_word s) (Z.lor (pending_word R s) (event_bit s))).

Definition lxp_primary_slot_pending (R : lxp_runtime) (s : Z) : bool :=
  negb (Z.land (pending_word R s) (event_bit s) =? 0).

Definition lxp_primary_slot_clear (R : lxp_runtime) (s : Z) : lxp_runtime :=
  set_rt_primary_pending R
    (aset (rt_primary_pending R) (event_word s) (Z.ldiff (pending_word R s) (event_bit s))).

Definition lxp_primary_events_reset (R : lxp_runtime) : lxp_runtime :=
  set_rt_primary_pending R (replicate (Z.to_nat LXP_EVENT_WORDS) 0).

Definition lxp_claim_slot_event (R : lxp_runtime) (s : Z) : lxp_ev_class :=
  if negb (slot_in s) then LXP_EV_NONE
  else let p := sproc R s in
    if p_alive p =? 0 then LXP_EV_NONE
    else match intent_kind (p_intent p) with
    | IK_EXIT => LXP_EV_EXIT
    | IK_EXEC => LXP_EV_EXEC
    | IK_FORK => LXP_EV_FORK
    | ik =>
        if bool_decide (ik = IK_DEFERRED_SYSCALL) && (lxp_deferred_state_load R s =? DEFER_READY)
        then LXP_EV_DEFER
        else if negb (lxp_slot_runnable_load R s) then LXP_EV_NONE
        else if negb (p_stopped p =? 0) && (p_stop_kind p =? LXP_STOP_READY) then LXP_EV_STOP
        else match w_kind (p_wait p) with
             | LXP_WAIT_TIMER => LXP_EV_SLEEP
             | LXP_WAIT_FUTEX => LXP_EV_FUTEXWAIT
             | LXP_WAIT_CHILD => LXP_EV_WAITPARK
             | LXP_WAIT_PIPE => LXP_EV_PIPE
             | LXP_WAIT_DEVICE => LXP_EV_DEVWAIT
             | LXP_WAIT_SOCKET | LXP_WAIT_POLL => LXP_EV_SOCKWAIT
             | LXP_WAIT_NETFS => LXP_EV_NETFSWAIT
             | LXP_WAIT_PTY => LXP_EV_PTYWAIT
             | LXP_WAIT_SIGSUSPEND => LXP_EV_SIGSUSPEND
             | LXP_WAIT_CONSOLE => LXP_EV_CONSOLEWAIT
             | _ => LXP_EV_NONE
             end
    end.

(** The scan, with [n] slots left to look at; [i] is the loop variable. *)
Fixpoint claim_scan (n : nat) (R : lxp_runtime) (cursor i : Z) : Z * lxp_ev_class * Z * lxp_runtime :=
  match n with
  | O => (-1, LXP_EV_NONE, cursor, R)
  | S n =>
      let s := u32 (cursor + i) mod LXP_NSLOT in
      if negb (lxp_primary_slot_pending R s) then claim_scan n R cursor (i + 1)
      else let R := lxp_primary_slot_clear R s in
           let type := lxp_claim_slot_event R s in
           if bool_decide (type = LXP_EV_NONE) then claim_scan n R cursor (i + 1)
           else (s, type, (s + 1) mod LXP_NSLOT, R)
  end.

(** Slot, class, the advanced cursor and the runtime with the consumed hints cleared. *)
Definition lxp_coordinator_claim_event (R : lxp_runtime) (cursor : Z) : Z * lxp_ev_class * Z * lxp_runtime :=
  claim_scan (Z.to_nat LXP_NSLOT) R cursor 0.

(** ** The hint bits *)

Lemma land_pow2_testbit w k : 0 <= k -> negb (Z.land w (Z.shiftl 1 k) =? 0) = Z.testbit w k.
Proof.
  intros Hk. rewrite Z.shiftl_1_l. destruct (Z.testbit w k) eqn:E.
  - apply negb_true_iff, Z.eqb_neq. intros H.
    assert (Hb : Z.testbit (Z.land w (2 ^ k)) k = true) by (rewrite Z.land_spec, E, Z.pow2_bits_true by lia; done).
    by rewrite H, Z.bits_0 in Hb.
  - apply negb_false_iff, Z.eqb_eq, Z.bits_inj'. intros i Hi. rewrite Z.land_spec, Z.bits_0.
    destruct (decide (i = k)) as [->|]; [by rewrite E|]. rewrite Z.pow2_bits_false by lia. apply andb_false_r.
Qed.

(** One hint word serves all slots. *)
Definition hints_wf (R : lxp_runtime) : Prop := alen (rt_primary_pending R) = LXP_EVENT_WORDS.

Lemma slot_word s : 0 <= s < LXP_NSLOT -> event_word s = 0 /\ s mod LXP_EVENT_WORD_BITS = s.
Proof. unfold event_word, LXP_NSLOT, LXP_NREG, LXP_EVENT_WORD_BITS. lia. Qed.

Lemma pending_testbit R s : 0 <= s < LXP_NSLOT ->
  lxp_primary_slot_pending R s = Z.testbit (aget 0 (rt_primary_pending R) 0) s.
Proof.
  intros Hs. unfold lxp_primary_slot_pending, pending_word, event_bit.
  destruct (slot_word s Hs) as [-> ->]. apply land_pow2_testbit. lia.
Qed.

Lemma pending_clear R s t : hints_wf R -> 0 <= s < LXP_NSLOT -> 0 <= t < LXP_NSLOT ->
  lxp_primary_slot_pending (lxp_primary_slot_clear R s) t =
  lxp_primary_slot_pending R t && negb (t =? s).
Proof.
  intros Hw Hs Ht. rewrite !pending_testbit by done.
  unfold lxp_primary_slot_clear, pending_word, event_bit. cbn [rt_primary_pending set_rt_primary_pending].
  destruct (slot_word s Hs) as [-> ->].
  rewrite aget_aset_eq by (unfold hints_wf in Hw; rewrite Hw; vm_compute; split; congruence).
  rewrite Z.shiftl_1_l, Z.ldiff_spec. f_equal. f_equal.
  destruct (Z.eqb_spec t s) as [->|]; [apply Z.pow2_bits_true; lia|apply Z.pow2_bits_false; lia].
Qed.

Lemma pending_mark R s t : hints_wf R -> 0 <= s < LXP_NSLOT -> 0 <= t < LXP_NSLOT ->
  lxp_primary_slot_pending (lxp_primary_slot_mark R s) t = lxp_primary_slot_pending R t || (t =? s).
Proof.
  intros Hw Hs Ht. rewrite !pending_testbit by done.
  unfold lxp_primary_slot_mark, slot_in. destruct (Z.geb_spec s 0), (Z.ltb_spec s LXP_NSLOT); try lia.
  cbn [andb negb rt_primary_pending set_rt_primary_pending]. unfold pending_word, event_bit.
  destruct (slot_word s Hs) as [-> ->].
  rewrite aget_aset_eq by (unfold hints_wf in Hw; rewrite Hw; vm_compute; split; congruence).
  rewrite Z.shiftl_1_l, Z.lor_spec. f_equal.
  destruct (Z.eqb_spec t s) as [->|]; [apply Z.pow2_bits_true; lia|apply Z.pow2_bits_false; lia].
Qed.

(** ** The claim *)

(** A slot that both is hinted and has an event. *)
Definition event_live (R : lxp_runtime) (s : Z) : Prop :=
  lxp_primary_slot_pending R s = true /\ lxp_claim_slot_event R s <> LXP_EV_NONE.

Definition nth_slot (cursor i : Z) : Z := (cursor + i) mod LXP_NSLOT.

(** What a scan of the offsets [i, i + n) from the cursor returns. *)
Definition scan_post (R : lxp_runtime) (cursor i n : Z) (r : Z * lxp_ev_class * Z * lxp_runtime) : Prop :=
  let '(s, ty, c', R') := r in
  (forall t, 0 <= t < LXP_NSLOT -> event_live R t -> t <> s -> event_live R' t) /\
  ((s = -1 /\ ty = LXP_EV_NONE /\ c' = cursor /\ forall j, i <= j < i + n -> ~ event_live R (nth_slot cursor j)) \/
   exists j, i <= j < i + n /\ s = nth_slot cursor j /\ event_live R s /\
     ty = lxp_claim_slot_event R s /\ c' = (s + 1) mod LXP_NSLOT /\
     lxp_primary_slot_pending R' s = false /\
     forall j', i <= j' < j -> ~ event_live R (nth_slot cursor j')).

Lemma nth_slot_range c i : 0 <= nth_slot c i < LXP_NSLOT.
Proof. unfold nth_slot, LXP_NSLOT, LXP_NREG. lia. Qed.

Lemma scan_post_skip R R' cursor i n r :
  ~ event_live R (nth_slot cursor i) ->
  (forall t, 0 <= t < LXP_NSLOT -> t <> nth_slot cursor i -> (event_live R' t <-> event_live R t)) ->
  (forall t, lxp_claim_slot_event R' t = lxp_claim_slot_event R t) ->
  ~ event_live R' (nth_slot cursor i) -> 0 <= n ->
  scan_post R' cursor (i + 1) n r -> scan_post R cursor i (n + 1) r.
Proof.
  intros Hd Hiff Hev Hd' Hn. destruct r as [[[s ty] c'] R'']. intros [Hkeep Hr].
  assert (Hl : forall t, 0 <= t < LXP_NSLOT -> (event_live R' t <-> event_live R t)).
  { intros t Ht. destruct (decide (t = nth_slot cursor i)) as [->|]; [tauto|auto]. }
  pose proof (nth_slot_range cursor) as Hnr.
  split; [intros t Ht H1 H2; apply Hkeep; [done|by apply Hl|done]|].
  destruct Hr as [(-> & -> & -> & Hn')|(j & Hj & -> & Hs & -> & -> & Hc & Hb)].
  - left. split_and!; [done..|]. intros j Hj. destruct (decide (j = i)) as [->|]; [done|].
    rewrite <- Hl by done. apply Hn'. lia.
  - right. exists j. split_and!; [lia|lia|done|by apply Hl|by rewrite Hev|done|done|].
    intros j' Hj'. destruct (decide (j' = i)) as [->|]; [done|]. rewrite <- Hl by done. apply Hb. lia.
Qed.

Lemma hints_wf_clear R s : hints_wf R -> hints_wf (lxp_primary_slot_clear R s).
Proof. intros H. unfold hints_wf. cbn. by rewrite alen_aset. Qed.

Lemma claim_scan_spec n R cursor i :
  hints_wf R -> 0 <= cursor < LXP_NSLOT -> 0 <= i -> i + Z.of_nat n <= LXP_NSLOT ->
  scan_post R cursor i (Z.of_nat n) (claim_scan n R cursor i).
Proof.
  revert R i. induction n as [|n IH]; intros R i Hw Hc Hi Hb.
  { split; [done|]. left. split_and!; [done..|]. intros; lia. }
  cbn [claim_scan]. assert (Hs : u32 (cursor + i) mod LXP_NSLOT = nth_slot cursor i).
  { unfold nth_slot. f_equal. apply u32_small. unfold LXP_NSLOT, LXP_NREG in *. lia. }
  rewrite Hs. pose proof (nth_slot_range cursor i) as Hr. set (s := nth_slot cursor i) in *.
  replace (Z.of_nat (S n)) with (Z.of_nat n + 1) by lia.
  destruct (lxp_primary_slot_pending R s) eqn:Ep; cbn [negb].
  2:{ apply (scan_post_skip R R); [|done|done| |lia|apply IH; auto; lia];
        unfold event_live; fold s; rewrite Ep; tauto || (intros [? _]; congruence). }
  assert (Hp : forall t, 0 <= t < LXP_NSLOT ->
    lxp_primary_slot_pending (lxp_primary_slot_clear R s) t = lxp_primary_slot_pending R t && negb (t =? s))
    by (intros; by apply pending_clear).
  case_bool_decide as Ev.
  - apply (scan_post_skip R (lxp_primary_slot_clear R s)); try (fold s); [..|lia|].
    + intros [_ H]. by apply H.
    + intros t Ht Hne. unfold event_live. rewrite Hp by done.
      destruct (Z.eqb_spec t s); [done|]. cbn [negb]. by rewrite andb_true_r.
    + done.
    + intros [_ H]. by apply H.
    + apply IH; [by apply hints_wf_clear|done|lia|lia].
  - split.
    + intros t Ht [H1 H2] Hne. split; [|done]. rewrite Hp, H1 by done.
      by destruct (Z.eqb_spec t s).
    + right. exists i. split_and!; [lia|lia|done|split; done|done|done| |intros; lia].
      rewrite Hp, Ep by done. by rewrite Z.eqb_refl.
Qed.

Lemma cyclic_closer cursor t j :
  0 <= cursor < LXP_NSLOT -> 0 <= t < LXP_NSLOT -> 0 <= j < (t - cursor) mod LXP_NSLOT ->
  (t - (nth_slot cursor j + 1) mod LXP_NSLOT) mod LXP_NSLOT < (t - cursor) mod LXP_NSLOT.
Proof. unfold nth_slot, LXP_NSLOT, LXP_NREG. lia. Qed.

(** The claim is fair and loses nothing.  It returns the first slot, in cyclic order
    from the cursor, whose hint is set and whose state carries an event, with that event's
    class, and consumes only that slot's hint; every other slot with an event keeps its
    hint and is strictly nearer to the advanced cursor, so it is claimed within as many
    claims as there are slots.  It returns none exactly when no slot has an event. *)
Theorem claim_event_fair R cursor :
  hints_wf R -> 0 <= cursor < LXP_NSLOT ->
  let '(s, type, cursor', R') := lxp_coordinator_claim_event R cursor in
  let dist c t := (t - c) mod LXP_NSLOT in
  (s = -1 /\ type = LXP_EV_NONE /\ (forall t, 0 <= t < LXP_NSLOT -> ~ event_live R t)) \/
  (0 <= s < LXP_NSLOT /\ event_live R s /\ type = lxp_claim_slot_event R s /\
   lxp_primary_slot_pending R' s = false /\ 0 <= cursor' < LXP_NSLOT /\
   forall t, 0 <= t < LXP_NSLOT -> event_live R t -> t <> s ->
     event_live R' t /\ dist cursor s < dist cursor t /\ dist cursor' t < dist cursor t).
Proof.
  intros Hw Hc. unfold lxp_coordinator_claim_event.
  pose proof (claim_scan_spec (Z.to_nat LXP_NSLOT) R cursor 0 Hw Hc ltac:(lia)
                ltac:(vm_compute; congruence)) as H.
  change (Z.of_nat (Z.to_nat LXP_NSLOT)) with LXP_NSLOT in H.
  destruct (claim_scan _ _ _ _) as [[[s ty] c'] R']. destruct H as [Hk H].
  assert (Hd : forall t, 0 <= t < LXP_NSLOT -> nth_slot cursor ((t - cursor) mod LXP_NSLOT) = t /\
                 0 <= (t - cursor) mod LXP_NSLOT < LXP_NSLOT).
  { intros t Ht. unfold nth_slot, LXP_NSLOT, LXP_NREG in *. lia. }
  destruct H as [(-> & -> & -> & Hn)|(j & Hj & -> & Hs & -> & -> & Hp & Hb)].
  - left. split_and!; [done..|]. intros t Ht. destruct (Hd t Ht) as [E Hr]. rewrite <- E. apply Hn. lia.
  - right. pose proof (nth_slot_range cursor j). split; [done|]. split; [done|]. split; [done|].
    split; [done|]. split; [unfold LXP_NSLOT, LXP_NREG; lia|]. intros t Ht Hl Hne.
    destruct (Hd t Ht) as [E Hr].
    assert (Hlt : j < (t - cursor) mod LXP_NSLOT).
    { destruct (Z.lt_trichotomy j ((t - cursor) mod LXP_NSLOT)) as [|[Ej|Ej]]; [done| |].
      - exfalso. apply Hne. by rewrite Ej, E.
      - exfalso. apply (Hb ((t - cursor) mod LXP_NSLOT)); [lia|]. by rewrite E. }
    split; [by apply Hk|]. split; [|apply cyclic_closer; lia].
    unfold nth_slot in *. unfold LXP_NSLOT, LXP_NREG in *. lia.
Qed.

Definition demo_event_rt : lxp_runtime :=
  let R := put_proc demo_rt 0 (set_p_intent (sproc demo_rt 0) (LXP_INTENT_EXIT false)) in
  lxp_primary_slot_mark (lxp_primary_slot_mark R 0) 3.

Lemma claim_event_fair_witness :
  (lxp_coordinator_claim_event demo_event_rt 2).1 = (0, LXP_EV_EXIT, 1) /\
  lxp_primary_slot_pending (lxp_coordinator_claim_event demo_event_rt 2).2 0 = false.
Proof.
  assert (E : (lxp_coordinator_claim_event demo_event_rt 2).1 = (0, LXP_EV_EXIT, 1)) by (vm_compute; reflexivity).
  split; [exact E|].
  pose proof (claim_event_fair demo_event_rt 2 ltac:(vm_compute; reflexivity)
                ltac:(vm_compute; split; congruence)) as H.
  destruct (lxp_coordinator_claim_event demo_event_rt 2) as [[[s ty] c'] R']. cbn [fst snd] in *.
  injection E as -> -> ->. destruct H as [(H & _)|(_ & _ & _ & H & _)]; [discriminate|exact H].
Defined.
