(* ===== verification/Region.v ===== *)
(** * Program regions and vfork snapshots (src/run/lxp_region.c)

    A region is held through a generation-qualified capability: reserved under a lease,
    committed to an address space, counted, and retired with a new generation when its last
    reference goes.  A vfork child runs in its parent's memory; the parent's writable bytes
    are copied to a spare region first and copied back before the parent resumes.

    [lxp_os_ops] memory services are parameters: the base address of a region and of its
    dynamic pool, with the pool's size.  Cache maintenance has no effect on the flat memory
    of the model. *)

From S2P Require Import Prelude Config Proc Pool Fd Guest Wait Arena Process Runtime Event.
Local Open Scope Z_scope.

Definition lxp_region_arena (R : lxp_runtime) (region : Z) : option lxp_arena :=
  if region_in region then Some (aget arena_zero (rt_arenas R) region) else None.

(** Whether a slot's live task has its address space in region [r]. *)
Definition slot_uses_region (R : lxp_runtime) (r : Z) (s : lxp_slot_runtime) : bool :=
  negb (p_alive (sl_proc s) =? 0) &&
  match mm_of R (sl_proc s) with Some mm => ref_index (mm_region mm) =? r | None => false end.

Definition lxp_region_live_users (R : lxp_runtime) (r : Z) : Z :=
  alen (List.filter (slot_uses_region R r) (rt_slots R)).

Definition lxp_region_free (R : lxp_runtime) (r : Z) : bool :=
  if negb (region_in r) || (ref_index (rg_lease_owner (region_at R r)) >=? 0) ||
     negb (rg_refs (region_at R r) =? 0)
  then false
  else lxp_region_live_users R r =? 0.

Definition set_rg_owner (g : lxp_region_runtime) (o : lxp_ref) : lxp_region_runtime :=
  mk_region o (rg_refs g) (rg_generation g).
Definition set_rg_refs (g : lxp_region_runtime) (n : Z) : lxp_region_runtime :=
  mk_region (rg_lease_owner g) n (rg_generation g).
Definition set_rg_generation (g : lxp_region_runtime) (n : Z) : lxp_region_runtime :=
  mk_region (rg_lease_owner g) (rg_refs g) n.

Definition region_generation_next (g : lxp_region_runtime) : lxp_region_runtime :=
  set_rg_generation g (generation_next (rg_generation g)).

Definition lxp_region_ref_at (R : lxp_runtime) (r : Z) : lxp_ref :=
  if region_in r && negb (rg_refs (region_at R r) =? 0)
  then mk_ref r (rg_generation (region_at R r)) else lxp_region_ref_none.

Definition lxp_region_reserve (R : lxp_runtime) (r : Z) (owner : lxp_ref) : lxp_ref * lxp_runtime :=
  if negb (region_in r) || negb (slot_in (ref_index owner)) || (ref_generation owner =? 0) ||
     negb (lxp_slot_ref_equal owner (lxp_slot_ref_at R (ref_index owner))) ||
     negb (rg_refs (region_at R r) =? 0)
  then (lxp_region_ref_none, R)
  else let g := region_generation_next (set_rg_refs (set_rg_owner (region_at R r) owner) 1) in
       (mk_ref r (rg_generation g), put_region R r g).

Definition lxp_region_commit_address_space (R : lxp_runtime) (ref lease_owner : lxp_ref)
    : Z * lxp_runtime :=
  let r := ref_index ref in
  let g := region_at R r in
  if negb (region_in r) || (ref_generation ref =? 0) || negb (rg_generation g =? ref_generation ref) ||
     (rg_refs g =? 0) || negb (lxp_slot_ref_equal (rg_lease_owner g) lease_owner)
  then (-1, R)
  else (0, put_region R r (set_rg_owner g lxp_slot_ref_none)).

Definition lxp_region_get (R : lxp_runtime) (ref : lxp_ref) : Z * lxp_runtime :=
  let r := ref_index ref in
  let g := region_at R r in
  if negb (region_in r) || (ref_generation ref =? 0) || negb (rg_generation g =? ref_generation ref) ||
     (ref_index (rg_lease_owner g) >=? 0) || (rg_refs g =? 0) || (rg_refs g >=? LXP_NSLOT)
  then (-1, R)
  else (0, put_region R r (set_rg_refs g (rg_refs g + 1))).

Definition lxp_region_put (R : lxp_runtime) (ref : lxp_ref) : Z * lxp_runtime :=
  let r := ref_index ref in
  let g := region_at R r in
  if negb (region_in r) || (ref_generation ref =? 0) || negb (rg_generation g =? ref_generation ref) ||
     (rg_refs g =? 0)
  then (-1, R)
  else let g := set_rg_refs g (rg_refs g - 1) in
       let g := if rg_refs g =? 0 then region_generation_next (set_rg_owner g lxp_slot_ref_none) else g in
       (0, put_region R r g).

(** [p] is the task record [lxp_region_mm_put] is handed. *)
Definition lxp_region_mm_put (R : lxp_runtime) (p : lxp_proc) : lxp_runtime * lxp_proc :=
  match mm_of R p with
  | None => (R, p)
  | Some mm => let R := (lxp_region_put R (mm_region mm)).2 in
               let '(k, p) := lxp_proc_mm_put (rt_k R) p in (set_rt_k R k, p)
  end.

Definition lxp_region_release_if_owned (R : lxp_runtime) (region owner : lxp_ref) : Z * lxp_runtime :=
  let r := ref_index region in
  let g := region_at R r in
  if negb (region_in r) || negb (lxp_slot_ref_equal (rg_lease_owner g) owner) ||
     negb (rg_refs g =? 1) || negb (rg_generation g =? ref_generation region)
  then (-1, R)
  else lxp_region_put R region.

Definition lxp_region_lease_matches (R : lxp_runtime) (region owner : lxp_ref) (refs : Z) : bool :=
  let g := region_at R (ref_index region) in
  region_in (ref_index region) && negb (ref_generation region =? 0) &&
  (rg_generation g =? ref_generation region) && (rg_refs g =? refs) &&
  lxp_slot_ref_equal (rg_lease_owner g) owner.

Definition lxp_region_lease_reassign (R : lxp_runtime) (region old_owner new_owner : lxp_ref)
    : Z * lxp_runtime :=
  if negb (lxp_region_lease_matches R region old_owner 1) then (- LXP_EINVAL, R)
  else (LXP_OK, put_region R (ref_index region)
                  (set_rg_owner (region_at R (ref_index region)) new_owner)).

Definition lxp_vfork_guard_reset (R : lxp_runtime) (s : Z) : lxp_runtime :=
  set_rt_vfork_guard R (aset (rt_vfork_guard R) s
                          (mk_guard lxp_slot_ref_none lxp_region_ref_none lxp_region_ref_none)).

Definition lxp_region_runtime_reset (R : lxp_runtime) : lxp_runtime :=
  let R := set_rt_regions R (map (fun g => set_rg_owner (set_rg_refs g 0) lxp_slot_ref_none) (rt_regions R)) in
  fold_left lxp_vfork_guard_reset (map Z.of_nat (seq 0 (Z.to_nat LXP_NSLOT))) R.

(** src/run/lxp_exit.c: an exit decided by the coordinator itself. *)
Definition LXP_EXIT_REASON_STATE_CORRUPTION : Z := 7.
Definition lxp_coordinator_exit_slot (R : lxp_runtime) (s group status reason detail : Z) : lxp_runtime :=
  let p := sproc R s in
  let p := set_p_exit_status p status in
  let p := set_p_exit_reason p reason in
  let p := set_p_exit_signal p 0 in
  let p := set_p_exit_detail p detail in
  let p := set_p_exit_address p 0 in
  let p := (lxp_intent_exit p group).2 in
  lxp_primary_slot_mark (put_proc R s p) s.

(** ** vfork snapshots *)

Section Snapshot.
Context (os_region : Z -> Z) (os_dyn_pool : option (Z -> Z * Z)).

Definition copy_span (m : mem) (dst src len : Z) : mem := mem_write m dst (mem_read m src (Z.to_nat len)).
Definition snapshot_copy_span := copy_span.
Definition restore_copy_span := copy_span.

(** [lxp_slot_of] of a task named by its slot. *)
Definition lxp_slot_of (par : Z) : Z := if slot_in par then par else -1.

Definition put_arena (R : lxp_runtime) (r : Z) (a : lxp_arena) : lxp_runtime :=
  set_rt_arenas R (aset (rt_arenas R) r a).

Definition lxp_vfork_snapshot (R : lxp_runtime) (par : Z) (child : lxp_ref) (sp : Z)
    : lxp_ref * lxp_runtime :=
  let parent_slot := lxp_slot_of par in
  let p := sproc R par in
  if (parent_slot <? 0) || negb (slot_in (ref_index child)) || (ref_generation child =? 0) ||
     (p_alive p =? 0)
  then (lxp_region_ref_none, R)
  else match mm_of R p with
  | None => (lxp_region_ref_none, R)
  | Some mm =>
      let pidx := ref_index (mm_region mm) in
      if negb (region_in pidx) then (lxp_region_ref_none, R)
      else match List.find (lxp_region_free R) (map Z.of_nat (seq 0 (Z.to_nat LXP_NREG))) with
      | None => (lxp_region_ref_none, R)
      | Some rsnap =>
          let pr := os_region pidx in
          let dlen := u32 (p_stack_lo p - pr) in
          let sr := os_region rsnap in
          if (sp <? p_stack_lo p) || (sp >? mm_region_hi mm) then (lxp_region_ref_none, R)
          else
            let '(snapshot, R) := lxp_region_reserve R rsnap child in
            if ref_index snapshot <? 0 then (snapshot, R)
            else
              let m := snapshot_copy_span (rt_mem R) sr pr dlen in
              let slen := u32 (mm_region_hi mm - sp) in
              let m := snapshot_copy_span m (sr + (sp - pr)) sp slen in
              let m := match os_dyn_pool with
                       | Some dyn_pool =>
                           if negb (mm_is_dynamic mm =? 0)
                           then let '(pdp, ds) := dyn_pool pidx in
                                snapshot_copy_span m (dyn_pool rsnap).1 pdp ds
                           else m
                       | None => m
                       end in
              let R := set_rt_mem R m in
              let R := put_arena R rsnap (aget arena_zero (rt_arenas R) pidx) in
              (snapshot, set_rt_vfork_guard R
                 (aset (rt_vfork_guard R) (ref_index child)
                    (mk_guard (lxp_slot_ref_at R parent_slot) (mm_region mm) snapshot)))
      end
  end.

Definition lxp_vfork_restore (R : lxp_runtime) (par : Z) (snapshot child : lxp_ref) (sp : Z)
    : Z * lxp_runtime :=
  if negb (lxp_slot_ref_is_current R child) then (-1, R)
  else
    let guard := guard_at R (ref_index child) in
    let parent_slot := lxp_slot_of par in
    let rsnap := ref_index snapshot in
    let p := sproc R par in
    if (parent_slot <? 0) || (p_alive p =? 0) then (-1, R)
    else match mm_of R p with
    | None => (-1, R)
    | Some mm =>
        let g := region_at R rsnap in
        if negb (lxp_slot_ref_equal (lxp_slot_ref_at R parent_slot) (gd_parent guard)) ||
           negb (lxp_region_ref_equal (mm_region mm) (gd_parent_region guard)) ||
           negb (lxp_region_ref_equal snapshot (gd_snapshot guard)) || negb (region_in rsnap) ||
           negb (lxp_slot_ref_equal (rg_lease_owner g) child) || negb (rg_refs g =? 1) ||
           negb (rg_generation g =? ref_generation snapshot)
        then (-1, R)
        else
          let pidx := ref_index (mm_region mm) in
          let pr := os_region pidx in
          let dlen := u32 (p_stack_lo p - pr) in
          let sr := os_region rsnap in
          let m := restore_copy_span (rt_mem R) pr sr dlen in
          let m := if (sp >=? p_stack_lo p) && (sp <=? mm_region_hi mm)
                   then let slen := u32 (mm_region_hi mm - sp) in
                        restore_copy_span m sp (sr + (sp - pr)) slen
                   else m in
          let m := match os_dyn_pool with
                   | Some dyn_pool =>
                       if negb (mm_is_dynamic mm =? 0)
                       then let '(pdp, ds) := dyn_pool pidx in
                            restore_copy_span m pdp (dyn_pool rsnap).1 ds
                       else m
                   | None => m
                   end in
          let R := set_rt_mem R m in
          let R := put_arena R pidx (aget arena_zero (rt_arenas R) rsnap) in
          (0, lxp_vfork_guard_reset R (ref_index child))
    end.

End Snapshot.

Definition vfork_parent_is_current (R : lxp_runtime) (child : lxp_ref) : bool :=
  if negb (lxp_slot_ref_is_current R child) then false
  else let guard := guard_at R (ref_index child) in
       let ps := ref_index (gd_parent guard) in
       lxp_slot_ref_is_current R (gd_parent guard) &&
       match mm_of R (sproc R ps) with
       | Some mm => lxp_region_ref_equal (mm_region mm) (gd_parent_region guard)
       | None => false
       end.

(** The child task is the one in the child's slot. *)
Definition lxp_vfork_contain_stale (R : lxp_runtime) (child_ref : lxp_ref) : lxp_runtime :=
  let c := ref_index child_ref in
  let guard := guard_at R c in
  let R := if vfork_parent_is_current R child_ref
           then lxp_coordinator_exit_slot R (ref_index (gd_parent guard)) 0 127
                  LXP_EXIT_REASON_STATE_CORRUPTION 0
           else R in
  let R := if ref_index (gd_snapshot guard) >=? 0
           then (lxp_region_release_if_owned R (gd_snapshot guard) child_ref).2 else R in
  let R := lxp_vfork_guard_reset R c in
  let R := put_proc R c (set_p_vfork_parent (sproc R c) lxp_slot_ref_none) in
  let R := put_proc R c (set_p_snapshot (sproc R c) lxp_region_ref_none) in
  let R := if bool_decide (intent_kind (p_intent (sproc R c)) = IK_EXEC)
           then put_proc R c (lxp_intent_complete (sproc R c) IK_EXEC).2 else R in
  lxp_coordinator_exit_slot R c 0 127 LXP_EXIT_REASON_STATE_CORRUPTION 0.
