(* ===== verification/RegionProps.v ===== *)
(** * Properties of program regions

    Region capabilities against a counting specification, the finality of a retired
    capability, and the isolation a vfork snapshot gives the suspended parent. *)

From S2P Require Import Prelude Config Proc Pool Fd Guest Wait Arena Process Runtime Event Region.
Local Open Scope Z_scope.

(** ** The specification: how many references a capability has *)

Definition holders (R : lxp_runtime) (ref : lxp_ref) : Z :=
  if region_ref_live R ref then rg_refs (region_at R (ref_index ref)) else 0.

Definition region_wf (g : lxp_region_runtime) : Prop :=
  0 <= rg_refs g <= LXP_NSLOT /\ 0 <= rg_generation g < 2 ^ 32 /\
  (0 <= ref_index (rg_lease_owner g) -> rg_refs g = 1) /\ (rg_generation g = 0 -> rg_refs g = 0).

Definition region_inv (R : lxp_runtime) : Prop :=
  alen (rt_regions R) = LXP_NREG /\ Forall region_wf (rt_regions R).

Inductive region_op :=
  | RgReserve (r : Z) (owner : lxp_ref)
  | RgCommit (ref owner : lxp_ref)
  | RgGet (ref : lxp_ref)
  | RgPut (ref : lxp_ref)
  | RgRelease (ref owner : lxp_ref)
  | RgReassign (ref old_owner new_owner : lxp_ref).

(** The runtime after an operation, and the capability it added or dropped a reference of. *)
Definition region_run (op : region_op) (R : lxp_runtime) : lxp_runtime * option (lxp_ref * Z) :=
  match op with
  | RgReserve r owner => let '(ref, R') := lxp_region_reserve R r owner in
                         (R', if ref_index ref <? 0 then None else Some (ref, 1))
  | RgCommit ref owner => ((lxp_region_commit_address_space R ref owner).2, None)
  | RgGet ref => let '(rc, R') := lxp_region_get R ref in
                 (R', if rc =? 0 then Some (ref, 1) else None)
  | RgPut ref => let '(rc, R') := lxp_region_put R ref in
                 (R', if rc =? 0 then Some (ref, -1) else None)
  | RgRelease ref owner => let '(rc, R') := lxp_region_release_if_owned R ref owner in
                           (R', if rc =? 0 then Some (ref, -1) else None)
  | RgReassign ref o n => ((lxp_region_lease_reassign R ref o n).2, None)
  end.

(** Counting: one capability's count moves by the step's amount. *)
Definition counted (R R' : lxp_runtime) (e : option (lxp_ref * Z)) : Prop :=
  forall ref, holders R' ref =
    holders R ref + match e with Some (r, d) => if decide (ref = r) then d else 0 | None => 0 end.

(** ** Lemmas *)

Lemma region_in_spec r : region_in r = true <-> 0 <= r < LXP_NREG.
Proof. unfold region_in. lia. Qed.

Lemma slot_in_spec s : slot_in s = true <-> 0 <= s < LXP_NSLOT.
Proof. unfold slot_in. lia. Qed.

Lemma region_at_wf R r : region_inv R -> 0 <= r < LXP_NREG -> region_wf (region_at R r).
Proof. intros [Hl Hf] Hr. apply (Forall_aget region_wf region_zero); [done|lia]. Qed.

Lemma region_inv_put R r g : region_inv R -> region_wf g -> region_inv (put_region R r g).
Proof. intros [Hl Hf] Hg. split; cbn; [by rewrite alen_aset|by apply Forall_aset]. Qed.

Lemma region_at_put R r g r' : region_inv R -> 0 <= r < LXP_NREG -> 0 <= r' ->
  region_at (put_region R r g) r' = if decide (r = r') then g else region_at R r'.
Proof. intros [Hl _] Hr Hr'. unfold region_at, put_region, set_rt_regions. cbn [rt_regions]. by rewrite aget_aset by lia. Qed.

Lemma generation_next_range g : 0 <= g < 2 ^ 32 -> 1 <= generation_next g < 2 ^ 32 /\ generation_next g <> g.
Proof.
  intros Hg. unfold generation_next. destruct (Z.eqb_spec (u32 (g + 1)) 0) as [E|E]; unfold u32 in *; lia.
Qed.

(** What replacing one region's record does to the counts. *)
Lemma counted_put R r g d rf :
  rf = mk_ref r (rg_generation (region_at R r)) -> region_inv R -> 0 <= r < LXP_NREG ->
  let old := region_at R r in
  0 <= rg_generation old -> 0 <= rg_generation g ->
  (rg_generation g = rg_generation old -> rg_refs g = rg_refs old + d) ->
  (rg_generation g <> rg_generation old -> rg_refs old + d = 0 /\ rg_refs g = 0) ->
  rg_generation old <> 0 ->
  counted R (put_region R r g) (Some (rf, d)).
Proof.
  intros -> Hi Hr old Hg0 Hg1 Hs Hn Hnz [i gen]. unfold holders, region_ref_live. cbn [ref_index ref_generation].
  destruct (region_in i) eqn:Ei; cbn [andb].
  2:{ destruct (decide _) as [[= -> ->]|]; [|lia]. apply region_in_spec in Hr. congruence. }
  apply region_in_spec in Ei. rewrite region_at_put by (try done; lia).
  destruct (decide (r = i)) as [<-|Hne].
  2:{ destruct (decide _) as [[= -> ->]|]; [done|lia]. }
  fold old. destruct (Z.eqb_spec gen 0) as [->|Hz]; cbn [negb andb].
  { destruct (decide _) as [[= E]|]; [lia|lia]. }
  destruct (decide (mk_ref r gen = mk_ref r (rg_generation old))) as [[= ->]|Hd].
  - rewrite Z.eqb_refl. destruct (Z.eqb_spec (rg_generation g) (rg_generation old)) as [E|E].
    + by apply Hs.
    + by destruct (Hn E).
  - assert (rg_generation old <> gen) as Hx by congruence.
    destruct (Z.eqb_spec (rg_generation old) gen); [done|].
    destruct (Z.eqb_spec (rg_generation g) gen) as [E|E]; [|lia].
    destruct (Hn ltac:(congruence)). lia.
Qed.

Lemma counted_refl R : counted R R None.
Proof. intros ref. lia. Qed.

(** A step that keeps every region's count and generation. *)
Lemma counted_owner R r o :
  region_inv R -> 0 <= r < LXP_NREG -> counted R (put_region R r (set_rg_owner (region_at R r) o)) None.
Proof.
  intros Hi Hr [i gen]. unfold holders, region_ref_live. cbn [ref_index ref_generation].
  destruct (region_in i) eqn:Ei; cbn [andb]; [|lia].
  apply region_in_spec in Ei. rewrite region_at_put by (try done; lia).
  destruct (decide (r = i)) as [<-|]; cbn; lia.
Qed.

Definition step_ok (R R' : lxp_runtime) (e : option (lxp_ref * Z)) : Prop :=
  region_inv R' /\ counted R R' e /\
  forall r, 0 <= r < LXP_NREG -> rg_generation (region_at R' r) = rg_generation (region_at R r) \/
                                 rg_generation (region_at R' r) = generation_next (rg_generation (region_at R r)).

Lemma step_ok_refl R : region_inv R -> step_ok R R None.
Proof. intros H. split; [done|]. split; [apply counted_refl|]. auto. Qed.

Lemma step_ok_put R r g e :
  region_inv R -> 0 <= r < LXP_NREG -> region_wf g -> counted R (put_region R r g) e ->
  (rg_generation g = rg_generation (region_at R r) \/
   rg_generation g = generation_next (rg_generation (region_at R r))) ->
  step_ok R (put_region R r g) e.
Proof.
  intros Hi Hr Hg Hc Hgen. split; [by apply region_inv_put|]. split; [done|].
  intros i Hi'. rewrite region_at_put by (try done; lia). destruct (decide (r = i)) as [<-|]; auto.
Qed.

Lemma reserve_step R r owner : region_inv R ->
  let '(ref, R') := lxp_region_reserve R r owner in
  step_ok R R' (if ref_index ref <? 0 then None else Some (ref, 1)) /\
  (0 <= ref_index ref -> holders R ref = 0 /\ ref_index ref = r /\
     ref_generation ref = generation_next (rg_generation (region_at R r))).
Proof.
  intros Hi. unfold lxp_region_reserve. destruct (_ || _) eqn:E.
  { cbn. split; [by apply step_ok_refl|lia]. }
  rewrite !orb_false_iff, !negb_false_iff in E. destruct E as ((((Hr%region_in_spec & _) & _) & _) & E0%Z.eqb_eq).
  pose proof (region_at_wf R r Hi Hr) as (H1 & H2 & H3 & H4).
  destruct (generation_next_range _ H2) as [Hn Hne]. cbn [ref_index ref_generation].
  destruct (Z.ltb_spec r 0); [lia|]. set (g := region_generation_next _).
  assert (Hz : holders R (mk_ref r (rg_generation g)) = 0).
  { unfold holders, region_ref_live. cbn. destruct (Z.eqb_spec (rg_generation (region_at R r))
      (generation_next (rg_generation (region_at R r)))); [congruence|]. by rewrite andb_false_r. }
  split; [|done]. apply step_ok_put; auto.
  - unfold region_wf. cbn. unfold LXP_NSLOT, LXP_NREG. lia.
  - intros ref. destruct (decide _) as [->|Hd].
    + rewrite Hz. unfold holders, region_ref_live. cbn [ref_index ref_generation].
      rewrite region_at_put, decide_True by (done || lia). apply region_in_spec in Hr. rewrite Hr, Z.eqb_refl.
      cbn. destruct (Z.eqb_spec (generation_next (rg_generation (region_at R r))) 0); [lia|done].
    + destruct ref as [i gen]. unfold holders, region_ref_live. cbn [ref_index ref_generation].
      destruct (region_in i) eqn:Ei; cbn [andb]; [|lia]. apply region_in_spec in Ei.
      rewrite region_at_put by (done || lia). destruct (decide (r = i)) as [<-|]; [|lia].
      rewrite E0. destruct (Z.eqb_spec (rg_generation g) gen) as [<-|]; [done|].
      rewrite andb_false_r. destruct (_ && _); lia.
Qed.

(** The guard shared by the operations on a capability. *)
Lemma live_guard R ref :
  negb (region_in (ref_index ref)) || (ref_generation ref =? 0) ||
  negb (rg_generation (region_at R (ref_index ref)) =? ref_generation ref) = negb (region_ref_live R ref).
Proof. unfold region_ref_live. by rewrite !negb_andb, negb_involutive. Qed.

Lemma region_live_facts R ref : region_inv R -> region_ref_live R ref = true ->
  0 <= ref_index ref < LXP_NREG /\ ref_generation ref <> 0 /\
  rg_generation (region_at R (ref_index ref)) = ref_generation ref /\
  holders R ref = rg_refs (region_at R (ref_index ref)) /\
  ref = mk_ref (ref_index ref) (rg_generation (region_at R (ref_index ref))) /\
  region_wf (region_at R (ref_index ref)).
Proof.
  intros Hi Hl. pose proof Hl as Hl'. unfold region_ref_live in Hl'.
  rewrite !andb_true_iff, negb_true_iff, Z.eqb_neq, Z.eqb_eq in Hl'. destruct Hl' as ((Hr%region_in_spec & Hz) & Hg).
  unfold holders. rewrite Hl. split; [done|]. split; [done|]. split; [done|]. split; [done|].
  split; [|by apply region_at_wf]. rewrite Hg. by destruct ref.
Qed.

Lemma get_step R ref : region_inv R ->
  let '(rc, R') := lxp_region_get R ref in
  step_ok R R' (if rc =? 0 then Some (ref, 1) else None) /\
  (rc = 0 <-> 0 < holders R ref < LXP_NSLOT /\ ref_index (rg_lease_owner (region_at R (ref_index ref))) < 0).
Proof.
  intros Hi. unfold lxp_region_get. rewrite live_guard.
  destruct (region_ref_live R ref) eqn:El; cbn [negb orb].
  2:{ cbn. split; [by apply step_ok_refl|]. unfold holders. rewrite El. lia. }
  destruct (region_live_facts R ref Hi El) as (Hr & Hz & Hg & Hh & He & Hwf). rewrite Hh.
  destruct (_ || _) eqn:E; change (-1 =? 0) with false; cbn [Z.eqb].
  { split; [by apply step_ok_refl|]. destruct Hwf as (? & _). lia. }
  destruct Hwf as (H1 & H2 & H3 & H4). split; [|lia]. apply step_ok_put; auto.
  - unfold region_wf. cbn [rg_refs rg_generation rg_lease_owner set_rg_refs]. lia.
  - apply counted_put; cbn [rg_refs rg_generation set_rg_refs]; auto; lia.
Qed.

Lemma put_step R ref : region_inv R ->
  let '(rc, R') := lxp_region_put R ref in
  step_ok R R' (if rc =? 0 then Some (ref, -1) else None) /\ (rc = 0 <-> 0 < holders R ref) /\
  (rc <> 0 -> R' = R /\ rc = -1) /\
  (holders R ref = 1 -> rg_generation (region_at R' (ref_index ref)) =
     generation_next (ref_generation ref)).
Proof.
  intros Hi. unfold lxp_region_put. rewrite live_guard.
  destruct (region_ref_live R ref) eqn:El; cbn [negb orb].
  2:{ cbn. split; [by apply step_ok_refl|]. unfold holders. rewrite El. split_and!; lia || done. }
  destruct (region_live_facts R ref Hi El) as (Hr & Hz & Hg & Hh & He & Hwf). rewrite Hh.
  pose proof Hwf as (H1 & H2 & H3 & H4).
  destruct (Z.eqb_spec (rg_refs (region_at R (ref_index ref))) 0); cbn [Z.eqb].
  { split; [by apply step_ok_refl|]. split_and!; lia || done. }
  destruct (generation_next_range _ H2) as [Hn Hne].
  split; [|split; [lia|split; [lia|]]].
  - apply step_ok_put; auto.
    + unfold region_wf. cbn [rg_refs set_rg_refs].
      destruct (Z.eqb_spec (rg_refs (region_at R (ref_index ref)) - 1) 0);
        cbn [rg_refs rg_generation rg_lease_owner set_rg_refs set_rg_owner region_generation_next set_rg_generation lxp_slot_ref_none lxp_slot_ref ref_index]; lia.
    + apply counted_put; auto; try lia; cbn [rg_refs set_rg_refs];
        destruct (Z.eqb_spec (rg_refs (region_at R (ref_index ref)) - 1) 0); cbn; lia.
    + cbn [rg_refs set_rg_refs].
      destruct (Z.eqb_spec (rg_refs (region_at R (ref_index ref)) - 1) 0); cbn; auto.
  - intros H. rewrite region_at_put, decide_True by (done || lia). cbn [rg_refs set_rg_refs].
    rewrite H. change (1 - 1 =? 0) with true. cbn [rg_generation region_generation_next set_rg_generation set_rg_owner set_rg_refs].
    by rewrite Hg.
Qed.

Lemma commit_step R ref owner : region_inv R ->
  let '(rc, R') := lxp_region_commit_address_space R ref owner in step_ok R R' None.
Proof.
  intros Hi. unfold lxp_region_commit_address_space. rewrite live_guard.
  destruct (region_ref_live R ref) eqn:El; cbn [negb orb]; [|by apply step_ok_refl].
  destruct (region_live_facts R ref Hi El) as (Hr & Hz & Hg & Hh & He & Hwf).
  destruct (_ || _); [by apply step_ok_refl|]. destruct Hwf as (H1 & H2 & H3 & H4).
  apply step_ok_put; auto; [unfold region_wf; cbn; split_and!; auto; lia|by apply counted_owner].
Qed.

Lemma reassign_step R ref o n : region_inv R ->
  let '(rc, R') := lxp_region_lease_reassign R ref o n in step_ok R R' None.
Proof.
  intros Hi. unfold lxp_region_lease_reassign. destruct (lxp_region_lease_matches R ref o 1) eqn:E; [|by apply step_ok_refl].
  unfold lxp_region_lease_matches in E. rewrite !andb_true_iff, !Z.eqb_eq in E.
  destruct E as ((((Hr%region_in_spec & _) & _) & E1) & _). cbn [negb].
  pose proof (region_at_wf R _ Hi Hr) as (H1 & H2 & H3 & H4).
  apply step_ok_put; auto; [unfold region_wf; cbn; split_and!; auto; lia|by apply counted_owner].
Qed.

Lemma region_run_step op R : region_inv R -> step_ok R (region_run op R).1 (region_run op R).2.
Proof.
  intros Hi. destruct op as [r o|ref o|ref|ref|ref o|ref o n]; unfold region_run.
  - pose proof (reserve_step R r o Hi) as H. by destruct (lxp_region_reserve R r o), H.
  - pose proof (commit_step R ref o Hi) as H. by destruct (lxp_region_commit_address_space R ref o).
  - pose proof (get_step R ref Hi) as H. by destruct (lxp_region_get R ref), H.
  - pose proof (put_step R ref Hi) as H. by destruct (lxp_region_put R ref), H.
  - unfold lxp_region_release_if_owned. destruct (_ || _); [by apply step_ok_refl|].
    pose proof (put_step R ref Hi) as H. by destruct (lxp_region_put R ref), H.
  - pose proof (reassign_step R ref o n Hi) as H. by destruct (lxp_region_lease_reassign R ref o n).
Qed.

(** ** Capabilities are counted *)

(** Regions are counted capabilities.  Every operation keeps the accounting invariant
    and moves the count of one capability by one, or none: reserve makes a capability nobody
    held, get succeeds exactly on a held, committed capability below the slot limit, put
    exactly on a held one, and a refused operation leaves the runtime as it was. *)
Theorem region_capabilities_counted op R :
  region_inv R ->
  let '(R', e) := region_run op R in
  region_inv R' /\ counted R R' e /\
  match op with
  | RgReserve r _ => match e with
                     | Some (ref, d) => ref_index ref = r /\ holders R ref = 0 /\ holders R' ref = 1
                     | None => R' = R
                     end
  | RgGet ref => (e = Some (ref, 1) <-> 0 < holders R ref < LXP_NSLOT /\
                    ref_index (rg_lease_owner (region_at R (ref_index ref))) < 0) /\
                 (e = None -> R' = R)
  | RgPut ref => (e = Some (ref, -1) <-> 0 < holders R ref) /\ (e = None -> R' = R)
  | RgRelease _ _ => e = None -> R' = R
  | _ => e = None
  end.
Proof.
  intros Hi. pose proof (region_run_step op R Hi) as (H1 & H2 & _).
  destruct op as [r o|ref o|ref|ref|ref o|ref o n]; unfold region_run in *.
  - pose proof (reserve_step R r o Hi) as H. destruct (lxp_region_reserve R r o) as [ref R'] eqn:E.
    destruct H as [(_ & Hc & _) Hr]. cbn [fst snd] in *. split; [done|]. split; [done|].
    destruct (Z.ltb_spec (ref_index ref) 0) as [Hneg|Hpos].
    + unfold lxp_region_reserve in E. destruct (_ || _) eqn:E'; [congruence|]. injection E as <- <-.
      rewrite !orb_false_iff, !negb_false_iff in E'. destruct E' as ((((Hr'%region_in_spec & _) & _) & _) & _).
      cbn in Hneg. lia.
    + destruct (Hr Hpos) as (Hz & Hidx & _). split; [done|]. split; [done|].
      rewrite (Hc ref), Hz, decide_True by done. done.
  - by cbn [fst snd] in *.
  - pose proof (get_step R ref Hi) as H. destruct (lxp_region_get R ref) as [rc R'] eqn:E.
    destruct H as [_ Hr]. cbn [fst snd] in *. split; [done|]. split; [done|].
    split; [rewrite <- Hr; destruct (Z.eqb_spec rc 0); naive_solver|].
    unfold lxp_region_get in E. destruct (_ || _) in E; injection E as <- <-; done.
  - pose proof (put_step R ref Hi) as H. destruct (lxp_region_put R ref) as [rc R'] eqn:E.
    destruct H as (_ & Hr & Hn & _). cbn [fst snd] in *. split; [done|]. split; [done|].
    split; [rewrite <- Hr; destruct (Z.eqb_spec rc 0); naive_solver|].
    destruct (Z.eqb_spec rc 0); [done|]. intros _. by apply Hn.
  - unfold lxp_region_release_if_owned in *. destruct (_ || _); [done|].
    pose proof (put_step R ref Hi) as H. destruct (lxp_region_put R ref) as [rc R'] eqn:E.
    destruct H as (_ & Hr & Hn & _). cbn [fst snd] in *. split; [done|]. split; [done|].
    destruct (Z.eqb_spec rc 0); [done|]. intros _. by apply Hn.
  - by cbn [fst snd] in *.
Qed.

Lemma demo_rt_inv : region_inv demo_rt.
Proof. split; [reflexivity|]. repeat constructor; vm_compute; intuition congruence. Qed.

Lemma region_capabilities_counted_witness :
  region_inv demo_rt /\ (region_run (RgReserve 1 (mk_ref 0 7)) demo_rt).2 = Some (mk_ref 1 1, 1) /\
  holders (region_run (RgReserve 1 (mk_ref 0 7)) demo_rt).1 (mk_ref 1 1) = 1.
Proof.
  split; [exact demo_rt_inv|].
  pose proof (region_capabilities_counted (RgReserve 1 (mk_ref 0 7)) demo_rt demo_rt_inv) as H.
  assert (E : (region_run (RgReserve 1 (mk_ref 0 7)) demo_rt).2 = Some (mk_ref 1 1, 1)) by (vm_compute; reflexivity).
  destruct (region_run _ _) as [R' e]. cbn [fst snd] in *. subst e. split; [done|].
  by destruct H as (_ & _ & _ & _ & H).
Defined.

(** ** A retired capability stays dead *)

Definition region_run_all (ops : list region_op) (R : lxp_runtime) : lxp_runtime :=
  fold_left (fun R op => (region_run op R).1) ops R.

(** The generation [k] advances after [g]. *)
Definition gen_after (g k : Z) : Z := (g - 1 + k) mod (2 ^ 32 - 1) + 1.

Lemma gen_after_next g k : 1 <= g < 2 ^ 32 -> 0 <= k -> generation_next (gen_after g k) = gen_after g (k + 1).
Proof.
  intros Hg Hk. unfold gen_after, generation_next, u32.
  pose proof (Z.mod_pos_bound (g - 1 + k) (2 ^ 32 - 1) ltac:(lia)) as Hb.
  replace ((g - 1 + (k + 1)) mod (2 ^ 32 - 1)) with (((g - 1 + k) mod (2 ^ 32 - 1) + 1) mod (2 ^ 32 - 1)).
  2:{ rewrite Zplus_mod_idemp_l. f_equal. lia. }
  set (x := (g - 1 + k) mod (2 ^ 32 - 1)) in *.
  destruct (decide (x = 2 ^ 32 - 2)) as [->|]; [reflexivity|].
  rewrite (Z.mod_small (x + 1) (2 ^ 32 - 1)), (Z.mod_small (x + 1 + 1)) by lia.
  destruct (Z.eqb_spec (x + 1 + 1) 0); lia.
Qed.

Lemma gen_after_fresh g k : 1 <= g < 2 ^ 32 -> 1 <= k < 2 ^ 32 - 1 -> gen_after g k <> g.
Proof.
  intros Hg Hk. unfold gen_after.
  pose proof (Z.div_mod (g - 1 + k) (2 ^ 32 - 1) ltac:(lia)).
  pose proof (Z.mod_pos_bound (g - 1 + k) (2 ^ 32 - 1) ltac:(lia)).
  set (q := (g - 1 + k) / (2 ^ 32 - 1)) in *. set (x := (g - 1 + k) mod (2 ^ 32 - 1)) in *.
  intros E. assert (k = (2 ^ 32 - 1) * q) as Hq by lia.
  assert (q <= 0 \/ 1 <= q) as [|] by lia; nia.
Qed.

Lemma region_run_all_gen ops R r g k :
  region_inv R -> 0 <= r < LXP_NREG -> 1 <= g < 2 ^ 32 -> 0 <= k ->
  rg_generation (region_at R r) = gen_after g k ->
  region_inv (region_run_all ops R) /\
  exists k', k <= k' <= k + alen ops /\ rg_generation (region_at (region_run_all ops R) r) = gen_after g k'.
Proof.
  intros Hi Hr Hg. revert R k Hi. unfold alen. induction ops as [|op ops IH]; intros R k Hi Hk E.
  { split; [done|]. exists k. split; [simpl; lia|done]. }
  cbn [region_run_all fold_left length]. destruct (region_run_step op R Hi) as (H1 & _ & H3).
  destruct (H3 r Hr) as [H|H].
  - destruct (IH _ k H1 Hk ltac:(congruence)) as [Hx (k' & Hk' & Hy)]. split; [done|]. exists k'.
    split; [lia|done].
  - rewrite E, gen_after_next in H by done.
    destruct (IH _ (k + 1) H1 ltac:(lia) H) as [Hx (k' & Hk' & Hy)]. split; [done|]. exists k'.
    split; [lia|done].
Qed.

Lemma stale_refused R ref : region_ref_live R ref = false ->
  lxp_region_get R ref = (-1, R) /\ lxp_region_put R ref = (-1, R) /\
  (forall o, lxp_region_commit_address_space R ref o = (-1, R)).
Proof.
  intros H. unfold lxp_region_get, lxp_region_put, lxp_region_commit_address_space.
  rewrite live_guard, H. done.
Qed.

(** C7: When the last reference of a region capability is put, the capability is dead for
    good: whatever region operations follow, up to the 2^32 - 3 of them it takes the
    32-bit generation to come around, it counts no reference and get, put and commit
    through it are refused without effect, even after the region has new owners. *)
Theorem region_retired_final R ref ops :
  region_inv R -> holders R ref = 1 -> alen ops < 2 ^ 32 - 2 ->
  let R1 := (lxp_region_put R ref).2 in
  let R2 := region_run_all ops R1 in
  (lxp_region_put R ref).1 = 0 /\ region_inv R2 /\ holders R2 ref = 0 /\
  lxp_region_get R2 ref = (-1, R2) /\ lxp_region_put R2 ref = (-1, R2) /\
  (forall o, lxp_region_commit_address_space R2 ref o = (-1, R2)).
Proof.
  intros Hi Hh Hlen. pose proof (put_step R ref Hi) as H.
  assert (El : region_ref_live R ref = true).
  { unfold holders in Hh. by destruct (region_ref_live R ref). }
  destruct (region_live_facts R ref Hi El) as (Hr & Hz & Hg & _ & _ & (_ & Hgr & _)).
  destruct (lxp_region_put R ref) as [rc R1]. destruct H as ((Hi1 & _) & Hrc & _ & Hgen). cbn [fst snd].
  rewrite Hg in Hgr. assert (Hgr' : 1 <= ref_generation ref < 2 ^ 32) by lia.
  assert (Hn : rg_generation (region_at R1 (ref_index ref)) = gen_after (ref_generation ref) 1).
  { rewrite (Hgen Hh). rewrite <- (gen_after_next _ 0) by lia. f_equal. unfold gen_after.
    rewrite Z.mod_small by lia. lia. }
  destruct (region_run_all_gen ops R1 _ _ 1 Hi1 Hr Hgr' ltac:(lia) Hn) as [Hi2 (k & Hk & Hk2)].
  assert (Hd : region_ref_live (region_run_all ops R1) ref = false).
  { unfold region_ref_live. rewrite Hk2.
    destruct (Z.eqb_spec (gen_after (ref_generation ref) k) (ref_generation ref)) as [E|];
      [|by rewrite andb_false_r].
    exfalso. apply (gen_after_fresh (ref_generation ref) k); [done|lia|done]. }
  split; [apply Hrc; lia|]. split; [done|]. split; [unfold holders; by rewrite Hd|].
  by apply stale_refused.
Qed.

Lemma region_retired_final_witness :
  let R1 := (lxp_region_put demo_rt (mk_ref 0 3)).2 in
  let R2 := region_run_all [RgReserve 0 (mk_ref 0 7)] R1 in
  holders R2 (mk_ref 0 3) = 0 /\ holders R2 (mk_ref 0 5) = 1.
Proof.
  intros R1 R2.
  destruct (region_retired_final demo_rt (mk_ref 0 3) [RgReserve 0 (mk_ref 0 7)] demo_rt_inv
              ltac:(vm_compute; reflexivity) ltac:(vm_compute; reflexivity)) as (_ & _ & H & _).
  split; [exact H|vm_compute; reflexivity].
Defined.
