(* ===== verification/VforkProps.v ===== *)
(** * A vfork child cannot damage its parent

    The child of a vfork runs in the parent's own memory until it execs or exits.  The
    snapshot taken when it starts and the restore before the parent resumes make its
    writes invisible. *)

From S2P Require Import Prelude Config Proc Pool Fd Guest Wait Arena Process Runtime Event Region RegionProps.
Local Open Scope Z_scope.

(** Two spans share no byte. *)
Definition apart (a n b k : Z) : Prop := a + n <= b \/ b + k <= a.

Lemma load8_copy_in m dst src len a :
  dst <= a < dst + len -> load8 (copy_span m dst src len) a = load8 m (src + (a - dst)).
Proof.
  intros H. unfold copy_span. set (bs := mem_read m src (Z.to_nat len)).
  assert (Hl : Z.of_nat (length bs) = len) by (unfold bs; rewrite length_mem_read; lia).
  unfold load8 at 1. rewrite mem_write_in by lia. unfold bs. rewrite nth_mem_read by lia.
  unfold load8. rewrite u8_idemp. do 2 f_equal. lia.
Qed.

Lemma load8_copy_out m dst src len a :
  0 <= len -> a < dst \/ dst + len <= a -> load8 (copy_span m dst src len) a = load8 m a.
Proof. intros H0 H. apply load8_write_out. rewrite length_mem_read. lia. Qed.

Section Vfork.
Context (os_region : Z -> Z) (os_dyn_pool : option (Z -> Z * Z)).

(** The dynamic pool of an address space in region [r]: base and size, empty when the
    address space has none. *)
Definition pool_span (mm : lxp_mm) (r : Z) : Z * Z :=
  match os_dyn_pool with
  | Some f => if negb (mm_is_dynamic mm =? 0) then f r else (0, 0)
  | None => (0, 0)
  end.

(** The port's storage for two regions: the address space [mm] occupies its region from
    the base to [region_hi], and the two regions and their pools do not overlap. *)
Definition storage_apart (p : lxp_proc) (mm : lxp_mm) (rsnap : Z) : Prop :=
  let pr := os_region (ref_index (mm_region mm)) in
  let n := mm_region_hi mm - pr in
  let sr := os_region rsnap in
  let '(pp, ds) := pool_span mm (ref_index (mm_region mm)) in
  let sp := (pool_span mm rsnap).1 in
  pr <= p_stack_lo p <= mm_region_hi mm /\ n < 2 ^ 32 /\ 0 <= ds /\
  apart pr n sr n /\ apart pr n pp ds /\ apart pr n sp ds /\ apart sr n pp ds /\
  apart sr n sp ds /\ apart pp ds sp ds.

(** The bytes of the parent that a snapshot covers. *)
Definition parent_byte (p : lxp_proc) (mm : lxp_mm) (sp a : Z) : Prop :=
  let pr := os_region (ref_index (mm_region mm)) in
  let '(pp, ds) := pool_span mm (ref_index (mm_region mm)) in
  pr <= a < p_stack_lo p \/ sp <= a < mm_region_hi mm \/ pp <= a < pp + ds.

(** The bytes the spare region keeps them in. *)
Definition spare_byte (mm : lxp_mm) (rsnap a : Z) : Prop :=
  let pr := os_region (ref_index (mm_region mm)) in
  let sr := os_region rsnap in
  let ds := (pool_span mm (ref_index (mm_region mm))).2 in
  sr <= a < sr + (mm_region_hi mm - pr) \/
  (pool_span mm rsnap).1 <= a < (pool_span mm rsnap).1 + ds.

(** The three copies, as one function of memory. *)
Definition three_copies (m : mem) (d1 s1 n1 d2 s2 n2 d3 s3 n3 : Z) : mem :=
  copy_span (copy_span (copy_span m d1 s1 n1) d2 s2 n2) d3 s3 n3.

Lemma copy_span_empty m d s x : load8 (copy_span m d s 0) x = load8 m x.
Proof. apply load8_copy_out; lia. Qed.

(** A snapshot succeeds only with a spare region reserved for the child; memory then holds
    the three copies. *)
Lemma vfork_snapshot_facts R par child sp mm :
  mm_of R (sproc R par) = Some mm ->
  let '(snap, R1) := lxp_vfork_snapshot os_region os_dyn_pool R par child sp in
  0 <= ref_index snap ->
  let p := sproc R par in
  let pidx := ref_index (mm_region mm) in
  let rsnap := ref_index snap in
  let pr := os_region pidx in
  slot_in par = true /\ slot_in (ref_index child) = true /\ region_in rsnap = true /\
  region_in pidx = true /\ p_stack_lo p <= sp <= mm_region_hi mm /\
  guard_at R1 (ref_index child) = aget guard_zero (aset (rt_vfork_guard R) (ref_index child)
     (mk_guard (mk_ref par (lxp_slot_generation R par)) (mm_region mm) snap)) (ref_index child) /\
  rt_regions R1 = aset (rt_regions R) rsnap (mk_region child 1 (ref_generation snap)) /\
  rt_arenas R1 = aset (rt_arenas R) rsnap (aget arena_zero (rt_arenas R) pidx) /\
  forall a, load8 (rt_mem R1) a = load8 (three_copies (rt_mem R)
     (os_region rsnap) pr (u32 (p_stack_lo p - pr))
     (os_region rsnap + (sp - pr)) sp (u32 (mm_region_hi mm - sp))
     (pool_span mm rsnap).1 (pool_span mm pidx).1 (pool_span mm pidx).2) a.
Proof.
  intros Em. unfold lxp_vfork_snapshot, lxp_slot_of. destruct (slot_in par) eqn:Ep; [|cbn; lia].
  destruct (_ || _) eqn:E1; [cbn; lia|]. rewrite Em.
  rewrite !orb_false_iff, !negb_false_iff in E1. destruct E1 as (((_ & Hc) & _) & _).
  destruct (region_in (ref_index (mm_region mm))) eqn:Epi; cbn [negb]; [|cbn; lia].
  destruct (List.find _ _) as [rsnap|] eqn:Ef; [|cbn; lia].
  destruct ((sp <? p_stack_lo (sproc R par)) || (sp >? mm_region_hi mm)) eqn:Es; [cbn; lia|].
  unfold lxp_region_reserve. match goal with |- context [if ?b then (lxp_region_ref_none, R) else _] => destruct b eqn:Er end; [cbn; lia|].
  rewrite !orb_false_iff, !negb_false_iff in Er. destruct Er as ((((Hr & _) & _) & _) & _).
  cbn [ref_index]. pose proof (proj1 (region_in_spec rsnap) Hr) as Hr'.
  destruct (Z.ltb_spec rsnap 0); [lia|]. intros _. cbv zeta.
  cbn [ref_index rt_regions rt_arenas rt_mem rt_vfork_guard set_rt_vfork_guard put_arena set_rt_arenas
       set_rt_mem put_region set_rt_regions ref_generation].
  split; [done|]. split; [done|]. split; [done|]. split; [done|]. split; [lia|].
  split; [unfold guard_at; cbn [rt_vfork_guard set_rt_vfork_guard]; do 3 f_equal;
          unfold lxp_slot_ref_at; rewrite Ep; reflexivity|].
  split; [reflexivity|]. split; [reflexivity|]. intros a. unfold three_copies, pool_span, snapshot_copy_span.
  destruct os_dyn_pool as [f|]; [|by rewrite copy_span_empty].
  destruct (negb (mm_is_dynamic mm =? 0)); [|by rewrite copy_span_empty].
  by destruct (f (ref_index (mm_region mm))).
Qed.

Lemma vfork_restore_facts R par snap child sp mm :
  mm_of R (sproc R par) = Some mm -> lxp_slot_ref_is_current R child = true ->
  slot_in par = true -> p_alive (sproc R par) <> 0 -> region_in (ref_index snap) = true ->
  guard_at R (ref_index child) = mk_guard (lxp_slot_ref_at R par) (mm_region mm) snap ->
  region_at R (ref_index snap) = mk_region child 1 (ref_generation snap) ->
  p_stack_lo (sproc R par) <= sp <= mm_region_hi mm ->
  let '(rc, R') := lxp_vfork_restore os_region os_dyn_pool R par snap child sp in
  let p := sproc R par in
  let pidx := ref_index (mm_region mm) in
  let rsnap := ref_index snap in
  let pr := os_region pidx in
  rc = 0 /\ rt_slots R' = rt_slots R /\ rt_regions R' = rt_regions R /\
  rt_arenas R' = aset (rt_arenas R) pidx (aget arena_zero (rt_arenas R) rsnap) /\
  rt_vfork_guard R' = aset (rt_vfork_guard R) (ref_index child)
     (mk_guard lxp_slot_ref_none lxp_region_ref_none lxp_region_ref_none) /\
  forall a, load8 (rt_mem R') a = load8 (three_copies (rt_mem R)
     pr (os_region rsnap) (u32 (p_stack_lo p - pr))
     sp (os_region rsnap + (sp - pr)) (u32 (mm_region_hi mm - sp))
     (pool_span mm pidx).1 (pool_span mm rsnap).1 (pool_span mm pidx).2) a.
Proof.
  intros Em Hc Hp Ha Hs Hg Hrg Hsp. unfold lxp_vfork_restore, lxp_slot_of. rewrite Hc, Hp, Em, Hg, Hrg.
  cbn [negb gd_parent gd_parent_region gd_snapshot rg_lease_owner rg_refs rg_generation].
  apply slot_in_spec in Hp as Hp'. destruct (Z.ltb_spec par 0); [lia|].
  destruct (Z.eqb_spec (p_alive (sproc R par)) 0); [done|]. cbn [orb].
  assert (Hrefl : forall r, lxp_slot_ref_equal r r = true) by (intros r; by apply ref_equal_eq).
  assert (Hrefl' : forall r, lxp_region_ref_equal r r = true) by (intros r; by apply ref_equal_eq).
  rewrite ?Hrefl, ?Hrefl', Hs, !Z.eqb_refl. cbn [negb orb].
  destruct (Z.geb_spec sp (p_stack_lo (sproc R par))); [|lia].
  destruct (Z.leb_spec sp (mm_region_hi mm)); [|lia]. cbn [andb].
  unfold lxp_vfork_guard_reset. cbn [rt_slots rt_regions rt_arenas rt_vfork_guard rt_mem set_rt_vfork_guard
    put_arena set_rt_arenas set_rt_mem].
  split_and!; try done. intros a. unfold three_copies, pool_span, restore_copy_span.
  destruct os_dyn_pool as [f|]; [|by rewrite copy_span_empty].
  destruct (negb (mm_is_dynamic mm =? 0)); [|by rewrite copy_span_empty].
  by destruct (f (ref_index (mm_region mm))).
Qed.

(** Copying out and back returns every parent byte, if the spare bytes survived. *)
Lemma copies_round_trip m m' p mm rsnap sp :
  storage_apart p mm rsnap -> p_stack_lo p <= sp <= mm_region_hi mm ->
  let pidx := ref_index (mm_region mm) in
  let pr := os_region pidx in
  let sr := os_region rsnap in
  let n1 := u32 (p_stack_lo p - pr) in
  let n2 := u32 (mm_region_hi mm - sp) in
  let pp := (pool_span mm pidx).1 in
  let ds := (pool_span mm pidx).2 in
  let q := (pool_span mm rsnap).1 in
  (forall a, spare_byte mm rsnap a ->
     load8 m' a = load8 (three_copies m sr pr n1 (sr + (sp - pr)) sp n2 q pp ds) a) ->
  (forall a, parent_byte p mm sp a ->
     load8 (three_copies m' pr sr n1 sp (sr + (sp - pr)) n2 pp q ds) a = load8 m a) /\
  (forall a, ~ parent_byte p mm sp a ->
     load8 (three_copies m' pr sr n1 sp (sr + (sp - pr)) n2 pp q ds) a = load8 m' a).
Proof.
  intros Hst Hsp pidx pr sr n1 n2 pp ds q. unfold storage_apart, parent_byte, spare_byte in *.
  fold pidx pr sr q in Hst |- *. unfold pp, ds in *. destruct (pool_span mm pidx) as [pp0 ds0].
  cbn [fst snd] in *. clear pp ds. destruct Hst as (Hlo & Hn & Hds & A1 & A2 & A3 & A4 & A5 & A6).
  assert (En1 : n1 = p_stack_lo p - pr) by (unfold n1; apply u32_small; lia).
  assert (En2 : n2 = mm_region_hi mm - sp) by (unfold n2; apply u32_small; lia).
  clearbody n1 n2 pr sr q. subst n1 n2. unfold three_copies, apart in *. intros Hm.
  split; intros a Ha.
  - destruct Ha as [Ha|[Ha|Ha]].
    + rewrite (load8_copy_out _ pp0), (load8_copy_out _ sp), (load8_copy_in _ pr) by lia.
      rewrite Hm by (left; lia).
      rewrite (load8_copy_out _ q), (load8_copy_out _ (sr + (sp - pr))), (load8_copy_in _ sr) by lia.
      f_equal. lia.
    + rewrite (load8_copy_out _ pp0), (load8_copy_in _ sp), (load8_copy_out _ pr) by lia.
      rewrite Hm by (left; lia).
      rewrite (load8_copy_out _ q), (load8_copy_in _ (sr + (sp - pr))), (load8_copy_out _ sr) by lia.
      f_equal. lia.
    + rewrite (load8_copy_in _ pp0), (load8_copy_out _ sp), (load8_copy_out _ pr) by lia.
      rewrite Hm by (right; lia).
      rewrite (load8_copy_in _ q), (load8_copy_out _ (sr + (sp - pr))), (load8_copy_out _ sr) by lia.
      f_equal. lia.
  - rewrite (load8_copy_out _ pp0), (load8_copy_out _ sp), (load8_copy_out _ pr) by lia. done.
Qed.

End Vfork.

(** C5: What a vfork child writes is undone before its parent resumes.  After a successful
    snapshot into a spare region whose storage is apart from the parent's, the child may change
    memory at will outside that storage, the parent's allocator record, and anything else of
    the runtime except the identities the guard recorded (the child's and the parent's slot
    generations, the parent's address space and stack base, the guard, and the snapshot's
    region and saved allocator record).  Then restore succeeds; every byte of the parent's
    data, of its stack from the resume stack pointer and of its dynamic pool is what it was at
    the vfork, and its allocator record too; no byte outside those, no slot and no region
    record changes; and the child's guard, and no other, is cleared. *)
Theorem vfork_restore_undoes_child os_region os_dyn_pool R R2 par child sp mm :
  mm_of R (sproc R par) = Some mm -> alen (rt_arenas R2) = LXP_NREG ->
  alen (rt_arenas R) = LXP_NREG -> alen (rt_regions R) = LXP_NREG ->
  alen (rt_vfork_guard R) = LXP_NSLOT ->
  let '(snap, R1) := lxp_vfork_snapshot os_region os_dyn_pool R par child sp in
  0 <= ref_index snap ->
  storage_apart os_region os_dyn_pool (sproc R par) mm (ref_index snap) ->
  (forall a, spare_byte os_region os_dyn_pool mm (ref_index snap) a ->
     load8 (rt_mem R2) a = load8 (rt_mem R1) a) ->
  lxp_slot_ref_is_current R2 child = true ->
  guard_at R2 (ref_index child) = guard_at R1 (ref_index child) ->
  region_at R2 (ref_index snap) = region_at R1 (ref_index snap) ->
  aget arena_zero (rt_arenas R2) (ref_index snap) = aget arena_zero (rt_arenas R1) (ref_index snap) ->
  lxp_slot_generation R2 par = lxp_slot_generation R par -> p_alive (sproc R2 par) <> 0 ->
  p_stack_lo (sproc R2 par) = p_stack_lo (sproc R par) -> mm_of R2 (sproc R2 par) = Some mm ->
  let '(rc, R3) := lxp_vfork_restore os_region os_dyn_pool R2 par snap child sp in
  rc = 0 /\
  (forall a, parent_byte os_region os_dyn_pool (sproc R par) mm sp a ->
     load8 (rt_mem R3) a = load8 (rt_mem R) a) /\
  (forall a, ~ parent_byte os_region os_dyn_pool (sproc R par) mm sp a ->
     load8 (rt_mem R3) a = load8 (rt_mem R2) a) /\
  aget arena_zero (rt_arenas R3) (ref_index (mm_region mm)) =
    aget arena_zero (rt_arenas R) (ref_index (mm_region mm)) /\
  rt_slots R3 = rt_slots R2 /\ rt_regions R3 = rt_regions R2 /\
  rt_vfork_guard R3 = aset (rt_vfork_guard R2) (ref_index child)
    (mk_guard lxp_slot_ref_none lxp_region_ref_none lxp_region_ref_none).
Proof.
  intros Em Hl2 Hl Hlr Hlg. pose proof (vfork_snapshot_facts os_region os_dyn_pool R par child sp mm Em) as H.
  destruct (lxp_vfork_snapshot _ _ _ _ _ _) as [snap R1]. intros Hpos Hst Hspare Hcur Hgd Hrg Har Hgen Hal Hslo Em2.
  destruct (H Hpos) as (Hp & Hc & Hs & Hpi & Hsp & G1 & G2 & G3 & G4). clear H.
  apply slot_in_spec in Hc. apply region_in_spec in Hs as Hs'. apply region_in_spec in Hpi.
  rewrite aget_aset_eq in G1 by lia. unfold region_at in Hrg at 2. rewrite G2, aget_aset_eq in Hrg by lia.
  rewrite G3, aget_aset_eq in Har by lia. rewrite G1 in Hgd.
  assert (Hrf : mk_ref par (lxp_slot_generation R par) = lxp_slot_ref_at R2 par).
  { unfold lxp_slot_ref_at. rewrite Hp. by rewrite Hgen. }
  rewrite Hrf in Hgd. rewrite <- Hslo in Hsp.
  pose proof (vfork_restore_facts os_region os_dyn_pool R2 par snap child sp mm Em2 Hcur Hp Hal Hs Hgd Hrg Hsp) as H.
  destruct (lxp_vfork_restore _ _ _ _ _ _ _) as [rc R3]. destruct H as (-> & S1 & S2 & S3 & S5 & S4).
  rewrite Hslo in *.
  destruct (copies_round_trip os_region os_dyn_pool (rt_mem R) (rt_mem R2) (sproc R par) mm (ref_index snap) sp
              Hst Hsp) as [Q1 Q2].
  { intros a Ha. rewrite Hspare by done. apply G4. }
  split; [done|]. split; [intros a Ha; rewrite S4; by apply Q1|].
  split; [intros a Ha; rewrite S4; by apply Q2|].
  split; [|by split_and!]. rewrite S3, aget_aset_eq by lia. exact Har.
Qed.

Definition demo_os_region (r : Z) : Z := 0x20000000 + 0x100000 * r.
Definition demo_os_pool (r : Z) : Z * Z := (0x30000000 + 0x1000 * r, 0x100).
Definition demo_snapshot : lxp_ref * lxp_runtime :=
  lxp_vfork_snapshot demo_os_region (Some demo_os_pool) demo_rt 0 (mk_ref 1 5) 0x2003fff0.

(** The child has run and overwritten everything but the spare storage. *)
Definition demo_trashed : lxp_runtime :=
  let R1 := demo_snapshot.2 in
  set_rt_mem (put_proc R1 1 (set_p_alive (sproc R1 1) 1))
    (fun a => if (0x20100000 <=? a) && (a <? 0x20140000) || (0x30001000 <=? a) && (a <? 0x30001100)
              then rt_mem R1 a else 0xAA).

Lemma demo_storage : storage_apart demo_os_region (Some demo_os_pool) (sproc demo_rt 0) demo_mm 1.
Proof.
  unfold storage_apart, apart. change (pool_span (Some demo_os_pool) demo_mm (ref_index (mm_region demo_mm)))
    with (0x30000000, 0x100). change ((pool_span (Some demo_os_pool) demo_mm 1).1) with 0x30001000.
  change (demo_os_region (ref_index (mm_region demo_mm))) with 0x20000000. change (demo_os_region 1) with 0x20100000.
  change (p_stack_lo (sproc demo_rt 0)) with 0x20000010. change (mm_region_hi demo_mm) with 0x20040000.
  cbv beta iota zeta. lia.
Qed.

Lemma vfork_restore_undoes_child_witness :
  demo_snapshot.1 = mk_ref 1 1 /\ load8 (rt_mem demo_trashed) 0x20000003 = 0xAA /\
  load8 (rt_mem (lxp_vfork_restore demo_os_region (Some demo_os_pool) demo_trashed 0 (mk_ref 1 1)
                   (mk_ref 1 5) 0x2003fff0).2) 0x20000003 = 3.
Proof.
  assert (E : demo_snapshot.1 = mk_ref 1 1) by (vm_compute; reflexivity).
  split; [exact E|]. split; [vm_compute; reflexivity|].
  pose proof (vfork_restore_undoes_child demo_os_region (Some demo_os_pool) demo_rt demo_trashed 0
                (mk_ref 1 5) 0x2003fff0 demo_mm ltac:(vm_compute; reflexivity) ltac:(vm_compute; reflexivity)
                ltac:(vm_compute; reflexivity) ltac:(vm_compute; reflexivity)
                ltac:(vm_compute; reflexivity)) as H.
  fold demo_snapshot in H.
  assert (Hm : forall a, spare_byte demo_os_region (Some demo_os_pool) demo_mm 1 a ->
            load8 (rt_mem demo_trashed) a = load8 (rt_mem demo_snapshot.2) a).
  { intros a Ha.
    assert (Ha' : 0x20100000 <= a < 0x20100000 + 0x40000 \/ 0x30001000 <= a < 0x30001000 + 0x100) by exact Ha.
    unfold load8, demo_trashed. cbn [rt_mem set_rt_mem].
    destruct (_ || _) eqn:Eb; [reflexivity|]. exfalso. lia. }
  assert (Hf : lxp_slot_ref_is_current demo_trashed (mk_ref 1 5) = true /\
    guard_at demo_trashed 1 = guard_at demo_snapshot.2 1 /\
    region_at demo_trashed 1 = region_at demo_snapshot.2 1 /\
    aget arena_zero (rt_arenas demo_trashed) 1 = aget arena_zero (rt_arenas demo_snapshot.2) 1 /\
    lxp_slot_generation demo_trashed 0 = lxp_slot_generation demo_rt 0 /\
    p_alive (sproc demo_trashed 0) = 1 /\
    p_stack_lo (sproc demo_trashed 0) = p_stack_lo (sproc demo_rt 0) /\
    mm_of demo_trashed (sproc demo_trashed 0) = Some demo_mm).
  { split_and!; vm_compute; reflexivity. }
  destruct Hf as (F1 & F2 & F3 & F4 & F5 & F6 & F7 & F8).
  destruct demo_snapshot as [snap R1]. cbn [fst snd] in *. subst snap.
  specialize (H ltac:(cbn; lia) demo_storage Hm F1 F2 F3 F4 F5 ltac:(lia) F7 F8).
  destruct (lxp_vfork_restore _ _ _ _ _ _ _) as [rc R3]. destruct H as (_ & H & _). cbn [snd].
  rewrite H by (left; vm_compute; split; congruence). reflexivity.
Defined.
