(* ===== verification/Lifecycle.v ===== *)
(** * Native task lifecycle (src/run/lxp_lifecycle.c)

    The one place that asks the RTOS to start, resume, park or abort the native task of a
    slot, and that publishes the resulting state.  The RTOS is a parameter: each callback of
    the port's task table takes the host's state and the runtime it may observe, and returns
    an [lxp_err_t] with the host's new state; a NULL entry is [None]. *)

From S2P Require Import Prelude Config Arena Errno Proc Guest Wait Pool Fd Process Runtime Event Region RegionProps.
Local Open Scope Z_scope.

Definition LXP_EXIT_REASON_HOST_TRANSITION : Z := 8.

(** The numeric value of a lifecycle state, reported in an exit's detail. *)
Definition slot_state_code (s : slot_lifecycle) : Z :=
  match s with
  | SLOT_FREE => 0 | SLOT_STARTING => 1 | SLOT_RUNNING => 2 | SLOT_PARKING => 3 | SLOT_PARKED => 4
  | SLOT_RESUMING => 5 | SLOT_EXITING => 6 | SLOT_DEAD => 7 | SLOT_FAILED => 8
  end.

(** The first registers of a fresh image, and the text a port must make executable
    (include/lxp/lxp_port.h). *)
Record lxp_guest_launch := mk_launch {
  gl_r : list Z; gl_xpsr : Z; gl_copied_text_base : Z; gl_copied_text_size : Z;
}.
Definition launch_zero : lxp_guest_launch := mk_launch (replicate 16 0) 0 0 0.

Inductive lxp_spawn_resume_mode := LXP_SPAWN_RESUME_START | LXP_SPAWN_RESUME_PARKED.

Inductive lxp_lifecycle_request :=
  | LXP_OUTCOME_NO_CHANGE (slot : Z)
  | LXP_OUTCOME_RESUME (slot region : Z) (ctx : lxp_resume_ctx) (r0 : Z)
  | LXP_OUTCOME_REMAIN_PARKED (slot : Z)
  | LXP_OUTCOME_LAUNCH (slot region : Z) (launch : lxp_guest_launch)
  | LXP_OUTCOME_EXIT (slot : Z).

Definition request_slot (q : lxp_lifecycle_request) : Z :=
  match q with
  | LXP_OUTCOME_NO_CHANGE s | LXP_OUTCOME_RESUME s _ _ _ | LXP_OUTCOME_REMAIN_PARKED s
  | LXP_OUTCOME_LAUNCH s _ _ | LXP_OUTCOME_EXIT s => s
  end.

(** [os_ops->task] *)
Record os_task (H : Type) := mk_os_task {
  abort_slot : option (H -> lxp_runtime -> lxp_ref -> Z * H);
  park_slot : option (H -> lxp_runtime -> lxp_ref -> Z * H);
  spawn_resume : option (H -> lxp_runtime -> lxp_ref -> Z -> lxp_spawn_resume_mode -> lxp_resume_ctx -> Z -> Z * H);
  spawn_launch : option (H -> lxp_runtime -> lxp_ref -> Z -> lxp_guest_launch -> Z * H);
}.
Arguments mk_os_task {H}.
Arguments abort_slot {H}.
Arguments park_slot {H}.
Arguments spawn_resume {H}.
Arguments spawn_launch {H}.

Definition slot_transition_failed (R : lxp_runtime) (sidx : Z) (transition : slot_lifecycle) (rc : Z)
    : lxp_runtime :=
  if negb (slot_in sidx) then R
  else if p_alive (sproc R sidx) =? 0 then R
  else lxp_coordinator_exit_slot R sidx 0 127 LXP_EXIT_REASON_HOST_TRANSITION
         (Z.lor (u32 (Z.shiftl (Z.land (slot_state_code transition) 0xff) 24)) (Z.land (- rc) 0x00ffffff)).

Section Lifecycle.
Context {H : Type} (ops : os_task H).

(** The exit arm, which two other arms fall back to. *)
Definition lifecycle_exit (h : H) (R : lxp_runtime) (sidx : Z) : Z * H * lxp_runtime :=
  let old := lxp_slot_host_state R sidx in
  match abort_slot ops with
  | None => (- LXP_EINVAL, h, R)
  | Some abort =>
      let R := lxp_slot_set_host_state R sidx SLOT_EXITING in
      let '(err, h) := abort h R (lxp_slot_ref_at R sidx) in
      let rc := lxp_errno_from_err err in
      if rc =? LXP_OK
      then let R := lxp_slot_set_host_state R sidx SLOT_DEAD in
           (LXP_OK, h, lxp_slot_runnable_store R sidx false)
      else let R := lxp_slot_set_host_state R sidx SLOT_FAILED in
           let R := lxp_slot_runnable_store R sidx (bool_decide (old = SLOT_RUNNING)) in
           (rc, h, slot_transition_failed R sidx SLOT_EXITING rc)
  end.

Definition lifecycle_park (h : H) (R : lxp_runtime) (sidx : Z) : Z * H * lxp_runtime :=
  let old := lxp_slot_host_state R sidx in
  match park_slot ops with
  | None => (- LXP_EINVAL, h, R)
  | Some park =>
      if decide (old = SLOT_PARKED) then (LXP_OK, h, R)
      else if decide (old <> SLOT_RUNNING)
      then (- LXP_EINVAL, h, slot_transition_failed R sidx SLOT_PARKING (- LXP_EINVAL))
      else
        let R := lxp_slot_set_host_state R sidx SLOT_PARKING in
        let '(err, h) := park h R (lxp_slot_ref_at R sidx) in
        let rc := lxp_errno_from_err err in
        if rc =? LXP_OK
        then let R := lxp_slot_set_host_state R sidx SLOT_PARKED in
             (LXP_OK, h, lxp_slot_runnable_store R sidx false)
        else let R := lxp_slot_set_host_state R sidx SLOT_RUNNING in
             let R := lxp_slot_runnable_store R sidx true in
             let '(_, h, R) := lifecycle_exit h R sidx in
             (rc, h, slot_transition_failed R sidx SLOT_PARKING rc)
  end.

Definition lifecycle_resume (h : H) (R : lxp_runtime) (sidx region : Z) (ctx : lxp_resume_ctx) (r0 : Z)
    : Z * H * lxp_runtime :=
  let old := lxp_slot_host_state R sidx in
  let proc := sproc R sidx in
  match spawn_resume ops with
  | None => (- LXP_EINVAL, h, R)
  | Some spawn =>
      if (p_alive proc =? 0) || bool_decide (intent_kind (p_intent proc) = IK_EXIT)
      then (- LXP_EINVAL, h, R)
      else if decide (old <> SLOT_PARKED /\ old <> SLOT_FREE /\ old <> SLOT_DEAD)
      then (- LXP_EAGAIN, h, R)
      else
        let mode := if decide (old = SLOT_PARKED) then LXP_SPAWN_RESUME_PARKED
                    else LXP_SPAWN_RESUME_START in
        let R := lxp_slot_set_host_state R sidx
                   (match mode with LXP_SPAWN_RESUME_PARKED => SLOT_RESUMING
                    | LXP_SPAWN_RESUME_START => SLOT_STARTING end) in
        let R := lxp_slot_runnable_store R sidx true in
        let '(err, h) := spawn h R (lxp_slot_ref_at R sidx) region mode ctx r0 in
        let rc := lxp_errno_from_err err in
        if rc =? LXP_OK then (LXP_OK, h, lxp_slot_set_host_state R sidx SLOT_RUNNING)
        else let R := lxp_slot_set_host_state R sidx old in
             let R := lxp_slot_runnable_store R sidx false in
             let '(_, h, R) := lifecycle_exit h R sidx in
             (rc, h, slot_transition_failed R sidx SLOT_RESUMING rc)
  end.

Definition lifecycle_launch (h : H) (R : lxp_runtime) (sidx region : Z) (launch : lxp_guest_launch) : Z * H * lxp_runtime :=
  let old := lxp_slot_host_state R sidx in
  match spawn_launch ops with
  | None => (- LXP_EINVAL, h, R)
  | Some spawn =>
      if decide (old <> SLOT_FREE /\ old <> SLOT_DEAD) then (- LXP_EAGAIN, h, R)
      else
        let R := lxp_slot_set_host_state R sidx SLOT_STARTING in
        let R := lxp_slot_runnable_store R sidx true in
        let '(err, h) := spawn h R (lxp_slot_ref_at R sidx) region launch in
        let rc := lxp_errno_from_err err in
        if rc =? LXP_OK then (LXP_OK, h, lxp_slot_set_host_state R sidx SLOT_RUNNING)
        else let R := lxp_slot_set_host_state R sidx SLOT_DEAD in
             let R := lxp_slot_runnable_store R sidx false in
             (rc, h, slot_transition_failed R sidx SLOT_STARTING rc)
  end.

Definition lxp_lifecycle_apply (h : H) (R : lxp_runtime) (q : lxp_lifecycle_request) : Z * H * lxp_runtime :=
  if negb (slot_in (request_slot q)) then (- LXP_EINVAL, h, R)
  else match q with
       | LXP_OUTCOME_NO_CHANGE _ => (LXP_OK, h, R)
       | LXP_OUTCOME_EXIT s => lifecycle_exit h R s
       | LXP_OUTCOME_REMAIN_PARKED s => lifecycle_park h R s
       | LXP_OUTCOME_RESUME s region ctx r0 => lifecycle_resume h R s region ctx r0
       | LXP_OUTCOME_LAUNCH s region launch => lifecycle_launch h R s region launch
       end.

Definition lxp_coordinator_abort_slot (h : H) (R : lxp_runtime) (sidx : Z) :=
  lxp_lifecycle_apply h R (LXP_OUTCOME_EXIT sidx).
Definition lxp_coordinator_park_slot (h : H) (R : lxp_runtime) (sidx : Z) :=
  lxp_lifecycle_apply h R (LXP_OUTCOME_REMAIN_PARKED sidx).
Definition lxp_coordinator_launch_slot (h : H) (R : lxp_runtime) (sidx ridx : Z) (launch : lxp_guest_launch) :=
  lxp_lifecycle_apply h R (LXP_OUTCOME_LAUNCH sidx ridx launch).

Definition lxp_coordinator_resume_slot (h : H) (R : lxp_runtime) (sidx ridx : Z)
    (ctx : option lxp_resume_ctx) (r0val : Z) : Z * H * lxp_runtime :=
  match ctx with
  | None => (- LXP_ESRCH, h, R)
  | Some ctx =>
      if slot_in sidx && negb (p_stopped (sproc R sidx) =? 0) then (- LXP_EAGAIN, h, R)
      else
        let R := match (if slot_in sidx then p_guest_view (sproc R sidx) else None) with
                 | Some view => rt_put_genv R (lxp_guest_view_end (rt_genv R) view)
                 | None => R
                 end in
        lxp_lifecycle_apply h R (LXP_OUTCOME_RESUME sidx ridx ctx r0val)
  end.

Definition lxp_coordinator_complete_slot (h : H) (R : lxp_runtime) (ref : lxp_ref) (r0 : Z)
    : Z * H * lxp_runtime :=
  if negb (lxp_slot_ref_is_current R ref) then (- LXP_ESRCH, h, R)
  else
    let s := ref_index ref in
    let proc := sproc R s in
    match mm_of R proc, lxp_slot_resume_view R ref with
    | Some mm, Some ctx =>
        if decide (lxp_slot_host_state R s <> SLOT_PARKED) then (- LXP_EAGAIN, h, R)
        else if negb (p_stopped proc =? 0)
        then if negb (p_stop_kind proc =? LXP_STOP_PARKED) then (- LXP_EAGAIN, h, R)
             else (LXP_OK, h, put_proc R s (set_p_stop_r0 (set_p_stop_kind proc LXP_STOP_READY) r0))
        else lxp_coordinator_resume_slot h R s (ref_index (mm_region mm)) (Some ctx) r0
    | _, _ => (- LXP_ESRCH, h, R)
    end.

End Lifecycle.

(** * Properties of the native task lifecycle

    Whatever the RTOS answers, a slot is left in the state the request and the answer
    determine, other slots are untouched, and a task whose transition failed owes the
    coordinator its exit. *)

(** The host state of a slot and its dispatch capability. *)
Definition hs (R : lxp_runtime) (s : Z) : slot_lifecycle * bool :=
  (sl_host_state (slot_at R s), sl_runnable (slot_at R s)).

(** No transition is in progress, and a slot can trap into the personality exactly when its
    task runs.  A slot whose abort was refused may have the capability or not; which of the
    two is [failure_states]. *)
Definition settled (x : slot_lifecycle * bool) : Prop :=
  match x.1 with
  | SLOT_RUNNING => x.2 = true
  | SLOT_FREE | SLOT_PARKED | SLOT_DEAD => x.2 = false
  | SLOT_FAILED => True
  | SLOT_STARTING | SLOT_PARKING | SLOT_RESUMING | SLOT_EXITING => False
  end.

Definition slots_ok (R : lxp_runtime) : Prop := alen (rt_slots R) = LXP_NSLOT /\ hints_wf R.

Definition lifecycle_inv (R : lxp_runtime) : Prop :=
  slots_ok R /\ forall s, 0 <= s < LXP_NSLOT -> settled (hs R s).

(** ** Reading a slot after each store *)

Lemma slot_at_put R s x t : slots_ok R -> 0 <= s < LXP_NSLOT -> 0 <= t ->
  slot_at (put_slot R s x) t = if decide (s = t) then x else slot_at R t.
Proof.
  intros [Hl _] Hs Ht. unfold slot_at, put_slot, set_rt_slots. cbn [rt_slots]. by rewrite aget_aset by lia.
Qed.

Lemma slots_ok_put R s x : slots_ok R -> slots_ok (put_slot R s x).
Proof. intros [Hl Hh]. split; [|done]. unfold put_slot, set_rt_slots. cbn [rt_slots]. by rewrite alen_aset. Qed.

Lemma slots_ok_host R s st : slots_ok R -> slots_ok (lxp_slot_set_host_state R s st).
Proof.
  intros H. unfold lxp_slot_set_host_state. destruct (_ && _); [|done].
  destruct (slots_ok_put R s (set_sl_host_state (slot_at R s) st) H). by split.
Qed.

Lemma slots_ok_mark R s : slots_ok R -> slots_ok (lxp_primary_slot_mark R s).
Proof.
  intros [Hl Hh]. unfold lxp_primary_slot_mark. destruct (negb _); [done|]. split; [done|].
  unfold hints_wf. cbn [rt_primary_pending set_rt_primary_pending]. by rewrite alen_aset.
Qed.

Lemma slots_ok_failed R s tr rc : slots_ok R -> slots_ok (slot_transition_failed R s tr rc).
Proof.
  intros H. unfold slot_transition_failed. destruct (negb _); [done|]. destruct (_ =? _); [done|].
  by apply slots_ok_mark, slots_ok_put.
Qed.

Lemma slot_at_host R s st t : slots_ok R -> 0 <= s < LXP_NSLOT -> 0 <= t ->
  slot_at (lxp_slot_set_host_state R s st) t =
  if decide (s = t) then set_sl_host_state (slot_at R s) st else slot_at R t.
Proof.
  intros Hw Hs Ht. unfold lxp_slot_set_host_state. rewrite (proj2 (slot_in_spec s)) by done. cbn [andb].
  case_bool_decide as Hd.
  - by rewrite <- slot_at_put by done.
  - case_decide as E; [|done]. subst t st. by destruct (slot_at R s).
Qed.

Lemma slot_at_failed R s tr rc t : slots_ok R -> 0 <= s < LXP_NSLOT -> 0 <= t ->
  hs (slot_transition_failed R s tr rc) t = hs R t /\
  (s <> t -> slot_at (slot_transition_failed R s tr rc) t = slot_at R t).
Proof.
  intros Hw Hs Ht. unfold slot_transition_failed. rewrite (proj2 (slot_in_spec s)) by done. cbn [negb].
  destruct (_ =? _); [done|]. unfold lxp_coordinator_exit_slot, lxp_primary_slot_mark.
  rewrite (proj2 (slot_in_spec s)) by done. cbn [negb]. set (p := (lxp_intent_exit _ _).2).
  unfold hs. change (slot_at (set_rt_primary_pending ?x ?y) t) with (slot_at x t).
  unfold put_proc. rewrite slot_at_put by done. destruct (decide (s = t)) as [<-|]; done.
Qed.

(** A task whose host transition failed has a claimable exit. *)
Definition owes_exit (R : lxp_runtime) (s : Z) : Prop :=
  p_alive (sproc R s) <> 0 -> lxp_primary_slot_pending R s = true /\ lxp_claim_slot_event R s = LXP_EV_EXIT.

Lemma failed_owes_exit R s tr rc : slots_ok R -> 0 <= s < LXP_NSLOT ->
  owes_exit (slot_transition_failed R s tr rc) s.
Proof.
  intros Hw Hs. unfold slot_transition_failed. rewrite (proj2 (slot_in_spec s)) by done. cbn [negb].
  destruct (Z.eqb_spec (p_alive (sproc R s)) 0) as [E|E]; [done|]. intros _.
  unfold lxp_coordinator_exit_slot. set (p := (lxp_intent_exit _ _).2).
  assert (Hw' : slots_ok (put_proc R s p)) by (by apply slots_ok_put).
  split; [rewrite pending_mark by (done || apply Hw'); by rewrite Z.eqb_refl, orb_true_r|].
  assert (Hp : sproc (lxp_primary_slot_mark (put_proc R s p) s) s = p).
  { unfold lxp_primary_slot_mark. rewrite (proj2 (slot_in_spec s)) by done. cbn [negb].
    unfold sproc. change (slot_at (set_rt_primary_pending ?x ?y) s) with (slot_at x s).
    unfold put_proc. by rewrite slot_at_put, decide_True by (done || lia). }
  unfold lxp_claim_slot_event. rewrite (proj2 (slot_in_spec s)) by done. cbn [negb]. rewrite Hp.
  unfold p. cbn [lxp_intent_exit snd]. change (p_alive (set_p_intent _ _)) with (p_alive (sproc R s)).
  destruct (Z.eqb_spec (p_alive (sproc R s)) 0); [done|]. reflexivity.
Qed.

(** ** Each transition *)

(** What a transition may do to the runtime. *)
Definition life_post (R R' : lxp_runtime) (s : Z) (x : slot_lifecycle * bool) : Prop :=
  slots_ok R' /\ hs R' s = x /\ forall t, 0 <= t -> t <> s -> slot_at R' t = slot_at R t.

Lemma life_post_trans R R' R'' s x y : life_post R R' s x -> life_post R' R'' s y -> life_post R R'' s y.
Proof.
  intros (_ & _ & H1) (H2 & H3 & H4). split; [done|]. split; [done|].
  intros t Ht Hne. rewrite H4 by done. by apply H1.
Qed.

Lemma life_host R s st : slots_ok R -> 0 <= s < LXP_NSLOT ->
  life_post R (lxp_slot_set_host_state R s st) s (st, (hs R s).2).
Proof.
  intros Hw Hs. split; [by apply slots_ok_host|]. split.
  - unfold hs. by rewrite slot_at_host, decide_True by (done || lia).
  - intros t Ht Hne. by rewrite slot_at_host, decide_False by (done || lia).
Qed.

Lemma life_store R s b : slots_ok R -> 0 <= s < LXP_NSLOT ->
  life_post R (lxp_slot_runnable_store R s b) s ((hs R s).1, b).
Proof.
  intros Hw Hs. unfold lxp_slot_runnable_store. split; [by apply slots_ok_put|]. split.
  - unfold hs. by rewrite slot_at_put, decide_True by (done || lia).
  - intros t Ht Hne. by rewrite slot_at_put, decide_False by (done || lia).
Qed.

Lemma life_failed R s tr rc : slots_ok R -> 0 <= s < LXP_NSLOT ->
  life_post R (slot_transition_failed R s tr rc) s (hs R s).
Proof.
  intros Hw Hs. split; [by apply slots_ok_failed|]. split.
  - apply slot_at_failed; done || lia.
  - intros t Ht Hne. apply slot_at_failed; done || lia.
Qed.

(** A state change followed by the matching capability store. *)
Lemma life_set R s st b : slots_ok R -> 0 <= s < LXP_NSLOT ->
  life_post R (lxp_slot_runnable_store (lxp_slot_set_host_state R s st) s b) s (st, b).
Proof.
  intros Hw Hs. pose proof (life_host R s st Hw Hs) as H1. destruct H1 as (Hw1 & E1 & _).
  pose proof (life_store _ s b Hw1 Hs) as H2. rewrite E1 in H2.
  eapply life_post_trans; [by apply life_host|exact H2].
Qed.

Section Arms.
Context {H : Type} (ops : os_task H).

Lemma host_state_hs R s : 0 <= s < LXP_NSLOT -> lxp_slot_host_state R s = (hs R s).1.
Proof. intros Hs. unfold lxp_slot_host_state. by rewrite (proj2 (slot_in_spec s)). Qed.

Lemma lifecycle_exit_spec h R s : slots_ok R -> 0 <= s < LXP_NSLOT ->
  let '(rc, h', R') := lifecycle_exit ops h R s in
  (abort_slot ops = None /\ rc = - LXP_EINVAL /\ R' = R) \/
  (rc = 0 /\ life_post R R' s (SLOT_DEAD, false)) \/
  (rc <> 0 /\ life_post R R' s (SLOT_FAILED, bool_decide ((hs R s).1 = SLOT_RUNNING)) /\ owes_exit R' s).
Proof.
  intros Hw Hs. unfold lifecycle_exit. rewrite host_state_hs by done.
  destruct (abort_slot ops) as [abort|] eqn:Ea; [|by left].
  pose proof (life_host R s SLOT_EXITING Hw Hs) as L1. set (R1 := lxp_slot_set_host_state R s SLOT_EXITING) in *.
  destruct (abort h R1 _) as [err h']. destruct (Z.eqb_spec (lxp_errno_from_err err) LXP_OK) as [E|E].
  - right. left. split; [done|]. eapply life_post_trans; [exact L1|]. by apply life_set; [apply L1|].
  - right. right. split; [done|]. destruct L1 as (Hw1 & _ & _).
    set (R2 := lxp_slot_runnable_store _ _ _).
    assert (L2 : life_post R1 R2 s (SLOT_FAILED, bool_decide ((hs R s).1 = SLOT_RUNNING)))
      by (by apply life_set).
    pose proof L2 as (Hw2 & E2 & _). split; [|by apply failed_owes_exit].
    pose proof (life_failed R2 s SLOT_EXITING (lxp_errno_from_err err) Hw2 Hs) as L3. rewrite E2 in L3.
    eapply life_post_trans; [by apply (life_host R s SLOT_EXITING)|]. by eapply life_post_trans.
Qed.

(** The fallback of a failed transition: exit, then report. *)
Lemma exit_then_failed h R s tr rc : slots_ok R -> 0 <= s < LXP_NSLOT -> settled (hs R s) ->
  let '(_, h', R') := lifecycle_exit ops h R s in
  let R'' := slot_transition_failed R' s tr rc in
  exists x, life_post R R'' s x /\ settled x /\ owes_exit R'' s /\
    x ∈ [hs R s; (SLOT_DEAD, false); (SLOT_FAILED, bool_decide ((hs R s).1 = SLOT_RUNNING))].
Proof.
  intros Hw Hs Hset. pose proof (lifecycle_exit_spec h R s Hw Hs) as HX.
  destruct (lifecycle_exit ops h R s) as [[rc' h'] R'].
  assert (exists x, life_post R R' s x /\ settled x /\
    x ∈ [hs R s; (SLOT_DEAD, false); (SLOT_FAILED, bool_decide ((hs R s).1 = SLOT_RUNNING))]) as (x & L & Hx & Hin).
  { destruct HX as [(_ & _ & ->)|[(_ & L)|(_ & L & _)]];
      [exists (hs R s); split; [split; [done|split; done]|] | eexists; split; [exact L|]..]; (split; [done|rewrite !elem_of_cons; tauto]). }
  pose proof L as (Hw' & E & _). pose proof (life_failed R' s tr rc Hw' Hs) as L3. rewrite E in L3.
  exists x. split; [by eapply life_post_trans|]. split; [done|]. split; [by apply failed_owes_exit|done].
Qed.

Definition success_state (q : lxp_lifecycle_request) (x : slot_lifecycle * bool) : slot_lifecycle * bool :=
  match q with
  | LXP_OUTCOME_NO_CHANGE _ => x
  | LXP_OUTCOME_EXIT _ => (SLOT_DEAD, false)
  | LXP_OUTCOME_REMAIN_PARKED _ => (SLOT_PARKED, false)
  | LXP_OUTCOME_RESUME _ _ _ _ | LXP_OUTCOME_LAUNCH _ _ _ => (SLOT_RUNNING, true)
  end.

(** The states a request that fails can leave: a refused abort keeps the capability of a task
    that was running, a launch leaves no task, and a park or a resume leaves the slot as it
    was, or ended by the abort they fall back to, or with that abort refused too. *)
Definition failure_states (q : lxp_lifecycle_request) (x : slot_lifecycle * bool) : list (slot_lifecycle * bool) :=
  match q with
  | LXP_OUTCOME_NO_CHANGE _ => []
  | LXP_OUTCOME_EXIT _ => [(SLOT_FAILED, bool_decide (x.1 = SLOT_RUNNING))]
  | LXP_OUTCOME_REMAIN_PARKED _ | LXP_OUTCOME_RESUME _ _ _ _ => [x; (SLOT_DEAD, false); (SLOT_FAILED, x.2)]
  | LXP_OUTCOME_LAUNCH _ _ _ => [(SLOT_DEAD, false)]
  end.

Definition apply_post (R : lxp_runtime) (q : lxp_lifecycle_request) (rc : Z) (R' : lxp_runtime) : Prop :=
  let s := request_slot q in
  (rc <> 0 /\ R' = R) \/
  exists x, life_post R R' s x /\ settled x /\
    ((rc = 0 /\ x = success_state q (hs R s)) \/ (rc <> 0 /\ owes_exit R' s /\ x ∈ failure_states q (hs R s))).

Lemma lifecycle_park_spec h R s : slots_ok R -> 0 <= s < LXP_NSLOT -> settled (hs R s) ->
  let '(rc, h', R') := lifecycle_park ops h R s in apply_post R (LXP_OUTCOME_REMAIN_PARKED s) rc R'.
Proof.
  intros Hw Hs Hset. unfold lifecycle_park. rewrite host_state_hs by done.
  destruct (park_slot ops) as [park|]; [|by left].
  destruct (decide ((hs R s).1 = SLOT_PARKED)) as [E|E].
  { right. exists (hs R s). split; [split; [done|split; done]|]. split; [done|]. left. split; [done|].
    unfold settled in Hset. cbn [request_slot]. destruct (hs R s) as [st b]. cbn in E. subst st. cbn in Hset. by subst b. }
  destruct (decide ((hs R s).1 <> SLOT_RUNNING)) as [E2|E2].
  { right. exists (hs R s). cbn [request_slot]. split; [by apply life_failed|]. split; [done|]. right.
    split; [done|]. split; [by apply failed_owes_exit|]. apply list_elem_of_here. }
  pose proof (life_host R s SLOT_PARKING Hw Hs) as L1. set (R1 := lxp_slot_set_host_state R s SLOT_PARKING) in *.
  destruct (park h R1 _) as [err h']. pose proof L1 as (Hw1 & _ & _).
  destruct (Z.eqb_spec (lxp_errno_from_err err) LXP_OK) as [Er|Er].
  - right. exists (SLOT_PARKED, false). cbn [request_slot].
    split; [eapply life_post_trans; [exact L1|by apply life_set]|]. split; [done|]. by left.
  - pose proof (life_set R1 s SLOT_RUNNING true Hw1 Hs) as L2. set (R2 := lxp_slot_runnable_store _ _ _) in *.
    pose proof L2 as (Hw2 & E3 & _).
    pose proof (exit_then_failed h' R2 s SLOT_PARKING (lxp_errno_from_err err) Hw2 Hs ltac:(by rewrite E3)) as HX.
    destruct (lifecycle_exit ops h' R2 s) as [[rc' h''] R3]. destruct HX as (x & L3 & Hx & Ho & Hin).
    right. exists x. cbn [request_slot]. split; [eapply life_post_trans; [exact L1|by eapply life_post_trans]|].
    split; [done|]. right. split; [done|]. split; [done|]. rewrite E3 in Hin. cbn [failure_states].
    assert (hs R s = (SLOT_RUNNING, true)) as ->; [|done].
    destruct (hs R s) as [st cap]. cbn in E2. destruct st; try (by destruct E2). by cbn in Hset; subst cap.
Qed.

Lemma lifecycle_resume_spec h R s region ctx r0 : slots_ok R -> 0 <= s < LXP_NSLOT -> settled (hs R s) ->
  let '(rc, h', R') := lifecycle_resume ops h R s region ctx r0 in
  apply_post R (LXP_OUTCOME_RESUME s region ctx r0) rc R'.
Proof.
  intros Hw Hs Hset. unfold lifecycle_resume. rewrite host_state_hs by done.
  destruct (spawn_resume ops) as [spawn|]; [|by left]. destruct (_ || _); [by left|].
  destruct (decide (_ /\ _)) as [|Hold]; [by left|].
  match goal with |- context [lxp_slot_set_host_state R s ?st] => pose proof (life_set R s st true Hw Hs) as L1 end.
  set (R1 := lxp_slot_runnable_store _ _ _) in *. destruct (spawn h R1 _ _ _ _ _) as [err h'].
  pose proof L1 as (Hw1 & E1 & _). destruct (Z.eqb_spec (lxp_errno_from_err err) LXP_OK) as [Er|Er].
  - right. exists (SLOT_RUNNING, true). cbn [request_slot].
    pose proof (life_host R1 s SLOT_RUNNING Hw1 Hs) as L2. rewrite E1 in L2.
    split; [by eapply life_post_trans|]. split; [done|]. by left.
  - pose proof (life_set R1 s (hs R s).1 false Hw1 Hs) as L2. set (R2 := lxp_slot_runnable_store _ _ false) in *.
    pose proof L2 as (Hw2 & E3 & _).
    assert (Hset2 : settled (hs R2 s)).
    { rewrite E3. destruct (hs R s) as [st b]. unfold settled. cbn in *.
      destruct st; try done; exfalso; by apply Hold. }
    pose proof (exit_then_failed h' R2 s SLOT_RESUMING (lxp_errno_from_err err) Hw2 Hs Hset2) as HX.
    destruct (lifecycle_exit ops h' R2 s) as [[rc' h''] R3]. destruct HX as (x & L3 & Hx & Ho & Hin).
    right. exists x. cbn [request_slot]. split; [eapply life_post_trans; [exact L1|by eapply life_post_trans]|].
    split; [done|]. right. split; [done|]. split; [done|]. rewrite E3 in Hin. cbn [failure_states].
    destruct (hs R s) as [st cap]. cbn in Hset, Hin |- *. destruct st; cbn in Hset; subst; done || (exfalso; by apply Hold).
Qed.

Lemma lifecycle_launch_spec h R s region launch : slots_ok R -> 0 <= s < LXP_NSLOT ->
  let '(rc, h', R') := lifecycle_launch ops h R s region launch in
  apply_post R (LXP_OUTCOME_LAUNCH s region launch) rc R'.
Proof.
  intros Hw Hs. unfold lifecycle_launch. rewrite host_state_hs by done.
  destruct (spawn_launch ops) as [spawn|]; [|by left].
  destruct (decide (_ /\ _)) as [|Hold]; [by left|].
  pose proof (life_set R s SLOT_STARTING true Hw Hs) as L1.
  set (R1 := lxp_slot_runnable_store _ _ _) in *. destruct (spawn h R1 _ _ _) as [err h'].
  pose proof L1 as (Hw1 & E1 & _).
  destruct (Z.eqb_spec (lxp_errno_from_err err) LXP_OK) as [Er|Er]; right; cbn [request_slot].
  - exists (SLOT_RUNNING, true). pose proof (life_host R1 s SLOT_RUNNING Hw1 Hs) as L2. rewrite E1 in L2.
    split; [by eapply life_post_trans|]. split; [done|]. by left.
  - exists (SLOT_DEAD, false). pose proof (life_set R1 s SLOT_DEAD false Hw1 Hs) as L2.
    set (R2 := lxp_slot_runnable_store _ _ false) in *. pose proof L2 as (Hw2 & E3 & _).
    pose proof (life_failed R2 s SLOT_STARTING (lxp_errno_from_err err) Hw2 Hs) as L3. rewrite E3 in L3.
    split; [eapply life_post_trans; [exact L1|by eapply life_post_trans]|]. split; [done|]. right.
    split; [done|]. split; [by apply failed_owes_exit|]. apply list_elem_of_here.
Qed.

Lemma lifecycle_apply_spec h R q : lifecycle_inv R ->
  let '(rc, h', R') := lxp_lifecycle_apply ops h R q in apply_post R q rc R'.
Proof.
  intros [Hw Hall]. unfold lxp_lifecycle_apply. destruct (slot_in (request_slot q)) eqn:Es; [|by left].
  apply slot_in_spec in Es. pose proof (Hall _ Es) as Hset. cbn [negb].
  destruct q as [s|s region ctx r0|s|s region launch|s]; cbn [request_slot] in *.
  - right. exists (hs R s). split; [split; [done|split; done]|]. split; [done|]. by left.
  - by apply lifecycle_resume_spec.
  - by apply lifecycle_park_spec.
  - by apply lifecycle_launch_spec.
  - pose proof (lifecycle_exit_spec h R s Hw Es) as HX.
    destruct (lifecycle_exit ops h R s) as [[rc h'] R'].
    destruct HX as [(_ & -> & ->)|[(-> & L)|(Hrc & L & Ho)]]; [by left| |].
    + right. eexists. split; [exact L|]. split; [done|]. by left.
    + right. eexists. split; [exact L|]. split; [done|]. right. split; [done|]. split; [done|]. apply list_elem_of_here.
Qed.

End Arms.


(** A host that records nothing and refuses to park. *)
Definition stubborn_host : os_task unit :=
  mk_os_task (Some (fun h _ _ => (0, h))) (Some (fun h _ _ => (LXP_ERR_INVALID_PARAM, h)))
    (Some (fun h _ _ _ _ _ _ => (0, h))) (Some (fun h _ _ _ _ => (0, h))).

Lemma demo_lifecycle_inv : lifecycle_inv demo_rt.
Proof.
  split; [split; reflexivity|]. intros s Hs. unfold LXP_NSLOT, LXP_NREG in Hs.
  assert (s = 0 \/ s = 1 \/ s = 2 \/ s = 3 \/ s = 4 \/ s = 5 \/ s = 6 \/ s = 7 \/ s = 8 \/ s = 9 \/
          s = 10 \/ s = 11) as Hc by lia.
  repeat (destruct Hc as [->|Hc]; [vm_compute; reflexivity|]). subst. vm_compute. reflexivity.
Qed.


(** ** Publication order *)

(** The slot is published: its capability is set and a start or resume is in progress. *)
Definition published (R : lxp_runtime) (ref : lxp_ref) : Prop :=
  ref = lxp_slot_ref_at R (ref_index ref) /\ sl_runnable (slot_at R (ref_index ref)) = true /\
  (sl_host_state (slot_at R (ref_index ref)) = SLOT_STARTING \/
   sl_host_state (slot_at R (ref_index ref)) = SLOT_RESUMING).

(** Two hosts that differ at most on spawns of unpublished slots. *)
Definition agree_when_published {H} (a b : os_task H) : Prop :=
  abort_slot a = abort_slot b /\ park_slot a = park_slot b /\
  match spawn_resume a, spawn_resume b with
  | Some f, Some g => forall h R ref region mode ctx r0, published R ref ->
      f h R ref region mode ctx r0 = g h R ref region mode ctx r0
  | None, None => True | _, _ => False
  end /\
  match spawn_launch a, spawn_launch b with
  | Some f, Some g => forall h R ref region launch, published R ref ->
      f h R ref region launch = g h R ref region launch
  | None, None => True | _, _ => False
  end.

Lemma published_after R s st : slots_ok R -> 0 <= s < LXP_NSLOT -> (st = SLOT_STARTING \/ st = SLOT_RESUMING) ->
  let R1 := lxp_slot_runnable_store (lxp_slot_set_host_state R s st) s true in
  published R1 (lxp_slot_ref_at R1 s).
Proof.
  intros Hw Hs Hst R1. destruct (life_set R s st true Hw Hs) as (_ & E & _). unfold hs in E. fold R1 in E.
  injection E as E1 E2. assert (Hidx : ref_index (lxp_slot_ref_at R1 s) = s).
  { unfold lxp_slot_ref_at. by rewrite (proj2 (slot_in_spec s)). }
  unfold published. rewrite Hidx. split; [done|]. split; [done|]. rewrite E1. exact Hst.
Qed.

(** The RTOS is asked to start or resume a task only after its slot is published: a
    guest that runs before the callback returns can already trap.  Stated without naming
    the call: hosts that agree on published slots cannot be told apart by any request. *)
Theorem spawn_sees_published_slot {H} (a b : os_task H) h R q :
  slots_ok R -> agree_when_published a b ->
  lxp_lifecycle_apply a h R q = lxp_lifecycle_apply b h R q.
Proof.
  intros Hw (Ha & Hp & Hr & Hl).
  assert (Hex : forall h R s, lifecycle_exit a h R s = lifecycle_exit b h R s).
  { intros h0 R0 s. unfold lifecycle_exit. by rewrite Ha. }
  unfold lxp_lifecycle_apply. destruct (slot_in (request_slot q)) eqn:Es; [|done]. cbn [negb].
  apply slot_in_spec in Es. destruct q as [s|s region ctx r0|s|s region launch|s]; cbn [request_slot] in Es; [done| | | |].
  - unfold lifecycle_resume. destruct (spawn_resume a) as [f|], (spawn_resume b) as [g|]; try done.
    destruct (_ || _); [done|]. destruct (decide (_ /\ _)); [done|].
    rewrite Hr by (apply published_after; auto; destruct (decide _); auto).
    destruct (g _ _ _ _ _ _ _) as [err h']. destruct (_ =? LXP_OK); [done|]. by rewrite Hex.
  - unfold lifecycle_park. rewrite Hp. destruct (park_slot b) as [park|]; [|done]. destruct (decide _); [done|].
    destruct (decide _); [done|]. destruct (park _ _ _) as [err h']. destruct (_ =? LXP_OK); [done|]. by rewrite Hex.
  - unfold lifecycle_launch. destruct (spawn_launch a) as [f|], (spawn_launch b) as [g|]; try done.
    destruct (decide (_ /\ _)); [done|].
    rewrite Hl by (apply published_after; auto). done.
  - apply Hex.
Qed.

(** A host that would refuse to launch a slot it cannot dispatch. *)
Definition strict_host : os_task unit :=
  mk_os_task (Some (fun h _ _ => (0, h))) (Some (fun h _ _ => (LXP_ERR_INVALID_PARAM, h)))
    (Some (fun h _ _ _ _ _ _ => (0, h)))
    (Some (fun h R ref _ _ => if sl_runnable (slot_at R (ref_index ref)) then (0, h)
                              else (LXP_ERR_INVALID_PARAM, h))).

Lemma spawn_sees_published_slot_witness :
  agree_when_published strict_host stubborn_host /\
  lxp_lifecycle_apply strict_host tt demo_rt (LXP_OUTCOME_LAUNCH 1 1 launch_zero) =
  lxp_lifecycle_apply stubborn_host tt demo_rt (LXP_OUTCOME_LAUNCH 1 1 launch_zero).
Proof.
  assert (Ha : agree_when_published strict_host stubborn_host).
  { split; [done|]. split; [done|]. split; [done|]. intros h R ref region launch (_ & -> & _). done. }
  split; [exact Ha|]. apply spawn_sees_published_slot; [split; reflexivity|exact Ha].
Defined.

(** ** Completion of parked work *)

(** A branch that returned an error and changed nothing. *)
Ltac refused_branch :=
  repeat first [progress intros | split]; destruct_and?; try done; try congruence.

(** Completing deferred work is generation checked and respects job control: for a
    reference that is not the slot's current incarnation, or a task that is not parked, the
    result is dropped and nothing changes; for a stopped task it is kept for SIGCONT, with
    the native task left parked and no host call made. *)
Theorem complete_slot_checked {H} (ops : os_task H) h R ref r0 :
  slots_ok R ->
  let s := ref_index ref in
  let '(rc, h', R') := lxp_coordinator_complete_slot ops h R ref r0 in
  (lxp_slot_ref_is_current R ref = false -> rc = - LXP_ESRCH /\ h' = h /\ R' = R) /\
  ((hs R s).1 <> SLOT_PARKED -> rc <> 0 /\ h' = h /\ R' = R) /\
  (p_stopped (sproc R s) <> 0 -> h' = h /\ hs R' s = hs R s /\ rt_mem R' = rt_mem R /\
     (rc = 0 <-> lxp_slot_ref_is_current R ref = true /\ (hs R s).1 = SLOT_PARKED /\
        p_mm (sproc R s) <> None /\ p_stop_kind (sproc R s) = LXP_STOP_PARKED) /\
     (rc = 0 -> p_stop_kind (sproc R' s) = LXP_STOP_READY /\ p_stop_r0 (sproc R' s) = r0) /\
     (rc <> 0 -> R' = R)).
Proof.
  intros Hw s. unfold lxp_coordinator_complete_slot, lxp_slot_resume_view. fold s.
  destruct (lxp_slot_ref_is_current R ref) eqn:Ec; cbn [negb].
  2:{ refused_branch. }
  assert (Hs : 0 <= s < LXP_NSLOT).
  { unfold lxp_slot_ref_is_current in Ec. rewrite !andb_true_iff in Ec. fold s in Ec.
    by apply slot_in_spec, Ec. }
  unfold mm_of. destruct (p_mm (sproc R s)) as [mi|] eqn:Em; cbn [option_map].
  2:{ refused_branch. }
  rewrite host_state_hs by done. destruct (decide ((hs R s).1 <> SLOT_PARKED)) as [E|E].
  { refused_branch. }
  apply dec_stable in E. destruct (Z.eqb_spec (p_stopped (sproc R s)) 0) as [E1|E1]; cbn [negb].
  { destruct (lxp_coordinator_resume_slot _ _ _ _ _ _ _) as [[rc h'] R']. split; [done|]. split; [done|]. done. }
  destruct (Z.eqb_spec (p_stop_kind (sproc R s)) LXP_STOP_PARKED) as [E2|E2]; cbn [negb].
  2:{ split; [done|]. split; [done|]. intros _. refused_branch. }
  split; [done|]. split; [done|]. intros _. split; [done|]. unfold put_proc.
  split; [unfold hs; by rewrite slot_at_put, decide_True by (done || lia)|]. split; [done|].
  split; [done|]. split; [|done]. intros _. unfold sproc at 1 3.
  rewrite slot_at_put, decide_True by (done || lia). done.
Qed.

Definition demo_stopped_rt : lxp_runtime :=
  put_slot demo_rt 0 (set_sl_runnable (set_sl_host_state
    (set_sl_proc (slot_at demo_rt 0) (set_p_stop_kind (set_p_stopped demo_proc 1) LXP_STOP_PARKED)) SLOT_PARKED) false).

Lemma complete_slot_checked_witness :
  let '(rc, _, R') := lxp_coordinator_complete_slot stubborn_host tt demo_stopped_rt (mk_ref 0 7) 42 in
  rc = 0 /\ p_stop_r0 (sproc R' 0) = 42 /\ hs R' 0 = (SLOT_PARKED, false).
Proof.
  pose proof (complete_slot_checked stubborn_host tt demo_stopped_rt (mk_ref 0 7) 42
                ltac:(split; reflexivity)) as HX.
  assert (E : (lxp_coordinator_complete_slot stubborn_host tt demo_stopped_rt (mk_ref 0 7) 42).1.1 = 0)
    by (vm_compute; reflexivity).
  destruct (lxp_coordinator_complete_slot _ _ _ _ _) as [[rc h'] R']. cbn [fst snd] in E. subst rc.
  destruct HX as (_ & _ & HX). destruct HX as (_ & H1 & _ & _ & H2 & _); [vm_compute; discriminate|].
  split; [done|]. split; [by apply H2|]. exact H1.
Defined.

(** ** Retrying a failed abort *)

Definition unstoppable_host : os_task unit :=
  mk_os_task (Some (fun h _ _ => (LXP_ERR_INVALID_PARAM, h))) None None None.

(** A failed abort keeps the dispatch capability of a running task, as its comment
    says, but a second failed abort of the same task takes it away: the retry compares the
    state the first failure left, FAILED, with RUNNING.  The native task still runs and its
    system calls are refused from then on. *)
Theorem abort_retry_drops_capability :
  let '(_, h1, R1) := lxp_coordinator_abort_slot unstoppable_host tt demo_rt 0 in
  let '(rc, _, R2) := lxp_coordinator_abort_slot unstoppable_host h1 R1 0 in
  hs demo_rt 0 = (SLOT_RUNNING, true) /\ hs R1 0 = (SLOT_FAILED, true) /\
  rc = - LXP_EINVAL /\ hs R2 0 = (SLOT_FAILED, false).
Proof. vm_compute. auto. Qed.
