(* ===== verification/Quiet.v ===== *)
(** * What the lifecycle leaves alone

    The operations that stop, park, resume and finish native tasks change a slot's host
    state, its dispatch capability and event hint, and of the task itself only its exit
    record, its intent, its stop result and its dispatch view.  [quiet] relates two runtimes
    that differ in nothing else; it is a preorder, and every lifecycle operation stays
    within it whatever the RTOS answers. *)

From Stdlib Require Import RelationClasses.
From S2P Require Import Prelude Config Errno Proc Pool Fd Guest Wait Arena Process Runtime Event Region Lifecycle.
Local Open Scope Z_scope.

Create HintDb quiet.

(** A task with the fields the lifecycle may change blanked. *)
Definition strip (p : lxp_proc) : lxp_proc :=
  set_p_exit_address (set_p_exit_detail (set_p_exit_signal (set_p_exit_reason (set_p_exit_status
    (set_p_stop_kind (set_p_stop_r0 (set_p_guest_view (set_p_intent p LXP_INTENT_NONE) None) 0) 0)
    0) 0) 0) 0) 0.

(** The part of a slot the lifecycle keeps. *)
Definition slot_core (s : lxp_slot_runtime) : lxp_proc * lxp_resume_ctx * deferred_req * Z * Z :=
  (strip (sl_proc s), sl_resume s, sl_deferred s, sl_syscall_r0 s, sl_generation s).

Definition quiet (R R' : lxp_runtime) : Prop :=
  rt_k R' = rt_k R /\ rt_mem R' = rt_mem R /\ rt_regions R' = rt_regions R /\
  rt_arenas R' = rt_arenas R /\ rt_vfork_guard R' = rt_vfork_guard R /\
  alen (rt_primary_pending R') = alen (rt_primary_pending R) /\
  map slot_core (rt_slots R') = map slot_core (rt_slots R).

#[export] Instance quiet_preorder : PreOrder quiet.
Proof.
  split.
  - intros R. done.
  - intros R1 R2 R3 (A1 & A2 & A3 & A4 & A5 & A6 & A7) (B1 & B2 & B3 & B4 & B5 & B6 & B7).
    repeat split; congruence.
Qed.

Lemma quiet_refl R : quiet R R.
Proof. reflexivity. Qed.

Lemma quiet_trans R1 R2 R3 : quiet R1 R2 -> quiet R2 R3 -> quiet R1 R3.
Proof. intros. by transitivity R2. Qed.

Lemma slot_at_core R s : slot_core (slot_at R s) = aget (slot_core slot_zero) (map slot_core (rt_slots R)) s.
Proof. unfold slot_at, aget. by rewrite map_nth. Qed.

Lemma quiet_slot R R' s : quiet R R' -> slot_core (slot_at R' s) = slot_core (slot_at R s).
Proof. intros (_ & _ & _ & _ & _ & _ & Hs). by rewrite !slot_at_core, Hs. Qed.

Lemma quiet_length R R' : quiet R R' -> alen (rt_slots R') = alen (rt_slots R).
Proof.
  intros (_ & _ & _ & _ & _ & _ & Hs). apply (f_equal length) in Hs. rewrite !length_map in Hs. unfold alen. lia.
Qed.

(** The fields a client reads back after a quiet operation. *)
Lemma quiet_strip R R' s : quiet R R' -> strip (sproc R' s) = strip (sproc R s).
Proof. intros Hq. exact (f_equal (fun x => x.1.1.1.1) (quiet_slot R R' s Hq)). Qed.

Lemma quiet_k R R' : quiet R R' -> rt_k R' = rt_k R.
Proof. by intros (H & _). Qed.
Lemma quiet_mem R R' : quiet R R' -> rt_mem R' = rt_mem R.
Proof. by intros (_ & H & _). Qed.
Lemma quiet_regions R R' : quiet R R' -> rt_regions R' = rt_regions R.
Proof. by intros (_ & _ & H & _). Qed.
Lemma quiet_guard R R' : quiet R R' -> rt_vfork_guard R' = rt_vfork_guard R.
Proof. by intros (_ & _ & _ & _ & H & _). Qed.
Lemma quiet_generation R R' s : quiet R R' -> sl_generation (slot_at R' s) = sl_generation (slot_at R s).
Proof. intros Hq. exact (f_equal snd (quiet_slot R R' s Hq)). Qed.
Lemma quiet_resume R R' s : quiet R R' -> sl_resume (slot_at R' s) = sl_resume (slot_at R s).
Proof. intros Hq. exact (f_equal (fun x => x.1.1.1.2) (quiet_slot R R' s Hq)). Qed.
Lemma quiet_alive R R' s : quiet R R' -> p_alive (sproc R' s) = p_alive (sproc R s).
Proof. intros Hq%(quiet_strip R R' s). exact (f_equal p_alive Hq). Qed.
Lemma quiet_group R R' s : quiet R R' -> p_group (sproc R' s) = p_group (sproc R s).
Proof. intros Hq%(quiet_strip R R' s). exact (f_equal p_group Hq). Qed.
Lemma quiet_wait R R' s : quiet R R' -> p_wait (sproc R' s) = p_wait (sproc R s).
Proof. intros Hq%(quiet_strip R R' s). exact (f_equal p_wait Hq). Qed.

(** ** Stores *)

(** Replacing a slot by one with the same core. *)
Lemma quiet_put_slot R s x : slot_core x = slot_core (slot_at R s) -> quiet R (put_slot R s x).
Proof.
  intros Hc. unfold put_slot. repeat (split; [done|]). cbn [rt_slots set_rt_slots].
  unfold aset. rewrite list_fmap_insert. apply list_insert_id'. intros Hlt.
  rewrite length_fmap in Hlt. rewrite list_lookup_fmap.
  destruct (lookup_lt_is_Some_2 _ _ Hlt) as [y Hy]. rewrite Hy. cbn.
  rewrite Hc. unfold slot_at. by rewrite (aget_lookup slot_zero _ _ _ Hy).
Qed.

Lemma quiet_put_proc R s p : strip p = strip (sproc R s) -> quiet R (put_proc R s p).
Proof. intros Hp. apply quiet_put_slot. unfold slot_core, set_sl_proc. cbn. by rewrite Hp. Qed.

Lemma quiet_mark R s : quiet R (lxp_primary_slot_mark R s).
Proof.
  unfold lxp_primary_slot_mark. destruct (negb _); [done|]. repeat (split; [done|]).
  cbn [rt_primary_pending set_rt_primary_pending rt_slots]. split; [by rewrite alen_aset|done].
Qed.

Lemma quiet_runnable R s b : quiet R (lxp_slot_runnable_store R s b).
Proof. by apply quiet_put_slot. Qed.

Lemma quiet_host R s st : quiet R (lxp_slot_set_host_state R s st).
Proof.
  unfold lxp_slot_set_host_state. destruct (_ && _); [|done].
  transitivity (put_slot R s (set_sl_host_state (slot_at R s) st)); [by apply quiet_put_slot|].
  repeat (split; [done|]). done.
Qed.

Lemma quiet_exit_slot R s group status reason detail :
  quiet R (lxp_coordinator_exit_slot R s group status reason detail).
Proof.
  unfold lxp_coordinator_exit_slot. etransitivity; [|apply quiet_mark]. by apply quiet_put_proc.
Qed.

Lemma quiet_failed R s tr rc : quiet R (slot_transition_failed R s tr rc).
Proof.
  unfold slot_transition_failed. destruct (negb _); [done|]. destruct (_ =? 0); [done|].
  apply quiet_exit_slot.
Qed.

#[export] Hint Resolve quiet_refl quiet_mark quiet_runnable quiet_host quiet_exit_slot quiet_failed : quiet.
#[export] Hint Extern 5 (quiet _ (lxp_slot_runnable_store _ _ _)) =>
  (eapply quiet_trans; [|apply quiet_runnable]) : quiet.
#[export] Hint Extern 5 (quiet _ (lxp_slot_set_host_state _ _ _)) =>
  (eapply quiet_trans; [|apply quiet_host]) : quiet.
#[export] Hint Extern 5 (quiet _ (slot_transition_failed _ _ _ _)) =>
  (eapply quiet_trans; [|apply quiet_failed]) : quiet.

(** ** Dispatch views *)

Lemma core_zip l ps :
  map strip ps = map strip (map sl_proc l) -> map slot_core (zip_with set_sl_proc l ps) = map slot_core l.
Proof.
  revert ps. induction l as [|x l IH]; intros [|p ps] Hs; try done.
  assert (Hp : strip p = strip (sl_proc x)) by exact (f_equal (fun l => default (strip p) (head l)) Hs).
  assert (Ht : map strip ps = map strip (map sl_proc l)) by exact (f_equal tail Hs).
  cbn [zip_with map]. rewrite (IH ps Ht). f_equal.
  unfold slot_core, set_sl_proc. cbn. by rewrite Hp.
Qed.

Lemma strip_aset ps i x : strip x = strip (aget proc_zero ps i) -> map strip (aset ps i x) = map strip ps.
Proof.
  intros Hx. unfold aset. rewrite list_fmap_insert. apply list_insert_id'. intros Hlt.
  rewrite length_fmap in Hlt. rewrite list_lookup_fmap.
  destruct (lookup_lt_is_Some_2 _ _ Hlt) as [y Hy]. rewrite Hy. cbn.
  by rewrite Hx, (aget_lookup proc_zero _ _ _ Hy).
Qed.

Lemma quiet_view_end R vid : quiet R (rt_put_genv R (lxp_guest_view_end (rt_genv R) vid)).
Proof.
  unfold rt_put_genv. repeat (split; [done|]). cbn [rt_slots set_rt_views set_rt_slots].
  apply core_zip. unfold lxp_guest_view_end. destruct (negb _); [done|].
  destruct (v_proc _) as [p|]; [|done]. destruct (bool_decide _); [|done].
  cbn [ge_procs set_procs set_views]. by apply strip_aset.
Qed.

#[export] Hint Resolve quiet_view_end : quiet.

(** ** Transitions *)

Section Transitions.
Context {H : Type} (ops : os_task H).

Lemma quiet_exit h R s : quiet R (lifecycle_exit ops h R s).2.
Proof.
  unfold lifecycle_exit. destruct (abort_slot ops); [|done].
  destruct (_ h _ _) as [err h']. destruct (_ =? _); cbn [snd]; auto with quiet.
Qed.

Lemma quiet_park h R s : quiet R (lifecycle_park ops h R s).2.
Proof.
  unfold lifecycle_park. destruct (park_slot ops); [|done].
  destruct (decide _); [done|]. destruct (decide _); [cbn [snd]; auto with quiet|].
  destruct (_ h _ _) as [err h']. destruct (_ =? _); cbn [snd]; [auto with quiet|].
  set (R2 := lxp_slot_runnable_store _ _ _). pose proof (quiet_exit h' R2 s) as Hx.
  destruct (lifecycle_exit ops h' R2 s) as [[rc h''] R3]. cbn [snd] in *.
  eapply quiet_trans; [|apply quiet_failed]. eapply quiet_trans; [|exact Hx]. unfold R2. auto with quiet.
Qed.

Lemma quiet_resume_arm h R s region ctx r0 : quiet R (lifecycle_resume ops h R s region ctx r0).2.
Proof.
  unfold lifecycle_resume. destruct (spawn_resume ops); [|done].
  destruct (_ || _); [done|]. destruct (decide _); [done|].
  destruct (_ h _ _ _ _ _ _) as [err h']. destruct (_ =? _); cbn [snd]; [auto with quiet|].
  set (R2 := lxp_slot_runnable_store _ _ false). pose proof (quiet_exit h' R2 s) as Hx.
  destruct (lifecycle_exit ops h' R2 s) as [[rc h''] R3]. cbn [snd] in *.
  eapply quiet_trans; [|apply quiet_failed]. eapply quiet_trans; [|exact Hx]. unfold R2. auto with quiet.
Qed.

Lemma quiet_launch h R s region launch : quiet R (lifecycle_launch ops h R s region launch).2.
Proof.
  unfold lifecycle_launch. destruct (spawn_launch ops); [|done]. destruct (decide _); [done|].
  destruct (_ h _ _ _ _) as [err h']. destruct (_ =? _); cbn [snd]; auto with quiet.
Qed.

Lemma quiet_apply h R q : quiet R (lxp_lifecycle_apply ops h R q).2.
Proof.
  unfold lxp_lifecycle_apply. destruct (negb _); [done|].
  destruct q; [done|apply quiet_resume_arm|apply quiet_park|apply quiet_launch|apply quiet_exit].
Qed.

Lemma quiet_resume_slot h R s region ctx r0 : quiet R (lxp_coordinator_resume_slot ops h R s region ctx r0).2.
Proof.
  unfold lxp_coordinator_resume_slot. destruct ctx as [ctx|]; [|done]. destruct (_ && _); [done|].
  eapply quiet_trans; [|apply quiet_apply].
  destruct (if slot_in s then _ else _); auto with quiet.
Qed.

Lemma quiet_complete h R ref r0 : quiet R (lxp_coordinator_complete_slot ops h R ref r0).2.
Proof.
  unfold lxp_coordinator_complete_slot. destruct (negb _); [done|].
  destruct (mm_of R _); [|done]. destruct (lxp_slot_resume_view R ref); [|done].
  destruct (decide _); [done|]. destruct (negb (p_stopped _ =? 0)); [|apply quiet_resume_slot].
  destruct (negb _); [done|]. cbn [snd]. by apply quiet_put_proc.
Qed.

End Transitions.

#[export] Hint Resolve quiet_apply quiet_resume_slot quiet_complete : quiet.
