(* ===== verification/Signal.v ===== *)
(** * Signal delivery (src/lxp_signal.c, src/run/lxp_signal_route.c, src/run/lxp_trap.c's
      frame parking)

    A signal reaches a guest either through the live frame of its system call or, while the
    guest is parked, through its captured resume context.  The interrupted registers and
    mask go to a bounded stack of frames in host memory, one stack per slot, and
    rt_sigreturn takes them back.  The build without a floating-point context is modelled. *)

From S2P Require Import Prelude Config Errno Proc Pool Fd Guest Wait Arena Process Runtime Event Region Lifecycle.
Local Open Scope Z_scope.

Definition LXP_EXIT_REASON_SIGNAL_DEPTH : Z := 3.
Definition LXP_EXIT_REASON_MEMORY_FAULT : Z := 4.

(** ** Data *)

(** The register frame of a system call: r0-r15 and xPSR. *)
Record lxp_frame := mk_frame { f_r : list Z; f_xpsr : Z }.
Definition freg (f : lxp_frame) (i : Z) : Z := aget 0 (f_r f) i.
Definition set_freg (f : lxp_frame) (i v : Z) : lxp_frame := mk_frame (aset (f_r f) i v) (f_xpsr f).
Definition set_f_xpsr (f : lxp_frame) (v : Z) : lxp_frame := mk_frame (f_r f) v.

Record sig_save := mk_save {
  ss_r0 : Z; ss_r1 : Z; ss_r2 : Z; ss_r3 : Z; ss_r7 : Z; ss_r9 : Z; ss_r12 : Z;
  ss_lr : Z; ss_pc : Z; ss_xpsr : Z; ss_saved_mask : Z;
}.
Definition save_zero : sig_save := mk_save 0 0 0 0 0 0 0 0 0 0 0.

Record sig_save_stack := mk_stack { st_frame : list sig_save; st_depth : Z }.
Definition stack_zero : sig_save_stack := mk_stack (replicate (Z.to_nat LXP_SIGNAL_NEST_MAX) save_zero) 0.

Inductive lxp_signal_action :=
  | LXP_SIGNAL_INVALID | LXP_SIGNAL_IGNORE | LXP_SIGNAL_STOP | LXP_SIGNAL_TERMINATE | LXP_SIGNAL_HANDLER.

#[export] Instance lxp_signal_action_eq_dec : EqDecision lxp_signal_action.
Proof. solve_decision. Defined.

(** [save] is the frame's place: the index in the slot's stack. *)
Record lxp_signal_delivery := mk_delivery { dl_entry : Z; dl_got : Z; dl_restorer : Z; dl_save : Z }.
Definition delivery_zero : lxp_signal_delivery := mk_delivery 0 0 0 0.

(** The coordinator's view of the port: wake-ups, and the token of a parked frame. *)
Record os_core (H : Type) := mk_os_core {
  event_post : option (H -> H);
  park_prepare : option (H -> lxp_runtime -> lxp_ref -> lxp_resume_ctx -> Z * H);
  park_entry : Z;
}.
Arguments mk_os_core {H}.
Arguments event_post {H}.
Arguments park_prepare {H}.
Arguments park_entry {H}.

(** Everything the trap and the coordinator change: the host, the runtime store and the
    per-slot signal frames. *)
Record coord (H : Type) := mk_coord { c_h : H; c_rt : lxp_runtime; c_save : list sig_save_stack }.
Arguments mk_coord {H}.
Arguments c_h {H}.
Arguments c_rt {H}.
Arguments c_save {H}.

Section Signal.
Context {H : Type} (ops : os_task H) (core : os_core H).
Implicit Types (c : coord H) (f : lxp_frame).

Definition set_c_h c (h : H) : coord H := mk_coord h (c_rt c) (c_save c).
Definition set_c_rt c (R : lxp_runtime) : coord H := mk_coord (c_h c) R (c_save c).
Definition set_c_save c (st : list sig_save_stack) : coord H := mk_coord (c_h c) (c_rt c) st.

Definition cproc c (slot : Z) : lxp_proc := sproc (c_rt c) slot.
Definition put_cproc c (slot : Z) (p : lxp_proc) : coord H := set_c_rt c (put_proc (c_rt c) slot p).
Definition stack_at c (slot : Z) : sig_save_stack := aget stack_zero (c_save c) slot.
Definition put_stack c (slot : Z) (st : sig_save_stack) : coord H :=
  set_c_save c (aset (c_save c) slot st).

(** [proc->sighand], dereferenced. *)
Definition sighand_of c (p : lxp_proc) : option lxp_sighand :=
  option_map (aget sighand_zero (k_sighand (rt_k (c_rt c)))) (p_sighand p).

(** [proc->group], dereferenced. *)
Definition group_of c (p : lxp_proc) : option lxp_thread_group :=
  option_map (aget group_zero (k_groups (rt_k (c_rt c)))) (p_group p).

(** ** Parking a frame (src/run/lxp_trap.c) *)

Definition post c : coord H :=
  match event_post core with Some g => set_c_h c (g (c_h c)) | None => c end.

Definition lxp_event_post_slot c (slot : Z) : coord H :=
  post (set_c_rt c (lxp_primary_slot_mark (c_rt c) slot)).

Definition capture_ctx c (s : Z) f : coord H :=
  let sl := slot_at (c_rt c) s in
  let ctx := mk_resume (map (fun i => freg f (4 + i)) [0; 1; 2; 3; 4; 5; 6; 7]) (freg f 12) (freg f 14)
               (freg f 13) (Z.lor (freg f 15) 1) (freg f 1) (freg f 2) (freg f 3) (f_xpsr f) in
  set_c_rt c (put_slot (c_rt c) s
    (mk_slot (sl_proc sl) ctx (sl_deferred sl) (freg f 0) (sl_generation sl) (sl_host_state sl)
       (sl_runnable sl))).

Definition lxp_lifecycle_prepare_park c (sidx : Z) (ctx : lxp_resume_ctx) : Z * coord H :=
  match park_prepare core, park_slot ops with
  | Some prepare, Some _ =>
      if negb (slot_in sidx) then (0, c)
      else let '(token, h) := prepare (c_h c) (c_rt c) (lxp_slot_ref_at (c_rt c) sidx) ctx in
           (token, set_c_h c h)
  | _, _ => (0, c)
  end.

Definition lxp_park_frame c f (slot : Z) : lxp_frame * coord H :=
  let c := capture_ctx c slot f in
  let '(token, c) := lxp_lifecycle_prepare_park c slot (sl_resume (slot_at (c_rt c) slot)) in
  let f := set_freg f 0 (u32 token) in
  let f := set_freg f 15 (u32 (Z.land (park_entry core) (u32 (Z.lnot 1)))) in
  let f := set_f_xpsr f (Z.lor (f_xpsr f) (Z.shiftl 1 24)) in
  (f, lxp_event_post_slot c slot).

(** ** src/lxp_signal.c *)

(** The code, or the entry, GOT and restorer. *)
Definition lxp_resolve_handler c (slot sig : Z) : Z + (Z * Z * Z) :=
  let proc := cproc c slot in
  let h := lxp_sig_handler_get (sighand_of c proc) sig in
  let r := lxp_sig_restorer_get (sighand_of c proc) in
  if negb (p_is_fdpic proc =? 0)
  then match lxp_copy_from_guest (rt_genv (c_rt c)) (rt_mem (c_rt c)) slot h 8,
             lxp_guest_get_u32 (rt_genv (c_rt c)) (rt_mem (c_rt c)) slot r with
       | inr descriptor, inr restore_entry =>
           inr (le_val (take 4 descriptor), le_val (take 4 (drop 4 descriptor)), restore_entry)
       | _, _ => inl (- LXP_EFAULT)
       end
  else inr (h, 0, r).

Definition set_ss_saved_mask (s : sig_save) (m : Z) : sig_save :=
  mk_save (ss_r0 s) (ss_r1 s) (ss_r2 s) (ss_r3 s) (ss_r7 s) (ss_r9 s) (ss_r12 s) (ss_lr s) (ss_pc s)
    (ss_xpsr s) m.

(** The index of the reserved frame, [None] when there is no room. *)
Definition lxp_sig_save_push c (slot sig : Z) : option Z * coord H :=
  if negb (slot_in slot) then (None, c)
  else
    let stack := stack_at c slot in
    if st_depth stack >=? LXP_SIGNAL_NEST_MAX then (None, c)
    else
      let i := st_depth stack in
      let proc := cproc c slot in
      let '(mask, proc) := if negb (p_sigsuspend_active proc =? 0)
                           then (p_sigsuspend_saved_mask proc, set_p_sigsuspend_active proc 0)
                           else (p_sig_blocked proc, proc) in
      let sv := set_ss_saved_mask (aget save_zero (st_frame stack) i) mask in
      let c := put_stack c slot (mk_stack (aset (st_frame stack) i sv) (u8 (i + 1))) in
      let proc := set_p_sig_blocked proc (Z.lor (p_sig_blocked proc) (lxp_sig_bit sig)) in
      (Some i, put_cproc c slot proc).

Definition lxp_signal_prepare c (slot sig : Z) : lxp_signal_action * lxp_signal_delivery * coord H :=
  if (sig <? 1) || (sig >=? LXP_NSIG) then (LXP_SIGNAL_INVALID, delivery_zero, c)
  else
    let proc := cproc c slot in
    let sh := sighand_of c proc in
    if lxp_sig_stops_proc sh sig then (LXP_SIGNAL_STOP, delivery_zero, c)
    else if lxp_sig_swallowed sh sig then (LXP_SIGNAL_IGNORE, delivery_zero, c)
    else
      let handler := lxp_sig_handler_get sh sig in
      if handler =? LXP_SIG_DFL
      then (LXP_SIGNAL_TERMINATE, delivery_zero,
            put_cproc c slot (lxp_signal_terminate proc sig LXP_EXIT_REASON_SIGNAL 0 0))
      else match lxp_resolve_handler c slot sig with
           | inl _ => (LXP_SIGNAL_TERMINATE, delivery_zero,
                       put_cproc c slot (lxp_signal_terminate proc LXP_SIGSEGV LXP_EXIT_REASON_MEMORY_FAULT
                                           0 handler))
           | inr (entry, got, restorer) =>
               let '(save, c) := lxp_sig_save_push c slot sig in
               match save with
               | None => (LXP_SIGNAL_TERMINATE, mk_delivery entry got restorer 0,
                          put_cproc c slot (lxp_signal_terminate (cproc c slot) LXP_SIGSEGV
                                              LXP_EXIT_REASON_SIGNAL_DEPTH 0 0))
               | Some i => (LXP_SIGNAL_HANDLER, mk_delivery entry got restorer i, c)
               end
           end.

(** Fill the reserved frame; its mask is already there. *)
Definition fill_save c (slot i : Z) (r0 r1 r2 r3 r7 r9 r12 lr pc xpsr : Z) : coord H :=
  let stack := stack_at c slot in
  let sv := aget save_zero (st_frame stack) i in
  put_stack c slot (mk_stack (aset (st_frame stack) i
                      (mk_save r0 r1 r2 r3 r7 r9 r12 lr pc xpsr (ss_saved_mask sv))) (st_depth stack)).

Definition lxp_deliver_signal c f (slot sig ret : Z) : lxp_frame * coord H :=
  if (sig <? 1) || (sig >=? LXP_NSIG) then (set_freg f 0 (u32 (- LXP_EINVAL)), c)
  else if lxp_sig_blocked (cproc c slot) sig
  then (set_freg f 0 (u32 ret), put_cproc c slot (lxp_signal_latch (cproc c slot) sig))
  else
    let '(action, delivery, c) := lxp_signal_prepare c slot sig in
    match action with
    | LXP_SIGNAL_STOP =>
        let proc := cproc c slot in
        let proc := set_p_stopped proc 1 in
        let proc := set_p_stop_kind proc LXP_STOP_READY in
        let proc := set_p_stop_sig proc (u8 sig) in
        let proc := set_p_stop_r0 proc ret in
        lxp_park_frame (put_cproc c slot proc) f slot
    | LXP_SIGNAL_IGNORE => (set_freg f 0 (u32 ret), c)
    | LXP_SIGNAL_TERMINATE => lxp_park_frame c f slot
    | LXP_SIGNAL_INVALID => (set_freg f 0 (u32 (- LXP_EINVAL)), c)
    | LXP_SIGNAL_HANDLER =>
        let c := fill_save c slot (dl_save delivery) (u32 ret) (freg f 1) (freg f 2) (freg f 3) (freg f 7)
                   (freg f 9) (freg f 12) (freg f 14) (freg f 15) (f_xpsr f) in
        let f := if negb (p_is_fdpic (cproc c slot) =? 0) then set_freg f 9 (dl_got delivery) else f in
        let f := set_freg f 15 (u32 (Z.land (dl_entry delivery) (u32 (Z.lnot 1)))) in
        let f := set_freg f 0 (u32 sig) in
        let f := set_freg f 14 (u32 (Z.lor (dl_restorer delivery) 1)) in
        (set_f_xpsr f (Z.lor (f_xpsr f) (Z.shiftl 1 24)), c)
    end.

Definition lxp_sig_restore c f (slot : Z) : lxp_frame * coord H :=
  if negb (slot_in slot) then (f, c)
  else
    let stack := stack_at c slot in
    if st_depth stack =? 0 then (f, c)
    else
      let sv := aget save_zero (st_frame stack) (st_depth stack - 1) in
      let c := put_cproc c slot (set_p_sig_blocked (cproc c slot) (ss_saved_mask sv)) in
      let f := set_freg f 0 (ss_r0 sv) in
      let f := set_freg f 1 (ss_r1 sv) in
      let f := set_freg f 2 (ss_r2 sv) in
      let f := set_freg f 3 (ss_r3 sv) in
      let f := set_freg f 7 (ss_r7 sv) in
      let f := set_freg f 9 (ss_r9 sv) in
      let f := set_freg f 12 (ss_r12 sv) in
      let f := set_freg f 14 (ss_lr sv) in
      let f := set_freg f 15 (Z.land (ss_pc sv) (u32 (Z.lnot 1))) in
      (set_f_xpsr f (ss_xpsr sv), put_stack c slot (mk_stack (st_frame stack) (u8 (st_depth stack - 1)))).

(** src/lxp_run.c: a slot's frames at image replacement and at fork. *)
Definition lxp_slot_signal_reset c (slot : Z) : coord H := put_stack c slot stack_zero.
Definition lxp_slot_signal_clone c (child_slot parent_slot : Z) : coord H :=
  put_stack c child_slot (stack_at c parent_slot).

End Signal.
