(* ===== verification/SignalProps.v ===== *)
(** * Properties of signal delivery

    The per-slot frames behave as a stack: a delivery pushes the interrupted context, a
    return takes back exactly what the matching delivery saved, however the handler and the
    signals nested in it ran in between. *)

From S2P Require Import Prelude Config Errno Proc Pool Fd Guest Wait Arena Process Runtime Event Region Lifecycle Signal.
Local Open Scope Z_scope.

Definition stack_wf (st : sig_save_stack) : Prop :=
  alen (st_frame st) = LXP_SIGNAL_NEST_MAX /\ 0 <= st_depth st <= LXP_SIGNAL_NEST_MAX.

Definition frame_wf (f : lxp_frame) : Prop := alen (f_r f) = 16.

Section SignalProps.
Context {H : Type} (ops : os_task H) (core : os_core H).
Implicit Types (c : coord H) (f g : lxp_frame).

Definition coord_wf c : Prop :=
  alen (rt_slots (c_rt c)) = LXP_NSLOT /\ alen (c_save c) = LXP_NSLOT /\ Forall stack_wf (c_save c).

(** The contexts a slot has to return to, oldest first. *)
Definition frames c (slot : Z) : list sig_save :=
  take (Z.to_nat (st_depth (stack_at c slot))) (st_frame (stack_at c slot)).

(** The context of frame [f] interrupted with result [ret] under [mask]. *)
Definition interrupted f (ret mask : Z) : sig_save :=
  mk_save (u32 ret) (freg f 1) (freg f 2) (freg f 3) (freg f 7) (freg f 9) (freg f 12) (freg f 14)
    (freg f 15) (f_xpsr f) mask.

(** The mask a delivery to the task returns to. *)
Definition return_mask (p : lxp_proc) : Z :=
  if negb (p_sigsuspend_active p =? 0) then p_sigsuspend_saved_mask p else p_sig_blocked p.

(** *** Slots and stacks *)

Lemma slot_in_range slot : slot_in slot = true <-> 0 <= slot < LXP_NSLOT.
Proof. unfold slot_in. lia. Qed.

Lemma stack_at_wf c slot : coord_wf c -> slot_in slot = true -> stack_wf (stack_at c slot).
Proof.
  intros (_ & Hl & Hf) Hs%slot_in_range. apply (Forall_aget _ stack_zero); [done|]. lia.
Qed.

Lemma put_stack_wf c slot st : coord_wf c -> stack_wf st -> coord_wf (put_stack c slot st).
Proof.
  intros (Hr & Hl & Hf) Hst. unfold put_stack, set_c_save. split; [done|]. cbn [c_save].
  split; [by rewrite alen_aset|by apply Forall_aset].
Qed.

Lemma stack_at_put c slot st :
  coord_wf c -> slot_in slot = true -> stack_at (put_stack c slot st) slot = st.
Proof.
  intros (_ & Hl & _) Hs%slot_in_range. unfold stack_at, put_stack, set_c_save. cbn [c_save].
  apply aget_aset_eq. lia.
Qed.

Lemma put_cproc_wf c slot p : coord_wf c -> coord_wf (put_cproc c slot p).
Proof.
  intros (Hr & Hl & Hf). unfold put_cproc, put_proc, put_slot, set_c_rt, set_rt_slots.
  split; [|done]. cbn [c_rt rt_slots]. by rewrite alen_aset.
Qed.

Lemma cproc_put c slot p : coord_wf c -> slot_in slot = true -> cproc (put_cproc c slot p) slot = p.
Proof.
  intros (Hr & _) Hs%slot_in_range.
  unfold cproc, put_cproc, sproc, put_proc, put_slot, set_c_rt, set_rt_slots, slot_at.
  cbn [c_rt rt_slots]. rewrite aget_aset_eq by lia. done.
Qed.

Lemma stack_at_put_cproc c slot p s : stack_at (put_cproc c slot p) s = stack_at c s.
Proof. done. Qed.

Lemma cproc_put_stack c slot st s : cproc (put_stack c slot st) s = cproc c s.
Proof. done. Qed.

(** Pushing one frame on a stack array. *)
Lemma take_push (l : list sig_save) d sv :
  0 <= d < alen l -> take (Z.to_nat (d + 1)) (aset l d sv) = take (Z.to_nat d) l ++ [sv].
Proof.
  intros Hd. unfold alen in Hd. replace (Z.to_nat (d + 1)) with (S (Z.to_nat d)) by lia.
  unfold aset. rewrite (take_S_r _ _ sv).
  - by rewrite take_insert_ge by lia.
  - apply list_lookup_insert_eq. lia.
Qed.

(** *** The push *)

Lemma sig_save_push_spec c slot sig i c' :
  coord_wf c -> slot_in slot = true -> lxp_sig_save_push c slot sig = (Some i, c') ->
  coord_wf c' /\ i = st_depth (stack_at c slot) /\ i < LXP_SIGNAL_NEST_MAX /\
  st_depth (stack_at c' slot) = i + 1 /\
  alen (st_frame (stack_at c' slot)) = LXP_SIGNAL_NEST_MAX /\
  take (Z.to_nat i) (st_frame (stack_at c' slot)) = frames c slot /\
  ss_saved_mask (aget save_zero (st_frame (stack_at c' slot)) i) = return_mask (cproc c slot) /\
  p_sig_blocked (cproc c' slot) = Z.lor (p_sig_blocked (cproc c slot)) (lxp_sig_bit sig) /\
  p_is_fdpic (cproc c' slot) = p_is_fdpic (cproc c slot).
Proof.
  intros Hwf Hs. unfold lxp_sig_save_push. rewrite Hs. cbn [negb].
  pose proof (stack_at_wf c slot Hwf Hs) as (Hlen & Hd).
  destruct (_ >=? _) eqn:Hfull; [done|].
  set (p2 := if negb (p_sigsuspend_active (cproc c slot) =? 0) then _ else _).
  destruct p2 as [mask proc] eqn:E. intros [= <- <-].
  assert (Hp2 : mask = return_mask (cproc c slot) /\
                p_sig_blocked proc = p_sig_blocked (cproc c slot) /\
                p_is_fdpic proc = p_is_fdpic (cproc c slot)).
  { unfold return_mask, p2 in *. destruct (negb _) in *; by injection E as <- <-. }
  destruct Hp2 as (Hmask & Hbl & Hfd).
  set (st := mk_stack _ _).
  assert (Hst : stack_wf st).
  { unfold st. split; cbn [st_frame st_depth]; [by rewrite alen_aset|].
    rewrite u8_small by (unfold LXP_SIGNAL_NEST_MAX in *; lia). lia. }
  pose proof (put_stack_wf c slot st Hwf Hst) as Hwf1.
  rewrite stack_at_put_cproc, stack_at_put, cproc_put by done.
  split; [by apply put_cproc_wf|]. split; [done|]. split; [lia|].
  unfold st. cbn [st_frame st_depth].
  split; [apply u8_small; unfold LXP_SIGNAL_NEST_MAX in *; lia|].
  split; [by rewrite alen_aset|].
  split; [unfold frames, aset; by rewrite take_insert_ge by lia|].
  split; [rewrite aget_aset_eq by lia; exact Hmask|].
  split; [cbn; by rewrite Hbl|done].
Qed.

(** *** Delivery *)

(** What a delivery to a handler does: the context is pushed under the return mask, the
    signal is blocked, and the frame enters the handler with the signal number. *)
Definition enters f g (sig : Z) (d : lxp_signal_delivery) (fdpic : bool) : Prop :=
  freg g 0 = u32 sig /\ freg g 15 = u32 (Z.land (dl_entry d) (u32 (Z.lnot 1))) /\
  freg g 14 = u32 (Z.lor (dl_restorer d) 1) /\ freg g 9 = (if fdpic then dl_got d else freg f 9) /\
  forall i, i ∈ [1; 2; 3; 4; 5; 6; 7; 8; 10; 11; 12; 13] -> freg g i = freg f i.

Lemma freg_set f i j v :
  frame_wf f -> 0 <= i < 16 -> 0 <= j < 16 -> freg (set_freg f i v) j = if decide (i = j) then v else freg f j.
Proof. intros Hf Hi Hj. unfold freg, set_freg. cbn [f_r]. apply aget_aset; [by rewrite Hf|lia]. Qed.

Lemma set_freg_wf f i v : frame_wf f -> frame_wf (set_freg f i v).
Proof. intros Hf. unfold frame_wf, set_freg. cbn [f_r]. by rewrite alen_aset. Qed.

Lemma fill_save_spec c slot i r0 r1 r2 r3 r7 r9 r12 lr pc xpsr c0 :
  coord_wf c -> slot_in slot = true -> 0 <= i -> st_depth (stack_at c slot) = i + 1 ->
  take (Z.to_nat i) (st_frame (stack_at c slot)) = frames c0 slot ->
  let c' := fill_save c slot i r0 r1 r2 r3 r7 r9 r12 lr pc xpsr in
  coord_wf c' /\
  frames c' slot = frames c0 slot ++
    [mk_save r0 r1 r2 r3 r7 r9 r12 lr pc xpsr (ss_saved_mask (aget save_zero (st_frame (stack_at c slot)) i))] /\
  cproc c' slot = cproc c slot.
Proof.
  intros Hwf Hs Hi Hd Ht c'. unfold c', fill_save. rewrite Hd.
  pose proof (stack_at_wf c slot Hwf Hs) as (Hl & Hdep).
  split; [apply put_stack_wf; [done|]; split; cbn [st_frame st_depth]; [by rewrite alen_aset|lia]|].
  split; [|done]. unfold frames at 1. rewrite stack_at_put by done. cbn [st_frame st_depth].
  rewrite take_push by lia. by rewrite Ht.
Qed.

Lemma prepare_handler_spec c slot sig d c' :
  coord_wf c -> slot_in slot = true -> lxp_signal_prepare c slot sig = (LXP_SIGNAL_HANDLER, d, c') ->
  exists c0, lxp_sig_save_push c slot sig = (Some (dl_save d), c0) /\ c' = c0.
Proof.
  intros Hwf Hs. unfold lxp_signal_prepare.
  do 4 (case_goal; [done|]).
  destruct (lxp_resolve_handler c slot sig) as [e|[[entry got] restorer]]; [done|].
  destruct (lxp_sig_save_push c slot sig) as [[i|] c0] eqn:E; [|done].
  intros [= <- <-]. by exists c0.
Qed.

Lemma deliver_handler_spec c f slot sig ret d c' :
  coord_wf c -> slot_in slot = true -> frame_wf f -> lxp_sig_blocked (cproc c slot) sig = false ->
  lxp_signal_prepare c slot sig = (LXP_SIGNAL_HANDLER, d, c') ->
  let '(f1, c1) := lxp_deliver_signal ops core c f slot sig ret in
  coord_wf c1 /\ frame_wf f1 /\
  frames c1 slot = frames c slot ++ [interrupted f ret (return_mask (cproc c slot))] /\
  p_sig_blocked (cproc c1 slot) = Z.lor (p_sig_blocked (cproc c slot)) (lxp_sig_bit sig) /\
  enters f f1 sig d (negb (p_is_fdpic (cproc c slot) =? 0)).
Proof.
  intros Hwf Hs Hf Hbl Hprep. unfold lxp_deliver_signal.
  assert (Hsig : (sig <? 1) || (sig >=? LXP_NSIG) = false).
  { unfold lxp_signal_prepare in Hprep. by destruct (_ || _). }
  rewrite Hsig, Hbl, Hprep.
  destruct (prepare_handler_spec _ _ _ _ _ Hwf Hs Hprep) as (c0 & Hpush & ->).
  destruct (sig_save_push_spec _ _ _ _ _ Hwf Hs Hpush) as
    (Hwf1 & Hi & Hlt & Hd & Hl & Ht & Hm & Hb & Hfd).
  pose proof (stack_at_wf c slot Hwf Hs) as (_ & Hdep).
  destruct (fill_save_spec c0 slot (dl_save d) (u32 ret) (freg f 1) (freg f 2) (freg f 3) (freg f 7)
              (freg f 9) (freg f 12) (freg f 14) (freg f 15) (f_xpsr f) c Hwf1 Hs ltac:(lia) Hd Ht)
    as (Hwf2 & Hfr & Hp).
  set (c1 := fill_save _ _ _ _ _ _ _ _ _ _ _ _ _) in *.
  rewrite Hp, Hfd. split; [done|].
  set (g9 := if negb (p_is_fdpic (cproc c slot) =? 0) then set_freg f 9 (dl_got d) else f).
  assert (Hg9 : frame_wf g9) by (unfold g9; destruct (negb _); [by apply set_freg_wf|done]).
  split; [unfold frame_wf, set_f_xpsr; cbn [f_r]; by repeat apply set_freg_wf|].
  split; [rewrite Hfr, Hm; done|]. split; [by rewrite Hb|].
  assert (Hset : forall k, 0 <= k < 16 ->
    freg (set_f_xpsr (set_freg (set_freg (set_freg g9 15 (u32 (Z.land (dl_entry d) (u32 (Z.lnot 1))))) 0 (u32 sig))
            14 (u32 (Z.lor (dl_restorer d) 1)))
            (Z.lor (f_xpsr (set_freg (set_freg (set_freg g9 15 (u32 (Z.land (dl_entry d) (u32 (Z.lnot 1))))) 0 (u32 sig))
            14 (u32 (Z.lor (dl_restorer d) 1)))) (Z.shiftl 1 24))) k =
    if decide (14 = k) then u32 (Z.lor (dl_restorer d) 1)
    else if decide (0 = k) then u32 sig
    else if decide (15 = k) then u32 (Z.land (dl_entry d) (u32 (Z.lnot 1))) else freg g9 k).
  { intros k Hk. unfold set_f_xpsr at 1. unfold freg at 1. cbn [f_r].
    change (aget 0 (f_r ?x) k) with (freg x k).
    rewrite !freg_set by (try lia; repeat apply set_freg_wf; done). done. }
  assert (H9 : forall k, 0 <= k < 16 -> k <> 9 -> freg g9 k = freg f k).
  { intros k Hk Hne. unfold g9. destruct (negb _); [|done]. rewrite freg_set by (done || lia).
    by rewrite decide_False by lia. }
  unfold enters. rewrite !Hset by lia.
  split; [done|]. split; [done|]. split; [done|].
  split.
  - change (freg g9 9 = if negb (p_is_fdpic (cproc c slot) =? 0) then dl_got d else freg f 9).
    unfold g9. destruct (negb _); [|done]. rewrite freg_set by (done || lia). done.
  - intros i Hin. assert (Hr : 0 <= i < 16 /\ i <> 9 /\ i <> 0 /\ i <> 14 /\ i <> 15).
    { repeat (apply elem_of_cons in Hin as [->|Hin]; [lia|]). by apply elem_of_nil in Hin. }
    rewrite Hset by lia. rewrite !decide_False by lia. apply H9; lia.
Qed.

(** *** Return *)

(** What a return leaves in the frame [g] it is called with: the saved registers, and the
    others as the handler left them. *)
Definition returns (sv : sig_save) g g' : Prop :=
  [freg g' 0; freg g' 1; freg g' 2; freg g' 3; freg g' 7; freg g' 9; freg g' 12; freg g' 14] =
  [ss_r0 sv; ss_r1 sv; ss_r2 sv; ss_r3 sv; ss_r7 sv; ss_r9 sv; ss_r12 sv; ss_lr sv] /\
  freg g' 15 = Z.land (ss_pc sv) (u32 (Z.lnot 1)) /\ f_xpsr g' = ss_xpsr sv /\
  forall i, i ∈ [4; 5; 6; 8; 10; 11; 13] -> freg g' i = freg g i.

Lemma frames_pop c slot fs sv :
  coord_wf c -> slot_in slot = true -> frames c slot = fs ++ [sv] ->
  let st := stack_at c slot in
  0 < st_depth st <= LXP_SIGNAL_NEST_MAX /\ aget save_zero (st_frame st) (st_depth st - 1) = sv /\
  take (Z.to_nat (st_depth st - 1)) (st_frame st) = fs.
Proof.
  intros Hwf Hs Hfr st. pose proof (stack_at_wf c slot Hwf Hs) as (Hl & Hd). fold st in Hl, Hd.
  unfold frames in Hfr. fold st in Hfr. unfold alen in Hl.
  assert (Hpos : 0 < st_depth st).
  { destruct (decide (st_depth st = 0)) as [E|]; [|lia]. rewrite E in Hfr. cbn in Hfr.
    by destruct fs. }
  split; [lia|].
  destruct (lookup_lt_is_Some_2 (st_frame st) (Z.to_nat (st_depth st - 1))) as [x Hx]; [lia|].
  replace (Z.to_nat (st_depth st)) with (S (Z.to_nat (st_depth st - 1))) in Hfr by lia.
  rewrite (take_S_r _ _ x Hx) in Hfr. apply app_inj_tail in Hfr as [Hfs <-].
  split; [by apply aget_lookup|done].
Qed.

Lemma restore_spec c g slot fs sv :
  coord_wf c -> slot_in slot = true -> frame_wf g -> frames c slot = fs ++ [sv] ->
  let '(g', c') := lxp_sig_restore c g slot in
  coord_wf c' /\ frame_wf g' /\ frames c' slot = fs /\ p_sig_blocked (cproc c' slot) = ss_saved_mask sv /\
  returns sv g g'.
Proof.
  intros Hwf Hs Hg Hfr. unfold lxp_sig_restore. rewrite Hs. cbn [negb].
  destruct (frames_pop c slot fs sv Hwf Hs Hfr) as (Hd & Hsv & Ht).
  pose proof (stack_at_wf c slot Hwf Hs) as (Hl & _).
  replace (st_depth (stack_at c slot) =? 0) with false by lia. rewrite Hsv.
  rewrite (u8_small (st_depth (stack_at c slot) - 1)) by (unfold LXP_SIGNAL_NEST_MAX in *; lia).
  set (c0 := put_cproc c slot _). set (st := mk_stack _ _).
  assert (Hc0 : coord_wf c0) by by apply put_cproc_wf.
  assert (Hst : stack_wf st) by (unfold st; split; cbn [st_frame st_depth]; [done|lia]).
  split; [by apply put_stack_wf|].
  split; [unfold frame_wf, set_f_xpsr; cbn [f_r]; by repeat apply set_freg_wf|].
  split; [unfold frames; rewrite stack_at_put by done; exact Ht|].
  split; [rewrite cproc_put_stack; unfold c0; rewrite cproc_put by done; done|].
  clear Ht Hsv Hst Hc0 st c0.
  assert (Hget : forall (r : lxp_frame) x k, freg (set_f_xpsr r x) k = freg r k) by done.
  unfold returns. rewrite !Hget.
  split; [|split; [|split; [done|]]].
  - rewrite !freg_set by (try lia; repeat apply set_freg_wf; done). done.
  - rewrite !freg_set by (try lia; repeat apply set_freg_wf; done). done.
  - intros i Hin. rewrite Hget.
    assert (Hr : 0 <= i < 16 /\ Forall (fun j => j <> i) [0; 1; 2; 3; 7; 9; 12; 14; 15]).
    { repeat (apply elem_of_cons in Hin as [->|Hin]; [split; [lia|by apply (bool_decide_unpack _)]|]).
      by apply elem_of_nil in Hin. }
    destruct Hr as (Hi & Hne). rewrite !Forall_cons in Hne.
    rewrite !freg_set by (try lia; repeat apply set_freg_wf; done).
    rewrite !decide_False by lia. done.
Qed.

(** *** Nesting *)

(** What may happen in a slot between a delivery and its return: anything that leaves the
    saved contexts alone, and complete deliveries nested in the handler. *)
Inductive handler_run (slot : Z) : coord H -> coord H -> Prop :=
  | run_steps c c' : coord_wf c' -> frames c' slot = frames c slot -> handler_run slot c c'
  | run_nested c f sig ret d cp f1 c1 c2 g g' c3 :
      frame_wf f -> frame_wf g -> lxp_sig_blocked (cproc c slot) sig = false ->
      lxp_signal_prepare c slot sig = (LXP_SIGNAL_HANDLER, d, cp) ->
      lxp_deliver_signal ops core c f slot sig ret = (f1, c1) ->
      handler_run slot c1 c2 -> lxp_sig_restore c2 g slot = (g', c3) -> handler_run slot c c3
  | run_then c1 c2 c3 : handler_run slot c1 c2 -> handler_run slot c2 c3 -> handler_run slot c1 c3.

Lemma handler_run_frames slot c c' :
  slot_in slot = true -> handler_run slot c c' -> coord_wf c ->
  coord_wf c' /\ frames c' slot = frames c slot.
Proof.
  intros Hs Hrun. induction Hrun as
    [|c f sig ret d cp f1 c1 c2 g g' c3 Hf Hg Hbl Hprep Hdel Hrun IH Hres|c1 c2 c3 H1 IH1 H2 IH2];
    intros Hwf; [done| |].
  - pose proof (deliver_handler_spec c f slot sig ret d cp Hwf Hs Hf Hbl Hprep) as Hd.
    rewrite Hdel in Hd. destruct Hd as (Hwf1 & _ & Hfr1 & _).
    destruct (IH Hwf1) as (Hwf2 & Hfr2). rewrite Hfr1 in Hfr2.
    pose proof (restore_spec c2 g slot _ _ Hwf2 Hs Hg Hfr2) as Hr.
    rewrite Hres in Hr. by destruct Hr as (Hwf3 & _ & Hfr3 & _).
  - destruct (IH1 Hwf) as (Hw & E1). destruct (IH2 Hw) as (Hw' & E2). split; [done|congruence].
Qed.

End SignalProps.

(** C8: rt_sigreturn undoes signal delivery.  After a signal enters its handler on a live
    frame, and after any run of the handler with any signals nested in it (each delivered
    and returned from), the return gives back the interrupted call's result, r1-r3, r7, r9,
    r12, lr, pc and xPSR whatever frame it is called with, restores the mask of before the
    delivery (of before rt_sigsuspend, if that was being waited in), and leaves the slot
    with the saved contexts it had. *)
Theorem signal_return_restores {H} (ops : os_task H) (core : os_core H) (c : coord H) f slot sig ret d cp
    f1 c1 c2 g g' c3 :
  coord_wf c -> slot_in slot = true -> frame_wf f -> frame_wf g ->
  lxp_sig_blocked (cproc c slot) sig = false ->
  lxp_signal_prepare c slot sig = (LXP_SIGNAL_HANDLER, d, cp) ->
  lxp_deliver_signal ops core c f slot sig ret = (f1, c1) ->
  handler_run ops core slot c1 c2 -> lxp_sig_restore c2 g slot = (g', c3) ->
  enters f f1 sig d (negb (p_is_fdpic (cproc c slot) =? 0)) /\
  p_sig_blocked (cproc c1 slot) = Z.lor (p_sig_blocked (cproc c slot)) (lxp_sig_bit sig) /\
  returns (interrupted f ret (return_mask (cproc c slot))) g g' /\
  p_sig_blocked (cproc c3 slot) = return_mask (cproc c slot) /\ frames c3 slot = frames c slot.
Proof.
  intros Hwf Hs Hf Hg Hbl Hprep Hdel Hrun Hres.
  pose proof (deliver_handler_spec ops core c f slot sig ret d cp Hwf Hs Hf Hbl Hprep) as Hd.
  rewrite Hdel in Hd. destruct Hd as (Hwf1 & _ & Hfr1 & Hm1 & Hent).
  destruct (handler_run_frames ops core slot c1 c2 Hs Hrun Hwf1) as (Hwf2 & Hfr2). rewrite Hfr1 in Hfr2.
  pose proof (restore_spec c2 g slot _ _ Hwf2 Hs Hg Hfr2) as Hr.
  rewrite Hres in Hr. destruct Hr as (_ & _ & Hfr3 & Hm & Hret). done.
Qed.

(** *** Witness: SIGUSR1 caught in slot 0, and SIGUSR2 caught inside its handler. *)

Definition demo_sighand : lxp_sighand :=
  mk_sighand 1 (aset (aset (replicate 65 0) LXP_SIGUSR1 0x20001001) LXP_SIGUSR2 0x20001101) 0x20002001 0.
Definition demo_sig_rt : lxp_runtime :=
  put_proc (set_rt_k demo_rt (set_k_sighand (rt_k demo_rt) [demo_sighand])) 0
    (set_p_sighand demo_proc (Some 0)).
Definition demo_ops : os_task unit := mk_os_task None None None None.
Definition demo_core : os_core unit := mk_os_core None None 0.
Definition demo_coord : coord unit := mk_coord tt demo_sig_rt (replicate 12 stack_zero).
Definition demo_frame : lxp_frame := mk_frame (map (fun i => 0x100 + i) (seqZ 0 15) ++ [0x20000400]) 0x01000000.

Lemma fresh_saves_wf {H} (c : coord H) :
  alen (rt_slots (c_rt c)) = LXP_NSLOT -> c_save c = replicate 12 stack_zero -> coord_wf c.
Proof.
  intros Hl E. split; [done|]. rewrite E. split; [done|]. apply Forall_replicate. split; [done|].
  cbn. unfold LXP_SIGNAL_NEST_MAX. lia.
Qed.

Lemma demo_coord_wf : coord_wf demo_coord.
Proof. by apply fresh_saves_wf. Qed.

Definition demo_first : lxp_frame * coord unit :=
  lxp_deliver_signal demo_ops demo_core demo_coord demo_frame 0 LXP_SIGUSR1 (-4).
Definition demo_second : lxp_frame * coord unit :=
  lxp_deliver_signal demo_ops demo_core demo_first.2 demo_first.1 0 LXP_SIGUSR2 0.
Definition demo_after : coord unit := (lxp_sig_restore demo_second.2 demo_frame 0).2.

Lemma demo_first_wf : coord_wf demo_first.2 /\ frame_wf demo_first.1.
Proof.
  pose proof (deliver_handler_spec demo_ops demo_core demo_coord demo_frame 0 LXP_SIGUSR1 (-4)
    (lxp_signal_prepare demo_coord 0 LXP_SIGUSR1).1.2 (lxp_signal_prepare demo_coord 0 LXP_SIGUSR1).2
    demo_coord_wf eq_refl eq_refl eq_refl eq_refl) as Hd.
  unfold demo_first. by destruct (lxp_deliver_signal _ _ _ _ _ _ _) as [f1 c1], Hd as (? & ? & _).
Qed.

Lemma demo_second_wf : coord_wf demo_second.2.
Proof.
  destruct demo_first_wf as (Hw & Hf).
  pose proof (deliver_handler_spec demo_ops demo_core demo_first.2 demo_first.1 0 LXP_SIGUSR2 0
    (lxp_signal_prepare demo_first.2 0 LXP_SIGUSR2).1.2 (lxp_signal_prepare demo_first.2 0 LXP_SIGUSR2).2
    Hw eq_refl Hf eq_refl eq_refl) as Hd.
  unfold demo_second. by destruct (lxp_deliver_signal _ _ _ _ _ _ _) as [f1 c1], Hd as (? & ? & _).
Qed.

Lemma signal_return_restores_witness :
  returns (interrupted demo_frame (-4) 0) demo_frame (lxp_sig_restore demo_after demo_frame 0).1 /\
  frames demo_second.2 0 <> [] /\ frames (lxp_sig_restore demo_after demo_frame 0).2 0 = [].
Proof.
  assert (Hrun : handler_run demo_ops demo_core 0 demo_first.2 demo_after).
  { destruct demo_first_wf as (Hw & Hf).
    eapply run_nested with (f := demo_first.1) (sig := LXP_SIGUSR2) (ret := 0) (g := demo_frame)
      (f1 := demo_second.1) (c1 := demo_second.2) (c2 := demo_second.2)
      (d := (lxp_signal_prepare demo_first.2 0 LXP_SIGUSR2).1.2)
      (cp := (lxp_signal_prepare demo_first.2 0 LXP_SIGUSR2).2)
      (g' := (lxp_sig_restore demo_second.2 demo_frame 0).1); try done.
    apply run_steps; [apply demo_second_wf|done]. }
  destruct (signal_return_restores demo_ops demo_core demo_coord demo_frame 0 LXP_SIGUSR1 (-4)
    (lxp_signal_prepare demo_coord 0 LXP_SIGUSR1).1.2 (lxp_signal_prepare demo_coord 0 LXP_SIGUSR1).2
    demo_first.1 demo_first.2 demo_after demo_frame (lxp_sig_restore demo_after demo_frame 0).1
    (lxp_sig_restore demo_after demo_frame 0).2
    demo_coord_wf eq_refl eq_refl eq_refl eq_refl eq_refl eq_refl Hrun eq_refl)
    as (_ & _ & Hret & _ & Hfr).
  split; [exact Hret|]. split; [vm_compute; discriminate|exact Hfr].
Defined.
