(* ===== verification/SysSignal.v ===== *)
(** * The signal system calls (src/sys/lxp_sys_signal.c)

    Dispositions, the blocked mask, sigsuspend and the polling sigtimedwait, on the task in
    a slot.  Arguments are the call's [long]s; the guest's structures are read and written
    through the guest boundary. *)

From S2P Require Import Prelude Config Arena Errno Proc Guest Wait Pool Fd Process Runtime Event Region Lifecycle.
From S2P Require Import Signal SignalProps.
Local Open Scope Z_scope.

Definition LXP_SA_RESTORER : Z := 0x04000000.
Definition LXP_SA_RESTART : Z := 0x10000000.
Definition LXP_SIG_BLOCK : Z := 0.
Definition LXP_SIG_UNBLOCK : Z := 1.
Definition LXP_SIG_SETMASK : Z := 2.

(** The 32-bit words of a little-endian buffer. *)
Definition word (bs : list Z) (i : nat) : Z := le_val (take 4 (drop (4 * i) bs)).

(** The complement of a 64-bit mask. *)
Definition not64 (m : Z) : Z := Z.lxor m (Z.ones 64).

(** SIGKILL and SIGSTOP. *)
Definition unblockable : Z := Z.lor (lxp_sig_bit LXP_SIGKILL) (lxp_sig_bit LXP_SIGSTOP).

Section SysSignal.
Context {H : Type}.
Implicit Types (c : coord H).

Definition cgenv c : genv := rt_genv (c_rt c).
Definition cmem c : mem := rt_mem (c_rt c).
Definition set_cmem c (m : mem) : coord H := set_c_rt c (set_rt_mem (c_rt c) m).
Definition put_sighand c (i : Z) (sh : lxp_sighand) : coord H :=
  set_c_rt c (set_rt_k (c_rt c) (set_k_sighand (rt_k (c_rt c)) (aset (k_sighand (rt_k (c_rt c))) i sh))).

(** Successive [lxp_guest_put_u32] calls joined by [||]: the first failure stops. *)
Fixpoint put_words c (slot addr : Z) (ws : list Z) : bool * coord H :=
  match ws with
  | [] => (true, c)
  | w :: rest => let '(rc, m) := lxp_guest_put_u32 (cgenv c) (cmem c) slot addr w in
                 if negb (rc =? 0) then (false, set_cmem c m)
                 else put_words (set_cmem c m) slot (u32 (addr + 4)) rest
  end.

(** The assignment of a new action. *)
Definition sighand_install (sh : lxp_sighand) (sig handler flags restorer : Z) : lxp_sighand :=
  let sh := set_sh_handler sh (aset (sh_handler sh) sig handler) in
  let sh := set_sh_restorer sh restorer in
  set_sh_restart sh (if negb (Z.land flags LXP_SA_RESTART =? 0) then Z.lor (sh_restart sh) (lxp_sig_bit sig)
                     else Z.land (sh_restart sh) (not64 (lxp_sig_bit sig))).

Definition lxp_sys_rt_sigaction c (slot a0 a1 a2 : Z) : Z * coord H :=
  let sig := a0 in
  if (sig <? 1) || (sig >=? LXP_NSIG) then (- LXP_EINVAL, c)
  else
    let uact := u32 a1 in
    let uoact := u32 a2 in
    match (if negb (uact =? 0) then lxp_copy_from_guest (cgenv c) (cmem c) slot uact 12 else inr []) with
    | inl _ => (- LXP_EFAULT, c)
    | inr act =>
        if negb (uoact =? 0) && negb (lxp_guest_access_ok (cgenv c) slot uoact 12 true) then (- LXP_EFAULT, c)
        else
          let sh := sighand_of c (cproc c slot) in
          let oflags := Z.lor (if lxp_sig_restarts sh sig then LXP_SA_RESTART else 0)
                              (if negb (lxp_sig_restorer_get sh =? 0) then LXP_SA_RESTORER else 0) in
          let '(ok, c) := if negb (uoact =? 0)
                          then put_words c slot uoact [lxp_sig_handler_get sh sig; oflags; lxp_sig_restorer_get sh]
                          else (true, c) in
          if negb ok then (- LXP_EFAULT, c)
          else if negb (uact =? 0)
          then match p_sighand (cproc c slot) with
               | Some i => (0, put_sighand c i (sighand_install (aget sighand_zero (k_sighand (rt_k (c_rt c))) i)
                                                  sig (word act 0) (word act 1) (word act 2)))
               | None => (0, c)
               end
          else (0, c)
    end.

(** The mask in a guest sigset of [sz] bytes: whole words only. *)
Definition sigset_value (sz : Z) (bs : list Z) : Z :=
  Z.lor (if sz >=? 4 then word bs 0 else 0) (if sz >=? 8 then Z.shiftl (word bs 1) 32 else 0).

Definition lxp_sys_rt_sigprocmask c (slot a0 a1 a2 a3 : Z) : Z * coord H :=
  let how := a0 in
  let uset := u32 a1 in
  let uold := u32 a2 in
  let sz := u32 a3 in
  if sz >? 8 then (- LXP_EINVAL, c)
  else if negb (uset =? 0) && negb (lxp_guest_access_ok (cgenv c) slot uset sz false) then (- LXP_EFAULT, c)
  else if negb (uold =? 0) && negb (lxp_guest_access_ok (cgenv c) slot uold sz true) then (- LXP_EFAULT, c)
  else
    match (if negb (uset =? 0)
           then if negb (how =? LXP_SIG_BLOCK) && negb (how =? LXP_SIG_UNBLOCK) && negb (how =? LXP_SIG_SETMASK)
                then inl (- LXP_EINVAL)
                else match lxp_copy_from_guest (cgenv c) (cmem c) slot uset sz with
                     | inl _ => inl (- LXP_EFAULT)
                     | inr bs => inr (sigset_value sz bs)
                     end
           else inr 0) with
    | inl e => (e, c)
    | inr nv =>
        let old := p_sig_blocked (cproc c slot) in
        let n := if sz >=? 8 then 8 else if sz >=? 4 then 4 else 0 in
        let '(rc, c) :=
          if negb (uold =? 0) && negb (n =? 0)
          then let '(rc, m) := lxp_copy_to_guest (cgenv c) (cmem c) slot uold
                                 (take (Z.to_nat n) (bytes32 (u32 old) ++ bytes32 (u32 (Z.shiftr old 32)))) in
               (rc, set_cmem c m)
          else (0, c) in
        if negb (rc =? 0) then (- LXP_EFAULT, c)
        else if negb (uset =? 0)
        then let m := if how =? LXP_SIG_BLOCK then Z.lor old nv
                      else if how =? LXP_SIG_UNBLOCK then Z.land old (not64 nv) else nv in
             (0, put_cproc c slot (set_p_sig_blocked (cproc c slot) (Z.land m (not64 unblockable))))
        else (0, c)
    end.

Definition lxp_sys_rt_sigsuspend (now : option Z) c (slot a0 a1 : Z) : Z * coord H :=
  let uset := u32 a0 in
  let sz := u32 a1 in
  if negb (sz =? 8) then (- LXP_EINVAL, c)
  else
    match (if uset =? 0 then inl 0 else lxp_copy_from_guest (cgenv c) (cmem c) slot uset 8) with
    | inl _ => (- LXP_EFAULT, c)
    | inr w =>
        let m := Z.land (Z.lor (word w 0) (Z.shiftl (word w 1) 32)) (not64 unblockable) in
        let p := cproc c slot in
        let p := set_p_sigsuspend_saved_mask p (p_sig_blocked p) in
        let p := set_p_sig_blocked p m in
        let p := set_p_sigsuspend_active p 1 in
        if lxp_pending_deliverable p =? 0
        then let '(rc, p) := lxp_wait_begin now p (mk_wait LXP_WAIT_SIGSUSPEND 0 0 0 WD_NONE) in
             if negb (rc =? 0) then (- LXP_EAGAIN, put_cproc c slot p)
             else (- LXP_EINTR, put_cproc c slot p)
        else (- LXP_EINTR, put_cproc c slot p)
    end.

(** [__builtin_ctzll] of a nonzero value. *)
Fixpoint ctz_from (n : nat) (x i : Z) : Z :=
  match n with O => i | S k => if Z.testbit x i then i else ctz_from k x (i + 1) end.
Definition ctzll (x : Z) : Z := ctz_from 64 x 0.

Definition lxp_sys_rt_sigtimedwait_time64 c (slot a0 a1 a2 a3 : Z) : Z * coord H :=
  let uset := u32 a0 in
  let sz := u32 a3 in
  if sz >? 8 then (- LXP_EINVAL, c)
  else
    match (if negb (uset =? 0)
           then match lxp_copy_from_guest (cgenv c) (cmem c) slot uset sz with
                | inl _ => inl (- LXP_EFAULT)
                | inr bs => inr (sigset_value sz bs)
                end
           else inr 0) with
    | inl e => (e, c)
    | inr set =>
        let p := cproc c slot in
        let ready := Z.land (p_pending_sigs p) set in
        if negb (ready =? 0)
        then let sig := ctzll ready + 1 in
             (sig, put_cproc c slot (set_p_pending_sigs p (Z.land (p_pending_sigs p) (not64 (lxp_sig_bit sig)))))
        else (- LXP_EAGAIN, c)
    end.

End SysSignal.

(** * Properties of the signal system calls *)

Lemma testbit_not64 m i : 0 <= i < 64 -> Z.testbit (not64 m) i = negb (Z.testbit m i).
Proof.
  intros Hi. unfold not64. rewrite Z.lxor_spec, Z.ones_spec_low by lia. apply xorb_true_r.
Qed.

Lemma testbit_unblockable s :
  1 <= s <= 64 -> Z.testbit unblockable (s - 1) = (s =? LXP_SIGKILL) || (s =? LXP_SIGSTOP).
Proof.
  intros Hs. unfold unblockable. rewrite Z.lor_spec, !testbit_sig_bit by (try lia; vm_compute; split; congruence).
  unfold LXP_SIGKILL, LXP_SIGSTOP. lia.
Qed.

(** A 64-bit mask is its two words, as the guest's sigset holds them. *)
Lemma sigset_value_bytes old :
  0 <= old < 2 ^ 64 ->
  sigset_value 8 (bytes32 (u32 old) ++ bytes32 (u32 (Z.shiftr old 32))) = old.
Proof.
  intros Hold. unfold sigset_value, word. change (8 >=? 4) with true. change (8 >=? 8) with true. cbv iota.
  change (take 4 (drop (4 * 0) (bytes32 (u32 old) ++ bytes32 (u32 (Z.shiftr old 32)))))
    with (bytes32 (u32 old)).
  change (take 4 (drop (4 * 1) (bytes32 (u32 old) ++ bytes32 (u32 (Z.shiftr old 32)))))
    with (bytes32 (u32 (Z.shiftr old 32))).
  rewrite !le_val_bytes32, lor_shift_add, Z.shiftr_div_pow2 by (try lia; apply u32_range).
  unfold u32. lia.
Qed.

Section Calls.
Context {H : Type}.
Implicit Types (c : coord H).

Lemma set_cmem_same c : set_cmem c (cmem c) = c.
Proof. destruct c as [h R st]. by destruct R. Qed.

Lemma copy_to_guest_unchanged G m p dst src rc m' :
  lxp_copy_to_guest G m p dst src = (rc, m') -> rc <> 0 -> m' = m.
Proof. unfold lxp_copy_to_guest. destruct (negb _); by intros [= <- <-]. Qed.

(** The mask a call asks for. *)
Definition asked (how old set s : Z) : bool :=
  if how =? LXP_SIG_BLOCK then Z.testbit old (s - 1) || Z.testbit set (s - 1)
  else if how =? LXP_SIG_UNBLOCK then Z.testbit old (s - 1) && negb (Z.testbit set (s - 1))
  else Z.testbit set (s - 1).

Lemma new_mask_bits how old set s :
  1 <= s <= 64 ->
  Z.testbit (Z.land (if how =? LXP_SIG_BLOCK then Z.lor old set
                     else if how =? LXP_SIG_UNBLOCK then Z.land old (not64 set) else set)
                    (not64 unblockable)) (s - 1) =
  asked how old set s && negb ((s =? LXP_SIGKILL) || (s =? LXP_SIGSTOP)).
Proof.
  intros Hs. rewrite Z.land_spec, testbit_not64, testbit_unblockable by lia. f_equal.
  unfold asked. destruct (how =? LXP_SIG_BLOCK); [apply Z.lor_spec|].
  destruct (how =? LXP_SIG_UNBLOCK); [|done]. by rewrite Z.land_spec, testbit_not64 by lia.
Qed.

Lemma sigprocmask_error_unchanged c slot how uset uold sz rc c' :
  lxp_sys_rt_sigprocmask c slot how uset uold sz = (rc, c') -> rc <> 0 -> c' = c.
Proof.
  unfold lxp_sys_rt_sigprocmask. cbv zeta. intros Hrun Hrc.
  do 3 (case_hyp Hrun; [congruence|]).
  match type of Hrun with context [match ?r with inl _ => _ | inr _ => _ end] =>
    destruct r as [e|nv]; [congruence|] end.
  match type of Hrun with context [negb (u32 uold =? 0) && ?b] =>
    destruct (negb (u32 uold =? 0) && b) end.
  - destruct (lxp_copy_to_guest _ _ _ _ _) as [r m] eqn:Ec.
    destruct (Z.eqb_spec r 0) as [->|Hr]; cbn [negb] in Hrun.
    + destruct (negb (u32 uset =? 0)); congruence.
    + rewrite (copy_to_guest_unchanged _ _ _ _ _ _ _ Ec Hr), set_cmem_same in Hrun. congruence.
  - cbn [negb Z.eqb] in Hrun. destruct (negb (u32 uset =? 0)); congruence.
Qed.

Lemma rt_genv_mem R m : rt_genv (set_rt_mem R m) = rt_genv R.
Proof. done. Qed.

Lemma sigprocmask_swap c slot how uset uold :
  coord_wf c -> slot_in slot = true -> 0 < uset < 2 ^ 32 -> 0 < uold < 2 ^ 32 -> 0 <= how <= 2 ->
  0 <= p_sig_blocked (cproc c slot) < 2 ^ 64 ->
  lxp_guest_access_ok (cgenv c) slot uset 8 false = true ->
  lxp_guest_access_ok (cgenv c) slot uold 8 true = true ->
  let old := p_sig_blocked (cproc c slot) in
  let set := sigset_value 8 (mem_read (cmem c) uset 8) in
  exists m' mask,
    lxp_sys_rt_sigprocmask c slot how uset uold 8 =
      (0, put_cproc (set_cmem c m') slot (set_p_sig_blocked (cproc c slot) mask)) /\
    (forall s, 1 <= s <= 64 ->
       Z.testbit mask (s - 1) = asked how old set s && negb ((s =? LXP_SIGKILL) || (s =? LXP_SIGSTOP))) /\
    sigset_value 8 (mem_read m' uold 8) = old /\
    forall a, a < uold \/ uold + 8 <= a -> load8 m' a = load8 (cmem c) a.
Proof.
  intros Hwf Hs Hus Huo Hhow Hold Hr Hw old set.
  unfold lxp_sys_rt_sigprocmask. rewrite (u32_small uset), (u32_small uold) by lia.
  change (u32 8) with 8. change (8 >? 8) with false. cbv iota. rewrite Hr, Hw.
  replace (uset =? 0) with false by lia. replace (uold =? 0) with false by lia. cbn [negb andb].
  replace (negb (how =? LXP_SIG_BLOCK) && negb (how =? LXP_SIG_UNBLOCK) && negb (how =? LXP_SIG_SETMASK))
    with false by (unfold LXP_SIG_BLOCK, LXP_SIG_UNBLOCK, LXP_SIG_SETMASK; lia).
  unfold lxp_copy_from_guest. rewrite Hr. cbn [negb].
  change (8 >=? 8) with true. change (8 =? 0) with false. cbn [negb].
  change (Z.to_nat 8) with 8%nat. rewrite (take_ge _ 8) by done.
  set (bs := bytes32 (u32 (p_sig_blocked (cproc c slot))) ++ _).
  assert (Hbs : alen bs = 8) by done.
  unfold lxp_copy_to_guest. rewrite Hbs, Hw. cbn [negb Z.eqb].
  exists (mem_write (cmem c) uold bs). eexists. split; [reflexivity|]. split; [|split].
  - intros s Hs1. apply new_mask_bits. lia.
  - change 8%nat with (length bs). rewrite mem_read_write_same.
    transitivity (sigset_value 8 bs); [|by apply sigset_value_bytes].
    f_equal. unfold bs, bytes32. cbn [app map]. by rewrite !u8_idemp.
  - intros a Ha. apply load8_write_out. by change (Z.of_nat (length bs)) with 8.
Qed.

End Calls.

(** rt_sigprocmask is exact and all-or-nothing.  A call that fails changes nothing.  A
    call with both sets installs exactly the mask it asks for, computed from the set as it
    was before the old mask was stored, even when the guest passes one buffer as both;
    SIGKILL and SIGSTOP are never blocked; the old mask is what the buffer then holds, and
    no other byte of memory and no other task field changes. *)
Theorem sigprocmask_exact {H} (c : coord H) slot :
  (forall how uset uold sz rc c',
     lxp_sys_rt_sigprocmask c slot how uset uold sz = (rc, c') -> rc <> 0 -> c' = c) /\
  (forall how uset uold,
     coord_wf c -> slot_in slot = true -> 0 < uset < 2 ^ 32 -> 0 < uold < 2 ^ 32 -> 0 <= how <= 2 ->
     0 <= p_sig_blocked (cproc c slot) < 2 ^ 64 ->
     lxp_guest_access_ok (cgenv c) slot uset 8 false = true ->
     lxp_guest_access_ok (cgenv c) slot uold 8 true = true ->
     let old := p_sig_blocked (cproc c slot) in
     let set := sigset_value 8 (mem_read (cmem c) uset 8) in
     exists m' mask,
       lxp_sys_rt_sigprocmask c slot how uset uold 8 =
         (0, put_cproc (set_cmem c m') slot (set_p_sig_blocked (cproc c slot) mask)) /\
       (forall s, 1 <= s <= 64 ->
          Z.testbit mask (s - 1) = asked how old set s && negb ((s =? LXP_SIGKILL) || (s =? LXP_SIGSTOP))) /\
       sigset_value 8 (mem_read m' uold 8) = old /\
       forall a, a < uold \/ uold + 8 <= a -> load8 m' a = load8 (cmem c) a).
Proof.
  split; [intros; by eapply sigprocmask_error_unchanged|]. intros. by apply sigprocmask_swap.
Qed.

(** ** sigsuspend *)

(** rt_sigsuspend installs its mask and decides to wait in one step.  It returns -EINTR
    with the guest's set (never SIGKILL or SIGSTOP) as the mask; it waits exactly when no
    pending signal is deliverable under that new mask, so a signal that arrived first is
    not slept through; and the next handler returns to the mask of before the call. *)
Theorem sigsuspend_no_lost_signal {H} (now : option Z) (c : coord H) slot uset :
  coord_wf c -> slot_in slot = true -> 0 < uset < 2 ^ 32 ->
  lxp_guest_access_ok (cgenv c) slot uset 8 false = true ->
  intent_kind (p_intent (cproc c slot)) = IK_NONE -> w_kind (p_wait (cproc c slot)) = LXP_WAIT_NONE ->
  let set := sigset_value 8 (mem_read (cmem c) uset 8) in
  exists p', lxp_sys_rt_sigsuspend now c slot uset 8 = (- LXP_EINTR, put_cproc c slot p') /\
    (forall s, 1 <= s <= 64 ->
       Z.testbit (p_sig_blocked p') (s - 1) =
       Z.testbit set (s - 1) && negb ((s =? LXP_SIGKILL) || (s =? LXP_SIGSTOP))) /\
    return_mask p' = p_sig_blocked (cproc c slot) /\
    p_pending_sigs p' = p_pending_sigs (cproc c slot) /\
    w_kind (p_wait p') = if lxp_pending_deliverable p' =? 0 then LXP_WAIT_SIGSUSPEND else LXP_WAIT_NONE.
Proof.
  intros Hwf Hs Hu Hr Hint Hwait set. unfold lxp_sys_rt_sigsuspend.
  rewrite (u32_small uset) by lia. change (u32 8) with 8. change (8 =? 8) with true.
  replace (uset =? 0) with false by lia. cbn [negb].
  unfold lxp_copy_from_guest. rewrite Hr. cbn [negb]. change (Z.to_nat 8) with 8%nat.
  change (Z.lor (word ?w 0) (Z.shiftl (word ?w 1) 32)) with (sigset_value 8 w). fold set.
  set (p1 := set_p_sigsuspend_active _ 1).
  assert (Hbits : forall s, 1 <= s <= 64 -> Z.testbit (p_sig_blocked p1) (s - 1) =
            Z.testbit set (s - 1) && negb ((s =? LXP_SIGKILL) || (s =? LXP_SIGSTOP))).
  { intros s Hs1. unfold p1.
    cbn [set_p_sigsuspend_active set_p_sig_blocked set_p_sigsuspend_saved_mask p_sig_blocked].
    rewrite Z.land_spec, testbit_not64, testbit_unblockable by lia. done. }
  destruct (Z.eqb_spec (lxp_pending_deliverable p1) 0) as [Hd|Hd].
  - unfold lxp_wait_begin. cbn [w_kind].
    destruct (decide (LXP_WAIT_SIGSUSPEND = LXP_WAIT_NONE)) as [Hk|_]; [done|].
    assert (Hi1 : intent_kind (p_intent p1) = IK_NONE) by exact Hint.
    assert (Hw1 : w_kind (p_wait p1) = LXP_WAIT_NONE) by exact Hwait.
    rewrite Hi1, Hw1. rewrite !bool_decide_eq_false_2 by (intros Hn; by apply Hn).
    cbn [orb negb Z.eqb]. eexists. split; [reflexivity|].
    split; [exact Hbits|]. split; [done|]. split; [done|].
    change (lxp_pending_deliverable (set_p_wait p1 ?w)) with (lxp_pending_deliverable p1).
    rewrite Hd. by destruct now.
  - exists p1. split; [done|]. split; [exact Hbits|]. split; [done|]. split; [done|].
    replace (lxp_pending_deliverable p1 =? 0) with false by lia. exact Hwait.
Qed.

(** ** sigaction *)

Lemma aget_put_sighand {H} (c : coord H) slot i sh :
  coord_wf c -> p_sighand (cproc c slot) = Some i -> 0 <= i < alen (k_sighand (rt_k (c_rt c))) ->
  sighand_of (put_sighand c i sh) (cproc (put_sighand c i sh) slot) = Some sh.
Proof.
  intros Hwf Hp Hi. unfold sighand_of.
  change (cproc (put_sighand c i sh) slot) with (cproc c slot). rewrite Hp. cbn [option_map].
  unfold put_sighand, set_c_rt, set_rt_k, set_k_sighand. cbn [c_rt rt_k k_sighand].
  by rewrite aget_aset_eq.
Qed.

(** rt_sigaction accepts SIGKILL, which Linux refuses with EINVAL: after a guest sets it
    to SIG_IGN the call has returned 0, and the delivery decision for SIGKILL on that task
    is to ignore it. *)
Theorem sigaction_ignores_sigkill {H} (c : coord H) slot uact i :
  coord_wf c -> slot_in slot = true -> 0 < uact < 2 ^ 32 ->
  p_sighand (cproc c slot) = Some i -> 0 <= i < alen (k_sighand (rt_k (c_rt c))) ->
  alen (sh_handler (aget sighand_zero (k_sighand (rt_k (c_rt c))) i)) = LXP_NSIG ->
  lxp_guest_access_ok (cgenv c) slot uact 12 false = true ->
  word (mem_read (cmem c) uact 12) 0 = LXP_SIG_IGN ->
  let '(rc, c') := lxp_sys_rt_sigaction c slot LXP_SIGKILL uact 0 in
  rc = 0 /\ (lxp_signal_prepare c' slot LXP_SIGKILL).1.1 = LXP_SIGNAL_IGNORE.
Proof.
  intros Hwf Hs Hu Hp Hi Hlen Hr Hign. unfold lxp_sys_rt_sigaction.
  change ((LXP_SIGKILL <? 1) || (LXP_SIGKILL >=? LXP_NSIG)) with false. cbv iota.
  rewrite (u32_small uact) by lia. change (u32 0) with 0.
  replace (uact =? 0) with false by lia. cbn [negb Z.eqb andb].
  unfold lxp_copy_from_guest. rewrite Hr. cbn [negb]. rewrite Hp.
  change (Z.to_nat 12) with 12%nat. rewrite Hign. split; [done|].
  set (sh := sighand_install _ _ _ _ _).
  unfold lxp_signal_prepare. change ((LXP_SIGKILL <? 1) || (LXP_SIGKILL >=? LXP_NSIG)) with false. cbv iota.
  rewrite aget_put_sighand by done. change (lxp_sig_stops_proc (Some sh) LXP_SIGKILL) with false. cbv iota.
  unfold lxp_sig_swallowed, lxp_sig_handler_get.
  change ((LXP_SIGKILL >=? 0) && (LXP_SIGKILL <? LXP_NSIG)) with true. cbv iota.
  unfold sh, sighand_install. cbn [set_sh_restart set_sh_restorer set_sh_handler sh_handler].
  rewrite aget_aset_eq by (rewrite Hlen; vm_compute; split; congruence). done.
Qed.

(** *** Witnesses, on the sample task of slot 0: one buffer as both sets, a suspension, and
    an action that ignores SIGKILL. *)

Definition demo_sys_coord : coord unit :=
  set_cmem demo_coord (mem_write (cmem demo_coord) 0x20000200 [1; 0; 0; 0; 0; 0; 0; 0; 0; 0; 0; 0]).

Lemma demo_sys_wf : coord_wf demo_sys_coord.
Proof. exact demo_coord_wf. Qed.

Lemma sigprocmask_exact_witness :
  exists m' mask,
    lxp_sys_rt_sigprocmask demo_sys_coord 0 LXP_SIG_SETMASK 0x20000200 0x20000200 8 =
      (0, put_cproc (set_cmem demo_sys_coord m') 0 (set_p_sig_blocked (cproc demo_sys_coord 0) mask)) /\
    Z.testbit mask 0 = true /\ sigset_value 8 (mem_read m' 0x20000200 8) = 0.
Proof.
  destruct (proj2 (sigprocmask_exact demo_sys_coord 0) LXP_SIG_SETMASK 0x20000200 0x20000200 demo_sys_wf
              eq_refl ltac:(done) ltac:(done) ltac:(done) ltac:(done) eq_refl eq_refl)
    as (m' & mask & Hrun & Hbits & Hold & _).
  exists m', mask. split; [exact Hrun|]. split; [|exact Hold].
  change 0 with (1 - 1). rewrite Hbits by done. reflexivity.
Defined.

Lemma sigsuspend_no_lost_signal_witness :
  exists p', lxp_sys_rt_sigsuspend None demo_sys_coord 0 0x20000200 8 = (- LXP_EINTR, put_cproc demo_sys_coord 0 p') /\
    w_kind (p_wait p') = LXP_WAIT_SIGSUSPEND.
Proof.
  destruct (sigsuspend_no_lost_signal None demo_sys_coord 0 0x20000200 demo_sys_wf eq_refl ltac:(done) eq_refl
              eq_refl eq_refl) as (p' & Hrun & _ & _ & Hpend & Hw).
  exists p'. split; [exact Hrun|]. rewrite Hw. unfold lxp_pending_deliverable. rewrite Hpend. reflexivity.
Defined.

Lemma sigaction_ignores_sigkill_witness :
  (lxp_sys_rt_sigaction demo_sys_coord 0 LXP_SIGKILL 0x20000200 0).1 = 0.
Proof.
  pose proof (sigaction_ignores_sigkill demo_sys_coord 0 0x20000200 0 demo_sys_wf eq_refl ltac:(done) eq_refl
    ltac:(done) eq_refl eq_refl eq_refl) as Hk.
  destruct (lxp_sys_rt_sigaction _ _ _ _ _) as [rc c']. exact (proj1 Hk).
Defined.
