(* ===== verification/Child.v ===== *)
(** * Child events (src/run/lxp_child.c, lxp_sys_wait4, the thread-group scans of
      src/lxp_run.c)

    A child that exits or stops is reported to its parent's thread group: to a thread
    blocked in wait4 that accepts the event, or as one entry of the group's bounded queue,
    which wait4 drains in order. *)

From S2P Require Import Prelude Config Errno Proc Pool Fd Guest Wait Arena Process Runtime Event Region Lifecycle Signal.
Local Open Scope Z_scope.

Definition LXP_EXIT_REASON_NORMAL : Z := 1.

Record lxp_child_event := mk_child_event { ce_pid : Z; ce_value : Z; ce_kind : Z; ce_notify : Z }.

(** src/lxp_internal.h *)
Definition lxp_encode_wstatus (code : Z) : Z :=
  if (code >? 128) && (code <=? 128 + 31) then code - 128 else Z.shiftl (Z.land code 0xff) 8.
Definition lxp_encode_wstopped (stopsig : Z) : Z :=
  Z.lor (Z.shiftl (Z.land stopsig 0xff) 8) 0x7f.

Definition child_wait_accepts (p : lxp_proc) (e : lxp_child_event) : bool :=
  match w_kind (p_wait p), w_data (p_wait p) with
  | LXP_WAIT_CHILD, WD_CHILD pid options _ =>
      ((pid <=? 0) || (pid =? ce_pid e)) &&
      (negb (ce_kind e =? LXP_CHILD_STOPPED) || negb (Z.land options LXP_WUNTRACED =? 0))
  | _, _ => false
  end.

Definition child_wait_status (e : lxp_child_event) : Z :=
  if ce_kind e =? LXP_CHILD_STOPPED then lxp_encode_wstopped (ce_value e) else lxp_encode_wstatus (ce_value e).

(** Queue one event on a group: the entry at [child_count], or nothing when full. *)
Definition group_enqueue (g : lxp_thread_group) (e : lxp_child_event) : lxp_thread_group :=
  if (tg_child_count g >=? 0) && (tg_child_count g <? LXP_MAX_CHILD)
  then let index := tg_child_count g in
       let g := set_tg_child_count g (tg_child_count g + 1) in
       let g := set_tg_child_pid g (aset (tg_child_pid g) index (ce_pid e)) in
       let g := set_tg_child_status g (aset (tg_child_status g) index (ce_value e)) in
       set_tg_child_kind g (aset (tg_child_kind g) index (ce_kind e))
  else g.

(** Remove the entry at [i], moving the later ones down one place. *)
Definition shift_down (l : list Z) (i count : Z) : list Z :=
  fold_left (fun l j => aset l (j - 1) (aget 0 l j)) (seqZ (i + 1) (count - (i + 1))) l.
Definition group_dequeue (g : lxp_thread_group) (i : Z) : lxp_thread_group :=
  let n := tg_child_count g in
  let g := set_tg_child_pid g (shift_down (tg_child_pid g) i n) in
  let g := set_tg_child_status g (shift_down (tg_child_status g) i n) in
  let g := set_tg_child_kind g (shift_down (tg_child_kind g) i n) in
  set_tg_child_count g (n - 1).

(** The queued entry wait4 may report: position [i] of a queue. *)
Definition wait_selects (g : lxp_thread_group) (wpid options i : Z) : bool :=
  negb ((wpid >? 0) && negb (aget 0 (tg_child_pid g) i =? wpid)) &&
  negb ((aget 0 (tg_child_kind g) i =? LXP_CHILD_STOPPED) && (Z.land options LXP_WUNTRACED =? 0)).

Definition wait_scan (g : lxp_thread_group) (wpid options : Z) : option Z :=
  match filter (fun i => wait_selects g wpid options i = true) (seqZ 0 (tg_child_count g)) with
  | [] => None
  | i :: _ => Some i
  end.

(** src/lxp_run.c: room for one more child. *)
Definition lxp_fork_capacity_available (g : option lxp_thread_group) : bool :=
  match g with
  | None => false
  | Some g => (tg_child_count g >=? 0) && (tg_child_count g <? LXP_MAX_CHILD) &&
              (tg_live_children g >=? 0) && (tg_live_children g <? LXP_MAX_CHILD - tg_child_count g)
  end.

Section Child.
Context {H : Type} (ops : os_task H).
Implicit Types (c : coord H).

Definition put_group c (gi : Z) (g : lxp_thread_group) : coord H :=
  set_c_rt c (set_rt_k (c_rt c) (set_k_groups (rt_k (c_rt c)) (aset (k_groups (rt_k (c_rt c))) gi g))).
Definition group_at c (gi : Z) : lxp_thread_group := aget group_zero (k_groups (rt_k (c_rt c))) gi.

(** A live task of the thread group [ppid]. *)
Definition task_of_group c (ppid slot : Z) : bool :=
  let p := cproc c slot in
  negb (p_alive p =? 0) &&
  match group_of c p with Some g => tg_tgid g =? ppid | None => false end.

Fixpoint parent_scan c (ppid : Z) (e : lxp_child_event) (slots : list Z) (fallback : option Z) : option Z :=
  match slots with
  | [] => fallback
  | slot :: rest =>
      if negb (task_of_group c ppid slot) then parent_scan c ppid e rest fallback
      else let fallback := match fallback with None => Some slot | Some _ => fallback end in
           if child_wait_accepts (cproc c slot) e then Some slot
           else parent_scan c ppid e rest fallback
  end.

(** The parent task, by its slot. *)
Definition parent_task_for_child c (ppid : Z) (e : lxp_child_event) : option Z :=
  parent_scan c ppid e (seqZ 0 LXP_NSLOT) None.

Definition child_event_publish c (ppid : Z) (e : lxp_child_event) : coord H :=
  match parent_task_for_child c ppid e with
  | None => c
  | Some slot =>
      match p_group (cproc c slot) with
      | None => c
      | Some gi =>
          let g := group_at c gi in
          let c := if (ce_kind e =? LXP_CHILD_EXITED) && (tg_live_children g >? 0)
                   then put_group c gi (set_tg_live_children g (tg_live_children g - 1)) else c in
          match child_wait_accepts (cproc c slot) e, w_data (p_wait (cproc c slot)) with
          | true, WD_CHILD _ _ status =>
              let c := if negb (status =? 0)
                       then set_c_rt c (set_rt_mem (c_rt c)
                              (store32 (rt_mem (c_rt c)) status (child_wait_status e)))
                       else c in
              let c := put_cproc c slot (lxp_wait_complete (cproc c slot) LXP_WAIT_CHILD).2 in
              let '(_, h, R) := lxp_coordinator_park_slot ops (c_h c) (c_rt c) slot in
              let '(_, h, R) := lxp_coordinator_complete_slot ops h R (lxp_slot_ref_at R slot) (ce_pid e) in
              set_c_rt (set_c_h c h) R
          | _, _ =>
              let c := put_group c gi (group_enqueue (group_at c gi) e) in
              if negb (ce_notify e =? 0)
              then put_cproc c slot (lxp_signal_latch (cproc c slot) LXP_SIGCHLD) else c
          end
      end
  end.

Definition lxp_reap_to_parent c (ppid cpid status sigchld : Z) : coord H :=
  child_event_publish c ppid (mk_child_event cpid status LXP_CHILD_EXITED (b2z (negb (sigchld =? 0)))).

Definition lxp_notify_parent_stopped c (ppid cpid stopsig : Z) : coord H :=
  child_event_publish c ppid (mk_child_event cpid stopsig LXP_CHILD_STOPPED 1).

(** wait4(2) of the task in [slot]; [now] is the host clock of the wait's enqueue time. *)
Definition lxp_sys_wait4 (now : option Z) c (slot a0 a1 a2 : Z) : Z * coord H :=
  let G := rt_genv (c_rt c) in
  if negb (a1 =? 0) && negb (lxp_guest_access_ok G slot (u32 a1) 4 true) then (- LXP_EFAULT, c)
  else
    let options := a2 in
    let wpid := a0 in
    let status := u32 a1 in
    match p_group (cproc c slot) with
    | None => (- LXP_ECHILD, c)
    | Some gi =>
        let g := group_at c gi in
        match wait_scan g wpid options with
        | Some i =>
            let pid := aget 0 (tg_child_pid g) i in
            let code := aget 0 (tg_child_status g) i in
            let kind := aget 0 (tg_child_kind g) i in
            let c := put_group c gi (group_dequeue g i) in
            let c := if negb (status =? 0)
                     then set_c_rt c (set_rt_mem (c_rt c)
                            (lxp_guest_put_u32 (rt_genv (c_rt c)) (rt_mem (c_rt c)) slot status
                               (if kind =? LXP_CHILD_STOPPED then lxp_encode_wstopped code
                                else lxp_encode_wstatus code)).2)
                     else c in
            (pid, c)
        | None =>
            if tg_live_children g =? 0 then (- LXP_ECHILD, c)
            else if negb (Z.land options LXP_WNOHANG =? 0) then (0, c)
            else let '(rc, p) := lxp_wait_park now (cproc c slot)
                                   (mk_wait LXP_WAIT_CHILD 0 0 0 (WD_CHILD wpid options status)) in
                 (rc, put_cproc c slot p)
        end
    end.

(** ** Thread groups (src/lxp_run.c) *)

(** The slots whose live task belongs to the group object [g] points to. *)
Definition in_group c (g : option Z) (slot : Z) : bool :=
  negb (p_alive (cproc c slot) =? 0) && bool_decide (p_group (cproc c slot) = g).

Definition lxp_thread_group_live_count c (g : option Z) : Z :=
  alen (filter (fun s => in_group c g s = true) (seqZ 0 LXP_NSLOT)).

Definition lxp_thread_group_request_exit c (source_slot status : Z) : coord H :=
  if negb (slot_in source_slot) then c
  else match p_group (cproc c source_slot) with
       | None => c
       | Some gi =>
           let c := put_group c gi (set_tg_exit_status (set_tg_exiting (group_at c gi) 1)
                                      (Z.land status 0xff)) in
           fold_left (fun c s =>
             if negb (in_group c (Some gi) s) then c
             else set_c_rt c (lxp_coordinator_exit_slot (c_rt c) s 1 (Z.land status 0xff)
                                LXP_EXIT_REASON_NORMAL 0)) (seqZ 0 LXP_NSLOT) c
       end.

Fixpoint stop_peers c (source_slot failure_status : Z) (slots : list Z) (rc : Z) : Z * coord H :=
  match slots with
  | [] => (rc, c)
  | s :: rest =>
      if (s =? source_slot) || negb (in_group c (p_group (cproc c source_slot)) s)
      then stop_peers c source_slot failure_status rest rc
      else let '(e, h, R) := lxp_coordinator_abort_slot ops (c_h c) (c_rt c) s in
           let rc := if negb (e =? LXP_OK) then - LXP_EAGAIN else rc in
           let R := lxp_coordinator_exit_slot R s 0 (Z.land failure_status 0xff) LXP_EXIT_REASON_NORMAL 0 in
           stop_peers (set_c_rt (set_c_h c h) R) source_slot failure_status rest rc
  end.

Definition lxp_thread_group_stop_exec_peers c (source_slot failure_status : Z) : Z * coord H :=
  stop_peers c source_slot failure_status (seqZ 0 LXP_NSLOT) LXP_OK.

End Child.
