(* ===== verification/SignalRoute.v ===== *)
(** * Where a signal goes (src/run/lxp_signal_route.c)

    Latching a signal on every task a kill(2) or a terminal names, and delivering one to a
    task that is parked, through its captured resume context. *)

From S2P Require Import Prelude Config Arena Errno Proc Guest Wait Pool Fd Process Runtime Event Region Lifecycle.
From S2P Require Import Quiet Signal SignalProps Child.
Local Open Scope Z_scope.

Section Route.
Context {H : Type} (ops : os_task H) (core : os_core H).
Implicit Types (c : coord H).

(** The loop's two [continue] tests; [skip] is the slot of the task to leave out. *)
Definition signal_skips c (skip : option Z) (s : Z) : bool :=
  let p := cproc c s in (p_alive p =? 0) || bool_decide (skip = Some s) || (p_pid p <=? 1).
Definition signal_misses c (pid pgid s : Z) : bool :=
  let p := cproc c s in
  if pid >? 0 then negb (p_pid p =? pid)
  else (pgid >? 0) && match group_of c p with Some g => negb (tg_pgid g =? pgid) | None => true end.

Definition send_step (skip : option Z) (pid pgid sig : Z) (st : Z * coord H) (s : Z) : Z * coord H :=
  let '(recipients, c) := st in
  if signal_skips c skip s || signal_misses c pid pgid s then (recipients, c)
  else (recipients + 1, put_cproc c s (lxp_signal_latch (cproc c s) sig)).

Definition lxp_signal_send c (skip : option Z) (pid pgid sig : Z) : Z * coord H :=
  let '(recipients, c) := fold_left (send_step skip pid pgid sig) (seqZ 0 LXP_NSLOT) (0, c) in
  (recipients, if negb (recipients =? 0) then post core c else c).

Definition lxp_signal_process_group c (pgid sig : Z) : Z * coord H :=
  if (pgid <=? 0) || (sig <=? 0) || (sig >=? LXP_NSIG) then (0, c)
  else lxp_signal_send c None 0 pgid sig.

(** A coordinator operation on the host and the runtime, on the whole state. *)
Definition lift c (r : Z * H * lxp_runtime) : coord H := let '(_, h, R) := r in set_c_rt (set_c_h c h) R.

(** The handler-entry context that replaces the parked one. *)
Definition handler_ctx (ctx : lxp_resume_ctx) (fdpic : bool) (d : lxp_signal_delivery) : lxp_resume_ctx :=
  mk_resume (if fdpic then aset (rc_r4_11 ctx) 5 (dl_got d) else rc_r4_11 ctx) (rc_r12 ctx)
    (u32 (Z.lor (dl_restorer d) 1)) (rc_sp ctx) (u32 (Z.lor (dl_entry d) 1)) (rc_r1 ctx) (rc_r2 ctx)
    (rc_r3 ctx) (rc_xpsr ctx).

Definition lxp_deliver_signal_parked c (slot sig ret : Z) : coord H :=
  let restartable := ret =? - LXP_ERESTARTSYS in
  let ret := if restartable then - LXP_EINTR else ret in
  let '(action, d, c) := lxp_signal_prepare c slot sig in
  match action with
  | LXP_SIGNAL_IGNORE =>
      lift c (lxp_coordinator_complete_slot ops (c_h c) (c_rt c) (lxp_slot_ref_at (c_rt c) slot) ret)
  | LXP_SIGNAL_STOP =>
      let p := cproc c slot in
      let p := set_p_stopped p 1 in
      let p := set_p_stop_kind p LXP_STOP_PARKED in
      let p := set_p_stop_sig p (u8 sig) in
      let p := set_p_stop_r0 p 0 in
      let c := put_cproc c slot p in
      let c := lift c (lxp_coordinator_complete_slot ops (c_h c) (c_rt c) (lxp_slot_ref_at (c_rt c) slot) ret) in
      let p := cproc c slot in
      lxp_notify_parent_stopped ops c (match group_of c p with Some g => tg_ppid g | None => 0 end) (p_pid p) sig
  | LXP_SIGNAL_TERMINATE => set_c_rt c (lxp_primary_slot_mark (c_rt c) slot)
  | LXP_SIGNAL_INVALID => c
  | LXP_SIGNAL_HANDLER =>
      let sl := slot_at (c_rt c) slot in
      let ctx := sl_resume sl in
      let restart := restartable && lxp_sig_restarts (sighand_of c (cproc c slot)) sig in
      let c := fill_save c slot (dl_save d)
                 (if restart then sl_syscall_r0 sl else u32 ret) (rc_r1 ctx) (rc_r2 ctx) (rc_r3 ctx)
                 (aget 0 (rc_r4_11 ctx) 3) (aget 0 (rc_r4_11 ctx) 5) (rc_r12 ctx) (rc_lr ctx)
                 (if restart then u32 (rc_pc ctx - 2) else rc_pc ctx)
                 (Z.lor (rc_xpsr ctx) (Z.shiftl 1 24)) in
      let ctx := handler_ctx ctx (negb (p_is_fdpic (cproc c slot) =? 0)) d in
      let c := set_c_rt c (put_slot (c_rt c) slot (set_sl_resume (slot_at (c_rt c) slot) ctx)) in
      match mm_of (c_rt c) (cproc c slot) with
      | Some mm => lift c (lxp_coordinator_resume_slot ops (c_h c) (c_rt c) slot (ref_index (mm_region mm))
                             (Some ctx) sig)
      | None => c
      end
  end.

End Route.

(** * Properties of signal routing and of delivery to parked tasks *)

Section RouteProps.
Context {H : Type} (ops : os_task H) (core : os_core H).
Implicit Types (c : coord H).

(** The tasks a signal is for: live ones other than [skip] and init; of those the one with
    process id [pid], or those of group [pgid], or all. *)
Definition addressed c (skip : option Z) (pid pgid s : Z) : Prop :=
  let p := cproc c s in
  p_alive p <> 0 /\ skip <> Some s /\ 1 < p_pid p /\
  (0 < pid -> p_pid p = pid) /\
  (pid <= 0 -> 0 < pgid -> exists g, group_of c p = Some g /\ tg_pgid g = pgid).

Definition hits c (skip : option Z) (pid pgid s : Z) : bool :=
  negb (signal_skips c skip s || signal_misses c pid pgid s).

Lemma hits_addressed c skip pid pgid s : hits c skip pid pgid s = true <-> addressed c skip pid pgid s.
Proof.
  unfold hits, addressed, signal_skips, signal_misses. cbv zeta.
  rewrite negb_true_iff, !orb_false_iff, bool_decide_eq_false, Z.eqb_neq, Z.leb_gt.
  destruct (Z.gtb_spec pid 0) as [Hp|Hp].
  - rewrite negb_false_iff, Z.eqb_eq. split; [intros (((Ha & Hb) & Hc) & Hd); repeat split; auto; lia|].
    intros (Ha & Hb & Hc & Hd & _). auto.
  - destruct (Z.gtb_spec pgid 0) as [Hg|Hg]; cbn [andb].
    + destruct (group_of c (cproc c s)) as [g|].
      * rewrite negb_false_iff, Z.eqb_eq.
        split; [intros (((Ha & Hb) & Hc) & Hd); repeat split; auto; [lia|]; intros; by exists g|].
        intros (Ha & Hb & Hc & _ & Hd). destruct (Hd ltac:(lia) ltac:(lia)) as (g' & [= <-] & Hpg). auto.
      * split; [intros (_ & Hd); done|]. intros (_ & _ & _ & _ & Hd).
        destruct (Hd ltac:(lia) ltac:(lia)) as (g' & Hg' & _). done.
    + split; [intros (((Ha & Hb) & Hc) & _); repeat split; auto; lia|].
      intros (Ha & Hb & Hc & _). auto.
Qed.

Lemma cproc_put_ne c s t p : 0 <= s -> 0 <= t -> s <> t -> cproc (put_cproc c s p) t = cproc c t.
Proof.
  intros Hs Ht Hne. unfold cproc, put_cproc, sproc, put_proc, put_slot, set_c_rt, set_rt_slots, slot_at.
  cbn [c_rt rt_slots]. by rewrite aget_aset_ne by lia.
Qed.

Lemma hits_put_ne c skip pid pgid s t p :
  0 <= s -> 0 <= t -> s <> t -> hits (put_cproc c s p) skip pid pgid t = hits c skip pid pgid t.
Proof.
  intros Hs Ht Hne. unfold hits, signal_skips, signal_misses, group_of.
  rewrite cproc_put_ne by done. done.
Qed.

Lemma send_fold skip pid pgid sig l r c :
  coord_wf c -> NoDup l -> Forall (fun s => 0 <= s < LXP_NSLOT) l ->
  let '(r', c') := fold_left (send_step skip pid pgid sig) l (r, c) in
  coord_wf c' /\ c_h c' = c_h c /\ c_save c' = c_save c /\ rt_k (c_rt c') = rt_k (c_rt c) /\
  r' = r + alen (filter (fun s => hits c skip pid pgid s = true) l) /\
  forall s, 0 <= s -> cproc c' s =
    if decide (s ∈ l /\ hits c skip pid pgid s = true) then lxp_signal_latch (cproc c s) sig else cproc c s.
Proof.
  revert r c. induction l as [|x l IH]; intros r c Hwf Hnd Hr.
  { cbn. repeat (split; [done|]). split; [unfold alen; cbn; lia|].
    intros s Hs. rewrite decide_False; [done|]. intros [Hin _]. by apply elem_of_nil in Hin. }
  apply NoDup_cons in Hnd as [Hx Hnd]. apply Forall_cons in Hr as [Hxr Hr].
  cbn [fold_left send_step]. rewrite filter_cons.
  destruct (signal_skips c skip x || signal_misses c pid pgid x) eqn:Hh.
  - rewrite decide_False by (unfold hits; by rewrite Hh).
    specialize (IH r c Hwf Hnd Hr). destruct (fold_left _ _ _) as [r' c'].
    destruct IH as (Hw & Hh' & Hsv & Hk & Hrr & Hp). repeat (split; [done|]).
    intros s Hs. rewrite Hp by done. apply decide_ext. rewrite elem_of_cons.
    split; [tauto|]. intros [[->|Hin] Hhit]; [|done]. unfold hits in Hhit. by rewrite Hh in Hhit.
  - rewrite decide_True by (unfold hits; by rewrite Hh).
    set (c1 := put_cproc c x _).
    specialize (IH (r + 1) c1 (put_cproc_wf c x _ Hwf) Hnd Hr). destruct (fold_left _ _ _) as [r' c'].
    destruct IH as (Hw & Hh' & Hsv & Hk & Hrr & Hp). repeat (split; [done|]).
    assert (Hne : forall s, s ∈ l -> x <> s /\ 0 <= s).
    { intros s Hin. split; [by intros ->|]. rewrite Forall_forall in Hr. apply Hr in Hin. lia. }
    split.
    { rewrite Hrr, (filter_ext_in _ (fun s => hits c skip pid pgid s = true) l).
      - unfold alen. cbn [length]. lia.
      - intros s Hin. destruct (Hne s Hin). unfold c1. by rewrite hits_put_ne by (done || lia). }
    intros s Hs. rewrite Hp by done. destruct (decide (s = x)) as [->|Hsx].
    + rewrite decide_False by (by intros [Hin _]). unfold c1.
      rewrite cproc_put by (done || (apply slot_in_range; lia)).
      rewrite decide_True; [done|]. split; [apply elem_of_cons; by left|unfold hits; by rewrite Hh].
    + unfold c1. rewrite hits_put_ne, cproc_put_ne by (done || lia).
      apply decide_ext. rewrite elem_of_cons. tauto.
Qed.

End RouteProps.

(** A signal is latched on exactly the tasks it is addressed to (the process, the process
    group, or every process; never init, a dead slot, or the sender it skips), each once;
    every other task keeps its state.  The count returned is the number of recipients, and
    the coordinator is woken exactly when there is one. *)
Theorem signal_send_exact {H} (core : os_core H) (c : coord H) skip pid pgid sig n c' :
  coord_wf c -> lxp_signal_send core c skip pid pgid sig = (n, c') ->
  (forall s, 0 <= s < LXP_NSLOT ->
     (addressed c skip pid pgid s -> cproc c' s = lxp_signal_latch (cproc c s) sig) /\
     (~ addressed c skip pid pgid s -> cproc c' s = cproc c s)) /\
  n = alen (filter (fun s => hits c skip pid pgid s = true) (seqZ 0 LXP_NSLOT)) /\
  (n = 0 <-> forall s, 0 <= s < LXP_NSLOT -> ~ addressed c skip pid pgid s) /\
  c_h c' = (match event_post core with Some g => if n =? 0 then c_h c else g (c_h c) | None => c_h c end).
Proof.
  intros Hwf Hrun. unfold lxp_signal_send in Hrun.
  pose proof (send_fold skip pid pgid sig (seqZ 0 LXP_NSLOT) 0 c Hwf (NoDup_seqZ _ _)) as Hf.
  destruct (fold_left _ _ _) as [r c1].
  destruct Hf as (_ & Hh & _ & _ & Hr & Hp); [apply Forall_forall; intros s Hs%elem_of_seqZ; lia|].
  apply pair_equal_spec in Hrun as [<- <-]. rewrite Z.add_0_l in Hr.
  assert (Hpost : forall s, cproc (if negb (r =? 0) then post core c1 else c1) s = cproc c1 s).
  { intros s. destruct (negb _); [|done]. unfold post. by destruct (event_post core). }
  split; [|split; [done|split]].
  - intros s Hs. rewrite Hpost, Hp by lia. case_decide as Hd; split; intros Ha; try done.
    + by destruct Hd as [_ Hd%hits_addressed].
    + destruct Hd. split; [apply elem_of_seqZ; lia|by apply hits_addressed].
  - rewrite Hr. unfold alen. split.
    + intros Hn s Hs Ha%hits_addressed.
      assert (Hin : s ∈ filter (fun s => hits c skip pid pgid s = true) (seqZ 0 LXP_NSLOT))
        by (apply list_elem_of_filter; split; [done|]; apply elem_of_seqZ; lia).
      destruct (filter _ _); [by apply elem_of_nil in Hin|]. cbn in Hn. lia.
    + intros Hall. destruct (filter _ _) as [|s l] eqn:E; [done|]. exfalso.
      assert (Hin : s ∈ filter (fun s => hits c skip pid pgid s = true) (seqZ 0 LXP_NSLOT))
        by (rewrite E; apply elem_of_cons; by left).
      apply list_elem_of_filter in Hin as [Hhit Hin%elem_of_seqZ]. apply (Hall s); [lia|].
      by apply hits_addressed.
  - unfold post. destruct (event_post core); destruct (r =? 0); cbn [negb set_c_h c_h]; by rewrite Hh.
Qed.

(** ** Delivery to a parked task *)

Section Parked.
Context {H : Type} (ops : os_task H) (core : os_core H).
Implicit Types (c : coord H).

(** The resume context [capture_ctx] takes from a frame. *)
Definition captured (f : lxp_frame) : lxp_resume_ctx :=
  mk_resume (map (fun i => freg f (4 + i)) [0; 1; 2; 3; 4; 5; 6; 7]) (freg f 12) (freg f 14)
    (freg f 13) (Z.lor (freg f 15) 1) (freg f 1) (freg f 2) (freg f 3) (f_xpsr f).

(** The slot holds the context of the system call of frame [f]. *)
Definition parked_in c (slot : Z) (f : lxp_frame) : Prop :=
  sl_resume (slot_at (c_rt c) slot) = captured f /\ sl_syscall_r0 (slot_at (c_rt c) slot) = freg f 0.

Lemma capture_ctx_parked c slot f :
  coord_wf c -> slot_in slot = true -> parked_in (capture_ctx c slot f) slot f.
Proof.
  intros (Hl & _) Hs%slot_in_range. unfold parked_in, capture_ctx, set_c_rt, put_slot, set_rt_slots, slot_at.
  cbn [c_rt rt_slots]. by rewrite aget_aset_eq by lia.
Qed.

Lemma slot_at_put_cproc c slot p :
  alen (rt_slots (c_rt c)) = LXP_NSLOT -> slot_in slot = true ->
  slot_at (c_rt (put_cproc c slot p)) slot = set_sl_proc (slot_at (c_rt c) slot) p.
Proof.
  intros Hl Hs%slot_in_range. unfold put_cproc, put_proc, put_slot, set_c_rt, set_rt_slots, slot_at at 1.
  cbn [c_rt rt_slots]. by rewrite aget_aset_eq by lia.
Qed.

Lemma push_keeps c slot sig i c' :
  coord_wf c -> slot_in slot = true -> lxp_sig_save_push c slot sig = (Some i, c') ->
  rt_k (c_rt c') = rt_k (c_rt c) /\ p_sighand (cproc c' slot) = p_sighand (cproc c slot) /\
  sl_resume (slot_at (c_rt c') slot) = sl_resume (slot_at (c_rt c) slot) /\
  sl_syscall_r0 (slot_at (c_rt c') slot) = sl_syscall_r0 (slot_at (c_rt c) slot).
Proof.
  intros (Hl & _) Hs. unfold lxp_sig_save_push. rewrite Hs. cbn [negb]. destruct (_ >=? _); [done|].
  destruct (negb (p_sigsuspend_active (cproc c slot) =? 0)); intros [= _ <-]; (split; [done|]);
    unfold cproc at 1, sproc at 1; rewrite !slot_at_put_cproc by done; done.
Qed.

(** The context a parked delivery saves: the call is either issued again or returns. *)
Definition parked_context (f : lxp_frame) (restart : bool) (ret mask : Z) : sig_save :=
  mk_save (if restart then freg f 0 else u32 ret) (freg f 1) (freg f 2) (freg f 3) (freg f 7) (freg f 9)
    (freg f 12) (freg f 14) (if restart then u32 (Z.lor (freg f 15) 1 - 2) else Z.lor (freg f 15) 1)
    (Z.lor (f_xpsr f) (Z.shiftl 1 24)) mask.

Definition is_restart c (slot sig ret : Z) : bool :=
  (ret =? - LXP_ERESTARTSYS) && lxp_sig_restarts (sighand_of c (cproc c slot)) sig.
Definition visible_result (ret : Z) : Z := if ret =? - LXP_ERESTARTSYS then - LXP_EINTR else ret.

Lemma lift_quiet c r : quiet (c_rt c) r.2 -> coord_wf c -> coord_wf (lift c r) /\ c_save (lift c r) = c_save c.
Proof.
  intros Hq (Hl & Hs). destruct r as [[rc h] R]. cbn [snd] in Hq. split; [|done]. split; [|done].
  change (alen (rt_slots R) = LXP_NSLOT). by rewrite (quiet_length _ _ Hq).
Qed.

Lemma deliver_parked_spec c f slot sig ret d cp :
  coord_wf c -> slot_in slot = true -> parked_in c slot f ->
  lxp_signal_prepare c slot sig = (LXP_SIGNAL_HANDLER, d, cp) ->
  let c1 := lxp_deliver_signal_parked ops c slot sig ret in
  coord_wf c1 /\
  frames c1 slot = frames c slot ++
    [parked_context f (is_restart c slot sig ret) (visible_result ret) (return_mask (cproc c slot))].
Proof.
  intros Hwf Hs (Hctx & Hr0) Hprep. unfold lxp_deliver_signal_parked. rewrite Hprep.
  destruct (prepare_handler_spec _ _ _ _ _ Hwf Hs Hprep) as (c0 & Hpush & ->).
  destruct (sig_save_push_spec _ _ _ _ _ Hwf Hs Hpush) as (Hwf1 & Hi & Hlt & Hd & Hl & Ht & Hm & _).
  destruct (push_keeps _ _ _ _ _ Hwf Hs Hpush) as (Hk & Hsh & Hres & Hsy).
  pose proof (stack_at_wf c slot Hwf Hs) as (_ & Hdep).
  rewrite Hres, Hsy, Hctx, Hr0.
  assert (Hsg : sighand_of c0 (cproc c0 slot) = sighand_of c (cproc c slot))
    by (unfold sighand_of; by rewrite Hk, Hsh).
  rewrite Hsg. fold (is_restart c slot sig ret). fold (visible_result ret).
  set (rs := is_restart c slot sig ret).
  match goal with |- context [fill_save c0 slot _ ?a0 ?a1 ?a2 ?a3 ?a7 ?a9 ?a12 ?alr ?apc ?ax] =>
    destruct (fill_save_spec c0 slot (dl_save d) a0 a1 a2 a3 a7 a9 a12 alr apc ax c Hwf1 Hs ltac:(lia) Hd Ht)
      as (Hwf2 & Hfr & Hp) end.
  set (c2 := fill_save _ _ _ _ _ _ _ _ _ _ _ _ _) in *. rewrite Hm in Hfr.
  match goal with |- context [set_c_rt c2 ?R] => set (c3 := set_c_rt c2 R) in * end.
  assert (Hwf3 : coord_wf c3).
  { destruct Hwf2 as (Hl2 & Hs2). split; [|done]. unfold c3, set_c_rt, put_slot, set_rt_slots.
    cbn [c_rt rt_slots]. by rewrite alen_aset. }
  assert (Hfr3 : frames c3 slot = frames c slot ++
            [parked_context f rs (visible_result ret) (return_mask (cproc c slot))]) by exact Hfr.
  destruct (mm_of (c_rt c3) (cproc c3 slot)) as [mm|]; [|done].
  match goal with |- context [lift c3 ?r] =>
    destruct (lift_quiet c3 r (quiet_resume_slot _ _ _ _ _ _ _) Hwf3) as (Hwf4 & Hsv) end.
  split; [done|]. unfold frames, stack_at. rewrite Hsv. exact Hfr3.
Qed.

End Parked.

(** Thumb addresses are even; the captured one has bit 0 set. *)
Lemma thumb_lor pc : 0 <= pc -> pc mod 2 = 0 -> Z.lor pc 1 = pc + 1.
Proof.
  intros Hp He. pose proof (Z.add_lor_land pc 1) as Ha.
  enough (Z.land pc 1 = 0) by lia. change 1 with (Z.ones 1). by rewrite Z.land_ones by lia.
Qed.

Lemma clear_thumb x : 0 <= x < 2 ^ 32 -> Z.land x (u32 (Z.lnot 1)) = x - x mod 2.
Proof. intros Hx. exact (land_mask_down x 1 Hx ltac:(lia)). Qed.

(** A system call interrupted while parked is resumed as its handler asked.  From the
    frame the call was captured from, through delivery to the parked task, any run of the
    handler and rt_sigreturn, the guest is back with its registers, at the [svc] itself and
    with the call's first argument in r0 when the call may be restarted and the handler has
    SA_RESTART (so it is issued again), and otherwise after the [svc] with the result (-EINTR
    for a restartable call); the mask is restored as well. *)
Theorem interrupted_call_resumes {H} (ops : os_task H) (core : os_core H) (c : coord H) f slot sig ret d cp
    c2 g g' c3 :
  coord_wf c -> slot_in slot = true -> frame_wf g -> parked_in c slot f ->
  2 <= freg f 15 < 2 ^ 32 - 2 -> freg f 15 mod 2 = 0 ->
  lxp_signal_prepare c slot sig = (LXP_SIGNAL_HANDLER, d, cp) ->
  handler_run ops core slot (lxp_deliver_signal_parked ops c slot sig ret) c2 ->
  lxp_sig_restore c2 g slot = (g', c3) ->
  let restart := is_restart c slot sig ret in
  freg g' 0 = (if restart then freg f 0 else u32 (visible_result ret)) /\
  freg g' 15 = (if restart then freg f 15 - 2 else freg f 15) /\
  (forall i, i ∈ [1; 2; 3; 7; 9; 12; 14] -> freg g' i = freg f i) /\
  p_sig_blocked (cproc c3 slot) = return_mask (cproc c slot) /\ frames c3 slot = frames c slot.
Proof.
  intros Hwf Hs Hg Hpark Hpc Heven Hprep Hrun Hrest restart.
  destruct (deliver_parked_spec ops c f slot sig ret d cp Hwf Hs Hpark Hprep) as (Hwf1 & Hfr1).
  destruct (handler_run_frames ops core slot _ c2 Hs Hrun Hwf1) as (Hwf2 & Hfr2). rewrite Hfr1 in Hfr2.
  pose proof (restore_spec c2 g slot _ _ Hwf2 Hs Hg Hfr2) as Hr. rewrite Hrest in Hr.
  destruct Hr as (_ & _ & Hfr3 & Hm & (Hregs & Hpc' & _ & _)). fold restart in Hregs, Hpc', Hm.
  cbn [parked_context ss_r0 ss_r1 ss_r2 ss_r3 ss_r7 ss_r9 ss_r12 ss_lr ss_pc ss_saved_mask] in *.
  injection Hregs as E0 E1 E2 E3 E7 E9 E12 E14.
  split; [done|]. split; [|split; [|done]].
  - rewrite Hpc', thumb_lor by lia. destruct restart.
    + rewrite u32_small, clear_thumb by lia. lia.
    + rewrite clear_thumb by lia. lia.
  - intros i Hin. repeat (apply elem_of_cons in Hin as [->|Hin]; [done|]). by apply elem_of_nil in Hin.
Qed.

(** *** Witnesses: SIGUSR1 sent to the only guest process, and a restarted call. *)

Definition demo_guest : lxp_proc := set_p_pid (cproc demo_coord 0) 7.
Definition demo_send_coord : coord unit := put_cproc demo_coord 0 demo_guest.

Lemma signal_send_exact_witness :
  lxp_signal_send demo_core demo_send_coord None 7 0 LXP_SIGUSR1 =
    (1, (lxp_signal_send demo_core demo_send_coord None 7 0 LXP_SIGUSR1).2) /\
  cproc (lxp_signal_send demo_core demo_send_coord None 7 0 LXP_SIGUSR1).2 0 =
    lxp_signal_latch demo_guest LXP_SIGUSR1.
Proof.
  split; [vm_compute; reflexivity|].
  destruct (signal_send_exact demo_core demo_send_coord None 7 0 LXP_SIGUSR1 1
    (lxp_signal_send demo_core demo_send_coord None 7 0 LXP_SIGUSR1).2
    (put_cproc_wf _ _ _ demo_coord_wf) ltac:(vm_compute; reflexivity)) as (Hs & _).
  apply (proj1 (Hs 0 ltac:(done))). apply hits_addressed. reflexivity.
Defined.

(** The same task with SA_RESTART for SIGUSR1, parked in the call of the sample frame. *)
Definition demo_restart_coord : coord unit :=
  capture_ctx (mk_coord tt (set_rt_k demo_sig_rt (set_k_sighand (rt_k demo_sig_rt)
    [set_sh_restart demo_sighand (lxp_sig_bit LXP_SIGUSR1)])) (replicate 12 stack_zero)) 0 demo_frame.

Lemma demo_restart_wf : coord_wf demo_restart_coord.
Proof. split; [done|]. apply demo_coord_wf. Qed.

Definition demo_delivered : coord unit :=
  lxp_deliver_signal_parked demo_ops demo_restart_coord 0 LXP_SIGUSR1 (- LXP_ERESTARTSYS).

Lemma interrupted_call_resumes_witness :
  freg (lxp_sig_restore demo_delivered demo_frame 0).1 0 = freg demo_frame 0 /\
  freg (lxp_sig_restore demo_delivered demo_frame 0).1 15 = freg demo_frame 15 - 2.
Proof.
  assert (Hp : parked_in demo_restart_coord 0 demo_frame)
    by (split; vm_compute; reflexivity).
  destruct (deliver_parked_spec demo_ops demo_restart_coord demo_frame 0 LXP_SIGUSR1 (- LXP_ERESTARTSYS)
    (lxp_signal_prepare demo_restart_coord 0 LXP_SIGUSR1).1.2
    (lxp_signal_prepare demo_restart_coord 0 LXP_SIGUSR1).2 demo_restart_wf eq_refl Hp eq_refl) as (Hwf & _).
  destruct (interrupted_call_resumes demo_ops demo_core demo_restart_coord demo_frame 0 LXP_SIGUSR1
    (- LXP_ERESTARTSYS) (lxp_signal_prepare demo_restart_coord 0 LXP_SIGUSR1).1.2
    (lxp_signal_prepare demo_restart_coord 0 LXP_SIGUSR1).2 demo_delivered demo_frame
    (lxp_sig_restore demo_delivered demo_frame 0).1 (lxp_sig_restore demo_delivered demo_frame 0).2
    demo_restart_wf eq_refl eq_refl Hp ltac:(split; vm_compute; congruence) eq_refl eq_refl
    (run_steps demo_ops demo_core 0 _ _ Hwf eq_refl) ltac:(apply surjective_pairing)) as (H0 & H15 & _).
  split; [exact H0|exact H15].
Defined.
