(* ===== verification/ChildProps.v ===== *)
(** * Properties of child events

    The three parallel arrays of a thread group are one first-in first-out queue of child
    events; wait4 takes the first one it may see, and within the accounting budget an exit
    is never dropped. *)

From S2P Require Import Prelude Config Errno Proc Pool Fd Guest Wait Arena Process Runtime Event Region Lifecycle.
From S2P Require Import Quiet Signal SignalProps Child SignalRoute.
Local Open Scope Z_scope.

(** ** The queue *)

Definition entry_at (g : lxp_thread_group) (i : Z) : Z * Z * Z :=
  (aget 0 (tg_child_pid g) i, aget 0 (tg_child_status g) i, aget 0 (tg_child_kind g) i).
Definition queue (g : lxp_thread_group) : list (Z * Z * Z) := map (entry_at g) (seqZ 0 (tg_child_count g)).

Definition group_wf (g : lxp_thread_group) : Prop :=
  alen (tg_child_pid g) = LXP_MAX_CHILD /\ alen (tg_child_status g) = LXP_MAX_CHILD /\
  alen (tg_child_kind g) = LXP_MAX_CHILD /\ 0 <= tg_child_count g <= LXP_MAX_CHILD.

(** What wait4 may report for its pid and options. *)
Definition reportable (wpid options : Z) (x : Z * Z * Z) : bool :=
  negb ((wpid >? 0) && negb (x.1.1 =? wpid)) &&
  negb ((x.2 =? LXP_CHILD_STOPPED) && (Z.land options LXP_WUNTRACED =? 0)).

Definition event_entry (e : lxp_child_event) : Z * Z * Z := (ce_pid e, ce_value e, ce_kind e).

Lemma seqZ_snoc a n : 0 <= n -> seqZ a (n + 1) = seqZ a n ++ [a + n].
Proof. intros Hn. by rewrite seqZ_app by lia. Qed.

Lemma queue_lookup g j x :
  queue g !! j = Some x <-> Z.of_nat j < tg_child_count g /\ x = entry_at g (Z.of_nat j).
Proof.
  unfold queue. rewrite list_lookup_fmap. rewrite fmap_Some. split.
  - intros (y & Hy & ->). apply lookup_seqZ in Hy as [-> Hj]. split; [lia|]. f_equal; lia.
  - intros [Hj ->]. exists (Z.of_nat j). split; [|done]. apply lookup_seqZ. lia.
Qed.

Lemma length_queue g : 0 <= tg_child_count g -> Z.of_nat (length (queue g)) = tg_child_count g.
Proof. intros Hc. unfold queue. rewrite length_map, length_seqZ. lia. Qed.

Lemma queue_ext g g' :
  tg_child_count g' = tg_child_count g ->
  (forall i, 0 <= i < tg_child_count g -> entry_at g' i = entry_at g i) -> queue g' = queue g.
Proof.
  intros Hc He. unfold queue. rewrite Hc. apply map_ext_in. intros i Hi%list_elem_of_In%elem_of_seqZ.
  apply He. lia.
Qed.

Lemma enqueue_queue g e :
  group_wf g -> tg_child_count g < LXP_MAX_CHILD ->
  group_wf (group_enqueue g e) /\ queue (group_enqueue g e) = queue g ++ [event_entry e].
Proof.
  intros (Hp & Hs & Hk & Hc) Hlt. unfold group_enqueue.
  replace (_ && _) with true by lia. cbv zeta.
  set (g' := set_tg_child_kind _ _).
  assert (Hcnt : tg_child_count g' = tg_child_count g + 1) by done.
  assert (Hent : forall i, 0 <= i -> entry_at g' i = if decide (tg_child_count g = i) then event_entry e else entry_at g i).
  { intros i Hi. unfold entry_at, g'.
    cbn [set_tg_child_kind set_tg_child_status set_tg_child_pid set_tg_child_count tg_child_pid
         tg_child_status tg_child_kind tg_child_count].
    rewrite !aget_aset by lia. by destruct (decide _). }
  split.
  { unfold group_wf. rewrite Hcnt.
    cbn [g' set_tg_child_kind set_tg_child_status set_tg_child_pid set_tg_child_count tg_child_pid
         tg_child_status tg_child_kind]. rewrite !alen_aset. lia. }
  unfold queue at 1. rewrite Hcnt, seqZ_snoc, map_app by lia. cbn [map]. f_equal.
  - apply map_ext_in. intros i Hi%list_elem_of_In%elem_of_seqZ. rewrite Hent by lia.
    by rewrite decide_False by lia.
  - by rewrite Hent, decide_True by lia.
Qed.

Lemma shift_down_spec l i k :
  0 <= i -> 0 <= k -> i + k < alen l ->
  let l' := fold_left (fun l j => aset l (j - 1) (aget 0 l j)) (seqZ (i + 1) k) l in
  alen l' = alen l /\
  forall j, 0 <= j -> aget 0 l' j = if decide (i <= j < i + k) then aget 0 l (j + 1) else aget 0 l j.
Proof.
  intros Hi Hk. revert k Hk. apply (natlike_ind (fun k => i + k < alen l -> _)).
  - intros _. cbn. split; [done|]. intros j Hj. by rewrite decide_False by lia.
  - intros k Hk IH Hlt. rewrite <- Z.add_1_r, seqZ_snoc, fold_left_app by lia.
    destruct IH as (Hl & Hg); [lia|]. cbn [fold_left].
    set (l' := fold_left _ _ l) in *. split; [by rewrite alen_aset|].
    intros j Hj. rewrite aget_aset by lia. destruct (decide (i + 1 + k - 1 = j)) as [<-|Hne].
    + rewrite Hg, decide_False by lia. rewrite decide_True by lia. f_equal. lia.
    + rewrite Hg by lia. destruct (decide (i <= j < i + k)).
      * by rewrite decide_True by lia.
      * by rewrite decide_False by lia.
Qed.

Lemma dequeue_queue g i :
  group_wf g -> 0 <= i < tg_child_count g ->
  group_wf (group_dequeue g i) /\ queue (group_dequeue g i) = delete (Z.to_nat i) (queue g).
Proof.
  intros (Hp & Hs & Hk & Hc) Hi. unfold group_dequeue. cbv zeta.
  set (n := tg_child_count g) in *. set (g' := set_tg_child_count _ _).
  assert (Hcnt : tg_child_count g' = n - 1) by done.
  pose proof (shift_down_spec (tg_child_pid g) i (n - (i + 1)) ltac:(lia) ltac:(lia) ltac:(lia)) as (Lp & Gp).
  pose proof (shift_down_spec (tg_child_status g) i (n - (i + 1)) ltac:(lia) ltac:(lia) ltac:(lia)) as (Ls & Gs).
  pose proof (shift_down_spec (tg_child_kind g) i (n - (i + 1)) ltac:(lia) ltac:(lia) ltac:(lia)) as (Lk & Gk).
  assert (Hent : forall j, 0 <= j < n - 1 -> entry_at g' j = entry_at g (if decide (j < i) then j else j + 1)).
  { intros j Hj. unfold entry_at, g', shift_down.
    cbn [set_tg_child_kind set_tg_child_status set_tg_child_pid set_tg_child_count tg_child_pid
         tg_child_status tg_child_kind].
    rewrite Gp, Gs, Gk by lia. destruct (decide (j < i)).
    - by rewrite !decide_False by lia.
    - by rewrite !decide_True by lia. }
  split.
  { unfold group_wf. rewrite Hcnt. unfold g', shift_down.
    cbn [set_tg_child_kind set_tg_child_status set_tg_child_pid set_tg_child_count tg_child_pid
         tg_child_status tg_child_kind]. lia. }
  apply list_eq. intros j. apply option_eq. intros x. rewrite queue_lookup, Hcnt.
  destruct (decide (j < Z.to_nat i)%nat) as [Hlt|Hge].
  - rewrite list_lookup_delete_lt by lia. rewrite queue_lookup. fold n. split.
    + intros [Hj ->]. split; [lia|]. by rewrite Hent, decide_True by lia.
    + intros [Hj ->]. split; [lia|]. by rewrite Hent, decide_True by lia.
  - rewrite list_lookup_delete_ge by lia. rewrite queue_lookup. fold n. split.
    + intros [Hj ->]. split; [lia|]. rewrite Hent, decide_False by lia. f_equal. lia.
    + intros [Hj ->]. split; [lia|]. rewrite Hent, decide_False by lia. f_equal. lia.
Qed.

(** wait4's scan is the first reportable entry. *)
Lemma wait_scan_find g wpid options :
  0 <= tg_child_count g ->
  wait_scan g wpid options =
  option_map (fun r => Z.of_nat r.1) (list_find (fun x => reportable wpid options x = true) (queue g)).
Proof.
  intros Hc. unfold wait_scan, queue.
  assert (Hgen : forall k n, 0 <= k -> 0 <= n ->
    match filter (fun i => wait_selects g wpid options i = true) (seqZ k n) with [] => None | i :: _ => Some i end =
    option_map (fun r => k + Z.of_nat r.1)
      (list_find (fun x => reportable wpid options x = true) (map (entry_at g) (seqZ k n)))).
  { intros k n Hk Hn. revert k Hk. revert n Hn.
    apply (natlike_ind (fun n => forall k, 0 <= k -> _)).
    - intros k Hk. by rewrite seqZ_nil by lia.
    - intros n Hn IH k Hk. rewrite (seqZ_cons k (Z.succ n)) by lia. rewrite filter_cons. cbn [map list_find].
      change (reportable wpid options (entry_at g k)) with (wait_selects g wpid options k).
      destruct (decide (wait_selects g wpid options k = true)).
      + cbn [option_map fst]. f_equal. lia.
      + replace (Z.pred (Z.succ n)) with n by lia. rewrite <- Z.add_1_r, IH by lia.
        destruct (list_find _ _) as [[j y]|]; [|done]. cbn. f_equal. lia. }
  rewrite (Hgen 0 (tg_child_count g)) by (done || lia).
  destruct (list_find _ _) as [[j y]|]; done.
Qed.

(** ** wait4 *)

Definition encoded (kind code : Z) : Z :=
  if kind =? LXP_CHILD_STOPPED then lxp_encode_wstopped code else lxp_encode_wstatus code.

Section ChildProps.
Context {H : Type} (ops : os_task H).
Implicit Types (c : coord H).

Definition groups_wf c : Prop := Forall group_wf (k_groups (rt_k (c_rt c))).

Lemma group_at_put c gi g :
  0 <= gi < alen (k_groups (rt_k (c_rt c))) -> group_at (put_group c gi g) gi = g.
Proof.
  intros Hg. unfold group_at, put_group, set_c_rt, set_rt_k, set_k_groups. cbn [c_rt rt_k k_groups].
  by apply aget_aset_eq.
Qed.

Lemma load32_write32 m a v : load32 (mem_write m a (bytes32 v)) a = u32 v.
Proof. exact (load32_store32_same m a v). Qed.

(** What wait4 answers and leaves behind, from the group's queue. *)
Definition wait4_result c (slot gi wpid options status rc : Z) (c' : coord H) : Prop :=
  let g := group_at c gi in
  match list_find (fun x => reportable wpid options x = true) (queue g) with
  | Some (i, (pid, code, kind)) =>
      rc = pid /\ queue (group_at c' gi) = delete i (queue g) /\
      tg_live_children (group_at c' gi) = tg_live_children g /\
      (forall s, cproc c' s = cproc c s) /\
      (status <> 0 -> load32 (rt_mem (c_rt c')) status = u32 (encoded kind code))
  | None =>
      if tg_live_children g =? 0 then rc = - LXP_ECHILD /\ c' = c
      else if negb (Z.land options LXP_WNOHANG =? 0) then rc = 0 /\ c' = c
      else rc = 0 /\ group_at c' gi = g /\ exists t,
           p_wait (cproc c' slot) = mk_wait LXP_WAIT_CHILD 0 0 t (WD_CHILD wpid options status)
  end.
End ChildProps.

Lemma wait4_found {H} (c c' : coord H) slot gi wpid options status rc i pid code kind :
  list_find (fun x => reportable wpid options x = true) (queue (group_at c gi)) = Some (i, (pid, code, kind)) ->
  wait4_result c slot gi wpid options status rc c' ->
  rc = pid /\ queue (group_at c' gi) = delete i (queue (group_at c gi)).
Proof. unfold wait4_result. intros ->. tauto. Qed.

(** C22: wait4 is a first-in first-out read of the group's child events.  It reports the first
    queued event it may see (the pid it asks for; stops only with WUNTRACED), with the
    encoded status stored at the guest's address, removes exactly that entry and keeps the
    others in order.  With none: no living child gives ECHILD, WNOHANG gives 0, and
    otherwise the task waits for just these events. *)
Theorem wait4_fifo {H} (now : option Z) (c : coord H) slot gi wpid options status :
  coord_wf c -> slot_in slot = true -> p_group (cproc c slot) = Some gi ->
  0 <= gi < alen (k_groups (rt_k (c_rt c))) -> group_wf (group_at c gi) ->
  0 <= status < 2 ^ 32 ->
  (status <> 0 -> lxp_guest_access_ok (rt_genv (c_rt c)) slot status 4 true = true) ->
  intent_kind (p_intent (cproc c slot)) = IK_NONE -> w_kind (p_wait (cproc c slot)) = LXP_WAIT_NONE ->
  let '(rc, c') := lxp_sys_wait4 now c slot wpid status options in
  wait4_result c slot gi wpid options status rc c'.
Proof.
  intros Hwf Hs Hgr Hgi Hg Hst Hacc Hint Hwait. unfold lxp_sys_wait4, wait4_result.
  rewrite !(u32_small status) by done.
  assert (Hok : negb (status =? 0) && negb (lxp_guest_access_ok (rt_genv (c_rt c)) slot status 4 true) = false).
  { destruct (Z.eqb_spec status 0); [done|]. by rewrite Hacc. }
  rewrite Hok, Hgr, wait_scan_find by (destruct Hg as (_ & _ & _ & Hc); lia).
  destruct (list_find _ _) as [[i [[pid code] kind]]|] eqn:Hf; cbn [option_map fst].
  - apply list_find_Some in Hf as (Hi & _ & _). apply queue_lookup in Hi as (Hi & Hx).
    injection Hx. intros Hkind Hcode Hpid. rewrite <- Hkind, <- Hcode, <- Hpid.
    destruct (dequeue_queue (group_at c gi) (Z.of_nat i) Hg ltac:(lia)) as (_ & Hq).
    rewrite Nat2Z.id in Hq. fold (encoded kind code).
    set (c1 := put_group c gi _). assert (Hg1 : group_at c1 gi = _) by (by apply group_at_put).
    destruct (Z.eqb_spec status 0) as [Hz|Hz]; cbn [negb].
    + rewrite Hg1. split; [done|]. split; [exact Hq|]. split; [done|]. split; [done|]. done.
    + unfold lxp_guest_put_u32, lxp_copy_to_guest.
      change (rt_genv (c_rt c1)) with (rt_genv (c_rt c)). change (alen (bytes32 (encoded kind code))) with 4.
      rewrite Hacc by done. cbn [negb snd].
      set (c2 := set_c_rt c1 _). change (group_at c2 gi) with (group_at c1 gi). rewrite Hg1.
      split; [done|]. split; [done|]. split; [done|]. split; [done|]. intros _.
      change (rt_mem (c_rt c2)) with (mem_write (rt_mem (c_rt c1)) status (bytes32 (encoded kind code))).
      apply load32_write32.
  - destruct (tg_live_children (group_at c gi) =? 0); [done|].
    destruct (negb (Z.land options LXP_WNOHANG =? 0)); [done|].
    unfold lxp_wait_park, lxp_wait_begin. cbn [w_kind].
    destruct (decide (LXP_WAIT_CHILD = LXP_WAIT_NONE)) as [Hk|_]; [done|].
    rewrite Hint, Hwait. rewrite !bool_decide_eq_false_2 by (intros Hn; by apply Hn). cbn [orb].
    cbn [Z.eqb]. split; [done|]. split; [done|]. rewrite cproc_put by done.
    destruct now as [t|]; [by exists t|by exists 0].
Qed.

(** ** Publication *)

Definition budget (g : lxp_thread_group) : Prop :=
  group_wf g /\ 0 <= tg_live_children g /\ tg_live_children g + tg_child_count g <= LXP_MAX_CHILD.

Section Publish.
Context {H : Type} (ops : os_task H).
Implicit Types (c : coord H).

Lemma parent_scan_in c ppid e slots fb s :
  parent_scan c ppid e slots fb = Some s ->
  fb = Some s \/ (s ∈ slots /\ task_of_group c ppid s = true).
Proof.
  revert fb. induction slots as [|x l IH]; intros fb Hp; cbn [parent_scan] in Hp; [by left|].
  destruct (task_of_group c ppid x) eqn:Ht; cbn [negb] in Hp.
  - destruct (child_wait_accepts _ _).
    + injection Hp as <-. right. split; [apply elem_of_cons; by left|done].
    + destruct (IH _ Hp) as [Hf|(Hin & Hg)]; [|right; split; [apply elem_of_cons; by right|done]].
      destruct fb; [by left|]. injection Hf as <-. right. split; [apply elem_of_cons; by left|done].
  - destruct (IH _ Hp) as [Hf|(Hin & Hg)]; [by left|]. right. split; [apply elem_of_cons; by right|done].
Qed.

Lemma parent_slot_in c ppid e s : parent_task_for_child c ppid e = Some s -> slot_in s = true.
Proof.
  intros [?|(Hin & _)]%parent_scan_in; [done|]. apply elem_of_seqZ in Hin. apply slot_in_range. lia.
Qed.

(** The waiter's wake-up: whatever the host does, the wait is over, and the pools and
    memory are as they were. *)
Lemma wake_waiter c slot r0 :
  coord_wf c -> slot_in slot = true -> w_kind (p_wait (cproc c slot)) = LXP_WAIT_CHILD ->
  let c1 := put_cproc c slot (lxp_wait_complete (cproc c slot) LXP_WAIT_CHILD).2 in
  let '(_, h1, R1) := lxp_coordinator_park_slot ops (c_h c1) (c_rt c1) slot in
  let '(_, h2, R2) := lxp_coordinator_complete_slot ops h1 R1 (lxp_slot_ref_at R1 slot) r0 in
  p_wait (sproc R2 slot) = wait_zero /\ rt_k R2 = rt_k (c_rt c) /\ rt_mem R2 = rt_mem (c_rt c).
Proof.
  intros Hwf Hs Hk c1.
  pose proof (quiet_apply ops (c_h c1) (c_rt c1) (LXP_OUTCOME_REMAIN_PARKED slot)) as Q1.
  unfold lxp_coordinator_park_slot. destruct (lxp_lifecycle_apply _ _ _ _) as [[rc1 h1] R1].
  pose proof (quiet_complete ops h1 R1 (lxp_slot_ref_at R1 slot) r0) as Q2.
  destruct (lxp_coordinator_complete_slot _ _ _ _ _) as [[rc2 h2] R2]. cbn [snd] in Q1, Q2.
  pose proof (quiet_trans _ _ _ Q1 Q2) as Q.
  rewrite (quiet_wait _ _ slot Q), (quiet_k _ _ Q), (quiet_mem _ _ Q). split; [|done].
  unfold c1. change (sproc (c_rt (put_cproc c slot ?p)) slot) with (cproc (put_cproc c slot p) slot).
  rewrite cproc_put by done. unfold lxp_wait_complete, wait_finish. rewrite Hk.
  rewrite !bool_decide_eq_false_2 by (intros Hn; by try apply Hn). done.
Qed.

Lemma accepts_wait p e : child_wait_accepts p e = true ->
  w_kind (p_wait p) = LXP_WAIT_CHILD /\ exists wp o st, w_data (p_wait p) = WD_CHILD wp o st.
Proof.
  unfold child_wait_accepts. destruct (w_kind (p_wait p)); try done.
  destruct (w_data (p_wait p)) as [| |wp o st| | | | |]; try done. intros _. split; [done|]. by exists wp, o, st.
Qed.

Lemma budget_exit g :
  budget g -> 0 < tg_live_children g -> budget (set_tg_live_children g (tg_live_children g - 1)).
Proof. intros (Hw & Hl & Hb) Hp. split; [exact Hw|]. cbn [set_tg_live_children tg_live_children tg_child_count]. lia. Qed.

Lemma budget_enqueue_exit g e :
  budget g -> 0 < tg_live_children g ->
  let g1 := set_tg_live_children g (tg_live_children g - 1) in
  budget (group_enqueue g1 e) /\ queue (group_enqueue g1 e) = queue g ++ [event_entry e] /\
  tg_live_children (group_enqueue g1 e) = tg_live_children g - 1.
Proof.
  intros Hb Hp g1. pose proof (budget_exit g Hb Hp) as (Hw & Hl & Hc). fold g1 in Hw, Hl, Hc.
  assert (Hroom : tg_child_count g1 < LXP_MAX_CHILD).
  { destruct Hb as (_ & _ & Hb). change (tg_child_count g1) with (tg_child_count g). lia. }
  destruct (enqueue_queue g1 e Hw Hroom) as (Hw' & Hq).
  assert (Hlc : tg_live_children (group_enqueue g1 e) = tg_live_children g1 /\
                tg_child_count (group_enqueue g1 e) = tg_child_count g1 + 1).
  { unfold group_enqueue. destruct Hw as (_ & _ & _ & Hcc). by replace (_ && _) with true by lia. }
  destruct Hlc as (El & Ec). split; [|split; [done|rewrite El; done]].
  split; [done|]. rewrite El, Ec.
  destruct Hb as (_ & Hb0 & Hb). change (tg_child_count g1) with (tg_child_count g).
  change (tg_live_children g1) with (tg_live_children g - 1). lia.
Qed.
End Publish.

(** C9: Within the accounting budget (living children and queued events together fit the
    queue) no exit is lost: a reported exit either completes the wait of a thread that
    accepts it, with the encoded status stored at the address it gave, or becomes the last
    entry of the queue, with SIGCHLD pending on the parent when asked; the child is no
    longer counted as living and the budget still holds. *)
Theorem child_exit_never_lost {H} (ops : os_task H) (c : coord H) ppid pid status sigchld slot gi :
  let e := mk_child_event pid status LXP_CHILD_EXITED (b2z (negb (sigchld =? 0))) in
  coord_wf c -> parent_task_for_child c ppid e = Some slot -> p_group (cproc c slot) = Some gi ->
  0 <= gi < alen (k_groups (rt_k (c_rt c))) -> budget (group_at c gi) ->
  0 < tg_live_children (group_at c gi) ->
  let c' := lxp_reap_to_parent ops c ppid pid status sigchld in
  budget (group_at c' gi) /\
  tg_live_children (group_at c' gi) = tg_live_children (group_at c gi) - 1 /\
  if child_wait_accepts (cproc c slot) e
  then queue (group_at c' gi) = queue (group_at c gi) /\ p_wait (cproc c' slot) = wait_zero /\
       forall wp o st, w_data (p_wait (cproc c slot)) = WD_CHILD wp o st -> st <> 0 ->
         load32 (rt_mem (c_rt c')) st = u32 (lxp_encode_wstatus status)
  else queue (group_at c' gi) = queue (group_at c gi) ++ [(pid, status, LXP_CHILD_EXITED)] /\
       (sigchld <> 0 -> pending (cproc c' slot) LXP_SIGCHLD = true).
Proof.
  intros e Hwf Hpar Hgr Hgi Hb Hlive c'. pose proof (parent_slot_in _ _ _ _ Hpar) as Hs.
  unfold c', lxp_reap_to_parent, child_event_publish. fold e. rewrite Hpar, Hgr.
  change (ce_kind e =? LXP_CHILD_EXITED) with true. cbn [andb].
  replace (tg_live_children (group_at c gi) >? 0) with true by lia.
  set (c1 := put_group c gi _).
  assert (Hg1 : group_at c1 gi = set_tg_live_children (group_at c gi) (tg_live_children (group_at c gi) - 1))
    by by apply group_at_put.
  change (cproc c1 slot) with (cproc c slot).
  destruct (child_wait_accepts (cproc c slot) e) eqn:Hacc.
  - destruct (accepts_wait _ _ Hacc) as (Hk & wp & o & st & Hd). rewrite Hd.
    set (c2 := if negb (st =? 0) then _ else c1).
    assert (Hwf2 : coord_wf c2) by (unfold c2; destruct (negb (st =? 0)); exact Hwf).
    assert (Hp2 : cproc c2 slot = cproc c slot) by (unfold c2; by destruct (negb (st =? 0))).
    assert (Hk2 : rt_k (c_rt c2) = rt_k (c_rt c1)) by (unfold c2; by destruct (negb (st =? 0))).
    assert (Hm2 : st <> 0 -> load32 (rt_mem (c_rt c2)) st = u32 (lxp_encode_wstatus status)).
    { intros Hst. unfold c2. replace (st =? 0) with false by lia. apply load32_store32_same. }
    pose proof (wake_waiter ops c2 slot (ce_pid e) Hwf2 Hs ltac:(by rewrite Hp2)) as Hwake. cbv zeta in Hwake.
    destruct (lxp_coordinator_park_slot _ _ _ _) as [[rc1 h1] R1].
    destruct (lxp_coordinator_complete_slot _ _ _ _ _) as [[rc2 h2] R2].
    destruct Hwake as (Hw & HkR & HmR).
    assert (HgR : group_at (set_c_rt (set_c_h (put_cproc c2 slot (lxp_wait_complete (cproc c2 slot) LXP_WAIT_CHILD).2) h2) R2) gi
                  = group_at c1 gi) by (unfold group_at; cbn [set_c_rt c_rt]; by rewrite HkR, Hk2).
    rewrite HgR, Hg1. split; [by apply budget_exit|]. split; [done|]. split; [done|]. split; [exact Hw|].
    intros wp' o' st' [= <- <- <-] Hst. cbn [set_c_rt c_rt]. rewrite HmR. by apply Hm2.
  - rewrite Hg1. set (c2 := put_group c1 gi _).
    assert (Hg2 : group_at c2 gi = _) by (apply group_at_put; unfold c1, put_group, set_c_rt, set_rt_k, set_k_groups;
      cbn [c_rt rt_k k_groups]; by rewrite alen_aset).
    destruct (budget_enqueue_exit _ e Hb Hlive) as (Hb' & Hq & Hl). cbv zeta in *.
    set (c3 := if negb (ce_notify e =? 0) then _ else c2).
    assert (Hg3 : group_at c3 gi = group_at c2 gi) by (unfold c3; by destruct (negb (ce_notify e =? 0))).
    rewrite Hg3, Hg2. split; [done|]. split; [done|]. split; [done|]. intros Hsc. unfold c3.
    change (ce_notify e) with (b2z (negb (sigchld =? 0))). replace (sigchld =? 0) with false by lia. cbn [negb b2z Z.eqb].
    rewrite cproc_put by done. by rewrite pending_latch by (try split; vm_compute; congruence).
Qed.

(** ** Stop notices

    A stop notice takes a place in the same queue, but the stopped child stays counted as
    living, so notices are outside the budget. *)

(** A parent process 5 in slot 0 with one living child and an empty queue. *)
Definition demo_group : lxp_thread_group :=
  set_tg_live_children (set_tg_tgid (set_tg_refs group_zero 1) 5) 1.
Definition demo_parent_coord : coord unit :=
  let R := set_rt_k demo_rt (set_k_groups (rt_k demo_rt) [demo_group]) in
  mk_coord tt (put_proc R 0 (set_p_pid (set_p_group demo_proc (Some 0)) 5)) (replicate 12 stack_zero).

Lemma demo_parent_wf : coord_wf demo_parent_coord.
Proof. by apply fresh_saves_wf. Qed.

Lemma demo_group_budget : budget (group_at demo_parent_coord 0).
Proof.
  change (group_at demo_parent_coord 0) with demo_group.
  repeat split; vm_compute; congruence.
Qed.

Fixpoint stop_notices (n : nat) (c : coord unit) : coord unit :=
  match n with O => c | S k => stop_notices k (lxp_notify_parent_stopped demo_ops c 5 9 LXP_SIGTSTP) end.

(** Stop notices can push an exit out.  After a child (process 9) has been stopped and
    continued eight times without its parent collecting the notices, the queue is full: the
    child's exit is recorded nowhere, no living child is left, and once the parent has read
    the eight stop notices wait4 answers ECHILD. *)
Theorem stop_notices_drop_exit :
  let c := lxp_reap_to_parent demo_ops (stop_notices 8 demo_parent_coord) 5 9 0 1 in
  queue (group_at c 0) = replicate 8 (9, LXP_SIGTSTP, LXP_CHILD_STOPPED) /\
  tg_live_children (group_at c 0) = 0 /\
  let drained := Nat.iter 8 (fun c => (lxp_sys_wait4 None c 0 (-1) 0 LXP_WUNTRACED).2) c in
  (lxp_sys_wait4 None drained 0 (-1) 0 LXP_WUNTRACED).1 = - LXP_ECHILD.
Proof. vm_compute. done. Qed.

Lemma demo_reported_wf : coord_wf (lxp_reap_to_parent demo_ops demo_parent_coord 5 9 3 1).
Proof. apply fresh_saves_wf; vm_compute; reflexivity. Qed.

Lemma wait4_fifo_witness :
  let c := lxp_reap_to_parent demo_ops demo_parent_coord 5 9 3 1 in
  (lxp_sys_wait4 None c 0 (-1) 0 0).1 = 9 /\
  queue (group_at (lxp_sys_wait4 None c 0 (-1) 0 0).2 0) = [].
Proof.
  intros c. assert (Hg : group_wf (group_at c 0)) by (repeat split; vm_compute; congruence).
  pose proof (wait4_fifo None c 0 0 (-1) 0 0 demo_reported_wf eq_refl ltac:(vm_compute; reflexivity)
    ltac:(split; vm_compute; congruence) Hg ltac:(split; vm_compute; congruence) ltac:(intros Hn; by destruct Hn)
    ltac:(vm_compute; reflexivity) ltac:(vm_compute; reflexivity)) as Hw.
  revert Hw. generalize (lxp_sys_wait4 None c 0 (-1) 0 0). intros [rc c'] Hw.
  apply (wait4_found _ _ _ _ _ _ _ _ 0%nat 9 3 LXP_CHILD_EXITED) in Hw as [Hrc Hq]; [|vm_compute; reflexivity].
  split; [exact Hrc|]. cbn [snd]. rewrite Hq. vm_compute. reflexivity.
Defined.

Lemma child_exit_never_lost_witness :
  let c' := lxp_reap_to_parent demo_ops demo_parent_coord 5 9 3 1 in
  queue (group_at c' 0) = [(9, 3, LXP_CHILD_EXITED)] /\ pending (cproc c' 0) LXP_SIGCHLD = true.
Proof.
  destruct (child_exit_never_lost demo_ops demo_parent_coord 5 9 3 1 0 0 demo_parent_wf eq_refl eq_refl
    ltac:(split; vm_compute; congruence) demo_group_budget ltac:(vm_compute; congruence)) as (_ & _ & Hq & Hs).
  split; [exact Hq|apply Hs; lia].
Defined.
