(* ===== verification/Exit.v ===== *)
(** * The exit handler (src/run/lxp_exit.c)

    The coordinator's handling of a task's exit event: stop the native task, release what
    the task holds, undo an unfinished vfork, retire the slot and report to the parent.  It
    composes the lifecycle, process, region and child components. *)

From Stdlib Require Import RelationClasses.
From S2P Require Import Prelude Config Arena Errno Proc Guest Wait Pool Fd Process Runtime Event Region Lifecycle.
From S2P Require Import Quiet Signal SignalProps Child SignalRoute ChildProps.
Local Open Scope Z_scope.

(** The port's memory callbacks: mapping a task's memory for the coordinator, and installing
    (or, with an empty range, removing) a slot's device window. *)
Record os_memory (H : Type) := mk_os_memory {
  coord_map : option (H -> Z -> H);
  map_device : option (H -> Z -> Z -> Z -> Z -> Z * H);
}.
Arguments mk_os_memory {H}.
Arguments coord_map {H}.
Arguments map_device {H}.

(** The other host callbacks an exit reaches. *)
Record os_exit (H : Type) := mk_os_exit {
  os_mem : os_memory H;
  on_guest_exit : option (H -> Z -> lxp_proc -> H);
  os_region : Z -> Z;
  os_dyn_pool : option (Z -> Z * Z);
}.
Arguments mk_os_exit {H}.
Arguments os_mem {H}.
Arguments on_guest_exit {H}.
Arguments os_region {H}.
Arguments os_dyn_pool {H}.

Record lxp_exit_result := mk_exit_result { er_stop_coordinator : Z; er_status : Z }.
Definition exit_result_zero : lxp_exit_result := mk_exit_result 0 0.

Section Exit.
Context {H B : Type} `{FileOps B} (ops : os_task H) (xops : os_exit H).
Implicit Types (c : coord H) (b : B).

Definition lxp_notify_guest_exit c (slot : Z) : coord H :=
  match on_guest_exit xops with Some g => set_c_h c (g (c_h c) slot (cproc c slot)) | None => c end.

(** The group an exit intent names. *)
Definition exit_group (i : lxp_intent) : bool := match i with LXP_INTENT_EXIT g => g | _ => false end.

(** The release of descriptors, paths and dispositions, the device window and the signal frames. *)
Definition exit_release c b (slot : Z) : coord H * B :=
  let '(k, b, p) := lxp_proc_resources_put (rt_k (c_rt c)) b (cproc c slot) in
  let c := put_cproc (set_c_rt c (set_rt_k (c_rt c) k)) slot p in
  let c := match map_device (os_mem xops) with Some g => set_c_h c ((g (c_h c) slot 0 0 0).2) | None => c end in
  (put_stack c slot (mk_stack (st_frame (stack_at c slot)) 0), b).

(** The vfork child's part: the restored state, the parent's slot and the status. *)
Definition exit_vfork c (slot : Z) (exiting_ref parent_ref : lxp_ref) (status : Z) : coord H * Z * Z :=
  let parent_slot := ref_index parent_ref in
  let snapshot := p_snapshot (cproc c slot) in
  match lxp_slot_resume_view (c_rt c) parent_ref with
  | Some ctx =>
      if ref_index snapshot >=? 0
      then let '(rc, R) := lxp_vfork_restore (os_region xops) (os_dyn_pool xops) (c_rt c) parent_slot snapshot
                             exiting_ref (rc_sp ctx) in
           if negb (rc =? 0)
           then let c := set_c_rt c (lxp_vfork_contain_stale R exiting_ref) in
                (c, -1, p_exit_status (cproc c slot))
           else (set_c_rt c (lxp_region_release_if_owned R snapshot exiting_ref).2, parent_slot, status)
      else (c, parent_slot, status)
  | None => (c, parent_slot, status)
  end.

(** Release of the address space and retirement of the slot. *)
Definition exit_retire c (slot : Z) : coord H :=
  let '(R, p) := lxp_region_mm_put (c_rt c) (cproc c slot) in
  let c := put_cproc (set_c_rt c R) slot p in
  let c := put_cproc c slot (set_p_alive (cproc c slot) 0) in
  let c := set_c_rt c (lxp_slot_runnable_store (c_rt c) slot false) in
  set_c_rt c (lxp_deferred_slot_reassign (c_rt c) slot).

Definition exit_group_put c (slot : Z) : coord H :=
  let '(k, p) := lxp_proc_group_put (rt_k (c_rt c)) (cproc c slot) in
  put_cproc (set_c_rt c (set_rt_k (c_rt c) k)) slot p.

(** The report to the parents: the suspended vfork parent, then the parent process. *)
Definition exit_report c (slot pid tgid ppid status parent_slot : Z) (parent_ref : lxp_ref) (dead : bool) : coord H :=
  let c := if (parent_slot >=? 0) && lxp_slot_ref_is_current (c_rt c) parent_ref
           then lift c (lxp_coordinator_complete_slot ops (c_h c) (c_rt c) parent_ref pid) else c in
  let c := if dead
           then lxp_reap_to_parent ops c ppid tgid status (b2z (negb (lxp_slot_ref_is_current (c_rt c) parent_ref)))
           else c in
  exit_group_put c slot.

Definition lxp_handle_exit c b (slot : Z) : lxp_exit_result * coord H * B :=
  let exiting_ref := lxp_slot_ref_at (c_rt c) slot in
  let c := if exit_group (p_intent (cproc c slot))
           then lxp_thread_group_request_exit c slot (p_exit_status (cproc c slot)) else c in
  let '(rc, h, R) := lxp_coordinator_abort_slot ops (c_h c) (c_rt c) slot in
  let c := set_c_rt (set_c_h c h) R in
  if negb (rc =? LXP_OK)
  then (exit_result_zero, set_c_rt c (lxp_primary_slot_mark (c_rt c) slot), b)
  else
    let proc := cproc c slot in
    let group := p_group proc in
    let g := match group_of c proc with Some g => g | None => group_zero end in
    let pid := p_pid proc in
    let tgid := tg_tgid g in
    let status := p_exit_status proc in
    let ppid := tg_ppid g in
    let parent_ref := p_vfork_parent proc in
    let '(c, b) := exit_release c b slot in
    let '(c, parent_slot, status) := exit_vfork c slot exiting_ref parent_ref status in
    let c := lxp_notify_guest_exit c slot in
    let c := exit_retire c slot in
    let group_is_dead := lxp_thread_group_live_count c group =? 0 in
    if (tgid =? 1) && group_is_dead
    then (mk_exit_result 1 status, exit_group_put c slot, b)
    else (exit_result_zero, exit_report c slot pid tgid ppid status parent_slot parent_ref group_is_dead, b).

End Exit.

(** * Properties of the exit handler

    What each task holds is its life, its thread group, its address space and its shared
    resources.  Every stage of an exit leaves the other slots' holdings and generations
    alone; the exiting slot ends with none and with its next generation. *)

Create HintDb steady.

Definition holdings (p : lxp_proc) : Z * option Z * option Z * option Z * option Z * option Z :=
  (p_alive p, p_group p, p_mm p, p_files p, p_fs_context p, p_sighand p).

Definition agree (R R' : lxp_runtime) (s : Z) : Prop :=
  holdings (sproc R' s) = holdings (sproc R s) /\ lxp_slot_generation R' s = lxp_slot_generation R s.

(** All slots agree, or all but one. *)
Definition steady (R R' : lxp_runtime) : Prop :=
  alen (rt_slots R') = alen (rt_slots R) /\ forall s, 0 <= s -> agree R R' s.
Definition steady_but (x : Z) (R R' : lxp_runtime) : Prop :=
  alen (rt_slots R') = alen (rt_slots R) /\ forall s, 0 <= s -> s <> x -> agree R R' s.

#[export] Instance steady_preorder : PreOrder steady.
Proof.
  split; [done|]. intros R1 R2 R3 (L1 & A1) (L2 & A2). split; [congruence|]. intros s Hs.
  destruct (A1 s Hs) as (h1 & g1), (A2 s Hs) as (h2 & g2). split; congruence.
Qed.

#[export] Instance steady_but_preorder x : PreOrder (steady_but x).
Proof.
  split; [done|]. intros R1 R2 R3 (L1 & A1) (L2 & A2). split; [congruence|]. intros s Hs Hx.
  destruct (A1 s Hs Hx) as (h1 & g1), (A2 s Hs Hx) as (h2 & g2). split; congruence.
Qed.

Lemma steady_refl R : steady R R.
Proof. reflexivity. Qed.

Lemma steady_trans R1 R2 R3 : steady R1 R2 -> steady R2 R3 -> steady R1 R3.
Proof. intros. by transitivity R2. Qed.

Lemma steady_but_of x R R' : steady R R' -> steady_but x R R'.
Proof. intros (Hl & Ha). split; [done|]. auto. Qed.

Lemma quiet_steady R R' : quiet R R' -> steady R R'.
Proof.
  intros Hq. split; [by apply quiet_length|]. intros s Hs.
  split; [|exact (quiet_generation _ _ s Hq)].
  exact (f_equal holdings (quiet_strip _ _ s Hq)).
Qed.

(** A runtime with the same slots. *)
Lemma steady_slots R R' : rt_slots R' = rt_slots R -> steady R R'.
Proof. intros Hs. split; [by rewrite Hs|]. intros s _. unfold agree, sproc, lxp_slot_generation, slot_at. by rewrite Hs. Qed.

Lemma slot_at_put_same R s x : 0 <= s < alen (rt_slots R) -> slot_at (put_slot R s x) s = x.
Proof. intros Hs. unfold slot_at, put_slot, set_rt_slots. cbn [rt_slots]. by apply aget_aset_eq. Qed.

Lemma slot_at_put_other R s x t : 0 <= s -> 0 <= t -> s <> t -> slot_at (put_slot R s x) t = slot_at R t.
Proof. intros. unfold slot_at, put_slot, set_rt_slots. cbn [rt_slots]. by apply aget_aset_ne. Qed.

Lemma steady_but_put x R s : 0 <= x -> steady_but x R (put_slot R x s).
Proof.
  intros Hx. split; [unfold put_slot, set_rt_slots; cbn [rt_slots]; by rewrite alen_aset|].
  intros t Ht Hne. unfold agree, sproc, lxp_slot_generation. by rewrite slot_at_put_other by lia.
Qed.

Lemma steady_put_proc R s p :
  0 <= s < alen (rt_slots R) -> holdings p = holdings (sproc R s) -> steady R (put_proc R s p).
Proof.
  intros Hs Hp. split; [unfold put_proc, put_slot, set_rt_slots; cbn [rt_slots]; by rewrite alen_aset|].
  intros t Ht. unfold agree, put_proc, lxp_slot_generation, sproc at 1.
  destruct (decide (s = t)) as [->|Hne]; [rewrite slot_at_put_same by lia; done|].
  rewrite slot_at_put_other by lia. done.
Qed.

#[export] Hint Resolve steady_refl : steady.
#[export] Hint Resolve quiet_steady : steady.

Section ExitProps.
Context {H B : Type} `{FileOps B} (ops : os_task H) (xops : os_exit H).
Implicit Types (c : coord H) (b : B).

(** *** The group request *)

Lemma request_exit_steady c slot status :
  let c' := lxp_thread_group_request_exit c slot status in
  steady (c_rt c) (c_rt c') /\ c_save c' = c_save c /\
  alen (rt_primary_pending (c_rt c')) = alen (rt_primary_pending (c_rt c)) /\
  forall gi, p_group (cproc c slot) = Some gi -> 0 <= gi < alen (k_groups (rt_k (c_rt c))) ->
    tg_tgid (group_at c' gi) = tg_tgid (group_at c gi).
Proof.
  unfold lxp_thread_group_request_exit. destruct (negb _); [done|].
  destruct (p_group _) as [gi|]; [|done].
  set (c0 := put_group c gi _).
  assert (Hfold : forall l d, quiet (c_rt c0) (c_rt d) /\ c_save d = c_save c0 ->
    let d' := fold_left (fun c s => if negb (in_group c (Some gi) s) then c
                else set_c_rt c (lxp_coordinator_exit_slot (c_rt c) s 1 (Z.land status 0xff)
                                   LXP_EXIT_REASON_NORMAL 0)) l d in
    quiet (c_rt c0) (c_rt d') /\ c_save d' = c_save c0).
  { induction l as [|s l IH]; intros d Hd; [done|]. cbn [fold_left]. apply IH.
    destruct (negb _); [done|]. destruct Hd as (Hd & Hsv). split; [|done].
    eapply quiet_trans; [exact Hd|]. apply quiet_exit_slot. }
  destruct (Hfold (seqZ 0 LXP_NSLOT) c0) as (Hs & Hsv); [done|]. cbv zeta.
  split; [eapply steady_trans; [|by apply quiet_steady]; by apply steady_slots|].
  split; [exact Hsv|]. split; [exact (proj1 (proj2 (proj2 (proj2 (proj2 (proj2 Hs))))))|].
  intros gi' [= <-] Hgi. unfold group_at at 1. rewrite (quiet_k _ _ Hs).
  change (tg_tgid (group_at c0 gi) = tg_tgid (group_at c gi)). unfold c0. by rewrite group_at_put.
Qed.

(** *** The release *)

Lemma resources_put_holdings k b p :
  let '(k', b', p') := lxp_proc_resources_put k b p in
  holdings p' = (p_alive p, p_group p, p_mm p, None, None, None) /\
  p_vfork_parent p' = p_vfork_parent p /\ p_snapshot p' = p_snapshot p.
Proof.
  unfold lxp_proc_resources_put.
  assert (Hf : let '(_, _, p1) := files_put k b p in
    holdings p1 = (p_alive p, p_group p, p_mm p, None, p_fs_context p, p_sighand p) /\
    p_vfork_parent p1 = p_vfork_parent p /\ p_snapshot p1 = p_snapshot p).
  { unfold files_put. destruct (p_files p) as [ti|] eqn:E.
    - destruct (_ =? 0); [done|]. destruct (_ =? 0); [|done]. by destruct (close_every _ _).
    - unfold holdings. by rewrite E. }
  destruct (files_put k b p) as [[k1 b1] p1]. destruct Hf as (Hh & Hv & Hsn).
  injection Hh as Ha Hg Hm Hfi Hfs Hsi.
  destruct (p_fs_context p1) as [i|] eqn:E1; cbn [p_sighand set_p_fs_context];
    destruct (p_sighand p1) as [j|] eqn:E2; unfold holdings;
    cbn [set_p_fs_context set_p_sighand p_alive p_group p_mm p_files p_fs_context p_sighand
         p_vfork_parent p_snapshot]; (split; [congruence|done]).
Qed.

Lemma cproc_holdings_put c slot p :
  coord_wf c -> slot_in slot = true -> sproc (c_rt (put_cproc c slot p)) slot = p.
Proof. intros. by apply cproc_put. Qed.

Lemma steady_but_put_cproc c slot p : 0 <= slot -> steady_but slot (c_rt c) (c_rt (put_cproc c slot p)).
Proof. intros Hs. by apply steady_but_put. Qed.

(** What one stage does: the rest agrees, and the slot's new holdings and generation. *)
Definition stage c c' (slot : Z) (h : Z * option Z * option Z * option Z * option Z * option Z) (g : Z) : Prop :=
  coord_wf c' /\ steady_but slot (c_rt c) (c_rt c') /\ holdings (cproc c' slot) = h /\ lxp_slot_generation (c_rt c') slot = g.

Lemma coord_wf_steady_but c c' x :
  coord_wf c -> steady_but x (c_rt c) (c_rt c') -> c_save c' = c_save c -> coord_wf c'.
Proof. intros (Hl & Hs) (Hl' & _) Hsv. unfold coord_wf. rewrite Hsv, Hl'. done. Qed.

Lemma release_stage c b slot :
  coord_wf c -> slot_in slot = true ->
  let '(c', b') := exit_release xops c b slot in
  let p := cproc c slot in
  stage c c' slot (p_alive p, p_group p, p_mm p, None, None, None) (lxp_slot_generation (c_rt c) slot) /\
  st_depth (stack_at c' slot) = 0 /\ p_vfork_parent (cproc c' slot) = p_vfork_parent p /\
  rt_regions (c_rt c') = rt_regions (c_rt c).
Proof.
  intros Hwf Hs. pose proof (proj1 (slot_in_range slot) Hs) as Hr. unfold exit_release.
  pose proof (resources_put_holdings (rt_k (c_rt c)) b (cproc c slot)) as Hh.
  destruct (lxp_proc_resources_put _ _ _) as [[k b'] p']. destruct Hh as (Hh & Hv & _).
  set (c0 := set_c_rt c (set_rt_k (c_rt c) k)). assert (Hwf0 : coord_wf c0) by exact Hwf.
  set (c1 := put_cproc c0 slot p'). assert (Hwf1 : coord_wf c1) by by apply put_cproc_wf.
  set (c2 := match map_device (os_mem xops) with Some g => _ | None => _ end).
  assert (Hc2 : c_rt c2 = c_rt c1 /\ c_save c2 = c_save c1) by (unfold c2; by destruct (map_device (os_mem xops))).
  destruct Hc2 as (E2 & S2). assert (Hwf2 : coord_wf c2) by (unfold coord_wf; by rewrite E2, S2).
  set (c3 := put_stack c2 slot _).
  assert (E3 : c_rt c3 = c_rt c1) by exact E2.
  assert (Hp : cproc c3 slot = p') by (unfold cproc; rewrite E3; by apply cproc_put).
  split; [|split; [|split]].
  - split; [apply put_stack_wf; [done|]|].
    { destruct (stack_at_wf c2 slot Hwf2 Hs) as (Hl & _). split; cbn [st_frame st_depth]; [done|].
      unfold LXP_SIGNAL_NEST_MAX. lia. }
    rewrite E3, Hp. split; [|split; [done|]].
    + transitivity (c_rt c0); [apply steady_but_of; by apply steady_slots|]. apply steady_but_put_cproc. lia.
    + unfold c1, put_cproc, put_proc, lxp_slot_generation. cbn [set_c_rt c_rt].
      rewrite slot_at_put_same by (destruct Hwf as (Hl & _); cbn; lia). done.
  - unfold c3. by rewrite stack_at_put.
  - by rewrite Hp.
  - by rewrite E3.
Qed.

(** *** The vfork child *)

Lemma restore_slots R par snapshot child sp :
  rt_slots (lxp_vfork_restore (os_region xops) (os_dyn_pool xops) R par snapshot child sp).2 = rt_slots R.
Proof.
  unfold lxp_vfork_restore. destruct (negb _); [done|]. destruct (_ || _); [done|].
  destruct (mm_of R _); [|done]. destruct (_ || _); [done|]. done.
Qed.

Lemma region_put_slots R r : rt_slots (lxp_region_put R r).2 = rt_slots R.
Proof. unfold lxp_region_put. by destruct (_ || _). Qed.

Lemma release_if_owned_slots R r o : rt_slots (lxp_region_release_if_owned R r o).2 = rt_slots R.
Proof. unfold lxp_region_release_if_owned. destruct (_ || _); [done|]. apply region_put_slots. Qed.

Lemma contain_stale_steady R child :
  0 <= ref_index child < alen (rt_slots R) -> steady R (lxp_vfork_contain_stale R child).
Proof.
  intros Hc. unfold lxp_vfork_contain_stale. cbv zeta.
  set (R1 := if vfork_parent_is_current R child then _ else R).
  assert (H1 : steady R R1) by (unfold R1; destruct (vfork_parent_is_current R child); auto using quiet_exit_slot with steady).
  set (R2 := if ref_index _ >=? 0 then _ else R1).
  assert (H2 : steady R R2).
  { eapply steady_trans; [exact H1|]. unfold R2. destruct (_ >=? 0); [|done].
    apply steady_slots, release_if_owned_slots. }
  set (R3 := lxp_vfork_guard_reset R2 _).
  assert (H3 : steady R R3) by (eapply steady_trans; [exact H2|]; by apply steady_slots).
  set (R4 := put_proc R3 _ _).
  assert (H4 : steady R R4).
  { eapply steady_trans; [exact H3|]. apply steady_put_proc; [rewrite (proj1 H3); lia|done]. }
  set (R5 := put_proc R4 _ _).
  assert (H5 : steady R R5).
  { eapply steady_trans; [exact H4|]. apply steady_put_proc; [rewrite (proj1 H4); lia|done]. }
  set (R6 := if bool_decide _ then _ else R5).
  assert (H6 : steady R R6).
  { unfold R6. destruct (bool_decide _); [|done]. eapply steady_trans; [exact H5|].
    apply steady_put_proc; [rewrite (proj1 H5); lia|].
    unfold lxp_intent_complete. by case_goal. }
  eapply steady_trans; [exact H6|]. apply quiet_steady, quiet_exit_slot.
Qed.

Lemma vfork_steady c slot xref pref status :
  coord_wf c -> 0 <= ref_index xref < LXP_NSLOT ->
  let '(c', ps, st) := exit_vfork xops c slot xref pref status in
  steady (c_rt c) (c_rt c') /\ c_save c' = c_save c.
Proof.
  intros (Hl & _) Hx. unfold exit_vfork. destruct (lxp_slot_resume_view _ _) as [ctx|]; [|done].
  destruct (_ >=? 0); [|done].
  pose proof (restore_slots (c_rt c) (ref_index pref) (p_snapshot (cproc c slot)) xref (rc_sp ctx)) as Hr.
  destruct (lxp_vfork_restore _ _ _ _ _ _ _) as [rc R]. cbn [snd] in Hr.
  destruct (negb _); (split; [|done]); cbn [set_c_rt c_rt].
  - eapply steady_trans; [by apply (steady_slots _ R)|]. apply contain_stale_steady. rewrite Hr. lia.
  - eapply steady_trans; [by apply (steady_slots _ R)|]. apply steady_slots, release_if_owned_slots.
Qed.

(** *** Retirement *)

Lemma mm_put_spec R p :
  let '(R', p') := lxp_region_mm_put R p in
  rt_slots R' = rt_slots R /\ holdings p' = (p_alive p, p_group p, None, p_files p, p_fs_context p, p_sighand p).
Proof.
  unfold lxp_region_mm_put, mm_of, lxp_proc_mm_put. destruct (p_mm p) as [i|] eqn:E; cbn [option_map].
  - split; [|done]. cbn [set_rt_k rt_slots]. apply region_put_slots.
  - split; [done|]. unfold holdings. by rewrite E.
Qed.

Lemma reassign_slot R slot :
  0 <= slot < alen (rt_slots R) ->
  let R' := lxp_deferred_slot_reassign (lxp_slot_runnable_store R slot false) slot in
  steady_but slot R R' /\ sproc R' slot = sproc R slot /\
  lxp_slot_generation R' slot = generation_next (lxp_slot_generation R slot).
Proof.
  intros Hs R'. unfold R', lxp_deferred_slot_reassign, lxp_deferred_state_store, lxp_slot_runnable_store.
  set (R1 := put_slot R slot _). assert (L1 : alen (rt_slots R1) = alen (rt_slots R)) by apply alen_aset.
  set (R2 := put_slot R1 slot _). assert (L2 : alen (rt_slots R2) = alen (rt_slots R1)) by apply alen_aset.
  split.
  - transitivity R1; [apply steady_but_put; lia|]. transitivity R2; apply steady_but_put; lia.
  - unfold sproc, lxp_slot_generation. rewrite slot_at_put_same by lia.
    unfold R2 at 1 2. rewrite !slot_at_put_same by lia. unfold R1. rewrite !slot_at_put_same by lia.
    unfold R2. rewrite slot_at_put_same by lia. unfold R1. by rewrite slot_at_put_same by lia.
Qed.

Lemma retire_stage c slot :
  coord_wf c -> slot_in slot = true ->
  let p := cproc c slot in
  stage c (exit_retire c slot) slot (0, p_group p, None, p_files p, p_fs_context p, p_sighand p)
    (generation_next (lxp_slot_generation (c_rt c) slot)) /\
  c_save (exit_retire c slot) = c_save c.
Proof.
  intros Hwf Hs p. pose proof (proj1 (slot_in_range slot) Hs) as Hr. unfold exit_retire.
  pose proof (mm_put_spec (c_rt c) (cproc c slot)) as Hm.
  destruct (lxp_region_mm_put _ _) as [R p1]. destruct Hm as (Hsl & Hh).
  set (c0 := set_c_rt c R).
  assert (S0 : steady (c_rt c) (c_rt c0)) by (by apply steady_slots).
  assert (Hwf0 : coord_wf c0).
  { destruct Hwf as (Hl & Hsv). split; [|done]. cbn [c0 set_c_rt c_rt]. by rewrite Hsl. }
  set (c1 := put_cproc c0 slot p1). assert (Hwf1 : coord_wf c1) by by apply put_cproc_wf.
  assert (P1 : cproc c1 slot = p1) by by apply cproc_put.
  set (c2 := put_cproc c1 slot _). assert (Hwf2 : coord_wf c2) by by apply put_cproc_wf.
  assert (P2 : cproc c2 slot = set_p_alive p1 0) by (unfold c2; rewrite P1; by apply cproc_put).
  assert (G2 : lxp_slot_generation (c_rt c2) slot = lxp_slot_generation (c_rt c) slot).
  { unfold c2, c1, lxp_slot_generation. rewrite !slot_at_put_cproc by (try apply Hwf1; try apply Hwf0; done).
    unfold slot_at. cbn [c0 set_c_rt c_rt set_sl_proc sl_generation]. by rewrite Hsl. }
  destruct (reassign_slot (c_rt c2) slot ltac:(destruct Hwf2 as (Hl & _); lia)) as (S3 & P3 & G3).
  match goal with |- stage c ?x slot _ _ /\ _ => set (c3 := x) in * end.
  assert (S : steady_but slot (c_rt c) (c_rt c3)).
  { transitivity (c_rt c0); [by apply steady_but_of|].
    transitivity (c_rt c1); [apply steady_but_put_cproc; lia|].
    transitivity (c_rt c2); [apply steady_but_put_cproc; lia|]. exact S3. }
  split; [|done]. split; [by apply (coord_wf_steady_but c c3 slot)|]. split; [done|].
  change (cproc c3 slot) with (sproc (c_rt c3) slot).
  change (sproc (c_rt c3) slot = sproc (c_rt c2) slot) in P3. rewrite P3.
  change (sproc (c_rt c2) slot) with (cproc c2 slot). rewrite P2. split; [|by rewrite <- G2].
  injection Hh as Ha Hg Hmm Hf Hfs Hsi. unfold holdings.
  cbn [set_p_alive p_alive p_group p_mm p_files p_fs_context p_sighand]. unfold p. congruence.
Qed.

(** *** The report *)

Lemma put_group_steady c gi g : steady (c_rt c) (c_rt (put_group c gi g)).
Proof. by apply steady_slots. Qed.

Lemma publish_steady c ppid e :
  coord_wf c ->
  steady (c_rt c) (c_rt (child_event_publish ops c ppid e)) /\
  c_save (child_event_publish ops c ppid e) = c_save c.
Proof.
  intros Hwf. unfold child_event_publish. destruct (parent_task_for_child c ppid e) as [slot|] eqn:Hp; [|done].
  destruct (p_group (cproc c slot)) as [gi|]; [|done].
  assert (Hs : 0 <= slot < LXP_NSLOT)
    by (apply slot_in_range; exact (parent_slot_in _ _ _ _ Hp)).
  set (c1 := if _ && _ then _ else c).
  assert (S1 : steady (c_rt c) (c_rt c1) /\ c_save c1 = c_save c /\ coord_wf c1)
    by (unfold c1; destruct (_ && _); [split; [apply put_group_steady|done]|done]).
  destruct S1 as (S1 & V1 & W1).
  assert (Henq : forall g, steady (c_rt c) (c_rt (put_group c1 gi g)) /\ c_save (put_group c1 gi g) = c_save c).
  { intros g. split; [|done]. eapply steady_trans; [exact S1|apply put_group_steady]. }
  assert (Hlatch : forall g, steady (c_rt c) (c_rt (if negb (ce_notify e =? 0) then
             put_cproc (put_group c1 gi g) slot (lxp_signal_latch (cproc (put_group c1 gi g) slot) LXP_SIGCHLD)
             else put_group c1 gi g)) /\
           c_save (if negb (ce_notify e =? 0) then
             put_cproc (put_group c1 gi g) slot (lxp_signal_latch (cproc (put_group c1 gi g) slot) LXP_SIGCHLD)
             else put_group c1 gi g) = c_save c).
  { intros g. destruct (negb _); [|apply Henq]. destruct (Henq g) as (Sg & Vg). split; [|done].
    eapply steady_trans; [exact Sg|]. apply steady_put_proc; [rewrite (proj1 Sg), (proj1 Hwf); lia|].
    unfold lxp_signal_latch. by destruct (_ || _). }
  destruct (child_wait_accepts (cproc c1 slot) e); [|apply Hlatch].
  destruct (w_data (p_wait (cproc c1 slot))) as [| |wp o st| | | | |]; try apply Hlatch.
  set (c2 := if negb (st =? 0) then _ else c1).
  assert (S2 : steady (c_rt c) (c_rt c2) /\ c_save c2 = c_save c /\ coord_wf c2).
  { unfold c2. destruct (negb (st =? 0)); [|done]. split; [|done].
    eapply steady_trans; [exact S1|]. by apply steady_slots. }
  destruct S2 as (S2 & V2 & W2).
  set (c3 := put_cproc c2 slot _).
  assert (S3 : steady (c_rt c) (c_rt c3)).
  { eapply steady_trans; [exact S2|]. apply steady_put_proc; [rewrite (proj1 W2); lia|].
    unfold lxp_wait_complete, wait_finish. by destruct (_ || _). }
  pose proof (quiet_apply ops (c_h c3) (c_rt c3) (LXP_OUTCOME_REMAIN_PARKED slot)) as Q1.
  unfold lxp_coordinator_park_slot. destruct (lxp_lifecycle_apply _ _ _ _) as [[rc1 h1] R1].
  pose proof (quiet_complete ops h1 R1 (lxp_slot_ref_at R1 slot) (ce_pid e)) as Q2.
  destruct (lxp_coordinator_complete_slot _ _ _ _ _) as [[rc2 h2] R2]. cbn [snd] in Q1, Q2.
  split; [|exact V2]. eapply steady_trans; [exact S3|]. cbn [set_c_rt c_rt].
  apply quiet_steady. by eapply quiet_trans.
Qed.

Lemma report_steady c pid tgid ppid status ps pref (dead : bool) :
  coord_wf c ->
  let c1 := if (ps >=? 0) && lxp_slot_ref_is_current (c_rt c) pref
            then lift c (lxp_coordinator_complete_slot ops (c_h c) (c_rt c) pref pid) else c in
  let c2 := if dead
            then lxp_reap_to_parent ops c1 ppid tgid status (b2z (negb (lxp_slot_ref_is_current (c_rt c1) pref)))
            else c1 in
  coord_wf c2 /\ steady (c_rt c) (c_rt c2) /\ c_save c2 = c_save c.
Proof.
  intros Hwf c1 c2.
  assert (S1 : coord_wf c1 /\ steady (c_rt c) (c_rt c1) /\ c_save c1 = c_save c).
  { unfold c1. destruct (_ && _); [|done].
    pose proof (quiet_complete ops (c_h c) (c_rt c) pref pid) as Q.
    destruct (lift_quiet c _ Q Hwf) as (W & V). split; [done|]. split; [|done].
    destruct (lxp_coordinator_complete_slot _ _ _ _ _) as [[rc h] R]. by apply quiet_steady. }
  destruct S1 as (W1 & S1 & V1). unfold c2. destruct dead; [|done].
  destruct (publish_steady c1 ppid (mk_child_event tgid status LXP_CHILD_EXITED
    (b2z (negb (b2z (negb (lxp_slot_ref_is_current (c_rt c1) pref)) =? 0)))) W1) as (S2 & V2).
  unfold lxp_reap_to_parent. split; [|split; [by eapply steady_trans|by rewrite V2]].
  apply (coord_wf_steady_but c1 _ (-1)); [done|by apply steady_but_of|done].
Qed.

Lemma group_put_stage c slot :
  coord_wf c -> slot_in slot = true ->
  let p := cproc c slot in
  stage c (exit_group_put c slot) slot (p_alive p, None, p_mm p, p_files p, p_fs_context p, p_sighand p)
    (lxp_slot_generation (c_rt c) slot) /\ c_save (exit_group_put c slot) = c_save c.
Proof.
  intros Hwf Hs p. pose proof (proj1 (slot_in_range slot) Hs) as Hr. unfold exit_group_put.
  assert (Hg : let '(k, p') := lxp_proc_group_put (rt_k (c_rt c)) (cproc c slot) in
    holdings p' = (p_alive p, None, p_mm p, p_files p, p_fs_context p, p_sighand p)).
  { unfold lxp_proc_group_put. destruct (p_group (cproc c slot)) as [i|] eqn:E; [done|].
    unfold holdings. by rewrite E. }
  destruct (lxp_proc_group_put _ _) as [k p']. set (c0 := set_c_rt c (set_rt_k (c_rt c) k)).
  assert (Hwf0 : coord_wf c0) by exact Hwf. split; [|done].
  split; [by apply put_cproc_wf|].
  split; [transitivity (c_rt c0); [apply steady_but_of; by apply steady_slots|apply steady_but_put_cproc; lia]|].
  rewrite cproc_put by done. split; [exact Hg|].
  unfold lxp_slot_generation. rewrite slot_at_put_cproc by (try apply Hwf0; done). done.
Qed.

(** Stages compose. *)
Lemma stage_steady c c1 c2 slot h g :
  stage c c1 slot h g -> coord_wf c2 -> 0 <= slot -> steady (c_rt c1) (c_rt c2) -> stage c c2 slot h g.
Proof.
  intros (W & S & Hh & Hg) W2 Hs S2. split; [done|].
  split; [transitivity (c_rt c1); [done|by apply steady_but_of]|].
  destruct S2 as (_ & A2). destruct (A2 slot Hs) as (E1 & E2). split; [by rewrite <- Hh|congruence].
Qed.

Lemma stage_trans c c1 c2 slot h1 g1 h2 g2 :
  stage c c1 slot h1 g1 -> stage c1 c2 slot h2 g2 -> stage c c2 slot h2 g2.
Proof.
  intros (W & S & _) (W2 & S2 & Hh & Hg). split; [done|]. split; [by transitivity (c_rt c1)|done].
Qed.

Lemma live_count_zero c g :
  lxp_thread_group_live_count c g = 0 <->
  forall s, 0 <= s < LXP_NSLOT -> ~ (p_alive (cproc c s) <> 0 /\ p_group (cproc c s) = g).
Proof.
  unfold lxp_thread_group_live_count, alen. split.
  - intros Hn s Hs (Ha & Hg).
    assert (Hin : s ∈ filter (fun s => in_group c g s = true) (seqZ 0 LXP_NSLOT)).
    { apply list_elem_of_filter. split; [|apply elem_of_seqZ; lia]. unfold in_group.
      rewrite bool_decide_eq_true_2 by done. lia. }
    destruct (filter _ _); [by apply elem_of_nil in Hin|]. cbn in Hn. lia.
  - intros Hall. destruct (filter _ _) as [|s l] eqn:E; [done|exfalso].
    assert (Hin : s ∈ filter (fun s => in_group c g s = true) (seqZ 0 LXP_NSLOT))
      by (rewrite E; apply elem_of_cons; by left).
    apply list_elem_of_filter in Hin as [Hi Hin%elem_of_seqZ]. unfold in_group in Hi.
    apply andb_prop in Hi as [Ha Hg]. apply bool_decide_eq_true in Hg. apply (Hall s); [lia|]. split; [lia|done].
Qed.

(** The part after the native task is gone. *)
Lemma exit_tail c0 b slot xref parent_ref status pid tgid ppid :
  coord_wf c0 -> slot_in slot = true -> 0 <= ref_index xref < LXP_NSLOT ->
  let group := p_group (cproc c0 slot) in
  let '(c1, b1) := exit_release xops c0 b slot in
  let '(c2, ps, status') := exit_vfork xops c1 slot xref parent_ref status in
  let c4 := exit_retire (lxp_notify_guest_exit xops c2 slot) slot in
  let gen := generation_next (lxp_slot_generation (c_rt c0) slot) in
  (forall dead : bool, stage c0 (exit_report ops c4 slot pid tgid ppid status' ps parent_ref dead) slot
                  (0, None, None, None, None, None) gen /\
                st_depth (stack_at (exit_report ops c4 slot pid tgid ppid status' ps parent_ref dead) slot) = 0) /\
  stage c0 (exit_group_put c4 slot) slot (0, None, None, None, None, None) gen /\
  st_depth (stack_at (exit_group_put c4 slot) slot) = 0 /\
  (lxp_thread_group_live_count c4 group = 0 <->
   forall s, 0 <= s < LXP_NSLOT -> s <> slot ->
     ~ (p_alive (cproc c0 s) <> 0 /\ p_group (cproc c0 s) = group)).
Proof.
  intros Hwf Hs Hx group. pose proof (proj1 (slot_in_range slot) Hs) as Hr.
  pose proof (release_stage c0 b slot Hwf Hs) as Hrel. destruct (exit_release xops c0 b slot) as [c1 b1].
  destruct Hrel as (G1 & D1 & _ & _). pose proof G1 as (W1 & _).
  pose proof (vfork_steady c1 slot xref parent_ref status W1 Hx) as Hv.
  destruct (exit_vfork xops c1 slot xref parent_ref status) as [[c2 ps] status']. destruct Hv as (S2 & V2).
  set (c3 := lxp_notify_guest_exit xops c2 slot).
  assert (E3 : c_rt c3 = c_rt c2 /\ c_save c3 = c_save c2)
    by (unfold c3, lxp_notify_guest_exit; by destruct (on_guest_exit xops)).
  destruct E3 as (E3 & V3).
  assert (W3 : coord_wf c3).
  { apply (coord_wf_steady_but c1 c3 (-1)); [done| |congruence]. rewrite E3. by apply steady_but_of. }
  assert (G3 : stage c0 c3 slot (p_alive (cproc c0 slot), group, p_mm (cproc c0 slot), None, None, None)
                 (lxp_slot_generation (c_rt c0) slot)).
  { eapply stage_steady; [exact G1|done|lia|]. by rewrite E3. }
  destruct (retire_stage c3 slot W3 Hs) as (G4 & V4). cbv zeta in G4.
  pose proof G3 as (_ & _ & H3 & N3). injection H3 as A3 Gr3 M3 F3 FS3 SI3.
  rewrite Gr3, F3, FS3, SI3, N3 in G4. set (c4 := exit_retire c3 slot) in *.
  pose proof (stage_trans _ _ _ _ _ _ _ _ G3 G4) as G04. pose proof G04 as (W4 & S4 & H4 & N4).
  assert (D4 : st_depth (stack_at c4 slot) = 0)
    by (unfold stack_at; rewrite V4, V3, V2; exact D1).
  assert (Hput : forall c, stage c0 c slot (0, group, None, None, None, None)
                   (generation_next (lxp_slot_generation (c_rt c0) slot)) -> c_save c = c_save c4 ->
            stage c0 (exit_group_put c slot) slot (0, None, None, None, None, None)
                   (generation_next (lxp_slot_generation (c_rt c0) slot)) /\
            st_depth (stack_at (exit_group_put c slot) slot) = 0).
  { intros c Gc Vc. pose proof Gc as (Wc & _ & Hc & Nc). injection Hc as Ac _ Mc Fc FSc SIc.
    destruct (group_put_stage c slot Wc Hs) as (Gp & Vp). cbv zeta in Gp. rewrite Ac, Mc, Fc, FSc, SIc, Nc in Gp.
    split; [exact (stage_trans _ _ _ _ _ _ _ _ Gc Gp)|]. unfold stack_at. rewrite Vp, Vc. exact D4. }
  split; [|split; [apply (Hput c4 G04 eq_refl)|split; [apply (Hput c4 G04 eq_refl)|]]].
  - intros dead. unfold exit_report.
    destruct (report_steady c4 pid tgid ppid status' ps parent_ref dead W4) as (W5 & S5 & V5). cbv zeta in *.
    apply Hput; [|exact V5]. by eapply stage_steady; [exact G04|done|lia|].
  - rewrite live_count_zero. injection H4 as A4 _ _ _ _ _. destruct S4 as (_ & S4). split.
    + intros Hall s Hsr Hne (Ha & Hg). apply (Hall s Hsr). destruct (S4 s ltac:(lia) Hne) as (Hh & _).
      injection Hh as Ea Eg _ _ _ _. unfold cproc in *. rewrite Ea, Eg. done.
    + intros Hall s Hsr (Ha & Hg). destruct (decide (s = slot)) as [->|Hne]; [done|].
      apply (Hall s Hsr Hne). destruct (S4 s ltac:(lia) Hne) as (Hh & _).
      injection Hh as Ea Eg _ _ _ _. unfold cproc in *. by rewrite <- Ea, <- Eg.
Qed.

End ExitProps.

(** The native task is stopped by the RTOS when it is asked on behalf of this exit. *)
Definition exit_start {H} (c : coord H) (slot : Z) : coord H :=
  if exit_group (p_intent (cproc c slot))
  then lxp_thread_group_request_exit c slot (p_exit_status (cproc c slot)) else c.

Lemma exit_start_spec {H} (c : coord H) slot :
  let c0 := exit_start c slot in
  coord_wf c ->
  coord_wf c0 /\ steady (c_rt c) (c_rt c0) /\
  alen (rt_primary_pending (c_rt c0)) = alen (rt_primary_pending (c_rt c)) /\
  forall gi, p_group (cproc c slot) = Some gi -> 0 <= gi < alen (k_groups (rt_k (c_rt c))) ->
    tg_tgid (group_at c0 gi) = tg_tgid (group_at c gi).
Proof.
  intros c0 Hwf. unfold c0, exit_start. destruct (exit_group _); [|done].
  destruct (request_exit_steady c slot (p_exit_status (cproc c slot))) as (S & V & P & G).
  split; [|done]. apply (coord_wf_steady_but c _ (-1)); [done|by apply steady_but_of|done].
Qed.

(** C21: An exit retires its slot and only its slot.  When the RTOS stops the native task the
    handler leaves the slot dead, holding no descriptor table, path context, dispositions,
    address space or group, with no saved signal frame and with its next generation, so
    every reference to the exited task is stale, while every other slot's holdings and
    generation are unchanged; the coordinator is told to stop exactly when the last live
    thread of process 1 exits.  When the RTOS does not stop the task, nothing is released
    and the exit event stays pending. *)
Theorem exit_retires_slot {H B} `{FileOps B} (ops : os_task H) (xops : os_exit H) (c : coord H) (b : B) slot gi
    res c' b' :
  coord_wf c -> hints_wf (c_rt c) -> slot_in slot = true -> p_group (cproc c slot) = Some gi ->
  0 <= gi < alen (k_groups (rt_k (c_rt c))) ->
  lxp_handle_exit ops xops c b slot = (res, c', b') ->
  let c0 := exit_start c slot in
  let rc := (lxp_coordinator_abort_slot ops (c_h c0) (c_rt c0) slot).1.1 in
  (rc <> 0 -> res = exit_result_zero /\ b' = b /\ steady (c_rt c) (c_rt c') /\
              lxp_primary_slot_pending (c_rt c') slot = true) /\
  (rc = 0 ->
     holdings (cproc c' slot) = (0, None, None, None, None, None) /\
     lxp_slot_generation (c_rt c') slot = generation_next (lxp_slot_generation (c_rt c) slot) /\
     st_depth (stack_at c' slot) = 0 /\ steady_but slot (c_rt c) (c_rt c') /\
     (er_stop_coordinator res = 1 <->
      tg_tgid (group_at c gi) = 1 /\
      forall s, 0 <= s < LXP_NSLOT -> s <> slot ->
        ~ (p_alive (cproc c s) <> 0 /\ p_group (cproc c s) = Some gi))).
Proof.
  intros Hwf Hh Hs Hgr Hgi Hrun c0 rc. pose proof (proj1 (slot_in_range slot) Hs) as Hr.
  destruct (exit_start_spec c slot Hwf) as (W0 & S0 & P0 & G0). fold c0 in W0, S0, P0, G0.
  unfold lxp_handle_exit in Hrun. fold (exit_start c slot) in Hrun. fold c0 in Hrun.
  pose proof (quiet_apply ops (c_h c0) (c_rt c0) (LXP_OUTCOME_EXIT slot)) as Q.
  unfold rc, lxp_coordinator_abort_slot in *.
  destruct (lxp_lifecycle_apply ops (c_h c0) (c_rt c0) _) as [[rc1 h] R]. cbn [fst snd] in *.
  set (c1 := set_c_rt (set_c_h c0 h) R) in Hrun.
  assert (S1 : steady (c_rt c) (c_rt c1)) by (eapply steady_trans; [exact S0|by apply quiet_steady]).
  assert (W1 : coord_wf c1) by (apply (coord_wf_steady_but c0 c1 (-1)); [done|apply steady_but_of, quiet_steady, Q|done]).
  destruct (Z.eqb_spec rc1 LXP_OK) as [E|E]; cbn [negb] in Hrun; (split; [intros Hrc|intros Hrc]); try done.
  - pose proof (exit_tail ops xops c1 b slot (lxp_slot_ref_at (c_rt c) slot) (p_vfork_parent (cproc c1 slot))
      (p_exit_status (cproc c1 slot)) (p_pid (cproc c1 slot))
      (tg_tgid (match group_of c1 (cproc c1 slot) with Some g => g | None => group_zero end))
      (tg_ppid (match group_of c1 (cproc c1 slot) with Some g => g | None => group_zero end)) W1 Hs) as HT.
    assert (Hx : 0 <= ref_index (lxp_slot_ref_at (c_rt c) slot) < LXP_NSLOT)
      by (unfold lxp_slot_ref_at; rewrite Hs; exact Hr).
    specialize (HT Hx). cbv zeta in HT, Hrun.
    destruct (exit_release xops c1 b slot) as [c2 b2].
    destruct (exit_vfork xops c2 slot _ _ _) as [[c3 ps] st].
    set (c4 := exit_retire (lxp_notify_guest_exit xops c3 slot) slot) in *.
    destruct HT as (HR & HG & HD & HL).
    destruct (proj2 S1 slot ltac:(lia)) as (A1 & N1).
    assert (Gr1 : p_group (cproc c1 slot) = Some gi)
      by (rewrite <- Hgr; exact (f_equal (fun x => x.1.1.1.1.2) A1)).
    assert (Etg : tg_tgid (match group_of c1 (cproc c1 slot) with Some g => g | None => group_zero end) =
                  tg_tgid (group_at c gi)).
    { unfold group_of. rewrite Gr1. cbn [option_map]. rewrite <- (G0 gi Hgr Hgi). unfold group_at.
      cbn [c1 set_c_rt c_rt]. by rewrite (quiet_k _ _ Q). }
    rewrite Gr1 in HL, Hrun. rewrite N1 in HR, HG. rewrite Etg in HR, Hrun.
    assert (HL' : lxp_thread_group_live_count c4 (Some gi) = 0 <->
      forall s, 0 <= s < LXP_NSLOT -> s <> slot -> ~ (p_alive (cproc c s) <> 0 /\ p_group (cproc c s) = Some gi)).
    { assert (Hsame : forall s, 0 <= s -> p_alive (cproc c1 s) = p_alive (cproc c s) /\
                                    p_group (cproc c1 s) = p_group (cproc c s)).
      { intros s Hs0. destruct (proj2 S1 s Hs0) as (As & _).
        split; [exact (f_equal (fun x => x.1.1.1.1.1) As)|exact (f_equal (fun x => x.1.1.1.1.2) As)]. }
      rewrite HL. split; intros Hall s Hsr Hne Hn; apply (Hall s Hsr Hne);
        destruct (Hsame s ltac:(lia)) as (Ea & Eg); congruence. }
    match goal with |- ?G => assert (Hend : forall d res0, stage c1 d slot (0, None, None, None, None, None)
                (generation_next (lxp_slot_generation (c_rt c) slot)) -> st_depth (stack_at d slot) = 0 ->
              (er_stop_coordinator res0 = 1 <-> tg_tgid (group_at c gi) = 1 /\ lxp_thread_group_live_count c4 (Some gi) = 0) ->
              res0 = res -> d = c' -> G) by
      (intros d res0 (Wd & Sd & Hd & Nd) Dd Hst <- <-; split; [exact Hd|]; split; [exact Nd|]; split; [exact Dd|];
       split; [transitivity (c_rt c1); [by apply steady_but_of|exact Sd]|]; rewrite Hst, HL'; reflexivity) end.
    destruct ((tg_tgid (group_at c gi) =? 1) && (lxp_thread_group_live_count c4 (Some gi) =? 0)) eqn:Estop;
      injection Hrun as Hres Hc' _.
    + apply (Hend _ (mk_exit_result 1 st) HG HD); [|exact Hres|exact Hc']. cbn [er_stop_coordinator]. lia.
    + destruct (HR (lxp_thread_group_live_count c4 (Some gi) =? 0)) as (HRs & HRd).
      apply (Hend _ exit_result_zero HRs HRd); [|exact Hres|exact Hc']. cbn [er_stop_coordinator exit_result_zero]. lia.
  - injection Hrun as <- <- <-. split; [done|]. split; [done|]. split.
    + eapply steady_trans; [exact S1|]. apply quiet_steady, quiet_mark.
    + assert (Hh1 : hints_wf (c_rt c1))
        by (unfold hints_wf in *; rewrite <- Hh, <- P0; exact (proj1 (proj2 (proj2 (proj2 (proj2 (proj2 Q))))))).
      etransitivity; [exact (pending_mark (c_rt c1) slot slot Hh1 Hr Hr)|].
      rewrite Z.eqb_refl. apply orb_true_r.
Qed.

(** *** Witness: the only thread of process 1 exits on a host that stops tasks. *)

Definition obedient_host : os_task unit :=
  mk_os_task (Some (fun h _ _ => (0, h))) (Some (fun h _ _ => (0, h))) None None.
Definition demo_xops : os_exit unit := mk_os_exit (mk_os_memory None None) None (fun r => 0x20000000 + r * 0x40000) None.
#[local] Instance no_backing : FileOps unit := {|
  fops_present := fun _ => false; fops_close := fun b _ => b;
  fops_node_open := fun b _ => (0, b); fops_node_close := fun b _ => b |}.
Definition demo_exit_coord : coord unit :=
  let R := set_rt_k demo_rt (set_k_groups (rt_k demo_rt) [set_tg_tgid (set_tg_refs group_zero 1) 1]) in
  mk_coord tt (put_proc R 0 (set_p_intent (set_p_pid (set_p_group demo_proc (Some 0)) 1) (LXP_INTENT_EXIT true)))
    (replicate 12 stack_zero).

Lemma demo_exit_wf : coord_wf demo_exit_coord.
Proof. split; [done|]. apply demo_coord_wf. Qed.

Lemma exit_retires_slot_witness :
  let r := lxp_handle_exit obedient_host demo_xops demo_exit_coord tt 0 in
  er_stop_coordinator r.1.1 = 1 /\ lxp_slot_generation (c_rt r.1.2) 0 = 8.
Proof.
  intros r.
  destruct (exit_retires_slot obedient_host demo_xops demo_exit_coord tt 0 0 r.1.1 r.1.2 r.2 demo_exit_wf
    eq_refl eq_refl eq_refl ltac:(split; vm_compute; congruence) ltac:(unfold r; by destruct (lxp_handle_exit _ _ _ _ _) as [[? ?] ?])) as (_ & Hok).
  destruct Hok as (_ & Hg & _); [vm_compute; reflexivity|].
  split; [vm_compute; reflexivity|exact Hg].
Defined.
