(* ===== verification/Futex.v ===== *)
(** * futex(2) (src/run/lxp_futex.c)

    Threads that share an address space wait on a user address and wake each other.  A wait
    is published while the caller's word still has the expected value; a wake marks waiters
    for the coordinator to resume. *)

From S2P Require Import Prelude Config Arena Errno Proc Guest Wait Pool Fd Process Runtime Event Region Lifecycle.
From S2P Require Import Signal SignalProps SysSignal Child SignalRoute.
Local Open Scope Z_scope.

Section Futex.
Context {H : Type} (ops : os_task H) (core : os_core H).
Implicit Types (c : coord H) (f : lxp_frame).

(** Another live task of the same address space that is not the suspended vfork parent. *)
Definition corunner c (slot s : Z) : bool :=
  negb (s =? slot) && negb (p_alive (cproc c s) =? 0) &&
  bool_decide (p_mm (cproc c s) = p_mm (cproc c slot)) &&
  negb (s =? ref_index (p_vfork_parent (cproc c slot))).

Definition lxp_futex_has_corunner c (slot : Z) : bool :=
  match p_mm (cproc c slot) with
  | None => false
  | Some _ => existsb (corunner c slot) (seqZ 0 LXP_NSLOT)
  end.

(** The deadline of the timeout argument, or the error; [now] is the host clock, which
    leaves the variable at 0 when it fails. *)
Definition futex_deadline (now : option Z) c (slot op utimeout : Z) (is_time64 : bool) : Z + Z :=
  if utimeout =? 0 then inr 0
  else
    match lxp_copy_from_guest (cgenv c) (cmem c) slot utimeout (if is_time64 then 16 else 8) with
    | inl _ => inl (- LXP_EFAULT)
    | inr bs =>
        let '(sec, nsec) := if is_time64 then (le_val (take 8 bs), le_val (take 8 (drop 8 bs)))
                            else (word bs 0, word bs 1) in
        let ts_us := u64 (sec * 1000000 + nsec / 1000) in
        let t := default 0 now in
        let deadline := if op =? 0 then u64 (t + ts_us) else ts_us in
        inr (if deadline =? 0 then 1 else deadline)
    end.

(** An unwoken waiter at [uaddr]. *)
Definition futex_waiter c (uaddr s : Z) : bool :=
  let q := cproc c s in
  negb (p_alive q =? 0) && bool_decide (w_kind (p_wait q) = LXP_WAIT_FUTEX) &&
  match w_data (p_wait q) with WD_FUTEX a _ woken => negb woken && (a =? uaddr) | _ => false end.

Definition mark_woken (p : lxp_proc) : lxp_proc :=
  match w_data (p_wait p) with
  | WD_FUTEX a d _ => set_p_wait p (set_w_data (p_wait p) (WD_FUTEX a d true))
  | _ => p
  end.

(** [for (s = 0; s < LXP_NSLOT && woken < val; s++)]. *)
Fixpoint wake_loop c (uaddr val : Z) (slots : list Z) (woken : Z) : Z * coord H :=
  match slots with
  | [] => (woken, c)
  | s :: rest =>
      if woken <? val
      then if futex_waiter c uaddr s
           then wake_loop (put_cproc c s (mark_woken (cproc c s))) uaddr val rest (u32 (woken + 1))
           else wake_loop c uaddr val rest woken
      else (woken, c)
  end.

Definition lxp_futex (now : option Z) c f (slot : Z) (is_time64 : bool) : lxp_frame * coord H :=
  let uaddr := freg f 0 in
  let op := Z.land (freg f 1) 0x7f in
  let val := freg f 2 in
  if (op =? 0) || (op =? 9)
  then match lxp_guest_get_u32 (cgenv c) (cmem c) slot uaddr with
       | inl _ => (set_freg f 0 (u32 (- LXP_EFAULT)), c)
       | inr observed =>
           if negb (observed =? val) then (set_freg f 0 (u32 (- LXP_EAGAIN)), c)
           else if negb (lxp_futex_has_corunner c slot) then (set_freg f 0 (u32 (- LXP_EAGAIN)), c)
           else match futex_deadline now c slot op (freg f 3) is_time64 with
                | inl e => (set_freg f 0 (u32 e), c)
                | inr deadline =>
                    let '(rc, p) := lxp_wait_begin now (cproc c slot)
                                      (mk_wait LXP_WAIT_FUTEX 0 0 0 (WD_FUTEX uaddr deadline false)) in
                    if negb (rc =? 0) then (set_freg f 0 (u32 (- LXP_EAGAIN)), put_cproc c slot p)
                    else lxp_park_frame ops core (put_cproc c slot p) f slot
                end
       end
  else if (op =? 1) || (op =? 10)
  then let '(woken, c) := wake_loop c uaddr val (seqZ 0 LXP_NSLOT) 0 in
       let c := if negb (woken =? 0) then post core c else c in
       (set_freg f 0 woken, c)
  else (set_freg f 0 0, c).

End Futex.

(** * Properties of futex waits and wakes *)

Section FutexProps.
Context {H : Type} (ops : os_task H) (core : os_core H).
Implicit Types (c : coord H) (f : lxp_frame).

(** *** Parking leaves the tasks alone *)

Lemma sproc_mark R slot s : sproc (lxp_primary_slot_mark R slot) s = sproc R s.
Proof. unfold lxp_primary_slot_mark. by destruct (negb _). Qed.

Lemma post_rt c : c_rt (post core c) = c_rt c.
Proof. unfold post. by destruct (event_post core). Qed.

Lemma park_frame_cproc c f slot s :
  slot_in slot = true -> coord_wf c -> 0 <= s ->
  cproc (lxp_park_frame ops core c f slot).2 s = cproc c s.
Proof.
  intros Hs (Hl & _) Hs0. apply slot_in_range in Hs. unfold lxp_park_frame.
  destruct (lxp_lifecycle_prepare_park _ _ _ _ _) as [token c1] eqn:E.
  assert (E1 : c_rt c1 = c_rt (capture_ctx c slot f)).
  { unfold lxp_lifecycle_prepare_park in E. destruct (park_prepare core), (park_slot ops); try by injection E as _ <-.
    destruct (negb _); [by injection E as _ <-|]. destruct (_ (c_h _) _ _ _) as [t h]. by injection E as _ <-. }
  cbn [snd]. unfold cproc, lxp_event_post_slot. rewrite post_rt. cbn [set_c_rt c_rt].
  rewrite sproc_mark, E1. unfold capture_ctx. cbn [set_c_rt c_rt]. unfold sproc.
  unfold slot_at at 1, put_slot, set_rt_slots. cbn [rt_slots].
  rewrite aget_aset by lia. destruct (decide (slot = s)) as [->|]; done.
Qed.

(** *** The wake loop *)

Lemma waiter_put_ne c uaddr s t p :
  0 <= s -> 0 <= t -> s <> t -> futex_waiter (put_cproc c s p) uaddr t = futex_waiter c uaddr t.
Proof. intros. unfold futex_waiter. by rewrite cproc_put_ne. Qed.

Lemma wake_loop_spec uaddr val l w c :
  coord_wf c -> NoDup l -> Forall (fun s => 0 <= s < LXP_NSLOT) l -> 0 <= w -> 0 <= val < 2 ^ 32 ->
  let marked := take (Z.to_nat (val - w)) (filter (fun s => futex_waiter c uaddr s = true) l) in
  let '(w', c') := wake_loop c uaddr val l w in
  coord_wf c' /\ c_h c' = c_h c /\ w' = w + alen marked /\
  forall s, 0 <= s -> cproc c' s = if decide (s ∈ marked) then mark_woken (cproc c s) else cproc c s.
Proof.
  revert w c. induction l as [|x l IH]; intros w c Hwf Hnd Hr Hw Hv.
  { cbn [wake_loop]. rewrite filter_nil, take_nil. unfold alen. cbn [length].
    split; [done|]. split; [done|]. split; [lia|]. intros s _. rewrite decide_False; [done|apply not_elem_of_nil]. }
  apply NoDup_cons in Hnd as [Hx Hnd]. apply Forall_cons in Hr as [Hxr Hr].
  cbn [wake_loop]. destruct (Z.ltb_spec w val) as [Hlt|Hge]; cbv zeta.
  2: { replace (Z.to_nat (val - w)) with 0%nat by lia. rewrite take_0. unfold alen. cbn [length].
       split; [done|]. split; [done|]. split; [lia|]. intros s _. rewrite decide_False; [done|apply not_elem_of_nil]. }
  rewrite filter_cons. destruct (futex_waiter c uaddr x) eqn:Hwait; cbn [decide decide_rel].
  - rewrite decide_True by done. rewrite (u32_small (w + 1)) by lia.
    set (c1 := put_cproc c x _).
    specialize (IH (w + 1) c1 (put_cproc_wf c x _ Hwf) Hnd Hr ltac:(lia) Hv). cbv zeta in IH.
    assert (Hne : forall s, s ∈ l -> x <> s /\ 0 <= s).
    { intros s Hin. split; [by intros ->|]. rewrite Forall_forall in Hr. apply Hr in Hin. lia. }
    rewrite (filter_ext_in _ (fun s => futex_waiter c uaddr s = true) l) in IH.
    2: { intros s Hin. destruct (Hne s Hin). unfold c1. by rewrite waiter_put_ne by (done || lia). }
    destruct (wake_loop c1 uaddr val l (w + 1)) as [w' c']. destruct IH as (Hw' & Hh & Hc & Hp).
    replace (Z.to_nat (val - w)) with (S (Z.to_nat (val - (w + 1)))) by lia. cbn [take].
    set (m := take _ (filter _ l)) in *. split; [done|]. split; [done|].
    split; [rewrite Hc; unfold alen; cbn [length]; lia|].
    intros s Hs0. rewrite Hp by done.
    assert (Hm : forall t, t ∈ m -> t ∈ l).
    { intros t Ht. apply (list_elem_of_filter (fun s => futex_waiter c uaddr s = true) l t).
      apply (subseteq_take (Z.to_nat (val - (w + 1))) _ t Ht). }
    destruct (decide (s = x)) as [->|Hsx].
    + rewrite decide_False by (intros Ht; by apply Hm in Ht). unfold c1.
      rewrite cproc_put by (done || (apply slot_in_range; lia)).
      rewrite decide_True; [done|]. apply elem_of_cons. by left.
    + unfold c1. rewrite cproc_put_ne by (done || lia).
      apply decide_ext. rewrite elem_of_cons. tauto.
  - rewrite decide_False by done. specialize (IH w c Hwf Hnd Hr Hw Hv). cbv zeta in IH. exact IH.
Qed.

Definition is_wake f : Prop := Z.land (freg f 1) 0x7f = 1 \/ Z.land (freg f 1) 0x7f = 10.
Definition is_wait f : Prop := Z.land (freg f 1) 0x7f = 0 \/ Z.land (freg f 1) 0x7f = 9.

(** The waiters a wake at [uaddr] finds, lowest slot first. *)
Definition waiters c (uaddr : Z) : list Z := filter (fun s => futex_waiter c uaddr s = true) (seqZ 0 LXP_NSLOT).

Lemma wake_spec now c f slot t64 f' c' :
  coord_wf c -> frame_wf f -> is_wake f -> 0 <= freg f 2 < 2 ^ 32 ->
  lxp_futex ops core now c f slot t64 = (f', c') ->
  let marked := take (Z.to_nat (freg f 2)) (waiters c (freg f 0)) in
  f' = set_freg f 0 (alen marked) /\
  (forall s, 0 <= s -> cproc c' s = if decide (s ∈ marked) then mark_woken (cproc c s) else cproc c s) /\
  c_h c' = match event_post core with Some g => if alen marked =? 0 then c_h c else g (c_h c) | None => c_h c end.
Proof.
  intros Hwf Hf Hop Hv Hrun marked. unfold lxp_futex in Hrun.
  replace ((Z.land (freg f 1) 0x7f =? 0) || (Z.land (freg f 1) 0x7f =? 9)) with false in Hrun
    by (destruct Hop as [-> | ->]; done).
  replace ((Z.land (freg f 1) 0x7f =? 1) || (Z.land (freg f 1) 0x7f =? 10)) with true in Hrun
    by (destruct Hop as [-> | ->]; done).
  pose proof (wake_loop_spec (freg f 0) (freg f 2) (seqZ 0 LXP_NSLOT) 0 c Hwf (NoDup_seqZ _ _)
    ltac:(apply Forall_forall; intros s Hs%elem_of_seqZ; lia) ltac:(lia) Hv) as Hl. cbv zeta in Hl.
  rewrite Z.sub_0_r in Hl. fold (waiters c (freg f 0)) in Hl. fold marked in Hl.
  destruct (wake_loop c (freg f 0) (freg f 2) (seqZ 0 LXP_NSLOT) 0) as [w c1].
  destruct Hl as (_ & Hh & Hc & Hp). rewrite Z.add_0_l in Hc. subst w.
  apply pair_equal_spec in Hrun as [<- <-]. split; [done|]. split.
  - intros s Hs. rewrite <- Hp by done. destruct (negb _); [|done]. unfold cproc. by rewrite post_rt.
  - unfold post. destruct (event_post core), (alen marked =? 0); cbn [negb set_c_h c_h]; by rewrite Hh.
Qed.

(** A wait that parks has checked everything first, and is then found by a wake. *)
Lemma wait_spec now c f slot t64 f' c' :
  coord_wf c -> slot_in slot = true -> is_wait f -> lxp_futex ops core now c f slot t64 = (f', c') ->
  p_alive (cproc c slot) <> 0 ->
  (exists e, f' = set_freg f 0 e /\ e ∈ [u32 (- LXP_EFAULT); u32 (- LXP_EAGAIN)] /\
             forall s, 0 <= s -> cproc c' s = cproc c s) \/
  (lxp_guest_get_u32 (cgenv c) (cmem c) slot (freg f 0) = inr (freg f 2) /\
   lxp_futex_has_corunner c slot = true /\ futex_waiter c' (freg f 0) slot = true /\
   forall s, 0 <= s -> s <> slot -> cproc c' s = cproc c s).
Proof.
  intros Hwf Hs Hop Hrun Hal. unfold lxp_futex in Hrun.
  replace ((Z.land (freg f 1) 0x7f =? 0) || (Z.land (freg f 1) 0x7f =? 9)) with true in Hrun
    by (destruct Hop as [-> | ->]; done).
  assert (Hfault : u32 (- LXP_EFAULT) ∈ [u32 (- LXP_EFAULT); u32 (- LXP_EAGAIN)]) by (apply elem_of_cons; by left).
  assert (Hagain : u32 (- LXP_EAGAIN) ∈ [u32 (- LXP_EFAULT); u32 (- LXP_EAGAIN)])
    by (apply elem_of_cons; right; apply elem_of_cons; by left).
  destruct (lxp_guest_get_u32 (cgenv c) (cmem c) slot (freg f 0)) as [e|observed] eqn:Hget.
  { apply pair_equal_spec in Hrun as [<- <-]. left. by eexists. }
  destruct (Z.eqb_spec observed (freg f 2)) as [->|Hne]; cbn [negb] in Hrun.
  2: { apply pair_equal_spec in Hrun as [<- <-]. left. by eexists. }
  destruct (lxp_futex_has_corunner c slot) eqn:Hco; cbn [negb] in Hrun.
  2: { apply pair_equal_spec in Hrun as [<- <-]. left. by eexists. }
  destruct (futex_deadline now c slot _ (freg f 3) t64) as [e|deadline] eqn:Hdl.
  { apply pair_equal_spec in Hrun as [<- <-]. left. exists (u32 e). split; [done|]. split; [|done].
    unfold futex_deadline in Hdl. destruct (freg f 3 =? 0); [done|].
    destruct (lxp_copy_from_guest _ _ _ _ _); [by injection Hdl as <-|].
    by destruct t64. }
  unfold lxp_wait_begin in Hrun. cbn [w_kind] in Hrun.
  destruct (decide (LXP_WAIT_FUTEX = LXP_WAIT_NONE)) as [Hk|_]; [done|].
  destruct (_ || _) eqn:Hbusy in Hrun.
  - cbn [Z.eqb Z.opp LXP_EAGAIN negb] in Hrun. apply pair_equal_spec in Hrun as [<- <-]. left.
    eexists. split; [done|]. split; [done|]. intros s Hs0.
    destruct (decide (s = slot)) as [->|]; [by apply cproc_put|].
    apply cproc_put_ne; [|done|done]. apply slot_in_range in Hs. lia.
  - right. split; [done|]. split; [done|]. cbn [Z.eqb negb] in Hrun.
    set (p := set_p_wait _ _) in Hrun. set (c1 := put_cproc c slot p) in Hrun.
    assert (Hwf1 : coord_wf c1) by by apply put_cproc_wf.
    pose proof (proj1 (slot_in_range slot) Hs) as Hr.
    assert (Hc' : forall s, 0 <= s -> cproc c' s = cproc c1 s).
    { intros s Hs0. change c' with (f', c').2. rewrite <- Hrun. by apply park_frame_cproc. }
    split.
    + unfold futex_waiter. rewrite Hc' by lia. unfold c1. rewrite cproc_put by done.
      unfold p. destruct now as [t|]; cbn; rewrite Z.eqb_refl;
        (replace (p_alive (cproc c slot) =? 0) with false by lia); done.
    + intros s Hs0 Hne. rewrite Hc' by done. unfold c1. apply cproc_put_ne; lia.
Qed.

Lemma waiter_not_woken c uaddr s : futex_waiter c uaddr s = true ->
  exists d, w_data (p_wait (cproc c s)) = WD_FUTEX uaddr d false.
Proof.
  unfold futex_waiter. intros [_ Hd]%andb_prop. destruct (w_data _) as [| | |a d w| | | |]; try done.
  apply andb_prop in Hd as [Hw Ha%Z.eqb_eq]. destruct w; [done|]. exists d. by rewrite Ha.
Qed.

(** *** What other steps do to a parked waiter *)

(** The living task of [slot] waits at [uaddr] until [d], marked or not. *)
Definition futex_waiting c (slot uaddr d : Z) (woken : bool) : Prop :=
  p_alive (cproc c slot) <> 0 /\ w_kind (p_wait (cproc c slot)) = LXP_WAIT_FUTEX /\
  w_data (p_wait (cproc c slot)) = WD_FUTEX uaddr d woken.

Lemma waiting_waiter c slot uaddr d : futex_waiting c slot uaddr d false -> futex_waiter c uaddr slot = true.
Proof.
  intros (Ha & Hk & Hd). unfold futex_waiter. rewrite Hk, Hd, Z.eqb_refl. by rewrite (proj2 (Z.eqb_neq _ _) Ha).
Qed.

Lemma waiter_waiting c slot uaddr : futex_waiter c uaddr slot = true -> exists d, futex_waiting c slot uaddr d false.
Proof.
  intros Hw. destruct (waiter_not_woken _ _ _ Hw) as [d Hd]. exists d. unfold futex_waiter in Hw.
  apply andb_prop in Hw as [[Ha%negb_true_iff%Z.eqb_neq Hk%bool_decide_eq_true]%andb_prop _]. done.
Qed.

Lemma park_frame_wf c f slot : coord_wf c -> coord_wf (lxp_park_frame ops core c f slot).2.
Proof.
  intros (Hl & Hs & Hf). unfold lxp_park_frame. destruct (lxp_lifecycle_prepare_park _ _ _ _ _) as [token c1] eqn:E.
  assert (E1 : c_rt c1 = c_rt (capture_ctx c slot f) /\ c_save c1 = c_save c).
  { unfold lxp_lifecycle_prepare_park in E. destruct (park_prepare core), (park_slot ops); try by injection E as _ <-.
    destruct (negb _); [by injection E as _ <-|]. destruct (_ (c_h _) _ _ _) as [t h]. by injection E as _ <-. }
  destruct E1 as [Er Es]. cbn [snd]. unfold lxp_event_post_slot. set (c2 := set_c_rt c1 _).
  assert (Hc2 : coord_wf c2).
  { split; [|by cbn; rewrite Es]. unfold c2, lxp_primary_slot_mark, put_slot. cbn [c_rt set_c_rt].
    destruct (negb _); cbn [rt_slots set_rt_slots]; rewrite ?alen_aset, Er; cbn; by rewrite alen_aset. }
  unfold post. by destruct (event_post core).
Qed.

Lemma wake_loop_marks uaddr val l : forall w c,
  coord_wf c -> Forall (fun s => 0 <= s < LXP_NSLOT) l ->
  let c' := (wake_loop c uaddr val l w).2 in
  coord_wf c' /\ forall s, 0 <= s -> cproc c' s = cproc c s \/ cproc c' s = mark_woken (cproc c s).
Proof.
  induction l as [|x l IH]; intros w c Hwf Hr; cbn [wake_loop]; [by split; [|left]|].
  apply Forall_cons in Hr as [Hx Hr]. destruct (w <? val); [|by split; [|left]].
  destruct (futex_waiter c uaddr x); [|by apply IH].
  destruct (IH (u32 (w + 1)) (put_cproc c x (mark_woken (cproc c x))) (put_cproc_wf _ _ _ Hwf) Hr) as [Hw Hm].
  split; [exact Hw|]. intros s Hs. specialize (Hm s Hs). destruct (decide (x = s)) as [<-|Hne].
  - rewrite cproc_put in Hm by (done || (apply slot_in_range; lia)). right. destruct Hm as [-> | ->]; [done|].
    unfold mark_woken. by destruct (w_data (p_wait (cproc c x))) eqn:E; cbn; rewrite ?E.
  - by rewrite cproc_put_ne in Hm by lia.
Qed.

(** A futex call changes another task only by marking it. *)
Lemma futex_others now c g s t64 :
  coord_wf c -> slot_in s = true ->
  let c' := (lxp_futex ops core now c g s t64).2 in
  coord_wf c' /\ forall t, 0 <= t -> t <> s -> cproc c' t = cproc c t \/ cproc c' t = mark_woken (cproc c t).
Proof.
  intros Hwf Hs. pose proof (proj1 (slot_in_range s) Hs) as Hr. unfold lxp_futex.
  assert (Hid : forall (f : lxp_frame), coord_wf (f, c).2 /\ forall t, 0 <= t -> t <> s -> cproc (f, c).2 t = cproc c t \/ cproc (f, c).2 t = mark_woken (cproc c t))
    by (split; [|left]; done).
  cbv zeta. destruct (_ || _); [|destruct (_ || _); [|apply Hid]].
  - destruct (lxp_guest_get_u32 _ _ _ _); [apply Hid|]. do 2 (destruct (negb _); [apply Hid|]).
    destruct (futex_deadline _ _ _ _ _ _); [apply Hid|].
    destruct (lxp_wait_begin _ _ _) as [rc p]. destruct (negb _).
    + split; [by apply put_cproc_wf|]. intros t Ht Hne. left. apply cproc_put_ne; lia.
    + split; [by apply park_frame_wf, put_cproc_wf|]. intros t Ht Hne. left.
      rewrite park_frame_cproc by (done || by apply put_cproc_wf). apply cproc_put_ne; lia.
  - pose proof (wake_loop_marks (freg g 0) (freg g 2) (seqZ 0 LXP_NSLOT) 0 c Hwf
      ltac:(apply Forall_forall; intros t Ht%elem_of_seqZ; lia)) as [Hw Hm].
    destruct (wake_loop _ _ _ _ _) as [w c1]. cbn [snd] in *. destruct (negb (w =? 0)).
    + split; [unfold post; by destruct (event_post core)|]. intros t Ht _. unfold cproc. rewrite post_rt. by apply Hm.
    + split; [done|]. intros t Ht _. by apply Hm.
Qed.

(** What may run while the task of [slot] is parked: futex calls of other tasks, and any step
    that leaves this task alive with its wait as it is. *)
Inductive meanwhile (slot : Z) : coord H -> coord H -> Prop :=
| mw_refl c : meanwhile slot c c
| mw_futex c c' now g s t64 : meanwhile slot c c' -> slot_in s = true -> s <> slot -> meanwhile slot c (lxp_futex ops core now c' g s t64).2
| mw_other c c' c'' : meanwhile slot c c' -> coord_wf c'' -> p_alive (cproc c'' slot) = p_alive (cproc c' slot) ->
    p_wait (cproc c'' slot) = p_wait (cproc c' slot) -> meanwhile slot c c''.

(** The wait stays in place, and a mark is never taken back. *)
Lemma meanwhile_keeps slot c c' uaddr d woken :
  meanwhile slot c c' -> slot_in slot = true -> coord_wf c -> futex_waiting c slot uaddr d woken ->
  coord_wf c' /\ exists woken', futex_waiting c' slot uaddr d woken' /\ (woken = true -> woken' = true).
Proof.
  intros Hm Hs Hwf Hw. apply slot_in_range in Hs. induction Hm as [c|c c' now g s t64 _ IH Hs' Hne|c c' c'' _ IH Hwf' Ha Hq].
  - split; [done|]. by exists woken.
  - destruct (IH Hwf Hw) as (Hwf1 & w1 & (A1 & K1 & D1) & Himp). destruct (futex_others now c' g s t64 Hwf1 Hs') as [Hwf2 Hp].
    split; [exact Hwf2|]. destruct (Hp slot ltac:(lia) ltac:(done)) as [E|E].
    + exists w1. unfold futex_waiting. by rewrite E.
    + exists true. unfold futex_waiting. rewrite E. unfold mark_woken. rewrite D1. done.
  - destruct (IH Hwf Hw) as (_ & w1 & (A1 & K1 & D1) & Himp). split; [done|]. exists w1. unfold futex_waiting. by rewrite Ha, Hq.
Qed.

(** A wake for at least as many threads as wait at the address marks each of them. *)
Lemma wake_marks now c g waker t64 slot uaddr d woken :
  coord_wf c -> slot_in slot = true -> frame_wf g -> is_wake g -> freg g 0 = uaddr -> alen (waiters c uaddr) <= freg g 2 < 2 ^ 32 ->
  futex_waiting c slot uaddr d woken -> futex_waiting (lxp_futex ops core now c g waker t64).2 slot uaddr d true.
Proof.
  intros Hwf Hs Hg Hwk Hua Hn Hw. pose proof (proj1 (slot_in_range slot) Hs) as Hr.
  assert (Hlen : 0 <= alen (waiters c uaddr)) by (unfold alen; lia).
  destruct (wake_spec now c g waker t64 _ _ Hwf Hg Hwk ltac:(lia) (surjective_pairing _)) as (_ & Hp & _).
  rewrite Hua, take_ge in Hp by (unfold alen in Hn; lia). unfold futex_waiting. rewrite Hp by lia.
  destruct woken.
  - destruct Hw as (A & K & D). case_decide; unfold mark_woken; rewrite ?D; done.
  - rewrite decide_True by (apply list_elem_of_filter; split; [by eapply waiting_waiter|apply elem_of_seqZ; lia]).
    destruct Hw as (A & K & D). unfold mark_woken. by rewrite D.
Qed.
End FutexProps.

(** FUTEX_WAKE marks exactly the first [val] unwoken waiters at the address (all of them
    when there are fewer), in slot order, and returns how many; a waiter an earlier wake
    already marked is not counted again, no other task changes, and the coordinator is
    posted exactly when someone was marked. *)
Theorem futex_wake_exact {H} (ops : os_task H) (core : os_core H) now (c : coord H) f slot t64 f' c' :
  coord_wf c -> frame_wf f -> is_wake f -> 0 <= freg f 2 < 2 ^ 32 ->
  lxp_futex ops core now c f slot t64 = (f', c') ->
  let marked := take (Z.to_nat (freg f 2)) (waiters c (freg f 0)) in
  f' = set_freg f 0 (alen marked) /\
  (forall s, 0 <= s -> cproc c' s = if decide (s ∈ marked) then mark_woken (cproc c s) else cproc c s) /\
  c_h c' = match event_post core with Some g => if alen marked =? 0 then c_h c else g (c_h c) | None => c_h c end.
Proof. apply wake_spec. Qed.

(** *** Witnesses: two threads of one address space; slot 0 waits, slot 1 wakes. *)

Definition demo_futex_coord : coord unit :=
  mk_coord tt (put_proc (put_proc demo_rt 0 (set_p_pid demo_proc 7)) 1 (set_p_pid demo_proc 8))
    (replicate 12 stack_zero).
Definition demo_wait_frame : lxp_frame := mk_frame ([0x20000200; 0; 0x03020100; 0] ++ replicate 12 0) 0.
Definition demo_wake_frame : lxp_frame := mk_frame ([0x20000200; 1; 1; 0] ++ replicate 12 0) 0.
Definition demo_waiting : lxp_frame * coord unit :=
  lxp_futex demo_ops demo_core None demo_futex_coord demo_wait_frame 0 false.
Definition demo_woken : lxp_frame * coord unit :=
  lxp_futex demo_ops demo_core None demo_waiting.2 demo_wake_frame 1 false.

Lemma demo_futex_wf : coord_wf demo_futex_coord.
Proof. by apply fresh_saves_wf. Qed.

Lemma demo_waiting_wf : coord_wf demo_waiting.2.
Proof. apply fresh_saves_wf; vm_compute; reflexivity. Qed.

Lemma futex_wake_exact_witness :
  freg demo_woken.1 0 = 1 /\ cproc demo_woken.2 0 = mark_woken (cproc demo_waiting.2 0).
Proof.
  destruct (futex_wake_exact demo_ops demo_core None demo_waiting.2 demo_wake_frame 1 false demo_woken.1 demo_woken.2
    demo_waiting_wf eq_refl (or_introl eq_refl) ltac:(split; vm_compute; congruence)
    ltac:(apply surjective_pairing)) as (Hf & Hp & _).
  split; [rewrite Hf; vm_compute; reflexivity|]. rewrite (Hp 0 ltac:(lia)).
  rewrite decide_True; [reflexivity|]. apply (bool_decide_unpack _). vm_compute. exact I.
Defined.
