(* ===== verification/Trap.v ===== *)
(** * The trap top half (src/run/lxp_trap.c)

    What runs on a guest's svc: the calls that act across slots (priorities, kill, sigreturn,
    fork, futex) and the fast system calls are answered on the frame; everything else is
    published for the coordinator and the frame is parked.  The table of fast calls is a
    parameter: [syscall] runs one on the coordinator's state, [syscall_flags] gives its
    flags. *)

From S2P Require Import Prelude Config Arena Errno Proc Guest Wait Pool Fd Process Runtime Event Region Lifecycle.
From S2P Require Import Signal SignalProps SysSignal Child SignalRoute Futex.
Local Open Scope Z_scope.

Definition LXP_NR_fork : Z := 2.
Definition LXP_NR_kill : Z := 37.
Definition LXP_NR_getpriority : Z := 96.
Definition LXP_NR_setpriority : Z := 97.
Definition LXP_NR_sigreturn : Z := 119.
Definition LXP_NR_clone : Z := 120.
Definition LXP_NR_rt_sigreturn : Z := 173.
Definition LXP_NR_vfork : Z := 190.
Definition LXP_NR_tkill : Z := 238.
Definition LXP_NR_futex : Z := 240.
Definition LXP_NR_tgkill : Z := 268.
Definition LXP_NR_futex_time64 : Z := 422.
Definition LXP_SYS_FAST : Z := 0x08.

Definition init_shutdown_signal (sig : Z) : bool :=
  (sig =? LXP_SIGUSR1) || (sig =? LXP_SIGUSR2) || (sig =? LXP_SIGTERM).

Section Trap.
Context {H : Type} (ops : os_task H) (core : os_core H) (now : option Z).
Context (syscall_flags : Z -> Z) (syscall : coord H -> Z -> Z -> list Z -> Z * coord H).
Implicit Types (c : coord H) (f : lxp_frame).

(** The frame, the state and the halt request (src/sys/lxp_sys_proc.c). *)
Definition trap_result : Type := lxp_frame * coord H * bool.

Definition ret_u32 f (v : Z) : lxp_frame := set_freg f 0 (u32 v).

(** ** Deferral *)

Definition set_deferred c (slot : Z) (d : deferred_req) : coord H :=
  let sl := slot_at (c_rt c) slot in
  set_c_rt c (put_slot (c_rt c) slot
    (mk_slot (sl_proc sl) (sl_resume sl) d (sl_syscall_r0 sl) (sl_generation sl) (sl_host_state sl) (sl_runnable sl))).

Definition defer_syscall c f (slot : Z) : lxp_frame * coord H :=
  if negb (slot_in slot) || negb (lxp_deferred_state_load (c_rt c) slot =? DEFER_IDLE)
  then (ret_u32 f (- LXP_EAGAIN), c)
  else
    let c := set_c_rt c (lxp_deferred_state_store (c_rt c) slot DEFER_FILLING) in
    let '(rc, p) := lxp_intent_begin (cproc c slot) LXP_INTENT_DEFERRED_SYSCALL in
    let c := put_cproc c slot p in
    if negb (rc =? 0)
    then (ret_u32 f (- LXP_EAGAIN), set_c_rt c (lxp_deferred_state_store (c_rt c) slot DEFER_IDLE))
    else
      let d := mk_deferred (freg f 0) (mk_ref slot (lxp_slot_generation (c_rt c) slot)) DEFER_FILLING in
      let c := set_deferred c slot d in
      let c := set_c_rt c (lxp_deferred_state_store (c_rt c) slot DEFER_READY) in
      lxp_park_frame ops core c f slot.

(** ** Priorities *)

Definition PRIO_PROCESS : Z := 0.
Definition PRIO_PGRP : Z := 1.
Definition PRIO_USER : Z := 2.

Definition clamp_priority (requested : Z) : Z :=
  if requested <? -20 then -20 else if requested >? 19 then 19 else requested.

Definition priority_match c (slot which who caller_pgid s : Z) : bool :=
  negb (p_alive (cproc c s) =? 0) &&
  (if which =? PRIO_PROCESS
   then if who =? 0 then s =? slot else p_pid (cproc c s) =? who
   else if which =? PRIO_PGRP
   then match group_of c (cproc c s) with
        | Some g => tg_pgid g =? (if who =? 0 then caller_pgid else who)
        | None => false
        end
   else who =? 0).

Definition priority_step (slot which who caller_pgid requested : Z) (set : bool) (st : bool * Z * coord H) (s : Z)
    : bool * Z * coord H :=
  let '(found, best, c) := st in
  if negb (priority_match c slot which who caller_pgid s) then (found, best, c)
  else if set then (true, best, put_cproc c s (lxp_proc_nice_set (cproc c s) requested))
  else let nice := lxp_proc_nice_get (cproc c s) in (true, if nice <? best then nice else best, c).

Definition trap_priority c f (slot nr : Z) : lxp_frame * coord H :=
  let which := s32 (freg f 0) in
  let who := s32 (freg f 1) in
  let caller_pgid := match group_of c (cproc c slot) with Some g => tg_pgid g | None => p_pid (cproc c slot) end in
  let requested := s32 (freg f 2) in
  if (which <? PRIO_PROCESS) || (which >? PRIO_USER) || (who <? 0) then (ret_u32 f (- LXP_EINVAL), c)
  else
    let requested := clamp_priority requested in
    let '(found, best, c) := fold_left (priority_step slot which who caller_pgid requested (nr =? LXP_NR_setpriority))
                               (seqZ 0 LXP_NSLOT) (false, 19, c) in
    if negb found then (ret_u32 f (- LXP_ESRCH), c)
    else (ret_u32 f (if nr =? LXP_NR_getpriority then 20 - best else 0), c).

(** ** kill, tkill, tgkill *)

Definition trap_kill c f (slot nr : Z) : trap_result :=
  let sig := if nr =? LXP_NR_tgkill then s32 (freg f 2) else s32 (freg f 1) in
  let target := s32 (freg f 0) in
  let own_pgid := option_map tg_pgid (group_of c (cproc c slot)) in
  let want_pgid := if target =? 0 then default 0 own_pgid else if target <? -1 then - target else 0 in
  if (sig <? 0) || (sig >=? LXP_NSIG) then (ret_u32 f (- LXP_EINVAL), c, false)
  else if (nr =? LXP_NR_kill) && (target =? 1) && init_shutdown_signal sig then (ret_u32 f 0, c, true)
  else if negb (nr =? LXP_NR_kill) || (target =? p_pid (cproc c slot))
  then if sig =? 0 then (ret_u32 f 0, c, false)
       else (lxp_deliver_signal ops core c f slot sig 0, false)
  else
    let '(recipients, c) := lxp_signal_send core c (Some slot) (if target >? 0 then target else 0) want_pgid sig in
    if (target <=? 0) && negb (target =? -1) && bool_decide (own_pgid = Some want_pgid)
    then if sig =? 0 then (ret_u32 f 0, c, false)
         else (lxp_deliver_signal ops core c f slot sig 0, false)
    else (ret_u32 f (if negb (recipients =? 0) then 0 else - LXP_ESRCH), c, false).

(** ** fork, vfork, clone *)

Definition clone_flags_bad (flags : Z) : bool :=
  (negb (Z.land flags LXP_CLONE_SIGHAND =? 0) && (Z.land flags LXP_CLONE_VM =? 0)) ||
  (negb (Z.land flags LXP_CLONE_THREAD =? 0) &&
   negb (Z.land flags (Z.lor LXP_CLONE_VM LXP_CLONE_SIGHAND) =? Z.lor LXP_CLONE_VM LXP_CLONE_SIGHAND)).

Definition trap_fork c f (slot nr : Z) : lxp_frame * coord H :=
  let clone_flags := if nr =? LXP_NR_clone then freg f 0 else 0 in
  if clone_flags_bad clone_flags then (ret_u32 f (- LXP_EINVAL), c)
  else
    let child_stack := if negb (Z.land clone_flags LXP_CLONE_VM =? 0) then freg f 1 else 0 in
    let '(rc, p) := lxp_intent_begin (cproc c slot) (LXP_INTENT_FORK clone_flags child_stack) in
    let c := put_cproc c slot p in
    if negb (rc =? 0) then (ret_u32 f (- LXP_EAGAIN), c) else lxp_park_frame ops core c f slot.

(** ** Fast system calls *)

Definition trap_fast c f (slot nr : Z) : lxp_frame * coord H :=
  let '(r, c) := syscall c slot nr (map (fun i => s32 (freg f i)) [0; 1; 2; 3; 4; 5]) in
  if bool_decide (w_kind (p_wait (cproc c slot)) <> LXP_WAIT_NONE) then lxp_park_frame ops core c f slot
  else if bool_decide (intent_kind (p_intent (cproc c slot)) <> IK_NONE) then lxp_park_frame ops core c f slot
  else
    let '(psig, p) := lxp_pending_take (cproc c slot) in
    let c := put_cproc c slot p in
    if negb (psig =? 0) then lxp_deliver_signal ops core c f slot psig r else (ret_u32 f r, c).

Definition lxp_trap_dispatch c f (slot : Z) : trap_result :=
  let nr := s32 (freg f 7) in
  if (nr =? LXP_NR_getpriority) || (nr =? LXP_NR_setpriority) then (trap_priority c f slot nr, false)
  else if (nr =? LXP_NR_kill) || (nr =? LXP_NR_tkill) || (nr =? LXP_NR_tgkill) then trap_kill c f slot nr
  else if (nr =? LXP_NR_rt_sigreturn) || (nr =? LXP_NR_sigreturn) then (lxp_sig_restore c f slot, false)
  else if (nr =? LXP_NR_vfork) || (nr =? LXP_NR_fork) || (nr =? LXP_NR_clone) then (trap_fork c f slot nr, false)
  else if (nr =? LXP_NR_futex) || (nr =? LXP_NR_futex_time64)
  then (lxp_futex ops core now c f slot (nr =? LXP_NR_futex_time64), false)
  else if Z.land (syscall_flags nr) LXP_SYS_FAST =? 0 then (defer_syscall c f slot, false)
  else (trap_fast c f slot nr, false).

(** The seam's entry: a current, runnable slot, with a dispatch view around the trap; [vid]
    is the view's place.  [None] is the frame left as it was. *)
Definition lxp_dispatch_slot c (ref : lxp_ref) f (vid : Z) : Z * option trap_result :=
  if negb (lxp_slot_ref_is_runnable (c_rt c) ref) then (LXP_ERR_NOT_FOUND, None)
  else
    let '(rc, G) := lxp_guest_view_begin (rt_genv (c_rt c)) (ref_index ref) ref (Some (ref_index ref))
                      LXP_GUEST_READ_WRITE vid in
    if negb (rc =? LXP_OK)
    then (if rc =? - LXP_ESRCH then LXP_ERR_NOT_FOUND else LXP_ERR_INVALID_PARAM, None)
    else
      let '(f, c, halt) := lxp_trap_dispatch (set_c_rt c (rt_put_genv (c_rt c) G)) f (ref_index ref) in
      let c := set_c_rt c (rt_put_genv (c_rt c) (lxp_guest_view_end (rt_genv (c_rt c)) vid)) in
      (LXP_OK, Some (f, c, halt)).

End Trap.

(** * Properties of the trap top half

    Work a trap publishes (an intent or a wait) always comes with a parked frame: the guest
    does not run on, its context is captured and the coordinator has the slot's hint. *)

(** The task has something for the coordinator to do. *)
Definition published (p : lxp_proc) : Prop :=
  intent_kind (p_intent p) <> IK_NONE \/ w_kind (p_wait p) <> LXP_WAIT_NONE.

(** Two task records with the same published work. *)
Definition same_work (p q : lxp_proc) : Prop := p_intent p = p_intent q /\ w_kind (p_wait p) = w_kind (p_wait q).

Lemma same_work_published p q : same_work p q -> published p -> published q.
Proof. intros (Hi & Hw). unfold published. by rewrite Hi, Hw. Qed.

Section TrapProps.
Context {H : Type} (ops : os_task H) (core : os_core H) (now : option Z).
Context (syscall_flags : Z -> Z) (syscall : coord H -> Z -> Z -> list Z -> Z * coord H).
Implicit Types (c : coord H) (f : lxp_frame).

(** The states the trap runs in. *)
Definition trap_ok c (slot : Z) : Prop := coord_wf c /\ hints_wf (c_rt c) /\ slot_in slot = true.

(** The frame is redirected to the park entry, the call's context is captured, and the
    coordinator has been told. *)
Definition parked_frame f f' c' (slot : Z) : Prop :=
  freg f' 15 = u32 (Z.land (park_entry core) (u32 (Z.lnot 1))) /\ parked_in c' slot f /\
  lxp_primary_slot_pending (c_rt c') slot = true.

Lemma park_frame_parked c f slot :
  trap_ok c slot -> frame_wf f ->
  let '(f', c') := lxp_park_frame ops core c f slot in parked_frame f f' c' slot.
Proof.
  intros (Hwf & Hh & Hs) Hf. pose proof (proj1 (slot_in_range slot) Hs) as Hr. unfold lxp_park_frame.
  pose proof (capture_ctx_parked c slot f Hwf Hs) as Hcap.
  destruct (lxp_lifecycle_prepare_park _ _ _ _ _) as [token c1] eqn:E.
  assert (E1 : c_rt c1 = c_rt (capture_ctx c slot f)).
  { unfold lxp_lifecycle_prepare_park in E. destruct (park_prepare core), (park_slot ops); try by injection E as _ <-.
    destruct (negb _); [by injection E as _ <-|]. destruct (_ (c_h _) _ _ _) as [t h]. by injection E as _ <-. }
  assert (Er : c_rt (lxp_event_post_slot core c1 slot) = lxp_primary_slot_mark (c_rt c1) slot)
    by (unfold lxp_event_post_slot; by rewrite post_rt).
  split; [|split].
  - unfold set_f_xpsr, freg at 1. cbn [f_r]. change (aget 0 (f_r ?x) 15) with (freg x 15).
    rewrite !freg_set by (try lia; repeat apply set_freg_wf; done). done.
  - unfold parked_in. rewrite Er. unfold lxp_primary_slot_mark. rewrite Hs. cbn [negb].
    change (slot_at (set_rt_primary_pending ?R ?x) slot) with (slot_at R slot). rewrite E1. exact Hcap.
  - rewrite Er, (pending_mark (c_rt c1) slot slot); [by rewrite Z.eqb_refl, orb_true_r| |done|done].
    rewrite E1. exact Hh.
Qed.

Lemma park_published c f slot f' c' :
  trap_ok c slot -> frame_wf f -> lxp_park_frame ops core c f slot = (f', c') -> parked_frame f f' c' slot.
Proof. intros Hok Hf Hp. pose proof (park_frame_parked c f slot Hok Hf) as HX. by rewrite Hp in HX. Qed.

Lemma trap_ok_put c slot p : trap_ok c slot -> trap_ok (put_cproc c slot p) slot.
Proof. intros (Hwf & Hh & Hs). split; [by apply put_cproc_wf|]. done. Qed.

(** *** Signals *)

Lemma push_work c slot sig :
  trap_ok c slot ->
  let '(i, c') := lxp_sig_save_push c slot sig in trap_ok c' slot /\ same_work (cproc c' slot) (cproc c slot).
Proof.
  intros Hok. pose proof Hok as (Hwf & Hh & Hs). unfold lxp_sig_save_push. rewrite Hs. cbn [negb].
  destruct (_ >=? _) eqn:Hd; [done|].
  pose proof (stack_at_wf c slot Hwf Hs) as (Hl & Hdep).
  assert (Hput : forall fr p, alen fr = LXP_SIGNAL_NEST_MAX -> same_work p (cproc c slot) ->
    let c1 := put_cproc (put_stack c slot (mk_stack fr (u8 (st_depth (stack_at c slot) + 1)))) slot p in
    trap_ok c1 slot /\ same_work (cproc c1 slot) (cproc c slot)).
  { intros fr p Hfr Hp c1.
    assert (Hw : coord_wf (put_stack c slot (mk_stack fr (u8 (st_depth (stack_at c slot) + 1))))).
    { apply put_stack_wf; [done|]. split; cbn [st_frame st_depth]; [done|].
      rewrite u8_small by (unfold LXP_SIGNAL_NEST_MAX in *; lia). lia. }
    split; [apply trap_ok_put; split; [exact Hw|done]|]. unfold c1. by rewrite cproc_put by done. }
  destruct (negb (p_sigsuspend_active (cproc c slot) =? 0)); apply Hput; try (by rewrite alen_aset); done.
Qed.

Lemma prepare_work c slot sig :
  trap_ok c slot ->
  let '(a, d, c') := lxp_signal_prepare c slot sig in
  trap_ok c' slot /\ (a <> LXP_SIGNAL_TERMINATE -> same_work (cproc c' slot) (cproc c slot)).
Proof.
  intros Hok. unfold lxp_signal_prepare. do 3 (case_goal; [done|]). case_goal; [split; [by apply trap_ok_put|done]|].
  destruct (lxp_resolve_handler c slot sig) as [e|[[entry got] restorer]]; [split; [by apply trap_ok_put|done]|].
  pose proof (push_work c slot sig Hok) as Hp. destruct (lxp_sig_save_push c slot sig) as [[i|] c0].
  - destruct Hp as (Hok0 & Hw). by split.
  - destruct Hp as (Hok0 & _). split; [by apply trap_ok_put|done].
Qed.

Lemma deliver_work c f slot sig ret f' c' :
  trap_ok c slot -> frame_wf f -> ~ published (cproc c slot) ->
  lxp_deliver_signal ops core c f slot sig ret = (f', c') ->
  published (cproc c' slot) -> parked_frame f f' c' slot.
Proof.
  intros Hok Hf Hnp Hrun Hp. pose proof Hok as (Hwf & Hh & Hs). unfold lxp_deliver_signal in Hrun.
  assert (Hkeep : forall c0, same_work (cproc c0 slot) (cproc c slot) -> published (cproc c0 slot) -> False)
    by (intros c0 Hw Hpub; exact (Hnp (same_work_published _ _ Hw Hpub))).
  case_hyp Hrun; [apply pair_equal_spec in Hrun as [_ <-]; by destruct (Hkeep c)|].
  case_hyp Hrun.
  { apply pair_equal_spec in Hrun as [_ <-]. exfalso. eapply Hkeep; [|exact Hp]. rewrite cproc_put by done.
    unfold lxp_signal_latch. by case_goal. }
  pose proof (prepare_work c slot sig Hok) as HP. destruct (lxp_signal_prepare c slot sig) as [[a d] c0].
  destruct HP as (Hok0 & Hw). destruct a.
  - apply pair_equal_spec in Hrun as [_ <-]. exfalso. eapply Hkeep; [by apply Hw|exact Hp].
  - apply pair_equal_spec in Hrun as [_ <-]. exfalso. eapply Hkeep; [by apply Hw|exact Hp].
  - eapply park_published; [|exact Hf|exact Hrun]. by apply trap_ok_put.
  - by eapply park_published.
  - apply pair_equal_spec in Hrun as [_ <-]. exfalso. eapply Hkeep; [by apply Hw|exact Hp].
Qed.

(** *** The other arms *)

Lemma priority_work c f slot nr f' c' :
  trap_ok c slot -> trap_priority c f slot nr = (f', c') -> same_work (cproc c' slot) (cproc c slot).
Proof.
  intros (Hwf & _ & Hs) Hrun. pose proof (proj1 (slot_in_range slot) Hs) as Hr. unfold trap_priority in Hrun.
  case_hyp Hrun; [by apply pair_equal_spec in Hrun as [_ <-]|].
  assert (Hfold : forall which who pg req set l found best (d : coord H),
    coord_wf d -> Forall (fun s => 0 <= s < LXP_NSLOT) l -> same_work (cproc d slot) (cproc c slot) ->
    let '(_, _, d') := fold_left (priority_step slot which who pg req set) l (found, best, d) in
    same_work (cproc d' slot) (cproc c slot)).
  { intros which who pg req set. induction l as [|s l IH]; intros found best d Hd Hl Hw; [done|].
    apply Forall_cons in Hl as [Hsr Hl]. cbn [fold_left priority_step].
    destruct (negb _); [by apply IH|]. destruct set; [|by apply IH].
    apply IH; [by apply put_cproc_wf|done|]. destruct (decide (s = slot)) as [->|Hne].
    - by rewrite cproc_put by done.
    - by rewrite cproc_put_ne by lia. }
  specialize (Hfold (s32 (freg f 0)) (s32 (freg f 1))
    (match group_of c (cproc c slot) with Some g => tg_pgid g | None => p_pid (cproc c slot) end)
    (clamp_priority (s32 (freg f 2))) (nr =? LXP_NR_setpriority) (seqZ 0 LXP_NSLOT) false 19 c Hwf).
  cbv zeta in Hrun. destruct (fold_left _ _ _) as [[found best] d].
  assert (Hd : c' = d) by (destruct found; by apply pair_equal_spec in Hrun as [_ <-]). subst d.
  apply Hfold; [|done]. apply Forall_forall. intros s Hin%elem_of_seqZ. lia.
Qed.

Lemma send_work c skip pid pgid sig n c' slot :
  trap_ok c slot -> lxp_signal_send core c skip pid pgid sig = (n, c') ->
  trap_ok c' slot /\ same_work (cproc c' slot) (cproc c slot).
Proof.
  intros (Hwf & Hh & Hs) Hrun. pose proof (proj1 (slot_in_range slot) Hs) as Hr. unfold lxp_signal_send in Hrun.
  pose proof (send_fold skip pid pgid sig (seqZ 0 LXP_NSLOT) 0 c Hwf (NoDup_seqZ _ _)
    ltac:(apply Forall_forall; intros s Hin%elem_of_seqZ; lia)) as HF.
  assert (Hhint : forall l r (d : coord H), rt_primary_pending (c_rt (fold_left (send_step skip pid pgid sig) l (r, d)).2) =
                                rt_primary_pending (c_rt d)).
  { induction l as [|s l IH]; intros r d; [done|]. cbn [fold_left send_step]. destruct (_ || _); [apply IH|].
    by rewrite IH. }
  specialize (Hhint (seqZ 0 LXP_NSLOT) 0 c).
  destruct (fold_left _ _ _) as [r c1]. cbn [snd] in Hhint. destruct HF as (Hw1 & _ & _ & _ & _ & Hp).
  apply pair_equal_spec in Hrun as [_ <-].
  assert (Hpost : forall d : coord H, trap_ok d slot -> trap_ok (if negb (r =? 0) then post core d else d) slot /\
                            cproc (if negb (r =? 0) then post core d else d) slot = cproc d slot).
  { intros d (Hd1 & Hd2 & Hd3). destruct (negb _); [|done]. unfold post. by destruct (event_post core). }
  assert (Hok1 : trap_ok c1 slot) by (split; [done|]; split; [unfold hints_wf in *; by rewrite Hhint|done]).
  destruct (Hpost c1 Hok1) as (Hok2 & Hc2). split; [exact Hok2|]. rewrite Hc2, Hp by lia.
  destruct (decide _); [|done]. unfold lxp_signal_latch. by case_goal.
Qed.

Lemma kill_work c f slot nr f' c' halt :
  trap_ok c slot -> frame_wf f -> ~ published (cproc c slot) ->
  trap_kill ops core c f slot nr = (f', c', halt) -> published (cproc c' slot) -> parked_frame f f' c' slot.
Proof.
  intros Hok Hf Hnp Hrun Hp. unfold trap_kill in Hrun. cbv zeta in Hrun.
  do 2 (case_hyp Hrun; [by injection Hrun as _ <- _|]).
  case_hyp Hrun.
  { case_hyp Hrun; [by injection Hrun as _ <- _|]. injection Hrun as Hd _. by eapply deliver_work. }
  destruct (lxp_signal_send _ _ _ _ _ _) as [n c1] eqn:Hsend.
  destruct (send_work _ _ _ _ _ _ _ slot Hok Hsend) as (Hok1 & Hw).
  assert (Hnp1 : ~ published (cproc c1 slot)) by (intros Hq; exact (Hnp (same_work_published _ _ Hw Hq))).
  case_hyp Hrun; [|by injection Hrun as _ <- _].
  case_hyp Hrun; [by injection Hrun as _ <- _|]. injection Hrun as Hd _. by eapply deliver_work.
Qed.

Lemma intent_begin_work c f slot i f' c' :
  trap_ok c slot -> frame_wf f -> ~ published (cproc c slot) ->
  (let '(rc, p) := lxp_intent_begin (cproc c slot) i in
   let c := put_cproc c slot p in
   if negb (rc =? 0) then (ret_u32 f (- LXP_EAGAIN), c) else lxp_park_frame ops core c f slot) = (f', c') ->
  published (cproc c' slot) -> parked_frame f f' c' slot.
Proof.
  intros Hok Hf Hnp Hrun Hp. pose proof Hok as (Hwf & _ & Hs).
  destruct (lxp_intent_begin (cproc c slot) i) as [rc p] eqn:Hb. cbv zeta in Hrun.
  destruct (Z.eqb_spec rc 0) as [->|Hrc]; cbn [negb] in Hrun.
  - eapply park_published; [|exact Hf|exact Hrun]. by apply trap_ok_put.
  - apply pair_equal_spec in Hrun as [_ <-]. exfalso. apply Hnp. rewrite cproc_put in Hp by done.
    unfold lxp_intent_begin in Hb. do 2 (case_hyp Hb; [by apply pair_equal_spec in Hb as [_ <-]|]).
    apply pair_equal_spec in Hb as [Hrc0 _]. by rewrite <- Hrc0 in Hrc.
Qed.

Lemma fork_work c f slot nr f' c' :
  trap_ok c slot -> frame_wf f -> ~ published (cproc c slot) -> trap_fork ops core c f slot nr = (f', c') ->
  published (cproc c' slot) -> parked_frame f f' c' slot.
Proof.
  intros Hok Hf Hnp Hrun Hp. unfold trap_fork in Hrun. cbv zeta in Hrun.
  case_hyp Hrun; [by apply pair_equal_spec in Hrun as [_ <-]|]. by eapply intent_begin_work.
Qed.

Lemma futex_work c f slot t64 f' c' :
  trap_ok c slot -> frame_wf f -> ~ published (cproc c slot) ->
  lxp_futex ops core now c f slot t64 = (f', c') -> published (cproc c' slot) -> parked_frame f f' c' slot.
Proof.
  intros Hok Hf Hnp Hrun Hp. pose proof Hok as (Hwf & _ & Hs). pose proof (proj1 (slot_in_range slot) Hs) as Hr.
  unfold lxp_futex in Hrun. cbv zeta in Hrun.
  case_hyp Hrun.
  - destruct (lxp_guest_get_u32 _ _ _ _); [by apply pair_equal_spec in Hrun as [_ <-]|].
    do 2 (case_hyp Hrun; [by apply pair_equal_spec in Hrun as [_ <-]|]).
    destruct (futex_deadline _ _ _ _ _ _) as [e|deadline]; [by apply pair_equal_spec in Hrun as [_ <-]|].
    destruct (lxp_wait_begin now (cproc c slot) _) as [rc p] eqn:Hb.
    destruct (Z.eqb_spec rc 0) as [->|Hrc]; cbn [negb] in Hrun.
    + eapply park_published; [|exact Hf|exact Hrun]. by apply trap_ok_put.
    + apply pair_equal_spec in Hrun as [_ <-]. exfalso. apply Hnp. rewrite cproc_put in Hp by done.
      unfold lxp_wait_begin in Hb. do 2 (case_hyp Hb; [by apply pair_equal_spec in Hb as [_ <-]|]).
      apply pair_equal_spec in Hb as [Hrc0 _]. by rewrite <- Hrc0 in Hrc.
  - case_hyp Hrun; [|by apply pair_equal_spec in Hrun as [_ <-]].
    destruct (wake_loop c (freg f 0) (freg f 2) (seqZ 0 LXP_NSLOT) 0) as [w c1] eqn:Hl.
    apply pair_equal_spec in Hrun as [_ <-]. exfalso. apply Hnp.
    assert (Hloop : forall l w0 (d : coord H), coord_wf d -> Forall (fun s => 0 <= s < LXP_NSLOT) l ->
      same_work (cproc (wake_loop d (freg f 0) (freg f 2) l w0).2 slot) (cproc d slot)).
    { induction l as [|s l IH]; intros w0 d Hd Hl0; [done|]. apply Forall_cons in Hl0 as [Hsr Hl0].
      cbn [wake_loop]. destruct (w0 <? freg f 2); [|done]. destruct (futex_waiter d (freg f 0) s); [|by apply IH].
      pose proof (IH (u32 (w0 + 1)) (put_cproc d s (mark_woken (cproc d s))) (put_cproc_wf _ _ _ Hd) Hl0) as (E1 & E2).
      destruct (decide (s = slot)) as [->|Hne].
      - unfold same_work. rewrite E1, E2, cproc_put by done. unfold mark_woken. by destruct (w_data _).
      - unfold same_work. by rewrite E1, E2, cproc_put_ne by lia. }
    specialize (Hloop (seqZ 0 LXP_NSLOT) 0 c Hwf
      ltac:(apply Forall_forall; intros s Hin%elem_of_seqZ; lia)). rewrite Hl in Hloop. cbn [snd] in Hloop.
    eapply same_work_published; [exact Hloop|]. revert Hp. destruct (negb _); [|done].
    unfold cproc. by rewrite post_rt.
Qed.

Lemma defer_work c f slot f' c' :
  trap_ok c slot -> frame_wf f -> ~ published (cproc c slot) -> defer_syscall ops core c f slot = (f', c') ->
  published (cproc c' slot) -> parked_frame f f' c' slot.
Proof.
  intros Hok Hf Hnp Hrun Hp. pose proof Hok as (Hwf & Hh & Hs). pose proof (proj1 (slot_in_range slot) Hs) as Hr.
  unfold defer_syscall in Hrun. cbv zeta in Hrun.
  case_hyp Hrun; [by apply pair_equal_spec in Hrun as [_ <-]|].
  assert (Hstore : forall d st, trap_ok d slot ->
    let d' := set_c_rt d (lxp_deferred_state_store (c_rt d) slot st) in
    trap_ok d' slot /\ cproc d' slot = cproc d slot).
  { intros d st ((Hl & Hsv) & Hd2 & _) d'.
    unfold d', lxp_deferred_state_store, put_slot, set_rt_slots. split.
    - split; [|done]. split; [|done]. cbn [set_c_rt c_rt rt_slots]. by rewrite alen_aset.
    - unfold cproc, sproc, slot_at. cbn [set_c_rt c_rt rt_slots]. by rewrite aget_aset_eq by lia. }
  destruct (Hstore c DEFER_FILLING Hok) as (Hok1 & E1). cbv zeta in Hok1, E1.
  set (c1 := set_c_rt c _) in *. rewrite E1 in Hrun.
  destruct (lxp_intent_begin (cproc c slot) LXP_INTENT_DEFERRED_SYSCALL) as [rc p] eqn:Hb.
  pose proof (trap_ok_put c1 slot p Hok1) as Hok2. set (c2 := put_cproc c1 slot p) in *.
  destruct (Z.eqb_spec rc 0) as [->|Hrc]; cbn [negb] in Hrun.
  - set (d := mk_deferred _ _ _) in Hrun. set (c3 := set_deferred c2 slot d) in Hrun.
    assert (Hok3 : trap_ok c3 slot).
    { destruct Hok2 as ((Hl & Hsv) & Hd2 & _). unfold c3, set_deferred, put_slot, set_rt_slots.
      split; [|done]. split; [|done]. cbn [set_c_rt c_rt rt_slots]. by rewrite alen_aset. }
    destruct (Hstore c3 DEFER_READY Hok3) as (Hok4 & _). by eapply park_published.
  - apply pair_equal_spec in Hrun as [_ <-]. exfalso. apply Hnp.
    destruct (Hstore c2 DEFER_IDLE Hok2) as (_ & E2). cbv zeta in E2. rewrite E2 in Hp.
    unfold c2 in Hp. rewrite cproc_put in Hp by (try apply Hok1; done).
    unfold lxp_intent_begin in Hb. do 2 (case_hyp Hb; [by apply pair_equal_spec in Hb as [_ <-]|]).
    apply pair_equal_spec in Hb as [Hrc0 _]. by rewrite <- Hrc0 in Hrc.
Qed.

Lemma fast_work c f slot nr f' c' :
  (forall args, trap_ok (syscall c slot nr args).2 slot) -> frame_wf f ->
  trap_fast ops core syscall c f slot nr = (f', c') ->
  published (cproc c' slot) -> parked_frame f f' c' slot.
Proof.
  intros Hsys Hf Hrun Hp. unfold trap_fast in Hrun.
  specialize (Hsys (map (fun i => s32 (freg f i)) [0; 1; 2; 3; 4; 5])).
  destruct (syscall c slot nr _) as [r c1]. cbn [snd] in Hsys.
  destruct (decide (w_kind (p_wait (cproc c1 slot)) <> LXP_WAIT_NONE)) as [Hw|Hw].
  { rewrite bool_decide_eq_true_2 in Hrun by done. by eapply park_published. }
  rewrite (bool_decide_eq_false_2 (w_kind _ <> _)) in Hrun by done.
  destruct (decide (intent_kind (p_intent (cproc c1 slot)) <> IK_NONE)) as [Hi|Hi].
  { rewrite bool_decide_eq_true_2 in Hrun by done. by eapply park_published. }
  rewrite (bool_decide_eq_false_2 (intent_kind _ <> _)) in Hrun by done.
  assert (Hnp : ~ published (cproc c1 slot)) by (intros [Hq|Hq]; done).
  assert (Htake : same_work (lxp_pending_take (cproc c1 slot)).2 (cproc c1 slot))
    by (unfold lxp_pending_take; cbn [snd]; by case_goal).
  destruct (lxp_pending_take (cproc c1 slot)) as [psig p]. cbn [snd] in Htake.
  assert (Hnp2 : ~ published (cproc (put_cproc c1 slot p) slot)).
  { destruct Hsys as (Hw1 & _ & Hs). rewrite cproc_put by done. intros Hq. apply Hnp.
    by eapply same_work_published. }
  destruct (negb (psig =? 0)).
  - eapply deliver_work; [by apply trap_ok_put|done|exact Hnp2|exact Hrun|done].
  - by apply pair_equal_spec in Hrun as [_ <-].
Qed.
End TrapProps.

(** C10: A trap never publishes work and lets the guest run on.  Dispatching any system call of
    a task with nothing published (whatever the table's fast calls do, as long as they keep
    the store's shape) ends, if the task then has an intent or a wait, with its frame
    redirected to the port's park entry, its registers and first argument captured for the
    resume, and the slot's event hint set for the coordinator. *)
Theorem trap_parks_published {H} (ops : os_task H) (core : os_core H) now syscall_flags syscall
    (c : coord H) f slot f' c' halt :
  (forall nr args, trap_ok (syscall c slot nr args).2 slot) ->
  trap_ok c slot -> frame_wf f -> ~ published (cproc c slot) ->
  lxp_trap_dispatch ops core now syscall_flags syscall c f slot = (f', c', halt) ->
  published (cproc c' slot) -> parked_frame core f f' c' slot.
Proof.
  intros Hsys Hok Hf Hnp Hrun Hp. unfold lxp_trap_dispatch in Hrun. cbv zeta in Hrun.
  case_hyp Hrun.
  { injection Hrun as Hr _. exfalso. apply Hnp. eapply same_work_published; [|exact Hp]. by eapply priority_work. }
  case_hyp Hrun; [by eapply kill_work|].
  case_hyp Hrun.
  { injection Hrun as Hr _. exfalso. apply Hnp. eapply same_work_published; [|exact Hp].
    pose proof Hok as (Hwf & _ & Hs). unfold lxp_sig_restore in Hr. rewrite Hs in Hr. cbn [negb] in Hr.
    case_hyp Hr; [by apply pair_equal_spec in Hr as [_ <-]|]. apply pair_equal_spec in Hr as [_ <-].
    rewrite cproc_put_stack, cproc_put by done. done. }
  case_hyp Hrun; [injection Hrun as Hr _; by eapply fork_work|].
  case_hyp Hrun; [injection Hrun as Hr _; by eapply futex_work|].
  case_hyp Hrun; injection Hrun as Hr _; [by eapply defer_work|].
  eapply (fast_work ops core syscall_flags syscall); [intros args; apply Hsys|exact Hf|exact Hr|exact Hp].
Qed.

(** The task of slot 0 calls futex(FUTEX_WAIT) with the word's current value. *)
Definition demo_trap_frame : lxp_frame := mk_frame ([0x20000200; 0; 0x03020100; 0; 0; 0; 0; LXP_NR_futex] ++ replicate 8 0) 0.
Definition demo_syscall (c : coord unit) (slot nr : Z) (args : list Z) : Z * coord unit := (0, c).
Definition demo_trapped : trap_result :=
  lxp_trap_dispatch demo_ops demo_core None (fun _ => 0) demo_syscall demo_futex_coord demo_trap_frame 0.

Lemma demo_trap_ok : trap_ok demo_futex_coord 0.
Proof. split; [exact demo_futex_wf|]. split; [vm_compute; done|reflexivity]. Qed.

Lemma trap_parks_published_witness :
  parked_frame demo_core demo_trap_frame demo_trapped.1.1 demo_trapped.1.2 0.
Proof.
  apply (trap_parks_published demo_ops demo_core None (fun _ => 0) demo_syscall demo_futex_coord
    demo_trap_frame 0 demo_trapped.1.1 demo_trapped.1.2 demo_trapped.2 (fun _ _ => demo_trap_ok)).
  - exact demo_trap_ok.
  - reflexivity.
  - intros [Hq|Hq]; apply Hq; vm_compute; reflexivity.
  - unfold demo_trapped. by destruct (lxp_trap_dispatch _ _ _ _ _ _ _ _) as [[? ?] ?].
  - right. vm_compute. congruence.
Defined.

(** tkill and tgkill act on the caller whatever thread they name: two frames that differ only
    in the target give the caller's record the same delivery. *)
Lemma tkill_ignores_target {H} (ops : os_task H) (core : os_core H) (c : coord H) f slot nr tid :
  nr = LXP_NR_tkill \/ nr = LXP_NR_tgkill ->
  let sig := if nr =? LXP_NR_tgkill then s32 (freg f 2) else s32 (freg f 1) in
  0 < sig < LXP_NSIG -> frame_wf f ->
  (trap_kill ops core c (set_freg f 0 tid) slot nr).1 = lxp_deliver_signal ops core c (set_freg f 0 tid) slot sig 0.
Proof.
  intros Hnr sig Hs Hf. unfold trap_kill.
  assert (E : (if nr =? LXP_NR_tgkill then s32 (freg (set_freg f 0 tid) 2) else s32 (freg (set_freg f 0 tid) 1)) = sig)
    by (unfold sig; rewrite !freg_set by (lia || done); done).
  rewrite E. cbv zeta. rewrite (proj2 (Z.ltb_ge sig 0)) by lia. rewrite Z.geb_leb, (proj2 (Z.leb_gt LXP_NSIG sig)) by lia.
  assert (Ek : nr =? LXP_NR_kill = false) by (destruct Hnr as [-> | ->]; reflexivity).
  rewrite Ek. cbn [orb andb negb]. rewrite (proj2 (Z.eqb_neq sig 0)) by lia. reflexivity.
Qed.
