(* ===== verification/Console.v ===== *)
(** * Terminals and the console (src/fs/lxp_tty.c, src/fs/lxp_console.c,
      src/run/lxp_console_input.c)

    A terminal is its settings and its foreground group.  The console is the one terminal
    behind the initial descriptors: its bytes come from the host's transport, or from the
    typeahead ring that the coordinator fills while it looks for ^C and ^Z. *)

From S2P Require Import Prelude Config Errno Proc Pool Fd Guest Wait Arena Process Runtime Event Region Lifecycle.
From S2P Require Import Signal SysSignal Child SignalRoute.
Local Open Scope Z_scope.

Definition LXP_TCGETS : Z := 0x5401.
Definition LXP_TCSETS : Z := 0x5402.
Definition LXP_TCSETSW : Z := 0x5403.
Definition LXP_TCSETSF : Z := 0x5404.
Definition LXP_TIOCSCTTY : Z := 0x540e.
Definition LXP_TIOCGPGRP : Z := 0x540f.
Definition LXP_TIOCSPGRP : Z := 0x5410.
Definition LXP_TIOCGWINSZ : Z := 0x5413.
Definition LXP_TIOCSWINSZ : Z := 0x5414.
Definition LXP_TIOCNOTTY : Z := 0x5422.
Definition LXP_ISIG : Z := 0x0001.
Definition LXP_ICANON : Z := 0x0002.
Definition LXP_ECHO : Z := 0x0008.
Definition LXP_ICRNL : Z := 0x0100.
Definition LXP_OPOST : Z := 0x0001.
Definition LXP_ONLCR : Z := 0x0004.
Definition LXP_CS8 : Z := 0x0030.
Definition LXP_CREAD : Z := 0x0080.
Definition LXP_VINTR : Z := 0.
Definition LXP_VERASE : Z := 2.
Definition LXP_VEOF : Z := 4.
Definition LXP_VMIN : Z := 6.
Definition LXP_VSUSP : Z := 10.
Definition LXP_NCCS : Z := 19.

(** ** Terminals *)

Record lxp_termios := mk_termios {
  c_iflag : Z; c_oflag : Z; c_cflag : Z; c_lflag : Z; c_line : Z; c_cc : list Z;
}.
Record lxp_winsize := mk_winsize { ws_row : Z; ws_col : Z; ws_xpixel : Z; ws_ypixel : Z }.
Record lxp_tty := mk_tty { tty_termios : lxp_termios; tty_winsize : lxp_winsize; tty_fg_pgrp : Z }.

Definition set_tty_termios (t : lxp_tty) (v : lxp_termios) : lxp_tty := mk_tty v (tty_winsize t) (tty_fg_pgrp t).
Definition set_tty_winsize (t : lxp_tty) (v : lxp_winsize) : lxp_tty := mk_tty (tty_termios t) v (tty_fg_pgrp t).
Definition set_tty_fg_pgrp (t : lxp_tty) (v : Z) : lxp_tty := mk_tty (tty_termios t) (tty_winsize t) v.

Definition LXP_TTY_DEFAULTS : lxp_tty :=
  let cc := replicate (Z.to_nat LXP_NCCS) 0 in
  let cc := aset cc LXP_VINTR 3 in
  let cc := aset cc LXP_VERASE 0x7f in
  let cc := aset cc LXP_VEOF 4 in
  let cc := aset cc LXP_VSUSP 26 in
  let cc := aset cc LXP_VMIN 1 in
  mk_tty (mk_termios LXP_ICRNL (Z.lor LXP_OPOST LXP_ONLCR) (Z.lor LXP_CS8 LXP_CREAD)
            (Z.lor (Z.lor LXP_ICANON LXP_ECHO) LXP_ISIG) 0 cc)
    (mk_winsize 24 80 0 0) 0.

Definition lxp_tty_init : lxp_tty := LXP_TTY_DEFAULTS.

(** The guest's layouts of the two structures. *)
Definition termios_size : Z := 17 + LXP_NCCS.
Definition termios_bytes (t : lxp_termios) : list Z :=
  bytes32 (c_iflag t) ++ bytes32 (c_oflag t) ++ bytes32 (c_cflag t) ++ bytes32 (c_lflag t) ++ [c_line t] ++ c_cc t.
Definition termios_of (bs : list Z) : lxp_termios :=
  mk_termios (word bs 0) (word bs 1) (word bs 2) (word bs 3) (aget 0 bs 16) (drop 17 bs).

Definition winsize_bytes (w : lxp_winsize) : list Z :=
  le_bytes 2 (ws_row w) ++ le_bytes 2 (ws_col w) ++ le_bytes 2 (ws_xpixel w) ++ le_bytes 2 (ws_ypixel w).
Definition half (bs : list Z) (i : nat) : Z := le_val (take 2 (drop (2 * i) bs)).
Definition winsize_of (bs : list Z) : lxp_winsize := mk_winsize (half bs 0) (half bs 1) (half bs 2) (half bs 3).

(** The code, the memory and the terminal. *)
Definition lxp_tty_ioctl (G : genv) (m : mem) (p : Z) (tty : lxp_tty) (cmd arg : Z) : Z * mem * lxp_tty :=
  let ua := u32 arg in
  if cmd =? LXP_TCGETS then (lxp_copy_to_guest G m p ua (termios_bytes (tty_termios tty)), tty)
  else if (cmd =? LXP_TCSETS) || (cmd =? LXP_TCSETSW) || (cmd =? LXP_TCSETSF)
  then match lxp_copy_from_guest G m p ua termios_size with
       | inl _ => (- LXP_EFAULT, m, tty)
       | inr bs => (0, m, set_tty_termios tty (termios_of bs))
       end
  else if cmd =? LXP_TIOCGWINSZ then (lxp_copy_to_guest G m p ua (winsize_bytes (tty_winsize tty)), tty)
  else if cmd =? LXP_TIOCSWINSZ
  then match lxp_copy_from_guest G m p ua 8 with
       | inl _ => (- LXP_EFAULT, m, tty)
       | inr bs => (0, m, set_tty_winsize tty (winsize_of bs))
       end
  else if cmd =? LXP_TIOCSPGRP
  then match lxp_guest_get_u32 G m p ua with
       | inl _ => (- LXP_EFAULT, m, tty)
       | inr pgrp => (0, m, set_tty_fg_pgrp tty (s32 pgrp))
       end
  else if cmd =? LXP_TIOCGPGRP
  then (lxp_guest_put_u32 G m p ua
          (u32 (if tty_fg_pgrp tty >? 0 then tty_fg_pgrp tty else p_pid (proc_at G p))), tty)
  else if (cmd =? LXP_TIOCSCTTY) || (cmd =? LXP_TIOCNOTTY) then (0, m, tty)
  else (- LXP_ENOTTY, m, tty).

Definition lxp_tty_signal_for (tty : lxp_tty) (c : Z) : Z :=
  let t := tty_termios tty in
  if (Z.land (c_lflag t) LXP_ISIG =? 0) || (c =? 0) then 0
  else if c =? aget 0 (c_cc t) LXP_VINTR then LXP_SIGINT
  else if c =? aget 0 (c_cc t) LXP_VSUSP then LXP_SIGTSTP
  else 0.

(** ** The console *)

Record console := mk_console { con_tty : lxp_tty; ta_buf : list Z; ta_head : Z; ta_count : Z }.
Definition set_con_tty (k : console) (t : lxp_tty) : console := mk_console t (ta_buf k) (ta_head k) (ta_count k).

Definition lxp_console_reset (k : console) : console := mk_console lxp_tty_init (ta_buf k) 0 0.

Definition lxp_console_input_xlate (k : console) (ch : Z) : Z :=
  if negb (Z.land (c_iflag (tty_termios (con_tty k))) LXP_ICRNL =? 0) && (ch =? 13) then 10 else ch.

(** The host's side: the functions behind the pointers, the console of the running
    configuration (its read and poll functions and context) and the entropy source.  A read
    gives its result and the bytes it stored. *)
Record os_console (H : Type) := mk_os_console {
  call_poll : Z -> H -> Z -> Z * H;
  call_read : Z -> H -> Z -> Z -> Z -> Z * list Z * H;
  call_write : Z -> H -> Z -> Z -> list Z -> Z * H;
  random_fill : H -> Z -> Z * list Z * H;
  cfg_console : option (Z * Z * Z);
}.
Arguments mk_os_console {H}.
Arguments call_poll {H}.
Arguments call_read {H}.
Arguments call_write {H}.
Arguments random_fill {H}.
Arguments cfg_console {H}.

Section Console.
Context {H : Type} (core : os_core H) (cons : os_console H).
Implicit Types (c : coord H) (k : console).

Definition lxp_console_signal_fg c k (sig : Z) : coord H :=
  (lxp_signal_process_group core c (tty_fg_pgrp (con_tty k)) sig).2.

Definition lxp_console_input_ready c k (slot : Z) : bool * coord H :=
  if negb (ta_count k =? 0) then (true, c)
  else let p := cproc c slot in
       if p_console_poll p =? 0 then (false, c)
       else let '(r, h) := call_poll cons (p_console_poll p) (c_h c) (p_io_ctx p) in (r >? 0, set_c_h c h).

Definition lxp_console_read c k (slot fd buf len : Z) : Z * coord H * console :=
  let p := cproc c slot in
  let '(rc, c, k) :=
    if negb (len =? 0) && negb (ta_count k =? 0)
    then (1, set_cmem c (mem_write (cmem c) buf [aget 0 (ta_buf k) (ta_head k)]),
          mk_console (con_tty k) (ta_buf k) ((ta_head k + 1) mod LXP_CONSOLE_TYPEAHEAD) (ta_count k - 1))
    else if p_read_fn p =? 0 then (0, c, k)
    else let '(rc, bs, h) := call_read cons (p_read_fn p) (c_h c) (p_io_ctx p) fd len in
         (rc, set_cmem (set_c_h c h) (mem_write (cmem c) buf bs), k) in
  if rc =? 1
  then (rc, set_cmem c (mem_write (cmem c) buf [lxp_console_input_xlate k (load8 (cmem c) buf)]), k)
  else (rc, c, k).

(** Whether a signal was raised. *)
Definition lxp_console_poll_interrupts c k : bool * coord H * console :=
  match cfg_console cons with
  | None => (false, c, k)
  | Some (rd, pl, ctx) =>
      if (Z.land (c_lflag (tty_termios (con_tty k))) LXP_ISIG =? 0) || (rd =? 0) || (pl =? 0) ||
         (ta_count k =? LXP_CONSOLE_TYPEAHEAD)
      then (false, c, k)
      else
        let '(ready, h) := call_poll cons pl (c_h c) ctx in
        let c := set_c_h c h in
        if ready =? 0 then (false, c, k)
        else
          let '(rc, bs, h) := call_read cons rd (c_h c) ctx 0 1 in
          let c := set_c_h c h in
          if negb (rc =? 1) then (false, c, k)
          else
            let ch := u8 (aget 0 bs 0) in
            let sig := lxp_tty_signal_for (con_tty k) ch in
            if negb (sig =? 0) then (true, lxp_console_signal_fg c k sig, k)
            else
              let tail := u32 (ta_head k + ta_count k) in
              (false, c, mk_console (con_tty k) (aset (ta_buf k) (tail mod LXP_CONSOLE_TYPEAHEAD) ch)
                           (ta_head k) (ta_count k + 1))
  end.

(** ** The console's file operations *)

Definition lxp_random_fill_guest c (buf count unavailable_errno : Z) : Z * coord H :=
  if count =? 0 then (0, c)
  else let '(r, bs, h) := random_fill cons (c_h c) count in
       let c := set_cmem (set_c_h c h) (mem_write (cmem c) buf bs) in
       (if r =? LXP_OK then count
        else if r =? LXP_ERR_WOULD_BLOCK then - LXP_EAGAIN
        else if (r =? LXP_ERR_NOT_SUPPORTED) || (r =? LXP_ERR_NOT_REGISTERED) then - unavailable_errno
        else - LXP_EIO, c).

Definition fop_read_console (now : option Z) c k (slot : Z) (s : lxp_ofd) (buf len : Z) : Z * coord H * console :=
  if ofd_file_idx s =? 1 then (- LXP_EBADF, c, k)
  else if ofd_file_idx s =? 3 then (0, c, k)
  else if ofd_file_idx s =? 5 then (len, set_cmem c (mem_set (cmem c) buf 0 len), k)
  else if ofd_file_idx s =? 4 then (lxp_random_fill_guest c buf len LXP_EIO, k)
  else if p_read_fn (cproc c slot) =? 0 then (0, c, k)
  else
    let '(ready, c) := if p_console_poll (cproc c slot) =? 0 then (true, c) else lxp_console_input_ready c k slot in
    if negb ready
    then let '(rc, p) := lxp_wait_park now (cproc c slot)
                           (mk_wait LXP_WAIT_CONSOLE 0 0 0 (WD_IO 0 0 buf len 0 0 0)) in
         (rc, put_cproc c slot p, k)
    else lxp_console_read c k slot (ofd_file_idx s) buf len.

Definition fop_write_console c (slot : Z) (s : lxp_ofd) (buf len : Z) : Z * coord H :=
  let i := ofd_file_idx s in
  if (i =? 3) || (i =? 4) || (i =? 5) then (len, c)
  else if (i =? 0) || (p_write_fn (cproc c slot) =? 0) then (- LXP_EBADF, c)
  else let p := cproc c slot in
       let '(rc, h) := call_write cons (p_write_fn p) (c_h c) (p_io_ctx p) i (mem_read (cmem c) buf (Z.to_nat len)) in
       (rc, set_c_h c h).

Definition fop_ioctl_console c k (slot cmd arg : Z) : Z * coord H * console :=
  let '(rc, m, tty) := lxp_tty_ioctl (cgenv c) (cmem c) slot (con_tty k) cmd arg in
  (rc, set_cmem c m, set_con_tty k tty).

End Console.
