(* ===== verification/ConsoleProps.v ===== *)
(** * Properties of terminals and the console

    The typeahead ring with the transport behind it is one byte stream: whatever mixture of
    interrupt checks and guest reads runs, ordinary bytes reach the reader once, in order.
    Terminal settings survive the trip through the guest's layout. *)

From S2P Require Import Prelude Config Ring Errno Proc Pool Fd Guest Wait Arena Process Runtime Event Region Lifecycle.
From S2P Require Import Quiet Signal SignalProps SysSignal Child SignalRoute Console.
Local Open Scope Z_scope.

(** ** The typeahead ring *)

Definition typed (k : console) : list Z := ring_view (ta_buf k) LXP_CONSOLE_TYPEAHEAD (ta_head k) (ta_count k).

Definition console_wf (k : console) : Prop :=
  alen (ta_buf k) = LXP_CONSOLE_TYPEAHEAD /\ 0 <= ta_head k < LXP_CONSOLE_TYPEAHEAD /\
  0 <= ta_count k <= LXP_CONSOLE_TYPEAHEAD /\ Forall (fun x => 0 <= x < 256) (ta_buf k).

Definition typeahead_push (k : console) (ch : Z) : console :=
  mk_console (con_tty k)
    (aset (ta_buf k) (u32 (ta_head k + ta_count k) mod LXP_CONSOLE_TYPEAHEAD) ch) (ta_head k) (ta_count k + 1).
Definition typeahead_pop (k : console) : console :=
  mk_console (con_tty k) (ta_buf k) ((ta_head k + 1) mod LXP_CONSOLE_TYPEAHEAD) (ta_count k - 1).

Lemma typed_push k ch :
  console_wf k -> ta_count k < LXP_CONSOLE_TYPEAHEAD -> 0 <= ch < 256 ->
  console_wf (typeahead_push k ch) /\ typed (typeahead_push k ch) = typed k ++ [ch].
Proof.
  intros (Hl & Hh & Hc & Hb) Hlt Hch. unfold LXP_CONSOLE_TYPEAHEAD in *.
  split.
  { unfold console_wf, typeahead_push, LXP_CONSOLE_TYPEAHEAD. cbn [ta_buf ta_head ta_count]. rewrite alen_aset.
    repeat split; try lia. by apply Forall_aset. }
  apply aget_ext; unfold typed, typeahead_push, LXP_CONSOLE_TYPEAHEAD; cbn [ta_buf ta_head ta_count con_tty].
  { rewrite length_app, !length_ring_view. simpl. lia. }
  unfold alen. rewrite length_ring_view. intros i Hi.
  rewrite aget_ring_view by lia. rewrite aget_app by lia. unfold alen. rewrite length_ring_view.
  rewrite (u32_small (ta_head k + ta_count k)) by lia.
  destruct (Z.ltb_spec i (Z.of_nat (Z.to_nat (ta_count k)))).
  - rewrite aget_ring_view by lia. apply aget_aset_ne; try lia.
  - assert (i = ta_count k) as -> by lia. rewrite aget_aset_eq by (rewrite Hl; lia).
    replace (ta_count k - Z.of_nat (Z.to_nat (ta_count k))) with 0 by lia. done.
Qed.

Lemma typed_pop k :
  console_wf k -> ta_count k <> 0 ->
  console_wf (typeahead_pop k) /\ typed k = aget 0 (ta_buf k) (ta_head k) :: typed (typeahead_pop k).
Proof.
  intros (Hl & Hh & Hc & Hb) Hne. unfold LXP_CONSOLE_TYPEAHEAD in *.
  split; [unfold console_wf, typeahead_pop, LXP_CONSOLE_TYPEAHEAD; cbn [ta_buf ta_head ta_count]; repeat split; (lia || done)|].
  apply aget_ext; unfold typed, typeahead_pop, LXP_CONSOLE_TYPEAHEAD; cbn [ta_buf ta_head ta_count con_tty].
  { cbn [length]. rewrite !length_ring_view. lia. }
  unfold alen. rewrite length_ring_view. intros i Hi. rewrite aget_ring_view by lia.
  destruct (decide (i = 0)) as [->|Hi0].
  - unfold aget at 2. cbn. f_equal. lia.
  - transitivity (aget 0 (ring_view (ta_buf k) 64 ((ta_head k + 1) mod 64) (ta_count k - 1)) (i - 1)).
    + rewrite aget_ring_view by lia. f_equal. rewrite Zplus_mod_idemp_l. f_equal. lia.
    + unfold aget. replace (Z.to_nat i) with (S (Z.to_nat (i - 1))) by lia. done.
Qed.

(** ** The byte stream *)

(** What the console relies on of the host's transport: it is a first-in first-out source
    of bytes, polled without effect; a read takes some bytes off its front, at most as many
    as asked for, and returns their count, or takes none and returns 0 or an error; and
    waking the coordinator does not touch it. *)
Class Transport {H} (core : os_core H) (cons : os_console H) := {
  input : H -> list Z;
  input_bytes h : Forall (fun x => 0 <= x < 256) (input h);
  post_input g h : event_post core = Some g -> input (g h) = input h;
  poll_input fn h ctx : input (call_poll cons fn h ctx).2 = input h;
  read_input fn h ctx fd len : 0 < len ->
    let '(rc, bs, h') := call_read cons fn h ctx fd len in
    input h = bs ++ input h' /\ alen bs <= len /\ (bs = [] /\ rc <= 0 \/ rc = alen bs);
}.

(** A check for interrupt characters, or a guest's read. *)
Inductive con_op := OpCheck | OpRead (slot fd buf len : Z).

Definition op_ok (o : con_op) : Prop := match o with OpCheck => True | OpRead _ _ _ len => 0 < len end.

Section Stream.
Context {H : Type} (core : os_core H) (cons : os_console H) {T : Transport core cons}.
Implicit Types (c : coord H) (k : console).

(** The bytes an operation hands to the guest, and the state after it. *)
Definition con_step c k (o : con_op) : list Z * coord H * console :=
  match o with
  | OpCheck => let '(_, c, k) := lxp_console_poll_interrupts core cons c k in ([], c, k)
  | OpRead slot fd buf len =>
      let '(rc, c, k) := lxp_console_read cons c k slot fd buf len in
      (mem_read (cmem c) buf (Z.to_nat rc), c, k)
  end.

(** The bytes of one read as the guest gets them: ICRNL applies to a read of a single byte. *)
Definition handed k (raw : list Z) : list Z := match raw with [x] => [lxp_console_input_xlate k x] | _ => raw end.

Fixpoint con_run c k (os : list con_op) : list Z * coord H * console :=
  match os with
  | [] => ([], c, k)
  | o :: os => let '(out, c, k) := con_step c k o in
               let '(out', c, k) := con_run c k os in (out ++ out', c, k)
  end.

(** Everything typed and not yet delivered. *)
Definition stream c k : list Z := typed k ++ input (c_h c).

(** Bytes that raise no signal. *)
Definition ordinary k (ch : Z) : Prop := lxp_tty_signal_for (con_tty k) ch = 0.
#[global] Instance ordinary_dec k ch : Decision (ordinary k ch).
Proof. unfold ordinary. apply _. Defined.

(** From [s] to [s'] only signal characters are missing. *)
Definition only_signals k (s s' : list Z) : Prop := sublist s' s /\ filter (ordinary k) s' = filter (ordinary k) s.

Lemma xlate_byte k x : 0 <= x < 256 -> u8 (lxp_console_input_xlate k (u8 x)) = lxp_console_input_xlate k x.
Proof. intros Hx. rewrite (u8_small x) by done. apply u8_small. unfold lxp_console_input_xlate. case_match; lia. Qed.

Lemma load8_write_head m a x bs : load8 (mem_write m a (x :: bs)) a = u8 x.
Proof. unfold load8. rewrite mem_write_in by (cbn [length]; lia). replace (a - a) with 0 by lia. done. Qed.

(** A single byte stored at [buf], then mapped in place. *)
Lemma mem_read_xlated k (m : mem) buf x : 0 <= x < 256 ->
  mem_read (mem_write (mem_write m buf [x]) buf [lxp_console_input_xlate k (load8 (mem_write m buf [x]) buf)]) buf (Z.to_nat 1) = handed k [x].
Proof.
  intros Hx. change (Z.to_nat 1) with (length [lxp_console_input_xlate k (load8 (mem_write m buf [x]) buf)]).
  rewrite mem_read_write_same, load8_write_head. cbn [map handed]. f_equal. by apply xlate_byte.
Qed.

Lemma map_u8_bytes bs : Forall (fun x => 0 <= x < 256) bs -> map u8 bs = bs.
Proof. induction 1 as [|x bs Hx _ IH]; [done|]. cbn [map]. by rewrite IH, u8_small. Qed.

Lemma post_stream c : input (c_h (post core c)) = input (c_h c).
Proof. unfold post. destruct (event_post core) eqn:E; [|done]. cbn. by apply post_input. Qed.

Lemma signal_fg_stream c k sig :
  coord_wf c -> coord_wf (lxp_console_signal_fg core c k sig) /\
  input (c_h (lxp_console_signal_fg core c k sig)) = input (c_h c).
Proof.
  intros Hwf. unfold lxp_console_signal_fg, lxp_signal_process_group.
  destruct (_ || (sig >=? LXP_NSIG)); [done|]. unfold lxp_signal_send.
  pose proof (send_fold None 0 (tty_fg_pgrp (con_tty k)) sig (seqZ 0 LXP_NSLOT) 0 c Hwf
                (NoDup_seqZ _ _)) as Hf.
  destruct (fold_left _ _ _) as [n c1]. destruct Hf as (Hw1 & Hh & _).
  { apply Forall_forall. intros s Hs%elem_of_seqZ. lia. }
  cbn [snd]. destruct (negb (n =? 0)); [|by rewrite Hh].
  split; [|by rewrite post_stream, Hh]. unfold post. destruct (event_post core); [|done]. exact Hw1.
Qed.

Lemma filter_skip k x s : ~ ordinary k x -> filter (ordinary k) (x :: s) = filter (ordinary k) s.
Proof. intros Hx. by rewrite filter_cons_False. Qed.

(** *** One operation *)

Lemma check_step c k :
  coord_wf c -> console_wf k ->
  let '(_, c', k') := lxp_console_poll_interrupts core cons c k in
  coord_wf c' /\ console_wf k' /\ con_tty k' = con_tty k /\ only_signals k (stream c k) (stream c' k').
Proof.
  intros Hwf Hk. unfold lxp_console_poll_interrupts.
  assert (Hid : only_signals k (stream c k) (stream c k)) by done.
  destruct (cfg_console cons) as [[[rd pl] ctx]|]; [|done].
  destruct (_ || (ta_count k =? LXP_CONSOLE_TYPEAHEAD)) eqn:Hfull; [done|].
  pose proof (poll_input pl (c_h c) ctx) as Hp.
  destruct (call_poll cons pl (c_h c) ctx) as [ready h]. cbn [snd] in Hp.
  assert (Hid1 : only_signals k (stream c k) (stream (set_c_h c h) k)) by (unfold stream; cbn; by rewrite Hp).
  destruct (ready =? 0); [done|]. cbn [c_h set_c_h].
  pose proof (read_input rd h ctx 0 1 ltac:(lia)) as Hr.
  destruct (call_read cons rd h ctx 0 1) as [[rc bs] h2].
  assert (Hwf2 : coord_wf (set_c_h (set_c_h c h) h2)) by exact Hwf.
  assert (Hb : Forall (fun x => 0 <= x < 256) (input h)) by apply input_bytes.
  assert (Hhc : input h = input (c_h c)) by done. destruct Hr as (Hh2 & Hone & Hrc).
  destruct bs as [|x [|y bs]]; [| |unfold alen in Hone; simpl in Hone; lia].
  { rewrite (proj2 (Z.eqb_neq rc 1)) by (destruct Hrc as [[_ ?]| ->]; done || lia). cbn [negb].
    split; [done|]. split; [done|]. split; [done|]. unfold stream. cbn. cbn [app] in Hh2. by rewrite <- Hh2, <- Hhc. }
  cbn [app] in Hh2. destruct Hrc as [[? _]| ->]; [done|]. change (alen [x]) with 1. rewrite Z.eqb_refl. cbn [negb aget]. rewrite Hh2 in Hb, Hhc.
  change (aget 0 [x] 0) with x. apply Forall_cons in Hb as [Hx _]. rewrite (u8_small x) by lia.
  destruct (Z.eqb_spec (lxp_tty_signal_for (con_tty k) x) 0) as [Ho|Ho]; cbn [negb].
  - apply orb_false_iff in Hfull as [_ Hfull]. apply Z.eqb_neq in Hfull.
    pose proof Hk as (_ & _ & Hc & _). destruct (typed_push k x Hk ltac:(lia) Hx) as (Hk2 & Ht).
    split; [done|]. split; [exact Hk2|]. split; [done|].
    change (mk_console _ _ _ _) with (typeahead_push k x). unfold stream. cbn [c_h set_c_h].
    by rewrite Ht, <- Hhc, <- app_assoc.
  - destruct (signal_fg_stream (set_c_h (set_c_h c h) h2) k (lxp_tty_signal_for (con_tty k) x) Hwf2) as (Hw3 & Hi3).
    split; [exact Hw3|]. split; [done|]. split; [done|]. unfold stream. rewrite Hi3. cbn [c_h set_c_h].
    rewrite <- Hhc. split; [apply sublist_app; [done|]; by constructor|].
    rewrite !filter_app. by rewrite filter_skip.
Qed.

Lemma read_step c k slot fd buf len :
  coord_wf c -> console_wf k -> 0 < len ->
  let '(rc, c', k') := lxp_console_read cons c k slot fd buf len in
  coord_wf c' /\ console_wf k' /\ con_tty k' = con_tty k /\
  exists raw, stream c k = raw ++ stream c' k' /\
    mem_read (cmem c') buf (Z.to_nat rc) = handed k raw.
Proof.
  intros Hwf Hk Hlen. unfold lxp_console_read. cbv zeta.
  rewrite (proj2 (Z.eqb_neq len 0)) by lia. cbn [negb andb].
  destruct (Z.eqb_spec (ta_count k) 0) as [Hc0|Hc0]; cbn [negb].
  - destruct (p_read_fn (cproc c slot) =? 0).
    { split; [done|]. split; [done|]. split; [done|]. by exists []. }
    pose proof (read_input (p_read_fn (cproc c slot)) (c_h c) (p_io_ctx (cproc c slot)) fd len Hlen) as Hr.
    destruct (call_read cons _ _ _ _ _) as [[rc bs] h].
    assert (Ht : typed k = []) by (unfold typed; by rewrite Hc0).
    assert (Hs : stream c k = input (c_h c)) by (unfold stream; by rewrite Ht).
    destruct Hr as (Hi & _ & Hrc). pose proof (input_bytes (c_h c)) as Hb. rewrite Hi in Hb. apply Forall_app in Hb as [Hb _].
    assert (Hst : forall m, stream c k = bs ++ stream (set_cmem (set_c_h c h) m) k) by (intros; rewrite Hs; unfold stream; by rewrite Ht).
    destruct (Z.eqb_spec rc 1) as [E1|E1]; split_and!; try done; exists bs; (split; [apply Hst|]).
    + destruct bs as [|x [|y bs]]; [destruct Hrc as [[_ ?]|Hrc]; [lia|unfold alen in Hrc; simpl in Hrc; lia]| |
        destruct Hrc as [[? _]|Hrc]; [done|unfold alen in Hrc; simpl in Hrc; lia]].
      subst rc. apply Forall_cons in Hb as [Hx _]. by apply mem_read_xlated.
    + assert (Hn : Z.to_nat rc = length bs) by (destruct Hrc as [[-> ?]| ->]; unfold alen; simpl; lia).
      rewrite Hn. unfold cmem, set_cmem. cbn [c_rt set_c_rt set_rt_mem rt_mem]. rewrite mem_read_write_same, map_u8_bytes by done.
      destruct bs as [|x [|y bs]]; [done| |done]. destruct Hrc as [[? _]|Hrc]; [done|]. done.
  - rewrite Z.eqb_refl. destruct (typed_pop k Hk Hc0) as (Hk2 & Ht).
    split; [done|]. split; [exact Hk2|]. split; [done|].
    exists [aget 0 (ta_buf k) (ta_head k)]. unfold stream. rewrite Ht. split; [done|]. apply (mem_read_xlated k).
    destruct Hk as (Hl & Hh & _ & Hb). apply (Forall_aget (fun x => 0 <= x < 256) 0 _ _ Hb). lia.
Qed.

(** *** Runs *)

Lemma con_step_spec c k o :
  coord_wf c -> console_wf k -> op_ok o ->
  let '(out, c', k') := con_step c k o in
  coord_wf c' /\ console_wf k' /\ con_tty k' = con_tty k /\
  exists raw, out = handed k raw /\ only_signals k (stream c k) (raw ++ stream c' k').
Proof.
  intros Hwf Hk Hok. destruct o as [|slot fd buf len]; cbn [con_step op_ok] in *.
  - pose proof (check_step c k Hwf Hk) as Hs. destruct (lxp_console_poll_interrupts core cons c k) as [[b c'] k'].
    destruct Hs as (? & ? & ? & ?). split_and!; try done. by exists [].
  - pose proof (read_step c k slot fd buf len Hwf Hk Hok) as Hs.
    destruct (lxp_console_read cons c k slot fd buf len) as [[rc c'] k'].
    destruct Hs as (? & ? & ? & raw & Hst & Ho). split_and!; try done. exists raw. split; [exact Ho|]. by rewrite Hst.
Qed.

Lemma only_signals_tty k k' s s' : con_tty k = con_tty k' -> only_signals k s s' -> only_signals k' s s'.
Proof.
  intros E (Hs & Hf). split; [done|]. rewrite !(filter_ext_in (ordinary k') (ordinary k)); [done| |];
    intros x _; unfold ordinary; by rewrite E.
Qed.

Lemma con_run_spec os : forall c k,
  coord_wf c -> console_wf k -> Forall op_ok os ->
  let '(out, c', k') := con_run c k os in
  coord_wf c' /\ console_wf k' /\ con_tty k' = con_tty k /\
  exists raws, out = concat (map (handed k) raws) /\ only_signals k (stream c k) (concat raws ++ stream c' k').
Proof.
  induction os as [|o os IH]; intros c k Hwf Hk Hok; cbn [con_run].
  { split_and!; try done. by exists []. }
  apply Forall_cons in Hok as [Ho Hok].
  pose proof (con_step_spec c k o Hwf Hk Ho) as H1. destruct (con_step c k o) as [[out c1] k1].
  destruct H1 as (Hw1 & Hk1 & Ht1 & raw & -> & Hs1).
  pose proof (IH c1 k1 Hw1 Hk1 Hok) as H2. destruct (con_run c1 k1 os) as [[out' c2] k2].
  destruct H2 as (Hw2 & Hk2 & Ht2 & raws & -> & Hs2). split_and!; try done; [by rewrite Ht2|].
  exists (raw :: raws). cbn [map concat]. split.
  { do 2 f_equal. apply map_ext. intros l. unfold handed, lxp_console_input_xlate. by rewrite Ht1. }
  apply (only_signals_tty k1 k) in Hs2 as (Hl & Hf); [|done]. destruct Hs1 as (Hl1 & Hf1). rewrite <- app_assoc. split.
  - etransitivity; [|exact Hl1]. by apply sublist_app.
  - rewrite filter_app, Hf, <- filter_app. exact Hf1.
Qed.
End Stream.


(** A signal character that is already waiting when a guest calls read is handed over as
    data: a call that returns any bytes returns it first and latches no signal, although ISIG
    is set and the same byte interrupts a guest that was already blocked in the read. *)
Theorem console_read_passes_interrupt {H} (core : os_core H) (cons : os_console H) {T : Transport core cons}
    (now : option Z) (c : coord H) k slot s buf len x rest :
  p_read_fn (cproc c slot) <> 0 -> 0 < len -> ofd_file_idx s = 0 -> ta_count k = 0 ->
  (p_console_poll (cproc c slot) <> 0 ->
     0 < (call_poll cons (p_console_poll (cproc c slot)) (c_h c) (p_io_ctx (cproc c slot))).1) ->
  input (c_h c) = x :: rest -> lxp_tty_signal_for (con_tty k) x = LXP_SIGINT ->
  let '(rc, c', k') := fop_read_console cons now c k slot s buf len in
  rt_slots (c_rt c') = rt_slots (c_rt c) /\
  (0 < rc -> load8 (cmem c') buf = if rc =? 1 then lxp_console_input_xlate k x else x).
Proof.
  intros Hrd Hlen Hidx Hta Hpoll Hin Hsig. unfold fop_read_console. rewrite Hidx. cbn [Z.eqb].
  rewrite (proj2 (Z.eqb_neq (p_read_fn _) 0)) by done.
  assert (Hready : exists h, input h = input (c_h c) /\
    (if p_console_poll (cproc c slot) =? 0 then (true, c) else lxp_console_input_ready cons c k slot) = (true, set_c_h c h)).
  { destruct (Z.eqb_spec (p_console_poll (cproc c slot)) 0) as [E|E]; [exists (c_h c); by destruct c|].
    unfold lxp_console_input_ready. rewrite Hta. cbn [negb Z.eqb]. rewrite (proj2 (Z.eqb_neq _ _) E).
    specialize (Hpoll E). pose proof (poll_input (p_console_poll (cproc c slot)) (c_h c) (p_io_ctx (cproc c slot))) as Hp.
    destruct (call_poll _ _ _ _) as [r h]. cbn [fst snd] in *. exists h. split; [done|].
    by rewrite (proj2 (Z.gtb_lt r 0)). }
  destruct Hready as (h & Hh & ->). cbn [negb]. unfold lxp_console_read. cbv zeta.
  rewrite (proj2 (Z.eqb_neq len 0)) by lia. rewrite Hta. cbn [negb andb Z.eqb].
  change (cproc (set_c_h c h) slot) with (cproc c slot). rewrite (proj2 (Z.eqb_neq (p_read_fn _) 0)) by done.
  pose proof (read_input (p_read_fn (cproc c slot)) h (p_io_ctx (cproc c slot)) 0 len Hlen) as Hr.
  cbn [c_h set_c_h]. destruct (call_read cons _ _ _ _ _) as [[rc bs] h']. rewrite Hh, Hin in Hr.
  destruct Hr as (Hi & _ & Hrc). pose proof (input_bytes (c_h c)) as Hb. rewrite Hin in Hb. apply Forall_cons in Hb as [Hx _].
  destruct bs as [|y bs].
  { assert (rc <= 0) by (destruct Hrc as [[_ ?]| ->]; [done|unfold alen; simpl; lia]).
    rewrite (proj2 (Z.eqb_neq rc 1)) by lia. split; [done|lia]. }
  injection Hi as <- _. destruct (rc =? 1) eqn:E1; (split; [done|]); intros _; rewrite E1; unfold cmem, set_cmem; cbn [c_rt set_c_rt set_rt_mem rt_mem];
    rewrite !load8_write_head; [by apply xlate_byte|by apply u8_small].
Qed.

(** ** Settings *)

Lemma bytes32_le_val a b c d :
  Forall (fun x => 0 <= x < 256) [a; b; c; d] -> bytes32 (le_val [a; b; c; d]) = [a; b; c; d].
Proof.
  intros Hb. repeat (apply Forall_cons in Hb as [? Hb]). unfold bytes32, le_val, u8.
  repeat match goal with |- _ :: _ = _ :: _ => f_equal end; lia.
Qed.

Lemma termios_of_bytes bs :
  alen bs = termios_size -> Forall (fun x => 0 <= x < 256) bs -> termios_bytes (termios_of bs) = bs.
Proof.
  intros Hl Hb. unfold alen, termios_size, LXP_NCCS in Hl.
  do 17 (destruct bs as [|? bs]; [cbn in Hl; lia|]).
  unfold termios_bytes, termios_of, word, aget. cbn [c_iflag c_oflag c_cflag c_lflag c_line c_cc take drop Nat.mul Nat.add nth Z.to_nat Pos.to_nat Pos.iter_op].
  repeat (apply Forall_cons in Hb as [? Hb]).
  rewrite !bytes32_le_val by (repeat constructor; lia). done.
Qed.

(** Terminal settings survive the round trip.  TCSETS from one guest buffer followed by
    TCGETS into another, both accessible, writes exactly the bytes the first call read, and
    an inaccessible buffer leaves the settings as they were. *)
Theorem tty_settings_roundtrip G m p tty src dst :
  0 <= src < 2 ^ 32 -> 0 <= dst < 2 ^ 32 ->
  let '(rc, m1, tty1) := lxp_tty_ioctl G m p tty LXP_TCSETS src in
  m1 = m /\
  if lxp_guest_access_ok G p src termios_size false
  then rc = 0 /\
    (lxp_guest_access_ok G p dst termios_size true = true ->
     let '(rc2, m2, tty2) := lxp_tty_ioctl G m1 p tty1 LXP_TCGETS dst in
     rc2 = 0 /\ tty2 = tty1 /\ mem_read m2 dst (Z.to_nat termios_size) = mem_read m src (Z.to_nat termios_size))
  else rc = - LXP_EFAULT /\ tty1 = tty.
Proof.
  intros Hs Hd. unfold lxp_tty_ioctl at 1. rewrite (u32_small src) by done. cbn [Z.eqb LXP_TCGETS LXP_TCSETS Pos.eqb orb].
  unfold lxp_copy_from_guest. destruct (lxp_guest_access_ok G p src termios_size false); cbn [negb]; [|done].
  split; [done|]. split; [done|]. intros Hacc. unfold lxp_tty_ioctl. rewrite (u32_small dst) by done.
  cbn [Z.eqb LXP_TCGETS Pos.eqb tty_termios set_tty_termios].
  set (bs := mem_read m src (Z.to_nat termios_size)).
  assert (Hl : alen bs = termios_size) by (unfold alen, bs; by rewrite length_mem_read).
  assert (Hb : Forall (fun x => 0 <= x < 256) bs).
  { unfold bs. rewrite <- map_u8_mem_read. apply Forall_forall. intros x Hx%list_elem_of_fmap.
    destruct Hx as (y & -> & _). apply u8_range. }
  rewrite termios_of_bytes by done. unfold lxp_copy_to_guest. rewrite Hl, Hacc. cbn [negb].
  split; [done|]. split; [done|].
  replace (Z.to_nat termios_size) with (length bs) by (unfold alen in Hl; lia).
  rewrite mem_read_write_same. unfold bs. apply map_u8_mem_read.
Qed.

(** ** Witnesses *)

(** A transport that is a list of keystrokes, as many at a time as are asked for. *)
Definition demo_tcore : os_core (list Z) := mk_os_core (Some id) None 0.
Definition demo_cons : os_console (list Z) :=
  mk_os_console (fun _ h _ => (match h with [] => 0 | _ => 1 end, h))
    (fun _ h _ _ len => let bs := map u8 (take (Z.to_nat len) h) in (alen bs, bs, drop (Z.to_nat len) h))
    (fun _ h _ _ bs => (alen bs, h)) (fun h n => (LXP_OK, replicate (Z.to_nat n) 0, h)) (Some (1, 1, 0)).

#[export] Instance demo_transport : Transport demo_tcore demo_cons.
Proof.
  refine {| input := map u8 |}.
  - intros h. apply Forall_forall. intros x Hx%list_elem_of_fmap. destruct Hx as (y & -> & _). apply u8_range.
  - intros g h [= <-]. done.
  - done.
  - intros fn h ctx fd len Hlen. cbn [call_read demo_cons]. split_and!.
    + by rewrite <- map_app, take_drop.
    + unfold alen. rewrite length_map, length_take. lia.
    + by right.
Defined.

Definition demo_console : console := mk_console LXP_TTY_DEFAULTS (replicate 64 0) 63 0.
Definition demo_typing : coord (list Z) :=
  mk_coord [97; 3; 13; 98] (put_proc demo_rt 0 (set_p_read_fn demo_proc 1)) (replicate 12 stack_zero).

Lemma demo_typing_wf : coord_wf demo_typing.
Proof. by apply fresh_saves_wf. Qed.
Lemma demo_console_wf : console_wf demo_console.
Proof. repeat split; try (vm_compute; congruence). apply Forall_replicate. lia. Qed.

(** Two checks (the second eats ^C), then a read from the typeahead and one of two bytes. *)
Definition demo_con_ops : list con_op := [OpCheck; OpCheck; OpRead 0 0 0x20000200 8; OpRead 0 0 0x20000200 8].

(** A read that gets several bytes at once leaves their carriage returns alone, although ICRNL
    is set and the same bytes one at a time are mapped. *)
Lemma burst_read_keeps_cr :
  (con_run demo_tcore demo_cons (set_c_h demo_typing [13; 98]) demo_console [OpRead 0 0 0x20000200 8]).1.1 = [13; 98] /\
  (con_run demo_tcore demo_cons (set_c_h demo_typing [13; 98]) demo_console [OpRead 0 0 0x20000200 1; OpRead 0 0 0x20000200 1]).1.1 = [10; 98].
Proof. split; vm_compute; reflexivity. Qed.

Lemma pair3_eta {A B C} (r : A * B * C) : r = (r.1.1, r.1.2, r.2).
Proof. by destruct r as [[? ?] ?]. Qed.


Definition demo_stdin : lxp_ofd := ofd_zero.

(** ^C typed before the read: one byte, value 3. *)
Lemma console_read_passes_interrupt_witness :
  let r := fop_read_console demo_cons None (set_c_h demo_typing [3]) demo_console 0 demo_stdin 0x20000200 1 in
  0 < r.1.1 /\ rt_slots (c_rt r.1.2) = rt_slots (c_rt demo_typing).
Proof.
  intros r. split; [vm_compute; reflexivity|].
  pose proof (console_read_passes_interrupt demo_tcore demo_cons None (set_c_h demo_typing [3]) demo_console 0
    demo_stdin 0x20000200 1 3 [] ltac:(vm_compute; congruence) ltac:(lia) eq_refl eq_refl
    ltac:(intros Hn; exfalso; apply Hn; vm_compute; reflexivity) eq_refl eq_refl) as Hp.
  revert Hp. fold r. destruct r as [[rc c'] k']. intros [Hs _]. exact Hs.
Defined.

Lemma tty_settings_roundtrip_witness :
  (lxp_tty_ioctl demo_genv (fun a => a mod 7) 0 LXP_TTY_DEFAULTS LXP_TCSETS 4352).1.1 = 0.
Proof.
  pose proof (tty_settings_roundtrip demo_genv (fun a => a mod 7) 0 LXP_TTY_DEFAULTS 4352 4608
    ltac:(lia) ltac:(lia)) as Hp.
  revert Hp. generalize (lxp_tty_ioctl demo_genv (fun a => a mod 7) 0 LXP_TTY_DEFAULTS LXP_TCSETS 4352).
  intros [[rc m1] t1] (_ & Hr).
  assert (Ha : lxp_guest_access_ok demo_genv 0 4352 termios_size false = true) by (vm_compute; reflexivity).
  rewrite Ha in Hr. apply Hr.
Defined.
