(* ===== verification/Blocked.v ===== *)
(** * The blocked-slot scan (src/run/lxp_blocked.c)

    When no event is pending the coordinator scans the parked tasks once: it lets stopped
    tasks go on or die, delivers signals, raises alarms, and retries the parked operations
    of one service class, chosen by a weighted schedule with aging.  Pipes, the console,
    timers, futexes and device windows are retried here; the other providers' retries are
    the operations of [blocked_ops]. *)

From S2P Require Import Prelude Config Errno Proc Pool Fd Guest Wait Pipe Arena Process Runtime Event Region Lifecycle.
From S2P Require Import Signal SysSignal Child SignalRoute Exit Console.
Local Open Scope Z_scope.

(** ** Service classes *)

Inductive lxp_service_class := LXP_SERVICE_FS | LXP_SERVICE_SOCKET | LXP_SERVICE_CONSOLE | LXP_SERVICE_ORDINARY.
#[export] Instance service_class_eq_dec : EqDecision lxp_service_class.
Proof. solve_decision. Defined.

(** The class as the code's array index. *)
Definition class_index (k : lxp_service_class) : Z :=
  match k with LXP_SERVICE_FS => 0 | LXP_SERVICE_SOCKET => 1 | LXP_SERVICE_CONSOLE => 2 | LXP_SERVICE_ORDINARY => 3 end.
Definition classes : list lxp_service_class :=
  [LXP_SERVICE_FS; LXP_SERVICE_SOCKET; LXP_SERVICE_CONSOLE; LXP_SERVICE_ORDINARY].

Definition LXP_SERVICE_AGING_US : Z := 20000.

Definition g_service_schedule : list lxp_service_class :=
  [LXP_SERVICE_FS; LXP_SERVICE_FS; LXP_SERVICE_FS; LXP_SERVICE_FS;
   LXP_SERVICE_SOCKET; LXP_SERVICE_SOCKET; LXP_SERVICE_SOCKET; LXP_SERVICE_CONSOLE;
   LXP_SERVICE_CONSOLE; LXP_SERVICE_ORDINARY].
Definition SCHEDULE : Z := 10.

Record lxp_service_fairness := mk_fair { sf_cursor : Z; sf_slot_cursor : list Z }.

Definition lxp_wait_service_class (kind : lxp_wait_kind) : option lxp_service_class :=
  match kind with
  | LXP_WAIT_HOSTFS => Some LXP_SERVICE_FS
  | LXP_WAIT_SOCKET | LXP_WAIT_POLL => Some LXP_SERVICE_SOCKET
  | LXP_WAIT_CONSOLE => Some LXP_SERVICE_CONSOLE
  | LXP_WAIT_TIMER | LXP_WAIT_FUTEX | LXP_WAIT_PIPE | LXP_WAIT_DEVICE | LXP_WAIT_NETFS | LXP_WAIT_PTY =>
      Some LXP_SERVICE_ORDINARY
  | _ => None
  end.

(** Pending classes with the time of their oldest request. *)
Definition pending_classes : Type := lxp_service_class -> option Z.

(** [now - oldest] is at least the aging bound. *)
Definition is_aged (p : pending_classes) (now : Z) (k : lxp_service_class) : bool :=
  match p k with Some t => (t <=? now) && (now - t >=? LXP_SERVICE_AGING_US) | None => false end.
Definition is_pending (p : pending_classes) (k : lxp_service_class) : bool := match p k with Some _ => true | None => false end.

(** The walk over the schedule, [n] entries left; the class and the cursor. *)
Fixpoint schedule_walk (eligible : lxp_service_class -> bool) (n : nat) (cursor : Z) : option lxp_service_class * Z :=
  match n with
  | O => (None, cursor)
  | S n => let k := aget LXP_SERVICE_FS g_service_schedule cursor in
           let cursor := u8 ((cursor + 1) mod SCHEDULE) in
           if eligible k then (Some k, cursor) else schedule_walk eligible n cursor
  end.

(** [hint] is the one-shot file-system completion flag; the class, the cursor and the flag. *)
Definition lxp_blocked_service_select (p : pending_classes) (now : Z) (hint : bool) (cursor : Z)
    : option lxp_service_class * Z * bool :=
  if is_pending p LXP_SERVICE_FS && hint then (Some LXP_SERVICE_FS, cursor, false)
  else
    let hint := if is_pending p LXP_SERVICE_FS then false else hint in
    let any_aged := existsb (is_aged p now) classes in
    (schedule_walk (if any_aged then is_aged p now else is_pending p) (Z.to_nat SCHEDULE) cursor, hint).

Definition LXP_BLOCKED_WAIT_POLL : Z := 1.
Definition LXP_BLOCKED_WAIT_SOCKET : Z := 2.
Definition LXP_BLOCKED_WAIT_CONSOLE : Z := 4.

Definition lxp_blocked_wait_policy (kind : lxp_wait_kind) : Z :=
  match kind with
  | LXP_WAIT_PIPE | LXP_WAIT_DEVICE | LXP_WAIT_NETFS | LXP_WAIT_PTY | LXP_WAIT_FUTEX => LXP_BLOCKED_WAIT_POLL
  | LXP_WAIT_CONSOLE => LXP_BLOCKED_WAIT_CONSOLE
  | LXP_WAIT_SOCKET | LXP_WAIT_POLL => LXP_BLOCKED_WAIT_SOCKET
  | _ => 0
  end.

(** How long the coordinator may sleep (src/lxp_run.c). *)
Definition lxp_coordinator_wait_timeout (wait_policy : Z) (socket_ready_events console_ready_events : bool) : Z :=
  let socket_poll := negb (Z.land wait_policy LXP_BLOCKED_WAIT_SOCKET =? 0) && negb socket_ready_events in
  let console_poll := negb (Z.land wait_policy LXP_BLOCKED_WAIT_CONSOLE =? 0) && negb console_ready_events in
  if negb (Z.land wait_policy LXP_BLOCKED_WAIT_POLL =? 0) || socket_poll || console_poll then 5 else 50.

(** What a scan reports to the coordinator's loop. *)
Record lxp_blocked_scan := mk_scan {
  sc_next_deadline_us : Z; sc_wait_policy : Z; sc_progress : bool; sc_any_alive : bool; sc_any_busy : bool;
}.
Definition scan_init : lxp_blocked_scan := mk_scan UINT64_MAX 0 false false false.
Definition set_sc_deadline s v := mk_scan v (sc_wait_policy s) (sc_progress s) (sc_any_alive s) (sc_any_busy s).
Definition set_sc_policy s v := mk_scan (sc_next_deadline_us s) v (sc_progress s) (sc_any_alive s) (sc_any_busy s).
Definition set_sc_progress s := mk_scan (sc_next_deadline_us s) (sc_wait_policy s) true (sc_any_alive s) (sc_any_busy s).
Definition set_sc_alive s := mk_scan (sc_next_deadline_us s) (sc_wait_policy s) (sc_progress s) true (sc_any_busy s).
Definition set_sc_busy s := mk_scan (sc_next_deadline_us s) (sc_wait_policy s) (sc_progress s) (sc_any_alive s) true.

Definition lxp_blocked_note_deadline (s : lxp_blocked_scan) (deadline : Z) : lxp_blocked_scan :=
  if negb (deadline =? 0) && (deadline <? sc_next_deadline_us s) then set_sc_deadline s deadline else s.

(** The milliseconds the run loop sleeps after a scan without progress (src/lxp_run.c). *)
Definition coordinator_sleep_ms (now : Z) (s : lxp_blocked_scan) (socket_ready_events console_ready_events : bool) : Z :=
  let to := lxp_coordinator_wait_timeout (sc_wait_policy s) socket_ready_events console_ready_events in
  if negb (sc_next_deadline_us s =? UINT64_MAX) && (sc_next_deadline_us s >? now)
  then let d_ms := u64 (sc_next_deadline_us s - now + 999) / 1000 in
       let d_ms := if d_ms <? 1 then 1 else d_ms in
       if d_ms <? to then d_ms else to
  else to.

(** ** One task *)

(** The loop's scan for a signal that ends the task. *)
Definition is_fatal (p : lxp_proc) (sh : option lxp_sighand) (sig : Z) : bool :=
  if negb (has (p_pending_sigs p) (lxp_sig_bit sig)) || lxp_sig_blocked p sig then false
  else (sig =? LXP_SIGKILL) ||
       ((lxp_sig_handler_get sh sig =? LXP_SIG_DFL) && negb (lxp_sig_default_ignore sig) && negb (lxp_sig_is_stop sig)).
Definition lxp_blocked_pending_fatal (p : lxp_proc) (sh : option lxp_sighand) : Z :=
  default 0 (head (filter (fun sig => is_fatal p sh sig = true) (seqZ 1 (LXP_NSIG - 1)))).

Definition lxp_blocked_clear_stop (p : lxp_proc) : lxp_proc :=
  set_p_stop_r0 (set_p_stop_sig (set_p_stop_kind (set_p_stopped p 0) LXP_STOP_NONE) 0) 0.

Definition lxp_blocked_interrupted_result (kind : lxp_wait_kind) : Z :=
  match kind with
  | LXP_WAIT_CHILD | LXP_WAIT_PIPE | LXP_WAIT_CONSOLE | LXP_WAIT_DEVICE | LXP_WAIT_SOCKET | LXP_WAIT_NETFS
  | LXP_WAIT_HOSTFS | LXP_WAIT_PTY => - LXP_ERESTARTSYS
  | _ => - LXP_EINTR
  end.

Definition is_caught (handler : Z) : bool := negb (handler =? LXP_SIG_DFL) && negb (handler =? LXP_SIG_IGN).

Definition clear_pending (p : lxp_proc) (sig : Z) : lxp_proc :=
  set_p_pending_sigs p (Z.land (p_pending_sigs p) (Z.lnot (lxp_sig_bit sig))).

(** ** The store and the providers *)

(** The retries and cancellations of the providers outside this file, with their state. *)
Record blocked_ops (H X : Type) := mk_blocked_ops {
  dev_retry : X -> coord H -> Z -> Z * X * coord H;
  sock_retry : X -> coord H -> Z -> Z * X * coord H;
  poll_retry : X -> coord H -> Z -> Z * X * coord H;
  netfs_retry : X -> coord H -> Z -> Z * X * coord H;
  pty_retry : X -> coord H -> Z -> Z * X * coord H;
  bo_syscall : X -> coord H -> Z -> Z -> list Z -> Z * X * coord H;
  dev_cancel : X -> coord H -> Z -> X * coord H;
  netfs_cancel : X -> coord H -> Z -> X * coord H;
  hostfs_cancel : X -> coord H -> Z -> X * coord H;
  dev_defer_caught_signal : X -> lxp_proc -> bool;
}.
Arguments mk_blocked_ops {H X}.
Arguments dev_retry {H X}.
Arguments sock_retry {H X}.
Arguments poll_retry {H X}.
Arguments netfs_retry {H X}.
Arguments pty_retry {H X}.
Arguments bo_syscall {H X}.
Arguments dev_cancel {H X}.
Arguments netfs_cancel {H X}.
Arguments hostfs_cancel {H X}.
Arguments dev_defer_caught_signal {H X}.

(** The coordinator's state during a scan: the store, the pipes, the console, the
    round-robin state, the completion flag and the providers. *)
Record bstate (H X : Type) := mk_bstate {
  bs_c : coord H; bs_pipes : list lxp_pipe; bs_con : console; bs_fair : lxp_service_fairness;
  bs_fs_ready : bool; bs_x : X;
}.
Arguments mk_bstate {H X}.
Arguments bs_c {H X}.
Arguments bs_pipes {H X}.
Arguments bs_con {H X}.
Arguments bs_fair {H X}.
Arguments bs_fs_ready {H X}.
Arguments bs_x {H X}.

Section Blocked.
Context {H X : Type} (ops : os_task H) (core : os_core H) (cons : os_console H) (mops : os_memory H) (bops : blocked_ops H X).
Implicit Types (c : coord H) (b : bstate H X) (s : lxp_blocked_scan).

Definition set_bs_c b c : bstate H X := mk_bstate c (bs_pipes b) (bs_con b) (bs_fair b) (bs_fs_ready b) (bs_x b).
Definition set_bs_pipes b v : bstate H X := mk_bstate (bs_c b) v (bs_con b) (bs_fair b) (bs_fs_ready b) (bs_x b).
Definition set_bs_con b v : bstate H X := mk_bstate (bs_c b) (bs_pipes b) v (bs_fair b) (bs_fs_ready b) (bs_x b).
Definition set_bs_fair b v : bstate H X := mk_bstate (bs_c b) (bs_pipes b) (bs_con b) v (bs_fs_ready b) (bs_x b).
Definition set_bs_fs_ready b v : bstate H X := mk_bstate (bs_c b) (bs_pipes b) (bs_con b) (bs_fair b) v (bs_x b).
Definition set_bs_x b v : bstate H X := mk_bstate (bs_c b) (bs_pipes b) (bs_con b) (bs_fair b) (bs_fs_ready b) v.

Definition bproc b (slot : Z) : lxp_proc := cproc (bs_c b) slot.
Definition put_bproc b (slot : Z) (p : lxp_proc) : bstate H X := set_bs_c b (put_cproc (bs_c b) slot p).
Definition bsighand b (slot : Z) : option lxp_sighand := sighand_of (bs_c b) (bproc b slot).
Definition brunnable b (slot : Z) : bool := lxp_slot_runnable_load (c_rt (bs_c b)) slot.
Definition bmark b (slot : Z) : bstate H X := set_bs_c b (set_c_rt (bs_c b) (lxp_primary_slot_mark (c_rt (bs_c b)) slot)).

Definition lxp_blocked_fair_reset b : bstate H X := set_bs_fs_ready (set_bs_fair b (mk_fair 0 [0; 0; 0; 0])) false.

(** [lxp_coordinator_complete_slot(lxp_slot_ref_at(slot), rc)]. *)
Definition bcomplete b (slot rc : Z) : bstate H X :=
  let c := bs_c b in
  set_bs_c b (lift c (lxp_coordinator_complete_slot ops (c_h c) (c_rt c) (lxp_slot_ref_at (c_rt c) slot) rc)).

(** *** Views (src/lxp_run.c) *)

Definition lxp_guest_view_failure c (slot rc : Z) : coord H :=
  if negb (slot_in slot) || (p_alive (cproc c slot) =? 0) then c
  else set_c_rt c (lxp_coordinator_exit_slot (c_rt c) slot 0 127 LXP_EXIT_REASON_STATE_CORRUPTION (u32 (- rc))).

Definition lxp_coordinator_guest_view_begin c (slot vid : Z) : Z * coord H :=
  let ref := lxp_slot_ref_at (c_rt c) slot in
  match lxp_slot_ref_is_current (c_rt c) ref, mm_of (c_rt c) (cproc c slot) with
  | true, Some mm =>
      let ridx := ref_index (mm_region mm) in
      let c := match coord_map mops with
               | Some g => if ridx >=? 0 then set_c_h c (g (c_h c) ridx) else c
               | None => c
               end in
      let '(rc, G) := lxp_guest_view_begin (rt_genv (c_rt c)) slot ref (Some slot) LXP_GUEST_READ_WRITE vid in
      (rc, set_c_rt c (rt_put_genv (c_rt c) G))
  | _, _ => (- LXP_ESRCH, c)
  end.

Definition view_end b (vid : Z) : bstate H X :=
  set_bs_c b (set_c_rt (bs_c b) (rt_put_genv (c_rt (bs_c b)) (lxp_guest_view_end (rt_genv (c_rt (bs_c b))) vid))).

(** *** Interruption *)

Definition lxp_blocked_interrupt_wait b (slot : Z) : bstate H X :=
  let kind := w_kind (p_wait (bproc b slot)) in
  let cancel := match kind with
                | LXP_WAIT_DEVICE => Some (dev_cancel bops)
                | LXP_WAIT_NETFS => Some (netfs_cancel bops)
                | LXP_WAIT_HOSTFS => Some (hostfs_cancel bops)
                | _ => None
                end in
  let b := match cancel with
           | Some f => let '(x, c) := f (bs_x b) (bs_c b) slot in set_bs_x (set_bs_c b c) x
           | None => b
           end in
  put_bproc b slot (lxp_wait_interrupt (bproc b slot) kind).2.

Definition lxp_blocked_defer_stateful_signal b (slot sig : Z) : bool :=
  (bool_decide (w_kind (p_wait (bproc b slot)) = LXP_WAIT_HOSTFS) || dev_defer_caught_signal bops (bs_x b) (bproc b slot)) &&
  is_caught (lxp_sig_handler_get (bsighand b slot) sig).

(** Interruption of the wait, then delivery with its result. *)
Definition interrupt_and_deliver b (slot sig : Z) : bstate H X :=
  let ret := lxp_blocked_interrupted_result (w_kind (p_wait (bproc b slot))) in
  let b := lxp_blocked_interrupt_wait b slot in
  set_bs_c b (lxp_deliver_signal_parked ops (bs_c b) slot sig ret).

(** *** Stopped tasks *)

Definition stopped_continue b (slot : Z) : bstate H X :=
  let p := bproc b slot in
  let ready := p_stop_kind p =? LXP_STOP_READY in
  let typed_wait := bool_decide (w_kind (p_wait p) <> LXP_WAIT_NONE) in
  let stop_r0 := p_stop_r0 p in
  let caught := is_caught (lxp_sig_handler_get (bsighand b slot) LXP_SIGCONT) in
  let blocked := caught && lxp_sig_blocked p LXP_SIGCONT in
  let defer_stateful := caught && negb blocked && typed_wait && lxp_blocked_defer_stateful_signal b slot LXP_SIGCONT in
  let can_deliver := caught && negb blocked && (ready || typed_wait) && negb defer_stateful in
  let p := if negb caught || can_deliver then clear_pending p LXP_SIGCONT else p in
  let b := put_bproc b slot (lxp_blocked_clear_stop p) in
  if can_deliver
  then if negb ready then interrupt_and_deliver b slot LXP_SIGCONT
       else set_bs_c b (lxp_deliver_signal_parked ops (bs_c b) slot LXP_SIGCONT stop_r0)
  else if ready
  then match mm_of (c_rt (bs_c b)) (bproc b slot) with
       | Some mm => set_bs_c b (lift (bs_c b)
                      (lxp_coordinator_resume_slot ops (c_h (bs_c b)) (c_rt (bs_c b)) slot (ref_index (mm_region mm))
                         (lxp_slot_resume_view (c_rt (bs_c b)) (lxp_slot_ref_at (c_rt (bs_c b)) slot)) stop_r0))
       | None => b
       end
  else b.

(** Whether the caller must skip the rest of the slot's policy. *)
Definition lxp_blocked_handle_stopped b (slot : Z) s : bool * bstate H X * lxp_blocked_scan :=
  if p_stopped (bproc b slot) =? 0 then (false, b, s)
  else
    let s := set_sc_busy s in
    let fatal := lxp_blocked_pending_fatal (bproc b slot) (bsighand b slot) in
    if negb (fatal =? 0)
    then let p := lxp_blocked_clear_stop (clear_pending (bproc b slot) fatal) in
         let b := put_bproc b slot (lxp_signal_terminate p fatal LXP_EXIT_REASON_SIGNAL 0 0) in
         (true, bmark b slot, set_sc_progress s)
    else if has (p_pending_sigs (bproc b slot)) (lxp_sig_bit LXP_SIGCONT)
    then (true, stopped_continue b slot, set_sc_progress s)
    else (true, b, s).

(** *** Signals of parked tasks *)

Definition lxp_blocked_handle_signal b (slot : Z) s : bool * bstate H X * lxp_blocked_scan :=
  let sig := if negb (brunnable b slot) then lxp_pending_deliverable (bproc b slot) else 0 in
  if negb (sig =? 0) && lxp_sig_stops_proc (bsighand b slot) sig
  then
    let p := clear_pending (bproc b slot) sig in
    let p := set_p_stop_r0 (set_p_stop_sig (set_p_stop_kind (set_p_stopped p 1) LXP_STOP_PARKED) (u8 sig)) 0 in
    let b := put_bproc b slot p in
    let ppid := match group_of (bs_c b) (bproc b slot) with Some g => tg_ppid g | None => 0 end in
    (true, set_bs_c b (lxp_notify_parent_stopped ops (bs_c b) ppid (p_pid (bproc b slot)) sig), set_sc_progress s)
  else if negb (sig =? 0) && bool_decide (w_kind (p_wait (bproc b slot)) <> LXP_WAIT_NONE)
  then
    if lxp_blocked_defer_stateful_signal b slot sig then (false, b, s)
    else
      let b := put_bproc b slot (clear_pending (bproc b slot) sig) in
      if negb (lxp_sig_swallowed (bsighand b slot) sig)
      then (false, interrupt_and_deliver b slot sig, set_sc_progress s)
      else (false, b, s)
  else (false, b, s).

(** *** Retries *)

(** The guard every retry starts with. *)
Definition waits_for b (slot : Z) (kind : lxp_wait_kind) : bool :=
  bool_decide (w_kind (p_wait (bproc b slot)) = kind) && negb (brunnable b slot).

Definition finish_wait b (slot : Z) (kind : lxp_wait_kind) : bstate H X :=
  put_bproc b slot (lxp_wait_complete (bproc b slot) kind).2.

Definition lxp_blocked_retry_timer (now : Z) b (slot : Z) s : bstate H X * lxp_blocked_scan :=
  if negb (waits_for b slot LXP_WAIT_TIMER) then (b, s)
  else
    let s := set_sc_busy s in
    let deadline := match w_data (p_wait (bproc b slot)) with WD_TIMER d => d | _ => 0 end in
    if now >=? deadline then (bcomplete (finish_wait b slot LXP_WAIT_TIMER) slot 0, set_sc_progress s)
    else (b, lxp_blocked_note_deadline s deadline).

(** The futex wait's deadline and mark. *)
Definition futex_state (w : lxp_wait) : Z * bool :=
  match w_data w with WD_FUTEX _ d woken => (d, woken) | _ => (0, false) end.

Definition lxp_blocked_retry_futex (now : Z) b (slot : Z) s : bstate H X * lxp_blocked_scan :=
  if negb (waits_for b slot LXP_WAIT_FUTEX) then (b, s)
  else
    let s := set_sc_busy s in
    let '(deadline, woken) := futex_state (p_wait (bproc b slot)) in
    if woken then (bcomplete (finish_wait b slot LXP_WAIT_FUTEX) slot 0, set_sc_progress s)
    else if negb (deadline =? 0) && (now >=? deadline)
    then (bcomplete (finish_wait b slot LXP_WAIT_FUTEX) slot (- LXP_ETIMEDOUT), set_sc_progress s)
    else (b, lxp_blocked_note_deadline s deadline).

Definition lxp_blocked_retry_pipe b (slot : Z) s : bstate H X * lxp_blocked_scan :=
  if negb (waits_for b slot LXP_WAIT_PIPE) then (b, s)
  else
    let '(rc, g, m) := lxp_pipe_retry (bs_pipes b) (cmem (bs_c b)) (bproc b slot) in
    let b := set_bs_pipes (set_bs_c b (set_cmem (bs_c b) m)) g in
    if rc =? - LXP_EAGAIN then (b, s)
    else
      let b := finish_wait b slot LXP_WAIT_PIPE in
      if (rc =? - LXP_EPIPE) && negb (lxp_sig_handler_get (bsighand b slot) LXP_SIGPIPE =? LXP_SIG_IGN)
      then let b := put_bproc b slot (lxp_signal_terminate (bproc b slot) LXP_SIGPIPE LXP_EXIT_REASON_SIGNAL 0 0) in
           (bmark b slot, set_sc_progress s)
      else (bcomplete b slot rc, set_sc_progress s).

(** The shape shared by the providers' retries: EAGAIN keeps the wait. *)
Definition retry_provider (kind : lxp_wait_kind) (op : X -> coord H -> Z -> Z * X * coord H) b (slot : Z) s
    : bstate H X * lxp_blocked_scan :=
  if negb (waits_for b slot kind) then (b, s)
  else
    let '(rc, x, c) := op (bs_x b) (bs_c b) slot in
    let b := set_bs_x (set_bs_c b c) x in
    if negb (rc =? - LXP_EAGAIN)
    then (bcomplete (finish_wait b slot kind) slot rc, set_sc_progress s) else (b, s).

Definition lxp_blocked_retry_socket := retry_provider LXP_WAIT_SOCKET (sock_retry bops).
Definition lxp_blocked_retry_poll := retry_provider LXP_WAIT_POLL (poll_retry bops).
Definition lxp_blocked_retry_pty := retry_provider LXP_WAIT_PTY (pty_retry bops).

(** *** Device windows (src/lxp_run.c) *)

Definition lxp_device_map_index c (p : lxp_proc) (addr len : Z) : Z :=
  match mm_of (c_rt c) p with
  | None => - LXP_EINVAL
  | Some mm =>
      if (len =? 0) || (addr >? UINTPTR_MAX - len) then - LXP_EINVAL
      else if aget 0 (mm_dev_map_lo mm) 0 =? addr then 0
      else if aget 0 (mm_dev_map_lo mm) 1 =? addr then 1
      else if aget 0 (mm_dev_map_lo mm) 0 =? 0 then 0
      else if aget 0 (mm_dev_map_lo mm) 1 =? 0 then 1
      else - LXP_ENOMEM
  end.

(** One window of [mm] in the task of [sidx]; whether the port accepted it. *)
Definition restore_one (g : H -> Z -> Z -> Z -> Z -> Z * H) (h : H) (sidx : Z) (mm : lxp_mm) (i : Z) : bool * H :=
  let lo := aget 0 (mm_dev_map_lo mm) i in
  let hi := aget 0 (mm_dev_map_hi mm) i in
  if hi <=? lo then (true, h)
  else let '(rc, h) := g h sidx lo (hi - lo) (aget 0 (mm_dev_map_attrs mm) i) in
       if negb (rc =? 0) then (false, (g h sidx 0 0 0).2) else (true, h).

Definition lxp_coordinator_restore_mm_maps (h : H) (sidx : Z) (mm : lxp_mm) : Z * H :=
  let has_maps := (aget 0 (mm_dev_map_hi mm) 0 >? aget 0 (mm_dev_map_lo mm) 0) ||
                  (aget 0 (mm_dev_map_hi mm) 1 >? aget 0 (mm_dev_map_lo mm) 1) in
  match map_device mops with
  | None => (if has_maps then - LXP_ENODEV else 0, h)
  | Some g =>
      let '(rc, h) := g h sidx 0 0 0 in
      if negb (rc =? 0) then (- LXP_ENOMEM, h)
      else let '(ok, h) := restore_one g h sidx mm 0 in
           if negb ok then (- LXP_ENOMEM, h)
           else let '(ok, h) := restore_one g h sidx mm 1 in
                (if ok then 0 else - LXP_ENOMEM, h)
  end.

Definition shares_mm c (mi s : Z) : bool := negb (p_alive (cproc c s) =? 0) && bool_decide (p_mm (cproc c s) = Some mi).

Fixpoint map_mm_loop (g : H -> Z -> Z -> Z -> Z -> Z * H) c (mi : Z) (mm : lxp_mm) (addr len attrs : Z) (slots : list Z) : Z * coord H :=
  match slots with
  | [] => (0, c)
  | s :: slots =>
      if negb (shares_mm c mi s) then map_mm_loop g c mi mm addr len attrs slots
      else let '(rc, h) := g (c_h c) s addr len attrs in
           let c := set_c_h c h in
           if negb (rc =? 0)
           then (- LXP_ENOMEM,
                 fold_left (fun c r => if shares_mm c mi r then set_c_h c (lxp_coordinator_restore_mm_maps (c_h c) r mm).2 else c)
                   (seqZ 0 LXP_NSLOT) c)
           else map_mm_loop g c mi mm addr len attrs slots
  end.

Definition lxp_coordinator_map_mm_range c (mi : Z) (mm : lxp_mm) (addr len attrs : Z) : Z * coord H :=
  match map_device mops with
  | None => (- LXP_ENODEV, c)
  | Some g => map_mm_loop g c mi mm addr len attrs (seqZ 0 LXP_NSLOT)
  end.

Definition LXP_DEVW_MMAP : Z := 4.

(** The window's record in the address space. *)
Definition commit_window (mm : lxp_mm) (map buffer length attrs : Z) : lxp_mm :=
  let g := u32 (mm_device_generation mm + 1) in
  mk_mm (mm_refs mm) (if g =? 0 then 1 else g) (mm_exec_generation mm) (mm_arena mm) (mm_brk_base mm)
    (mm_brk_cur mm) (mm_brk_max mm) (mm_region mm) (mm_region_lo mm) (mm_region_hi mm) (mm_pool_lo mm)
    (mm_pool_hi mm) (mm_is_dynamic mm) (mm_copied_text_executable mm) (mm_copied_text_base mm)
    (mm_copied_text_size mm) (aset (mm_dev_map_lo mm) map buffer)
    (aset (mm_dev_map_hi mm) map (u32 (buffer + length))) (aset (mm_dev_map_attrs mm) map attrs).

(** The result is a 32-bit [long]. *)
Definition retry_device_mmap b (slot : Z) s : bstate H X * lxp_blocked_scan :=
  match w_data (p_wait (bproc b slot)), p_mm (bproc b slot) with
  | WD_IO _ _ buffer length _ command _, Some mi =>
      let attrs := u32 command in
      let map := lxp_device_map_index (bs_c b) (bproc b slot) buffer length in
      let mm := aget mm_zero (k_mm (rt_k (c_rt (bs_c b)))) mi in
      let '(rc, c) :=
        if map >=? 0
        then let '(mapped, c) := lxp_coordinator_map_mm_range (bs_c b) mi mm buffer length attrs in
             (if mapped =? 0 then s32 buffer else mapped, c)
        else (map, bs_c b) in
      let c := if rc >=? 0
               then set_c_rt c (set_rt_k (c_rt c) (set_k_mm (rt_k (c_rt c))
                      (aset (k_mm (rt_k (c_rt c))) mi (commit_window mm map buffer length attrs))))
               else c in
      let b := finish_wait (set_bs_c b c) slot LXP_WAIT_DEVICE in
      (bcomplete b slot rc, set_sc_progress s)
  | _, _ => (bcomplete (finish_wait b slot LXP_WAIT_DEVICE) slot (- LXP_EINVAL), set_sc_progress s)
  end.

Definition lxp_blocked_retry_device b (slot : Z) s : bstate H X * lxp_blocked_scan :=
  if negb (waits_for b slot LXP_WAIT_DEVICE) then (b, s)
  else if w_op (p_wait (bproc b slot)) =? LXP_DEVW_MMAP then retry_device_mmap b slot s
  else retry_provider LXP_WAIT_DEVICE (dev_retry bops) b slot s.

(** *** Host files, the network file system and the console *)

Definition lxp_blocked_retry_hostfs b (slot : Z) s : bstate H X * lxp_blocked_scan :=
  if negb (waits_for b slot LXP_WAIT_HOSTFS) then (b, s)
  else
    let s := set_sc_busy s in
    let '(nr, args) := match w_data (p_wait (bproc b slot)) with WD_HOSTFS nr args _ => (nr, args) | _ => (0, []) end in
    let '(rc, x, c) := bo_syscall bops (bs_x b) (bs_c b) slot nr args in
    let b := set_bs_x (set_bs_c b c) x in
    if (rc =? - LXP_EAGAIN) && bool_decide (w_kind (p_wait (bproc b slot)) = LXP_WAIT_HOSTFS) then (b, s)
    else
      let b := finish_wait b slot LXP_WAIT_HOSTFS in
      let sig := lxp_pending_deliverable (bproc b slot) in
      if negb (sig =? 0)
      then let b := put_bproc b slot (clear_pending (bproc b slot) sig) in
           (set_bs_c b (lxp_deliver_signal_parked ops (bs_c b) slot sig rc), set_sc_progress s)
      else (bcomplete b slot rc, set_sc_progress s).

Definition lxp_blocked_complete_netfs_retry b (slot rc : Z) s : bstate H X * lxp_blocked_scan :=
  let b := if bool_decide (w_kind (p_wait (bproc b slot)) = LXP_WAIT_NETFS) then finish_wait b slot LXP_WAIT_NETFS else b in
  (if bool_decide (intent_kind (p_intent (bproc b slot)) = IK_EXEC) then bmark b slot else bcomplete b slot rc,
   set_sc_progress s).

Definition lxp_blocked_retry_netfs b (slot : Z) s : bstate H X * lxp_blocked_scan :=
  if negb (waits_for b slot LXP_WAIT_NETFS) then (b, s)
  else
    let '(rc, x, c) := netfs_retry bops (bs_x b) (bs_c b) slot in
    let b := set_bs_x (set_bs_c b c) x in
    if rc =? - LXP_EAGAIN then (b, s) else lxp_blocked_complete_netfs_retry b slot rc s.

Definition lxp_blocked_retry_console b (slot : Z) s : bstate H X * lxp_blocked_scan :=
  if negb (waits_for b slot LXP_WAIT_CONSOLE) || (p_console_poll (bproc b slot) =? 0) then (b, s)
  else
    let '(ready, c) := lxp_console_input_ready cons (bs_c b) (bs_con b) slot in
    let b := set_bs_c b c in
    if negb ready then (b, s)
    else
      let '(buffer, length) :=
        match w_data (p_wait (bproc b slot)) with WD_IO _ _ buf len _ _ _ => (buf, len) | _ => (0, 0) end in
      let '(rc, c, k) := lxp_console_read cons (bs_c b) (bs_con b) slot 0 buffer length in
      let b := set_bs_con (set_bs_c b c) k in
      let ch := if rc =? 1 then load8 (cmem (bs_c b)) buffer else 0 in
      let sig := if rc =? 1 then lxp_tty_signal_for (con_tty (bs_con b)) ch else 0 in
      if sig =? LXP_SIGTSTP
      then (set_bs_c b (lxp_console_signal_fg core (bs_c b) (bs_con b) sig), set_sc_progress s)
      else
        let '(b, rc) := if sig =? LXP_SIGINT
                        then (set_bs_c b (lxp_console_signal_fg core (bs_c b) (bs_con b) sig), - LXP_EINTR)
                        else (b, rc) in
        (bcomplete (finish_wait b slot LXP_WAIT_CONSOLE) slot rc, set_sc_progress s).

(** ** The scan *)

(** Which classes have parked requests, and since when. *)
Definition scan_pending (now : Z) b (k : lxp_service_class) : option Z :=
  fold_left (fun acc slot =>
      let p := bproc b slot in
      if (p_alive p =? 0) || brunnable b slot || negb (bool_decide (lxp_wait_service_class (w_kind (p_wait p)) = Some k)) then acc
      else let since := if negb (w_enqueued_us (p_wait p) =? 0) then w_enqueued_us (p_wait p) else now in
           Some (match acc with Some t => Z.min since t | None => since end))
    (seqZ 0 LXP_NSLOT) None.

(** The alarm of a parked task. *)
Definition scan_alarm (now : Z) b (slot : Z) s : bstate H X * lxp_blocked_scan :=
  if negb (p_alarm_deadline_us (bproc b slot) =? 0) && negb (brunnable b slot)
  then
    let b := if now >=? p_alarm_deadline_us (bproc b slot)
             then let p := lxp_signal_latch (bproc b slot) LXP_SIGALRM in
                  put_bproc b slot (set_p_alarm_deadline_us p
                    (if negb (p_alarm_interval_us p =? 0) then u64 (now + p_alarm_interval_us p) else 0))
             else b in
    (b, lxp_blocked_note_deadline s (p_alarm_deadline_us (bproc b slot)))
  else (b, s).

(** The deadline of a timer or futex wait that has not passed. *)
Definition scan_deadline (now : Z) b (slot : Z) s : lxp_blocked_scan :=
  match w_kind (p_wait (bproc b slot)), w_data (p_wait (bproc b slot)) with
  | LXP_WAIT_TIMER, WD_TIMER d => if d >? now then lxp_blocked_note_deadline s d else s
  | LXP_WAIT_FUTEX, WD_FUTEX _ d woken => if negb woken && (d >? now) then lxp_blocked_note_deadline s d else s
  | _, _ => s
  end.

(** The retries, in the code's order. *)
Definition scan_retry (now : Z) b (slot : Z) s : bstate H X * lxp_blocked_scan :=
  let '(b, s) := lxp_blocked_retry_timer now b slot s in
  let '(b, s) := lxp_blocked_retry_futex now b slot s in
  let '(b, s) := lxp_blocked_retry_pipe b slot s in
  let '(b, s) := lxp_blocked_retry_device b slot s in
  let '(b, s) := lxp_blocked_retry_socket b slot s in
  let '(b, s) := lxp_blocked_retry_poll b slot s in
  let '(b, s) := lxp_blocked_retry_netfs b slot s in
  let '(b, s) := lxp_blocked_retry_hostfs b slot s in
  let '(b, s) := lxp_blocked_retry_pty b slot s in
  lxp_blocked_retry_console b slot s.

Definition set_slot_cursor b (k : lxp_service_class) (v : Z) : bstate H X :=
  set_bs_fair b (mk_fair (sf_cursor (bs_fair b)) (aset (sf_slot_cursor (bs_fair b)) (class_index k) v)).

(** The part of a visit under the guest view. *)
Definition scan_slot (now : Z) (selected : option lxp_service_class) b (slot : Z) s : bstate H X * lxp_blocked_scan :=
  let '(skip, b, s) := lxp_blocked_handle_stopped b slot s in
  if skip then (b, s)
  else
    let s := if brunnable b slot then set_sc_busy s else s in
    let s := set_sc_policy s (Z.lor (sc_wait_policy s) (lxp_blocked_wait_policy (w_kind (p_wait (bproc b slot))))) in
    let '(b, s) := scan_alarm now b slot s in
    let '(skip, b, s) := lxp_blocked_handle_signal b slot s in
    if skip then (b, s)
    else
      let s := scan_deadline now b slot s in
      if negb (sc_progress s) && bool_decide (lxp_wait_service_class (w_kind (p_wait (bproc b slot))) = selected)
      then let '(b, s) := scan_retry now b slot s in
           (match selected with
            | Some k => if sc_progress s then set_slot_cursor b k (u8 ((slot + 1) mod LXP_NSLOT)) else b
            | None => b
            end, s)
      else (b, s).

(** A visit; [vid] is the view's place. *)
Definition scan_visit (now vid : Z) (selected : option lxp_service_class) (st : bstate H X * lxp_blocked_scan) (slot : Z)
    : bstate H X * lxp_blocked_scan :=
  let '(b, s) := st in
  if p_alive (bproc b slot) =? 0 then (b, s)
  else
    let s := set_sc_alive s in
    if negb (brunnable b slot)
    then let '(rc, c) := lxp_coordinator_guest_view_begin (bs_c b) slot vid in
         if negb (rc =? LXP_OK) then (set_bs_c b (lxp_guest_view_failure c slot rc), set_sc_progress s)
         else let '(b, s) := scan_slot now selected (set_bs_c b c) slot s in (view_end b vid, s)
    else scan_slot now selected b slot s.

Definition lxp_scan_blocked (now vid : Z) b : lxp_blocked_scan * bstate H X :=
  let p := scan_pending now b in
  let '(selected, cursor, hint) := lxp_blocked_service_select p now (bs_fs_ready b) (sf_cursor (bs_fair b)) in
  let b := set_bs_fs_ready (set_bs_fair b (mk_fair cursor (sf_slot_cursor (bs_fair b)))) hint in
  let start := match selected with Some k => aget 0 (sf_slot_cursor (bs_fair b)) (class_index k) | None => 0 end in
  let '(b, s) := fold_left (scan_visit now vid selected)
                   (map (fun pass => (start + pass) mod LXP_NSLOT) (seqZ 0 LXP_NSLOT)) (b, scan_init) in
  let b := match selected with
           | Some k => if sc_progress s then b else set_slot_cursor b k (u8 ((start + 1) mod LXP_NSLOT))
           | None => b
           end in
  if Z.land (sc_wait_policy s) LXP_BLOCKED_WAIT_CONSOLE =? 0
  then let '(raised, c, k) := lxp_console_poll_interrupts core cons (bs_c b) (bs_con b) in
       (if raised then set_sc_progress s else s, set_bs_con (set_bs_c b c) k)
  else (s, b).

End Blocked.
