(* ===== verification/BlockedProps.v ===== *)
(** * Properties of the blocked-slot scan

    The service schedule is fair and weighted; a scan that leaves every task parked has
    collected every deadline the coordinator must wake up for; stop, continue and
    termination of stopped tasks; stateful requests are not interrupted. *)

From S2P Require Import Prelude Config Errno Proc Pool Fd Guest Wait Pipe Arena Process Runtime Event Region Lifecycle.
From S2P Require Import Quiet Signal SignalProps SysSignal Child SignalRoute Exit Futex Console ConsoleProps Blocked.
Local Open Scope Z_scope.

(** ** The schedule *)

(** The classes a selection may pick. *)
Definition eligible (p : pending_classes) (now : Z) : lxp_service_class -> bool :=
  if existsb (is_aged p now) classes then is_aged p now else is_pending p.

(** Successive selections, each with its own pending classes and time; the cursor is
    carried on.  No completion hint is raised. *)
Fixpoint select_run (qs : list (pending_classes * Z)) (cursor : Z) : list (option lxp_service_class) :=
  match qs with
  | [] => []
  | (p, now) :: qs =>
      let '(k, cursor, _) := lxp_blocked_service_select p now false cursor in k :: select_run qs cursor
  end.

Definition entry (cursor : Z) : lxp_service_class := aget LXP_SERVICE_FS g_service_schedule cursor.
Definition advance (cursor n : Z) : Z := (cursor + n) mod SCHEDULE.

Lemma advance_step cursor : u8 ((cursor + 1) mod SCHEDULE) = advance cursor 1.
Proof. unfold advance, SCHEDULE. apply u8_small. lia. Qed.

Lemma advance_advance cursor i j : advance (advance cursor i) j = advance cursor (i + j).
Proof. unfold advance, SCHEDULE. rewrite Zplus_mod_idemp_l. f_equal. lia. Qed.

Lemma advance_range cursor n : 0 <= advance cursor n < SCHEDULE.
Proof. unfold advance, SCHEDULE. lia. Qed.

(** The walk stops at the first eligible entry and leaves the cursor behind it. *)
Lemma walk_spec f n : forall cursor, 0 <= cursor < SCHEDULE ->
  match schedule_walk f n cursor with
  | (Some k, cursor') => exists i, 0 <= i < Z.of_nat n /\ k = entry (advance cursor i) /\ f k = true /\
      cursor' = advance cursor (i + 1) /\ forall j, 0 <= j < i -> f (entry (advance cursor j)) = false
  | (None, cursor') => cursor' = advance cursor (Z.of_nat n) /\
      forall j, 0 <= j < Z.of_nat n -> f (entry (advance cursor j)) = false
  end.
Proof.
  induction n as [|n IH]; intros cursor Hc; cbn [schedule_walk].
  { split; [unfold advance, SCHEDULE in *; cbn; rewrite Z.add_0_r, Z.mod_small by lia; done|lia]. }
  rewrite advance_step. change (aget _ g_service_schedule cursor) with (entry cursor).
  assert (E0 : advance cursor 0 = cursor) by (unfold advance, SCHEDULE in *; rewrite Z.add_0_r; apply Z.mod_small; lia).
  destruct (f (entry cursor)) eqn:Hf.
  { exists 0. rewrite E0. repeat split; try done; lia. }
  specialize (IH (advance cursor 1) (advance_range _ _)).
  assert (Hnot : forall m, (forall j, 0 <= j < m -> f (entry (advance (advance cursor 1) j)) = false) ->
                 forall j, 0 <= j < m + 1 -> f (entry (advance cursor j)) = false).
  { intros m Hm j Hj. destruct (decide (j = 0)) as [->|Hj0]; [by rewrite E0|].
    specialize (Hm (j - 1) ltac:(lia)). rewrite advance_advance in Hm. by replace (1 + (j - 1)) with j in Hm by lia. }
  destruct (schedule_walk f n (advance cursor 1)) as [[k|] cursor'].
  - destruct IH as (i & Hi & -> & Hk & -> & Hn). rewrite !advance_advance in *. exists (i + 1).
    replace (1 + i) with (i + 1) in * by lia. replace (1 + (i + 1)) with (i + 1 + 1) by lia.
    split; [lia|]. do 3 (split; [done|]). by apply Hnot.
  - destruct IH as (-> & Hn). rewrite advance_advance. split; [f_equal; lia|].
    intros j Hj. apply (Hnot (Z.of_nat n)); [done|lia].
Qed.

Lemma advance_to cursor t : 0 <= t < SCHEDULE -> advance cursor ((t - cursor) mod SCHEDULE) = t.
Proof.
  intros Ht. unfold advance, SCHEDULE in *. rewrite Zplus_mod_idemp_r. replace (cursor + (t - cursor)) with t by lia.
  by apply Z.mod_small.
Qed.

Lemma entry_surj cursor k : exists i, 0 <= i < SCHEDULE /\ entry (advance cursor i) = k.
Proof.
  set (t := match k with LXP_SERVICE_FS => 0 | LXP_SERVICE_SOCKET => 4 | LXP_SERVICE_CONSOLE => 7 | _ => 9 end).
  exists ((t - cursor) mod SCHEDULE). split; [unfold SCHEDULE; lia|].
  rewrite advance_to by (unfold t, SCHEDULE; destruct k; lia). by destruct k.
Qed.

Lemma select_false p now cursor :
  lxp_blocked_service_select p now false cursor =
    (schedule_walk (eligible p now) (Z.to_nat SCHEDULE) cursor, false).
Proof.
  unfold lxp_blocked_service_select, eligible. rewrite andb_false_r. by destruct (is_pending p LXP_SERVICE_FS).
Qed.

(** If [k] stays eligible and its entry is [d] places ahead, it is picked within [d + 1]
    selections. *)
Lemma select_reaches k qs : forall cursor d,
  0 <= cursor < SCHEDULE -> 0 <= d < Z.of_nat (length qs) -> d < SCHEDULE -> entry (advance cursor d) = k ->
  Forall (fun q => eligible q.1 q.2 k = true) qs -> Some k ∈ select_run qs cursor.
Proof.
  induction qs as [|[p now] qs IH]; intros cursor d Hc Hd Hds He Hall; [cbn in Hd; lia|].
  apply Forall_cons in Hall as [Hel Hall]. cbn [fst snd] in Hel. cbn [select_run]. rewrite select_false.
  pose proof (walk_spec (eligible p now) (Z.to_nat SCHEDULE) cursor Hc) as Hw.
  destruct (schedule_walk _ _ _) as [[k'|] cursor'].
  - destruct Hw as (i & Hi & -> & Hk & -> & Hn).
    destruct (decide (i = d)) as [->|Hid]; [rewrite He; constructor|].
    destruct (decide (i < d)) as [Hlt|Hge].
    + constructor 2. apply (IH (advance cursor (i + 1)) (d - (i + 1))); try done; try lia.
      * apply advance_range.
      * cbn [length] in Hd. lia.
      * rewrite advance_advance. by replace (i + 1 + (d - (i + 1))) with d by lia.
    + specialize (Hn d ltac:(lia)). by rewrite He, Hel in Hn.
  - destruct Hw as (_ & Hn). specialize (Hn d ltac:(lia)). by rewrite He, Hel in Hn.
Qed.

Lemma eligible_pending p now k : eligible p now k = true -> is_pending p k = true.
Proof. unfold eligible, is_aged, is_pending. destruct (existsb _ _); [|done]. by destruct (p k). Qed.

Lemma some_eligible p now k : is_pending p k = true -> exists k', eligible p now k' = true.
Proof.
  intros Hk. unfold eligible. destruct (existsb (is_aged p now) classes) eqn:E; [|by exists k].
  apply existsb_exists in E as (k' & _ & Hk'). by exists k'.
Qed.

(** When every class stays eligible the schedule itself is followed. *)
Lemma select_all qs : forall cursor,
  0 <= cursor < SCHEDULE -> Forall (fun q => forall k, eligible q.1 q.2 k = true) qs ->
  select_run qs cursor = map (fun i => Some (entry (advance cursor i))) (seqZ 0 (Z.of_nat (length qs))).
Proof.
  induction qs as [|[p now] qs IH]; intros cursor Hc Hall; [done|].
  apply Forall_cons in Hall as [Hel Hall]. cbn [fst snd] in Hel. cbn [select_run]. rewrite select_false.
  pose proof (walk_spec (eligible p now) (Z.to_nat SCHEDULE) cursor Hc) as Hw.
  destruct (schedule_walk _ _ _) as [[k'|] cursor'].
  - destruct Hw as (i & Hi & -> & Hk & -> & Hn).
    destruct (decide (i = 0)) as [->|Hi0]; [|specialize (Hn 0 ltac:(lia)); by rewrite Hel in Hn].
    cbn [length]. rewrite seqZ_cons by lia. cbn [map]. f_equal.
    rewrite IH by (try apply advance_range; done).
    replace (Z.pred (Z.of_nat (S (length qs)))) with (Z.of_nat (length qs)) by lia.
    replace (Z.succ 0) with 1 by lia. rewrite <- (fmap_add_seqZ 1 0). unfold fmap. rewrite map_map. apply map_ext. intros i.
    rewrite advance_advance. done.
  - destruct Hw as (_ & Hn). specialize (Hn 0 ltac:(unfold SCHEDULE; lia)). by rewrite Hel in Hn.
Qed.

(** The service schedule is sound, starves no class and follows its weights.  A selection
    picks a pending class, and picks one whenever any is pending; a class that stays eligible
    (pending, and aged if any class has aged) is picked in every ten selections; and while
    every class is eligible ten selections pick file systems, sockets, the console and
    ordinary waits four, three, two and one times. *)
Theorem service_schedule_fair cursor :
  0 <= cursor < SCHEDULE ->
  (forall p now hint, match lxp_blocked_service_select p now hint cursor with
     | (Some k, cursor', _) => is_pending p k = true /\ 0 <= cursor' < SCHEDULE
     | (None, cursor', _) => (forall k, is_pending p k = false) /\ 0 <= cursor' < SCHEDULE
     end) /\
  (forall k qs, length qs = 10%nat -> Forall (fun q => eligible q.1 q.2 k = true) qs -> Some k ∈ select_run qs cursor) /\
  (forall qs k, length qs = 10%nat -> Forall (fun q => forall k, eligible q.1 q.2 k = true) qs ->
     length (filter (fun r => r = Some k) (select_run qs cursor)) = Z.to_nat (4 - class_index k)).
Proof.
  intros Hc. split; [|split].
  - intros p now hint. unfold lxp_blocked_service_select.
    destruct (is_pending p LXP_SERVICE_FS && hint) eqn:Eh.
    { by apply andb_true_iff in Eh as [-> _]. }
    change (if existsb _ _ then _ else _) with (eligible p now).
    pose proof (walk_spec (eligible p now) (Z.to_nat SCHEDULE) cursor Hc) as Hw.
    destruct (schedule_walk _ _ _) as [[k|] cursor'].
    + destruct Hw as (i & _ & _ & Hk & -> & _). split; [by eapply eligible_pending|apply advance_range].
    + destruct Hw as (-> & Hn). split; [|apply advance_range]. intros k. apply not_true_is_false. intros Hk.
      destruct (some_eligible p now k Hk) as (k' & Hk'). destruct (entry_surj cursor k') as (i & Hi & He).
      specialize (Hn i ltac:(unfold SCHEDULE in *; lia)). by rewrite He, Hk' in Hn.
  - intros k qs Hl Hall. destruct (entry_surj cursor k) as (i & Hi & He).
    eapply (select_reaches k qs cursor i); try done; unfold SCHEDULE in *; lia.
  - intros qs k Hl Hall. rewrite select_all by done. rewrite Hl.
    assert (Hcur : In cursor [0; 1; 2; 3; 4; 5; 6; 7; 8; 9]) by (unfold SCHEDULE in Hc; cbn; lia).
    cbn in Hcur. repeat (destruct Hcur as [<-|Hcur]; [by destruct k|]). done.
Qed.

(** ** Scans that leave every task parked *)

(** The deadline a timer or an unwoken futex wait has. *)
Definition timer_deadline (w : lxp_wait) : option Z :=
  match w_kind w, w_data w with
  | LXP_WAIT_TIMER, WD_TIMER d => Some d
  | LXP_WAIT_FUTEX, WD_FUTEX _ d false => Some d
  | _, _ => None
  end.

(** What decides whether and when the coordinator must look at a slot again. *)
Definition calm_core (x : lxp_slot_runtime) : Z * Z * bool * lxp_wait_kind * option Z :=
  (p_alive (sl_proc x), p_stopped (sl_proc x), sl_runnable x, w_kind (p_wait (sl_proc x)), timer_deadline (p_wait (sl_proc x))).

Definition calm (R R' : lxp_runtime) : Prop := map calm_core (rt_slots R') = map calm_core (rt_slots R).

#[export] Instance calm_preorder : PreOrder calm.
Proof. split; [done|]. unfold calm. intros R1 R2 R3 E1 E2. congruence. Qed.

Lemma calm_at R R' s : calm R R' -> calm_core (slot_at R' s) = calm_core (slot_at R s).
Proof. intros Hc. unfold slot_at, aget. rewrite <- !(map_nth calm_core). by rewrite Hc. Qed.

Lemma calm_put_slot R s x : calm_core x = calm_core (slot_at R s) -> calm R (put_slot R s x).
Proof.
  intros Hc. unfold calm, put_slot. cbn [rt_slots set_rt_slots].
  unfold aset. rewrite list_fmap_insert. apply list_insert_id'. intros Hlt.
  rewrite length_fmap in Hlt. rewrite list_lookup_fmap.
  destruct (lookup_lt_is_Some_2 _ _ Hlt) as [y Hy]. rewrite Hy. cbn.
  rewrite Hc. unfold slot_at. by rewrite (aget_lookup slot_zero _ _ _ Hy).
Qed.

(** A task record that differs in nothing the scan's report depends on. *)
Definition same_park (p q : lxp_proc) : Prop :=
  p_alive p = p_alive q /\ p_stopped p = p_stopped q /\ p_wait p = p_wait q.

Lemma calm_put_proc R s p : same_park p (sproc R s) -> calm R (put_proc R s p).
Proof.
  intros (Ha & Hs & Hw). apply calm_put_slot. unfold calm_core, set_sl_proc. cbn. by rewrite Ha, Hs, Hw.
Qed.

Lemma calm_genv R G :
  length (ge_procs G) = length (rt_slots R) ->
  (forall i, same_park (proc_at G (Z.of_nat i)) (sproc R (Z.of_nat i))) -> calm R (rt_put_genv R G).
Proof.
  intros Hl Hp. unfold calm, rt_put_genv. cbn [rt_slots set_rt_views set_rt_slots].
  apply list_eq. intros i. rewrite !list_lookup_fmap, lookup_zip_with.
  destruct (rt_slots R !! i) as [x|] eqn:Hx; [|done]. cbn.
  destruct (lookup_lt_is_Some_2 (ge_procs G) i) as [p Hpi].
  { rewrite Hl. by eapply lookup_lt_Some. }
  rewrite Hpi. cbn. f_equal. specialize (Hp i). unfold proc_at, sproc, slot_at, aget in Hp.
  rewrite Nat2Z.id in Hp. rewrite !nth_lookup, Hx, Hpi in Hp. cbn in Hp. destruct Hp as (Ha & Hs & Hw).
  unfold calm_core, set_sl_proc. cbn. by rewrite Ha, Hs, Hw.
Qed.

Lemma proc_at_genv R i : proc_at (rt_genv R) i = sproc R i.
Proof. unfold proc_at, rt_genv, sproc, slot_at, aget. cbn [ge_procs]. change proc_zero with (sl_proc slot_zero). apply map_nth. Qed.

(** Replacing one task's view pointer. *)
Lemma same_park_view G p v i :
  same_park (proc_at (set_procs G (aset (ge_procs G) p (set_p_guest_view (proc_at G p) v))) i) (proc_at G i).
Proof.
  unfold proc_at. cbn [ge_procs set_procs]. unfold aset, aget.
  rewrite !nth_lookup. destruct (decide (Z.to_nat p = Z.to_nat i)) as [E|E].
  - rewrite E. destruct (decide (Z.to_nat i < length (ge_procs G))%nat) as [Hlt|Hge].
    + rewrite list_lookup_insert_eq by done. cbn. unfold same_park. destruct (lookup_lt_is_Some_2 _ _ Hlt) as [y Hy].
      by rewrite Hy.
    + by rewrite list_insert_ge by lia.
  - by rewrite list_lookup_insert_ne.
Qed.

Lemma calm_view_begin R slot vid :
  calm R (rt_put_genv R (lxp_guest_view_begin (rt_genv R) slot (lxp_slot_ref_at R slot) (Some slot) LXP_GUEST_READ_WRITE vid).2).
Proof.
  assert (Hid : calm R (rt_put_genv R (rt_genv R))).
  { apply calm_genv; [unfold rt_genv; cbn; by rewrite length_map|]. intros i. by rewrite proc_at_genv. }
  unfold lxp_guest_view_begin. repeat case_goal; try exact Hid. cbn [snd].
  apply calm_genv; [unfold rt_genv, set_procs, set_views; cbn; by rewrite length_aset, length_map|].
  intros i. rewrite <- proc_at_genv. exact (same_park_view (rt_genv R) slot (Some vid) (Z.of_nat i)).
Qed.

Lemma calm_view_end R vid : calm R (rt_put_genv R (lxp_guest_view_end (rt_genv R) vid)).
Proof.
  assert (Hl : length (ge_procs (rt_genv R)) = length (rt_slots R)) by (unfold rt_genv; cbn; by rewrite length_map).
  apply calm_genv; unfold lxp_guest_view_end.
  - repeat case_goal; cbn [ge_procs set_views set_procs]; rewrite ?length_aset; done.
  - intros i. rewrite <- proc_at_genv. repeat case_goal; try done.
    match goal with |- same_park (proc_at (set_views (set_procs _ (aset _ ?p _)) _) _) _ =>
      exact (same_park_view (rt_genv R) p None (Z.of_nat i)) end.
Qed.

(** A report only gets more urgent: the deadline earlier, the policies and flags more. *)
Definition scan_le (s s' : lxp_blocked_scan) : Prop :=
  sc_next_deadline_us s' <= sc_next_deadline_us s /\
  (forall i, Z.testbit (sc_wait_policy s) i = true -> Z.testbit (sc_wait_policy s') i = true) /\
  (sc_progress s = true -> sc_progress s' = true) /\ (sc_any_alive s = true -> sc_any_alive s' = true).

#[export] Instance scan_le_preorder : PreOrder scan_le.
Proof.
  split; [intros s; repeat split; auto; lia|].
  intros s1 s2 s3 (A1 & A2 & A3 & A4) (B1 & B2 & B3 & B4). repeat split; auto; lia.
Qed.

Lemma note_le s d : scan_le s (lxp_blocked_note_deadline s d).
Proof. unfold lxp_blocked_note_deadline. case_goal; [|reflexivity]. repeat split; cbn; auto. lia. Qed.
Lemma progress_le s : scan_le s (set_sc_progress s).
Proof. repeat split; cbn; auto; lia. Qed.
Lemma busy_le s : scan_le s (set_sc_busy s).
Proof. repeat split; cbn; auto; lia. Qed.
Lemma alive_le s : scan_le s (set_sc_alive s).
Proof. repeat split; cbn; auto; lia. Qed.
Lemma policy_le s v : scan_le s (set_sc_policy s (Z.lor (sc_wait_policy s) v)).
Proof. repeat split; cbn; auto; [lia|]. intros i Hi. by rewrite Z.lor_spec, Hi. Qed.

Lemma note_bound s d : d <> 0 -> sc_next_deadline_us (lxp_blocked_note_deadline s d) <= d.
Proof.
  intros Hd. unfold lxp_blocked_note_deadline. rewrite (proj2 (Z.eqb_neq d 0)) by done. cbn [negb andb].
  destruct (Z.ltb_spec d (sc_next_deadline_us s)); cbn; lia.
Qed.

Create HintDb scan.
#[export] Hint Resolve note_le progress_le busy_le alive_le policy_le : scan.

(** What the scan relies on of the providers: an operation that answers EAGAIN has left every
    task as parked as it was. *)
Class RetryLaws {H X} (bops : blocked_ops H X) := {
  dev_eagain x c slot : (dev_retry bops x c slot).1.1 = - LXP_EAGAIN -> calm (c_rt c) (c_rt (dev_retry bops x c slot).2);
  sock_eagain x c slot : (sock_retry bops x c slot).1.1 = - LXP_EAGAIN -> calm (c_rt c) (c_rt (sock_retry bops x c slot).2);
  poll_eagain x c slot : (poll_retry bops x c slot).1.1 = - LXP_EAGAIN -> calm (c_rt c) (c_rt (poll_retry bops x c slot).2);
  netfs_eagain x c slot : (netfs_retry bops x c slot).1.1 = - LXP_EAGAIN -> calm (c_rt c) (c_rt (netfs_retry bops x c slot).2);
  pty_eagain x c slot : (pty_retry bops x c slot).1.1 = - LXP_EAGAIN -> calm (c_rt c) (c_rt (pty_retry bops x c slot).2);
  syscall_eagain x c slot nr args : (bo_syscall bops x c slot nr args).1.1 = - LXP_EAGAIN ->
    calm (c_rt c) (c_rt (bo_syscall bops x c slot nr args).2);
}.

Section Calm.
Context {H X : Type} (ops : os_task H) (core : os_core H) (cons : os_console H) (mops : os_memory H) (bops : blocked_ops H X).
Context {L : RetryLaws bops}.
Implicit Types (b : bstate H X) (s : lxp_blocked_scan).

(** A step of the scan: the report grows, and without progress every task stays parked. *)
Definition mild (st st' : bstate H X * lxp_blocked_scan) : Prop :=
  scan_le st.2 st'.2 /\ (sc_progress st'.2 = false -> calm (c_rt (bs_c st.1)) (c_rt (bs_c st'.1))).

#[global] Instance mild_preorder : PreOrder mild.
Proof.
  split; [by intros [b s]|]. intros [b1 s1] [b2 s2] [b3 s3] (A1 & A2) (B1 & B2).
  split; [by etransitivity|]. cbn [fst snd] in *. intros Hp. transitivity (c_rt (bs_c b2)); [|by apply B2].
  apply A2. destruct B1 as (_ & _ & Hpr & _). destruct (sc_progress s2); [|done]. by specialize (Hpr eq_refl); rewrite Hp in Hpr.
Qed.

Lemma mild_progress b s b' s' : sc_progress s' = true -> scan_le s s' -> mild (b, s) (b', s').
Proof. intros Hp Hl. split; [done|]. cbn [snd]. by rewrite Hp. Qed.

Lemma mild_calm b s b' s' : calm (c_rt (bs_c b)) (c_rt (bs_c b')) -> scan_le s s' -> mild (b, s) (b', s').
Proof. by split. Qed.

Lemma mild_report b s s' : scan_le s s' -> mild (b, s) (b, s').
Proof. intros. by apply mild_calm. Qed.

Lemma bput_calm b slot p : same_park p (bproc b slot) -> calm (c_rt (bs_c b)) (c_rt (bs_c (put_bproc b slot p))).
Proof. intros Hp. by apply calm_put_proc. Qed.

Lemma busy_progress_le s : scan_le s (set_sc_progress (set_sc_busy s)).
Proof. etransitivity; [apply busy_le|apply progress_le]. Qed.
Lemma busy_note_le s d : scan_le s (lxp_blocked_note_deadline (set_sc_busy s) d).
Proof. etransitivity; [apply busy_le|apply note_le]. Qed.
#[local] Hint Resolve busy_progress_le busy_note_le : scan.

Ltac mild_auto := first [reflexivity | apply mild_progress; [reflexivity|by auto with scan] | apply mild_report; by auto with scan].

Lemma mild_stopped b slot s :
  let '(_, b', s') := lxp_blocked_handle_stopped ops bops b slot s in mild (b, s) (b', s').
Proof. unfold lxp_blocked_handle_stopped. repeat case_goal; mild_auto. Qed.

Lemma mild_alarm now b slot s : mild (b, s) (scan_alarm now b slot s).
Proof.
  unfold scan_alarm. case_goal; [|reflexivity]. apply mild_calm; [|apply note_le]. case_goal; [|reflexivity].
  apply bput_calm. unfold lxp_signal_latch. by repeat case_goal.
Qed.

Lemma mild_signal b slot s :
  let '(skip, b', s') := lxp_blocked_handle_signal ops bops b slot s in
  mild (b, s) (b', s') /\ (skip = true -> sc_progress s' = true).
Proof.
  unfold lxp_blocked_handle_signal. cbv zeta.
  repeat case_goal; (split; [|done]);
    first [mild_auto | apply mild_calm; [by apply bput_calm|reflexivity]].
Qed.

(** *** The retries *)

Lemma mild_timer now b slot s : mild (b, s) (lxp_blocked_retry_timer ops now b slot s).
Proof. unfold lxp_blocked_retry_timer. cbv zeta. repeat case_goal; mild_auto. Qed.

Lemma mild_futex now b slot s : mild (b, s) (lxp_blocked_retry_futex ops now b slot s).
Proof.
  unfold lxp_blocked_retry_futex. cbv zeta. case_goal; [reflexivity|]. destruct (futex_state _) as [d w].
  repeat case_goal; mild_auto.
Qed.

Lemma mild_pipe b slot s : mild (b, s) (lxp_blocked_retry_pipe ops b slot s).
Proof.
  unfold lxp_blocked_retry_pipe. case_goal; [reflexivity|]. destruct (lxp_pipe_retry _ _ _) as [[rc g] m].
  repeat case_goal; try mild_auto. by apply mild_calm.
Qed.

Lemma mild_provider kind op b slot s :
  (forall x c, (op x c slot).1.1 = - LXP_EAGAIN -> calm (c_rt c) (c_rt (op x c slot).2)) ->
  mild (b, s) (retry_provider ops kind op b slot s).
Proof.
  intros Hop. unfold retry_provider. case_goal; [reflexivity|]. specialize (Hop (bs_x b) (bs_c b)).
  destruct (op (bs_x b) (bs_c b) slot) as [[rc x] c]. cbn [fst snd] in Hop.
  destruct (Z.eqb_spec rc (- LXP_EAGAIN)) as [E|E]; cbn [negb]; [|mild_auto].
  apply mild_calm; [by apply Hop|reflexivity].
Qed.

Lemma mild_device b slot s : mild (b, s) (lxp_blocked_retry_device ops mops bops b slot s).
Proof.
  unfold lxp_blocked_retry_device. case_goal; [reflexivity|]. case_goal.
  - unfold retry_device_mmap. repeat case_goal; mild_auto.
  - apply mild_provider. intros x c. apply dev_eagain.
Qed.

Lemma mild_netfs b slot s : mild (b, s) (lxp_blocked_retry_netfs ops bops b slot s).
Proof.
  unfold lxp_blocked_retry_netfs. case_goal; [reflexivity|]. pose proof (netfs_eagain (bs_x b) (bs_c b) slot) as Hop.
  destruct (netfs_retry bops _ _ _) as [[rc x] c]. cbn [fst snd] in Hop.
  destruct (Z.eqb_spec rc (- LXP_EAGAIN)) as [E|E]; [|unfold lxp_blocked_complete_netfs_retry; mild_auto].
  apply mild_calm; [by apply Hop|reflexivity].
Qed.

Lemma mild_hostfs b slot s : mild (b, s) (lxp_blocked_retry_hostfs ops bops b slot s).
Proof.
  unfold lxp_blocked_retry_hostfs. cbv zeta. case_goal; [reflexivity|].
  destruct (match w_data (p_wait (bproc b slot)) with WD_HOSTFS nr args _ => (nr, args) | _ => (0, []) end) as [nr args].
  pose proof (syscall_eagain (bs_x b) (bs_c b) slot nr args) as Hop.
  destruct (bo_syscall bops _ _ _ _ _) as [[rc x] c]. cbn [fst snd] in Hop.
  destruct (Z.eqb_spec rc (- LXP_EAGAIN)) as [E|E]; cbn [andb]; repeat case_goal; try mild_auto.
  apply mild_calm; [by apply Hop|apply busy_le].
Qed.

Lemma mild_console b slot s : mild (b, s) (lxp_blocked_retry_console ops core cons b slot s).
Proof.
  unfold lxp_blocked_retry_console. case_goal; [reflexivity|].
  destruct (lxp_console_input_ready cons (bs_c b) (bs_con b) slot) as [ready c] eqn:Er.
  assert (Hc : c_rt c = c_rt (bs_c b)).
  { unfold lxp_console_input_ready in Er. repeat case_hyp Er; try by injection Er as _ <-.
    all: destruct (call_poll _ _ _ _) as [r h]; by injection Er as _ <-. }
  destruct ready; cbn [negb]; [|apply mild_calm; [cbn; by rewrite Hc|reflexivity]].
  destruct (match w_data (p_wait (bproc (set_bs_c b c) slot)) with WD_IO _ _ buf len _ _ _ => (buf, len) | _ => (0, 0) end) as [buf len].
  destruct (lxp_console_read _ _ _ _ _ _ _) as [[rc c1] k].
  repeat case_goal; mild_auto.
Qed.

Lemma mild_bind st f g :
  mild st f -> (forall b s, mild (b, s) (g b s)) -> mild st (let '(b, s) := f in g b s).
Proof. intros Hf Hg. destruct f as [b s]. etransitivity; [exact Hf|apply Hg]. Qed.

Lemma mild_retry now b slot s : mild (b, s) (scan_retry ops core cons mops bops now b slot s).
Proof.
  unfold scan_retry.
  apply mild_bind; [apply mild_timer|]. intros. apply mild_bind; [apply mild_futex|]. intros.
  apply mild_bind; [apply mild_pipe|]. intros. apply mild_bind; [apply mild_device|]. intros.
  apply mild_bind; [apply mild_provider; intros x c; apply sock_eagain|]. intros.
  apply mild_bind; [apply mild_provider; intros x c; apply poll_eagain|]. intros.
  apply mild_bind; [apply mild_netfs|]. intros. apply mild_bind; [apply mild_hostfs|]. intros.
  apply mild_bind; [apply mild_provider; intros x c; apply pty_eagain|]. intros. apply mild_console.
Qed.

(** *** A visit *)

Lemma deadline_le now b slot s : scan_le s (scan_deadline now b slot s).
Proof. unfold scan_deadline. repeat case_goal; (apply note_le || reflexivity). Qed.

Lemma mild_cursor b k v : calm (c_rt (bs_c b)) (c_rt (bs_c (set_slot_cursor b k v))).
Proof. reflexivity. Qed.

Lemma mild_slot now selected b slot s : mild (b, s) (scan_slot ops core cons mops bops now selected b slot s).
Proof.
  unfold scan_slot. pose proof (mild_stopped b slot s) as H1.
  destruct (lxp_blocked_handle_stopped ops bops b slot s) as [[skip b1] s1]. case_goal; [done|].
  etransitivity; [exact H1|]. cbv zeta.
  apply mild_bind.
  { etransitivity; [apply mild_report|apply mild_alarm]. etransitivity; [|apply policy_le]. case_goal; auto with scan. reflexivity. }
  intros b2 s2. pose proof (mild_signal b2 slot s2) as H2.
  destruct (lxp_blocked_handle_signal ops bops b2 slot s2) as [[skip2 b3] s3]. destruct H2 as (H2 & _).
  case_goal; [done|]. etransitivity; [exact H2|]. etransitivity; [apply mild_report, (deadline_le now b3 slot)|].
  case_goal; [|reflexivity]. apply mild_bind; [apply mild_retry|]. intros b4 s4. repeat case_goal; by apply mild_calm.
Qed.

(** What the report owes a slot in the state it was visited in. *)
Definition noted (now : Z) s (x : lxp_slot_runtime) : Prop :=
  p_alive (sl_proc x) <> 0 ->
  sc_any_alive s = true /\
  (p_stopped (sl_proc x) = 0 ->
   (forall i, Z.testbit (lxp_blocked_wait_policy (w_kind (p_wait (sl_proc x)))) i = true ->
      Z.testbit (sc_wait_policy s) i = true) /\
   (forall d, timer_deadline (p_wait (sl_proc x)) = Some d -> now < d -> sc_next_deadline_us s <= d)).

Lemma noted_le now s s' x : scan_le s s' -> noted now s x -> noted now s' x.
Proof.
  intros (Hd & Hp & _ & Ha) Hn Hx. destruct (Hn Hx) as (Hal & Hst). split; [auto|].
  intros Hs. destruct (Hst Hs) as (Hpol & Hdl). split; [auto|]. intros d Hd1 Hd2. specialize (Hdl d Hd1 Hd2). lia.
Qed.

Lemma noted_calm now s x y : calm_core x = calm_core y -> noted now s x -> noted now s y.
Proof.
  unfold noted, calm_core. intros E. injection E as Ea Es _ Ek Et. by rewrite Ea, Es, Ek, Et.
Qed.

Lemma deadline_noted now b slot s d :
  0 <= now -> timer_deadline (p_wait (bproc b slot)) = Some d -> now < d ->
  sc_next_deadline_us (scan_deadline now b slot s) <= d.
Proof.
  intros Hnow Ht Hd. unfold timer_deadline in Ht. unfold scan_deadline.
  destruct (w_kind (p_wait (bproc b slot))); try done; destruct (w_data (p_wait (bproc b slot))); try done.
  - injection Ht as ->. rewrite (proj2 (Z.gtb_lt d now)) by lia. apply note_bound. lia.
  - destruct woken; [done|]. injection Ht as ->. cbn [negb andb]. rewrite (proj2 (Z.gtb_lt d now)) by lia.
    apply note_bound. lia.
Qed.

Lemma mild_progress_back st st' : mild st st' -> sc_progress st'.2 = false -> sc_progress st.2 = false.
Proof. intros ((_ & _ & Hp & _) & _) E. destruct (sc_progress st.2); [|done]. by rewrite Hp in E. Qed.

Lemma slot_noted now selected b slot s :
  0 <= now -> sc_any_alive s = true ->
  sc_progress (scan_slot ops core cons mops bops now selected b slot s).2 = false ->
  noted now (scan_slot ops core cons mops bops now selected b slot s).2 (slot_at (c_rt (bs_c b)) slot).
Proof.
  intros Hnow Hal Hpr Hx. pose proof (mild_slot now selected b slot s) as ((_ & _ & _ & Ha) & _).
  split; [by apply Ha|]. clear Ha. intros Hst. change (p_stopped (bproc b slot) = 0) in Hst.
  assert (E1 : lxp_blocked_handle_stopped ops bops b slot s = (false, b, s))
    by (unfold lxp_blocked_handle_stopped; by rewrite Hst).
  revert Hpr. unfold scan_slot. rewrite E1. cbv zeta.
  set (s1 := set_sc_policy _ _).
  assert (Hpol : forall i, Z.testbit (lxp_blocked_wait_policy (w_kind (p_wait (bproc b slot)))) i = true ->
                 Z.testbit (sc_wait_policy s1) i = true).
  { intros i Hi. unfold s1. cbn [sc_wait_policy set_sc_policy]. by rewrite Z.lor_spec, Hi, orb_true_r. }
  pose proof (mild_alarm now b slot s1) as HA. destruct (scan_alarm now b slot s1) as [b2 s2].
  pose proof (mild_signal b2 slot s2) as HS.
  destruct (lxp_blocked_handle_signal ops bops b2 slot s2) as [[skip2 b3] s3]. destruct HS as (HS & Hskip).
  assert (H13 : mild (b, s1) (b3, s3)) by (by etransitivity).
  set (sd := scan_deadline now b3 slot s3). set (res := if negb (sc_progress sd) && _ then _ else _).
  assert (Hres : mild (b3, sd) res).
  { unfold res. case_goal; [|reflexivity]. apply mild_bind; [apply mild_retry|]. intros b4 s4. repeat case_goal; by apply mild_calm. }
  assert (H3d : mild (b3, s3) (b3, sd)) by (apply mild_report, deadline_le).
  destruct skip2; intros Hpr; [cbn [snd] in Hpr; rewrite Hskip in Hpr; done|].
  assert (Hall : mild (b3, s3) res) by (by etransitivity).
  assert (Hp3 : sc_progress s3 = false) by exact (mild_progress_back _ _ Hall Hpr).
  destruct H13 as ((_ & Hpol13 & _) & Hcalm13). specialize (Hcalm13 Hp3). cbn [fst snd] in *.
  destruct Hall as ((_ & Hpolr & _) & _). destruct Hres as ((Hdr & _) & _). cbn [snd] in *.
  split.
  - intros i Hi. apply Hpolr, Hpol13, Hpol. exact Hi.
  - intros d Hd Hlt. assert (E : timer_deadline (p_wait (bproc b3 slot)) = Some d).
    { pose proof (calm_at _ _ slot Hcalm13) as Hc. apply (f_equal snd) in Hc. cbn in Hc.
      unfold bproc, cproc, sproc. rewrite Hc. exact Hd. }
    pose proof (deadline_noted now b3 slot s3 d Hnow E Hlt) as Hn. change (scan_deadline now b3 slot s3) with sd in Hn. lia.
Qed.

Lemma visit_spec now vid selected b slot s :
  let r := scan_visit ops core cons mops bops now vid selected (b, s) slot in
  mild (b, s) r /\ (sc_progress r.2 = true -> sc_progress s = true \/ sc_any_alive r.2 = true) /\
  (0 <= now -> sc_progress r.2 = false -> noted now r.2 (slot_at (c_rt (bs_c b)) slot)).
Proof.
  unfold scan_visit. destruct (Z.eqb_spec (p_alive (bproc b slot)) 0) as [Hd|Hd].
  { split; [reflexivity|]. split; [by left|]. intros _ _ Hx. done. }
  pose proof (mild_report b s _ (alive_le s)) as H0.
  destruct (negb (brunnable b slot)).
  - pose proof (calm_view_begin (c_rt (bs_c b)) slot vid) as Hv.
    destruct (lxp_coordinator_guest_view_begin mops (bs_c b) slot vid) as [rc c] eqn:Eb.
    assert (Hc : calm (c_rt (bs_c b)) (c_rt c)).
    { unfold lxp_coordinator_guest_view_begin in Eb. destruct (lxp_slot_ref_is_current _ _); [|by injection Eb as _ <-].
      destruct (mm_of _ _) as [mm|]; [|by injection Eb as _ <-]. cbv zeta in Eb.
      set (c1 := match coord_map mops with Some _ => _ | None => _ end) in Eb.
      assert (E1 : c_rt c1 = c_rt (bs_c b)) by (unfold c1; repeat case_goal; done). rewrite E1 in Eb.
      destruct (lxp_guest_view_begin _ _ _ _ _ _) as [rc1 G]. injection Eb as _ <-. exact Hv. }
    case_goal.
    { split; [etransitivity; [exact H0|mild_auto]|]. split; [by right|done]. }
    assert (Hm : mild (b, set_sc_alive s) (set_bs_c b c, set_sc_alive s)) by (by apply mild_calm).
    pose proof (mild_slot now selected (set_bs_c b c) slot (set_sc_alive s)) as Hs.
    pose proof (slot_noted now selected (set_bs_c b c) slot (set_sc_alive s)) as Hn.
    destruct (scan_slot ops core cons mops bops now selected (set_bs_c b c) slot (set_sc_alive s)) as [b1 s1].
    assert (He : mild (b1, s1) (view_end b1 vid, s1)) by (apply mild_calm; [apply calm_view_end|reflexivity]).
    split; [by repeat (etransitivity; [eassumption|])|]. split.
    + right. destruct Hs as ((_ & _ & _ & Ha) & _). by apply Ha.
    + intros Hnow Hp. eapply noted_calm; [|by apply Hn]. exact (calm_at _ _ slot Hc).
  - pose proof (mild_slot now selected b slot (set_sc_alive s)) as Hs.
    split; [by etransitivity|]. split.
    + right. destruct Hs as ((_ & _ & _ & Ha) & _). by apply Ha.
    + intros Hnow Hp. by apply slot_noted.
Qed.

Lemma fold_spec now vid selected l : forall b s,
  let r := fold_left (scan_visit ops core cons mops bops now vid selected) l (b, s) in
  mild (b, s) r /\ (sc_progress r.2 = true -> sc_progress s = true \/ sc_any_alive r.2 = true) /\
  (0 <= now -> sc_progress r.2 = false -> Forall (fun slot => noted now r.2 (slot_at (c_rt (bs_c b)) slot)) l).
Proof.
  induction l as [|slot l IH]; intros b s; cbn [fold_left].
  { split; [reflexivity|]. split; [by left|]. by constructor. }
  pose proof (visit_spec now vid selected b slot s) as (Hm1 & Hp1 & Hn1).
  destruct (scan_visit ops core cons mops bops now vid selected (b, s) slot) as [b1 s1].
  specialize (IH b1 s1) as (Hm & Hp & Hn). cbv zeta in *.
  set (r := fold_left _ l (b1, s1)) in *. cbn [fst snd] in *.
  split; [by etransitivity|]. split.
  - intros Hr. destruct (Hp Hr) as [H1|]; [|by right]. destruct (Hp1 H1) as [|Ha]; [by left|right].
    destruct Hm as ((_ & _ & _ & Hal) & _). by apply Hal.
  - intros Hnow Hr. assert (Hs1 : sc_progress s1 = false) by exact (mild_progress_back _ _ Hm Hr).
    constructor.
    + eapply noted_le; [apply Hm|by apply Hn1].
    + eapply Forall_impl; [by apply Hn|]. intros t Ht. cbn beta in Ht. eapply noted_calm; [|exact Ht].
      destruct Hm1 as (_ & Hc). exact (calm_at _ _ t (Hc Hs1)).
Qed.

Lemma order_covers start slot :
  0 <= slot < LXP_NSLOT -> slot ∈ map (fun pass => (start + pass) mod LXP_NSLOT) (seqZ 0 LXP_NSLOT).
Proof.
  intros Hs. apply list_elem_of_fmap. exists ((slot - start) mod LXP_NSLOT). split.
  - rewrite Zplus_mod_idemp_r. replace (start + (slot - start)) with slot by lia. symmetry. by apply Z.mod_small.
  - apply elem_of_seqZ. unfold LXP_NSLOT, LXP_NREG in *. lia.
Qed.

Lemma sleep_bound now s d sre cre :
  0 <= now -> now < sc_next_deadline_us s <= d -> d < UINT64_MAX ->
  1000 * coordinator_sleep_ms now s sre cre < d - now + 1000.
Proof.
  intros Hnow Hn Hd. unfold coordinator_sleep_ms.
  set (to := lxp_coordinator_wait_timeout _ _ _).
  assert (Hto : to = 5 \/ to = 50) by (unfold to, lxp_coordinator_wait_timeout; case_goal; auto).
  rewrite (proj2 (Z.gtb_lt (sc_next_deadline_us s) now)) by lia.
  rewrite (proj2 (Z.eqb_neq (sc_next_deadline_us s) UINT64_MAX)) by lia. cbn [negb andb].
  unfold u64, UINT64_MAX in *. set (n := sc_next_deadline_us s) in *. clearbody n to.
  assert (Hmax : forall q, (if q <? 1 then 1 else q) = Z.max 1 q) by (intros q; case_goal; lia). rewrite Hmax.
  destruct (decide (n - now + 999 < 2 ^ 64)) as [Hs|Hs].
  - rewrite Z.mod_small by lia. case_goal; lia.
  - assert (Hm : (n - now + 999) mod 2 ^ 64 = n - now + 999 - 2 ^ 64) by (symmetry; apply Z.mod_unique_pos with 1; lia).
    rewrite Hm. case_goal; lia.
Qed.

Lemma sleep_positive now s sre cre : 1 <= coordinator_sleep_ms now s sre cre <= 50.
Proof.
  unfold coordinator_sleep_ms. set (to := lxp_coordinator_wait_timeout _ _ _).
  assert (Hto : to = 5 \/ to = 50) by (unfold to, lxp_coordinator_wait_timeout; case_goal; auto).
  repeat case_goal; lia.
Qed.

Lemma sleep_polled now s sre cre :
  Z.testbit (sc_wait_policy s) 0 = true -> coordinator_sleep_ms now s sre cre <= 5.
Proof.
  intros Hb. unfold coordinator_sleep_ms. set (to := lxp_coordinator_wait_timeout _ _ _).
  assert (Hto : to = 5).
  { unfold to, lxp_coordinator_wait_timeout. change LXP_BLOCKED_WAIT_POLL with (Z.shiftl 1 0).
    by rewrite (land_pow2_testbit (sc_wait_policy s) 0), Hb by lia. }
  repeat case_goal; lia.
Qed.

Lemma scan_spec now vid b :
  let '(s, b') := lxp_scan_blocked ops core cons mops bops now vid b in
  0 <= now -> sc_any_alive s = false \/ sc_progress s = false ->
  forall slot, 0 <= slot < LXP_NSLOT -> noted now s (slot_at (c_rt (bs_c b)) slot).
Proof.
  unfold lxp_scan_blocked. cbv zeta.
  destruct (lxp_blocked_service_select _ _ _ _) as [[selected cursor] hint].
  set (b1 := set_bs_fs_ready _ hint). set (start := match selected with Some _ => _ | None => 0 end).
  pose proof (fold_spec now vid selected (map (fun pass => (start + pass) mod LXP_NSLOT) (seqZ 0 LXP_NSLOT)) b1 scan_init)
    as (_ & Hp & Hn). destruct (fold_left _ _ _) as [b2 s2]. cbn [fst snd] in *.
  assert (Hslots : sc_any_alive s2 = false \/ sc_progress s2 = false -> 0 <= now ->
    forall slot, 0 <= slot < LXP_NSLOT -> noted now s2 (slot_at (c_rt (bs_c b)) slot)).
  { intros Hc Hnow slot Hs. assert (Hpr : sc_progress s2 = false).
    { destruct Hc as [Hc|]; [|done]. destruct (sc_progress s2); [|done]. destruct (Hp eq_refl); [done|congruence]. }
    specialize (Hn Hnow Hpr). rewrite Forall_forall in Hn. apply (Hn slot). by apply order_covers. }
  case_goal.
  - destruct (lxp_console_poll_interrupts _ _ _ _) as [[raised c] k]. intros Hnow Hc slot Hs.
    assert (Hn2 : noted now s2 (slot_at (c_rt (bs_c b)) slot)).
    { apply Hslots; try done. destruct Hc as [Hc|Hc]; [left|right]; destruct raised; done. }
    destruct raised; [|done]. eapply noted_le; [apply progress_le|done].
  - intros Hnow Hc slot Hs. by apply Hslots.
Qed.
End Calm.

(** C18: The coordinator neither stops nor sleeps while a guest needs it.  A scan that reports
    no living task has found every slot dead.  After a scan without progress the loop sleeps
    between 1 and 50 ms, and for each living, unstopped task: within 5 ms if the task waits for
    something that is only polled (pipes, devices, terminals, the network file system,
    futexes); and if its timer or futex deadline is still ahead at the scan, the scan's next
    deadline is no later, and the loop wakes less than a millisecond after it, provided that
    next deadline is ahead too (it is not only when an interval timer's next expiry wraps 64
    bits of microseconds).  A deadline that had already passed is outside the claim: it is
    served only by a scan of its service class ([overdue_timer_sleeps]).  Providers may be
    anything that leaves the tasks alone when it answers EAGAIN. *)
Theorem scan_never_oversleeps {H X} (ops : os_task H) (core : os_core H) (cons : os_console H)
    (mops : os_memory H) (bops : blocked_ops H X) {L : RetryLaws bops} now vid b s b' sre cre :
  0 <= now -> lxp_scan_blocked ops core cons mops bops now vid b = (s, b') ->
  (sc_any_alive s = false -> forall slot, 0 <= slot < LXP_NSLOT -> p_alive (bproc b slot) = 0) /\
  (sc_progress s = false ->
   let to := coordinator_sleep_ms now s sre cre in
   1 <= to <= 50 /\
   forall slot, 0 <= slot < LXP_NSLOT -> p_alive (bproc b slot) <> 0 -> p_stopped (bproc b slot) = 0 ->
     (lxp_blocked_wait_policy (w_kind (p_wait (bproc b slot))) = LXP_BLOCKED_WAIT_POLL -> to <= 5) /\
     (forall d, timer_deadline (p_wait (bproc b slot)) = Some d -> now < d < UINT64_MAX ->
        sc_next_deadline_us s <= d /\
        (now < sc_next_deadline_us s -> 1000 * to < d - now + 1000))).
Proof.
  intros Hnow Hrun. pose proof (scan_spec ops core cons mops bops now vid b) as Hs. rewrite Hrun in Hs.
  pose proof (Hs Hnow) as Hn. split.
  - intros Ha slot Hsl. destruct (decide (p_alive (bproc b slot) = 0)) as [|Hx]; [done|].
    destruct (Hn (or_introl Ha) slot Hsl Hx) as (Ht & _). congruence.
  - intros Hp to. split; [apply sleep_positive|]. intros slot Hsl Hx Hst.
    destruct (Hn (or_intror Hp) slot Hsl Hx) as (_ & Hno). destruct (Hno Hst) as (Hpol & Hdl). split.
    + intros Hk. apply sleep_polled, Hpol. change (p_wait (sl_proc (slot_at (c_rt (bs_c b)) slot))) with (p_wait (bproc b slot)).
      by rewrite Hk.
    + intros d Hd Hr. specialize (Hdl d Hd ltac:(lia)). split; [done|]. intros Hlt. apply sleep_bound; lia.
Qed.

(** ** Futex waits *)

(** What the coordinator's visit at time [t] does with a parked waiter: resumes it with 0 if it
    is marked, with ETIMEDOUT if its deadline has passed, and otherwise leaves it. *)
Definition futex_visit {H X} (ops : os_task H) (c : coord H) (slot d : Z) (woken : bool) : Prop :=
  forall (b : bstate H X) t s, bs_c b = c -> brunnable b slot = false ->
    lxp_blocked_retry_futex ops t b slot s =
      let resume rc := (bcomplete ops (finish_wait b slot LXP_WAIT_FUTEX) slot rc, set_sc_progress (set_sc_busy s)) in
      if woken then resume 0
      else if negb (d =? 0) && (t >=? d) then resume (- LXP_ETIMEDOUT)
      else (b, lxp_blocked_note_deadline (set_sc_busy s) d).

Lemma visit_waiting {H X} (ops : os_task H) (c : coord H) slot ua d woken :
  futex_waiting c slot ua d woken -> futex_visit (X := X) ops c slot d woken.
Proof.
  intros (_ & Hk & Hd) b t s <- Hr. unfold lxp_blocked_retry_futex, waits_for, bproc. rewrite Hk, Hr.
  rewrite bool_decide_true by done. cbn [negb andb]. unfold futex_state. by rewrite Hd.
Qed.

(** C20: A futex wake-up is not lost.  A FUTEX_WAIT of a living task either returns EFAULT or
    EAGAIN with every task unchanged, or it parks having seen the expected value in the guest's
    word and a thread that can still wake it.  From then on, through any futex calls of other
    tasks and any steps that leave this task alive with its wait as it is, it keeps waiting at
    that address with that deadline, marked or not.  A FUTEX_WAKE at that address for at least
    as many threads as wait there unmarked, made by any slot at any such moment, leaves it
    marked, and through any later such steps it stays marked.  A visit of the coordinator to
    the parked task resumes a marked waiter with 0, whatever its deadline, an unmarked one with
    ETIMEDOUT once its deadline has passed, and leaves any other waiter in place.  (A signal
    that ends the wait, or a visit that resumes it, is not such a step.) *)
Theorem futex_no_lost_wakeup {H X} (ops : os_task H) (core : os_core H) now (c : coord H) f slot t64 f1 c1 :
  coord_wf c -> slot_in slot = true -> is_wait f -> p_alive (cproc c slot) <> 0 ->
  lxp_futex ops core now c f slot t64 = (f1, c1) ->
  (exists e, f1 = set_freg f 0 e /\ e ∈ [u32 (- LXP_EFAULT); u32 (- LXP_EAGAIN)] /\
             forall s, 0 <= s -> cproc c1 s = cproc c s) \/
  (lxp_guest_get_u32 (cgenv c) (cmem c) slot (freg f 0) = inr (freg f 2) /\
   lxp_futex_has_corunner c slot = true /\
   exists d, futex_waiting c1 slot (freg f 0) d false /\
   forall c2, meanwhile ops core slot c1 c2 ->
     (exists woken, futex_waiting c2 slot (freg f 0) d woken /\ futex_visit (X := X) ops c2 slot d woken) /\
     forall now' g waker t64', frame_wf g -> is_wake g -> slot_in waker = true -> freg g 0 = freg f 0 ->
       alen (waiters c2 (freg f 0)) <= freg g 2 < 2 ^ 32 ->
       forall c3, meanwhile ops core slot (lxp_futex ops core now' c2 g waker t64').2 c3 ->
         futex_waiting c3 slot (freg f 0) d true /\ futex_visit (X := X) ops c3 slot d true).
Proof.
  intros Hwf Hs Hop Hal Hrun. pose proof (futex_others ops core now c f slot t64 Hwf Hs) as [Hwf1 _]. rewrite Hrun in Hwf1.
  destruct (wait_spec ops core now c f slot t64 f1 c1 Hwf Hs Hop Hrun Hal) as [Herr|(Hg & Hco & Hw & _)]; [by left|].
  right. split; [done|]. split; [done|]. destruct (waiter_waiting _ _ _ Hw) as [d Hd]. exists d. split; [done|]. intros c2 Hm.
  destruct (meanwhile_keeps ops core slot c1 c2 _ d false Hm Hs Hwf1 Hd) as (Hwf2 & woken & Hw2 & _).
  split; [exists woken; by eauto using visit_waiting|]. intros now' g waker t64' Hgf Hwk Hsw Hua Hn c3 Hm3.
  pose proof (wake_marks ops core now' c2 g waker t64' slot _ d woken Hwf2 Hs Hgf Hwk Hua Hn Hw2) as Hmark.
  destruct (futex_others ops core now' c2 g waker t64' Hwf2 Hsw) as [Hwf3 _].
  destruct (meanwhile_keeps ops core slot _ c3 _ d true Hm3 Hs Hwf3 Hmark) as (_ & woken' & Hw3 & Himp).
  rewrite (Himp eq_refl) in Hw3. eauto using visit_waiting.
Qed.

(** ** Stopped tasks *)

Definition stops (R : lxp_runtime) : list Z := map (fun x => p_stopped (sl_proc x)) (rt_slots R).

Lemma stops_at R R' s : stops R' = stops R -> p_stopped (sproc R' s) = p_stopped (sproc R s).
Proof.
  intros E. unfold sproc, slot_at, aget. rewrite <- !(map_nth (fun x => p_stopped (sl_proc x))).
  fold (stops R) (stops R'). by rewrite E.
Qed.

Lemma stops_put_slot R s x : p_stopped (sl_proc x) = p_stopped (sproc R s) -> stops (put_slot R s x) = stops R.
Proof.
  intros E. unfold stops, put_slot. cbn [rt_slots set_rt_slots]. unfold aset. rewrite list_fmap_insert.
  apply list_insert_id'. intros Hlt. rewrite length_fmap in Hlt. rewrite list_lookup_fmap.
  destruct (lookup_lt_is_Some_2 _ _ Hlt) as [y Hy]. rewrite Hy. cbn. rewrite E.
  unfold sproc, slot_at. by rewrite (aget_lookup slot_zero _ _ _ Hy).
Qed.

Lemma stops_quiet R R' : quiet R R' -> stops R' = stops R.
Proof.
  intros (_ & _ & _ & _ & _ & _ & Hs).
  assert (E : forall R, stops R = map (fun t => p_stopped t.1.1.1.1) (map slot_core (rt_slots R)))
    by (intros; unfold stops; by rewrite map_map).
  by rewrite !E, Hs.
Qed.

Lemma stops_lift {H} (c : coord H) r : quiet (c_rt c) r.2 -> stops (c_rt (lift c r)) = stops (c_rt c).
Proof. intros Hq. destruct r as [[rc h] R]. by apply stops_quiet. Qed.

Lemma push_stops {H} (c : coord H) slot sig : stops (c_rt (lxp_sig_save_push c slot sig).2) = stops (c_rt c).
Proof.
  unfold lxp_sig_save_push. cbv zeta. case_goal; [done|]. case_goal; [done|].
  destruct (negb (p_sigsuspend_active (cproc c slot) =? 0)); cbn [snd]; by apply stops_put_slot.
Qed.

Lemma prepare_stops {H} (c : coord H) slot sig : stops (c_rt (lxp_signal_prepare c slot sig).2) = stops (c_rt c).
Proof.
  unfold lxp_signal_prepare. cbv zeta. do 3 (case_goal; [done|]).
  case_goal; [by apply stops_put_slot|].
  destruct (lxp_resolve_handler c slot sig) as [|[[entry got] restorer]]; [by apply stops_put_slot|].
  pose proof (push_stops c slot sig) as Hp. destruct (lxp_sig_save_push c slot sig) as [[i|] c1]; [done|].
  cbn [snd] in *. rewrite <- Hp. by apply stops_put_slot.
Qed.

(** Delivery of a signal that does not stop its target changes no stop flag. *)
Lemma deliver_parked_stops {H} (ops : os_task H) (c : coord H) slot sig ret :
  lxp_sig_is_stop sig = false -> stops (c_rt (lxp_deliver_signal_parked ops c slot sig ret)) = stops (c_rt c).
Proof.
  intros Hns. unfold lxp_deliver_signal_parked. cbv zeta. pose proof (prepare_stops c slot sig) as Hp.
  destruct (lxp_signal_prepare c slot sig) as [[action d] c1] eqn:E. cbn [snd] in Hp. destruct action.
  - done.
  - rewrite stops_lift by (apply quiet_complete). done.
  - exfalso. revert E. unfold lxp_signal_prepare, lxp_sig_stops_proc. rewrite Hns. cbn [negb].
    repeat case_goal; intros E; congruence.
  - rewrite <- Hp. apply stops_quiet, quiet_mark.
  - rewrite <- Hp.
    match goal with |- stops (c_rt (match mm_of (c_rt ?x) _ with Some _ => _ | None => _ end)) = _ => set (c2 := x) end.
    assert (E2 : stops (c_rt c2) = stops (c_rt c1)) by (unfold c2; cbn [c_rt set_c_rt]; by apply stops_put_slot).
    destruct (mm_of _ _); [|done]. rewrite stops_lift by apply quiet_resume_slot. done.
Qed.

(** Cancelling a provider's request does not stop or continue tasks. *)
Class CancelLaws {H X} (bops : blocked_ops H X) := {
  dev_cancel_stops x c slot : stops (c_rt (dev_cancel bops x c slot).2) = stops (c_rt c);
  netfs_cancel_stops x c slot : stops (c_rt (netfs_cancel bops x c slot).2) = stops (c_rt c);
  hostfs_cancel_stops x c slot : stops (c_rt (hostfs_cancel bops x c slot).2) = stops (c_rt c);
}.

Lemma interrupt_stops {H X} (ops : os_task H) (bops : blocked_ops H X) {L : CancelLaws bops} (b : bstate H X) slot sig :
  lxp_sig_is_stop sig = false ->
  stops (c_rt (bs_c (interrupt_and_deliver ops bops b slot sig))) = stops (c_rt (bs_c b)).
Proof.
  intros Hns. unfold interrupt_and_deliver. cbn [bs_c set_bs_c]. rewrite deliver_parked_stops by done.
  unfold lxp_blocked_interrupt_wait. cbv zeta. set (b1 := match _ with Some _ => _ | None => _ end).
  assert (E1 : stops (c_rt (bs_c b1)) = stops (c_rt (bs_c b))).
  { unfold b1.
    pose proof (dev_cancel_stops (bs_x b) (bs_c b) slot) as Hd. pose proof (netfs_cancel_stops (bs_x b) (bs_c b) slot) as Hn.
    pose proof (hostfs_cancel_stops (bs_x b) (bs_c b) slot) as Hh.
    destruct (w_kind (p_wait (bproc b slot))); try done.
    - by destruct (dev_cancel bops _ _ _) as [x c].
    - by destruct (netfs_cancel bops _ _ _) as [x c].
    - by destruct (hostfs_cancel bops _ _ _) as [x c]. }
  rewrite <- E1. apply stops_put_slot. cbn [sl_proc set_sl_proc]. unfold lxp_wait_interrupt, wait_finish. by case_goal.
Qed.

(** A stopped task is resolved by its signals alone.  A pending signal that ends it, not
    blocked, takes precedence over SIGCONT: the task leaves the stop with an exit intent, the
    signal's status and its event hint, and the host is not called, so no guest code runs.
    Otherwise a pending SIGCONT always ends the stop, caught, blocked or ignored, ready or
    waiting.  With neither, nothing changes. *)
Theorem stopped_task_resolved {H X} (ops : os_task H) (bops : blocked_ops H X) {L : CancelLaws bops}
    (b : bstate H X) slot s skip b' s' :
  coord_wf (bs_c b) -> hints_wf (c_rt (bs_c b)) -> slot_in slot = true -> p_stopped (bproc b slot) <> 0 ->
  lxp_blocked_handle_stopped ops bops b slot s = (skip, b', s') ->
  let fatal := lxp_blocked_pending_fatal (bproc b slot) (bsighand b slot) in
  skip = true /\
  (fatal <> 0 ->
     is_fatal (bproc b slot) (bsighand b slot) fatal = true /\ p_stopped (bproc b' slot) = 0 /\
     p_intent (bproc b' slot) = LXP_INTENT_EXIT false /\ p_exit_status (bproc b' slot) = 128 + fatal /\
     lxp_primary_slot_pending (c_rt (bs_c b')) slot = true /\ c_h (bs_c b') = c_h (bs_c b)) /\
  (fatal = 0 -> has (p_pending_sigs (bproc b slot)) (lxp_sig_bit LXP_SIGCONT) = true -> p_stopped (bproc b' slot) = 0) /\
  (fatal = 0 -> has (p_pending_sigs (bproc b slot)) (lxp_sig_bit LXP_SIGCONT) = false -> b' = b).
Proof.
  intros Hwf Hh Hs Hst Hrun fatal. unfold lxp_blocked_handle_stopped in Hrun.
  rewrite (proj2 (Z.eqb_neq (p_stopped _) 0)) in Hrun by done. cbv zeta in Hrun. fold fatal in Hrun.
  destruct (Z.eqb_spec fatal 0) as [Hf|Hf]; cbn [negb] in Hrun.
  - destruct (has (p_pending_sigs (bproc b slot)) (lxp_sig_bit LXP_SIGCONT)).
    + injection Hrun as <- <- <-. split; [done|]. split; [done|]. split; [|done]. intros _ _.
      unfold stopped_continue. cbv zeta.
      match goal with |- context [put_bproc b slot (lxp_blocked_clear_stop ?p)] =>
        set (b1 := put_bproc b slot (lxp_blocked_clear_stop p)) end.
      assert (E1 : p_stopped (bproc b1 slot) = 0) by (unfold b1, bproc, put_bproc; cbn [bs_c set_bs_c]; by rewrite cproc_put).
      assert (Hk : forall b2 : bstate H X, stops (c_rt (bs_c b2)) = stops (c_rt (bs_c b1)) -> p_stopped (bproc b2 slot) = 0).
      { intros b2 E. unfold bproc, cproc in *. by rewrite (stops_at _ _ slot E). }
      repeat case_goal; apply Hk; try done.
      * by rewrite interrupt_stops.
      * cbn [bs_c set_bs_c]. by rewrite deliver_parked_stops.
      * cbn [bs_c set_bs_c]. rewrite stops_lift by apply quiet_resume_slot. done.
    + by injection Hrun as <- <- <-.
  - injection Hrun as <- <- <-. split; [done|]. split; [|done]. intros _.
    assert (Hfat : is_fatal (bproc b slot) (bsighand b slot) fatal = true).
    { unfold fatal, lxp_blocked_pending_fatal in *. destruct (filter _ _) as [|x l] eqn:E; [done|]. cbn [head default].
      assert (Hin : x ∈ filter (fun sig => is_fatal (bproc b slot) (bsighand b slot) sig = true) (seqZ 1 (LXP_NSIG - 1)))
        by (rewrite E; constructor). by apply list_elem_of_filter in Hin as [Hin _]. }
    split; [done|].
    set (p := lxp_signal_terminate _ fatal _ _ _).
    assert (Ep : bproc (bmark (put_bproc b slot p) slot) slot = p).
    { unfold bproc, bmark, put_bproc. cbn [bs_c set_bs_c]. unfold lxp_primary_slot_mark. rewrite Hs. cbn [negb].
      change (cproc (put_cproc (bs_c b) slot p) slot = p). by apply cproc_put. }
    rewrite Ep. do 3 (split; [done|]). split; [|done].
    pose proof (proj1 (slot_in_range slot) Hs) as Hr. unfold bmark, put_bproc. cbn [bs_c set_bs_c c_rt set_c_rt].
    rewrite pending_mark; [by rewrite Z.eqb_refl, orb_true_r|exact Hh|done|done].
Qed.

(** ** Device windows *)

Section Window.
Context {H X : Type} (ops : os_task H) (mops : os_memory H) (bops : blocked_ops H X).
Implicit Types (c : coord H) (b : bstate H X).

(** A port that accepts every window. *)
Definition accepts_windows (g : H -> Z -> Z -> Z -> Z -> Z * H) : Prop := forall h s a l t, (g h s a l t).1 = 0.

Lemma map_mm_accepted g mi mm addr len attrs l : accepts_windows g -> forall c,
  (map_mm_loop mops g c mi mm addr len attrs l).1 = 0 /\ c_rt (map_mm_loop mops g c mi mm addr len attrs l).2 = c_rt c.
Proof.
  intros Hg. induction l as [|s l IH]; intros c; cbn [map_mm_loop]; [done|].
  case_goal; [apply IH|]. pose proof (Hg (c_h c) s addr len attrs) as Hr.
  destruct (g (c_h c) s addr len attrs) as [rc h]. cbn [fst] in Hr. rewrite Hr. cbn [negb Z.eqb].
  destruct (IH (set_c_h c h)) as (E1 & E2). by rewrite E1, E2.
Qed.

Lemma complete_k b slot rc : rt_k (c_rt (bs_c (bcomplete ops b slot rc))) = rt_k (c_rt (bs_c b)).
Proof.
  unfold bcomplete. cbn [bs_c set_bs_c].
  pose proof (quiet_complete ops (c_h (bs_c b)) (c_rt (bs_c b)) (lxp_slot_ref_at (c_rt (bs_c b)) slot) rc) as Hq.
  destruct (lxp_coordinator_complete_slot _ _ _ _ _) as [[r h] R]. cbn [snd] in Hq. exact (quiet_k _ _ Hq).
Qed.
End Window.

(** A device window is recorded in the address space only below two gigabytes.  The port
    has accepted the mapping for every task that shares the address space and the guest is
    given its address, but a window at 2^31 or above is a negative result: the address
    space keeps no record of it, so the guest boundary refuses the window's addresses and
    the next rebuild of the task's windows drops it. *)
Theorem device_window_commit {H X} (ops : os_task H) (mops : os_memory H) (bops : blocked_ops H X)
    (b : bstate H X) slot s mi g w buffer length command map b' s' :
  map_device mops = Some g -> accepts_windows g ->
  waits_for b slot LXP_WAIT_DEVICE = true -> w_op (p_wait (bproc b slot)) = LXP_DEVW_MMAP ->
  w_data (p_wait (bproc b slot)) = WD_IO w 0 buffer length 0 command 0 -> p_mm (bproc b slot) = Some mi ->
  0 <= buffer < 2 ^ 32 -> map = lxp_device_map_index (bs_c b) (bproc b slot) buffer length -> 0 <= map ->
  lxp_blocked_retry_device ops mops bops b slot s = (b', s') ->
  let mms := k_mm (rt_k (c_rt (bs_c b))) in
  k_mm (rt_k (c_rt (bs_c b'))) =
    if buffer <? 2 ^ 31 then aset mms mi (commit_window (aget mm_zero mms mi) map buffer length (u32 command)) else mms.
Proof.
  intros Hm Hg Hw Hop Hd Hmm Hb -> Hmap Hrun mms. unfold lxp_blocked_retry_device in Hrun.
  rewrite Hw, Hop in Hrun. cbn [negb Z.eqb] in Hrun. unfold retry_device_mmap in Hrun.
  rewrite Z.eqb_refl, Hd, Hmm in Hrun. cbv zeta in Hrun. rewrite Z.geb_leb, (proj2 (Z.leb_le 0 _) Hmap) in Hrun.
  unfold lxp_coordinator_map_mm_range in Hrun. rewrite Hm in Hrun. fold mms in Hrun.
  pose proof (map_mm_accepted mops g mi (aget mm_zero mms mi) buffer length (u32 command) (seqZ 0 LXP_NSLOT) Hg (bs_c b))
    as (E1 & E2).
  destruct (map_mm_loop mops g (bs_c b) mi (aget mm_zero mms mi) buffer length (u32 command) _) as [rc c].
  cbn [fst snd] in E1, E2. subst rc. cbn [Z.eqb] in Hrun. apply pair_equal_spec in Hrun as [<- _].
  rewrite complete_k. unfold finish_wait, put_bproc. cbn [bs_c set_bs_c].
  change (rt_k (c_rt (put_cproc ?c0 slot ?p))) with (rt_k (c_rt c0)).
  destruct (Z.ltb_spec buffer (2 ^ 31)).
  - assert (Es : s32 buffer = buffer) by (unfold s32; lia). rewrite Es, Z.geb_leb, (proj2 (Z.leb_le 0 buffer)) by lia.
    cbn [c_rt set_c_rt rt_k set_rt_k k_mm set_k_mm]. by rewrite E2.
  - assert (Es : s32 buffer < 0) by (unfold s32; lia). rewrite Z.geb_leb, (proj2 (Z.leb_gt 0 _)) by lia. by rewrite E2.
Qed.

(** ** Witnesses *)

(** Providers that are never ready. *)
Definition demo_bops : blocked_ops unit unit :=
  let again x c (_ : Z) := (- LXP_EAGAIN, x, c) in
  mk_blocked_ops again again again again again (fun x c _ _ _ => (- LXP_EAGAIN, x, c))
    (fun x c _ => (x, c)) (fun x c _ => (x, c)) (fun x c _ => (x, c)) (fun _ _ => false).
#[export] Instance demo_retry_laws : RetryLaws demo_bops.
Proof. by split. Qed.
#[export] Instance demo_cancel_laws : CancelLaws demo_bops.
Proof. by split. Qed.

Definition demo_ucons : os_console unit :=
  mk_os_console (fun _ h _ => (0, h)) (fun _ h _ _ _ => (0, [], h)) (fun _ h _ _ _ => (0, h)) (fun h _ => (0, [], h)) None.
Definition demo_port_map (h : unit) (_ _ _ _ : Z) : Z * unit := (0, h).
Definition demo_memory : os_memory unit := mk_os_memory None (Some demo_port_map).

(** Slot 0 waits, slot 1 makes a futex call that marks nobody, then wakes one thread. *)
Definition demo_other_frame : lxp_frame := mk_frame ([0x20000204; 1; 1; 0] ++ replicate 12 0) 0.
Definition demo_between : coord unit := (lxp_futex demo_ops demo_core None demo_waiting.2 demo_other_frame 1 false).2.

Lemma futex_no_lost_wakeup_witness :
  futex_waiting (lxp_futex demo_ops demo_core None demo_between demo_wake_frame 1 false).2 0 0x20000200 0 true.
Proof.
  destruct (futex_no_lost_wakeup (X := unit) demo_ops demo_core None demo_futex_coord demo_wait_frame 0 false
    demo_waiting.1 demo_waiting.2 demo_futex_wf eq_refl (or_introl eq_refl) ltac:(vm_compute; congruence)
    ltac:(apply surjective_pairing)) as [(e & _ & _ & Hc)|(_ & _ & d & (_ & _ & Hd) & Hm)].
  - exfalso. specialize (Hc 0 ltac:(lia)). apply (f_equal (fun p => w_kind (p_wait p))) in Hc.
    revert Hc. vm_compute. discriminate.
  - assert (Hd0 : w_data (p_wait (cproc demo_waiting.2 0)) = WD_FUTEX 0x20000200 0 false) by (vm_compute; reflexivity).
    change (freg demo_wait_frame 0) with 0x20000200 in *. rewrite Hd0 in Hd. injection Hd as <-.
    destruct (Hm demo_between) as [_ Hwake].
    { apply (mw_futex demo_ops demo_core 0 demo_waiting.2 demo_waiting.2 None demo_other_frame 1 false); [apply mw_refl|reflexivity|lia]. }
    apply (Hwake None demo_wake_frame 1 false eq_refl (or_introl eq_refl) eq_refl eq_refl ltac:(split; vm_compute; congruence)).
    apply mw_refl.
Defined.

(** One parked task in slot 0. *)
Definition demo_blocked (p : lxp_proc) : bstate unit unit :=
  let R := set_rt_views (lxp_slot_runnable_store (put_proc demo_rt 0 p) 0 false) [view_zero] in
  mk_bstate (mk_coord tt R (replicate 12 stack_zero)) [] demo_console (mk_fair 0 [0; 0; 0; 0]) false tt.
Lemma demo_blocked_wf p : coord_wf (bs_c (demo_blocked p)).
Proof. by apply fresh_saves_wf. Qed.

Lemma service_schedule_fair_witness :
  select_run (replicate 10 ((fun _ => Some 0), 5)) 3 =
    map Some (drop 3 g_service_schedule ++ take 3 g_service_schedule) /\
  Some LXP_SERVICE_ORDINARY ∈ select_run (replicate 10 ((fun _ => Some 0), 5)) 3.
Proof.
  split; [vm_compute; reflexivity|].
  destruct (service_schedule_fair 3 ltac:(unfold SCHEDULE; lia)) as (_ & Hf & _).
  apply Hf; [done|]. apply Forall_replicate. reflexivity.
Defined.

(** A sleeper due at 5 ms, scanned at 1 ms: the loop sleeps at most 4 ms. *)
Definition demo_sleeper : lxp_proc := set_p_wait demo_proc (mk_wait LXP_WAIT_TIMER 0 0 100 (WD_TIMER 5000)).
Definition demo_scan : lxp_blocked_scan * bstate unit unit :=
  lxp_scan_blocked demo_ops demo_core demo_ucons demo_memory demo_bops 1000 0 (demo_blocked demo_sleeper).

Lemma scan_never_oversleeps_witness :
  sc_progress demo_scan.1 = false /\ 1000 * coordinator_sleep_ms 1000 demo_scan.1 false false < 5000 - 1000 + 1000.
Proof.
  destruct (scan_never_oversleeps demo_ops demo_core demo_ucons demo_memory demo_bops 1000 0 (demo_blocked demo_sleeper)
    demo_scan.1 demo_scan.2 false false ltac:(lia) (surjective_pairing _)) as (_ & Hs).
  assert (Hp : sc_progress demo_scan.1 = false) by (vm_compute; reflexivity).
  split; [exact Hp|]. destruct (Hs Hp) as (_ & Hslot).
  destruct (Hslot 0 ltac:(unfold LXP_NSLOT, LXP_NREG; lia) ltac:(vm_compute; congruence) ltac:(vm_compute; reflexivity)) as (_ & Hd).
  destruct (Hd 5000 ltac:(vm_compute; reflexivity) ltac:(unfold UINT64_MAX; lia)) as (_ & Hto).
  apply Hto. vm_compute. reflexivity.
Defined.

(** The sleeper is due at 5 ms and scanned at 6 ms, beside a task that waits for a socket: the
    scan serves the socket class, does not complete the sleeper and notes no deadline, and
    with readiness events the loop sleeps 50 ms. *)
Definition demo_overdue : bstate unit unit :=
  let b := demo_blocked demo_sleeper in
  let R := put_proc (c_rt (bs_c b)) 1 (set_p_wait demo_proc (mk_wait LXP_WAIT_SOCKET 0 0 100 WD_NONE)) in
  set_bs_c b (set_c_rt (bs_c b) (lxp_slot_runnable_store R 1 false)).

Lemma overdue_timer_sleeps :
  let '(s, b) := lxp_scan_blocked demo_ops demo_core demo_ucons demo_memory demo_bops 6000 0 demo_overdue in
  p_wait (bproc demo_overdue 0) = mk_wait LXP_WAIT_TIMER 0 0 100 (WD_TIMER 5000) /\ p_wait (bproc b 0) = p_wait (bproc demo_overdue 0) /\
  sc_progress s = false /\ sc_next_deadline_us s = UINT64_MAX /\ coordinator_sleep_ms 6000 s true false = 50.
Proof. vm_compute. repeat split. Qed.

(** Stopped, with SIGKILL and SIGCONT both pending: it dies. *)
Definition demo_stopped : lxp_proc :=
  set_p_pending_sigs (set_p_stop_kind (set_p_stopped demo_proc 1) LXP_STOP_PARKED)
    (Z.lor (lxp_sig_bit LXP_SIGKILL) (lxp_sig_bit LXP_SIGCONT)).
Definition demo_unstopped := lxp_blocked_handle_stopped demo_ops demo_bops (demo_blocked demo_stopped) 0 scan_init.

Lemma stopped_task_resolved_witness :
  p_exit_status (bproc demo_unstopped.1.2 0) = 128 + LXP_SIGKILL /\ p_stopped (bproc demo_unstopped.1.2 0) = 0.
Proof.
  destruct (stopped_task_resolved demo_ops demo_bops (demo_blocked demo_stopped) 0 scan_init
    demo_unstopped.1.1 demo_unstopped.1.2 demo_unstopped.2 (demo_blocked_wf _) ltac:(vm_compute; reflexivity) eq_refl
    ltac:(vm_compute; congruence) (pair3_eta _)) as (_ & Hf & _).
  assert (E : lxp_blocked_pending_fatal (bproc (demo_blocked demo_stopped) 0) (bsighand (demo_blocked demo_stopped) 0) = LXP_SIGKILL)
    by (vm_compute; reflexivity).
  rewrite E in Hf. destruct (Hf ltac:(vm_compute; congruence)) as (_ & Hst & _ & Hx & _). split; [exact Hx|exact Hst].
Defined.

(** A frame buffer at 0xC0000000, the usual place of external memory: mapped, not recorded. *)
Definition demo_mapper : lxp_proc :=
  set_p_wait demo_proc (mk_wait LXP_WAIT_DEVICE LXP_DEVW_MMAP 0 0 (WD_IO 0 0 0xC0000000 0x1000 0 0 0)).
Definition demo_mapped := lxp_blocked_retry_device demo_ops demo_memory demo_bops (demo_blocked demo_mapper) 0 scan_init.

Lemma device_window_commit_witness :
  k_mm (rt_k (c_rt (bs_c demo_mapped.1))) = k_mm (rt_k (c_rt (bs_c (demo_blocked demo_mapper)))).
Proof.
  apply (device_window_commit demo_ops demo_memory demo_bops (demo_blocked demo_mapper) 0 scan_init 0 demo_port_map 0
    0xC0000000 0x1000 0 1 demo_mapped.1 demo_mapped.2).
  - reflexivity.
  - intros h s a l t. reflexivity.
  - vm_compute. reflexivity.
  - vm_compute. reflexivity.
  - vm_compute. reflexivity.
  - vm_compute. reflexivity.
  - lia.
  - vm_compute. reflexivity.
  - lia.
  - apply surjective_pairing.
Defined.
