(* ===== verification/Fork.v ===== *)
(** * The fork handler (src/run/lxp_fork.c)

    fork, vfork and clone as the coordinator carries them out: a transaction that takes a
    reference on the parent's region, builds the child's record, installs its device
    windows, counts it, snapshots the shared region for a vfork child, publishes the record
    and only then starts the native task.  Every failure goes through one abort. *)

From S2P Require Import Prelude Config Errno Proc Pool Fd Guest Wait Pipe Arena Process Runtime Event Region Lifecycle.
From S2P Require Import Signal SysSignal Child SignalRoute Exit Console Blocked.
Local Open Scope Z_scope.

(** The points where a test build can make a phase fail; a production build hits none. *)
Inductive lxp_lifecycle_failpoint :=
  | LXP_FAIL_NONE
  | LXP_FAIL_FORK_REGION_ACQUIRED | LXP_FAIL_FORK_CHILD_PREPARED | LXP_FAIL_FORK_MAPS_PREPARED
  | LXP_FAIL_FORK_CHILD_COUNTED | LXP_FAIL_FORK_SNAPSHOT_ACQUIRED | LXP_FAIL_FORK_PUBLISHED
  | LXP_FAIL_EXEC_REGION_ACQUIRED | LXP_FAIL_EXEC_IMAGE_VALIDATED | LXP_FAIL_EXEC_COMMITTED | LXP_FAIL_EXEC_IMAGE_PREPARED
  | LXP_FAIL_EXEC_PUBLISHED | LXP_FAIL_EXEC_NATIVE_STARTED | LXP_FAIL_EXEC_REGION_COMMITTED.

Inductive fork_txn_phase :=
  | FORK_TXN_EMPTY | FORK_TXN_PREPARING | FORK_TXN_PREPARED | FORK_TXN_PUBLISHED | FORK_TXN_COMMITTED
  | FORK_TXN_ABORTED.
#[export] Instance fork_txn_phase_eq_dec : EqDecision fork_txn_phase.
Proof. solve_decision. Defined.

(** [ft_parent] and [ft_child] are the slots of the two records. *)
Record fork_txn := mk_txn {
  ft_parent : Z; ft_child : Z; ft_parent_ref : lxp_ref; ft_child_ref : lxp_ref; ft_parent_region : lxp_ref;
  ft_phase : fork_txn_phase;
  ft_region_acquired : bool; ft_child_constructed : bool; ft_maps_touched : bool; ft_child_counted : bool;
}.

Definition set_ft_phase t v := mk_txn (ft_parent t) (ft_child t) (ft_parent_ref t) (ft_child_ref t) (ft_parent_region t) v
  (ft_region_acquired t) (ft_child_constructed t) (ft_maps_touched t) (ft_child_counted t).
Definition set_ft_region t v := mk_txn (ft_parent t) (ft_child t) (ft_parent_ref t) (ft_child_ref t) (ft_parent_region t)
  (ft_phase t) v (ft_child_constructed t) (ft_maps_touched t) (ft_child_counted t).
Definition set_ft_constructed t v := mk_txn (ft_parent t) (ft_child t) (ft_parent_ref t) (ft_child_ref t) (ft_parent_region t)
  (ft_phase t) (ft_region_acquired t) v (ft_maps_touched t) (ft_child_counted t).
Definition set_ft_maps t v := mk_txn (ft_parent t) (ft_child t) (ft_parent_ref t) (ft_child_ref t) (ft_parent_region t)
  (ft_phase t) (ft_region_acquired t) (ft_child_constructed t) v (ft_child_counted t).
Definition set_ft_counted t v := mk_txn (ft_parent t) (ft_child t) (ft_parent_ref t) (ft_child_ref t) (ft_parent_region t)
  (ft_phase t) (ft_region_acquired t) (ft_child_constructed t) (ft_maps_touched t) v.
Definition clear_ft t ph := mk_txn (ft_parent t) (ft_child t) (ft_parent_ref t) (ft_child_ref t) (ft_parent_region t)
  ph false false false false.

Section Fork.
Context {H B : Type} `{FileOps B} (ops : os_task H) (xops : os_exit H).
(** The address of a slot's exec capture, and the failpoints. *)
Context (exec_capture : Z -> option Z) (failpoint : lxp_lifecycle_failpoint -> bool).
Implicit Types (c : coord H) (b : B) (t : fork_txn).

(** [live_children] of a task's group. *)
Definition bump_live_children c (slot d : Z) : coord H :=
  match p_group (cproc c slot) with
  | Some gi => put_group c gi (set_tg_live_children (group_at c gi) (tg_live_children (group_at c gi) + d))
  | None => c
  end.
Definition live_children_of c (slot : Z) : Z :=
  match group_of c (cproc c slot) with Some g => tg_live_children g | None => 0 end.

(** Store a task together with its pools. *)
Definition put_owned c (slot : Z) (k : kst) (p : lxp_proc) : coord H :=
  put_cproc (set_c_rt c (set_rt_k (c_rt c) k)) slot p.

Definition lxp_fork_txn_prepare c b (parent_slot child_slot clone_flags child_pid : Z) : Z * fork_txn * coord H * B :=
  let parent_ref := lxp_slot_ref_at (c_rt c) parent_slot in
  let c := set_c_rt c (lxp_deferred_slot_reassign (c_rt c) child_slot) in
  let region := match mm_of (c_rt c) (cproc c parent_slot) with Some mm => mm_region mm | None => lxp_region_ref_none end in
  let t := mk_txn parent_slot child_slot parent_ref (lxp_slot_ref_at (c_rt c) child_slot) region FORK_TXN_PREPARING
             false false false false in
  let c := set_c_rt c (lxp_vfork_guard_reset (c_rt c) child_slot) in
  let '(rc, R) := lxp_region_get (c_rt c) region in
  let c := set_c_rt c R in
  if negb (rc =? 0) then (- LXP_EAGAIN, t, c, b)
  else
    let t := set_ft_region t true in
    if failpoint LXP_FAIL_FORK_REGION_ACQUIRED then (- LXP_ENOMEM, t, c, b)
    else
      let thread := negb (Z.land clone_flags LXP_CLONE_THREAD =? 0) in
      let '(rc, k, b, child) := proc_init_child (rt_k (c_rt c)) b (cproc c child_slot) (cproc c parent_slot)
                                  clone_flags child_pid thread in
      let c := put_owned c child_slot k child in
      if negb (rc =? 0) then (- LXP_EAGAIN, t, c, b)
      else
        let t := set_ft_constructed t true in
        if failpoint LXP_FAIL_FORK_CHILD_PREPARED then (- LXP_ENOMEM, t, c, b)
        else
          let c := put_cproc c child_slot (set_p_exec_capture (cproc c child_slot) (exec_capture child_slot)) in
          let c := lxp_slot_signal_clone c child_slot parent_slot in
          let t := set_ft_maps t true in
          let mm := match mm_of (c_rt c) (cproc c child_slot) with Some mm => mm | None => mm_zero end in
          let '(rc, h) := lxp_coordinator_restore_mm_maps (os_mem xops) (c_h c) child_slot mm in
          let c := set_c_h c h in
          if negb (rc =? 0) then (- LXP_ENOMEM, t, c, b)
          else if failpoint LXP_FAIL_FORK_MAPS_PREPARED then (- LXP_ENOMEM, t, c, b)
          else (LXP_OK, set_ft_phase t FORK_TXN_PREPARED, c, b).

Definition lxp_fork_txn_count_child t c : Z * fork_txn * coord H :=
  if bool_decide (ft_phase t <> FORK_TXN_PREPARED) || ft_child_counted t then (- LXP_EINVAL, t, c)
  else let c := bump_live_children c (ft_parent t) 1 in
       (if failpoint LXP_FAIL_FORK_CHILD_COUNTED then - LXP_ENOMEM else LXP_OK, set_ft_counted t true, c).

Definition lxp_fork_txn_snapshot t c (parent_sp : Z) : Z * coord H :=
  if bool_decide (ft_phase t <> FORK_TXN_PREPARED) || negb (ft_child_constructed t) then (- LXP_EINVAL, c)
  else
    let '(snapshot, R) := lxp_vfork_snapshot (os_region xops) (os_dyn_pool xops) (c_rt c) (ft_parent t) (ft_child_ref t) parent_sp in
    let c := set_c_rt c R in
    let c := put_cproc c (ft_child t) (set_p_snapshot (cproc c (ft_child t)) snapshot) in
    if ref_index snapshot <? 0 then (- LXP_ENOMEM, c)
    else (if failpoint LXP_FAIL_FORK_SNAPSHOT_ACQUIRED then - LXP_ENOMEM else LXP_OK, c).

Definition fork_txn_validate t c : Z :=
  let child := cproc c (ft_child t) in
  match mm_of (c_rt c) child, p_files child, p_fs_context child, p_sighand child, p_group child with
  | Some mm, Some _, Some _, Some _, Some _ =>
      if bool_decide (ft_phase t <> FORK_TXN_PREPARED) || negb (ft_region_acquired t) || negb (ft_child_constructed t) ||
         negb (p_alive child =? 0) || negb (lxp_slot_ref_is_current (c_rt c) (ft_parent_ref t)) ||
         negb (lxp_region_ref_equal (mm_region mm) (ft_parent_region t))
      then - LXP_EINVAL else LXP_OK
  | _, _, _, _, _ => - LXP_EINVAL
  end.

Definition lxp_fork_txn_publish t c : Z * fork_txn * coord H :=
  if negb (fork_txn_validate t c =? LXP_OK) then (- LXP_EINVAL, t, c)
  else let c := put_cproc c (ft_child t) (set_p_alive (cproc c (ft_child t)) 1) in
       (if failpoint LXP_FAIL_FORK_PUBLISHED then - LXP_ENOMEM else LXP_OK, set_ft_phase t FORK_TXN_PUBLISHED, c).

Definition lxp_fork_txn_abort t c b : fork_txn * coord H * B :=
  if bool_decide (ft_phase t = FORK_TXN_ABORTED) || bool_decide (ft_phase t = FORK_TXN_COMMITTED) ||
     bool_decide (ft_phase t = FORK_TXN_EMPTY)
  then (t, c, b)
  else
    let child := ft_child t in
    let c := if ft_child_counted t && (live_children_of c (ft_parent t) >? 0)
             then bump_live_children c (ft_parent t) (-1) else c in
    let c := if ft_child_constructed t && (ref_index (p_snapshot (cproc c child)) >=? 0)
             then set_c_rt c (lxp_region_release_if_owned (c_rt c) (p_snapshot (cproc c child)) (ft_child_ref t)).2 else c in
    let c := match map_device (os_mem xops) with
             | Some g => if ft_maps_touched t then set_c_h c ((g (c_h c) child 0 0 0).2) else c
             | None => c
             end in
    let c := if ft_region_acquired t then set_c_rt c (lxp_region_put (c_rt c) (ft_parent_region t)).2 else c in
    let '(c, b) := if ft_child_constructed t
                   then let '(k, b, p) := lxp_proc_child_discard (rt_k (c_rt c)) b (cproc c child) in
                        (put_owned c child k p, b)
                   else (c, b) in
    let c := lxp_slot_signal_reset c child in
    let R := lxp_slot_runnable_store (c_rt c) child false in
    let R := lxp_primary_slot_clear R child in
    let R := lxp_vfork_guard_reset R child in
    (clear_ft t FORK_TXN_ABORTED, set_c_rt c R, b).

Definition lxp_fork_txn_commit t : Z * fork_txn :=
  if bool_decide (ft_phase t <> FORK_TXN_PUBLISHED) then (- LXP_EINVAL, t)
  else (LXP_OK, clear_ft t FORK_TXN_COMMITTED).

Definition fork_parent_resume_error c (parent_slot error : Z) : coord H :=
  let c := lift c (lxp_coordinator_park_slot ops (c_h c) (c_rt c) parent_slot) in
  lift c (lxp_coordinator_complete_slot ops (c_h c) (c_rt c) (lxp_slot_ref_at (c_rt c) parent_slot) error).

(** Abort, then resume the parent with the error. *)
Definition fork_fail_out t c b (parent_slot error next_pid : Z) : coord H * B * Z :=
  let '(_, c, b) := lxp_fork_txn_abort t c b in (fork_parent_resume_error c parent_slot error, b, next_pid).

(** A clone that shares the address space: the child co-runs on its own stack. *)
Definition fork_clone t c b (parent_slot child_slot clone_flags child_stack next_pid : Z) : coord H * B * Z :=
  let '(rc, t, c) := if Z.land clone_flags LXP_CLONE_THREAD =? 0 then lxp_fork_txn_count_child t c else (LXP_OK, t, c) in
  let '(rc, c) := if rc =? LXP_OK
                  then let '(rc, R) := lxp_slot_resume_clone_for_fork (c_rt c) (ft_child_ref t) (ft_parent_ref t) child_stack in
                       (rc, set_c_rt c R)
                  else (rc, c) in
  let '(rc, t, c) := if rc =? LXP_OK then lxp_fork_txn_publish t c else (rc, t, c) in
  let '(rc, t) := if rc =? LXP_OK then lxp_fork_txn_commit t else (rc, t) in
  if negb (rc =? LXP_OK) then fork_fail_out t c b parent_slot rc next_pid
  else
    let c := lift c (lxp_coordinator_park_slot ops (c_h c) (c_rt c) parent_slot) in
    let c := lift c (lxp_coordinator_complete_slot ops (c_h c) (c_rt c) (ft_parent_ref t) (p_pid (cproc c child_slot))) in
    let ridx := match mm_of (c_rt c) (cproc c child_slot) with Some mm => ref_index (mm_region mm) | None => -1 end in
    let c := lift c (lxp_coordinator_resume_slot ops (c_h c) (c_rt c) child_slot ridx
                       (lxp_slot_resume_view (c_rt c) (ft_child_ref t)) 0) in
    (c, b, next_pid + 1).

(** fork and vfork: the child runs in the parent's region while the parent stays parked. *)
Definition fork_vfork t c b (parent_slot child_slot next_pid : Z) : coord H * B * Z :=
  let '(rc, t, c) := lxp_fork_txn_count_child t c in
  let c := put_cproc c child_slot (set_p_vfork_parent (cproc c child_slot) (lxp_slot_ref_at (c_rt c) parent_slot)) in
  let '(rc, c) := if rc =? LXP_OK
                  then match lxp_slot_resume_view (c_rt c) (ft_parent_ref t) with
                       | None => (- LXP_ESRCH, c)
                       | Some ctx => lxp_fork_txn_snapshot t c (rc_sp ctx)
                       end
                  else (rc, c) in
  if negb (rc =? LXP_OK) then fork_fail_out t c b parent_slot rc next_pid
  else
    let '(rc, t, c) := lxp_fork_txn_publish t c in
    let '(rc, t) := if rc =? LXP_OK then lxp_fork_txn_commit t else (rc, t) in
    if negb (rc =? LXP_OK) then fork_fail_out t c b parent_slot rc next_pid
    else
      let c := lift c (lxp_coordinator_park_slot ops (c_h c) (c_rt c) parent_slot) in
      let ridx := match mm_of (c_rt c) (cproc c child_slot) with Some mm => ref_index (mm_region mm) | None => -1 end in
      let c := lift c (lxp_coordinator_resume_slot ops (c_h c) (c_rt c) child_slot ridx
                         (lxp_slot_resume_view (c_rt c) (ft_parent_ref t)) 0) in
      (c, b, next_pid + 1).

(** The first slot without a living task. *)
Definition free_slot c : option Z := List.find (fun s => p_alive (cproc c s) =? 0) (seqZ 0 LXP_NSLOT).

Definition lxp_handle_fork c b (parent_slot next_pid : Z) : coord H * B * Z :=
  let '(clone_flags, child_stack) :=
    match p_intent (cproc c parent_slot) with LXP_INTENT_FORK f s => (f, s) | _ => (0, 0) end in
  let c := put_cproc c parent_slot (lxp_intent_complete (cproc c parent_slot) IK_FORK).2 in
  if (Z.land clone_flags LXP_CLONE_THREAD =? 0) && negb (lxp_fork_capacity_available (group_of c (cproc c parent_slot)))
  then (fork_parent_resume_error c parent_slot (- LXP_EAGAIN), b, next_pid)
  else match free_slot c with
  | None => (fork_parent_resume_error c parent_slot (- LXP_EAGAIN), b, next_pid)
  | Some child_slot =>
      let '(rc, t, c, b) := lxp_fork_txn_prepare c b parent_slot child_slot clone_flags next_pid in
      if negb (rc =? LXP_OK) then fork_fail_out t c b parent_slot rc next_pid
      else if negb (Z.land clone_flags LXP_CLONE_VM =? 0)
      then fork_clone t c b parent_slot child_slot clone_flags child_stack next_pid
      else fork_vfork t c b parent_slot child_slot next_pid
  end.

End Fork.
