(* ===== verification/ForkProps.v ===== *)
(** * Properties of the fork handler

    A fork either publishes exactly one new task or changes nothing that counts: pools,
    region references and child counts come back to their old values on every failure,
    wherever it strikes. *)

From Stdlib Require Import RelationClasses.
From S2P Require Import Prelude Config Errno Proc Pool Fd Guest Wait Pipe Arena Process ProcessSpec ProcessProps.
From S2P Require Import Runtime Event Region RegionProps Lifecycle Quiet Signal SignalProps SysSignal Child ChildProps.
From S2P Require Import SignalRoute Exit Console Blocked Fork.
Local Open Scope Z_scope.

(** ** What the pools' operations do to thread groups *)

(** A group apart from its reference count. *)
Definition group_kept (gi : Z) (k k' : kst) : Prop :=
  set_tg_refs (item (k_groups k') gi) 0 = set_tg_refs (item (k_groups k) gi) 0.

Section Groups.
Context {B : Type} `{FileOps B}.
Implicit Types (k : kst) (b : B) (p child parent : lxp_proc).

Lemma close_groups t (s : kst * B) fd : k_groups (close_step t s fd).1 = k_groups s.1.
Proof. unfold close_step, lxp_fd_close. destruct t; [|done]. destruct (fd_lookup _ _ _); [|done]. by destruct (_ =? 0). Qed.

Lemma close_every_groups t (s : kst * B) : k_groups (close_every t s).1 = k_groups s.1.
Proof.
  unfold close_every. generalize all_fds. intros l. revert s.
  induction l as [|fd l IH]; intros s; cbn [foldl]; [done|]. by rewrite IH, close_groups.
Qed.

Lemma retain_groups k t : k_groups (lxp_fd_table_retain k t).2 = k_groups k.
Proof.
  unfold lxp_fd_table_retain. destruct t as [ti|]; [|done]. destruct (existsb _ _); [done|]. cbn [snd].
  generalize all_fds. intros l. revert k. induction l as [|fd l IH]; intros k; cbn [foldl]; [done|].
  rewrite IH. unfold retain_step. by destruct (fd_lookup _ _ _).
Qed.

(** The pools' groups and the task's own pointer. *)
Definition groups_same k p (r : kst * lxp_proc) : Prop := k_groups r.1 = k_groups k /\ p_group r.2 = p_group p.

Lemma files_put_groups k b p : let '(k', _, p') := files_put k b p in groups_same k p (k', p').
Proof.
  unfold files_put. destruct (p_files p) as [ti|]; [|done]. destruct (_ =? 0); [done|].
  destruct (_ =? 0); [|done]. set (k1 := set_k_files _ _).
  pose proof (close_every_groups (Some ti) (k1, b)) as E. by destruct (close_every _ _).
Qed.

Lemma resources_put_groups k b p : let '(k', _, p') := lxp_proc_resources_put k b p in groups_same k p (k', p').
Proof.
  unfold lxp_proc_resources_put. pose proof (files_put_groups k b p) as E.
  destruct (files_put k b p) as [[k1 b1] p1]. destruct E as (E1 & E2).
  destruct (p_fs_context p1); cbn [p_sighand set_p_fs_context]; by destruct (p_sighand p1).
Qed.

Lemma inherit_groups k p : let '(_, k', p') := lxp_fd_fork_inherit k p in groups_same k p (k', p').
Proof.
  unfold lxp_fd_fork_inherit, files_new. destruct (p_files p) as [src|]; [|done].
  destruct (resource_new (k_files k)) as [[i l]|]; [|done]. set (k1 := set_k_files (set_k_files _ _) _).
  pose proof (retain_groups k1 (Some i)) as E. destruct (lxp_fd_table_retain _ _) as [rc k2].
  by destruct (negb _).
Qed.

Lemma resources_fork_groups k b child parent flags :
  let '(_, k', _, p') := lxp_proc_resources_fork k b child parent flags in groups_same k child (k', p').
Proof.
  unfold lxp_proc_resources_fork. destruct (p_files parent) as [pf|]; [|done].
  destruct (p_fs_context parent) as [pc|]; [|done]. destruct (p_sighand parent) as [ps|]; [|done].
  set (c0 := set_p_sighand _ None).
  assert (Hfail : forall rc k' c', groups_same k child (k', c') ->
    let '(_, k'', _, p') := fork_fail rc k' b c' in groups_same k child (k'', p')).
  { intros rc k' c' (A1 & A2). unfold fork_fail. pose proof (resources_put_groups k' b c') as E.
    destruct (lxp_proc_resources_put k' b c') as [[k1 b1] p1]. destruct E as (E1 & E2).
    cbn [fst snd] in *. split; cbn [fst snd]; congruence. }
  assert (H1 : let '(_, _, k', c') := fork_files k c0 pf flags in groups_same k child (k', c')).
  { unfold fork_files. destruct (has _ _); [by destruct (_ =? _)|].
    pose proof (inherit_groups k (set_p_files c0 (Some pf))) as E.
    destruct (lxp_fd_fork_inherit _ _) as [[rc k1] c1]. by destruct (negb _). }
  destruct (fork_files k c0 pf flags) as [[[ok rc] k1] c1]. destruct (negb ok); [by apply Hfail|].
  assert (H2 : let '(_, _, k', c') := fork_context rc k1 c1 pc flags in groups_same k child (k', c')).
  { unfold fork_context, fs_context_new. destruct (has _ _); [by destruct (_ =? _)|].
    by destruct (resource_new _) as [[i l]|]. }
  destruct (fork_context rc k1 c1 pc flags) as [[[ok2 rc2] k2] c2]. destruct (negb ok2); [by apply Hfail|].
  assert (H3 : let '(_, _, k', c') := fork_sighand rc2 k2 c2 ps flags in groups_same k child (k', c')).
  { unfold fork_sighand, sighand_new. destruct (has _ _); [by destruct (_ =? _)|].
    by destruct (resource_new _) as [[i l]|]. }
  destruct (fork_sighand rc2 k2 c2 ps flags) as [[[ok3 rc3] k3] c3]. destruct (negb ok3); [by apply Hfail|done].
Qed.

Lemma mm_fork_groups k child parent flags :
  let '(_, k', p') := lxp_proc_mm_fork k child parent flags in groups_same k child (k', p').
Proof.
  unfold lxp_proc_mm_fork, mm_new. destruct (p_mm parent) as [pm|]; [|done].
  destruct (has _ _); [by destruct (_ =? _)|]. by destruct (resource_new _) as [[i l]|].
Qed.

(** Giving up a reference keeps the groups that others still own. *)
Lemma group_put_kept k p go gi :
  pool_inv (k_groups k) (p_group p :: go) -> Some gi ∈ go -> group_kept gi k (lxp_proc_group_put k p).1.
Proof.
  intros HP Hin. unfold lxp_proc_group_put, group_kept. destruct (p_group p) as [j|]; [|done].
  cbn [fst k_groups set_k_groups]. destruct HP as [H1 H2].
  assert (Hj : 0 <= j < alen (k_groups k)) by (apply H2; by left).
  assert (Hgi : 0 <= gi < alen (k_groups k)) by (apply H2; by right).
  destruct (H1 j Hj) as [Hr _]. cbn [owned] in Hr. rewrite Z.eqb_refl in Hr. unfold resource_put.
  destruct (_ >? 0); [|done]. destruct (Z.eqb_spec (refs_of (item (k_groups k) j) - 1) 0) as [Hz|Hz].
  - pose proof (owned_pos go gi Hin). rewrite item_aset, decide_False; [done|..|lia|lia].
    intros ->. lia.
  - rewrite item_aset by lia. by destruct (decide _) as [->|].
Qed.

Lemma group_fork_kept k child parent flags pid go gi :
  pool_inv (k_groups k) go -> Some gi ∈ go -> p_group child = None ->
  (forall pg, p_group parent = Some pg -> Some pg ∈ go) ->
  let '(rc, k', p') := lxp_proc_group_fork k child parent flags pid in
  group_kept gi k k' /\ (rc <> 0 -> k_groups k' = k_groups k /\ p_group p' = None).
Proof.
  intros HP Hin Hc Hpar. unfold lxp_proc_group_fork. destruct (p_group parent) as [pg|]; [|done].
  destruct (_ <=? 0); [done|]. pose proof (proj2 HP gi Hin) as Hgi. destruct (has _ _).
  { destruct (_ =? _); [done|]. split; [|done]. unfold group_kept, resource_share.
    cbn [k_groups set_k_groups]. pose proof (proj2 HP pg (Hpar pg eq_refl)).
    rewrite item_aset by lia. by destruct (decide _) as [->|]. }
  unfold group_new. destruct (resource_new (k_groups k)) as [[i l]|] eqn:E; [|done].
  split; [|done]. destruct (resource_new_inv _ _ _ _ E HP) as (Hi & -> & Hz & Ho & _).
  assert (Hne : i <> gi) by (intros ->; pose proof (owned_pos go gi Hin); lia).
  unfold group_kept. cbn [k_groups set_k_groups]. rewrite aset_aset.
  rewrite item_aset, decide_False by (done || lia). done.
Qed.

(** A new task leaves the groups of the existing ones alone, whether it succeeds or not. *)
Lemma init_child_kept k b child parent flags pid thread ps gi :
  proc_inv k ps -> parent ∈ ps -> Some gi ∈ map p_group ps ->
  let '(rc, k', _, _) := proc_init_child k b child parent flags pid thread in group_kept gi k k'.
Proof.
  intros (_ & _ & _ & _ & _ & HP) Hpar Hin. unfold proc_init_child.
  destruct (p_mm parent); [|done]. destruct (p_files parent); [|done]. destruct (p_fs_context parent); [|done].
  destruct (p_sighand parent); [|done]. destruct (p_group parent) as [pg|] eqn:Eg; [|done].
  destruct (_ <=? 0); [done|]. destruct (_ && _); [done|]. destruct (if thread then _ else _); [done|].
  set (c0 := proc_child_copy_values child parent pid).
  pose proof (mm_fork_groups k c0 parent flags) as H1.
  destruct (lxp_proc_mm_fork k c0 parent flags) as [[rc1 k1] c1]. destruct H1 as (A1 & B1). cbn [fst snd] in A1, B1.
  assert (H2 : let '(_, k', _, c') := if rc1 =? 0 then lxp_proc_resources_fork k1 b c1 parent flags else (rc1, k1, b, c1)
               in k_groups k' = k_groups k /\ p_group c' = None).
  { destruct (rc1 =? 0); [|by rewrite A1, B1]. pose proof (resources_fork_groups k1 b c1 parent flags) as E.
    destruct (lxp_proc_resources_fork _ _ _ _ _) as [[[rc2 k2] b2] c2]. destruct E as (E1 & E2).
    cbn [fst snd] in E1, E2. by rewrite E1, E2, A1, B1. }
  destruct (if rc1 =? 0 then _ else _) as [[[rc2 k2] b2] c2]. destruct H2 as (A2 & B2).
  assert (H3 : let '(rc, k', c') := if rc2 =? 0 then lxp_proc_group_fork k2 c2 parent flags pid else (rc2, k2, c2)
               in group_kept gi k k' /\ (rc <> 0 -> k_groups k' = k_groups k /\ p_group c' = None)).
  { destruct (rc2 =? 0); [|by unfold group_kept; rewrite A2].
    pose proof (group_fork_kept k2 c2 parent flags pid (map p_group ps) gi) as E. rewrite A2 in E.
    specialize (E HP Hin B2). unfold group_kept in E |- *. rewrite <- A2 in E |- *.
    apply E. intros pg' Epg. rewrite <- Epg. by apply list_elem_of_fmap_2. }
  destruct (if rc2 =? 0 then _ else _) as [[rc3 k3] c3]. destruct H3 as (K3 & N3).
  destruct (Z.eqb_spec rc3 0) as [->|Hrc]; [done|]. destruct (N3 Hrc) as (A3 & B3). cbn [negb].
  unfold lxp_proc_child_discard. pose proof (resources_put_groups k3 b2 c3) as E.
  destruct (lxp_proc_resources_put k3 b2 c3) as [[k4 b4] c4]. destruct E as (E1 & E2). cbn [fst snd] in E1, E2.
  unfold lxp_proc_mm_put. assert (B4 : p_group c4 = None) by congruence.
  assert (Hk : k_groups k4 = k_groups k) by congruence.
  destruct (p_mm c4); unfold lxp_proc_group_put; cbn [p_group set_p_mm]; rewrite B4; unfold group_kept;
    cbn [k_groups set_k_mm]; by rewrite Hk.
Qed.

(** Discarding a task keeps the groups that others own. *)
Lemma discard_kept k b child ps gi :
  proc_inv k (child :: ps) -> Some gi ∈ map p_group ps ->
  let '(k', _, _) := lxp_proc_child_discard k b child in group_kept gi k k'.
Proof.
  intros (_ & _ & _ & _ & _ & HP) Hin. cbn [map] in HP. unfold lxp_proc_child_discard.
  pose proof (resources_put_groups k b child) as E.
  destruct (lxp_proc_resources_put k b child) as [[k1 b1] c1]. destruct E as (E1 & E2). cbn [fst snd] in E1, E2.
  assert (E3 : groups_same k child (lxp_proc_mm_put k1 c1)) by (unfold lxp_proc_mm_put; by destruct (p_mm c1)).
  destruct (lxp_proc_mm_put k1 c1) as [k2 c2]. destruct E3 as (E3 & E4). cbn [fst snd] in E3, E4.
  pose proof (group_put_kept k2 c2 (map p_group ps) gi) as Hk. rewrite E3, E4 in Hk. specialize (Hk HP Hin).
  unfold group_kept in *. rewrite E3 in Hk. by destruct (lxp_proc_group_put k2 c2).
Qed.
End Groups.

(** ** Tasks of a coordinator *)

Section Tasks.
Context {H : Type}.
Implicit Types (c : coord H).

Definition tasks c : list lxp_proc := map (cproc c) (seqZ 0 LXP_NSLOT).
Definition others c (x : Z) : list lxp_proc := map (cproc c) (filter (fun s => s <> x) (seqZ 0 LXP_NSLOT)).

Definition empty_handed (p : lxp_proc) : Prop := exists a, holdings p = (a, None, None, None, None, None).

(** Slots without a living task own nothing. *)
Definition dead_own_nothing c : Prop :=
  forall s, slot_in s = true -> p_alive (cproc c s) = 0 -> empty_handed (cproc c s).

Lemma tasks_split c x : slot_in x = true -> tasks c ≡ₚ cproc c x :: others c x.
Proof.
  intros Hx%slot_in_range. unfold tasks, others. change (cproc c x :: map (cproc c) ?l) with (map (cproc c) (x :: l)).
  apply fmap_Permutation. apply NoDup_Permutation.
  - apply NoDup_seqZ.
  - constructor; [|apply NoDup_filter, NoDup_seqZ]. rewrite list_elem_of_filter. naive_solver.
  - intros s. rewrite elem_of_cons, list_elem_of_filter, elem_of_seqZ.
    destruct (decide (s = x)) as [->|]; naive_solver lia.
Qed.

Lemma others_in c x s : slot_in s = true -> s <> x -> cproc c s ∈ others c x.
Proof.
  intros Hs%slot_in_range Hne. apply list_elem_of_fmap_2. apply list_elem_of_filter.
  split; [done|]. apply elem_of_seqZ. lia.
Qed.

Lemma few_others c x : few_procs (others c x).
Proof.
  unfold few_procs, others, alen. rewrite length_map.
  pose proof (length_filter (fun s => s <> x) (seqZ 0 LXP_NSLOT)). rewrite length_seqZ in *.
  unfold LXP_NSLOT, LXP_NREG in *. lia.
Qed.

#[export] Instance proc_inv_proper k : Proper ((≡ₚ) ==> iff) (proc_inv k).
Proof.
  intros ps ps' HP. unfold proc_inv, kinv. by rewrite !(fmap_Permutation _ _ _ HP).
Qed.

Lemma proc_inv_holdings k ps ps' : map holdings ps = map holdings ps' -> proc_inv k ps -> proc_inv k ps'.
Proof.
  intros E. unfold proc_inv.
  assert (Hf : forall T (f : Z * option Z * option Z * option Z * option Z * option Z -> T),
    map (fun p => f (holdings p)) ps = map (fun p => f (holdings p)) ps').
  { intros T f. rewrite <- !(map_map holdings f). by rewrite E. }
  rewrite (Hf _ (fun h => h.1.1.2) : map p_files ps = _), (Hf _ (fun h => h.1.2) : map p_fs_context ps = _),
    (Hf _ snd : map p_sighand ps = _), (Hf _ (fun h => h.1.1.1.2) : map p_mm ps = _),
    (Hf _ (fun h => h.1.1.1.1.2) : map p_group ps = _). done.
Qed.

Lemma others_steady c c' x : steady_but x (c_rt c) (c_rt c') -> map holdings (others c' x) = map holdings (others c x).
Proof.
  intros (_ & Ha). unfold others. rewrite !map_map. apply map_ext_in. intros s Hs%list_elem_of_In.
  apply list_elem_of_filter in Hs as (Hne & Hs%elem_of_seqZ). apply Ha; [lia|done].
Qed.

Lemma empty_inv k p ps : empty_handed p -> (proc_inv k (p :: ps) <-> proc_inv k ps).
Proof.
  intros (a & Hh). injection Hh as _ E1 E2 E3 E4 E5. unfold proc_inv, kinv. cbn [map].
  rewrite E1, E2, E3, E4, E5. by rewrite !pool_inv_none.
Qed.

(** The whole invariant from that of the other tasks. *)
Lemma tasks_of_others c c0 x :
  slot_in x = true -> steady_but x (c_rt c0) (c_rt c) ->
  proc_inv (rt_k (c_rt c)) (cproc c x :: others c0 x) -> proc_inv (rt_k (c_rt c)) (tasks c).
Proof.
  intros Hx Hst HP. rewrite (tasks_split c x Hx). eapply proc_inv_holdings; [|exact HP]. cbn [map]. f_equal.
  symmetry. by apply others_steady.
Qed.
End Tasks.

(** ** The transaction *)

Section Txn.
Context {H B : Type} `{FileOps B} (ops : os_task H) (xops : os_exit H).
Context (exec_capture : Z -> option Z) (failpoint : lxp_lifecycle_failpoint -> bool).
Implicit Types (c : coord H) (b : B) (t : fork_txn).

Definition refs_at c (r : Z) : Z := rg_refs (region_at (c_rt c) r).
Definition children_at c (gi : Z) : Z := tg_live_children (group_at c gi).

(** The regions a transaction holds: the parent's and, once taken, the snapshot's. *)
Definition regions_held c0 t c : Prop :=
  let rr := ft_parent_region t in
  let sn := p_snapshot (cproc c (ft_child t)) in
  alen (rt_regions (c_rt c)) = LXP_NREG /\
  (ft_region_acquired t = true ->
     region_in (ref_index rr) = true /\ ref_generation rr <> 0 /\
     rg_generation (region_at (c_rt c) (ref_index rr)) = ref_generation rr /\ 1 <= refs_at c0 (ref_index rr)) /\
  (ft_child_constructed t = true -> 0 <= ref_index sn ->
     region_in (ref_index sn) = true /\ ref_generation sn <> 0 /\
     rg_lease_owner (region_at (c_rt c) (ref_index sn)) = ft_child_ref t /\
     rg_generation (region_at (c_rt c) (ref_index sn)) = ref_generation sn /\ refs_at c0 (ref_index sn) = 0) /\
  forall r, 0 <= r -> refs_at c r = refs_at c0 r + b2z (ft_region_acquired t && (r =? ref_index rr)) +
                                    b2z (ft_child_constructed t && (r =? ref_index sn)).

(** What the pools hold: the child's references, once constructed. *)
Definition owners_held c0 t c : Prop :=
  if ft_child_constructed t then proc_inv (rt_k (c_rt c)) (cproc c (ft_child t) :: others c0 (ft_child t))
  else proc_inv (rt_k (c_rt c)) (others c0 (ft_child t)) /\ p_alive (cproc c (ft_child t)) = 0 /\
       empty_handed (cproc c (ft_child t)).

Record txn_inv (gi : Z) c0 t c : Prop := mk_txn_inv {
  ti_child : slot_in (ft_child t) = true;
  ti_parent : slot_in (ft_parent t) = true /\ ft_parent t <> ft_child t /\ p_group (cproc c0 (ft_parent t)) = Some gi;
  ti_slots : alen (rt_slots (c_rt c)) = LXP_NSLOT;
  ti_steady : steady_but (ft_child t) (c_rt c0) (c_rt c);
  ti_owners : owners_held c0 t c;
  ti_regions : regions_held c0 t c;
  ti_count : 0 <= children_at c0 gi -> children_at c gi = children_at c0 gi + b2z (ft_child_counted t);
}.

(** Steps that only touch the child's slot outside its holdings and snapshot. *)
Lemma txn_inv_slot gi c0 t c c' :
  txn_inv gi c0 t c -> rt_k (c_rt c') = rt_k (c_rt c) -> rt_regions (c_rt c') = rt_regions (c_rt c) ->
  steady_but (ft_child t) (c_rt c) (c_rt c') ->
  holdings (cproc c' (ft_child t)) = holdings (cproc c (ft_child t)) ->
  p_snapshot (cproc c' (ft_child t)) = p_snapshot (cproc c (ft_child t)) -> txn_inv gi c0 t c'.
Proof.
  intros [I1 I2 I3 I4 I5 I6 I7] Ek Er Hst Hh Hs. split; [done|done| | | | |].
  - by rewrite (proj1 Hst).
  - by transitivity (c_rt c).
  - unfold owners_held in *. rewrite Ek. destruct (ft_child_constructed t).
    + eapply proc_inv_holdings; [|exact I5]. cbn [map]. by rewrite Hh.
    + destruct I5 as (P1 & P2 & a & P3). split; [done|].
      split; [change (p_alive ?p) with (holdings p).1.1.1.1.1; by rewrite Hh|]. exists a. by rewrite Hh.
  - unfold regions_held, refs_at, region_at in *. rewrite Hs, Er. exact I6.
  - unfold children_at, group_at in *. by rewrite Ek.
Qed.

(** A phase change of the transaction itself. *)
Lemma txn_inv_phase gi c0 t c ph : txn_inv gi c0 t c -> txn_inv gi c0 (set_ft_phase t ph) c.
Proof. intros [I1 I2 I3 I4 I5 I6 I7]. by split. Qed.
Lemma txn_inv_maps gi c0 t c v : txn_inv gi c0 t c -> txn_inv gi c0 (set_ft_maps t v) c.
Proof. intros [I1 I2 I3 I4 I5 I6 I7]. by split. Qed.

Lemma txn_inv_rt gi c0 t c c' : c_rt c' = c_rt c -> txn_inv gi c0 t c -> txn_inv gi c0 t c'.
Proof.
  intros E I. eapply txn_inv_slot; [exact I|by rewrite E|by rewrite E|by rewrite E|..]; unfold cproc; by rewrite E.
Qed.

Lemma sproc_put_same c x p : alen (rt_slots (c_rt c)) = LXP_NSLOT -> slot_in x = true -> cproc (put_cproc c x p) x = p.
Proof.
  intros Hl Hx%slot_in_range. unfold cproc, put_cproc, put_proc, sproc. cbn [c_rt set_c_rt].
  by rewrite slot_at_put_same by lia.
Qed.

Lemma txn_inv_child gi c0 t c p :
  txn_inv gi c0 t c -> holdings p = holdings (cproc c (ft_child t)) -> p_snapshot p = p_snapshot (cproc c (ft_child t)) ->
  txn_inv gi c0 t (put_cproc c (ft_child t) p).
Proof.
  intros I Hh Hs. pose proof I as [I1 _ I3 _ _ _ _]. eapply txn_inv_slot; [exact I|done|done| |..].
  - apply steady_but_put_cproc. apply slot_in_range in I1. lia.
  - by rewrite sproc_put_same.
  - by rewrite sproc_put_same.
Qed.

(** *** Regions *)

Lemma region_at_put' R r g s :
  alen (rt_regions R) = LXP_NREG -> region_in r = true -> 0 <= s ->
  region_at (put_region R r g) s = if decide (r = s) then g else region_at R s.
Proof.
  intros Hl Hr%region_in_spec Hs. unfold region_at, put_region. cbn [rt_regions set_rt_regions].
  by rewrite aget_aset by lia.
Qed.

Lemma region_get_spec R ref :
  alen (rt_regions R) = LXP_NREG -> (forall r, 0 <= rg_refs (region_at R r)) ->
  let '(rc, R') := lxp_region_get R ref in
  (rc <> 0 /\ R' = R) \/
  (rc = 0 /\ region_in (ref_index ref) = true /\ ref_generation ref <> 0 /\
   rg_generation (region_at R (ref_index ref)) = ref_generation ref /\ 1 <= rg_refs (region_at R (ref_index ref)) /\
   R' = put_region R (ref_index ref) (set_rg_refs (region_at R (ref_index ref)) (rg_refs (region_at R (ref_index ref)) + 1))).
Proof.
  intros Hl Hp. unfold lxp_region_get. specialize (Hp (ref_index ref)).
  destruct (region_in _); cbn [negb orb]; [|by left].
  destruct (Z.eqb_spec (ref_generation ref) 0); [by left|].
  destruct (Z.eqb_spec (rg_generation (region_at R (ref_index ref))) (ref_generation ref)); [|by left].
  destruct (_ >=? 0); [by left|]. destruct (Z.eqb_spec (rg_refs (region_at R (ref_index ref))) 0); [by left|].
  destruct (_ >=? _); [by left|]. right. split_and!; try done. lia.
Qed.

Lemma region_put_spec R ref :
  region_in (ref_index ref) = true -> ref_generation ref <> 0 ->
  rg_generation (region_at R (ref_index ref)) = ref_generation ref -> 1 <= rg_refs (region_at R (ref_index ref)) ->
  exists g, (lxp_region_put R ref).2 = put_region R (ref_index ref) g /\
            rg_refs g = rg_refs (region_at R (ref_index ref)) - 1.
Proof.
  intros Hr Hg He Hp. unfold lxp_region_put. rewrite Hr, He, Z.eqb_refl. cbn [negb orb].
  destruct (Z.eqb_spec (ref_generation ref) 0); [done|]. destruct (Z.eqb_spec (rg_refs (region_at R (ref_index ref))) 0); [lia|].
  cbn [orb snd]. eexists. split; [reflexivity|]. by destruct (_ =? 0).
Qed.

(** *** Counting *)

Lemma steady_group gi c0 t c : txn_inv gi c0 t c -> p_group (cproc c (ft_parent t)) = Some gi.
Proof.
  intros [I1 (P1%slot_in_range & P2 & P3) I3 (_ & I4) _ _ _].
  assert (Ha : 0 <= ft_parent t) by lia. destruct (I4 (ft_parent t) Ha P2) as (Ha' & _).
  change (p_group ?p) with (holdings p).1.1.1.1.2 in *. unfold cproc in *. by rewrite Ha'.
Qed.

Lemma parent_group_in gi c0 t c : txn_inv gi c0 t c -> Some gi ∈ map p_group (others c0 (ft_child t)).
Proof.
  intros [I1 (P1 & P2 & P3) _ _ _ _ _]. rewrite <- P3. apply list_elem_of_fmap_2. by apply others_in.
Qed.

Lemma put_group_inv c gi g ps :
  proc_inv (rt_k (c_rt c)) ps -> Some gi ∈ map p_group ps -> tg_refs g = tg_refs (group_at c gi) ->
  proc_inv (rt_k (c_rt (put_group c gi g))) ps.
Proof. intros HP Hin Hr. by apply kinv_group_update. Qed.

Lemma txn_inv_bump gi c0 t c d v :
  txn_inv gi c0 t c -> b2z (ft_child_counted t) + d = b2z v ->
  txn_inv gi c0 (set_ft_counted t v) (bump_live_children c (ft_parent t) d).
Proof.
  intros I Hd. pose proof (parent_group_in _ _ _ _ I) as Hin. unfold bump_live_children.
  rewrite (steady_group _ _ _ _ I). destruct I as [I1 I2 I3 I4 I5 I6 I7].
  set (g := set_tg_live_children _ _). split; [done|done|done| | |done|].
  - etransitivity; [exact I4|]. apply steady_but_of. by apply steady_slots.
  - unfold owners_held in *. cbn [ft_child_constructed set_ft_counted ft_child] in *. destruct (ft_child_constructed t).
    + apply put_group_inv; [exact I5|by right|done].
    + destruct I5 as (P1 & P2). split; [|exact P2]. by apply put_group_inv.
  - cbn [ft_child_counted set_ft_counted]. unfold children_at in *.
    assert (Hgi : 0 <= gi < alen (k_groups (rt_k (c_rt c)))).
    { unfold owners_held in I5. destruct (ft_child_constructed t).
      - destruct I5 as (_ & _ & _ & _ & _ & HP). apply HP. by right.
      - destruct I5 as ((_ & _ & _ & _ & _ & HP) & _). by apply HP. }
    intros Hpos. specialize (I7 Hpos). rewrite group_at_put by done. unfold g. cbn [tg_live_children set_tg_live_children]. lia.
Qed.

(** *** Roll-back *)

(** Everything a failed transaction must give back. *)
Record undone (gi : Z) c0 (x : Z) c : Prop := mk_undone {
  un_slots : alen (rt_slots (c_rt c)) = LXP_NSLOT;
  un_steady : steady_but x (c_rt c0) (c_rt c);
  un_owners : proc_inv (rt_k (c_rt c)) (others c0 x);
  un_dead : p_alive (cproc c x) = 0 /\ empty_handed (cproc c x);
  un_regions : forall r, 0 <= r -> refs_at c r = refs_at c0 r;
  un_count : 0 <= children_at c0 gi -> children_at c gi = children_at c0 gi;
}.

Lemma refs_at_put c r g s :
  alen (rt_regions (c_rt c)) = LXP_NREG -> region_in r = true -> 0 <= s ->
  refs_at (set_c_rt c (put_region (c_rt c) r g)) s = if decide (r = s) then rg_refs g else refs_at c s.
Proof.
  intros Hl Hr Hs. unfold refs_at. cbn [c_rt set_c_rt]. rewrite region_at_put' by done. by destruct (decide _).
Qed.

(** A runtime that differs in its regions only. *)
Definition only_regions (R R' : lxp_runtime) : Prop :=
  rt_slots R' = rt_slots R /\ rt_k R' = rt_k R /\ alen (rt_regions R') = alen (rt_regions R).

Lemma region_put_only R ref : only_regions R (lxp_region_put R ref).2.
Proof.
  unfold lxp_region_put. destruct (_ || _); [done|]. split; [done|]. split; [done|].
  cbn [snd rt_regions put_region set_rt_regions]. by rewrite alen_aset.
Qed.

(** Returning the snapshot. *)
Lemma abort_snapshot c0 t c :
  regions_held c0 t c ->
  let sn := p_snapshot (cproc c (ft_child t)) in
  let c' := if ft_child_constructed t && (ref_index sn >=? 0)
            then set_c_rt c (lxp_region_release_if_owned (c_rt c) sn (ft_child_ref t)).2 else c in
  only_regions (c_rt c) (c_rt c') /\
  (ft_region_acquired t = true ->
   rg_generation (region_at (c_rt c') (ref_index (ft_parent_region t))) = ref_generation (ft_parent_region t)) /\
  forall r, 0 <= r -> refs_at c' r = refs_at c0 r + b2z (ft_region_acquired t && (r =? ref_index (ft_parent_region t))).
Proof.
  intros (Hl & Hacq & Hsn & Hrefs). cbv zeta. set (sn := p_snapshot _) in *.
  destruct (ft_child_constructed t) eqn:Ec; cbn [andb] in *.
  2:{ split; [done|]. split; [by intros E; apply Hacq|]. intros r Hr. rewrite (Hrefs r Hr). cbn. lia. }
  destruct (Z.geb_spec (ref_index sn) 0) as [Hi|Hi].
  2:{ split; [done|]. split; [by intros E; apply Hacq|]. intros r Hr. rewrite (Hrefs r Hr).
      destruct (Z.eqb_spec r (ref_index sn)); cbn; lia. }
  destruct (Hsn eq_refl ltac:(lia)) as (S1 & S2 & S3 & S4 & S5).
  assert (Hone : refs_at c (ref_index sn) = 1).
  { rewrite (Hrefs (ref_index sn)) by lia. rewrite Z.eqb_refl, S5.
    destruct (ft_region_acquired t); [|done]. destruct (Hacq eq_refl) as (_ & _ & _ & A4).
    destruct (Z.eqb_spec (ref_index sn) (ref_index (ft_parent_region t))) as [E|]; [rewrite <- E in A4; lia|done]. }
  destruct (region_put_spec (c_rt c) sn S1 S2 S4 ltac:(unfold refs_at in Hone; lia)) as (g & Eg & Hg).
  unfold lxp_region_release_if_owned. rewrite S1, S3, S4, Z.eqb_refl. unfold refs_at in Hone. rewrite Hone.
  unfold lxp_slot_ref_equal. rewrite !Z.eqb_refl. cbn [negb orb andb Z.eqb Pos.eqb].
  split; [apply region_put_only|]. rewrite Eg. split.
  - intros E. destruct (Hacq E) as (A1 & _ & A3 & A4). apply region_in_spec in A1. cbn [c_rt set_c_rt].
    rewrite region_at_put' by (done || lia). destruct (decide _) as [Eq|]; [rewrite <- Eq in A4; lia|done].
  - intros r Hr. rewrite refs_at_put by done. destruct (decide _) as [<-|Hne].
    + rewrite Hg, S5, Hone. destruct (ft_region_acquired t); [|done]. destruct (Hacq eq_refl) as (_ & _ & _ & A4).
      destruct (Z.eqb_spec (ref_index sn) (ref_index (ft_parent_region t))) as [E|]; [rewrite <- E in A4; lia|done].
    + rewrite (Hrefs r Hr). destruct (Z.eqb_spec r (ref_index sn)); [congruence|]. cbn. lia.
Qed.

(** Returning the parent's region. *)
Lemma abort_region c0 c (acq : bool) rr :
  alen (rt_regions (c_rt c)) = LXP_NREG ->
  (acq = true -> region_in (ref_index rr) = true /\ ref_generation rr <> 0 /\
     rg_generation (region_at (c_rt c) (ref_index rr)) = ref_generation rr /\ 1 <= refs_at c0 (ref_index rr)) ->
  (forall r, 0 <= r -> refs_at c r = refs_at c0 r + b2z (acq && (r =? ref_index rr))) ->
  let c' := if acq then set_c_rt c (lxp_region_put (c_rt c) rr).2 else c in
  only_regions (c_rt c) (c_rt c') /\ forall r, 0 <= r -> refs_at c' r = refs_at c0 r.
Proof.
  intros Hl Hacq Hrefs. destruct acq; cbv zeta.
  2:{ split; [done|]. intros r Hr. rewrite (Hrefs r Hr). cbn. lia. }
  destruct (Hacq eq_refl) as (A1 & A2 & A3 & A4). pose proof (proj1 (region_in_spec _) A1) as Hi.
  pose proof (Hrefs (ref_index rr) ltac:(lia)) as Hone. rewrite Z.eqb_refl in Hone. cbn [andb b2z] in Hone.
  destruct (region_put_spec (c_rt c) rr A1 A2 A3 ltac:(unfold refs_at in *; lia)) as (g & Eg & Hg).
  split; [apply region_put_only|]. rewrite Eg. intros r Hr. rewrite refs_at_put by done.
  destruct (decide _) as [<-|Hne]; [unfold refs_at in *; lia|].
  rewrite (Hrefs r Hr). destruct (Z.eqb_spec r (ref_index rr)); [congruence|]. cbn. lia.
Qed.

Lemma discard_empties k b p : let '(_, _, p') := lxp_proc_child_discard k b p in p_alive p' = 0 /\ empty_handed p'.
Proof.
  unfold lxp_proc_child_discard. destruct (lxp_proc_resources_put _ _ _) as [[k1 b1] p1].
  destruct (lxp_proc_mm_put _ _). destruct (lxp_proc_group_put _ _). split; [done|]. by exists 0.
Qed.

(** The discard of the child: the pools are the other tasks', the slot is empty. *)
Lemma abort_child gi c0 t c c1 b :
  txn_inv gi c0 t c -> rt_k (c_rt c1) = rt_k (c_rt c) -> rt_slots (c_rt c1) = rt_slots (c_rt c) ->
  let '(c2, b2) := if ft_child_constructed t
                   then let '(k, b, p) := lxp_proc_child_discard (rt_k (c_rt c1)) b (cproc c1 (ft_child t)) in
                        (put_owned c1 (ft_child t) k p, b)
                   else (c1, b) in
  alen (rt_slots (c_rt c2)) = LXP_NSLOT /\ steady_but (ft_child t) (c_rt c0) (c_rt c2) /\
  proc_inv (rt_k (c_rt c2)) (others c0 (ft_child t)) /\
  p_alive (cproc c2 (ft_child t)) = 0 /\ empty_handed (cproc c2 (ft_child t)) /\
  rt_regions (c_rt c2) = rt_regions (c_rt c1) /\ children_at c2 gi = children_at c gi.
Proof.
  intros I Ek Es. pose proof (parent_group_in _ _ _ _ I) as Hin. destruct I as [I1 I2 I3 I4 I5 _ _].
  assert (Hcp : forall s, cproc c1 s = cproc c s) by (intros s; unfold cproc, sproc, slot_at; by rewrite Es).
  assert (Hst : steady_but (ft_child t) (c_rt c0) (c_rt c1)).
  { transitivity (c_rt c); [done|]. apply steady_but_of. by apply steady_slots. }
  assert (Hch : children_at c1 gi = children_at c gi) by (unfold children_at, group_at; by rewrite Ek).
  unfold owners_held in I5. destruct (ft_child_constructed t).
  2:{ rewrite Es, Ek, Hcp. destruct I5 as (P1 & P2 & P3). done. }
  rewrite Ek, Hcp. pose proof (discard_inv (rt_k (c_rt c)) b (cproc c (ft_child t)) _ _ _ _ _ I5) as HD.
  pose proof (discard_kept (rt_k (c_rt c)) b (cproc c (ft_child t)) _ gi I5 Hin) as HK.
  pose proof (discard_empties (rt_k (c_rt c)) b (cproc c (ft_child t))) as HE.
  destruct (lxp_proc_child_discard _ _ _) as [[k b'] p]. destruct HD as (HD & _).
  set (c2 := set_c_rt c1 (set_rt_k (c_rt c1) k)).
  assert (Hl2 : alen (rt_slots (c_rt c2)) = LXP_NSLOT) by (cbn; by rewrite Es).
  unfold put_owned. fold c2. rewrite sproc_put_same by done. pose proof (proj1 (slot_in_range _) I1) as Hr.
  split; [unfold put_cproc, put_proc, put_slot; cbn; by rewrite alen_aset|].
  split; [transitivity (c_rt c1); [done|]; transitivity (c_rt c2);
          [apply steady_but_of; by apply steady_slots|apply steady_but_put_cproc; lia]|].
  split; [exact HD|]. split; [apply HE|]. split; [apply HE|]. split; [done|].
  unfold children_at, group_at. exact (f_equal tg_live_children HK).
Qed.

Lemma quiet_undone gi c0 x c c' : undone gi c0 x c -> quiet (c_rt c) (c_rt c') -> undone gi c0 x c'.
Proof.
  intros [U1 U2 U3 (U4 & U5) U6 U7] Hq. split.
  - by rewrite (quiet_length _ _ Hq).
  - etransitivity; [exact U2|]. apply steady_but_of. by apply quiet_steady.
  - by rewrite (quiet_k _ _ Hq).
  - split; [unfold cproc; by rewrite (quiet_alive _ _ x Hq)|]. destruct U5 as (a & Ha). exists a.
    rewrite <- Ha. exact (f_equal holdings (quiet_strip _ _ x Hq)).
  - intros r Hr. unfold refs_at, region_at in *. rewrite (quiet_regions _ _ Hq). by apply U6.
  - unfold children_at, group_at in *. by rewrite (quiet_k _ _ Hq).
Qed.

Lemma undone_guard gi c0 x c v : undone gi c0 x c -> undone gi c0 x (set_c_rt c (set_rt_vfork_guard (c_rt c) v)).
Proof. intros [U1 U2 U3 U4 U6 U7]. split; try done. Qed.

Lemma undone_pending gi c0 x c v : undone gi c0 x c -> undone gi c0 x (set_c_rt c (set_rt_primary_pending (c_rt c) v)).
Proof. intros [U1 U2 U3 U4 U6 U7]. split; try done. Qed.

Definition active t : Prop := ft_phase t = FORK_TXN_PREPARING \/ ft_phase t = FORK_TXN_PREPARED \/ ft_phase t = FORK_TXN_PUBLISHED.

Lemma set_ft_counted_id t : set_ft_counted t (ft_child_counted t) = t.
Proof. by destruct t. Qed.

Lemma live_children_parent gi c0 t c : txn_inv gi c0 t c -> live_children_of c (ft_parent t) = children_at c gi.
Proof. intros I. unfold live_children_of, group_of. by rewrite (steady_group _ _ _ _ I). Qed.

(** Whatever was acquired, the abort returns it. *)
Lemma abort_undoes gi c0 t c b :
  txn_inv gi c0 t c -> active t -> undone gi c0 (ft_child t) (lxp_fork_txn_abort xops t c b).1.2.
Proof.
  intros I Hact. unfold lxp_fork_txn_abort.
  destruct (_ || bool_decide (ft_phase t = FORK_TXN_EMPTY)) eqn:Ea; [exfalso; destruct Hact as [E|[E|E]]; by rewrite E in Ea|].
  set (c1 := if ft_child_counted t && _ then bump_live_children c (ft_parent t) (-1) else c).
  assert (I1 : txn_inv gi c0 (set_ft_counted t false) c1).
  { unfold c1. rewrite (live_children_parent _ _ _ _ I). pose proof (ti_count _ _ _ _ I) as Ic.
    destruct (ft_child_counted t) eqn:Ec; cbn [andb b2z] in *.
    - destruct (Z.gtb_spec (children_at c gi) 0); [apply txn_inv_bump; [done|]; by rewrite Ec|].
      destruct I as [I1 I2 I3 I4 I5 I6 _]. split; try done. intros Hpos. specialize (Ic Hpos). lia.
    - rewrite <- Ec, set_ft_counted_id. done. }
  clearbody c1. set (t1 := set_ft_counted t false) in *. change (ft_child t) with (ft_child t1).
  change (ft_child_constructed t) with (ft_child_constructed t1). change (ft_child_ref t) with (ft_child_ref t1).
  change (ft_region_acquired t) with (ft_region_acquired t1). change (ft_parent_region t) with (ft_parent_region t1).
  change (ft_maps_touched t) with (ft_maps_touched t1).
  assert (Hct : ft_child_counted t1 = false) by done. clearbody t1. cbv zeta.
  destruct (abort_snapshot c0 t1 c1 (ti_regions _ _ _ _ I1)) as ((S1 & S2 & S3) & S4 & S5).
  set (c2 := if ft_child_constructed t1 && _ then _ else c1) in *. clearbody c2.
  set (c3 := match map_device (os_mem xops) with Some _ => _ | None => _ end).
  assert (E3 : c_rt c3 = c_rt c2) by (unfold c3; destruct (map_device _); [by destruct (ft_maps_touched t1)|done]).
  clearbody c3.
  destruct (abort_region c0 c3 (ft_region_acquired t1) (ft_parent_region t1)) as ((R1 & R2 & R3) & R4).
  { rewrite E3, S3. apply (ti_regions _ _ _ _ I1). }
  { intros Eacq. rewrite E3. destruct (proj1 (proj2 (ti_regions _ _ _ _ I1)) Eacq) as (A1 & A2 & _ & A4). auto. }
  { intros r Hr. unfold refs_at at 1. rewrite E3. by apply S5. }
  set (c4 := if ft_region_acquired t1 then _ else c3) in *. clearbody c4.
  pose proof (abort_child gi c0 t1 c1 c4 b I1 ltac:(congruence) ltac:(congruence)) as HC.
  match type of HC with let (_, _) := ?m in _ => destruct m as [c5 b5] end.
  destruct HC as (C1 & C2 & C3 & C4 & C5 & C6 & C7). cbn [fst snd].
  set (c6 := lxp_slot_signal_reset c5 _). set (R := lxp_slot_runnable_store _ _ _).
  apply (undone_guard gi c0 _ (set_c_rt c6 (lxp_primary_slot_clear R (ft_child t1)))).
  apply (undone_pending gi c0 _ (set_c_rt c6 R)).
  apply (quiet_undone gi c0 _ c6); [|apply quiet_runnable]. split; try done.
  - intros r Hr. rewrite <- (R4 r Hr). unfold refs_at, region_at. change (c_rt c6) with (c_rt c5). by rewrite C6.
  - change (children_at c6 gi) with (children_at c5 gi). intros Hpos. rewrite C7, (ti_count _ _ _ _ I1 Hpos), Hct. cbn. lia.
Qed.

Lemma resume_error_undone gi c0 x c slot error :
  undone gi c0 x c -> undone gi c0 x (fork_parent_resume_error ops c slot error).
Proof.
  intros U. unfold fork_parent_resume_error.
  set (c1 := lift c _). assert (Q1 : quiet (c_rt c) (c_rt c1)).
  { unfold c1, lxp_coordinator_park_slot. pose proof (quiet_apply ops (c_h c) (c_rt c) (LXP_OUTCOME_REMAIN_PARKED slot)) as Q.
    by destruct (lxp_lifecycle_apply _ _ _ _) as [[? ?] ?]. }
  eapply quiet_undone; [eapply quiet_undone; [exact U|exact Q1]|].
  pose proof (quiet_complete ops (c_h c1) (c_rt c1) (lxp_slot_ref_at (c_rt c1) slot) error) as Q.
  by destruct (lxp_coordinator_complete_slot _ _ _ _ _) as [[? ?] ?].
Qed.

Lemma fail_out_undone gi c0 t c b slot error next_pid :
  txn_inv gi c0 t c -> active t ->
  let r := fork_fail_out ops xops t c b slot error next_pid in undone gi c0 (ft_child t) r.1.1 /\ r.2 = next_pid.
Proof.
  intros I Ha. unfold fork_fail_out. pose proof (abort_undoes gi c0 t c b I Ha) as U.
  destruct (lxp_fork_txn_abort _ _ _ _) as [[t' c'] b']. split; [|done]. by apply resume_error_undone.
Qed.

(** *** Construction *)

(** A free slot at the start of a transaction. *)
Definition ready (gi : Z) c (y x : Z) : Prop :=
  alen (rt_slots (c_rt c)) = LXP_NSLOT /\ alen (rt_regions (c_rt c)) = LXP_NREG /\ (forall r, 0 <= refs_at c r) /\
  slot_in y = true /\ slot_in x = true /\ y <> x /\ p_group (cproc c y) = Some gi /\
  p_alive (cproc c x) = 0 /\ empty_handed (cproc c x) /\ proc_inv (rt_k (c_rt c)) (others c x).

Lemma reassign_steady_but R x : 0 <= x -> steady_but x R (lxp_deferred_slot_reassign R x).
Proof. intros Hx. etransitivity; by apply steady_but_put. Qed.

Lemma reassign_proc R x :
  0 <= x < alen (rt_slots R) -> sproc (lxp_deferred_slot_reassign R x) x = sproc R x.
Proof.
  intros Hx. unfold lxp_deferred_slot_reassign, lxp_deferred_state_store, sproc.
  rewrite !slot_at_put_same by (unfold put_slot; cbn; rewrite ?alen_aset; lia). done.
Qed.

(** The child's record replaced together with the pools. *)
Lemma put_owned_same c x k p :
  alen (rt_slots (c_rt c)) = LXP_NSLOT -> slot_in x = true ->
  cproc (put_owned c x k p) x = p /\ steady_but x (c_rt c) (c_rt (put_owned c x k p)) /\
  rt_regions (c_rt (put_owned c x k p)) = rt_regions (c_rt c) /\ rt_k (c_rt (put_owned c x k p)) = k /\
  alen (rt_slots (c_rt (put_owned c x k p))) = LXP_NSLOT.
Proof.
  intros Hl Hx. pose proof (proj1 (slot_in_range x) Hx). unfold put_owned. split; [by apply sproc_put_same|].
  split; [transitivity (set_rt_k (c_rt c) k); [apply steady_but_of; by apply steady_slots|]|].
  - apply (steady_but_put_cproc (set_c_rt c (set_rt_k (c_rt c) k))). lia.
  - split; [done|]. split; [done|]. unfold put_cproc, put_proc, put_slot. cbn. by rewrite alen_aset.
Qed.

(** The pools after building the child, or giving it up. *)
Lemma construct_inv gi c0 t c b flags pid thread :
  txn_inv gi c0 t c -> ft_child_constructed t = false ->
  let '(rc, k, b', p) := proc_init_child (rt_k (c_rt c)) b (cproc c (ft_child t)) (cproc c (ft_parent t)) flags pid thread in
  let c' := put_owned c (ft_child t) k p in
  p_alive p = 0 /\
  if rc =? 0 then txn_inv gi c0 (set_ft_constructed t true) c' /\ p_pid p = pid /\ p_snapshot p = lxp_region_ref_none
  else txn_inv gi c0 t c'.
Proof.
  intros I Ec. pose proof (parent_group_in _ _ _ _ I) as Hin. destruct I as [I1 (P1 & P2 & P3) I3 I4 I5 I6 I7].
  unfold owners_held in I5. rewrite Ec in I5. destruct I5 as (O1 & O2 & O3).
  assert (Hoth : proc_inv (rt_k (c_rt c)) (others c (ft_child t))).
  { eapply proc_inv_holdings; [|exact O1]. symmetry. by apply others_steady. }
  assert (Hin' : Some gi ∈ map p_group (others c (ft_child t))).
  { rewrite <- (steady_group _ _ _ _ (mk_txn_inv gi c0 t c I1 (conj P1 (conj P2 P3)) I3 I4
      ltac:(unfold owners_held; by rewrite Ec) I6 I7)). apply list_elem_of_fmap_2. by apply others_in. }
  pose proof (init_child_inv (rt_k (c_rt c)) b (cproc c (ft_child t)) (cproc c (ft_parent t)) flags pid thread
    (others c (ft_child t)) Hoth (few_others c _) (others_in c _ _ P1 P2)) as Hi.
  pose proof (init_child_kept (rt_k (c_rt c)) b (cproc c (ft_child t)) (cproc c (ft_parent t)) flags pid thread
    (others c (ft_child t)) gi Hoth (others_in c _ _ P1 P2) Hin') as Hk.
  destruct (proc_init_child _ _ _ _ _ _ _) as [[[rc k] b'] p]. cbv zeta.
  destruct (put_owned_same c (ft_child t) k p I3 I1) as (E1 & E2 & E3 & E4 & E5).
  assert (Hst : steady_but (ft_child t) (c_rt c0) (c_rt (put_owned c (ft_child t) k p))) by by transitivity (c_rt c).
  assert (Hcnt : children_at (put_owned c (ft_child t) k p) gi = children_at c gi).
  { unfold children_at, group_at. rewrite E4. exact (f_equal tg_live_children Hk). }
  destruct I6 as (L1 & L2 & L3 & L4).
  destruct Hi as [(Hrc & HK & Hp)|(-> & HK & Hpid & Ha & Hsn & _)].
  - assert (Hp' : p_alive p = 0 /\ empty_handed p) by (destruct Hp as [->| ->]; [done|split; [done|by exists 0]]).
    split; [apply Hp'|]. destruct (Z.eqb_spec rc 0); [done|]. split; try done.
    + unfold owners_held. rewrite Ec, E1, E4. split; [|done]. eapply proc_inv_holdings; [|exact HK]. by apply others_steady.
    + unfold regions_held, refs_at, region_at. rewrite E3, E1, Ec. split; [done|]. split; [done|]. split; [done|].
      intros r Hr. specialize (L4 r Hr). rewrite Ec in L4. exact L4.
    + by rewrite Hcnt.
  - split; [done|]. cbn [Z.eqb]. split; [|done]. split; try done.
    + unfold owners_held. cbn [ft_child_constructed set_ft_constructed ft_child]. rewrite E1, E4.
      eapply proc_inv_holdings; [|exact HK]. cbn [map]. f_equal. by apply others_steady.
    + unfold regions_held, refs_at, region_at. cbn [ft_child_constructed set_ft_constructed ft_child ft_region_acquired ft_parent_region ft_child_ref].
      rewrite E3, E1, Hsn. split; [done|]. split; [done|]. split; [by intros _ []|].
      intros r Hr. specialize (L4 r Hr). rewrite Ec in L4. cbn [andb b2z] in L4.
      destruct (Z.eqb_spec r (ref_index lxp_region_ref_none)) as [Er|]; [cbn in Er; lia|]. exact L4.
    + by rewrite Hcnt.
Qed.

(** The region of a task's address space. *)
Definition region_of c (y : Z) : lxp_ref :=
  match mm_of (c_rt c) (cproc c y) with Some mm => mm_region mm | None => lxp_region_ref_none end.

(** What holds between the phases, beside the resources. *)
Definition between c0 (y x : Z) t c : Prop :=
  ft_child t = x /\ ft_parent t = y /\ ref_index (ft_child_ref t) = x /\ p_alive (cproc c x) = 0 /\
  ft_parent_region t = region_of c0 y.

Lemma start_inv gi c y x :
  ready gi c y x ->
  let region := match mm_of (c_rt c) (cproc c y) with Some mm => mm_region mm | None => lxp_region_ref_none end in
  let c1 := set_c_rt c (lxp_vfork_guard_reset (lxp_deferred_slot_reassign (c_rt c) x) x) in
  let t := mk_txn y x (lxp_slot_ref_at (c_rt c) y) (lxp_slot_ref_at (lxp_deferred_slot_reassign (c_rt c) x) x) region
             FORK_TXN_PREPARING false false false false in
  txn_inv gi c t c1 /\ p_alive (cproc c1 x) = 0.
Proof.
  intros (L1 & L2 & L3 & Hy & Hx & Hne & Hg & Ha & He & HP). cbv zeta.
  pose proof (proj1 (slot_in_range x) Hx) as Hr.
  assert (Ecp : cproc (set_c_rt c (lxp_vfork_guard_reset (lxp_deferred_slot_reassign (c_rt c) x) x)) x = cproc c x).
  { unfold cproc. cbn [c_rt set_c_rt]. change (sproc (lxp_vfork_guard_reset ?R x) x) with (sproc R x).
    apply reassign_proc. lia. }
  split; [|by rewrite Ecp]. split; try done.
  - cbn. unfold lxp_deferred_slot_reassign, lxp_deferred_state_store, put_slot. cbn. by rewrite !alen_aset.
  - apply (reassign_steady_but (c_rt c) x). lia.
  - unfold owners_held. cbn [ft_child_constructed ft_child]. by rewrite Ecp.
  - split; [done|]. split; [done|]. split; [done|]. intros r Hr'. cbn [ft_region_acquired ft_child_constructed andb b2z].
    change (refs_at (set_c_rt c _) r) with (refs_at c r). lia.
  - cbn [ft_child_counted b2z]. change (children_at (set_c_rt c _) gi) with (children_at c gi). lia.
Qed.

Lemma acquire_inv gi c0 t c :
  txn_inv gi c0 t c -> ft_region_acquired t = false -> ft_child_constructed t = false -> (forall r, 0 <= refs_at c0 r) ->
  let '(rc, R) := lxp_region_get (c_rt c) (ft_parent_region t) in
  rt_slots R = rt_slots (c_rt c) /\
  if rc =? 0 then txn_inv gi c0 (set_ft_region t true) (set_c_rt c R) else txn_inv gi c0 t (set_c_rt c R).
Proof.
  intros I Ea Ec Hpos. pose proof (ti_regions _ _ _ _ I) as (L1 & _ & _ & L4).
  assert (Hr0 : forall r, 0 <= r -> refs_at c r = refs_at c0 r).
  { intros r Hr. rewrite (L4 r Hr), Ea, Ec. cbn. lia. }
  assert (Hneg : forall r, 0 <= rg_refs (region_at (c_rt c) r)).
  { intros r. destruct (Z_le_dec 0 r) as [Hr|Hr]; [specialize (Hpos r); rewrite <- (Hr0 r Hr) in Hpos; exact Hpos|].
    unfold region_at, aget. replace (Z.to_nat r) with (Z.to_nat 0) by lia. specialize (Hpos 0). rewrite <- (Hr0 0) in Hpos by lia. exact Hpos. }
  pose proof (region_get_spec (c_rt c) (ft_parent_region t) L1 Hneg) as Hget.
  destruct (lxp_region_get _ _) as [rc R].
  destruct Hget as [(Hrc & ->)|(-> & G1 & G2 & G3 & G4 & ->)].
  { split; [done|]. destruct (Z.eqb_spec rc 0); [done|]. by destruct I. }
  split; [done|]. cbn [Z.eqb]. destruct I as [I1 I2 I3 I4 I5 _ I7]. pose proof (proj1 (region_in_spec _) G1) as Hi.
  split; [done|done|done| | | |done].
  - etransitivity; [exact I4|]. apply steady_but_of. by apply steady_slots.
  - unfold owners_held in *. cbn [ft_child_constructed set_ft_region ft_child]. rewrite Ec in *. exact I5.
  - cbv delta [regions_held] beta. cbn [ft_child_constructed set_ft_region ft_child ft_region_acquired ft_parent_region ft_child_ref].
    rewrite Ec. split; [unfold put_region; cbn; by rewrite alen_aset|]. split; [|split; [done|]].
    + intros _. split; [done|]. split; [done|]. cbn [c_rt set_c_rt]. rewrite region_at_put', decide_True by (done || lia).
      split; [done|]. rewrite <- Hr0 by lia. exact G4.
    + intros r Hr. rewrite refs_at_put by done. rewrite <- (Hr0 r Hr). cbn [andb b2z].
      destruct (decide _) as [<-|Hne]; [rewrite Z.eqb_refl; cbn; unfold refs_at; lia|].
      destruct (Z.eqb_spec r (ref_index (ft_parent_region t))); [congruence|cbn; lia].
Qed.

Lemma prepare_inv gi c0 b y x flags pid :
  ready gi c0 y x ->
  let '(rc, t, c, b') := lxp_fork_txn_prepare xops exec_capture failpoint c0 b y x flags pid in
  txn_inv gi c0 t c /\ between c0 y x t c /\ active t /\ ft_child_counted t = false /\
  (rc = LXP_OK -> ft_phase t = FORK_TXN_PREPARED /\ ft_child_constructed t = true /\ ft_region_acquired t = true /\
     p_pid (cproc c x) = pid /\ p_snapshot (cproc c x) = lxp_region_ref_none /\ region_in (ref_index (ft_parent_region t)) = true).
Proof.
  intros Hr. destruct (start_inv gi c0 y x Hr) as (I0 & A0). destruct Hr as (L1 & L2 & L3 & Hy & Hx & Hne & Hg & Ha & He & HP).
  pose proof (proj1 (slot_in_range x) Hx) as Hxr. unfold lxp_fork_txn_prepare, between, active.
  assert (Epar : cproc (set_c_rt c0 (lxp_deferred_slot_reassign (c_rt c0) x)) y = cproc c0 y).
  { unfold cproc, lxp_deferred_slot_reassign, lxp_deferred_state_store, sproc. cbn [c_rt set_c_rt].
    apply slot_in_range in Hy. by rewrite !slot_at_put_other by lia. }
  assert (Eref : ref_index (lxp_slot_ref_at (lxp_deferred_slot_reassign (c_rt c0) x) x) = x)
    by (unfold lxp_slot_ref_at; by rewrite Hx).
  cbv zeta. cbn [c_rt set_c_rt] in Epar |- *. rewrite Epar.
  change (mm_of (lxp_deferred_slot_reassign ?R x) ?p) with (mm_of R p).
  set (region := match mm_of (c_rt c0) (cproc c0 y) with Some _ => _ | None => _ end) in *.
  set (t0 := mk_txn y x _ _ region _ _ _ _ _) in *. set (c1 := set_c_rt c0 (lxp_vfork_guard_reset _ x)) in *.
  pose proof (acquire_inv gi c0 t0 c1 I0 eq_refl eq_refl L3) as H1. change (ft_parent_region t0) with region in H1.
  change (lxp_vfork_guard_reset (lxp_deferred_slot_reassign (c_rt c0) x) x) with (c_rt c1) at 1.
  destruct (lxp_region_get (c_rt c1) region) as [rc1 R1]. destruct H1 as (E1 & I1).
  assert (A1 : p_alive (cproc (set_c_rt c1 R1) x) = 0)
    by (unfold cproc, sproc, slot_at in *; cbn [c_rt set_c_rt]; by rewrite E1).
  change (set_c_rt (set_c_rt _ _) R1) with (set_c_rt c1 R1). set (c2 := set_c_rt c1 R1) in *.
  destruct (Z.eqb_spec rc1 0) as [->|Hrc1]; cbn [negb]; [|naive_solver].
  set (t1 := set_ft_region t0 true) in *. destruct (failpoint LXP_FAIL_FORK_REGION_ACQUIRED); [naive_solver|].
  set (thread := negb (Z.land flags LXP_CLONE_THREAD =? 0)).
  pose proof (construct_inv gi c0 t1 c2 b flags pid thread I1 eq_refl) as H2.
  change (ft_child t1) with x in H2. change (ft_parent t1) with y in H2.
  cbv zeta in H2. destruct (proc_init_child _ _ _ _ _ _ _) as [[[rc2 k] b2] p]. destruct H2 as (A2 & I2).
  destruct (put_owned_same c2 x k p (ti_slots _ _ _ _ I1) Hx) as (E3 & _). set (c3 := put_owned c2 x k p) in *.
  clearbody c3. destruct (rc2 =? 0); cbn [negb]; [|split; [done|]; rewrite E3; naive_solver].
  destruct I2 as (I2 & Hpid & Hsn). set (t2 := set_ft_constructed t1 true) in *.
  destruct (failpoint LXP_FAIL_FORK_CHILD_PREPARED); [split; [done|]; rewrite E3; naive_solver|].
  set (c4 := put_cproc c3 x _).
  assert (I4 : txn_inv gi c0 t2 c4) by (apply txn_inv_child; done).
  assert (E4 : cproc c4 x = set_p_exec_capture p (exec_capture x)).
  { unfold c4. rewrite sproc_put_same by (done || apply (ti_slots _ _ _ _ I2)). by rewrite E3. }
  clearbody c4. set (c5 := lxp_slot_signal_clone c4 x y). change (c_h c5) with (c_h c4).
  destruct (lxp_coordinator_restore_mm_maps _ _ _ _) as [rc6 h]. set (c6 := set_c_h c5 h).
  assert (I6 : txn_inv gi c0 (set_ft_maps t2 true) c6) by (apply txn_inv_maps; by eapply txn_inv_rt; [|exact I4]).
  assert (E6 : cproc c6 x = set_p_exec_capture p (exec_capture x)) by exact E4. clearbody c6.
  assert (Hin : region_in (ref_index region) = true) by exact (proj1 (proj1 (proj2 (ti_regions _ _ _ _ I6)) eq_refl)).
  destruct (rc6 =? 0); cbn [negb]; [|split; [done|]; rewrite E6; naive_solver].
  destruct (failpoint LXP_FAIL_FORK_MAPS_PREPARED); [split; [done|]; rewrite E6; naive_solver|].
  split; [by apply txn_inv_phase|]. rewrite E6. naive_solver.
Qed.

Lemma count_inv gi c0 t c :
  txn_inv gi c0 t c -> ft_phase t = FORK_TXN_PREPARED -> ft_child_counted t = false ->
  let '(rc, t', c') := lxp_fork_txn_count_child failpoint t c in
  txn_inv gi c0 t' c' /\ t' = set_ft_counted t true /\ forall s, cproc c' s = cproc c s.
Proof.
  intros I Hp Hc. unfold lxp_fork_txn_count_child. rewrite Hp, Hc.
  rewrite bool_decide_eq_false_2 by naive_solver. cbn [orb].
  split; [apply txn_inv_bump; [done|by rewrite Hc]|]. split; [done|]. intros s.
  unfold bump_live_children. by destruct (p_group _).
Qed.

Lemma fork_reserve_spec R r owner :
  let '(sn, R') := lxp_region_reserve R r owner in
  (ref_index sn < 0 /\ R' = R) \/
  (region_in r = true /\ rg_refs (region_at R r) = 0 /\ ref_index sn = r /\ ref_generation sn <> 0 /\
   exists g, R' = put_region R r g /\ rg_refs g = 1 /\ rg_lease_owner g = owner /\ rg_generation g = ref_generation sn).
Proof.
  unfold lxp_region_reserve. destruct (negb (region_in r)) eqn:E1; [by left|].
  destruct (_ || negb (rg_refs (region_at R r) =? 0)) eqn:E2; [by left|]. right.
  apply negb_false_iff in E1. rewrite !orb_false_iff, !negb_false_iff, Z.eqb_eq in E2. destruct E2 as (_ & E2).
  split; [done|]. split; [done|]. split; [done|]. cbn [ref_generation].
  split; [|eexists; split; [reflexivity|done]].
  unfold region_generation_next, generation_next. cbn [rg_generation set_rg_generation].
  destruct (Z.eqb_spec (u32 (rg_generation (set_rg_refs (set_rg_owner (region_at R r) owner) 1) + 1)) 0) as [->|]; done.
Qed.

(** The snapshot's effect on the runtime, up to memory. *)
Lemma snapshot_spec R par child sp :
  let '(sn, R') := lxp_vfork_snapshot (os_region xops) (os_dyn_pool xops) R par child sp in
  rt_slots R' = rt_slots R /\ rt_k R' = rt_k R /\
  ((ref_index sn < 0 /\ rt_regions R' = rt_regions R) \/
   (let r := ref_index sn in region_in r = true /\ rg_refs (region_at R r) = 0 /\ ref_generation sn <> 0 /\
    exists g, rt_regions R' = rt_regions (put_region R r g) /\ rg_refs g = 1 /\ rg_lease_owner g = child /\
              rg_generation g = ref_generation sn)).
Proof.
  unfold lxp_vfork_snapshot. destruct (_ || (p_alive _ =? 0)); [split_and!; auto; by left|].
  destruct (mm_of R _) as [mm|]; [|split_and!; auto; by left].
  destruct (negb _); [split_and!; auto; by left|]. destruct (List.find _ _) as [rs|]; [|split_and!; auto; by left].
  destruct ((sp <? _) || _); [split_and!; auto; by left|]. cbv zeta.
  pose proof (fork_reserve_spec R rs child) as Hr. destruct (lxp_region_reserve R rs child) as [sn R1].
  destruct Hr as [(Hn & ->)|(H1 & H2 & <- & H4 & g & -> & H5)].
  { destruct (Z.ltb_spec (ref_index sn) 0); [|lia]. split_and!; auto. }
  pose proof (proj1 (region_in_spec _) H1). destruct (Z.ltb_spec (ref_index sn) 0); [lia|].
  cbn [rt_slots rt_k rt_regions set_rt_vfork_guard put_arena set_rt_arenas set_rt_mem]. split; [done|]. split; [done|].
  right. split; [done|]. split; [done|]. split; [done|]. by exists g.
Qed.

Lemma snapshot_regions c0 t c R sn p :
  regions_held c0 t c -> ft_child_constructed t = true ->
  p_snapshot (cproc c (ft_child t)) = lxp_region_ref_none -> (forall r, 0 <= refs_at c0 r) ->
  (ref_index sn < 0 /\ rt_regions R = rt_regions (c_rt c)) \/
  (let r := ref_index sn in region_in r = true /\ rg_refs (region_at (c_rt c) r) = 0 /\ ref_generation sn <> 0 /\
   exists g, rt_regions R = rt_regions (put_region (c_rt c) r g) /\ rg_refs g = 1 /\ rg_lease_owner g = ft_child_ref t /\
             rg_generation g = ref_generation sn) ->
  let c1 := set_c_rt c R in
  cproc (put_cproc c1 (ft_child t) p) (ft_child t) = p -> p_snapshot p = sn ->
  regions_held c0 t (put_cproc c1 (ft_child t) p).
Proof.
  intros (L1 & L2 & L3 & L4) Hc Hsn Hpos Hs c1 Ecp Hps.
  unfold regions_held. rewrite Ecp, Hc, Hps.
  assert (Hrt : forall r, refs_at (put_cproc c1 (ft_child t) p) r = rg_refs (region_at R r)) by done.
  change (c_rt (put_cproc c1 (ft_child t) p)) with (put_proc R (ft_child t) p).
  change (region_at (put_proc R (ft_child t) p) ?r) with (region_at R r).
  change (rt_regions (put_proc R (ft_child t) p)) with (rt_regions R).
  assert (L4' : forall r, 0 <= r -> refs_at c r = refs_at c0 r + b2z (ft_region_acquired t && (r =? ref_index (ft_parent_region t)))).
  { intros r Hr'. rewrite (L4 r Hr'), Hsn. destruct (Z.eqb_spec r (ref_index lxp_region_ref_none)) as [Er|]; [cbn in Er; lia|].
    rewrite andb_false_r. cbn [b2z]. lia. }
  destruct Hs as [(Hneg & Er)|(S1 & S2 & S3 & g & Er & S4 & S5 & S6)].
  + unfold refs_at, region_at in *. cbn [put_cproc put_proc put_slot c_rt set_c_rt c1 rt_regions set_rt_slots]. rewrite Er. split; [done|]. split; [done|].
    split; [lia|]. intros r Hr'. rewrite (L4' r Hr'). destruct (Z.eqb_spec r (ref_index sn)); [lia|]. cbn. lia.
  + pose proof (proj1 (region_in_spec _) S1) as Hri.
    assert (Hra : forall r, 0 <= r -> region_at R r = if decide (ref_index sn = r) then g else region_at (c_rt c) r).
    { intros r Hr'. rewrite <- (region_at_put' (c_rt c) (ref_index sn) g r L1 S1 Hr'). unfold region_at. by rewrite Er. }
    assert (Hz : refs_at c0 (ref_index sn) = 0 /\
                 (ft_region_acquired t = true -> ref_index sn <> ref_index (ft_parent_region t))).
    { pose proof (L4' (ref_index sn) ltac:(lia)) as Hq. unfold refs_at in Hq at 1. rewrite S2 in Hq.
      specialize (Hpos (ref_index sn)). destruct (ft_region_acquired t); cbn [andb] in Hq;
        destruct (Z.eqb_spec (ref_index sn) (ref_index (ft_parent_region t))); cbn [b2z] in Hq; split; try done; lia. }
    split; [rewrite Er; unfold put_region; cbn; by rewrite alen_aset|]. split; [|split].
    * intros Ea. destruct (L2 Ea) as (A1 & A2 & A3 & A4). split; [done|]. split; [done|]. split; [|done].
      apply region_in_spec in A1. rewrite Hra by lia. rewrite decide_False; [done|]. by apply Hz.
    * intros _ _. rewrite Hra, decide_True by (done || lia). split_and!; try done. apply Hz.
    * intros r Hr'. rewrite Hrt, Hra by done. destruct (decide _) as [<-|Hne].
      -- rewrite S4, Z.eqb_refl, (proj1 Hz). cbn [andb b2z]. destruct (ft_region_acquired t); [|done].
         destruct (Z.eqb_spec (ref_index sn) (ref_index (ft_parent_region t))); [by destruct (proj2 Hz eq_refl)|done].
      -- change (rg_refs (region_at (c_rt c) r)) with (refs_at c r). rewrite (L4' r Hr').
         destruct (Z.eqb_spec r (ref_index sn)); [congruence|]. cbn. lia.
Qed.

Lemma take_snapshot_inv gi c0 t c sp :
  txn_inv gi c0 t c -> ft_phase t = FORK_TXN_PREPARED -> ft_child_constructed t = true ->
  p_snapshot (cproc c (ft_child t)) = lxp_region_ref_none -> (forall r, 0 <= refs_at c0 r) ->
  let '(rc, c') := lxp_fork_txn_snapshot xops failpoint t c sp in
  txn_inv gi c0 t c' /\ p_alive (cproc c' (ft_child t)) = p_alive (cproc c (ft_child t)) /\
  p_pid (cproc c' (ft_child t)) = p_pid (cproc c (ft_child t)).
Proof.
  intros I Hp Hc Hsn Hpos. unfold lxp_fork_txn_snapshot. rewrite Hp, Hc.
  rewrite bool_decide_eq_false_2 by naive_solver. cbn [orb negb].
  pose proof (snapshot_spec (c_rt c) (ft_parent t) (ft_child_ref t) sp) as Hs.
  destruct (lxp_vfork_snapshot _ _ _ _ _ _) as [sn R]. destruct Hs as (E1 & E2 & Hs).
  set (c1 := set_c_rt c R). set (p := set_p_snapshot _ sn).
  pose proof I as [I1 I2 I3 I4 I5 _ I7]. pose proof (proj1 (slot_in_range _) I1) as Hr.
  assert (Hl1 : alen (rt_slots (c_rt c1)) = LXP_NSLOT) by (cbn; by rewrite E1).
  assert (Hcp : cproc c1 (ft_child t) = cproc c (ft_child t)) by (unfold cproc, sproc, slot_at; cbn; by rewrite E1).
  assert (Ecp : cproc (put_cproc c1 (ft_child t) p) (ft_child t) = p) by by apply sproc_put_same.
  assert (Hgoal : txn_inv gi c0 t (put_cproc c1 (ft_child t) p)).
  { split; [done|done| | | | |].
    - unfold put_cproc, put_proc, put_slot. cbn. by rewrite alen_aset, E1.
    - transitivity (c_rt c); [done|]. transitivity (c_rt c1); [apply steady_but_of; by apply steady_slots|].
      apply steady_but_put_cproc. lia.
    - unfold owners_held in *. rewrite Hc, Ecp in *. change (rt_k (c_rt (put_cproc c1 _ p))) with (rt_k R). rewrite E2.
      eapply proc_inv_holdings; [|exact I5]. cbn [map]. f_equal. unfold p. by rewrite Hcp.
    - by apply (snapshot_regions c0 t c R sn p (ti_regions _ _ _ _ I) Hc Hsn Hpos).
    - unfold children_at, group_at in *. change (rt_k (c_rt (put_cproc c1 _ p))) with (rt_k R). by rewrite E2. }
  assert (Hrest : p_alive p = p_alive (cproc c (ft_child t)) /\ p_pid p = p_pid (cproc c (ft_child t)))
    by (unfold p; by rewrite Hcp).
  destruct (ref_index sn <? 0); rewrite Ecp; done.
Qed.

(** *** Publication *)

(** A task more: the child owns its references, the parent's region is held once more, and a
    region that was free is taken as the child's snapshot, if it has one. *)
Record born (gi : Z) c0 (x rr pid n : Z) c : Prop := mk_born {
  bo_slots : alen (rt_slots (c_rt c)) = LXP_NSLOT;
  bo_steady : steady_but x (c_rt c0) (c_rt c);
  bo_owners : proc_inv (rt_k (c_rt c)) (cproc c x :: others c0 x);
  bo_alive : p_alive (cproc c x) = 1 /\ p_pid (cproc c x) = pid;
  bo_group : p_group (cproc c x) <> None;
  bo_region : region_in rr = true;
  bo_refs : forall r, 0 <= r -> refs_at c r = refs_at c0 r + b2z (r =? rr) + b2z (r =? ref_index (p_snapshot (cproc c x)));
  bo_spare : 0 <= ref_index (p_snapshot (cproc c x)) -> refs_at c0 (ref_index (p_snapshot (cproc c x))) = 0;
  bo_count : 0 <= children_at c0 gi -> children_at c gi = children_at c0 gi + n;
}.

Lemma quiet_born gi c0 x rr pid n c c' : born gi c0 x rr pid n c -> quiet (c_rt c) (c_rt c') -> born gi c0 x rr pid n c'.
Proof.
  intros [U1 U2 U3 (U4 & U5) Ug U6 U8 U9 U7] Hq. pose proof (quiet_strip _ _ x Hq) as Hst.
  pose proof (f_equal p_snapshot Hst) as Hsn. change (p_snapshot (cproc c' x) = p_snapshot (cproc c x)) in Hsn. split.
  - by rewrite (quiet_length _ _ Hq).
  - etransitivity; [exact U2|]. apply steady_but_of. by apply quiet_steady.
  - rewrite (quiet_k _ _ Hq). eapply proc_inv_holdings; [|exact U3]. cbn [map]. f_equal.
    symmetry. exact (f_equal holdings Hst).
  - split; [unfold cproc; by rewrite (quiet_alive _ _ x Hq)|]. rewrite <- U5. exact (f_equal p_pid Hst).
  - pose proof (f_equal p_group Hst) as Eg. change (p_group (cproc c' x) = p_group (cproc c x)) in Eg. by rewrite Eg.
  - done.
  - rewrite Hsn. unfold refs_at, region_at in *. by rewrite (quiet_regions _ _ Hq).
  - by rewrite Hsn.
  - unfold children_at, group_at in *. by rewrite (quiet_k _ _ Hq).
Qed.

Lemma txn_inv_publish gi c0 t c :
  txn_inv gi c0 t c -> ft_child_constructed t = true ->
  txn_inv gi c0 t (put_cproc c (ft_child t) (set_p_alive (cproc c (ft_child t)) 1)).
Proof.
  intros [I1 I2 I3 I4 I5 I6 I7] Hc. pose proof (proj1 (slot_in_range _) I1) as Hr.
  set (p := set_p_alive _ _). assert (Ecp : cproc (put_cproc c (ft_child t) p) (ft_child t) = p) by by apply sproc_put_same.
  split; [done|done| | | | |done].
  - unfold put_cproc, put_proc, put_slot. cbn. by rewrite alen_aset.
  - transitivity (c_rt c); [done|]. apply steady_but_put_cproc. lia.
  - unfold owners_held in *. rewrite Hc, Ecp in *. exact I5.
  - unfold regions_held in *. rewrite Ecp. exact I6.
Qed.

Lemma validate_group t c : negb (fork_txn_validate t c =? LXP_OK) = false -> p_group (cproc c (ft_child t)) <> None.
Proof. unfold fork_txn_validate. by repeat case_match. Qed.

(** Publish and commit: the child is born, or the transaction can still be aborted. *)
Lemma publish_commit gi c0 t c rc0 :
  txn_inv gi c0 t c -> ft_phase t = FORK_TXN_PREPARED -> ft_child_constructed t = true -> ft_region_acquired t = true ->
  let '(rc, t', c') := if rc0 =? LXP_OK then lxp_fork_txn_publish failpoint t c else (rc0, t, c) in
  let '(rc', t'') := if rc =? LXP_OK then lxp_fork_txn_commit t' else (rc, t') in
  ft_child t'' = ft_child t /\ ft_parent_ref t'' = ft_parent_ref t /\ ft_child_ref t'' = ft_child_ref t /\
  if rc' =? LXP_OK then born gi c0 (ft_child t) (ref_index (ft_parent_region t)) (p_pid (cproc c (ft_child t)))
                         (b2z (ft_child_counted t)) c'
  else txn_inv gi c0 t'' c' /\ active t''.
Proof.
  intros I Hp Hc Ha.
  assert (Hsame : txn_inv gi c0 t c /\ active t) by (split; [done|]; right; by left).
  destruct (Z.eqb_spec rc0 LXP_OK) as [->|Hrc0].
  2:{ by rewrite (proj2 (Z.eqb_neq rc0 LXP_OK) Hrc0), (proj2 (Z.eqb_neq rc0 LXP_OK) Hrc0). }
  unfold lxp_fork_txn_publish. destruct (negb _) eqn:Ev.
  { by change (- LXP_EINVAL =? LXP_OK) with false. }
  set (c' := put_cproc c _ _). pose proof (txn_inv_publish gi c0 t c I Hc) as I'. fold c' in I'.
  destruct (failpoint LXP_FAIL_FORK_PUBLISHED); cbn [Z.eqb LXP_OK].
  { change (- LXP_ENOMEM =? LXP_OK) with false. split; [done|]. split; [done|]. split; [done|].
    split; [by apply txn_inv_phase|]. right. by right. }
  unfold lxp_fork_txn_commit. cbn [ft_phase set_ft_phase]. rewrite bool_decide_eq_false_2 by naive_solver.
  split; [done|]. split; [done|]. split; [done|]. cbn [Z.eqb].
  assert (Ecp : cproc c' (ft_child t) = set_p_alive (cproc c (ft_child t)) 1).
  { apply sproc_put_same; [apply (ti_slots _ _ _ _ I)|apply (ti_child _ _ _ _ I)]. }
  pose proof (ti_owners _ _ _ _ I') as HO. unfold owners_held in HO. rewrite Hc in HO.
  destruct (ti_regions _ _ _ _ I') as (_ & L2 & L3 & L4). destruct (L2 Ha) as (A1 & _ & _ & A4).
  pose proof (proj1 (region_in_spec _) A1) as Hri.
  split; [apply (ti_slots _ _ _ _ I')|apply (ti_steady _ _ _ _ I')|exact HO|by rewrite Ecp| |exact A1| | |apply (ti_count _ _ _ _ I')].
  - rewrite Ecp. by apply validate_group in Ev.
  - intros r Hr. rewrite L4 by lia. by rewrite Ha, Hc.
  - intros Hs. by destruct (L3 Hc Hs) as (_ & _ & _ & _ & S5).
Qed.

(** ** The handler *)

Lemma fork_lift_quiet c r : quiet (c_rt c) r.2 -> quiet (c_rt c) (c_rt (lift c r)).
Proof. by destruct r as [[? ?] ?]. Qed.

Lemma park_quiet c slot : quiet (c_rt c) (c_rt (lift c (lxp_coordinator_park_slot ops (c_h c) (c_rt c) slot))).
Proof. apply fork_lift_quiet, quiet_apply. Qed.
Lemma complete_quiet c ref r0 : quiet (c_rt c) (c_rt (lift c (lxp_coordinator_complete_slot ops (c_h c) (c_rt c) ref r0))).
Proof. apply fork_lift_quiet, quiet_complete. Qed.
Lemma resume_quiet c slot ridx ctx r0 :
  quiet (c_rt c) (c_rt (lift c (lxp_coordinator_resume_slot ops (c_h c) (c_rt c) slot ridx ctx r0))).
Proof. apply fork_lift_quiet, quiet_resume_slot. Qed.

(** One of the two outcomes, for a transaction on the free slot [x]. *)
Definition outcome gi c0 (y x next_pid n : Z) (r : coord H * B * Z) : Prop :=
  (undone gi c0 x r.1.1 /\ r.2 = next_pid) \/
  (born gi c0 x (ref_index (region_of c0 y)) next_pid n r.1.1 /\ r.2 = next_pid + 1).

Lemma resume_clone_inv gi c0 t c stack :
  txn_inv gi c0 t c -> ref_index (ft_child_ref t) = ft_child t ->
  let '(rc, R) := lxp_slot_resume_clone_for_fork (c_rt c) (ft_child_ref t) (ft_parent_ref t) stack in
  txn_inv gi c0 t (set_c_rt c R) /\ cproc (set_c_rt c R) (ft_child t) = cproc c (ft_child t).
Proof.
  intros I Er. unfold lxp_slot_resume_clone_for_fork. rewrite Er.
  destruct (_ || negb (lxp_slot_ref_is_current _ _)); [split; [by eapply txn_inv_rt; [|exact I]|done]|].
  pose proof (proj1 (slot_in_range _) (ti_child _ _ _ _ I)). pose proof (ti_slots _ _ _ _ I).
  assert (Ecp : cproc (set_c_rt c (put_slot (c_rt c) (ft_child t) (set_sl_resume (slot_at (c_rt c) (ft_child t))
    (set_rc_sp (sl_resume (slot_at (c_rt c) (ref_index (ft_parent_ref t)))) stack)))) (ft_child t) = cproc c (ft_child t)).
  { unfold cproc, sproc. cbn [c_rt set_c_rt]. by rewrite slot_at_put_same by lia. }
  split; [|done]. eapply txn_inv_slot; [exact I|done|done| |by rewrite Ecp|by rewrite Ecp].
  apply steady_but_put. lia.
Qed.

Lemma clone_outcome gi c0 t c b y x flags stack next_pid :
  txn_inv gi c0 t c -> between c0 y x t c -> ft_child_counted t = false -> ft_phase t = FORK_TXN_PREPARED ->
  ft_child_constructed t = true -> ft_region_acquired t = true -> p_pid (cproc c x) = next_pid ->
  region_in (ref_index (ft_parent_region t)) = true ->
  outcome gi c0 y x next_pid (b2z (Z.land flags LXP_CLONE_THREAD =? 0))
    (fork_clone ops xops failpoint t c b y x flags stack next_pid).
Proof.
  intros I (<- & <- & Eref & Ha & Erg) Hcnt Hp Hc Hacq Hpid Hin%region_in_spec. unfold fork_clone.
  assert (H1 : let '(rc, t', c') := if Z.land flags LXP_CLONE_THREAD =? 0 then lxp_fork_txn_count_child failpoint t c else (LXP_OK, t, c) in
    txn_inv gi c0 t' c' /\ t' = set_ft_counted t (Z.land flags LXP_CLONE_THREAD =? 0) /\ forall s, cproc c' s = cproc c s).
  { destruct (_ =? 0); [by apply count_inv|]. split; [done|]. split; [by rewrite <- Hcnt, set_ft_counted_id|done]. }
  destruct (if Z.land flags LXP_CLONE_THREAD =? 0 then _ else _) as [[rc1 t1] c1]. destruct H1 as (I1 & -> & Ecp).
  set (t1 := set_ft_counted t _) in *.
  assert (H2 : let '(rc, c') := if rc1 =? LXP_OK
                  then let '(rc, R) := lxp_slot_resume_clone_for_fork (c_rt c1) (ft_child_ref t1) (ft_parent_ref t1) stack in
                       (rc, set_c_rt c1 R) else (rc1, c1) in
    txn_inv gi c0 t1 c' /\ cproc c' (ft_child t) = cproc c1 (ft_child t)).
  { destruct (rc1 =? LXP_OK); [|done]. pose proof (resume_clone_inv gi c0 t1 c1 stack I1 Eref) as E.
    by destruct (lxp_slot_resume_clone_for_fork _ _ _ _). }
  destruct (if rc1 =? LXP_OK then _ else _) as [rc2 c2]. destruct H2 as (I2 & Ecp2).
  pose proof (publish_commit gi c0 t1 c2 rc2 I2 Hp Hc Hacq) as H3.
  destruct (if rc2 =? LXP_OK then _ else _) as [[rc3 t3] c3].
  destruct (if rc3 =? LXP_OK then _ else _) as [rc4 t4]. destruct H3 as (Ex & Epr & Ecr & H3).
  destruct (rc4 =? LXP_OK); cbn [negb].
  - right. rewrite <- Erg. split; [|done]. cbn [fst snd].
    change (ft_child t1) with (ft_child t) in H3. rewrite Ecp2, Ecp, Hpid in H3.
    eapply quiet_born; [|apply resume_quiet]. eapply quiet_born; [|apply complete_quiet].
    eapply quiet_born; [|apply park_quiet]. exact H3.
  - left. destruct H3 as (I3 & Hact). change (ft_child t) with (ft_child t1). rewrite <- Ex. by apply fail_out_undone.
Qed.

Lemma vfork_outcome gi c0 t c b y x next_pid :
  txn_inv gi c0 t c -> between c0 y x t c -> ft_child_counted t = false -> ft_phase t = FORK_TXN_PREPARED ->
  ft_child_constructed t = true -> ft_region_acquired t = true -> p_pid (cproc c x) = next_pid ->
  p_snapshot (cproc c x) = lxp_region_ref_none ->
  region_in (ref_index (ft_parent_region t)) = true -> (forall r, 0 <= refs_at c0 r) ->
  outcome gi c0 y x next_pid 1 (fork_vfork ops xops failpoint t c b y x next_pid).
Proof.
  intros I (<- & <- & Eref & Ha & Erg) Hcnt Hp Hc Hacq Hpid Hsn Hin%region_in_spec Hrefs. unfold fork_vfork.
  pose proof (count_inv gi c0 t c I Hp Hcnt) as H1.
  destruct (lxp_fork_txn_count_child _ _ _) as [[rc1 t1] c1]. destruct H1 as (I1 & -> & Ecp).
  set (t1 := set_ft_counted t true) in *. set (c2 := put_cproc c1 (ft_child t) _).
  assert (Ecp2 : cproc c2 (ft_child t) = set_p_vfork_parent (cproc c1 (ft_child t)) (lxp_slot_ref_at (c_rt c1) (ft_parent t)))
    by (apply sproc_put_same; [apply (ti_slots _ _ _ _ I1)|apply (ti_child _ _ _ _ I1)]).
  assert (I2 : txn_inv gi c0 t1 c2) by exact (txn_inv_child gi c0 t1 c1
    (set_p_vfork_parent (cproc c1 (ft_child t)) (lxp_slot_ref_at (c_rt c1) (ft_parent t))) I1 eq_refl eq_refl).
  assert (H2 : let '(rc, c') := if rc1 =? LXP_OK
                  then match lxp_slot_resume_view (c_rt c2) (ft_parent_ref t1) with
                       | None => (- LXP_ESRCH, c2)
                       | Some ctx => lxp_fork_txn_snapshot xops failpoint t1 c2 (rc_sp ctx)
                       end
                  else (rc1, c2) in
    txn_inv gi c0 t1 c' /\ p_pid (cproc c' (ft_child t)) = p_pid (cproc c2 (ft_child t))).
  { destruct (rc1 =? LXP_OK); [|done]. destruct (lxp_slot_resume_view _ _) as [ctx|]; [|done].
    pose proof (take_snapshot_inv gi c0 t1 c2 (rc_sp ctx) I2 Hp Hc) as E. change (ft_child t1) with (ft_child t) in E.
    rewrite Ecp2, Ecp in E. specialize (E Hsn Hrefs). rewrite Ecp2, Ecp. destruct (lxp_fork_txn_snapshot _ _ _ _ _). naive_solver. }
  clearbody c2. destruct (if rc1 =? LXP_OK then _ else _) as [rc3 c3]. destruct H2 as (I3 & Epid).
  destruct (Z.eqb_spec rc3 LXP_OK) as [->|]; cbn [negb].
  2:{ left. change (ft_child t) with (ft_child t1). apply fail_out_undone; [done|]. right. by left. }
  pose proof (publish_commit gi c0 t1 c3 LXP_OK I3 Hp Hc Hacq) as H4. cbn [Z.eqb LXP_OK] in H4.
  destruct (lxp_fork_txn_publish _ _ _) as [[rc4 t4] c4].
  destruct (if rc4 =? LXP_OK then _ else _) as [rc5 t5]. destruct H4 as (Ex & Epr & Ecr & H4).
  destruct (rc5 =? LXP_OK); cbn [negb].
  - right. rewrite <- Erg. split; [|done]. cbn [fst snd].
    change (ft_child t1) with (ft_child t) in H4. rewrite Epid, Ecp2, Ecp in H4. cbn [p_pid set_p_vfork_parent] in H4. rewrite Hpid in H4.
    eapply quiet_born; [|apply resume_quiet]. eapply quiet_born; [|apply park_quiet]. exact H4.
  - left. destruct H4 as (I4 & Hact). change (ft_child t) with (ft_child t1). rewrite <- Ex. by apply fail_out_undone.
Qed.

(** Every child but a thread counts against its parent. *)
Definition counts (flags : Z) : Z :=
  if Z.land flags LXP_CLONE_VM =? 0 then 1 else b2z (Z.land flags LXP_CLONE_THREAD =? 0).

(** The transaction on a free slot ends in one of the two outcomes. *)
Lemma transaction_outcome gi c b y x flags stack next_pid :
  ready gi c y x ->
  outcome gi c y x next_pid (counts flags)
    (let '(rc, t, c, b) := lxp_fork_txn_prepare xops exec_capture failpoint c b y x flags next_pid in
     if negb (rc =? LXP_OK) then fork_fail_out ops xops t c b y rc next_pid
     else if negb (Z.land flags LXP_CLONE_VM =? 0) then fork_clone ops xops failpoint t c b y x flags stack next_pid
     else fork_vfork ops xops failpoint t c b y x next_pid).
Proof.
  intros Hr. pose proof (prepare_inv gi c b y x flags next_pid Hr) as Hp.
  destruct Hr as (_ & _ & Hrefs & _). destruct (lxp_fork_txn_prepare _ _ _ _ _ _ _ _ _) as [[[rc t] c1] b1].
  destruct Hp as (I & Hb & Hact & Hcnt & Hok). destruct (Z.eqb_spec rc LXP_OK) as [->|]; cbn [negb].
  - destruct (Hok eq_refl) as (P1 & P2 & P3 & P4 & P5 & P6). unfold counts.
    destruct (_ =? 0); cbn [negb]; [by apply vfork_outcome|by apply clone_outcome].
  - left. destruct Hb as (<- & _). by apply fail_out_undone.
Qed.

Lemma resume_error_quiet c y e : quiet (c_rt c) (c_rt (fork_parent_resume_error ops c y e)).
Proof. unfold fork_parent_resume_error. eapply quiet_trans; [apply park_quiet|apply complete_quiet]. Qed.
End Txn.

(** ** The task table *)

Section Table.
Context {H : Type}.
Implicit Types (c : coord H).

(** The invariant of the whole task table. *)
Definition table_inv c : Prop :=
  alen (rt_slots (c_rt c)) = LXP_NSLOT /\ region_inv (c_rt c) /\ proc_inv (rt_k (c_rt c)) (tasks c) /\ dead_own_nothing c.

Lemma region_inv_nonneg c r : region_inv (c_rt c) -> 0 <= refs_at c r.
Proof.
  intros (Hl & Hf). unfold refs_at, region_at, aget. rewrite nth_lookup.
  destruct (rt_regions (c_rt c) !! Z.to_nat r) as [g|] eqn:E; cbn; [|lia].
  apply (proj1 (Forall_lookup _ _) Hf) in E. destruct E as (? & _). lia.
Qed.

Lemma undone_table gi c0 x c :
  slot_in x = true -> p_alive (cproc c0 x) = 0 -> empty_handed (cproc c0 x) -> dead_own_nothing c0 -> undone gi c0 x c ->
  proc_inv (rt_k (c_rt c)) (tasks c) /\ dead_own_nothing c /\
  forall s, slot_in s = true -> holdings (cproc c s) = holdings (cproc c0 s).
Proof.
  intros Hx Ha0 (a0 & He0) Hd [U1 U2 U3 (U4 & a & U5) U6 U7].
  assert (Hs : forall s, slot_in s = true -> holdings (cproc c s) = holdings (cproc c0 s)).
  { intros s Hs. destruct (decide (s = x)) as [->|Hne].
    - rewrite U5, He0. f_equal. do 4 f_equal.
      change (p_alive ?p) with (holdings p).1.1.1.1.1 in *. rewrite U5 in U4. rewrite He0 in Ha0. cbn in *. congruence.
    - apply slot_in_range in Hs. apply U2; [lia|done]. }
  split; [|split; [|done]].
  - eapply tasks_of_others; [done|exact U2|]. apply empty_inv; [by exists a|done].
  - intros s Hs' Hal. change (p_alive ?p) with (holdings p).1.1.1.1.1 in Hal. rewrite (Hs s Hs') in Hal.
    destruct (Hd s Hs' Hal) as (a' & Ha'). exists a'. by rewrite (Hs s Hs').
Qed.

Lemma born_table gi c0 x rr pid n c :
  slot_in x = true -> dead_own_nothing c0 -> born gi c0 x rr pid n c ->
  proc_inv (rt_k (c_rt c)) (tasks c) /\ dead_own_nothing c /\
  forall s, slot_in s = true -> s <> x -> holdings (cproc c s) = holdings (cproc c0 s).
Proof.
  intros Hx Hd [U1 U2 U3 (U4 & U5) _ U6 U7].
  assert (Hs : forall s, slot_in s = true -> s <> x -> holdings (cproc c s) = holdings (cproc c0 s)).
  { intros s Hs%slot_in_range Hne. apply U2; [lia|done]. }
  split; [by eapply tasks_of_others|]. split; [|done].
  intros s Hs' Hal. destruct (decide (s = x)) as [->|Hne]; [lia|].
  change (p_alive ?p) with (holdings p).1.1.1.1.1 in Hal. rewrite (Hs s Hs' Hne) in Hal.
  destruct (Hd s Hs' Hal) as (a' & Ha'). exists a'. by rewrite (Hs s Hs' Hne).
Qed.

Lemma free_slot_spec c x : free_slot c = Some x -> slot_in x = true /\ p_alive (cproc c x) = 0.
Proof.
  intros Hf%List.find_some. destruct Hf as (Hin%list_elem_of_In & Ha%Z.eqb_eq). split; [|done].
  apply elem_of_seqZ in Hin. apply slot_in_range. lia.
Qed.

(** The handler's consumption of the intent. *)
Lemma intent_consumed c y :
  table_inv c -> slot_in y = true ->
  let c1 := put_cproc c y (lxp_intent_complete (cproc c y) IK_FORK).2 in
  table_inv c1 /\ steady (c_rt c) (c_rt c1) /\ (forall r, refs_at c1 r = refs_at c r) /\
  (forall gi, children_at c1 gi = children_at c gi) /\ region_of c1 y = region_of c y.
Proof.
  intros (T1 & T2 & T3 & T4) Hy. cbv zeta. set (p := (lxp_intent_complete _ _).2).
  assert (Hh : holdings p = holdings (cproc c y)) by (unfold p, lxp_intent_complete; by destruct (_ || _)).
  pose proof (proj1 (slot_in_range y) Hy) as Hr.
  assert (Hst : steady (c_rt c) (c_rt (put_cproc c y p))) by (apply steady_put_proc; [lia|done]).
  assert (Hs : forall s, slot_in s = true -> holdings (cproc (put_cproc c y p) s) = holdings (cproc c s)).
  { intros s Hs%slot_in_range. apply Hst. lia. }
  assert (Erg : region_of (put_cproc c y p) y = region_of c y).
  { unfold region_of, mm_of. change (p_mm ?q) with (holdings q).1.1.1.2. by rewrite (Hs y Hy). }
  split; [|done]. split; [by rewrite (proj1 Hst)|]. split; [done|]. split.
  - eapply proc_inv_holdings; [|exact T3]. unfold tasks. rewrite !map_map. apply map_ext_in.
    intros s Hs'%list_elem_of_In%elem_of_seqZ. symmetry. apply Hs. apply slot_in_range. lia.
  - intros s Hs' Ha. change (p_alive ?q) with (holdings q).1.1.1.1.1 in Ha. rewrite (Hs s Hs') in Ha.
    destruct (T4 s Hs' Ha) as (a & He). exists a. by rewrite (Hs s Hs').
Qed.

Lemma quiet_table c c' :
  proc_inv (rt_k (c_rt c)) (tasks c) -> dead_own_nothing c -> quiet (c_rt c) (c_rt c') ->
  proc_inv (rt_k (c_rt c')) (tasks c') /\ dead_own_nothing c' /\
  (forall s, holdings (cproc c' s) = holdings (cproc c s)).
Proof.
  intros HP Hd Hq.
  assert (Hs : forall s, holdings (cproc c' s) = holdings (cproc c s))
    by (intros s; exact (f_equal holdings (quiet_strip _ _ s Hq))).
  split; [|split; [|done]].
  - rewrite (quiet_k _ _ Hq). eapply proc_inv_holdings; [|exact HP]. unfold tasks. rewrite !map_map.
    apply map_ext. intros s. by rewrite Hs.
  - intros s Hs' Ha. change (p_alive ?q) with (holdings q).1.1.1.1.1 in Ha. rewrite (Hs s) in Ha.
    destruct (Hd s Hs' Ha) as (a & He). exists a. by rewrite Hs.
Qed.

End Table.

Definition intent_flags (p : lxp_proc) : Z := match p_intent p with LXP_INTENT_FORK f _ => f | _ => 0 end.

(** What a fork does to the region counts: the parent's region is held once more; the child's
    snapshot, if it has one, is a region that was free and is now held; no other count moves. *)
Definition regions_forked {H} (c : coord H) (y x : Z) (c' : coord H) : Prop :=
  let parent := ref_index (region_of c y) in
  let snapshot := ref_index (p_snapshot (cproc c' x)) in
  region_in parent = true /\
  (forall r, 0 <= r -> refs_at c' r = refs_at c r + b2z (r =? parent) + b2z (r =? snapshot)) /\
  (0 <= snapshot -> refs_at c snapshot = 0).

Lemma handle_fork_outcome {H B} `{FileOps B} (ops : os_task H) (xops : os_exit H)
    (exec_capture : Z -> option Z) (failpoint : lxp_lifecycle_failpoint -> bool)
    (c c' : coord H) (b b' : B) y gi next_pid next_pid' :
  table_inv c -> slot_in y = true -> p_alive (cproc c y) <> 0 -> p_group (cproc c y) = Some gi ->
  lxp_handle_fork ops xops exec_capture failpoint c b y next_pid = (c', b', next_pid') ->
  alen (rt_slots (c_rt c')) = LXP_NSLOT /\ proc_inv (rt_k (c_rt c')) (tasks c') /\ dead_own_nothing c' /\
  ((next_pid' = next_pid /\ (forall s, slot_in s = true -> holdings (cproc c' s) = holdings (cproc c s)) /\
    (forall r, 0 <= r -> rg_refs (region_at (c_rt c') r) = rg_refs (region_at (c_rt c) r)) /\
    (0 <= children_at c gi -> children_at c' gi = children_at c gi)) \/
   (next_pid' = next_pid + 1 /\ exists x, slot_in x = true /\ p_alive (cproc c x) = 0 /\
    p_alive (cproc c' x) = 1 /\ p_group (cproc c' x) <> None /\ p_pid (cproc c' x) = next_pid /\
    (forall s, slot_in s = true -> s <> x -> holdings (cproc c' s) = holdings (cproc c s)) /\
    regions_forked c y x c' /\
    (0 <= children_at c gi -> children_at c' gi = children_at c gi + counts (intent_flags (cproc c y))))).
Proof.
  intros HT Hy Hal Hg Hrun.
  destruct (intent_consumed c y HT Hy) as ((T1 & T2 & T3 & T4) & Hst & Hrefs & Hch & Erg). unfold lxp_handle_fork in Hrun.
  assert (Hfl : (let '(f, _) := match p_intent (cproc c y) with LXP_INTENT_FORK f s => (f, s) | _ => (0, 0) end in f)
                = intent_flags (cproc c y)) by (unfold intent_flags; by destruct (p_intent _)).
  destruct (match p_intent (cproc c y) with LXP_INTENT_FORK f s => (f, s) | _ => (0, 0) end) as [flags stack].
  subst flags. set (c1 := put_cproc c y _) in *. clearbody c1.
  assert (Hs1 : forall s, slot_in s = true -> holdings (cproc c1 s) = holdings (cproc c s)).
  { intros s Hs%slot_in_range. apply Hst. lia. }
  assert (Hfail : forall e, (fork_parent_resume_error ops c1 y e, b, next_pid) = (c', b', next_pid') ->
    alen (rt_slots (c_rt c')) = LXP_NSLOT /\ proc_inv (rt_k (c_rt c')) (tasks c') /\ dead_own_nothing c' /\ next_pid' = next_pid /\
    (forall s, slot_in s = true -> holdings (cproc c' s) = holdings (cproc c s)) /\
    (forall r, 0 <= r -> refs_at c' r = refs_at c r) /\ (0 <= children_at c gi -> children_at c' gi = children_at c gi)).
  { intros e E. apply pair_equal_spec in E as [E <-]. apply pair_equal_spec in E as [<- <-].
    pose proof (resume_error_quiet ops c1 y e) as Hq. destruct (quiet_table _ _ T3 T4 Hq) as (Q1 & Q2 & Q3).
    split_and!; try done; [by rewrite (quiet_length _ _ Hq)|intros s Hs; by rewrite Q3, Hs1| |].
    - intros r Hr. rewrite <- Hrefs. unfold refs_at, region_at. by rewrite (quiet_regions _ _ Hq).
    - intros _. rewrite <- Hch. unfold children_at, group_at. by rewrite (quiet_k _ _ Hq). }
  destruct (_ && _); [destruct (Hfail _ Hrun) as (F0 & F1 & F2 & F3); split; [exact F0|]; split; [exact F1|]; split; [exact F2|]; left; exact F3|].
  destruct (free_slot c1) as [x|] eqn:Ef;
    [|destruct (Hfail _ Hrun) as (F0 & F1 & F2 & F3); split; [exact F0|]; split; [exact F1|]; split; [exact F2|]; left; exact F3]. clear Hfail.
  apply free_slot_spec in Ef as (Hx & Hax).
  assert (Hax' : p_alive (cproc c x) = 0) by (change (p_alive ?q) with (holdings q).1.1.1.1.1 in *; by rewrite <- Hs1).
  assert (Hr : ready gi c1 y x).
  { split_and!; try done; [apply T2|intros r; by apply region_inv_nonneg| | | |].
    - intros ->. by apply Hal.
    - change (p_group ?q) with (holdings q).1.1.1.1.2 in *. by rewrite Hs1.
    - by apply T4.
    - rewrite (tasks_split c1 x Hx) in T3. by apply empty_inv in T3; [|apply T4]. }
  pose proof (transaction_outcome ops xops exec_capture failpoint gi c1 b y x (intent_flags (cproc c y)) stack next_pid Hr) as HO. rewrite Hrun in HO. unfold outcome in HO. cbn [fst snd] in HO.
  destruct HO as [(U & ->)|(U & ->)].
  - destruct (undone_table gi c1 x c' Hx Hax (T4 x Hx Hax) T4 U) as (Q1 & Q2 & Q3). split; [apply (un_slots _ _ _ _ U)|]. split; [done|]. split; [done|]. left.
    split; [done|]. split; [intros s Hs; by rewrite Q3, Hs1|].
    split; [intros r Hr'; etransitivity; [by apply (un_regions _ _ _ _ U)|apply Hrefs]|].
    rewrite <- Hch. exact (un_count _ _ _ _ U).
  - destruct (born_table gi c1 x _ next_pid _ c' Hx T4 U) as (Q1 & Q2 & Q3). split; [apply (bo_slots _ _ _ _ _ _ _ U)|]. split; [done|]. split; [done|]. right.
    split; [done|]. exists x. destruct U as [_ _ _ (U4 & U5) Ug U6 U8 U9 U7].
    split; [done|]. split; [done|]. split; [done|]. split; [done|]. split; [done|].
    split; [intros s Hs Hne; by rewrite Q3, Hs1|]. split; [|rewrite <- Hch; exact U7].
    rewrite Erg in U6, U8. split; [done|]. split.
    + intros r Hr'. rewrite <- Hrefs. by apply U8.
    + intros Hs. rewrite <- Hrefs. by apply U9.
Qed.

(** C11: fork, vfork and clone are all or nothing.  Whatever fails on the way (any injected
    failure point, a full pool, a refused device mapping, no snapshot region, an unwilling
    RTOS), the five resource pools stay exactly owned by the tasks in the slots, slots
    without a living task own nothing, and either no pid is used and every task's life and
    holdings, every region reference count and the parent's child count are what they were,
    or exactly one free slot holds a new living task with the next pid; the region of the
    parent's address space is held once more, the child's vfork snapshot, if it has one, is a
    region that was free and is held once, no other region's count changes; and the parent has
    one child more, unless it is a thread. *)
Theorem fork_all_or_nothing {H B} `{FileOps B} (ops : os_task H) (xops : os_exit H)
    (exec_capture : Z -> option Z) (failpoint : lxp_lifecycle_failpoint -> bool)
    (c c' : coord H) (b b' : B) y gi next_pid next_pid' :
  table_inv c -> slot_in y = true -> p_alive (cproc c y) <> 0 -> p_group (cproc c y) = Some gi ->
  0 <= tg_live_children (group_at c gi) ->
  lxp_handle_fork ops xops exec_capture failpoint c b y next_pid = (c', b', next_pid') ->
  proc_inv (rt_k (c_rt c')) (tasks c') /\ dead_own_nothing c' /\
  ((next_pid' = next_pid /\ (forall s, slot_in s = true -> holdings (cproc c' s) = holdings (cproc c s)) /\
    (forall r, 0 <= r -> rg_refs (region_at (c_rt c') r) = rg_refs (region_at (c_rt c) r)) /\
    tg_live_children (group_at c' gi) = tg_live_children (group_at c gi)) \/
   (next_pid' = next_pid + 1 /\ exists x, slot_in x = true /\ p_alive (cproc c x) = 0 /\
    p_alive (cproc c' x) = 1 /\ p_pid (cproc c' x) = next_pid /\
    (forall s, slot_in s = true -> s <> x -> holdings (cproc c' s) = holdings (cproc c s)) /\
    regions_forked c y x c' /\
    tg_live_children (group_at c' gi) = tg_live_children (group_at c gi) + counts (intent_flags (cproc c y)))).
Proof.
  intros HT Hy Hal Hg Hpos Hrun.
  destruct (handle_fork_outcome ops xops exec_capture failpoint c c' b b' y gi next_pid next_pid' HT Hy Hal Hg Hrun)
    as (_ & P & D & [(E & Hs & Hr & Hc)|(E & x & X1 & X2 & X3 & _ & X4 & X5 & X6 & X7)]).
  - split; [done|]. split; [done|]. left. split_and!; auto.
  - split; [done|]. split; [done|]. right. split; [done|]. exists x.
    do 5 (split; [done|]). split; [exact X6|]. by apply X7.
Qed.

(** *** Witness: the booted process vforks; then again with the snapshot's failure point. *)

#[local] Instance plain_files : FileOps unit := {|
  fops_present := fun _ => true; fops_close := fun b _ => b;
  fops_node_open := fun b _ => (0, b); fops_node_close := fun b _ => b |}.

Definition vfork_mm : lxp_mm :=
  mk_mm 1 1 1 None 0 0 0 (mk_ref 0 3) 0x20000000 0x20000040 0 0 0 0 0 0 [0; 0] [0; 0] [0; 0].
Definition vfork_proc : lxp_proc :=
  set_p_intent (set_p_stack_lo (set_p_alive boot_proc 1) 0x20000010) (LXP_INTENT_FORK 0 0).
Definition vfork_coord : coord unit :=
  let R := set_rt_k demo_rt (set_k_mm boot_k (aset (k_mm boot_k) 0 vfork_mm)) in
  let R := put_slot R 0 (set_sl_resume (slot_at R 0) (set_rc_sp resume_zero 0x20000030)) in
  mk_coord tt (put_proc R 0 vfork_proc) (replicate 12 stack_zero).

Lemma empty_tail k ps qs : proc_inv k ps -> Forall empty_handed qs -> proc_inv k (ps ++ qs).
Proof.
  intros HP. induction 1 as [|q qs Hq _ IH]; [by rewrite app_nil_r|].
  rewrite <- Permutation_middle. by apply empty_inv.
Qed.

Lemma vfork_coord_inv : table_inv vfork_coord.
Proof.
  split; [vm_compute; reflexivity|]. split; [exact demo_rt_inv|]. split.
  - assert (E : tasks vfork_coord = [vfork_proc] ++ replicate 11 proc_zero) by (vm_compute; reflexivity).
    rewrite E. apply empty_tail; [|apply Forall_replicate; by exists 0].
    apply kinv_mm_update; [vm_compute; by left|vm_compute; reflexivity|]. exact boot_inv.
  - intros s Hs%slot_in_range Ha. assert (Hd : Forall (fun s => p_alive (cproc vfork_coord s) <> 0 \/ cproc vfork_coord s = proc_zero) (seqZ 0 LXP_NSLOT)).
    { apply Forall_forall. intros i Hi. assert (Hin : i ∈ [0; 1; 2; 3; 4; 5; 6; 7; 8; 9; 10; 11]) by exact Hi.
      repeat (apply elem_of_cons in Hin as [->|Hin]; [vm_compute; by (left; congruence) || by right|]).
      by apply not_elem_of_nil in Hin. }
    rewrite Forall_forall in Hd. destruct (Hd s) as [?| ->]; [apply elem_of_seqZ; lia|done|by exists 0].
Qed.

Definition snapshot_fails (f : lxp_lifecycle_failpoint) : bool :=
  match f with LXP_FAIL_FORK_SNAPSHOT_ACQUIRED => true | _ => false end.

Lemma vfork_pids :
  (lxp_handle_fork obedient_host demo_xops (fun _ => None) (fun _ => false) vfork_coord tt 0 2).2 = 3 /\
  (lxp_handle_fork obedient_host demo_xops (fun _ => None) snapshot_fails vfork_coord tt 0 2).2 = 2.
Proof. split; vm_compute; reflexivity. Qed.
Lemma vfork_parent_ready :
  slot_in 0 = true /\ p_alive (cproc vfork_coord 0) <> 0 /\ p_group (cproc vfork_coord 0) = Some 0 /\
  0 <= tg_live_children (group_at vfork_coord 0).
Proof. split; [reflexivity|]. vm_compute. split; [congruence|]. split; [reflexivity|congruence]. Qed.

Lemma fork_all_or_nothing_witness :
  (exists c' b', lxp_handle_fork obedient_host demo_xops (fun _ => None) (fun _ => false) vfork_coord tt 0 2 = (c', b', 3) /\
     proc_inv (rt_k (c_rt c')) (tasks c')) /\
  (exists c' b', lxp_handle_fork obedient_host demo_xops (fun _ => None) snapshot_fails vfork_coord tt 0 2 = (c', b', 2) /\
     proc_inv (rt_k (c_rt c')) (tasks c')).
Proof.
  destruct vfork_parent_ready as (R1 & R2 & R3 & R4). destruct vfork_pids as (P1 & P2). split.
  - destruct (lxp_handle_fork _ _ _ (fun _ => false) _ _ _ _) as [[c' b'] n'] eqn:E. cbn [snd] in P1. subst n'.
    destruct (fork_all_or_nothing _ _ _ _ _ _ _ _ _ _ _ _ vfork_coord_inv R1 R2 R3 R4 E) as (Hp & _).
    exists c', b'. split; [reflexivity|exact Hp].
  - destruct (lxp_handle_fork _ _ _ snapshot_fails _ _ _ _) as [[c' b'] n'] eqn:E. cbn [snd] in P2. subst n'.
    destruct (fork_all_or_nothing _ _ _ _ _ _ _ _ _ _ _ _ vfork_coord_inv R1 R2 R3 R4 E) as (Hp & _).
    exists c', b'. split; [reflexivity|exact Hp].
Defined.
