(* ===== verification/Footprint.v ===== *)
(** * Footprints of memory updates

    Which bytes an operation may change, and on which bytes two memories read alike.  The
    loader and the stack builder state their writes and reads with these. *)

From S2P Require Import Prelude.
Local Open Scope Z_scope.

Definition within (lo n x : Z) : Prop := lo <= x < lo + n.

(** Bytes outside [P] are kept. *)
Definition confined (P : Z -> Prop) (m m' : mem) : Prop := forall x, ~ P x -> m' x = m x.

(** The two memories read alike on [P]. *)
Definition agree (P : Z -> Prop) (m1 m2 : mem) : Prop := forall x, P x -> load8 m1 x = load8 m2 x.

Section Footprints.
Variable P : Z -> Prop.
Implicit Types m : mem.

Lemma confined_refl m : confined P m m.
Proof. by intros x Hx. Qed.

Lemma confined_trans m1 m2 m3 : confined P m1 m2 -> confined P m2 m3 -> confined P m1 m3.
Proof. intros H1 H2 x Hx. by rewrite H2, H1. Qed.

Lemma confined_write m a bs : (forall x, within a (alen bs) x -> P x) -> confined P m (mem_write m a bs).
Proof.
  intros H x Hx. apply mem_write_out. unfold within, alen in H.
  destruct (decide (a <= x < a + Z.of_nat (length bs))) as [Hi|Hi]; [by apply H in Hi|lia].
Qed.

Lemma agree_write m1 m2 a bs : agree P m1 m2 -> agree P (mem_write m1 a bs) (mem_write m2 a bs).
Proof. intros H x Hx. unfold load8, mem_write. destruct (_ && _); [done|]. by apply H. Qed.

Lemma agree_read m1 m2 a n : agree P m1 m2 -> (forall x, within a (Z.of_nat n) x -> P x) -> mem_read m1 a n = mem_read m2 a n.
Proof. intros H HP. apply mem_read_ext. intros x Hx. by apply H, HP. Qed.
End Footprints.

Lemma confined_mono (P Q : Z -> Prop) m m' : (forall x, P x -> Q x) -> confined P m m' -> confined Q m m'.
Proof. intros HPQ H x Hx. apply H. by intros ?%HPQ. Qed.

Lemma confined_agree (P Q : Z -> Prop) m m' : confined P m m' -> (forall x, Q x -> ~ P x) -> agree Q m' m.
Proof. intros H HQ x Hx. unfold load8. by rewrite (H x) by auto. Qed.

Lemma agree_mono (P Q : Z -> Prop) m m' : (forall x, P x -> Q x) -> agree Q m m' -> agree P m m'.
Proof. intros HPQ H x Hx. apply H, HPQ, Hx. Qed.

Lemma agree_sym P m m' : agree P m m' -> agree P m' m.
Proof. intros H x Hx. symmetry. by apply H. Qed.

Lemma agree_trans P m1 m2 m3 : agree P m1 m2 -> agree P m2 m3 -> agree P m1 m3.
Proof. intros H1 H2 x Hx. rewrite H1 by done. by apply H2. Qed.

Lemma alen_bytes32 v : alen (bytes32 v) = 4.
Proof. done. Qed.

Lemma confined_store32 P m a v : (forall x, within a 4 x -> P x) -> confined P m (store32 m a v).
Proof. intros H. apply confined_write. by rewrite alen_bytes32. Qed.

(** A fold keeps an invariant indexed by the part of the list already read. *)
Lemma fold_left_prefix {A B} (I : list A -> B -> Prop) (f : B -> A -> B) (l : list A) (b : B) :
  I [] b -> (forall p x q s, l = p ++ x :: q -> I p s -> I (p ++ [x]) (f s x)) -> I l (fold_left f l b).
Proof.
  intros H0 Hs.
  assert (G : forall q p s, l = p ++ q -> I p s -> I l (fold_left f q s)).
  { induction q as [|x q IH]; intros p s E Hp; simpl; [by rewrite E, app_nil_r|].
    apply (IH (p ++ [x])); [by rewrite E, <- app_assoc|]. by apply (Hs p x q). }
  by apply (G l []).
Qed.

(** The bytes a memory write leaves to another range. *)
Lemma agree_write_off (P : Z -> Prop) m a bs : (forall x, P x -> ~ within a (alen bs) x) -> agree P (mem_write m a bs) m.
Proof. intros H x Hx. apply load8_write_out. specialize (H x Hx). unfold within, alen in H. lia. Qed.

Lemma alen_mem_read m a n : 0 <= n -> alen (mem_read m a (Z.to_nat n)) = n.
Proof. intros. unfold alen. rewrite length_mem_read. lia. Qed.

(** Two reads through an update that spares them. *)
Lemma confined_load32 (P : Z -> Prop) m m' a : confined P m m' -> (forall x, within a 4 x -> ~ P x) -> load32 m' a = load32 m a.
Proof. intros C H. apply load32_ext. intros x Hx. apply (confined_agree P (within a 4)); [done|done|]. unfold within. lia. Qed.

Lemma confined_mem_read (P : Z -> Prop) m m' a n :
  confined P m m' -> (forall x, within a (Z.of_nat n) x -> ~ P x) -> mem_read m' a n = mem_read m a n.
Proof. intros C H. apply mem_read_ext. intros x Hx. apply (confined_agree P (within a (Z.of_nat n))); [done|done|]. unfold within. lia. Qed.
