(* ===== verification/Loader.v ===== *)
(** * The FDPIC program loader (src/lxp_loader.c)

    An FDPIC ELF image lies in memory at [img] (in the read-only rootfs image, or in a RAM
    staging buffer); the loader checks its headers, copies the writable segments into the
    program's region, builds the load map behind them and, for a static program, applies
    the dynamic relocations.  Text stays where it is in the image unless it is copied into
    the lower half of the region.

    Memory is the flat memory of the whole system, pointers are addresses; [uint32_t] sums
    wrap, the sums the source casts to [uint64_t] are exact.  The relocation loop takes
    fuel: [None] is a loop that has not ended. *)

From S2P Require Import Prelude Config.
Local Open Scope Z_scope.

Definition ELFCLASS32 : Z := 1.
Definition ELF_ET_DYN : Z := 3.
Definition ELF_EM_ARM : Z := 40.
Definition ELF_OSABI_ARM_FDPIC : Z := 65.
Definition ELF_EF_ARM_FDPIC : Z := 0x10000000.
Definition ELF_EF_ARM_ABI_FLOAT_HARD : Z := 0x400.
Definition ELF_PT_LOAD : Z := 1.
Definition ELF_PT_DYNAMIC : Z := 2.
Definition ELF_PT_INTERP : Z := 3.
Definition ELF_INTERP_MAX : Z := 256.
Definition ELF_PF_X : Z := 1.
Definition ELF_DT_NULL : Z := 0.
Definition ELF_DT_NEEDED : Z := 1.
Definition ELF_DT_PLTGOT : Z := 3.
Definition ELF_DT_SYMTAB : Z := 6.
Definition ELF_DT_REL : Z := 17.
Definition ELF_DT_RELSZ : Z := 18.
Definition ELF_DT_RELENT : Z := 19.
Definition ELF_R_ARM_ABS32 : Z := 2.
Definition ELF_R_ARM_RELATIVE : Z := 23.
Definition ELF_R_ARM_FUNCDESC : Z := 163.
Definition ELF_R_ARM_FUNCDESC_VALUE : Z := 164.

Definition le16 (m : mem) (p : Z) : Z := load8 m p + 2 ^ 8 * load8 m (p + 1).
Definition le32 (m : mem) (p : Z) : Z := load32 m p.

(** Without the FPU context a hard-float image is refused. *)
Definition lxp_loader_abi_incompatible (m : mem) (img image_size : Z) : bool :=
  if (img =? 0) || (image_size <? 40) then false
  else if negb (load8 m img =? 0x7f) || negb (load8 m (img + 1) =? 69) || negb (load8 m (img + 2) =? 76) ||
          negb (load8 m (img + 3) =? 70)
  then false
  else negb (Z.land (le32 m (img + 36)) ELF_EF_ARM_ABI_FLOAT_HARD =? 0).

(** ** The load map *)

(** Entry [i]: runtime address, link address and size of a segment. *)
Definition lm_entry (m : mem) (lm i : Z) : Z * Z * Z :=
  let e := lm + 4 + i * 12 in (le32 m e, le32 m (e + 4), le32 m (e + 8)).

Definition rt_hit (m : mem) (lm vaddr i : Z) : option Z :=
  let '(addr, pv, msz) := lm_entry m lm i in
  if (vaddr >=? pv) && (vaddr <? u32 (pv + msz)) then Some (u32 (addr + (vaddr - pv))) else None.

Definition rt_n_hit (m : mem) (lm vaddr need i : Z) : option Z :=
  let '(addr, pv, msz) := lm_entry m lm i in
  if (vaddr >=? pv) && (vaddr + need <=? pv + msz) then Some (u32 (addr + u32 (vaddr - pv))) else None.

(** The first answer along a list, or 0. *)
Fixpoint first_hit (f : Z -> option Z) (l : list Z) : Z :=
  match l with
  | [] => 0
  | i :: t => match f i with Some a => a | None => first_hit f t end
  end.

Definition fdpic_rt (m : mem) (lm nseg vaddr : Z) : Z := first_hit (rt_hit m lm vaddr) (seqZ 0 nseg).

Definition fdpic_rt_n (m : mem) (lm nseg vaddr need : Z) : Z :=
  if vaddr >? 0xffffffff then 0 else first_hit (rt_n_hit m lm vaddr need) (seqZ 0 nseg).

(** ** Program headers *)

Record phdr := mk_phdr { ph_type : Z; ph_offset : Z; ph_vaddr : Z; ph_filesz : Z; ph_memsz : Z; ph_flags : Z }.

Definition phdr_at (m : mem) (img phoff phentsize i : Z) : phdr :=
  let ph := img + phoff + i * phentsize in
  mk_phdr (le32 m ph) (le32 m (ph + 4)) (le32 m (ph + 8)) (le32 m (ph + 16)) (le32 m (ph + 20)) (le32 m (ph + 24)).

(** A link-time range as bytes of the file: an address, or 0. *)
Definition fdpic_file_range (m : mem) (img image_size phoff phentsize phnum vaddr need : Z) : Z :=
  first_hit (fun i =>
      let ph := phdr_at m img phoff phentsize i in
      if negb (ph_type ph =? ELF_PT_LOAD) then None
      else if vaddr <? ph_vaddr ph then None
      else let delta := vaddr - ph_vaddr ph in
           if (delta + need >? ph_filesz ph) || (ph_offset ph + delta + need >? image_size) then None
           else Some (img + ph_offset ph + delta))
    (seqZ 0 phnum).

Definition copied_text_map_size (text_size region_size : Z) : Z :=
  if (region_size <? 64) || negb (Z.land region_size (region_size - 1) =? 0) then 0
  else let size := region_size / 2 in if text_size <=? size then size else 0.

(** ** The layout of an acceptable image *)

Record fdpic_layout := mk_layout {
  fl_entry : Z; fl_phoff : Z; fl_phentsize : Z; fl_phnum : Z; fl_nload : Z; fl_text_size : Z; fl_text_off : Z;
  fl_rw_lo : Z; fl_rw_span : Z; fl_rw_aligned : Z; fl_loadmap_size : Z; fl_text_reserved : Z;
  fl_dyn_vaddr : Z; fl_dyn_size : Z; fl_interp_off : Z; fl_interp_size : Z;
}.

(** What the walk over the program headers collects. *)
Record seen := mk_seen {
  se_text_sz : Z; se_text_off : Z; se_rw_lo : Z; se_rw_hi : Z; se_dyn_vaddr : Z; se_dyn_sz : Z;
  se_interp_off : Z; se_interp_sz : Z; se_have_text : bool; se_nload : Z;
}.
Definition seen_none : seen := mk_seen 0 0 0xffffffff 0 0 0 0 0 false 0.

Definition see_dynamic (ph : phdr) (s : seen) : seen :=
  if ph_type ph =? ELF_PT_DYNAMIC
  then mk_seen (se_text_sz s) (se_text_off s) (se_rw_lo s) (se_rw_hi s) (ph_vaddr ph) (ph_memsz ph)
         (se_interp_off s) (se_interp_sz s) (se_have_text s) (se_nload s)
  else s.
Definition see_interp (ph : phdr) (s : seen) : seen :=
  if ph_type ph =? ELF_PT_INTERP
  then mk_seen (se_text_sz s) (se_text_off s) (se_rw_lo s) (se_rw_hi s) (se_dyn_vaddr s) (se_dyn_sz s)
         (ph_offset ph) (ph_filesz ph) (se_have_text s) (se_nload s)
  else s.

(** One header; [None] refuses the image. *)
Definition see (image_size : Z) (ph : phdr) (s : seen) : option seen :=
  let s := see_interp ph (see_dynamic ph s) in
  if negb (ph_type ph =? ELF_PT_LOAD) then Some s
  else if (ph_filesz ph >? ph_memsz ph) || (ph_offset ph + ph_filesz ph >? image_size) ||
          (ph_vaddr ph + ph_memsz ph >? 0xffffffff)
  then None
  else if negb (Z.land (ph_flags ph) ELF_PF_X =? 0)
  then if negb (ph_filesz ph =? ph_memsz ph) then None
       else Some (mk_seen (ph_memsz ph) (ph_offset ph) (se_rw_lo s) (se_rw_hi s) (se_dyn_vaddr s) (se_dyn_sz s)
                    (se_interp_off s) (se_interp_sz s) true (se_nload s + 1))
  else let end_ := u32 (ph_vaddr ph + ph_memsz ph) in
       Some (mk_seen (se_text_sz s) (se_text_off s)
               (if ph_vaddr ph <? se_rw_lo s then ph_vaddr ph else se_rw_lo s)
               (if end_ >? se_rw_hi s then end_ else se_rw_hi s) (se_dyn_vaddr s) (se_dyn_sz s)
               (se_interp_off s) (se_interp_sz s) (se_have_text s) (se_nload s + 1)).

Fixpoint see_all (m : mem) (img image_size phoff phentsize : Z) (l : list Z) (s : seen) : option seen :=
  match l with
  | [] => Some s
  | i :: t => match see image_size (phdr_at m img phoff phentsize i) s with
              | None => None
              | Some s => see_all m img image_size phoff phentsize t s
              end
  end.

(** The dynamic table's relocation size and stride, from [n] entries at [dyn]. *)
Fixpoint rel_of_table (m : mem) (dyn : Z) (n : nat) (rel_sz rel_ent : Z) : Z * Z :=
  match n with
  | O => (rel_sz, rel_ent)
  | S n =>
      let tag := le32 m dyn in
      let val := le32 m (dyn + 4) in
      if tag =? ELF_DT_NULL then (rel_sz, rel_ent)
      else if tag =? ELF_DT_RELSZ then rel_of_table m (dyn + 8) n val rel_ent
      else if tag =? ELF_DT_RELENT then rel_of_table m (dyn + 8) n rel_sz val
      else rel_of_table m (dyn + 8) n rel_sz rel_ent
  end.

Definition round4 (n : Z) : Z := Z.land (u32 (n + 3)) (Z.lxor 0xffffffff 3).
Definition round8 (n : Z) : Z := Z.land (u32 (n + 7)) (Z.lxor 0xffffffff 7).

(** The checks behind the header walk. *)
Definition layout_finish (m : mem) (img image_size region_size : Z) (copy_text : bool) (phoff phentsize phnum : Z) (s : seen)
    : Z * option fdpic_layout :=
  if negb (se_have_text s) || (se_nload s =? 0) then (LXP_ERR_INVALID_PARAM, None)
  else if negb (se_interp_sz s =? 0) &&
          ((se_interp_sz s >? ELF_INTERP_MAX) || (se_interp_off s + se_interp_sz s >? image_size) ||
           negb (load8 m (img + u32 (se_interp_off s + se_interp_sz s - 1)) =? 0))
  then (LXP_ERR_INVALID_PARAM, None)
  else
    let rw_span := if se_rw_hi s >? se_rw_lo s then se_rw_hi s - se_rw_lo s else 0 in
    if rw_span >? region_size then (LXP_ERR_NO_MEMORY, None)
    else
      let rw_a := round4 rw_span in
      let loadmap_sz := u32 (4 + se_nload s * 12) in
      let text_a := if copy_text then copied_text_map_size (se_text_sz s) region_size else 0 in
      if copy_text && (text_a =? 0) then (LXP_ERR_NO_MEMORY, None)
      else if text_a + rw_a + loadmap_sz >? region_size then (LXP_ERR_NO_MEMORY, None)
      else
        let bad_dyn := (se_rw_lo s =? 0xffffffff) || (se_dyn_vaddr s <? se_rw_lo s) ||
                       (se_dyn_vaddr s + se_dyn_sz s >? se_rw_hi s) in
        let dyn := fdpic_file_range m img image_size phoff phentsize phnum (se_dyn_vaddr s) (se_dyn_sz s) in
        if negb (se_dyn_vaddr s =? 0) && (bad_dyn || (dyn =? 0)) then (LXP_ERR_INVALID_PARAM, None)
        else
          let '(rel_sz, rel_ent) := if se_dyn_vaddr s =? 0 then (0, 8)
                                    else rel_of_table m dyn (Z.to_nat (se_dyn_sz s / 8)) 0 8 in
          if negb (rel_sz =? 0) && (rel_ent <? 8) then (LXP_ERR_INVALID_PARAM, None)
          else
            let pool_off := round8 (rw_a + loadmap_sz) in
            let max_fd := if negb (rel_ent =? 0) then rel_sz / rel_ent else 0 in
            if text_a + pool_off + max_fd * 8 >? region_size then (LXP_ERR_NO_MEMORY, None)
            else (LXP_OK, Some (mk_layout (le32 m (img + 24)) phoff phentsize phnum (se_nload s) (se_text_sz s)
                                  (se_text_off s) (se_rw_lo s) rw_span rw_a loadmap_sz (u32 text_a)
                                  (se_dyn_vaddr s) (se_dyn_sz s) (se_interp_off s) (se_interp_sz s))).

Definition fdpic_layout_parse (m : mem) (img image_size region_size : Z) (copy_text : bool) : Z * option fdpic_layout :=
  if (img =? 0) || (image_size <? 52) then (LXP_ERR_INVALID_PARAM, None)
  else if negb (load8 m img =? 0x7f) || negb (load8 m (img + 1) =? 69) || negb (load8 m (img + 2) =? 76) ||
          negb (load8 m (img + 3) =? 70) || negb (load8 m (img + 4) =? ELFCLASS32)
  then (LXP_ERR_INVALID_PARAM, None)
  else if negb (le16 m (img + 16) =? ELF_ET_DYN) || negb (le16 m (img + 18) =? ELF_EM_ARM)
  then (LXP_ERR_INVALID_PARAM, None)
  else if negb (load8 m (img + 7) =? ELF_OSABI_ARM_FDPIC) && (Z.land (le32 m (img + 36)) ELF_EF_ARM_FDPIC =? 0)
  then (LXP_ERR_NOT_SUPPORTED, None)
  else if lxp_loader_abi_incompatible m img image_size then (LXP_ERR_NOT_SUPPORTED, None)
  else
    let phoff := le32 m (img + 28) in
    let phentsize := le16 m (img + 42) in
    let phnum := le16 m (img + 44) in
    if (phentsize <? 32) || (phoff + phnum * phentsize >? image_size) then (LXP_ERR_INVALID_PARAM, None)
    else match see_all m img image_size phoff phentsize (seqZ 0 phnum) seen_none with
    | None => (LXP_ERR_INVALID_PARAM, None)
    | Some s => layout_finish m img image_size region_size copy_text phoff phentsize phnum s
    end.

Definition lxp_loader_validate_fdpic (m : mem) (img image_size region_size : Z) (copy_text : bool) : Z :=
  (fdpic_layout_parse m img image_size region_size copy_text).1.

(** ** Loading *)

Record lxp_flat := mk_flat {
  pg_region : Z; pg_region_size : Z; pg_region_used : Z; pg_entry : Z; pg_text_base : Z; pg_text_size : Z;
  pg_text_map_size : Z; pg_data_base : Z; pg_data_size : Z; pg_bss_size : Z; pg_stack_size : Z; pg_is_fdpic : Z;
  pg_loadmap : Z; pg_phdr : Z; pg_phnum : Z; pg_is_dynamic : bool; pg_interp : Z; pg_got : Z; pg_dynamic : Z;
  pg_region_exec : bool;
}.

(** The copy pass: memory, the next load-map entry and the last data segment. *)
Record copied := mk_copied { cp_mem : mem; cp_si : Z; cp_data_v : Z; cp_data_fsz : Z; cp_data_msz : Z }.

(** [memcpy(dst, src, n)]. *)
Definition copy_bytes (m : mem) (dst src n : Z) : mem := mem_write m dst (mem_read m src (Z.to_nat n)).

(** One loadable segment is placed and its load-map entry written. *)
Definition place_segment (img region base lm rw_lo : Z) (copy_text : bool) (s : copied) (ph : phdr) : copied :=
  let m := cp_mem s in
  let entry m (seg_addr : Z) :=
    let e := lm + 4 + cp_si s * 12 in
    store32 (store32 (store32 m e seg_addr) (e + 4) (ph_vaddr ph)) (e + 8) (ph_memsz ph) in
  if negb (Z.land (ph_flags ph) ELF_PF_X =? 0)
  then if copy_text
       then mk_copied (entry (copy_bytes m region (img + ph_offset ph) (ph_filesz ph)) (u32 region)) (cp_si s + 1)
              (cp_data_v s) (cp_data_fsz s) (cp_data_msz s)
       else mk_copied (entry m (u32 (img + ph_offset ph))) (cp_si s + 1) (cp_data_v s) (cp_data_fsz s) (cp_data_msz s)
  else let d := base + (ph_vaddr ph - rw_lo) in
       mk_copied (entry (copy_bytes m d (img + ph_offset ph) (ph_filesz ph)) (u32 d)) (cp_si s + 1)
         (ph_vaddr ph) (ph_filesz ph) (ph_memsz ph).

(** Program header [i] of the copy pass. *)
Definition copy_segment (img region base lm rw_lo : Z) (copy_text : bool) (phoff phentsize : Z) (s : copied) (i : Z) : copied :=
  let ph := phdr_at (cp_mem s) img phoff phentsize i in
  if negb (ph_type ph =? ELF_PT_LOAD) then s else place_segment img region base lm rw_lo copy_text s ph.

(** The loaded dynamic table. *)
Record dyn_table := mk_dyn { dt_rel : Z; dt_relsz : Z; dt_relent : Z; dt_pltgot : Z; dt_symtab : Z; dt_needed : bool }.
Definition dyn_none : dyn_table := mk_dyn 0 0 8 0 0 false.

Definition dyn_tag (d : dyn_table) (tag val : Z) : dyn_table :=
  if tag =? ELF_DT_NEEDED then mk_dyn (dt_rel d) (dt_relsz d) (dt_relent d) (dt_pltgot d) (dt_symtab d) true
  else if tag =? ELF_DT_REL then mk_dyn val (dt_relsz d) (dt_relent d) (dt_pltgot d) (dt_symtab d) (dt_needed d)
  else if tag =? ELF_DT_RELSZ then mk_dyn (dt_rel d) val (dt_relent d) (dt_pltgot d) (dt_symtab d) (dt_needed d)
  else if tag =? ELF_DT_RELENT then mk_dyn (dt_rel d) (dt_relsz d) val (dt_pltgot d) (dt_symtab d) (dt_needed d)
  else if tag =? ELF_DT_PLTGOT then mk_dyn (dt_rel d) (dt_relsz d) (dt_relent d) val (dt_symtab d) (dt_needed d)
  else if tag =? ELF_DT_SYMTAB then mk_dyn (dt_rel d) (dt_relsz d) (dt_relent d) (dt_pltgot d) val (dt_needed d)
  else d.

Fixpoint dyn_walk (m : mem) (dp : Z) (n : nat) (d : dyn_table) : dyn_table :=
  match n with
  | O => d
  | S n => let tag := le32 m dp in
           if tag =? ELF_DT_NULL then d else dyn_walk m (dp + 8) n (dyn_tag d tag (le32 m (dp + 4)))
  end.

(** ** Relocation *)

(** The place of the load map, the relocation table and the descriptor pool. *)
Record reloc_env := mk_renv {
  re_lm : Z; re_nload : Z; re_rel0 : Z; re_relsz : Z; re_relent : Z; re_symv : Z; re_got : Z; re_pool : Z; re_max_fd : Z;
}.

(** The runtime address of symbol [r_sym], and whether it is defined. *)
Definition sym_at (E : reloc_env) (m : mem) (r_sym : Z) : Z :=
  fdpic_rt_n m (re_lm E) (re_nload E) (re_symv E + r_sym * 16) 16.
Definition sym_defined (E : reloc_env) (m : mem) (sym : Z) : bool :=
  negb (re_symv E =? 0) && negb (sym =? 0) && negb (le16 m (sym + 14) =? 0).

(** The slot a FUNCDESC_VALUE of the symbol relocates, or 0; [None] out of fuel. *)
Fixpoint find_descr (fuel : nat) (E : reloc_env) (m : mem) (r_sym p : Z) : option Z :=
  if u32 (p + re_relent E) <=? re_relsz E
  then match fuel with
       | O => None
       | S n =>
           let i2 := le32 m (re_rel0 E + p + 4) in
           if (Z.land i2 0xff =? ELF_R_ARM_FUNCDESC_VALUE) && (Z.shiftr i2 8 =? r_sym)
           then Some (fdpic_rt m (re_lm E) (re_nload E) (le32 m (re_rel0 E + p)))
           else find_descr n E m r_sym (u32 (p + re_relent E))
       end
  else Some 0.

(** One relocation: memory and the pool bytes in use. *)
Definition reloc_one (fuel : nat) (E : reloc_env) (m : mem) (pool_used r : Z) : option (mem * Z) :=
  let r_offset := le32 m r in
  let r_info := le32 m (r + 4) in
  let r_type := Z.land r_info 0xff in
  let r_sym := Z.shiftr r_info 8 in
  let where_ := fdpic_rt_n m (re_lm E) (re_nload E) r_offset 8 in
  if where_ =? 0 then Some (m, pool_used)
  else if (r_type =? ELF_R_ARM_RELATIVE) || (r_type =? ELF_R_ARM_ABS32)
  then Some (store32 m where_ (fdpic_rt m (re_lm E) (re_nload E) (le32 m where_)), pool_used)
  else if r_type =? ELF_R_ARM_FUNCDESC_VALUE
  then
    let sym := sym_at E m r_sym in
    let '(w0, w1) :=
      if sym_defined E m sym
      then let fnv := le32 m (sym + 4) in
           let fnv := if Z.shiftr (load8 m (sym + 12)) 4 =? 0 then u32 (fnv + le32 m where_) else fnv in
           (fdpic_rt m (re_lm E) (re_nload E) fnv, re_got E)
      else (0, 0) in
    Some (store32 (store32 m where_ w0) (where_ + 4) w1, pool_used)
  else if r_type =? ELF_R_ARM_FUNCDESC
  then
    let sym := sym_at E m r_sym in
    if sym_defined E m sym
    then match find_descr fuel E m r_sym 0 with
         | None => None
         | Some descr =>
             if (descr =? 0) && (u32 (pool_used + 8) <=? u32 (re_max_fd E * 8))
             then let d := re_pool E + pool_used in
                  let fn := fdpic_rt m (re_lm E) (re_nload E) (u32 (le32 m (sym + 4) + le32 m where_)) in
                  Some (store32 (store32 (store32 m d fn) (d + 4) (re_got E)) where_ (u32 d), u32 (pool_used + 8))
             else Some (store32 m where_ descr, pool_used)
         end
    else Some (store32 m where_ 0, pool_used)
  else Some (m, pool_used).

Fixpoint reloc_loop (fuel : nat) (E : reloc_env) (m : mem) (pool_used o : Z) : option (mem * Z) :=
  if u32 (o + re_relent E) <=? re_relsz E
  then match fuel with
       | O => None
       | S n => match reloc_one n E m pool_used (re_rel0 E + o) with
                | None => None
                | Some (m, pool_used) => reloc_loop n E m pool_used (u32 (o + re_relent E))
                end
       end
  else Some (m, pool_used).

(** The region before the copy pass: text cleared, data cleared, the load map's head. *)
Definition load_clear (m : mem) (region : Z) (L : fdpic_layout) (copy_text : bool) : mem :=
  let m := if copy_text then mem_set m region 0 (fl_text_reserved L) else m in
  let base := region + fl_text_reserved L in
  let m := if negb (fl_rw_span L =? 0) then mem_set m base 0 (fl_rw_span L) else m in
  let lm := base + fl_rw_aligned L in
  mem_write (mem_write m lm (le_bytes 2 0)) (lm + 2) (le_bytes 2 (u16 (fl_nload L))).

(** The program record of a finished load. *)
Definition flat_of (m : mem) (img region region_size : Z) (copy_text : bool) (L : fdpic_layout) (s : copied) (d : dyn_table)
    (pool_off pool_used got_base : Z) : lxp_flat :=
  let base := region + fl_text_reserved L in
  let lm := base + fl_rw_aligned L in
  mk_flat base region_size (fl_text_reserved L + pool_off + pool_used) (fdpic_rt m lm (fl_nload L) (fl_entry L))
    (if copy_text then region else img + fl_text_off L) (fl_text_size L) (if copy_text then fl_text_reserved L else 0)
    (fdpic_rt m lm (fl_nload L) (cp_data_v s)) (cp_data_fsz s) (u32 (cp_data_msz s - cp_data_fsz s)) 0x4000 1 lm
    (if copy_text then u32 (region + u32 (fl_phoff L - fl_text_off L)) else img + fl_phoff L) (fl_phnum L) (dt_needed d)
    (if negb (fl_interp_size L =? 0) then img + fl_interp_off L else 0) got_base
    (if negb (fl_dyn_vaddr L =? 0) then fdpic_rt m lm (fl_nload L) (fl_dyn_vaddr L) else 0) copy_text.

(** The copy pass over every program header, and the dynamic table it leaves. *)
Definition loaded_segments (m : mem) (img region : Z) (copy_text : bool) (L : fdpic_layout) : copied :=
  let base := region + fl_text_reserved L in
  let lm := base + fl_rw_aligned L in
  fold_left (copy_segment img region base lm (fl_rw_lo L) copy_text (fl_phoff L) (fl_phentsize L))
    (seqZ 0 (fl_phnum L)) (mk_copied (load_clear m region L copy_text) 0 0 0 0).

Definition loaded_dyn (m : mem) (lm : Z) (L : fdpic_layout) : dyn_table :=
  let dp := if negb (fl_dyn_vaddr L =? 0) then fdpic_rt_n m lm (fl_nload L) (fl_dyn_vaddr L) (fl_dyn_size L) else 0 in
  if negb (dp =? 0) then dyn_walk m dp (Z.to_nat (fl_dyn_size L / 8)) dyn_none else dyn_none.

(** Only a static program is relocated here, through a table that lies in a segment. *)
Definition relocates (is_interp : bool) (d : dyn_table) (rel0 : Z) : bool :=
  negb is_interp && negb (dt_needed d) && negb (rel0 =? 0).

Definition pool_off_of (L : fdpic_layout) : Z := round8 (fl_rw_aligned L + fl_loadmap_size L).
Definition max_fd_of (d : dyn_table) : Z := if negb (dt_relent d =? 0) then dt_relsz d / dt_relent d else 0.
Definition renv_of (m : mem) (base lm : Z) (L : fdpic_layout) (d : dyn_table) : reloc_env :=
  mk_renv lm (fl_nload L) (fdpic_rt_n m lm (fl_nload L) (dt_rel d) (dt_relsz d)) (dt_relsz d) (dt_relent d) (dt_symtab d)
    (fdpic_rt m lm (fl_nload L) (dt_pltgot d)) (base + pool_off_of L) (max_fd_of d).

(** The load of an accepted layout. *)
Definition load_layout (fuel : nat) (m : mem) (img region region_size : Z) (is_interp copy_text : bool) (L : fdpic_layout)
    : option (Z * option lxp_flat * mem) :=
  let base := region + fl_text_reserved L in
  let lm := base + fl_rw_aligned L in
  let s := loaded_segments m img region copy_text L in
  let m := cp_mem s in
  let d := loaded_dyn m lm L in
  if negb (dt_relsz d =? 0) && (dt_relent d <? 8) then Some (LXP_ERR_INVALID_PARAM, None, m)
  else
    let E := renv_of m base lm L d in
    if fl_text_reserved L + pool_off_of L + max_fd_of d * 8 >? region_size then Some (LXP_ERR_NO_MEMORY, None, m)
    else
      match (if relocates is_interp d (re_rel0 E) then reloc_loop fuel E m 0 0 else Some (m, 0)) with
      | None => None
      | Some (m, pool_used) =>
          Some (LXP_OK, Some (flat_of m img region region_size copy_text L s d (pool_off_of L) pool_used (re_got E)), m)
      end.

Definition lxp_loader_load_fdpic (fuel : nat) (m : mem) (img image_size region region_size : Z) (is_interp copy_text : bool)
    : option (Z * option lxp_flat * mem) :=
  if region =? 0 then Some (LXP_ERR_INVALID_PARAM, None, m)
  else match fdpic_layout_parse m img image_size region_size copy_text with
  | (rc, None) => Some (rc, None, m)
  | (_, Some L) => load_layout fuel m img region region_size is_interp copy_text L
  end.
