(* ===== verification/LoaderSpec.v ===== *)
(** * The FDPIC loader against its load map

    The load map the loader writes into the program's region is abstracted to the list of
    placed segments; address resolution through memory is resolution in that list, so it
    does not change while relocations are applied.  Two runs on memories that agree on the
    image and the region are compared step by step: agreement is kept, and every byte
    outside the two ranges stays as it was.  That bounds each read and each write of the
    loader on an untrusted image. *)

From S2P Require Import Prelude Config Footprint Loader.
Local Open Scope Z_scope.

(** ** Reads *)

Section Reads.
Variable P : Z -> Prop.
Implicit Types m : mem.

Lemma agree_le32 m1 m2 a : agree P m1 m2 -> (forall x, within a 4 x -> P x) -> le32 m1 a = le32 m2 a.
Proof. intros H HP. apply load32_ext. intros x Hx. by apply H, HP. Qed.

Lemma agree_le16 m1 m2 a : agree P m1 m2 -> (forall x, within a 2 x -> P x) -> le16 m1 a = le16 m2 a.
Proof. intros H HP. unfold le16. rewrite !H by (apply HP; unfold within; lia). done. Qed.

End Reads.

(** ** Placed segments *)

Record seg := mk_seg { sg_addr : Z; sg_vaddr : Z; sg_size : Z }.

Definition seg_hit (v : Z) (s : seg) : option Z :=
  if (v >=? sg_vaddr s) && (v <? u32 (sg_vaddr s + sg_size s)) then Some (u32 (sg_addr s + (v - sg_vaddr s))) else None.
Definition seg_n_hit (v need : Z) (s : seg) : option Z :=
  if (v >=? sg_vaddr s) && (v + need <=? sg_vaddr s + sg_size s) then Some (u32 (sg_addr s + u32 (v - sg_vaddr s))) else None.

(** The first answer of a list of segments, or 0. *)
Fixpoint first_seg (f : seg -> option Z) (l : list seg) : Z :=
  match l with
  | [] => 0
  | s :: t => match f s with Some a => a | None => first_seg f t end
  end.

Definition resolve (l : list seg) (v : Z) : Z := first_seg (seg_hit v) l.
Definition resolve_n (l : list seg) (v need : Z) : Z := if v >? 0xffffffff then 0 else first_seg (seg_n_hit v need) l.

(** The load map at [lm] in memory lists [l]. *)
Definition map_holds (m : mem) (lm : Z) (l : list seg) : Prop :=
  forall i s, l !! i = Some s -> lm_entry m lm (Z.of_nat i) = (sg_addr s, sg_vaddr s, sg_size s).

(** The bytes of a map of [n] entries. *)
Definition map_bytes (lm : Z) (n : nat) (x : Z) : Prop := within (lm + 4) (12 * Z.of_nat n) x.

Lemma map_holds_agree m m' lm l : agree (map_bytes lm (length l)) m m' -> map_holds m lm l -> map_holds m' lm l.
Proof.
  intros Ha H i s Hi. rewrite <- (H i s Hi). apply lookup_lt_Some in Hi. unfold lm_entry.
  rewrite !(agree_le32 (map_bytes lm (length l)) m m') by (done || (unfold map_bytes, within; intros; lia)). done.
Qed.

Lemma first_hit_segs (f : Z -> option Z) (g : seg -> option Z) l :
  (forall i s, l !! i = Some s -> f (Z.of_nat i) = g s) -> first_hit f (seqZ 0 (alen l)) = first_seg g l.
Proof.
  assert (G : forall k l, (forall i s, l !! i = Some s -> f (k + Z.of_nat i) = g s) ->
              first_hit f (seqZ k (alen l)) = first_seg g l).
  { clear l. intros k l; revert k. induction l as [|s l IH]; intros k H; [done|].
    unfold alen. rewrite seqZ_cons by (simpl; lia). cbn [first_hit first_seg].
    rewrite <- (H 0%nat s eq_refl). replace (k + Z.of_nat 0) with k by lia. destruct (f k); [done|].
    replace (Z.pred (Z.of_nat (length (s :: l)))) with (alen l) by (unfold alen; simpl; lia).
    apply IH. intros i s' Hi. rewrite <- (H (S i) s' Hi). f_equal. lia. }
  intros H. apply (G 0). intros i s Hi. by apply H.
Qed.

Section Resolution.
Variables (m : mem) (lm : Z) (l : list seg).
Hypothesis Hmap : map_holds m lm l.

Lemma fdpic_rt_resolve v : fdpic_rt m lm (alen l) v = resolve l v.
Proof. apply first_hit_segs. intros i s Hi. unfold rt_hit. by rewrite (Hmap i s Hi). Qed.

Lemma fdpic_rt_n_resolve v need : fdpic_rt_n m lm (alen l) v need = resolve_n l v need.
Proof.
  unfold fdpic_rt_n, resolve_n. destruct (v >? 0xffffffff); [done|].
  apply first_hit_segs. intros i s Hi. unfold rt_n_hit. by rewrite (Hmap i s Hi).
Qed.
End Resolution.

(** A segment of at most [B] bytes that lies inside [P], below 4 GiB. *)
Definition seg_in (B : Z) (P : Z -> Prop) (s : seg) : Prop :=
  0 <= sg_addr s /\ 0 <= sg_size s <= B /\ sg_addr s + sg_size s <= 2 ^ 32 /\ forall x, within (sg_addr s) (sg_size s) x -> P x.

Lemma first_seg_some f l a : first_seg f l = a -> a <> 0 -> exists s, s ∈ l /\ f s = Some a.
Proof.
  induction l as [|s l IH]; simpl; intros H Ha; [congruence|].
  destruct (f s) as [b|] eqn:E.
  - exists s. split; [by left|congruence].
  - destruct (IH H Ha) as (s' & Hs & Ef). exists s'. split; [by right|done].
Qed.

(** A range resolved as a whole lies inside one segment. *)
Lemma resolve_n_in B P l v need a :
  Forall (seg_in B P) l -> 0 < need -> resolve_n l v need = a -> a <> 0 ->
  0 < a /\ a + need <= 2 ^ 32 /\ need <= B /\ forall x, within a need x -> P x.
Proof.
  intros HP Hn H Ha. unfold resolve_n in H. destruct (v >? 0xffffffff); [congruence|].
  destruct (first_seg_some _ _ _ H Ha) as (s & Hs & E).
  rewrite Forall_forall in HP. destruct (HP s Hs) as (Ha0 & Hz & Hhi & Hx).
  unfold seg_n_hit in E. destruct (_ && _) eqn:Eb; [|done]. injection E as E.
  apply andb_true_iff in Eb as [E1 E2]. apply Z.geb_le in E1. apply Z.leb_le in E2.
  rewrite (u32_small (v - _)), u32_small in E by lia.
  split_and!; [lia..|]. intros x Hw. apply Hx. unfold within in *. lia.
Qed.

(** ** What an accepted image satisfies *)

Definition is_load (ph : phdr) : bool := ph_type ph =? ELF_PT_LOAD.
Definition is_exec (ph : phdr) : bool := negb (Z.land (ph_flags ph) ELF_PF_X =? 0).

(** The loadable headers of a list of indices, in file order. *)
Definition loads_at (m : mem) (img phoff phentsize : Z) (l : list Z) : list phdr :=
  List.filter is_load (map (phdr_at m img phoff phentsize) l).
Definition loads_of (m : mem) (img : Z) (L : fdpic_layout) : list phdr :=
  loads_at m img (fl_phoff L) (fl_phentsize L) (seqZ 0 (fl_phnum L)).

Lemma loads_at_app m img phoff phentsize p q :
  loads_at m img phoff phentsize (p ++ q) = loads_at m img phoff phentsize p ++ loads_at m img phoff phentsize q.
Proof. unfold loads_at. by rewrite map_app, List.filter_app. Qed.

Lemma phdr_at_range m img phoff phentsize i :
  let ph := phdr_at m img phoff phentsize i in
  0 <= ph_offset ph < 2 ^ 32 /\ 0 <= ph_vaddr ph < 2 ^ 32 /\ 0 <= ph_filesz ph < 2 ^ 32 /\ 0 <= ph_memsz ph < 2 ^ 32.
Proof. simpl. split_and!; apply load32_range. Qed.

(** The bounds of one loadable header, with the extent of the writable segments. *)
Definition ph_ok (isz rw_lo rw_hi : Z) (ph : phdr) : Prop :=
  0 <= ph_offset ph /\ 0 <= ph_filesz ph <= ph_memsz ph /\ ph_offset ph + ph_filesz ph <= isz /\
  0 <= ph_vaddr ph /\ ph_vaddr ph + ph_memsz ph <= 0xffffffff /\
  (if is_exec ph then ph_filesz ph = ph_memsz ph else rw_lo <= ph_vaddr ph /\ ph_vaddr ph + ph_memsz ph <= rw_hi).

Lemma ph_ok_widen isz lo hi lo' hi' ph : lo' <= lo -> hi <= hi' -> ph_ok isz lo hi ph -> ph_ok isz lo' hi' ph.
Proof. unfold ph_ok. intros ?? H. destruct (is_exec ph); naive_solver lia. Qed.

(** One header widens the extent and keeps the bounds. *)
Lemma see_spec isz ph s s' :
  0 <= ph_offset ph < 2 ^ 32 -> 0 <= ph_vaddr ph < 2 ^ 32 -> 0 <= ph_filesz ph < 2 ^ 32 -> 0 <= ph_memsz ph < 2 ^ 32 ->
  see isz ph s = Some s' ->
  se_rw_lo s' <= se_rw_lo s /\ se_rw_hi s <= se_rw_hi s' /\ (se_rw_hi s <= 0xffffffff -> se_rw_hi s' <= 0xffffffff) /\
  se_nload s' = se_nload s + (if is_load ph then 1 else 0) /\ (is_load ph = true -> ph_ok isz (se_rw_lo s') (se_rw_hi s') ph).
Proof.
  intros Ho Hv Hf Hm H. unfold see in H. cbv zeta in H.
  remember (see_interp ph (see_dynamic ph s)) as t eqn:Et.
  assert (Ht : se_rw_lo t = se_rw_lo s /\ se_rw_hi t = se_rw_hi s /\ se_nload t = se_nload s).
  { rewrite Et. unfold see_interp, see_dynamic. by repeat case_match. }
  destruct Ht as (T1 & T2 & T3). rewrite <- T1, <- T2, <- T3. clear T1 T2 T3 Et s.
  fold (is_load ph) in H. destruct (is_load ph); cbn [negb] in H.
  2:{ injection H as <-. split_and!; [lia..|done]. }
  destruct (_ || _) eqn:Eb in H; [done|]. apply orb_false_iff in Eb as [[E1 E2]%orb_false_iff E3].
  rewrite Z.gtb_ltb, Z.ltb_ge in E1, E2, E3. fold (is_exec ph) in H. unfold ph_ok.
  destruct (is_exec ph).
  - destruct (Z.eqb_spec (ph_filesz ph) (ph_memsz ph)) as [Ee|]; [|done]. cbn [negb] in H. injection H as <-.
    cbn. split_and!; try lia; intros _; lia.
  - injection H as <-. cbn [se_rw_lo se_rw_hi se_nload]. rewrite u32_small, Z.gtb_ltb by lia.
    destruct (Z.ltb_spec (ph_vaddr ph) (se_rw_lo t)), (Z.ltb_spec (se_rw_hi t) (ph_vaddr ph + ph_memsz ph));
      split_and!; try lia; intros _; lia.
Qed.

Lemma see_all_spec m img isz phoff phentsize l s s' :
  see_all m img isz phoff phentsize l s = Some s' ->
  se_rw_lo s' <= se_rw_lo s /\ se_rw_hi s <= se_rw_hi s' /\ (se_rw_hi s <= 0xffffffff -> se_rw_hi s' <= 0xffffffff) /\
  se_nload s' = se_nload s + alen (loads_at m img phoff phentsize l) /\
  Forall (ph_ok isz (se_rw_lo s') (se_rw_hi s')) (loads_at m img phoff phentsize l).
Proof.
  revert s. induction l as [|i l IH]; intros s H; simpl in H.
  { injection H as <-. split_and!; try lia; [unfold alen; simpl; lia|constructor]. }
  destruct (see _ _ s) as [t|] eqn:Es; [|done].
  destruct (phdr_at_range m img phoff phentsize i) as (R1 & R2 & R3 & R4).
  destruct (see_spec _ _ _ _ R1 R2 R3 R4 Es) as (A1 & A2 & A3 & A4 & A5).
  destruct (IH t H) as (B1 & B2 & B3 & B4 & B5).
  unfold loads_at in *. cbn [map List.filter]. destruct (is_load _) eqn:El.
  - split_and!; try lia; [unfold alen in *; simpl; lia|]. constructor; [|done].
    eapply ph_ok_widen; [exact B1|exact B2|]. by apply A5.
  - split_and!; [lia..|done].
Qed.

Lemma round4_spec n : 0 <= n < 2 ^ 32 - 3 -> n <= round4 n < n + 4.
Proof.
  intros H. unfold round4. rewrite u32_small by lia.
  change (Z.lxor 0xffffffff 3) with (Z.ones 32 - Z.ones 2). rewrite land_mask_down by lia. lia.
Qed.
Lemma round8_spec n : 0 <= n < 2 ^ 32 - 7 -> n <= round8 n < n + 8.
Proof.
  intros H. unfold round8. rewrite u32_small by lia.
  change (Z.lxor 0xffffffff 7) with (Z.ones 32 - Z.ones 3). rewrite land_mask_down by lia. lia.
Qed.

(** The layout of an accepted image: the places in the region do not overlap and fit. *)
Record layout_ok (m : mem) (img isz rsz : Z) (copy_text : bool) (L : fdpic_layout) : Prop := {
  lo_nload : fl_nload L = alen (loads_of m img L);
  lo_few : alen (loads_of m img L) <= 0xffff;
  lo_headers : Forall (fun ph => ph_ok isz (fl_rw_lo L) (fl_rw_lo L + fl_rw_span L) ph) (loads_of m img L);
  lo_phdrs : 32 <= fl_phentsize L /\ 0 <= fl_phoff L /\ 0 <= fl_phnum L /\ fl_phoff L + fl_phnum L * fl_phentsize L <= isz;
  lo_text : fl_text_reserved L = if copy_text then rsz / 2 else 0;
  lo_span : 0 <= fl_rw_span L <= fl_rw_aligned L;
  lo_map : fl_loadmap_size L = 4 + 12 * fl_nload L;
  lo_fits : 0 <= fl_text_reserved L /\ fl_rw_aligned L + fl_loadmap_size L <= pool_off_of L /\
            fl_text_reserved L + pool_off_of L <= rsz;
}.

Lemma copied_text_map_size_half t r : 0 <= r -> copied_text_map_size t r <> 0 -> copied_text_map_size t r = r / 2.
Proof. intros Hr. unfold copied_text_map_size. by repeat case_match. Qed.

Lemma le16_range m p : 0 <= le16 m p < 2 ^ 16.
Proof. unfold le16, load8. pose proof (u8_range (m p)). pose proof (u8_range (m (p + 1))). lia. Qed.

Lemma rel_of_table_range m dyn n a b a' b' : 0 <= a -> 0 <= b -> rel_of_table m dyn n a b = (a', b') -> 0 <= a' /\ 0 <= b'.
Proof.
  revert dyn a b. induction n as [|n IH]; intros dyn a b Ha Hb H; simpl in H; [by injection H as <- <-|].
  pose proof (load32_range m (dyn + 4)). fold (le32 m (dyn + 4)) in *.
  repeat case_hyp H; [by injection H as <- <-|eapply IH; [..|exact H]; lia..].
Qed.

(** A conditional guard that must fail. *)
Ltac pass_guard H := match type of H with (if ?b then _ else _) = _ => destruct b eqn:?; [discriminate H|] end.

Lemma layout_finish_ok m img isz rsz copy_text phoff phentsize phnum s rc L :
  0 <= rsz < 2 ^ 31 -> 0 <= phoff -> 32 <= phentsize -> 0 <= phnum < 2 ^ 16 -> phoff + phnum * phentsize <= isz ->
  see_all m img isz phoff phentsize (seqZ 0 phnum) seen_none = Some s ->
  layout_finish m img isz rsz copy_text phoff phentsize phnum s = (rc, Some L) -> layout_ok m img isz rsz copy_text L.
Proof.
  intros Hr Hpo Hpe Hpn Hpi Hs H.
  destruct (see_all_spec _ _ _ _ _ _ _ _ Hs) as (A1 & A2 & A3 & A4 & A5). cbn in A1, A2, A3, A4. specialize (A3 ltac:(lia)).
  assert (Hcnt : 0 <= alen (loads_at m img phoff phentsize (seqZ 0 phnum)) <= phnum).
  { unfold loads_at, alen.
    pose proof (List.filter_length_le is_load (map (phdr_at m img phoff phentsize) (seqZ 0 phnum))) as Hc.
    rewrite length_map, length_seqZ in Hc. lia. }
  unfold layout_finish in H. do 2 pass_guard H. cbv zeta in H.
  remember (if se_rw_hi s >? se_rw_lo s then se_rw_hi s - se_rw_lo s else 0) as span eqn:Espan.
  pass_guard H. rewrite Z.gtb_ltb, Z.ltb_ge in Heqb1.
  remember (if copy_text then copied_text_map_size (se_text_sz s) rsz else 0) as ta eqn:Eta.
  do 2 pass_guard H. pass_guard H.
  destruct (if se_dyn_vaddr s =? 0 then _ else _) as [rel_sz rel_ent] eqn:Er in H.
  assert (Hre : 0 <= rel_sz /\ 0 <= rel_ent).
  { destruct (se_dyn_vaddr s =? 0); [injection Er as <- <-; lia|]. apply rel_of_table_range in Er; lia. }
  do 2 pass_guard H. injection H as <- <-. 
  rewrite Z.gtb_ltb, Z.ltb_ge in Heqb3, Heqb6.
  assert (Hsp : 0 <= span /\ se_rw_hi s <= se_rw_lo s + span).
  { rewrite Espan, Z.gtb_ltb. destruct (Z.ltb_spec (se_rw_lo s) (se_rw_hi s)); lia. }
  assert (Hta : ta = if copy_text then rsz / 2 else 0).
  { rewrite Eta. destruct copy_text; [|done]. apply copied_text_map_size_half; [lia|].
    rewrite <- Eta. by destruct (Z.eqb_spec ta 0). }
  assert (Hta0 : 0 <= ta <= rsz) by (destruct copy_text; lia).
  pose proof (round4_spec span ltac:(lia)) as R4.
  assert (Hlm : u32 (4 + se_nload s * 12) = 4 + se_nload s * 12) by (apply u32_small; lia).
  rewrite Hlm in Heqb3, Heqb6 |- *.
  pose proof (round8_spec (round4 span + (4 + se_nload s * 12)) ltac:(lia)) as R8.
  constructor; unfold loads_of, pool_off_of; cbn [fl_nload fl_phoff fl_phentsize fl_phnum fl_rw_lo fl_rw_span fl_text_reserved
    fl_rw_aligned fl_loadmap_size]; try lia.
  - eapply Forall_impl; [exact A5|]. intros ph. apply ph_ok_widen; lia.
  - rewrite u32_small by lia. exact Hta.
  - rewrite u32_small by lia.
    assert (0 <= (if negb (rel_ent =? 0) then rel_sz / rel_ent else 0)).
    { destruct (Z.eqb_spec rel_ent 0); cbn [negb]; [lia|]. apply Z.div_pos; lia. }
    lia.
Qed.

Lemma layout_parse_ok m img isz rsz copy_text rc L :
  0 <= rsz < 2 ^ 31 -> fdpic_layout_parse m img isz rsz copy_text = (rc, Some L) -> layout_ok m img isz rsz copy_text L.
Proof.
  intros Hr H. unfold fdpic_layout_parse in H. do 5 pass_guard H. cbv zeta in H. pass_guard H.
  destruct (see_all _ _ _ _ _ _ _) as [s|] eqn:Es in H; [|done].
  apply orb_false_iff in Heqb4 as [E1 E2]. rewrite Z.gtb_ltb, Z.ltb_ge in E2. rewrite Z.ltb_ge in E1.
  pose proof (load32_range m (img + 28)). pose proof (le16_range m (img + 44)).
  eapply layout_finish_ok; [..|exact H]; [done|apply load32_range|lia|lia|done|exact Es].
Qed.

(** ** Validation reads only the image *)

Lemma first_hit_ext f g l : (forall i, i ∈ l -> f i = g i) -> first_hit f l = first_hit g l.
Proof.
  induction l as [|i l IH]; intros H; [done|]. simpl. rewrite (H i) by left. destruct (g i); [done|].
  apply IH. intros j Hj. apply H. by right.
Qed.

Lemma first_hit_some f l a : first_hit f l = a -> a <> 0 -> exists i, i ∈ l /\ f i = Some a.
Proof.
  induction l as [|i l IH]; simpl; intros H Ha; [congruence|].
  destruct (f i) as [b|] eqn:E.
  - exists i. split; [by left|congruence].
  - destruct (IH H Ha) as (j & Hj & Ef). exists j. split; [by right|done].
Qed.

Section Validation.
Variables (m1 m2 : mem) (img isz : Z).
Hypothesis Ha : agree (within img isz) m1 m2.

Ltac in_image := intros; unfold within in *; nia.

Lemma phdr_at_agree phoff phentsize phnum i :
  0 <= phoff -> 32 <= phentsize -> phoff + phnum * phentsize <= isz -> 0 <= i < phnum ->
  phdr_at m1 img phoff phentsize i = phdr_at m2 img phoff phentsize i.
Proof.
  intros Ho He Hz Hi. assert (i * phentsize + 32 <= phnum * phentsize) by nia.
  unfold phdr_at. rewrite !(agree_le32 _ _ _ _ Ha) by in_image. done.
Qed.

Section Headers.
Variables (phoff phentsize phnum : Z).
Hypotheses (Ho : 0 <= phoff) (He : 32 <= phentsize) (Hz : phoff + phnum * phentsize <= isz).

Lemma see_all_agree l s :
  Forall (fun i => 0 <= i < phnum) l -> see_all m1 img isz phoff phentsize l s = see_all m2 img isz phoff phentsize l s.
Proof.
  intros Hl. revert s. induction Hl as [|i l Hi Hl IH]; intros s; simpl; [done|].
  rewrite (phdr_at_agree phoff phentsize phnum) by done. destruct (see _ _ s); [apply IH|done].
Qed.

Lemma file_range_agree v need :
  fdpic_file_range m1 img isz phoff phentsize phnum v need = fdpic_file_range m2 img isz phoff phentsize phnum v need.
Proof.
  apply first_hit_ext. intros i [? ?]%elem_of_seqZ. rewrite (phdr_at_agree phoff phentsize phnum) by lia. done.
Qed.
End Headers.

Lemma rel_of_table_agree dyn n a b :
  (forall x, within dyn (8 * Z.of_nat n) x -> within img isz x) -> rel_of_table m1 dyn n a b = rel_of_table m2 dyn n a b.
Proof.
  revert dyn a b. induction n as [|n IH]; intros dyn a b H; simpl; [done|].
  rewrite !(agree_le32 _ m1 m2 _ Ha) by (intros; apply H; unfold within in *; lia).
  rewrite !IH by (intros; apply H; unfold within in *; lia). done.
Qed.
End Validation.

(** A file range found lies inside the image. *)
Lemma file_range_in m img isz phoff phentsize phnum v need a :
  fdpic_file_range m img isz phoff phentsize phnum v need = a -> a <> 0 -> 0 <= v -> 0 <= need -> 0 <= img ->
  img <= a /\ a + need <= img + isz.
Proof.
  intros H Hn Hv Hne Hi. destruct (first_hit_some _ _ _ H Hn) as (i & _ & E). cbv beta zeta in E.
  destruct (phdr_at_range m img phoff phentsize i) as (R1 & R2 & R3 & R4).
  remember (phdr_at m img phoff phentsize i) as ph eqn:Eph. clear Eph.
  destruct (negb _); [done|]. destruct (Z.ltb_spec v (ph_vaddr ph)); [done|].
  destruct (_ || _) eqn:Eb; [done|]. apply orb_false_iff in Eb as [E1 E2]. rewrite Z.gtb_ltb, Z.ltb_ge in E1, E2.
  injection E as <-. lia.
Qed.

(** Values the header walk collects are 32-bit words. *)
Lemma see_dyn_range m img isz phoff phentsize l s s' :
  see_all m img isz phoff phentsize l s = Some s' ->
  0 <= se_dyn_vaddr s -> 0 <= se_dyn_sz s -> 0 <= se_interp_off s < 2 ^ 32 -> 0 <= se_interp_sz s < 2 ^ 32 ->
  0 <= se_dyn_vaddr s' /\ 0 <= se_dyn_sz s' /\ 0 <= se_interp_off s' < 2 ^ 32 /\ 0 <= se_interp_sz s' < 2 ^ 32.
Proof.
  revert s. induction l as [|i l IH]; intros s H D1 D2 D3 D4; simpl in H; [by injection H as <-|].
  destruct (see _ _ s) as [t|] eqn:Es; [|done].
  destruct (phdr_at_range m img phoff phentsize i) as (R1 & R2 & R3 & R4).
  assert (G : 0 <= se_dyn_vaddr t /\ 0 <= se_dyn_sz t /\ 0 <= se_interp_off t < 2 ^ 32 /\ 0 <= se_interp_sz t < 2 ^ 32).
  { remember (phdr_at m img phoff phentsize i) as ph eqn:Eph. clear Eph.
    unfold see, see_interp, see_dynamic in Es. cbv zeta in Es. repeat case_hyp Es; inv_pairs; cbn; lia. }
  destruct G as (G1 & G2 & G3 & G4). by apply (IH t H).
Qed.

Lemma layout_finish_agree m1 m2 img isz rsz copy_text phoff phentsize phnum s :
  agree (within img isz) m1 m2 -> 0 < img -> 52 <= isz < 2 ^ 31 -> 0 <= phoff -> 32 <= phentsize -> phoff + phnum * phentsize <= isz ->
  0 <= se_dyn_vaddr s -> 0 <= se_dyn_sz s -> 0 <= se_interp_off s < 2 ^ 32 -> 0 <= se_interp_sz s < 2 ^ 32 ->
  layout_finish m1 img isz rsz copy_text phoff phentsize phnum s = layout_finish m2 img isz rsz copy_text phoff phentsize phnum s.
Proof.
  intros Ha Hi Hz Ho He Hp D1 D2 D3 D4. unfold layout_finish. cbv zeta.
  destruct (_ || (se_nload s =? 0)); [done|].
  assert (Hint : negb (se_interp_sz s =? 0) &&
          ((se_interp_sz s >? ELF_INTERP_MAX) || (se_interp_off s + se_interp_sz s >? isz) ||
           negb (load8 m1 (img + u32 (se_interp_off s + se_interp_sz s - 1)) =? 0)) =
          negb (se_interp_sz s =? 0) &&
          ((se_interp_sz s >? ELF_INTERP_MAX) || (se_interp_off s + se_interp_sz s >? isz) ||
           negb (load8 m2 (img + u32 (se_interp_off s + se_interp_sz s - 1)) =? 0))).
  { destruct (Z.eqb_spec (se_interp_sz s) 0); [done|]. cbn [negb andb]. destruct (se_interp_sz s >? ELF_INTERP_MAX); [done|].
    rewrite Z.gtb_ltb. destruct (Z.ltb_spec isz (se_interp_off s + se_interp_sz s)); [done|]. cbn [orb].
    rewrite u32_small by lia. by rewrite Ha by (unfold within; lia). }
  rewrite Hint. clear Hint. destruct (negb (se_interp_sz s =? 0) && _); [done|].
  destruct (_ >? rsz); [done|]. destruct (copy_text && _); [done|]. destruct (_ >? rsz); [done|].
  rewrite (file_range_agree m1 m2 img isz Ha) by done.
  set (dyn := fdpic_file_range m2 _ _ _ _ _ _ _) in *.
  destruct (negb (se_dyn_vaddr s =? 0) && _) eqn:Eg; [done|].
  assert (Hrel : (if se_dyn_vaddr s =? 0 then (0, 8) else rel_of_table m1 dyn (Z.to_nat (se_dyn_sz s / 8)) 0 8) =
                 (if se_dyn_vaddr s =? 0 then (0, 8) else rel_of_table m2 dyn (Z.to_nat (se_dyn_sz s / 8)) 0 8)).
  { destruct (se_dyn_vaddr s =? 0) eqn:E0; [done|]. cbn [negb andb] in Eg.
    apply orb_false_iff in Eg as [_ Eg]. apply Z.eqb_neq in Eg.
    destruct (file_range_in m2 img isz phoff phentsize phnum _ _ dyn eq_refl Eg D1 D2) as [F1 F2]; [lia|].
    apply (rel_of_table_agree m1 m2 img isz Ha). unfold within. intros. lia. }
  rewrite Hrel. clear Hrel. destruct (if se_dyn_vaddr s =? 0 then _ else _) as [a b].
  destruct (negb (a =? 0) && _); [done|]. destruct (_ >? rsz); [done|].
  rewrite (agree_le32 _ m1 m2 _ Ha) by (unfold within; intros; lia). done.
Qed.

Lemma layout_parse_agree m1 m2 img isz rsz copy_text :
  agree (within img isz) m1 m2 -> 0 <= img -> isz < 2 ^ 31 ->
  fdpic_layout_parse m1 img isz rsz copy_text = fdpic_layout_parse m2 img isz rsz copy_text.
Proof.
  intros Ha Hi Hz. unfold fdpic_layout_parse. destruct (_ || _) eqn:E0; [done|].
  apply orb_false_iff in E0 as [E1%Z.eqb_neq E2%Z.ltb_ge].
  unfold lxp_loader_abi_incompatible.
  rewrite !(agree_le32 _ m1 m2 _ Ha), !(agree_le16 _ m1 m2 _ Ha), !Ha by (unfold within; intros; lia).
  do 4 (match goal with |- (if ?b then _ else _) = (if ?b then _ else _) => destruct b eqn:?; [done|] end). cbv zeta.
  destruct ((le16 m2 (img + 42) <? 32) || _) eqn:Eb; [done|].
  apply orb_false_iff in Eb as [E3 E4]. rewrite Z.gtb_ltb, Z.ltb_ge in E4. rewrite Z.ltb_ge in E3. pose proof (load32_range m2 (img + 28)) as R.
  rewrite (see_all_agree m1 m2 img isz Ha _ _ (le16 m2 (img + 44))); [|apply R|done|done|].
  2:{ apply Forall_forall. intros i ?%elem_of_seqZ. lia. }
  destruct (see_all _ _ _ _ _ _ _) as [s|] eqn:Es; [|done].
  destruct (see_dyn_range _ _ _ _ _ _ _ _ Es) as (S1 & S2 & S3 & S4); [cbn; lia..|].
  apply layout_finish_agree; try done; [lia|apply R].
Qed.

(** ** The copy pass *)

Section CopyPass.
Variables (m0 : mem) (img isz region rsz : Z) (copy_text : bool) (L : fdpic_layout).
Hypotheses (HL : layout_ok m0 img isz rsz copy_text L)
  (Himg : 0 < img) (Himg_hi : img + isz < 2 ^ 32) (Hisz : 0 <= isz < 2 ^ 31)
  (Hreg : 0 < region) (Hreg_hi : region + rsz <= 2 ^ 32) (Hrsz : 0 <= rsz < 2 ^ 31)
  (Hdisj : img + isz <= region \/ region + rsz <= img).

(** The text that is copied fits its half of the region. *)
Definition text_fits (ph : phdr) : Prop := copy_text = true -> is_exec ph = true -> ph_filesz ph <= rsz / 2.

Let base := region + fl_text_reserved L.
Let lm := base + fl_rw_aligned L.

(** Where a loadable header goes. *)
Definition placed (ph : phdr) : seg :=
  mk_seg (if is_exec ph then if copy_text then region else img + ph_offset ph else base + (ph_vaddr ph - fl_rw_lo L))
    (ph_vaddr ph) (ph_memsz ph).

(** The part of the region below the load map, and the places segments are in. *)
Definition below_map : Z -> Prop := within region (fl_text_reserved L + fl_rw_aligned L).
Definition seg_space (x : Z) : Prop := below_map x \/ (copy_text = false /\ within img isz x).

Notation put := (place_segment img region base lm (fl_rw_lo L) copy_text).
Notation good := (ph_ok isz (fl_rw_lo L) (fl_rw_lo L + fl_rw_span L)).

Lemma placed_in ph : good ph -> text_fits ph -> seg_in (Z.max isz rsz) seg_space (placed ph).
Proof.
  intros (G1 & G2 & G3 & G4 & G5 & G6) Hf. pose proof (lo_text _ _ _ _ _ _ HL) as Ht.
  destruct (lo_span _ _ _ _ _ _ HL) as [S1 S2]. destruct (lo_fits _ _ _ _ _ _ HL) as (F1 & F2 & F3).
  pose proof (lo_map _ _ _ _ _ _ HL) as M. pose proof (lo_nload _ _ _ _ _ _ HL) as N.
  unfold text_fits in Hf. unfold seg_in, placed, seg_space, below_map, within; cbn [sg_addr sg_size].
  assert (0 <= alen (loads_of m0 img L)) by (unfold alen; lia).
  destruct (is_exec ph).
  - destruct copy_text.
    + specialize (Hf eq_refl eq_refl). split_and!; try lia; intros; left; lia.
    + split_and!; try lia. all: intros; right; split; [done|lia].
  - split_and!; unfold base in *; try lia; intros; left; lia.
Qed.

(** One placement: what it writes, and the entry it leaves. *)
Lemma put_spec s ph :
  good ph -> text_fits ph -> 0 <= cp_si s < fl_nload L ->
  confined (fun x => below_map x \/ within (lm + 4 + cp_si s * 12) 12 x) (cp_mem s) (cp_mem (put s ph)) /\
  cp_si (put s ph) = cp_si s + 1 /\
  lm_entry (cp_mem (put s ph)) lm (cp_si s) = (sg_addr (placed ph), sg_vaddr (placed ph), sg_size (placed ph)).
Proof.
  intros Hg Hf Hs. pose proof (placed_in ph Hg Hf) as (P1 & P2 & P3 & P4).
  destruct Hg as (G1 & G2 & G3 & G4 & G5 & G6). pose proof (lo_text _ _ _ _ _ _ HL) as Ht.
  destruct (lo_span _ _ _ _ _ _ HL) as [S1 S2]. destruct (lo_fits _ _ _ _ _ _ HL) as (F1 & F2 & F3).
  pose proof (lo_map _ _ _ _ _ _ HL) as M.
  assert (Hent : forall m a, 0 <= a < 2 ^ 32 ->
    let e := lm + 4 + cp_si s * 12 in
    let m' := store32 (store32 (store32 m e a) (e + 4) (ph_vaddr ph)) (e + 8) (ph_memsz ph) in
    confined (within e 12) m m' /\ lm_entry m' lm (cp_si s) = (a, ph_vaddr ph, ph_memsz ph)).
  { intros m a Ha e m'. split.
    - unfold m'. repeat (eapply confined_trans; [|apply confined_store32; unfold within; intros; lia]). apply confined_refl.
    - unfold lm_entry, le32, m'. fold e.
      rewrite (load32_store32_disj _ (e + 8)), (load32_store32_disj _ (e + 4)), (load32_store32_same _ e) by lia.
      rewrite (load32_store32_disj _ (e + 8)), load32_store32_same, load32_store32_same by lia.
      rewrite !u32_small by lia. done. }
  unfold text_fits in Hf. unfold place_segment. fold (is_exec ph). unfold placed in *. cbn [sg_addr sg_vaddr sg_size] in *.
  assert (Hcopy : forall d, (forall x, within d (ph_filesz ph) x -> below_map x) ->
    confined below_map (cp_mem s) (copy_bytes (cp_mem s) d (img + ph_offset ph) (ph_filesz ph))).
  { intros d Hd. apply confined_write. rewrite alen_mem_read by lia. exact Hd. }
  assert (Hjoin : forall m m', confined below_map (cp_mem s) m -> confined (within (lm + 4 + cp_si s * 12) 12) m m' ->
    confined (fun x => below_map x \/ within (lm + 4 + cp_si s * 12) 12 x) (cp_mem s) m').
  { intros m m' C1 C2. eapply confined_trans; [eapply confined_mono; [|exact C1]; by left|].
    eapply confined_mono; [|exact C2]. by right. }
  destruct (is_exec ph) eqn:Ex; [destruct copy_text eqn:Ec|]; rewrite ?Ex in G6.
  - rewrite (u32_small region) in * by lia. cbn [cp_mem cp_si].
    edestruct Hent as [C E]; [|split_and!; [eapply Hjoin; [apply Hcopy|exact C]|done|exact E]]; [lia|].
    specialize (Hf eq_refl eq_refl). unfold below_map, within. intros. lia.
  - rewrite (u32_small (img + _)) by lia. cbn [cp_mem cp_si].
    edestruct Hent as [C E]; [|split_and!; [eapply Hjoin; [apply confined_refl|exact C]|done|exact E]]. lia.
  - rewrite (u32_small (base + _)) by (unfold base; lia). cbn [cp_mem cp_si].
    edestruct Hent as [C E]; [|split_and!; [eapply Hjoin; [apply Hcopy|exact C]|done|exact E]]; [unfold base; lia|].
    unfold below_map, within, base. intros. lia.
Qed.

Notation used := (within region (fl_text_reserved L + fl_rw_aligned L + fl_loadmap_size L)).

(** A list of placements. *)
Lemma puts_spec hs s :
  Forall good hs -> Forall text_fits hs -> 0 <= cp_si s -> cp_si s + alen hs <= fl_nload L ->
  confined used (cp_mem s) (cp_mem (fold_left put hs s)) /\ cp_si (fold_left put hs s) = cp_si s + alen hs /\
  forall l, map_holds (cp_mem s) lm l -> alen l = cp_si s -> map_holds (cp_mem (fold_left put hs s)) lm (l ++ map placed hs).
Proof.
  intros Hg Hf. revert s. induction Hg as [|ph hs Hph Hg IH]; intros s H0 Hn; simpl.
  { split_and!; [apply confined_refl|unfold alen; simpl; lia|]. intros l. by rewrite app_nil_r. }
  inversion Hf as [|? ? Ff Ff']; subst. replace (alen (ph :: hs)) with (1 + alen hs) in * by (unfold alen; simpl; lia).
  assert (Hal : 0 <= alen hs) by (unfold alen; lia).
  destruct (put_spec s ph Hph Ff ltac:(lia)) as (C & Esi & En).
  destruct (IH Ff' (put s ph)) as (C' & Esi' & Hm); [lia..|].
  pose proof (lo_map _ _ _ _ _ _ HL) as M. destruct (lo_span _ _ _ _ _ _ HL) as [S1 S2].
  destruct (lo_fits _ _ _ _ _ _ HL) as (F1 & F2 & F3). split_and!; [|lia|].
  - eapply confined_trans; [|exact C']. eapply confined_mono; [|exact C].
    unfold below_map, within, lm, base. intros. lia.
  - intros l Hl El.
    assert (Ho : map_holds (cp_mem (put s ph)) lm l).
    { apply (map_holds_agree (cp_mem s)); [|done]. apply agree_sym. eapply confined_agree; [exact C|].
      unfold map_bytes, below_map, within, lm, base. unfold alen in *. intros. lia. }
    replace (l ++ placed ph :: map placed hs) with ((l ++ [placed ph]) ++ map placed hs) by (by rewrite <- app_assoc).
    apply Hm; [|unfold alen in *; rewrite length_app; simpl; lia].
    intros i sg Hi. apply lookup_app_Some in Hi as [Hi|[Hi Hi']]; [by apply Ho|].
    apply list_lookup_singleton_Some in Hi' as [Hi' <-]. replace (Z.of_nat i) with (cp_si s) by (unfold alen in El; lia).
    exact En.
Qed.

(** Two copy passes over alike memories. *)
Definition same_copied (P : Z -> Prop) (s1 s2 : copied) : Prop :=
  agree P (cp_mem s1) (cp_mem s2) /\ cp_si s1 = cp_si s2 /\ cp_data_v s1 = cp_data_v s2 /\ cp_data_fsz s1 = cp_data_fsz s2 /\
  cp_data_msz s1 = cp_data_msz s2.

Definition space (x : Z) : Prop := within img isz x \/ within region rsz x.

Lemma puts_agree hs s1 s2 :
  Forall good hs -> same_copied space s1 s2 -> same_copied space (fold_left put hs s1) (fold_left put hs s2).
Proof.
  intros Hg. revert s1 s2. induction Hg as [|ph hs Hph Hg IH]; intros s1 s2 H; simpl; [done|].
  apply IH. destruct H as (Ha & E1 & E2 & E3 & E4). destruct Hph as (G1 & G2 & G3 & G4 & G5 & G6).
  assert (Hr : mem_read (cp_mem s1) (img + ph_offset ph) (Z.to_nat (ph_filesz ph)) =
               mem_read (cp_mem s2) (img + ph_offset ph) (Z.to_nat (ph_filesz ph))).
  { apply (agree_read space); [done|]. unfold space, within. intros. lia. }
  unfold place_segment, copy_bytes. rewrite Hr, E1. cbv zeta.
  destruct (negb _); [destruct copy_text|]; split_and!; try done; cbn [cp_mem]; by repeat apply agree_write.
Qed.

(** The cleared region. *)
Lemma clear_spec :
  confined used m0 (load_clear m0 region L copy_text) /\
  forall x, within base (fl_rw_span L) x -> load8 (load_clear m0 region L copy_text) x = 0.
Proof.
  pose proof (lo_map _ _ _ _ _ _ HL) as M. destruct (lo_span _ _ _ _ _ _ HL) as [S1 S2].
  destruct (lo_fits _ _ _ _ _ _ HL) as (F1 & F2 & F3). pose proof (lo_nload _ _ _ _ _ _ HL) as N.
  assert (Hn : 0 <= fl_nload L) by (unfold alen in N; lia). unfold load_clear, mem_set. cbv zeta. split.
  - eapply confined_trans; [|apply confined_write; unfold alen; rewrite length_le_bytes; unfold within; intros; lia].
    eapply confined_trans; [|apply confined_write; unfold alen; rewrite length_le_bytes; unfold within; intros; lia].
    apply confined_trans with (if copy_text then mem_write m0 region (replicate (Z.to_nat (fl_text_reserved L)) 0) else m0).
    + destruct copy_text; [|apply confined_refl]. apply confined_write. unfold alen, within. rewrite length_replicate. intros; lia.
    + destruct (negb _); [|apply confined_refl]. apply confined_write. unfold alen, within. rewrite length_replicate. intros; lia.
  - intros x Hx. unfold within, base in Hx. rewrite !load8_write_out by (rewrite length_le_bytes; lia).
    destruct (Z.eqb_spec (fl_rw_span L) 0); [lia|]. cbn [negb]. unfold load8.
    rewrite mem_write_in by (rewrite length_replicate; lia). by rewrite nth_lookup, lookup_replicate_2 by lia.
Qed.

Lemma used_region x : used x -> within region rsz x.
Proof. destruct (lo_fits _ _ _ _ _ _ HL) as (F1 & F2 & F3). unfold within. lia. Qed.

Lemma region_not_image x : within img isz x -> ~ used x.
Proof. intros Hx Hu%used_region. unfold within in *. lia. Qed.

Hypothesis Hfits : Forall text_fits (loads_of m0 img L).

Notation start := (mk_copied (load_clear m0 region L copy_text) 0 0 0 0).

(** The copy pass reads its headers from the unchanged image. *)
Lemma loaded_eq : loaded_segments m0 img region copy_text L = fold_left put (loads_of m0 img L) start.
Proof.
  unfold loaded_segments. fold base lm.
  apply (fold_left_prefix (fun p s => s = fold_left put (loads_at m0 img (fl_phoff L) (fl_phentsize L) p) start)); [done|].
  intros p i q s El ->. rewrite loads_at_app, fold_left_app.
  assert (Hsplit : loads_of m0 img L = loads_at m0 img (fl_phoff L) (fl_phentsize L) p ++
                                       loads_at m0 img (fl_phoff L) (fl_phentsize L) (i :: q)).
  { unfold loads_of. by rewrite El, loads_at_app. }
  destruct (puts_spec (loads_at m0 img (fl_phoff L) (fl_phentsize L) p) start) as (C & _ & _).
  - pose proof (lo_headers _ _ _ _ _ _ HL) as Hh. rewrite Hsplit in Hh. by apply Forall_app in Hh as [Hh _].
  - rewrite Hsplit in Hfits. by apply Forall_app in Hfits as [Hh _].
  - simpl. lia.
  - rewrite (lo_nload _ _ _ _ _ _ HL), Hsplit. unfold alen. rewrite length_app. simpl. lia.
  - destruct (lo_phdrs _ _ _ _ _ _ HL) as (P1 & P2 & P3 & P4).
    assert (Hi : 0 <= i < fl_phnum L).
    { assert (Hi : i ∈ seqZ 0 (fl_phnum L)) by (rewrite El; apply elem_of_app; right; by left).
      apply elem_of_seqZ in Hi. lia. }
    unfold copy_segment. rewrite (phdr_at_agree _ m0 img isz) with (phnum := fl_phnum L); [|..|lia]; try done.
    + unfold loads_at at 3. cbn [map List.filter fold_left]. unfold is_load. destruct (_ =? ELF_PT_LOAD); done.
    + apply (confined_agree used); [|apply region_not_image].
      eapply confined_trans; [apply clear_spec|exact C].
Qed.

Lemma loaded_spec :
  let s := loaded_segments m0 img region copy_text L in
  confined used m0 (cp_mem s) /\ map_holds (cp_mem s) lm (map placed (loads_of m0 img L)).
Proof.
  cbv zeta. rewrite loaded_eq.
  destruct (puts_spec (loads_of m0 img L) start) as (C & _ & M); [by apply HL|done|simpl; lia|..].
  { rewrite (lo_nload _ _ _ _ _ _ HL). simpl. lia. }
  split; [eapply confined_trans; [apply clear_spec|exact C]|].
  apply (M []); [|done]. intros i s Hi. done.
Qed.

Lemma segments_in : Forall (seg_in (Z.max isz rsz) seg_space) (map placed (loads_of m0 img L)).
Proof.
  apply Forall_map. apply Forall_forall. intros ph Hin.
  pose proof (lo_headers _ _ _ _ _ _ HL) as Hh. rewrite Forall_forall in Hh.
  pose proof Hfits as Hf. rewrite Forall_forall in Hf. apply placed_in; auto.
Qed.

(** *** The bytes of the placed segments *)

(** A header whose file bytes are copied. *)
Definition copies (ph : phdr) : bool := negb (is_exec ph) || copy_text.

(** The copied segments do not overlap in the region. *)
Definition apart (a b : phdr) : Prop :=
  sg_addr (placed a) + ph_memsz a <= sg_addr (placed b) \/ sg_addr (placed b) + ph_memsz b <= sg_addr (placed a).
Inductive all_apart : list phdr -> Prop :=
  | apart_nil : all_apart []
  | apart_cons a l : (forall b, b ∈ l -> copies a = true -> copies b = true -> apart a b) -> all_apart l -> all_apart (a :: l).

Lemma put_byte s ph x :
  good ph -> text_fits ph -> 0 <= cp_si s < fl_nload L -> below_map x ->
  load8 (cp_mem (put s ph)) x =
  if decide (copies ph = true /\ within (sg_addr (placed ph)) (ph_filesz ph) x)
  then load8 (cp_mem s) (img + ph_offset ph + (x - sg_addr (placed ph))) else load8 (cp_mem s) x.
Proof.
  intros Hg Hf Hs Hx. destruct Hg as (G1 & G2 & G3 & G4 & G5 & G6). unfold below_map, within in Hx.
  destruct (lo_span _ _ _ _ _ _ HL) as [S1 S2]. destruct (lo_fits _ _ _ _ _ _ HL) as (F1 & F2 & F3).
  assert (Hent : forall m a, load8 (store32 (store32 (store32 m (lm + 4 + cp_si s * 12) a) (lm + 4 + cp_si s * 12 + 4) (ph_vaddr ph))
                               (lm + 4 + cp_si s * 12 + 8) (ph_memsz ph)) x = load8 m x).
  { intros m a. unfold lm, base. rewrite !load8_store32_out by lia. done. }
  assert (Hcp : forall d, load8 (copy_bytes (cp_mem s) d (img + ph_offset ph) (ph_filesz ph)) x =
    if decide (within d (ph_filesz ph) x) then load8 (cp_mem s) (img + ph_offset ph + (x - d)) else load8 (cp_mem s) x).
  { intros d. unfold copy_bytes, load8 at 1. case_decide as Hw; unfold within in Hw.
    - rewrite mem_write_in by (rewrite length_mem_read; lia). rewrite nth_mem_read by lia.
      unfold load8. rewrite u8_idemp. do 2 f_equal. lia.
    - rewrite mem_write_out; [done|]. rewrite length_mem_read. lia. }
  unfold place_segment. fold (is_exec ph). unfold copies, placed. cbn [sg_addr].
  destruct (is_exec ph); [destruct copy_text|]; cbn [cp_mem negb orb]; rewrite Hent, ?Hcp; repeat case_decide; naive_solver.
Qed.

Lemma puts_skip hs s x :
  Forall good hs -> Forall text_fits hs -> 0 <= cp_si s -> cp_si s + alen hs <= fl_nload L -> below_map x ->
  (forall b, b ∈ hs -> copies b = true -> ~ within (sg_addr (placed b)) (ph_filesz b) x) ->
  load8 (cp_mem (fold_left put hs s)) x = load8 (cp_mem s) x.
Proof.
  intros Hg Hf. revert s. induction Hg as [|a hs Ha Hg IH]; intros s H0 Hn Hx Hb; simpl; [done|].
  inversion Hf; subst. replace (alen (a :: hs)) with (1 + alen hs) in Hn by (unfold alen; simpl; lia).
  assert (Hal : 0 <= alen hs) by (unfold alen; lia).
  destruct (put_spec s a) as (_ & Esi & _); [done|done|lia|].
  rewrite IH; [|done|lia|lia|done|intros b Hin; apply Hb; by right].
  rewrite put_byte by (done || lia). rewrite decide_False; [done|]. intros [Hc Hw]. by apply (Hb a); [left|..].
Qed.

Lemma copied_below ph x :
  good ph -> text_fits ph -> copies ph = true -> within (sg_addr (placed ph)) (ph_memsz ph) x -> below_map x.
Proof.
  intros Hg Hf Hc Hx. destruct (placed_in ph Hg Hf) as (_ & _ & _ & P4). destruct (P4 x Hx) as [|[Ec Hi]]; [done|].
  destruct Hg as (G1 & G2 & G3 & G4 & G5 & G6).
  unfold copies, placed in *. rewrite Ec in *. destruct (is_exec ph); [done|]. cbn [sg_addr] in *. destruct (lo_span _ _ _ _ _ _ HL) as [S1 S2].
  destruct (lo_fits _ _ _ _ _ _ HL) as (F1 & F2 & F3). unfold below_map, within, base in *. lia.
Qed.

Lemma put_image s ph x :
  good ph -> text_fits ph -> 0 <= cp_si s < fl_nload L -> within img isz x -> load8 (cp_mem (put s ph)) x = load8 (cp_mem s) x.
Proof.
  intros Hg Hf Hs Hx. destruct (put_spec s ph Hg Hf Hs) as (C & _ & _). unfold load8. rewrite C; [done|].
  pose proof (lo_map _ _ _ _ _ _ HL) as M. destruct (lo_span _ _ _ _ _ _ HL) as [S1 S2].
  destruct (lo_fits _ _ _ _ _ _ HL) as (F1 & F2 & F3). unfold below_map, within, lm, base in *. lia.
Qed.

(** The head of the load map stays as it was cleared. *)
Lemma puts_head hs s x :
  Forall good hs -> Forall text_fits hs -> 0 <= cp_si s -> cp_si s + alen hs <= fl_nload L -> within lm 4 x ->
  load8 (cp_mem (fold_left put hs s)) x = load8 (cp_mem s) x.
Proof.
  intros Hg Hf. revert s. induction Hg as [|a hs Ha Hg IH]; intros s H0 Hn Hx; simpl; [done|].
  inversion Hf; subst. replace (alen (a :: hs)) with (1 + alen hs) in Hn by (unfold alen; simpl; lia).
  assert (Hal : 0 <= alen hs) by (unfold alen; lia).
  destruct (put_spec s a) as (C & Esi & _); [done|done|lia|].
  rewrite IH by (done || lia). unfold load8. rewrite C; [done|]. unfold below_map, within, lm, base in *. lia.
Qed.

(** A list of placements leaves each copied segment as its file bytes over what was there. *)
Lemma puts_bytes hs s ph x :
  Forall good hs -> Forall text_fits hs -> all_apart hs -> 0 <= cp_si s -> cp_si s + alen hs <= fl_nload L ->
  ph ∈ hs -> copies ph = true -> within (sg_addr (placed ph)) (ph_memsz ph) x ->
  load8 (cp_mem (fold_left put hs s)) x =
  if decide (within (sg_addr (placed ph)) (ph_filesz ph) x)
  then load8 (cp_mem s) (img + ph_offset ph + (x - sg_addr (placed ph))) else load8 (cp_mem s) x.
Proof.
  intros Hg Hf Hap. revert s Hg Hf. induction Hap as [|a hs Ha Hap IH]; intros s Hg Hf H0 Hn Hin Hc Hx; [by apply elem_of_nil in Hin|].
  assert (Hgp : good ph) by (rewrite Forall_forall in Hg; by apply Hg).
  assert (Hfp : text_fits ph) by (rewrite Forall_forall in Hf; by apply Hf).
  inversion Hg as [|? ? Ga Gs]; subst. inversion Hf as [|? ? Fa Fs]; subst.
  replace (alen (a :: hs)) with (1 + alen hs) in Hn by (unfold alen; simpl; lia).
  assert (Hal : 0 <= alen hs) by (unfold alen; lia).
  destruct (put_spec s a) as (_ & Esi & _); [done|done|lia|].
  assert (Hbx : below_map x) by (by apply (copied_below ph)). cbn [fold_left].
  assert (Hle : ph_filesz ph <= ph_memsz ph) by apply Hgp.
  apply elem_of_cons in Hin as [->|Hin].
  - rewrite puts_skip by (done || lia || (intros b Hb Hcb Hw; destruct (Ha b Hb Hc Hcb);
      assert (ph_filesz b <= ph_memsz b) by (rewrite Forall_forall in Gs; by apply Gs); unfold within in *; lia)).
    rewrite put_byte by (done || lia). repeat case_decide; naive_solver.
  - rewrite (IH (put s a)) by (done || lia).
    assert (Hout : ~ (copies a = true /\ within (sg_addr (placed a)) (ph_filesz a) x)).
    { intros [Hca Hw]. destruct (Ha ph Hin Hca Hc); assert (ph_filesz a <= ph_memsz a) by apply Ga; unfold within in *; lia. }
    case_decide as Hd.
    + apply put_image; [done|done|lia|]. destruct Hgp as (G1 & G2 & G3 & _). unfold within in *. lia.
    + rewrite put_byte by (done || lia). by rewrite decide_False.
Qed.

Lemma loaded_head :
  le16 (cp_mem (loaded_segments m0 img region copy_text L)) lm = 0 /\
  le16 (cp_mem (loaded_segments m0 img region copy_text L)) (lm + 2) = fl_nload L.
Proof.
  pose proof (lo_nload _ _ _ _ _ _ HL) as N. pose proof (lo_few _ _ _ _ _ _ HL) as F.
  assert (Hb : forall x, within lm 4 x -> load8 (cp_mem (loaded_segments m0 img region copy_text L)) x =
                                     load8 (load_clear m0 region L copy_text) x).
  { intros x Hx. rewrite loaded_eq. apply (puts_head _ start); try done; [apply HL|simpl; lia]. }
  unfold le16. rewrite !Hb by (unfold within; lia). unfold load_clear. cbv zeta. fold base. fold lm. unfold load8.
  rewrite (mem_write_in _ (lm + 2) _ (lm + 2)), (mem_write_in _ (lm + 2) _ (lm + 2 + 1)) by (rewrite length_le_bytes; lia).
  rewrite (mem_write_out _ (lm + 2) _ lm), (mem_write_out _ (lm + 2) _ (lm + 1)) by lia.
  rewrite (mem_write_in _ lm _ lm), (mem_write_in _ lm _ (lm + 1)) by (rewrite length_le_bytes; lia).
  replace (lm - lm) with 0 by lia. replace (lm + 1 - lm) with 1 by lia. replace (lm + 2 - (lm + 2)) with 0 by lia.
  replace (lm + 2 + 1 - (lm + 2)) with 1 by lia. change (Z.to_nat 0) with 0%nat. change (Z.to_nat 1) with 1%nat.
  cbn [le_bytes nth]. rewrite !u8_idemp. assert (0 <= fl_nload L) by (unfold alen in *; lia). unfold u8, u16. lia.
Qed.

(** The loaded segments: file bytes, and zeroes behind them. *)
Lemma loaded_bytes ph x :
  all_apart (loads_of m0 img L) -> ph ∈ loads_of m0 img L -> copies ph = true -> within (sg_addr (placed ph)) (ph_memsz ph) x ->
  load8 (cp_mem (loaded_segments m0 img region copy_text L)) x =
  if decide (within (sg_addr (placed ph)) (ph_filesz ph) x)
  then load8 m0 (img + ph_offset ph + (x - sg_addr (placed ph))) else 0.
Proof.
  intros Hap Hin Hc Hx. pose proof (lo_headers _ _ _ _ _ _ HL) as Hh. destruct clear_spec as [C Z].
  rewrite loaded_eq, (puts_bytes _ start ph) by (done || (simpl; lia) || (rewrite (lo_nload _ _ _ _ _ _ HL); simpl; lia)).
  rewrite Forall_forall in Hh. destruct (Hh ph Hin) as (G1 & G2 & G3 & G4 & G5 & G6). cbn [cp_mem].
  case_decide as Hd.
  - unfold load8. rewrite C; [done|]. apply region_not_image. unfold within in *. lia.
  - apply Z. unfold placed, copies, within in *. cbn [sg_addr] in *. destruct (is_exec ph); [lia|]. lia.
Qed.
End CopyPass.
