(* ===== verification/RelocProps.v ===== *)
(** * Relocation through the load map

    The relocation loop of the FDPIC loader, for any table and any symbol references: it
    writes only inside loaded segments and its descriptor pool, never the load map it
    resolves through; it reads only loaded segments; and it ends, except for a table that
    declares neither a size nor a stride. *)

From S2P Require Import Prelude Config Footprint Loader LoaderSpec.
Local Open Scope Z_scope.

(** ** Termination *)

(** A table of size and stride zero is walked for ever. *)
Lemma reloc_loop_stuck E fuel m pu : re_relent E = 0 -> re_relsz E = 0 -> reloc_loop fuel E m pu 0 = None.
Proof.
  intros H1 H2. revert m pu. induction fuel as [|n IH]; intros m pu; cbn [reloc_loop]; rewrite H1, H2; [done|].
  change (u32 (0 + 0) <=? 0) with true. cbv iota. destruct (reloc_one n E m pu _) as [[m' pu']|]; [|done]. apply IH.
Qed.

Section Stride.
Variable E : reloc_env.
Hypotheses (Hent : 8 <= re_relent E <= re_relsz E) (Hsz : re_relsz E < 2 ^ 31).

Lemma stride_small p : 0 <= p <= re_relsz E -> u32 (p + re_relent E) = p + re_relent E.
Proof. intros. apply u32_small. lia. Qed.

Lemma find_descr_ends fuel m r_sym p : 0 <= p <= re_relsz E -> re_relsz E - p < Z.of_nat fuel -> find_descr fuel E m r_sym p <> None.
Proof.
  revert p. induction fuel as [|n IH]; intros p Hp Hf; cbn [find_descr]; rewrite !stride_small by done;
    destruct (Z.leb_spec (p + re_relent E) (re_relsz E)); try done; [lia|].
  destruct (_ && _); [done|]. apply IH; lia.
Qed.

Lemma reloc_one_ends fuel m pu r : re_relsz E < Z.of_nat fuel -> reloc_one fuel E m pu r <> None.
Proof.
  intros Hf. pose proof (find_descr_ends fuel m (Z.shiftr (le32 m (r + 4)) 8) 0 ltac:(lia) ltac:(lia)) as Hd.
  unfold reloc_one. cbv zeta. repeat (case_match; try done).
Qed.

Lemma reloc_loop_ends fuel m pu o :
  0 <= o <= re_relsz E -> 2 * re_relsz E - o < Z.of_nat fuel -> reloc_loop fuel E m pu o <> None.
Proof.
  revert m pu o. induction fuel as [|n IH]; intros m pu o Ho Hf; cbn [reloc_loop]; rewrite !stride_small by done;
    destruct (Z.leb_spec (o + re_relent E) (re_relsz E)); try done; [lia|].
  pose proof (reloc_one_ends n m pu (re_rel0 E + o) ltac:(lia)) as H1.
  destruct (reloc_one n E m pu _) as [[m' pu']|]; [|done]. apply IH; lia.
Qed.
End Stride.

(** ** Reads and writes *)

Section Safety.
Variables (B : Z) (S W : Z -> Prop) (segs : list seg) (E : reloc_env).
(** [W] holds the segments, [S] everything the loader may read. *)
Hypotheses (Hsegs : Forall (seg_in B W) segs) (Hn : re_nload E = alen segs)
  (HWS : forall x, W x -> S x) (HmapS : forall x, map_bytes (re_lm E) (length segs) x -> S x)
  (HmapW : forall x, map_bytes (re_lm E) (length segs) x -> ~ W x).

Definition pool_bytes (x : Z) : Prop := within (re_pool E) (8 * re_max_fd E) x.
Hypotheses (Hpool : 8 * re_max_fd E + 8 < 2 ^ 32) (HpoolM : forall x, map_bytes (re_lm E) (length segs) x -> ~ pool_bytes x).

(** Memories alike on [S] that hold the load map. *)
Definition alike (m1 m2 : mem) : Prop := agree S m1 m2 /\ map_holds m1 (re_lm E) segs.

Lemma alike_right m1 m2 : alike m1 m2 -> map_holds m2 (re_lm E) segs.
Proof. intros [Ha Hm]. eapply map_holds_agree; [|exact Hm]. by eapply agree_mono. Qed.

Definition written (x : Z) : Prop := W x \/ pool_bytes x.

Lemma alike_write m1 m2 a bs :
  alike m1 m2 -> (forall x, within a (alen bs) x -> written x) ->
  alike (mem_write m1 a bs) (mem_write m2 a bs) /\ confined written m1 (mem_write m1 a bs).
Proof.
  intros [Ha Hm] Hw. split; [split|by apply confined_write].
  - by apply agree_write.
  - eapply map_holds_agree; [|exact Hm]. apply agree_sym, agree_write_off. intros x Hx Hin.
    destruct (Hw x Hin) as [H|H]; [by apply (HmapW x)|by apply (HpoolM x)].
Qed.

Lemma alike_store m1 m2 a v :
  alike m1 m2 -> (forall x, within a 4 x -> written x) ->
  alike (store32 m1 a v) (store32 m2 a v) /\ confined written m1 (store32 m1 a v).
Proof. intros H Hw. apply alike_write; [done|]. by rewrite alen_bytes32. Qed.

(** Resolution does not look at memory beyond the load map. *)
Lemma rt_alike m1 m2 : alike m1 m2 ->
  (forall v, fdpic_rt m1 (re_lm E) (re_nload E) v = resolve segs v /\ fdpic_rt m2 (re_lm E) (re_nload E) v = resolve segs v) /\
  forall v k, fdpic_rt_n m1 (re_lm E) (re_nload E) v k = resolve_n segs v k /\
              fdpic_rt_n m2 (re_lm E) (re_nload E) v k = resolve_n segs v k.
Proof.
  intros H. pose proof (alike_right _ _ H) as H2. destruct H as [_ H1]. rewrite Hn.
  split; intros; split; (by apply fdpic_rt_resolve) || (by apply fdpic_rt_n_resolve).
Qed.

Hypotheses (Hent : 8 <= re_relent E <= re_relsz E) (Hsz : re_relsz E < 2 ^ 31)
  (Htab : forall x, within (re_rel0 E) (re_relsz E) x -> S x).

Lemma find_descr_alike fuel m1 m2 r_sym p :
  alike m1 m2 -> 0 <= p <= re_relsz E -> find_descr fuel E m1 r_sym p = find_descr fuel E m2 r_sym p.
Proof.
  intros H. destruct (rt_alike _ _ H) as [R _]. destruct H as [Ha _].
  revert p. induction fuel as [|n IH]; intros p Hp; cbn [find_descr]; [done|]. rewrite !stride_small by done.
  destruct (Z.leb_spec (p + re_relent E) (re_relsz E)) as [Hle|]; [|done].
  rewrite !(agree_le32 S m1 m2) by (done || (intros x Hx; apply Htab; unfold within in *; lia)).
  rewrite (proj1 (R _)), (proj2 (R _)). destruct (_ && _); [done|]. apply IH. lia.
Qed.

(** The outcome of a relocation on alike memories. *)
Definition reloc_post (m1 : mem) (r1 r2 : option (mem * Z)) : Prop :=
  match r1 with
  | None => r2 = None
  | Some (m1', pu') => exists m2', r2 = Some (m2', pu') /\ alike m1' m2' /\ confined written m1 m1' /\ 0 <= pu' <= 8 * re_max_fd E
  end.

Lemma post_same m1 m2 pu : alike m1 m2 -> 0 <= pu <= 8 * re_max_fd E -> reloc_post m1 (Some (m1, pu)) (Some (m2, pu)).
Proof. intros H Hp. exists m2. split_and!; done || lia || apply confined_refl. Qed.

Lemma post_store m1 m2 a v pu :
  alike m1 m2 -> 0 <= pu <= 8 * re_max_fd E -> (forall x, within a 4 x -> written x) ->
  reloc_post m1 (Some (store32 m1 a v, pu)) (Some (store32 m2 a v, pu)).
Proof. intros H Hp Hw. destruct (alike_store m1 m2 a v H Hw) as [H1 H2]. by exists (store32 m2 a v). Qed.

Lemma post_after m1 m1' r1 r2 : confined written m1 m1' -> reloc_post m1' r1 r2 -> reloc_post m1 r1 r2.
Proof.
  intros C. destruct r1 as [[m pu]|]; [|done]. intros (m2' & E2 & A & C' & P). exists m2'.
  split_and!; [done|done|by eapply confined_trans|lia..].
Qed.

Lemma sym_alike m1 m2 r_sym : alike m1 m2 -> let sym := sym_at E m1 r_sym in
  sym_at E m2 r_sym = sym /\ sym_defined E m1 sym = sym_defined E m2 sym /\
  (sym_defined E m1 sym = true -> forall x, within sym 16 x -> S x).
Proof.
  intros H. destruct (rt_alike _ _ H) as [_ R]. destruct H as [Ha _]. cbv zeta. unfold sym_at.
  rewrite (proj1 (R _ _)), (proj2 (R _ _)). set (sym := resolve_n _ _ _).
  assert (Hs : sym <> 0 -> forall x, within sym 16 x -> S x).
  { intros Hz x Hx. apply HWS. by apply (resolve_n_in B W segs (re_symv E + r_sym * 16) 16 sym Hsegs ltac:(lia) eq_refl Hz). }
  split; [done|]. unfold sym_defined. destruct (Z.eqb_spec sym 0) as [->|Hz].
  - split; [by rewrite !andb_false_r|]. rewrite andb_false_r. done.
  - specialize (Hs Hz). split; [|done]. do 3 f_equal. apply (agree_le16 S); [done|]. intros. apply Hs. unfold within in *. lia.
Qed.

Lemma reloc_one_safe fuel m1 m2 pu r :
  alike m1 m2 -> 0 <= pu <= 8 * re_max_fd E -> (forall x, within r 8 x -> S x) ->
  reloc_post m1 (reloc_one fuel E m1 pu r) (reloc_one fuel E m2 pu r).
Proof.
  intros H Hp Hr. destruct (rt_alike _ _ H) as [R Rn]. pose proof (proj1 H) as Ha. unfold reloc_one.
  rewrite !(agree_le32 S m1 m2 r), !(agree_le32 S m1 m2 (r + 4)) by (done || (intros; apply Hr; unfold within in *; lia)).
  rewrite (proj1 (Rn _ _)), (proj2 (Rn _ _)). cbv zeta.
  destruct (Z.eqb_spec (resolve_n segs (le32 m2 r) 8) 0) as [|Hz]; [by apply post_same|].
  remember (resolve_n segs (le32 m2 r) 8) as w eqn:Ew.
  assert (Hw : forall x, within w 8 x -> W x).
  { intros x Hx. by apply (resolve_n_in B W segs (le32 m2 r) 8 w Hsegs ltac:(lia) (eq_sym Ew) Hz). }
  assert (Hw4 : forall x, within w 4 x -> written x) by (intros; left; apply Hw; unfold within in *; lia).
  assert (Hv : le32 m1 w = le32 m2 w).
  { apply (agree_le32 S); [done|]. intros. apply HWS, Hw. unfold within in *. lia. }
  destruct (_ || _).
  { rewrite Hv, (proj1 (R _)), (proj2 (R _)). by apply post_store. }
  destruct (sym_alike m1 m2 (Z.shiftr (le32 m2 (r + 4)) 8) H) as (Es & Ed & Hs).
  rewrite Es, Ed in *. remember (sym_at E m1 (Z.shiftr (le32 m2 (r + 4)) 8)) as sym eqn:Esym. clear Esym Es.
  destruct (Z.eqb_spec (Z.land (le32 m2 (r + 4)) 255) ELF_R_ARM_FUNCDESC_VALUE).
  { assert (Hval : forall v0 v1, reloc_post m1 (Some (store32 (store32 m1 w v0) (w + 4) v1, pu))
                                               (Some (store32 (store32 m2 w v0) (w + 4) v1, pu))).
    { intros v0 v1. destruct (alike_store m1 m2 w v0 H Hw4) as [H1 C1]. eapply post_after; [exact C1|].
      apply post_store; [done|done|]. intros; left; apply Hw; unfold within in *; lia. }
    destruct (sym_defined E m2 sym) eqn:Ed'; [|apply Hval]. specialize (Hs eq_refl).
    rewrite !(agree_le32 S m1 m2 (sym + 4)), Ha by (done || (intros; apply Hs; unfold within in *; lia)).
    rewrite Hv. rewrite (proj1 (R _)), (proj2 (R _)). apply Hval. }
  destruct (Z.eqb_spec (Z.land (le32 m2 (r + 4)) 255) ELF_R_ARM_FUNCDESC); [|by apply post_same].
  destruct (sym_defined E m2 sym) eqn:Ed'; [|by apply post_store]. specialize (Hs eq_refl).
  rewrite (find_descr_alike fuel m1 m2) by (done || lia).
  destruct (find_descr fuel E m2 _ 0) as [descr|]; [|done].
  rewrite !(agree_le32 S m1 m2 (sym + 4)) by (done || (intros; apply Hs; unfold within in *; lia)).
  rewrite Hv, (proj1 (R _)), (proj2 (R _)).
  destruct ((descr =? 0) && _) eqn:Ep; [|by apply post_store].
  apply andb_true_iff in Ep as [_ Ep]. rewrite !u32_small, Z.leb_le in Ep by lia. rewrite (u32_small (pu + 8)) by lia.
  assert (Hpb : forall x, within (re_pool E + pu) 8 x -> written x) by (intros; right; unfold pool_bytes, within in *; lia).
  destruct (alike_store m1 m2 (re_pool E + pu) (resolve segs (u32 (le32 m2 (sym + 4) + le32 m2 w))) H) as [H1 C1];
    [intros; apply Hpb; unfold within in *; lia|].
  destruct (alike_store _ _ (re_pool E + pu + 4) (re_got E) H1) as [H2 C2]; [intros; apply Hpb; unfold within in *; lia|].
  eapply post_after; [exact C1|]. eapply post_after; [exact C2|]. apply post_store; [done|lia|done].
Qed.

Lemma reloc_loop_safe fuel m1 m2 pu o :
  alike m1 m2 -> 0 <= pu <= 8 * re_max_fd E -> 0 <= o <= re_relsz E ->
  reloc_post m1 (reloc_loop fuel E m1 pu o) (reloc_loop fuel E m2 pu o).
Proof.
  revert m1 m2 pu o. induction fuel as [|n IH]; intros m1 m2 pu o H Hp Ho; cbn [reloc_loop]; rewrite !stride_small by done;
    destruct (Z.leb_spec (o + re_relent E) (re_relsz E)); try done; try by apply post_same.
  pose proof (reloc_one_safe n m1 m2 pu (re_rel0 E + o) H Hp ltac:(intros; apply Htab; unfold within in *; lia)) as H1.
  destruct (reloc_one n E m1 pu _) as [[m1' pu']|]; [|by rewrite H1].
  destruct H1 as (m2' & -> & A & C & P). eapply post_after; [exact C|]. apply IH; [done|done|lia].
Qed.
End Safety.
