(* ===== verification/LoaderProps.v ===== *)
(** * Correctness of the FDPIC loader

    For an untrusted image: every byte the loader reads or writes lies in the image or in
    the program's region; the load ends; and a program left to its dynamic linker finds its
    segments placed and mapped as its headers say.  The last part holds the images that the
    checks let through and the loader does not handle. *)

From S2P Require Import Prelude Config Footprint Loader LoaderSpec RelocProps.
Local Open Scope Z_scope.

(** Image and region lie apart in the lower address space. *)
Record load_site (img isz region rsz : Z) : Prop := {
  ls_img : 0 < img /\ img + isz < 2 ^ 32;
  ls_isz : 0 <= isz < 2 ^ 31;
  ls_region : 0 < region /\ region + rsz <= 2 ^ 32;
  ls_rsz : 0 <= rsz < 2 ^ 31;
  ls_apart : img + isz <= region \/ region + rsz <= img;
}.

(** Every executable segment fits the half of the region text is copied to. *)
Definition text_in_half (m : mem) (img rsz : Z) : Prop :=
  forall i, 0 <= i < le16 m (img + 44) ->
  let ph := phdr_at m img (le32 m (img + 28)) (le16 m (img + 42)) i in
  is_load ph = true -> is_exec ph = true -> ph_filesz ph <= rsz / 2.

(** What a load may write: the region, and for a program relocated in place its image. *)
Definition may_write (img isz region rsz : Z) (is_interp copy_text : bool) (x : Z) : Prop :=
  within region rsz x \/ (is_interp = false /\ copy_text = false /\ within img isz x).

Lemma parse_fields m img isz rsz copy_text rc L :
  fdpic_layout_parse m img isz rsz copy_text = (rc, Some L) ->
  fl_phoff L = le32 m (img + 28) /\ fl_phentsize L = le16 m (img + 42) /\ fl_phnum L = le16 m (img + 44) /\
  fl_entry L = le32 m (img + 24) /\ rc = LXP_OK.
Proof.
  intros H. unfold fdpic_layout_parse, layout_finish in H. do 5 pass_guard H. cbv zeta in H. pass_guard H.
  destruct (see_all _ _ _ _ _ _ _) as [s|] in H; [|done]. do 2 pass_guard H. do 4 pass_guard H.
  destruct (if se_dyn_vaddr s =? 0 then _ else _) as [rel_sz rel_ent] in H. do 2 pass_guard H. by injection H as <- <-.
Qed.

Lemma text_in_half_fits m img isz rsz copy_text rc L :
  fdpic_layout_parse m img isz rsz copy_text = (rc, Some L) -> (copy_text = true -> text_in_half m img rsz) ->
  Forall (text_fits rsz copy_text) (loads_of m img L).
Proof.
  intros H Ht. destruct (parse_fields _ _ _ _ _ _ _ H) as (E1 & E2 & E3 & _).
  apply Forall_forall. intros ph Hin Hc Hx. specialize (Ht Hc). unfold loads_of, loads_at in Hin.
  apply list_elem_of_In, List.filter_In in Hin as [Hin Hl]. apply List.in_map_iff in Hin as (i & <- & Hi).
  apply list_elem_of_In, elem_of_seqZ in Hi. rewrite E1, E2, E3 in *. apply Ht; [lia|done|done].
Qed.

(** ** The dynamic table *)

Lemma dyn_walk_range m dp n d :
  0 <= dt_relsz d < 2 ^ 32 -> 0 <= dt_relent d < 2 ^ 32 ->
  0 <= dt_relsz (dyn_walk m dp n d) < 2 ^ 32 /\ 0 <= dt_relent (dyn_walk m dp n d) < 2 ^ 32.
Proof.
  revert dp d. induction n as [|n IH]; intros dp d H1 H2; simpl; [done|]. destruct (_ =? ELF_DT_NULL); [done|].
  pose proof (load32_range m (dp + 4)) as R. fold (le32 m (dp + 4)) in R.
  apply IH; unfold dyn_tag; repeat case_match; done.
Qed.

Lemma dyn_walk_agree S m1 m2 dp n d :
  agree S m1 m2 -> (forall x, within dp (8 * Z.of_nat n) x -> S x) -> dyn_walk m1 dp n d = dyn_walk m2 dp n d.
Proof.
  intros Ha. revert dp d. induction n as [|n IH]; intros dp d H; simpl; [done|].
  rewrite !(agree_le32 S m1 m2) by (done || (intros; apply H; unfold within in *; lia)).
  destruct (_ =? ELF_DT_NULL); [done|]. apply IH. intros; apply H; unfold within in *; lia.
Qed.

Lemma loaded_dyn_range m lm L : 0 <= dt_relsz (loaded_dyn m lm L) < 2 ^ 32 /\ 0 <= dt_relent (loaded_dyn m lm L) < 2 ^ 32.
Proof. unfold loaded_dyn. cbv zeta. case_match; [apply dyn_walk_range; simpl; lia|simpl; lia]. Qed.

Lemma max_fd_range d : 0 <= dt_relsz d -> 0 <= dt_relent d -> 0 <= max_fd_of d.
Proof.
  intros. unfold max_fd_of. destruct (Z.eqb_spec (dt_relent d) 0); cbn [negb]; [lia|]. apply Z.div_pos; lia.
Qed.

(** ** One load, on two alike memories *)

Section Load.
Variables (m1 m2 : mem) (img isz region rsz : Z) (is_interp copy_text : bool) (L : fdpic_layout).
Hypotheses (Hsite : load_site img isz region rsz) (Ha : agree (space img isz region rsz) m1 m2)
  (HL1 : layout_ok m1 img isz rsz copy_text L) (HL2 : layout_ok m2 img isz rsz copy_text L)
  (Hfit : Forall (text_fits rsz copy_text) (loads_of m1 img L)).

Let base := region + fl_text_reserved L.
Let lm := base + fl_rw_aligned L.
Let segs := map (placed img region copy_text L) (loads_of m1 img L).
Let s1 := loaded_segments m1 img region copy_text L.
Let s2 := loaded_segments m2 img region copy_text L.

Lemma loads_alike : loads_of m2 img L = loads_of m1 img L.
Proof.
  unfold loads_of, loads_at. f_equal. apply map_ext_in. intros i Hi. apply list_elem_of_In, elem_of_seqZ in Hi.
  destruct (lo_phdrs _ _ _ _ _ _ HL1) as (P1 & P2 & P3 & P4). symmetry.
  apply (phdr_at_agree m1 m2 img isz) with (phnum := fl_phnum L); try done.
  eapply agree_mono; [|exact Ha]. by left.
Qed.

Lemma loaded_alike :
  same_copied (space img isz region rsz) s1 s2 /\ map_holds (cp_mem s1) lm segs /\
  confined (within region rsz) m1 (cp_mem s1).
Proof.
  destruct Hsite as [[I1 I2] I3 [R1 R2] R3 Hd].
  destruct (loaded_spec m1 img isz region rsz copy_text L) as [C M]; try done.
  split_and!; [|exact M|eapply confined_mono; [|exact C]; intros x Hx; eapply used_region; [exact HL1|done..]].
  unfold s1, s2. rewrite (loaded_eq m1 img isz region rsz), (loaded_eq m2 img isz region rsz); try done; [|by rewrite loads_alike].
  rewrite loads_alike. apply puts_agree with (m0 := m1); [exact HL1|done..|apply HL1|].
  split_and!; try done. cbn [cp_mem]. unfold load_clear, mem_set. cbv zeta.
  do 2 apply agree_write. destruct copy_text, (negb _); by repeat apply agree_write.
Qed.

Lemma segs_in : Forall (seg_in (Z.max isz rsz) (seg_space img isz region copy_text L)) segs.
Proof. destruct Hsite as [[I1 I2] I3 [R1 R2] R3 Hd]. by apply (segments_in m1 img isz region rsz). Qed.

Lemma seg_space_sub x : seg_space img isz region copy_text L x -> space img isz region rsz x.
Proof.
  destruct (lo_span _ _ _ _ _ _ HL1) as [S1 S2]. destruct (lo_fits _ _ _ _ _ _ HL1) as (F1 & F2 & F3).
  pose proof (lo_map _ _ _ _ _ _ HL1). pose proof (lo_nload _ _ _ _ _ _ HL1). unfold alen in *.
  unfold seg_space, below_map, space, within. intros [?|[_ ?]]; [right; lia|by left].
Qed.

Lemma nload_segs : fl_nload L = alen segs.
Proof. unfold segs, alen. rewrite length_map. apply HL1. Qed.

Lemma map_apart x : map_bytes lm (length segs) x -> within region rsz x /\ ~ seg_space img isz region copy_text L x.
Proof.
  destruct (lo_span _ _ _ _ _ _ HL1) as [S1 S2]. destruct (lo_fits _ _ _ _ _ _ HL1) as (F1 & F2 & F3).
  pose proof (lo_map _ _ _ _ _ _ HL1). pose proof nload_segs as Hn. unfold alen in Hn. destruct Hsite as [_ _ _ _ Hd].
  unfold map_bytes, seg_space, below_map, within, lm, base. lia.
Qed.

Lemma dyn_alike : loaded_dyn (cp_mem s1) lm L = loaded_dyn (cp_mem s2) lm L.
Proof.
  destruct loaded_alike as ((A & _) & M & _).
  assert (M2 : map_holds (cp_mem s2) lm segs).
  { eapply map_holds_agree; [|exact M]. eapply agree_mono; [|exact A]. intros x Hx. right. by apply map_apart. }
  unfold loaded_dyn. rewrite nload_segs, !(fdpic_rt_n_resolve _ _ _ M), !(fdpic_rt_n_resolve _ _ _ M2).
  destruct (fl_dyn_vaddr L =? 0); [done|]. cbn [negb]. cbv zeta.
  destruct (Z.eqb_spec (resolve_n segs (fl_dyn_vaddr L) (fl_dyn_size L)) 0) as [|Hz]; [done|]. cbn [negb].
  destruct (Z.leb_spec (fl_dyn_size L) 0).
  { by replace (Z.to_nat (fl_dyn_size L / 8)) with 0%nat by lia. }
  apply (dyn_walk_agree (space img isz region rsz)); [done|]. intros x Hx. apply seg_space_sub.
  eapply (resolve_n_in _ _ segs); [exact segs_in| |done|exact Hz|]; [lia|]. unfold within in *. lia.
Qed.

(** Both memories give one relocation environment. *)
Lemma renv_alike d : renv_of (cp_mem s1) base lm L d = renv_of (cp_mem s2) base lm L d.
Proof.
  destruct loaded_alike as ((A & _) & M & _).
  assert (M2 : map_holds (cp_mem s2) lm segs).
  { eapply map_holds_agree; [|exact M]. eapply agree_mono; [|exact A]. intros x Hx. right. by apply map_apart. }
  unfold renv_of. by rewrite nload_segs, !(fdpic_rt_n_resolve _ _ _ M), !(fdpic_rt_n_resolve _ _ _ M2),
    !(fdpic_rt_resolve _ _ _ M), !(fdpic_rt_resolve _ _ _ M2).
Qed.

Section Relocation.
Variable d : dyn_table.
Hypotheses (Hsz : 0 <= dt_relsz d < 2 ^ 32) (Hent : 0 <= dt_relent d < 2 ^ 32)
  (Hstride : dt_relsz d <> 0 -> 8 <= dt_relent d)
  (Hpool : fl_text_reserved L + pool_off_of L + max_fd_of d * 8 <= rsz).
Let E := renv_of (cp_mem s1) base lm L d.
Notation seg_bytes := (seg_space img isz region copy_text L).

Lemma rel_table_in : re_rel0 E <> 0 -> 0 < dt_relsz d ->
  dt_relsz d <= Z.max isz rsz /\ forall x, within (re_rel0 E) (dt_relsz d) x -> space img isz region rsz x.
Proof.
  intros Hz Hp. destruct loaded_alike as (_ & M & _).
  assert (Er : re_rel0 E = resolve_n segs (dt_rel d) (dt_relsz d)).
  { unfold E, renv_of. cbn [re_rel0]. by rewrite nload_segs, (fdpic_rt_n_resolve _ _ _ M). }
  destruct (resolve_n_in _ _ segs (dt_rel d) (dt_relsz d) (re_rel0 E) segs_in Hp) as (_ & _ & H1 & H2); [done..|].
  split; [done|]. intros x Hx. by apply seg_space_sub, H2.
Qed.

Lemma pool_places x : pool_bytes E x -> within region rsz x /\ ~ map_bytes lm (length segs) x.
Proof.
  destruct (lo_span _ _ _ _ _ _ HL1) as [S1 S2]. destruct (lo_fits _ _ _ _ _ _ HL1) as (F1 & F2 & F3).
  pose proof (lo_map _ _ _ _ _ _ HL1). pose proof nload_segs as Hn. unfold alen in Hn.
  unfold pool_bytes, map_bytes, within, lm, base. cbn. unfold base. lia.
Qed.

(** The relocation pass on both memories. *)
Lemma reloc_phase fuel m1' pu :
  re_rel0 E <> 0 -> reloc_loop fuel E (cp_mem s1) 0 0 = Some (m1', pu) ->
  exists m2', reloc_loop fuel E (cp_mem s2) 0 0 = Some (m2', pu) /\ agree (space img isz region rsz) m1' m2' /\
    map_holds m1' lm segs /\ map_holds m2' lm segs /\ 0 <= pu <= 8 * max_fd_of d /\
    confined (fun x => within region rsz x \/ copy_text = false /\ within img isz x) (cp_mem s1) m1'.
Proof.
  intros Hz H. destruct loaded_alike as ((A & _) & M & _). pose proof (max_fd_range d ltac:(lia) ltac:(lia)) as Hm.
  assert (M2 : map_holds (cp_mem s2) lm segs).
  { eapply map_holds_agree; [|exact M]. eapply agree_mono; [|exact A]. intros x Hx. right. by apply map_apart. }
  destruct (Z.leb_spec (dt_relent d) (dt_relsz d)) as [Hle|Hgt].
  2:{ assert (Hend : forall m, reloc_loop fuel E m 0 0 = Some (m, 0)).
      { intros m. destruct fuel; cbn [reloc_loop]; rewrite u32_small by (cbn; lia); cbn [re_relent re_relsz E renv_of];
          destruct (Z.leb_spec (0 + dt_relent d) (dt_relsz d)); done || lia. }
      rewrite !Hend in *. injection H as <- <-. exists (cp_mem s2). split_and!; done || lia || apply confined_refl. }
  destruct (decide (dt_relsz d = 0)) as [E0|Hnz].
  { rewrite reloc_loop_stuck in H; [done|cbn; lia|done]. }
  destruct (rel_table_in Hz ltac:(lia)) as [Hs Ht]. destruct Hsite as [[I1 I2] I3 [R1 R2] R3 Hd].
  destruct (lo_fits _ _ _ _ _ _ HL1) as (F1 & F2 & F3). destruct (lo_span _ _ _ _ _ _ HL1) as [S1 S2].
  pose proof (lo_map _ _ _ _ _ _ HL1) as Hmp. pose proof nload_segs as Hns. unfold alen in Hns.
  pose proof (reloc_loop_safe _ (space img isz region rsz) seg_bytes segs E segs_in nload_segs
    seg_space_sub) as G.
  specialize (G (fun x Hx => or_intror (proj1 (map_apart x Hx))) (fun x Hx => proj2 (map_apart x Hx)) ltac:(cbn; lia)
    (fun x Hx Hp => proj2 (pool_places x Hp) Hx) ltac:(cbn; lia) ltac:(cbn; lia) Ht).
  specialize (G fuel (cp_mem s1) (cp_mem s2) 0 0 (conj A M) ltac:(cbn; lia) ltac:(cbn; lia)).
  rewrite H in G. destruct G as (m2' & E2 & [A' M'] & C & P). cbn [re_max_fd E renv_of] in P. exists m2'. split_and!; try done; try lia.
  - eapply map_holds_agree; [|exact M']. eapply agree_mono; [|exact A']. intros x Hx. right. by apply map_apart.
  - eapply confined_mono; [|exact C]. intros x [[Hb|Hb]|Hp]; [left|by right|left; by apply pool_places].
    unfold below_map, within in *. lia.
Qed.
End Relocation.

Lemma flat_alike mA mB d pool_off pu got :
  map_holds mA lm segs -> map_holds mB lm segs ->
  flat_of mA img region rsz copy_text L s1 d pool_off pu got = flat_of mB img region rsz copy_text L s2 d pool_off pu got.
Proof.
  intros MA MB. destruct loaded_alike as ((_ & _ & E1 & E2 & E3) & _). unfold flat_of. cbv zeta. fold base lm.
  by rewrite E1, E2, E3, nload_segs, !(fdpic_rt_resolve _ _ _ MA), !(fdpic_rt_resolve _ _ _ MB).
Qed.

Lemma layout_safe fuel rc prog m1' :
  load_layout fuel m1 img region rsz is_interp copy_text L = Some (rc, prog, m1') ->
  confined (may_write img isz region rsz is_interp copy_text) m1 m1' /\
  (forall p, prog = Some p -> pg_region_used p <= rsz) /\
  exists m2', load_layout fuel m2 img region rsz is_interp copy_text L = Some (rc, prog, m2') /\
    agree (space img isz region rsz) m1' m2'.
Proof.
  intros H. unfold load_layout in *. cbv zeta in *. fold base lm in H |- *. fold s1 in H. fold s2.
  destruct loaded_alike as ((A & _) & M & C).
  assert (M2 : map_holds (cp_mem s2) lm segs).
  { eapply map_holds_agree; [|exact M]. eapply agree_mono; [|exact A]. intros x Hx. right. by apply map_apart. }
  rewrite <- dyn_alike, <- renv_alike. set (d := loaded_dyn (cp_mem s1) lm L) in *.
  destruct (loaded_dyn_range (cp_mem s1) lm L) as [Rs Re]. fold d in Rs, Re.
  assert (C' : confined (may_write img isz region rsz is_interp copy_text) m1 (cp_mem s1)).
  { eapply confined_mono; [|exact C]. by left. }
  destruct (negb _ && _) eqn:Eg; [injection H as <- <- <-; split_and!; [done|done|by exists (cp_mem s2)]|].
  destruct (_ >? rsz) eqn:Eo; [injection H as <- <- <-; split_and!; [done|done|by exists (cp_mem s2)]|]. rewrite Z.gtb_ltb, Z.ltb_ge in Eo.
  assert (Hst : dt_relsz d <> 0 -> 8 <= dt_relent d).
  { intros Hz. destruct (Z.eqb_spec (dt_relsz d) 0); [done|]. cbn [negb andb] in Eg. by apply Z.ltb_ge in Eg. }
  assert (Hu : forall pu p got, 0 <= pu <= 8 * max_fd_of d ->
    Some (flat_of m1' img region rsz copy_text L s1 d (pool_off_of L) pu got) = Some p -> pg_region_used p <= rsz).
  { intros pu p got Hp [= <-]. unfold flat_of. cbn [pg_region_used]. lia. }
  pose proof (max_fd_range d ltac:(lia) ltac:(lia)) as Hm.
  set (E := renv_of (cp_mem s1) base lm L d) in *. destruct (relocates is_interp d (re_rel0 E)) eqn:Er.
  - destruct (reloc_loop fuel E (cp_mem s1) 0 0) as [[mA pu]|] eqn:El; [|done]. injection H as <- <- <-.
    unfold relocates in Er. apply andb_true_iff in Er as [[Ei _]%andb_true_iff Er].
    apply negb_true_iff, Z.eqb_neq in Er.
    destruct (reloc_phase d Rs Re Hst Eo fuel mA pu Er El) as (mB & EB & A' & MA & MB & Hp & C2).
    fold E in EB. rewrite EB.
    split_and!; [|by eauto|].
    + eapply confined_trans; [exact C'|]. eapply confined_mono; [|exact C2].
      intros x [Hx|[Hc Hx]]; [by left|]. right. split_and!; [by apply negb_true_iff|done|done].
    + exists mB. split; [|done]. by rewrite (flat_alike mA mB).
  - injection H as <- <- <-. split_and!; [done|intros p Hp; eapply Hu; [|exact Hp]; lia|].
    exists (cp_mem s2). split; [|done]. by rewrite (flat_alike (cp_mem s1) (cp_mem s2)).
Qed.
End Load.

(** C17: whatever the image holds, a load that ends writes only the program's region (and, for
    a static program whose text stays in place, the image), uses no more of the region than
    there is, and reads only image and region: on two memories that agree there it gives the
    same result, the same program record and memories that agree there again.  Copied text
    is asked to fit its half of the region. *)
Theorem fdpic_load_memory_safe fuel m1 m2 img isz region rsz is_interp copy_text rc prog m1' :
  load_site img isz region rsz -> (copy_text = true -> text_in_half m1 img rsz) ->
  agree (space img isz region rsz) m1 m2 ->
  lxp_loader_load_fdpic fuel m1 img isz region rsz is_interp copy_text = Some (rc, prog, m1') ->
  confined (may_write img isz region rsz is_interp copy_text) m1 m1' /\
  (forall p, prog = Some p -> pg_region_used p <= rsz) /\
  exists m2', lxp_loader_load_fdpic fuel m2 img isz region rsz is_interp copy_text = Some (rc, prog, m2') /\
    agree (space img isz region rsz) m1' m2'.
Proof.
  intros Hs Ht Ha H. destruct Hs as [[I1 I2] I3 [R1 R2] R3 Hd] eqn:Es. clear Es.
  assert (Ep : fdpic_layout_parse m1 img isz rsz copy_text = fdpic_layout_parse m2 img isz rsz copy_text).
  { apply layout_parse_agree; [|lia|lia]. eapply agree_mono; [|exact Ha]. by left. }
  unfold lxp_loader_load_fdpic in *. rewrite <- Ep. destruct (Z.eqb_spec region 0); [lia|].
  destruct (fdpic_layout_parse m1 img isz rsz copy_text) as [rc' [L|]] eqn:E1.
  - eapply layout_safe; try done; [by eapply layout_parse_ok|by eapply layout_parse_ok|by eapply text_in_half_fits].
  - injection H as <- <- <-. split_and!; [apply confined_refl|done|]. by exists m2.
Qed.

(** ** Termination *)

(** The relocation pass that never ends: no size and no stride. *)
Definition stuck (m : mem) (img region : Z) (is_interp copy_text : bool) (L : fdpic_layout) : bool :=
  let base := region + fl_text_reserved L in
  let lm := base + fl_rw_aligned L in
  let m := cp_mem (loaded_segments m img region copy_text L) in
  let d := loaded_dyn m lm L in
  relocates is_interp d (re_rel0 (renv_of m base lm L d)) && (dt_relsz d =? 0) && (dt_relent d =? 0).


(** ** Placement *)

(** C29: a program left to its dynamic linker (it is the interpreter, or names a library) is
    loaded as its headers say: the load map lists its segments in order with their runtime
    addresses, its entry is resolved through that map, and unless copied segments overlap
    each of them holds its file bytes followed by zeroes.  Image and region lie apart, and if
    text is copied every executable segment must fit the half of the region set aside for it:
    the loader checks only the last one, and without the condition a load can succeed with its
    map overwritten ([fdpic_copied_text_spoils_map]). *)
Theorem fdpic_load_places_segments fuel m img isz region rsz is_interp copy_text rc p m' :
  load_site img isz region rsz -> (copy_text = true -> text_in_half m img rsz) ->
  lxp_loader_load_fdpic fuel m img isz region rsz is_interp copy_text = Some (rc, Some p, m') ->
  is_interp || pg_is_dynamic p = true ->
  exists L, fdpic_layout_parse m img isz rsz copy_text = (LXP_OK, Some L) /\
    let at_ := placed img region copy_text L in
    map_holds m' (pg_loadmap p) (map at_ (loads_of m img L)) /\
    le16 m' (pg_loadmap p) = 0 /\ le16 m' (pg_loadmap p + 2) = alen (loads_of m img L) /\
    pg_entry p = resolve (map at_ (loads_of m img L)) (le32 m (img + 24)) /\
    (all_apart img region copy_text L (loads_of m img L) ->
     forall ph k, ph ∈ loads_of m img L -> copies copy_text ph = true -> 0 <= k < ph_memsz ph ->
       load8 m' (sg_addr (at_ ph) + k) = if k <? ph_filesz ph then load8 m (img + ph_offset ph + k) else 0).
Proof.
  intros Hs Ht H Hdyn. unfold lxp_loader_load_fdpic in H. destruct (region =? 0); [done|].
  destruct (fdpic_layout_parse m img isz rsz copy_text) as [rc' [L|]] eqn:Hp; [|done].
  destruct (parse_fields _ _ _ _ _ _ _ Hp) as (_ & _ & _ & Een & ->). exists L. split; [done|]. cbv zeta.
  pose proof (layout_parse_ok _ _ _ _ _ _ _ (ls_rsz _ _ _ _ Hs) Hp) as HL.
  pose proof (text_in_half_fits _ _ _ _ _ _ _ Hp Ht) as Hf. destruct Hs as [[I1 I2] I3 [R1 R2] R3 Hd].
  unfold load_layout in H. cbv zeta in H. destruct (_ && _) in H; [done|]. destruct (_ >? rsz) in H; [done|].
  set (d := loaded_dyn _ _ L) in H. destruct (relocates is_interp d _) eqn:Er in H.
  - exfalso. destruct (reloc_loop _ _ _ _ _) as [[m'' pu]|] in H; [|done]. injection H as _ <- _. cbn [flat_of pg_is_dynamic] in Hdyn.
    unfold relocates in Er. by destruct is_interp, (dt_needed d).
  - injection H as _ <- <-. cbn [flat_of pg_loadmap pg_entry].
    destruct (loaded_spec m img isz region rsz copy_text L) as [_ M]; try done.
    destruct (loaded_head m img isz region rsz copy_text L) as [H1 H2]; try done.
    split_and!; [exact M|exact H1|by rewrite H2, (lo_nload _ _ _ _ _ _ HL)| |].
    + rewrite <- Een. rewrite <- (fdpic_rt_resolve _ _ _ M). f_equal. rewrite (lo_nload _ _ _ _ _ _ HL).
      unfold alen. by rewrite length_map.
    + intros Hap ph k Hin Hc Hk. rewrite (loaded_bytes m img isz region rsz) with (ph := ph); try done.
      2:{ unfold within. cbn [placed sg_addr sg_size]. lia. }
      unfold within. case_decide as Hw; destruct (Z.ltb_spec k (ph_filesz ph)); try lia; try done. f_equal. lia.
Qed.

(** ** Images *)

Definition demo_ehdr (entry phnum : Z) : list Z :=
  [0x7f; 69; 76; 70; 1; 1; 1; 65] ++ replicate 8 0 ++ le_bytes 2 3 ++ le_bytes 2 40 ++ le_bytes 4 1 ++ le_bytes 4 entry ++
  le_bytes 4 52 ++ le_bytes 4 0 ++ le_bytes 4 0 ++ le_bytes 2 52 ++ le_bytes 2 32 ++ le_bytes 2 phnum ++ replicate 6 0.
Definition demo_phdr (type off vaddr filesz memsz flags : Z) : list Z :=
  concat (map (le_bytes 4) [type; off; vaddr; vaddr; filesz; memsz; flags; 4]).
Definition demo_words (l : list Z) : list Z := concat (map (le_bytes 4) l).

(** Text of 148 bytes at 0, writable data with the dynamic table at 0x1000. *)
Definition demo_static (dyn : list Z) : list Z :=
  demo_ehdr 52 3 ++ demo_phdr 1 0 0 148 148 5 ++ demo_phdr 1 148 0x1000 (4 * alen dyn) (4 * alen dyn + 12) 6 ++
  demo_phdr 2 148 0x1000 (4 * alen dyn) (4 * alen dyn) 6 ++ demo_words dyn.
Definition demo_img : Z := 0x1000.
Definition demo_region : Z := 0x10000.
Definition demo_at (bs : list Z) : mem := mem_write (fun _ => 0) demo_img bs.

(** DT_RELENT 0 and no DT_RELSZ. *)
Definition demo_zero_stride : list Z := demo_static [19; 0; 0; 0].
(** DT_NEEDED: left to the dynamic linker. *)
Definition demo_dynamic : list Z := demo_static [1; 7; 0; 0].

Lemma demo_site (bs : list Z) : alen bs < 0x1000 -> load_site demo_img (alen bs) demo_region 256.
Proof. unfold demo_img, demo_region, alen. intros. split; lia. Qed.

Definition demo_layout (bs : list Z) : option fdpic_layout :=
  (fdpic_layout_parse (demo_at bs) demo_img (alen bs) 256 false).2.
Definition demo_layout_of (bs : list Z) : fdpic_layout :=
  from_option id (mk_layout 0 0 0 0 0 0 0 0 0 0 0 0 0 0 0 0) (demo_layout bs).

Lemma demo_parses : 
  fdpic_layout_parse (demo_at demo_zero_stride) demo_img (alen demo_zero_stride) 256 false =
    (LXP_OK, Some (demo_layout_of demo_zero_stride)) /\
  fdpic_layout_parse (demo_at demo_dynamic) demo_img (alen demo_dynamic) 256 false =
    (LXP_OK, Some (demo_layout_of demo_dynamic)) /\
  stuck (demo_at demo_zero_stride) demo_img demo_region false false (demo_layout_of demo_zero_stride) = true /\
  stuck (demo_at demo_dynamic) demo_img demo_region false false (demo_layout_of demo_dynamic) = false.
Proof. vm_compute. done. Qed.

(** A static program with one RELATIVE relocation, of the word at [r_offset]. *)
Definition demo_reloc (r_offset : Z) : list Z := demo_static [17; 0x1020; 18; 8; 19; 8; 0; 0; r_offset; 23; 52].
(** Two executable segments, the first of the size of the file. *)
Definition demo_two_texts : list Z := demo_ehdr 52 2 ++ demo_phdr 1 0 0 116 116 5 ++ demo_phdr 1 0 0x1000 4 4 5.

(** A load that succeeds, and its program record and memory tested. *)
Definition loads_with (bs : list Z) (rsz : Z) (copy_text : bool) (f : lxp_flat -> mem -> bool) : bool :=
  match lxp_loader_load_fdpic 100 (demo_at bs) demo_img (alen bs) demo_region rsz false copy_text with
  | Some (rc, Some p, m') => (rc =? LXP_OK) && f p m'
  | _ => false
  end.

Lemma loads_with_spec bs rsz copy_text f :
  loads_with bs rsz copy_text f = true ->
  exists p m', lxp_loader_load_fdpic 100 (demo_at bs) demo_img (alen bs) demo_region rsz false copy_text = Some (LXP_OK, Some p, m') /\
    f p m' = true.
Proof.
  unfold loads_with. destruct (lxp_loader_load_fdpic _ _ _ _ _ _ _ _) as [[[rc [p|]] m']|]; try done.
  intros [->%Z.eqb_eq H]%andb_true_iff. by exists p, m'.
Qed.

(** The relocated word points into the text of the image. *)
Lemma demo_reloc_loads :
  loads_with (demo_reloc 0x1028) 256 false (fun p m' => le32 m' (demo_region + 40) =? demo_img + 52) = true.
Proof. by vm_compute. Qed.

Lemma demo_dynamic_loads : loads_with demo_dynamic 256 false (fun p _ => pg_is_dynamic p) = true.
Proof. by vm_compute. Qed.

Lemma demo_two_texts_loads :
  loads_with demo_two_texts 64 true (fun _ m' => negb (m' (demo_region + 68) =? 0)) = true /\
  lxp_loader_validate_fdpic (demo_at demo_two_texts) demo_img (alen demo_two_texts) 64 true = LXP_OK.
Proof. by vm_compute. Qed.

Lemma demo_text_reloc_loads :
  loads_with (demo_reloc 0) 256 false (fun _ m' => negb (load8 m' demo_img =? load8 (demo_at (demo_reloc 0)) demo_img)) = true.
Proof. by vm_compute. Qed.

(** an image with two executable segments passes validation for a text copy although the
    first of them is larger than the region, and its load writes past the region's end: the
    layout keeps only the size of the last executable segment. *)
Theorem fdpic_copied_text_overruns :
  exists m img isz region rsz p m', load_site img isz region rsz /\ lxp_loader_validate_fdpic m img isz rsz true = LXP_OK /\
    lxp_loader_load_fdpic 100 m img isz region rsz false true = Some (LXP_OK, Some p, m') /\
    exists x, ~ within region rsz x /\ ~ within img isz x /\ m' x <> m x.
Proof.
  destruct demo_two_texts_loads as [H1 H2]. destruct (loads_with_spec _ _ _ _ H1) as (p & m' & H & Hx).
  exists (demo_at demo_two_texts), demo_img, (alen demo_two_texts), demo_region, 64, p, m'.
  split; [split; vm_compute; intuition congruence|]. split; [exact H2|]. split; [exact H|].
  exists (demo_region + 68). split; [unfold within; lia|]. split; [clear H Hx; vm_compute; intuition congruence|].
  by apply negb_true_iff, Z.eqb_neq in Hx.
Qed.

(** An interpreter with three executable segments, the second as large as the file: the copy of
    that segment runs over the load map, whose count of segments is then zero. *)
Definition demo_three_texts : list Z :=
  demo_ehdr 52 3 ++ demo_phdr 1 0 0 4 4 5 ++ demo_phdr 1 0 0x1000 148 148 5 ++ demo_phdr 1 0 0x2000 4 4 5.

Lemma fdpic_copied_text_spoils_map :
  load_site demo_img (alen demo_three_texts) demo_region 128 /\
  match lxp_loader_load_fdpic 100 (demo_at demo_three_texts) demo_img (alen demo_three_texts) demo_region 128 true true with
  | Some (rc, Some p, m') => rc = LXP_OK /\ le16 m' (pg_loadmap p + 2) = 0
  | _ => False
  end.
Proof. split; [split; vm_compute; intuition congruence|]. by vm_compute. Qed.

(** A relocation whose place lies in the text is applied to the shared image. *)
Lemma fdpic_relocation_writes_image :
  exists m img isz region rsz p m', load_site img isz region rsz /\
    lxp_loader_load_fdpic 100 m img isz region rsz false false = Some (LXP_OK, Some p, m') /\
    exists x, within img isz x /\ load8 m' x <> load8 m x.
Proof.
  destruct (loads_with_spec _ _ _ _ demo_text_reloc_loads) as (p & m' & H & Hx).
  exists (demo_at (demo_reloc 0)), demo_img, (alen (demo_reloc 0)), demo_region, 256, p, m'.
  split; [by apply demo_site|]. split; [exact H|].
  exists demo_img. split; [clear H Hx; by vm_compute|]. by apply negb_true_iff, Z.eqb_neq in Hx.
Qed.

Lemma demo_sites :
  load_site demo_img (alen (demo_reloc 0x1028)) demo_region 256 /\ load_site demo_img (alen demo_zero_stride) demo_region 256 /\
  load_site demo_img (alen demo_dynamic) demo_region 256.
Proof. split_and!; apply demo_site; by vm_compute. Qed.

Lemma in_place m img rsz : false = true -> text_in_half m img rsz.
Proof. done. Qed.

Lemma fdpic_load_memory_safe_witness :
  exists p m1' m2', lxp_loader_load_fdpic 100 (demo_at (demo_reloc 0x1028)) demo_img (alen (demo_reloc 0x1028)) demo_region 256
      false false = Some (LXP_OK, Some p, m1') /\
    lxp_loader_load_fdpic 100 (mem_write (demo_at (demo_reloc 0x1028)) 0 [1; 2]) demo_img (alen (demo_reloc 0x1028)) demo_region
      256 false false = Some (LXP_OK, Some p, m2') /\ pg_region_used p <= 256.
Proof.
  destruct (loads_with_spec _ _ _ _ demo_reloc_loads) as (p & m' & H & _).
  destruct (fdpic_load_memory_safe 100 (demo_at (demo_reloc 0x1028)) (mem_write (demo_at (demo_reloc 0x1028)) 0 [1; 2]) demo_img (alen (demo_reloc 0x1028))
    demo_region 256 false false LXP_OK (Some p) m' (proj1 demo_sites) (in_place _ _ _)) as (_ & Hu & m2' & H2 & _).
  - apply agree_sym, agree_write_off. unfold space, within, demo_img, demo_region. intros x Hx. change (alen [1; 2]) with 2. lia.
  - exact H.
  - exists p, m', m2'. split; [exact H|]. split; [exact H2|exact (Hu p eq_refl)].
Defined.


Lemma fdpic_load_places_segments_witness :
  exists p m' L, lxp_loader_load_fdpic 100 (demo_at demo_dynamic) demo_img (alen demo_dynamic) demo_region 256 false false =
      Some (LXP_OK, Some p, m') /\
    map_holds m' (pg_loadmap p) (map (placed demo_img demo_region false L) (loads_of (demo_at demo_dynamic) demo_img L)).
Proof.
  destruct (loads_with_spec _ _ _ _ demo_dynamic_loads) as (p & m' & H & Hd).
  destruct (fdpic_load_places_segments 100 (demo_at demo_dynamic) demo_img (alen demo_dynamic) demo_region 256 false false LXP_OK p m'
    (proj2 (proj2 demo_sites)) (in_place _ _ _) H Hd) as (L & _ & M & _).
  exists p, m', L. split; [exact H|exact M].
Defined.
