(* ===== verification/Bootstrap.v ===== *)
(** * Bringing a program up (src/lxp_bootstrap.c, src/proc/lxp_script.c)

    The root file table read from a newc CPIO archive, the first stack of a program with
    its argument, environment and auxiliary vectors, and the first line of an interpreter
    script.  [size_t] is 32 bits; an archive and a script are byte strings, the stack lies in
    flat memory.  Strings are kept without their NUL. *)

From S2P Require Import Prelude Config Path Footprint.
Local Open Scope Z_scope.

Definition LXP_EXEC_MAXARGS : Z := 64.
Definition LXP_EXEC_MAXENVS : Z := 32.

(** ** The CPIO archive *)

Definition cpio_digit (c : Z) : Z :=
  if (c >=? 48) && (c <=? 57) then c - 48
  else if (c >=? 97) && (c <=? 102) then c - 97 + 10
  else if (c >=? 65) && (c <=? 70) then c - 65 + 10
  else 0.

(** Eight hexadecimal digits. *)
Definition cpio_hex (s : list Z) : Z :=
  fold_left (fun value c => Z.lor (u32 (Z.shiftl value 4)) (cpio_digit c)) (take 8 s) 0.

(** The C string at the head of a byte string. *)
Fixpoint cstr (l : list Z) : list Z :=
  match l with
  | [] => []
  | x :: t => if x =? 0 then [] else x :: cstr t
  end.

(** "070701" and "TRAILER!!!" *)
Definition cpio_magic : list Z := [48; 55; 48; 55; 48; 49].
Definition cpio_trailer : list Z := [84; 82; 65; 73; 76; 69; 82; 33; 33; 33].

Definition bytes_from (l : list Z) (p : Z) : list Z := drop (Z.to_nat p) l.
Definition align4 (n : Z) : Z := Z.land (u32 (n + 3)) (Z.lxor 0xffffffff 3).

(** A member's name without the leading "./" (or the "." of the root). *)
Definition cpio_relative (name : list Z) : list Z :=
  match name with
  | 46 :: 47 :: t => t
  | [46] => []
  | _ => name
  end.

(** What the archive holds at [pos]: nothing usable, its trailer, or a file with the place
    of the next member. *)
Inductive cpio_item := CpioBad | CpioEnd | CpioFile (f : lxp_file) (path_len next : Z).

Definition cpio_member (cpio : list Z) (pos : Z) : cpio_item :=
  let len := alen cpio in
  let header := bytes_from cpio pos in
  if negb (bool_decide (take 6 header = cpio_magic)) then CpioBad
  else
    let mode := cpio_hex (bytes_from header 14) in
    let file_size := cpio_hex (bytes_from header 54) in
    let name_size := cpio_hex (bytes_from header 94) in
    if u32 (pos + 110 + name_size) >? len then CpioBad
    else if (name_size =? 0) || negb (aget 0 header (110 + (name_size - 1)) =? 0) then CpioBad
    else
      let name := cstr (bytes_from header 110) in
      if bool_decide (name = cpio_trailer) then CpioEnd
      else
        let data_offset := align4 (pos + 110 + name_size) in
        if negb (file_size =? 0) && (u32 (data_offset + file_size) >? len) then CpioBad
        else
          let relative := cpio_relative name in
          CpioFile (mk_file (47 :: relative)
                      (if file_size =? 0 then None else Some (take (Z.to_nat file_size) (bytes_from cpio data_offset)))
                      file_size mode)
            (alen relative) (align4 (data_offset + file_size)).

(** [room] is [max - count]; [None] is the failure -1. *)
Fixpoint cpio_loop (room : nat) (cpio : list Z) (namebuf_len pos namebuf_used : Z) (out : list lxp_file) : option (list lxp_file) :=
  if u32 (pos + 110) <=? alen cpio
  then match cpio_member cpio pos with
       | CpioBad => None
       | CpioEnd => Some out
       | CpioFile f path_len next =>
           match room with
           | O => None
           | S room =>
               if namebuf_used + 2 + path_len >? namebuf_len then None
               else cpio_loop room cpio namebuf_len next (namebuf_used + 2 + path_len) (out ++ [f])
           end
       end
  else Some out.

(** The table; its length is the count the code returns. *)
Definition lxp_cpio_to_rootfs (cpio : list Z) (max namebuf_len : Z) : option (list lxp_file) :=
  cpio_loop (Z.to_nat max) cpio namebuf_len 0 0 [].

(** ** The first stack *)

(** Bytes of the strings of a vector, each with its NUL. *)
Definition strings_size (vec : list (list Z)) : Z := fold_right (fun s n => alen s + 1 + n) 0 vec.

Fixpoint copy_strings (m : mem) (at_ : Z) (vec : list (list Z)) : mem * Z :=
  match vec with
  | [] => (m, at_)
  | s :: t => copy_strings (mem_write m at_ (s ++ [0])) (at_ + alen s + 1) t
  end.

(** [strlen] of a string in memory; the fuel bounds its length. *)
Fixpoint mem_strlen (fuel : nat) (m : mem) (at_ : Z) : Z :=
  match fuel with
  | O => 0
  | S n => if load8 m at_ =? 0 then 0 else 1 + mem_strlen n m (at_ + 1)
  end.

(** The addresses of [count] strings laid out from [at_] into the words at [out]. *)
Fixpoint point_strings (m : mem) (out at_ : Z) (count fuel : nat) : mem :=
  match count with
  | O => m
  | S n => let m := store32 m out at_ in point_strings m (out + 4) (at_ + mem_strlen fuel m at_ + 1) n fuel
  end.

(** Words stored one after the other. *)
Fixpoint store_words (m : mem) (at_ : Z) (ws : list Z) : mem :=
  match ws with
  | [] => m
  | w :: t => store_words (store32 m at_ w) (at_ + 4) t
  end.

Definition LXP_AT_NULL : Z := 0.
Definition LXP_AT_PHDR : Z := 3.
Definition LXP_AT_PHENT : Z := 4.
Definition LXP_AT_PHNUM : Z := 5.
Definition LXP_AT_PAGESZ : Z := 6.
Definition LXP_AT_BASE : Z := 7.
Definition LXP_AT_ENTRY : Z := 9.
Definition LXP_AT_RANDOM : Z := 25.

Section Stack.
(** The host's entropy: [n] bytes, or a failure. *)
Context (random_fill : Z -> option (list Z)).

(** The strings, the random bytes and the place below them: [args], [envs], [random]. *)
Definition stack_strings (m : mem) (stack stack_size : Z) (argv envp : list (list Z)) : option (Z * Z * Z) * mem :=
  let bytes := strings_size argv + strings_size envp in
  if bytes >? stack_size then (None, m)
  else
    let args := stack + stack_size - bytes in
    let '(m, envs) := copy_strings m args argv in
    let '(m, _) := copy_strings m envs envp in
    if args - 16 <? stack then (None, m)
    else let random := args - 16 in
         match random_fill 16 with
         | None => (None, m)
         | Some bs => (Some (args, envs, random), mem_write m random bs)
         end.

(** The FDPIC entry block. *)
Definition stack_fdpic (m : mem) (floor args envs random : Z) (argc envc : nat) (fuel : nat)
    (phdr phnum entry at_base : Z) : option Z * mem :=
  let words := 1 + Z.of_nat argc + 1 + Z.of_nat envc + 1 + 16 in
  let header := Z.land (u32 (random - words * 4)) (Z.lxor 0xffffffff 7) in
  if header <? floor then (None, m)
  else
    let m := store32 m header (Z.of_nat argc) in
    let m := point_strings m (header + 4) args argc fuel in
    let ev := header + 4 + 4 * Z.of_nat argc in
    let m := store32 m ev 0 in
    let m := point_strings m (ev + 4) envs envc fuel in
    let aux := ev + 4 + 4 * Z.of_nat envc in
    let m := store32 m aux 0 in
    (Some header, store_words m (aux + 4)
       [LXP_AT_PHDR; phdr; LXP_AT_PHENT; 32; LXP_AT_PHNUM; phnum; LXP_AT_BASE; at_base; LXP_AT_ENTRY; entry;
        LXP_AT_PAGESZ; 4096; LXP_AT_RANDOM; random; LXP_AT_NULL; 0]).

(** The bFLT entry block: the counts and array addresses before the arrays. *)
Definition stack_flat (m : mem) (floor args envs random : Z) (argc envc : nat) (fuel : nat) : option Z * mem :=
  let words := 3 + Z.of_nat argc + 1 + Z.of_nat envc + 1 + 6 in
  let header := Z.land (u32 (random - words * 4)) (Z.lxor 0xffffffff 7) in
  if header <? floor then (None, m)
  else
    let argv_array := header + 12 in
    let envp_array := argv_array + 4 * Z.of_nat argc + 4 in
    let auxv := envp_array + 4 * Z.of_nat envc + 4 in
    let m := store_words m header [Z.of_nat argc; argv_array; envp_array] in
    let m := point_strings m argv_array args argc fuel in
    let m := store32 m (argv_array + 4 * Z.of_nat argc) 0 in
    let m := point_strings m envp_array envs envc fuel in
    let m := store32 m (envp_array + 4 * Z.of_nat envc) 0 in
    (Some header, store_words m auxv [LXP_AT_PAGESZ; 4096; LXP_AT_RANDOM; random; LXP_AT_NULL; 0]).

(** [argv] has [argc] strings, [envp] those before its NULL. *)
Definition lxp_setup_stack (m : mem) (stack stack_size : Z) (argv : option (list (list Z))) (envp : list (list Z)) (fdpic : bool)
    (phdr phnum entry at_base : Z) : option Z * mem :=
  match argv with
  | None => (None, m)
  | Some argv =>
      if (stack =? 0) || (alen argv >? LXP_EXEC_MAXARGS) || (alen envp >? LXP_EXEC_MAXENVS) then (None, m)
      else match stack_strings m stack stack_size argv envp with
      | (None, m) => (None, m)
      | (Some (args, envs, random), m) =>
          let fuel := Z.to_nat (strings_size argv + strings_size envp) in
          if fdpic
          then stack_fdpic m stack args envs random (length argv) (length envp) fuel phdr phnum entry at_base
          else stack_flat m stack args envs random (length argv) (length envp) fuel
      end
  end.
End Stack.

(** ** Interpreter scripts *)

Inductive script_result := LXP_SCRIPT_NOT_PRESENT | LXP_SCRIPT_PRESENT.
Record lxp_script_spec := mk_script { sc_interpreter : list Z; sc_argument : list Z; sc_has_argument : bool }.

Definition is_blank (c : Z) : bool := (c =? 32) || (c =? 9).

Fixpoint skip_blank (l : list Z) : list Z :=
  match l with
  | c :: t => if is_blank c then skip_blank t else l
  | [] => []
  end.

(** A token of fewer than [capacity] bytes and the rest behind it. *)
Fixpoint copy_token_loop (capacity : Z) (l dst : list Z) : Z + (list Z * list Z) :=
  match l with
  | c :: t => if is_blank c || (c =? 10) then inr (dst, l)
              else if alen dst + 1 >=? capacity then inl (- LXP_ENOEXEC)
              else copy_token_loop capacity t (dst ++ [c])
  | [] => inr (dst, [])
  end.
Definition copy_token (capacity : Z) (l : list Z) : Z + (list Z * list Z) :=
  match copy_token_loop capacity l [] with
  | inr ([], _) => inl (- LXP_ENOEXEC)
  | r => r
  end.

Definition LXP_SCRIPT_TOKEN_CAPACITY : Z := 64.
Definition lxp_script_parse (data : option (list Z)) : Z + (script_result * lxp_script_spec) :=
  let none := mk_script [] [] false in
  match data with
  | Some (35 :: 33 :: rest) =>
      match copy_token LXP_SCRIPT_TOKEN_CAPACITY (skip_blank rest) with
      | inl e => inl e
      | inr (interp, rest) =>
          let rest := skip_blank rest in
          match rest with
          | [] => inr (LXP_SCRIPT_PRESENT, mk_script interp [] false)
          | c :: _ =>
              if c =? 10 then inr (LXP_SCRIPT_PRESENT, mk_script interp [] false)
              else match copy_token LXP_SCRIPT_TOKEN_CAPACITY rest with
                   | inl e => inl e
                   | inr (arg, _) => inr (LXP_SCRIPT_PRESENT, mk_script interp arg true)
                   end
          end
      end
  | _ => inr (LXP_SCRIPT_NOT_PRESENT, none)
  end.

(** ** The initial program (src/run/lxp_initial.c) *)

Record lxp_initial_image := mk_initial { ii_argv : list (list Z); ii_file_index : Z; ii_data : option (list Z); ii_size : Z }.

(** A file of the table that can be run: it has bytes and is no directory. *)
Definition runnable_file (fs : list lxp_file) (idx : Z) : bool :=
  let f := aget no_file fs idx in
  negb (idx <? 0) && match f_data f with Some _ => true | None => false end &&
  negb (Z.land (lxp_file_mode f) LXP_S_IFMT =? LXP_S_IFDIR).

Definition lxp_initial_resolve (fs : list lxp_file) (path : list Z) (argv : list (list Z)) : Z + lxp_initial_image :=
  if (alen argv <? 1) || (alen argv >? LXP_EXEC_MAXARGS) then inl (- LXP_EINVAL)
  else
    let idx := lxp_rootfs_resolve_index (Some fs) (Some path) in
    if negb (runnable_file fs idx) then inl (- LXP_ENOENT)
    else
      let f := aget no_file fs idx in
      let image idx argv := let f := aget no_file fs idx in inr (mk_initial argv idx (f_data f) (f_size f)) in
      match lxp_script_parse (option_map (take (Z.to_nat (f_size f))) (f_data f)) with
      | inl e => inl e
      | inr (LXP_SCRIPT_NOT_PRESENT, _) => image idx argv
      | inr (LXP_SCRIPT_PRESENT, sc) =>
          let interp := cstr (sc_interpreter sc) in
          match lxp_resolve_path_trusted (Some interp) LXP_PATH_MAX with
          | inl _ => inl (- LXP_ENOEXEC)
          | inr interpreter =>
              let idx := lxp_rootfs_resolve_index (Some fs) (Some interpreter) in
              if negb (runnable_file fs idx) then inl (- LXP_ENOENT)
              else
                let prefix := interp :: (if sc_has_argument sc then [cstr (sc_argument sc)] else []) ++ [path] in
                if alen prefix + (alen argv - 1) >? LXP_EXEC_MAXARGS then inl (- LXP_E2BIG)
                else image idx (prefix ++ tail argv)
          end
      end.

(** * Correctness of program start-up

    The stack a program starts with reads back as its argument, environment and auxiliary
    vectors; an archive that was written member by member is read back as the same table;
    the interpreter line of a script is split as it was put together. *)

(** ** The first stack *)

(** The C string [s] at [p]. *)
Definition string_at (m : mem) (p : Z) (s : list Z) : Prop :=
  mem_read m p (length s) = s /\ load8 m (p + alen s) = 0.

(** The place of string [i] in a block of strings. *)
Definition offset_of (vec : list (list Z)) (i : nat) : Z := strings_size (take i vec).

Definition block_at (m : mem) (at_ : Z) (vec : list (list Z)) : Prop :=
  forall i s, vec !! i = Some s -> string_at m (at_ + offset_of vec i) s.

(** A vector of pointers to strings at [a], with its NULL. *)
Definition vector_at (m : mem) (a : Z) (vec : list (list Z)) : Prop :=
  (forall i s, vec !! i = Some s -> string_at m (load32 m (a + 4 * Z.of_nat i)) s) /\ load32 m (a + 4 * alen vec) = 0.

Definition words_at (m : mem) (a : Z) (ws : list Z) : Prop :=
  forall i w, ws !! i = Some w -> load32 m (a + 4 * Z.of_nat i) = w.

Definition is_text (s : list Z) : Prop := Forall (fun c => 0 < c < 256) s.

Lemma strings_size_nonneg vec : 0 <= strings_size vec.
Proof. induction vec as [|s t IH]; simpl; unfold alen in *; lia. Qed.

Lemma strings_size_app v w : strings_size (v ++ w) = strings_size v + strings_size w.
Proof. induction v as [|s t IH]; simpl; lia. Qed.

Lemma offset_fits vec i s : vec !! i = Some s -> 0 <= offset_of vec i /\ offset_of vec i + alen s + 1 <= strings_size vec.
Proof.
  intros H. unfold offset_of. pose proof (take_drop_middle vec i s H) as E.
  pose proof (strings_size_nonneg (take i vec)). pose proof (strings_size_nonneg (drop (S i) vec)).
  rewrite <- E at 3. rewrite strings_size_app. simpl. lia.
Qed.

Lemma string_at_agree m m' p s : agree (within p (alen s + 1)) m m' -> string_at m p s -> string_at m' p s.
Proof.
  intros H [H1 H2]. split.
  - rewrite <- H1 at 2. apply mem_read_ext. intros x Hx. symmetry. apply H. unfold within, alen. lia.
  - rewrite <- H2. symmetry. apply H. unfold within, alen. lia.
Qed.

Lemma block_at_agree m m' a vec : agree (within a (strings_size vec)) m m' -> block_at m a vec -> block_at m' a vec.
Proof.
  intros H HB i s Hi. eapply string_at_agree; [|by apply HB]. eapply agree_mono; [|exact H].
  intros x Hx. pose proof (offset_fits vec i s Hi). unfold within in *. lia.
Qed.

Lemma string_at_write m p s : is_text s -> string_at (mem_write m p (s ++ [0])) p s.
Proof.
  intros Ht. split.
  - apply nth_ext with (d := 0) (d' := 0); [by rewrite length_mem_read|].
    intros i Hi. rewrite length_mem_read in Hi. rewrite nth_mem_read by done. unfold load8.
    rewrite mem_write_in by (rewrite length_app; simpl; lia). rewrite app_nth1 by lia.
    replace (Z.to_nat (p + Z.of_nat i - p)) with i by lia. apply u8_small.
    assert (Hx : nth i s 0 ∈ s) by (apply list_elem_of_In, nth_In; lia).
    unfold is_text in Ht. rewrite Forall_forall in Ht. specialize (Ht _ Hx). lia.
  - unfold load8, alen. rewrite mem_write_in by (rewrite length_app; simpl; lia).
    rewrite app_nth2 by lia. replace (Z.to_nat _ - length s)%nat with 0%nat by lia. done.
Qed.

Lemma copy_strings_spec m a vec :
  Forall is_text vec ->
  let '(m', e) := copy_strings m a vec in
  e = a + strings_size vec /\ confined (within a (strings_size vec)) m m' /\ block_at m' a vec.
Proof.
  intros Ht. revert m a. induction Ht as [|s t Hs Ht IH]; intros m a; cbn [copy_strings].
  { split_and!; [simpl; lia|apply confined_refl|]. intros i s Hi. done. }
  specialize (IH (mem_write m a (s ++ [0])) (a + alen s + 1)).
  destruct (copy_strings _ _ t) as [m' e]. destruct IH as (-> & C & HB). pose proof (strings_size_nonneg t).
  assert (Hal : alen (s ++ [0]) = alen s + 1) by (unfold alen; rewrite length_app; simpl; lia).
  assert (0 <= alen s) by (unfold alen; lia). split_and!.
  - simpl. lia.
  - eapply confined_trans; [apply confined_write; rewrite Hal|eapply confined_mono; [|exact C]]; simpl; unfold within; intros; lia.
  - intros i s' Hi. destruct i as [|i].
    + injection Hi as <-. unfold offset_of. simpl. rewrite Z.add_0_r.
      eapply string_at_agree; [|by apply string_at_write]. apply agree_sym. eapply confined_agree; [exact C|].
      unfold within. intros. lia.
    + specialize (HB i s' Hi). unfold offset_of in *. simpl. by replace (a + (alen s + 1 + strings_size (take i t)))
        with (a + alen s + 1 + strings_size (take i t)) by lia.
Qed.

Lemma mem_strlen_text m p s fuel : is_text s -> string_at m p s -> (length s < fuel)%nat -> mem_strlen fuel m p = alen s.
Proof.
  revert p fuel. induction s as [|c s IH]; intros p fuel Ht [H1 H2] Hf; destruct fuel as [|n]; simpl in Hf; try lia; simpl.
  - unfold alen in H2. simpl in H2. rewrite Z.add_0_r in H2. by rewrite H2.
  - inversion Ht as [|? ? Hc Hs]; subst. simpl in H1. injection H1 as E1 E2. rewrite E1.
    destruct (Z.eqb_spec c 0); [lia|]. rewrite (IH (p + 1) n Hs); [unfold alen; simpl; lia| |lia]. split; [done|].
    rewrite <- H2. f_equal. unfold alen. simpl. lia.
Qed.

(** Pointers to a block of strings elsewhere. *)
Lemma point_strings_spec m out a vec fuel :
  Forall is_text vec -> block_at m a vec -> strings_size vec <= Z.of_nat fuel -> 0 <= a -> a + strings_size vec <= 2 ^ 32 ->
  (out + 4 * alen vec <= a \/ a + strings_size vec <= out) ->
  let m' := point_strings m out a (length vec) fuel in
  confined (within out (4 * alen vec)) m m' /\
  forall i s, vec !! i = Some s -> load32 m' (out + 4 * Z.of_nat i) = a + offset_of vec i.
Proof.
  intros Ht. revert m out a. induction Ht as [|s t Hs Ht IH]; intros m out a HB Hf Ha Hhi Hd; cbn [point_strings length].
  { split; [apply confined_refl|]. intros i s Hi. done. }
  assert (Hl : alen (s :: t) = 1 + alen t) by (unfold alen; simpl; lia). rewrite Hl in *.
  pose proof (strings_size_nonneg t) as Hn. assert (H0 : 0 <= alen s /\ 0 <= alen t) by (unfold alen; lia). simpl in Hf, Hhi, Hd.
  assert (HB' : block_at (store32 m out a) a (s :: t)).
  { eapply block_at_agree; [|exact HB]. apply agree_sym, (confined_agree (within out 4)); [by apply confined_store32|].
    unfold within. intros x Hx. simpl in Hx. lia. }
  assert (Hs0 : string_at (store32 m out a) a s).
  { specialize (HB' 0%nat s eq_refl). unfold offset_of in HB'. simpl in HB'. by rewrite Z.add_0_r in HB'. }
  rewrite (mem_strlen_text _ _ s) by (done || (unfold alen in *; lia)).
  destruct (IH (store32 m out a) (out + 4) (a + alen s + 1)) as [C HP]; [|lia..|].
  { intros i s' Hi. specialize (HB' (S i) s' Hi). unfold offset_of in *. simpl in HB'.
    by replace (a + alen s + 1 + strings_size (take i t)) with (a + (alen s + 1 + strings_size (take i t))) by lia. }
  split.
  - eapply confined_trans; [apply confined_store32|eapply confined_mono; [|exact C]]; unfold within; intros; lia.
  - intros i s' Hi. destruct i as [|i].
    + injection Hi as <-. unfold offset_of. simpl. rewrite !Z.add_0_r.
      rewrite (confined_load32 _ _ _ _ C) by (unfold within; intros; lia). rewrite load32_store32_same. apply u32_small. lia.
    + specialize (HP i s' Hi). unfold offset_of in *. simpl.
      replace (out + 4 * Z.of_nat (S i)) with (out + 4 + 4 * Z.of_nat i) by lia. rewrite HP. lia.
Qed.

Lemma store_words_spec m a ws :
  let m' := store_words m a ws in
  confined (within a (4 * alen ws)) m m' /\ forall i w, ws !! i = Some w -> load32 m' (a + 4 * Z.of_nat i) = u32 w.
Proof.
  revert m a. induction ws as [|w ws IH]; intros m a; cbn [store_words].
  { split; [apply confined_refl|done]. }
  assert (Hl : alen (w :: ws) = 1 + alen ws) by (unfold alen; simpl; lia). rewrite Hl.
  assert (0 <= alen ws) by (unfold alen; lia). destruct (IH (store32 m a w) (a + 4)) as [C HW]. split.
  - eapply confined_trans; [apply confined_store32|eapply confined_mono; [|exact C]]; unfold within; intros; lia.
  - intros i w' Hi. destruct i as [|i].
    + injection Hi as <-. rewrite Z.mul_0_r, Z.add_0_r.
      rewrite (confined_load32 _ _ _ _ C) by (unfold within; intros; lia). apply load32_store32_same.
    + rewrite <- (HW i w' Hi). f_equal. lia.
Qed.

(** A pointer vector under construction: its words name the strings of a block. *)
Definition pointers_at (m : mem) (out blk : Z) (vec : list (list Z)) : Prop :=
  (forall i s, vec !! i = Some s -> load32 m (out + 4 * Z.of_nat i) = blk + offset_of vec i) /\ load32 m (out + 4 * alen vec) = 0.

Lemma pointers_vector m out blk vec : pointers_at m out blk vec -> block_at m blk vec -> vector_at m out vec.
Proof. intros [H1 H2] HB. split; [|done]. intros i s Hi. rewrite (H1 i s Hi). by apply HB. Qed.

Lemma pointers_keep (P : Z -> Prop) m m' out blk vec :
  confined P m m' -> (forall x, within out (4 * alen vec + 4) x -> ~ P x) -> pointers_at m out blk vec -> pointers_at m' out blk vec.
Proof.
  intros C HP [H1 H2]. split.
  - intros i s Hi. rewrite <- (H1 i s Hi). apply lookup_lt_Some in Hi.
    apply (confined_load32 P); [done|]. intros x Hx. apply HP. unfold within, alen in *. lia.
  - rewrite <- H2. apply (confined_load32 P); [done|]. intros x Hx. apply HP. unfold within, alen in *. lia.
Qed.

Lemma block_keep (P : Z -> Prop) m m' a vec :
  confined P m m' -> (forall x, within a (strings_size vec) x -> ~ P x) -> block_at m a vec -> block_at m' a vec.
Proof. intros C HP. apply block_at_agree, agree_sym. by eapply confined_agree. Qed.

Lemma words_keep (P : Z -> Prop) m m' a ws :
  confined P m m' -> (forall x, within a (4 * alen ws) x -> ~ P x) -> words_at m a ws -> words_at m' a ws.
Proof.
  intros C HP H i w Hi. rewrite <- (H i w Hi). apply lookup_lt_Some in Hi. apply (confined_load32 P); [done|].
  intros x Hx. apply HP. unfold within, alen in *. lia.
Qed.

Lemma pointers_build m out blk vec fuel :
  Forall is_text vec -> block_at m blk vec -> strings_size vec <= Z.of_nat fuel -> 0 <= blk -> blk + strings_size vec <= 2 ^ 32 ->
  (out + 4 * alen vec + 4 <= blk \/ blk + strings_size vec <= out) ->
  let m' := store32 (point_strings m out blk (length vec) fuel) (out + 4 * alen vec) 0 in
  confined (within out (4 * alen vec + 4)) m m' /\ pointers_at m' out blk vec.
Proof.
  intros Ht HB Hf Hb Hhi Hd. destruct (point_strings_spec m out blk vec fuel) as [C HP]; [done..|lia|].
  assert (0 <= alen vec) by (unfold alen; lia). cbv zeta. split.
  - eapply confined_trans; [eapply confined_mono; [|exact C]|apply confined_store32]; unfold within; intros; lia.
  - split; [|by rewrite load32_store32_same].
    intros i s Hi. rewrite load32_store32_disj; [by apply (HP i s)|]. apply lookup_lt_Some in Hi. unfold alen. lia.
Qed.

Lemma words_build m a ws :
  Forall (fun w => 0 <= w < 2 ^ 32) ws -> confined (within a (4 * alen ws)) m (store_words m a ws) /\ words_at (store_words m a ws) a ws.
Proof.
  intros Hr. destruct (store_words_spec m a ws) as [C HW]. split; [done|].
  intros i w Hi. rewrite (HW i w Hi). apply u32_small. rewrite Forall_lookup in Hr. by apply (Hr i).
Qed.

(** The places of the vectors of an entry block at [sp]. *)
Definition entry_places (fdpic : bool) (sp argc envc : Z) : Z * Z * Z :=
  let av := sp + (if fdpic then 4 else 12) in (av, av + 4 * argc + 4, av + 4 * argc + 4 + 4 * envc + 4).

Definition auxv_of (fdpic : bool) (phdr phnum entry at_base random : Z) : list Z :=
  (if fdpic then [LXP_AT_PHDR; phdr; LXP_AT_PHENT; 32; LXP_AT_PHNUM; phnum; LXP_AT_BASE; at_base; LXP_AT_ENTRY; entry] else []) ++
  [LXP_AT_PAGESZ; 4096; LXP_AT_RANDOM; random; LXP_AT_NULL; 0].

(** The words an entry block takes. *)
Definition entry_words (fdpic : bool) (argc envc : Z) : Z := (if fdpic then 19 else 11) + argc + envc.

Section StackProof.
Variables (random_fill : Z -> option (list Z)) (m : mem) (stack size : Z) (argv envp : list (list Z)).
Variables (phdr phnum entry at_base : Z).
Hypotheses (Htext : Forall is_text argv) (Htexte : Forall is_text envp) (Hstack : 512 <= stack) (Hsize : 0 <= size)
  (Hhi : stack + size <= 2 ^ 32) (Hrnd : forall bs, random_fill 16 = Some bs -> alen bs = 16)
  (Haux : Forall (fun w => 0 <= w < 2 ^ 32) [phdr; phnum; entry; at_base]).

Let bytes := strings_size argv + strings_size envp.
Let args := stack + size - bytes.
Let envs := args + strings_size argv.
Let random := args - 16.

Lemma stack_strings_spec r m' :
  stack_strings random_fill m stack size argv envp = (r, m') ->
  match r with
  | None => bytes + 16 > size \/ random_fill 16 = None
  | Some (a, e, rd) => a = args /\ e = envs /\ rd = random /\ stack <= random /\
      confined (within random (16 + bytes)) m m' /\ block_at m' args argv /\ block_at m' envs envp /\
      exists bs, random_fill 16 = Some bs /\ mem_read m' random 16 = map u8 bs
  end.
Proof.
  intros H. pose proof (strings_size_nonneg argv). pose proof (strings_size_nonneg envp). unfold stack_strings in H.
  fold bytes args in H. rewrite Z.gtb_ltb in H. destruct (Z.ltb_spec size bytes); [injection H as <- <-; left; lia|].
  pose proof (copy_strings_spec m args argv Htext) as G1. destruct (copy_strings m args argv) as [m1 e1].
  destruct G1 as (-> & C1 & B1). fold envs in H.
  pose proof (copy_strings_spec m1 envs envp Htexte) as G2. destruct (copy_strings m1 envs envp) as [m2 e2].
  destruct G2 as (-> & C2 & B2). destruct (Z.ltb_spec (args - 16) stack); [injection H as <- <-; left; unfold args in *; lia|].
  destruct (random_fill 16) as [bs|] eqn:Er; [|injection H as <- <-; by right]. injection H as <- <-.
  pose proof (Hrnd _ eq_refl) as Hbs. fold random.
  assert (C3 : confined (within random 16) m2 (mem_write m2 random bs)) by (apply confined_write; rewrite Hbs; by intros).
  split_and!; try done.
  - eapply confined_trans; [eapply confined_mono; [|exact C1]|eapply confined_trans; [eapply confined_mono; [|exact C2]|
      eapply confined_mono; [|exact C3]]]; unfold within, random, envs, bytes; intros; lia.
  - eapply block_keep; [exact C3| |]; [unfold within, random; intros; lia|].
    eapply block_keep; [exact C2| |exact B1]. unfold within, envs. intros. lia.
  - eapply block_keep; [exact C3| |exact B2]. unfold within, random, envs. intros. lia.
  - exists bs. split; [done|]. rewrite <- mem_read_write_same with (m := m2) (a := random). f_equal. unfold alen in Hbs. lia.
Qed.

(** A built entry block, over a memory that holds the strings. *)
Definition block_built (fdpic : bool) (m1 : mem) (sp : Z) (m' : mem) : Prop :=
  let '(av, ev, aux) := entry_places fdpic sp (alen argv) (alen envp) in
  sp mod 8 = 0 /\ stack <= sp /\ sp + 4 * entry_words fdpic (alen argv) (alen envp) <= random /\
  confined (within sp (4 * entry_words fdpic (alen argv) (alen envp))) m1 m' /\
  load32 m' sp = alen argv /\ (fdpic = false -> load32 m' (sp + 4) = av /\ load32 m' (sp + 8) = ev) /\
  pointers_at m' av args argv /\ pointers_at m' ev envs envp /\
  words_at m' aux (auxv_of fdpic phdr phnum entry at_base random).

Lemma header_spec w : 0 <= w <= 128 -> stack <= random ->
  let h := Z.land (u32 (random - w * 4)) (Z.lxor 0xffffffff 7) in h mod 8 = 0 /\ random - w * 4 - 7 <= h <= random - w * 4.
Proof.
  intros Hw Hr. pose proof (strings_size_nonneg argv). pose proof (strings_size_nonneg envp).
  cbv zeta. change (Z.lxor 0xffffffff 7) with (Z.ones 32 - Z.ones 3).
  rewrite u32_small by (unfold random, args, bytes in *; lia). rewrite land_mask_down by (unfold random, args, bytes in *; lia). lia.
Qed.

Section Blocks.
Variables (m1 : mem) (fuel : nat).
Hypotheses (Hb1 : block_at m1 args argv) (Hb2 : block_at m1 envs envp) (Hfuel : Z.of_nat fuel = bytes) (Hrs : stack <= random)
  (Hargc : alen argv <= LXP_EXEC_MAXARGS) (Henvc : alen envp <= LXP_EXEC_MAXENVS).

(** The two vectors and the auxiliary words from [av] on, over any memory that holds the strings. *)
Lemma tail_built m2 av aux_ws :
  block_at m2 args argv -> block_at m2 envs envp -> stack <= av -> Forall (fun w => 0 <= w < 2 ^ 32) aux_ws ->
  let ev := av + 4 * alen argv + 4 in
  let aux := ev + 4 * alen envp + 4 in
  aux + 4 * alen aux_ws <= random ->
  let m' := store_words (store32 (point_strings (store32 (point_strings m2 av args (length argv) fuel) (av + 4 * alen argv) 0)
              ev envs (length envp) fuel) (ev + 4 * alen envp) 0) aux aux_ws in
  confined (within av (4 * alen argv + 4 * alen envp + 8 + 4 * alen aux_ws)) m2 m' /\
  pointers_at m' av args argv /\ pointers_at m' ev envs envp /\ words_at m' aux aux_ws.
Proof.
  intros B1 B2 Hav Hws ev aux Hin. pose proof (strings_size_nonneg argv). pose proof (strings_size_nonneg envp).
  assert (0 <= alen argv /\ 0 <= alen envp /\ 0 <= alen aux_ws) by (unfold alen; lia).
  assert (Hr : 0 <= args /\ args + bytes <= 2 ^ 32) by (unfold random, args, bytes in *; lia).
  destruct (pointers_build m2 av args argv fuel) as [C1 P1]; [done|done|unfold bytes in *; lia..|].
  set (m3 := store32 _ (av + 4 * alen argv) 0) in *.
  assert (B2' : block_at m3 envs envp).
  { eapply block_keep; [exact C1| |exact B2]. unfold within, envs, random, ev, aux in *. intros. lia. }
  destruct (pointers_build m3 ev envs envp fuel) as [C2 P2]; [done|done|unfold envs, bytes, ev, aux, random in *; lia..|].
  set (m4 := store32 _ (ev + 4 * alen envp) 0) in *. cbv zeta. destruct (words_build m4 aux aux_ws Hws) as [C3 W].
  split_and!; [|..|exact W].
  - eapply confined_trans; [eapply confined_mono; [|exact C1]|eapply confined_trans; [eapply confined_mono; [|exact C2]|
      eapply confined_mono; [|exact C3]]]; unfold within, ev, aux; intros; lia.
  - eapply pointers_keep; [exact C3| |eapply pointers_keep; [exact C2| |exact P1]]; unfold within, ev, aux; intros; lia.
  - eapply pointers_keep; [exact C3| |exact P2]; unfold within, ev, aux; intros; lia.
Qed.

Lemma aux_words fdpic : Forall (fun w => 0 <= w < 2 ^ 32) (auxv_of fdpic phdr phnum entry at_base random).
Proof.
  pose proof (strings_size_nonneg argv). pose proof (strings_size_nonneg envp).
  assert (0 <= random < 2 ^ 32) by (unfold random, args, bytes in *; lia).
  rewrite !Forall_cons in Haux. destruct Haux as (A1 & A2 & A3 & A4 & _).
  unfold auxv_of, LXP_AT_PHDR, LXP_AT_PHENT, LXP_AT_PHNUM, LXP_AT_BASE, LXP_AT_ENTRY, LXP_AT_PAGESZ, LXP_AT_RANDOM, LXP_AT_NULL.
  destruct fdpic; repeat (apply Forall_cons; split); try lia; constructor.
Qed.

Lemma head_kept m2 w (P : Z -> Prop) : confined P m1 m2 -> (forall x, P x -> within w (random - w) x) ->
  block_at m2 args argv /\ block_at m2 envs envp.
Proof.
  intros C HP. pose proof (strings_size_nonneg argv). pose proof (strings_size_nonneg envp).
  split; (eapply block_keep; [exact C| |done]); intros x Hx Hp%HP; unfold within, random, envs in *; lia.
Qed.

Lemma stack_fdpic_built sp m' :
  stack_fdpic m1 stack args envs random (length argv) (length envp) fuel phdr phnum entry at_base = (Some sp, m') ->
  block_built true m1 sp m'.
Proof.
  intros H. unfold stack_fdpic in H. fold (alen argv) (alen envp) in H. cbv zeta in H.
  assert (Hc : 0 <= alen argv /\ 0 <= alen envp) by (unfold alen; lia). unfold LXP_EXEC_MAXARGS, LXP_EXEC_MAXENVS in *.
  destruct (header_spec (1 + alen argv + 1 + alen envp + 1 + 16)) as [H8 Hh]; [lia|done|].
  set (h := Z.land _ _) in *. destruct (Z.ltb_spec h stack); [done|]. injection H as <- <-.
  set (m2 := store32 m1 h (alen argv)).
  assert (C0 : confined (within h 4) m1 m2) by (by apply confined_store32).
  destruct (head_kept m2 h _ C0) as [B1 B2]; [unfold within; intros; lia|].
  pose proof (tail_built m2 (h + 4) _ B1 B2 ltac:(lia) (aux_words true)) as G. cbv zeta in G.
  change (alen (auxv_of true phdr phnum entry at_base random)) with 16 in G.
  destruct G as (C & P1 & P2 & W); [lia|]. unfold block_built, entry_places, entry_words.
  split_and!; try done; try lia.
  - eapply confined_trans; [eapply confined_mono; [|exact C0]|eapply confined_mono; [|exact C]]; unfold within; intros; lia.
  - rewrite (confined_load32 _ _ _ _ C) by (unfold within; intros; lia). unfold m2. rewrite load32_store32_same.
    apply u32_small. lia.
Qed.

Lemma stack_flat_built sp m' :
  stack_flat m1 stack args envs random (length argv) (length envp) fuel = (Some sp, m') -> block_built false m1 sp m'.
Proof.
  intros H. unfold stack_flat in H. fold (alen argv) (alen envp) in H. cbv zeta in H.
  assert (Hc : 0 <= alen argv /\ 0 <= alen envp) by (unfold alen; lia). unfold LXP_EXEC_MAXARGS, LXP_EXEC_MAXENVS in *.
  destruct (header_spec (3 + alen argv + 1 + alen envp + 1 + 6)) as [H8 Hh]; [lia|done|].
  set (h := Z.land _ _) in *. destruct (Z.ltb_spec h stack); [done|]. injection H as <- <-.
  pose proof (strings_size_nonneg argv). pose proof (strings_size_nonneg envp).
  assert (Hr : random < 2 ^ 32) by (unfold random, args, bytes in *; lia).
  destruct (words_build m1 h [alen argv; h + 12; h + 12 + 4 * alen argv + 4]) as [C0 W0].
  { repeat (apply Forall_cons; split); try lia. constructor. }
  set (m2 := store_words m1 h _) in *. change (4 * alen _) with 12 in C0.
  destruct (head_kept m2 h _ C0) as [B1 B2]; [unfold within; intros; lia|].
  pose proof (tail_built m2 (h + 12) _ B1 B2 ltac:(lia) (aux_words false)) as G. cbv zeta in G.
  change (alen (auxv_of false phdr phnum entry at_base random)) with 6 in G.
  destruct G as (C & P1 & P2 & W); [lia|]. unfold block_built, entry_places, entry_words.
  assert (K : forall i w, [alen argv; h + 12; h + 12 + 4 * alen argv + 4] !! i = Some w -> load32 m2 (h + 4 * Z.of_nat i) = w) by done.
  pose proof (K 0%nat _ eq_refl) as K0. pose proof (K 1%nat _ eq_refl) as K1. pose proof (K 2%nat _ eq_refl) as K2.
  replace (h + 4 * Z.of_nat 0) with h in K0 by lia. replace (h + 4 * Z.of_nat 1) with (h + 4) in K1 by lia.
  replace (h + 4 * Z.of_nat 2) with (h + 8) in K2 by lia.
  split_and!; try done; try lia.
  - eapply confined_trans; [eapply confined_mono; [|exact C0]|eapply confined_mono; [|exact C]]; unfold within; intros; lia.
  - rewrite (confined_load32 _ _ _ _ C) by (unfold within; intros; lia). exact K0.
  - intros _. rewrite !(confined_load32 _ _ _ _ C) by (unfold within; intros; lia). done.
Qed.

Lemma entry_room (fdpic : bool) m2 :
  (if fdpic then stack_fdpic m1 stack args envs random (length argv) (length envp) fuel phdr phnum entry at_base
   else stack_flat m1 stack args envs random (length argv) (length envp) fuel) = (None, m2) ->
  size < bytes + 16 + 4 * entry_words fdpic (alen argv) (alen envp) + 7.
Proof.
  assert (Hc : 0 <= alen argv /\ 0 <= alen envp) by (unfold alen; lia). unfold LXP_EXEC_MAXARGS, LXP_EXEC_MAXENVS in *.
  unfold stack_fdpic, stack_flat, entry_words. fold (alen argv) (alen envp). cbv zeta.
  destruct fdpic; intros H.
  - destruct (header_spec (1 + alen argv + 1 + alen envp + 1 + 16)) as [_ Hh]; [lia|done|].
    destruct (Z.ltb_spec (Z.land (u32 (random - (1 + alen argv + 1 + alen envp + 1 + 16) * 4)) (Z.lxor 0xffffffff 7)) stack); [|done].
    unfold random, args in *. lia.
  - destruct (header_spec (3 + alen argv + 1 + alen envp + 1 + 6)) as [_ Hh]; [lia|done|].
    destruct (Z.ltb_spec (Z.land (u32 (random - (3 + alen argv + 1 + alen envp + 1 + 6) * 4)) (Z.lxor 0xffffffff 7)) stack); [|done].
    unfold random, args in *. lia.
Qed.
End Blocks.
End StackProof.

(** C31: the initial stack of a program either reads back as what was asked for, from an
    8-byte aligned stack pointer and with no byte below it touched: the argument count, the
    argument and environment vectors with their strings, the auxiliary vector with 16 bytes
    of host entropy; or it is refused because a vector is too long, the host has no entropy
    or the stack is too small. *)
Theorem setup_stack_reads_back random_fill m stack size argv envp fdpic phdr phnum entry at_base :
  Forall is_text argv -> Forall is_text envp -> 512 <= stack -> 0 <= size -> stack + size <= 2 ^ 32 ->
  (forall bs, random_fill 16 = Some bs -> alen bs = 16) -> Forall (fun w => 0 <= w < 2 ^ 32) [phdr; phnum; entry; at_base] ->
  match lxp_setup_stack random_fill m stack size (Some argv) envp fdpic phdr phnum entry at_base with
  | (Some sp, m') =>
      let '(av, ev, aux) := entry_places fdpic sp (alen argv) (alen envp) in
      sp mod 8 = 0 /\ stack <= sp /\ confined (within sp (stack + size - sp)) m m' /\
      load32 m' sp = alen argv /\ (fdpic = false -> load32 m' (sp + 4) = av /\ load32 m' (sp + 8) = ev) /\
      vector_at m' av argv /\ vector_at m' ev envp /\
      exists random bs, words_at m' aux (auxv_of fdpic phdr phnum entry at_base random) /\
        random_fill 16 = Some bs /\ mem_read m' random 16 = map u8 bs
  | (None, _) =>
      alen argv > LXP_EXEC_MAXARGS \/ alen envp > LXP_EXEC_MAXENVS \/ random_fill 16 = None \/
      size < strings_size argv + strings_size envp + 16 + 4 * entry_words fdpic (alen argv) (alen envp) + 7
  end.
Proof.
  intros Ht Hte Hst Hsz Hhi Hrnd Haux. unfold lxp_setup_stack.
  pose proof (strings_size_nonneg argv) as N1. pose proof (strings_size_nonneg envp) as N2.
  assert (Hc : 0 <= alen argv /\ 0 <= alen envp) by (unfold alen; lia).
  destruct (Z.eqb_spec stack 0); [lia|]. cbn [orb]. rewrite !Z.gtb_ltb.
  destruct (Z.ltb_spec LXP_EXEC_MAXARGS (alen argv)); [left; lia|]. destruct (Z.ltb_spec LXP_EXEC_MAXENVS (alen envp)); [right; left; lia|].
  cbn [orb]. destruct (stack_strings random_fill m stack size argv envp) as [r m1] eqn:Es.
  pose proof (stack_strings_spec _ _ _ _ _ _ Ht Hte Hrnd _ _ Es) as G. destruct r as [[[a e] rd]|].
  2:{ destruct G as [G|G]; [|by right; right; left]. right. right. right. unfold entry_words. destruct fdpic; lia. }
  destruct G as (-> & -> & -> & Hr & C & B1 & B2 & bs & Eb & Hbs). cbv zeta.
  set (fuel := Z.to_nat _). assert (Hf : Z.of_nat fuel = strings_size argv + strings_size envp) by (unfold fuel; lia).
  destruct (if fdpic then _ else _) as [[sp|] m'] eqn:E.
  2:{ right. right. right. eapply entry_room; [..|exact E]; done. }
  assert (Hb : block_built stack size argv envp phdr phnum entry at_base fdpic m1 sp m').
  { destruct fdpic; [eapply stack_fdpic_built|eapply stack_flat_built]; try exact E; done. }
  unfold block_built in Hb. unfold entry_places in *. destruct Hb as (H8 & Hsp & Hend & C2 & Hac & Hfl & P1 & P2 & W).
  assert (Hw : 0 <= entry_words fdpic (alen argv) (alen envp)) by (unfold entry_words; destruct fdpic; lia).
  split_and!; try done.
  - eapply confined_trans; [eapply confined_mono; [|exact C]|eapply confined_mono; [|exact C2]]; unfold within; intros; lia.
  - eapply pointers_vector; [exact P1|]. eapply block_keep; [exact C2| |exact B1]. unfold within. intros. lia.
  - eapply pointers_vector; [exact P2|]. eapply block_keep; [exact C2| |exact B2]. unfold within. intros. lia.
  - eexists _, bs. split_and!; [exact W|done|]. rewrite <- Hbs. eapply confined_mem_read; [exact C2|]. unfold within. intros. lia.
Qed.

(** ** The archive *)

(** Eight hexadecimal digits of a 32-bit number, in either case. *)
Definition hex_digit (upper : bool) (d : Z) : Z := if d <? 10 then 48 + d else (if upper then 65 else 97) + (d - 10).
Definition hex8 (upper : bool) (v : Z) : list Z := map (fun i => hex_digit upper (v / 16 ^ i mod 16)) [7; 6; 5; 4; 3; 2; 1; 0].

(** A member as a newc archiver writes it.  The fields the loader does not read are any
    bytes: the inode; the owner, group, link count and time; the device numbers; the checksum. *)
Record member := mk_member {
  mb_name : list Z; mb_mode : Z; mb_data : list Z; mb_upper : bool;
  mb_ino : list Z; mb_owner : list Z; mb_devices : list Z; mb_check : list Z }.
Definition pad4 (n : Z) : list Z := replicate (Z.to_nat ((- n) mod 4)) 0.
Definition member_header (e : member) : list Z :=
  let hex := hex8 (mb_upper e) in
  cpio_magic ++ mb_ino e ++ hex (mb_mode e) ++ mb_owner e ++ hex (alen (mb_data e)) ++ mb_devices e ++ hex (alen (mb_name e) + 1) ++ mb_check e.
Definition member_bytes (e : member) : list Z :=
  member_header e ++ (mb_name e ++ [0]) ++ pad4 (110 + alen (mb_name e) + 1) ++ mb_data e ++ pad4 (alen (mb_data e)).

(** The members, the trailer [t], and whatever an archiver pads its last block with. *)
Definition cpio_archive (es : list member) (t : member) (padding : list Z) : list Z :=
  concat (map member_bytes es) ++ member_bytes t ++ padding.

(** A header: a C string for the name, a 32-bit mode, and the widths of the other fields. *)
Definition header_ok (e : member) : Prop :=
  is_text (mb_name e) /\ 0 <= mb_mode e < 2 ^ 32 /\
  alen (mb_ino e) = 8 /\ alen (mb_owner e) = 32 /\ alen (mb_devices e) = 32 /\ alen (mb_check e) = 8.

Definition file_of (e : member) : lxp_file :=
  mk_file (47 :: cpio_relative (mb_name e)) (match mb_data e with [] => None | d => Some d end) (alen (mb_data e)) (mb_mode e).

Definition member_ok (e : member) : Prop := header_ok e /\ mb_name e <> cpio_trailer.
Definition trailer_ok (t : member) : Prop := header_ok t /\ mb_name t = cpio_trailer.

(** Bytes of the name buffer a list of members takes. *)
Definition names_size (es : list member) : Z := fold_right (fun e n => 2 + alen (cpio_relative (mb_name e)) + n) 0 es.

Lemma cpio_hex_digit u d : 0 <= d < 16 -> cpio_digit (hex_digit u d) = d.
Proof.
  intros H. assert (Hd : d ∈ seqZ 0 16) by (apply elem_of_seqZ; lia). clear H. revert d Hd. apply Forall_forall.
  destruct u; vm_compute; repeat constructor.
Qed.

Lemma hex_step v d : 0 <= v < 2 ^ 28 -> 0 <= d < 16 -> Z.lor (u32 (Z.shiftl v 4)) d = 16 * v + d.
Proof.
  intros Hv Hd. rewrite Z.shiftl_mul_pow2 by lia. rewrite u32_small by lia.
  rewrite Z.lor_comm, <- Z.shiftl_mul_pow2 by lia. rewrite lor_shift_add by lia. lia.
Qed.

Lemma hex_fold u ds v k :
  Forall (fun d => 0 <= d < 16) ds -> 0 <= k -> k + alen ds <= 8 -> 0 <= v < 16 ^ k ->
  fold_left (fun value c => Z.lor (u32 (Z.shiftl value 4)) (cpio_digit c)) (map (hex_digit u) ds) v = fold_left (fun v d => 16 * v + d) ds v.
Proof.
  intros Hd. revert v k. induction Hd as [|d ds Hd Hds IH]; intros v k Hk Hl Hv; [done|]. cbn [map fold_left].
  assert (Hal : 0 <= alen ds /\ alen (d :: ds) = 1 + alen ds) by (unfold alen; simpl; lia).
  assert (Hp : 16 ^ k <= 2 ^ 28) by (change (2 ^ 28) with (16 ^ 7); apply Z.pow_le_mono_r; lia).
  rewrite cpio_hex_digit, hex_step by lia. apply (IH _ (k + 1)); [lia|lia|]. rewrite Z.pow_add_r by lia. lia.
Qed.

Lemma cpio_hex_hex8 u v r : 0 <= v < 2 ^ 32 -> cpio_hex (hex8 u v ++ r) = v.
Proof.
  intros Hv. unfold cpio_hex. rewrite take_app_le by done. unfold hex8. rewrite <- (map_map _ (hex_digit u)).
  change (take 8 (map (hex_digit u) ?l)) with (map (hex_digit u) l).
  rewrite (hex_fold u _ 0 0); [|apply Forall_forall; intros d [i [-> _]]%list_elem_of_fmap; apply Z.mod_pos_bound; lia|done|done|done].
  cbn [map fold_left]. change (16 ^ 7) with 268435456. change (16 ^ 6) with 16777216. change (16 ^ 5) with 1048576.
  change (16 ^ 4) with 65536. change (16 ^ 3) with 4096. change (16 ^ 2) with 256. change (16 ^ 1) with 16. change (16 ^ 0) with 1.
  lia.
Qed.

Lemma bytes_from_app a b p : p = alen a -> bytes_from (a ++ b) p = b.
Proof. intros ->. unfold bytes_from, alen. by rewrite Nat2Z.id, drop_app_length. Qed.

Lemma cstr_text s r : is_text s -> cstr (s ++ 0 :: r) = s.
Proof.
  intros Ht. induction Ht as [|c s Hc Ht IH]; [done|]. simpl. destruct (Z.eqb_spec c 0); [lia|]. by rewrite IH.
Qed.

Lemma align4_spec n : 0 <= n < 2 ^ 32 - 4 -> align4 n = n + (- n) mod 4.
Proof.
  intros H. unfold align4. rewrite u32_small by lia. change (Z.lxor 0xffffffff 3) with (Z.ones 32 - Z.ones 2).
  rewrite land_mask_down by lia. lia.
Qed.

Lemma alen_pad4 n : alen (pad4 n) = (- n) mod 4.
Proof. unfold pad4, alen. rewrite length_replicate. lia. Qed.

Lemma alen_app {A} (a b : list A) : alen (a ++ b) = alen a + alen b.
Proof. unfold alen. rewrite length_app. lia. Qed.

Lemma alen_header e : header_ok e -> alen (member_header e) = 110.
Proof.
  intros (_ & _ & H1 & H2 & H3 & H4). unfold member_header. cbv zeta. rewrite !alen_app, H1, H2, H3, H4. done.
Qed.

(** Skipping what comes before. *)
Lemma bytes_from_skip a b p n : alen a = n -> n <= p -> bytes_from (a ++ b) p = bytes_from b (p - n).
Proof.
  intros <- H. unfold bytes_from, alen in *. rewrite drop_app_ge by lia. f_equal. lia.
Qed.

Ltac skip_field := rewrite (bytes_from_skip cpio_magic _ _ 6) || rewrite (bytes_from_skip (hex8 _ _) _ _ 8) ||
  rewrite (bytes_from_skip (mb_ino _) _ _ 8) || rewrite (bytes_from_skip (mb_check _) _ _ 8) ||
  rewrite (bytes_from_skip (mb_owner _) _ _ 32) || rewrite (bytes_from_skip (mb_devices _) _ _ 32); [|done|lia].

(** The fields of a member's header. *)
Lemma header_fields e r :
  let h := member_header e ++ r in
  header_ok e -> alen (mb_data e) < 2 ^ 32 -> alen (mb_name e) + 1 < 2 ^ 32 ->
  take 6 h = cpio_magic /\ cpio_hex (bytes_from h 14) = mb_mode e /\ cpio_hex (bytes_from h 54) = alen (mb_data e) /\
  cpio_hex (bytes_from h 94) = alen (mb_name e) + 1 /\ bytes_from h 110 = r.
Proof.
  intros h (_ & Hm & F1 & F2 & F3 & F4) Hd Hn. assert (0 <= alen (mb_data e) /\ 0 <= alen (mb_name e)) by (unfold alen; lia).
  unfold h, member_header. cbv zeta. rewrite <- !app_assoc. split; [done|].
  assert (Hz : forall l, bytes_from l 0 = l) by done. split_and!.
  - do 2 skip_field. rewrite Hz. by apply cpio_hex_hex8.
  - do 4 skip_field. rewrite Hz. apply cpio_hex_hex8. lia.
  - do 6 skip_field. rewrite Hz. apply cpio_hex_hex8. lia.
  - do 8 skip_field. by rewrite Hz.
Qed.

Lemma alen_member e : header_ok e -> alen (member_bytes e) =
  110 + alen (mb_name e) + 1 + (- (110 + alen (mb_name e) + 1)) mod 4 + alen (mb_data e) + (- alen (mb_data e)) mod 4.
Proof. intros H. unfold member_bytes. rewrite !alen_app, !alen_pad4, alen_header by done. change (alen [0]) with 1. lia. Qed.

(** The checks pass at a member, and its fields are found. *)
Lemma member_found pre e post :
  header_ok e -> alen pre mod 4 = 0 -> alen (pre ++ member_bytes e ++ post) < 2 ^ 32 - 4 ->
  cpio_member (pre ++ member_bytes e ++ post) (alen pre) =
  if bool_decide (mb_name e = cpio_trailer) then CpioEnd
  else CpioFile (file_of e) (alen (cpio_relative (mb_name e))) (alen (pre ++ member_bytes e)).
Proof.
  intros Ht H4 Hlen. pose proof (alen_member e Ht) as Hmb. pose proof (alen_header e Ht) as Hhl.
  set (name := mb_name e) in *. set (data := mb_data e) in *.
  assert (Hpos : 0 <= alen pre /\ 0 <= alen name /\ 0 <= alen data /\ 0 <= alen post) by (unfold alen; lia).
  assert (Hcpio : alen (pre ++ member_bytes e ++ post) = alen pre + alen (member_bytes e) + alen post) by (rewrite !alen_app; lia).
  set (rest := data ++ pad4 (alen data) ++ post).
  destruct (header_fields e ((name ++ [0]) ++ pad4 (110 + alen name + 1) ++ rest)) as (F1 & F2 & F3 & F4 & F5);
    [done|fold data; lia|fold name; lia|]. fold name data in F3, F4.
  assert (Hh : bytes_from (pre ++ member_bytes e ++ post) (alen pre) = member_header e ++ (name ++ [0]) ++ pad4 (110 + alen name + 1) ++ rest).
  { rewrite bytes_from_app by done. unfold member_bytes, rest. fold name data. by rewrite <- !app_assoc. }
  assert (Hd : bytes_from (pre ++ member_bytes e ++ post) (alen pre + (110 + alen name + 1 + (- (110 + alen name + 1)) mod 4)) = rest).
  { rewrite (bytes_from_skip pre _ _ (alen pre)) by (done || lia). unfold member_bytes, rest. fold name data. rewrite <- !app_assoc.
    rewrite (app_assoc name), (app_assoc (name ++ [0])), (app_assoc (member_header e)). apply bytes_from_app.
    rewrite !alen_app, alen_pad4, Hhl. change (alen [0]) with 1. lia. }
  unfold cpio_member. cbv zeta. rewrite Hh, F1, F2, F3, F4, F5, Hcpio. rewrite bool_decide_true by done. cbn [negb].
  rewrite (u32_small (_ + _ + _)), Z.gtb_ltb by lia.
  destruct (Z.ltb_spec (alen pre + alen (member_bytes e) + alen post) (alen pre + 110 + (alen name + 1))); [lia|].
  assert (Hnul : aget 0 (member_header e ++ (name ++ [0]) ++ pad4 (110 + alen name + 1) ++ rest) (110 + (alen name + 1 - 1)) = 0).
  { assert (Hl : length (member_header e) = 110%nat) by (unfold alen in Hhl; lia).
    unfold aget. replace (Z.to_nat _) with (length (member_header e) + length name)%nat by (rewrite Hl; unfold alen; lia).
    rewrite app_nth2_plus, <- app_assoc. cbn [app]. apply nth_middle. }
  rewrite Hnul. destruct (Z.eqb_spec (alen name + 1) 0); [lia|]. cbn [orb negb Z.eqb].
  rewrite <- app_assoc. cbn [app]. rewrite cstr_text by apply Ht. case_bool_decide; [done|].
  rewrite (align4_spec (_ + _ + _)) by lia.
  assert (Hoff : alen pre + 110 + (alen name + 1) + (- (alen pre + 110 + (alen name + 1))) mod 4 =
                 alen pre + (110 + alen name + 1 + (- (110 + alen name + 1)) mod 4)) by lia.
  rewrite Hoff, Hd. rewrite (u32_small (_ + alen data)), (align4_spec (_ + alen data)), Z.gtb_ltb by lia.
  destruct (Z.ltb_spec (alen pre + alen (member_bytes e) + alen post)
    (alen pre + (110 + alen name + 1 + (- (110 + alen name + 1)) mod 4) + alen data)); [lia|]. rewrite andb_false_r.
  unfold file_of. fold name data. f_equal; [|rewrite alen_app; lia]. f_equal. unfold rest, alen. rewrite Nat2Z.id, take_app_length.
  destruct data as [|x data]; [done|]. by destruct (Z.eqb_spec (Z.of_nat (length (x :: data))) 0).
Qed.

Lemma names_size_nonneg es : 0 <= names_size es.
Proof. induction es; simpl; unfold alen in *; lia. Qed.

Lemma cpio_reads room pre es t padding nb used out :
  Forall member_ok es -> trailer_ok t -> (length es <= room)%nat -> used + names_size es <= nb -> alen pre mod 4 = 0 ->
  alen (pre ++ cpio_archive es t padding) < 2 ^ 32 - 4 ->
  cpio_loop room (pre ++ cpio_archive es t padding) nb (alen pre) used out = Some (out ++ map file_of es).
Proof.
  intros Hok [Htr Htn]. revert room pre used out. induction Hok as [|e es [He Hnt] Hok IH]; intros room pre used out Hr Hn H4 Hlen.
  - unfold cpio_archive in *. cbn [map concat app]. cbn [map concat app] in Hlen. rewrite app_nil_r.
    pose proof (member_found pre t padding Htr H4 Hlen) as F. rewrite bool_decide_true in F by done.
    destruct room; cbn [cpio_loop]; rewrite F; by destruct (_ <=? _).
  - unfold cpio_archive in *. cbn [map concat] in *. rewrite <- app_assoc in *. set (rest := concat _ ++ _ ++ _) in *.
    destruct room as [|room]; [simpl in Hr; lia|]. cbn [cpio_loop]. simpl in Hn.
    rewrite (member_found pre e rest He H4 Hlen), bool_decide_false by done. pose proof (alen_member e He) as Hm.
    pose proof (names_size_nonneg es) as Hne. rewrite !alen_app in Hlen.
    assert (0 <= alen pre /\ 0 <= alen (mb_name e) /\ 0 <= alen (mb_data e) /\ 0 <= alen rest) by (unfold alen; lia).
    rewrite u32_small by lia. destruct (Z.leb_spec (alen pre + 110) (alen (pre ++ member_bytes e ++ rest))); [|rewrite !alen_app in *; lia].
    rewrite Z.gtb_ltb. destruct (Z.ltb_spec nb (used + 2 + alen (cpio_relative (mb_name e)))); [lia|].
    rewrite (app_assoc pre). unfold rest in *. rewrite IH; [by rewrite <- app_assoc|simpl in Hr; lia|lia|rewrite alen_app; lia|].
    rewrite <- app_assoc, !alen_app in *. lia.
Qed.

(** C33: an archive is read back as it was written: a table with one entry for each member in
    order, with its path made absolute, its mode and its bytes.  The archive is any newc archive
    shorter than 2^32 - 4 bytes: members with C strings for names and 32-bit modes, in lower or
    upper case digits, whatever the header fields the loader does not read hold (inode, owner,
    group, links, time, devices, checksum), ended by a trailer and any padding after it; the
    table has an entry for each member, and the name buffer room for each path with its slash
    and its NUL. *)
Theorem cpio_archive_reads_back es t padding max nb :
  Forall member_ok es -> trailer_ok t -> alen es <= max -> names_size es <= nb -> alen (cpio_archive es t padding) < 2 ^ 32 - 4 ->
  lxp_cpio_to_rootfs (cpio_archive es t padding) max nb = Some (map file_of es).
Proof.
  intros Hok Ht Hm Hn Hl. unfold lxp_cpio_to_rootfs.
  apply (cpio_reads _ [] es t padding nb 0 []); [done|done|unfold alen in Hm; lia|lia|done|done].
Qed.

(** ** Scripts *)

Definition is_token (s : list Z) : Prop :=
  s <> [] /\ alen s < LXP_SCRIPT_TOKEN_CAPACITY /\ Forall (fun c => is_blank c = false /\ c <> 10) s.

Lemma copy_token_spec s r : is_token s -> (r = [] \/ exists c t, r = c :: t /\ (is_blank c = true \/ c = 10)) ->
  copy_token LXP_SCRIPT_TOKEN_CAPACITY (s ++ r) = inr (s, r).
Proof.
  intros (Hne & Hl & Hc) Hr.
  assert (G : forall d, alen d + alen s < LXP_SCRIPT_TOKEN_CAPACITY -> copy_token_loop LXP_SCRIPT_TOKEN_CAPACITY (s ++ r) d = inr (d ++ s, r)).
  { clear Hne Hl. induction Hc as [|c s [Hb Hn] Hs IH]; intros d Hd; cbn [app copy_token_loop].
    - rewrite app_nil_r. destruct Hr as [->|(c & t & -> & [Hb| ->])]; [done| |]; cbn [copy_token_loop]; [by rewrite Hb|done].
    - rewrite Hb. destruct (Z.eqb_spec c 10); [done|]. cbn [orb].
      assert (Hcs : alen (c :: s) = 1 + alen s /\ 0 <= alen s) by (unfold alen; simpl; lia).
      rewrite Z.geb_leb. destruct (Z.leb_spec LXP_SCRIPT_TOKEN_CAPACITY (alen d + 1)); [lia|].
      rewrite IH; [by rewrite <- app_assoc|]. rewrite alen_app. change (alen [c]) with 1. lia. }
  unfold copy_token. rewrite (G []) by (change (alen []) with 0; lia). destruct s; [done|]. done.
Qed.

Lemma skip_blank_token n s r : is_token s -> skip_blank (replicate n 32 ++ s ++ r) = s ++ r.
Proof.
  intros (Hne & _ & Hc). induction n as [|n IH]; simpl; [|done].
  destruct s as [|c s]; [done|]. inversion Hc as [|? ? [Hb _] _]; subst. simpl. by rewrite Hb.
Qed.

(** The line [#! interp arg] of a script. *)
Lemma script_line_parses n k interp arg rest : is_token interp -> is_token arg ->
  lxp_script_parse (Some (35 :: 33 :: replicate n 32 ++ interp ++ replicate (S k) 32 ++ arg ++ 10 :: rest)) =
  inr (LXP_SCRIPT_PRESENT, mk_script interp arg true).
Proof.
  intros Hi Ha. cbn [lxp_script_parse]. rewrite skip_blank_token by done.
  rewrite copy_token_spec; [|done|right; eexists 32, _; split; [done|by left]].
  rewrite (skip_blank_token (S k)) by done. cbv zeta.
  rewrite (copy_token_spec arg) by (done || (right; eexists 10, _; split; [done|by right])).
  destruct Ha as (Hne & _ & Hc). destruct arg as [|c arg]; [done|]. inversion Hc as [|? ? [Hb Hn] _]; subst. cbn [app].
  by destruct (Z.eqb_spec c 10).
Qed.

(** ** A program's start *)

Definition demo_random (n : Z) : option (list Z) := Some (replicate (Z.to_nat n) 7).

Lemma setup_stack_reads_back_witness :
  exists sp m', lxp_setup_stack demo_random (fun _ => 0) 0x1000 0x400 (Some [[115; 104]; [45; 99]]) [[65; 61; 49]] true 0x2000 3 0x2001 0 =
      (Some sp, m') /\ load32 m' sp = 2 /\ vector_at m' (sp + 4) [[115; 104]; [45; 99]].
Proof.
  assert (Hs : (lxp_setup_stack demo_random (fun _ => 0) 0x1000 0x400 (Some [[115; 104]; [45; 99]]) [[65; 61; 49]] true 0x2000 3 0x2001 0).1
               <> None) by (vm_compute; discriminate).
  pose proof (setup_stack_reads_back demo_random (fun _ => 0) 0x1000 0x400 [[115; 104]; [45; 99]] [[65; 61; 49]] true 0x2000 3 0x2001 0) as G.
  destruct (lxp_setup_stack _ _ _ _ _ _ _ _ _ _ _) as [[sp|] m']; [|done].
  destruct G as (_ & _ & _ & G1 & _ & G2 & _); [repeat constructor; lia..|lia|lia|lia| |repeat constructor; lia|].
  - by intros bs [= <-].
  - by exists sp, m'.
Defined.

(** A resolved initial program is a runnable file with a non-empty argument vector in bounds,
    which ends in the caller's own arguments. *)
Lemma initial_resolve_runs fs path argv img :
  lxp_initial_resolve fs path argv = inr img ->
  runnable_file fs (ii_file_index img) = true /\ 1 <= alen (ii_argv img) <= LXP_EXEC_MAXARGS /\
  exists front, ii_argv img = front ++ tail argv /\ front <> [].
Proof.
  intros H. unfold lxp_initial_resolve in H. destruct (_ || _) eqn:E1; [done|].
  apply orb_false_iff in E1 as [E1%Z.ltb_ge E2]. rewrite Z.gtb_ltb, Z.ltb_ge in E2.
  destruct (runnable_file fs _) eqn:Er; [|done]. cbn [negb] in H.
  destruct (lxp_script_parse _) as [|[[] sc]]; [done| |].
  - injection H as <-. cbn. split_and!; [done|lia..|]. destruct argv as [|a argv]; [unfold alen in E1; simpl in E1; lia|].
    by exists [a].
  - destruct (lxp_resolve_path_trusted _ _) as [|interp]; [done|]. destruct (runnable_file fs _) eqn:Er' in H; [|done]. cbn [negb] in H.
    rewrite Z.gtb_ltb in H. set (prefix := _ :: _) in H. destruct (Z.ltb_spec LXP_EXEC_MAXARGS (alen prefix + (alen argv - 1))); [done|].
    injection H as <-. cbn [ii_file_index ii_argv]. split; [done|]. split.
    + destruct argv as [|a argv]; [unfold alen in E1; simpl in E1; lia|]. unfold prefix, alen in *. simpl in *.
      rewrite !length_app in *. simpl in *. lia.
    + by exists prefix.
Qed.

(** One link, a time, and a device number, as an archiver fills them in. *)
Definition demo_member (upper : bool) (name : list Z) (mode : Z) (data : list Z) : member :=
  mk_member name mode data upper (hex8 upper 0x2af) (hex8 upper 1000 ++ hex8 upper 1000 ++ hex8 upper 1 ++ hex8 upper 0x66f0a1bc)
    (hex8 upper 8 ++ hex8 upper 1 ++ hex8 upper 0 ++ hex8 upper 0) (hex8 upper 0).
Definition demo_members : list member := [demo_member true [46; 47; 97] 0x81ed [127; 69; 76]; demo_member false [98] 0x41ed []].
Definition demo_trailer : member := demo_member true cpio_trailer 0 [].

Lemma cpio_archive_reads_back_witness :
  lxp_cpio_to_rootfs (cpio_archive demo_members demo_trailer (replicate 20 0)) 4 64 = Some (map file_of demo_members) /\
  map file_of demo_members = [mk_file [47; 97] (Some [127; 69; 76]) 3 0x81ed; mk_file [47; 98] None 0 0x41ed].
Proof.
  split; [|done]. apply cpio_archive_reads_back; [| |by vm_compute..].
  - repeat constructor; try lia; done.
  - split; [|done]. repeat constructor; try lia; done.
Defined.
