(* ===== verification/Image.v ===== *)
(** * Building a program image (src/run/lxp_image.c, the slot operations of src/lxp_run.c it
      ends in)

    The transaction initial launch and exec share: an image is loaded into a leased region
    and its process objects are built off-slot; publication moves them into the slot; the
    native task starts last.  Until then the transaction owns everything, and one abort
    gives it back.  The transaction's [prog] record is local to its preparation; the
    debugger's copy of the load addresses is left out. *)

From S2P Require Import Prelude Config Errno Path Proc Pool Fd Guest Wait Pipe Arena Process Runtime Event Region Lifecycle.
From S2P Require Import Signal SysSignal Child SignalRoute Exit Console Blocked Fork.
From S2P Require Import Loader Bootstrap.
Local Open Scope Z_scope.

Definition LXP_PROG_REGION_SIZE : Z := 0x40000.
Definition LXP_PROG_ARENA_SIZE : Z := 0x18000.
Definition LXP_EXEC_ARGBUF : Z := 3072.
Definition LXP_EXEC_ENVBUF : Z := 1024.

(** The captured vectors of an execve (include/lxp/lxp_exec.h): offsets into byte buffers. *)
Record lxp_exec_capture := mk_capture {
  ec_argc : Z; ec_argv : list Z; ec_argv_buf : list Z; ec_envc : Z; ec_env : list Z; ec_env_buf : list Z;
}.
Definition capture_zero : lxp_exec_capture :=
  mk_capture 0 (replicate (Z.to_nat LXP_EXEC_MAXARGS) 0) (replicate (Z.to_nat LXP_EXEC_ARGBUF) 0)
    0 (replicate (Z.to_nat LXP_EXEC_MAXENVS) 0) (replicate (Z.to_nat LXP_EXEC_ENVBUF) 0).

(** [memset] of the capture a pointer names. *)
Definition clear_capture (caps : list lxp_exec_capture) (i : option Z) : list lxp_exec_capture :=
  match i with Some i => aset caps i capture_zero | None => caps end.

(** The run's configuration: the root file table, where each file's bytes lie, the console. *)
Record lxp_run_config := mk_config {
  cf_rootfs : list lxp_file; cf_image : Z -> Z;
  cf_write : Z; cf_read : Z; cf_poll : Z; cf_ctx : Z; cf_rootfs_ptr : Z;
}.
(** [cfg->rootfs[idx].data], zero for NULL. *)
Definition rootfs_data (cfg : lxp_run_config) (idx : Z) : Z :=
  match f_data (aget no_file (cf_rootfs cfg) idx) with Some _ => cf_image cfg idx | None => 0 end.
Definition rootfs_size (cfg : lxp_run_config) (idx : Z) : Z := f_size (aget no_file (cf_rootfs cfg) idx).

Record image_txn := mk_image {
  it_proc : lxp_proc; it_owner : lxp_ref; it_region : lxp_ref; it_launch : lxp_guest_launch; it_slot : Z;
  it_prepared : bool; it_executable_published : bool; it_published : bool; it_native_started : bool; it_region_committed : bool;
}.
Definition set_it_proc t p := mk_image p (it_owner t) (it_region t) (it_launch t) (it_slot t)
  (it_prepared t) (it_executable_published t) (it_published t) (it_native_started t) (it_region_committed t).
Definition set_it_ready t p l := mk_image p (it_owner t) (it_region t) l (it_slot t)
  true (it_executable_published t) (it_published t) (it_native_started t) (it_region_committed t).
Definition set_it_flags t e p n r := mk_image (it_proc t) (it_owner t) (it_region t) (it_launch t) (it_slot t)
  (it_prepared t) e p n r.

(** A process record with no snapshot and no vfork parent. *)
Definition proc_blank : lxp_proc := set_p_vfork_parent (set_p_snapshot proc_zero lxp_region_ref_none) lxp_slot_ref_none.

Definition lxp_image_txn_init (slot : Z) (region owner : lxp_ref) : image_txn :=
  mk_image proc_blank owner region launch_zero slot false false false false false.

(** ** Loading the program and its interpreter *)

(** "/lib/ld-uClibc.so.0" *)
Definition LXP_FALLBACK_INTERP : list Z :=
  [47; 108; 105; 98; 47; 108; 100; 45; 117; 67; 108; 105; 98; 99; 46; 115; 111; 46; 48].

Definition round16 (n : Z) : Z := Z.land (u32 (n + 15)) (Z.lxor 0xffffffff 15).

(** What the loads leave: the program, the first pc, and what the interpreter adds. *)
Record loaded_image := mk_loaded {
  li_prog : lxp_flat; li_dynamic : bool; li_pc : Z; li_at_base : Z; li_interp_loadmap : Z; li_got : Z; li_region_used : Z;
}.

Definition is_elf (m : mem) (data len : Z) : bool :=
  (len >=? 4) && (load8 m data =? 0x7f) && (load8 m (data + 1) =? 69) && (load8 m (data + 2) =? 76) &&
  (load8 m (data + 3) =? 70).

(** The interpreter of a dynamic program, loaded behind it; the string [interp] lies inside
    the image, whose length bounds its scan. *)
Definition load_interp (fuel : nat) (cfg : lxp_run_config) (m : mem) (region len : Z) (prog : lxp_flat)
    : option ((Z + loaded_image) * mem) :=
  let interp := if negb (pg_interp prog =? 0) then cstr (mem_read m (pg_interp prog) (Z.to_nat len)) else LXP_FALLBACK_INTERP in
  let idx := lxp_rootfs_resolve_index (Some (cf_rootfs cfg)) (Some interp) in
  if (idx <? 0) || (rootfs_data cfg idx =? 0) then Some (inl (- LXP_ENOEXEC), m)
  else
    let ld_base := region + round16 (pg_region_used prog) in
    match lxp_loader_load_fdpic fuel m (rootfs_data cfg idx) (rootfs_size cfg idx) ld_base
            (u32 (LXP_PROG_REGION_SIZE - (ld_base - region))) true false with
    | None => None
    | Some (rc, Some ld, m) =>
        if negb (rc =? LXP_OK) then Some (inl (- LXP_ENOEXEC), m)
        else Some (inr (mk_loaded prog true (pg_entry ld) (pg_text_base ld) (pg_loadmap ld) (pg_dynamic ld)
                          (ld_base - region + pg_region_used ld)), m)
    | Some (_, None, m) => Some (inl (- LXP_ENOEXEC), m)
    end.

Definition load_program (fuel : nat) (cfg : lxp_run_config) (m : mem) (region data len : Z) (remote_exec : bool)
    : option ((Z + loaded_image) * mem) :=
  if negb (is_elf m data len) then Some (inl (- LXP_ENOEXEC), m)
  else match lxp_loader_load_fdpic fuel m data len region LXP_PROG_REGION_SIZE false remote_exec with
  | None => None
  | Some (rc, Some prog, m) =>
      if negb (rc =? LXP_OK) then Some (inl (- LXP_ENOEXEC), m)
      else if negb (pg_is_fdpic prog =? 0) && pg_is_dynamic prog
      then load_interp fuel cfg m region len prog
      else Some (inr (mk_loaded prog false (pg_entry prog) 0 0 (pg_got prog) (pg_region_used prog)), m)
  | Some (_, None, m) => Some (inl (- LXP_ENOEXEC), m)
  end.

(** argv[0]'s basename without a login shell's dash, cut to 15 bytes. *)
Fixpoint basename (base l : list Z) : list Z :=
  match l with
  | [] => base
  | c :: t => basename (if c =? SLASH then t else base) t
  end.
Definition comm_of (argv : list (list Z)) : list Z :=
  let arg0 := match argv with a :: _ => a | [] => [63] end in
  let arg0 := match arg0 with 45 :: t => t | _ => arg0 end in
  take 15 (basename arg0 arg0).

(** The address space of the image. *)
Definition mm_of_image (x : lxp_mm) (ref : lxp_ref) (region arena_mem arena_size : Z) (li : loaded_image) : lxp_mm :=
  let e := pg_region_exec (li_prog li) in
  mk_mm (mm_refs x) (mm_device_generation x) (mm_exec_generation x) (mm_arena x) (mm_brk_base x) (mm_brk_cur x) (mm_brk_max x)
    ref region (region + LXP_PROG_REGION_SIZE) arena_mem (arena_mem + arena_size) (b2z (li_dynamic li)) (b2z e)
    (if e then pg_text_base (li_prog li) else 0) (if e then pg_text_map_size (li_prog li) else 0)
    (mm_dev_map_lo x) (mm_dev_map_hi x) (mm_dev_map_attrs x).

(** The process record of the image, over the record [lxp_proc_init] made. *)
Definition proc_of_image (cfg : lxp_run_config) (p : lxp_proc) (pid stack_lo is_fdpic : Z) (argv : list (list Z)) : lxp_proc :=
  let p := set_p_write_fn p (cf_write cfg) in
  let p := set_p_read_fn p (cf_read cfg) in
  let p := set_p_console_poll p (cf_poll cfg) in
  let p := set_p_io_ctx p (cf_ctx cfg) in
  let p := set_p_alive (set_p_pid p pid) 1 in
  let p := set_p_stack_lo (set_p_is_fdpic p is_fdpic) stack_lo in
  let p := set_p_vfork_parent (set_p_snapshot p lxp_region_ref_none) lxp_slot_ref_none in
  lxp_proc_set_rootfs (set_p_comm p (comm_of argv)) (cf_rootfs_ptr cfg) (alen (cf_rootfs cfg)).

(** The first registers. *)
Definition launch_of_image (li : loaded_image) (sp : Z) : lxp_guest_launch :=
  let e := pg_region_exec (li_prog li) in
  mk_launch [0; 0; 0; 0; 0; 0; 0; u32 (pg_loadmap (li_prog li)); u32 (li_interp_loadmap li); u32 (li_got li);
             0; 0; 0; u32 sp; 0; u32 (li_pc li)] (Z.shiftl 1 24)
    (if e then pg_text_base (li_prog li) else 0) (if e then pg_text_map_size (li_prog li) else 0).

(** Where the heap and the stack go: the arena's memory and size, and the stack's floor. *)
Definition image_spaces (dyn_pool : option (Z -> Z * Z)) (region region_index : Z) (li : loaded_image) : Z + (Z * Z * Z) :=
  let rw_off := round16 (li_region_used li) in
  if rw_off >? LXP_PROG_REGION_SIZE then inl (- LXP_ENOMEM)
  else
    let rw := region + rw_off in
    if li_dynamic li
    then match dyn_pool with
         | None => inl (- LXP_ENOMEM)
         | Some f => let '(a, n) := f region_index in inr (a, n, rw)
         end
    else if LXP_PROG_ARENA_SIZE >? LXP_PROG_REGION_SIZE - rw_off then inl (- LXP_ENOMEM)
         else inr (rw, LXP_PROG_ARENA_SIZE, rw + LXP_PROG_ARENA_SIZE).

Section Image.
Context {H B : Type} `{FileOps B} (ops : os_task H) (xops : os_exit H).
Context (exec_capture : Z -> option Z) (failpoint : lxp_lifecycle_failpoint -> bool).
(** The host's entropy and its cache maintenance for copied text; the run's configuration. *)
Context (random_fill : Z -> option (list Z)) (publish_executable : H -> lxp_ref -> Z -> Z -> Z * H) (cfg : lxp_run_config).
Implicit Types (c : coord H) (b : B) (t : image_txn).

(** The process objects over a loaded image: heap, record, group, address space, stack. *)
Definition build_process t c b (region pid ppid : Z) (argv envp : list (list Z)) (li : loaded_image) : Z * image_txn * coord H * B :=
  let region_index := ref_index (it_region t) in
  match image_spaces (os_dyn_pool xops) region region_index li with
  | inl e => (e, t, c, b)
  | inr (arena_mem, arena_size, stack_lo) =>
      match lxp_region_arena (c_rt c) region_index with
      | None => (- LXP_ENOMEM, t, c, b)
      | Some A =>
          let '(rc, m, A) := lxp_arena_init (rt_mem (c_rt c)) A arena_mem arena_size in
          let c := set_c_rt c (put_arena (set_rt_mem (c_rt c) m) region_index A) in
          if negb (rc =? LXP_OK) then (- LXP_ENOMEM, t, c, b)
          else
            let '(rc, k, b, m, A, p) := lxp_proc_init (rt_k (c_rt c)) b (rt_mem (c_rt c)) A region_index 0x8000 in
            let c := set_c_rt c (put_arena (set_rt_mem (set_rt_k (c_rt c) k) m) region_index A) in
            let t := set_it_proc t p in
            if negb (rc =? 0) then (- LXP_ENOMEM, t, c, b)
            else match p_group p, p_mm p with
            | Some gi, Some mi =>
                let g := group_at c gi in
                let c := put_group c gi (set_tg_pgid (set_tg_ppid (set_tg_tgid g pid) ppid) pid) in
                let k := rt_k (c_rt c) in
                let c := set_c_rt c (set_rt_k (c_rt c) (set_k_mm k (aset (k_mm k) mi
                           (mm_of_image (item (k_mm k) mi) (it_region t) region arena_mem arena_size li)))) in
                let p := proc_of_image cfg p pid stack_lo (pg_is_fdpic (li_prog li)) argv in
                let t := set_it_proc t p in
                let prog := li_prog li in
                let '(sp, m) := lxp_setup_stack random_fill (rt_mem (c_rt c)) stack_lo (region + LXP_PROG_REGION_SIZE - stack_lo)
                                  (Some argv) envp (negb (pg_is_fdpic prog =? 0)) (pg_phdr prog) (pg_phnum prog) (pg_entry prog)
                                  (li_at_base li) in
                let c := set_c_rt c (set_rt_mem (c_rt c) m) in
                match sp with
                | None => (- LXP_ENOMEM, t, c, b)
                | Some sp => (LXP_OK, set_it_ready t p (launch_of_image li sp), c, b)
                end
            | _, _ => (- LXP_ENOMEM, t, c, b)
            end
      end
  end.

Definition lxp_image_txn_prepare (fuel : nat) t c b (data len pid ppid : Z) (argv envp : list (list Z)) (remote_exec : bool)
    : option (Z * image_txn * coord H * B) :=
  let region_index := ref_index (it_region t) in
  if negb (slot_in (it_slot t)) || negb (region_in region_index) || (ref_generation (it_region t) =? 0) ||
     negb (lxp_region_lease_matches (c_rt c) (it_region t) (it_owner t) 1)
  then Some (- LXP_EINVAL, t, c, b)
  else
    let region := os_region xops region_index in
    match load_program fuel cfg (rt_mem (c_rt c)) region data len remote_exec with
    | None => None
    | Some (inl e, m) => Some (e, t, set_c_rt c (set_rt_mem (c_rt c) m), b)
    | Some (inr li, m) => Some (build_process t (set_c_rt c (set_rt_mem (c_rt c) m)) b region pid ppid argv envp li)
    end.

(** src/lxp_run.c: the ownership move into the slot; [caps] are the port's exec captures. *)
Definition clear_windows (mm : lxp_mm) : lxp_mm :=
  mk_mm (mm_refs mm) (mm_device_generation mm) (mm_exec_generation mm) (mm_arena mm) (mm_brk_base mm) (mm_brk_cur mm) (mm_brk_max mm)
    (mm_region mm) (mm_region_lo mm) (mm_region_hi mm) (mm_pool_lo mm) (mm_pool_hi mm) (mm_is_dynamic mm)
    (mm_copied_text_executable mm) (mm_copied_text_base mm) (mm_copied_text_size mm)
    (aset (aset (mm_dev_map_lo mm) 0 0) 1 0) (aset (aset (mm_dev_map_hi mm) 0 0) 1 0) (mm_dev_map_attrs mm).

Definition lxp_slot_publish_image c (caps : list lxp_exec_capture) (slot : Z) (image : lxp_proc)
    : Z * coord H * list lxp_exec_capture * lxp_proc :=
  let dest := cproc c slot in
  if negb (slot_in slot) then (- LXP_EINVAL, c, caps, image)
  else match p_mm dest, p_files dest, p_fs_context dest, p_sighand dest, p_group dest with
  | None, None, None, None, None =>
      if negb (p_alive dest =? 0) then (- LXP_EINVAL, c, caps, image)
      else
        let c := put_cproc c slot (set_p_exec_capture image (exec_capture slot)) in
        let c := lxp_slot_signal_reset c slot in
        let c := match p_mm image with
                 | Some mi => let k := rt_k (c_rt c) in
                     set_c_rt c (set_rt_k (c_rt c) (set_k_mm k (aset (k_mm k) mi (clear_windows (item (k_mm k) mi)))))
                 | None => c
                 end in
        (LXP_OK, c, clear_capture caps (exec_capture slot), proc_blank)
  | _, _, _, _, _ => (- LXP_EINVAL, c, caps, image)
  end.

(** The record is consistent: the launch names the text the address space was given. *)
Definition image_consistent t c : bool :=
  let text_base := gl_copied_text_base (it_launch t) in
  let text_size := gl_copied_text_size (it_launch t) in
  let copied := negb (text_size =? 0) in
  match mm_of (c_rt c) (it_proc t) with
  | None => false
  | Some mm =>
      (mm_copied_text_executable mm =? b2z copied) && (mm_copied_text_base mm =? text_base) &&
      (mm_copied_text_size mm =? text_size) && (copied || (text_base =? 0)) &&
      lxp_region_lease_matches (c_rt c) (it_region t) (it_owner t) 1 &&
      (negb copied || (text_size =? LXP_PROG_REGION_SIZE / 2))
  end.

Definition lxp_image_txn_publish t c (caps : list lxp_exec_capture) : Z * image_txn * coord H * list lxp_exec_capture :=
  if negb (it_prepared t) || it_published t || negb (image_consistent t c) then (- LXP_EINVAL, t, c, caps)
  else
    let text_base := gl_copied_text_base (it_launch t) in
    let text_size := gl_copied_text_size (it_launch t) in
    let '(rc, c) :=
      if negb (text_size =? 0) && negb (it_executable_published t)
      then let region := os_region xops (ref_index (it_region t)) in
           let region_hi := u32 (region + LXP_PROG_REGION_SIZE) in
           if (region =? 0) || (region_hi <? region) || negb (text_base =? region) || (text_size >=? LXP_PROG_REGION_SIZE)
           then (- LXP_EINVAL, c)
           else let '(rc, h) := publish_executable (c_h c) (it_region t) text_base text_size in
                (lxp_errno_from_err rc, set_c_h c h)
      else (LXP_OK, c) in
    if negb (rc =? LXP_OK) then (rc, t, c, caps)
    else
      let t := set_it_flags t true (it_published t) (it_native_started t) (it_region_committed t) in
      let '(rc, c, caps, p) := lxp_slot_publish_image c caps (it_slot t) (it_proc t) in
      let t := set_it_proc t p in
      if negb (rc =? LXP_OK) then (rc, t, c, caps)
      else
        let c := match map_device (os_mem xops) with
                 | Some g => set_c_h c ((g (c_h c) (it_slot t) 0 0 0).2) | None => c end in
        (if failpoint LXP_FAIL_EXEC_PUBLISHED then - LXP_EIO else LXP_OK,
         set_it_flags t true true (it_native_started t) (it_region_committed t), c, caps).

Definition lxp_image_txn_start t c : Z * image_txn * coord H :=
  if negb (it_published t) then (- LXP_EINVAL, t, c)
  else
    let '(rc, h, R) := lxp_coordinator_launch_slot ops (c_h c) (c_rt c) (it_slot t) (ref_index (it_region t)) (it_launch t) in
    let c := set_c_rt (set_c_h c h) R in
    if negb (rc =? LXP_OK) then (rc, t, c)
    else
      let t := set_it_flags t (it_executable_published t) (it_published t) true (it_region_committed t) in
      if failpoint LXP_FAIL_EXEC_NATIVE_STARTED then (- LXP_EIO, t, c)
      else
        let '(rc, R) := lxp_region_commit_address_space (c_rt c) (it_region t) (it_owner t) in
        let c := set_c_rt c R in
        if negb (rc =? LXP_OK) then (- LXP_EIO, t, c)
        else (if failpoint LXP_FAIL_EXEC_REGION_COMMITTED then - LXP_EIO else LXP_OK,
              set_it_flags t (it_executable_published t) (it_published t) (it_native_started t) true, c).

(** src/lxp_run.c *)
Definition lxp_slot_proc_reset c (slot : Z) : coord H := if negb (slot_in slot) then c else put_cproc c slot proc_blank.

(** Give back what a record holds: descriptors, context, dispositions, address space, group. *)
Definition image_release t c b (p : lxp_proc) : coord H * B * lxp_proc :=
  let '(k, b, p) := lxp_proc_resources_put (rt_k (c_rt c)) b p in
  let c := set_c_rt c (set_rt_k (c_rt c) k) in
  let '(c, p) := match mm_of (c_rt c) p with
                 | None => (c, p)
                 | Some mm =>
                     if lxp_region_ref_equal (mm_region mm) (it_region t)
                     then let '(R, p) := lxp_region_mm_put (c_rt c) p in (set_c_rt c R, p)
                     else let '(k, p) := lxp_proc_mm_put (rt_k (c_rt c)) p in (set_c_rt c (set_rt_k (c_rt c) k), p)
                 end in
  let '(k, p) := lxp_proc_group_put (rt_k (c_rt c)) p in
  (set_c_rt c (set_rt_k (c_rt c) k), b, set_p_alive p 0).

(** Only a published image has a native task to stop, and its record is the slot's. *)
Definition lxp_image_txn_abort t c b : Z * image_txn * coord H * B :=
  let slot := it_slot t in
  let '(rc, c) := if it_published t && negb (p_alive (cproc c slot) =? 0)
                  then let '(rc, h, R) := lxp_coordinator_abort_slot ops (c_h c) (c_rt c) slot in
                       (rc, set_c_rt (set_c_h c h) R)
                  else (LXP_OK, c) in
  if negb (rc =? LXP_OK) then (- LXP_EAGAIN, t, c, b)
  else
    let '(t, c, b) :=
      if it_published t
      then let '(c, b, p) := image_release t c b (cproc c slot) in
           let c := put_cproc c slot p in
           let c := lxp_slot_proc_reset c slot in
           let R := lxp_slot_runnable_store (c_rt c) slot false in
           let R := lxp_primary_slot_clear R slot in
           (t, lxp_slot_signal_reset (set_c_rt c R) slot, b)
      else let '(c, b, p) := image_release t c b (it_proc t) in (set_it_proc t p, c, b) in
    let c := if lxp_region_lease_matches (c_rt c) (it_region t) (it_owner t) 1
             then set_c_rt c (lxp_region_release_if_owned (c_rt c) (it_region t) (it_owner t)).2 else c in
    (LXP_OK, mk_image (it_proc t) (it_owner t) (it_region t) (it_launch t) (it_slot t) false false false false false, c, b).

Definition lxp_image_launch (fuel : nat) c b (caps : list lxp_exec_capture) (slot : Z) (region owner : lxp_ref) (data len pid ppid : Z)
    (argv envp : list (list Z)) (remote_exec : bool) : option (Z * coord H * B * list lxp_exec_capture) :=
  let t := lxp_image_txn_init slot region owner in
  match lxp_image_txn_prepare fuel t c b data len pid ppid argv envp remote_exec with
  | None => None
  | Some (rc, t, c, b) =>
      let '(rc, t, c, caps) := if rc =? LXP_OK then lxp_image_txn_publish t c caps else (rc, t, c, caps) in
      let '(rc, t, c) := if rc =? LXP_OK then lxp_image_txn_start t c else (rc, t, c) in
      let '(c, b) := if negb (rc =? LXP_OK) then let '(_, _, c, b) := lxp_image_txn_abort t c b in (c, b) else (c, b) in
      Some (rc, c, b, caps)
  end.

End Image.
