(* ===== verification/Exec.v ===== *)
(** * The exec handler (src/run/lxp_exec.c, src/proc/lxp_exec_stage.c)

    The coordinator's replacement of a task's image.  The transaction validates the image and
    reserves a region while the old program is intact; the commit stops the old native task
    and takes its resources over; the new image is built, adopts them, is published and
    started.  Before the commit a failure resumes the old program, behind it the task is
    contained and reported dead.  [et_saved] is the record of the saved objects,
    [et_image] the image transaction once it is initialized. *)

From S2P Require Import Prelude Config Errno Path Proc Pool Fd Guest Wait Pipe Arena Process Runtime Event Region Lifecycle.
From S2P Require Import Signal SysSignal Child SignalRoute Exit Console Blocked Fork.
From S2P Require Import Loader Bootstrap Image.
Local Open Scope Z_scope.

Definition LXP_EXIT_REASON_EXEC_RESOURCE : Z := 5.
Definition LXP_EXIT_REASON_EXEC_LOAD : Z := 6.
Definition LXP_EXEC_STAGED : Z := -2.

Inductive exec_txn_phase :=
  | EXEC_TXN_EMPTY | EXEC_TXN_VALIDATED | EXEC_TXN_RESERVED | EXEC_TXN_COMMITTED | EXEC_TXN_IMAGE_READY
  | EXEC_TXN_PUBLISHED | EXEC_TXN_FINISHED | EXEC_TXN_ABORTED.
#[export] Instance exec_txn_phase_eq_dec : EqDecision exec_txn_phase.
Proof. solve_decision. Defined.
Definition before_commit (ph : exec_txn_phase) : bool :=
  match ph with EXEC_TXN_EMPTY | EXEC_TXN_VALIDATED | EXEC_TXN_RESERVED => true | _ => false end.

(** The identity the transaction is about. *)
Record exec_ident := mk_ident {
  ei_slot : Z; ei_old_ref : lxp_ref; ei_parent_ref : lxp_ref; ei_pid : Z; ei_ppid : Z; ei_image_index : Z; ei_comm : list Z;
}.
Record exec_txn := mk_exec {
  et_id : exec_ident; et_phase : exec_txn_phase; et_region : lxp_ref; et_new_ref : lxp_ref; et_saved : lxp_proc;
  et_image : option image_txn;
  et_region_acquired : bool; et_uses_snapshot : bool; et_parent_restored : bool; et_parent_resumed : bool;
  et_old_detached : bool; et_slot_reassigned : bool; et_terminal : bool;
}.

Definition set_et_phase t v := mk_exec (et_id t) v (et_region t) (et_new_ref t) (et_saved t) (et_image t) (et_region_acquired t)
  (et_uses_snapshot t) (et_parent_restored t) (et_parent_resumed t) (et_old_detached t) (et_slot_reassigned t) (et_terminal t).
Definition set_et_region t v := mk_exec (et_id t) (et_phase t) v (et_new_ref t) (et_saved t) (et_image t) (et_region_acquired t)
  (et_uses_snapshot t) (et_parent_restored t) (et_parent_resumed t) (et_old_detached t) (et_slot_reassigned t) (et_terminal t).
Definition set_et_new_ref t v := mk_exec (et_id t) (et_phase t) (et_region t) v (et_saved t) (et_image t) (et_region_acquired t)
  (et_uses_snapshot t) (et_parent_restored t) (et_parent_resumed t) (et_old_detached t) (et_slot_reassigned t) (et_terminal t).
Definition set_et_saved t v := mk_exec (et_id t) (et_phase t) (et_region t) (et_new_ref t) v (et_image t) (et_region_acquired t)
  (et_uses_snapshot t) (et_parent_restored t) (et_parent_resumed t) (et_old_detached t) (et_slot_reassigned t) (et_terminal t).
Definition set_et_image t v := mk_exec (et_id t) (et_phase t) (et_region t) (et_new_ref t) (et_saved t) v (et_region_acquired t)
  (et_uses_snapshot t) (et_parent_restored t) (et_parent_resumed t) (et_old_detached t) (et_slot_reassigned t) (et_terminal t).
Definition set_et_acquired t v := mk_exec (et_id t) (et_phase t) (et_region t) (et_new_ref t) (et_saved t) (et_image t) v
  (et_uses_snapshot t) (et_parent_restored t) (et_parent_resumed t) (et_old_detached t) (et_slot_reassigned t) (et_terminal t).
Definition set_et_snapshot t v := mk_exec (et_id t) (et_phase t) (et_region t) (et_new_ref t) (et_saved t) (et_image t) (et_region_acquired t)
  v (et_parent_restored t) (et_parent_resumed t) (et_old_detached t) (et_slot_reassigned t) (et_terminal t).
Definition set_et_restored t v := mk_exec (et_id t) (et_phase t) (et_region t) (et_new_ref t) (et_saved t) (et_image t) (et_region_acquired t)
  (et_uses_snapshot t) v (et_parent_resumed t) (et_old_detached t) (et_slot_reassigned t) (et_terminal t).
Definition set_et_resumed t v := mk_exec (et_id t) (et_phase t) (et_region t) (et_new_ref t) (et_saved t) (et_image t) (et_region_acquired t)
  (et_uses_snapshot t) (et_parent_restored t) v (et_old_detached t) (et_slot_reassigned t) (et_terminal t).
Definition set_et_detached t v := mk_exec (et_id t) (et_phase t) (et_region t) (et_new_ref t) (et_saved t) (et_image t) (et_region_acquired t)
  (et_uses_snapshot t) (et_parent_restored t) (et_parent_resumed t) v (et_slot_reassigned t) (et_terminal t).
Definition set_et_reassigned t v := mk_exec (et_id t) (et_phase t) (et_region t) (et_new_ref t) (et_saved t) (et_image t) (et_region_acquired t)
  (et_uses_snapshot t) (et_parent_restored t) (et_parent_resumed t) (et_old_detached t) v (et_terminal t).
Definition set_et_terminal t v := mk_exec (et_id t) (et_phase t) (et_region t) (et_new_ref t) (et_saved t) (et_image t) (et_region_acquired t)
  (et_uses_snapshot t) (et_parent_restored t) (et_parent_resumed t) (et_old_detached t) (et_slot_reassigned t) v.

(** ** The staging buffer: its owner is the task that waits for the staged image *)

Record exec_stage := mk_stage { sg_owner : option Z; sg_size : Z }.

(** The build with fetched programs: a task waits by its own exec intent or by its fetch
    ([LXP_NETFSW_EXECFETCH], netfs/lxp_netfs.h). *)
Definition LXP_NETFSW_EXECFETCH : Z := 5.
Definition waits_for_stage (p : lxp_proc) : bool :=
  negb (p_alive p =? 0) &&
  ((bool_decide (intent_kind (p_intent p) = IK_EXEC) && (p_exec_file_idx p =? LXP_EXEC_STAGED)) ||
   (bool_decide (w_kind (p_wait p) = LXP_WAIT_NETFS) && (w_op (p_wait p) =? LXP_NETFSW_EXECFETCH))).

(** [buf] is the port's buffer and its capacity; [procs] the task table; [slot] the claimant. *)
Definition lxp_exec_stage_claim (buf : Z * Z) (procs : Z -> lxp_proc) (st : exec_stage) (slot : Z) : Z * exec_stage :=
  if (buf.1 =? 0) || (buf.2 =? 0) then (- LXP_ENOMEM, st)
  else if match sg_owner st with
          | Some o => negb (o =? slot) && waits_for_stage (procs o)
          | None => false
          end
  then (- LXP_EAGAIN, st)
  else (0, mk_stage (Some slot) 0).

Definition lxp_exec_stage_publish (st : exec_stage) (slot size : Z) : exec_stage :=
  if bool_decide (sg_owner st = Some slot) then mk_stage (sg_owner st) size else st.

(** The image's address, zero for none, and its size. *)
Definition lxp_exec_stage_image (buf : Z * Z) (st : exec_stage) : Z * Z :=
  let size := if negb (buf.1 =? 0) && (sg_size st <=? buf.2) then sg_size st else 0 in
  (if negb (size =? 0) then buf.1 else 0, size).

Definition lxp_exec_stage_reset : exec_stage := mk_stage None 0.

(** src/lxp_run.c: the strings a capture's offsets name. *)
Definition lxp_capture_vec (buf off_vec : list Z) (count : Z) : list (list Z) :=
  map (fun j => cstr (drop (Z.to_nat (aget 0 off_vec j)) buf)) (seqZ 0 count).

Section Exec.
Context {H B : Type} `{FileOps B} (ops : os_task H) (xops : os_exit H).
Context (exec_capture : Z -> option Z) (failpoint : lxp_lifecycle_failpoint -> bool).
Context (random_fill : Z -> option (list Z)) (publish_executable : H -> lxp_ref -> Z -> Z -> Z * H) (cfg : lxp_run_config).
(** The port's staging buffer. *)
Context (stage_buf : Z * Z).
Implicit Types (c : coord H) (b : B) (t : exec_txn).

Definition lxp_exec_txn_init c (slot : Z) : exec_txn :=
  let old := cproc c slot in
  let g := match group_of c old with Some g => g | None => group_zero end in
  mk_exec (mk_ident slot (lxp_slot_ref_at (c_rt c) slot) (p_vfork_parent old) (p_pid old) (tg_ppid g) (p_exec_file_idx old) (p_comm old))
    EXEC_TXN_EMPTY lxp_region_ref_none lxp_slot_ref_none proc_zero None false false false false false false false.

Definition lxp_exec_txn_validate_image t c (image image_size : Z) (remote_exec : bool) : Z * exec_txn :=
  if bool_decide (et_phase t <> EXEC_TXN_EMPTY) || (image =? 0) then (- LXP_ENOEXEC, t)
  else if negb (lxp_loader_validate_fdpic (rt_mem (c_rt c)) image image_size LXP_PROG_REGION_SIZE remote_exec =? LXP_OK)
  then (- LXP_ENOEXEC, t)
  else (if failpoint LXP_FAIL_EXEC_IMAGE_VALIDATED then - LXP_ENOEXEC else LXP_OK, set_et_phase t EXEC_TXN_VALIDATED).

Definition exec_reserved t (region : lxp_ref) (uses_snapshot : bool) : Z * exec_txn :=
  (if failpoint LXP_FAIL_EXEC_REGION_ACQUIRED then - LXP_ENOMEM else LXP_OK,
   set_et_phase (set_et_acquired (set_et_snapshot (set_et_region t region) uses_snapshot) true) EXEC_TXN_RESERVED).

Definition lxp_exec_txn_reserve t c : Z * exec_txn * coord H :=
  let slot := ei_slot (et_id t) in
  let old_ref := ei_old_ref (et_id t) in
  if bool_decide (et_phase t <> EXEC_TXN_VALIDATED) || negb (lxp_slot_ref_is_current (c_rt c) old_ref) then (- LXP_EINVAL, t, c)
  else
    let snapshot := p_snapshot (cproc c slot) in
    if ref_index snapshot >=? 0
    then if (ref_index snapshot >=? LXP_NREG) || negb (lxp_region_lease_matches (c_rt c) snapshot old_ref 1)
         then (- LXP_EIO, set_et_terminal (set_et_region t snapshot) true, set_c_rt c (lxp_vfork_contain_stale (c_rt c) old_ref))
         else (exec_reserved t snapshot true, c)
    else match List.find (lxp_region_free (c_rt c)) (seqZ 0 LXP_NREG) with
         | None => (- LXP_ENOMEM, t, c)
         | Some ridx =>
             let '(region, R) := lxp_region_reserve (c_rt c) ridx old_ref in
             let c := set_c_rt c R in
             if ref_index region <? 0 then (- LXP_ENOMEM, set_et_region t region, c)
             else (exec_reserved t region false, c)
         end.

(** The old record's objects move to the transaction; its address space is released. *)
Definition exec_txn_detach_old t c : exec_txn * coord H :=
  if et_old_detached t then (t, c)
  else
    let slot := ei_slot (et_id t) in
    let old := cproc c slot in
    let saved := set_p_nice (set_p_sig_blocked
                   (set_p_group (set_p_sighand (set_p_fs_context (set_p_files proc_zero (p_files old)) (p_fs_context old))
                      (p_sighand old)) (p_group old)) (p_sig_blocked old)) (lxp_proc_nice_get old) in
    let old := set_p_group (set_p_sighand (set_p_fs_context (set_p_files old None) None) None) None in
    let '(R, old) := lxp_region_mm_put (c_rt c) old in
    let c := put_cproc (set_c_rt c R) slot (set_p_alive (set_p_snapshot old lxp_region_ref_none) 0) in
    let c := set_c_rt c (lxp_slot_runnable_store (c_rt c) slot false) in
    (set_et_detached (set_et_saved t saved) true, c).

(** The suspended vfork parent's memory comes back; the child keeps the spare region. *)
Definition commit_restore_parent t c : Z * exec_txn * coord H :=
  let slot := ei_slot (et_id t) in
  let parent_ref := ei_parent_ref (et_id t) in
  let old_ref := ei_old_ref (et_id t) in
  if ref_index parent_ref <? 0 then (LXP_OK, t, c)
  else
    let stale R := (- LXP_EIO, set_et_terminal t true, set_c_rt c (lxp_vfork_contain_stale R old_ref)) in
    let snapshot := p_snapshot (cproc c slot) in
    match lxp_slot_resume_view (c_rt c) parent_ref with
    | None => stale (c_rt c)
    | Some ctx =>
        if ref_index snapshot <? 0 then stale (c_rt c)
        else let '(rc, R) := lxp_vfork_restore (os_region xops) (os_dyn_pool xops) (c_rt c) (ref_index parent_ref) snapshot
                               old_ref (rc_sp ctx) in
             if negb (rc =? 0) then stale R
             else let c := set_c_rt c R in
                  (LXP_OK, set_et_restored t true, put_cproc c slot (set_p_snapshot (cproc c slot) lxp_region_ref_none))
    end.

(** A private descriptor table without its close-on-exec entries. *)
Definition exec_private_files c b (slot : Z) : Z * coord H * B :=
  let '(rc, k, p) := lxp_proc_files_unshare (rt_k (c_rt c)) (cproc c slot) in
  let c := put_owned c slot k p in
  if negb (rc =? 0) then (- LXP_ENOMEM, c, b)
  else let '(k, b) := lxp_fd_close_on_exec (rt_k (c_rt c)) b (p_files p) in
       (LXP_OK, set_c_rt c (set_rt_k (c_rt c) k), b).

(** The slot begins a new generation, to which the region's lease follows. *)
Definition exec_reassign t c : exec_txn * coord H :=
  let slot := ei_slot (et_id t) in
  let c := set_c_rt c (lxp_deferred_slot_reassign (c_rt c) slot) in
  (set_et_new_ref (set_et_reassigned t true) (lxp_slot_ref_at (c_rt c) slot), c).

Definition lxp_exec_txn_commit t c b : Z * exec_txn * coord H * B :=
  let slot := ei_slot (et_id t) in
  let old_ref := ei_old_ref (et_id t) in
  if bool_decide (et_phase t <> EXEC_TXN_RESERVED) then (- LXP_EINVAL, t, c, b)
  else
    let t := set_et_phase t EXEC_TXN_COMMITTED in
    let '(rc, t, c) := commit_restore_parent t c in
    if negb (rc =? LXP_OK) then (rc, t, c, b)
    else
      let '(rc, c) := lxp_thread_group_stop_exec_peers ops c slot 127 in
      if negb (rc =? LXP_OK) then (- LXP_EAGAIN, t, c, b)
      else
        let '(rc, h, R) := lxp_coordinator_abort_slot ops (c_h c) (c_rt c) slot in
        let c := set_c_rt (set_c_h c h) R in
        if negb (rc =? LXP_OK) then (- LXP_EAGAIN, t, c, b)
        else
          let '(rc, c, b) := exec_private_files c b slot in
          if negb (rc =? LXP_OK) then (rc, t, c, b)
          else
            let '(t, c) := exec_txn_detach_old t c in
            let '(t, c) := exec_reassign t c in
            let '(rc, R) := lxp_region_lease_reassign (c_rt c) (et_region t) old_ref (et_new_ref t) in
            let c := set_c_rt c R in
            if negb (rc =? LXP_OK) then (- LXP_EIO, t, c, b)
            else
              let c := match map_device (os_mem xops) with
                       | Some g => set_c_h c ((g (c_h c) slot 0 0 0).2) | None => c end in
              (if failpoint LXP_FAIL_EXEC_COMMITTED then - LXP_EIO else LXP_OK, t, c, b).

(** Release the objects of a record that is no task's. *)
Definition release_record c b (p : lxp_proc) : coord H * B :=
  let '(k, b, p) := lxp_proc_resources_put (rt_k (c_rt c)) b p in
  let '(k, _) := lxp_proc_group_put k p in
  (set_c_rt c (set_rt_k (c_rt c) k), b).

(** The new image takes the old descriptors, paths and thread group; it keeps its own
    dispositions, and the old ones go. *)
Definition exec_txn_adopt_old_resources t (it : image_txn) c b : exec_txn * image_txn * coord H * B :=
  let saved := et_saved t in
  let image := it_proc it in
  let fresh_sighand := p_sighand image in
  let '(k, b, image) := lxp_proc_resources_put (rt_k (c_rt c)) b (set_p_sighand image None) in
  let '(k, image) := lxp_proc_group_put k (set_p_sighand image fresh_sighand) in
  let image := set_p_group (set_p_fs_context (set_p_files image (p_files saved)) (p_fs_context saved)) (p_group saved) in
  let image := lxp_proc_nice_set (set_p_sig_blocked image (p_sig_blocked saved)) (p_nice saved) in
  let image := set_p_vfork_parent (set_p_exec_file_idx image (ei_image_index (et_id t))) (ei_parent_ref (et_id t)) in
  let '(k, b, _) := lxp_proc_resources_put k b (set_p_sighand proc_zero (p_sighand saved)) in
  let saved := set_p_sighand (set_p_group (set_p_fs_context (set_p_files saved None) None) None) None in
  (set_et_saved t saved, set_it_proc it image, set_c_rt c (set_rt_k (c_rt c) k), b).

Definition exec_txn_release_saved t c b : exec_txn * coord H * B :=
  let '(c, b) := release_record c b (et_saved t) in
  let saved := et_saved t in
  (set_et_saved t (set_p_sighand (set_p_group (set_p_fs_context (set_p_files saved None) None) None) None), c, b).

Definition exec_txn_resume_parent t c : exec_txn * coord H :=
  let parent_ref := ei_parent_ref (et_id t) in
  if negb (et_parent_restored t) || et_parent_resumed t || negb (lxp_slot_ref_is_current (c_rt c) parent_ref) then (t, c)
  else (set_et_resumed t true,
        lift c (lxp_coordinator_complete_slot ops (c_h c) (c_rt c) parent_ref (ei_pid (et_id t)))).

Definition exec_txn_report_failure t c (reason : Z) : exec_txn * coord H :=
  let i := et_id t in
  let report := set_p_exit_reason (set_p_exit_status (set_p_comm (set_p_pid proc_zero (ei_pid i)) (ei_comm i)) 127) (Z.land reason 0xff) in
  let '(t, c) := exec_txn_resume_parent t c in
  let c := match on_guest_exit xops with Some g => set_c_h c (g (c_h c) (ei_slot i) report) | None => c end in
  (t, lxp_reap_to_parent ops c (ei_ppid i) (ei_pid i) 127 (b2z (negb (lxp_slot_ref_is_current (c_rt c) (ei_parent_ref i))))).

(** What an abort behind the commit first needs: the native task gone, the objects detached,
    the slot in its new generation.  [None]: the old task cannot be stopped and keeps everything. *)
Definition abort_contain t c : option exec_txn * coord H :=
  let slot := ei_slot (et_id t) in
  let old_ref := ei_old_ref (et_id t) in
  let '(ok, t, c) :=
    if et_old_detached t then (true, t, c)
    else let '(rc, h, R) := lxp_coordinator_abort_slot ops (c_h c) (c_rt c) slot in
         let c := set_c_rt (set_c_h c h) R in
         if negb (rc =? LXP_OK)
         then (false, t, if et_region_acquired t
                         then set_c_rt c (lxp_region_release_if_owned (c_rt c) (et_region t) old_ref).2 else c)
         else let '(t, c) := exec_txn_detach_old t c in (true, t, c) in
  if negb ok then (None, c)
  else if et_slot_reassigned t then (Some t, c)
  else
    let '(t, c) := exec_reassign t c in
    (Some t, if et_region_acquired t
             then set_c_rt c (lxp_region_lease_reassign (c_rt c) (et_region t) old_ref (et_new_ref t)).2 else c).

(** The image or the bare region goes; [None]: the published image cannot be stopped. *)
Definition abort_image t c b : bool * coord H * B :=
  match et_image t with
  | Some it => let '(rc, _, c, b) := lxp_image_txn_abort ops it c b in (rc =? LXP_OK, c, b)
  | None =>
      if et_region_acquired t && lxp_region_lease_matches (c_rt c) (et_region t) (et_new_ref t) 1
      then (true, set_c_rt c (lxp_region_release_if_owned (c_rt c) (et_region t) (et_new_ref t)).2, b)
      else (true, c, b)
  end.

Definition lxp_exec_txn_abort t c b (error reason : Z) : coord H * B :=
  let slot := ei_slot (et_id t) in
  let old_ref := ei_old_ref (et_id t) in
  if bool_decide (et_phase t = EXEC_TXN_ABORTED) || bool_decide (et_phase t = EXEC_TXN_FINISHED) || et_terminal t then (c, b)
  else if before_commit (et_phase t)
  then
    let c := if et_region_acquired t && negb (et_uses_snapshot t)
             then set_c_rt c (lxp_region_release_if_owned (c_rt c) (et_region t) old_ref).2 else c in
    (lift c (lxp_coordinator_complete_slot ops (c_h c) (c_rt c) old_ref error), b)
  else
    match abort_contain t c with
    | (None, c) => (c, b)
    | (Some t, c) =>
        let '(ok, c, b) := abort_image t c b in
        if negb ok then (c, b)
        else
          let '(t, c, b) := exec_txn_release_saved t c b in
          let '(t, c) := exec_txn_report_failure t c reason in
          let c := lxp_slot_proc_reset c slot in
          let R := lxp_slot_runnable_store (c_rt c) slot false in
          let R := lxp_primary_slot_clear R slot in
          (set_c_rt c (lxp_vfork_guard_reset R slot), b)
    end.

(** The image an exec names: its address (zero for none), its size and whether it is staged. *)
Definition exec_image_of (st : exec_stage) (idx : Z) : Z * Z * bool :=
  if idx =? LXP_EXEC_STAGED then (lxp_exec_stage_image stage_buf st, true)
  else if (idx >=? 0) && (idx <? alen (cf_rootfs cfg)) then (rootfs_data cfg idx, rootfs_size cfg idx, false)
  else (0, 0, false).

(** Behind the commit: build, adopt, publish, start. *)
Definition exec_replace (fuel : nat) t c b (caps : list lxp_exec_capture) (image image_size : Z) (remote_exec : bool) (argv envp : list (list Z))
    : option (coord H * B * list lxp_exec_capture) :=
  let slot := ei_slot (et_id t) in
  let it := lxp_image_txn_init slot (et_region t) (et_new_ref t) in
  match lxp_image_txn_prepare xops random_fill cfg fuel it c b image image_size (ei_pid (et_id t)) (ei_ppid (et_id t)) argv envp remote_exec with
  | None => None
  | Some (rc, it, c, b) =>
      let rc := if (rc =? LXP_OK) && failpoint LXP_FAIL_EXEC_IMAGE_PREPARED then - LXP_EIO else rc in
      let fail t it c b caps rc :=
        let '(c, b) := lxp_exec_txn_abort (set_et_image t (Some it)) c b rc LXP_EXIT_REASON_EXEC_LOAD in Some (c, b, caps) in
      if negb (rc =? LXP_OK) then fail t it c b caps rc
      else
        let t := set_et_phase t EXEC_TXN_IMAGE_READY in
        let '(t, it, c, b) := exec_txn_adopt_old_resources t it c b in
        let '(rc, it, c, caps) := lxp_image_txn_publish xops exec_capture failpoint publish_executable it c caps in
        if negb (rc =? LXP_OK) then fail t it c b caps rc
        else
          let t := set_et_phase t EXEC_TXN_PUBLISHED in
          let '(rc, it, c) := lxp_image_txn_start ops failpoint it c in
          if negb (rc =? LXP_OK) then fail t it c b caps rc
          else
            let '(t, c) := exec_txn_resume_parent t c in
            Some (put_cproc c slot (set_p_vfork_parent (cproc c slot) lxp_slot_ref_none), b, caps)
  end.

Definition lxp_handle_exec (fuel : nat) c b (caps : list lxp_exec_capture) (st : exec_stage) (slot : Z)
    : option (coord H * B * list lxp_exec_capture) :=
  let '(rc, h, R) := lxp_coordinator_park_slot ops (c_h c) (c_rt c) slot in
  let c := set_c_rt (set_c_h c h) R in
  if negb (rc =? LXP_OK) then Some (c, b, caps)
  else
    let c := put_cproc c slot (lxp_intent_complete (cproc c slot) IK_EXEC).2 in
    match p_exec_capture (cproc c slot) with
    | None => Some (set_c_rt c (lxp_coordinator_exit_slot (c_rt c) slot 0 127 LXP_EXIT_REASON_STATE_CORRUPTION 0), b, caps)
    | Some ci =>
        let capture := aget capture_zero caps ci in
        let argv := lxp_capture_vec (ec_argv_buf capture) (ec_argv capture) (ec_argc capture) in
        let envp := lxp_capture_vec (ec_env_buf capture) (ec_env capture) (ec_envc capture) in
        let t := lxp_exec_txn_init c slot in
        let '(image, image_size, remote_exec) := exec_image_of st (ei_image_index (et_id t)) in
        let fail t c b rc := let '(c, b) := lxp_exec_txn_abort t c b rc LXP_EXIT_REASON_EXEC_RESOURCE in Some (c, b, caps) in
        let '(rc, t) := lxp_exec_txn_validate_image t c image image_size remote_exec in
        let '(rc, t, c) := if rc =? LXP_OK then lxp_exec_txn_reserve t c else (rc, t, c) in
        if negb (rc =? LXP_OK) then fail t c b rc
        else
          let '(rc, t, c, b) := lxp_exec_txn_commit t c b in
          if negb (rc =? LXP_OK) then fail t c b rc
          else exec_replace fuel t c b caps image image_size remote_exec argv envp
    end.

End Exec.
