(* ===== verification/ExecSpec.v ===== *)
(** * Who holds what during an exec

    While a transaction runs, the references of the five pools are held by the other tasks and
    by the transaction's own records: the slot's, the saved one and the image's.  Each step of
    src/run/lxp_exec.c and src/run/lxp_image.c moves objects between those records, takes new
    ones or gives some back; [held] keeps the account. *)

From S2P Require Import Prelude Config Errno Path Proc Pool Fd FdSpec Guest Wait Pipe Arena Process ProcessSpec.
From S2P Require Import ProcessProps Runtime Event Region RegionProps Lifecycle Quiet Signal SignalProps SysSignal.
From S2P Require Import Child ChildProps SignalRoute Exit Console Blocked Fork ForkProps Loader Bootstrap Image Exec.
Local Open Scope Z_scope.

(** ** Pool lemmas *)

Section Pools.
Context {B : Type} `{FileOps B}.
Implicit Types (k : kst) (b : B) (p : lxp_proc) (fo co so mo go : list (option Z)).

(** A private table for the task: nothing else changes hands. *)
Lemma unshare_inv k p fo co so mo go :
  kinv k (p_files p :: fo) co so mo go ->
  let '(rc, k', p') := lxp_proc_files_unshare k p in
  (rc <> 0 /\ k' = k /\ p' = p) \/
  (rc = 0 /\ (exists t, p' = set_p_files p (Some t)) /\ kinv k' (p_files p' :: fo) co so mo go).
Proof.
  intros HK. unfold lxp_proc_files_unshare. destruct (p_files p) as [sh|] eqn:Ep; [|by left].
  destruct (Z.eqb_spec (files_refs (item (k_files k) sh)) 1) as [E1|E1].
  { right. split; [done|]. rewrite Ep. split; [|done]. exists sh. destruct p. cbn in *. by subst. }
  pose proof (fork_inherit_inv k p sh _ co so mo go Ep (list_elem_of_here _ _) HK) as HI.
  destruct (lxp_fd_fork_inherit k p) as [[rc k1] p1].
  destruct HI as [(-> & -> & ->)|(copy & -> & -> & HK1 & Hown & _)]; [by left|]. cbn [negb Z.eqb]. right.
  split; [done|]. split; [by exists copy|]. cbn [p_files set_p_files].
  destruct HK1 as (I1 & Hf & R1). split; [|split; [|exact R1]].
  - eapply fd_inv_ext; [| |exact I1]; [done|]. apply map_files_fd_refs; [apply Hf; by right; left|done].
  - assert (Hp : Some copy :: Some sh :: fo ≡ₚ Some sh :: Some copy :: fo) by constructor. rewrite Hp in Hf.
    pose proof (resource_put_inv _ _ _ Hf) as Hput. unfold resource_put in Hput.
    destruct HK as (_ & (Hr0 & Hin0) & _), Hf as [Hr Hin]. destruct (Hr sh) as [Hrefs _]; [apply Hin; by left|].
    destruct (Hr0 sh) as [Hrefs0 _]; [apply Hin0; by left|]. pose proof (owned_nonneg fo sh).
    cbn [owned refs_of files_refcounted with_refs] in *. rewrite Z.eqb_refl in *.
    destruct (Z.eqb_spec copy sh) as [->|]; [rewrite Z.eqb_refl in Hown; pose proof (owned_nonneg fo sh); lia|].
    destruct (Z.gtb_spec (files_refs (item (k_files k1) sh)) 0); [|lia].
    destruct (Z.eqb_spec (files_refs (item (k_files k1) sh) - 1) 0); [lia|]. exact Hput.
Qed.

Lemma only_table_cloexec ti fds k b :
  0 <= ti < alen (k_files k) -> only_table ti k (foldl (cloexec_step (Some ti)) (k, b) fds).1.
Proof.
  revert k b. induction fds as [|fd fds IH]; intros k b Hi; cbn [foldl]; [by apply only_table_refl|].
  unfold cloexec_step at 2. cbn [fst]. destruct (_ >? 0); [|by apply IH].
  pose proof (only_table_close k b ti fd Hi) as H1.
  destruct (close_step (Some ti) (k, b) fd) as [k1 b1]. cbn [fst] in H1.
  eapply only_table_trans; [done|exact H1|]. apply IH. by rewrite (only_table_alen ti k).
Qed.

Lemma cloexec_inv k b t fo co so mo go :
  t ∈ fo -> kinv k fo co so mo go -> kinv (lxp_fd_close_on_exec k b t).1 fo co so mo go.
Proof.
  intros Hin (HI & Hf & Hc & Hs & Hm & Hg). destruct t as [ti|]; [|by kinv_split].
  assert (Hti : 0 <= ti < alen (k_files k)) by (by apply Hf).
  destruct (fd_close_on_exec_inv k b (Some ti) HI Hti) as (I' & _).
  pose proof (only_table_cloexec ti all_fds k b Hti) as HO.
  assert (Eq : lxp_fd_close_on_exec k b (Some ti) = foldl (cloexec_step (Some ti)) (k, b) all_fds) by reflexivity.
  rewrite <- Eq in HO. clear Eq.
  generalize dependent (lxp_fd_close_on_exec k b (Some ti)).1. intros k' I' (f & E & Hr & E1 & E2 & E3 & E4).
  kinv_split; rewrite ?E1, ?E2, ?E3, ?E4; try done.
  rewrite E. pose proof (owned_pos fo ti Hin). apply pool_inv_update; try done.
  destruct Hf as [Hf _]. destruct (Hf ti Hti) as [-> _]. done.
Qed.

(** A record's descriptors, context and dispositions, then its group. *)
Lemma release_inv k b p ps :
  proc_inv k (p :: ps) -> p_mm p = None ->
  let '(k1, b1, p1) := lxp_proc_resources_put k b p in
  proc_inv (lxp_proc_group_put k1 p1).1 ps.
Proof.
  intros HK Hm. pose proof (resources_put_inv k b p _ _ _ _ _ HK) as HR.
  destruct (lxp_proc_resources_put k b p) as [[k1 b1] p1]. destruct HR as [HK1 ->].
  set (p1 := set_p_sighand _ None). cbn [map] in HK1. rewrite Hm in HK1.
  destruct (group_put_inv k1 p1 _ _ _ _ _ HK1) as [HK2 _].
  destruct HK2 as (? & ? & ? & ? & Hmm & ?). apply (proj1 (pool_inv_none _ _)) in Hmm. by kinv_split.
Qed.
End Pools.

(** ** Steps that move no reference *)

(** The tasks' holdings, the pools and the soundness of the regions stay. *)
Definition calm (R R' : lxp_runtime) : Prop :=
  steady R R' /\ rt_k R' = rt_k R /\ (region_inv R -> region_inv R').

#[export] Instance calm_preorder : PreOrder calm.
Proof.
  split; [done|]. intros R1 R2 R3 (S1 & K1 & I1) (S2 & K2 & I2).
  split; [by transitivity R2|]. split; [congruence|auto].
Qed.

Create HintDb calm.

Lemma calm_slots R R' :
  rt_slots R' = rt_slots R -> rt_k R' = rt_k R -> (region_inv R -> region_inv R') -> calm R R'.
Proof. intros. split; [by apply steady_slots|done]. Qed.

Lemma calm_quiet R R' : quiet R R' -> calm R R'.
Proof.
  intros Hq. split; [by apply quiet_steady|]. split; [by apply quiet_k|].
  unfold region_inv. by rewrite (quiet_regions _ _ Hq).
Qed.

Lemma calm_region_run op R : calm R (region_run op R).1.
Proof.
  apply calm_slots; [| |intros Hi; apply (region_run_step op R Hi)];
    destruct op; unfold region_run, lxp_region_release_if_owned; repeat case_match; simplify_eq/=; try done.
  all: unfold lxp_region_reserve, lxp_region_commit_address_space, lxp_region_get, lxp_region_put,
    lxp_region_lease_reassign in *; repeat case_match; simplify_eq/=; done.
Qed.

Lemma calm_release R ref o : calm R (lxp_region_release_if_owned R ref o).2.
Proof. pose proof (calm_region_run (RgRelease ref o) R) as Hc. cbn in Hc. by destruct (lxp_region_release_if_owned R ref o). Qed.
Lemma calm_reassign_lease R ref o n : calm R (lxp_region_lease_reassign R ref o n).2.
Proof. apply (calm_region_run (RgReassign ref o n) R). Qed.
Lemma calm_commit R ref o : calm R (lxp_region_commit_address_space R ref o).2.
Proof. apply (calm_region_run (RgCommit ref o) R). Qed.
Lemma calm_reserve R r o : calm R (lxp_region_reserve R r o).2.
Proof. pose proof (calm_region_run (RgReserve r o) R) as Hc. cbn in Hc. by destruct (lxp_region_reserve R r o). Qed.
Lemma calm_region_put R ref : calm R (lxp_region_put R ref).2.
Proof. pose proof (calm_region_run (RgPut ref) R) as Hc. cbn in Hc. by destruct (lxp_region_put R ref). Qed.

Lemma calm_store_proc R s p :
  0 <= s < alen (rt_slots R) -> holdings p = holdings (sproc R s) -> calm R (put_proc R s p).
Proof. intros. split; [by apply steady_put_proc|done]. Qed.
#[export] Hint Resolve calm_quiet calm_release calm_reassign_lease calm_commit calm_reserve calm_region_put : calm.

Lemma restore_calm xr xd R par snapshot child sp : calm R (lxp_vfork_restore xr xd R par snapshot child sp).2.
Proof.
  unfold lxp_vfork_restore. destruct (negb _); [done|]. destruct (_ || _); [done|].
  destruct (mm_of R _); [|done]. destruct (_ || _); [done|]. by apply calm_slots.
Qed.

Lemma contain_stale_calm R child :
  0 <= ref_index child < alen (rt_slots R) -> calm R (lxp_vfork_contain_stale R child).
Proof.
  intros Hc. unfold lxp_vfork_contain_stale. cbv zeta.
  set (R1 := if vfork_parent_is_current R child then _ else R).
  assert (H1 : calm R R1) by (unfold R1; destruct (vfork_parent_is_current R child); [auto using quiet_exit_slot with calm|done]).
  set (R2 := if ref_index _ >=? 0 then _ else R1).
  assert (H2 : calm R R2) by (transitivity R1; [done|]; unfold R2; destruct (_ >=? 0); [auto with calm|done]).
  set (R3 := lxp_vfork_guard_reset R2 _).
  assert (H3 : calm R R3) by (transitivity R2; [done|]; by apply calm_slots).
  assert (Hput : forall R' p, calm R R' -> holdings p = holdings (sproc R' (ref_index child)) ->
    calm R (put_proc R' (ref_index child) p)).
  { intros R' p Hc' Hp. transitivity R'; [done|]. apply calm_store_proc; [|done]. rewrite (proj1 (proj1 Hc')). lia. }
  set (R4 := put_proc R3 _ _). assert (H4 : calm R R4) by (by apply Hput).
  set (R5 := put_proc R4 _ _). assert (H5 : calm R R5) by (by apply Hput).
  set (R6 := if bool_decide _ then _ else R5).
  assert (H6 : calm R R6).
  { unfold R6. destruct (bool_decide _); [|done]. apply Hput; [done|]. unfold lxp_intent_complete. by case_goal. }
  transitivity R6; [done|]. auto using quiet_exit_slot with calm.
Qed.

(** ** The account *)

Section Held.
Context {H B : Type} `{FileOps B} (ops : os_task H) (xops : os_exit H).
Implicit Types (c : coord H) (b : B) (p : lxp_proc) (ps : list lxp_proc).

(** Since [c0], only slot [x] changed, and the records [ps] hold what the other tasks do not. *)
Definition held c0 (x : Z) ps c : Prop :=
  coord_wf c /\ steady_but x (c_rt c0) (c_rt c) /\ region_inv (c_rt c) /\ proc_inv (rt_k (c_rt c)) (ps ++ others c0 x).

Lemma held_step c0 x ps c c' :
  held c0 x ps c -> steady_but x (c_rt c) (c_rt c') -> c_save c' = c_save c ->
  rt_k (c_rt c') = rt_k (c_rt c) -> (region_inv (c_rt c) -> region_inv (c_rt c')) -> held c0 x ps c'.
Proof.
  intros (W & S & I & P) Hs Hv Hk Hi. split; [by apply (coord_wf_steady_but c c' x)|].
  split; [by transitivity (c_rt c)|]. split; [auto|]. by rewrite Hk.
Qed.

Lemma held_calm c0 x ps c c' : held c0 x ps c -> calm (c_rt c) (c_rt c') -> c_save c' = c_save c -> held c0 x ps c'.
Proof. intros Hh (S & K & I) Hv. eapply held_step; eauto using steady_but_of. Qed.

Lemma held_k c0 x ps ps' c k :
  held c0 x ps c -> proc_inv k (ps' ++ others c0 x) -> held c0 x ps' (set_c_rt c (set_rt_k (c_rt c) k)).
Proof.
  intros (W & S & I & P) Hp. split; [done|]. split; [|done].
  transitivity (c_rt c); [done|]. apply steady_but_of. by apply steady_slots.
Qed.

Lemma held_put c0 x ps c p : slot_in x = true -> held c0 x ps c -> held c0 x ps (put_cproc c x p).
Proof.
  intros Hx%slot_in_range Hh. eapply held_step; [exact Hh| |done|done|done]. apply steady_but_put_cproc. lia.
Qed.

Lemma held_slot c0 x ps c sl : slot_in x = true -> held c0 x ps c -> held c0 x ps (set_c_rt c (put_slot (c_rt c) x sl)).
Proof. intros Hx%slot_in_range Hh. eapply held_step; [exact Hh| |done|done|done]. apply steady_but_put. lia. Qed.

Lemma held_save c0 x ps c s st : held c0 x ps c -> stack_wf st -> held c0 x ps (put_stack c s st).
Proof.
  intros ((L1 & L2 & L3) & S & I & P) Hst. split; [|done]. split; [done|]. unfold put_stack. cbn [c_save set_c_save].
  rewrite alen_aset. split; [done|]. by apply Forall_aset.
Qed.

Lemma held_perm c0 x ps ps' c : ps ≡ₚ ps' -> held c0 x ps c -> held c0 x ps' c.
Proof. intros Hp (W & S & I & P). split; [done|]. split; [done|]. split; [done|]. by rewrite <- Hp. Qed.

(** Records with the same holdings, whatever their life. *)
Lemma held_like c0 x ps ps' c :
  map (fun p => (p_group p, p_mm p, p_files p, p_fs_context p, p_sighand p)) ps =
  map (fun p => (p_group p, p_mm p, p_files p, p_fs_context p, p_sighand p)) ps' ->
  held c0 x ps c -> held c0 x ps' c.
Proof.
  intros E (W & S & I & P). split; [done|]. split; [done|]. split; [done|]. unfold proc_inv in *.
  assert (Hf : forall T (f : option Z * option Z * option Z * option Z * option Z -> T),
    map (fun p => f (p_group p, p_mm p, p_files p, p_fs_context p, p_sighand p)) ps =
    map (fun p => f (p_group p, p_mm p, p_files p, p_fs_context p, p_sighand p)) ps').
  { intros T f. rewrite <- !(map_map (fun p => (p_group p, p_mm p, p_files p, p_fs_context p, p_sighand p)) f). by rewrite E. }
  rewrite !map_app in *.
  assert (E1 : map p_files ps = map p_files ps') by exact (Hf _ (fun h => h.1.1.2)).
  assert (E2 : map p_fs_context ps = map p_fs_context ps') by exact (Hf _ (fun h => h.1.2)).
  assert (E3 : map p_sighand ps = map p_sighand ps') by exact (Hf _ snd).
  assert (E4 : map p_mm ps = map p_mm ps') by exact (Hf _ (fun h => h.1.1.1.2)).
  assert (E5 : map p_group ps = map p_group ps') by exact (Hf _ (fun h => h.1.1.1.1)).
  by rewrite <- E1, <- E2, <- E3, <- E4, <- E5.
Qed.

Lemma held_empty c0 x p ps c : owns_nothing p -> (held c0 x (p :: ps) c <-> held c0 x ps c).
Proof.
  intros (E1 & E2 & E3 & E4 & E5). unfold held. cbn [app].
  rewrite (empty_inv (rt_k (c_rt c)) p (ps ++ others c0 x)); [done|]. exists (p_alive p). unfold holdings. congruence.
Qed.

(** One record's objects divided between two. *)
Definition divided (o o1 o2 : option Z) : Prop := (o1 = o /\ o2 = None) \/ (o1 = None /\ o2 = o).
Definition splits p p1 p2 : Prop :=
  divided (p_files p) (p_files p1) (p_files p2) /\ divided (p_fs_context p) (p_fs_context p1) (p_fs_context p2) /\
  divided (p_sighand p) (p_sighand p1) (p_sighand p2) /\ divided (p_mm p) (p_mm p1) (p_mm p2) /\
  divided (p_group p) (p_group p1) (p_group p2).

Lemma divided_inv {T} `{RefCounted T} (l : list T) o o1 o2 ow :
  divided o o1 o2 -> pool_inv l (o1 :: o2 :: ow) <-> pool_inv l (o :: ow).
Proof.
  intros [(-> & ->)|(-> & ->)]; [|apply pool_inv_none].
  assert (Hp : o :: None :: ow ≡ₚ None :: o :: ow) by constructor. rewrite Hp. apply pool_inv_none.
Qed.

Lemma held_split c0 x p p1 p2 ps c : splits p p1 p2 -> held c0 x (p1 :: p2 :: ps) c <-> held c0 x (p :: ps) c.
Proof.
  intros (D1 & D2 & D3 & D4 & D5). unfold held, proc_inv, kinv. cbn [app map].
  by rewrite (divided_inv _ _ _ _ _ D1), (divided_inv _ _ _ _ _ D2), (divided_inv _ _ _ _ _ D3),
    (divided_inv _ _ _ _ _ D4), (divided_inv _ _ _ _ _ D5).
Qed.

(** Giving back the address space of a record. *)
Lemma held_mm_put c0 x p ps c :
  held c0 x (p :: ps) c ->
  let '(R, p') := lxp_region_mm_put (c_rt c) p in
  p' = set_p_mm p None /\ rt_slots R = rt_slots (c_rt c) /\ held c0 x (p' :: ps) (set_c_rt c R).
Proof.
  intros Hh. unfold lxp_region_mm_put. destruct (mm_of (c_rt c) p) as [mm|] eqn:E.
  - pose proof (calm_region_put (c_rt c) (mm_region mm)) as Hc. set (R := (lxp_region_put _ _).2) in *.
    pose proof (held_calm c0 x _ _ (set_c_rt c R) Hh Hc eq_refl) as Hh'.
    destruct Hh' as (W & S & I & P).
    pose proof (mm_put_inv (rt_k R) p _ _ _ _ _ P) as HM. destruct (lxp_proc_mm_put (rt_k R) p) as [k p'].
    cbn [fst snd] in HM. destruct HM as (HK & ->). split; [done|]. split; [apply region_put_slots|].
    apply (held_k c0 x (p :: ps) (set_p_mm p None :: ps) (set_c_rt c R) k); [done|].
    destruct HK as (? & ? & ? & ? & Hm & ?). cbn [map app] in *. unfold proc_inv. cbn [map app p_files p_fs_context p_sighand p_mm p_group set_p_mm].
    kinv_split; try done. by apply pool_inv_none.
  - assert (Hn : p_mm p = None) by (unfold mm_of in E; by destruct (p_mm p)).
    rewrite set_p_mm_same by done. split; [done|]. split; [done|]. exact Hh.
Qed.

(** Giving back descriptors, context and dispositions, and the group. *)
Lemma held_resources_put c0 x p ps c b :
  held c0 x (p :: ps) c ->
  let '(k, b', p') := lxp_proc_resources_put (rt_k (c_rt c)) b p in
  p' = set_p_sighand (set_p_fs_context (set_p_files p None) None) None /\
  held c0 x (p' :: ps) (set_c_rt c (set_rt_k (c_rt c) k)).
Proof.
  intros Hh. pose proof Hh as (W & S & I & P). cbn [app] in P. unfold proc_inv in P. cbn [map] in P.
  pose proof (resources_put_inv (rt_k (c_rt c)) b p _ _ _ _ _ P) as HR.
  destruct (lxp_proc_resources_put _ b p) as [[k b'] p']. destruct HR as (HK & ->). split; [done|].
  eapply held_k; [exact Hh|]. destruct HK as (? & ? & ? & ? & ? & ?). unfold proc_inv. cbn [map app].
  kinv_split; try done; by apply pool_inv_none.
Qed.

Lemma held_group_put c0 x p ps c :
  held c0 x (p :: ps) c ->
  let '(k, p') := lxp_proc_group_put (rt_k (c_rt c)) p in
  p' = set_p_group p None /\ held c0 x (p' :: ps) (set_c_rt c (set_rt_k (c_rt c) k)).
Proof.
  intros Hh. pose proof Hh as (W & S & I & P). cbn [app] in P. unfold proc_inv in P. cbn [map] in P.
  pose proof (group_put_inv (rt_k (c_rt c)) p _ _ _ _ _ P) as HR.
  destruct (lxp_proc_group_put _ p) as [k p']. cbn [fst snd] in HR. destruct HR as (HK & ->). split; [done|].
  eapply held_k; [exact Hh|]. destruct HK as (? & ? & ? & ? & ? & ?). unfold proc_inv. cbn [map app].
  kinv_split; try done; by apply pool_inv_none.
Qed.

(** The table behind an account of one slot. *)
Lemma held_table c x c' :
  slot_in x = true -> table_inv c -> held c x [cproc c' x] c' -> (p_alive (cproc c' x) = 0 -> empty_handed (cproc c' x)) ->
  table_inv c'.
Proof.
  intros Hx (T1 & T2 & T3 & T4) (W' & S' & I' & P') Hd. split; [apply W'|]. split; [done|]. split; [by eapply tasks_of_others|].
  intros s Hs Ha. destruct (decide (s = x)) as [->|Hne]; [by apply Hd|].
  destruct S' as (_ & Sa). pose proof (proj1 (slot_in_range s) Hs) as Hsr. destruct (Sa s ltac:(lia) Hne) as (Eh & _).
  change (holdings (cproc c' s) = holdings (cproc c s)) in Eh.
  change (p_alive ?q) with (holdings q).1.1.1.1.1 in Ha. rewrite Eh in Ha. destruct (T4 s Hs Ha) as (a & E). exists a. by rewrite Eh.
Qed.

Lemma owns_nothing_empty p : owns_nothing p -> empty_handed p.
Proof. intros (O1 & O2 & O3 & O4 & O5). exists (p_alive p). unfold holdings. congruence. Qed.

Lemma owns_holdings p p' : holdings p' = holdings p -> owns_nothing p -> owns_nothing p'.
Proof. intros [= _ E1 E2 E3 E4 E5] (O1 & O2 & O3 & O4 & O5). unfold owns_nothing. split_and!; congruence. Qed.

Lemma held_holdings c0 x p p' ps c : holdings p' = holdings p -> held c0 x (p :: ps) c -> held c0 x (p' :: ps) c.
Proof. intros [= _ E1 E2 E3 E4 E5]. apply held_like. cbn [map]. congruence. Qed.

Lemma calm_agree c c' x : slot_in x = true -> calm (c_rt c) (c_rt c') ->
  holdings (cproc c' x) = holdings (cproc c x) /\ lxp_slot_generation (c_rt c') x = lxp_slot_generation (c_rt c) x.
Proof. intros Hx%slot_in_range ((_ & Ha) & _). apply Ha. lia. Qed.

(** ** Child events *)

Lemma enqueue_refs g e : tg_refs (group_enqueue g e) = tg_refs g.
Proof. unfold group_enqueue. by destruct (_ && _). Qed.

(** A child event changes no reference: the parent's group keeps its owners. *)
Lemma event_publish_pools c ppid e ps slot gi :
  parent_task_for_child c ppid e = Some slot -> p_group (cproc c slot) = Some gi -> Some gi ∈ map p_group ps ->
  proc_inv (rt_k (c_rt c)) ps -> region_inv (c_rt c) ->
  let c' := child_event_publish ops c ppid e in proc_inv (rt_k (c_rt c')) ps /\ region_inv (c_rt c').
Proof.
  intros Hp Hgi Hin HP HI. cbv zeta. unfold child_event_publish. rewrite Hp, Hgi.
  set (c1 := if _ && _ then _ else c).
  assert (P1 : proc_inv (rt_k (c_rt c1)) ps /\ region_inv (c_rt c1)).
  { unfold c1. destruct (_ && _); [|done]. split; [by apply put_group_inv|done]. }
  destruct P1 as (P1 & I1).
  assert (Hlatch : let c2 := put_group c1 gi (group_enqueue (group_at c1 gi) e) in
    let c3 := if negb (ce_notify e =? 0) then put_cproc c2 slot (lxp_signal_latch (cproc c2 slot) LXP_SIGCHLD) else c2 in
    proc_inv (rt_k (c_rt c3)) ps /\ region_inv (c_rt c3)).
  { cbv zeta. assert (P2 : proc_inv (rt_k (c_rt (put_group c1 gi (group_enqueue (group_at c1 gi) e)))) ps)
      by (apply put_group_inv; [done|done|apply enqueue_refs]).
    destruct (negb _); (split; [exact P2|done]). }
  destruct (child_wait_accepts (cproc c1 slot) e); [|exact Hlatch].
  destruct (w_data (p_wait (cproc c1 slot))) as [| |wp o st| | | | |]; try exact Hlatch. clear Hlatch.
  set (c2 := if negb (st =? 0) then _ else c1).
  assert (P2 : rt_k (c_rt c2) = rt_k (c_rt c1) /\ rt_regions (c_rt c2) = rt_regions (c_rt c1))
    by (unfold c2; by destruct (negb _)).
  destruct P2 as (K2 & R2). set (c3 := put_cproc c2 slot _).
  pose proof (quiet_apply ops (c_h c3) (c_rt c3) (LXP_OUTCOME_REMAIN_PARKED slot)) as Q1.
  unfold lxp_coordinator_park_slot. destruct (lxp_lifecycle_apply _ _ _ _) as [[rc1 h1] R1].
  pose proof (quiet_complete ops h1 R1 (lxp_slot_ref_at R1 slot) (ce_pid e)) as Q2.
  destruct (lxp_coordinator_complete_slot _ _ _ _ _) as [[rc2 h2] R2']. cbn [snd] in Q1, Q2.
  pose proof (quiet_trans _ _ _ Q1 Q2) as Q. cbn [set_c_rt c_rt]. unfold region_inv.
  rewrite (quiet_k _ _ Q), (quiet_regions _ _ Q). change (c_rt c3) with (put_proc (c_rt c2) slot (lxp_wait_complete (cproc c2 slot) LXP_WAIT_CHILD).2).
  split; [by rewrite <- K2 in P1|]. unfold region_inv in I1. by rewrite <- R2 in I1.
Qed.

Lemma event_publish_held c0 x ps c ppid e :
  slot_in x = true -> p_alive (cproc c x) = 0 -> held c0 x ps c -> held c0 x ps (child_event_publish ops c ppid e) /\
  steady (c_rt c) (c_rt (child_event_publish ops c ppid e)).
Proof.
  intros Hx Ha Hh. pose proof Hh as (W & S & I & P).
  destruct (publish_steady ops c ppid e W) as (Hs & Hv). split; [|exact Hs].
  split; [apply (coord_wf_steady_but c _ x); [done|by apply steady_but_of|done]|].
  split; [transitivity (c_rt c); [done|by apply steady_but_of]|].
  destruct (parent_task_for_child c ppid e) as [slot|] eqn:Ep.
  2:{ unfold child_event_publish. rewrite Ep. done. }
  destruct (p_group (cproc c slot)) as [gi|] eqn:Eg.
  2:{ unfold child_event_publish. rewrite Ep, Eg. done. }
  assert (Hne : slot <> x).
  { intros ->. apply parent_scan_in in Ep as [?|(_ & Ht)]; [done|]. unfold task_of_group in Ht. by rewrite Ha in Ht. }
  pose proof (parent_slot_in _ _ _ _ Ep) as Hsi. pose proof (proj1 (slot_in_range slot) Hsi) as Hr.
  assert (Hin : Some gi ∈ map p_group (ps ++ others c0 x)).
  { rewrite map_app. apply elem_of_app. right. destruct S as (_ & Ha'). destruct (Ha' slot ltac:(lia) Hne) as (Eh & _).
    change (p_group ?q) with (holdings q).1.1.1.1.2 in Eg. unfold cproc in Eg. rewrite Eh in Eg. rewrite <- Eg.
    change (p_group (cproc c0 slot) ∈ map p_group (others c0 x)). apply list_elem_of_fmap_2. by apply others_in. }
  destruct (event_publish_pools c ppid e _ slot gi Ep Eg Hin P I) as (P' & I'). by split.
Qed.

End Held.
