(* ===== verification/ExecProps.v ===== *)
(** * Properties of the exec handler

    Whatever the host answers and wherever the transaction fails, the pools stay exactly
    accounted, no other task loses or gains anything, and the slot ends in one of three
    states: the old program as it was, the new image with the old identity, or nothing. *)

From S2P Require Import Prelude Config Errno Path Proc Pool Fd FdSpec Guest Wait Pipe Arena Process ProcessSpec.
From S2P Require Import ProcessProps Runtime Event Region RegionProps Lifecycle Quiet Signal SignalProps SysSignal.
From S2P Require Import Child ChildProps SignalRoute Exit Console Blocked Fork ForkProps Loader LoaderProps Bootstrap.
From S2P Require Import Image Exec ExecSpec.
Local Open Scope Z_scope.

Section ExecProps.
Context {H B : Type} `{FileOps B} (ops : os_task H) (xops : os_exit H).
Context (exec_capture : Z -> option Z) (failpoint : lxp_lifecycle_failpoint -> bool).
Context (random_fill : Z -> option (list Z)) (publish_executable : H -> lxp_ref -> Z -> Z -> Z * H) (cfg : lxp_run_config).
Context (stage_buf : Z * Z).
Implicit Types (c : coord H) (b : B) (p : lxp_proc) (ps : list lxp_proc) (t : exec_txn) (it : image_txn).

(** ** States of the slot *)

(** As it was in [c0]. *)
Definition intact c0 (x : Z) c : Prop := held c0 x [cproc c x] c /\ agree (c_rt c0) (c_rt c) x.

(** Without a task, in its next generation. *)
Definition vacant c0 (x : Z) c : Prop :=
  p_alive (cproc c x) = 0 /\ owns_nothing (cproc c x) /\
  lxp_slot_generation (c_rt c) x = generation_next (lxp_slot_generation (c_rt c0) x).

(** A record that carries on the identity of another. *)
Definition carries (p0 p : lxp_proc) : Prop :=
  p_alive p = 1 /\ p_pid p = p_pid p0 /\ p_group p = p_group p0 /\ p_fs_context p = p_fs_context p0 /\
  p_mm p <> None /\ p_sighand p <> None.

Definition replaced c0 (x : Z) c : Prop :=
  held c0 x [cproc c x] c /\ carries (cproc c0 x) (cproc c x) /\
  lxp_slot_generation (c_rt c) x = generation_next (lxp_slot_generation (c_rt c0) x).

Lemma intact_calm c0 x c c' :
  slot_in x = true -> intact c0 x c -> calm (c_rt c) (c_rt c') -> c_save c' = c_save c -> intact c0 x c'.
Proof.
  intros Hx (Hh & Ha1 & Ha2) Hc Hv. destruct (calm_agree c c' x Hx Hc) as (E1 & E2).
  split; [|split; [|congruence]].
  - eapply held_holdings; [exact E1|]. by eapply held_calm.
  - change (holdings (cproc c' x) = holdings (sproc (c_rt c0) x)). by rewrite E1.
Qed.

Lemma vacant_calm c0 x c c' : slot_in x = true -> vacant c0 x c -> calm (c_rt c) (c_rt c') -> vacant c0 x c'.
Proof.
  intros Hx (V1 & V2 & V3) Hc. destruct (calm_agree c c' x Hx Hc) as (E1 & E2).
  split; [by injection E1 as ->|]. split; [by eapply owns_holdings|congruence].
Qed.

(** Every task keeps its number. *)
Definition pids_kept (R R' : lxp_runtime) : Prop := forall s, p_pid (sproc R' s) = p_pid (sproc R s).
Lemma quiet_pids R R' : quiet R R' -> pids_kept R R'.
Proof. intros Hq s. exact (f_equal p_pid (quiet_strip _ _ s Hq)). Qed.

(** A change outside the slots. *)
Lemma vacant_slots c0 x c c' : vacant c0 x c -> rt_slots (c_rt c') = rt_slots (c_rt c) -> vacant c0 x c'.
Proof.
  unfold vacant, cproc, sproc, lxp_slot_generation, slot_at. by intros Hv ->.
Qed.

(** ** The commit *)

Lemma commit_restore_calm t c :
  coord_wf c -> 0 <= ref_index (ei_old_ref (et_id t)) < LXP_NSLOT -> slot_in (ei_slot (et_id t)) = true ->
  let '(rc, t', c') := commit_restore_parent xops t c in
  calm (c_rt c) (c_rt c') /\ c_save c' = c_save c /\
  if rc =? LXP_OK then t' = t \/ t' = set_et_restored t true else et_terminal t' = true.
Proof.
  intros (Hl & _) Ho Hs%slot_in_range. unfold commit_restore_parent.
  destruct (_ <? 0); [by split_and!; [|..|left]|].
  assert (Hst : forall R, calm (c_rt c) R -> calm (c_rt c) (lxp_vfork_contain_stale R (ei_old_ref (et_id t)))).
  { intros R Hc. transitivity R; [done|]. apply contain_stale_calm. rewrite (proj1 (proj1 Hc)). lia. }
  destruct (lxp_slot_resume_view _ _) as [ctx|]; [|split; [by apply Hst|done]].
  destruct (_ <? 0); [split; [by apply Hst|done]|].
  pose proof (restore_calm (os_region xops) (os_dyn_pool xops) (c_rt c) (ref_index (ei_parent_ref (et_id t)))
    (p_snapshot (cproc c (ei_slot (et_id t)))) (ei_old_ref (et_id t)) (rc_sp ctx)) as Hr.
  destruct (lxp_vfork_restore _ _ _ _ _ _ _) as [rc R]. cbn [snd] in Hr.
  destruct (rc =? 0) eqn:Erc; cbn [negb]; [|split; [by apply Hst|done]].
  split; [|split; [done|by right]]. transitivity R; [done|].
  apply calm_store_proc; [|done]. cbn [c_rt set_c_rt]. rewrite (proj1 (proj1 Hr)). lia.
Qed.

Lemma stop_peers_calm slots c src st rc :
  let '(_, c') := stop_peers ops c src st slots rc in calm (c_rt c) (c_rt c') /\ c_save c' = c_save c.
Proof.
  revert c rc. induction slots as [|s slots IH]; intros c rc; cbn [stop_peers]; [done|].
  destruct (_ || _); [apply IH|].
  pose proof (quiet_apply ops (c_h c) (c_rt c) (LXP_OUTCOME_EXIT s)) as Hq.
  change (lxp_lifecycle_apply ops (c_h c) (c_rt c) (LXP_OUTCOME_EXIT s)) with (lxp_coordinator_abort_slot ops (c_h c) (c_rt c) s) in Hq.
  destruct (lxp_coordinator_abort_slot ops (c_h c) (c_rt c) s) as [[e h] R]. cbn [snd] in Hq.
  set (R' := lxp_coordinator_exit_slot R s _ _ _ _). set (rc' := if negb _ then _ else rc).
  specialize (IH (set_c_rt (set_c_h c h) R') rc'). destruct (stop_peers _ _ _ _ _ _) as [rc2 c2].
  destruct IH as (C & V). split; [|done]. transitivity R'; [|done].
  apply calm_quiet. eapply quiet_trans; [exact Hq|apply quiet_exit_slot].
Qed.

Lemma abort_calm c s :
  let '(_, h, R) := lxp_coordinator_abort_slot ops (c_h c) (c_rt c) s in calm (c_rt c) R.
Proof.
  pose proof (quiet_apply ops (c_h c) (c_rt c) (LXP_OUTCOME_EXIT s)) as Hq. unfold lxp_coordinator_abort_slot.
  destruct (lxp_lifecycle_apply _ _ _ _) as [[rc h] R]. by apply calm_quiet.
Qed.

Lemma private_files_held c0 c b x :
  slot_in x = true -> held c0 x [cproc c x] c ->
  let '(rc, c', b') := exec_private_files c b x in
  lxp_slot_generation (c_rt c') x = lxp_slot_generation (c_rt c) x /\ held c0 x [cproc c' x] c' /\
  if rc =? LXP_OK then exists ti, cproc c' x = set_p_files (cproc c x) (Some ti) else cproc c' x = cproc c x.
Proof.
  intros Hx Hh. unfold exec_private_files. pose proof Hh as (W & S & I & P).
  cbn [app] in P. unfold proc_inv in P. cbn [map] in P.
  pose proof (unshare_inv (rt_k (c_rt c)) (cproc c x) _ _ _ _ _ P) as HU.
  destruct (lxp_proc_files_unshare (rt_k (c_rt c)) (cproc c x)) as [[rc k] p'].
  pose proof (proj1 W) as Hl. assert (E1 : cproc (put_owned c x k p') x = p') by (by apply cproc_put).
  assert (Hg : lxp_slot_generation (c_rt (put_owned c x k p')) x = lxp_slot_generation (c_rt c) x).
  { unfold put_owned, lxp_slot_generation. by rewrite slot_at_put_cproc. }
  destruct HU as [(Hrc & -> & ->)|(-> & (ti & ->) & HK)].
  - destruct (Z.eqb_spec rc 0) as [|_]; [done|]. cbn [negb]. split; [done|]. split; [|done]. rewrite E1.
    unfold put_owned. apply held_put; [done|]. by eapply held_k.
  - cbn [negb Z.eqb].
    pose proof (cloexec_inv k b (Some ti) _ _ _ _ _ (list_elem_of_here _ _) HK) as HC.
    change (p_files (set_p_files (cproc c x) (Some ti))) with (Some ti). change (rt_k (c_rt (put_owned c x k ?p))) with k.
    destruct (lxp_fd_close_on_exec k b (Some ti)) as [k2 b2]. cbn [fst] in HC.
    split; [done|]. split; [|by exists ti]. change (cproc (set_c_rt ?d _) x) with (cproc d x). rewrite E1.
    apply (held_k c0 x [set_p_files (cproc c x) (Some ti)]); [|exact HC].
    unfold put_owned. apply held_put; [done|]. by eapply held_k.
Qed.

(** The old record's objects change hands; its address space goes. *)
Lemma detach_held c0 t c x :
  ei_slot (et_id t) = x -> slot_in x = true -> held c0 x [cproc c x] c -> et_old_detached t = false ->
  let '(t', c') := exec_txn_detach_old t c in
  held c0 x [et_saved t'] c' /\ p_alive (cproc c' x) = 0 /\ owns_nothing (cproc c' x) /\
  lxp_slot_generation (c_rt c') x = lxp_slot_generation (c_rt c) x /\ p_mm (et_saved t') = None /\
  p_group (et_saved t') = p_group (cproc c x) /\ p_fs_context (et_saved t') = p_fs_context (cproc c x) /\
  t' = set_et_detached (set_et_saved t (et_saved t')) true.
Proof.
  intros <- Hx Hh Hd. unfold exec_txn_detach_old. rewrite Hd. set (x := ei_slot (et_id t)) in *.
  set (saved := set_p_nice _ _). set (bare := set_p_group _ None).
  assert (Hb : held c0 x [bare; saved] c).
  { apply (held_split c0 x (cproc c x)); [|done]. unfold splits, divided. cbn. tauto. }
  pose proof (held_mm_put c0 x bare [saved] c Hb) as HM.
  destruct (lxp_region_mm_put (c_rt c) bare) as [R old]. destruct HM as (-> & HR & HM).
  set (gone := set_p_alive _ 0). set (c1 := put_cproc (set_c_rt c R) x gone).
  assert (W1 : coord_wf (set_c_rt c R)) by apply HM.
  assert (E1 : cproc c1 x = gone) by (by apply cproc_put).
  set (c2 := set_c_rt c1 _).
  assert (Hc2 : calm (c_rt c1) (c_rt c2)) by (apply calm_quiet, quiet_runnable).
  destruct (calm_agree c1 c2 x Hx Hc2) as (A1 & A2). rewrite E1 in A1.
  assert (Hg : lxp_slot_generation (c_rt c1) x = lxp_slot_generation (c_rt c) x).
  { unfold c1, lxp_slot_generation. rewrite slot_at_put_cproc by (try apply W1; done). cbn [c_rt set_c_rt].
    unfold slot_at. by rewrite HR. }
  assert (H1 : held c0 x [saved] c1).
  { apply held_put; [done|]. by apply (held_empty c0 x (set_p_mm bare None)). }
  split; [by apply (held_calm c0 x _ c1)|]. split; [injection A1 as ->; done|].
  split; [by apply (owns_holdings gone)|]. split; [congruence|]. done.
Qed.

Lemma reassign_held c0 t c x ps :
  ei_slot (et_id t) = x -> slot_in x = true -> held c0 x ps c ->
  let '(t', c') := exec_reassign t c in
  held c0 x ps c' /\ cproc c' x = cproc c x /\
  lxp_slot_generation (c_rt c') x = generation_next (lxp_slot_generation (c_rt c) x) /\
  t' = set_et_new_ref (set_et_reassigned t true) (et_new_ref t').
Proof.
  intros <- Hx Hh. unfold exec_reassign. set (x := ei_slot (et_id t)) in *.
  pose proof (proj1 (slot_in_range x) Hx) as Hr. destruct Hh as (W & Hh).
  destruct (reassign_slot (c_rt c) x ltac:(rewrite (proj1 W); lia)) as (S1 & S2 & S3).
  split; [|split; [|split; [|done]]].
  - apply (held_step c0 x ps c); [done|apply reassign_steady_but; lia|done|done|done].
  - unfold cproc, sproc, lxp_deferred_slot_reassign, lxp_deferred_state_store. cbn [c_rt set_c_rt].
    rewrite !slot_at_put_same by (unfold put_slot; cbn; rewrite ?alen_aset, (proj1 W); lia). done.
  - unfold lxp_deferred_slot_reassign, lxp_deferred_state_store, lxp_slot_generation. cbn [c_rt set_c_rt].
    rewrite !slot_at_put_same by (unfold put_slot; cbn; rewrite ?alen_aset, (proj1 W); lia). done.
Qed.

(** ** The image *)

Lemma image_spaces_error dp region ri li e : image_spaces dp region ri li = inl e -> e = - LXP_ENOMEM.
Proof. unfold image_spaces. repeat case_match; naive_solver. Qed.

(** The image is built off-slot: pools and memory change, the slots do not. *)
Lemma build_held c0 x it c b region pid ppid argv envp li ps :
  held c0 x ps c -> owns_nothing (it_proc it) ->
  let '(rc, it', c', b') := build_process xops random_fill cfg it c b region pid ppid argv envp li in
  rt_slots (c_rt c') = rt_slots (c_rt c) /\ held c0 x (it_proc it' :: ps) c' /\
  it_published it' = it_published it /\ it_slot it' = it_slot it /\
  (rc = LXP_OK -> p_alive (it_proc it') = 1 /\ p_pid (it_proc it') = pid /\ p_mm (it_proc it') <> None /\
     p_sighand (it_proc it') <> None).
Proof.
  intros Hh Ho. unfold build_process.
  assert (Hfail : forall c', rt_slots (c_rt c') = rt_slots (c_rt c) -> held c0 x ps c' ->
    rt_slots (c_rt c') = rt_slots (c_rt c) /\ held c0 x (it_proc it :: ps) c' /\
    it_published it = it_published it /\ it_slot it = it_slot it /\
    (- LXP_ENOMEM = LXP_OK -> p_alive (it_proc it) = 1 /\ p_pid (it_proc it) = pid /\ p_mm (it_proc it) <> None /\
       p_sighand (it_proc it) <> None)).
  { intros c' Hs Hc'. split; [done|]. split; [by apply held_empty|done]. }
  destruct (image_spaces _ _ _ _) as [e|[[arena_mem arena_size] stack_lo]] eqn:Esp.
  { apply image_spaces_error in Esp as ->. by apply Hfail. }
  destruct (lxp_region_arena _ _) as [A|]; [|by apply Hfail].
  destruct (lxp_arena_init _ A arena_mem arena_size) as [[rc1 m1] A1].
  set (c1 := set_c_rt c _).
  assert (H1 : held c0 x ps c1) by (apply (held_calm c0 x ps c); [done|by apply calm_slots|done]).
  destruct (rc1 =? LXP_OK); cbn [negb]; [|by apply Hfail].
  pose proof H1 as (W1 & S1 & I1 & P1).
  pose proof (proc_init_inv (rt_k (c_rt c1)) b (rt_mem (c_rt c1)) A1 (ref_index (it_region it)) 0x8000 _ P1) as HP.
  destruct (lxp_proc_init _ b _ A1 _ _) as [[[[[rc2 k2] b2] m2] A2] p].
  set (c2 := set_c_rt c1 _).
  assert (Hk : forall ps', proc_inv k2 (ps' ++ others c0 x) -> held c0 x ps' c2).
  { intros ps' Hps. apply (held_calm c0 x ps' (set_c_rt c1 (set_rt_k (c_rt c1) k2))); [by eapply held_k|by apply calm_slots|done]. }
  destruct HP as [(-> & HP & Hn)|(-> & HP & _ & Hall)].
  { split; [done|]. split; [apply held_empty; [done|by apply Hk]|done]. }
  cbn [negb Z.eqb]. specialize (Hk (p :: ps) HP). clear HP.
  destruct (p_group p) as [gi|] eqn:Eg; [|by split_and!; [| |..|intros]].
  destruct (p_mm p) as [mi|] eqn:Em; [|by split_and!; [| |..|intros]].
  set (c3 := put_group c2 gi _). set (c4 := set_c_rt c3 _). set (p' := proc_of_image _ _ _ _ _ _).
  assert (H4 : held c0 x (p :: ps) c4).
  { apply (held_k c0 x (p :: ps) (p :: ps) c3); [apply (held_k c0 x (p :: ps) (p :: ps) c2); [done|]|].
    - destruct Hk as (_ & _ & _ & Hk). apply kinv_group_update; [rewrite <- Eg; by left|done|done].
    - destruct Hk as (_ & _ & _ & Hk). apply kinv_mm_update; [rewrite <- Em; by left|done|].
      apply kinv_group_update; [rewrite <- Eg; by left|done|done]. }
  destruct (lxp_setup_stack _ _ _ _ _ _ _ _ _ _ _) as [sp m4]. set (c5 := set_c_rt c4 _).
  assert (H5 : held c0 x (p' :: ps) c5).
  { apply (held_calm c0 x _ c4); [|by apply calm_slots|done]. by apply (held_like c0 x (p :: ps)). }
  destruct sp as [sp|]; [|by split_and!; [| |..|intros]].
  split; [done|]. split; [exact H5|]. split; [done|]. split; [done|]. intros _. cbn [it_proc set_it_ready].
  destruct Hall as (_ & _ & A3 & A4 & _). by split_and!.
Qed.

Lemma load_program_error fuel m region data len re e m' :
  load_program fuel cfg m region data len re = Some (inl e, m') -> e = - LXP_ENOEXEC.
Proof. unfold load_program, load_interp. repeat case_match; naive_solver. Qed.

Lemma prepare_held c0 x fuel it c b data len pid ppid argv envp re ps rc it' c' b' :
  held c0 x ps c -> owns_nothing (it_proc it) ->
  lxp_image_txn_prepare xops random_fill cfg fuel it c b data len pid ppid argv envp re = Some (rc, it', c', b') ->
  rt_slots (c_rt c') = rt_slots (c_rt c) /\ held c0 x (it_proc it' :: ps) c' /\
  it_published it' = it_published it /\ it_slot it' = it_slot it /\
  (rc = LXP_OK -> p_alive (it_proc it') = 1 /\ p_pid (it_proc it') = pid /\ p_mm (it_proc it') <> None /\
     p_sighand (it_proc it') <> None).
Proof.
  intros Hh Ho. unfold lxp_image_txn_prepare.
  assert (He : forall c1 e, rt_slots (c_rt c1) = rt_slots (c_rt c) -> held c0 x ps c1 -> e <> LXP_OK ->
    Some (e, it, c1, b) = Some (rc, it', c', b') ->
    rt_slots (c_rt c') = rt_slots (c_rt c) /\ held c0 x (it_proc it' :: ps) c' /\
    it_published it' = it_published it /\ it_slot it' = it_slot it /\
    (rc = LXP_OK -> p_alive (it_proc it') = 1 /\ p_pid (it_proc it') = pid /\ p_mm (it_proc it') <> None /\
       p_sighand (it_proc it') <> None)).
  { intros c1 e Hs Hc1 Hne [= <- <- <- <-]. split; [done|]. split; [by apply held_empty|]. by split_and!. }
  destruct (_ || _); [by apply He|].
  destruct (load_program _ _ _ _ _ _ _) as [[[e|li] m]|] eqn:El; [| |done].
  - apply load_program_error in El as ->. apply He; [done| |done].
    apply (held_calm c0 x ps c); [done|by apply calm_slots|done].
  - intros [= Eb]. set (c1 := set_c_rt c _) in Eb.
    assert (H1 : held c0 x ps c1) by (apply (held_calm c0 x ps c); [done|by apply calm_slots|done]).
    pose proof (build_held c0 x it c1 b (os_region xops (ref_index (it_region it))) pid ppid argv envp li ps H1 Ho) as HB. by rewrite Eb in HB.
Qed.

(** The image takes the saved objects over. *)
Lemma adopt_held c0 x t it c b :
  held c0 x [it_proc it; et_saved t] c -> p_mm (et_saved t) = None ->
  let '(t', it', c', b') := exec_txn_adopt_old_resources t it c b in
  rt_slots (c_rt c') = rt_slots (c_rt c) /\ held c0 x [it_proc it'] c' /\ owns_nothing (et_saved t') /\
  it_published it' = it_published it /\ it_slot it' = it_slot it /\ t' = set_et_saved t (et_saved t') /\
  p_alive (it_proc it') = p_alive (it_proc it) /\ p_pid (it_proc it') = p_pid (it_proc it) /\
  p_mm (it_proc it') = p_mm (it_proc it) /\ p_sighand (it_proc it') = p_sighand (it_proc it) /\
  p_group (it_proc it') = p_group (et_saved t) /\ p_fs_context (it_proc it') = p_fs_context (et_saved t).
Proof.
  intros Hh Hm. unfold exec_txn_adopt_old_resources. set (im := it_proc it) in *. set (sv := et_saved t) in *.
  set (im0 := set_p_sighand im None). set (keep := set_p_sighand proc_zero (p_sighand im)).
  assert (Hsp : held c0 x [im0; keep; sv] c).
  { apply (held_split c0 x im); [|done]. unfold splits, divided. cbn. tauto. }
  pose proof (held_resources_put c0 x im0 [keep; sv] c b Hsp) as H1.
  destruct (lxp_proc_resources_put _ b im0) as [[k1 b1] im1]. destruct H1 as (-> & H1).
  set (im1 := set_p_sighand (set_p_fs_context (set_p_files im0 None) None) None) in *.
  set (c1 := set_c_rt c _) in H1. set (im2 := set_p_sighand im1 (p_sighand im)).
  assert (H2 : held c0 x [im2; sv] c1).
  { apply (held_split c0 x im2 im1 keep); [|done]. unfold splits, divided. cbn. tauto. }
  pose proof (held_group_put c0 x im2 [sv] c1 H2) as H3. change (rt_k (c_rt c1)) with k1 in H3.
  destruct (lxp_proc_group_put k1 im2) as [k2 im3]. destruct H3 as (-> & H3).
  set (im3 := set_p_group im2 None) in *. set (c2 := set_c_rt c1 _) in H3.
  set (im4 := set_p_vfork_parent _ _). set (old := set_p_sighand proc_zero (p_sighand sv)).
  set (sv0 := set_p_sighand sv None).
  assert (H4 : held c0 x [old; im4] c2).
  { apply (held_perm c0 x [im4; old]); [constructor|]. apply (held_split c0 x im4 im3 sv0).
    { unfold splits, divided. cbn. rewrite Hm. tauto. }
    apply (held_perm c0 x [old; sv0; im3]); [solve_Permutation|].
    apply (held_split c0 x sv); [unfold splits, divided; cbn; rewrite Hm; tauto|].
    apply (held_perm c0 x [im3; sv]); [constructor|done]. }
  pose proof (held_resources_put c0 x old [im4] c2 b1 H4) as H5. change (rt_k (c_rt c2)) with k2 in H5.
  destruct (lxp_proc_resources_put k2 b1 old) as [[k3 b3] old']. destruct H5 as (-> & H5).
  apply held_empty in H5; [|done]. split; [done|]. split; [exact H5|]. by split_and!.
Qed.

Lemma stack_zero_wf : stack_wf stack_zero.
Proof. done. Qed.

(** Publication moves the image's objects into the slot, or leaves them off it. *)
Lemma publish_held c0 x it c caps :
  it_slot it = x -> slot_in x = true -> it_published it = false -> held c0 x [it_proc it] c -> vacant c0 x c ->
  let '(rc, it', c', caps') := lxp_image_txn_publish xops exec_capture failpoint publish_executable it c caps in
  it_slot it' = x /\
  if it_published it'
  then held c0 x [cproc c' x] c' /\ owns_nothing (it_proc it') /\
       cproc c' x = set_p_exec_capture (it_proc it) (exec_capture x) /\
       lxp_slot_generation (c_rt c') x = generation_next (lxp_slot_generation (c_rt c0) x)
  else rc <> LXP_OK /\ it_proc it' = it_proc it /\ held c0 x [it_proc it] c' /\ vacant c0 x c'.
Proof.
  intros Es Hx Hp Hh Hv. unfold lxp_image_txn_publish. rewrite Hp. cbn [orb].
  destruct (_ || _) eqn:Eg; [by rewrite Hp|].
  set (pe := if _ && negb (it_executable_published it) then _ else _).
  assert (Hpe : let '(rc, c1) := pe in calm (c_rt c) (c_rt c1) /\ c_save c1 = c_save c).
  { subst pe. clear Eg. destruct (_ && _); [|done]. destruct (_ || _); [done|]. by destruct (publish_executable _ _ _ _). }
  clearbody pe. destruct pe as [rc1 c1]. destruct Hpe as (Hc1 & Hs1).
  assert (H1 : held c0 x [it_proc it] c1) by (by eapply held_calm).
  assert (V1 : vacant c0 x c1) by (by eapply vacant_calm).
  destruct (Z.eqb_spec rc1 LXP_OK) as [_|Hne]; cbn [negb]; [|rewrite Hp; by split_and!].
  unfold lxp_slot_publish_image. cbn [it_slot set_it_flags it_proc]. rewrite Es, Hx. cbn [negb].
  destruct V1 as (Va & (O1 & O2 & O3 & O4 & O5) & Vg). rewrite O1, O2, O3, O4, O5, Va. cbn [negb Z.eqb].
  set (p' := set_p_exec_capture _ _). set (c2 := put_cproc c1 x p'). set (c3 := lxp_slot_signal_reset c2 x).
  assert (W1 : coord_wf c1) by apply H1.
  assert (E2 : cproc c2 x = p') by (by apply cproc_put).
  assert (H3 : held c0 x [p'] c3).
  { apply held_save; [|apply stack_zero_wf]. apply held_put; [done|]. by apply (held_like c0 x [it_proc it]). }
  assert (G3 : lxp_slot_generation (c_rt c3) x = generation_next (lxp_slot_generation (c_rt c0) x)).
  { rewrite <- Vg. unfold c3, c2, lxp_slot_generation. cbn [c_rt lxp_slot_signal_reset put_stack set_c_save].
    rewrite slot_at_put_cproc by (try apply W1; done). done. }
  set (c4 := match p_mm (it_proc it) with Some _ => _ | None => c3 end).
  assert (H4 : held c0 x [p'] c4 /\ rt_slots (c_rt c4) = rt_slots (c_rt c3)).
  { unfold c4. destruct (p_mm (it_proc it)) as [mi|] eqn:Em; [|done]. split; [|done].
    eapply held_k; [exact H3|]. destruct H3 as (_ & _ & _ & P3).
    apply kinv_mm_update; [change (Some mi) with (Some mi); rewrite <- Em; by left|done|exact P3]. }
  destruct H4 as (H4 & S4). clearbody c4. cbn [it_slot set_it_proc set_it_flags it_published].
  rewrite Es.
  set (c5 := match map_device (os_mem xops) with Some _ => _ | None => c4 end).
  assert (E5 : c_rt c5 = c_rt c4 /\ c_save c5 = c_save c4) by (unfold c5; by destruct (map_device _)).
  assert (Ec : cproc c5 x = p').
  { rewrite <- E2. unfold cproc, sproc, slot_at. rewrite (proj1 E5), S4. done. }
  split; [done|]. rewrite Ec. split; [|split; [done|split; [done|]]].
  - apply (held_calm c0 x _ c4); [done|by rewrite (proj1 E5)|apply E5].
  - rewrite <- G3. unfold lxp_slot_generation, slot_at. by rewrite (proj1 E5), S4.
Qed.

Lemma start_calm it c :
  let '(rc, it', c') := lxp_image_txn_start ops failpoint it c in
  calm (c_rt c) (c_rt c') /\ c_save c' = c_save c /\ it_published it' = it_published it /\ it_slot it' = it_slot it /\
  it_proc it' = it_proc it /\ pids_kept (c_rt c) (c_rt c').
Proof.
  unfold lxp_image_txn_start. destruct (negb _); [done|].
  pose proof (quiet_apply ops (c_h c) (c_rt c) (LXP_OUTCOME_LAUNCH (it_slot it) (ref_index (it_region it)) (it_launch it))) as Hq.
  unfold lxp_coordinator_launch_slot. destruct (lxp_lifecycle_apply _ _ _ _) as [[rc h] R]. cbn [snd] in Hq.
  pose proof (quiet_pids _ _ Hq) as Hp. apply calm_quiet in Hq. destruct (negb _); [done|]. destruct (failpoint _); [done|].
  pose proof (calm_commit R (it_region it) (it_owner it)) as Hc. cbn [c_rt set_c_rt set_c_h].
  assert (Hs : rt_slots (lxp_region_commit_address_space R (it_region it) (it_owner it)).2 = rt_slots R)
    by (unfold lxp_region_commit_address_space; by destruct (_ || _)).
  destruct (lxp_region_commit_address_space _ _ _) as [rc2 R2]. cbn [snd] in Hc, Hs.
  assert (Hc2 : calm (c_rt c) R2) by (by transitivity R).
  assert (Hp2 : pids_kept (c_rt c) R2) by (intros s; rewrite <- Hp; unfold sproc, slot_at; by rewrite Hs).
  by destruct (negb _).
Qed.

(** Releasing a whole record. *)
Lemma image_release_held c0 x it c b p ps :
  held c0 x (p :: ps) c ->
  let '(c', b', p') := image_release it c b p in
  owns_nothing p' /\ p_alive p' = 0 /\ held c0 x ps c' /\ rt_slots (c_rt c') = rt_slots (c_rt c) /\ c_save c' = c_save c.
Proof.
  intros Hh. unfold image_release. pose proof (held_resources_put c0 x p ps c b Hh) as H1.
  destruct (lxp_proc_resources_put _ b p) as [[k1 b1] p1]. destruct H1 as (-> & H1).
  set (c1 := set_c_rt c _) in *. set (p1 := set_p_sighand _ None) in *.
  set (mp := match mm_of (c_rt c1) p1 with Some _ => _ | None => _ end).
  assert (Hmp : let '(c2, p2) := mp in p2 = set_p_mm p1 None /\ held c0 x (p2 :: ps) c2 /\
    rt_slots (c_rt c2) = rt_slots (c_rt c) /\ c_save c2 = c_save c).
  { unfold mp. destruct (mm_of (c_rt c1) p1) as [mm|] eqn:Em.
    - destruct (lxp_region_ref_equal _ _).
      + pose proof (held_mm_put c0 x p1 ps c1 H1) as HM. destruct (lxp_region_mm_put _ p1) as [R p2].
        destruct HM as (-> & Hs & HM). split; [done|]. split; [done|]. split; [exact Hs|done].
      + pose proof H1 as (_ & _ & _ & P1). cbn [app] in P1. unfold proc_inv in P1. cbn [map] in P1.
        pose proof (mm_put_inv _ p1 _ _ _ _ _ P1) as HM. destruct (lxp_proc_mm_put _ p1) as [k2 p2].
        cbn [fst snd] in HM. destruct HM as (HK & ->). split; [done|]. split; [|done].
        eapply held_k; [exact H1|]. destruct HK as (? & ? & ? & ? & ? & ?). unfold proc_inv. cbn [map app].
        kinv_split; try done. by apply pool_inv_none.
    - assert (Hn : p_mm p1 = None) by (unfold mm_of in Em; by destruct (p_mm p1)).
      by rewrite set_p_mm_same. }
  clearbody mp. destruct mp as [c2 p2]. destruct Hmp as (-> & H2 & S2 & V2).
  pose proof (held_group_put c0 x _ ps c2 H2) as H3. destruct (lxp_proc_group_put _ _) as [k3 p3].
  destruct H3 as (-> & H3). split; [done|]. split; [done|]. split; [|done].
  by apply (held_empty c0 x (set_p_group (set_p_mm p1 None) None)).
Qed.

Lemma held_release_lease c0 x ps c region owner (d : bool) :
  held c0 x ps c ->
  let c' := if d then set_c_rt c (lxp_region_release_if_owned (c_rt c) region owner).2 else c in
  held c0 x ps c' /\ calm (c_rt c) (c_rt c').
Proof.
  intros Hh. pose proof (calm_release (c_rt c) region owner) as Hc. destruct d; [|done].
  split; [by apply (held_calm c0 x ps c)|done].
Qed.

(** Emptying the slot after its task is gone. *)
Lemma reset_held c0 x c ps :
  slot_in x = true -> held c0 x ps c ->
  let c' := lxp_slot_proc_reset c x in
  held c0 x ps c' /\ cproc c' x = proc_blank /\ lxp_slot_generation (c_rt c') x = lxp_slot_generation (c_rt c) x.
Proof.
  intros Hx Hh. unfold lxp_slot_proc_reset. rewrite Hx. cbn [negb]. split; [by apply held_put|].
  assert (W : coord_wf c) by apply Hh. split; [by apply cproc_put|].
  unfold lxp_slot_generation. rewrite slot_at_put_cproc by (try apply W; done). done.
Qed.

Lemma blank_vacant c0 x c :
  cproc c x = proc_blank -> lxp_slot_generation (c_rt c) x = generation_next (lxp_slot_generation (c_rt c0) x) -> vacant c0 x c.
Proof. intros E G. unfold vacant. by rewrite E. Qed.

(** The abort of an image that is still off the slot. *)
Lemma image_abort_off c0 x it c b ps :
  slot_in x = true -> it_published it = false -> held c0 x (it_proc it :: ps) c -> vacant c0 x c ->
  let '(rc, _, c', b') := lxp_image_txn_abort ops it c b in
  rc = LXP_OK /\ held c0 x ps c' /\ vacant c0 x c'.
Proof.
  intros Hx Hp Hh Hv. unfold lxp_image_txn_abort. rewrite Hp. cbn [andb negb Z.eqb LXP_OK].
  pose proof (image_release_held c0 x it c b (it_proc it) ps Hh) as H1.
  destruct (image_release it c b (it_proc it)) as [[c1 b1] p1]. destruct H1 as (_ & _ & H1 & S1 & _).
  destruct (held_release_lease c0 x ps c1 (it_region (set_it_proc it p1)) (it_owner (set_it_proc it p1))
    (lxp_region_lease_matches (c_rt c1) (it_region (set_it_proc it p1)) (it_owner (set_it_proc it p1)) 1) H1) as (H2 & C2).
  split; [done|]. split; [exact H2|]. eapply vacant_calm; [done| |exact C2]. by eapply vacant_slots.
Qed.

(** The abort of a published image: the slot is emptied, or the native task will not stop
    and the slot keeps what it holds. *)
Lemma image_abort_on c0 x it c b :
  it_slot it = x -> slot_in x = true -> it_published it = true -> held c0 x [cproc c x] c ->
  lxp_slot_generation (c_rt c) x = generation_next (lxp_slot_generation (c_rt c0) x) ->
  let '(rc, _, c', b') := lxp_image_txn_abort ops it c b in
  if rc =? LXP_OK then held c0 x [] c' /\ vacant c0 x c'
  else calm (c_rt c) (c_rt c') /\ c_save c' = c_save c /\ pids_kept (c_rt c) (c_rt c').
Proof.
  intros Es Hx Hp Hh Hg. unfold lxp_image_txn_abort. rewrite Hp, Es. cbn [andb].
  set (ab := if negb (p_alive (cproc c x) =? 0) then _ else _).
  assert (Hab : let '(rc, c1) := ab in calm (c_rt c) (c_rt c1) /\ c_save c1 = c_save c /\ pids_kept (c_rt c) (c_rt c1)).
  { subst ab. destruct (negb _); [|done]. pose proof (quiet_apply ops (c_h c) (c_rt c) (LXP_OUTCOME_EXIT x)) as Hq.
    unfold lxp_coordinator_abort_slot. destruct (lxp_lifecycle_apply _ _ _ _) as [[rc h] R]. cbn [snd] in Hq.
    split; [by apply calm_quiet|]. split; [done|by apply quiet_pids]. }
  clearbody ab. destruct ab as [rc c1]. destruct Hab as (C1 & V1 & N1).
  destruct (rc =? LXP_OK); cbn [negb]; [|done].
  destruct (calm_agree c c1 x Hx C1) as (A1 & A2).
  assert (H1 : held c0 x [cproc c1 x] c1) by (eapply held_holdings; [exact A1|]; by eapply held_calm).
  pose proof (image_release_held c0 x it c1 b (cproc c1 x) [] H1) as H2.
  destruct (image_release it c1 b (cproc c1 x)) as [[c2 b2] p2]. destruct H2 as (_ & _ & H2 & S2 & _).
  assert (W2 : coord_wf c2) by apply H2.
  assert (H3 : held c0 x [] (put_cproc c2 x p2)) by (by apply held_put).
  destruct (reset_held c0 x (put_cproc c2 x p2) [] Hx H3) as (H4 & E4 & G4).
  set (c4 := lxp_slot_proc_reset (put_cproc c2 x p2) x) in *.
  set (R := lxp_primary_slot_clear _ x).
  assert (C5 : calm (c_rt c4) R).
  { unfold R. etransitivity; [apply calm_quiet, quiet_runnable|]. unfold lxp_primary_slot_clear. repeat case_match; done. }
  set (c5 := lxp_slot_signal_reset (set_c_rt c4 R) x).
  assert (H5 : held c0 x [] c5).
  { apply held_save; [|apply stack_zero_wf]. by apply (held_calm c0 x [] c4). }
  assert (V5 : vacant c0 x c5).
  { apply (vacant_calm c0 x c4 c5 Hx); [|exact C5]. apply blank_vacant; [done|].
    rewrite G4, <- Hg, <- A2. unfold lxp_slot_generation. rewrite slot_at_put_cproc by (try apply W2; done).
    unfold slot_at. by rewrite S2. }
  destruct (held_release_lease c0 x [] c5 (it_region it) (it_owner it)
    (lxp_region_lease_matches (c_rt c5) (it_region it) (it_owner it) 1) H5) as (H6 & C6).
  split; [exact H6|]. by eapply vacant_calm.
Qed.

(** ** The report *)

Lemma resume_parent_calm t c :
  let '(t', c') := exec_txn_resume_parent ops t c in
  calm (c_rt c) (c_rt c') /\ c_save c' = c_save c /\ pids_kept (c_rt c) (c_rt c').
Proof.
  unfold exec_txn_resume_parent. destruct (_ || _); [done|].
  assert (Hq : quiet (c_rt c) (c_rt (lift c (lxp_coordinator_complete_slot ops (c_h c) (c_rt c) (ei_parent_ref (et_id t)) (ei_pid (et_id t))))))
    by (apply (fork_lift_quiet c), quiet_complete).
  split; [by apply calm_quiet|]. split; [|by apply quiet_pids].
  - by destruct (lxp_coordinator_complete_slot _ _ _ _ _) as [[rc h] R].
Qed.

Lemma report_held c0 x ps t c reason :
  slot_in x = true -> vacant c0 x c -> held c0 x ps c ->
  let '(t', c') := exec_txn_report_failure ops xops t c reason in
  held c0 x ps c' /\ vacant c0 x c'.
Proof.
  intros Hx Hv Hh. unfold exec_txn_report_failure. pose proof (resume_parent_calm t c) as H1.
  destruct (exec_txn_resume_parent ops t c) as [t1 c1]. destruct H1 as (C1 & V1 & _).
  assert (Hh1 : held c0 x ps c1) by (by eapply held_calm).
  assert (Hv1 : vacant c0 x c1) by (by eapply vacant_calm).
  set (c2 := match on_guest_exit xops with Some _ => _ | None => c1 end).
  assert (E2 : c_rt c2 = c_rt c1 /\ c_save c2 = c_save c1) by (unfold c2; by destruct (on_guest_exit xops)).
  assert (Hh2 : held c0 x ps c2) by (apply (held_calm c0 x ps c1); [done|by rewrite (proj1 E2)|apply E2]).
  assert (Hv2 : vacant c0 x c2) by (apply (vacant_slots c0 x c1); [done|by rewrite (proj1 E2)]).
  unfold lxp_reap_to_parent. set (e := mk_child_event _ _ _ _).
  destruct (event_publish_held ops c0 x ps c2 (ei_ppid (et_id t)) e Hx (proj1 Hv2) Hh2) as (H3 & (_ & S3)).
  split; [exact H3|]. destruct (S3 x) as (A1 & A2); [apply slot_in_range in Hx; lia|].
  change (holdings (cproc (child_event_publish ops c2 (ei_ppid (et_id t)) e) x) = holdings (cproc c2 x)) in A1.
  destruct Hv2 as (B1 & B2 & B3). split; [by injection A1 as ->|]. split; [by eapply owns_holdings|]. by rewrite A2.
Qed.

(** ** The abort *)

(** The last part of an abort: the saved objects go, the death is reported. *)
Definition abort_finish t c b (reason : Z) : coord H * B :=
  let slot := ei_slot (et_id t) in
  let '(t, c, b) := exec_txn_release_saved t c b in
  let '(t, c) := exec_txn_report_failure ops xops t c reason in
  let c := lxp_slot_proc_reset c slot in
  let R := lxp_slot_runnable_store (c_rt c) slot false in
  let R := lxp_primary_slot_clear R slot in
  (set_c_rt c (lxp_vfork_guard_reset R slot), b).

Lemma abort_finish_held c0 x t c b reason :
  ei_slot (et_id t) = x -> slot_in x = true -> vacant c0 x c -> held c0 x [et_saved t] c -> p_mm (et_saved t) = None ->
  let '(c', b') := abort_finish t c b reason in held c0 x [] c' /\ vacant c0 x c'.
Proof.
  intros Es Hx Hv Hh Hm. unfold abort_finish, exec_txn_release_saved, release_record. rewrite Es.
  pose proof Hh as (_ & _ & _ & P). pose proof (release_inv (rt_k (c_rt c)) b (et_saved t) _ P Hm) as HR.
  destruct (lxp_proc_resources_put _ b (et_saved t)) as [[k1 b1] p1].
  destruct (lxp_proc_group_put k1 p1) as [k2 p2]. cbn [fst] in HR.
  set (c1 := set_c_rt c _). assert (H1 : held c0 x [] c1) by (by eapply held_k).
  assert (V1 : vacant c0 x c1) by (by apply (vacant_slots c0 x c)).
  set (t1 := set_et_saved t _). pose proof (report_held c0 x [] t1 c1 reason Hx V1 H1) as H2.
  destruct (exec_txn_report_failure ops xops t1 c1 reason) as [t2 c2]. destruct H2 as (H2 & V2).
  destruct (reset_held c0 x c2 [] Hx H2) as (H3 & E3 & G3). set (c3 := lxp_slot_proc_reset c2 x) in *.
  set (R := lxp_vfork_guard_reset _ x).
  assert (C4 : calm (c_rt c3) R).
  { unfold R. etransitivity; [apply calm_quiet, (quiet_runnable _ x false)|].
    unfold lxp_primary_slot_clear. repeat case_match; by apply calm_slots. }
  split; [by apply (held_calm c0 x [] c3)|]. eapply (vacant_calm c0 x c3); [done| |exact C4].
  apply blank_vacant; [done|]. rewrite G3. apply V2.
Qed.

(** How an exec leaves its slot. *)
Definition exec_outcome c0 (x : Z) c : Prop := intact c0 x c \/ (held c0 x [] c /\ vacant c0 x c) \/ replaced c0 x c.

Lemma lift_complete_calm c ref r0 :
  calm (c_rt c) (c_rt (lift c (lxp_coordinator_complete_slot ops (c_h c) (c_rt c) ref r0))) /\
  c_save (lift c (lxp_coordinator_complete_slot ops (c_h c) (c_rt c) ref r0)) = c_save c.
Proof.
  split; [apply calm_quiet, (fork_lift_quiet c), quiet_complete|].
  by destruct (lxp_coordinator_complete_slot _ _ _ _ _) as [[rc h] R].
Qed.

(** Behind the commit with the old record still in place. *)
Lemma contain_held c0 x t c :
  ei_slot (et_id t) = x -> slot_in x = true -> held c0 x [cproc c x] c ->
  agree (c_rt c0) (c_rt c) x -> et_old_detached t = false -> et_slot_reassigned t = false ->
  let '(r, c') := abort_contain ops t c in
  match r with
  | None => intact c0 x c'
  | Some t' => held c0 x [et_saved t'] c' /\ vacant c0 x c' /\ p_mm (et_saved t') = None /\
               ei_slot (et_id t') = x /\ et_image t' = et_image t
  end.
Proof.
  intros Es Hx Hh Ha Hd Hr. unfold abort_contain. rewrite Hd, Es.
  pose proof (abort_calm c x) as HC. destruct (lxp_coordinator_abort_slot ops (c_h c) (c_rt c) x) as [[rc h] R].
  set (c1 := set_c_rt (set_c_h c h) R).
  assert (I1 : intact c0 x c1) by (apply (intact_calm c0 x c); [done|by split|exact HC|done]).
  destruct (rc =? LXP_OK); cbn [negb].
  - pose proof (detach_held c0 t c1 x Es Hx (proj1 I1) Hd) as HD.
    destruct (exec_txn_detach_old t c1) as [t2 c2]. destruct HD as (H2 & A2 & O2 & G2 & M2 & _ & _ & E2).
    assert (Er : et_slot_reassigned t2 = false) by (by rewrite E2). rewrite Er.
    assert (Es2 : ei_slot (et_id t2) = x) by (by rewrite E2).
    pose proof (reassign_held c0 t2 c2 x _ Es2 Hx H2) as HA.
    destruct (exec_reassign t2 c2) as [t3 c3]. destruct HA as (H3 & C3 & G3 & E3).
    assert (Esv : et_saved t3 = et_saved t2) by (by rewrite E3).
    assert (V3 : vacant c0 x c3).
    { unfold vacant. rewrite C3. split; [done|]. split; [done|]. rewrite G3, G2. by rewrite (proj2 (proj2 I1)). }
    set (c4 := if et_region_acquired t3 then _ else c3).
    assert (C4 : calm (c_rt c3) (c_rt c4) /\ c_save c4 = c_save c3).
    { unfold c4. destruct (et_region_acquired t3); [|done]. split; [apply calm_reassign_lease|done]. }
    cbn [negb]. rewrite Esv. split; [apply (held_calm c0 x _ c3); [done|apply C4|apply C4]|].
    split; [by eapply vacant_calm; [| |apply C4]|]. split; [done|]. split; [by rewrite E3|by rewrite E3, E2].
  - destruct (et_region_acquired t); [|exact I1].
    apply (intact_calm c0 x c1); [done|done|apply calm_release|done].
Qed.

(** The abort, behind the commit: its three parts. *)
Lemma abort_unfold t c b error reason :
  et_terminal t = false -> before_commit (et_phase t) = false -> et_phase t <> EXEC_TXN_ABORTED -> et_phase t <> EXEC_TXN_FINISHED ->
  lxp_exec_txn_abort ops xops t c b error reason =
  match abort_contain ops t c with
  | (None, c) => (c, b)
  | (Some t, c) => let '(ok, c, b) := abort_image ops t c b in if negb ok then (c, b) else abort_finish t c b reason
  end.
Proof.
  intros Ht Hb H1 H2. unfold lxp_exec_txn_abort. rewrite Ht, Hb, !bool_decide_eq_false_2 by done. cbn [orb].
  assert (Hid : forall r c1, abort_contain ops t c = (Some r, c1) -> ei_slot (et_id r) = ei_slot (et_id t)).
  { intros r c1. unfold abort_contain, exec_reassign, exec_txn_detach_old. repeat case_match; naive_solver. }
  destruct (abort_contain ops t c) as [[r|] c1] eqn:Ec; [|done].
  destruct (abort_image ops r c1 b) as [[ok c2] b2]. destruct (negb ok); [done|]. unfold abort_finish.
  by rewrite (Hid r c1 eq_refl).
Qed.

(** The bare region of a transaction without an image. *)
Lemma abort_bare c0 x t c b :
  slot_in x = true -> et_image t = None -> held c0 x [et_saved t] c -> vacant c0 x c ->
  let '(ok, c', b') := abort_image ops t c b in ok = true /\ held c0 x [et_saved t] c' /\ vacant c0 x c'.
Proof.
  intros Hx Hi Hh Hv. unfold abort_image. rewrite Hi. destruct (_ && _); [|done]. split; [done|].
  pose proof (calm_release (c_rt c) (et_region t) (et_new_ref t)) as Hc. split.
  - by apply (held_calm c0 x _ c).
  - by eapply vacant_calm; [| |exact Hc].
Qed.

Lemma abort_intact_outcome c0 x t c b error reason :
  ei_slot (et_id t) = x -> slot_in x = true -> intact c0 x c ->
  et_old_detached t = false -> et_slot_reassigned t = false -> et_image t = None ->
  let '(c', b') := lxp_exec_txn_abort ops xops t c b error reason in exec_outcome c0 x c'.
Proof.
  intros Es Hx Hi Hd Hr Him. destruct (et_terminal t) eqn:Et.
  { unfold lxp_exec_txn_abort. rewrite Et, orb_true_r. by left. }
  destruct (decide (et_phase t = EXEC_TXN_ABORTED)) as [Ea|Ea].
  { unfold lxp_exec_txn_abort. rewrite bool_decide_eq_true_2 by done. by left. }
  destruct (decide (et_phase t = EXEC_TXN_FINISHED)) as [Ef|Ef].
  { unfold lxp_exec_txn_abort. rewrite (bool_decide_eq_true_2 (et_phase t = EXEC_TXN_FINISHED)), orb_true_r by done. by left. }
  destruct (before_commit (et_phase t)) eqn:Eb.
  - unfold lxp_exec_txn_abort. rewrite Et, Eb, !bool_decide_eq_false_2 by done. cbn [orb].
    set (c1 := if _ && _ then _ else c).
    assert (C1 : calm (c_rt c) (c_rt c1) /\ c_save c1 = c_save c).
    { unfold c1. destruct (_ && _); [|done]. split; [apply calm_release|done]. }
    destruct (lift_complete_calm c1 (ei_old_ref (et_id t)) error) as (C2 & V2). left.
    apply (intact_calm c0 x c1); [done| |exact C2|exact V2]. apply (intact_calm c0 x c); [done|exact Hi|apply C1|apply C1].
  - rewrite abort_unfold by done. destruct Hi as (Hh & Ha).
    pose proof (contain_held c0 x t c Es Hx Hh Ha Hd Hr) as HC.
    destruct (abort_contain ops t c) as [[r|] c1]; [|by left]. destruct HC as (H1 & V1 & M1 & Es1 & Hi1).
    pose proof (abort_bare c0 x r c1 b Hx ltac:(congruence) H1 V1) as HB.
    destruct (abort_image ops r c1 b) as [[ok c2] b2]. destruct HB as (-> & H2 & V2). cbn [negb].
    pose proof (abort_finish_held c0 x r c2 b2 reason Es1 Hx V2 H2 M1) as HF.
    destruct (abort_finish r c2 b2 reason) as [c3 b3]. right. by left.
Qed.

(** Behind the commit nothing needs to be contained any more. *)
Lemma contain_done t c : et_old_detached t = true -> et_slot_reassigned t = true -> abort_contain ops t c = (Some t, c).
Proof. intros Hd Hr. unfold abort_contain. by rewrite Hd, Hr. Qed.

Definition detached t : Prop :=
  et_old_detached t = true /\ et_slot_reassigned t = true /\ et_terminal t = false /\ before_commit (et_phase t) = false /\
  et_phase t <> EXEC_TXN_ABORTED /\ et_phase t <> EXEC_TXN_FINISHED.

Lemma abort_detached_outcome c0 x t c b error reason :
  ei_slot (et_id t) = x -> slot_in x = true -> detached t -> vacant c0 x c ->
  (et_image t = None /\ held c0 x [et_saved t] c \/
   exists it, et_image t = Some it /\ it_published it = false /\ held c0 x [it_proc it; et_saved t] c) ->
  p_mm (et_saved t) = None ->
  let '(c', b') := lxp_exec_txn_abort ops xops t c b error reason in exec_outcome c0 x c'.
Proof.
  intros Es Hx (D1 & D2 & D3 & D4 & D5 & D6) Hv Hh Hm. rewrite abort_unfold, contain_done by done.
  assert (HB : let '(ok, c', b') := abort_image ops t c b in ok = true /\ held c0 x [et_saved t] c' /\ vacant c0 x c').
  { destruct Hh as [(Hi & Hh)|(it & Hi & Hp & Hh)]; [by apply abort_bare|].
    unfold abort_image. rewrite Hi. pose proof (image_abort_off c0 x it c b [et_saved t] Hx Hp Hh Hv) as HA.
    destruct (lxp_image_txn_abort ops it c b) as [[[rc it'] c1] b1]. destruct HA as (-> & HA). by split. }
  destruct (abort_image ops t c b) as [[ok c2] b2]. destruct HB as (-> & H2 & V2). cbn [negb].
  pose proof (abort_finish_held c0 x t c2 b2 reason Es Hx V2 H2 Hm) as HF.
  destruct (abort_finish t c2 b2 reason) as [c3 b3]. right. by left.
Qed.

Lemma carries_holdings p0 p p' : holdings p' = holdings p -> p_pid p' = p_pid p -> carries p0 p -> carries p0 p'.
Proof. intros [= E0 E1 E2 E3 E4 E5] Ep (A1 & A2 & A3 & A4 & A5 & A6). unfold carries. split_and!; congruence. Qed.


(** The abort of a published image. *)
Lemma abort_published_outcome c0 x t it c b error reason :
  ei_slot (et_id t) = x -> slot_in x = true -> detached t -> et_image t = Some it -> it_published it = true -> it_slot it = x ->
  owns_nothing (et_saved t) -> replaced c0 x c ->
  let '(c', b') := lxp_exec_txn_abort ops xops t c b error reason in exec_outcome c0 x c'.
Proof.
  intros Es Hx (D1 & D2 & D3 & D4 & D5 & D6) Hi Hp Hs Ho (Hh & Hc & Hg). rewrite abort_unfold, contain_done by done.
  unfold abort_image. rewrite Hi. pose proof (image_abort_on c0 x it c b Hs Hx Hp Hh Hg) as HA.
  destruct (lxp_image_txn_abort ops it c b) as [[[rc it'] c1] b1]. destruct (rc =? LXP_OK); cbn [negb].
  - destruct HA as (H1 & V1). assert (H2 : held c0 x [et_saved t] c1) by (by apply held_empty).
    pose proof (abort_finish_held c0 x t c1 b1 reason Es Hx V1 H2 ltac:(apply Ho)) as HF.
    destruct (abort_finish t c1 b1 reason) as [c3 b3]. right. by left.
  - destruct HA as (C1 & V1 & N1). destruct (calm_agree c c1 x Hx C1) as (A1 & A2). right. right.
    split; [eapply held_holdings; [exact A1|]; by eapply held_calm|]. split; [|congruence].
    apply (carries_holdings _ (cproc c x)); [exact A1|exact (N1 x)|done].
Qed.

(** Everything behind a successful commit. *)
Lemma replace_outcome c0 x fuel t c b caps image size re argv envp c' b' caps' :
  ei_slot (et_id t) = x -> slot_in x = true -> detached t -> et_image t = None -> vacant c0 x c -> held c0 x [et_saved t] c ->
  p_mm (et_saved t) = None -> ei_pid (et_id t) = p_pid (cproc c0 x) ->
  p_group (et_saved t) = p_group (cproc c0 x) -> p_fs_context (et_saved t) = p_fs_context (cproc c0 x) ->
  exec_replace ops xops exec_capture failpoint random_fill publish_executable cfg fuel t c b caps image size re argv envp =
    Some (c', b', caps') ->
  exec_outcome c0 x c'.
Proof.
  intros Es Hx Hdt Hi Hv Hh Hm Epid Eg Ef. unfold exec_replace. rewrite Es.
  set (it0 := lxp_image_txn_init x _ _).
  destruct (lxp_image_txn_prepare _ _ _ _ _ _ _ _ _ _ _ _ _ _) as [[[[rc it] c1] b1]|] eqn:Ep; [|done].
  assert (Hfail : forall t it c b caps rc, ei_slot (et_id t) = x -> detached t -> vacant c0 x c -> it_published it = false ->
    held c0 x [it_proc it; et_saved t] c -> p_mm (et_saved t) = None ->
    (let '(c, b) := lxp_exec_txn_abort ops xops (set_et_image t (Some it)) c b rc LXP_EXIT_REASON_EXEC_LOAD in
     Some (c, b, caps)) = Some (c', b', caps') -> exec_outcome c0 x c').
  { intros t' it' c'' b'' cp rc' Es' Hdt' Hv' Hp' Hh' Hm'.
    pose proof (abort_detached_outcome c0 x (set_et_image t' (Some it')) c'' b'' rc' LXP_EXIT_REASON_EXEC_LOAD Es' Hx Hdt' Hv'
      (or_intror (ex_intro _ it' (conj eq_refl (conj Hp' Hh')))) Hm') as HA.
    destruct (lxp_exec_txn_abort _ _ _ _ _ _ _) as [c2 b2]. by intros [= <- _ _]. }
  pose proof (prepare_held c0 x fuel it0 c b _ _ _ _ _ _ _ _ rc it c1 b1 Hh ltac:(done) Ep) as (S1 & H1 & Pb & Sl & Hok).
  assert (V1 : vacant c0 x c1) by (by eapply vacant_slots).
  set (rc1 := if _ && _ then _ else rc).
  destruct (Z.eqb_spec rc1 LXP_OK) as [E1|N1]; cbn [negb]; [|by apply Hfail].
  assert (Erc : rc = LXP_OK) by (unfold rc1 in E1; destruct (Z.eqb_spec rc LXP_OK); [done|]; by destruct (failpoint _)).
  destruct (Hok Erc) as (A1 & A2 & A3 & A4).
  set (t1 := set_et_phase t EXEC_TXN_IMAGE_READY).
  pose proof (adopt_held c0 x t1 it c1 b1 H1 Hm) as HA.
  destruct (exec_txn_adopt_old_resources t1 it c1 b1) as [[[t2 it2] c2] b2].
  destruct HA as (S2 & H2 & O2 & Pb2 & Sl2 & E2 & B1 & B2 & B3 & B4 & B5 & B6).
  assert (V2 : vacant c0 x c2) by (by eapply vacant_slots).
  assert (D2 : detached t2) by (rewrite E2; destruct Hdt as (? & ? & ? & ? & ? & ?); by split_and!).
  assert (Es2 : ei_slot (et_id t2) = x) by (by rewrite E2).
  pose proof (publish_held c0 x it2 c2 caps ltac:(by rewrite Sl2, Sl) Hx ltac:(by rewrite Pb2, Pb) H2 V2) as HP.
  destruct (lxp_image_txn_publish _ _ _ _ _ _ _) as [[[rc3 it3] c3] caps3]. destruct HP as (Sl3 & HP).
  destruct (it_published it3) eqn:Pb3.
  2:{ destruct HP as (N3 & Ei & H3 & V3). destruct (Z.eqb_spec rc3 LXP_OK) as [|_]; [done|]. cbn [negb].
      apply Hfail; try done; [|by destruct O2 as (_ & _ & _ & ? & _)]. rewrite Ei.
      apply (held_perm c0 x [et_saved t2; it_proc it2]); [constructor|]. by apply held_empty. }
  destruct HP as (H3 & O3 & C3 & G3).
  assert (Rp : replaced c0 x c3).
  { split; [done|]. split; [|done]. rewrite C3. unfold carries. cbn [set_p_exec_capture p_alive p_pid p_group p_fs_context p_mm p_sighand].
    rewrite B1, B2, B3, B4, B5, B6. unfold t1. cbn [et_saved set_et_phase]. split_and!; congruence. }
  assert (Hfail2 : forall t it c b caps rc, ei_slot (et_id t) = x -> detached t -> it_published it = true -> it_slot it = x ->
    owns_nothing (et_saved t) -> replaced c0 x c ->
    (let '(c, b) := lxp_exec_txn_abort ops xops (set_et_image t (Some it)) c b rc LXP_EXIT_REASON_EXEC_LOAD in
     Some (c, b, caps)) = Some (c', b', caps') -> exec_outcome c0 x c').
  { intros t' it' c'' b'' cp rc' Es' Hdt' Hp' Hs' Ho' Hr'.
    pose proof (abort_published_outcome c0 x (set_et_image t' (Some it')) it' c'' b'' rc' LXP_EXIT_REASON_EXEC_LOAD Es' Hx Hdt'
      eq_refl Hp' Hs' Ho' Hr') as HA.
    destruct (lxp_exec_txn_abort _ _ _ _ _ _ _) as [c4 b4]. by intros [= <- _ _]. }
  destruct (rc3 =? LXP_OK); cbn [negb]; [|by apply Hfail2].
  set (t3 := set_et_phase t2 EXEC_TXN_PUBLISHED).
  assert (D3 : detached t3) by (destruct D2 as (? & ? & ? & ? & ? & ?); by split_and!).
  pose proof (start_calm it3 c3) as HS. destruct (lxp_image_txn_start ops failpoint it3 c3) as [[rc4 it4] c4].
  destruct HS as (C4 & V4 & Pb4 & Sl4 & Pr4 & N4).
  assert (Rq : forall d, calm (c_rt c3) (c_rt d) -> c_save d = c_save c3 -> pids_kept (c_rt c3) (c_rt d) -> replaced c0 x d).
  { intros d Cd Vd Nd. destruct (calm_agree c3 d x Hx Cd) as (E & G). destruct Rp as (R1 & R2 & R3).
    split; [eapply held_holdings; [exact E|]; by eapply held_calm|]. split; [|congruence].
    apply (carries_holdings _ (cproc c3 x)); [exact E|exact (Nd x)|done]. }
  destruct (rc4 =? LXP_OK); cbn [negb].
  2:{ apply Hfail2; [done|done|by rewrite Pb4|by rewrite Sl4|exact O2|by apply Rq]. }
  pose proof (resume_parent_calm t3 c4) as HR. destruct (exec_txn_resume_parent ops t3 c4) as [t5 c5].
  destruct HR as (C5 & V5 & N5). intros [= <- _ _]. right. right.
  assert (W5 : replaced c0 x c5).
  { apply Rq; [by transitivity (c_rt c4)|congruence|]. intros s. rewrite (N5 s). apply N4. }
  destruct W5 as (R1 & R2 & R3). assert (W : coord_wf c5) by apply R1.
  unfold replaced. rewrite cproc_put by done. split; [|split].
  - apply held_put; [done|]. by apply (held_like c0 x [cproc c5 x]).
  - exact R2.
  - rewrite <- R3. unfold lxp_slot_generation. by rewrite slot_at_put_cproc by (try apply W; done).
Qed.

(** The commit: the old record is still in place and the call failed, or it is detached. *)
Lemma commit_held c0 x t c b :
  ei_slot (et_id t) = x -> slot_in x = true -> ref_index (ei_old_ref (et_id t)) = x -> intact c0 x c ->
  et_old_detached t = false -> et_slot_reassigned t = false -> et_terminal t = false -> et_image t = None ->
  let '(rc, t', c', b') := lxp_exec_txn_commit ops xops failpoint t c b in
  et_id t' = et_id t /\ et_image t' = None /\
  ((rc <> LXP_OK /\ intact c0 x c' /\ et_old_detached t' = false /\ et_slot_reassigned t' = false) \/
   (detached t' /\ vacant c0 x c' /\ held c0 x [et_saved t'] c' /\ p_mm (et_saved t') = None /\
    p_group (et_saved t') = p_group (cproc c0 x) /\ p_fs_context (et_saved t') = p_fs_context (cproc c0 x))).
Proof.
  intros Es Hx Eo Hi Hd Hr Ht Him. unfold lxp_exec_txn_commit. rewrite Es.
  destruct (bool_decide _) eqn:Eph; [by split_and!; [..|left]|].
  set (t1 := set_et_phase t EXEC_TXN_COMMITTED). pose proof (proj1 (slot_in_range x) Hx) as Hxr.
  pose proof (commit_restore_calm t1 c (proj1 (proj1 Hi)) ltac:(cbn; lia) ltac:(cbn; by rewrite Es)) as HC.
  destruct (commit_restore_parent xops t1 c) as [[rc2 t2] c2] eqn:Ecr. destruct HC as (C2 & V2 & T2).
  assert (I2 : intact c0 x c2) by (by eapply intact_calm).
  assert (F2 : et_id t2 = et_id t /\ et_image t2 = None /\ et_old_detached t2 = false /\ et_slot_reassigned t2 = false /\
    et_phase t2 = EXEC_TXN_COMMITTED).
  { clear T2. unfold commit_restore_parent in Ecr. repeat case_match; simplify_eq/=; by split_and!. }
  destruct F2 as (F1 & F2 & F3 & F4 & F5).
  destruct (Z.eqb_spec rc2 LXP_OK) as [_|Ne]; cbn [negb].
  2:{ split; [done|]. split; [done|]. left. by split_and!. }
  assert (T3 : et_terminal t2 = false) by (by destruct T2 as [-> | ->]).
  pose proof (stop_peers_calm (seqZ 0 LXP_NSLOT) c2 x 127 LXP_OK) as HP. unfold lxp_thread_group_stop_exec_peers.
  destruct (stop_peers ops c2 x 127 (seqZ 0 LXP_NSLOT) LXP_OK) as [rc3 c3]. destruct HP as (C3 & V3).
  assert (I3 : intact c0 x c3) by (by eapply intact_calm).
  destruct (rc3 =? LXP_OK); cbn [negb]; [|split; [done|split; [done|left; by split_and!]]].
  pose proof (abort_calm c3 x) as HA. destruct (lxp_coordinator_abort_slot ops (c_h c3) (c_rt c3) x) as [[rc4 h4] R4].
  set (c4 := set_c_rt (set_c_h c3 h4) R4). assert (I4 : intact c0 x c4) by (apply (intact_calm c0 x c3); done).
  destruct (rc4 =? LXP_OK); cbn [negb]; [|split; [done|split; [done|left; by split_and!]]].
  destruct I4 as (H4 & A4 & G4). pose proof (private_files_held c0 c4 b x Hx H4) as HF.
  destruct (exec_private_files c4 b x) as [[rc5 c5] b5]. destruct HF as (G5 & H5 & P5).
  destruct (Z.eqb_spec rc5 LXP_OK) as [_|N5]; cbn [negb].
  2:{ split; [done|]. split; [done|]. left. split; [done|]. split; [|done]. split; [done|].
      unfold agree. change (sproc (c_rt c5) x) with (cproc c5 x). rewrite P5. split; [done|congruence]. }
  destruct P5 as (ti & P5). pose proof (detach_held c0 t2 c5 x ltac:(by rewrite F1) Hx H5 F3) as HD.
  destruct (exec_txn_detach_old t2 c5) as [t6 c6]. destruct HD as (H6 & A6 & O6 & G6 & M6 & Gr6 & Fs6 & E6).
  pose proof (reassign_held c0 t6 c6 x _ ltac:(by rewrite E6; cbn; rewrite F1) Hx H6) as HR.
  destruct (exec_reassign t6 c6) as [t7 c7]. destruct HR as (H7 & C7 & G7 & E7).
  assert (Sv : et_saved t7 = et_saved t6) by (by rewrite E7).
  assert (V7 : vacant c0 x c7).
  { unfold vacant. rewrite C7. split; [done|]. split; [done|]. rewrite G7, G6, G5. by rewrite G4. }
  assert (D7 : detached t7) by (rewrite E7, E6; unfold detached; cbn; rewrite F5; by split_and!).
  assert (Id7 : et_id t7 = et_id t /\ et_image t7 = None) by (rewrite E7, E6; by split).
  assert (Ids : p_group (et_saved t7) = p_group (cproc c0 x) /\ p_fs_context (et_saved t7) = p_fs_context (cproc c0 x)).
  { rewrite Sv, Gr6, Fs6, P5. cbn [p_group p_fs_context set_p_files].
    change (holdings (cproc c4 x) = holdings (cproc c0 x)) in A4. by injection A4 as _ -> _ _ -> _. }
  pose proof (calm_reassign_lease (c_rt c7) (et_region t7) (ei_old_ref (et_id t)) (et_new_ref t7)) as HL.
  rewrite <- Sv in H7, M6.
  destruct (lxp_region_lease_reassign _ _ _ _) as [rc8 R8]. cbn [snd] in HL.
  assert (Hfin : forall d, c_rt d = R8 -> c_save d = c_save c7 ->
    detached t7 /\ vacant c0 x d /\ held c0 x [et_saved t7] d /\ p_mm (et_saved t7) = None /\
    p_group (et_saved t7) = p_group (cproc c0 x) /\ p_fs_context (et_saved t7) = p_fs_context (cproc c0 x)).
  { intros d Ed Vd. split; [done|]. split; [apply (vacant_calm c0 x c7); [done|done|by rewrite Ed]|].
    split; [apply (held_calm c0 x _ c7); [done|by rewrite Ed|done]|]. done. }
  destruct (rc8 =? LXP_OK); cbn [negb].
  - split; [apply Id7|]. split; [apply Id7|]. right. apply Hfin; by destruct (map_device (os_mem xops)).
  - split; [apply Id7|]. split; [apply Id7|]. right. by apply Hfin.
Qed.

(** ** The handler *)

Lemma reserve_intact c0 x t c :
  ei_slot (et_id t) = x -> slot_in x = true -> ref_index (ei_old_ref (et_id t)) = x -> intact c0 x c ->
  et_old_detached t = false -> et_slot_reassigned t = false -> et_terminal t = false -> et_image t = None ->
  let '(rc, t', c') := lxp_exec_txn_reserve failpoint t c in
  intact c0 x c' /\ et_id t' = et_id t /\ et_old_detached t' = false /\ et_slot_reassigned t' = false /\ et_image t' = None /\
  (rc = LXP_OK -> et_terminal t' = false).
Proof.
  intros Es Hx Eo Hi Hd Hr Ht Him. unfold lxp_exec_txn_reserve. pose proof (proj1 (slot_in_range x) Hx) as Hxr.
  destruct (_ || _); [by split_and!|]. destruct (_ >=? 0).
  - destruct (_ || _); [|unfold exec_reserved; by split_and!]. split; [|by split_and!].
    eapply (intact_calm c0 x c); [done|done| |done]. apply contain_stale_calm.
    destruct Hi as ((W & _) & _). rewrite Eo, (proj1 W). lia.
  - destruct (List.find _ _) as [ridx|]; [|by split_and!].
    pose proof (calm_reserve (c_rt c) ridx (ei_old_ref (et_id t))) as HC.
    destruct (lxp_region_reserve _ _ _) as [region R]. cbn [snd] in HC.
    assert (I1 : intact c0 x (set_c_rt c R)) by (by apply (intact_calm c0 x c)).
    destruct (_ <? 0); unfold exec_reserved; by split_and!.
Qed.

Lemma start_intact c x : table_inv c -> coord_wf c -> slot_in x = true -> intact c x c.
Proof.
  intros (T1 & T2 & T3 & T4) W Hx. split; [|done]. split; [done|]. split; [done|]. split; [done|].
  cbn [app]. by rewrite <- tasks_split.
Qed.

Lemma handle_exec_outcome fuel c b caps st x c' b' caps' :
  table_inv c -> coord_wf c -> slot_in x = true ->
  lxp_handle_exec ops xops exec_capture failpoint random_fill publish_executable cfg stage_buf fuel c b caps st x = Some (c', b', caps') ->
  exec_outcome c x c'.
Proof.
  intros T W Hx. pose proof (start_intact c x T W Hx) as I0. unfold lxp_handle_exec.
  pose proof (quiet_apply ops (c_h c) (c_rt c) (LXP_OUTCOME_REMAIN_PARKED x)) as Hq. unfold lxp_coordinator_park_slot.
  destruct (lxp_lifecycle_apply _ _ _ _) as [[rc1 h1] R1]. cbn [snd] in Hq.
  set (c1 := set_c_rt (set_c_h c h1) R1).
  assert (I1 : intact c x c1) by (apply (intact_calm c x c); [done|done|by apply calm_quiet|done]).
  destruct (rc1 =? LXP_OK); cbn [negb]; [|intros [= <- _ _]; by left].
  assert (W1 : coord_wf c1) by apply I1. set (p2 := (lxp_intent_complete (cproc c1 x) IK_EXEC).2). set (c2 := put_cproc c1 x p2).
  assert (E2 : cproc c2 x = p2) by (by apply cproc_put).
  assert (Hp2 : holdings p2 = holdings (cproc c1 x) /\ p_pid p2 = p_pid (cproc c1 x))
    by (unfold p2, lxp_intent_complete; by destruct (_ || _)).
  assert (I2 : intact c x c2).
  { apply (intact_calm c x c1); [done|done| |done]. pose proof (proj1 (slot_in_range x) Hx).
    apply calm_store_proc; [rewrite (proj1 W1); lia|apply Hp2]. }
  assert (Epid : p_pid (cproc c2 x) = p_pid (cproc c x)).
  { rewrite E2, (proj2 Hp2). exact (quiet_pids _ _ Hq x). }
  destruct (p_exec_capture (cproc c2 x)) as [ci|].
  2:{ intros [= <- _ _]. left. apply (intact_calm c x c2); [done|done| |done]. apply calm_quiet, quiet_exit_slot. }
  set (t0 := lxp_exec_txn_init c2 x).
  assert (Eo : ref_index (ei_old_ref (et_id t0)) = x).
  { cbn. unfold lxp_slot_ref_at. by rewrite Hx. }
  destruct (exec_image_of cfg stage_buf st _) as [[image size] re].
  assert (HV : let '(rc, t) := lxp_exec_txn_validate_image failpoint t0 c2 image size re in
    t = t0 \/ t = set_et_phase t0 EXEC_TXN_VALIDATED).
  { unfold lxp_exec_txn_validate_image. destruct (_ || _); [by left|]. destruct (negb _); [by left|by right]. }
  destruct (lxp_exec_txn_validate_image failpoint t0 c2 image size re) as [rc3 t3].
  assert (F3 : et_id t3 = et_id t0 /\ et_old_detached t3 = false /\ et_slot_reassigned t3 = false /\ et_terminal t3 = false /\ et_image t3 = None)
    by (by destruct HV as [-> | ->]).
  clear HV. destruct F3 as (Fi & Fd & Fr & Ft & Fm).
  set (rs := if rc3 =? LXP_OK then _ else _).
  assert (HR : let '(rc, t, d) := rs in intact c x d /\ et_id t = et_id t0 /\ et_old_detached t = false /\
    et_slot_reassigned t = false /\ et_image t = None /\ (rc = LXP_OK -> et_terminal t = false)).
  { subst rs. destruct (rc3 =? LXP_OK); [|by split_and!].
    pose proof (reserve_intact c x t3 c2 ltac:(by rewrite Fi) Hx ltac:(by rewrite Fi) I2 Fd Fr Ft Fm) as HR.
    destruct (lxp_exec_txn_reserve failpoint t3 c2) as [[rc t] d]. by rewrite Fi in HR. }
  clearbody rs. destruct rs as [[rc4 t4] c4]. destruct HR as (I4 & Gi & Gd & Gr & Gm & Gt).
  assert (Hfail : forall t d (b0 : B) rc, ei_slot (et_id t) = x -> intact c x d -> et_old_detached t = false ->
    et_slot_reassigned t = false -> et_image t = None ->
    (let '(d', b1) := lxp_exec_txn_abort ops xops t d b0 rc LXP_EXIT_REASON_EXEC_RESOURCE in Some (d', b1, caps)) =
      Some (c', b', caps') -> exec_outcome c x c').
  { intros t d b0 rc Es Id Dd Dr Dm.
    pose proof (abort_intact_outcome c x t d b0 rc LXP_EXIT_REASON_EXEC_RESOURCE Es Hx Id Dd Dr Dm) as HA.
    destruct (lxp_exec_txn_abort _ _ _ _ _ _ _) as [d' b1]. by intros [= <- _ _]. }
  destruct (Z.eqb_spec rc4 LXP_OK) as [E4|_]; cbn [negb]; [|apply Hfail; try done; by rewrite Gi].
  pose proof (commit_held c x t4 c4 b ltac:(by rewrite Gi) Hx ltac:(by rewrite Gi) I4 Gd Gr (Gt E4) Gm) as HC.
  destruct (lxp_exec_txn_commit ops xops failpoint t4 c4 b) as [[[rc5 t5] c5] b5].
  destruct HC as (Hi5 & Hm5 & [(N5 & I5 & D5 & S5)|(D5 & V5 & H5 & M5 & P5 & Q5)]).
  - destruct (Z.eqb_spec rc5 LXP_OK) as [|_]; [done|]. cbn [negb]. apply Hfail; try done. by rewrite Hi5, Gi.
  - destruct (rc5 =? LXP_OK); cbn [negb].
    + apply replace_outcome; try done; rewrite Hi5, Gi; done.
    + pose proof (abort_detached_outcome c x t5 c5 b5 rc5 LXP_EXIT_REASON_EXEC_RESOURCE ltac:(by rewrite Hi5, Gi) Hx D5 V5
        (or_introl (conj Hm5 H5)) M5) as HA.
      destruct (lxp_exec_txn_abort _ _ _ _ _ _ _) as [d' b1]. by intros [= <- _ _].
Qed.

End ExecProps.

(** C12: exec is all or nothing.  For every image whose load ends within the loader's fuel (a
    load that never ends keeps the handler for ever, and is not covered), and whatever the host
    answers and the failure points do, the handler leaves the process table sound - every
    pool's counts equal the references the tasks hold, the region records are well formed, a
    slot without a task owns nothing - and no other task's resources or generation change.  The
    slot itself ends in one of three states: the old task with exactly the resources and the
    generation it had; a task in the slot's next generation that keeps the process number,
    thread group and paths of the old one, with an address space and signal dispositions; or
    no task and no resource, in the next generation. *)
Theorem exec_all_or_nothing {H B} `{FileOps B} (ops : os_task H) (xops : os_exit H) exec_capture failpoint random_fill
    publish_executable cfg stage_buf fuel (c c' : coord H) (b b' : B) caps caps' st x :
  table_inv c -> coord_wf c -> slot_in x = true ->
  lxp_handle_exec ops xops exec_capture failpoint random_fill publish_executable cfg stage_buf fuel c b caps st x =
    Some (c', b', caps') ->
  table_inv c' /\ coord_wf c' /\ steady_but x (c_rt c) (c_rt c') /\
  (agree (c_rt c) (c_rt c') x \/
   (lxp_slot_generation (c_rt c') x = generation_next (lxp_slot_generation (c_rt c) x) /\
    (carries (cproc c x) (cproc c' x) \/ (p_alive (cproc c' x) = 0 /\ owns_nothing (cproc c' x))))).
Proof.
  intros T W Hx He. pose proof (handle_exec_outcome _ _ _ _ _ _ _ _ _ _ _ _ _ _ _ _ _ T W Hx He) as Ho. clear He.
  assert (Hh : held c x [cproc c' x] c').
  { destruct Ho as [(Hh & _)|[(Hh & _ & V & _)|(Hh & _)]]; [done| |done]. by apply held_empty. }
  assert (Hr : agree (c_rt c) (c_rt c') x \/ lxp_slot_generation (c_rt c') x = generation_next (lxp_slot_generation (c_rt c) x) /\
    (carries (cproc c x) (cproc c' x) \/ p_alive (cproc c' x) = 0 /\ owns_nothing (cproc c' x))).
  { destruct Ho as [(_ & Ha)|[(_ & V1 & V2 & V3)|(_ & Hc & Hg)]]; [by left|right; split; [done|by right]|right; split; [done|by left]]. }
  split; [|by split_and!; [apply Hh|apply Hh|]]. apply (held_table c x c' Hx T Hh). intros Ha.
  destruct Hr as [(Eh & _)|(_ & [(A & _)|(_ & O)])]; [|lia|by apply owns_nothing_empty].
  change (p_alive ?q) with (holdings q).1.1.1.1.1 in Ha. change (holdings (cproc c' x) = holdings (cproc c x)) in Eh. rewrite Eh in Ha.
  destruct T as (_ & _ & _ & T4). destruct (T4 x Hx Ha) as (a & E). exists a. by rewrite Eh.
Qed.

(** ** A refused exec *)

Lemma filter_map_length {A C} (f : C -> bool) (g : A -> C) l :
  length (List.filter (fun a => f (g a)) l) = length (List.filter f (map g l)).
Proof. induction l as [|a l IH]; [done|]. cbn [List.filter map]. destruct (f (g a)); cbn [length]; congruence. Qed.

Lemma quiet_region_free R R' r : quiet R R' -> lxp_region_free R' r = lxp_region_free R r.
Proof.
  intros Hq. unfold lxp_region_free, region_at, lxp_region_live_users. rewrite (quiet_regions _ _ Hq).
  destruct (_ || _); [done|]. f_equal. destruct Hq as (Hk & _ & _ & _ & _ & _ & Hs).
  set (f := fun s => negb (p_alive (sl_proc s) =? 0) &&
    match option_map (aget mm_zero (k_mm (rt_k R))) (p_mm (sl_proc s)) with Some mm => ref_index (mm_region mm) =? r | None => false end).
  assert (E : forall R1, rt_k R1 = rt_k R -> slot_uses_region R1 r = f) by (intros R1 E1; unfold slot_uses_region, mm_of, f; by rewrite E1).
  rewrite !E by done. unfold alen. f_equal.
  set (g := fun q : lxp_proc * lxp_resume_ctx * deferred_req * Z * Z => negb (p_alive q.1.1.1.1 =? 0) &&
    match option_map (aget mm_zero (k_mm (rt_k R))) (p_mm q.1.1.1.1) with Some mm => ref_index (mm_region mm) =? r | None => false end).
  transitivity (length (List.filter g (map slot_core (rt_slots R')))); [exact (filter_map_length g slot_core (rt_slots R'))|].
  rewrite Hs. symmetry. exact (filter_map_length g slot_core (rt_slots R)).
Qed.

(** An image the loader refuses, or no region left for a task that has none in reserve. *)
Definition exec_refused {H} (cfg : lxp_run_config) (stage_buf : Z * Z) (c : coord H) (st : exec_stage) (x : Z) : Prop :=
  (let '(image, size, re) := exec_image_of cfg stage_buf st (p_exec_file_idx (cproc c x)) in
   image = 0 \/ lxp_loader_validate_fdpic (rt_mem (c_rt c)) image size LXP_PROG_REGION_SIZE re <> LXP_OK) \/
  (ref_index (p_snapshot (cproc c x)) < 0 /\ forall r, 0 <= r < LXP_NREG -> lxp_region_free (c_rt c) r = false).

(** an exec refused before its commit point leaves the old program alone: when the image
    cannot be loaded or no region is free, the handler returns without having changed the pools
    (descriptors included), guest memory, the regions, the other subsystems' objects or any
    task's record beyond its lifecycle fields. *)
Theorem exec_refused_untouched {H B} `{FileOps B} (ops : os_task H) (xops : os_exit H) exec_capture failpoint random_fill
    publish_executable cfg stage_buf fuel (c : coord H) (b : B) caps st x :
  coord_wf c -> slot_in x = true -> exec_refused cfg stage_buf c st x ->
  exists c', lxp_handle_exec ops xops exec_capture failpoint random_fill publish_executable cfg stage_buf fuel c b caps st x =
    Some (c', b, caps) /\ quiet (c_rt c) (c_rt c') /\ c_save c' = c_save c.
Proof.
  intros W Hx Hr. unfold lxp_handle_exec.
  pose proof (quiet_apply ops (c_h c) (c_rt c) (LXP_OUTCOME_REMAIN_PARKED x)) as Hq. unfold lxp_coordinator_park_slot.
  destruct (lxp_lifecycle_apply _ _ _ _) as [[rc1 h1] R1]. cbn [snd] in Hq.
  set (c1 := set_c_rt (set_c_h c h1) R1). destruct (rc1 =? LXP_OK); cbn [negb]; [|by eexists].
  set (p2 := (lxp_intent_complete (cproc c1 x) IK_EXEC).2). set (c2 := put_cproc c1 x p2).
  assert (Q2 : quiet (c_rt c) (c_rt c2)).
  { etransitivity; [exact Hq|]. apply quiet_put_proc. unfold p2, lxp_intent_complete. by destruct (_ || _). }
  destruct (p_exec_capture (cproc c2 x)) as [ci|].
  2:{ eexists. split; [done|]. split; [|done]. etransitivity; [exact Q2|]. apply quiet_exit_slot. }
  set (t0 := lxp_exec_txn_init c2 x).
  assert (Ei : ei_image_index (et_id t0) = p_exec_file_idx (cproc c x)) by exact (f_equal p_exec_file_idx (quiet_strip _ _ x Q2)).
  assert (Esn : p_snapshot (cproc c2 x) = p_snapshot (cproc c x)) by exact (f_equal p_snapshot (quiet_strip _ _ x Q2)).
  rewrite Ei. unfold exec_refused in Hr. destruct (exec_image_of cfg stage_buf st _) as [[image size] re].
  set (v := lxp_exec_txn_validate_image failpoint t0 c2 image size re).
  assert (HR : exists rc t, (if v.1 =? LXP_OK then lxp_exec_txn_reserve failpoint v.2 c2 else (v.1, v.2, c2)) = (rc, t, c2) /\ rc <> LXP_OK /\ et_phase t <> EXEC_TXN_ABORTED /\ et_phase t <> EXEC_TXN_FINISHED /\
    et_terminal t = false /\ before_commit (et_phase t) = true /\ et_region_acquired t = false).
  { subst v. unfold lxp_exec_txn_validate_image. cbn [et_phase t0 lxp_exec_txn_init]. rewrite bool_decide_eq_false_2 by tauto.
    cbn [orb]. rewrite (quiet_mem _ _ Q2). destruct (Z.eqb_spec image 0) as [|Hne]; [by eexists _, _|].
    destruct (Z.eqb_spec (lxp_loader_validate_fdpic (rt_mem (c_rt c)) image size LXP_PROG_REGION_SIZE re) LXP_OK) as [Ev|];
      cbn [negb]; [|by eexists _, _].
    destruct Hr as [[|]|(Hs & Hf)]; [done|done|].
    destruct (failpoint LXP_FAIL_EXEC_IMAGE_VALIDATED); [by eexists _, _|]. cbn [Z.eqb LXP_OK].
    unfold lxp_exec_txn_reserve. cbn [et_phase set_et_phase et_id t0 lxp_exec_txn_init ei_slot ei_old_ref].
    rewrite bool_decide_eq_false_2 by tauto. cbn [orb]. destruct (negb _); [by eexists _, _|].
    cbn [fst snd et_id set_et_phase t0 lxp_exec_txn_init ei_slot Z.eqb LXP_OK]. rewrite Esn. destruct (Z.geb_spec (ref_index (p_snapshot (cproc c x))) 0); [lia|].
    destruct (List.find _ _) as [r|] eqn:Ef; [|by eexists _, _].
    apply List.find_some in Ef as (Hin%list_elem_of_In%elem_of_seqZ & Hfree).
    rewrite (quiet_region_free _ _ r Q2), Hf in Hfree by lia. done. }
  destruct HR as (rc & t & Ers & Hrc & Ha & Hfi & Ht & Hb & Hacq).
  destruct v as [rcv tv]. cbn [fst snd] in Ers. rewrite Ers. clear Ers.
  destruct (Z.eqb_spec rc LXP_OK); [done|]. cbn [negb]. unfold lxp_exec_txn_abort.
  rewrite Ht, Hb, Hacq, !bool_decide_eq_false_2 by done. cbn [orb andb].
  eexists. split; [done|]. split; [|by destruct (lxp_coordinator_complete_slot _ _ _ _ _) as [[? ?] ?]].
  etransitivity; [exact Q2|]. apply (fork_lift_quiet c2), quiet_complete.
Qed.

(** *** Witnesses: the first task execs a static program of the root file system; an index
    that names no file is refused. *)

#[local] Instance plain_files : FileOps unit := {|
  fops_present := fun _ => true; fops_close := fun b _ => b;
  fops_node_open := fun b _ => (0, b); fops_node_close := fun b _ => b |}.

(** The host keeps the launch records it is handed. *)
Definition exec_host : os_task (list lxp_guest_launch) :=
  mk_os_task (Some (fun h _ _ => (0, h))) (Some (fun h _ _ => (0, h))) (Some (fun h _ _ _ _ _ _ => (0, h)))
    (Some (fun h _ _ _ l => (0, l :: h))).
Definition exec_xops : os_exit (list lxp_guest_launch) :=
  mk_os_exit (mk_os_memory None None) None (fun r => 0x20000000 + r * 0x40000) None.
Definition exec_prog : list Z := demo_reloc 0x1028.
Definition exec_cfg (prog : list Z) : lxp_run_config :=
  mk_config [mk_file [47; 112] (Some prog) (alen prog) 0] (fun _ => demo_img) 0 0 0 0 1.
(** argv is "p". *)
Definition exec_cap : lxp_exec_capture :=
  mk_capture 1 (ec_argv capture_zero) (112 :: 0 :: drop 2 (ec_argv_buf capture_zero)) 0 (ec_env capture_zero) (ec_env_buf capture_zero).
Definition exec_task (p : lxp_proc) : lxp_proc :=
  set_p_exec_capture (set_p_vfork_parent (set_p_snapshot (set_p_intent p LXP_INTENT_EXEC) lxp_region_ref_none) lxp_slot_ref_none) (Some 0).
Definition exec_coord : coord (list lxp_guest_launch) :=
  mk_coord [] (set_rt_mem (put_proc (c_rt vfork_coord) 0 (exec_task vfork_proc)) (demo_at exec_prog)) (replicate 12 stack_zero).
Local Notation exec_demo prog c x :=
  (lxp_handle_exec exec_host exec_xops (fun _ => Some 0) (fun _ => false) (fun n => Some (replicate (Z.to_nat n) 7)) (fun h _ _ _ => (0, h))
    (exec_cfg prog) (0, 0) 1000 c tt [exec_cap] lxp_exec_stage_reset x).

Lemma exec_coord_inv : table_inv exec_coord /\ coord_wf exec_coord.
Proof.
  split; [|split; [vm_compute; reflexivity|split; [reflexivity|by apply Forall_replicate]]].
  destruct vfork_coord_inv as (T1 & T2 & T3 & T4). split; [vm_compute; reflexivity|]. split; [exact demo_rt_inv|].
  assert (Hh : forall s, holdings (cproc exec_coord s) = holdings (cproc vfork_coord s)).
  { intros s. destruct (decide (s = 0)) as [->|Hne]; [vm_compute; reflexivity|].
    unfold cproc, sproc, slot_at, exec_coord, put_proc, put_slot. cbn [c_rt rt_slots set_rt_mem set_rt_slots].
    unfold aset, aget. destruct (decide (Z.to_nat s = Z.to_nat 0)) as [E|E].
    - rewrite E. vm_compute. reflexivity.
    - by rewrite nth_lookup, list_lookup_insert_ne, <- nth_lookup by done. }
  split.
  - eapply (proc_inv_holdings _ (tasks vfork_coord)); [|exact T3]. unfold tasks. rewrite !map_map. apply map_ext. intros s. by rewrite Hh.
  - intros s Hs Ha. change (p_alive ?q) with (holdings q).1.1.1.1.1 in Ha. rewrite Hh in Ha. destruct (T4 s Hs Ha) as (a & E).
    exists a. by rewrite Hh.
Qed.

(** The program runs: its entry is the pc of the launch, the slot runs in generation 8. *)
Definition exec_runs (r : option (coord (list lxp_guest_launch) * unit * list lxp_exec_capture)) : bool :=
  match r with
  | Some (c, _, _) => bool_decide (map (fun l => aget 0 (gl_r l) 15) (c_h c) = [demo_img + 52]) &&
      bool_decide (lxp_slot_host_state (c_rt c) 0 = SLOT_RUNNING) && (lxp_slot_generation (c_rt c) 0 =? 8)
  | None => false
  end.
Lemma exec_demo_runs : exec_runs (exec_demo exec_prog exec_coord 0) = true.
Proof. vm_compute. reflexivity. Qed.

Lemma exec_all_or_nothing_witness :
  exists c' b' caps', exec_demo exec_prog exec_coord 0 = Some (c', b', caps') /\ table_inv c' /\
    lxp_slot_host_state (c_rt c') 0 = SLOT_RUNNING.
Proof.
  pose proof exec_demo_runs as Hr. destruct exec_coord_inv as (T & W).
  destruct (exec_demo exec_prog exec_coord 0) as [[[c' b'] caps']|] eqn:E; [|discriminate Hr].
  exists c', b', caps'. split; [reflexivity|].
  split; [exact (proj1 (exec_all_or_nothing exec_host exec_xops (fun _ => Some 0) (fun _ => false)
    (fun n => Some (replicate (Z.to_nat n) 7)) (fun h _ _ _ => (0, h)) (exec_cfg exec_prog) (0, 0) 1000 exec_coord c' tt b'
    [exec_cap] caps' lxp_exec_stage_reset 0 T W eq_refl E))|].
  unfold exec_runs in Hr. rewrite !andb_true_iff, !bool_decide_eq_true in Hr. tauto.
Defined.

Lemma exec_refused_untouched_witness :
  exists c', exec_demo [] exec_coord 0 = Some (c', tt, [exec_cap]) /\ quiet (c_rt exec_coord) (c_rt c').
Proof.
  destruct exec_coord_inv as (T & W).
  destruct (exec_refused_untouched exec_host exec_xops (fun _ => Some 0) (fun _ => false) (fun n => Some (replicate (Z.to_nat n) 7))
    (fun h _ _ _ => (0, h)) (exec_cfg []) (0, 0) 1000 exec_coord tt [exec_cap] lxp_exec_stage_reset 0 W eq_refl) as (c' & E & Q & _).
  { left. vm_compute. right. discriminate. }
  exists c'. split; [exact E|exact Q].
Defined.

(** ** A multi-threaded exec that fails behind its commit

    The parent has a child of its own and a child with two threads; the leader of the second
    execs a dynamic program whose interpreter the root file system lacks. *)

Definition with_intent (c : coord (list lxp_guest_launch)) (s : Z) (i : lxp_intent) : coord (list lxp_guest_launch) :=
  put_cproc c s (set_p_intent (cproc c s) i).
Definition clone_demo (c : coord (list lxp_guest_launch)) (s flags next_pid : Z) : coord (list lxp_guest_launch) :=
  (lxp_handle_fork exec_host exec_xops (fun _ => Some 0) (fun _ => false) (with_intent c s (LXP_INTENT_FORK flags 0x20000020)) tt s next_pid).1.1.

(** Tasks: 1 (slot 0), its children 2 (slot 1) and 3 (slot 2), and 3's second thread 4 (slot 3). *)
Definition family : coord (list lxp_guest_launch) :=
  let c := mk_coord [] (set_rt_mem (c_rt exec_coord) (demo_at demo_dynamic)) (replicate 12 stack_zero) in
  let c := clone_demo c 0 LXP_CLONE_VM 2 in
  let c := clone_demo c 0 LXP_CLONE_VM 3 in
  let c := clone_demo c 2 (Z.lor LXP_CLONE_VM (Z.lor LXP_CLONE_SIGHAND LXP_CLONE_THREAD)) 4 in
  put_cproc c 2 (set_p_exec_file_idx (exec_task (cproc c 2)) 0).

(** The parent's accounting: its live children and the queue of exits. *)
Definition parent_account (c : coord (list lxp_guest_launch)) : Z * list Z :=
  let g := group_at c 0 in (tg_live_children g, take (Z.to_nat (tg_child_count g)) (tg_child_pid g)).

Definition failed_exec : option (coord (list lxp_guest_launch)) :=
  match exec_demo demo_dynamic family 2 with
  | Some (c, b, _) => Some (lxp_handle_exit exec_host exec_xops c b 3).1.2
  | None => None
  end.

(** a multi-threaded process whose exec fails behind the commit is reported dead twice.
    The parent starts with two live children and an empty queue.  The leader of child 3 execs a
    program whose interpreter is missing: its death is queued by the exec handler, and again by
    the exit handler when the last stopped thread goes.  The parent then has two exits of 3 in
    its queue and counts no live child, while its child 2 is still running: a later wait4 would
    return ECHILD instead of waiting for it. *)
Theorem failed_exec_reported_twice :
  parent_account family = (2, []) /\
  option_map (fun c => (parent_account c, p_pid (cproc c 1), p_alive (cproc c 1))) failed_exec = Some ((0, [3; 3]), 2, 1) /\
  option_map (fun c => (lxp_sys_wait4 None (put_group c 0 (group_dequeue (group_dequeue (group_at c 0) 0) 0)) 0 (-1) 0 0).1) failed_exec =
    Some (- LXP_ECHILD).
Proof. vm_compute. split; [reflexivity|]. split; reflexivity. Qed.

(** A signal latched before the exec reaches the coordinator does not survive it: the new
    image's record starts with none pending, although the old one was never interrupted. *)
Lemma exec_drops_pending_signal :
  let term := lxp_sig_bit LXP_SIGTERM in
  let c := put_cproc exec_coord 0 (lxp_signal_latch (cproc exec_coord 0) LXP_SIGTERM) in
  p_pending_sigs (cproc c 0) = term /\
  match exec_demo exec_prog c 0 with
  | Some (c', _, _) => p_pending_sigs (cproc c' 0) = 0 /\ p_intent (cproc c' 0) = LXP_INTENT_NONE /\ p_pid (cproc c' 0) = 1
  | None => False
  end.
Proof. vm_compute. split; [reflexivity|]. split_and!; reflexivity. Qed.
