(* ===== verification/ExecArgs.v ===== *)
(** * Capturing the vectors of an execve (src/sys/lxp_sys_exec.c)

    The guest's argument and environment vectors are copied once into the slot's capture, as
    offsets into a byte buffer; a script's vector is then rewritten in place for its
    interpreter.  A refused copy returns its error: the capture is read only by an exec that
    was accepted, so what it then holds is not kept. *)

From S2P Require Import Prelude Config Ring Path Proc Guest Bootstrap Image Exec.
Local Open Scope Z_scope.

Definition LXP_EXEC_OFF_NONE : Z := 0xffff.

Section Copy.
Context (G : genv) (m : mem) (p : Z).

(** From entry [j], with [off] bytes used: the offsets, the buffer, the count, the bytes used. *)
Fixpoint copy_vec_loop (n : nat) (uvec max bufsz j off : Z) (vec buf : list Z) : Z + (list Z * list Z * Z * Z) :=
  match n with
  | O => inl (- LXP_E2BIG)
  | S n =>
      match lxp_copy_from_guest G m p (u32 (uvec + 4 * j)) 4 with
      | inl _ => inl (- LXP_EFAULT)
      | inr bs =>
          let us := le_val bs in
          if us =? 0 then inr (vec, buf, j, off)
          else if (j =? max) || (off =? bufsz) then inl (- LXP_E2BIG)
          else match lxp_copy_string_from_guest G m p (bufsz - off) us with
               | inl rc => inl rc
               | inr s => copy_vec_loop n uvec max bufsz (j + 1) (off + alen s + 1) (aset vec j (u16 off))
                            (splice buf off (s ++ [0]))
               end
      end
  end.

Definition exec_copy_vec (uvec max bufsz : Z) (buf : list Z) : Z + (list Z * list Z * Z * Z) :=
  let vec := replicate (Z.to_nat max) LXP_EXEC_OFF_NONE in
  if uvec =? 0 then inr (vec, buf, 0, 0)
  else copy_vec_loop (S (Z.to_nat max)) uvec max bufsz 0 0 vec buf.
End Copy.

(** ** Scripts *)

(** The bytes of [n] prefix strings, each with its terminator, if they fit. *)
Fixpoint prefix_size (prefix : list (list Z)) (size : Z) : option Z :=
  match prefix with
  | [] => Some size
  | s :: t =>
      let len := alen s + 1 in
      if (size >? LXP_EXEC_ARGBUF) || (len >? LXP_EXEC_ARGBUF - size) then None else prefix_size t (size + len)
  end.

Fixpoint put_prefix (prefix : list (list Z)) (j off : Z) (vec buf : list Z) : list Z * list Z * Z :=
  match prefix with
  | [] => (vec, buf, off)
  | s :: t => put_prefix t (j + 1) (off + alen s + 1) (aset vec j (u16 off)) (splice buf off (s ++ [0]))
  end.

(** The offsets of the [n] strings that follow from [off]. *)
Fixpoint put_tail (n : nat) (j off : Z) (vec buf : list Z) : list Z :=
  match n with
  | O => vec
  | S n => put_tail n (j + 1) (off + alen (cstr (drop (Z.to_nat off) buf)) + 1) (aset vec j (u16 off)) buf
  end.

(** The interpreter, its argument and the script replace argv[0]: the capture and the count. *)
Definition exec_rewrite_script_argv (cap : lxp_exec_capture) (old_argc old_bytes : Z) (interp iarg : list Z) (have_iarg : bool)
    (script : list Z) : Z + (lxp_exec_capture * Z) :=
  let prefix := if have_iarg then [interp; iarg; script] else [interp; script] in
  let prefix_count := alen prefix in
  let tail_count := if old_argc >? 1 then old_argc - 1 else 0 in
  if prefix_count + tail_count >? LXP_EXEC_MAXARGS then inl (- LXP_E2BIG)
  else
    let tail_off := if negb (tail_count =? 0) then aget 0 (ec_argv cap) 1 else old_bytes in
    if tail_off >? old_bytes then inl (- LXP_EFAULT)
    else
      let tail_bytes := old_bytes - tail_off in
      match prefix_size prefix 0 with
      | None => inl (- LXP_E2BIG)
      | Some prefix_bytes =>
          if tail_bytes >? LXP_EXEC_ARGBUF - prefix_bytes then inl (- LXP_E2BIG)
          else
            let moved := take (Z.to_nat tail_bytes) (drop (Z.to_nat tail_off) (ec_argv_buf cap)) in
            let buf := splice (ec_argv_buf cap) prefix_bytes moved in
            let '(vec, buf, off) := put_prefix prefix 0 0 (ec_argv cap) buf in
            let vec := put_tail (Z.to_nat tail_count) prefix_count off vec buf in
            let used := prefix_count + tail_count in
            let vec := take (Z.to_nat used) vec ++ replicate (Z.to_nat (LXP_EXEC_MAXARGS - used)) LXP_EXEC_OFF_NONE in
            inr (mk_capture (ec_argc cap) vec buf (ec_envc cap) (ec_env cap) (ec_env_buf cap), used)
      end.

(** * Properties of the captured vectors

    The capture of an execve reads back as the strings the guest's vector points to, and a
    script's rewritten capture as its interpreter's command line. *)

(** Strings one after the other, each with its terminator, and where each starts. *)
Definition flat (strs : list (list Z)) : list Z := concat (map (fun s => s ++ [0]) strs).
Definition starts (strs : list (list Z)) (j : Z) : Z := alen (flat (take (Z.to_nat j) strs)).

(** The offsets and the buffer hold the strings. *)
Definition packed (vec buf : list Z) (strs : list (list Z)) : Prop :=
  Forall is_text strs /\ alen (flat strs) <= 0xffff /\ take (length (flat strs)) buf = flat strs /\
  alen strs <= alen vec /\ forall j, 0 <= j < alen strs -> aget 0 vec j = starts strs j.

Lemma flat_app a b : flat (a ++ b) = flat a ++ flat b.
Proof. unfold flat. by rewrite map_app, concat_app. Qed.

Lemma flat_one s : flat [s] = s ++ [0].
Proof. unfold flat. cbn. by rewrite app_nil_r. Qed.

(** The string at a start. *)
Lemma flat_at strs j : 0 <= j < alen strs ->
  exists rest, drop (Z.to_nat (starts strs j)) (flat strs) = aget [] strs j ++ 0 :: rest.
Proof.
  intros Hj. unfold alen in Hj.
  assert (E0 : flat strs = flat (take (Z.to_nat j) strs) ++ flat (drop (Z.to_nat j) strs)) by (by rewrite <- flat_app, take_drop).
  rewrite E0.
  unfold starts, alen. rewrite Nat2Z.id, drop_app_length.
  destruct (drop (Z.to_nat j) strs) as [|s t] eqn:E.
  { apply (f_equal length) in E. rewrite length_drop in E. cbn in E. lia. }
  exists (flat t). change (s :: t) with ([s] ++ t). rewrite flat_app, flat_one, <- app_assoc. cbn [app]. f_equal.
  unfold aget. rewrite nth_lookup. replace (Z.to_nat j) with (Z.to_nat j + 0)%nat by lia. by rewrite <- lookup_drop, E.
Qed.

(** Reading a packed capture back. *)
Lemma capture_vec_packed vec buf strs : packed vec buf strs -> lxp_capture_vec buf vec (alen strs) = strs.
Proof.
  intros (Ht & Hl & Hb & Hv & Ho). unfold lxp_capture_vec. apply list_eq. intros i.
  destruct (decide (i < length strs)%nat) as [Hi|Hi].
  2:{ rewrite (proj2 (lookup_ge_None strs i)) by lia. apply lookup_ge_None. rewrite length_map, length_seqZ. unfold alen. lia. }
  assert (Hj : 0 <= Z.of_nat i < alen strs) by (unfold alen; lia).
  change (map ?f ?l) with (f <$> l). rewrite list_lookup_fmap, lookup_seqZ_lt by (unfold alen; lia). cbn [fmap option_fmap option_map].
  rewrite Z.add_0_l, Ho by done. destruct (flat_at strs (Z.of_nat i) Hj) as (rest & Er).
  rewrite <- (take_drop (length (flat strs)) buf), Hb.
  assert (Hs : (Z.to_nat (starts strs (Z.of_nat i)) <= length (flat strs))%nat).
  { apply (f_equal length) in Er. rewrite length_drop, length_app in Er. cbn in Er. lia. }
  rewrite drop_app_le, Er, <- app_assoc by done. cbn [app].
  assert (El : strs !! i = Some (aget [] strs (Z.of_nat i))).
  { pose proof (lookup_aget [] strs (Z.of_nat i) Hj) as E. by rewrite Nat2Z.id in E. }
  rewrite cstr_text; [by rewrite El|]. exact (Forall_lookup_1 _ _ _ _ Ht El).
Qed.

Lemma starts_app strs t j : 0 <= j <= alen strs -> starts (strs ++ t) j = starts strs j.
Proof. intros Hj. unfold starts, alen in *. by rewrite take_app_le by lia. Qed.

Lemma starts_all strs : starts strs (alen strs) = alen (flat strs).
Proof. unfold starts, alen. by rewrite Nat2Z.id, firstn_all. Qed.

Lemma alen_flat_snoc strs s : alen (flat (strs ++ [s])) = alen (flat strs) + alen s + 1.
Proof. rewrite flat_app, flat_one. unfold alen. rewrite !length_app. cbn. lia. Qed.

Lemma alen_spliced (buf bs : list Z) off : 0 <= off -> off + alen bs <= alen buf -> length (splice buf off bs) = length buf.
Proof. intros H1 H2. unfold splice, alen in *. rewrite !length_app, length_take, length_drop. lia. Qed.

(** One more string. *)
Lemma packed_snoc vec buf strs s :
  packed vec buf strs -> is_text s -> alen (flat strs) + alen s + 1 <= Z.min (alen buf) 0xffff -> alen strs < alen vec ->
  packed (aset vec (alen strs) (u16 (alen (flat strs)))) (splice buf (alen (flat strs)) (s ++ [0])) (strs ++ [s]).
Proof.
  intros (Ht & Hl & Hb & Hv & Ho) Hs Hr Hn. pose proof (alen_flat_snoc strs s) as Ha.
  split; [by apply Forall_app_2; [|constructor]|]. split; [lia|]. split; [|split].
  - rewrite flat_app, flat_one. unfold splice, alen. rewrite Nat2Z.id, Hb. set (z := s ++ [0]).
    rewrite (app_assoc (flat strs) z). apply take_app_length.
  - rewrite alen_aset. unfold alen in *. rewrite length_app. cbn. lia.
  - intros j Hj. assert (Hj' : j = alen strs \/ 0 <= j < alen strs) by (unfold alen in *; rewrite length_app in Hj; cbn in Hj; lia).
    destruct Hj' as [->|Hj'].
    + rewrite aget_aset_eq by (unfold alen in *; lia). rewrite starts_app, starts_all by (unfold alen; lia).
      unfold u16. rewrite Z.mod_small; [done|]. unfold alen in *; lia.
    + rewrite aget_aset_ne by (unfold alen in *; lia). rewrite starts_app by lia. by apply Ho.
Qed.

(** ** The copy *)

(** The C string the guest keeps at [us]. *)
Definition guest_string (m : mem) (us : Z) (s : list Z) : Prop :=
  is_text s /\ (forall i, 0 <= i < alen s -> load8 m (u32 (us + i)) = aget 0 s i) /\ load8 m (u32 (us + alen s)) = 0.

(** Entry [j] of the guest's vector. *)
Definition guest_entry (m : mem) (uvec j : Z) : Z := le_val (mem_read m (u32 (uvec + 4 * j)) 4).

Section Copied.
Context (G : genv) (m : mem) (p : Z).

Lemma copy_from_inr src len bs : lxp_copy_from_guest G m p src len = inr bs -> bs = mem_read m src (Z.to_nat len).
Proof. unfold lxp_copy_from_guest. destruct (negb _); [done|]. by intros [= <-]. Qed.

Lemma copy_string_sound n us dst s :
  copy_string_loop G m p us n dst = inr s -> is_text dst ->
  (forall i, 0 <= i < alen dst -> load8 m (u32 (us + i)) = aget 0 dst i) ->
  guest_string m us s /\ alen s - alen dst < Z.of_nat n.
Proof.
  revert dst. induction n as [|n IH]; intros dst Hc Ht Hm; cbn [copy_string_loop] in Hc; [done|].
  destruct (lxp_copy_from_guest _ _ _ _ _) as [|bs] eqn:E; [done|]. apply copy_from_inr in E as ->.
  change (aget 0 (mem_read m ?a (Z.to_nat 1)) 0) with (load8 m a) in Hc.
  destruct (Z.eqb_spec (load8 m (u32 (us + alen dst))) 0) as [E0|E0].
  - injection Hc as <-. split; [by split|lia].
  - assert (Hb : 0 < load8 m (u32 (us + alen dst)) < 256) by (unfold load8, u8 in *; lia).
    destruct (IH _ Hc) as (Hg & Hl).
    + apply Forall_app_2; [done|]. by constructor.
    + intros i Hi. destruct (decide (i = alen dst)) as [->|Hne].
      * unfold aget, alen. by rewrite Nat2Z.id, nth_middle.
      * rewrite Hm by (unfold alen in *; rewrite length_app in Hi; cbn in Hi; lia). unfold aget. rewrite app_nth1; [done|].
        unfold alen in *. rewrite length_app in Hi. cbn in Hi. lia.
    + split; [done|]. unfold alen in *. rewrite length_app in Hl. cbn in Hl. lia.
Qed.

(** The loop extends a packed capture by the guest's strings, up to the first NULL. *)
Lemma copy_vec_sound n uvec max bufsz j vec buf strs vec' buf' argc used :
  copy_vec_loop G m p n uvec max bufsz j (alen (flat strs)) vec buf = inr (vec', buf', argc, used) ->
  packed vec buf strs -> j = alen strs -> alen vec = max -> alen buf = bufsz -> bufsz < 0xffff ->
  exists rest, packed vec' buf' (strs ++ rest) /\ argc = alen (strs ++ rest) /\ used = alen (flat (strs ++ rest)) /\
    alen vec' = max /\ alen buf' = bufsz /\ guest_entry m uvec argc = 0 /\
    forall i, 0 <= i < alen rest -> guest_entry m uvec (j + i) <> 0 /\ guest_string m (guest_entry m uvec (j + i)) (aget [] rest i).
Proof.
  revert j vec buf strs. induction n as [|n IH]; intros j vec buf strs Hc Hp Hj Hv Hb Hsz; cbn [copy_vec_loop] in Hc; [done|].
  destruct (lxp_copy_from_guest _ _ _ _ _) as [|bs] eqn:E; [done|]. apply copy_from_inr in E as ->.
  change (mem_read m ?a (Z.to_nat 4)) with (mem_read m a 4) in Hc. fold (guest_entry m uvec j) in Hc.
  destruct (Z.eqb_spec (guest_entry m uvec j) 0) as [E0|E0].
  { injection Hc as -> -> <- <-. exists []. rewrite app_nil_r. do 6 (split; [done|]). intros i Hi. change (alen []) with 0 in Hi. lia. }
  destruct (Z.eqb_spec j max); [done|]. destruct (Z.eqb_spec (alen (flat strs)) bufsz); [done|]. cbn [orb] in Hc.
  pose proof Hp as (Hpt & _ & Hpb & Hpv & _).
  assert (Hlen : alen (flat strs) <= bufsz).
  { apply (f_equal length) in Hpb. rewrite length_take in Hpb. unfold alen in *. lia. }
  unfold lxp_copy_string_from_guest in Hc. destruct (Z.eqb_spec (bufsz - alen (flat strs)) 0); [lia|].
  destruct (copy_string_loop _ _ _ _ _ _) as [|s] eqn:Es; [done|].
  assert (Hnil : forall i, 0 <= i < alen (@nil Z) -> load8 m (u32 (guest_entry m uvec j + i)) = aget 0 [] i) by (intros i Hi; change (alen []) with 0 in Hi; lia).
  destruct (copy_string_sound _ _ _ _ Es (Forall_nil_2 _) Hnil) as (Hg & Hl). change (alen []) with 0 in Hl.
  assert (Hfit : alen (flat strs) + alen s + 1 <= Z.min (alen buf) 0xffff) by lia.
  pose proof (alen_flat_snoc strs s) as Hfl. rewrite <- Hfl, Hj in Hc.
  assert (Hn : alen strs < alen vec) by lia.
  destruct (IH _ _ _ _ Hc) as (rest & Hp' & Ha & Hu & Hv' & Hb' & He & Hr); try done.
  - by apply packed_snoc; [|apply Hg|..].
  - unfold alen. rewrite length_app. cbn. lia.
  - by rewrite alen_aset.
  - unfold alen. rewrite alen_spliced; [exact Hb|unfold alen; lia|]. unfold alen in *. rewrite length_app. cbn. lia.
  - exists (s :: rest). rewrite <- !app_assoc in *. cbn [app] in *. split_and!; try done. intros i Hi.
    destruct (decide (i = 0)) as [->|Hne]; [by rewrite Z.add_0_r|].
    replace (j + i) with (alen strs + 1 + (i - 1)) by lia.
    replace (aget [] (s :: rest) i) with (aget [] rest (i - 1)).
    + apply Hr. unfold alen in *. cbn in Hi. lia.
    + unfold aget. replace (Z.to_nat i) with (S (Z.to_nat (i - 1))) by lia. done.
Qed.
End Copied.

(** ** The rewrite *)

Lemma splice_after (buf bs : list Z) off n :
  0 <= off -> off + alen bs <= Z.of_nat n -> off + alen bs <= alen buf -> drop n (splice buf off bs) = drop n buf.
Proof.
  intros H1 H2 H3. unfold splice, alen in *. rewrite app_assoc, drop_app_ge by (rewrite length_app, length_take; lia).
  rewrite length_app, length_take, drop_drop. f_equal. lia.
Qed.

Lemma put_prefix_packed prefix vec buf strs vec' buf' off' :
  put_prefix prefix (alen strs) (alen (flat strs)) vec buf = (vec', buf', off') ->
  packed vec buf strs -> Forall is_text prefix -> alen (flat (strs ++ prefix)) <= Z.min (alen buf) 0xffff ->
  alen (strs ++ prefix) <= alen vec ->
  packed vec' buf' (strs ++ prefix) /\ off' = alen (flat (strs ++ prefix)) /\ alen vec' = alen vec /\ alen buf' = alen buf /\
  drop (length (flat (strs ++ prefix))) buf' = drop (length (flat (strs ++ prefix))) buf.
Proof.
  revert vec buf strs. induction prefix as [|s t IH]; intros vec buf strs Hp Hk Ht Hf Hn; cbn [put_prefix] in Hp.
  { injection Hp as <- <- <-. rewrite app_nil_r in *. done. }
  apply Forall_cons_1 in Ht as (Hs & Ht). pose proof (alen_flat_snoc strs s) as Hl.
  change (s :: t) with ([s] ++ t) in *. rewrite app_assoc in *.
  assert (Hmono : alen (flat (strs ++ [s])) <= alen (flat ((strs ++ [s]) ++ t)))
    by (rewrite (flat_app (strs ++ [s])); unfold alen; rewrite length_app; lia).
  assert (Hn' : alen strs < alen vec) by (unfold alen in *; rewrite !length_app in Hn; cbn in Hn; lia).
  assert (Hbs : alen (splice buf (alen (flat strs)) (s ++ [0])) = alen buf).
  { unfold alen. rewrite alen_spliced; [done|unfold alen; lia|]. unfold alen in *. rewrite length_app. cbn. lia. }
  replace (alen strs + 1) with (alen (strs ++ [s])) in Hp by (unfold alen; rewrite length_app; cbn; lia).
  rewrite <- Hl in Hp. destruct (IH _ _ _ Hp) as (A1 & A2 & A3 & A4 & A5); [|done| | |].
  - apply packed_snoc; [done|done|lia|done].
  - rewrite Hbs. lia.
  - by rewrite alen_aset.
  - split; [done|]. split; [done|]. split; [by rewrite A3, alen_aset|]. split; [by rewrite A4, Hbs|].
    rewrite A5. apply splice_after; [unfold alen; lia| |]; unfold alen in *; rewrite length_app; cbn; lia.
Qed.

(** With the bytes in place, the scan finds the tail's offsets. *)
Lemma put_tail_packed n vec buf strs j :
  Forall is_text strs -> alen (flat strs) <= 0xffff -> take (length (flat strs)) buf = flat strs ->
  alen strs <= alen vec -> 0 <= j -> alen strs = j + Z.of_nat n -> (forall i, 0 <= i < j -> aget 0 vec i = starts strs i) ->
  let vec' := put_tail n j (starts strs j) vec buf in
  alen vec' = alen vec /\ forall i, 0 <= i < alen strs -> aget 0 vec' i = starts strs i.
Proof.
  revert vec j. induction n as [|n IH]; intros vec j Ht Hl Hb Hv Hj Hn Ho; cbn [put_tail].
  { split; [done|]. intros i Hi. apply Ho. lia. }
  destruct (flat_at strs j ltac:(lia)) as (rest & Er).
  assert (Hle : (Z.to_nat (starts strs j) <= length (flat strs))%nat).
  { apply (f_equal length) in Er. rewrite length_drop, length_app in Er. cbn in Er. lia. }
  assert (El : strs !! Z.to_nat j = Some (aget [] strs j)) by (apply (lookup_aget [] strs j); lia).
  assert (Ec : cstr (drop (Z.to_nat (starts strs j)) buf) = aget [] strs j).
  { rewrite <- (take_drop (length (flat strs)) buf), Hb, drop_app_le, Er, <- app_assoc by done. cbn [app].
    apply cstr_text. exact (Forall_lookup_1 _ _ _ _ Ht El). }
  assert (En : starts strs j + alen (aget [] strs j) + 1 = starts strs (j + 1)).
  { unfold starts. replace (Z.to_nat (j + 1)) with (S (Z.to_nat j)) by lia.
    rewrite (take_S_r strs (Z.to_nat j) _ El). rewrite flat_app, flat_one. unfold alen. rewrite !length_app. cbn. lia. }
  rewrite Ec, En.
  assert (Hs16 : u16 (starts strs j) = starts strs j).
  { unfold u16. rewrite Z.mod_small; [done|]. unfold starts, alen in *. lia. }
  destruct (IH (aset vec j (u16 (starts strs j))) (j + 1)) as (A1 & A2); try done; try lia.
  - rewrite alen_aset. lia.
  - intros i Hi. destruct (decide (i = j)) as [->|Hne].
    + rewrite aget_aset_eq by lia. done.
    + rewrite aget_aset_ne by lia. apply Ho. lia.
  - split; [by rewrite A1, alen_aset|done].
Qed.

Lemma prefix_size_spec prefix size n : 0 <= size -> prefix_size prefix size = Some n -> n = size + alen (flat prefix).
Proof.
  revert size. induction prefix as [|s t IH]; intros size H0 Hp; cbn [prefix_size] in Hp.
  { injection Hp as <-. change (alen (flat [])) with 0. lia. }
  destruct (_ || _); [done|]. apply IH in Hp; [|unfold alen; lia]. change (s :: t) with ([s] ++ t).
  rewrite flat_app, flat_one. unfold alen in *. rewrite !length_app. cbn. lia.
Qed.

Definition script_prefix (interp iarg : list Z) (have : bool) (script : list Z) : list (list Z) :=
  if have then [interp; iarg; script] else [interp; script].

(** The bytes behind argv[0]. *)
Lemma tail_bytes vec buf argv to :
  packed vec buf argv -> (to = starts argv 1 /\ 1 < alen argv) \/ (alen argv <= 1 /\ to = alen (flat argv)) ->
  take (Z.to_nat (alen (flat argv) - to)) (drop (Z.to_nat to) buf) = flat (drop 1 argv) /\
  alen (flat argv) - to = alen (flat (drop 1 argv)).
Proof.
  intros (_ & _ & Hb & _) [(-> & H1)|(H1 & ->)].
  - assert (E : flat argv = flat (take 1 argv) ++ flat (drop 1 argv)) by (by rewrite <- flat_app, take_drop).
    assert (El : alen (flat argv) - starts argv 1 = alen (flat (drop 1 argv))).
    { rewrite E at 1. unfold starts, alen. rewrite length_app. change (Z.to_nat 1) with 1%nat. lia. }
    assert (Es : 0 <= starts argv 1) by (unfold starts, alen; lia).
    split; [|done]. rewrite El. rewrite take_drop_commute.
    replace (Z.to_nat (starts argv 1) + Z.to_nat (alen (flat (drop 1 argv))))%nat with (length (flat argv)) by (unfold alen in *; lia).
    rewrite Hb, E. unfold starts, alen. rewrite Nat2Z.id. change (Z.to_nat 1) with 1%nat. by rewrite drop_app_length.
  - rewrite Z.sub_diag. replace (drop 1 argv) with (@nil (list Z)); [done|].
    symmetry. apply nil_length_inv. rewrite length_drop. unfold alen in H1. lia.
Qed.

(** The prefix written over a buffer that already holds the tail behind it. *)
Lemma prefix_over_tail vec buf prefix tail vec' buf' off' :
  put_prefix prefix 0 0 vec (splice buf (alen (flat prefix)) (flat tail)) = (vec', buf', off') ->
  Forall is_text prefix -> Forall is_text tail -> alen (flat prefix) + alen (flat tail) <= Z.min (alen buf) 0xffff ->
  alen prefix + alen tail <= alen vec ->
  off' = alen (flat prefix) /\ alen vec' = alen vec /\
  packed (put_tail (length tail) (alen prefix) off' vec' buf') buf' (prefix ++ tail) /\
  alen (put_tail (length tail) (alen prefix) off' vec' buf') = alen vec.
Proof.
  intros Hp Ht1 Ht2 Hf Hn. set (b1 := splice _ _ _) in Hp.
  assert (Hb1 : alen b1 = alen buf) by (unfold alen, b1; rewrite alen_spliced; unfold alen in *; lia).
  destruct (put_prefix_packed prefix vec b1 [] vec' buf' off' Hp) as (A1 & A2 & A3 & A4 & A5).
  { split; [constructor|]. split; [done|]. split; [done|]. split; [unfold alen; cbn; lia|]. intros j Hj. change (alen []) with 0 in Hj. lia. }
  { done. }
  { cbn [app]. unfold alen in *. lia. }
  { cbn [app]. unfold alen in *. lia. }
  cbn [app] in *. split; [done|]. split; [done|]. destruct A1 as (_ & _ & B3 & B4 & B5).
  assert (Et : take (length (flat (prefix ++ tail))) buf' = flat (prefix ++ tail)).
  { rewrite <- (take_drop (length (flat prefix)) buf'), B3, A5. unfold b1, splice.
    assert (El : length (take (Z.to_nat (alen (flat prefix))) buf) = length (flat prefix)).
    { rewrite length_take. unfold alen in *. lia. }
    rewrite drop_app_length' by done. rewrite flat_app, app_assoc. by rewrite take_app_length. }
  assert (Hfl : alen (flat (prefix ++ tail)) <= 0xffff) by (rewrite flat_app; unfold alen in *; rewrite length_app; lia).
  assert (Hst : off' = starts (prefix ++ tail) (alen prefix)) by (rewrite starts_app, starts_all by (unfold alen; lia); done).
  assert (Hal : alen (prefix ++ tail) = alen prefix + Z.of_nat (length tail)) by (unfold alen; rewrite length_app; lia).
  destruct (put_tail_packed (length tail) vec' buf' (prefix ++ tail) (alen prefix)) as (C1 & C2); try done.
  - by apply Forall_app_2.
  - rewrite A3, Hal. unfold alen in *. lia.
  - unfold alen. lia.
  - intros i Hi. rewrite B5 by done. symmetry. apply starts_app. lia.
  - rewrite <- Hst in C1, C2. rewrite C1. split; [|by rewrite A3]. split; [by apply Forall_app_2|]. do 2 (split; [done|]).
    split; [|done]. rewrite C1, A3, Hal. unfold alen in *. lia.
Qed.

Lemma packed_trim vec buf strs max :
  packed vec buf strs -> alen vec = max ->
  packed (take (length strs) vec ++ replicate (Z.to_nat (max - alen strs)) LXP_EXEC_OFF_NONE) buf strs.
Proof.
  intros (A1 & A2 & A3 & A4 & A5) Hm. split_and!; try done.
  - unfold alen in *. rewrite length_app, length_take, length_replicate. lia.
  - intros j Hj. rewrite <- A5 by done. unfold aget, alen in *. rewrite app_nth1 by (rewrite length_take; lia).
    rewrite !nth_lookup. by rewrite lookup_take_lt by lia.
Qed.

Lemma rewrite_packed cap argv used interp iarg have script cap' argc' :
  packed (ec_argv cap) (ec_argv_buf cap) argv -> used = alen (flat argv) -> alen (ec_argv cap) = LXP_EXEC_MAXARGS ->
  alen (ec_argv_buf cap) = LXP_EXEC_ARGBUF -> is_text interp -> is_text iarg -> is_text script ->
  exec_rewrite_script_argv cap (alen argv) used interp iarg have script = inr (cap', argc') ->
  let argv' := script_prefix interp iarg have script ++ drop 1 argv in
  packed (ec_argv cap') (ec_argv_buf cap') argv' /\ argc' = alen argv' /\ ec_env cap' = ec_env cap /\
  ec_env_buf cap' = ec_env_buf cap /\ ec_envc cap' = ec_envc cap.
Proof.
  intros Hp -> Hv Hb Hi Ha Hs. unfold exec_rewrite_script_argv. set (prefix := script_prefix interp iarg have script).
  change (if have then [interp; iarg; script] else [interp; script]) with prefix.
  assert (Hpre : Forall is_text prefix) by (unfold prefix, script_prefix; destruct have; repeat constructor; done).
  replace (if alen argv >? 1 then alen argv - 1 else 0) with (alen (drop 1 argv)).
  2:{ unfold alen. rewrite length_drop. destruct (Z.gtb_spec (Z.of_nat (length argv)) 1); lia. }
  destruct (Z.gtb_spec (alen prefix + alen (drop 1 argv)) LXP_EXEC_MAXARGS) as [|E1]; [done|].
  set (to := if negb _ then _ else _).
  assert (Hto : (to = starts argv 1 /\ 1 < alen argv) \/ (alen argv <= 1 /\ to = alen (flat argv))).
  { assert (Hd : alen (drop 1 argv) = Z.max 0 (alen argv - 1)) by (unfold alen; rewrite length_drop; lia).
    unfold to. destruct (Z.eqb_spec (alen (drop 1 argv)) 0); cbn [negb].
    - right. split; [lia|done].
    - left. split; [apply Hp; lia|lia]. }
  destruct (tail_bytes _ _ _ _ Hp Hto) as (Hm & Hlen). rewrite Hm, Hlen.
  destruct (to >? _); [done|].
  destruct (prefix_size prefix 0) as [pb|] eqn:E3; [|done]. apply prefix_size_spec in E3; [|lia]. rewrite Z.add_0_l in E3. subst pb.
  destruct (Z.gtb_spec (alen (flat (drop 1 argv))) (LXP_EXEC_ARGBUF - alen (flat prefix))) as [|E4]; [done|].
  destruct (put_prefix prefix 0 0 _ _) as [[vec buf] off] eqn:E5. intros [= <- <-]. cbn [ec_argv ec_argv_buf ec_env ec_env_buf ec_envc].
  destruct (prefix_over_tail _ _ _ _ _ _ _ E5) as (_ & _ & Hpk & Hal); [done| | | |].
  - apply Forall_drop, Hp.
  - change LXP_EXEC_ARGBUF with 3072 in *. lia.
  - lia.
  - assert (Hau : alen (prefix ++ drop 1 argv) = alen prefix + alen (drop 1 argv)) by (unfold alen; rewrite length_app; lia).
    cbn zeta. split; [|by rewrite Hau].
    replace (Z.to_nat (alen (drop 1 argv))) with (length (drop 1 argv)) by (unfold alen; lia).
    rewrite <- Hau. replace (Z.to_nat (alen (prefix ++ drop 1 argv))) with (length (prefix ++ drop 1 argv)) by (unfold alen; lia).
    apply packed_trim; [done|by rewrite Hal].
Qed.

Lemma packed_nil vec buf : packed vec buf [].
Proof.
  split; [constructor|]. split; [done|]. split; [done|]. split; [unfold alen; cbn; lia|].
  intros j Hj. change (alen []) with 0 in Hj. lia.
Qed.

(** C30: Whenever execve accepts a guest's argument vector, the captured vector reads back exactly as
    the strings the vector points to, in order and up to its first null pointer; and when the
    program is a script and the rewrite is accepted, the capture then reads back as the
    interpreter, its optional argument and the script's path followed by the guest's arguments
    from the second on, with the environment's capture untouched. *)
Theorem exec_vectors_exact (G : genv) (m : mem) (p uvec : Z) (cap : lxp_exec_capture) vec buf argc used
    (Hne : uvec <> 0) (Hsz : alen (ec_argv_buf cap) = LXP_EXEC_ARGBUF)
    (Hcopy : exec_copy_vec G m p uvec LXP_EXEC_MAXARGS LXP_EXEC_ARGBUF (ec_argv_buf cap) = inr (vec, buf, argc, used)) :
  let argv := lxp_capture_vec buf vec argc in
  (alen argv = argc /\ guest_entry m uvec argc = 0 /\
   forall j, 0 <= j < argc -> guest_entry m uvec j <> 0 /\ guest_string m (guest_entry m uvec j) (aget [] argv j)) /\
  forall interp iarg have script cap' argc', is_text interp -> is_text iarg -> is_text script ->
    exec_rewrite_script_argv (mk_capture (ec_argc cap) vec buf (ec_envc cap) (ec_env cap) (ec_env_buf cap)) argc used
      interp iarg have script = inr (cap', argc') ->
    lxp_capture_vec (ec_argv_buf cap') (ec_argv cap') argc' = script_prefix interp iarg have script ++ drop 1 argv /\
    ec_env cap' = ec_env cap /\ ec_env_buf cap' = ec_env_buf cap /\ ec_envc cap' = ec_envc cap.
Proof.
  unfold exec_copy_vec in Hcopy. destruct (Z.eqb_spec uvec 0); [done|].
  assert (Hvl : alen (replicate (Z.to_nat LXP_EXEC_MAXARGS) LXP_EXEC_OFF_NONE) = LXP_EXEC_MAXARGS) by done.
  destruct (copy_vec_sound G m p _ _ _ _ _ _ _ [] _ _ _ _ Hcopy (packed_nil _ _) eq_refl Hvl Hsz ltac:(done))
    as (argv & Hp & -> & -> & Hv & Hb & Hz & Hs). cbn [app] in *.
  rewrite (capture_vec_packed _ _ _ Hp). cbn zeta. split; [done|].
  intros interp iarg have script cap' argc' Hi Ha Hsc Hr.
  destruct (rewrite_packed (mk_capture (ec_argc cap) vec buf (ec_envc cap) (ec_env cap) (ec_env_buf cap)) argv _ _ _ _ _ _ _ Hp eq_refl Hv Hb Hi Ha Hsc Hr) as (Hp' & -> & Henv).
  split; [by apply capture_vec_packed|done].
Qed.

(** Two arguments "a" and "b" of a script "/s" whose interpreter is "/i". *)
Definition demo_vec_mem (a : Z) : Z :=
  aget 0 [16; 16; 0; 0; 18; 16; 0; 0; 0; 0; 0; 0; 0; 0; 0; 0; 97; 0; 98; 0] (a - 4096).

Lemma exec_vectors_exact_witness :
  exists vec buf cap' argc', exec_copy_vec demo_genv demo_vec_mem 0 4096 LXP_EXEC_MAXARGS LXP_EXEC_ARGBUF (ec_argv_buf capture_zero) = inr (vec, buf, 2, 4) /\
    lxp_capture_vec buf vec 2 = [[97]; [98]] /\
    exec_rewrite_script_argv (mk_capture 0 vec buf 0 (ec_env capture_zero) (ec_env_buf capture_zero)) 2 4 [47; 105] [] false [47; 115] = inr (cap', argc') /\
    lxp_capture_vec (ec_argv_buf cap') (ec_argv cap') argc' = [[47; 105]; [47; 115]; [98]].
Proof.
  assert (Hc : exists vec buf, exec_copy_vec demo_genv demo_vec_mem 0 4096 LXP_EXEC_MAXARGS LXP_EXEC_ARGBUF (ec_argv_buf capture_zero) = inr (vec, buf, 2, 4) /\
    lxp_capture_vec buf vec 2 = [[97]; [98]] /\
    match exec_rewrite_script_argv (mk_capture 0 vec buf 0 (ec_env capture_zero) (ec_env_buf capture_zero)) 2 4 [47; 105] [] false [47; 115] with
    | inr _ => True | inl _ => False end).
  { do 2 eexists. split; [vm_compute; reflexivity|]. split; vm_compute; reflexivity || exact I. }
  destruct Hc as (vec & buf & Hc & Hv & Hr). destruct (exec_rewrite_script_argv _ _ _ _ _ _ _) as [|[cap' argc']] eqn:E; [done|].
  destruct (exec_vectors_exact demo_genv demo_vec_mem 0 4096 capture_zero vec buf 2 4 ltac:(lia) eq_refl Hc) as (_ & H).
  exists vec, buf, cap', argc'. split; [exact Hc|]. split; [exact Hv|]. split; [exact E|].
  destruct (H [47; 105] [] false [47; 115] cap' argc' ltac:(repeat constructor; lia) ltac:(constructor) ltac:(repeat constructor; lia) E) as (-> & _). by rewrite Hv.
Defined.
