(* ===== verification/Stat.v ===== *)
(** * File attributes and their guest layouts (src/fs/lxp_stat.c, src/fs/lxp_stat.h)

    Every stat path fills one record, which is then written to the guest as a stat64 or as a
    statx.  The two layouts are byte lists in the order of the C structures; the tests at the
    end are the offsets the header pins. *)

From S2P Require Import Prelude Config Proc Guest.
Local Open Scope Z_scope.

Definition LXP_STATX_BASIC_STATS : Z := 0x7ff.

Record lxp_stat := mk_stat {
  st_mode : Z; st_ino : Z; st_nlink : Z; st_dev_major : Z; st_dev_minor : Z; st_rdev : Z; st_size : Z; st_mtime : Z;
}.
Definition set_st_rdev (s : lxp_stat) (v : Z) : lxp_stat :=
  mk_stat (st_mode s) (st_ino s) (st_nlink s) (st_dev_major s) (st_dev_minor s) v (st_size s) (st_mtime s).

Definition lxp_stat_init (ino mode size : Z) : lxp_stat := mk_stat mode ino 1 0 0 0 size 0.

Definition bytes64 (v : Z) : list Z := le_bytes 8 v.
Definition zeros (n : nat) : list Z := replicate n 0.

(** The 104 bytes of [struct lxp_kstat64]; four bytes of padding precede the 64-bit
    [st_blocks]. *)
Definition fill_kstat64 (st : lxp_stat) : list Z :=
  bytes64 (Z.lor (Z.shiftl (st_dev_major st) 8) (st_dev_minor st)) ++ zeros 4 ++ bytes32 (st_ino st) ++
  bytes32 (st_mode st) ++ bytes32 (st_nlink st) ++ zeros 8 ++ bytes64 (st_rdev st) ++ zeros 8 ++ bytes64 (st_size st) ++
  bytes32 (if Z.land (st_mode st) LXP_S_IFMT =? LXP_S_IFCHR then 1024 else 512) ++ zeros 4 ++
  bytes64 ((u64 (st_size st + 511)) / 512) ++ zeros 8 ++ bytes32 (u32 (st_mtime st)) ++ zeros 12 ++ bytes64 (st_ino st).

(** The 256 bytes of [struct lxp_statx]. *)
Definition fill_statx (st : lxp_stat) : list Z :=
  bytes32 LXP_STATX_BASIC_STATS ++ bytes32 512 ++ zeros 8 ++ bytes32 (st_nlink st) ++ zeros 8 ++
  le_bytes 2 (u16 (st_mode st)) ++ zeros 2 ++ bytes64 (st_ino st) ++ bytes64 (st_size st) ++
  bytes64 ((u64 (st_size st + 511)) / 512) ++ zeros 8 ++ zeros 48 ++ bytes64 (u64 (st_mtime st)) ++ zeros 8 ++
  bytes32 (u32 (Z.shiftr (st_rdev st) 8)) ++ bytes32 (Z.land (st_rdev st) 0xff) ++
  bytes32 (st_dev_major st) ++ bytes32 (st_dev_minor st) ++ zeros 112.

Definition lxp_stat_copyout (G : genv) (m : mem) (p ubuf : Z) (statx : bool) (st : lxp_stat) : Z * mem :=
  lxp_copy_to_guest G m p ubuf (if statx then fill_statx st else fill_kstat64 st).

(** ** The pinned sizes and offsets *)

Definition field (bs : list Z) (off n : nat) : Z := le_val (take n (drop off bs)).

Lemma length_fill_kstat64 st : length (fill_kstat64 st) = 104%nat.
Proof. reflexivity. Qed.
Lemma length_fill_statx st : length (fill_statx st) = 256%nat.
Proof. reflexivity. Qed.

Lemma take_le_bytes n v rest : take n (le_bytes n v ++ rest) = le_bytes n v.
Proof. rewrite <- (length_le_bytes n v) at 1. apply take_app_length. Qed.

Lemma field_at bs off n v rest : drop off bs = le_bytes n v ++ rest -> field bs off n = v mod 2 ^ (8 * Z.of_nat n).
Proof. intros E. unfold field. by rewrite E, take_le_bytes, le_val_bytes. Qed.

Lemma field_at32 bs off v rest : drop off bs = bytes32 v ++ rest -> field bs off 4 = u32 v.
Proof. intros E. unfold field. rewrite E. exact (le_val_bytes32 v). Qed.

Lemma field_at64 bs off v rest : drop off bs = bytes64 v ++ rest -> field bs off 8 = u64 v.
Proof. exact (field_at bs off 8 v rest). Qed.

(** The fields a stat64 caller reads at the ABI's offsets. *)
Theorem kstat64_fields st :
  let bs := fill_kstat64 st in
  field bs 12 4 = u32 (st_ino st) /\ field bs 16 4 = u32 (st_mode st) /\ field bs 20 4 = u32 (st_nlink st) /\
  field bs 32 8 = u64 (st_rdev st) /\ field bs 48 8 = u64 (st_size st) /\
  field bs 64 8 = u64 (u64 (st_size st + 511) / 512) /\ field bs 80 4 = u32 (u32 (st_mtime st)) /\ field bs 96 8 = u64 (st_ino st).
Proof.
  cbn zeta. split_and!; first [eapply field_at32; reflexivity | eapply (field_at64 _ _ _ []); reflexivity | eapply field_at64; reflexivity].
Qed.

(** * Directory records (src/fs/lxp_dirent.c, src/fs/lxp_dirent.h)

    A getdents call fills a guest buffer with variable-length records through a sink that
    remembers how much it has written and whether a copy failed.  A record is the byte list
    the C code assembles on its stack, in the 64-bit or the 32-bit layout. *)

Definition LXP_DT_FIFO : Z := 1.
Definition LXP_DT_CHR : Z := 2.
Definition LXP_DT_DIR : Z := 4.
Definition LXP_DT_BLK : Z := 6.
Definition LXP_DT_REG : Z := 8.
Definition LXP_DT_LNK : Z := 10.
Definition LXP_DT_SOCK : Z := 12.
Definition LXP_DIRENT64_HEAD : Z := 19.
Definition LXP_DIRENT32_HEAD : Z := 10.

(** The sink without its [proc], which is passed beside it. *)
Record lxp_dirent_sink := mk_sink { sk_ubuf : Z; sk_cap : Z; sk_filled : Z; sk_error : Z; sk_is64 : bool }.
Definition set_sk_filled (s : lxp_dirent_sink) (v : Z) : lxp_dirent_sink :=
  mk_sink (sk_ubuf s) (sk_cap s) v (sk_error s) (sk_is64 s).
Definition set_sk_error (s : lxp_dirent_sink) (v : Z) : lxp_dirent_sink :=
  mk_sink (sk_ubuf s) (sk_cap s) (sk_filled s) v (sk_is64 s).

(** The record's length, rounded up to eight. *)
Definition dirent_reclen (is64 : bool) (namelen : Z) : Z :=
  let head := if is64 then LXP_DIRENT64_HEAD else LXP_DIRENT32_HEAD in
  Z.land (u32 (head + namelen + 1 + (if is64 then 0 else 1) + 7)) (2 ^ 32 - 1 - 7).

(** The assembled record: the head, the name, zeros up to the length; the 32-bit layout keeps
    the type in its last byte. *)
Definition dirent_record (is64 : bool) (ino off type : Z) (name : list Z) : list Z :=
  let reclen := dirent_reclen is64 (alen name) in
  let inobytes := if is64 then 8%nat else 4%nat in
  let head := le_bytes inobytes ino ++ le_bytes inobytes off ++ le_bytes 2 reclen ++ (if is64 then [u8 type] else []) in
  let body := head ++ name in
  let record := body ++ replicate (Z.to_nat (reclen - alen body)) 0 in
  if is64 then record else aset record (reclen - 1) (u8 type).

Definition LXP_DIRENT_RECORD_MAX : Z := LXP_PATH_MAX + 32.

Definition lxp_dirent_put (G : genv) (m : mem) (p : Z) (sink : lxp_dirent_sink) (ino off type : Z) (name : list Z)
    : bool * mem * lxp_dirent_sink :=
  if negb (sk_error sink =? 0) then (false, m, sink)
  else
    let reclen := dirent_reclen (sk_is64 sink) (alen name) in
    if (u32 (sk_filled sink + reclen) >? sk_cap sink) || (reclen >? LXP_DIRENT_RECORD_MAX) then (false, m, sink)
    else
      let '(rc, m') := lxp_copy_to_guest G m p (u32 (sk_ubuf sink + sk_filled sink)) (dirent_record (sk_is64 sink) ino off type name) in
      if negb (rc =? 0) then (false, m', set_sk_error sink (- LXP_EFAULT))
      else (true, m', set_sk_filled sink (u32 (sk_filled sink + reclen))).

Definition lxp_dirent_type (mode : Z) : Z :=
  let fmt := Z.land mode LXP_S_IFMT in
  if fmt =? LXP_S_IFDIR then LXP_DT_DIR
  else if fmt =? LXP_S_IFCHR then LXP_DT_CHR
  else if fmt =? LXP_S_IFBLK then LXP_DT_BLK
  else if fmt =? LXP_S_IFLNK then LXP_DT_LNK
  else if fmt =? LXP_S_IFIFO then LXP_DT_FIFO
  else if fmt =? LXP_S_IFSOCK then LXP_DT_SOCK
  else LXP_DT_REG.
