(* ===== verification/Pty.v ===== *)
(** * Pseudo-terminals (src/pty/lxp_pty.c)

    A pty is two byte rings, program input ([m2s]) and program output ([s2m]), with a line
    discipline where the master writes and output processing where the slave writes.  The
    pool is a list of [LXP_NPTY] records; a write reads the caller's bytes from guest memory,
    a read stores them there, and the foreground group's signals go through the coordinator. *)

From S2P Require Import Prelude Config Ring Proc Pool Fd Guest Wait Arena Process Runtime Event Region Lifecycle.
From S2P Require Import Signal SysSignal Child SignalRoute Console Stat.
Local Open Scope Z_scope.

Definition LXP_PTY_BUF : Z := 1024.
Definition LXP_PTY_CANON : Z := 256.
Definition LXP_NPTY : Z := 2.
Definition LXP_PTYW_SREAD : Z := 1.
Definition LXP_PTYW_MREAD : Z := 2.
Definition LXP_PTYW_SWRITE : Z := 3.
Definition LXP_PTYW_MWRITE : Z := 4.
Definition LXP_TIOCGPTN : Z := 0x80045430.
Definition LXP_TIOCSPTLCK : Z := 0x40045431.
Definition LXP_INO_PTY : Z := 0x500000.

Record pty_ring := mk_pring { pr_buf : list Z; pr_r : Z; pr_w : Z; pr_n : Z }.
Record lxp_pty := mk_pty {
  pt_m2s : pty_ring; pt_s2m : pty_ring; pt_canon : list Z; pt_canon_n : Z; pt_tty : lxp_tty;
  pt_masters : Z; pt_slaves : Z; pt_used : bool; pt_locked : Z; pt_m2s_eof : bool; pt_m_nb : bool; pt_s_nb : bool;
}.
Definition set_pt_m2s t v := mk_pty v (pt_s2m t) (pt_canon t) (pt_canon_n t) (pt_tty t) (pt_masters t) (pt_slaves t)
  (pt_used t) (pt_locked t) (pt_m2s_eof t) (pt_m_nb t) (pt_s_nb t).
Definition set_pt_s2m t v := mk_pty (pt_m2s t) v (pt_canon t) (pt_canon_n t) (pt_tty t) (pt_masters t) (pt_slaves t)
  (pt_used t) (pt_locked t) (pt_m2s_eof t) (pt_m_nb t) (pt_s_nb t).
Definition set_pt_canon t v n := mk_pty (pt_m2s t) (pt_s2m t) v n (pt_tty t) (pt_masters t) (pt_slaves t)
  (pt_used t) (pt_locked t) (pt_m2s_eof t) (pt_m_nb t) (pt_s_nb t).
Definition set_pt_tty t v := mk_pty (pt_m2s t) (pt_s2m t) (pt_canon t) (pt_canon_n t) v (pt_masters t) (pt_slaves t)
  (pt_used t) (pt_locked t) (pt_m2s_eof t) (pt_m_nb t) (pt_s_nb t).
Definition set_pt_ends t ms sl := mk_pty (pt_m2s t) (pt_s2m t) (pt_canon t) (pt_canon_n t) (pt_tty t) ms sl
  (pt_used t) (pt_locked t) (pt_m2s_eof t) (pt_m_nb t) (pt_s_nb t).
Definition set_pt_locked t v := mk_pty (pt_m2s t) (pt_s2m t) (pt_canon t) (pt_canon_n t) (pt_tty t) (pt_masters t) (pt_slaves t)
  (pt_used t) v (pt_m2s_eof t) (pt_m_nb t) (pt_s_nb t).
Definition set_pt_eof t v := mk_pty (pt_m2s t) (pt_s2m t) (pt_canon t) (pt_canon_n t) (pt_tty t) (pt_masters t) (pt_slaves t)
  (pt_used t) (pt_locked t) v (pt_m_nb t) (pt_s_nb t).
Definition set_pt_nb t m s := mk_pty (pt_m2s t) (pt_s2m t) (pt_canon t) (pt_canon_n t) (pt_tty t) (pt_masters t) (pt_slaves t)
  (pt_used t) (pt_locked t) (pt_m2s_eof t) m s.

Definition pring_zero : pty_ring := mk_pring (replicate (Z.to_nat LXP_PTY_BUF) 0) 0 0 0.
Definition tty_zero : lxp_tty := mk_tty (mk_termios 0 0 0 0 0 (replicate (Z.to_nat LXP_NCCS) 0)) (mk_winsize 0 0 0 0) 0.
Definition pty_zero : lxp_pty :=
  mk_pty pring_zero pring_zero (replicate (Z.to_nat LXP_PTY_CANON) 0) 0 tty_zero 0 0 false 0 false false false.
Definition pty_at (g : list lxp_pty) (idx : Z) : lxp_pty := aget pty_zero g idx.

(** ** Rings *)

Definition ring_space (r : pty_ring) : Z := LXP_PTY_BUF - pr_n r.

Definition ring_putc (r : pty_ring) (ch : Z) : pty_ring :=
  if pr_n r <? LXP_PTY_BUF
  then mk_pring (aset (pr_buf r) (pr_w r) ch) (pr_r r) ((pr_w r + 1) mod LXP_PTY_BUF) (pr_n r + 1)
  else r.

(** The bytes read and the ring behind them. *)
Definition ring_read (r : pty_ring) (len : Z) : list Z * pty_ring :=
  let '(out, rpos, n, _) := lxp_ring_read (pr_buf r) LXP_PTY_BUF (pr_r r) (pr_n r) len in
  (out, mk_pring (pr_buf r) rpos (pr_w r) n).

Fixpoint read_line_loop (len : nat) (r : pty_ring) (out : list Z) : list Z * pty_ring :=
  match len with
  | O => (out, r)
  | S len =>
      if pr_n r >? 0
      then let ch := aget 0 (pr_buf r) (pr_r r) in
           let r := mk_pring (pr_buf r) ((pr_r r + 1) mod LXP_PTY_BUF) (pr_w r) (pr_n r - 1) in
           if ch =? 10 then (out ++ [ch], r) else read_line_loop len r (out ++ [ch])
      else (out, r)
  end.

Definition ring_read_line (r : pty_ring) (len : Z) : list Z * pty_ring := read_line_loop (Z.to_nat len) r [].

(** Several [ring_putc] in a row. *)
Definition ring_puts (r : pty_ring) (bs : list Z) : pty_ring := fold_left ring_putc bs r.

Section Pty.
Context {H : Type} (core : os_core H).
Implicit Types (c : coord H) (g : list lxp_pty) (pt : lxp_pty).

Definition pty_signal_foreground c pt (sig : Z) : coord H :=
  if tty_fg_pgrp (pt_tty pt) >? 0 then (lxp_signal_process_group core c (tty_fg_pgrp (pt_tty pt)) sig).2 else c.

(** ** The line discipline *)

Definition lflag pt (bit : Z) : bool := negb (Z.land (c_lflag (tty_termios (pt_tty pt))) bit =? 0).
Definition iflag pt (bit : Z) : bool := negb (Z.land (c_iflag (tty_termios (pt_tty pt))) bit =? 0).
Definition oflag pt (bit : Z) : bool := negb (Z.land (c_oflag (tty_termios (pt_tty pt))) bit =? 0).
Definition cc_of pt (i : Z) : Z := aget 0 (c_cc (tty_termios (pt_tty pt))) i.
Definition echoes pt (bs : list Z) : lxp_pty := if lflag pt LXP_ECHO then set_pt_s2m pt (ring_puts (pt_s2m pt) bs) else pt.

(** One byte of a master write; [None] when it does not fit. *)
Definition pty_input_byte c pt (byte : Z) : option (coord H * lxp_pty) :=
  let ch := if iflag pt LXP_ICRNL && (byte =? 13) then 10 else byte in
  let sig := lxp_tty_signal_for (pt_tty pt) ch in
  if negb (sig =? 0) then Some (pty_signal_foreground c pt sig, pt)
  else if negb (lflag pt LXP_ICANON)
  then if ring_space (pt_m2s pt) =? 0 then None
       else Some (c, echoes (set_pt_m2s pt (ring_putc (pt_m2s pt) ch)) [ch])
  else if (ch =? cc_of pt LXP_VERASE) || (ch =? 8)
  then Some (c, if pt_canon_n pt >? 0 then echoes (set_pt_canon pt (pt_canon pt) (pt_canon_n pt - 1)) [8; 32; 8] else pt)
  else
    let line := take (Z.to_nat (pt_canon_n pt)) (pt_canon pt) in
    if ch =? 10
    then if ring_space (pt_m2s pt) <? pt_canon_n pt + 1 then None
         else Some (c, echoes (set_pt_canon (set_pt_m2s pt (ring_puts (pt_m2s pt) (line ++ [10]))) (pt_canon pt) 0) [13; 10])
    else if ch =? cc_of pt LXP_VEOF
    then if ring_space (pt_m2s pt) <? pt_canon_n pt then None
         else let pt' := set_pt_m2s pt (ring_puts (pt_m2s pt) line) in
              let pt' := if pt_canon_n pt =? 0 then set_pt_eof pt' true else pt' in
              Some (c, set_pt_canon pt' (pt_canon pt) 0)
    else Some (c, if pt_canon_n pt <? LXP_PTY_CANON
                  then echoes (set_pt_canon pt (aset (pt_canon pt) (pt_canon_n pt) ch) (pt_canon_n pt + 1)) [ch] else pt).

Definition consumed_or_again (consumed : Z) : Z := if negb (consumed =? 0) then consumed else - LXP_EAGAIN.

Fixpoint pty_input_loop c pt (inp : list Z) (consumed : Z) : Z * coord H * lxp_pty :=
  match inp with
  | [] => (consumed, c, pt)
  | byte :: t =>
      match pty_input_byte c pt byte with
      | None => (consumed_or_again consumed, c, pt)
      | Some (c, pt) => pty_input_loop c pt t (consumed + 1)
      end
  end.

Definition pty_input c g (idx : Z) (inp : list Z) : Z * coord H * list lxp_pty :=
  let '(r, c, pt) := pty_input_loop c (pty_at g idx) inp 0 in (r, c, aset g idx pt).

(** One byte of a slave write. *)
Definition pty_output_byte pt (ch : Z) : option lxp_pty :=
  if oflag pt LXP_OPOST && oflag pt LXP_ONLCR && (ch =? 10)
  then if ring_space (pt_s2m pt) <? 2 then None else Some (set_pt_s2m pt (ring_puts (pt_s2m pt) [13; 10]))
  else if ring_space (pt_s2m pt) =? 0 then None else Some (set_pt_s2m pt (ring_putc (pt_s2m pt) ch)).

Fixpoint pty_output_loop pt (inp : list Z) (consumed : Z) : Z * lxp_pty :=
  match inp with
  | [] => (consumed, pt)
  | ch :: t =>
      match pty_output_byte pt ch with
      | None => (consumed_or_again consumed, pt)
      | Some pt => pty_output_loop pt t (consumed + 1)
      end
  end.

Definition pty_output g (idx : Z) (inp : list Z) : Z * list lxp_pty :=
  let '(r, pt) := pty_output_loop (pty_at g idx) inp 0 in (r, aset g idx pt).

(** ** Entry points *)

Definition pty_bad g (idx : Z) : bool := (idx <? 0) || (idx >=? LXP_NPTY) || negb (pt_used (pty_at g idx)).

(** The bytes an end reads, or the code it gets. *)
Definition pty_take pt (is_master : bool) (len : Z) : (Z + list Z) * lxp_pty :=
  if is_master
  then if pr_n (pt_s2m pt) >? 0
       then let '(out, r) := ring_read (pt_s2m pt) len in (inr out, set_pt_s2m pt r)
       else (inl (if pt_slaves pt =? 0 then 0 else - LXP_EAGAIN), pt)
  else if pr_n (pt_m2s pt) >? 0
       then let '(out, r) := if lflag pt LXP_ICANON then ring_read_line (pt_m2s pt) len else ring_read (pt_m2s pt) len in
            (inr out, set_pt_m2s pt r)
       else if pt_masters pt =? 0 then (inl 0, pt)
       else if pt_m2s_eof pt then (inl 0, set_pt_eof pt false)
       else (inl (- LXP_EAGAIN), pt).

Definition lxp_pty_read c g (idx : Z) (is_master : bool) (ubuf len : Z) : Z * coord H * list lxp_pty :=
  if pty_bad g idx then (- LXP_EBADF, c, g)
  else if len =? 0 then (0, c, g)
  else match pty_take (pty_at g idx) is_master len with
       | (inl rc, pt) => (rc, c, aset g idx pt)
       | (inr out, pt) => (alen out, set_cmem c (mem_write (cmem c) ubuf out), aset g idx pt)
       end.

Definition lxp_pty_write c g (idx : Z) (is_master : bool) (ubuf len : Z) : Z * coord H * list lxp_pty :=
  if pty_bad g idx then (- LXP_EBADF, c, g)
  else if len =? 0 then (0, c, g)
  else
    let inp := map u8 (mem_read (cmem c) ubuf (Z.to_nat len)) in
    if is_master then pty_input c g idx inp
    else let '(r, g) := pty_output g idx inp in (r, c, g).

Definition lxp_pty_ioctl c g (slot idx : Z) (is_master : bool) (cmd arg : Z) : Z * coord H * list lxp_pty :=
  if pty_bad g idx then (- LXP_EBADF, c, g)
  else
    let pt := pty_at g idx in
    let ua := u32 arg in
    if cmd =? LXP_TIOCGPTN
    then let '(rc, m) := lxp_guest_put_u32 (cgenv c) (cmem c) slot ua (u32 idx) in (rc, set_cmem c m, g)
    else if cmd =? LXP_TIOCSPTLCK
    then match lxp_guest_get_u32 (cgenv c) (cmem c) slot ua with
         | inl _ => (- LXP_EFAULT, c, g)
         | inr locked => (0, c, aset g idx (set_pt_locked pt (s32 locked)))
         end
    else let '(rc, m, tty) := lxp_tty_ioctl (cgenv c) (cmem c) slot (pt_tty pt) cmd arg in
         (rc, set_cmem c m, aset g idx (set_pt_tty pt tty)).

Definition lxp_pty_poll g (idx : Z) (is_master : bool) : Z :=
  if pty_bad g idx then 0
  else
    let pt := pty_at g idx in
    if is_master
    then Z.lor (if (pr_n (pt_s2m pt) >? 0) || (pt_slaves pt =? 0) then LXP_POLLIN else 0)
           (if ring_space (pt_m2s pt) >? 0 then LXP_POLLOUT else 0)
    else Z.lor (if (pr_n (pt_m2s pt) >? 0) || (pt_masters pt =? 0) || pt_m2s_eof pt then LXP_POLLIN else 0)
           (if ring_space (pt_s2m pt) >? 0 then LXP_POLLOUT else 0).

Definition lxp_pty_stat (idx : Z) (is_master : bool) : lxp_stat :=
  set_st_rdev (lxp_stat_init (u32 (LXP_INO_PTY + idx)) (Z.lor LXP_S_IFCHR 0x190) 0)
    (if is_master then Z.lor (Z.shiftl 5 8) 2 else Z.lor (Z.shiftl 136 8) (u32 idx)).

Definition lxp_pty_nonblock g (idx : Z) (is_master : bool) : bool :=
  if pty_bad g idx then false else if is_master then pt_m_nb (pty_at g idx) else pt_s_nb (pty_at g idx).

Definition lxp_pty_setfl g (idx : Z) (is_master : bool) (flags : Z) : list lxp_pty :=
  if pty_bad g idx then g
  else let pt := pty_at g idx in
       let nb := has flags LXP_O_NONBLOCK in
       aset g idx (if is_master then set_pt_nb pt nb (pt_s_nb pt) else set_pt_nb pt (pt_m_nb pt) nb).

Definition lxp_pty_retry c g (slot : Z) : Z * coord H * list lxp_pty :=
  let w := p_wait (cproc c slot) in
  match w_kind w, w_data w with
  | LXP_WAIT_PTY, WD_IO object _ buffer len _ _ _ =>
      if w_op w =? LXP_PTYW_SREAD then lxp_pty_read c g object false buffer len
      else if w_op w =? LXP_PTYW_MREAD then lxp_pty_read c g object true buffer len
      else if w_op w =? LXP_PTYW_SWRITE then lxp_pty_write c g object false buffer len
      else if w_op w =? LXP_PTYW_MWRITE then lxp_pty_write c g object true buffer len
      else (0, c, g)
  | LXP_WAIT_PTY, _ => (0, c, g)
  | _, _ => (- LXP_EINVAL, c, g)
  end.

(** ** Opening and closing *)

Definition pty_fresh (flags : Z) : lxp_pty :=
  mk_pty pring_zero pring_zero (replicate (Z.to_nat LXP_PTY_CANON) 0) 0 lxp_tty_init 0 0 true 1 false (has flags LXP_O_NONBLOCK) false.

Definition lxp_pty_open_master g (flags : Z) : Z * list lxp_pty :=
  match List.find (fun i => negb (pt_used (pty_at g i))) (seqZ 0 LXP_NPTY) with
  | Some i => (i, aset g i (pty_fresh flags))
  | None => (- LXP_EMFILE, g)
  end.

Definition lxp_pty_open_slave g (num flags : Z) : Z * list lxp_pty :=
  if pty_bad g num then (- LXP_ENOENT, g)
  else (num, aset g num (set_pt_nb (pty_at g num) (pt_m_nb (pty_at g num)) (has flags LXP_O_NONBLOCK))).

Definition lxp_pty_exists g (num : Z) : bool := negb (pty_bad g num).

Definition lxp_pty_end_open g (idx : Z) (is_master : bool) : list lxp_pty :=
  if pty_bad g idx then g
  else let pt := pty_at g idx in
       let up n := if negb (n =? UINT16_MAX) then n + 1 else n in
       aset g idx (if is_master then set_pt_ends pt (up (pt_masters pt)) (pt_slaves pt)
                   else set_pt_ends pt (pt_masters pt) (up (pt_slaves pt))).

Definition lxp_pty_end_close g (idx : Z) (is_master : bool) : list lxp_pty :=
  if pty_bad g idx then g
  else let pt := pty_at g idx in
       let down n := if n >? 0 then n - 1 else n in
       let pt := if is_master then set_pt_ends pt (down (pt_masters pt)) (pt_slaves pt)
                 else set_pt_ends pt (pt_masters pt) (down (pt_slaves pt)) in
       aset g idx (if (pt_masters pt =? 0) && (pt_slaves pt =? 0) then pty_zero else pt).

Definition lxp_pty_discard g (idx : Z) : list lxp_pty :=
  if (idx >=? 0) && (idx <? LXP_NPTY) && (pt_masters (pty_at g idx) =? 0) && (pt_slaves (pty_at g idx) =? 0)
  then aset g idx pty_zero else g.

Definition lxp_pty_runtime_reset : list lxp_pty := replicate (Z.to_nat LXP_NPTY) pty_zero.

(** ** File operations *)

Definition pty_wait (op object buffer len : Z) : lxp_wait := mk_wait LXP_WAIT_PTY op 0 0 (WD_IO object 0 buffer len 0 0 0).

Definition is_master (s : lxp_ofd) : bool := negb (ofd_rw s =? 0).

(** The result of a transfer, parked when it would block. *)
Definition pty_park (now : option Z) c g (slot : Z) (s : lxp_ofd) (op r buf len : Z) : Z * coord H * list lxp_pty :=
  if (r =? - LXP_EAGAIN) && negb (lxp_pty_nonblock g (ofd_file_idx s) (is_master s))
  then let '(rc, p) := lxp_wait_park now (cproc c slot) (pty_wait op (ofd_file_idx s) buf len) in (rc, put_cproc c slot p, g)
  else (r, c, g).

Definition fop_read_pty (now : option Z) c g (slot : Z) (s : lxp_ofd) (buf len : Z) : Z * coord H * list lxp_pty :=
  let '(r, c, g) := lxp_pty_read c g (ofd_file_idx s) (is_master s) buf len in
  pty_park now c g slot s (if is_master s then LXP_PTYW_MREAD else LXP_PTYW_SREAD) r buf len.

Definition fop_write_pty (now : option Z) c g (slot : Z) (s : lxp_ofd) (buf len : Z) : Z * coord H * list lxp_pty :=
  let '(r, c, g) := lxp_pty_write c g (ofd_file_idx s) (is_master s) buf len in
  pty_park now c g slot s (if is_master s then LXP_PTYW_MWRITE else LXP_PTYW_SWRITE) r buf len.

Definition fop_fstat_pty (s : lxp_ofd) : Z * lxp_stat := (0, lxp_pty_stat (ofd_file_idx s) (is_master s)).
Definition fop_setfl_pty g (s : lxp_ofd) : list lxp_pty :=
  lxp_pty_setfl g (ofd_file_idx s) (is_master s) (if negb (ofd_nonblock s =? 0) then LXP_O_NONBLOCK else 0).
Definition fop_close_pty g (s : lxp_ofd) : list lxp_pty := lxp_pty_end_close g (ofd_file_idx s) (is_master s).
Definition fop_ioctl_pty c g (slot : Z) (s : lxp_ofd) (cmd arg : Z) : Z * coord H * list lxp_pty :=
  lxp_pty_ioctl c g slot (ofd_file_idx s) (is_master s) cmd arg.
Definition fop_poll_pty g (s : lxp_ofd) : Z := lxp_pty_poll g (ofd_file_idx s) (is_master s).

End Pty.
