(* ===== verification/PtyProps.v ===== *)
(** * Properties of the pseudo-terminals

    Over any interleaving of reads and writes of the two ends, with the writers resubmitting
    what backpressure refused, the program reads exactly the line-edited keystrokes and the
    server reads everything the program wrote. *)

From S2P Require Import Prelude Config Ring Proc Pool Fd Guest Wait Arena Process Runtime Event Region Lifecycle.
From S2P Require Import Signal SysSignal Child SignalRoute Console Stat Pty.
Local Open Scope Z_scope.

(** ** The rings as queues *)

Definition rview (r : pty_ring) : list Z := ring_view (pr_buf r) LXP_PTY_BUF (pr_r r) (pr_n r).
Definition rwf (r : pty_ring) : Prop := ring_wf (pr_buf r) LXP_PTY_BUF (pr_r r) (pr_w r) (pr_n r).

Lemma length_rview r : rwf r -> alen (rview r) = pr_n r.
Proof. intros (_ & _ & _ & Hn & _). unfold rview, alen. rewrite length_ring_view. lia. Qed.

Lemma splice_one (buf : list Z) w ch : 0 <= w < alen buf -> splice (splice buf w [ch]) 0 [] = aset buf w ch.
Proof.
  intros Hw. assert (E : forall l : list Z, splice l 0 [] = l) by (intros l; unfold splice; cbn; by rewrite drop_0). rewrite E.
  apply aget_ext; [rewrite length_splice, length_aset by (cbn [length]; lia); done|].
  intros i Hi. unfold alen in Hi. rewrite length_splice in Hi by (cbn [length]; lia). rewrite aget_splice by (cbn [length]; lia). cbn [length].
  destruct (decide (i = w)) as [->|Hne].
  - rewrite aget_aset_eq by done. destruct (Z.leb_spec w w); [|lia]. destruct (Z.ltb_spec w (w + Z.of_nat 1)); [|lia]. cbn [andb]. by rewrite Z.sub_diag.
  - rewrite aget_aset_ne by (unfold alen in *; lia).
    destruct (Z.leb_spec w i); [|done]. destruct (Z.ltb_spec i (w + Z.of_nat 1)); [lia|done].
Qed.

Lemma ring_putc_spec r ch : rwf r ->
  rwf (ring_putc r ch) /\ rview (ring_putc r ch) = if pr_n r <? LXP_PTY_BUF then rview r ++ [ch] else rview r.
Proof.
  intros Hw. unfold ring_putc. destruct (Z.ltb_spec (pr_n r) LXP_PTY_BUF) as [Hn|]; [|done].
  pose proof Hw as (_ & Hb & Hr & _ & Ew).
  assert (Hwr : 0 <= pr_w r < LXP_PTY_BUF) by (rewrite Ew; apply Z.mod_pos_bound; done).
  pose proof (ring_write_spec _ _ _ _ _ Hw [ch] 1 ltac:(unfold alen; cbn; lia)) as Hs. cbn zeta in Hs. unfold lxp_ring_write in Hs.
  destruct (Z.gtb_spec 1 (LXP_PTY_BUF - pr_n r)); [lia|]. destruct (Z.gtb_spec (LXP_PTY_BUF - pr_w r) 1).
  2:{ assert (E1 : LXP_PTY_BUF - pr_w r = 1) by lia. rewrite E1 in Hs.
      change (slice [ch] 0 1) with [ch] in Hs. change (slice [ch] 1 (1 - 1)) with (@nil Z) in Hs.
      rewrite splice_one in Hs by lia. destruct Hs as (_ & Hv & Hf). rewrite Z.min_l in Hv by lia. split; [exact Hf|exact Hv]. }
  change (slice [ch] 0 1) with [ch] in Hs. change (slice [ch] 1 (1 - 1)) with (@nil Z) in Hs.
  rewrite splice_one in Hs by lia. destruct Hs as (_ & Hv & Hf). rewrite Z.min_l in Hv by lia. split; [exact Hf|exact Hv].
Qed.

Definition clip (q : list Z) : list Z := take (Z.to_nat LXP_PTY_BUF) q.

Lemma clip_short q : alen q <= LXP_PTY_BUF -> clip q = q.
Proof. intros Hq. unfold clip. apply take_ge. unfold alen in Hq. lia. Qed.

Lemma clip_app_l q bs : clip (clip q ++ bs) = clip (q ++ bs).
Proof.
  unfold clip. destruct (Z.leb_spec (alen q) LXP_PTY_BUF) as [Hq|Hq].
  - unfold alen in Hq. by rewrite (take_ge q) by lia.
  - unfold alen in Hq. rewrite !take_app_le by (try rewrite length_take; lia). rewrite take_take. f_equal.
Qed.

Lemma ring_puts_spec r bs : rwf r -> rwf (ring_puts r bs) /\ rview (ring_puts r bs) = clip (rview r ++ bs).
Proof.
  revert r. induction bs as [|b t IH]; intros r Hr; cbn [ring_puts fold_left].
  { split; [done|]. rewrite app_nil_r, clip_short; [done|]. rewrite length_rview by done. apply Hr. }
  destruct (ring_putc_spec r b Hr) as (Hw & Hv). destruct (IH _ Hw) as (Hw' & Hv'). split; [done|].
  unfold ring_puts in Hv'. rewrite Hv', Hv. pose proof (length_rview r Hr) as Hl. destruct Hr as (_ & _ & _ & Hn & _).
  destruct (Z.ltb_spec (pr_n r) LXP_PTY_BUF); [by rewrite <- app_assoc|].
  assert (E : length (rview r) = Z.to_nat LXP_PTY_BUF) by (unfold alen in Hl; lia).
  unfold clip. rewrite !take_app_le by lia. done.
Qed.

(** A read of a whole line: up to [n] bytes, ending behind the first newline. *)
Fixpoint first_line (n : nat) (q : list Z) : list Z :=
  match n, q with S n, b :: t => if b =? 10 then [b] else b :: first_line n t | _, _ => [] end.

Lemma ring_read_queue r len : rwf r -> 0 <= len ->
  let '(out, r') := ring_read r len in out = take (Z.to_nat (Z.min len (pr_n r))) (rview r) /\ rview r = out ++ rview r' /\ rwf r'.
Proof.
  intros Hr Hl. unfold ring_read. pose proof (ring_read_spec _ _ _ _ _ Hr len Hl) as Hs.
  destruct (lxp_ring_read _ _ _ _ _) as [[[out rpos] n] k]. destruct Hs as (_ & Ho & Hv & Hw). split; [exact Ho|]. split; [|exact Hw].
  unfold rview at 2. cbn [pr_buf pr_r pr_n]. rewrite Hv, Ho. symmetry. apply take_drop.
Qed.

Lemma read_line_queue n r out : rwf r ->
  let '(out', r') := read_line_loop n r out in
  out' = out ++ first_line n (rview r) /\ rview r = first_line n (rview r) ++ rview r' /\ rwf r'.
Proof.
  revert r out. induction n as [|n IH]; intros r out Hr; cbn [read_line_loop first_line]; [by rewrite app_nil_r|].
  pose proof (length_rview r Hr) as Hl.
  destruct (Z.gtb_spec (pr_n r) 0) as [Hn|Hn].
  2:{ destruct (rview r) eqn:E; [by rewrite app_nil_r|]. unfold alen in Hl. cbn in Hl. lia. }
  pose proof (ring_read_queue r 1 Hr ltac:(lia)) as Hq. unfold ring_read, lxp_ring_read in Hq.
  destruct (Z.gtb_spec 1 (pr_n r)); [lia|].
  assert (Hn1 : (if LXP_PTY_BUF - pr_r r >? 1 then 1 else LXP_PTY_BUF - pr_r r) = 1).
  { destruct Hr as (_ & _ & Hr & _). destruct (Z.gtb_spec (LXP_PTY_BUF - pr_r r) 1); lia. }
  rewrite Hn1 in Hq. change (slice _ 0 (1 - 1)) with (@nil Z) in Hq. rewrite app_nil_r in Hq.
  assert (Es : slice (pr_buf r) (pr_r r) 1 = [aget 0 (pr_buf r) (pr_r r)]).
  { pose proof Hr as (_ & Hb & Hrr & _). pose proof (length_slice (pr_buf r) (pr_r r) 1 ltac:(lia) ltac:(lia) ltac:(lia)) as Hls.
    pose proof (aget_slice (pr_buf r) (pr_r r) 1 0 ltac:(lia) ltac:(lia)) as Ha. rewrite Z.add_0_r in Ha.
    destruct (slice (pr_buf r) (pr_r r) 1) as [|x [|]]; try done. cbn in Ha. by rewrite <- Ha. }
  rewrite Es in Hq. destruct Hq as (_ & Hv & Hw). set (ch := aget 0 (pr_buf r) (pr_r r)) in *.
  set (r1 := mk_pring _ _ _ _) in *. rewrite Hv. cbn [app]. cbn zeta. destruct (Z.eqb_spec ch 10); [done|].
  specialize (IH r1 (out ++ [ch]) Hw). destruct (read_line_loop n r1 (out ++ [ch])) as [o' r']. destruct IH as (-> & Hv' & Hw').
  rewrite <- app_assoc. cbn [app]. split; [done|]. split; [|done]. by rewrite Hv' at 1.
Qed.

(** ** The line discipline on queues *)

Definition tl (t : lxp_tty) (bit : Z) : bool := negb (Z.land (c_lflag (tty_termios t)) bit =? 0).
Definition ti (t : lxp_tty) (bit : Z) : bool := negb (Z.land (c_iflag (tty_termios t)) bit =? 0).
Definition to (t : lxp_tty) (bit : Z) : bool := negb (Z.land (c_oflag (tty_termios t)) bit =? 0).
Definition tcc (t : lxp_tty) (i : Z) : Z := aget 0 (c_cc (tty_termios t)) i.

(** What one keystroke does to the delivered input and the line being edited. *)
Definition cook_byte (t : lxp_tty) (st : list Z * list Z) (byte : Z) : list Z * list Z :=
  let '(delivered, line) := st in
  let ch := if ti t LXP_ICRNL && (byte =? 13) then 10 else byte in
  if negb (lxp_tty_signal_for t ch =? 0) then (delivered, line)
  else if negb (tl t LXP_ICANON) then (delivered ++ [ch], line)
  else if (ch =? tcc t LXP_VERASE) || (ch =? 8) then (delivered, removelast line)
  else if ch =? 10 then (delivered ++ line ++ [10], [])
  else if ch =? tcc t LXP_VEOF then (delivered ++ line, [])
  else if alen line <? LXP_PTY_CANON then (delivered, line ++ [ch]) else (delivered, line).
Definition cook (t : lxp_tty) (typed : list Z) : list Z * list Z := fold_left (cook_byte t) typed ([], []).

(** What the server sees of a byte the program writes. *)
Definition post_byte (t : lxp_tty) (ch : Z) : list Z := if to t LXP_OPOST && to t LXP_ONLCR && (ch =? 10) then [13; 10] else [ch].
Definition post (t : lxp_tty) (bs : list Z) : list Z := concat (map (post_byte t) bs).

Definition pty_wf (pt : lxp_pty) : Prop :=
  rwf (pt_m2s pt) /\ rwf (pt_s2m pt) /\ alen (pt_canon pt) = LXP_PTY_CANON /\ 0 <= pt_canon_n pt <= LXP_PTY_CANON.
Definition line_of (pt : lxp_pty) : list Z := take (Z.to_nat (pt_canon_n pt)) (pt_canon pt).

(** The parts a transfer leaves alone. *)
Definition same_ends (a b : lxp_pty) : Prop :=
  pt_tty a = pt_tty b /\ pt_masters a = pt_masters b /\ pt_slaves a = pt_slaves b /\ pt_used a = pt_used b.

(** Bytes added to the output, none when the terminal does not echo. *)
Definition echoed (a b : lxp_pty) : Prop :=
  exists e, rview (pt_s2m b) = rview (pt_s2m a) ++ e /\ (tl (pt_tty a) LXP_ECHO = false -> e = []).

Lemma alen_line pt : pty_wf pt -> alen (line_of pt) = pt_canon_n pt.
Proof. intros (_ & _ & Hc & Hn). unfold line_of, alen in *. rewrite length_take. lia. Qed.

Lemma clip_prefix q bs : alen q <= LXP_PTY_BUF -> exists e, clip (q ++ bs) = q ++ e.
Proof. intros Hq. unfold clip, alen in *. rewrite take_app_ge by lia. by eexists. Qed.

Lemma echoes_spec pt bs : pty_wf pt ->
  pty_wf (echoes pt bs) /\ same_ends (echoes pt bs) pt /\ pt_m2s (echoes pt bs) = pt_m2s pt /\ line_of (echoes pt bs) = line_of pt /\
  echoed pt (echoes pt bs).
Proof.
  intros (H1 & H2 & H3 & H4). unfold echoes. change (lflag pt LXP_ECHO) with (tl (pt_tty pt) LXP_ECHO).
  destruct (tl (pt_tty pt) LXP_ECHO) eqn:E.
  - destruct (ring_puts_spec _ bs H2) as (Hw & Hv). split; [done|]. split; [done|]. split; [done|]. split; [done|].
    unfold echoed. cbn [pt_s2m set_pt_s2m]. rewrite Hv, E.
    destruct (clip_prefix (rview (pt_s2m pt)) bs) as (e & ->); [rewrite length_rview by done; apply H2|]. by exists e.
  - split; [done|]. split; [done|]. split; [done|]. split; [done|]. exists []. by rewrite app_nil_r.
Qed.

Lemma line_drop pt : pty_wf pt -> pt_canon_n pt > 0 -> take (Z.to_nat (pt_canon_n pt - 1)) (pt_canon pt) = removelast (line_of pt).
Proof.
  intros (_ & _ & Hc & Hn) Hp. unfold line_of, alen in *. rewrite removelast_firstn_len, length_take, take_take. f_equal. lia.
Qed.

Lemma line_add pt ch : pty_wf pt -> pt_canon_n pt < LXP_PTY_CANON ->
  take (Z.to_nat (pt_canon_n pt + 1)) (aset (pt_canon pt) (pt_canon_n pt) ch) = line_of pt ++ [ch].
Proof.
  intros (_ & _ & Hc & Hn) Hp. replace (Z.to_nat (pt_canon_n pt + 1)) with (S (Z.to_nat (pt_canon_n pt))) by lia.
  rewrite (take_S_r _ _ ch).
  - f_equal. unfold line_of, aset. apply take_insert_ge. lia.
  - unfold aset. apply list_lookup_insert_eq. unfold alen in Hc. lia.
Qed.

(** One keystroke that fits. *)
Lemma input_byte_spec {H : Type} (core : os_core H) c pt byte c' pt' :
  pty_wf pt -> pty_input_byte core c pt byte = Some (c', pt') ->
  pty_wf pt' /\ same_ends pt' pt /\ echoed pt pt' /\
  exists x, rview (pt_m2s pt') = rview (pt_m2s pt) ++ x /\
    forall d, cook_byte (pt_tty pt) (d, line_of pt) byte = (d ++ x, line_of pt').
Proof.
  intros Hw. unfold pty_input_byte, cook_byte. change (iflag pt) with (ti (pt_tty pt)). change (lflag pt) with (tl (pt_tty pt)).
  change (cc_of pt) with (tcc (pt_tty pt)). set (ch := if _ && (byte =? 13) then 10 else byte).
  pose proof (alen_line pt Hw) as Hl. pose proof Hw as (W1 & W2 & W3 & W4). pose proof (length_rview _ W1) as Hq.
  assert (Hsame : echoed pt pt) by (exists []; by rewrite app_nil_r).
  destruct (lxp_tty_signal_for _ ch =? 0); cbn [negb].
  2:{ intros [= <- <-]. split_and!; try done. exists []. split; [by rewrite app_nil_r|]. intros d. by rewrite app_nil_r. }
  destruct (tl (pt_tty pt) LXP_ICANON); cbn [negb].
  2:{ unfold ring_space. destruct (Z.eqb_spec (LXP_PTY_BUF - pr_n (pt_m2s pt)) 0) as [|Hs]; [done|]. intros [= <- <-].
      destruct (ring_putc_spec _ ch W1) as (Hw' & Hv'). destruct (Z.ltb_spec (pr_n (pt_m2s pt)) LXP_PTY_BUF); [|destruct W1 as (_ & _ & _ & ? & _); lia].
      destruct (echoes_spec (set_pt_m2s pt (ring_putc (pt_m2s pt) ch)) [ch]) as (E1 & E2 & E3 & E4 & E5); [split_and!; try done; cbn; lia|].
      split_and!; try done. exists [ch]. rewrite E3, E4. done. }
  destruct ((ch =? _) || (ch =? 8)).
  { intros [= <- <-]. destruct (Z.gtb_spec (pt_canon_n pt) 0) as [Hp|Hp].
    - destruct (echoes_spec (set_pt_canon pt (pt_canon pt) (pt_canon_n pt - 1)) [8; 32; 8]) as (E1 & E2 & E3 & E4 & E5).
      { split_and!; try done; cbn; lia. }
      split_and!; try done. exists []. rewrite E3, E4, app_nil_r. split; [done|]. intros d. rewrite app_nil_r.
      by rewrite <- (line_drop pt Hw) by lia.
    - split_and!; try done. exists []. rewrite !app_nil_r. split; [done|]. intros d. rewrite app_nil_r. f_equal.
      destruct (line_of pt); [done|]. unfold alen in Hl. cbn in Hl. lia. }
  destruct (Z.eqb_spec ch 10).
  { unfold ring_space. destruct (Z.ltb_spec (LXP_PTY_BUF - pr_n (pt_m2s pt)) (pt_canon_n pt + 1)) as [|Hs]; [done|]. intros [= <- <-].
    destruct (ring_puts_spec _ (line_of pt ++ [10]) W1) as (Hw' & Hv').
    destruct (echoes_spec (set_pt_canon (set_pt_m2s pt (ring_puts (pt_m2s pt) (line_of pt ++ [10]))) (pt_canon pt) 0) [13; 10]) as (E1 & E2 & E3 & E4 & E5).
    { split_and!; try done; cbn; lia. }
    split_and!; try done. exists (line_of pt ++ [10]). fold (line_of pt). rewrite E3, E4. split; [|done]. cbn [pt_m2s set_pt_canon set_pt_m2s]. rewrite Hv', clip_short; [done|].
    unfold alen in *. rewrite !length_app. cbn [length]. lia. }
  destruct (Z.eqb_spec ch (tcc (pt_tty pt) LXP_VEOF)).
  { unfold ring_space. destruct (Z.ltb_spec (LXP_PTY_BUF - pr_n (pt_m2s pt)) (pt_canon_n pt)) as [|Hs]; [done|]. intros [= <- <-].
    destruct (ring_puts_spec _ (line_of pt) W1) as (Hw' & Hv'). fold (line_of pt).
    assert (Hc : clip (rview (pt_m2s pt) ++ line_of pt) = rview (pt_m2s pt) ++ line_of pt).
    { apply clip_short. unfold alen in *. rewrite length_app. lia. }
    rewrite Hc in Hv'. destruct (pt_canon_n pt =? 0); (split; [split_and!; try done; cbn; lia|]; split; [by split_and!|]; split; [exact Hsame|]; exists (line_of pt); split; [exact Hv'|done]). }
  intros [= <- <-]. rewrite Hl. destruct (Z.ltb_spec (pt_canon_n pt) LXP_PTY_CANON) as [Hp|Hp].
  - destruct (echoes_spec (set_pt_canon pt (aset (pt_canon pt) (pt_canon_n pt) ch) (pt_canon_n pt + 1)) [ch]) as (E1 & E2 & E3 & E4 & E5).
    { split_and!; try done; [cbn; by rewrite alen_aset|cbn; lia..]. }
    split_and!; try done. exists []. rewrite E3, E4, app_nil_r. split; [done|]. intros d. rewrite app_nil_r. by rewrite <- (line_add pt ch Hw) by lia.
  - split_and!; try done. exists []. rewrite app_nil_r. split; [done|]. intros d. by rewrite app_nil_r.
Qed.

Lemma same_ends_trans a b d : same_ends a b -> same_ends b d -> same_ends a d.
Proof. intros (A1 & A2 & A3 & A4) (B1 & B2 & B3 & B4). split_and!; congruence. Qed.

Lemma echoed_trans a b d : same_ends b a -> echoed a b -> echoed b d -> echoed a d.
Proof.
  intros (Ht & _) (e & E1 & E2) (e' & F1 & F2). exists (e ++ e'). rewrite F1, E1, app_assoc. split; [done|].
  intros He. rewrite E2 by done. apply F2. by rewrite Ht.
Qed.

(** A master write: the part of the buffer it reports is cooked, the rest is untouched. *)
Lemma input_loop_spec {H : Type} (core : os_core H) inp c pt consumed r c' pt' :
  pty_wf pt -> 0 <= consumed -> pty_input_loop core c pt inp consumed = (r, c', pt') ->
  pty_wf pt' /\ same_ends pt' pt /\ echoed pt pt' /\ (r = - LXP_EAGAIN -> pt' = pt) /\
  exists x, rview (pt_m2s pt') = rview (pt_m2s pt) ++ x /\
    forall d, fold_left (cook_byte (pt_tty pt)) (take (Z.to_nat (r - consumed)) inp) (d, line_of pt) = (d ++ x, line_of pt').
Proof.
  assert (Hz : forall p, echoed p p) by (intros p; exists []; by rewrite app_nil_r).
  revert c pt consumed. induction inp as [|b t IH]; intros c pt consumed Hw Hc; cbn [pty_input_loop].
  { intros [= <- <- <-]. rewrite Z.sub_diag. split_and!; try done. exists []. rewrite app_nil_r. split; [done|]. intros d. by rewrite app_nil_r. }
  destruct (pty_input_byte core c pt b) as [[c1 pt1]|] eqn:E.
  2:{ intros [= <- <- <-]. split_and!; try done. exists []. rewrite app_nil_r. split; [done|]. intros d. rewrite app_nil_r.
      unfold consumed_or_again. destruct (Z.eqb_spec consumed 0) as [->|]; cbn [negb]; [done|]. by rewrite Z.sub_diag. }
  intros Hl. destruct (input_byte_spec core c pt b c1 pt1 Hw E) as (W1 & S1 & E1 & x & V1 & C1).
  destruct (IH c1 pt1 (consumed + 1) W1 ltac:(lia) Hl) as (W2 & S2 & E2 & A2 & y & V2 & C2).
  assert (Hr : consumed + 1 <= r \/ (r = - LXP_EAGAIN /\ consumed + 1 = 0)).
  { clear - Hl Hc. revert c1 pt1 consumed Hc Hl. induction t as [|b' t IH]; intros c1 pt1 consumed Hc; cbn [pty_input_loop].
    { intros [= <- _ _]. lia. }
    destruct (pty_input_byte core c1 pt1 b') as [[c2 pt2]|].
    - intros Hl. destruct (IH c2 pt2 (consumed + 1) ltac:(lia) Hl); lia.
    - intros [= <- _ _]. unfold consumed_or_again. destruct (Z.eqb_spec (consumed + 1) 0); cbn [negb]; lia. }
  split; [done|]. split; [by eapply same_ends_trans|]. split; [by eapply echoed_trans|].
  split; [intros ->; destruct Hr as [Hr|(_ & Hr)]; [change LXP_EAGAIN with 11 in Hr; lia|lia]|].
  exists (x ++ y). rewrite V2, V1, app_assoc. split; [done|]. intros d.
  replace (Z.to_nat (r - consumed)) with (S (Z.to_nat (r - (consumed + 1)))) by lia. cbn [take fold_left].
  rewrite C1. rewrite (proj1 S1) in C2. by rewrite C2, app_assoc.
Qed.

Lemma output_byte_spec pt ch pt' : pty_wf pt -> pty_output_byte pt ch = Some pt' ->
  pty_wf pt' /\ same_ends pt' pt /\ pt_m2s pt' = pt_m2s pt /\ line_of pt' = line_of pt /\
  rview (pt_s2m pt') = rview (pt_s2m pt) ++ post_byte (pt_tty pt) ch.
Proof.
  intros (W1 & W2 & W3 & W4). unfold pty_output_byte, post_byte, ring_space. change (oflag pt) with (to (pt_tty pt)).
  pose proof (length_rview _ W2) as Hq.
  assert (Hput : forall r', rwf r' -> pty_wf (set_pt_s2m pt r')) by (intros r' Hr; split_and!; try done; cbn; lia).
  destruct (_ && (ch =? 10)).
  - destruct (Z.ltb_spec (LXP_PTY_BUF - pr_n (pt_s2m pt)) 2); [done|]. intros [= <-].
    destruct (ring_puts_spec _ [13; 10] W2) as (Hw & Hv). split; [by apply Hput|]. do 3 (split; [done|]).
    etransitivity; [exact Hv|]. apply clip_short. unfold alen in *. rewrite length_app. cbn [length]. lia.
  - destruct (Z.eqb_spec (LXP_PTY_BUF - pr_n (pt_s2m pt)) 0); [done|]. intros [= <-].
    destruct (ring_putc_spec _ ch W2) as (Hw & Hv). split; [by apply Hput|]. do 3 (split; [done|]).
    etransitivity; [exact Hv|]. destruct (Z.ltb_spec (pr_n (pt_s2m pt)) LXP_PTY_BUF); [done|]. destruct W2 as (_ & _ & _ & ? & _). lia.
Qed.

(** A slave write. *)
Lemma output_loop_spec inp pt consumed r pt' :
  pty_wf pt -> 0 <= consumed -> pty_output_loop pt inp consumed = (r, pt') ->
  pty_wf pt' /\ same_ends pt' pt /\ pt_m2s pt' = pt_m2s pt /\ line_of pt' = line_of pt /\ (consumed <= r \/ r = - LXP_EAGAIN /\ consumed = 0) /\
  rview (pt_s2m pt') = rview (pt_s2m pt) ++ post (pt_tty pt) (take (Z.to_nat (r - consumed)) inp).
Proof.
  revert pt consumed. induction inp as [|b t IH]; intros pt consumed Hw Hc; cbn [pty_output_loop].
  { intros [= <- <-]. rewrite Z.sub_diag. cbn. rewrite app_nil_r. split_and!; try done. lia. }
  destruct (pty_output_byte pt b) as [pt1|] eqn:E.
  2:{ intros [= <- <-]. unfold consumed_or_again. destruct (Z.eqb_spec consumed 0) as [->|]; cbn [negb].
      - split_and!; try done; [by right|]. cbn. by rewrite app_nil_r.
      - rewrite Z.sub_diag. split_and!; try done; [lia|]. cbn. by rewrite app_nil_r. }
  intros Hl. destruct (output_byte_spec pt b pt1 Hw E) as (W1 & S1 & M1 & L1 & V1).
  destruct (IH pt1 (consumed + 1) W1 ltac:(lia) Hl) as (W2 & S2 & M2 & L2 & R2 & V2).
  split; [done|]. split; [by eapply same_ends_trans|]. split; [congruence|]. split; [congruence|]. split; [lia|].
  replace (Z.to_nat (r - consumed)) with (S (Z.to_nat (r - (consumed + 1)))) by lia. cbn [take].
  rewrite V2, V1. rewrite (proj1 S1). unfold post. cbn [map concat]. by rewrite <- app_assoc.
Qed.

(** A read of either end takes a prefix of its queue. *)
Lemma take_spec pt m len res pt' : pty_wf pt -> 0 < len -> pty_take pt m len = (res, pt') ->
  let out := match res with inr out => out | inl _ => [] end in
  pty_wf pt' /\ same_ends pt' pt /\ line_of pt' = line_of pt /\
  (if m then rview (pt_s2m pt) = out ++ rview (pt_s2m pt') /\ pt_m2s pt' = pt_m2s pt
   else rview (pt_m2s pt) = out ++ rview (pt_m2s pt') /\ pt_s2m pt' = pt_s2m pt).
Proof.
  intros (W1 & W2 & W3 & W4) Hl. unfold pty_take. destruct m.
  - destruct (Z.gtb_spec (pr_n (pt_s2m pt)) 0) as [Hn|Hn].
    + pose proof (ring_read_queue _ len W2 ltac:(lia)) as Hr. destruct (ring_read (pt_s2m pt) len) as [out r']. intros [= <- <-].
      destruct Hr as (_ & Hv & Hw). split; [split_and!; try done; cbn; lia|]. split; [done|]. split; [done|]. done.
    + intros [= <- <-]. split_and!; try done; lia.
  - destruct (Z.gtb_spec (pr_n (pt_m2s pt)) 0) as [Hn|Hn].
    + assert (Hr : let '(out, r') := if lflag pt LXP_ICANON then ring_read_line (pt_m2s pt) len else ring_read (pt_m2s pt) len in
                rview (pt_m2s pt) = out ++ rview r' /\ rwf r').
      { destruct (lflag pt LXP_ICANON).
        - pose proof (read_line_queue (Z.to_nat len) _ [] W1) as Hr. unfold ring_read_line.
          destruct (read_line_loop _ _ _) as [out r']. destruct Hr as (-> & ? & ?). done.
        - pose proof (ring_read_queue _ len W1 ltac:(lia)) as Hr. destruct (ring_read _ _). by destruct Hr as (_ & ? & ?). }
      destruct (if lflag pt LXP_ICANON then _ else _) as [out r']. intros [= <- <-]. destruct Hr as (Hv & Hw).
      split; [split_and!; try done; cbn; lia|]. done.
    + destruct (pt_masters pt =? 0); [|destruct (pt_m2s_eof pt)]; intros [= <- <-]; (split; [split_and!; try done; cbn; lia|]; done).
Qed.

(** ** Bytes *)

Definition isb (b : Z) : Prop := 0 <= b < 256.
Definition pbytes (pt : lxp_pty) : Prop := Forall isb (pr_buf (pt_m2s pt)) /\ Forall isb (pr_buf (pt_s2m pt)) /\ Forall isb (pt_canon pt).

Lemma isb_u8 l : Forall isb l -> map u8 l = l.
Proof. induction 1 as [|b t Hb _ IH]; [done|]. cbn. rewrite IH. unfold isb in Hb. by rewrite u8_small. Qed.
Lemma isb_one b : isb b -> Forall isb [b].
Proof. intros Hb. by constructor. Qed.
Lemma isb_read m a n : Forall isb (mem_read m a n).
Proof. revert a. induction n; intros a; cbn; constructor; [unfold isb, load8; apply u8_range|done]. Qed.

Lemma rview_bytes r : Forall isb (pr_buf r) -> Forall isb (rview r).
Proof.
  intros Hb. unfold rview, ring_view. apply List.Forall_map, Forall_true. intros i. unfold aget. rewrite nth_lookup.
  destruct (pr_buf r !! _) eqn:E; [exact (Forall_lookup_1 _ _ _ _ Hb E)|cbn; unfold isb; lia].
Qed.

Lemma ring_puts_bytes r bs : Forall isb (pr_buf r) -> Forall isb bs -> Forall isb (pr_buf (ring_puts r bs)).
Proof.
  intros Hr Hb. revert r Hr. induction Hb as [|b t Hb _ IH]; intros r Hr; [done|]. cbn [ring_puts fold_left]. apply IH.
  unfold ring_putc. destruct (_ <? _); [|done]. cbn [pr_buf]. by apply Forall_aset.
Qed.

Lemma echoes_bytes pt bs : pbytes pt -> Forall isb bs -> pbytes (echoes pt bs).
Proof. intros (B1 & B2 & B3) Hb. unfold echoes. destruct (lflag _ _); [|done]. split_and!; try done. by apply ring_puts_bytes. Qed.

Lemma input_byte_bytes {H : Type} (core : os_core H) c pt byte c' pt' :
  pbytes pt -> isb byte -> pty_input_byte core c pt byte = Some (c', pt') -> pbytes pt'.
Proof.
  intros Hp Hb. pose proof Hp as (B1 & B2 & B3). unfold pty_input_byte. set (ch := if _ && (byte =? 13) then 10 else byte).
  assert (Hch : isb ch) by (unfold ch, isb in *; destruct (_ && _); lia).
  assert (H8 : Forall isb [8; 32; 8]) by (repeat constructor; done). assert (Hn : Forall isb [13; 10]) by (repeat constructor; done).
  assert (Hl : Forall isb (take (Z.to_nat (pt_canon_n pt)) (pt_canon pt))) by (by apply Forall_take).
  destruct (negb _); [intros [= _ <-]; done|]. destruct (negb _).
  { destruct (_ =? 0); [done|]. intros [= _ <-]. apply echoes_bytes; [|by apply isb_one].
    split_and!; try done. apply (ring_puts_bytes (pt_m2s pt) [ch]); [done|by apply isb_one]. }
  destruct (_ || _); [intros [= _ <-]; destruct (_ >? 0); [by apply echoes_bytes|done]|].
  destruct (ch =? 10).
  { destruct (_ <? _); [done|]. intros [= _ <-]. apply echoes_bytes; [|done]. split_and!; try done. apply ring_puts_bytes; [done|].
    apply Forall_app_2; [done|by apply isb_one]. }
  destruct (ch =? _).
  { destruct (_ <? _); [done|]. intros [= _ <-]. destruct (_ =? 0); (split_and!; try done; by apply ring_puts_bytes). }
  intros [= _ <-]. destruct (_ <? _); [|done]. apply echoes_bytes; [|by apply isb_one]. split_and!; try done. by apply Forall_aset.
Qed.

Lemma input_loop_bytes {H : Type} (core : os_core H) inp c pt consumed r c' pt' :
  pbytes pt -> Forall isb inp -> pty_input_loop core c pt inp consumed = (r, c', pt') -> pbytes pt'.
Proof.
  intros Hp Hi. revert c pt consumed Hp. induction Hi as [|b t Hb _ IH]; intros c pt consumed Hp; cbn [pty_input_loop].
  { by intros [= _ _ <-]. }
  destruct (pty_input_byte core c pt b) as [[c1 pt1]|] eqn:E; [|by intros [= _ _ <-]].
  apply IH. by eapply input_byte_bytes.
Qed.

Lemma output_loop_bytes inp pt consumed r pt' : pbytes pt -> Forall isb inp -> pty_output_loop pt inp consumed = (r, pt') -> pbytes pt'.
Proof.
  intros Hp Hi. revert pt consumed Hp. induction Hi as [|b t Hb _ IH]; intros pt consumed (B1 & B2 & B3); cbn [pty_output_loop].
  { by intros [= _ <-]. }
  destruct (pty_output_byte pt b) as [pt1|] eqn:E; [|by intros [= _ <-]].
  apply IH. unfold pty_output_byte in E.
  destruct (_ && (b =? 10)); [destruct (_ <? _); [done|]|destruct (_ =? 0); [done|]]; injection E as <-; split_and!; try done.
  - apply (ring_puts_bytes (pt_s2m pt) [13; 10]); [done|repeat constructor; done].
  - apply (ring_puts_bytes (pt_s2m pt) [b]); [done|by apply isb_one].
Qed.

Lemma take_bytes_of pt m len res pt' : pbytes pt -> pty_take pt m len = (res, pt') -> pbytes pt'.
Proof.
  intros (B1 & B2 & B3). unfold pty_take, ring_read, lxp_ring_read.
  assert (Hl : forall n r out, pr_buf (read_line_loop n r out).2 = pr_buf r).
  { induction n as [|n IH]; intros r out; cbn [read_line_loop]; [done|]. destruct (_ >? 0); [|done]. cbn zeta.
    destruct (_ =? 10); [done|]. by rewrite IH. }
  destruct m.
  - destruct (_ >? 0); intros [= _ <-]; done.
  - destruct (_ >? 0).
    + destruct (lflag _ _).
      * unfold ring_read_line. specialize (Hl (Z.to_nat len) (pt_m2s pt) []). destruct (read_line_loop _ _ _) as [o r']. cbn in Hl.
        intros [= _ <-]. split_and!; try done. cbn. by rewrite Hl.
      * intros [= _ <-]. done.
    + destruct (pt_masters pt =? 0); [|destruct (pt_m2s_eof pt)]; intros [= _ <-]; done.
Qed.

(** ** Sessions *)

(** What a step of a session moves through one pty: bytes its end's write accepted, bytes
    its end's read stored. *)
Inductive pty_ev :=
  | Wrote (master : bool) (bs : list Z)
  | Read (master : bool) (bs : list Z)
  | Quiet.

(** Steps of the pool, under any coordinator and memory.  The pty watched keeps its pair open
    and its settings; everything else may change, the other ptys included. *)
Inductive pty_step {H : Type} (core : os_core H) (idx : Z) (g : list lxp_pty) : pty_ev -> list lxp_pty -> Prop :=
  | ps_write c i m ubuf len r c' g' : 0 <= len -> lxp_pty_write core c g i m ubuf len = (r, c', g') ->
      pty_step core idx g
        (if i =? idx then Wrote m (take (Z.to_nat r) (map u8 (mem_read (cmem c) ubuf (Z.to_nat len)))) else Quiet) g'
  | ps_read (c : coord H) i m ubuf len r c' g' : 0 <= len -> lxp_pty_read c g i m ubuf len = (r, c', g') ->
      pty_step core idx g (if i =? idx then Read m (mem_read (cmem c') ubuf (Z.to_nat r)) else Quiet) g'
  | ps_ioctl (c : coord H) slot i m cmd arg r c' g' : lxp_pty_ioctl c g slot i m cmd arg = (r, c', g') ->
      tty_termios (pt_tty (pty_at g' idx)) = tty_termios (pt_tty (pty_at g idx)) -> pty_step core idx g Quiet g'
  | ps_setfl i m flags : pty_step core idx g Quiet (lxp_pty_setfl g i m flags)
  | ps_open_master flags : pty_step core idx g Quiet (lxp_pty_open_master g flags).2
  | ps_open_slave num flags : pty_step core idx g Quiet (lxp_pty_open_slave g num flags).2
  | ps_end_open i m : pty_step core idx g Quiet (lxp_pty_end_open g i m)
  | ps_end_close i m : pt_used (pty_at (lxp_pty_end_close g i m) idx) = true ->
      pty_step core idx g Quiet (lxp_pty_end_close g i m)
  | ps_discard i : pt_used (pty_at (lxp_pty_discard g i) idx) = true -> pty_step core idx g Quiet (lxp_pty_discard g i).

Inductive pty_run {H : Type} (core : os_core H) (idx : Z) (g : list lxp_pty) : list pty_ev -> list lxp_pty -> Prop :=
  | pr_nil : pty_run core idx g [] g
  | pr_snoc tr g1 ev g2 : pty_run core idx g tr g1 -> pty_step core idx g1 ev g2 -> pty_run core idx g (tr ++ [ev]) g2.

Definition wrote_by (m : bool) (tr : list pty_ev) : list Z :=
  concat (map (fun e => match e with Wrote m' bs => if eqb m m' then bs else [] | _ => [] end) tr).
Definition read_by (m : bool) (tr : list pty_ev) : list Z :=
  concat (map (fun e => match e with Read m' bs => if eqb m m' then bs else [] | _ => [] end) tr).

Section Session.
Context {H : Type} (core : os_core H) (idx : Z) (T : lxp_tty).
Hypothesis (Hidx : 0 <= idx < LXP_NPTY).

(** The pool during a session. *)
Definition live (g : list lxp_pty) : Prop :=
  alen g = LXP_NPTY /\ pt_used (pty_at g idx) = true /\ pty_wf (pty_at g idx) /\ pbytes (pty_at g idx) /\ tty_termios (pt_tty (pty_at g idx)) = tty_termios T.

Lemma pty_at_aset g i pt : alen g = LXP_NPTY -> 0 <= i < LXP_NPTY -> pty_at (aset g i pt) idx = if i =? idx then pt else pty_at g idx.
Proof.
  intros Hg Hi. unfold pty_at. destruct (Z.eqb_spec i idx) as [->|]; [apply aget_aset_eq; lia|apply aget_aset_ne; lia].
Qed.

Lemma pty_bad_false g i : pty_bad g i = false -> 0 <= i < LXP_NPTY /\ pt_used (pty_at g i) = true.
Proof. unfold pty_bad. intros Hb. destruct (pt_used (pty_at g i)); [split; [|done]; lia|]. cbn in Hb. lia. Qed.

(** The data of the watched pty, untouched. *)
Definition idle (g g' : list lxp_pty) : Prop :=
  pt_m2s (pty_at g' idx) = pt_m2s (pty_at g idx) /\ pt_s2m (pty_at g' idx) = pt_s2m (pty_at g idx) /\
  line_of (pty_at g' idx) = line_of (pty_at g idx).

(** Replacing a record by one with the same data. *)
Lemma idle_aset g i pt :
  live g -> 0 <= i < LXP_NPTY ->
  (i = idx -> pt_used pt = true /\ pty_wf pt /\ pbytes pt /\ tty_termios (pt_tty pt) = tty_termios T /\ pt_m2s pt = pt_m2s (pty_at g idx) /\
     pt_s2m pt = pt_s2m (pty_at g idx) /\ line_of pt = line_of (pty_at g idx)) ->
  live (aset g i pt) /\ idle g (aset g i pt).
Proof.
  intros (L1 & L2 & L3 & L4 & L5) Hi Hp. unfold live, idle. rewrite !pty_at_aset, alen_aset by done.
  destruct (Z.eqb_spec i idx) as [->|]; [destruct (Hp eq_refl) as (? & ? & ? & ? & ? & ? & ?)|]; done.
Qed.

Lemma tcook_ext t t' : tty_termios t = tty_termios t' -> cook_byte t = cook_byte t'.
Proof. intros E. unfold cook_byte, ti, tl, tcc, lxp_tty_signal_for. by rewrite E. Qed.
Lemma post_ext t t' bs : tty_termios t = tty_termios t' -> post t bs = post t' bs.
Proof. intros E. unfold post, post_byte, to. by rewrite E. Qed.
(** What a step did to the watched pty's queues. *)
Definition moved (ev : pty_ev) (g g' : list lxp_pty) : Prop :=
  let a := pty_at g idx in
  let b := pty_at g' idx in
  match ev with
  | Quiet => idle g g'
  | Wrote true bs => echoed a b /\ exists x, rview (pt_m2s b) = rview (pt_m2s a) ++ x /\
      forall d, fold_left (cook_byte T) bs (d, line_of a) = (d ++ x, line_of b)
  | Wrote false bs => pt_m2s b = pt_m2s a /\ line_of b = line_of a /\ rview (pt_s2m b) = rview (pt_s2m a) ++ post T bs
  | Read true bs => rview (pt_s2m a) = bs ++ rview (pt_s2m b) /\ pt_m2s b = pt_m2s a /\ line_of b = line_of a
  | Read false bs => rview (pt_m2s a) = bs ++ rview (pt_m2s b) /\ pt_s2m b = pt_s2m a /\ line_of b = line_of a
  end.

Lemma idle_nothing ev g : (ev = Quiet \/ exists m, ev = Wrote m [] \/ ev = Read m []) -> moved ev g g.
Proof.
  assert (Hz : echoed (pty_at g idx) (pty_at g idx)) by (exists []; by rewrite app_nil_r).
  intros [->|(m & [-> | ->])]; [done| |]; destruct m; cbn; rewrite ?app_nil_r; try done.
  split; [done|]. exists []. rewrite app_nil_r. split; [done|]. intros d. by rewrite app_nil_r.
Qed.

Lemma neg_nat e : 0 <= e -> Z.to_nat (- e) = 0%nat.
Proof. lia. Qed.

Lemma write_moves (c : coord H) g i m ubuf len r c' g' :
  live g -> 0 <= len -> lxp_pty_write core c g i m ubuf len = (r, c', g') ->
  live g' /\ moved (if i =? idx then Wrote m (take (Z.to_nat r) (map u8 (mem_read (cmem c) ubuf (Z.to_nat len)))) else Quiet) g g'.
Proof.
  intros Hl Hlen. unfold lxp_pty_write. destruct (pty_bad g i) eqn:Eb.
  { intros [= <- _ <-]. split; [done|]. apply idle_nothing. destruct (i =? idx); [right; exists m; by left|by left]. }
  destruct (Z.eqb_spec len 0) as [->|].
  { intros [= <- _ <-]. split; [done|]. apply idle_nothing. destruct (i =? idx); [right; exists m; by left|by left]. }
  apply pty_bad_false in Eb as (Hi & Hu). set (inp := map u8 _). assert (Hb : Forall isb inp) by (unfold inp; rewrite map_u8_mem_read; apply isb_read).
  pose proof Hl as (L1 & L2 & L3 & L4 & L5).
  destruct (Z.eqb_spec i idx) as [->|Hne].
  - destruct m.
    + unfold pty_input. destruct (pty_input_loop _ _ _ _ _) as [[r1 c1] pt1] eqn:E. intros [= <- _ <-].
      pose proof (input_loop_bytes _ _ _ _ _ _ _ _ L4 Hb E) as Hb'.
      destruct (input_loop_spec core inp c (pty_at g idx) 0 r1 c1 pt1 L3 ltac:(lia) E) as (W & S & Ec & _ & x & V & C). rewrite Z.sub_0_r in C.
      unfold live, moved. rewrite !pty_at_aset, alen_aset, Z.eqb_refl by done. destruct S as (S1 & _ & _ & S4).
      split; [split_and!; try done; congruence|]. split; [done|]. exists x. split; [done|]. intros d. by rewrite <- C, (tcook_ext _ _ L5).
    + unfold pty_output. destruct (pty_output_loop _ _ _) as [r1 pt1] eqn:E. intros [= <- _ <-].
      pose proof (output_loop_bytes _ _ _ _ _ L4 Hb E) as Hb'.
      destruct (output_loop_spec inp (pty_at g idx) 0 r1 pt1 L3 ltac:(lia) E) as (W & S & M & L & _ & V). rewrite Z.sub_0_r in V.
      unfold live, moved. rewrite !pty_at_aset, alen_aset, Z.eqb_refl by done. destruct S as (S1 & _ & _ & S4).
      split; [split_and!; try done; congruence|]. rewrite <- (post_ext _ _ _ L5). done.
  - assert (Hq : forall pt, live (aset g i pt) /\ idle g (aset g i pt)) by (intros pt; apply idle_aset; done).
    destruct m.
    + unfold pty_input. destruct (pty_input_loop _ _ _ _ _) as [[r1 c1] pt1]. intros [= _ _ <-]. apply Hq.
    + unfold pty_output. destruct (pty_output_loop _ _ _) as [r1 pt1]. intros [= _ _ <-]. apply Hq.
Qed.

Lemma read_moves (c : coord H) g i m ubuf len r c' g' :
  live g -> 0 <= len -> lxp_pty_read c g i m ubuf len = (r, c', g') ->
  live g' /\ moved (if i =? idx then Read m (mem_read (cmem c') ubuf (Z.to_nat r)) else Quiet) g g'.
Proof.
  intros Hl Hlen. unfold lxp_pty_read. destruct (pty_bad g i) eqn:Eb.
  { intros [= <- _ <-]. split; [done|]. apply idle_nothing. destruct (i =? idx); [right; exists m; by right|by left]. }
  destruct (Z.eqb_spec len 0) as [->|].
  { intros [= <- _ <-]. split; [done|]. apply idle_nothing. destruct (i =? idx); [right; exists m; by right|by left]. }
  apply pty_bad_false in Eb as (Hi & Hu). pose proof Hl as (L1 & L2 & L3 & L4 & L5).
  destruct (Z.eqb_spec i idx) as [->|Hne].
  2:{ intros E. assert (Hg : exists pt, g' = aset g i pt) by (destruct (pty_take _ _ _) as [[rc|out] pt]; injection E as _ _ <-; by exists pt).
      destruct Hg as (pt & ->). apply idle_aset; done. }
  destruct (pty_take (pty_at g idx) m len) as [res pt] eqn:E.
  pose proof (take_bytes_of _ _ _ _ _ L4 E) as Hb. destruct (take_spec (pty_at g idx) m len res pt L3 ltac:(lia) E) as (W & (S1 & _ & _ & S4) & L & Q).
  assert (Hout : match res with inr out => Forall isb out | inl _ => True end).
  { destruct res as [|out]; [done|]. destruct m; destruct Q as (Q & _);
    [pose proof (rview_bytes _ (proj1 (proj2 L4))) as Hf|pose proof (rview_bytes _ (proj1 L4)) as Hf]; rewrite Q in Hf; by apply Forall_app in Hf as (? & _). }
  assert (Hz : forall rc, res = inl rc -> Z.to_nat rc = 0%nat).
  { intros rc ->. unfold pty_take in E. destruct m.
    - destruct (_ >? 0); [destruct (ring_read _ _); done|]. injection E as <- _. destruct (_ =? 0); [done|]. apply neg_nat. done.
    - destruct (_ >? 0); [destruct (if lflag _ _ then _ else _); done|]. destruct (_ =? 0); [by injection E as <- _|].
      destruct (pt_m2s_eof _); injection E as <- _; [done|]. apply neg_nat. done. }
  intros E'. assert (Hg : g' = aset g idx pt /\ mem_read (cmem c') ubuf (Z.to_nat r) = match res with inr out => out | inl _ => [] end).
  { destruct res as [rc|out]; injection E' as <- <- <-; (split; [done|]).
    - by rewrite (Hz rc eq_refl).
    - unfold alen. rewrite Nat2Z.id. change (cmem (set_cmem c ?m)) with m. rewrite mem_read_write_same. by apply isb_u8. }
  destruct Hg as (-> & ->). unfold live, moved. rewrite !pty_at_aset, alen_aset, Z.eqb_refl by done.
  split; [split_and!; try done; congruence|]. destruct m; destruct Q as (Q1 & Q2); split_and!; done.
Qed.
(** Records that differ from the watched one only in what a session ignores. *)
Definition alike (a b : lxp_pty) : Prop :=
  pt_m2s a = pt_m2s b /\ pt_s2m a = pt_s2m b /\ pt_canon a = pt_canon b /\ pt_canon_n a = pt_canon_n b.

Lemma idle_alike g i pt :
  live g -> 0 <= i < LXP_NPTY ->
  (i = idx -> alike pt (pty_at g idx) /\ pt_used pt = true /\ tty_termios (pt_tty pt) = tty_termios T) ->
  live (aset g i pt) /\ idle g (aset g i pt).
Proof.
  intros Hl Hi Hp. apply idle_aset; [done..|]. intros Ei. destruct (Hp Ei) as ((A1 & A2 & A3 & A4) & U & Ht).
  destruct Hl as (_ & _ & L3 & L4 & _). unfold pty_wf, pbytes, line_of in *. rewrite A1, A2, A3, A4. done.
Qed.

Lemma ioctl_moves (c : coord H) g slot i m cmd arg r c' g' :
  live g -> lxp_pty_ioctl c g slot i m cmd arg = (r, c', g') ->
  tty_termios (pt_tty (pty_at g' idx)) = tty_termios (pt_tty (pty_at g idx)) -> live g' /\ idle g g'.
Proof.
  intros Hl. pose proof Hl as (L1 & L2 & _ & _ & L5). unfold lxp_pty_ioctl.
  destruct (pty_bad g i) eqn:Eb; [by intros [= _ _ <-]|]. apply pty_bad_false in Eb as (Hi & Hu).
  destruct (cmd =? _); [destruct (lxp_guest_put_u32 _ _ _ _ _); by intros [= _ _ <-]|].
  destruct (cmd =? _).
  { destruct (lxp_guest_get_u32 _ _ _ _); intros [= _ _ <-]; [done|]. intros _. apply idle_alike; [done..|]. intros ->. done. }
  destruct (lxp_tty_ioctl _ _ _ _ _ _) as [[rc mm] tty]. intros [= _ _ <-]. rewrite pty_at_aset by done.
  destruct (Z.eqb_spec i idx) as [->|Hne]; intros Ht; (apply idle_alike; [done..|]); intros Ei; [|done].
  split; [done|]. split; [done|]. rewrite <- L5. exact Ht.
Qed.

Lemma step_moves g ev g' : pty_step core idx g ev g' -> live g -> live g' /\ moved ev g g'.
Proof.
  intros Hs Hl. pose proof Hl as (L1 & L2 & _ & _ & L5). destruct Hs as [c i m ubuf len r c' g' Hlen E|c i m ubuf len r c' g' Hlen E|c slot i m cmd arg r c' g' E Ht|i m fl|fl|num fl|i m|i m Hu|i Hu].
  - by eapply write_moves.
  - by eapply read_moves.
  - by eapply ioctl_moves.
  - unfold lxp_pty_setfl. destruct (pty_bad g i) eqn:Eb; [done|]. apply pty_bad_false in Eb as (Hi & Hu).
    apply idle_alike; [done..|]. intros ->. by destruct m.
  - unfold lxp_pty_open_master. destruct (List.find _ _) as [i|] eqn:Ef; [|done]. apply List.find_some in Ef as (Hin & Hf).
    apply list_elem_of_In, elem_of_seqZ in Hin. apply idle_alike; [done|lia|]. intros ->. by rewrite L2 in Hf.
  - unfold lxp_pty_open_slave. destruct (pty_bad g num) eqn:Eb; [done|]. apply pty_bad_false in Eb as (Hi & Hu).
    apply idle_alike; [done..|]. by intros ->.
  - unfold lxp_pty_end_open. destruct (pty_bad g i) eqn:Eb; [done|]. apply pty_bad_false in Eb as (Hi & Hu).
    apply idle_alike; [done..|]. intros ->. by destruct m.
  - unfold lxp_pty_end_close in *. destruct (pty_bad g i) eqn:Eb; [done|]. apply pty_bad_false in Eb as (Hi & Hu').
    apply idle_alike; [done..|]. intros ->. rewrite pty_at_aset, Z.eqb_refl in Hu by done. destruct (_ && _); [done|]. by destruct m.
  - unfold lxp_pty_discard in *. destruct (_ && _) eqn:E; [|done]. apply idle_alike; [done|lia|]. intros ->.
    rewrite pty_at_aset, Z.eqb_refl in Hu by (try done; lia). done.
Qed.

(** The account a session keeps. *)
Definition accounted (tr : list pty_ev) (g : list lxp_pty) : Prop :=
  let pt := pty_at g idx in
  cook T (wrote_by true tr) = (read_by false tr ++ rview (pt_m2s pt), line_of pt) /\
  sublist (post T (wrote_by false tr)) (read_by true tr ++ rview (pt_s2m pt)) /\
  (tl T LXP_ECHO = false -> post T (wrote_by false tr) = read_by true tr ++ rview (pt_s2m pt)).

Lemma traced_snoc (f : pty_ev -> list Z) tr ev : concat (map f (tr ++ [ev])) = concat (map f tr) ++ f ev.
Proof. rewrite map_app, concat_app. cbn. by rewrite app_nil_r. Qed.

Lemma post_app t a b : post t (a ++ b) = post t a ++ post t b.
Proof. unfold post. by rewrite map_app, concat_app. Qed.

Lemma account_step tr g ev g' : live g -> accounted tr g -> moved ev g g' -> accounted (tr ++ [ev]) g'.
Proof.
  intros Hl (A1 & A2 & A3) Hm. pose proof Hl as (_ & _ & _ & _ & L5). unfold accounted, wrote_by, read_by in *. rewrite !traced_snoc.
  destruct ev as [[] bs|[] bs|]; cbn [eqb app] in *; rewrite ?app_nil_r.
  - destruct Hm as ((e & E1 & E2) & x & V & C). unfold cook in *. rewrite fold_left_app, A1, C, E1, V, !app_assoc. split; [done|].
    split; [by apply sublist_inserts_r|]. intros He. rewrite E2, app_nil_r; [by apply A3|]. unfold tl in *. by rewrite L5.
  - destruct Hm as (V1 & V2 & V3). rewrite V1, V2, V3, post_app, app_assoc. split; [done|]. split; [by apply sublist_app|].
    intros He. by rewrite A3.
  - destruct Hm as (V1 & V2 & V3). rewrite V1 in *. rewrite V2, V3, <- !app_assoc. done.
  - destruct Hm as (V1 & V2 & V3). rewrite V1 in *. rewrite V2, V3, <- !app_assoc. done.
  - destruct Hm as (V1 & V2 & V3). rewrite V1, V2, V3. done.
Qed.

Lemma run_accounts g tr g' : pty_run core idx g tr g' -> live g -> accounted [] g -> live g' /\ accounted tr g'.
Proof.
  induction 1 as [|tr g1 ev g2 _ IH Hs]; intros Hl Ha; [done|]. destruct (IH Hl Ha) as (Hl1 & Ha1).
  destruct (step_moves _ _ _ Hs Hl1) as (Hl2 & Hm). split; [done|]. exact (account_step _ _ _ _ Hl1 Ha1 Hm).
Qed.
End Session.

(** ** Theorems *)

(** C28: Over any interleaving of reads and writes of a pty's two ends, ioctls, opens, closes and
    activity on other ptys, with its settings fixed and the writers resubmitting what
    backpressure refused: the bytes the program has read followed by those waiting for it are
    exactly the line-edited keystrokes the master's writes accepted, and the line being
    edited is the discipline's; the program's output, newline-translated, reaches the server
    in order and without loss, and nothing else does when the terminal does not echo. *)
Theorem pty_session_exact {H} (core : os_core H) (idx flags : Z) (T : lxp_tty) (g g' : list lxp_pty) (tr : list pty_ev)
    (Hidx : 0 <= idx < LXP_NPTY) (Hlen : alen g = LXP_NPTY) (Hfresh : pty_at g idx = set_pt_tty (pty_fresh flags) T)
    (Hrun : pty_run core idx g tr g') :
  let pt := pty_at g' idx in
  (read_by false tr ++ rview (pt_m2s pt), line_of pt) = cook T (wrote_by true tr) /\
  sublist (post T (wrote_by false tr)) (read_by true tr ++ rview (pt_s2m pt)) /\
  (tl T LXP_ECHO = false -> read_by true tr ++ rview (pt_s2m pt) = post T (wrote_by false tr)).
Proof.
  assert (Hw : rwf pring_zero) by (split_and!; done).
  assert (Hz : forall n, Forall isb (replicate n 0)) by (intros n; apply Forall_replicate; done).
  assert (Hl : live idx T g) by (unfold live; rewrite Hfresh; split_and!; try done; (split_and!; apply Hz)).
  assert (Ha : accounted idx T [] g) by (unfold accounted; rewrite Hfresh; split_and!; done).
  destruct (run_accounts core idx T Hidx g tr g' Hrun Hl Ha) as (_ & A1 & A2 & A3). cbn zeta.
  split; [done|]. split; [done|]. intros He. symmetry. by apply A3.
Qed.

(** While the master end is not read, a full output ring refuses every write of the program,
    also when no master end is open any more. *)
Theorem pty_orphan_writer_stuck {H} (core : os_core H) (idx : Z) (T : lxp_tty) (g g' : list lxp_pty) (tr : list pty_ev) :
  0 <= idx < LXP_NPTY -> live idx T g -> pr_n (pt_s2m (pty_at g idx)) = LXP_PTY_BUF ->
  pty_run core idx g tr g' -> Forall (fun e => match e with Read true _ => False | _ => True end) tr ->
  forall c ubuf len, 0 < len -> (lxp_pty_write core c g' idx false ubuf len).1.1 = - LXP_EAGAIN.
Proof.
  intros Hidx Hl Hf Hrun Htr c ubuf len Hlen.
  assert (Hg : live idx T g' /\ LXP_PTY_BUF <= alen (rview (pt_s2m (pty_at g' idx)))).
  { induction Hrun as [|tr g1 ev g2 _ IH Hs].
    { split; [done|]. rewrite length_rview by apply Hl. lia. }
    apply Forall_app in Htr as (Ht1 & Ht2). apply Forall_inv in Ht2. destruct (IH Ht1) as (Hl1 & Hn1).
    destruct (step_moves core idx T Hidx _ _ _ Hs Hl1) as (Hl2 & Hm). split; [done|].
    destruct ev as [[] bs|[] bs|]; cbn in Hm; [| |by destruct Ht2| |].
    - destruct Hm as ((e & -> & _) & _). unfold alen in *. rewrite length_app. lia.
    - destruct Hm as (_ & _ & ->). unfold alen in *. rewrite length_app. lia.
    - destruct Hm as (_ & -> & _). done.
    - destruct Hm as (_ & -> & _). done. }
  destruct Hg as ((L1 & L2 & (_ & Hw & _) & _) & Hn). rewrite length_rview in Hn by done.
  unfold lxp_pty_write, pty_bad. rewrite L2. destruct (Z.ltb_spec idx 0); [lia|]. destruct (Z.geb_spec idx LXP_NPTY); [lia|]. cbn [orb negb].
  destruct (Z.eqb_spec len 0); [lia|]. unfold pty_output. rewrite map_u8_mem_read.
  destruct (Z.to_nat len) as [|n0] eqn:En; [lia|]. cbn [mem_read pty_output_loop].
  assert (Hnone : pty_output_byte (pty_at g' idx) (load8 (cmem c) ubuf) = None).
  { unfold pty_output_byte, ring_space. destruct Hw as (_ & _ & _ & Hb & _). destruct (_ && _).
    - destruct (Z.ltb_spec (LXP_PTY_BUF - pr_n (pt_s2m (pty_at g' idx))) 2); [done|lia].
    - destruct (Z.eqb_spec (LXP_PTY_BUF - pr_n (pt_s2m (pty_at g' idx))) 0); [done|lia]. }
  by rewrite Hnone.
Qed.

Lemma triple_eta {A B C} (x : A * B * C) : x = (x.1.1, x.1.2, x.2).
Proof. by destruct x as [[? ?] ?]. Qed.

(** "ab", a rubbed-out byte, "c" and Enter are typed; the program reads its line and answers. *)
Definition demo_keys : list Z := [97; 98; 127; 99; 13].
Definition demo_pty_coord (bs : list Z) : coord unit := mk_coord tt (set_rt_mem demo_rt (mem_write (fun _ => 0) 4096 bs)) [].
Definition demo_pty_core : os_core unit := mk_os_core None None 0.

Lemma pty_session_exact_witness :
  exists tr g', pty_run demo_pty_core 0 (lxp_pty_open_master lxp_pty_runtime_reset 0).2 tr g' /\
    wrote_by true tr = demo_keys /\ read_by false tr = [97; 99; 10] /\
    (read_by false tr ++ rview (pt_m2s (pty_at g' 0)), line_of (pty_at g' 0)) = cook lxp_tty_init demo_keys.
Proof.
  set (g0 := (lxp_pty_open_master lxp_pty_runtime_reset 0).2).
  set (w := lxp_pty_write demo_pty_core (demo_pty_coord demo_keys) g0 0 true 4096 5).
  set (r := lxp_pty_read (demo_pty_coord []) w.2 0 false 8192 16).
  assert (Hrun : pty_run demo_pty_core 0 g0 [Wrote true demo_keys; Read false [97; 99; 10]] r.2).
  { apply (pr_snoc _ _ _ [Wrote true demo_keys] w.2).
    - apply (pr_snoc _ _ _ [] g0); [constructor|].
      exact (ps_write demo_pty_core 0 g0 (demo_pty_coord demo_keys) 0 true 4096 5 w.1.1 w.1.2 w.2 ltac:(lia) (triple_eta w)).
    - exact (ps_read demo_pty_core 0 w.2 (demo_pty_coord []) 0 false 8192 16 r.1.1 r.1.2 r.2 ltac:(lia) (triple_eta r)). }
  exists [Wrote true demo_keys; Read false [97; 99; 10]], r.2. split; [exact Hrun|]. split; [reflexivity|]. split; [reflexivity|].
  exact (proj1 (pty_session_exact demo_pty_core 0 0 lxp_tty_init g0 r.2 _ ltac:(done) eq_refl eq_refl Hrun)).
Defined.
