(* ===== verification/Run.v ===== *)
(** * The coordinator: dispatch, run loop and teardown (src/run/lxp_primary.c, src/lxp_run.c)

    One published event is claimed and handled per pass; a pass that claims none runs the
    blocked-operation scan, and then sleeps.  Ordinary events are capped so that the scan is
    reached.  The system-call table is an interface of this file: [syscall] is [lxp_syscall]
    on the whole coordinator state. *)

From S2P Require Import Prelude Config Errno Path Proc Pool Fd Guest Wait Pipe Arena Process Runtime Event Region Lifecycle.
From S2P Require Import Signal SysSignal Child SignalRoute Exit Console Blocked Fork Loader Bootstrap Image Exec.
Local Open Scope Z_scope.

Definition LXP_COORDINATOR_EVENT_BURST : Z := 4.

Inductive primary_flow := LXP_PRIMARY_HANDLED | LXP_PRIMARY_SCAN_BLOCKED | LXP_PRIMARY_STOP.
#[export] Instance primary_flow_eq_dec : EqDecision primary_flow.
Proof. solve_decision. Defined.

Record lxp_primary_result := mk_primary { pr_flow : primary_flow; pr_status : Z }.

Definition coordinator_control_event (ev : lxp_ev_class) : bool :=
  match ev with LXP_EV_EXIT | LXP_EV_EXEC | LXP_EV_FORK | LXP_EV_STOP => true | _ => false end.

(** What the handlers share: the store, the backing objects, the exec captures and staging
    buffer, the next process number, and the rest of the run ([W]). *)
Record pstate (H B W : Type) := mk_pstate {
  ps_c : coord H; ps_b : B; ps_caps : list lxp_exec_capture; ps_stage : exec_stage; ps_next_pid : Z; ps_w : W;
}.
Arguments mk_pstate {H B W}.
Arguments ps_c {H B W}.
Arguments ps_b {H B W}.
Arguments ps_caps {H B W}.
Arguments ps_stage {H B W}.
Arguments ps_next_pid {H B W}.
Arguments ps_w {H B W}.

(** The system calls, and the host's hook for the unimplemented ones. *)
Record os_calls (H B W : Type) := mk_calls {
  syscall : pstate H B W -> Z -> Z -> list Z -> Z * pstate H B W;
  on_enosys : option (H -> Z -> H);
  quiet_enosys : Z -> bool;
}.
Arguments mk_calls {H B W}.
Arguments syscall {H B W}.
Arguments on_enosys {H B W}.
Arguments quiet_enosys {H B W}.

Section Primary.
Context {H B W : Type} `{FileOps B} (ops : os_task H) (xops : os_exit H).
Context (exec_capture : Z -> option Z) (failpoint : lxp_lifecycle_failpoint -> bool).
Context (random_fill : Z -> option (list Z)) (publish_executable : H -> lxp_ref -> Z -> Z -> Z * H) (cfg : lxp_run_config).
Context (stage_buf : Z * Z) (calls : os_calls H B W).
Implicit Types (s : pstate H B W).

Definition set_ps_c s (c : coord H) : pstate H B W := mk_pstate c (ps_b s) (ps_caps s) (ps_stage s) (ps_next_pid s) (ps_w s).
Definition set_ps_w s (w : W) : pstate H B W := mk_pstate (ps_c s) (ps_b s) (ps_caps s) (ps_stage s) (ps_next_pid s) w.
Definition set_ps_cb s (c : coord H) (b : B) : pstate H B W := mk_pstate c b (ps_caps s) (ps_stage s) (ps_next_pid s) (ps_w s).
Definition ps_proc s (slot : Z) : lxp_proc := cproc (ps_c s) slot.

Definition lxp_coordinator_report_enosys s (nr result : Z) : pstate H B W :=
  match on_enosys calls with
  | Some g => if (result =? - LXP_ENOSYS) && negb (quiet_enosys calls nr)
              then set_ps_c s (set_c_h (ps_c s) (g (c_h (ps_c s)) nr)) else s
  | None => s
  end.

(** The registers of the captured context, as the call's number and arguments. *)
Definition deferred_args (R : lxp_runtime) (slot : Z) : Z * list Z :=
  let sl := slot_at R slot in
  let ctx := sl_resume sl in
  (s32 (aget 0 (rc_r4_11 ctx) 3),
   [s32 (dr_a0 (sl_deferred sl)); s32 (rc_r1 ctx); s32 (rc_r2 ctx); s32 (rc_r3 ctx);
    s32 (aget 0 (rc_r4_11 ctx) 0); s32 (aget 0 (rc_r4_11 ctx) 1)]).

Definition end_view s (vid : Z) : pstate H B W :=
  set_ps_c s (set_c_rt (ps_c s) (rt_put_genv (c_rt (ps_c s)) (lxp_guest_view_end (rt_genv (c_rt (ps_c s))) vid))).

Definition defer_idle s (slot : Z) : pstate H B W :=
  set_ps_c s (set_c_rt (ps_c s) (lxp_deferred_state_store (c_rt (ps_c s)) slot DEFER_IDLE)).

(** The call itself and what follows it, under the guest view [vid]. *)
Definition deferred_call s (slot vid : Z) : pstate H B W :=
  let '(nr, args) := deferred_args (c_rt (ps_c s)) slot in
  let s := set_ps_c s (put_cproc (ps_c s) slot (lxp_intent_complete (ps_proc s slot) IK_DEFERRED_SYSCALL).2) in
  let '(r, s) := syscall calls s slot nr args in
  let s := defer_idle (lxp_coordinator_report_enosys s nr r) slot in
  if bool_decide (w_kind (p_wait (ps_proc s slot)) <> LXP_WAIT_NONE) || bool_decide (intent_kind (p_intent (ps_proc s slot)) <> IK_NONE)
  then end_view (set_ps_c s (set_c_rt (ps_c s) (lxp_primary_slot_mark (c_rt (ps_c s)) slot))) vid
  else
    let '(psig, p) := lxp_pending_take (ps_proc s slot) in
    let s := set_ps_c s (put_cproc (ps_c s) slot p) in
    if negb (psig =? 0) then end_view (set_ps_c s (lxp_deliver_signal_parked ops (ps_c s) slot psig r)) vid
    else let s := end_view s vid in
         set_ps_c s (lift (ps_c s) (lxp_coordinator_complete_slot ops (c_h (ps_c s)) (c_rt (ps_c s))
                                      (lxp_slot_ref_at (c_rt (ps_c s)) slot) r)).

Definition lxp_execute_deferred s (slot vid : Z) : pstate H B W :=
  let req := sl_deferred (slot_at (c_rt (ps_c s)) slot) in
  if negb (dr_state req =? DEFER_READY) then s
  else
    let s := set_ps_c s (set_c_rt (ps_c s) (lxp_deferred_state_store (c_rt (ps_c s)) slot DEFER_RUNNING)) in
    if (p_alive (ps_proc s slot) =? 0) || negb (lxp_slot_ref_equal (dr_owner req) (lxp_slot_ref_at (c_rt (ps_c s)) slot))
    then let s := defer_idle s slot in
         if bool_decide (intent_kind (p_intent (ps_proc s slot)) = IK_DEFERRED_SYSCALL)
         then set_ps_c s (put_cproc (ps_c s) slot (lxp_intent_complete (ps_proc s slot) IK_DEFERRED_SYSCALL).2) else s
    else
      let '(rc, h, R) := lxp_coordinator_park_slot ops (c_h (ps_c s)) (c_rt (ps_c s)) slot in
      let s := set_ps_c s (set_c_rt (set_c_h (ps_c s) h) R) in
      if negb (rc =? LXP_OK) then defer_idle s slot
      else
        let '(rc, c) := lxp_coordinator_guest_view_begin (os_mem xops) (ps_c s) slot vid in
        let s := set_ps_c s c in
        if negb (rc =? LXP_OK)
        then let s := defer_idle s slot in set_ps_c s (lxp_guest_view_failure (ps_c s) slot rc)
        else deferred_call s slot vid.

Definition handled : lxp_primary_result := mk_primary LXP_PRIMARY_HANDLED 0.
Definition scan_blocked : lxp_primary_result := mk_primary LXP_PRIMARY_SCAN_BLOCKED 0.

(** [None] when the image loader does not end within [fuel]. *)
Definition lxp_handle_primary_event (fuel : nat) s (vid slot : Z) (event : lxp_ev_class)
    : option (lxp_primary_result * pstate H B W) :=
  if negb (slot_in slot) then Some (scan_blocked, s)
  else match event with
  | LXP_EV_NONE => Some (scan_blocked, s)
  | LXP_EV_DEFER => Some (handled, lxp_execute_deferred s slot vid)
  | LXP_EV_STOP =>
      let p := ps_proc s slot in
      if (p_stopped p =? 0) || negb (p_stop_kind p =? LXP_STOP_READY) then Some (scan_blocked, s)
      else let '(rc, h, R) := lxp_coordinator_park_slot ops (c_h (ps_c s)) (c_rt (ps_c s)) slot in
           let c := set_c_rt (set_c_h (ps_c s) h) R in
           let p := cproc c slot in
           Some (handled, set_ps_c s (if rc =? LXP_OK
             then lxp_notify_parent_stopped ops c (match group_of c p with Some g => tg_ppid g | None => 0 end) (p_pid p) (p_stop_sig p)
             else c))
  | LXP_EV_FORK =>
      let '(c, b, next_pid) := lxp_handle_fork ops xops exec_capture failpoint (ps_c s) (ps_b s) slot (ps_next_pid s) in
      Some (handled, mk_pstate c b (ps_caps s) (ps_stage s) next_pid (ps_w s))
  | LXP_EV_EXEC =>
      match lxp_handle_exec ops xops exec_capture failpoint random_fill publish_executable cfg stage_buf fuel
              (ps_c s) (ps_b s) (ps_caps s) (ps_stage s) slot with
      | None => None
      | Some (c, b, caps) => Some (handled, mk_pstate c b caps (ps_stage s) (ps_next_pid s) (ps_w s))
      end
  | LXP_EV_EXIT =>
      let '(exited, c, b) := lxp_handle_exit ops xops (ps_c s) (ps_b s) slot in
      Some (if negb (er_stop_coordinator exited =? 0) then mk_primary LXP_PRIMARY_STOP (er_status exited) else handled,
            set_ps_cb s c b)
  | LXP_EV_SLEEP | LXP_EV_FUTEXWAIT | LXP_EV_WAITPARK | LXP_EV_PIPE | LXP_EV_DEVWAIT | LXP_EV_SOCKWAIT
  | LXP_EV_NETFSWAIT | LXP_EV_PTYWAIT | LXP_EV_SIGSUSPEND | LXP_EV_CONSOLEWAIT =>
      Some (handled, set_ps_c s (lift (ps_c s) (lxp_coordinator_park_slot ops (c_h (ps_c s)) (c_rt (ps_c s)) slot)))
  end.

(** ** The run loop *)

(** Its local variables. *)
Record loop_vars := mk_vars { lv_cursor : Z; lv_burst : Z; lv_idle : Z }.

(** What one pass did: left the loop, handled an event, or ran the scan. *)
Inductive pass_kind := PassBreak (rc : Z) | PassHandled (ev : lxp_ev_class) | PassScan.

(** The blocked-operation scan and the periodic work of the providers, on the whole state. *)
Context (scan : pstate H B W -> Z -> lxp_blocked_scan * pstate H B W).
Context (tick : pstate H B W -> Z -> pstate H B W).
Context (time_us : H -> Z * H) (event_wait : H -> Z -> H) (halt_requested : pstate H B W -> bool).
Context (socket_ready_events console_ready_events : bool).

Definition lxp_claimed (s : pstate H B W) (v : loop_vars) : Z * lxp_ev_class * loop_vars * bool * pstate H B W :=
  let '(es, et, cursor, R) := lxp_coordinator_claim_event (c_rt (ps_c s)) (lv_cursor v) in
  let s := set_ps_c s (set_c_rt (ps_c s) R) in
  let v := mk_vars cursor (lv_burst v) (lv_idle v) in
  if (es >=? 0) && bool_decide (et <> LXP_EV_NONE) && negb (coordinator_control_event et) &&
     (lv_burst v >=? LXP_COORDINATOR_EVENT_BURST)
  then (-1, LXP_EV_NONE, mk_vars cursor 0 (lv_idle v), true, set_ps_c s (set_c_rt (ps_c s) (lxp_primary_slot_mark (c_rt (ps_c s)) es)))
  else (es, et, v, false, s).

(** The scanning half of a pass. *)
Definition scan_pass (s : pstate H B W) (v : loop_vars) (burst_deferred : bool) : pass_kind * pstate H B W * loop_vars :=
  let '(now, h) := time_us (c_h (ps_c s)) in
  let s := set_ps_c s (set_c_h (ps_c s) h) in
  let '(blocked, s) := scan s now in
  if negb (sc_any_alive blocked) then (PassBreak 0, s, v)
  else if sc_progress blocked then (PassScan, s, mk_vars (lv_cursor v) 0 0)
  else
    let idle := if sc_any_busy blocked then 0 else lv_idle v + 1 in
    let v := mk_vars (lv_cursor v) (lv_burst v) idle in
    if negb (sc_any_busy blocked) && (idle >? 20000) then (PassBreak LXP_ERR_TIMEOUT, s, v)
    else
      let s := tick s now in
      if burst_deferred then (PassScan, s, v)
      else (PassScan, set_ps_c s (set_c_h (ps_c s)
              (event_wait (c_h (ps_c s)) (coordinator_sleep_ms now blocked socket_ready_events console_ready_events))), v).

(** One iteration of the loop. *)
Definition coordinator_pass (fuel : nat) (s : pstate H B W) (vid : Z) (v : loop_vars) : option (pass_kind * pstate H B W * loop_vars) :=
  if halt_requested s then Some (PassBreak 0, s, v)
  else
    let '(es, et, v, burst_deferred, s) := lxp_claimed s v in
    match lxp_handle_primary_event fuel s vid (if es <? 0 then 0 else es) et with
    | None => None
    | Some (primary, s) =>
        match pr_flow primary with
        | LXP_PRIMARY_STOP => Some (PassBreak (pr_status primary), s, v)
        | LXP_PRIMARY_HANDLED =>
            let burst := if coordinator_control_event et then 0
                         else if bool_decide (et <> LXP_EV_NONE) then lv_burst v + 1 else lv_burst v in
            Some (PassHandled et, s, mk_vars (lv_cursor v) burst 0)
        | LXP_PRIMARY_SCAN_BLOCKED => Some (scan_pass s v burst_deferred)
        end
    end.

(** Up to [n] iterations, until one leaves the loop: what each did, and the state after. *)
Fixpoint coordinator_passes (n fuel : nat) (s : pstate H B W) (vid : Z) (v : loop_vars)
    : option (list pass_kind * pstate H B W * loop_vars) :=
  match n with
  | O => Some ([], s, v)
  | S n =>
      match coordinator_pass fuel s vid v with
      | None => None
      | Some (PassBreak rc, s, v) => Some ([PassBreak rc], s, v)
      | Some (k, s, v) =>
          match coordinator_passes n fuel s vid v with
          | None => None
          | Some (ks, s, v) => Some (k :: ks, s, v)
          end
      end
  end.

End Primary.

(** ** Teardown *)

(** The word that opens the trap route. *)
Definition lxp_trap_publish (active : Z) : Z := b2z (negb (active =? 0)).
Definition lxp_trap_active (gate : Z) : bool := negb (gate =? 0).

Section Teardown.
Context {H B W : Type} `{FileOps B} (ops : os_task H) (xops : os_exit H) (event_wait : H -> Z -> H).
(** The 9P client's cancellation and shutdown, and the reset of the backing objects: host
    files, pipes, /proc contents, event counters and terminals. *)
Context (netfs_cancel : pstate H B W -> Z -> pstate H B W) (netfs_shutdown : pstate H B W -> pstate H B W) (reset_objects : B -> B).
Implicit Types (s : pstate H B W) (c : coord H).

(** [None] when the port refuses more than [tries] times. *)
Fixpoint quiesce_slot (tries : nat) c (slot : Z) : option (nat * coord H) :=
  let '(rc, h, R) := lxp_coordinator_abort_slot ops (c_h c) (c_rt c) slot in
  let c := set_c_rt (set_c_h c h) R in
  if rc =? LXP_OK then Some (tries, c)
  else match tries with
       | O => None
       | S tries => quiesce_slot tries (set_c_h c (event_wait (c_h c) 1)) slot
       end.

Fixpoint quiesce_slots (tries : nat) c (l : list Z) : option (coord H) :=
  match l with
  | [] => Some c
  | slot :: l => match quiesce_slot tries c slot with
                 | None => None
                 | Some (tries, c) => quiesce_slots tries c l
                 end
  end.

Definition coordinator_quiesce_all (tries : nat) c : option (coord H) := quiesce_slots tries c (seqZ 0 LXP_NSLOT).

(** What a task holds: shared resources, device windows, vfork snapshot, address space, group. *)
Definition teardown_resources c (b : B) (slot : Z) : coord H * B :=
  let '(k, b, p) := lxp_proc_resources_put (rt_k (c_rt c)) b (cproc c slot) in
  let c := put_cproc (set_c_rt c (set_rt_k (c_rt c) k)) slot p in
  (match map_device (os_mem xops) with Some g => set_c_h c ((g (c_h c) slot 0 0 0).2) | None => c end, b).

Definition teardown_windows c (slot : Z) : coord H :=
  match p_mm (cproc c slot) with
  | Some mi => let k := rt_k (c_rt c) in
               set_c_rt c (set_rt_k (c_rt c) (set_k_mm k (aset (k_mm k) mi (clear_windows (item (k_mm k) mi)))))
  | None => c
  end.

Definition teardown_regions c (slot : Z) : coord H :=
  let c := if ref_index (p_snapshot (cproc c slot)) >=? 0
           then set_c_rt c (lxp_region_release_if_owned (c_rt c) (p_snapshot (cproc c slot)) (lxp_slot_ref_at (c_rt c) slot)).2
           else c in
  let '(R, p) := lxp_region_mm_put (c_rt c) (cproc c slot) in
  put_cproc (set_c_rt c R) slot p.

Definition teardown_slot s (slot : Z) : pstate H B W :=
  let c := ps_c s in
  let c := set_c_rt c (lxp_deferred_slot_reassign (c_rt c) slot) in
  let s := set_ps_c s (set_c_rt c (lxp_primary_slot_clear (c_rt c) slot)) in
  let s := if bool_decide (w_kind (p_wait (ps_proc s slot)) = LXP_WAIT_NETFS) then netfs_cancel s slot else s in
  let '(c, b) := teardown_resources (ps_c s) (ps_b s) slot in
  let c := exit_group_put (teardown_regions (teardown_windows c slot) slot) slot in
  let c := put_stack c slot (mk_stack (st_frame (stack_at c slot)) 0) in
  let c := set_c_rt c (lxp_slot_runnable_store (c_rt c) slot false) in
  set_ps_cb s (put_cproc c slot proc_blank) b.

Definition coordinator_reset_pools s : pstate H B W :=
  let R := lxp_region_runtime_reset (c_rt (ps_c s)) in
  let R := set_rt_k R (lxp_fd_runtime_reset (lxp_proc_runtime_reset (rt_k R))) in
  mk_pstate (set_c_rt (ps_c s) R) (reset_objects (ps_b s)) (ps_caps s) lxp_exec_stage_reset (ps_next_pid s) (ps_w s).

(** The slots, one after the other, once every native task is gone. *)
Definition teardown_slots s : pstate H B W := fold_left teardown_slot (seqZ 0 LXP_NSLOT) s.

(** The trap gate and the state that a run leaves behind; the debug records are not kept. *)
Definition lxp_coordinator_teardown_all (tries : nat) s : option (Z * pstate H B W) :=
  match coordinator_quiesce_all tries (ps_c s) with
  | None => None
  | Some c => Some (lxp_trap_publish 0, netfs_shutdown (coordinator_reset_pools (teardown_slots (set_ps_c s c))))
  end.
End Teardown.

(** The scan of src/run/lxp_blocked.c on this state: the pipes are a part of the backing
    objects, the console, the round-robin state and the providers are the rest of the run. *)
Record run_world (X : Type) := mk_world { rw_con : console; rw_fair : lxp_service_fairness; rw_fs_ready : bool; rw_x : X }.
Arguments mk_world {X}.
Arguments rw_con {X}.
Arguments rw_fair {X}.
Arguments rw_fs_ready {X}.
Arguments rw_x {X}.

Section RunScan.
Context {H B X : Type} (ops : os_task H) (core : os_core H) (cons : os_console H) (mops : os_memory H) (bops : blocked_ops H X).
Context (pipes_of : B -> list lxp_pipe) (put_pipes : B -> list lxp_pipe -> B).

Definition run_scan (vid : Z) (s : pstate H B (run_world X)) (now : Z) : lxp_blocked_scan * pstate H B (run_world X) :=
  let w := ps_w s in
  let '(r, b) := lxp_scan_blocked ops core cons mops bops now vid
                   (mk_bstate (ps_c s) (pipes_of (ps_b s)) (rw_con w) (rw_fair w) (rw_fs_ready w) (rw_x w)) in
  (r, mk_pstate (bs_c b) (put_pipes (ps_b s) (bs_pipes b)) (ps_caps s) (ps_stage s) (ps_next_pid s)
        (mk_world (bs_con b) (bs_fair b) (bs_fs_ready b) (bs_x b))).
End RunScan.
