(* ===== verification/RunKeep.v ===== *)
(** * The invariant of the run

    What every event of the coordinator keeps: the task table is sound, every pool's counts
    are the references the tasks hold, and every living task has a thread group.  This file
    has the invariant and the exit and fork handlers' part of it. *)

From S2P Require Import Prelude Config Arena Errno Path Proc Guest Wait Pipe Pool Fd FdSpec Process ProcessSpec.
From S2P Require Import ProcessProps Runtime Event Region RegionProps Lifecycle Quiet Signal SignalProps SysSignal.
From S2P Require Import Child SignalRoute ChildProps Exit Console Blocked Fork ForkProps Loader LoaderProps Bootstrap.
From S2P Require Import Image Exec ExecSpec ExecProps.
Local Open Scope Z_scope.

Section RunInv.
Context {H B : Type} `{FileOps B} (ops : os_task H) (xops : os_exit H).
Implicit Types (c : coord H) (b : B).

Definition grouped c : Prop :=
  forall s, slot_in s = true -> p_alive (cproc c s) <> 0 -> p_group (cproc c s) <> None.

Definition run_inv c : Prop := table_inv c /\ coord_wf c /\ grouped c.

(** The slot's own record holds what the other tasks do not. *)
Definition accounted c0 (x : Z) c : Prop := held c0 x [cproc c x] c.

Lemma grouped_at c s c' s' :
  grouped c -> slot_in s = true -> holdings (cproc c' s') = holdings (cproc c s) ->
  p_alive (cproc c' s') <> 0 -> p_group (cproc c' s') <> None.
Proof.
  intros G Hs E. change (p_alive ?q) with (holdings q).1.1.1.1.1. change (p_group ?q) with (holdings q).1.1.1.1.2.
  rewrite E. by apply G.
Qed.

(** One slot changed, in an accounted way. *)
Lemma run_inv_slot c x c' :
  run_inv c -> slot_in x = true -> accounted c x c' ->
  (p_alive (cproc c' x) = 0 -> empty_handed (cproc c' x)) -> (p_alive (cproc c' x) <> 0 -> p_group (cproc c' x) <> None) ->
  run_inv c'.
Proof.
  intros (T & W & G) Hx Hh Hd Hg. split; [by eapply held_table|]. split; [apply Hh|].
  intros s Hs. destruct (decide (s = x)) as [->|Hne]; [done|]. destruct Hh as (_ & (_ & Sa) & _).
  pose proof (proj1 (slot_in_range s) Hs). apply (grouped_at c s); [done|done|]. by apply Sa; [lia|].
Qed.

Lemma accounted_start c x : run_inv c -> slot_in x = true -> accounted c x c.
Proof. intros (T & W & _) Hx. by apply start_intact. Qed.

Lemma accounted_calm c0 x c c' :
  slot_in x = true -> accounted c0 x c -> calm (c_rt c) (c_rt c') -> c_save c' = c_save c -> accounted c0 x c'.
Proof.
  intros Hx Hh Hc Hv. destruct (calm_agree c c' x Hx Hc) as (E & _).
  eapply held_holdings; [exact E|]. by eapply held_calm.
Qed.

(** A step that moves no reference and keeps the frame stacks in shape. *)
Lemma run_inv_calm c c' : run_inv c -> calm (c_rt c) (c_rt c') -> coord_wf c' -> run_inv c'.
Proof.
  intros ((T1 & T2 & T3 & T4) & W & G) ((Hl & Ha) & Ek & Hi) W'.
  assert (Hs : forall s, slot_in s = true -> holdings (cproc c' s) = holdings (cproc c s)).
  { intros s Hs%slot_in_range. apply Ha. lia. }
  split; [|split; [done|]].
  - split; [apply W'|]. split; [auto|]. split.
    + rewrite Ek. eapply proc_inv_holdings; [|exact T3]. unfold tasks. rewrite !map_map. apply map_ext_in.
      intros s Hs'%list_elem_of_In%elem_of_seqZ. symmetry. apply Hs. apply slot_in_range. lia.
    + intros s Hs' Hd. change (p_alive ?q) with (holdings q).1.1.1.1.1 in Hd. rewrite (Hs s Hs') in Hd.
      destruct (T4 s Hs' Hd) as (a & E). exists a. by rewrite (Hs s Hs').
  - intros s Hs'. apply (grouped_at c s); auto.
Qed.

Lemma run_inv_saved c c' : run_inv c -> calm (c_rt c) (c_rt c') -> c_save c' = c_save c -> run_inv c'.
Proof.
  intros HR Hc Hv. apply (run_inv_calm c); [done|done|]. destruct HR as (_ & W & _).
  apply (coord_wf_steady_but c c' (-1)); [done|apply steady_but_of, Hc|done].
Qed.

(** ** Exit *)

Lemma request_exit_accounted c0 x c status :
  slot_in x = true -> accounted c0 x c -> accounted c0 x (lxp_thread_group_request_exit c x status) /\
  agree (c_rt c) (c_rt (lxp_thread_group_request_exit c x status)) x.
Proof.
  intros Hx Hh. destruct (request_exit_steady c x status) as (Hst & Hv & _). pose proof (proj1 (slot_in_range x) Hx) as Hr.
  split; [|apply Hst; lia]. unfold lxp_thread_group_request_exit. rewrite Hx. cbn [negb].
  destruct (p_group (cproc c x)) as [gi|] eqn:Eg; [|done].
  set (g := set_tg_exit_status _ _). set (c1 := put_group c gi g).
  assert (H1 : accounted c0 x c1).
  { pose proof Hh as (W & S & I & P). apply (held_k c0 x [cproc c x]); [done|]. apply (put_group_inv c gi g); [exact P| |done].
    change (Some gi ∈ map p_group ([cproc c x] ++ others c0 x)). cbn [app map]. rewrite Eg. apply list_elem_of_here. }
  set (f := fun c s => _). assert (Hf : forall l d, accounted c0 x d -> accounted c0 x (fold_left f l d)).
  { induction l as [|s l IH]; intros d Hd; [done|]. cbn [fold_left]. apply IH. unfold f.
    destruct (negb _); [done|]. apply (accounted_calm c0 x d); [done|done|apply calm_quiet, quiet_exit_slot|done]. }
  by apply Hf.
Qed.

Lemma release_accounted c0 x c b :
  slot_in x = true -> accounted c0 x c -> accounted c0 x (exit_release xops c b x).1.
Proof.
  intros Hx Hh. unfold exit_release. pose proof (held_resources_put c0 x _ [] c b Hh) as HR.
  destruct (lxp_proc_resources_put _ b _) as [[k b'] p]. destruct HR as (-> & HR). set (p := set_p_sighand _ None).
  set (c1 := put_cproc _ x p). assert (W1 : coord_wf (set_c_rt c (set_rt_k (c_rt c) k))) by apply HR.
  assert (E1 : cproc c1 x = p) by (by apply cproc_put).
  assert (H1 : accounted c0 x c1) by (unfold accounted; rewrite E1; by apply held_put).
  cbn [fst]. set (c2 := match map_device (os_mem xops) with Some _ => _ | None => _ end).
  assert (H2 : accounted c0 x c2) by (apply (accounted_calm c0 x c1); [done|done|..]; unfold c2; by destruct (map_device _)).
  apply held_save; [exact H2|]. destruct (stack_at_wf c2 x (proj1 H2) Hx) as (L & D). split; [done|]. cbn. lia.
Qed.

Lemma vfork_accounted c0 x c xref pref status :
  slot_in x = true -> 0 <= ref_index xref < LXP_NSLOT -> accounted c0 x c ->
  accounted c0 x (exit_vfork xops c x xref pref status).1.1.
Proof.
  intros Hx Hr Hh. unfold exit_vfork. destruct (lxp_slot_resume_view _ _) as [ctx|]; [|done]. destruct (_ >=? 0); [|done].
  pose proof (restore_calm (os_region xops) (os_dyn_pool xops) (c_rt c) (ref_index pref) (p_snapshot (cproc c x)) xref (rc_sp ctx)) as Hc.
  destruct (lxp_vfork_restore _ _ _ _ _ _ _) as [rc R]. cbn [snd] in Hc.
  destruct (negb _); cbn [fst]; (apply (accounted_calm c0 x c); [done|done| |done]); (transitivity R; [done|]); cbn [c_rt set_c_rt].
  - apply contain_stale_calm. rewrite (proj1 (proj1 Hc)). destruct Hh as ((Hl & _) & _). lia.
  - auto with calm.
Qed.

(** A stored record replaces the one accounted for. *)
Lemma accounted_put c0 x p c : slot_in x = true -> held c0 x [p] c -> accounted c0 x (put_cproc c x p).
Proof. intros Hx Hh. unfold accounted. rewrite cproc_put by (done || apply Hh). by apply held_put. Qed.

Lemma retire_accounted c0 x c : slot_in x = true -> accounted c0 x c -> accounted c0 x (exit_retire c x).
Proof.
  intros Hx Hh. unfold exit_retire. pose proof (held_mm_put c0 x _ [] c Hh) as HM.
  destruct (lxp_region_mm_put _ _) as [R p]. destruct HM as (-> & HR & HM). set (p := set_p_mm _ None).
  pose proof (accounted_put c0 x p (set_c_rt c R) Hx HM) as H1. set (c1 := put_cproc (set_c_rt c R) x p) in *.
  set (c2 := put_cproc c1 x (set_p_alive (cproc c1 x) 0)).
  assert (H2 : accounted c0 x c2) by (apply accounted_put; [done|]; by apply (held_like c0 x [cproc c1 x])).
  set (c3 := set_c_rt c2 _). set (c4 := set_c_rt c3 _). pose proof (proj1 (slot_in_range x) Hx) as Hr.
  destruct (reassign_slot (c_rt c2) x) as (_ & E & _); [destruct H2 as ((Hl & _) & _); lia|].
  unfold accounted. change (cproc c4 x = cproc c2 x) in E. rewrite E.
  apply (held_step c0 x _ c3); [|apply (reassign_steady_but (c_rt c3)); lia|done|done|done].
  apply (held_calm c0 x _ c2); [done|apply calm_quiet, quiet_runnable|done].
Qed.

Lemma group_put_accounted c0 x c : slot_in x = true -> accounted c0 x c -> accounted c0 x (exit_group_put c x).
Proof.
  intros Hx Hh. unfold exit_group_put. pose proof (held_group_put c0 x _ [] c Hh) as HG.
  destruct (lxp_proc_group_put _ _) as [k p]. destruct HG as (-> & HG). by apply accounted_put.
Qed.

Lemma publish_accounted c0 x c ppid e :
  slot_in x = true -> p_alive (cproc c x) = 0 -> accounted c0 x c -> accounted c0 x (child_event_publish ops c ppid e).
Proof.
  intros Hx Ha Hh. destruct (event_publish_held ops c0 x [cproc c x] c ppid e Hx Ha Hh) as (Hh' & (_ & Sa)).
  pose proof (proj1 (slot_in_range x) Hx). destruct (Sa x ltac:(lia)) as (E & _).
  change (holdings (cproc (child_event_publish ops c ppid e) x) = holdings (cproc c x)) in E.
  eapply held_holdings; [exact E|done].
Qed.

Lemma report_accounted c0 x c pid tgid ppid status ps pref (dead : bool) :
  slot_in x = true -> p_alive (cproc c x) = 0 -> accounted c0 x c ->
  accounted c0 x (exit_report ops c x pid tgid ppid status ps pref dead).
Proof.
  intros Hx Ha Hh. unfold exit_report. set (c1 := if _ && _ then _ else c).
  assert (C1 : calm (c_rt c) (c_rt c1) /\ c_save c1 = c_save c)
    by (unfold c1; destruct (_ && _); [apply lift_complete_calm|done]).
  pose proof (accounted_calm c0 x c c1 Hx Hh (proj1 C1) (proj2 C1)) as H1.
  destruct (calm_agree c c1 x Hx (proj1 C1)) as (E1 & _).
  apply group_put_accounted; [done|]. destruct dead; [|done]. apply publish_accounted; [done| |done].
  change (p_alive ?q) with (holdings q).1.1.1.1.1. by rewrite E1.
Qed.

(** The exit handler keeps the account; its slot has no task left, unless the task could not be stopped. *)
Lemma handle_exit_accounted c b x r c' b' :
  run_inv c -> slot_in x = true -> lxp_handle_exit ops xops c b x = (r, c', b') ->
  accounted c x c' /\ (agree (c_rt c) (c_rt c') x \/ holdings (cproc c' x) = (0, None, None, None, None, None)).
Proof.
  intros HR Hx. pose proof (accounted_start c x HR Hx) as HA0. pose proof (proj1 (slot_in_range x) Hx) as Hr.
  unfold lxp_handle_exit. set (c1 := if exit_group _ then _ else c).
  assert (H1 : accounted c x c1 /\ agree (c_rt c) (c_rt c1) x)
    by (unfold c1; destruct (exit_group _); [by apply request_exit_accounted|done]).
  destruct H1 as (H1 & A1). pose proof (abort_calm ops c1 x) as Hq.
  destruct (lxp_coordinator_abort_slot ops (c_h c1) (c_rt c1) x) as [[rc h] R]. set (c2 := set_c_rt (set_c_h c1 h) R).
  pose proof (accounted_calm c x c1 c2 Hx H1 Hq eq_refl) as H2. destruct (calm_agree c1 c2 x Hx Hq) as (E2 & G2).
  destruct (negb _).
  { intros [= _ <- _]. set (c3 := set_c_rt c2 _). assert (C3 : calm (c_rt c2) (c_rt c3)) by (apply calm_quiet, quiet_mark).
    split; [by apply (accounted_calm c x c2)|]. left. destruct (calm_agree c2 c3 x Hx C3) as (E3 & G3).
    destruct A1 as (A1 & A1'). split; [|congruence]. unfold cproc in *. congruence. }
  assert (Hx2 : 0 <= ref_index (lxp_slot_ref_at (c_rt c) x) < LXP_NSLOT)
    by (unfold lxp_slot_ref_at; by rewrite Hx).
  set (xref := lxp_slot_ref_at (c_rt c) x) in *. set (proc := cproc c2 x). set (g := match group_of c2 proc with Some g => g | None => _ end).
  pose proof (exit_tail ops xops c2 b x xref (p_vfork_parent proc) (p_exit_status proc) (p_pid proc) (tg_tgid g) (tg_ppid g)
    (proj1 H2) Hx Hx2) as HT. cbv zeta in HT.
  pose proof (release_accounted c x c2 b Hx H2) as H3. destruct (exit_release xops c2 b x) as [c3 b3]. cbn [fst] in H3.
  pose proof (vfork_accounted c x c3 xref (p_vfork_parent proc) (p_exit_status proc) Hx Hx2 H3) as H4.
  destruct (exit_vfork xops c3 x xref _ _) as [[c4 ps] st]. cbn [fst] in H4.
  destruct HT as (HT1 & (_ & _ & HT2 & _) & _).
  assert (H5 : accounted c x (lxp_notify_guest_exit xops c4 x))
    by (apply (accounted_calm c x c4); [done|done|..]; unfold lxp_notify_guest_exit; by destruct (on_guest_exit xops)).
  set (c5 := lxp_notify_guest_exit xops c4 x) in *. pose proof (retire_accounted c x c5 Hx H5) as H6.
  assert (W5 : coord_wf c5) by apply H5. destruct (retire_stage c5 x W5 Hx) as ((_ & _ & E6 & _) & _).
  set (c6 := exit_retire c5 x) in *. assert (A6 : p_alive (cproc c6 x) = 0) by (injection E6; done).
  destruct (_ && _); intros [= _ <- _]; (split; [|right]).
  - by apply group_put_accounted.
  - exact HT2.
  - by apply report_accounted.
  - by apply HT1.
Qed.

Lemma handle_exit_inv c b x r c' b' :
  run_inv c -> slot_in x = true -> lxp_handle_exit ops xops c b x = (r, c', b') -> run_inv c'.
Proof.
  intros HR Hx He. destruct (handle_exit_accounted c b x r c' b' HR Hx He) as (Hh & Ho).
  pose proof HR as ((_ & _ & _ & T4) & _ & G). apply (run_inv_slot c x); [done|done|done|..]; destruct Ho as [(E & _)|E].
  - change (holdings (cproc c' x) = holdings (cproc c x)) in E. intros Ha. change (p_alive ?q) with (holdings q).1.1.1.1.1 in Ha.
    rewrite E in Ha. destruct (T4 x Hx Ha) as (a & Ea). exists a. by rewrite E.
  - intros _. by exists 0.
  - by apply (grouped_at c x).
  - intros Ha. exfalso. apply Ha. by injection E.
Qed.

End RunInv.

(** ** Fork *)

Section RunFork.
Context {H B : Type} `{FileOps B} (ops : os_task H) (xops : os_exit H).
Context (exec_capture : Z -> option Z) (failpoint : lxp_lifecycle_failpoint -> bool).
Implicit Types (c : coord H) (b : B) (t : fork_txn).

(** The frame stacks' shape and the regions' accounting, which no fork step spoils. *)
Definition sound c : Prop := alen (c_save c) = LXP_NSLOT /\ Forall stack_wf (c_save c) /\ region_inv (c_rt c).

Lemma sound_step c c' : sound c -> c_save c' = c_save c -> (region_inv (c_rt c) -> region_inv (c_rt c')) -> sound c'.
Proof. intros (S1 & S2 & S3) E Hi. unfold sound. rewrite E. auto. Qed.

Lemma sound_regions c c' : sound c -> c_save c' = c_save c -> rt_regions (c_rt c') = rt_regions (c_rt c) -> sound c'.
Proof. intros Hs Es Er. apply (sound_step c); [done|done|]. unfold region_inv. by rewrite Er. Qed.

Lemma sound_lift c r : quiet (c_rt c) r.2 -> sound c -> sound (lift c r).
Proof. destruct r as [[rc h] R]. intros Hq Hs. apply (sound_regions c); [done|done|by apply quiet_regions]. Qed.

Lemma sound_stack c s st : sound c -> stack_wf st -> sound (put_stack c s st).
Proof.
  intros (S1 & S2 & S3) Hst. unfold put_stack, sound. cbn [c_save set_c_save]. rewrite alen_aset.
  split; [done|]. split; [by apply Forall_aset|done].
Qed.

Lemma sound_stack_at c s : sound c -> stack_wf (stack_at c s).
Proof.
  intros (S1 & S2 & S3). unfold stack_at, aget. rewrite nth_lookup.
  destruct (c_save c !! Z.to_nat s) as [st|] eqn:E; cbn; [|apply stack_zero_wf]. by eapply Forall_lookup.
Qed.

Lemma sound_bump c s d : sound c -> sound (bump_live_children c s d).
Proof. intros Hs. unfold bump_live_children. destruct (p_group _); [|done]. by apply (sound_regions c). Qed.

Lemma region_get_inv R ref : region_inv R -> region_inv (lxp_region_get R ref).2.
Proof. intros Hi. pose proof (region_run_step (RgGet ref) R Hi) as (Hs & _). cbn in Hs. by destruct (lxp_region_get R ref). Qed.

Lemma snapshot_sound R par child sp :
  region_inv R -> region_inv (lxp_vfork_snapshot (os_region xops) (os_dyn_pool xops) R par child sp).2.
Proof.
  intros Hi. unfold lxp_vfork_snapshot. destruct (_ || (p_alive _ =? 0)); [done|]. destruct (mm_of R _) as [mm|]; [|done].
  destruct (negb _); [done|]. destruct (List.find _ _) as [rs|]; [|done]. destruct ((sp <? _) || _); [done|]. cbv zeta.
  pose proof (calm_reserve R rs child) as (_ & _ & Hc). destruct (lxp_region_reserve R rs child) as [sn R1].
  cbn [snd] in Hc. destruct (_ <? 0); [by apply Hc|]. exact (Hc Hi).
Qed.

Lemma prepare_sound c b y x flags pid : sound c -> sound (lxp_fork_txn_prepare xops exec_capture failpoint c b y x flags pid).1.2.
Proof.
  intros Hs. unfold lxp_fork_txn_prepare. cbv zeta. set (c1 := set_c_rt (set_c_rt c _) _).
  assert (S1 : sound c1) by (by apply (sound_regions c)). set (region := match mm_of _ _ with Some mm => mm_region mm | None => _ end).
  pose proof (region_get_inv (c_rt c1) region) as Hg. destruct (lxp_region_get (c_rt c1) region) as [rc R]. cbn [snd] in Hg.
  assert (S2 : sound (set_c_rt c1 R)) by (by apply (sound_step c1)). set (c2 := set_c_rt c1 R) in *.
  destruct (negb _); [done|]. destruct (failpoint _); [done|].
  destruct (proc_init_child _ _ _ _ _ _ _) as [[[rc2 k] b2] p]. assert (S3 : sound (put_owned c2 x k p)) by (by apply (sound_regions c2)).
  set (c3 := put_owned c2 x k p) in *. destruct (negb _); [done|]. destruct (failpoint _); [done|].
  set (c4 := put_cproc c3 x _). assert (S4 : sound c4) by (by apply (sound_regions c3)).
  assert (S5 : sound (lxp_slot_signal_clone c4 x y)) by (apply sound_stack; [done|by apply sound_stack_at]).
  destruct (lxp_coordinator_restore_mm_maps _ _ _ _) as [rc6 h]. repeat case_goal; done.
Qed.

Lemma abort_sound t c b : sound c -> sound (lxp_fork_txn_abort xops t c b).1.2.
Proof.
  intros Hs. unfold lxp_fork_txn_abort. destruct (_ || bool_decide (ft_phase t = FORK_TXN_EMPTY)); [done|]. cbv zeta.
  set (c1 := if _ && _ then _ else c). assert (S1 : sound c1) by (unfold c1; destruct (_ && _); [by apply sound_bump|done]). clearbody c1.
  set (c2 := if ft_child_constructed t && _ then _ else c1).
  assert (S2 : sound c2).
  { unfold c2. destruct (_ && _); [|done]. apply (sound_step c1); [done|done|]. apply calm_release. }
  set (c3 := match map_device (os_mem xops) with Some _ => _ | None => _ end).
  assert (S3 : sound c3) by (unfold c3; destruct (map_device _); [by destruct (ft_maps_touched t)|done]).
  set (c4 := if ft_region_acquired t then _ else c3).
  assert (S4 : sound c4).
  { unfold c4. destruct (ft_region_acquired t); [|done]. apply (sound_step c3); [done|done|]. apply calm_region_put. }
  set (m := if ft_child_constructed t then _ else _). assert (S5 : sound m.1).
  { unfold m. destruct (ft_child_constructed t); [|done]. destruct (lxp_proc_child_discard _ _ _) as [[k b1] p].
    by apply (sound_regions c4). }
  destruct m as [c5 b5]. cbn [fst snd] in *. set (c6 := lxp_slot_signal_reset c5 _).
  assert (S6 : sound c6) by (apply sound_stack; [done|apply stack_zero_wf]). apply (sound_regions c6); done.
Qed.

Lemma parent_error_sound c y e : sound c -> sound (fork_parent_resume_error ops c y e).
Proof. intros Hs. apply sound_lift; [apply quiet_complete|]. apply sound_lift; [apply quiet_apply|done]. Qed.

Lemma fail_out_sound t c b y e np : sound c -> sound (fork_fail_out ops xops t c b y e np).1.1.
Proof.
  intros Hs. unfold fork_fail_out. pose proof (abort_sound t c b Hs) as Ha.
  destruct (lxp_fork_txn_abort _ _ _ _) as [[t' c'] b']. by apply parent_error_sound.
Qed.

Lemma count_sound t c : sound c -> sound (lxp_fork_txn_count_child failpoint t c).2.
Proof. intros Hs. unfold lxp_fork_txn_count_child. destruct (_ || _); [done|]. by apply sound_bump. Qed.

Lemma fork_publish_sound t c : sound c -> sound (lxp_fork_txn_publish failpoint t c).2.
Proof. intros Hs. unfold lxp_fork_txn_publish. destruct (negb _); [done|]. by apply (sound_regions c). Qed.

Lemma txn_snapshot_sound t c sp : sound c -> sound (lxp_fork_txn_snapshot xops failpoint t c sp).2.
Proof.
  intros Hs. unfold lxp_fork_txn_snapshot. destruct (_ || _); [done|].
  pose proof (snapshot_sound (c_rt c) (ft_parent t) (ft_child_ref t) sp) as Hi.
  destruct (lxp_vfork_snapshot _ _ _ _ _ _) as [sn R]. cbn [snd] in Hi.
  assert (S1 : sound (set_c_rt c R)) by (by apply (sound_step c)). destruct (_ <? 0); by apply (sound_regions (set_c_rt c R)).
Qed.

(** The common end of both kinds: publish, commit, and start the child or fail. *)
Lemma clone_sound t c b y x flags stack np : sound c -> sound (fork_clone ops xops failpoint t c b y x flags stack np).1.1.
Proof.
  intros Hs. unfold fork_clone. set (m := if _ =? 0 then _ else _).
  assert (S1 : sound m.2) by (unfold m; destruct (_ =? 0); [by apply count_sound|done]).
  clearbody m. destruct m as [[rc1 t1] c1]. cbn [snd] in S1.
  set (m := if _ =? LXP_OK then _ else _). assert (S2 : sound m.2).
  { unfold m. destruct (_ =? LXP_OK); [|done]. unfold lxp_slot_resume_clone_for_fork. case_goal; by apply (sound_regions c1). }
  clearbody m. destruct m as [rc2 c2]. cbn [snd] in S2. set (m := if _ =? LXP_OK then _ else _).
  assert (S3 : sound m.2) by (unfold m; destruct (_ =? LXP_OK); [by apply fork_publish_sound|done]).
  clearbody m. destruct m as [[rc3 t3] c3]. cbn [snd] in S3. destruct (if _ =? LXP_OK then _ else _) as [rc4 t4].
  destruct (negb _); [by apply fail_out_sound|]. cbn [fst].
  apply sound_lift; [apply quiet_resume_slot|]. apply sound_lift; [apply quiet_complete|]. by apply sound_lift; [apply quiet_apply|].
Qed.

Lemma vfork_sound t c b y x np : sound c -> sound (fork_vfork ops xops failpoint t c b y x np).1.1.
Proof.
  intros Hs. unfold fork_vfork. pose proof (count_sound t c Hs) as S1.
  destruct (lxp_fork_txn_count_child _ _ _) as [[rc1 t1] c1]. cbn [snd] in S1.
  set (c2 := put_cproc c1 x _). assert (S2 : sound c2) by (by apply (sound_regions c1)). set (m := if _ =? LXP_OK then _ else _).
  assert (S3 : sound m.2).
  { unfold m. destruct (_ =? LXP_OK); [|done]. destruct (lxp_slot_resume_view _ _); [by apply txn_snapshot_sound|done]. }
  clearbody m. destruct m as [rc3 c3]. cbn [snd] in S3. destruct (negb _); [by apply fail_out_sound|].
  pose proof (fork_publish_sound t1 c3 S3) as S4. destruct (lxp_fork_txn_publish _ _ _) as [[rc4 t4] c4]. cbn [snd] in S4.
  destruct (if _ =? LXP_OK then _ else _) as [rc5 t5]. destruct (negb _); [by apply fail_out_sound|]. cbn [fst].
  apply sound_lift; [apply quiet_resume_slot|]. by apply sound_lift; [apply quiet_apply|].
Qed.

Lemma handle_fork_sound c b y np : sound c -> sound (lxp_handle_fork ops xops exec_capture failpoint c b y np).1.1.
Proof.
  intros Hs. unfold lxp_handle_fork. destruct (match p_intent (cproc c y) with LXP_INTENT_FORK f s => (f, s) | _ => (0, 0) end) as [flags stack].
  set (c1 := put_cproc c y _). assert (S1 : sound c1) by (by apply (sound_regions c)).
  destruct (_ && _); [by apply parent_error_sound|]. destruct (free_slot c1) as [x|]; [|by apply parent_error_sound].
  pose proof (prepare_sound c1 b y x flags np S1) as S2. destruct (lxp_fork_txn_prepare _ _ _ _ _ _ _ _ _) as [[[rc t] c2] b2].
  cbn [fst snd] in S2. destruct (negb _); [by apply fail_out_sound|]. destruct (negb _); [by apply clone_sound|by apply vfork_sound].
Qed.

Lemma handle_fork_inv c b y np c' b' np' :
  run_inv c -> slot_in y = true -> p_alive (cproc c y) <> 0 ->
  lxp_handle_fork ops xops exec_capture failpoint c b y np = (c', b', np') -> run_inv c'.
Proof.
  intros (T & W & G) Hy Ha He. pose proof (G y Hy Ha) as Hg. destruct (p_group (cproc c y)) as [gi|] eqn:Eg; [|done].
  destruct (handle_fork_outcome ops xops exec_capture failpoint c c' b b' y gi np np' T Hy Ha Eg He) as (L & P & D & Ho).
  assert (S0 : sound c) by (destruct W as (_ & W1 & W2), T as (_ & T2 & _); done).
  pose proof (handle_fork_sound c b y np S0) as S1. rewrite He in S1. destruct S1 as (V1 & V2 & I).
  split; [done|]. split; [done|]. intros s Hs.
  destruct Ho as [(_ & Hh & _)|(_ & x & X1 & X2 & X3 & X4 & X5 & Hh & _)]; [by apply (grouped_at c s); auto|].
  destruct (decide (s = x)) as [->|Hne]; [done|]. apply (grouped_at c s); auto.
Qed.

End RunFork.

(** * What keeps the run's invariant

    Signal delivery, child events, guest views and the blocked-operation scan move no
    reference.  The providers behind the scan are an interface: [KeepsRun] says that their
    retries and cancellations keep the invariant. *)

Create HintDb run.

Section Steps.
Context {H : Type} (ops : os_task H) (core : os_core H).
Implicit Types (c : coord H).

Lemma run_quiet c c' : run_inv c -> quiet (c_rt c) (c_rt c') -> c_save c' = c_save c -> run_inv c'.
Proof. intros HR Hq Hv. apply (run_inv_saved c); [done|by apply calm_quiet|done]. Qed.

Lemma run_rt c R : run_inv c -> quiet (c_rt c) R -> run_inv (set_c_rt c R).
Proof. intros HR Hq. by apply (run_quiet c). Qed.

Lemma run_h c h : run_inv c -> run_inv (set_c_h c h).
Proof. done. Qed.

Lemma run_mem c m : run_inv c -> run_inv (set_cmem c m).
Proof. intros HR. apply (run_inv_saved c); [done|by apply calm_slots|done]. Qed.

Lemma run_put c s p : slot_in s = true -> run_inv c -> holdings p = holdings (cproc c s) -> run_inv (put_cproc c s p).
Proof.
  intros Hs%slot_in_range HR Hp. apply (run_inv_saved c); [done| |done]. apply calm_store_proc; [|done].
  destruct HR as (_ & (Hl & _) & _). lia.
Qed.

Lemma run_lift c r : run_inv c -> quiet (c_rt c) r.2 -> run_inv (lift c r).
Proof. destruct r as [[rc h] R]. intros HR Hq. by apply (run_rt (set_c_h c h)). Qed.

Lemma run_complete c ref r0 : run_inv c -> run_inv (lift c (lxp_coordinator_complete_slot ops (c_h c) (c_rt c) ref r0)).
Proof. intros HR. apply run_lift; [done|apply quiet_complete]. Qed.

Lemma run_park c s : run_inv c -> run_inv (lift c (lxp_coordinator_park_slot ops (c_h c) (c_rt c) s)).
Proof. intros HR. apply run_lift; [done|apply quiet_apply]. Qed.

Lemma run_stack c s st : run_inv c -> stack_wf st -> run_inv (put_stack c s st).
Proof.
  intros HR Hst. apply (run_inv_calm c); [done|done|]. apply put_stack_wf; [apply HR|done].
Qed.

Lemma run_stack_at c s : run_inv c -> slot_in s = true -> stack_wf (stack_at c s).
Proof. intros (_ & W & _) Hs. by apply stack_at_wf. Qed.

(** A slot's fields outside its record. *)
Lemma run_slot c s sl :
  slot_in s = true -> run_inv c -> sl_proc sl = cproc c s -> sl_generation sl = lxp_slot_generation (c_rt c) s ->
  run_inv (set_c_rt c (put_slot (c_rt c) s sl)).
Proof.
  intros Hs%slot_in_range HR Hp Hg. apply (run_inv_saved c); [done| |done]. destruct HR as (_ & (Hl & _) & _).
  split; [|done]. split; [unfold put_slot; cbn; by rewrite alen_aset|]. intros t Ht. unfold agree, sproc, lxp_slot_generation.
  cbn [c_rt set_c_rt]. destruct (decide (s = t)) as [<-|Hne].
  - rewrite slot_at_put_same by lia. by rewrite Hp, Hg.
  - by rewrite slot_at_put_other by lia.
Qed.

(** *** Child events *)

Lemma run_publish c ppid e : run_inv c -> run_inv (child_event_publish ops c ppid e).
Proof.
  intros HR. pose proof HR as ((T1 & T2 & T3 & T4) & W & G). destruct (publish_steady ops c ppid e W) as ((Hl & Ha) & Hv).
  assert (W' : coord_wf (child_event_publish ops c ppid e))
    by (apply (coord_wf_steady_but c _ (-1)); [done|by apply steady_but_of|done]).
  assert (HP : proc_inv (rt_k (c_rt (child_event_publish ops c ppid e))) (tasks c) /\ region_inv (c_rt (child_event_publish ops c ppid e))).
  { destruct (parent_task_for_child c ppid e) as [s|] eqn:Ep; [|unfold child_event_publish; by rewrite Ep].
    destruct (p_group (cproc c s)) as [gi|] eqn:Eg; [|unfold child_event_publish; by rewrite Ep, Eg].
    pose proof (parent_slot_in _ _ _ _ Ep) as Hs.
    apply (event_publish_pools ops c ppid e (tasks c) s gi); try done. rewrite <- Eg. apply list_elem_of_fmap_2.
    unfold tasks. apply list_elem_of_fmap_2, elem_of_seqZ. apply slot_in_range in Hs. lia. }
  set (c' := child_event_publish ops c ppid e) in *. clearbody c'.
  assert (Hs : forall s, slot_in s = true -> holdings (cproc c' s) = holdings (cproc c s)).
  { intros s Hs%slot_in_range. apply Ha. lia. }
  split; [|split; [done|]].
  - split; [apply W'|]. split; [apply HP|]. split.
    + eapply proc_inv_holdings; [|apply HP]. unfold tasks. rewrite !map_map. apply map_ext_in.
      intros s Hs'%list_elem_of_In%elem_of_seqZ. symmetry. apply Hs. apply slot_in_range. lia.
    + intros s Hs' Hd. change (p_alive ?q) with (holdings q).1.1.1.1.1 in Hd. rewrite (Hs s Hs') in Hd.
      destruct (T4 s Hs' Hd) as (a & E). exists a. by rewrite (Hs s Hs').
  - intros s Hs'. apply (grouped_at c s); auto.
Qed.

(** *** Views *)

Lemma quiet_view_begin R slot vid :
  quiet R (rt_put_genv R (lxp_guest_view_begin (rt_genv R) slot (lxp_slot_ref_at R slot) (Some slot) LXP_GUEST_READ_WRITE vid).2).
Proof.
  unfold rt_put_genv. repeat (split; [done|]). cbn [rt_slots set_rt_views set_rt_slots].
  apply core_zip. unfold lxp_guest_view_begin. repeat case_goal; try done. cbn [snd ge_procs set_procs set_views]. by apply strip_aset.
Qed.

Lemma run_view_begin mops c slot vid : run_inv c -> run_inv (lxp_coordinator_guest_view_begin mops c slot vid).2.
Proof.
  intros HR. unfold lxp_coordinator_guest_view_begin. destruct (lxp_slot_ref_is_current _ _); [|done].
  destruct (mm_of _ _) as [mm|]; [|done]. set (c1 := match coord_map mops with Some _ => _ | None => _ end).
  assert (E : run_inv c1 /\ c_rt c1 = c_rt c) by (unfold c1; destruct (coord_map mops); [by destruct (_ >=? 0)|done]).
  destruct E as (H1 & E). rewrite <- E. pose proof (quiet_view_begin (c_rt c1) slot vid) as Hq.
  destruct (lxp_guest_view_begin _ _ _ _ _ _) as [rc G]. by apply run_rt.
Qed.

Lemma run_view_failure c slot rc : run_inv c -> run_inv (lxp_guest_view_failure c slot rc).
Proof. intros HR. unfold lxp_guest_view_failure. destruct (_ || _); [done|]. apply run_rt; [done|apply quiet_exit_slot]. Qed.

(** *** Signals *)

Lemma latch_holdings p sig : holdings (lxp_signal_latch p sig) = holdings p.
Proof. unfold lxp_signal_latch. by destruct (_ || _). Qed.
Lemma terminate_holdings p sig a d e : holdings (lxp_signal_terminate p sig a d e) = holdings p.
Proof. unfold lxp_signal_terminate. repeat case_goal; done. Qed.
Lemma wait_complete_holdings p k : holdings (lxp_wait_complete p k).2 = holdings p.
Proof. unfold lxp_wait_complete, wait_finish. by destruct (_ || _). Qed.
Lemma wait_interrupt_holdings p k : holdings (lxp_wait_interrupt p k).2 = holdings p.
Proof. unfold lxp_wait_interrupt, wait_finish. by destruct (_ || _). Qed.
Lemma intent_complete_holdings p k : holdings (lxp_intent_complete p k).2 = holdings p.
Proof. unfold lxp_intent_complete. by destruct (_ || _). Qed.
Lemma pending_take_holdings p : holdings (lxp_pending_take p).2 = holdings p.
Proof. unfold lxp_pending_take. repeat case_goal; done. Qed.

Lemma run_save_push c slot sig : slot_in slot = true -> run_inv c -> run_inv (lxp_sig_save_push c slot sig).2.
Proof.
  intros Hs HR. unfold lxp_sig_save_push. rewrite Hs. cbn [negb].
  destruct (run_stack_at c slot HR Hs) as (L & D). destruct (Z.geb_spec (st_depth (stack_at c slot)) LXP_SIGNAL_NEST_MAX) as [|Hd]; [done|].
  destruct (if negb (p_sigsuspend_active (cproc c slot) =? 0) then _ else _) as [mask proc] eqn:E.
  assert (Hp : holdings proc = holdings (cproc c slot)) by (destruct (negb _) in E; by injection E as <- <-).
  cbn [snd]. apply run_put; [done| |exact Hp]. apply run_stack; [done|]. split; cbn [st_frame st_depth]; [by rewrite alen_aset|].
  rewrite u8_small by (unfold LXP_SIGNAL_NEST_MAX in *; lia). lia.
Qed.

Lemma run_prepare c slot sig : slot_in slot = true -> run_inv c -> run_inv (lxp_signal_prepare c slot sig).2.
Proof.
  intros Hs HR. unfold lxp_signal_prepare. do 3 (case_goal; [done|]).
  destruct (_ =? LXP_SIG_DFL); [by apply run_put; [..|apply terminate_holdings]|].
  destruct (lxp_resolve_handler c slot sig) as [e|[[entry got] restorer]]; [by apply run_put; [..|apply terminate_holdings]|].
  pose proof (run_save_push c slot sig Hs HR) as H1. destruct (lxp_sig_save_push c slot sig) as [[i|] c1]; [done|].
  by apply run_put; [..|apply terminate_holdings].
Qed.

Lemma run_fill_save c slot i r0 r1 r2 r3 r7 r9 r12 lr pc xpsr :
  slot_in slot = true -> run_inv c -> run_inv (fill_save c slot i r0 r1 r2 r3 r7 r9 r12 lr pc xpsr).
Proof.
  intros Hs HR. destruct (run_stack_at c slot HR Hs) as (L & D). apply run_stack; [done|].
  split; cbn [st_frame st_depth]; [by rewrite alen_aset|done].
Qed.

Lemma run_deliver c slot sig ret : slot_in slot = true -> run_inv c -> run_inv (lxp_deliver_signal_parked ops c slot sig ret).
Proof.
  intros Hs HR. unfold lxp_deliver_signal_parked. cbv zeta. pose proof (run_prepare c slot sig Hs HR) as H1.
  destruct (lxp_signal_prepare c slot sig) as [[action d] c1]. cbn [snd] in H1. destruct action.
  - done.
  - by apply run_complete.
  - set (p := set_p_stop_r0 _ 0). assert (H2 : run_inv (put_cproc c1 slot p)) by (by apply run_put).
    by apply run_publish, run_complete.
  - apply run_rt; [done|apply quiet_mark].
  - set (c2 := fill_save c1 slot _ _ _ _ _ _ _ _ _ _ _). assert (H2 : run_inv c2) by (by apply run_fill_save).
    set (ctx := handler_ctx _ _ _). set (c3 := set_c_rt c2 _).
    assert (H3 : run_inv c3) by (by apply run_slot).
    destruct (mm_of _ _) as [mm|]; [|done]. apply run_lift; [done|apply quiet_resume_slot].
Qed.

Lemma run_send c skip pid pgid sig : run_inv c -> run_inv (lxp_signal_send core c skip pid pgid sig).2.
Proof.
  intros HR. unfold lxp_signal_send.
  assert (Hf : forall l r c, Forall (fun s => slot_in s = true) l -> run_inv c -> run_inv (fold_left (send_step skip pid pgid sig) l (r, c)).2).
  { induction l as [|s l IH]; intros r d Hl Hd; [done|]. inversion_clear Hl as [|? ? Hs Hl']. cbn [fold_left]. unfold send_step at 2.
    destruct (_ || _); apply IH; try done. by apply run_put; [..|apply latch_holdings]. }
  assert (Hall : Forall (fun s => slot_in s = true) (seqZ 0 LXP_NSLOT))
    by (apply Forall_forall; intros s Hs%elem_of_seqZ; apply slot_in_range; lia).
  specialize (Hf _ 0 c Hall HR). destruct (fold_left _ _ _) as [n c1]. cbn [snd] in *.
  destruct (negb _); [|done]. unfold post. by repeat case_goal.
Qed.

Lemma run_signal_group c pgid sig : run_inv c -> run_inv (lxp_signal_process_group core c pgid sig).2.
Proof. intros HR. unfold lxp_signal_process_group. destruct (_ || _); [done|]. by apply run_send. Qed.

End Steps.

#[export] Hint Resolve run_h run_mem run_complete run_park run_publish run_view_begin run_view_failure run_deliver run_signal_group : run.

(** ** The scan *)

(** What the scan needs of the providers behind it. *)
Class KeepsRun {H X} (bops : blocked_ops H X) := {
  keeps_dev x c s : slot_in s = true -> run_inv c -> run_inv (dev_retry bops x c s).2;
  keeps_sock x c s : slot_in s = true -> run_inv c -> run_inv (sock_retry bops x c s).2;
  keeps_poll x c s : slot_in s = true -> run_inv c -> run_inv (poll_retry bops x c s).2;
  keeps_netfs x c s : slot_in s = true -> run_inv c -> run_inv (netfs_retry bops x c s).2;
  keeps_pty x c s : slot_in s = true -> run_inv c -> run_inv (pty_retry bops x c s).2;
  keeps_syscall x c s nr args : slot_in s = true -> run_inv c -> run_inv (bo_syscall bops x c s nr args).2;
  keeps_dev_cancel x c s : slot_in s = true -> run_inv c -> run_inv (dev_cancel bops x c s).2;
  keeps_netfs_cancel x c s : slot_in s = true -> run_inv c -> run_inv (netfs_cancel bops x c s).2;
  keeps_hostfs_cancel x c s : slot_in s = true -> run_inv c -> run_inv (hostfs_cancel bops x c s).2;
}.

Section ScanKeeps.
Context {H X : Type} (ops : os_task H) (core : os_core H) (cons : os_console H) (mops : os_memory H) (bops : blocked_ops H X).
Context {K : KeepsRun bops}.
Implicit Types (c : coord H) (b : bstate H X) (s : lxp_blocked_scan).

Definition bkeeps (slot : Z) b b' : Prop := slot_in slot = true -> run_inv (bs_c b) -> run_inv (bs_c b').

Lemma keeps_put slot b p : holdings p = holdings (bproc b slot) -> bkeeps slot b (put_bproc b slot p).
Proof. intros Hp Hs HR. by apply run_put. Qed.

Lemma keeps_finish slot b kind : bkeeps slot b (finish_wait b slot kind).
Proof. apply keeps_put, wait_complete_holdings. Qed.

Lemma keeps_complete slot b rc : bkeeps slot b (bcomplete ops b slot rc).
Proof. intros Hs HR. by apply run_complete. Qed.

Lemma keeps_mark slot b : bkeeps slot b (bmark b slot).
Proof. intros Hs HR. apply run_rt; [done|apply quiet_mark]. Qed.

Lemma keeps_trans slot b1 b2 b3 : bkeeps slot b1 b2 -> bkeeps slot b2 b3 -> bkeeps slot b1 b3.
Proof. unfold bkeeps. auto. Qed.

Lemma keeps_deliver slot b sig ret : bkeeps slot b (set_bs_c b (lxp_deliver_signal_parked ops (bs_c b) slot sig ret)).
Proof. intros Hs HR. by apply run_deliver. Qed.

Lemma keeps_interrupt slot b : bkeeps slot b (lxp_blocked_interrupt_wait bops b slot).
Proof.
  intros Hs HR. unfold lxp_blocked_interrupt_wait. set (b1 := match _ with Some _ => _ | None => _ end).
  assert (H1 : run_inv (bs_c b1)).
  { unfold b1. pose proof (keeps_dev_cancel (bs_x b) (bs_c b) slot Hs HR). pose proof (keeps_netfs_cancel (bs_x b) (bs_c b) slot Hs HR).
    pose proof (keeps_hostfs_cancel (bs_x b) (bs_c b) slot Hs HR).
    destruct (w_kind _); try done;
      match goal with |- context [let '(_, _) := ?f (bs_x b) (bs_c b) slot in _] => by destruct (f (bs_x b) (bs_c b) slot) end. }
  apply (keeps_put slot b1); [apply wait_interrupt_holdings|done|done].
Qed.

Lemma keeps_interrupt_deliver slot b sig : bkeeps slot b (interrupt_and_deliver ops bops b slot sig).
Proof. eapply keeps_trans; [apply keeps_interrupt|apply keeps_deliver]. Qed.

Lemma clear_stop_holdings p sig : holdings (lxp_blocked_clear_stop (clear_pending p sig)) = holdings p.
Proof. done. Qed.

Lemma keeps_stopped slot b s : bkeeps slot b (lxp_blocked_handle_stopped ops bops b slot s).1.2.
Proof.
  intros Hs HR. unfold lxp_blocked_handle_stopped. destruct (_ =? 0); [done|]. destruct (negb _).
  { apply keeps_mark; [done|]. apply keeps_put; [|done|done]. by rewrite terminate_holdings. }
  destruct (has _ _); [|done]. cbn [fst snd]. unfold stopped_continue.
  set (p := if _ || _ then clear_pending _ _ else _).
  assert (Hp : holdings p = holdings (bproc b slot)) by (unfold p; by destruct (_ || _)).
  set (b1 := put_bproc b slot _). assert (H1 : run_inv (bs_c b1)) by (by apply keeps_put).
  clearbody b1 p. destruct (_ && _ && _ && _).
  - destruct (negb _); [by apply keeps_interrupt_deliver|by apply keeps_deliver].
  - destruct (_ =? LXP_STOP_READY); [|done]. destruct (mm_of _ _); [|done]. apply run_lift; [done|apply quiet_resume_slot].
Qed.

Lemma keeps_signal slot b s : bkeeps slot b (lxp_blocked_handle_signal ops bops b slot s).1.2.
Proof.
  intros Hs HR. unfold lxp_blocked_handle_signal. cbv zeta.
  set (sig := if negb (brunnable b slot) then _ else 0). destruct (negb (sig =? 0) && lxp_sig_stops_proc _ _).
  { cbn [fst snd]. set (p := set_p_stop_r0 _ 0). assert (H1 : run_inv (bs_c (put_bproc b slot p))) by (by apply keeps_put).
    by apply run_publish. }
  destruct (negb (sig =? 0) && _); [|done]. destruct (lxp_blocked_defer_stateful_signal _ _ _ _); [done|].
  set (b1 := put_bproc b slot _). assert (H1 : run_inv (bs_c b1)) by (by apply keeps_put).
  destruct (negb (lxp_sig_swallowed _ _)); [|done]. by apply keeps_interrupt_deliver.
Qed.

Lemma keeps_finish_complete slot b kind rc : bkeeps slot b (bcomplete ops (finish_wait b slot kind) slot rc).
Proof. eapply keeps_trans; [apply keeps_finish|apply keeps_complete]. Qed.

Lemma keeps_timer now slot b s : bkeeps slot b (lxp_blocked_retry_timer ops now b slot s).1.
Proof. intros Hs HR. unfold lxp_blocked_retry_timer. destruct (negb _); [done|]. destruct (_ >=? _); [|done]. by apply keeps_finish_complete. Qed.

Lemma keeps_futex now slot b s : bkeeps slot b (lxp_blocked_retry_futex ops now b slot s).1.
Proof.
  intros Hs HR. unfold lxp_blocked_retry_futex. destruct (negb _); [done|]. destruct (futex_state _) as [d [|]]; [by apply keeps_finish_complete|].
  destruct (_ && _); [by apply keeps_finish_complete|done].
Qed.

Lemma keeps_pipe slot b s : bkeeps slot b (lxp_blocked_retry_pipe ops b slot s).1.
Proof.
  intros Hs HR. unfold lxp_blocked_retry_pipe. destruct (negb _); [done|]. destruct (lxp_pipe_retry _ _ _) as [[rc g] m].
  set (b1 := set_bs_pipes _ g). assert (H1 : run_inv (bs_c b1)) by (by apply run_mem). destruct (_ =? - LXP_EAGAIN); [done|].
  pose proof (keeps_finish slot b1 LXP_WAIT_PIPE Hs H1) as H2. set (b2 := finish_wait b1 slot LXP_WAIT_PIPE) in *.
  destruct (_ && _); [|by apply keeps_complete]. apply keeps_mark; [done|]. apply keeps_put; [apply terminate_holdings|done|done].
Qed.

Lemma keeps_provider kind op slot b s :
  (forall x c, slot_in slot = true -> run_inv c -> run_inv (op x c slot).2) ->
  bkeeps slot b (retry_provider ops kind op b slot s).1.
Proof.
  intros Hop Hs HR. unfold retry_provider. destruct (negb _); [done|]. specialize (Hop (bs_x b) (bs_c b) Hs HR).
  destruct (op _ _ _) as [[rc x] c]. cbn [snd] in Hop. destruct (negb _); [|done]. by apply keeps_finish_complete.
Qed.

(** Installing a window calls the port and touches nothing else. *)
Lemma map_mm_host c mi mm addr len attrs :
  exists h, (lxp_coordinator_map_mm_range mops c mi mm addr len attrs).2 = set_c_h c h.
Proof.
  assert (Hid : forall d : coord H, set_c_h d (c_h d) = d) by (by intros []).
  assert (Hback : forall l (d : coord H), exists h, fold_left (fun c r => if shares_mm c mi r
      then set_c_h c (lxp_coordinator_restore_mm_maps mops (c_h c) r mm).2 else c) l d = set_c_h d h).
  { induction l as [|r l IH]; intros d; [exists (c_h d); by rewrite Hid|]. cbn [fold_left].
    destruct (shares_mm d mi r); [|apply IH]. destruct (IH (set_c_h d (lxp_coordinator_restore_mm_maps mops (c_h d) r mm).2)) as (h & E).
    exists h. by rewrite E. }
  unfold lxp_coordinator_map_mm_range. destruct (map_device mops) as [g|]; [|exists (c_h c); by rewrite Hid].
  generalize (seqZ 0 LXP_NSLOT) at 1. intros l. revert c. induction l as [|r l IH]; intros c; [exists (c_h c); by rewrite Hid|].
  cbn [map_mm_loop]. destruct (negb _); [apply IH|]. destruct (g _ _ _ _ _) as [rc h]. destruct (negb _).
  - destruct (Hback (seqZ 0 LXP_NSLOT) (set_c_h c h)) as (h' & E). exists h'. cbn [snd]. by rewrite E.
  - destruct (IH (set_c_h c h)) as (h' & E). exists h'. by rewrite E.
Qed.

Lemma run_mm_update c slot mi mm :
  slot_in slot = true -> run_inv c -> p_mm (cproc c slot) = Some mi -> mm_refs mm = mm_refs (aget mm_zero (k_mm (rt_k (c_rt c))) mi) ->
  run_inv (set_c_rt c (set_rt_k (c_rt c) (set_k_mm (rt_k (c_rt c)) (aset (k_mm (rt_k (c_rt c))) mi mm)))).
Proof.
  intros Hs ((T1 & T2 & T3 & T4) & W & G) Hm Hr. split; [|done]. split; [done|]. split; [done|]. split; [|done].
  apply kinv_mm_update; [|done|exact T3]. rewrite <- Hm. apply list_elem_of_fmap_2. unfold tasks.
  apply list_elem_of_fmap_2, elem_of_seqZ. apply slot_in_range in Hs. lia.
Qed.

Lemma keeps_mmap slot b s : bkeeps slot b (retry_device_mmap ops mops b slot s).1.
Proof.
  intros Hs HR. unfold retry_device_mmap. pose proof (keeps_finish_complete slot b LXP_WAIT_DEVICE (- LXP_EINVAL) Hs HR) as Hbad.
  destruct (w_data _) as [| | | |fd op buffer length off command fl| | |]; try exact Hbad.
  destruct (p_mm (bproc b slot)) as [mi|] eqn:Em; [|exact Hbad]. clear Hbad. cbv zeta.
  set (mm := aget mm_zero _ mi). set (map := lxp_device_map_index _ _ _ _).
  set (m := if map >=? 0 then _ else _). assert (Hm : exists h, m.2 = set_c_h (bs_c b) h).
  { unfold m. destruct (map >=? 0); [|exists (c_h (bs_c b)); by destruct (bs_c b)].
    destruct (map_mm_host (bs_c b) mi mm buffer length (u32 command)) as (h & E).
    destruct (lxp_coordinator_map_mm_range _ _ _ _ _ _ _) as [mapped c1]. by exists h. }
  clearbody m. destruct m as [rc c1]. destruct Hm as (h & E). cbn [snd] in E. subst c1.
  apply keeps_finish_complete; [done|]. cbn [bs_c set_bs_c]. destruct (rc >=? 0); [|exact HR].
  by apply (run_mm_update (set_c_h (bs_c b) h) slot).
Qed.

Lemma keeps_device slot b s : bkeeps slot b (lxp_blocked_retry_device ops mops bops b slot s).1.
Proof.
  intros Hs HR. unfold lxp_blocked_retry_device. destruct (negb _); [done|]. destruct (_ =? LXP_DEVW_MMAP); [by apply keeps_mmap|].
  apply keeps_provider; [|done|done]. intros x c. apply keeps_dev.
Qed.

Lemma keeps_hostfs slot b s : bkeeps slot b (lxp_blocked_retry_hostfs ops bops b slot s).1.
Proof.
  intros Hs HR. unfold lxp_blocked_retry_hostfs. destruct (negb _); [done|]. destruct (match w_data _ with WD_HOSTFS nr args _ => (nr, args) | _ => (0, []) end) as [nr args].
  pose proof (keeps_syscall (bs_x b) (bs_c b) slot nr args Hs HR) as H1. destruct (bo_syscall bops _ _ _ _ _) as [[rc x] c]. cbn [snd] in H1.
  set (b1 := set_bs_x _ x). change (run_inv (bs_c b1)) in H1. destruct (_ && _); [done|].
  pose proof (keeps_finish slot b1 LXP_WAIT_HOSTFS Hs H1) as H2. set (b2 := finish_wait b1 slot LXP_WAIT_HOSTFS) in *.
  destruct (negb _); [|by apply keeps_complete]. apply (keeps_deliver slot); [done|]. by apply keeps_put.
Qed.

Lemma keeps_netfs_retry slot b s : bkeeps slot b (lxp_blocked_retry_netfs ops bops b slot s).1.
Proof.
  intros Hs HR. unfold lxp_blocked_retry_netfs. destruct (negb _); [done|].
  pose proof (keeps_netfs (bs_x b) (bs_c b) slot Hs HR) as H1. destruct (netfs_retry bops _ _ _) as [[rc x] c]. cbn [snd] in H1.
  set (b1 := set_bs_x _ x). change (run_inv (bs_c b1)) in H1. destruct (_ =? - LXP_EAGAIN); [done|].
  unfold lxp_blocked_complete_netfs_retry. cbn [fst]. set (b2 := if bool_decide (_ = LXP_WAIT_NETFS) then _ else b1).
  assert (H2 : run_inv (bs_c b2)) by (unfold b2; destruct (bool_decide _); [by apply keeps_finish|done]). clearbody b2.
  destruct (bool_decide _); [by apply keeps_mark|by apply keeps_complete].
Qed.

Lemma console_read_run c k slot fd buf len : run_inv c -> run_inv (lxp_console_read cons c k slot fd buf len).1.2.
Proof.
  intros HR. unfold lxp_console_read. set (m := if _ && _ then _ else _). assert (Hm : run_inv m.1.2).
  { unfold m. destruct (_ && _); [by apply run_mem|]. destruct (_ =? 0); [done|].
    destruct (call_read cons _ _ _ _ _) as [[rc bs] h]. by apply run_mem, run_h. }
  clearbody m. destruct m as [[rc c1] k1]. cbn [fst snd] in Hm. destruct (rc =? 1); [by apply run_mem|done].
Qed.

Lemma keeps_console slot b s : bkeeps slot b (lxp_blocked_retry_console ops core cons b slot s).1.
Proof.
  intros Hs HR. unfold lxp_blocked_retry_console. destruct (_ || _); [done|].
  assert (H1 : run_inv (lxp_console_input_ready cons (bs_c b) (bs_con b) slot).2).
  { unfold lxp_console_input_ready. repeat case_goal; done. }
  destruct (lxp_console_input_ready _ _ _ _) as [ready c1]. cbn [snd] in H1. destruct (negb ready); [done|].
  destruct (match w_data _ with WD_IO _ _ buf len _ _ _ => (buf, len) | _ => (0, 0) end) as [buf len].
  pose proof (console_read_run (bs_c (set_bs_c b c1)) (bs_con (set_bs_c b c1)) slot 0 buf len H1) as H2.
  destruct (lxp_console_read _ _ _ _ _ _ _) as [[rc c2] k2]. cbn [fst snd] in H2. set (b2 := set_bs_con _ k2).
  change (run_inv (bs_c b2)) in H2. clearbody b2. cbv zeta. set (sig := if rc =? 1 then lxp_tty_signal_for _ _ else 0).
  destruct (sig =? LXP_SIGTSTP); [by apply run_signal_group|].
  destruct (sig =? LXP_SIGINT); apply keeps_finish_complete; try done. by apply run_signal_group.
Qed.

(** *** The retries in order, the visit and the scan *)

Lemma keeps_bind slot (st : bstate H X * lxp_blocked_scan) b (f : bstate H X -> lxp_blocked_scan -> bstate H X * lxp_blocked_scan) :
  bkeeps slot b st.1 -> (forall b s, bkeeps slot b (f b s).1) -> bkeeps slot b (let '(b, s) := st in f b s).1.
Proof. destruct st as [b1 s1]. intros H1 H2. eapply keeps_trans; [exact H1|apply H2]. Qed.

Lemma keeps_retry now slot b s : bkeeps slot b (scan_retry ops core cons mops bops now b slot s).1.
Proof.
  unfold scan_retry, lxp_blocked_retry_socket, lxp_blocked_retry_poll, lxp_blocked_retry_pty.
  apply keeps_bind; [apply keeps_timer|]. clear b s. intros b s. apply keeps_bind; [apply keeps_futex|]. clear b s. intros b s.
  apply keeps_bind; [apply keeps_pipe|]. clear b s. intros b s. apply keeps_bind; [apply keeps_device|]. clear b s. intros b s.
  apply keeps_bind; [apply keeps_provider; intros x c; apply keeps_sock|]. clear b s. intros b s.
  apply keeps_bind; [apply keeps_provider; intros x c; apply keeps_poll|]. clear b s. intros b s.
  apply keeps_bind; [apply keeps_netfs_retry|]. clear b s. intros b s. apply keeps_bind; [apply keeps_hostfs|]. clear b s. intros b s.
  apply keeps_bind; [apply keeps_provider; intros x c; apply keeps_pty|]. clear b s. intros b s. apply keeps_console.
Qed.

Lemma keeps_alarm now slot b s : bkeeps slot b (scan_alarm now b slot s).1.
Proof.
  intros Hs HR. unfold scan_alarm. destruct (_ && _); [|done]. cbn [fst]. destruct (_ >=? _); [|done].
  apply keeps_put; [|done|done]. exact (latch_holdings (bproc b slot) LXP_SIGALRM).
Qed.

Lemma keeps_slot now selected slot b s : bkeeps slot b (scan_slot ops core cons mops bops now selected b slot s).1.
Proof.
  intros Hs HR. unfold scan_slot. pose proof (keeps_stopped slot b s Hs HR) as H1.
  destruct (lxp_blocked_handle_stopped _ _ _ _ _) as [[skip b1] s1]. cbn [fst snd] in H1. destruct skip; [done|].
  cbv zeta. match goal with |- context [scan_alarm now b1 slot ?x] => set (s2 := x) end.
  pose proof (keeps_alarm now slot b1 s2 Hs H1) as H2. destruct (scan_alarm now b1 slot s2) as [b2 s3]. cbn [fst] in H2.
  pose proof (keeps_signal slot b2 s3 Hs H2) as H3. destruct (lxp_blocked_handle_signal _ _ _ _ _) as [[skip b3] s4]. cbn [fst snd] in H3.
  destruct skip; [done|]. destruct (_ && _); [|done].
  pose proof (keeps_retry now slot b3 (scan_deadline now b3 slot s4) Hs H3) as H4. destruct (scan_retry _ _ _ _ _ _ _ _ _) as [b4 s5].
  cbn [fst] in *. destruct selected as [k|]; [|done]. by destruct (sc_progress s5).
Qed.

Lemma keeps_visit now vid selected slot st : bkeeps slot st.1 (scan_visit ops core cons mops bops now vid selected st slot).1.
Proof.
  destruct st as [b s]. intros Hs HR. unfold scan_visit. destruct (_ =? 0); [done|]. destruct (negb (brunnable b slot)); [|by apply keeps_slot].
  pose proof (run_view_begin mops (bs_c b) slot vid HR) as H1. destruct (lxp_coordinator_guest_view_begin _ _ _ _) as [rc c1]. cbn [snd] in H1.
  destruct (negb _); [by apply run_view_failure|].
  pose proof (keeps_slot now selected slot (set_bs_c b c1) (set_sc_alive s) Hs H1) as H2.
  destruct (scan_slot _ _ _ _ _ _ _ _ _ _) as [b2 s2]. cbn [fst] in *. apply run_rt; [done|apply quiet_view_end].
Qed.

Lemma scan_keeps now vid b : run_inv (bs_c b) -> run_inv (bs_c (lxp_scan_blocked ops core cons mops bops now vid b).2).
Proof.
  intros HR. unfold lxp_scan_blocked. destruct (lxp_blocked_service_select _ _ _ _) as [[selected cursor] hint]. cbv zeta.
  set (b1 := set_bs_fs_ready _ hint). assert (H1 : run_inv (bs_c b1)) by done.
  set (start := match selected with Some k => _ | None => 0 end). set (order := map _ (seqZ 0 LXP_NSLOT)).
  assert (Hall : Forall (fun y : Z => slot_in y = true) order).
  { apply Forall_forall. intros y (i & -> & _)%list_elem_of_fmap. apply slot_in_range. apply Z.mod_pos_bound. done. }
  assert (Hf : forall l (st : bstate H X * lxp_blocked_scan), Forall (fun y : Z => slot_in y = true) l -> run_inv (bs_c st.1) ->
    run_inv (bs_c (fold_left (scan_visit ops core cons mops bops now vid selected) l st).1)).
  { induction l as [|x l IH]; intros st Hl Hst; [done|]. inversion_clear Hl as [|? ? Hx Hl']. cbn [fold_left]. apply IH; [done|].
    by apply keeps_visit. }
  specialize (Hf order (b1, scan_init) Hall H1). destruct (fold_left _ _ _) as [b2 s2]. cbn [fst] in Hf.
  set (b3 := match selected with Some k => _ | None => b2 end).
  assert (H3 : run_inv (bs_c b3)) by (unfold b3; destruct selected; [by destruct (sc_progress s2)|done]). clearbody b3.
  destruct (_ =? 0); [|done].
  assert (H4 : run_inv (lxp_console_poll_interrupts core cons (bs_c b3) (bs_con b3)).1.2).
  { unfold lxp_console_poll_interrupts. destruct (cfg_console cons) as [[[rd pl] ctx]|]; [|done]. destruct (_ || _); [done|].
    destruct (call_poll _ _ _ _) as [ready h]. destruct (ready =? 0); [done|]. destruct (call_read _ _ _ _ _ _) as [[rc bs] h2].
    destruct (negb _); [done|]. destruct (negb _); [by apply run_signal_group|done]. }
  destruct (lxp_console_poll_interrupts _ _ _ _) as [[raised c] k]. done.
Qed.

End ScanKeeps.
