(* ===== verification/RunProps.v ===== *)
(** * Properties of the coordinator

    Every event and every pass of the run loop keeps the run's invariant, whatever the guest
    asks and the host answers; ordinary events cannot keep the scan away. *)

From S2P Require Import Prelude Config Errno Path Proc Pool Fd FdSpec Guest Wait Pipe Arena Process ProcessSpec.
From S2P Require Import ProcessProps Runtime Event Region RegionProps Lifecycle Quiet Signal SignalProps SysSignal.
From S2P Require Import Child ChildProps SignalRoute Exit Console Blocked Fork ForkProps Loader LoaderProps Bootstrap.
From S2P Require Import Image Exec ExecSpec ExecProps Run RunKeep.
Local Open Scope Z_scope.

(** What the coordinator needs of the system-call table. *)
Class LawfulCalls {H B W} (calls : os_calls H B W) :=
  call_keeps s slot nr args : slot_in slot = true -> run_inv (ps_c s) -> run_inv (ps_c (syscall calls s slot nr args).2).

(** ** Claims *)

Lemma claim_facts n : forall R cursor i es et cursor' R',
  claim_scan n R cursor i = (es, et, cursor', R') ->
  calm R R' /\ alen (rt_primary_pending R') = alen (rt_primary_pending R) /\
  ((es = -1 /\ et = LXP_EV_NONE) \/ (slot_in es = true /\ et <> LXP_EV_NONE /\ et = lxp_claim_slot_event R' es)).
Proof.
  induction n as [|n IH]; intros R cursor i es et cursor' R'; cbn [claim_scan].
  { intros [= <- <- _ <-]. split; [done|]. split; [done|]. by left. }
  set (t := u32 (cursor + i) mod LXP_NSLOT). destruct (negb _); [apply IH|].
  assert (C : calm R (lxp_primary_slot_clear R t)) by (by apply calm_slots).
  assert (A : alen (rt_primary_pending (lxp_primary_slot_clear R t)) = alen (rt_primary_pending R)) by apply alen_aset.
  destruct (bool_decide_reflect (lxp_claim_slot_event (lxp_primary_slot_clear R t) t = LXP_EV_NONE)) as [|Hn].
  - intros E. destruct (IH _ _ _ _ _ _ _ E) as (C2 & A2 & Ho). split; [by transitivity (lxp_primary_slot_clear R t)|].
    split; [congruence|done].
  - intros [= <- <- _ <-]. split; [done|]. split; [done|]. right. split; [|done]. apply slot_in_range. apply Z.mod_pos_bound. done.
Qed.

Lemma claim_event_alive R slot : lxp_claim_slot_event R slot <> LXP_EV_NONE -> p_alive (sproc R slot) <> 0.
Proof. unfold lxp_claim_slot_event. destruct (negb _); [done|]. by destruct (Z.eqb_spec (p_alive (sproc R slot)) 0). Qed.

Lemma claimed_facts {H B W} (s : pstate H B W) v es et v' bd s' :
  lxp_claimed s v = (es, et, v', bd, s') ->
  (run_inv (ps_c s) -> run_inv (ps_c s')) /\ (et <> LXP_EV_NONE -> 0 <= es /\ bd = false /\ p_alive (ps_proc s' es) <> 0) /\
  (et <> LXP_EV_NONE -> coordinator_control_event et = false -> lv_burst v < LXP_COORDINATOR_EVENT_BURST /\ lv_burst v' = lv_burst v) /\
  (bd = true -> hints_wf (c_rt (ps_c s)) -> exists t, slot_in t = true /\ lxp_primary_slot_pending (c_rt (ps_c s')) t = true /\
     lxp_claim_slot_event (c_rt (ps_c s')) t <> LXP_EV_NONE).
Proof.
  unfold lxp_claimed, lxp_coordinator_claim_event. destruct (claim_scan _ _ _ _) as [[[es0 et0] cur] R] eqn:E.
  apply claim_facts in E as (C & A & Ho). set (s1 := set_ps_c s _).
  assert (Hok : run_inv (ps_c s) -> run_inv (ps_c s1)) by (intros HR; by apply (run_inv_saved (ps_c s))).
  destruct (_ && _ && _ && _) eqn:Eb.
  - intros [= <- <- <- <- <-]. rewrite !andb_true_iff in Eb. destruct Eb as (((Eb1 & Eb2) & Eb3) & Eb4).
    destruct Ho as [(-> & _)|(Hs & Hn & He)]; [lia|].
    split; [intros HR; apply run_rt; [by apply Hok|apply quiet_mark]|]. split; [done|]. split; [done|].
    intros _ Hw. exists es0. pose proof (proj1 (slot_in_range es0) Hs) as Hr. split; [done|]. cbn [ps_c set_ps_c c_rt set_c_rt].
    split; [rewrite pending_mark; [by rewrite Z.eqb_refl, orb_true_r| |done|done]; unfold hints_wf in *; cbn [ps_c set_ps_c c_rt set_c_rt]; congruence|].
    assert (Em : lxp_claim_slot_event (lxp_primary_slot_mark R es0) es0 = lxp_claim_slot_event R es0)
      by (unfold lxp_primary_slot_mark; by rewrite Hs). by rewrite Em, <- He.
  - intros [= <- <- <- <- <-]. split; [done|]. split; [|split; [|done]].
    + intros Hn. destruct Ho as [(_ & ->)|(Hs & _ & He)]; [done|]. apply slot_in_range in Hs as Hr. split; [lia|]. split; [done|].
      apply (claim_event_alive R es0). by rewrite <- He.
    + intros Hn Hc. destruct Ho as [(_ & ->)|(Hs & _ & He)]; [done|]. split; [|done]. apply slot_in_range in Hs. cbn [lv_burst] in Eb.
      rewrite Hc, (bool_decide_eq_true_2 _ Hn) in Eb. cbn [negb andb] in Eb. lia.
Qed.

(** ** Bursts *)

(** What a pass does to the burst count. *)
Definition relief (k : pass_kind) : Prop :=
  match k with PassHandled ev => coordinator_control_event ev = true | _ => True end.

#[local] Instance relief_dec k : Decision (relief k).
Proof. destruct k; apply _. Defined.

Section Bursts.
Context {H B W : Type} `{FileOps B} (ops : os_task H) (xops : os_exit H).
Context (exec_capture : Z -> option Z) (failpoint : lxp_lifecycle_failpoint -> bool).
Context (random_fill : Z -> option (list Z)) (publish_executable : H -> lxp_ref -> Z -> Z -> Z * H) (cfg : lxp_run_config).
Context (stage_buf : Z * Z) (calls : os_calls H B W).
Context (scan : pstate H B W -> Z -> lxp_blocked_scan * pstate H B W) (tick : pstate H B W -> Z -> pstate H B W).
Context (time_us : H -> Z * H) (event_wait : H -> Z -> H) (halt_requested : pstate H B W -> bool).
Context (socket_ready_events console_ready_events : bool).

Notation pass := (coordinator_pass ops xops exec_capture failpoint random_fill publish_executable cfg stage_buf calls scan tick
  time_us event_wait halt_requested socket_ready_events console_ready_events).
Notation passes := (coordinator_passes ops xops exec_capture failpoint random_fill publish_executable cfg stage_buf calls scan tick
  time_us event_wait halt_requested socket_ready_events console_ready_events).

Lemma pass_burst fuel s vid v ev s' v' :
  pass fuel s vid v = Some (PassHandled ev, s', v') -> coordinator_control_event ev = false ->
  lv_burst v < LXP_COORDINATOR_EVENT_BURST /\ lv_burst v' = lv_burst v + 1.
Proof.
  unfold coordinator_pass. destruct (halt_requested s); [done|].
  destruct (lxp_claimed s v) as [[[[es et] v1] bd] s1] eqn:Ec. apply claimed_facts in Ec as (_ & _ & Hb & _).
  destruct (lxp_handle_primary_event _ _ _ _ _ _ _ _ _ _ _ _ _ _) as [[r s2]|] eqn:Ee; [|done].
  destruct (pr_flow r) eqn:Ef; [| |done].
  2:{ unfold scan_pass. destruct (time_us _). destruct (scan _ _). repeat case_match; done. }
  intros [= <- _ <-] Hc. cbn [lv_burst]. rewrite Hc.
  assert (Hn : et <> LXP_EV_NONE).
  { intros ->. unfold lxp_handle_primary_event in Ee. destruct (negb _); injection Ee as <- _; done. }
  rewrite (bool_decide_eq_true_2 _ Hn). destruct (Hb Hn Hc) as (Hl & ->). lia.
Qed.

(** Without relief, the burst count bounds the number of passes. *)
Lemma passes_burst n fuel vid : forall s v ks s' v',
  passes n fuel s vid v = Some (ks, s', v') -> Forall (fun k => ~ relief k) ks ->
  ks = [] \/ lv_burst v + alen ks <= LXP_COORDINATOR_EVENT_BURST.
Proof.
  induction n as [|n IH]; intros s v ks s' v'; cbn [coordinator_passes]; [intros [= <- _ _]; by left|].
  destruct (pass fuel s vid v) as [[[k s1] v1]|] eqn:E; [|done].
  destruct k as [rc|ev|]; [intros [= <- _ _] Hf; by apply Forall_inv in Hf| |].
  2:{ destruct (passes n fuel s1 vid v1) as [[[ks1 s2] v2]|]; [|done]. intros [= <- _ _] Hf. by apply Forall_inv in Hf. }
  destruct (passes n fuel s1 vid v1) as [[[ks1 s2] v2]|] eqn:E2; [|done]. intros [= <- _ _] Hf. right.
  inversion_clear Hf as [|? ? Hk Hks]. assert (Hc : coordinator_control_event ev = false) by (by apply not_true_is_false).
  destruct (pass_burst _ _ _ _ _ _ _ E Hc) as (Hl & Hb). unfold alen in *. cbn [length].
  destruct (IH _ _ _ _ _ E2 Hks) as [->|Hn]; [cbn; lia|]. lia.
Qed.

End Bursts.

(** ** Events *)

Section Events.
Context {H B W : Type} `{FileOps B} (ops : os_task H) (xops : os_exit H).
Context (exec_capture : Z -> option Z) (failpoint : lxp_lifecycle_failpoint -> bool).
Context (random_fill : Z -> option (list Z)) (publish_executable : H -> lxp_ref -> Z -> Z -> Z * H) (cfg : lxp_run_config).
Context (stage_buf : Z * Z) (calls : os_calls H B W) {L : LawfulCalls calls}.
Implicit Types (s : pstate H B W).

Notation ok s := (run_inv (ps_c s)).

Lemma idle_keeps s slot : slot_in slot = true -> ok s -> ok (defer_idle s slot).
Proof. intros Hs HR. by apply run_slot. Qed.

Lemma enosys_keeps s nr r : ok s -> ok (lxp_coordinator_report_enosys calls s nr r).
Proof. intros HR. unfold lxp_coordinator_report_enosys. destruct (on_enosys calls); [|done]. by destruct (_ && _). Qed.

Lemma end_view_keeps s vid : ok s -> ok (end_view s vid).
Proof. intros HR. apply run_rt; [done|apply quiet_view_end]. Qed.

Lemma deferred_call_keeps s slot vid : slot_in slot = true -> ok s -> ok (deferred_call ops calls s slot vid).
Proof.
  intros Hs HR. unfold deferred_call. destruct (deferred_args _ _) as [nr args].
  set (s1 := set_ps_c s _). assert (H1 : ok s1) by (apply run_put; [done|done|apply intent_complete_holdings]).
  pose proof (call_keeps s1 slot nr args Hs H1) as H2. destruct (syscall calls s1 slot nr args) as [r s2]. cbn [snd] in H2.
  pose proof (idle_keeps _ slot Hs (enosys_keeps s2 nr r H2)) as H3. set (s3 := defer_idle _ slot) in *. clearbody s3.
  destruct (_ || _); [apply end_view_keeps, run_rt; [done|apply quiet_mark]|].
  pose proof (pending_take_holdings (ps_proc s3 slot)) as Hp. destruct (lxp_pending_take _) as [psig p]. cbn [snd] in Hp.
  set (s4 := set_ps_c s3 _). assert (H4 : ok s4) by (by apply run_put).
  destruct (negb _); [by apply end_view_keeps, run_deliver|]. by apply run_complete, end_view_keeps.
Qed.

Lemma execute_deferred_keeps s slot vid : slot_in slot = true -> ok s -> ok (lxp_execute_deferred ops xops calls s slot vid).
Proof.
  intros Hs HR. unfold lxp_execute_deferred. destruct (negb _); [done|].
  set (s1 := set_ps_c s _). assert (H1 : ok s1) by (by apply run_slot). clearbody s1. destruct (_ || _).
  { pose proof (idle_keeps s1 slot Hs H1) as H2. set (s2 := defer_idle s1 slot) in *. clearbody s2.
    destruct (bool_decide _); [|done]. apply run_put; [done|done|apply intent_complete_holdings]. }
  pose proof (run_park ops (ps_c s1) slot H1) as H2. destruct (lxp_coordinator_park_slot _ _ _ _) as [[rc h] R].
  set (s2 := set_ps_c s1 _). change (ok s2) in H2. clearbody s2. destruct (negb _); [by apply idle_keeps|].
  pose proof (run_view_begin (os_mem xops) (ps_c s2) slot vid H2) as H3.
  destruct (lxp_coordinator_guest_view_begin _ _ _ _) as [rc2 c]. cbn [snd] in H3. set (s3 := set_ps_c s2 c).
  change (ok s3) in H3. clearbody s3. destruct (negb _); [|by apply deferred_call_keeps]. by apply run_view_failure, idle_keeps.
Qed.

Lemma handle_exec_inv fuel c b caps st x c' b' caps' :
  run_inv c -> slot_in x = true -> p_alive (cproc c x) <> 0 ->
  lxp_handle_exec ops xops exec_capture failpoint random_fill publish_executable cfg stage_buf fuel c b caps st x = Some (c', b', caps') ->
  run_inv c'.
Proof.
  intros HR Hx Ha He. pose proof HR as (T & Wf & G).
  pose proof (handle_exec_outcome _ _ _ _ _ _ _ _ _ _ _ _ _ _ _ _ _ T Wf Hx He) as Ho. pose proof (G x Hx Ha) as Hg.
  destruct Ho as [(Hh & E & _)|[(Hh & V1 & V2 & _)|(Hh & (C1 & _ & C3 & _) & _)]].
  - change (holdings (cproc c' x) = holdings (cproc c x)) in E. apply (run_inv_slot c x); [done|done|done| |by apply (grouped_at c x)].
    change (p_alive ?q) with (holdings q).1.1.1.1.1 in *. intros Hd. by rewrite E in Hd.
  - apply (run_inv_slot c x); [done|done|by apply held_empty|intros _; by apply owns_nothing_empty|done].
  - apply (run_inv_slot c x); [done|done|done|lia|]. by rewrite C3.
Qed.

Lemma primary_keeps fuel s vid slot event r s' :
  ok s -> (event <> LXP_EV_NONE -> p_alive (ps_proc s slot) <> 0) ->
  lxp_handle_primary_event ops xops exec_capture failpoint random_fill publish_executable cfg stage_buf calls fuel s vid slot event =
    Some (r, s') -> ok s'.
Proof.
  intros HR Ha. unfold lxp_handle_primary_event. destruct (slot_in slot) eqn:Hs; cbn [negb]; [|by intros [= _ <-]].
  assert (Hpark : ok (set_ps_c s (lift (ps_c s) (lxp_coordinator_park_slot ops (c_h (ps_c s)) (c_rt (ps_c s)) slot)))) by (by apply run_park).
  destruct event; try (intros [= _ <-]; exact Hpark).
  - by intros [= _ <-].
  - destruct (lxp_handle_exit _ _ _ _ _) as [[rr c] b] eqn:E. intros [= _ <-]. eapply handle_exit_inv; [exact HR|exact Hs|exact E].
  - destruct (lxp_handle_exec _ _ _ _ _ _ _ _ _ _ _ _ _ _) as [[[c b] caps]|] eqn:E; [|done]. intros [= _ <-].
    eapply handle_exec_inv; [exact HR|exact Hs|by apply Ha|exact E].
  - destruct (lxp_handle_fork _ _ _ _ _ _ _ _) as [[c b] np] eqn:E. intros [= _ <-].
    eapply handle_fork_inv; [exact HR|exact Hs|by apply Ha|exact E].
  - intros [= _ <-]. by apply execute_deferred_keeps.
  - destruct (_ || _); [by intros [= _ <-]|]. destruct (lxp_coordinator_park_slot _ _ _ _) as [[rc h] R]. intros [= _ <-].
    destruct (rc =? LXP_OK); [by apply run_publish|exact Hpark].
Qed.

(** ** Passes *)

(** What the loop needs of the rest of the run. *)
Context (scan : pstate H B W -> Z -> lxp_blocked_scan * pstate H B W) (tick : pstate H B W -> Z -> pstate H B W).
Context (time_us : H -> Z * H) (event_wait : H -> Z -> H) (halt_requested : pstate H B W -> bool).
Context (socket_ready_events console_ready_events : bool).

Notation pass := (coordinator_pass ops xops exec_capture failpoint random_fill publish_executable cfg stage_buf calls scan tick
  time_us event_wait halt_requested socket_ready_events console_ready_events).

Lemma pass_keeps fuel s vid v k s' v' :
  (forall s now, ok s -> ok (scan s now).2) -> (forall s now, ok s -> ok (tick s now)) ->
  ok s -> pass fuel s vid v = Some (k, s', v') -> ok s'.
Proof.
  intros Hscan Htick HR. unfold coordinator_pass. destruct (halt_requested s); [by intros [= _ <- _]|].
  destruct (lxp_claimed s v) as [[[[es et] v1] bd] s1] eqn:Ec. apply claimed_facts in Ec as (H1 & Ha & _).
  specialize (H1 HR). destruct (lxp_handle_primary_event _ _ _ _ _ _ _ _ _ _ _ _ _ _) as [[r s2]|] eqn:Ee; [|done].
  apply primary_keeps in Ee; [|done|].
  2:{ intros Hn. destruct (Ha Hn) as (He & _ & Hal). destruct (Z.ltb_spec es 0); [lia|done]. }
  destruct (pr_flow r); [by intros [= _ <- _]| |by intros [= _ <- _]]. unfold scan_pass.
  destruct (time_us (c_h (ps_c s2))) as [now h]. set (s3 := set_ps_c s2 _). assert (H3 : ok s3) by exact Ee.
  pose proof (Hscan s3 now H3) as H4. destruct (scan s3 now) as [bl s4]. cbn [snd] in H4.
  destruct (negb (sc_any_alive bl)); [by intros [= _ <- _]|]. destruct (sc_progress bl); [by intros [= _ <- _]|].
  destruct (_ && _); [by intros [= _ <- _]|]. pose proof (Htick s4 now H4) as H5. destruct bd; [by intros [= _ <- _]|].
  by intros [= _ <- _].
Qed.

Notation passes := (coordinator_passes ops xops exec_capture failpoint random_fill publish_executable cfg stage_buf calls scan tick
  time_us event_wait halt_requested socket_ready_events console_ready_events).

Lemma passes_keep n fuel vid :
  (forall s now, ok s -> ok (scan s now).2) -> (forall s now, ok s -> ok (tick s now)) ->
  forall s v ks s' v', ok s -> passes n fuel s vid v = Some (ks, s', v') -> ok s'.
Proof.
  intros Hscan Htick. induction n as [|n IH]; intros s v ks s' v' HR; cbn [coordinator_passes]; [by intros [= _ <- _]|].
  destruct (pass fuel s vid v) as [[[k s1] v1]|] eqn:E; [|done]. apply pass_keeps in E; [|done|done|done].
  destruct k; [by intros [= _ <- _]|..]; destruct (passes n fuel s1 vid v1) as [[[ks1 s2] v2]|] eqn:E2; try done;
    intros [= _ <- _]; by eapply IH.
Qed.

Notation exec_on s slot := (lxp_handle_exec ops xops exec_capture failpoint random_fill publish_executable cfg stage_buf
  s (ps_c slot) (ps_b slot) (ps_caps slot) (ps_stage slot)).

(** A pass has no result only when it claimed an exec whose program does not load within the fuel. *)
Lemma pass_stuck fuel s vid v : pass fuel s vid v = None ->
  exists es v' bd s', lxp_claimed s v = (es, LXP_EV_EXEC, v', bd, s') /\ exec_on fuel s' es = None.
Proof.
  unfold coordinator_pass. destruct (halt_requested s); [done|]. destruct (lxp_claimed s v) as [[[[es et] v1] bd] s1] eqn:Ec.
  apply claimed_facts in Ec as (_ & Ha & _).
  destruct (lxp_handle_primary_event _ _ _ _ _ _ _ _ _ _ _ _ _ _) as [[r s2]|] eqn:Ee; [by destruct (pr_flow r)|]. intros _.
  unfold lxp_handle_primary_event in Ee. destruct (negb _); [done|].
  destruct et; try done; try (by repeat case_match).
  destruct (Ha ltac:(done)) as (He & _). destruct (Z.ltb_spec es 0); [lia|].
  exists es, v1, bd, s1. split; [done|]. by destruct (lxp_handle_exec _ _ _ _ _ _ _ _ _ _ _ _ _ _) as [[[c b] caps]|].
Qed.

Lemma passes_stuck fuel vid n : forall s v, passes n fuel s vid v = None ->
  exists m ks s1 v1 es v2 bd s2, (m < n)%nat /\ passes m fuel s vid v = Some (ks, s1, v1) /\
    lxp_claimed s1 v1 = (es, LXP_EV_EXEC, v2, bd, s2) /\ exec_on fuel s2 es = None.
Proof.
  induction n as [|n IH]; intros s v; cbn [coordinator_passes]; [done|].
  destruct (pass fuel s vid v) as [[[k s1] v1]|] eqn:E.
  - assert (Hk : (exists rc, k = PassBreak rc) \/ forall n, passes (S n) fuel s vid v =
      match passes n fuel s1 vid v1 with Some (ks, s, v) => Some (k :: ks, s, v) | None => None end).
    { destruct k; [left; by eexists|right..]; intros n'; cbn [coordinator_passes]; by rewrite E. }
    destruct Hk as [(rc & ->)|Hk]; [done|]. intros Hn.
    assert (E1 : passes n fuel s1 vid v1 = None)
      by (destruct k; [done|..]; by destruct (passes n fuel s1 vid v1) as [[[? ?] ?]|]).
    destruct (IH s1 v1 E1) as (m & ks & s2 & v2 & es & v3 & bd & s3 & Hm & Hp & Hc & Hx).
    exists (S m), (k :: ks), s2, v2, es, v3, bd, s3. split; [lia|]. rewrite Hk, Hp. done.
  - intros _. destruct (pass_stuck fuel s vid v E) as (es & v2 & bd & s2 & Hc & Hx).
    exists 0%nat, [], s, v, es, v2, bd, s2. split; [lia|done].
Qed.

End Events.

(** ** The run *)

(** C1: the coordinator keeps the accounts of the whole run.  From a sound task table, any
    number of passes of the run loop - events of every class, from exit, fork and exec to
    deferred system calls, and scans of the blocked tasks, in whatever order the guests
    publish them - leaves a sound one: the reference counts of descriptors and of the five
    process pools equal the references the tasks hold, a slot without a living task owns
    nothing, every living task has a thread group, the signal frame stacks are in bounds, and
    each region record is well formed (its count within the number of slots, one under a
    lease; that the count equals the holders is not claimed).  The passes end unless one of
    them, from a state so reached, claims an exec whose program does not load within the
    loader's fuel.  The system-call table, the providers' retries and their periodic work are
    assumed to keep the accounts themselves; the port's callbacks are arbitrary. *)
Theorem run_keeps_accounts {H B X} `{FileOps B} (ops : os_task H) (xops : os_exit H) exec_capture failpoint rfill publish_executable cfg
    stage_buf (calls : os_calls H B (run_world X)) (core : os_core H) (cons : os_console H) (bops : blocked_ops H X)
    pipes_of put_pipes tick time_us event_wait halt_requested sre cre vid n fuel s v :
  LawfulCalls calls -> KeepsRun bops -> (forall s now, run_inv (ps_c s) -> run_inv (ps_c (tick s now))) ->
  run_inv (ps_c s) ->
  let passes m := coordinator_passes ops xops exec_capture failpoint rfill publish_executable cfg stage_buf calls
    (run_scan ops core cons (os_mem xops) bops pipes_of put_pipes vid) tick time_us event_wait halt_requested sre cre
    m fuel s vid v in
  match passes n with
  | Some (_, s', _) => run_inv (ps_c s')
  | None => exists m ks s1 v1 es v2 bd s2, (m < n)%nat /\ passes m = Some (ks, s1, v1) /\ run_inv (ps_c s1) /\
      lxp_claimed s1 v1 = (es, LXP_EV_EXEC, v2, bd, s2) /\
      lxp_handle_exec ops xops exec_capture failpoint rfill publish_executable cfg stage_buf fuel
        (ps_c s2) (ps_b s2) (ps_caps s2) (ps_stage s2) es = None
  end.
Proof.
  intros L K Ht HR passes. assert (Hkeep : forall m ks s' v', passes m = Some (ks, s', v') -> run_inv (ps_c s')).
  { intros m ks s' v'. apply passes_keep; [done| |done|done]. clear s HR passes. intros s now HR. unfold run_scan.
    pose proof (scan_keeps ops core cons (os_mem xops) bops now vid
      (mk_bstate (ps_c s) (pipes_of (ps_b s)) (rw_con (ps_w s)) (rw_fair (ps_w s)) (rw_fs_ready (ps_w s)) (rw_x (ps_w s))) HR) as Hk.
    by destruct (lxp_scan_blocked _ _ _ _ _ _ _ _) as [r b]. }
  destruct (passes n) as [[[ks s'] v']|] eqn:E; [by eapply Hkeep|].
  destruct (passes_stuck _ _ _ _ _ _ _ _ _ _ _ _ _ _ _ _ _ _ _ _ _ E) as (m & ks & s1 & v1 & es & v2 & bd & s2 & Hm & Hp & Hc & Hx).
  exists m, ks, s1, v1, es, v2, bd, s2. split; [done|]. split; [done|]. split; [by eapply Hkeep|done].
Qed.

(** C23: guests cannot keep the coordinator from its scan.  Whatever events the guests publish,
    of any five consecutive passes that stay in the loop one scans the blocked tasks or
    handles a lifecycle event; and an ordinary event that is put off for the scan is still
    published and still claimable. *)
Theorem scan_not_starved {H B W} `{FileOps B} (ops : os_task H) (xops : os_exit H) exec_capture failpoint rfill publish_executable cfg
    stage_buf (calls : os_calls H B W) scan tick time_us event_wait halt_requested sre cre vid fuel s v :
  0 <= lv_burst v -> hints_wf (c_rt (ps_c s)) ->
  (forall ks s' v', coordinator_passes ops xops exec_capture failpoint rfill publish_executable cfg stage_buf calls scan tick time_us
       event_wait halt_requested sre cre 5 fuel s vid v = Some (ks, s', v') -> length ks = 5%nat -> exists k, k ∈ ks /\ relief k) /\
  (forall es et v' s', lxp_claimed s v = (es, et, v', true, s') ->
     exists t, slot_in t = true /\ lxp_primary_slot_pending (c_rt (ps_c s')) t = true /\ lxp_claim_slot_event (c_rt (ps_c s')) t <> LXP_EV_NONE).
Proof.
  intros Hb Hw. split; [|intros es et v' s' E; destruct (claimed_facts _ _ _ _ _ _ _ E) as (_ & _ & _ & Ht); by apply Ht].
  intros ks s' v' E Hl. destruct (decide (Exists relief ks)) as [Hex|Hn%not_Exists_Forall]; [by apply Exists_exists| |apply _].
  eapply passes_burst in E; [|exact Hn]. destruct E as [->|Hc]; [done|].
  unfold alen, LXP_COORDINATOR_EVENT_BURST in Hc. lia.
Qed.

(** ** Teardown *)

(** What the teardown needs of the 9P client's cancellation: it releases a request, and no
    task's resources change hands. *)
Class LawfulCancel {H B W} (netfs_cancel : pstate H B W -> Z -> pstate H B W) :=
  cancel_keeps s slot : slot_in slot = true -> run_inv (ps_c s) ->
    run_inv (ps_c (netfs_cancel s slot)) /\ steady (c_rt (ps_c s)) (c_rt (ps_c (netfs_cancel s slot))).

(** No task, and nothing held. *)
Definition bare (p : lxp_proc) : Prop := holdings p = (0, None, None, None, None, None).

Section TeardownKeeps.
Context {H B W : Type} `{FileOps B} (xops : os_exit H).
Context (netfs_cancel : pstate H B W -> Z -> pstate H B W) {LC : LawfulCancel netfs_cancel}.
Implicit Types (s : pstate H B W) (c : coord H).

Lemma resources_accounted c0 x c b :
  slot_in x = true -> accounted c0 x c -> let c' := (teardown_resources xops c b x).1 in
  accounted c0 x c' /\ cproc c' x = set_p_sighand (set_p_fs_context (set_p_files (cproc c x) None) None) None.
Proof.
  intros Hx Hh. unfold teardown_resources. pose proof (held_resources_put c0 x _ [] c b Hh) as HR.
  destruct (lxp_proc_resources_put _ b _) as [[k b'] p]. destruct HR as (-> & HR). set (p := set_p_sighand _ None).
  pose proof (accounted_put c0 x p _ Hx HR) as H1. set (c1 := put_cproc _ x p) in *. cbn [fst].
  assert (E1 : cproc c1 x = p) by (apply cproc_put; [apply HR|done]).
  split; [|by destruct (map_device _)]. apply (accounted_calm c0 x c1); [done|done|..]; by destruct (map_device _).
Qed.

Lemma windows_accounted c0 x c : slot_in x = true -> accounted c0 x c ->
  accounted c0 x (teardown_windows c x) /\ cproc (teardown_windows c x) x = cproc c x.
Proof.
  intros Hx Hh. unfold teardown_windows. destruct (p_mm (cproc c x)) as [mi|] eqn:Em; [|done]. split; [|done].
  apply (held_k c0 x [cproc c x]); [done|]. apply kinv_mm_update; [|done|apply Hh].
  change (Some mi ∈ p_mm (cproc c x) :: map p_mm (others c0 x)). rewrite Em. apply list_elem_of_here.
Qed.

Lemma regions_accounted c0 x c : slot_in x = true -> accounted c0 x c ->
  accounted c0 x (teardown_regions c x) /\ cproc (teardown_regions c x) x = set_p_mm (cproc c x) None.
Proof.
  intros Hx Hh. unfold teardown_regions. set (c1 := if _ >=? 0 then _ else c).
  assert (Hc : calm (c_rt c) (c_rt c1) /\ cproc c1 x = cproc c x /\ c_save c1 = c_save c).
  { unfold c1. destruct (_ >=? 0); [|done]. split; [apply calm_release|]. split; [|done].
    unfold cproc, sproc, slot_at. cbn [c_rt set_c_rt]. by rewrite release_if_owned_slots. }
  destruct Hc as (Hc & E1 & V1). pose proof (accounted_calm c0 x c c1 Hx Hh Hc V1) as H1.
  pose proof (held_mm_put c0 x _ [] c1 H1) as HM. destruct (lxp_region_mm_put _ _) as [R p].
  destruct HM as (-> & _ & HM). split; [by apply accounted_put|]. rewrite cproc_put by (done || apply HM). by rewrite E1.
Qed.

Lemma group_accounted c0 x c : slot_in x = true -> accounted c0 x c ->
  accounted c0 x (exit_group_put c x) /\ cproc (exit_group_put c x) x = set_p_group (cproc c x) None.
Proof.
  intros Hx Hh. split; [by apply group_put_accounted|]. unfold exit_group_put. pose proof (held_group_put c0 x _ [] c Hh) as HG.
  destruct (lxp_proc_group_put _ _) as [k p]. destruct HG as (-> & HG). by apply cproc_put; [apply HG|].
Qed.

Lemma reassign_run c x : slot_in x = true -> run_inv c ->
  let c' := set_c_rt c (lxp_primary_slot_clear (lxp_deferred_slot_reassign (c_rt c) x) x) in
  run_inv c' /\ cproc c' x = cproc c x.
Proof.
  intros Hx HR c'. pose proof HR as ((L & _ & _ & T4) & _ & G). pose proof (proj1 (slot_in_range x) Hx) as Hr.
  assert (E : cproc c' x = cproc c x) by (change (sproc (lxp_deferred_slot_reassign (c_rt c) x) x = sproc (c_rt c) x); apply (reassign_proc (fun _ => None)); lia). split; [|done].
  apply (run_inv_slot c x); [done|done| |rewrite E; by apply T4|rewrite E; by apply G].
  unfold accounted. rewrite E. set (c1 := set_c_rt c (lxp_deferred_slot_reassign (c_rt c) x)).
  apply (held_calm c x _ c1); [|by apply calm_slots|done].
  apply (held_step c x _ c); [by apply accounted_start|apply reassign_steady_but; lia|done|done|done].
Qed.

Lemma teardown_slot_keeps s x : slot_in x = true -> run_inv (ps_c s) ->
  run_inv (ps_c (teardown_slot xops netfs_cancel s x)) /\ bare (ps_proc (teardown_slot xops netfs_cancel s x) x) /\
  steady_but x (c_rt (ps_c s)) (c_rt (ps_c (teardown_slot xops netfs_cancel s x))).
Proof.
  intros Hx HR. unfold teardown_slot. destruct (reassign_run (ps_c s) x Hx HR) as (R1 & _).
  pose proof (proj1 (slot_in_range x) Hx) as Hr.
  set (s1 := set_ps_c s _). change (run_inv (ps_c s1)) in R1.
  assert (S1 : steady_but x (c_rt (ps_c s)) (c_rt (ps_c s1))).
  { transitivity (lxp_deferred_slot_reassign (c_rt (ps_c s)) x); [apply reassign_steady_but; lia|by apply steady_but_of, steady_slots]. }
  set (s2 := if bool_decide _ then _ else s1).
  assert (H2 : run_inv (ps_c s2) /\ steady_but x (c_rt (ps_c s)) (c_rt (ps_c s2))).
  { unfold s2. destruct (bool_decide _); [|done]. destruct (cancel_keeps s1 x Hx R1) as (R2 & S2).
    split; [done|]. transitivity (c_rt (ps_c s1)); [done|by apply steady_but_of]. }
  clearbody s2. destruct H2 as (R2 & S2). pose proof (accounted_start (ps_c s2) x R2 Hx) as A2.
  destruct (resources_accounted (ps_c s2) x (ps_c s2) (ps_b s2) Hx A2) as (A3 & E3).
  destruct (teardown_resources xops _ _ x) as [c3 b3]. cbn [fst] in A3, E3.
  destruct (windows_accounted _ x c3 Hx A3) as (A4 & E4). destruct (regions_accounted _ x _ Hx A4) as (A5 & E5).
  destruct (group_accounted _ x _ Hx A5) as (A6 & E6). set (c6 := exit_group_put _ x) in *.
  set (c7 := put_stack c6 x _). set (c8 := set_c_rt c7 _).
  assert (A8 : held (ps_c s2) x [cproc c6 x] c8).
  { apply (held_calm _ x _ c7); [|apply calm_quiet, quiet_runnable|done]. apply held_save; [exact A6|].
    destruct (stack_at_wf c6 x (proj1 A6) Hx) as (L & D). split; [done|]. cbn. lia. }
  assert (A9 : held (ps_c s2) x [proc_blank] c8).
  { apply held_empty; [done|]. apply (held_empty _ x (cproc c6 x)); [|exact A8]. rewrite E6, E5, E4, E3. done. }
  pose proof (accounted_put (ps_c s2) x proc_blank c8 Hx A9) as A10. cbn [ps_c set_ps_cb]. set (c9 := put_cproc c8 x proc_blank) in *.
  assert (E9 : cproc c9 x = proc_blank) by (apply cproc_put; [apply A8|done]).
  split; [|split; [by unfold bare, ps_proc; cbn [ps_c set_ps_cb]; rewrite E9|]].
  - apply (run_inv_slot (ps_c s2) x); [done|done|done|..]; rewrite E9; [by exists 0|done].
  - transitivity (c_rt (ps_c s2)); [done|]. apply A10.
Qed.

Lemma teardown_fold_keeps l : forall s, NoDup l -> Forall (fun x => slot_in x = true) l -> run_inv (ps_c s) ->
  let s' := fold_left (teardown_slot xops netfs_cancel) l s in
  run_inv (ps_c s') /\ (forall x, x ∈ l -> bare (ps_proc s' x)) /\
  (forall y, slot_in y = true -> y ∉ l -> holdings (ps_proc s' y) = holdings (ps_proc s y)).
Proof.
  induction l as [|x l IH]; intros s Hn Hf HR; [split; [done|]; split; [by intros x ?%not_elem_of_nil|done]|].
  apply NoDup_cons in Hn as (Hx & Hn). apply Forall_cons in Hf as (Hs & Hf). cbn [fold_left].
  destruct (teardown_slot_keeps s x Hs HR) as (R1 & B1 & _ & S1). set (s1 := teardown_slot _ _ s x) in *.
  destruct (IH s1 Hn Hf R1) as (R2 & B2 & S2). split; [done|]. split.
  - intros y [->|Hy]%elem_of_cons; [|by apply B2]. unfold bare. by rewrite S2.
  - intros y Hy [Hne Hl]%not_elem_of_cons. rewrite S2 by done. apply slot_in_range in Hy. apply S1; [lia|done].
Qed.

End TeardownKeeps.

(** A pool without owners is free. *)
Lemma pool_unowned {T} `{RefCounted T} (l : list T) ow :
  pool_inv l ow -> Forall (fun o => o = None) ow -> Forall (fun x => x = zero_of) l.
Proof.
  intros (Hi & _) Hn. assert (E : forall i, owned ow i = 0) by (intros i; clear Hi; induction Hn as [|o t ->]; done).
  apply Forall_lookup. intros n x Hx. pose proof (lookup_lt_Some _ _ _ Hx). destruct (Hi (Z.of_nat n)) as (Hr & Hz); [unfold alen; lia|].
  rewrite E in Hr. specialize (Hz Hr). rewrite <- Hz. unfold item, aget. by rewrite Nat2Z.id, nth_lookup, Hx.
Qed.

(** The five pools and the open-file descriptions of a table without tasks are free. *)
Definition pools_free (k : kst) : Prop :=
  Forall (fun o => o = ofd_zero) (k_ofd k) /\ Forall (fun f => f = files_zero) (k_files k) /\
  Forall (fun x => x = fs_context_zero) (k_fs_context k) /\ Forall (fun x => x = sighand_zero) (k_sighand k) /\
  Forall (fun x => x = mm_zero) (k_mm k) /\ Forall (fun g => g = group_zero) (k_groups k).

Lemma bare_pools_free {H} (c : coord H) :
  run_inv c -> (forall x, slot_in x = true -> bare (cproc c x)) -> pools_free (rt_k (c_rt c)).
Proof.
  intros ((_ & _ & (F & P1 & P2 & P3 & P4 & P5) & _) & _) Hb.
  assert (Hn : forall {T} (f : lxp_proc -> option T), (forall p, bare p -> f p = None) -> Forall (fun o => o = None) (map f (tasks c))).
  { intros T f Hf. unfold tasks. rewrite map_map. apply Forall_map, Forall_forall. intros x Hx%elem_of_seqZ.
    apply Hf, Hb, slot_in_range. lia. }
  assert (Z1 : Forall (fun f => f = files_zero) (k_files (rt_k (c_rt c))))
    by (apply (pool_unowned _ _ P1), Hn; intros p E; by injection E).
  split; [|split; [done|]].
  - destruct F as (L & _ & _ & Hr). apply Forall_lookup. intros n o Ho. pose proof (lookup_lt_Some _ _ _ Ho).
    destruct (Hr (Z.of_nat n)) as (E & Hz); [unfold alen in L; lia|].
    assert (E0 : total_refs (k_files (rt_k (c_rt c))) (Z.of_nat n + 1) = 0).
    { clear -Z1. induction Z1 as [|f t -> _ IH]; [done|]. cbn [total_refs]. rewrite IH. change (files_fd files_zero) with (replicate (Z.to_nat LXP_MAX_FDS) fd_zero).
      induction (Z.to_nat LXP_MAX_FDS) as [|m IHm]; [done|]. cbn [replicate cnt]. rewrite Z.add_0_r in *. rewrite IHm.
      unfold ind. destruct (Z.eqb_spec (fd_ofd fd_zero) (Z.of_nat n + 1)) as [Ez|]; [|done]. cbn in Ez. lia. }
    rewrite E0 in E. rewrite <- Hz by done. unfold ofd_at, aget. by rewrite Nat2Z.id, nth_lookup, Ho.
  - split; [apply (pool_unowned _ _ P2)|split; [apply (pool_unowned _ _ P3)|split; [apply (pool_unowned _ _ P4)|apply (pool_unowned _ _ P5)]]];
      apply Hn; intros p E; by injection E.
Qed.

Lemma slots_in x : slot_in x = true <-> x ∈ seqZ 0 LXP_NSLOT.
Proof. rewrite slot_in_range, elem_of_seqZ. lia. Qed.

Lemma slots_all : Forall (fun x => slot_in x = true) (seqZ 0 LXP_NSLOT).
Proof. apply Forall_forall. apply slots_in. Qed.

Lemma teardown_slots_keep {H B W} `{FileOps B} (xops : os_exit H) netfs_cancel `{!LawfulCancel netfs_cancel} (s : pstate H B W) :
  run_inv (ps_c s) -> run_inv (ps_c (teardown_slots xops netfs_cancel s)) /\
  (forall x, slot_in x = true -> bare (ps_proc (teardown_slots xops netfs_cancel s) x)) /\
  pools_free (rt_k (c_rt (ps_c (teardown_slots xops netfs_cancel s)))).
Proof.
  intros HR. unfold teardown_slots. generalize (NoDup_seqZ 0 LXP_NSLOT) slots_all slots_in.
  generalize (seqZ 0 LXP_NSLOT). intros l Hn Hl Hin. pose proof (teardown_fold_keeps xops netfs_cancel l s Hn Hl HR) as HT.
  cbv zeta in HT. revert HT. generalize (fold_left (teardown_slot xops netfs_cancel) l s). intros t (R2 & B2 & _).
  assert (Hb : forall x, slot_in x = true -> bare (ps_proc t x)) by (intros x Hx; by apply B2, Hin).
  split; [exact R2|]. split; [exact Hb|]. exact (bare_pools_free _ R2 Hb).
Qed.

Section Quiesce.
Context {H : Type} (ops : os_task H) (event_wait : H -> Z -> H).
Implicit Types (c : coord H).

(** A port that accepts after a bounded number of refusals. *)
Definition patient (patience : H -> nat) : Prop :=
  forall h R x, slot_in x = true -> let '(rc, h', _) := lxp_coordinator_abort_slot ops h R x in
    (patience h' <= patience h)%nat /\ (rc <> LXP_OK -> (patience (event_wait h' 1) < patience h)%nat).

Lemma quiesce_slot_ends patience x : patient patience -> slot_in x = true -> forall tries c, (patience (c_h c) <= tries)%nat ->
  exists n c', quiesce_slot ops event_wait tries c x = Some (n, c') /\ (patience (c_h c') <= n)%nat.
Proof.
  intros HP Hx. induction tries as [|n IH]; intros c Hp; cbn [quiesce_slot]; specialize (HP (c_h c) (c_rt c) x Hx);
    destruct (lxp_coordinator_abort_slot ops (c_h c) (c_rt c) x) as [[rc h] R]; destruct HP as (Hle & Hlt);
    destruct (Z.eqb_spec rc LXP_OK) as [_|Hn]; try (eexists _, _; split; [done|]; cbn; lia); specialize (Hlt Hn); [lia|].
  apply IH. cbn. lia.
Qed.

Lemma quiesce_ends patience tries c : patient patience -> (patience (c_h c) <= tries)%nat ->
  coordinator_quiesce_all ops event_wait tries c <> None.
Proof.
  intros HP. unfold coordinator_quiesce_all. revert tries c. induction slots_all as [|x l Hx _ IH]; intros tries c Hp; [done|]. cbn [quiesce_slots].
  destruct (quiesce_slot_ends patience x HP Hx tries c Hp) as (n & c' & -> & Hp'). by apply IH.
Qed.

Definition gone c (x : Z) : Prop := hs (c_rt c) x = (SLOT_DEAD, false).

(** One attempt. *)
Lemma abort_attempt c x : slot_in x = true -> run_inv c -> lifecycle_inv (c_rt c) ->
  let '(rc, h, R) := lxp_coordinator_abort_slot ops (c_h c) (c_rt c) x in
  let c' := set_c_rt (set_c_h c h) R in
  run_inv c' /\ lifecycle_inv R /\ (rc = LXP_OK -> gone c' x) /\ (forall y, 0 <= y -> y <> x -> gone c y -> gone c' y).
Proof.
  intros Hx HR HL. pose proof (abort_calm ops c x) as Hc. pose proof (lifecycle_apply_spec ops (c_h c) (c_rt c) (LXP_OUTCOME_EXIT x) HL) as HA.
  unfold lxp_coordinator_abort_slot in *. destruct (lxp_lifecycle_apply ops _ _ _) as [[rc h] R].
  split; [by apply (run_inv_saved c)|]. destruct HA as [(Hne & ->)|(v & (Hw & Hv & Ho) & Hs & Hor)]; [done|]. cbn [request_slot] in *.
  assert (Hoth : forall y, 0 <= y -> y <> x -> hs R y = hs (c_rt c) y) by (intros y Hy Hd; unfold hs; by rewrite Ho).
  split; [|split].
  - split; [done|]. intros y Hy. destruct (decide (y = x)) as [->|Hd]; [by rewrite Hv|]. rewrite Hoth by lia. by apply HL.
  - intros ->. destruct Hor as [(_ & ->)|(Hf & _)]; [done|]. by destruct Hf.
  - intros y Hy Hd Hg. unfold gone. cbn [c_rt set_c_rt]. by rewrite Hoth.
Qed.

Lemma quiesce_slot_stops x : slot_in x = true -> forall tries c n c',
  run_inv c -> lifecycle_inv (c_rt c) -> quiesce_slot ops event_wait tries c x = Some (n, c') ->
  run_inv c' /\ lifecycle_inv (c_rt c') /\ gone c' x /\ (forall y, 0 <= y -> y <> x -> gone c y -> gone c' y).
Proof.
  intros Hx. induction tries as [|m IH]; intros c n c' HR HL; cbn [quiesce_slot]; pose proof (abort_attempt c x Hx HR HL) as HA;
    destruct (lxp_coordinator_abort_slot ops _ _ _) as [[rc h] R]; destruct HA as (R1 & L1 & G1 & O1);
    destruct (Z.eqb_spec rc LXP_OK) as [->|_]; try done; try (intros [= <- <-]; auto).
  intros E. destruct (IH _ _ _ (run_h _ _ R1) L1 E) as (R2 & L2 & G2 & O2).
  split; [done|]. split; [done|]. split; [done|]. intros y Hy Hd Hg. apply O2; [done|done|]. by apply O1.
Qed.

Lemma quiesce_stops l : Forall (fun x => slot_in x = true) l -> forall tries c c',
  run_inv c -> lifecycle_inv (c_rt c) -> quiesce_slots ops event_wait tries c l = Some c' ->
  run_inv c' /\ (forall x, x ∈ l -> gone c' x) /\ (forall y, 0 <= y -> y ∉ l -> gone c y -> gone c' y).
Proof.
  induction 1 as [|x l Hx Hl IH]; intros tries c c' HR HL; cbn [quiesce_slots].
  { intros [= <-]. split; [done|]. split; [by intros x ?%not_elem_of_nil|done]. }
  destruct (quiesce_slot _ _ _ _ _) as [[n c1]|] eqn:E1; [|done]. intros E.
  destruct (quiesce_slot_stops x Hx tries c n c1 HR HL E1) as (R1 & L1 & G1 & O1). destruct (IH n c1 c' R1 L1 E) as (R2 & G2 & O2).
  split; [done|]. split.
  - intros y Hy. destruct (decide (y ∈ l)) as [|Hn]; [by apply G2|]. apply elem_of_cons in Hy as [->|]; [|done].
    apply slot_in_range in Hx. apply O2; [lia|done|done].
  - intros y Hy [Hne Hn]%not_elem_of_cons Hg. apply O2; [done|done|]. by apply O1.
Qed.

Lemma quiesce_all_stops tries c c' :
  run_inv c -> lifecycle_inv (c_rt c) -> coordinator_quiesce_all ops event_wait tries c = Some c' ->
  run_inv c' /\ (forall x, slot_in x = true -> gone c' x).
Proof.
  intros HR HL. unfold coordinator_quiesce_all. intros E.
  destruct (quiesce_stops _ slots_all tries c c' HR HL E) as (R1 & G1 & _). split; [exact R1|]. intros x Hx. by apply G1, slots_in.
Qed.
End Quiesce.

(** a run leaves nothing behind.  A port that refuses to stop a task only a bounded number of
    times makes the teardown end.  When it ends, every native task was gone before any object
    was released; then the tasks' own references were given back one by one, so that every
    open file was closed through its kind and every pool was already empty when the final
    reset came; no slot has a living task or holds anything, and the trap route is closed. *)
Theorem teardown_leaves_nothing {H B W} `{FileOps B} (ops : os_task H) (xops : os_exit H) event_wait
    (netfs_cancel : pstate H B W -> Z -> pstate H B W) netfs_shutdown reset_objects tries s :
  LawfulCancel netfs_cancel -> run_inv (ps_c s) -> lifecycle_inv (c_rt (ps_c s)) ->
  (forall patience, patient ops event_wait patience -> (patience (c_h (ps_c s)) <= tries)%nat ->
     lxp_coordinator_teardown_all ops xops event_wait netfs_cancel netfs_shutdown reset_objects tries s <> None) /\
  (forall gate s', lxp_coordinator_teardown_all ops xops event_wait netfs_cancel netfs_shutdown reset_objects tries s = Some (gate, s') ->
     exists c, coordinator_quiesce_all ops event_wait tries (ps_c s) = Some c /\ (forall x, slot_in x = true -> gone c x) /\
       let t := teardown_slots xops netfs_cancel (set_ps_c s c) in
       run_inv (ps_c t) /\ (forall x, slot_in x = true -> bare (ps_proc t x)) /\ pools_free (rt_k (c_rt (ps_c t))) /\
       s' = netfs_shutdown (coordinator_reset_pools reset_objects t) /\ lxp_trap_active gate = false).
Proof.
  intros LC HR HL. unfold lxp_coordinator_teardown_all. split.
  { intros patience HP Hp. by destruct (coordinator_quiesce_all _ _ _ _) eqn:E; [|destruct (quiesce_ends ops event_wait patience tries (ps_c s) HP Hp)]. }
  intros gate s'. destruct (coordinator_quiesce_all _ _ _ _) as [c|] eqn:E; [|done]. intros [= <- <-]. exists c.
  destruct (quiesce_all_stops ops event_wait tries (ps_c s) c HR HL E) as (R1 & G1). split; [reflexivity|]. split; [exact G1|].
  destruct (teardown_slots_keep xops netfs_cancel (set_ps_c s c) R1) as (R2 & B2 & F2). cbv zeta.
  split; [exact R2|]. split; [exact B2|]. split; [exact F2|]. split; reflexivity.
Qed.

(** *** Witnesses: the booted process vforks, then the coordinator scans. *)

#[local] Instance run_files : FileOps unit := {|
  fops_present := fun _ => true; fops_close := fun b _ => b;
  fops_node_open := fun b _ => (0, b); fops_node_close := fun b _ => b |}.
Definition run_calls : os_calls unit unit (run_world unit) := mk_calls (fun s _ _ _ => (- LXP_ENOSYS, s)) None (fun _ => false).
#[local] Instance run_calls_lawful : LawfulCalls run_calls.
Proof. by intros s slot nr args _ HR. Qed.
Definition run_bops : blocked_ops unit unit :=
  mk_blocked_ops (fun x c _ => (- LXP_EAGAIN, x, c)) (fun x c _ => (- LXP_EAGAIN, x, c)) (fun x c _ => (- LXP_EAGAIN, x, c))
    (fun x c _ => (- LXP_EAGAIN, x, c)) (fun x c _ => (- LXP_EAGAIN, x, c)) (fun x c _ _ _ => (- LXP_EAGAIN, x, c))
    (fun x c _ => (x, c)) (fun x c _ => (x, c)) (fun x c _ => (x, c)) (fun _ _ => false).
#[local] Instance run_bops_keep : KeepsRun run_bops.
Proof. by split. Qed.
Definition run_cons : os_console unit :=
  mk_os_console (fun _ h _ => (0, h)) (fun _ h _ _ _ => (0, [], h)) (fun _ h _ _ _ => (0, h)) (fun h _ => (0, [], h)) None.

Definition run_start : pstate unit unit (run_world unit) :=
  mk_pstate (set_c_rt vfork_coord (set_rt_views (lxp_primary_slot_mark (lxp_primary_events_reset (c_rt vfork_coord)) 0) [view_zero])) tt [] lxp_exec_stage_reset 2
    (mk_world (mk_console LXP_TTY_DEFAULTS (replicate 64 0) 0 0) (mk_fair 0 [0; 0; 0; 0]) false tt).

Local Notation run_demo n :=
  (coordinator_passes obedient_host demo_xops (fun _ => None) (fun _ => false) (fun _ => None) (fun h _ _ _ => (0, h)) (exec_cfg []) (0, 0)
    run_calls (run_scan obedient_host demo_core run_cons (os_mem demo_xops) run_bops (fun _ => []) (fun b _ => b) 0) (fun s _ => s)
    (fun h => (0, h)) (fun h _ => h) (fun _ => false) false false n 0%nat run_start 0 (mk_vars 0 0 0)).

Lemma run_start_inv : run_inv (ps_c run_start).
Proof.
  assert (HV : run_inv vfork_coord).
  { split; [exact vfork_coord_inv|]. split; [by apply fresh_saves_wf|]. intros s Hs Ha Hn.
    destruct (decide (s = 0)) as [->|Hne]; [discriminate Hn|]. apply slot_in_range in Hs.
    assert (Hin : s ∈ seqZ 1 11) by (apply elem_of_seqZ; unfold LXP_NSLOT, LXP_NREG in Hs; lia).
    assert (Hd : Forall (fun s => p_alive (cproc vfork_coord s) = 0) (seqZ 1 11)) by (vm_compute; repeat constructor).
    rewrite Forall_forall in Hd. by apply Ha, Hd. }
  apply (run_inv_saved vfork_coord); [done|by apply calm_slots|done].
Qed.

(** The kinds of the passes and the living tasks after them. *)
Definition run_report (r : option (list pass_kind * pstate unit unit (run_world unit) * loop_vars)) : option (list pass_kind * list Z) :=
  match r with
  | Some (ks, s, _) => Some (ks, map (fun t => p_alive (cproc (ps_c s) t)) [0; 1; 2])
  | None => None
  end.

Lemma run_demo_report : run_report (run_demo 2%nat) = Some ([PassHandled LXP_EV_FORK; PassScan], [1; 1; 0]).
Proof. vm_compute. reflexivity. Qed.

Lemma run_keeps_accounts_witness :
  exists ks s' v', run_demo 2%nat = Some (ks, s', v') /\ ks = [PassHandled LXP_EV_FORK; PassScan] /\ run_inv (ps_c s').
Proof.
  pose proof run_demo_report as Hr.
  pose proof (run_keeps_accounts obedient_host demo_xops (fun _ => None) (fun _ => false) (fun _ => None) (fun h _ _ _ => (0, h)) (exec_cfg [])
    (0, 0) run_calls demo_core run_cons run_bops (fun _ => []) (fun b _ => b) (fun s _ => s) (fun h => (0, h)) (fun h _ => h)
    (fun _ => false) false false 0 2%nat 0%nat run_start (mk_vars 0 0 0) run_calls_lawful run_bops_keep (fun s now HR => HR) run_start_inv) as Hk.
  cbv beta zeta in Hk. destruct (run_demo 2%nat) as [[[ks s'] v']|] eqn:E; [|discriminate Hr].
  injection Hr as -> _. exists [PassHandled LXP_EV_FORK; PassScan], s', v'. split; [reflexivity|]. split; [reflexivity|exact Hk].
Defined.

Lemma scan_not_starved_witness :
  exists k, k ∈ [PassHandled LXP_EV_FORK; PassScan; PassScan; PassScan; PassScan] /\ relief k.
Proof.
  destruct (scan_not_starved obedient_host demo_xops (fun _ => None) (fun _ => false) (fun _ => None) (fun h _ _ _ => (0, h)) (exec_cfg [])
    (0, 0) run_calls (run_scan obedient_host demo_core run_cons (os_mem demo_xops) run_bops (fun _ => []) (fun b _ => b) 0) (fun s _ => s)
    (fun h => (0, h)) (fun h _ => h) (fun _ => false) false false 0 0%nat run_start (mk_vars 0 0 0)) as (Hk & _);
    [vm_compute; discriminate|vm_compute; reflexivity|].
  assert (Hr : run_report (run_demo 5%nat) = Some ([PassHandled LXP_EV_FORK; PassScan; PassScan; PassScan; PassScan], [1; 1; 0]))
    by (vm_compute; reflexivity).
  destruct (run_demo 5%nat) as [[[ks s'] v']|] eqn:E; [|discriminate Hr]. injection Hr as -> _.
  exact (Hk _ s' v' eq_refl eq_refl).
Defined.

(** A port that refuses until it has been waited for twice, and the run above on it. *)
Definition busy_host : os_task nat :=
  mk_os_task (Some (fun h _ _ => (match h with O => 0 | S _ => LXP_ERR_BUSY end, h))) None None None.
Definition busy_xops : os_exit nat := mk_os_exit (mk_os_memory None None) None (fun r => 0x20000000 + r * 0x40000) None.
Definition busy_start : pstate nat unit unit :=
  mk_pstate (mk_coord 2%nat (c_rt (ps_c run_start)) (c_save (ps_c run_start))) tt [] lxp_exec_stage_reset 2 tt.
#[local] Instance no_cancel : LawfulCancel (fun (s : pstate nat unit unit) (_ : Z) => s).
Proof. by intros s slot. Qed.

Lemma busy_patient : patient busy_host (fun h _ => Nat.pred h) (fun h => h).
Proof.
  intros h R x Hx. unfold lxp_coordinator_abort_slot, lxp_lifecycle_apply. cbn [request_slot]. rewrite Hx. cbn [negb].
  unfold lifecycle_exit. cbn [abort_slot busy_host]. destruct h as [|h]; cbn; (split; [lia|]); [by intros []|intros _; lia].
Qed.

Lemma busy_start_inv : run_inv (ps_c busy_start) /\ lifecycle_inv (c_rt (ps_c busy_start)).
Proof.
  split; [exact run_start_inv|]. split; [split; reflexivity|]. intros s Hs.
  assert (Hf : Forall (fun s => settled (hs (c_rt (ps_c busy_start)) s)) (seqZ 0 12)) by (vm_compute; repeat constructor).
  rewrite Forall_forall in Hf. apply Hf, elem_of_seqZ. unfold LXP_NSLOT, LXP_NREG in Hs. lia.
Qed.

Lemma teardown_leaves_nothing_witness :
  exists c s', lxp_coordinator_teardown_all busy_host busy_xops (fun h _ => Nat.pred h) (fun s _ => s) (fun s => s) (fun b => b) 2 busy_start
      = Some (0, s') /\ c_h c = 0%nat /\ gone c 0 /\
    p_alive (ps_proc busy_start 0) = 1 /\ bare (ps_proc (teardown_slots busy_xops (fun s _ => s) (set_ps_c busy_start c)) 0).
Proof.
  destruct (teardown_leaves_nothing busy_host busy_xops (fun h _ => Nat.pred h) (fun s _ => s) (fun s => s) (fun b => b) 2 busy_start
    no_cancel (proj1 busy_start_inv) (proj2 busy_start_inv)) as (He & Hr).
  specialize (He (fun h => h) busy_patient (le_n 2)).
  destruct (lxp_coordinator_teardown_all _ _ _ _ _ _ _ _) as [[gate s']|] eqn:E; [|by destruct He].
  destruct (Hr gate s' eq_refl) as (c & Eq & Hg & _ & Hb & _ & _ & Hgate). exists c, s'.
  assert (gate = 0) as -> by (unfold lxp_trap_active in Hgate; destruct (Z.eqb_spec gate 0); done).
  split; [done|]. split; [|split; [by apply Hg|split; [vm_compute; reflexivity|by apply Hb]]].
  assert (Eh : option_map c_h (coordinator_quiesce_all busy_host (fun h _ => Nat.pred h) 2 (ps_c busy_start)) = Some 0%nat)
    by (vm_compute; reflexivity).
  rewrite Eq in Eh. by injection Eh.
Defined.

(** The teardown moves a slot to its next generation before it gives back the slot's vfork
    snapshot, whose lease names the old one, so the release refuses: the snapshot's region
    keeps its reference through the loop over the slots, and only the final reset, meant for
    inconsistent metadata, clears it.  Released before the slot is reassigned, it is free. *)
Definition forked : option (pstate unit unit (run_world unit)) :=
  match run_demo 1%nat with Some (_, s, _) => Some s | None => None end.

Theorem teardown_skips_snapshot :
  match forked with
  | None => False
  | Some s =>
      let snapshot := p_snapshot (ps_proc s 1) in
      let t := teardown_slots demo_xops (fun s _ => s) s in
      let r := ref_index snapshot in
      0 <= r /\ rg_refs (region_at (c_rt (ps_c t)) r) = 1 /\
      rg_refs (region_at (c_rt (ps_c (coordinator_reset_pools (fun b => b) t))) r) = 0 /\
      rg_refs (region_at (lxp_region_release_if_owned (c_rt (ps_c s)) snapshot (lxp_slot_ref_at (c_rt (ps_c s)) 1)).2 r) = 0
  end.
Proof. vm_compute. split; [discriminate|]. repeat split. Qed.
