(* ===== verification/NetfsWire.v ===== *)
(** * The 9P transport (src/netfs/lxp_netfs.c, first part)

    The wire side of the remote file system: the little-endian codec over the two transport
    buffers, the messages, the path splitter, and the non-blocking flush, fill and framing.
    An access to a buffer outside its bounds has no result ([None]), and so has a loop that
    would run past its fuel; the theorems show that neither happens. *)

From S2P Require Import Prelude Config Path.
Local Open Scope Z_scope.

Definition NETFS_MSIZE : Z := 2048.
Definition NETFS_NFID : Z := 32.
Definition NETFS_NOPEN : Z := 16.
Definition NETFS_NREQ : Z := 8.
Definition NETFS_NCLUNK : Z := 24.
Definition NETFS_RECONNECT_US : Z := 2000000.
Definition NETFS_MAXWELEM : Z := 16.
Definition P9_NOTAG : Z := 0xffff.
Definition P9_NOFID : Z := 0xffffffff.
Definition P9_TAG : Z := 1.
Definition P9_ROOT_FID : Z := 0.
Definition P9_GETATTR_BASIC : Z := 0x7ff.
Definition P9_RLERROR : Z := 7.
Definition P9_TLOPEN : Z := 12.
Definition P9_RLOPEN : Z := 13.
Definition P9_TLGETATTR : Z := 24.
Definition P9_RLGETATTR : Z := 25.
Definition P9_TREADDIR : Z := 40.
Definition P9_RREADDIR : Z := 41.
Definition P9_TVERSION : Z := 100.
Definition P9_RVERSION : Z := 101.
Definition P9_TATTACH : Z := 104.
Definition P9_RATTACH : Z := 105.
Definition P9_TWALK : Z := 110.
Definition P9_RWALK : Z := 111.
Definition P9_TREAD : Z := 116.
Definition P9_RREAD : Z := 117.
Definition P9_TCLUNK : Z := 120.
Definition P9_RCLUNK : Z := 121.
Definition P9_QTDIR : Z := 0x80.

(** ** The network provider (include/lxp/lxp_net_ops.h)

    The socket operations the client calls, over a host state; a handle is an address, zero
    for NULL.  A send returns how much it accepted, a receive the bytes it stored. *)

Definition LXP_AF_INET : Z := 2.
Definition LXP_SOCK_STREAM : Z := 1.
Definition LXP_SOCK_POLLIN : Z := 0x01.
Definition LXP_SOCK_POLLOUT : Z := 0x04.
Definition LXP_SOCK_POLLERR : Z := 0x08.
Definition LXP_SOCK_POLLHUP : Z := 0x10.
Definition LXP_WAIT_FOREVER : Z := UINT64_MAX.

Record lxp_sockaddr := mk_sockaddr { sa_family : Z; sa_port : Z; sa_addr : list Z }.

Record net_ops (N : Type) := mk_net_ops {
  sock_open : N -> Z -> Z -> Z -> Z * Z * N;
  sock_close : N -> Z -> N;
  sock_connect : N -> Z -> lxp_sockaddr -> Z -> Z * N;
  sock_send : N -> Z -> list Z -> Z * Z * N;
  sock_recv : N -> Z -> Z -> Z -> Z * list Z * N;
  sock_set_nonblock : N -> Z -> Z -> Z * N;
  sock_poll : N -> Z -> Z -> Z -> Z * Z * N;
  sock_get_error : N -> Z -> Z * N;
}.
Arguments mk_net_ops {N}.
Arguments sock_open {N}.
Arguments sock_close {N}.
Arguments sock_connect {N}.
Arguments sock_send {N}.
Arguments sock_recv {N}.
Arguments sock_set_nonblock {N}.
Arguments sock_poll {N}.
Arguments sock_get_error {N}.

(** What the buffer sizes in the calls promise: no more is accepted, or stored, than was
    offered. *)
Class LawfulNet {N : Type} (net : net_ops N) : Prop := {
  send_within h sk d sent h' : sock_send net h sk d = (LXP_OK, sent, h') -> 0 <= sent <= alen d;
  recv_within h sk cap t bs h' : 0 <= cap -> sock_recv net h sk cap t = (LXP_OK, bs, h') -> alen bs <= cap;
}.

Inductive conn_state :=
  | CONN_DOWN | CONN_CONNECTING | CONN_VERSION_SEND | CONN_VERSION_RECV | CONN_ATTACH_SEND | CONN_ATTACH_RECV | CONN_UP.

#[export] Instance conn_state_eq_dec : EqDecision conn_state.
Proof. solve_decision. Defined.

(** The connection's variables and the two transport buffers. *)
Record netfs_link := mk_link {
  lk_sk : Z; lk_conn : conn_state; lk_msize : Z; lk_generation : Z; lk_reconnect_at_us : Z;
  lk_conn_deadline_us : Z; lk_tx : list Z; lk_txlen : Z; lk_txoff : Z; lk_rx : list Z; lk_rxlen : Z;
}.
Definition set_lk_sk (x : netfs_link) (v : Z) : netfs_link := mk_link v (lk_conn x) (lk_msize x) (lk_generation x)
  (lk_reconnect_at_us x) (lk_conn_deadline_us x) (lk_tx x) (lk_txlen x) (lk_txoff x) (lk_rx x) (lk_rxlen x).
Definition set_lk_conn (x : netfs_link) (v : conn_state) : netfs_link := mk_link (lk_sk x) v (lk_msize x)
  (lk_generation x) (lk_reconnect_at_us x) (lk_conn_deadline_us x) (lk_tx x) (lk_txlen x) (lk_txoff x) (lk_rx x)
  (lk_rxlen x).
Definition set_lk_msize (x : netfs_link) (v : Z) : netfs_link := mk_link (lk_sk x) (lk_conn x) v (lk_generation x)
  (lk_reconnect_at_us x) (lk_conn_deadline_us x) (lk_tx x) (lk_txlen x) (lk_txoff x) (lk_rx x) (lk_rxlen x).
Definition set_lk_generation (x : netfs_link) (v : Z) : netfs_link := mk_link (lk_sk x) (lk_conn x) (lk_msize x) v
  (lk_reconnect_at_us x) (lk_conn_deadline_us x) (lk_tx x) (lk_txlen x) (lk_txoff x) (lk_rx x) (lk_rxlen x).
Definition set_lk_reconnect_at_us (x : netfs_link) (v : Z) : netfs_link := mk_link (lk_sk x) (lk_conn x) (lk_msize
  x) (lk_generation x) v (lk_conn_deadline_us x) (lk_tx x) (lk_txlen x) (lk_txoff x) (lk_rx x) (lk_rxlen x).
Definition set_lk_conn_deadline_us (x : netfs_link) (v : Z) : netfs_link := mk_link (lk_sk x) (lk_conn x) (lk_msize
  x) (lk_generation x) (lk_reconnect_at_us x) v (lk_tx x) (lk_txlen x) (lk_txoff x) (lk_rx x) (lk_rxlen x).
Definition set_lk_tx (x : netfs_link) (v : list Z) : netfs_link := mk_link (lk_sk x) (lk_conn x) (lk_msize x)
  (lk_generation x) (lk_reconnect_at_us x) (lk_conn_deadline_us x) v (lk_txlen x) (lk_txoff x) (lk_rx x) (lk_rxlen
  x).
Definition set_lk_txlen (x : netfs_link) (v : Z) : netfs_link := mk_link (lk_sk x) (lk_conn x) (lk_msize x)
  (lk_generation x) (lk_reconnect_at_us x) (lk_conn_deadline_us x) (lk_tx x) v (lk_txoff x) (lk_rx x) (lk_rxlen x).
Definition set_lk_txoff (x : netfs_link) (v : Z) : netfs_link := mk_link (lk_sk x) (lk_conn x) (lk_msize x)
  (lk_generation x) (lk_reconnect_at_us x) (lk_conn_deadline_us x) (lk_tx x) (lk_txlen x) v (lk_rx x) (lk_rxlen x).
Definition set_lk_rx (x : netfs_link) (v : list Z) : netfs_link := mk_link (lk_sk x) (lk_conn x) (lk_msize x)
  (lk_generation x) (lk_reconnect_at_us x) (lk_conn_deadline_us x) (lk_tx x) (lk_txlen x) (lk_txoff x) v (lk_rxlen
  x).
Definition set_lk_rxlen (x : netfs_link) (v : Z) : netfs_link := mk_link (lk_sk x) (lk_conn x) (lk_msize x)
  (lk_generation x) (lk_reconnect_at_us x) (lk_conn_deadline_us x) (lk_tx x) (lk_txlen x) (lk_txoff x) (lk_rx x) v.

(** ** Codec *)

(** A message being built: the buffer and the offset of the next byte. *)
Definition put8 (c : list Z * Z) (v : Z) : option (list Z * Z) :=
  if (0 <=? c.2) && (c.2 <? alen c.1) then Some (aset c.1 c.2 (u8 v), c.2 + 1) else None.
Definition put16 c (v : Z) : option (list Z * Z) := c ← put8 c v; put8 c (Z.shiftr v 8).
Definition put32 c (v : Z) : option (list Z * Z) := c ← put16 c (u16 v); put16 c (u16 (Z.shiftr v 16)).
Definition put64 c (v : Z) : option (list Z * Z) := c ← put32 c (u32 v); put32 c (u32 (Z.shiftr v 32)).

(** [memcpy] into the buffer. *)
Fixpoint put_bytes (c : list Z * Z) (bs : list Z) : option (list Z * Z) :=
  match bs with [] => Some c | b :: t => c ← put8 c b; put_bytes c t end.

Definition putstr c (s : list Z) : option (list Z * Z) := c ← put16 c (u16 (alen s)); put_bytes c s.

(** A read returns the value and the offset behind it. *)
Definition get8 (b : list Z) (o : Z) : option (Z * Z) :=
  if (0 <=? o) && (o <? alen b) then Some (u8 (aget 0 b o), o + 1) else None.
Definition get16 (b : list Z) (o : Z) : option (Z * Z) :=
  '(lo, _) ← get8 b o; '(hi, _) ← get8 b (o + 1); Some (u16 (Z.lor lo (Z.shiftl hi 8)), o + 2).
Definition get32 (b : list Z) (o : Z) : option (Z * Z) :=
  '(lo, o) ← get16 b o; '(hi, o) ← get16 b o; Some (Z.lor lo (u32 (Z.shiftl hi 16)), o).
Definition get64 (b : list Z) (o : Z) : option (Z * Z) :=
  '(lo, o) ← get32 b o; '(hi, o) ← get32 b o; Some (Z.lor lo (u64 (Z.shiftl hi 32)), o).

Definition msg_begin (tx : list Z) (type tag : Z) : option (list Z * Z) :=
  c ← put32 (tx, 0) 0; c ← put8 c type; put16 c tag.

Definition msg_end (lk : netfs_link) (c : list Z * Z) : option netfs_link :=
  '(tx, _) ← put32 (c.1, 0) (u32 c.2); Some (set_lk_txoff (set_lk_txlen (set_lk_tx lk tx) c.2) 0).

(** ** Path splitting *)

(** The loop after the leading slashes; [None] for more than [max] components. *)
Fixpoint split_loop (fuel : nat) (s : list Z) (comps : list (list Z)) (max : Z) : option (list (list Z)) :=
  match fuel with
  | O => None
  | S fuel =>
      match s with
      | [] => Some comps
      | _ => if alen comps >=? max then None
             else let '(comp, s) := span not_slash s in
                  split_loop fuel (span is_slash s).2 (comps ++ [comp]) max
      end
  end.

Definition path_split (path : list Z) (max : Z) : option (list (list Z)) :=
  split_loop (S (length path)) (span is_slash path).2 [] max.

(** ** Messages *)

Definition msg_fid (lk : netfs_link) (type fid : Z) : option netfs_link :=
  c ← msg_begin (lk_tx lk) type P9_TAG; c ← put32 c (u32 fid); msg_end lk c.

Definition msg_io (lk : netfs_link) (type fid offset count : Z) : option netfs_link :=
  c ← msg_begin (lk_tx lk) type P9_TAG; c ← put32 c (u32 fid); c ← put64 c offset; c ← put32 c count; msg_end lk c.

(** ** Flush, fill and framing *)

Section Transport.
Context {N : Type} (net : net_ops N).
Implicit Types (lk : netfs_link) (h : N).

Fixpoint flush_loop (fuel : nat) lk h : option (Z * netfs_link * N) :=
  match fuel with
  | O => None
  | S fuel =>
      if negb (lk_txoff lk <? lk_txlen lk) then Some (1, lk, h)
      else
        let pending := take (Z.to_nat (lk_txlen lk - lk_txoff lk)) (drop (Z.to_nat (lk_txoff lk)) (lk_tx lk)) in
        let '(r, sent, h) := sock_send net h (lk_sk lk) pending in
        if r =? LXP_OK
        then let lk := set_lk_txoff lk (lk_txoff lk + sent) in
             if sent =? 0 then Some (0, lk, h) else flush_loop fuel lk h
        else Some (if r =? LXP_ERR_TIMEOUT then 0 else -1, lk, h)
  end.

(** Fuel: a round that goes on has sent at least one byte. *)
Definition tx_flush lk h : option (Z * netfs_link * N) := flush_loop (S (Z.to_nat (lk_txlen lk - lk_txoff lk))) lk h.

(** The buffer with [bs] stored at [o]. *)
Definition splice (buf : list Z) (o : Z) (bs : list Z) : option (list Z) :=
  if (0 <=? o) && (o + alen bs <=? alen buf)
  then Some (take (Z.to_nat o) buf ++ bs ++ drop (Z.to_nat (o + alen bs)) buf) else None.

Fixpoint fill_loop (fuel : nat) lk h (progress : Z) : option (Z * netfs_link * N) :=
  match fuel with
  | O => None
  | S fuel =>
      if negb (lk_rxlen lk <? NETFS_MSIZE) then Some (progress, lk, h)
      else
        let '(r, got, h) := sock_recv net h (lk_sk lk) (NETFS_MSIZE - lk_rxlen lk) LXP_WAIT_FOREVER in
        if r =? LXP_OK
        then if alen got =? 0 then Some (-1, lk, h)
             else rx ← splice (lk_rx lk) (lk_rxlen lk) got;
                  fill_loop fuel (set_lk_rxlen (set_lk_rx lk rx) (lk_rxlen lk + alen got)) h 1
        else Some (if r =? LXP_ERR_TIMEOUT then progress else -1, lk, h)
  end.

(** Fuel: a round that goes on has received at least one byte. *)
Definition rx_fill lk h : option (Z * netfs_link * N) := fill_loop (S (Z.to_nat (NETFS_MSIZE - lk_rxlen lk))) lk h 0.

(** The length of the message at the front of the buffer, zero while it is incomplete,
    [SIZE_MAX] for a bad length. *)
Definition rx_message lk : option Z :=
  if lk_rxlen lk <? 7 then Some 0
  else '(size, _) ← get32 (lk_rx lk) 0;
       Some (if (size <? 7) || (size >? NETFS_MSIZE) then SIZE_MAX else if lk_rxlen lk <? size then 0 else size).

Definition rx_consume lk (len : Z) : netfs_link :=
  if negb (len =? 0) && (len <=? lk_rxlen lk)
  then let rest := take (Z.to_nat (lk_rxlen lk - len)) (drop (Z.to_nat len) (lk_rx lk)) in
       set_lk_rxlen (set_lk_rx lk (rest ++ drop (length rest) (lk_rx lk))) (lk_rxlen lk - len)
  else lk.
End Transport.

(** * What the 9P transport writes and reads

    Every message the client builds is one frame (size, type, tag, body) at the front of the
    transmit buffer; every checked read succeeds inside its bounds; flushing and filling stay
    inside the buffers and terminate.  The walk message round-trips: a server that decodes it
    gets the path's components. *)

(** ** Writing *)

Lemma put_bytes_spec bs pre mid post :
  length mid = length bs ->
  put_bytes (pre ++ mid ++ post, alen pre) bs = Some (pre ++ map u8 bs ++ post, alen pre + alen bs).
Proof.
  revert pre mid. induction bs as [|b bs IH]; intros pre mid Hl; simpl.
  - destruct mid; [|done]. simpl. unfold alen. simpl. do 2 f_equal. lia.
  - destruct mid as [|x mid]; [done|]. simpl in Hl. unfold put8. cbn [fst snd].
    rewrite !(proj2 (Z.leb_le _ _)), (proj2 (Z.ltb_lt _ _)) by (unfold alen; rewrite ?length_app; simpl; lia). cbn [andb mbind option_bind].
    replace (aset (pre ++ (x :: mid) ++ post) (alen pre) (u8 b)) with ((pre ++ [u8 b]) ++ mid ++ post).
    2:{ unfold aset, alen. rewrite Nat2Z.id. rewrite <- (app_assoc pre [u8 b]). simpl.
        rewrite insert_app_r_alt by lia. by rewrite Nat.sub_diag. }
    replace (alen pre + 1) with (alen (pre ++ [u8 b])) by (unfold alen; rewrite length_app; simpl; lia).
    rewrite IH by lia. rewrite <- app_assoc. simpl. do 2 f_equal. unfold alen. rewrite length_app. simpl. lia.
Qed.

Lemma put_bytes_app c a b : put_bytes c (a ++ b) = c ← put_bytes c a; put_bytes c b.
Proof. revert c. induction a as [|x a IH]; intros c; simpl; [done|]. destruct (put8 c x); simpl; [apply IH|done]. Qed.

Lemma put_bytes_bind {A} c a b (k : list Z * Z -> option A) :
  (c ← put_bytes c a; c ← put_bytes c b; k c) = (c ← put_bytes c (a ++ b); k c).
Proof. rewrite put_bytes_app. by destruct (put_bytes c a). Qed.

Lemma put8_cong c v w : u8 v = u8 w -> put8 c v = put8 c w.
Proof. unfold put8. by intros ->. Qed.

Lemma put8_bytes c v : put8 c v = put_bytes c [v].
Proof. simpl. by destruct (put8 c v). Qed.

Lemma put16_bytes c v : put16 c v = put_bytes c (le_bytes 2 v).
Proof.
  unfold put16. cbn [le_bytes put_bytes]. rewrite (put8_cong c (u8 v) v) by apply u8_idemp.
  destruct (put8 c v) as [c1|]; [|done]. cbn [mbind option_bind].
  rewrite (put8_cong c1 (u8 (v / 2 ^ 8)) (Z.shiftr v 8)) by (rewrite u8_idemp, Z.shiftr_div_pow2 by lia; done).
  by destruct (put8 c1 _).
Qed.

Lemma le_bytes_cong n v w : v mod 2 ^ (8 * Z.of_nat n) = w mod 2 ^ (8 * Z.of_nat n) -> le_bytes n v = le_bytes n w.
Proof.
  revert v w. induction n as [|n IH]; intros v w Hvw; [done|]. cbn [le_bytes].
  replace (8 * Z.of_nat (S n)) with (8 + 8 * Z.of_nat n) in Hvw by lia.
  rewrite Z.pow_add_r in Hvw by lia. rewrite !Z.rem_mul_r in Hvw by lia.
  assert (v mod 2 ^ 8 = w mod 2 ^ 8 /\ (v / 2 ^ 8) mod 2 ^ (8 * Z.of_nat n) = (w / 2 ^ 8) mod 2 ^ (8 * Z.of_nat n)) as [E1 E2].
  { pose proof (Z.mod_pos_bound v (2 ^ 8)). pose proof (Z.mod_pos_bound w (2 ^ 8)). lia. }
  unfold u8. rewrite E1. f_equal. by apply IH.
Qed.

Lemma le_bytes_app n k v : le_bytes (n + k) v = le_bytes n v ++ le_bytes k (v / 2 ^ (8 * Z.of_nat n)).
Proof.
  revert v. induction n as [|n IH]; intros v; simpl; [by rewrite Z.div_1_r|]. f_equal. rewrite IH. do 2 f_equal.
  rewrite Z.div_div by lia. f_equal. change (Z.pow_pos 2 8) with (2 ^ 8). rewrite <- Z.pow_add_r by lia. f_equal. lia.
Qed.

Lemma put32_bytes c v : put32 c v = put_bytes c (le_bytes 4 v).
Proof.
  unfold put32. rewrite (le_bytes_app 2 2), put_bytes_app, put16_bytes.
  rewrite (le_bytes_cong 2 (u16 v) v) by (unfold u16; apply Z.mod_mod; lia).
  destruct (put_bytes c _) as [c1|]; [|done]. cbn [mbind option_bind]. rewrite put16_bytes. f_equal. apply le_bytes_cong.
  unfold u16. rewrite Z.shiftr_div_pow2 by lia. apply Z.mod_mod. lia.
Qed.

Lemma put64_bytes c v : put64 c v = put_bytes c (le_bytes 8 v).
Proof.
  unfold put64. rewrite (le_bytes_app 4 4), put_bytes_app, put32_bytes.
  rewrite (le_bytes_cong 4 (u32 v) v) by (unfold u32; apply Z.mod_mod; lia).
  destruct (put_bytes c _) as [c1|]; [|done]. cbn [mbind option_bind]. rewrite put32_bytes. f_equal. apply le_bytes_cong.
  unfold u32. rewrite Z.shiftr_div_pow2 by lia. apply Z.mod_mod. lia.
Qed.

(** A counted string on the wire. *)
Definition wire_str (s : list Z) : list Z := le_bytes 2 (alen s) ++ s.

Lemma putstr_bytes c s : putstr c s = put_bytes c (wire_str s).
Proof.
  unfold putstr, wire_str. rewrite put_bytes_app, put16_bytes.
  by rewrite (le_bytes_cong 2 (u16 (alen s)) (alen s)) by (unfold u16; apply Z.mod_mod; lia).
Qed.

(** A message on the wire. *)
Definition frame (type tag : Z) (body : list Z) : list Z := le_bytes 4 (7 + alen body) ++ [u8 type] ++ le_bytes 2 tag ++ map u8 body.

(** The link with a message ready to be sent. *)
Definition sends (lk : netfs_link) (type tag : Z) (body : list Z) : netfs_link :=
  set_lk_txoff (set_lk_txlen (set_lk_tx lk (frame type tag body ++ drop (7 + length body) (lk_tx lk))) (7 + alen body)) 0.

Lemma msg_begin_bytes tx type tag : msg_begin tx type tag = put_bytes (tx, 0) (le_bytes 4 0 ++ [type] ++ le_bytes 2 tag).
Proof.
  unfold msg_begin. rewrite !put_bytes_app, put32_bytes. destruct (put_bytes _ _) as [c1|]; [|done]. cbn [mbind option_bind].
  rewrite put_bytes_app, <- put8_bytes. destruct (put8 c1 type) as [c2|]; [|done]. apply put16_bytes.
Qed.

Lemma msg_built lk type tag body :
  7 + alen body <= alen (lk_tx lk) ->
  (c ← msg_begin (lk_tx lk) type tag; c ← put_bytes c body; msg_end lk c) = Some (sends lk type tag body).
Proof.
  intros Hfit. rewrite msg_begin_bytes, put_bytes_bind.
  set (bs := (le_bytes 4 0 ++ [type] ++ le_bytes 2 tag) ++ body).
  assert (Hbs : length bs = (7 + length body)%nat) by (unfold bs; rewrite !length_app, !length_le_bytes; simpl; lia).
  assert (Htx : lk_tx lk = [] ++ take (7 + length body) (lk_tx lk) ++ drop (7 + length body) (lk_tx lk)) by (simpl; by rewrite take_drop).
  rewrite Htx at 1. change 0 with (@alen Z []) at 1. rewrite put_bytes_spec by (rewrite Hbs, length_take; unfold alen in Hfit; lia).
  change (alen (@nil Z)) with 0. cbn [mbind option_bind app].
  unfold msg_end. cbn [fst snd]. rewrite put32_bytes.
  replace (0 + alen bs) with (7 + alen body) by (unfold alen; lia).
  rewrite (le_bytes_cong 4 (u32 (7 + alen body)) (7 + alen body)) by (unfold u32; apply Z.mod_mod; lia).
  unfold bs. rewrite !map_app, !map_u8_le_bytes, <- !app_assoc.
  change (le_bytes 4 0 ++ ?r) with ([] ++ le_bytes 4 0 ++ r). change 0 with (@alen Z []) at 2.
  rewrite put_bytes_spec by (rewrite !length_le_bytes; done). rewrite map_u8_le_bytes.
  cbn [mbind option_bind app]. unfold sends, frame. rewrite <- !app_assoc. done.
Qed.

(** ** Reading *)

Lemma le_val_app a b : le_val (a ++ b) = le_val a + 2 ^ (8 * alen a) * le_val b.
Proof.
  induction a as [|x a IH]; [change (alen []) with 0; simpl; lia|]. cbn [app le_val]. rewrite IH.
  replace (8 * alen (x :: a)) with (8 + 8 * alen a) by (unfold alen; simpl; lia). rewrite Z.pow_add_r by (unfold alen; lia). lia.
Qed.

(** The value of the [k] bytes at [o]. *)
Definition word_at (b : list Z) (o : Z) (k : nat) : Z := le_val (take k (drop (Z.to_nat o) b)).

Lemma word_at_range b o k : 0 <= word_at b o k < 2 ^ (8 * Z.of_nat k).
Proof.
  unfold word_at. pose proof (le_val_range (take k (drop (Z.to_nat o) b))) as [H1 H2]. split; [done|].
  eapply Z.lt_le_trans; [exact H2|]. apply Z.pow_le_mono_r; [lia|]. unfold alen. rewrite length_take. lia.
Qed.

Lemma word_at_app b o j k :
  0 <= o -> o + Z.of_nat j <= alen b -> word_at b o (j + k) = word_at b o j + 2 ^ (8 * Z.of_nat j) * word_at b (o + Z.of_nat j) k.
Proof.
  intros Ho Hj. unfold word_at. rewrite <- (take_take_drop (drop (Z.to_nat o) b) j k), le_val_app, drop_drop.
  replace (alen (take j (drop (Z.to_nat o) b))) with (Z.of_nat j) by (unfold alen in *; rewrite length_take, length_drop; lia).
  by replace (Z.to_nat (o + Z.of_nat j)) with (Z.to_nat o + j)%nat by lia.
Qed.

Lemma get8_word b o : 0 <= o -> o + 1 <= alen b -> get8 b o = Some (word_at b o 1, o + 1).
Proof.
  intros Ho Hb. unfold get8. destruct (Z.leb_spec 0 o); [|lia]. destruct (Z.ltb_spec o (alen b)); [|lia]. cbn [andb]. do 2 f_equal.
  unfold word_at. rewrite (drop_S _ (aget 0 b o)) by (apply lookup_aget; lia). rewrite firstn_cons, take_0. cbn [le_val]. lia.
Qed.

Lemma get16_word b o : 0 <= o -> o + 2 <= alen b -> get16 b o = Some (word_at b o 2, o + 2).
Proof.
  intros Ho Hb. unfold get16. rewrite !get8_word by lia. cbn [mbind option_bind]. do 2 f_equal.
  change 2%nat with (1 + 1)%nat. rewrite (word_at_app b o 1 1) by lia. change (Z.of_nat 1) with 1.
  pose proof (word_at_range b o 1). pose proof (word_at_range b (o + 1) 1).
  rewrite lor_shift_add by lia. rewrite u16_small by lia. lia.
Qed.

Lemma get32_word b o : 0 <= o -> o + 4 <= alen b -> get32 b o = Some (word_at b o 4, o + 4).
Proof.
  intros Ho Hb. unfold get32. rewrite get16_word by lia. cbn [mbind option_bind]. rewrite get16_word by lia. cbn [mbind option_bind].
  pose proof (word_at_range b o 2). pose proof (word_at_range b (o + 2) 2).
  change 4%nat with (2 + 2)%nat. rewrite (word_at_app b o 2 2) by lia. change (Z.of_nat 2) with 2.
  rewrite u32_small by (rewrite Z.shiftl_mul_pow2; lia). rewrite lor_shift_add by lia. do 2 f_equal; lia.
Qed.

Lemma get64_word b o : 0 <= o -> o + 8 <= alen b -> get64 b o = Some (word_at b o 8, o + 8).
Proof.
  intros Ho Hb. unfold get64. rewrite get32_word by lia. cbn [mbind option_bind]. rewrite get32_word by lia. cbn [mbind option_bind].
  pose proof (word_at_range b o 4). pose proof (word_at_range b (o + 4) 4).
  change 8%nat with (4 + 4)%nat. rewrite (word_at_app b o 4 4) by lia. change (Z.of_nat 4) with 4.
  rewrite u64_small by (rewrite Z.shiftl_mul_pow2; lia). rewrite lor_shift_add by lia. do 2 f_equal; lia.
Qed.

(** ** Messages *)

Lemma msg_fid_sends lk type fid :
  11 <= alen (lk_tx lk) -> msg_fid lk type fid = Some (sends lk type P9_TAG (le_bytes 4 (u32 fid))).
Proof.
  intros Hl. unfold msg_fid. rewrite <- msg_built by (unfold alen in *; rewrite length_le_bytes; lia).
  destruct (msg_begin _ _ _) as [c1|]; [|done]. cbn [mbind option_bind]. by rewrite put32_bytes.
Qed.

Lemma msg_io_sends lk type fid off count :
  23 <= alen (lk_tx lk) ->
  msg_io lk type fid off count = Some (sends lk type P9_TAG (le_bytes 4 (u32 fid) ++ le_bytes 8 off ++ le_bytes 4 count)).
Proof.
  intros Hl. unfold msg_io. rewrite <- msg_built by (unfold alen in *; rewrite !length_app, !length_le_bytes; lia).
  destruct (msg_begin _ _ _) as [c1|]; [|done]. cbn [mbind option_bind]. rewrite !put_bytes_app, put32_bytes.
  destruct (put_bytes c1 _) as [c2|]; [|done]. cbn [mbind option_bind]. rewrite put_bytes_app, put64_bytes.
  destruct (put_bytes c2 _) as [c3|]; [|done]. cbn [mbind option_bind]. by rewrite put32_bytes.
Qed.

(** ** Path splitting *)

Lemma split_loop_spec fuel s comps max :
  (length s < fuel)%nat -> match s with [] => True | ch :: _ => is_slash ch = false end -> alen comps <= max ->
  split_loop fuel s comps max = if alen comps + alen (components s) <=? max then Some (comps ++ components s) else None.
Proof.
  revert s comps. induction fuel as [|fuel IH]; intros s comps Hf Hs Hc; [lia|]. destruct s as [|ch t].
  { cbn [split_loop]. change (components []) with (@nil (list Z)). rewrite app_nil_r, (proj2 (Z.leb_le _ _)); [done|]. change (alen []) with 0. lia. }
  cbn [split_loop]. destruct (span_spec not_slash (ch :: t)) as (Ec & Hn & Hr).
  destruct (span not_slash (ch :: t)) as [comp rest]. cbn [fst snd] in *.
  destruct comp as [|x comp].
  { destruct rest as [|y rest]; [done|]. cbn [app] in Ec. injection Ec as -> ->. unfold not_slash, is_slash in *. by rewrite Hs in Hr. }
  assert (E : components (ch :: t) = (x :: comp) :: components (span is_slash rest).2).
  { rewrite Ec. unfold components at 1. rewrite comp_acc_app.
    2:{ eapply Forall_impl; [exact Hn|]. intros a. unfold not_slash. destruct (Z.eqb_spec a SLASH); done. }
    rewrite comp_acc_boundary; [by rewrite components_skip|].
    destruct rest as [|y rest]; [done|]. unfold not_slash in Hr. by destruct (Z.eqb_spec y SLASH). }
  rewrite E. replace (alen ((x :: comp) :: components (span is_slash rest).2)) with (1 + alen (components (span is_slash rest).2))
    by (unfold alen; simpl; lia).
  rewrite Z.geb_leb. destruct (Z.leb_spec max (alen comps)).
  { rewrite (proj2 (Z.leb_gt _ _)); [done|]. unfold alen in *; lia. }
  destruct (span_spec is_slash rest) as (Er & _ & Hr'). rewrite IH; [|..].
  - replace (alen (comps ++ [x :: comp])) with (alen comps + 1) by (unfold alen; rewrite length_app; simpl; lia).
    rewrite <- app_assoc. simpl. by rewrite Z.add_assoc.
  - apply (f_equal length) in Ec, Er. rewrite length_app in Ec, Er. simpl in Ec, Hf. lia.
  - done.
  - unfold alen in *. rewrite length_app. simpl. lia.
Qed.

(** The splitter returns the path's components, or refuses more than [max]. *)
Lemma path_split_components path max :
  0 <= max -> path_split path max = if alen (components path) <=? max then Some (components path) else None.
Proof.
  intros Hm. unfold path_split. destruct (span_spec is_slash path) as (Ep & _ & Hr).
  rewrite split_loop_spec; [|apply (f_equal length) in Ep; rewrite length_app in Ep; lia|done|done].
  rewrite <- components_skip. change (alen []) with 0. by rewrite Z.add_0_l.
Qed.

(** The names of a path and their count prefixes take at most twice its length and two
    more bytes. *)
Lemma components_bytes path : alen (concat (map wire_str (components path))) <= 2 * alen path + 2.
Proof.
  enough (forall s seg, alen (concat (map wire_str (comp_acc seg s))) <= 2 * alen s + alen seg + 2) as Hall.
  { specialize (Hall path []). change (alen []) with 0 in Hall. unfold components. lia. }
  assert (Hw : forall s : list Z, alen (wire_str s) = 2 + alen s) by (intros; unfold wire_str, alen; rewrite length_app, length_le_bytes; lia).
  assert (Hf : forall seg : list Z, alen (concat (map wire_str (flush seg))) <= alen seg + 2).
  { intros [|x seg]; [change (alen (@nil Z)) with 0; simpl; unfold alen; simpl; lia|]. cbn [flush map concat]. rewrite app_nil_r, Hw. lia. }
  induction s as [|ch t IH]; intros seg; cbn [comp_acc].
  - specialize (Hf seg). change (alen (@nil Z)) with 0. lia.
  - destruct (is_slash ch).
    + rewrite map_app, concat_app. unfold alen at 1. rewrite length_app, Nat2Z.inj_add. fold (alen (concat (map wire_str (flush seg)))).
      fold (alen (concat (map wire_str (comp_acc [] t)))). specialize (IH []). change (alen (@nil Z)) with 0 in IH.
      destruct seg as [|x seg].
      * cbn [flush map concat]. change (alen (@nil Z)) with 0. replace (alen (ch :: t)) with (1 + alen t) by (unfold alen; simpl; lia). lia.
      * specialize (Hf (x :: seg)). replace (alen (ch :: t)) with (1 + alen t) by (unfold alen; simpl; lia). lia.
    + specialize (IH (seg ++ [ch])). replace (alen (seg ++ [ch])) with (alen seg + 1) in IH by (unfold alen; rewrite length_app; simpl; lia).
      replace (alen (ch :: t)) with (1 + alen t) by (unfold alen; simpl; lia). lia.
Qed.

(** ** Transport *)

Record link_ok (lk : netfs_link) : Prop := mk_link_ok {
  lo_tx : alen (lk_tx lk) = NETFS_MSIZE;
  lo_rx : alen (lk_rx lk) = NETFS_MSIZE;
  lo_sent : 0 <= lk_txoff lk <= lk_txlen lk /\ lk_txlen lk <= NETFS_MSIZE;
  lo_got : 0 <= lk_rxlen lk <= NETFS_MSIZE;
}.

(** The bytes received and not yet consumed. *)
Definition pending (lk : netfs_link) : list Z := take (Z.to_nat (lk_rxlen lk)) (lk_rx lk).

(** The fields other than the buffers. *)
Definition link_rest (lk : netfs_link) :=
  (lk_sk lk, lk_conn lk, lk_msize lk, lk_generation lk, lk_reconnect_at_us lk, lk_conn_deadline_us lk).

Lemma frame_length type tag body : alen (frame type tag body) = 7 + alen body.
Proof. unfold frame, alen. rewrite !length_app, !length_le_bytes, length_map. simpl. lia. Qed.

Lemma sends_ok lk type tag body : link_ok lk -> 7 + alen body <= NETFS_MSIZE -> link_ok (sends lk type tag body).
Proof.
  intros [Ht Hr Hs Hg] Hb. split; cbn [sends set_lk_txoff set_lk_txlen set_lk_tx lk_tx lk_txlen lk_txoff]; [|done| |done].
  - pose proof (frame_length type tag body). unfold alen in *. rewrite length_app, Nat2Z.inj_add, length_drop. lia.
  - unfold alen in *. lia.
Qed.

Lemma splice_ok buf o bs :
  0 <= o -> o + alen bs <= alen buf ->
  exists buf', splice buf o bs = Some buf' /\ alen buf' = alen buf /\
    take (Z.to_nat (o + alen bs)) buf' = take (Z.to_nat o) buf ++ bs.
Proof.
  intros Ho Hb. unfold splice. rewrite (proj2 (Z.leb_le 0 o)), (proj2 (Z.leb_le (o + alen bs) (alen buf))) by done. cbn [andb].
  eexists. split; [done|]. unfold alen in *. split.
  - rewrite !length_app, length_take, length_drop. lia.
  - rewrite app_assoc, take_app_length'; [done|]. rewrite length_app, length_take. lia.
Qed.

Section TransportProps.
Context {N : Type} (net : net_ops N) `{!LawfulNet net}.
Implicit Types (lk : netfs_link) (h : N).

Lemma flush_loop_ok fuel lk h :
  link_ok lk -> (Z.to_nat (lk_txlen lk - lk_txoff lk) < fuel)%nat ->
  exists f lk' h', flush_loop net fuel lk h = Some (f, lk', h') /\ link_ok lk' /\ lk' = set_lk_txoff lk (lk_txoff lk') /\
    (f = 1 -> lk_txoff lk' = lk_txlen lk').
Proof.
  revert lk h. induction fuel as [|fuel IH]; intros lk h Hok Hf; [lia|]. cbn [flush_loop].
  assert (Hself : lk = set_lk_txoff lk (lk_txoff lk)) by (by destruct lk). destruct Hok as [Ht Hr Hs Hg].
  destruct (Z.ltb_spec (lk_txoff lk) (lk_txlen lk)); cbn [negb].
  2:{ exists 1, lk, h. split; [done|]. split; [done|]. split; [done|]. intros _. lia. }
  set (pend := take _ _). assert (Hp : alen pend = lk_txlen lk - lk_txoff lk).
  { unfold pend, alen in *. rewrite length_take, length_drop. lia. }
  clearbody pend. destruct (sock_send net h (lk_sk lk) pend) as [[r sent] h1] eqn:Es.
  destruct (Z.eqb_spec r LXP_OK) as [->|Hr0].
  2:{ exists (if r =? LXP_ERR_TIMEOUT then 0 else -1), lk, h1. split; [done|]. split; [done|]. split; [done|]. by destruct (r =? _). }
  apply send_within in Es. rewrite Hp in Es. set (lk1 := set_lk_txoff lk (lk_txoff lk + sent)).
  assert (Hok1 : link_ok lk1) by (split; cbn; lia).
  destruct (Z.eqb_spec sent 0).
  - exists 0, lk1, h1. split; [done|]. split; [done|]. done.
  - destruct (IH lk1 h1 Hok1) as (f & lk' & h' & E & Hok' & E' & Hfull); [cbn; lia|].
    exists f, lk', h'. split; [done|]. split; [done|]. split; [|done]. rewrite E'. by destruct lk.
Qed.

(** Flushing keeps the buffers' bounds, moves only the send offset, and a full flush has
    sent the whole message. *)
Lemma tx_flush_ok lk h :
  link_ok lk ->
  exists f lk' h', tx_flush net lk h = Some (f, lk', h') /\ link_ok lk' /\ lk' = set_lk_txoff lk (lk_txoff lk') /\
    (f = 1 -> lk_txoff lk' = lk_txlen lk').
Proof. intros Hok. apply flush_loop_ok; [done|lia]. Qed.

Lemma fill_loop_ok fuel lk h progress :
  link_ok lk -> (Z.to_nat (NETFS_MSIZE - lk_rxlen lk) < fuel)%nat ->
  exists f lk' h', fill_loop net fuel lk h progress = Some (f, lk', h') /\ link_ok lk' /\
    lk' = set_lk_rxlen (set_lk_rx lk (lk_rx lk')) (lk_rxlen lk') /\ (exists bs, pending lk' = pending lk ++ bs).
Proof.
  revert lk h progress. induction fuel as [|fuel IH]; intros lk h progress Hok Hf; [lia|]. cbn [fill_loop].
  assert (Hself : lk = set_lk_rxlen (set_lk_rx lk (lk_rx lk)) (lk_rxlen lk)) by (by destruct lk).
  assert (Hnil : exists bs, pending lk = pending lk ++ bs) by (exists []; by rewrite app_nil_r). destruct Hok as [Ht Hr Hs Hg].
  destruct (Z.ltb_spec (lk_rxlen lk) NETFS_MSIZE); cbn [negb]; [|by exists progress, lk, h].
  destruct (sock_recv net h (lk_sk lk) _ _) as [[r got] h1] eqn:Er.
  destruct (Z.eqb_spec r LXP_OK) as [->|Hr0]; [|by exists (if r =? LXP_ERR_TIMEOUT then progress else -1), lk, h1].
  apply recv_within in Er; [|lia]. destruct (Z.eqb_spec (alen got) 0); [by exists (-1), lk, h1|].
  destruct (splice_ok (lk_rx lk) (lk_rxlen lk) got) as (rx & -> & Hlen & Htake); [lia|lia|]. cbn [mbind option_bind].
  set (lk1 := set_lk_rxlen (set_lk_rx lk rx) (lk_rxlen lk + alen got)).
  assert (0 <= alen got) by (unfold alen; lia).
  assert (Hok1 : link_ok lk1) by (split; cbn; [done|congruence|done|lia]).
  destruct (IH lk1 h1 1 Hok1) as (f & lk' & h' & E & Hok' & E' & bs & Hbs); [cbn; lia|].
  exists f, lk', h'. split; [done|]. split; [done|]. split; [rewrite E'; by destruct lk|].
  exists (got ++ bs). rewrite Hbs, app_assoc. f_equal. exact Htake.
Qed.

(** Filling keeps the bounds and appends to the bytes not yet consumed. *)
Lemma rx_fill_ok lk h :
  link_ok lk ->
  exists f lk' h', rx_fill net lk h = Some (f, lk', h') /\ link_ok lk' /\
    lk' = set_lk_rxlen (set_lk_rx lk (lk_rx lk')) (lk_rxlen lk') /\ (exists bs, pending lk' = pending lk ++ bs).
Proof. intros Hok. apply fill_loop_ok; [done|lia]. Qed.
End TransportProps.

Lemma rx_message_ok lk :
  link_ok lk -> exists len, rx_message lk = Some len /\ (len = 0 \/ len = SIZE_MAX \/ 7 <= len <= lk_rxlen lk).
Proof.
  intros [Ht Hr Hs Hg]. unfold rx_message. destruct (Z.ltb_spec (lk_rxlen lk) 7); [eauto|].
  rewrite get32_word by (unfold NETFS_MSIZE in *; lia). cbn [mbind option_bind]. set (size := word_at _ _ _).
  destruct (Z.ltb_spec size 7); [eauto|]. rewrite Z.gtb_ltb. destruct (Z.ltb_spec NETFS_MSIZE size); [eauto|]. cbn [orb].
  destruct (Z.ltb_spec (lk_rxlen lk) size); eauto 6.
Qed.

(** Consuming a message removes it from the front. *)
Lemma rx_consume_ok lk len :
  link_ok lk -> 7 <= len <= lk_rxlen lk ->
  link_ok (rx_consume lk len) /\ lk_rxlen (rx_consume lk len) = lk_rxlen lk - len /\
  pending (rx_consume lk len) = drop (Z.to_nat len) (pending lk) /\
  rx_consume lk len = set_lk_rxlen (set_lk_rx lk (lk_rx (rx_consume lk len))) (lk_rxlen (rx_consume lk len)).
Proof.
  intros [Ht Hr Hs Hg] Hl. unfold rx_consume. destruct (Z.eqb_spec len 0); [lia|]. destruct (Z.leb_spec len (lk_rxlen lk)); [|lia].
  cbn [negb andb]. set (rest := take _ _).
  assert (Hrest : length rest = Z.to_nat (lk_rxlen lk - len)) by (unfold rest, alen in *; rewrite length_take, length_drop; lia).
  split_and!; cbn; try done.
  - split; cbn; [done| |done|lia]. unfold alen in *. rewrite length_app, length_drop. lia.
  - unfold pending. cbn. rewrite take_app_length' by done. unfold rest.
    rewrite skipn_firstn_comm. f_equal. lia.
Qed.

(** ** The stream *)

(** The body of the message at the front of the receive buffer. *)
Definition message_body (lk : netfs_link) (len : Z) : list Z := take (Z.to_nat (len - 7)) (drop 7 (lk_rx lk)).

Lemma word_at_take b o k m : (Z.to_nat o + k <= m)%nat -> word_at (take m b) o k = word_at b o k.
Proof. intros Hm. unfold word_at. rewrite skipn_firstn_comm, take_take. f_equal. f_equal. lia. Qed.

Lemma word_at_bytes pre k v post : word_at (pre ++ le_bytes k v ++ post) (alen pre) k = v mod 2 ^ (8 * Z.of_nat k).
Proof.
  unfold word_at, alen. rewrite Nat2Z.id, drop_app_length. rewrite <- (length_le_bytes k v) at 1. rewrite take_app_length. apply le_val_bytes.
Qed.

Lemma take_prefix {A} (a b x y : list A) : a ++ b = x ++ y -> (length x <= length a)%nat -> a = x ++ drop (length x) a.
Proof.
  intros E Hl. rewrite <- (take_drop (length x) a) at 1. f_equal. apply (f_equal (take (length x))) in E.
  rewrite take_app_le, take_app_length in E by done. done.
Qed.

(** The frame at the front: [got] is what is still to come. *)
Lemma frame_at_front lk type tag body got rest :
  link_ok lk -> 7 + alen body <= NETFS_MSIZE -> pending lk ++ got = frame type tag body ++ rest ->
  if alen (pending lk) <? 7 + alen body
  then rx_message lk = Some 0
  else rx_message lk = Some (7 + alen body) /\ get8 (lk_rx lk) 4 = Some (u8 type, 5) /\
       message_body lk (7 + alen body) = map u8 body /\ pending (rx_consume lk (7 + alen body)) ++ got = rest /\
       link_ok (rx_consume lk (7 + alen body)).
Proof.
  intros Hok Hb E. assert (Hlen : alen (pending lk) = lk_rxlen lk).
  { destruct Hok. unfold pending, alen in *. rewrite length_take. lia. }
  assert (Hsize : 7 <= lk_rxlen lk -> word_at (lk_rx lk) 0 4 = 7 + alen body).
  { intros H7. rewrite <- (word_at_take _ 0 4 (Z.to_nat (lk_rxlen lk))) by lia. fold (pending lk).
    assert (E4 : take 4 (pending lk) = le_bytes 4 (7 + alen body)).
    { apply (f_equal (take 4)) in E. rewrite take_app_le in E by (unfold alen in *; lia). rewrite E. reflexivity. }
    unfold word_at. change (drop (Z.to_nat 0) (pending lk)) with (pending lk). rewrite E4, le_val_bytes. apply Z.mod_small.
    unfold NETFS_MSIZE, alen in *. lia. }
  destruct (Z.ltb_spec (alen (pending lk)) (7 + alen body)) as [Hsh|Hfull].
  - unfold rx_message. destruct (Z.ltb_spec (lk_rxlen lk) 7); [done|]. destruct Hok.
    rewrite get32_word by (unfold NETFS_MSIZE in *; lia). cbn [mbind option_bind]. rewrite Hsize by lia.
    destruct (Z.ltb_spec (7 + alen body) 7); [unfold alen in *; lia|]. rewrite Z.gtb_ltb. destruct (Z.ltb_spec NETFS_MSIZE (7 + alen body)); [lia|].
    cbn [orb]. destruct (Z.ltb_spec (lk_rxlen lk) (7 + alen body)); [done|lia].
  - assert (Hbn : 0 <= alen body) by (unfold alen; lia).
    assert (Hpre : pending lk = frame type tag body ++ drop (length (frame type tag body)) (pending lk)).
    { eapply take_prefix; [exact E|]. pose proof (frame_length type tag body). unfold alen in *. lia. }
    pose proof (frame_length type tag body) as Hfl. set (f := frame type tag body) in *.
    assert (Hrx : lk_rx lk = f ++ drop (length f) (lk_rx lk)).
    { rewrite <- (take_drop (Z.to_nat (lk_rxlen lk)) (lk_rx lk)) at 1. fold (pending lk). rewrite Hpre, <- app_assoc. f_equal.
      unfold pending. rewrite skipn_firstn_comm. rewrite <- (take_drop (Z.to_nat (lk_rxlen lk) - length f) (drop (length f) (lk_rx lk))) at 2.
      f_equal. rewrite drop_drop. f_equal. unfold alen in *. lia. }
    split_and!.
    + unfold rx_message. destruct (Z.ltb_spec (lk_rxlen lk) 7); [lia|]. destruct Hok.
      rewrite get32_word by (unfold NETFS_MSIZE in *; lia). cbn [mbind option_bind]. rewrite Hsize by lia.
      destruct (Z.ltb_spec (7 + alen body) 7); [lia|]. rewrite Z.gtb_ltb. destruct (Z.ltb_spec NETFS_MSIZE (7 + alen body)); [lia|].
      cbn [orb]. destruct (Z.ltb_spec (lk_rxlen lk) (7 + alen body)); [lia|done].
    + unfold get8. rewrite (lo_rx _ Hok). cbn [andb]. change ((0 <=? 4) && (4 <? NETFS_MSIZE)) with true. cbv iota.
      do 2 f_equal. rewrite Hrx. unfold f, frame. cbn. apply u8_idemp.
    + unfold message_body. rewrite Hrx. unfold f, frame. change (drop 7 _) with (map u8 body ++ drop (length f) (lk_rx lk)).
      replace (Z.to_nat (7 + alen body - 7)) with (length (map u8 body)) by (rewrite length_map; unfold alen; lia). apply take_app_length.
    + destruct (rx_consume_ok lk (7 + alen body)) as (_ & _ & -> & _); [done|lia|].
      rewrite Hpre in E. rewrite <- app_assoc in E. apply app_inv_head in E. rewrite <- E. do 2 f_equal. unfold alen in *. lia.
    + apply rx_consume_ok; [done|lia].
Qed.

(** A socket whose received bytes are the next ones of a stream, however many come at a time;
    a call that fails receives none. *)
Class StreamSocket {N : Type} (net : net_ops N) (stream : N -> list Z) : Prop := {
  recv_stream h sk cap t bs h' : sock_recv net h sk cap t = (LXP_OK, bs, h') -> stream h = bs ++ stream h';
  recv_keeps h sk cap t r bs h' : r <> LXP_OK -> sock_recv net h sk cap t = (r, bs, h') -> stream h' = stream h;
}.

Section Reader.
Context {N : Type} (net : net_ops N) {L : LawfulNet net} (stream : N -> list Z) {S : StreamSocket net stream}.
Implicit Types (lk : netfs_link) (h : N).

(** Filling moves bytes from the socket to the end of what is pending. *)
Lemma fill_loop_stream fuel lk h progress f lk' h' :
  link_ok lk -> fill_loop net fuel lk h progress = Some (f, lk', h') -> pending lk' ++ stream h' = pending lk ++ stream h.
Proof.
  revert lk h progress. induction fuel as [|fuel IH]; intros lk h progress Hok; cbn [fill_loop]; [done|]. destruct Hok as [Ht Hr Hs Hg].
  destruct (Z.ltb_spec (lk_rxlen lk) NETFS_MSIZE); cbn [negb]; [|by intros [= _ <- <-]].
  destruct (sock_recv net h (lk_sk lk) _ _) as [[r got] h1] eqn:Er.
  destruct (Z.eqb_spec r LXP_OK) as [->|Hr0]; [|intros [= _ <- <-]; by rewrite (recv_keeps (stream := stream) _ _ _ _ _ _ _ Hr0 Er)].
  rewrite (recv_stream (stream := stream) _ _ _ _ _ _ Er). apply recv_within in Er; [|lia]. destruct (Z.eqb_spec (alen got) 0) as [E0|].
  { intros [= _ <- <-]. by destruct got; [|unfold alen in E0; cbn in E0; lia]. }
  destruct (splice_ok (lk_rx lk) (lk_rxlen lk) got) as (rx & -> & Hlen & Htake); [lia|lia|]. cbn [mbind option_bind]. intros E.
  assert (0 <= alen got) by (unfold alen; lia).
  apply IH in E; [|split; cbn; [done|congruence|done|lia]]. rewrite E, app_assoc. f_equal. exact Htake.
Qed.

(** The reader's two steps, in any order: fill the buffer; take the message at the front, if it
    is whole. *)
Inductive rx_op := RxFill | RxTake.

Fixpoint rx_run (ops : list rx_op) lk h : option (list (Z * list Z) * netfs_link * N) :=
  match ops with
  | [] => Some ([], lk, h)
  | RxFill :: ops => '(_, lk, h) ← rx_fill net lk h; rx_run ops lk h
  | RxTake :: ops =>
      len ← rx_message lk;
      if (len =? 0) || (len =? SIZE_MAX) then rx_run ops lk h
      else '(type, _) ← get8 (lk_rx lk) 4;
           '(out, lk', h) ← rx_run ops (rx_consume lk len) h;
           Some ((type, message_body lk len) :: out, lk', h)
  end.

(** A message: type, tag and body. *)
Definition wire_frame (f : Z * Z * list Z) : list Z := frame f.1.1 f.1.2 f.2.
Definition delivered (f : Z * Z * list Z) : Z * list Z := (u8 f.1.1, map u8 f.2).
Definition frame_fits (f : Z * Z * list Z) : Prop := 7 + alen f.2 <= NETFS_MSIZE.

(** What the reader knows of a stream of frames: the first is reported exactly when whole. *)
Definition front_ready lk (fs : list (Z * Z * list Z)) : Prop :=
  match fs with
  | [] => rx_message lk = Some 0
  | f :: _ => rx_message lk = Some (if alen (pending lk) <? 7 + alen f.2 then 0 else 7 + alen f.2)
  end.

Lemma front_of lk h fs :
  link_ok lk -> Forall frame_fits fs -> pending lk ++ stream h = concat (map wire_frame fs) -> front_ready lk fs.
Proof.
  intros Hok Hf E. destruct fs as [|[[type tag] body] fs]; cbn [front_ready].
  - apply app_eq_nil in E as [E _]. unfold rx_message. destruct (Z.ltb_spec (lk_rxlen lk) 7); [done|]. exfalso.
    apply (f_equal length) in E. unfold pending in E. destruct Hok. rewrite length_take in E. unfold alen, NETFS_MSIZE in *. cbn in E. lia.
  - apply Forall_cons in Hf as (Hb & _). pose proof (frame_at_front lk type tag body (stream h) (concat (map wire_frame fs)) Hok Hb E) as HF.
    cbn [snd]. destruct (_ <? _); [done|]. apply HF.
Qed.
End Reader.

(** C32: frames survive any cutting of the stream.  A server sends whole messages, each of at
    most NETFS_MSIZE bytes with its 7-byte header, over a socket that hands out the bytes of
    the stream in order, in pieces of any size, and times out at will.  However the client
    mixes filling its buffer and taking the message at its front, what it takes are the first
    messages of the stream, each with its type and body, whole and in order; what is pending
    in the buffer followed by what is still to come are exactly the other messages; and the
    next one is reported exactly when all its bytes have arrived. *)
Theorem frame_reassembles {N} (net : net_ops N) {L : LawfulNet net} (stream : N -> list Z) {S : StreamSocket net stream} ops lk h fs :
  link_ok lk -> Forall frame_fits fs -> pending lk ++ stream h = concat (map wire_frame fs) ->
  exists n out lk' h', rx_run net ops lk h = Some (out, lk', h') /\ out = map delivered (take n fs) /\
    pending lk' ++ stream h' = concat (map wire_frame (drop n fs)) /\ front_ready lk' (drop n fs).
Proof.
  revert lk h fs. induction ops as [|[] ops IH]; intros lk h fs Hok Hf E; cbn [rx_run].
  - exists 0%nat, [], lk, h. split; [done|]. split; [done|]. split; [done|]. by apply (front_of stream lk h).
  - destruct (rx_fill_ok net lk h Hok) as (f & lk1 & h1 & E1 & Hok1 & _). rewrite E1. cbn [mbind option_bind].
    apply IH; [done|done|]. rewrite <- E. by eapply fill_loop_stream.
  - pose proof (front_of stream lk h fs Hok Hf E) as Hfr. destruct fs as [|[[type tag] body] fs]; cbn [front_ready] in Hfr; rewrite Hfr; cbn [mbind option_bind snd] in *.
    { by apply IH. }
    pose proof Hf as (Hb & Hf')%Forall_cons. unfold frame_fits in Hb. cbn [snd] in Hb.
    pose proof (frame_at_front lk type tag body (stream h) (concat (map wire_frame fs)) Hok Hb E) as HF.
    destruct (alen (pending lk) <? 7 + alen body); [by apply IH|]. destruct HF as (_ & Hty & Hbody & Hrest & Hok').
    assert (0 <= alen body) by (unfold alen; lia). unfold NETFS_MSIZE in Hb.
    destruct (Z.eqb_spec (7 + alen body) 0); [lia|]. destruct (Z.eqb_spec (7 + alen body) SIZE_MAX); [unfold SIZE_MAX in *; lia|]. cbn [orb].
    rewrite Hty. cbn [mbind option_bind]. destruct (IH _ _ _ Hok' Hf' Hrest) as (k & out & lk' & h' & -> & -> & Hp & Hr). cbn [mbind option_bind].
    eexists (Datatypes.S k), _, lk', h'. split; [reflexivity|]. rewrite Hbody. done.
Qed.

(** *** Witness: two frames, the first cut after nine bytes *)

(** A socket that plays pieces; an empty piece is a timeout. *)
Definition piece_net : net_ops (list (list Z)) :=
  mk_net_ops (fun h _ _ _ => (LXP_OK, 1, h)) (fun h _ => h) (fun h _ _ _ => (LXP_OK, h)) (fun h _ d => (LXP_OK, alen d, h))
    (fun h _ cap _ => match h with
                      | [] => (LXP_ERR_TIMEOUT, [], [])
                      | [] :: t => (LXP_ERR_TIMEOUT, [], t)
                      | bs :: t => if alen bs <=? cap then (LXP_OK, bs, t)
                                   else (LXP_OK, take (Z.to_nat cap) bs, drop (Z.to_nat cap) bs :: t)
                      end)
    (fun h _ _ => (LXP_OK, h)) (fun h _ _ _ => (LXP_OK, 0, h)) (fun h _ => (LXP_OK, h)).

#[local] Instance piece_lawful : LawfulNet piece_net.
Proof.
  split; [intros h sk d sent h' [= <- _]; unfold alen; lia|]. intros h sk cap t bs h' Hc. cbn.
  destruct h as [|[|x bs0] t0]; [done|done|]. destruct (Z.leb_spec (alen (x :: bs0)) cap); intros [= <- _]; [done|].
  unfold alen. rewrite length_take. lia.
Qed.

#[local] Instance piece_stream : StreamSocket piece_net (@concat Z).
Proof.
  split; intros h sk cap t.
  - intros bs h'. cbn. destruct h as [|[|x bs0] t0]; [done|done|]. destruct (_ <=? cap); intros [= <- <-]; [done|].
    cbn [concat]. by rewrite app_assoc, take_drop.
  - intros r bs h' Hr. cbn. destruct h as [|[|x bs0] t0]; [by intros [= _ _ <-]|by intros [= _ _ <-]|].
    by destruct (_ <=? cap); intros [= <- _ _].
Qed.

Definition demo_frames : list (Z * Z * list Z) := [(P9_RCLUNK, P9_TAG, [1; 2; 3; 4]); (P9_RLERROR, P9_TAG, [5; 0; 0; 0])].
Definition demo_pieces : list (list Z) :=
  let bs := concat (map wire_frame demo_frames) in [take 9 bs; []; drop 9 bs].
Definition demo_rx0 : netfs_link :=
  mk_link 1 CONN_UP NETFS_MSIZE 1 0 0 (replicate 2048 0) 0 0 (replicate 2048 0) 0.

Lemma frame_reassembles_witness :
  exists n out lk' h', rx_run piece_net [RxFill; RxTake; RxFill; RxTake] demo_rx0 demo_pieces = Some (out, lk', h') /\
    out = map delivered (take n demo_frames) /\ out = [(P9_RCLUNK, [1; 2; 3; 4])] /\
    rx_message lk' = Some 11.
Proof.
  destruct (frame_reassembles piece_net (@concat Z) [RxFill; RxTake; RxFill; RxTake] demo_rx0 demo_pieces demo_frames)
    as (n & out & lk' & h' & Hr & Ho & _ & _).
  - split; [done|done|cbn; unfold NETFS_MSIZE; lia|cbn; unfold NETFS_MSIZE; lia].
  - repeat constructor; by vm_compute.
  - reflexivity.
  - exists n, out, lk', h'. split; [exact Hr|]. split; [exact Ho|].
    assert (Hx : option_map (fun x => (x.1.1, rx_message x.1.2)) (rx_run piece_net [RxFill; RxTake; RxFill; RxTake] demo_rx0 demo_pieces)
      = Some ([(P9_RCLUNK, [1; 2; 3; 4])], Some 11)) by (vm_compute; reflexivity).
    rewrite Hr in Hx. cbn [option_map fst snd] in Hx. injection Hx as -> ->. split; reflexivity.
Defined.
