(* ===== verification/Netfs.v ===== *)
(** * The 9P client (src/netfs/lxp_netfs.c)

    The pools of the remote file system (fids, opens, background clunks, requests), the
    connection's state machine, the request state machine driven by replies, the pump, and
    the entry points the system calls use.  The state is [netfs]; guest memory, tasks and
    file contexts are the coordinator's.  As in the transport, an access outside a buffer or
    a pool has no result.  The build has [LXP_ENABLE_NETFS_EXEC]. *)

From S2P Require Import Prelude Config Path Proc Pool Fd Guest Wait Arena Process Runtime Event Region Lifecycle.
From S2P Require Import Signal SysSignal Child SignalRoute Loader Image Exec Stat NetfsWire.
Local Open Scope Z_scope.

Definition LXP_NETFS_MOUNTPOINT_CAP : Z := 64.
Definition LXP_NETFS_ANAME_CAP : Z := 96.
Definition LXP_NETFS_UNAME_CAP : Z := 32.
Definition LXP_NETFSW_OPEN : Z := 1.
Definition LXP_NETFSW_READ : Z := 2.
Definition LXP_NETFSW_GETDENTS : Z := 3.
Definition LXP_NETFSW_STAT : Z := 4.
Definition REQ_OP_CLUNK : Z := 0xff.
Definition NETFS_STAT_EXISTS : Z := 2.
Definition NETFS_STAT_CHDIR : Z := 3.
Definition LXP_INO_NETFS : Z := 0x600000.
Definition LXP_O_CREAT : Z := 0x40.
Definition LXP_O_TRUNC : Z := 0x200.
Definition LXP_ESTALE : Z := 116.

(** ** State *)

Record netfs_mnt := mk_mnt {
  mt_mp : list Z; mt_mplen : Z; mt_ip : list Z; mt_port : Z; mt_aname : list Z; mt_uname : list Z; mt_configured : bool;
}.
Definition mnt_zero : netfs_mnt := mk_mnt [] 0 [0; 0; 0; 0] 0 [] [] false.

Inductive req_state := REQ_FREE | REQ_QUEUED | REQ_INFLIGHT | REQ_DONE.

#[export] Instance req_state_eq_dec : EqDecision req_state.
Proof. solve_decision. Defined.

Record netfs_open := mk_nopen {
  no_used : bool; no_is_dir : bool; no_stale : bool; no_fid : Z; no_generation : Z; no_mode : Z; no_size :
  Z; no_mtime : Z; no_ino : Z; no_rd_off : Z; no_dir_off : Z;
}.
Definition set_no_used (x : netfs_open) (v : bool) : netfs_open := mk_nopen v (no_is_dir x) (no_stale x) (no_fid x)
  (no_generation x) (no_mode x) (no_size x) (no_mtime x) (no_ino x) (no_rd_off x) (no_dir_off x).
Definition set_no_is_dir (x : netfs_open) (v : bool) : netfs_open := mk_nopen (no_used x) v (no_stale x) (no_fid x)
  (no_generation x) (no_mode x) (no_size x) (no_mtime x) (no_ino x) (no_rd_off x) (no_dir_off x).
Definition set_no_stale (x : netfs_open) (v : bool) : netfs_open := mk_nopen (no_used x) (no_is_dir x) v (no_fid x)
  (no_generation x) (no_mode x) (no_size x) (no_mtime x) (no_ino x) (no_rd_off x) (no_dir_off x).
Definition set_no_fid (x : netfs_open) (v : Z) : netfs_open := mk_nopen (no_used x) (no_is_dir x) (no_stale x) v
  (no_generation x) (no_mode x) (no_size x) (no_mtime x) (no_ino x) (no_rd_off x) (no_dir_off x).
Definition set_no_generation (x : netfs_open) (v : Z) : netfs_open := mk_nopen (no_used x) (no_is_dir x) (no_stale
  x) (no_fid x) v (no_mode x) (no_size x) (no_mtime x) (no_ino x) (no_rd_off x) (no_dir_off x).
Definition set_no_mode (x : netfs_open) (v : Z) : netfs_open := mk_nopen (no_used x) (no_is_dir x) (no_stale x)
  (no_fid x) (no_generation x) v (no_size x) (no_mtime x) (no_ino x) (no_rd_off x) (no_dir_off x).
Definition set_no_size (x : netfs_open) (v : Z) : netfs_open := mk_nopen (no_used x) (no_is_dir x) (no_stale x)
  (no_fid x) (no_generation x) (no_mode x) v (no_mtime x) (no_ino x) (no_rd_off x) (no_dir_off x).
Definition set_no_mtime (x : netfs_open) (v : Z) : netfs_open := mk_nopen (no_used x) (no_is_dir x) (no_stale x)
  (no_fid x) (no_generation x) (no_mode x) (no_size x) v (no_ino x) (no_rd_off x) (no_dir_off x).
Definition set_no_ino (x : netfs_open) (v : Z) : netfs_open := mk_nopen (no_used x) (no_is_dir x) (no_stale x)
  (no_fid x) (no_generation x) (no_mode x) (no_size x) (no_mtime x) v (no_rd_off x) (no_dir_off x).
Definition set_no_rd_off (x : netfs_open) (v : Z) : netfs_open := mk_nopen (no_used x) (no_is_dir x) (no_stale x)
  (no_fid x) (no_generation x) (no_mode x) (no_size x) (no_mtime x) (no_ino x) v (no_dir_off x).
Definition set_no_dir_off (x : netfs_open) (v : Z) : netfs_open := mk_nopen (no_used x) (no_is_dir x) (no_stale x)
  (no_fid x) (no_generation x) (no_mode x) (no_size x) (no_mtime x) (no_ino x) (no_rd_off x) v.

Record netfs_req := mk_nreq {
  rq_state : req_state; rq_op : Z; rq_step : Z; rq_owner : lxp_ref; rq_seq : Z; rq_oi : Z; rq_fid : Z;
  rq_off : Z; rq_ubuf : Z; rq_ulen : Z; rq_flags : Z; rq_statkind : Z; rq_is64 : bool; rq_path : list Z;
  rq_result : Z;
}.
Definition set_rq_state (x : netfs_req) (v : req_state) : netfs_req := mk_nreq v (rq_op x) (rq_step x) (rq_owner x)
  (rq_seq x) (rq_oi x) (rq_fid x) (rq_off x) (rq_ubuf x) (rq_ulen x) (rq_flags x) (rq_statkind x) (rq_is64 x)
  (rq_path x) (rq_result x).
Definition set_rq_op (x : netfs_req) (v : Z) : netfs_req := mk_nreq (rq_state x) v (rq_step x) (rq_owner x) (rq_seq
  x) (rq_oi x) (rq_fid x) (rq_off x) (rq_ubuf x) (rq_ulen x) (rq_flags x) (rq_statkind x) (rq_is64 x) (rq_path x)
  (rq_result x).
Definition set_rq_step (x : netfs_req) (v : Z) : netfs_req := mk_nreq (rq_state x) (rq_op x) v (rq_owner x) (rq_seq
  x) (rq_oi x) (rq_fid x) (rq_off x) (rq_ubuf x) (rq_ulen x) (rq_flags x) (rq_statkind x) (rq_is64 x) (rq_path x)
  (rq_result x).
Definition set_rq_owner (x : netfs_req) (v : lxp_ref) : netfs_req := mk_nreq (rq_state x) (rq_op x) (rq_step x) v
  (rq_seq x) (rq_oi x) (rq_fid x) (rq_off x) (rq_ubuf x) (rq_ulen x) (rq_flags x) (rq_statkind x) (rq_is64 x)
  (rq_path x) (rq_result x).
Definition set_rq_seq (x : netfs_req) (v : Z) : netfs_req := mk_nreq (rq_state x) (rq_op x) (rq_step x) (rq_owner x)
  v (rq_oi x) (rq_fid x) (rq_off x) (rq_ubuf x) (rq_ulen x) (rq_flags x) (rq_statkind x) (rq_is64 x) (rq_path x)
  (rq_result x).
Definition set_rq_oi (x : netfs_req) (v : Z) : netfs_req := mk_nreq (rq_state x) (rq_op x) (rq_step x) (rq_owner x)
  (rq_seq x) v (rq_fid x) (rq_off x) (rq_ubuf x) (rq_ulen x) (rq_flags x) (rq_statkind x) (rq_is64 x) (rq_path x)
  (rq_result x).
Definition set_rq_fid (x : netfs_req) (v : Z) : netfs_req := mk_nreq (rq_state x) (rq_op x) (rq_step x) (rq_owner x)
  (rq_seq x) (rq_oi x) v (rq_off x) (rq_ubuf x) (rq_ulen x) (rq_flags x) (rq_statkind x) (rq_is64 x) (rq_path x)
  (rq_result x).
Definition set_rq_off (x : netfs_req) (v : Z) : netfs_req := mk_nreq (rq_state x) (rq_op x) (rq_step x) (rq_owner x)
  (rq_seq x) (rq_oi x) (rq_fid x) v (rq_ubuf x) (rq_ulen x) (rq_flags x) (rq_statkind x) (rq_is64 x) (rq_path x)
  (rq_result x).
Definition set_rq_ubuf (x : netfs_req) (v : Z) : netfs_req := mk_nreq (rq_state x) (rq_op x) (rq_step x) (rq_owner
  x) (rq_seq x) (rq_oi x) (rq_fid x) (rq_off x) v (rq_ulen x) (rq_flags x) (rq_statkind x) (rq_is64 x) (rq_path x)
  (rq_result x).
Definition set_rq_ulen (x : netfs_req) (v : Z) : netfs_req := mk_nreq (rq_state x) (rq_op x) (rq_step x) (rq_owner
  x) (rq_seq x) (rq_oi x) (rq_fid x) (rq_off x) (rq_ubuf x) v (rq_flags x) (rq_statkind x) (rq_is64 x) (rq_path x)
  (rq_result x).
Definition set_rq_flags (x : netfs_req) (v : Z) : netfs_req := mk_nreq (rq_state x) (rq_op x) (rq_step x) (rq_owner
  x) (rq_seq x) (rq_oi x) (rq_fid x) (rq_off x) (rq_ubuf x) (rq_ulen x) v (rq_statkind x) (rq_is64 x) (rq_path x)
  (rq_result x).
Definition set_rq_statkind (x : netfs_req) (v : Z) : netfs_req := mk_nreq (rq_state x) (rq_op x) (rq_step x)
  (rq_owner x) (rq_seq x) (rq_oi x) (rq_fid x) (rq_off x) (rq_ubuf x) (rq_ulen x) (rq_flags x) v (rq_is64 x)
  (rq_path x) (rq_result x).
Definition set_rq_is64 (x : netfs_req) (v : bool) : netfs_req := mk_nreq (rq_state x) (rq_op x) (rq_step x)
  (rq_owner x) (rq_seq x) (rq_oi x) (rq_fid x) (rq_off x) (rq_ubuf x) (rq_ulen x) (rq_flags x) (rq_statkind x) v
  (rq_path x) (rq_result x).
Definition set_rq_path (x : netfs_req) (v : list Z) : netfs_req := mk_nreq (rq_state x) (rq_op x) (rq_step x)
  (rq_owner x) (rq_seq x) (rq_oi x) (rq_fid x) (rq_off x) (rq_ubuf x) (rq_ulen x) (rq_flags x) (rq_statkind x)
  (rq_is64 x) v (rq_result x).
Definition set_rq_result (x : netfs_req) (v : Z) : netfs_req := mk_nreq (rq_state x) (rq_op x) (rq_step x) (rq_owner
  x) (rq_seq x) (rq_oi x) (rq_fid x) (rq_off x) (rq_ubuf x) (rq_ulen x) (rq_flags x) (rq_statkind x) (rq_is64 x)
  (rq_path x) v.

Record netfs := mk_netfs {
  nf_mnt : netfs_mnt; nf_link : netfs_link; nf_fid_bm : list Z; nf_open : list netfs_open; nf_clunk_fid :
  list Z; nf_clunk_head : Z; nf_clunk_tail : Z; nf_req : list netfs_req; nf_req_seq : Z; nf_inflight : Z;
  nf_exec_buf : Z; nf_exec_cap : Z; nf_exec_size : Z;
}.
Definition set_nf_mnt (x : netfs) (v : netfs_mnt) : netfs := mk_netfs v (nf_link x) (nf_fid_bm x) (nf_open x)
  (nf_clunk_fid x) (nf_clunk_head x) (nf_clunk_tail x) (nf_req x) (nf_req_seq x) (nf_inflight x) (nf_exec_buf x)
  (nf_exec_cap x) (nf_exec_size x).
Definition set_nf_link (x : netfs) (v : netfs_link) : netfs := mk_netfs (nf_mnt x) v (nf_fid_bm x) (nf_open x)
  (nf_clunk_fid x) (nf_clunk_head x) (nf_clunk_tail x) (nf_req x) (nf_req_seq x) (nf_inflight x) (nf_exec_buf x)
  (nf_exec_cap x) (nf_exec_size x).
Definition set_nf_fid_bm (x : netfs) (v : list Z) : netfs := mk_netfs (nf_mnt x) (nf_link x) v (nf_open x)
  (nf_clunk_fid x) (nf_clunk_head x) (nf_clunk_tail x) (nf_req x) (nf_req_seq x) (nf_inflight x) (nf_exec_buf x)
  (nf_exec_cap x) (nf_exec_size x).
Definition set_nf_open (x : netfs) (v : list netfs_open) : netfs := mk_netfs (nf_mnt x) (nf_link x) (nf_fid_bm x) v
  (nf_clunk_fid x) (nf_clunk_head x) (nf_clunk_tail x) (nf_req x) (nf_req_seq x) (nf_inflight x) (nf_exec_buf x)
  (nf_exec_cap x) (nf_exec_size x).
Definition set_nf_clunk_fid (x : netfs) (v : list Z) : netfs := mk_netfs (nf_mnt x) (nf_link x) (nf_fid_bm x)
  (nf_open x) v (nf_clunk_head x) (nf_clunk_tail x) (nf_req x) (nf_req_seq x) (nf_inflight x) (nf_exec_buf x)
  (nf_exec_cap x) (nf_exec_size x).
Definition set_nf_clunk_head (x : netfs) (v : Z) : netfs := mk_netfs (nf_mnt x) (nf_link x) (nf_fid_bm x) (nf_open
  x) (nf_clunk_fid x) v (nf_clunk_tail x) (nf_req x) (nf_req_seq x) (nf_inflight x) (nf_exec_buf x) (nf_exec_cap x)
  (nf_exec_size x).
Definition set_nf_clunk_tail (x : netfs) (v : Z) : netfs := mk_netfs (nf_mnt x) (nf_link x) (nf_fid_bm x) (nf_open
  x) (nf_clunk_fid x) (nf_clunk_head x) v (nf_req x) (nf_req_seq x) (nf_inflight x) (nf_exec_buf x) (nf_exec_cap x)
  (nf_exec_size x).
Definition set_nf_req (x : netfs) (v : list netfs_req) : netfs := mk_netfs (nf_mnt x) (nf_link x) (nf_fid_bm x)
  (nf_open x) (nf_clunk_fid x) (nf_clunk_head x) (nf_clunk_tail x) v (nf_req_seq x) (nf_inflight x) (nf_exec_buf x)
  (nf_exec_cap x) (nf_exec_size x).
Definition set_nf_req_seq (x : netfs) (v : Z) : netfs := mk_netfs (nf_mnt x) (nf_link x) (nf_fid_bm x) (nf_open x)
  (nf_clunk_fid x) (nf_clunk_head x) (nf_clunk_tail x) (nf_req x) v (nf_inflight x) (nf_exec_buf x) (nf_exec_cap x)
  (nf_exec_size x).
Definition set_nf_inflight (x : netfs) (v : Z) : netfs := mk_netfs (nf_mnt x) (nf_link x) (nf_fid_bm x) (nf_open x)
  (nf_clunk_fid x) (nf_clunk_head x) (nf_clunk_tail x) (nf_req x) (nf_req_seq x) v (nf_exec_buf x) (nf_exec_cap x)
  (nf_exec_size x).
Definition set_nf_exec_buf (x : netfs) (v : Z) : netfs := mk_netfs (nf_mnt x) (nf_link x) (nf_fid_bm x) (nf_open x)
  (nf_clunk_fid x) (nf_clunk_head x) (nf_clunk_tail x) (nf_req x) (nf_req_seq x) (nf_inflight x) v (nf_exec_cap x)
  (nf_exec_size x).
Definition set_nf_exec_cap (x : netfs) (v : Z) : netfs := mk_netfs (nf_mnt x) (nf_link x) (nf_fid_bm x) (nf_open x)
  (nf_clunk_fid x) (nf_clunk_head x) (nf_clunk_tail x) (nf_req x) (nf_req_seq x) (nf_inflight x) (nf_exec_buf x) v
  (nf_exec_size x).
Definition set_nf_exec_size (x : netfs) (v : Z) : netfs := mk_netfs (nf_mnt x) (nf_link x) (nf_fid_bm x) (nf_open x)
  (nf_clunk_fid x) (nf_clunk_head x) (nf_clunk_tail x) (nf_req x) (nf_req_seq x) (nf_inflight x) (nf_exec_buf x)
  (nf_exec_cap x) v.

Definition nopen_zero : netfs_open := mk_nopen false false false 0 0 0 0 0 0 0 0.
Definition nreq_zero : netfs_req := mk_nreq REQ_FREE 0 0 (mk_ref 0 0) 0 0 0 0 0 0 0 0 false [] 0.

Definition open_at (n : netfs) (oi : Z) : netfs_open := aget nopen_zero (nf_open n) oi.
Definition put_open (n : netfs) (oi : Z) (op : netfs_open) : netfs := set_nf_open n (aset (nf_open n) oi op).
Definition req_at (n : netfs) (i : Z) : netfs_req := aget nreq_zero (nf_req n) i.
Definition put_req (n : netfs) (i : Z) (r : netfs_req) : netfs := set_nf_req n (aset (nf_req n) i r).

(** ** Fids, opens and clunks *)

Definition fid_used (n : netfs) (f : Z) : bool :=
  negb (Z.land (aget 0 (nf_fid_bm n) (Z.shiftr f 5)) (Z.shiftl 1 (Z.land f 31)) =? 0).

Definition fid_alloc (n : netfs) : Z * netfs :=
  match List.find (fun f => negb (fid_used n f)) (seqZ 1 (NETFS_NFID - 1)) with
  | Some f =>
      let w := Z.shiftr f 5 in
      (f, set_nf_fid_bm n (aset (nf_fid_bm n) w (Z.lor (aget 0 (nf_fid_bm n) w) (Z.shiftl 1 (Z.land f 31)))))
  | None => (-1, n)
  end.

Definition fid_free (n : netfs) (f : Z) : netfs :=
  if (f >? 0) && (f <? NETFS_NFID)
  then let w := Z.shiftr f 5 in
       set_nf_fid_bm n (aset (nf_fid_bm n) w (Z.land (aget 0 (nf_fid_bm n) w) (u32 (Z.lnot (Z.shiftl 1 (Z.land f 31))))))
  else n.

Definition open_slot (n : netfs) (oi : Z) : option netfs_open :=
  if (oi <? 0) || (oi >=? NETFS_NOPEN) || negb (no_used (open_at n oi)) then None else Some (open_at n oi).

Definition clunk_enqueue (n : netfs) (fid : Z) : netfs :=
  let nt := (nf_clunk_tail n + 1) mod NETFS_NCLUNK in
  if fid <=? 0 then n
  else if nt =? nf_clunk_head n then fid_free n fid
  else set_nf_clunk_tail (set_nf_clunk_fid n (aset (nf_clunk_fid n) (nf_clunk_tail n) fid)) nt.

(** [g_open[oi].used = 0]. *)
Definition open_release (n : netfs) (oi : Z) : option netfs :=
  if (0 <=? oi) && (oi <? NETFS_NOPEN) then Some (put_open n oi (set_no_used (open_at n oi) false)) else None.

(** The open that [oi] names, unguarded. *)
Definition open_ref (n : netfs) (oi : Z) : option netfs_open :=
  if (0 <=? oi) && (oi <? NETFS_NOPEN) then Some (open_at n oi) else None.

(** ** Messages of a request *)

Definition with_link (n : netfs) (lk : option netfs_link) : option netfs := lk ← lk; Some (set_nf_link n lk).

Fixpoint put_names (c : list Z * Z) (names : list (list Z)) : option (list Z * Z) :=
  match names with [] => Some c | s :: t => c ← putstr c s; put_names c t end.

(** The result is zero, or the errno that completes the request. *)
Definition msg_walk (n : netfs) (i : Z) : option (Z * netfs) :=
  match path_split (rq_path (req_at n i)) NETFS_MAXWELEM with
  | None => Some (- LXP_ENAMETOOLONG, n)
  | Some comps =>
      let '(fid, n) := fid_alloc n in
      let n := put_req n i (set_rq_fid (req_at n i) fid) in
      if fid <? 0 then Some (- LXP_EMFILE, n)
      else
        c ← msg_begin (lk_tx (nf_link n)) P9_TWALK P9_TAG;
        c ← put32 c P9_ROOT_FID;
        c ← put32 c (u32 fid);
        c ← put16 c (u16 (alen comps));
        c ← put_names c comps;
        n ← with_link n (msg_end (nf_link n) c);
        Some (0, n)
  end.

Definition msg_getattr (lk : netfs_link) (fid : Z) : option netfs_link :=
  c ← msg_begin (lk_tx lk) P9_TLGETATTR P9_TAG; c ← put32 c (u32 fid); c ← put64 c P9_GETATTR_BASIC; msg_end lk c.
Definition msg_lopen (lk : netfs_link) (fid : Z) : option netfs_link :=
  c ← msg_begin (lk_tx lk) P9_TLOPEN P9_TAG; c ← put32 c (u32 fid); c ← put32 c 0; msg_end lk c.

Definition built (n : netfs) (lk : option netfs_link) : option (Z * netfs) := n ← with_link n lk; Some (0, n).

Definition req_build (n : netfs) (i : Z) : option (Z * netfs) :=
  let r := req_at n i in
  let lk := nf_link n in
  let msize := lk_msize lk in
  if (rq_op r =? LXP_NETFSW_OPEN) || (rq_op r =? LXP_NETFSW_STAT) || (rq_op r =? LXP_NETFSW_EXECFETCH)
  then
    if rq_step r =? 0 then msg_walk n i
    else if rq_step r =? 1 then built n (msg_getattr lk (rq_fid r))
    else if rq_step r =? 2
    then if rq_op r =? LXP_NETFSW_STAT then built n (msg_fid lk P9_TCLUNK (rq_fid r)) else built n (msg_lopen lk (rq_fid r))
    else if rq_step r =? 3
    then let cnt := u32 (msize - 24) in
         let cnt := if u64 (rq_off r + cnt) >? nf_exec_cap n then u32 (nf_exec_cap n - rq_off r) else cnt in
         built n (msg_io lk P9_TREAD (rq_fid r) (rq_off r) cnt)
    else if rq_step r =? 4 then built n (msg_fid lk P9_TCLUNK (rq_fid r))
    else Some (- LXP_EINVAL, n)
  else if rq_op r =? LXP_NETFSW_READ
  then match open_slot n (rq_oi r) with
       | None => Some (- LXP_EBADF, n)
       | Some op => let cnt := u32 (rq_ulen r) in
                    let cnt := if cnt >? u32 (msize - 24) then u32 (msize - 24) else cnt in
                    built n (msg_io lk P9_TREAD (no_fid op) (no_rd_off op) cnt)
       end
  else if rq_op r =? LXP_NETFSW_GETDENTS
  then match open_slot n (rq_oi r) with
       | None => Some (- LXP_EBADF, n)
       | Some op => built n (msg_io lk P9_TREADDIR (no_fid op) (no_dir_off op) (u32 (msize - 24)))
       end
  else built n (msg_fid lk P9_TCLUNK (rq_fid r)).

Definition netfs_stat_record (mode size mtime ino : Z) : lxp_stat :=
  let st := lxp_stat_init (u32 (LXP_INO_NETFS + u32 ino)) mode size in
  mk_stat (st_mode st) (st_ino st) (st_nlink st) (st_dev_major st) 0xfe (st_rdev st) (st_size st) (s64 mtime).

Definition dtype_from_qid (qt : Z) : Z :=
  if has qt P9_QTDIR then LXP_DT_DIR else if has qt 0x02 then LXP_DT_LNK else LXP_DT_REG.

(** ** Completing a request *)

Definition req_complete (n : netfs) (i result : Z) : netfs :=
  set_nf_inflight (put_req n i (set_rq_state (set_rq_result (req_at n i) result) REQ_DONE)) (-1).

(** The walked fid is queued for a clunk and the reserved open released. *)
Definition req_abandon (n : netfs) (i : Z) : option netfs :=
  let r := req_at n i in
  let n := if rq_fid r >? 0 then put_req (clunk_enqueue n (rq_fid r)) i (set_rq_fid r (-1)) else n in
  if (rq_op r =? LXP_NETFSW_OPEN) && (rq_oi r >=? 0) then open_release n (rq_oi r) else Some n.

Definition req_fail (n : netfs) (i result : Z) : option netfs :=
  let r := req_at n i in
  if rq_op r =? REQ_OP_CLUNK
  then let n := fid_free n (rq_fid r) in
       Some (set_nf_inflight (put_req n i (set_rq_state (set_rq_fid r (-1)) REQ_FREE)) (-1))
  else
    n ← req_abandon n i; Some (req_complete n i result).

Definition req_expected_reply (r : netfs_req) : Z :=
  if rq_op r =? REQ_OP_CLUNK then P9_RCLUNK
  else if rq_op r =? LXP_NETFSW_READ then P9_RREAD
  else if rq_op r =? LXP_NETFSW_GETDENTS then P9_RREADDIR
  else if rq_step r =? 0 then P9_RWALK
  else if rq_step r =? 1 then P9_RLGETATTR
  else if rq_op r =? LXP_NETFSW_STAT then (if rq_step r =? 2 then P9_RCLUNK else 0)
  else if rq_step r =? 2 then P9_RLOPEN
  else if rq_op r =? LXP_NETFSW_EXECFETCH
  then (if rq_step r =? 3 then P9_RREAD else if rq_step r =? 4 then P9_RCLUNK else 0)
  else 0.

Definition reply_walk_advance (n : netfs) (i : Z) (body : list Z) : option netfs :=
  if alen body <? 2 then req_fail n i (- LXP_EIO)
  else
    '(walked, _) ← get16 body 0;
    match path_split (rq_path (req_at n i)) NETFS_MAXWELEM with
    | None => req_fail n i (- LXP_EIO)
    | Some comps =>
        if negb (walked =? u16 (alen comps))
        then req_fail n i (if walked <? u16 (alen comps) then - LXP_ENOENT else - LXP_EIO)
        else Some (put_req n i (set_rq_step (req_at n i) (u8 (rq_step (req_at n i) + 1))))
    end.

(** The data count of a reply and the offset of the data. *)
Definition reply_data_count (body : list Z) : option (Z * Z) :=
  if alen body <? 4 then Some (0, 0)
  else '(count, o) ← get32 body 0; Some (if count >? alen body - o then u32 (alen body - o) else count, o).

(** The mode, size, modification time and qid path; the inner [None] for a short reply. *)
Definition parse_getattr (b : list Z) : option (option (Z * Z * Z * Z)) :=
  let o := 0 in
  if o + 97 >? alen b then Some None
  else
    '(_, o) ← get64 b o; '(_, o) ← get8 b o; '(_, o) ← get32 b o; '(qpath, o) ← get64 b o;
    '(m, o) ← get32 b o; '(_, o) ← get32 b o; '(_, o) ← get32 b o; '(_, o) ← get64 b o; '(_, o) ← get64 b o;
    '(sz, o) ← get64 b o; '(_, o) ← get64 b o; '(_, o) ← get64 b o; '(_, o) ← get64 b o; '(_, o) ← get64 b o;
    '(mt, o) ← get64 b o; Some (Some (m, sz, mt, qpath)).

(** The qid path of a directory entry, eight bytes least significant first. *)
Definition get_qpath (b : list Z) (o : Z) : option Z :=
  foldl (fun acc i => q ← acc; '(x, _) ← get8 b (o + 5 + i); Some (Z.lor q (Z.shiftl x (8 * i)))) (Some 0) (seqZ 0 8).

(** One directory entry: the qid type, path, cookie, type and name, and the offset behind
    it; the inner [None] when the name is cut off. *)
Definition get_entry (body : list Z) (o : Z) : option (option (Z * Z * Z * Z * list Z * Z)) :=
  '(qt, _) ← get8 body o;
  qpath ← get_qpath body o;
  let o := o + 13 in
  '(doff, o) ← get64 body o;
  '(dt9, o) ← get8 body o;
  '(nlen, o) ← get16 body o;
  if o + nlen >? alen body then Some None
  else Some (Some (qt, qpath, doff, dt9, map u8 (take (Z.to_nat nlen) (drop (Z.to_nat o) body)), o + nlen)).

(** Fuel: an entry is at least 24 bytes. *)
Fixpoint entries_loop (fuel : nat) (G : genv) (m : mem) (p : Z) (body : list Z) (o end_ : Z) (sink : lxp_dirent_sink) (last_off : Z)
    : option (mem * lxp_dirent_sink * Z) :=
  match fuel with
  | O => None
  | S fuel =>
      if negb ((o <? end_) && (o + 13 + 8 + 1 + 2 <=? alen body)) then Some (m, sink, last_off)
      else
        e ← get_entry body o;
        match e with
        | None => Some (m, sink, last_off)
        | Some (qt, qpath, doff, dt9, nm, o) =>
            let dtype := if negb (dt9 =? 0) then dt9 else dtype_from_qid qt in
            let '(ok, m, sink) := lxp_dirent_put G m p sink qpath doff dtype nm in
            if ok then entries_loop fuel G m p body o end_ sink doff else Some (m, sink, last_off)
        end
  end.

(** ** Connection *)

Section Connection.
Context {N : Type} (net : net_ops N).
Implicit Types (n : netfs) (h : N) (now : Z).

Definition link_map (f : netfs_link -> netfs_link) n : netfs := set_nf_link n (f (nf_link n)).
Definition nconn n : conn_state := lk_conn (nf_link n).
Definition set_conn n (st : conn_state) : netfs := link_map (fun lk => set_lk_conn lk st) n.
Definition set_deadline n (t : Z) : netfs := link_map (fun lk => set_lk_conn_deadline_us lk t) n.

(** [g_txlen = g_txoff = g_rxlen = 0]. *)
Definition buffers_clear n : netfs := link_map (fun lk => set_lk_rxlen (set_lk_txoff (set_lk_txlen lk 0) 0) 0) n.

(** The socket closed and forgotten. *)
Definition sock_drop n h : netfs * N :=
  let h := if negb (lk_sk (nf_link n) =? 0) then sock_close net h (lk_sk (nf_link n)) else h in
  (buffers_clear (set_deadline (set_conn (link_map (fun lk => set_lk_sk lk 0) n) CONN_DOWN) 0), h).

(** What a lost connection does to a request. *)
Definition drop_req (r : netfs_req) : netfs_req :=
  if bool_decide (rq_state r = REQ_QUEUED) || bool_decide (rq_state r = REQ_INFLIGHT)
  then if ref_index (rq_owner r) <? 0 then set_rq_state r REQ_FREE
       else set_rq_state (set_rq_result r (- LXP_EIO)) REQ_DONE
  else r.

Definition drop_open (op : netfs_open) : netfs_open := if no_used op then set_no_stale op true else op.

Definition conn_drop n h : netfs * N :=
  let '(n, h) := sock_drop n h in
  let n := set_nf_req n (map drop_req (nf_req n)) in
  let n := set_nf_inflight n (-1) in
  (set_nf_open n (map drop_open (nf_open n)), h).

Definition conn_attempt_failed n h now : netfs * N :=
  let '(n, h) := sock_drop n h in
  (link_map (fun lk => set_lk_reconnect_at_us lk (u64 (now + NETFS_RECONNECT_US))) n, h).

(** "9P2000.L". *)
Definition VER : list Z := [57; 80; 50; 48; 48; 48; 46; 76].

Definition conn_begin_version n now : option netfs :=
  c ← msg_begin (lk_tx (nf_link n)) P9_TVERSION P9_NOTAG;
  c ← put32 c NETFS_MSIZE;
  c ← putstr c VER;
  n ← with_link n (msg_end (nf_link n) c);
  Some (set_deadline (set_conn n CONN_VERSION_SEND) (u64 (now + 3000000))).

Definition conn_begin_attach n now : option netfs :=
  c ← msg_begin (lk_tx (nf_link n)) P9_TATTACH P9_TAG;
  c ← put32 c P9_ROOT_FID;
  c ← put32 c P9_NOFID;
  c ← putstr c (mt_uname (nf_mnt n));
  c ← putstr c (mt_aname (nf_mnt n));
  c ← put32 c 0;
  n ← with_link n (msg_end (nf_link n) c);
  Some (set_deadline (set_conn n CONN_ATTACH_SEND) (u64 (now + 3000000))).

Definition netfs_sockaddr_ipv4 (b0 b1 b2 b3 port : Z) : lxp_sockaddr :=
  mk_sockaddr LXP_AF_INET port ([b0; b1; b2; b3] ++ replicate 12 0).

Definition fids_clear n : netfs := set_nf_fid_bm n [0].

(** A connected socket begins the handshake with no fids and empty buffers. *)
Definition conn_established n now : option netfs := conn_begin_version (buffers_clear (fids_clear n)) now.

Definition conn_start n h now : option (netfs * N) :=
  let mnt := nf_mnt n in
  if negb (mt_configured mnt) then Some (n, h)
  else if now <? lk_reconnect_at_us (nf_link n) then Some (n, h)
  else
    let n := link_map (fun lk => set_lk_reconnect_at_us lk (u64 (now + NETFS_RECONNECT_US))) n in
    let '(rc, sk, h) := sock_open net h LXP_AF_INET LXP_SOCK_STREAM 0 in
    if negb (rc =? LXP_OK) then Some (link_map (fun lk => set_lk_sk lk 0) n, h)
    else
      let n := link_map (fun lk => set_lk_sk lk sk) n in
      let '(rc, h) := sock_set_nonblock net h sk 1 in
      if negb (rc =? LXP_OK) then Some (conn_attempt_failed n h now)
      else
        let ip := aget 0 (mt_ip mnt) in
        let '(rc, h) := sock_connect net h sk (netfs_sockaddr_ipv4 (ip 0) (ip 1) (ip 2) (ip 3) (mt_port mnt)) 0 in
        if rc =? LXP_ERR_TIMEOUT then Some (set_deadline (set_conn n CONN_CONNECTING) (u64 (now + 5000000)), h)
        else if negb (rc =? LXP_OK) then Some (conn_attempt_failed n h now)
        else n ← conn_established n now; Some (n, h).

(** The outcomes of a phase: [true] when the loop goes on. *)
Definition phase_stop (x : netfs * N) : option (bool * netfs * N) := Some (false, x.1, x.2).

Definition phase_connecting n h now : option (bool * netfs * N) :=
  let lk := nf_link n in
  let events := Z.lor (Z.lor LXP_SOCK_POLLOUT LXP_SOCK_POLLERR) LXP_SOCK_POLLHUP in
  let '(rc, rev, h) := sock_poll net h (lk_sk lk) events 0 in
  if negb (rc =? LXP_OK) then phase_stop (conn_attempt_failed n h now)
  else if Z.land rev events =? 0 then phase_stop (n, h)
  else
    let '(err, h) := sock_get_error net h (lk_sk lk) in
    if negb (err =? LXP_OK) then phase_stop (conn_attempt_failed n h now)
    else n ← conn_established n now; Some (true, n, h).

(** A handshake message is flushed before its reply is awaited. *)
Definition phase_send n h now (next : conn_state) : option (bool * netfs * N) :=
  '(rc, lk, h) ← tx_flush net (nf_link n) h;
  let n := set_nf_link n lk in
  if rc <? 0 then phase_stop (conn_attempt_failed n h now)
  else if rc =? 0 then phase_stop (n, h)
  else Some (true, set_conn n next, h).

(** A handshake reply of [len] bytes and the given type, handed to [k]. *)
Definition phase_recv n h now (k : netfs -> N -> Z -> Z -> option (bool * netfs * N)) : option (bool * netfs * N) :=
  '(rf, lk, h) ← rx_fill net (nf_link n) h;
  let n := set_nf_link n lk in
  if rf <? 0 then phase_stop (conn_attempt_failed n h now)
  else
    len ← rx_message (nf_link n);
    if len =? SIZE_MAX then phase_stop (conn_attempt_failed n h now)
    else if len =? 0 then phase_stop (n, h)
    else '(type, _) ← get8 (lk_rx (nf_link n)) 4; k n h len type.

Definition version_reply now n h (len type : Z) : option (bool * netfs * N) :=
  if (len <? 13) || negb (type =? P9_RVERSION) then phase_stop (conn_attempt_failed n h now)
  else
    '(sm, _) ← get32 (lk_rx (nf_link n)) 7;
    let msize := if sm <? NETFS_MSIZE then sm else NETFS_MSIZE in
    let n := link_map (fun lk => set_lk_msize lk msize) n in
    if msize <? 512 then phase_stop (conn_attempt_failed n h now)
    else n ← conn_begin_attach (link_map (fun lk => rx_consume lk len) n) now; Some (true, n, h).

Definition attach_reply now n h (len type : Z) : option (bool * netfs * N) :=
  if negb (type =? P9_RATTACH) then phase_stop (conn_attempt_failed n h now)
  else
    let n := set_deadline (set_conn (link_map (fun lk => rx_consume lk len) n) CONN_UP) 0 in
    phase_stop (link_map (fun lk => set_lk_generation lk (u32 (lk_generation lk + 1))) n, h).

(** One phase of the handshake. *)
Definition conn_step n h now : option (bool * netfs * N) :=
  match nconn n with
  | CONN_CONNECTING => phase_connecting n h now
  | CONN_VERSION_SEND => phase_send n h now CONN_VERSION_RECV
  | CONN_ATTACH_SEND => phase_send n h now CONN_ATTACH_RECV
  | CONN_VERSION_RECV => phase_recv n h now (version_reply now)
  | CONN_ATTACH_RECV => phase_recv n h now (attach_reply now)
  | CONN_UP | CONN_DOWN => phase_stop (n, h)
  end.

Fixpoint conn_steps (steps : nat) n h now : option (netfs * N) :=
  match steps with
  | O => Some (n, h)
  | S steps => '(more, n, h) ← conn_step n h now; if (more : bool) then conn_steps steps n h now else Some (n, h)
  end.

Definition conn_advance n h now : option (netfs * N) :=
  '(n, h) ← (if decide (nconn n = CONN_DOWN) then conn_start n h now else Some (n, h));
  if decide (nconn n = CONN_DOWN) then Some (n, h)
  else if negb (lk_conn_deadline_us (nf_link n) =? 0) && (now >=? lk_conn_deadline_us (nf_link n))
  then Some (conn_attempt_failed n h now)
  else conn_steps 5 n h now.
End Connection.

(** ** Replies *)

Section Client.
Context {H N B : Type} `{FileOps B} (net : net_ops N).
(** The port's staging buffer and its capacity. *)
Context (stage_buf : Z * Z).
Implicit Types (n : netfs) (c : coord H) (h : N) (now : Z).

Definition cwd_put c (fi : Z) (cwd : list Z) : coord H :=
  let k := rt_k (c_rt c) in
  set_c_rt c (set_rt_k (c_rt c) (set_k_fs_context k (aset (k_fs_context k) fi (set_fsc_cwd (aget fs_context_zero (k_fs_context k) fi) cwd)))).

Definition stat_deliver n c (owner : Z) (r : netfs_req) (st : lxp_stat) : option (Z * coord H) :=
  if rq_statkind r =? NETFS_STAT_EXISTS then Some (0, c)
  else if negb (rq_statkind r =? NETFS_STAT_CHDIR)
  then let '(rc, m) := lxp_stat_copyout (cgenv c) (cmem c) owner (rq_ubuf r) (negb (rq_statkind r =? 0)) st in
       Some (rc, set_cmem c m)
  else if negb (Z.land (st_mode st) LXP_S_IFMT =? LXP_S_IFDIR) then Some (- LXP_ENOTDIR, c)
  else
    let below := if bool_decide (rq_path r = [SLASH]) then [] else rq_path r in
    if alen (mt_mp (nf_mnt n)) + alen below >=? LXP_PATH_MAX then Some (- LXP_ENAMETOOLONG, c)
    else
      let cwd := mt_mp (nf_mnt n) ++ below in
      fi ← p_fs_context (cproc c owner);
      Some (0, cwd_put c fi (if bool_decide (cwd = []) then [SLASH] else cwd)).

(** A reply to a request whose guest is gone. *)
Definition reply_orphan n (i : Z) : option netfs :=
  n ← req_abandon n i; Some (set_nf_inflight (put_req n i (set_rq_state (req_at n i) REQ_FREE)) (-1)).

(** The attributes of a reply, or the request failed. *)
Definition with_attrs n c (i : Z) (body : list Z) (k : Z -> Z -> Z -> Z -> option (netfs * coord H)) : option (netfs * coord H) :=
  a ← parse_getattr body;
  match a with
  | None => n ← req_fail n i (- LXP_EIO); Some (n, c)
  | Some (mode, size, mtime, ino) => k mode size mtime ino
  end.

Definition reply_open n c (i : Z) (body : list Z) : option (netfs * coord H) :=
  let r := req_at n i in
  if rq_step r =? 0 then n ← reply_walk_advance n i body; Some (n, c)
  else if rq_step r =? 1
  then with_attrs n c i body (fun mode size mtime ino =>
         op ← open_ref n (rq_oi r);
         let op := set_no_is_dir op (Z.land mode LXP_S_IFMT =? LXP_S_IFDIR) in
         let op := set_no_ino (set_no_mtime (set_no_size (set_no_mode op mode) size) mtime) ino in
         Some (put_req (put_open n (rq_oi r) op) i (set_rq_step r 2), c))
  else if rq_step r =? 2
  then
    op ← open_ref n (rq_oi r);
    let op := set_no_fid (set_no_stale (set_no_used op true) false) (rq_fid r) in
    let op := set_no_dir_off (set_no_generation op (lk_generation (nf_link n))) 0 in
    Some (req_complete (put_open n (rq_oi r) op) i (rq_oi r), c)
  else n ← req_fail n i (- LXP_EIO); Some (n, c).

Definition reply_read n c (owner i : Z) (body : list Z) : option (netfs * coord H) :=
  let r := req_at n i in
  '(cnt, o) ← reply_data_count body;
  let cnt := if cnt >? rq_ulen r then u32 (rq_ulen r) else cnt in
  let data := map u8 (take (Z.to_nat cnt) (drop (Z.to_nat o) body)) in
  let '(rc, m) := if negb (cnt =? 0) then lxp_copy_to_guest (cgenv c) (cmem c) owner (rq_ubuf r) data else (0, cmem c) in
  let c := set_cmem c m in
  if negb (rc =? 0) then Some (req_complete n i (- LXP_EFAULT), c)
  else
    let n := match open_slot n (rq_oi r) with
             | Some op => put_open n (rq_oi r) (set_no_rd_off op (u64 (no_rd_off op + cnt)))
             | None => n
             end in
    Some (req_complete n i cnt, c).

Definition reply_getdents n c (owner i : Z) (body : list Z) : option (netfs * coord H) :=
  let r := req_at n i in
  '(cnt, o) ← reply_data_count body;
  let sink := mk_sink (rq_ubuf r) (rq_ulen r) 0 0 (rq_is64 r) in
  let op := open_slot n (rq_oi r) in
  let last_off := match op with Some op => no_dir_off op | None => 0 end in
  '(m, sink, last_off) ← entries_loop (S (length body)) (cgenv c) (cmem c) owner body o (o + cnt) sink last_off;
  let c := set_cmem c m in
  if negb (sk_error sink =? 0) then Some (req_complete n i (sk_error sink), c)
  else
    let n := match op with Some op => put_open n (rq_oi r) (set_no_dir_off op last_off) | None => n end in
    Some (req_complete n i (s32 (sk_filled sink)), c).

(** The temporary fid freed and the request complete with its latched result. *)
Definition reply_clunked n (i : Z) : netfs :=
  let r := req_at n i in req_complete (put_req (fid_free n (rq_fid r)) i (set_rq_fid r (-1))) i (rq_result r).

Definition reply_stat n c (owner i : Z) (body : list Z) : option (netfs * coord H) :=
  let r := req_at n i in
  if rq_step r =? 0 then n ← reply_walk_advance n i body; Some (n, c)
  else if rq_step r =? 1
  then with_attrs n c i body (fun mode size mtime ino =>
         '(rc, c) ← stat_deliver n c owner r (netfs_stat_record mode size mtime ino);
         Some (put_req n i (set_rq_step (set_rq_result r rc) 2), c))
  else if rq_step r =? 2 then Some (reply_clunked n i, c)
  else n ← req_fail n i (- LXP_EIO); Some (n, c).

(** A chunk of a fetched program; the copy must lie inside the staging buffer. *)
Definition fetch_chunk n c (i : Z) (body : list Z) : option (netfs * coord H) :=
  let r := req_at n i in
  '(cnt, o) ← reply_data_count body;
  let cnt := if u64 (rq_off r + cnt) >? nf_exec_cap n then u32 (nf_exec_cap n - rq_off r) else cnt in
  let data := map u8 (take (Z.to_nat cnt) (drop (Z.to_nat o) body)) in
  if negb ((0 <=? rq_off r) && (rq_off r + cnt <=? nf_exec_cap n) && (o + cnt <=? alen body)) then None
  else
    let c := set_cmem c (mem_write (cmem c) (nf_exec_buf n + rq_off r) data) in
    let off := rq_off r + cnt in
    let eof := (cnt =? 0) || (off >=? rq_ulen r) in
    let full := off >=? nf_exec_cap n in
    let r := set_rq_off r off in
    let r := if full && negb eof then set_rq_result r (- LXP_ENOEXEC) else r in
    let r := if eof || full then set_rq_step r 4 else r in
    Some (put_req (set_nf_exec_size n (u32 off)) i r, c).

Definition reply_execfetch n c (i : Z) (body : list Z) : option (netfs * coord H) :=
  let r := req_at n i in
  if rq_step r =? 0 then n ← reply_walk_advance n i body; Some (n, c)
  else if rq_step r =? 1
  then with_attrs n c i body (fun mode size _ _ =>
         if negb (Z.land mode LXP_S_IFMT =? LXP_S_IFREG)
         then Some (put_req n i (set_rq_step (set_rq_result r (- LXP_EACCES)) 4), c)
         else Some (put_req n i (set_rq_step (set_rq_ulen r (u32 size)) 2), c))
  else if rq_step r =? 2
  then Some (put_req (set_nf_exec_size n 0) i (set_rq_step (set_rq_off r 0) 3), c)
  else if rq_step r =? 3 then fetch_chunk n c i body
  else if rq_step r =? 4 then Some (reply_clunked n i, c)
  else n ← req_fail n i (- LXP_EIO); Some (n, c).

(** [owner] is [None] for a NULL owner, which no branch that uses it may see. *)
Definition handle_reply n c (i : Z) (owner : option Z) (type : Z) (body : list Z) : option (netfs * coord H) :=
  let r := req_at n i in
  let lift (x : option netfs) := n ← x; Some (n, c) in
  if (ref_index (rq_owner r) <? 0) && negb (rq_op r =? REQ_OP_CLUNK) then lift (reply_orphan n i)
  else if type =? P9_RLERROR
  then ecode ← (if alen body <? 4 then Some LXP_EIO else '(e, _) ← get32 body 0; Some e);
       lift (req_fail n i (s32 (- s32 ecode)))
  else if negb (type =? req_expected_reply r) then lift (req_fail n i (- LXP_EIO))
  else if rq_op r =? LXP_NETFSW_OPEN then reply_open n c i body
  else if rq_op r =? LXP_NETFSW_READ then owner ← owner; reply_read n c owner i body
  else if rq_op r =? LXP_NETFSW_GETDENTS then owner ← owner; reply_getdents n c owner i body
  else if rq_op r =? LXP_NETFSW_STAT then owner ← owner; reply_stat n c owner i body
  else if rq_op r =? LXP_NETFSW_EXECFETCH then reply_execfetch n c i body
  else Some (set_nf_inflight (put_req (fid_free n (rq_fid r)) i (set_rq_state r REQ_FREE)) (-1), c).

(** ** The pump *)

Definition req_owned_by c (r : netfs_req) (proc : option Z) : bool :=
  (ref_index (rq_owner r) >=? 0) &&
  match proc with
  | Some p => match lxp_guest_view_slot (cgenv c) p with inr active => lxp_slot_ref_equal (rq_owner r) active | inl _ => false end
  | None => false
  end.

(** A message sent as far as it goes; [true] when the connection was lost and the caller
    returns. *)
Definition pump_flush n h : option (bool * netfs * N) :=
  '(f, lk, h) ← tx_flush net (nf_link n) h;
  let n := set_nf_link n lk in
  if f <? 0 then let '(n, h) := conn_drop net n h in Some (true, n, h) else Some (false, n, h).

(** The rounds of the reply loop; [true] when the caller returns.  Fuel: a round consumes a
    message. *)
Fixpoint drain_loop (fuel : nat) n c h (owner : option Z) : option (bool * netfs * coord H * N) :=
  match fuel with
  | O => None
  | S fuel =>
      len ← rx_message (nf_link n);
      if len =? SIZE_MAX then let '(n, h) := conn_drop net n h in Some (true, n, c, h)
      else if len =? 0 then Some (false, n, c, h)
      else
        let i := nf_inflight n in
        if negb ((0 <=? i) && (i <? NETFS_NREQ)) then None
        else
          let rx := lk_rx (nf_link n) in
          '(type, _) ← get8 rx 4;
          let body := take (Z.to_nat (len - 7)) (drop 7 rx) in
          '(n, c) ← handle_reply n c i owner type body;
          let n := link_map (fun lk => rx_consume lk len) n in
          '(stop, n, h) ←
            (if bool_decide (rq_state (req_at n i) = REQ_INFLIGHT) && (nf_inflight n >=? 0)
             then '(e, n) ← req_build n i;
                  if e <? 0 then Some (false, req_complete n i e, h) else pump_flush n h
             else Some (false, n, h));
          if (stop : bool) then Some (true, n, c, h)
          else if nf_inflight n <? 0 then Some (false, n, c, h)
          else drain_loop fuel n c h owner
  end.

Definition pump_drain n c h (owner : option Z) : option (bool * netfs * coord H * N) :=
  let i := nf_inflight n in
  if i <? 0 then Some (false, n, c, h)
  else if negb (i <? NETFS_NREQ) then None
  else
    let r := req_at n i in
    if negb (rq_op r =? REQ_OP_CLUNK) && (ref_index (rq_owner r) >=? 0) && negb (req_owned_by c r owner) then Some (true, n, c, h)
    else
      '(rf, lk, h) ← rx_fill net (nf_link n) h;
      let n := set_nf_link n lk in
      if rf <? 0 then let '(n, h) := conn_drop net n h in Some (true, n, c, h)
      else drain_loop (S (Z.to_nat (lk_rxlen (nf_link n)))) n c h owner.

(** The queued request with the lowest sequence number. *)
Definition pick_queued n : option Z :=
  (foldl (fun '(best, bseq) i =>
            let r := req_at n i in
            if bool_decide (rq_state r = REQ_QUEUED) && (rq_seq r <? bseq) then (Some i, rq_seq r) else (best, bseq))
     (None, 0xffffffff) (seqZ 0 NETFS_NREQ)).1.

Definition clunk_request (fid : Z) : netfs_req :=
  set_rq_state (set_rq_fid (set_rq_owner (set_rq_op nreq_zero REQ_OP_CLUNK) lxp_slot_ref_none) fid) REQ_INFLIGHT.

(** The request built and sent as the one in flight. *)
Definition start_queued n h (i : Z) : option (netfs * N) :=
  '(e, n) ← req_build n i;
  if e <? 0 then Some (req_complete n i e, h)
  else let n := set_nf_inflight (put_req n i (set_rq_state (req_at n i) REQ_INFLIGHT)) i in
       '(_, n, h) ← pump_flush n h; Some (n, h).

Definition start_clunk n h (i : Z) : option (netfs * N) :=
  let n := put_req n i (clunk_request (aget 0 (nf_clunk_fid n) (nf_clunk_head n))) in
  let n := set_nf_inflight (set_nf_clunk_head n ((nf_clunk_head n + 1) mod NETFS_NCLUNK)) i in
  '(e, n) ← req_build n i;
  if e =? 0 then '(_, n, h) ← pump_flush n h; Some (n, h) else Some (n, h).

Definition pump_start n c h (owner : option Z) : option (netfs * N) :=
  if (nf_inflight n <? 0) && (lk_txoff (nf_link n) =? lk_txlen (nf_link n))
  then match pick_queued n with
       | Some i => if negb (req_owned_by c (req_at n i) owner) then Some (n, h) else start_queued n h i
       | None => if negb (nf_clunk_head n =? nf_clunk_tail n)
                 then match List.find (fun i => bool_decide (rq_state (req_at n i) = REQ_FREE)) (seqZ 0 NETFS_NREQ) with
                      | Some i => start_clunk n h i
                      | None => Some (n, h)
                      end
                 else Some (n, h)
       end
  else Some (n, h).

Definition pump n c h (owner : option Z) now : option (netfs * coord H * N) :=
  '(n, h) ← (if decide (nconn n = CONN_UP) then Some (n, h) else conn_advance net n h now);
  if negb (bool_decide (nconn n = CONN_UP)) then Some (n, c, h)
  else
    '(f, lk, h) ← tx_flush net (nf_link n) h;
    let n := set_nf_link n lk in
    if f <? 0 then let '(n, h) := conn_drop net n h in Some (n, c, h)
    else if f =? 0 then Some (n, c, h)
    else
      '(stop, n, c, h) ← pump_drain n c h owner;
      if (stop : bool) then Some (n, c, h)
      else '(n, h) ← pump_start n c h owner; Some (n, c, h).

(** ** Submitting a request *)

(** [p->wait.data.io.object = oi] and [.request = i]. *)
Definition set_io_object (w : lxp_wait) (oi : Z) : lxp_wait :=
  match w_data w with
  | WD_IO _ rq buf len off cmd dl => mk_wait (w_kind w) (w_op w) (w_flags w) (w_enqueued_us w) (WD_IO oi rq buf len off cmd dl)
  | _ => w
  end.
Definition set_io_request (w : lxp_wait) (i : Z) : lxp_wait :=
  match w_data w with
  | WD_IO oi _ buf len off cmd dl => mk_wait (w_kind w) (w_op w) (w_flags w) (w_enqueued_us w) (WD_IO oi i buf len off cmd dl)
  | _ => w
  end.
Definition io_request (w : lxp_wait) : Z := match w_data w with WD_IO _ i _ _ _ _ _ => i | _ => -1 end.
Definition wait_map c (p : Z) (f : lxp_wait -> lxp_wait) : coord H := put_cproc c p (set_p_wait (cproc c p) (f (p_wait (cproc c p)))).

(** The request's index, [None] for NULL; [tus] is the clock of [lxp_wait_begin]. *)
Definition req_new (tus : option Z) n c (p op : Z) : option Z * netfs * coord H :=
  match lxp_guest_view_slot (cgenv c) p with
  | inl _ => (None, n, c)
  | inr owner =>
      match List.find (fun i => bool_decide (rq_state (req_at n i) = REQ_FREE)) (seqZ 0 NETFS_NREQ) with
      | None => (None, n, c)
      | Some i =>
          let r := mk_nreq REQ_QUEUED op 0 owner (nf_req_seq n) (-1) (-1) 0 0 0 0 0 false [] 0 in
          let n := set_nf_req_seq (put_req n i r) (u32 (nf_req_seq n + 1)) in
          let wait := mk_wait LXP_WAIT_NETFS op 0 0 (WD_IO (-1) i 0 0 0 0 0) in
          let '(rc, pr) := lxp_wait_begin tus (cproc c p) wait in
          let c := put_cproc c p pr in
          if negb (rc =? 0) then (None, put_req n i (set_rq_state r REQ_FREE), c) else (Some i, n, c)
      end
  end.

(** ** Mount configuration *)

Record lxp_netfs_config := mk_netfs_config {
  nc_mountpoint : option (list Z); nc_server_ip : list Z; nc_port : Z; nc_aname : option (list Z); nc_uname : option (list Z);
}.

Definition lxp_netfs_config_string_fits (text : option (list Z)) (cap : Z) (allow_empty : bool) : bool :=
  match text with None => allow_empty | Some s => (alen s <? cap) && (allow_empty || negb (alen s =? 0)) end.

Definition lxp_netfs_config_valid (config : option lxp_netfs_config) : bool :=
  match config with
  | None => false
  | Some cf =>
      match nc_mountpoint cf with
      | None => false
      | Some mp =>
          (aget 0 mp 0 =? SLASH) && lxp_netfs_config_string_fits (Some mp) LXP_NETFS_MOUNTPOINT_CAP false &&
          negb (nc_port cf =? 0) && lxp_netfs_config_string_fits (nc_aname cf) LXP_NETFS_ANAME_CAP true &&
          lxp_netfs_config_string_fits (nc_uname cf) LXP_NETFS_UNAME_CAP true
      end
  end.

(** Static storage at power-up, but for the transport buffers' contents. *)
Definition netfs_clear (lk : netfs_link) : netfs :=
  mk_netfs mnt_zero lk [0] (replicate (Z.to_nat NETFS_NOPEN) nopen_zero) (replicate (Z.to_nat NETFS_NCLUNK) 0) 0 0
    (replicate (Z.to_nat NETFS_NREQ) nreq_zero) 0 (-1) 0 0 0.

Definition lxp_netfs_shutdown n h : netfs * N :=
  let lk := nf_link n in
  let h := if negb (lk_sk lk =? 0) then sock_close net h (lk_sk lk) else h in
  (netfs_clear (mk_link 0 CONN_DOWN NETFS_MSIZE (lk_generation lk) 0 0 (lk_tx lk) 0 0 (lk_rx lk) 0), h).

(** "root". *)
Definition default_uname : list Z := [114; 111; 111; 116].

(** [tus] is what [lxp_time_us] stores. *)
Definition lxp_netfs_init (tus : option Z) n h (config : option lxp_netfs_config) : option (Z * netfs * N) :=
  let '(n, h) := lxp_netfs_shutdown n h in
  match config with
  | None => Some (LXP_OK, n, h)
  | Some cf =>
      if negb (lxp_netfs_config_valid config) then Some (LXP_ERR_INVALID_PARAM, n, h)
      else
        let mp := default [] (nc_mountpoint cf) in
        let aname := default [] (nc_aname cf) in
        let uname := match nc_uname cf with Some (x :: t) => x :: t | _ => default_uname end in
        let n := set_nf_mnt n (mk_mnt mp (alen mp) (nc_server_ip cf) (nc_port cf) aname uname true) in
        let n := link_map (fun lk => set_lk_reconnect_at_us lk 0) n in
        '(n, h) ← conn_advance net n h (default 0 tus);
        Some (LXP_OK, n, h)
  end.

(** ** Entry points *)

Definition lxp_netfs_mountpoint n : option (list Z) :=
  if mt_configured (nf_mnt n) && negb (mt_mplen (nf_mnt n) =? 0) then Some (mt_mp (nf_mnt n)) else None.

Definition lxp_netfs_lookup n (abspath : list Z) : Z :=
  match lxp_netfs_mountpoint n with Some mp => if negb (lxp_path_under abspath mp =? 0) then 0 else -1 | None => -1 end.

Definition relpath n (abspath : list Z) : list Z :=
  match drop (Z.to_nat (mt_mplen (nf_mnt n))) abspath with [] => [SLASH] | rp => rp end.

Definition lxp_netfs_open (tus : option Z) n c (p : Z) (abspath : list Z) (flags : Z) : Z * netfs * coord H :=
  if has flags (Z.lor (Z.lor LXP_O_WRONLY LXP_O_RDWR) (Z.lor LXP_O_CREAT LXP_O_TRUNC)) then (- LXP_EROFS, n, c)
  else
    let rp := relpath n abspath in
    if alen rp >=? LXP_PATH_MAX then (- LXP_ENAMETOOLONG, n, c)
    else
      match List.find (fun i => negb (no_used (open_at n i))) (seqZ 0 NETFS_NOPEN) with
      | None => (- LXP_EMFILE, n, c)
      | Some oi =>
          match req_new tus n c p LXP_NETFSW_OPEN with
          | (None, n, c) => (- LXP_EMFILE, n, c)
          | (Some i, n, c) =>
              let n := put_open n oi (set_no_used nopen_zero true) in
              let n := put_req n i (set_rq_path (set_rq_flags (set_rq_oi (req_at n i) oi) flags) rp) in
              (0, n, wait_map c p (fun w => set_io_object w oi))
          end
      end.

Definition lxp_netfs_read (tus : option Z) n c (p oi ubuf len : Z) : Z * netfs * coord H :=
  match open_slot n oi with
  | None => (- LXP_EBADF, n, c)
  | Some op =>
      if no_stale op then (- LXP_ESTALE, n, c)
      else if no_is_dir op then (- LXP_EISDIR, n, c)
      else if len =? 0 then (0, n, c)
      else if negb (lxp_guest_access_ok (cgenv c) p ubuf len true) then (- LXP_EFAULT, n, c)
      else match req_new tus n c p LXP_NETFSW_READ with
           | (None, n, c) => (- LXP_EMFILE, n, c)
           | (Some i, n, c) =>
               let n := put_req n i (set_rq_ulen (set_rq_ubuf (set_rq_oi (req_at n i) oi) ubuf) len) in
               (0, n, wait_map c p (fun w => set_io_object w oi))
           end
  end.

Definition lxp_netfs_lseek n (oi off whence : Z) : Z * netfs :=
  match open_slot n oi with
  | None => (- LXP_EBADF, n)
  | Some op =>
      if no_is_dir op then (- LXP_EISDIR, n)
      else
        let base := if whence =? LXP_SEEK_CUR then no_rd_off op else if whence =? LXP_SEEK_END then no_size op else 0 in
        if (base >? INT64_MAX) || ((off >? 0) && (base >? INT64_MAX - off)) then (- LXP_EOVERFLOW, n)
        else let np := base + off in
             if np <? 0 then (- LXP_EINVAL, n) else (np, put_open n oi (set_no_rd_off op np))
  end.

Definition lxp_netfs_getdents (tus : option Z) n c (p oi ubuf cap : Z) (is64 : bool) : Z * netfs * coord H :=
  match open_slot n oi with
  | None => (- LXP_EBADF, n, c)
  | Some op =>
      if no_stale op then (- LXP_ESTALE, n, c)
      else if negb (no_is_dir op) then (- LXP_ENOTDIR, n, c)
      else if negb (lxp_guest_access_ok (cgenv c) p ubuf cap true) then (- LXP_EFAULT, n, c)
      else match req_new tus n c p LXP_NETFSW_GETDENTS with
           | (None, n, c) => (- LXP_EMFILE, n, c)
           | (Some i, n, c) =>
               let n := put_req n i (set_rq_is64 (set_rq_ulen (set_rq_ubuf (set_rq_oi (req_at n i) oi) ubuf) cap) is64) in
               (0, n, wait_map c p (fun w => set_io_object w oi))
           end
  end.

Definition lxp_netfs_stat (tus : option Z) n c (p : Z) (abspath : list Z) (ustat statkind : Z) : Z * netfs * coord H :=
  let rp := relpath n abspath in
  if alen rp >=? LXP_PATH_MAX then (- LXP_ENAMETOOLONG, n, c)
  else match req_new tus n c p LXP_NETFSW_STAT with
       | (None, n, c) => (- LXP_EMFILE, n, c)
       | (Some i, n, c) =>
           let n := put_req n i (set_rq_path (set_rq_statkind (set_rq_ubuf (req_at n i) ustat) statkind) rp) in
           (0, n, wait_map c p (fun w => set_io_object w (-1)))
       end.

Definition lxp_netfs_access (tus : option Z) n c (p : Z) (abspath : list Z) (mode : Z) : Z * netfs * coord H :=
  if has mode 2 then (- LXP_EROFS, n, c) else lxp_netfs_stat tus n c p abspath 0 NETFS_STAT_EXISTS.

Definition lxp_netfs_chdir (tus : option Z) n c (p : Z) (abspath : list Z) : Z * netfs * coord H :=
  lxp_netfs_stat tus n c p abspath 0 NETFS_STAT_CHDIR.

Definition lxp_netfs_fstat n (oi : Z) : option (Z * Z * Z * Z) :=
  match open_slot n oi with None => None | Some op => Some (no_mode op, no_size op, no_mtime op, no_ino op) end.

Definition lxp_netfs_close n (oi : Z) : netfs :=
  match open_slot n oi with
  | None => n
  | Some op =>
      let n := if negb (no_stale op) && (no_fid op >? 0) then clunk_enqueue n (no_fid op) else fid_free n (no_fid op) in
      put_open n oi (set_no_used op false)
  end.

Definition lxp_netfs_cancel n c (p : Z) : option (netfs * coord H) :=
  match lxp_guest_view_slot (cgenv c) p with
  | inl _ => Some (n, c)
  | inr owner =>
      let w := p_wait (cproc c p) in
      let waits := bool_decide (w_kind w = LXP_WAIT_NETFS) in
      let ri := if waits then io_request w else -1 in
      let c := if waits then wait_map c p (fun w => set_io_request w (-1)) else c in
      if (ri <? 0) || (ri >=? NETFS_NREQ) then Some (n, c)
      else
        let r := req_at n ri in
        if negb (lxp_slot_ref_equal (rq_owner r) owner) then Some (n, c)
        else
          let r := set_rq_ubuf (set_rq_owner r lxp_slot_ref_none) 0 in
          let n := put_req n ri r in
          if bool_decide (rq_state r = REQ_INFLIGHT) then Some (n, c)
          else
            let n := if rq_fid r >? 0 then clunk_enqueue n (rq_fid r) else n in
            n ← (if (rq_op r =? LXP_NETFSW_OPEN) && (rq_oi r >=? 0) then open_release n (rq_oi r) else Some n);
            Some (put_req n ri (set_rq_state (set_rq_fid r (-1)) REQ_FREE), c)
  end.

(** Also the staging buffer's owner [st]. *)
Definition lxp_netfs_exec_fetch (tus : option Z) n c (st : exec_stage) (p : Z) (abspath : list Z) : Z * netfs * coord H * exec_stage :=
  let rp := relpath n abspath in
  if alen rp >=? LXP_PATH_MAX then (- LXP_ENAMETOOLONG, n, c, st)
  else
    let '(claimed, st) := lxp_exec_stage_claim stage_buf (cproc c) st p in
    let n := set_nf_exec_buf n stage_buf.1 in
    if claimed <? 0 then (claimed, n, c, st)
    else
      let n := set_nf_exec_size (set_nf_exec_cap n stage_buf.2) 0 in
      match req_new tus n c p LXP_NETFSW_EXECFETCH with
      | (None, n, c) => (- LXP_EMFILE, n, c, st)
      | (Some i, n, c) =>
          let n := put_req n i (set_rq_off (set_rq_path (req_at n i) rp) 0) in
          (0, n, wait_map c p (fun w => set_io_object w (-1)), st)
      end.

(** ** Retrying, ticking *)

(** What a finished request gives its guest. *)
Definition retry_finish n c (b : B) (st : exec_stage) (p i : Z) : Z * netfs * coord H * B * exec_stage :=
  let r := req_at n i in
  let n := put_req n i (set_rq_state r REQ_FREE) in
  let c := wait_map c p (fun w => set_io_request w (-1)) in
  if (rq_op r =? LXP_NETFSW_OPEN) && (rq_result r >=? 0)
  then
    let '(fd, k, b) := lxp_fd_install (rt_k (c_rt c)) b (p_files (cproc c p)) LXP_FD_NET (rq_oi r) (rq_flags r) in
    let c := set_c_rt c (set_rt_k (c_rt c) k) in
    if fd <? 0 then (- LXP_EMFILE, lxp_netfs_close n (rq_oi r), c, b, st) else (fd, n, c, b, st)
  else if (rq_op r =? LXP_NETFSW_EXECFETCH) && (rq_result r >=? 0)
  then
    if negb (lxp_loader_validate_fdpic (cmem c) (nf_exec_buf n) (nf_exec_size n) LXP_PROG_REGION_SIZE true =? LXP_OK)
    then (- LXP_ENOEXEC, n, c, b, st)
    else
      let c := put_cproc c p (lxp_wait_complete (cproc c p) LXP_WAIT_NETFS).2 in
      let st := lxp_exec_stage_publish st p (nf_exec_size n) in
      let '(rc, pr) := lxp_intent_begin (cproc c p) LXP_INTENT_EXEC in
      let c := put_cproc c p pr in
      if negb (rc =? 0) then (- LXP_EAGAIN, n, c, b, st)
      else (0, n, put_cproc c p (set_p_exec_file_idx (cproc c p) LXP_EXEC_STAGED), b, st)
  else (rq_result r, n, c, b, st).

Definition lxp_netfs_retry (tus : option Z) n c h (b : B) (st : exec_stage) (p : Z) : option (Z * netfs * coord H * N * B * exec_stage) :=
  let w := p_wait (cproc c p) in
  if negb (bool_decide (w_kind w = LXP_WAIT_NETFS)) then Some (- LXP_EINVAL, n, c, h, b, st)
  else
    match lxp_guest_view_slot (cgenv c) p with
    | inl _ => Some (- LXP_ESRCH, n, c, h, b, st)
    | inr owner =>
        let ri := io_request w in
        if (ri <? 0) || (ri >=? NETFS_NREQ) then Some (- LXP_EBADF, n, c, h, b, st)
        else if negb (lxp_slot_ref_equal (rq_owner (req_at n ri)) owner) then Some (- LXP_ESTALE, n, c, h, b, st)
        else
          '(n, c, h) ← pump n c h (Some p) (default 0 tus);
          if negb (bool_decide (rq_state (req_at n ri) = REQ_DONE)) then Some (- LXP_EAGAIN, n, c, h, b, st)
          else let '(rc, n, c, b, st) := retry_finish n c b st p ri in Some (rc, n, c, h, b, st)
    end.

Definition lxp_netfs_tick n c h now : option (netfs * coord H * N) :=
  if (nf_inflight n >=? 0) && (ref_index (rq_owner (req_at n (nf_inflight n))) >=? 0) then Some (n, c, h)
  else if existsb (fun i => bool_decide (rq_state (req_at n i) = REQ_QUEUED) && (ref_index (rq_owner (req_at n i)) >=? 0))
            (seqZ 0 NETFS_NREQ)
  then Some (n, c, h)
  else pump n c h None now.

Definition lxp_netfs_busy n : bool :=
  (nf_inflight n >=? 0) || negb (nf_clunk_head n =? nf_clunk_tail n) ||
  existsb (fun i => bool_decide (rq_state (req_at n i) = REQ_QUEUED)) (seqZ 0 NETFS_NREQ).

(** ** File operations *)

Definition fop_read_netfs (tus : option Z) n c (p : Z) (s : lxp_ofd) (buf len : Z) : Z * netfs * coord H :=
  lxp_netfs_read tus n c p (ofd_file_idx s) buf len.
Definition fop_lseek_netfs n (s : lxp_ofd) (off whence : Z) : Z * netfs := lxp_netfs_lseek n (ofd_file_idx s) off whence.
Definition fop_getdents_netfs (tus : option Z) n c (p : Z) (s : lxp_ofd) (sink : lxp_dirent_sink) : Z * netfs * coord H :=
  lxp_netfs_getdents tus n c p (ofd_file_idx s) (sk_ubuf sink) (sk_cap sink) (sk_is64 sink).
Definition fop_fstat_netfs n (s : lxp_ofd) : Z + lxp_stat :=
  match lxp_netfs_fstat n (ofd_file_idx s) with
  | None => inl (- LXP_EBADF)
  | Some (mode, size, mtime, ino) => inr (netfs_stat_record mode size mtime ino)
  end.
Definition fop_close_netfs n (s : lxp_ofd) : netfs := lxp_netfs_close n (ofd_file_idx s).

Definition netfs_mount_exec (tus : option Z) n c (st : exec_stage) (p : Z) (path : list Z) : Z * netfs * coord H * exec_stage :=
  let '(rc, n, c, st) := lxp_netfs_exec_fetch tus n c st p path in (if rc <? 0 then rc else 1, n, c, st).
End Client.
