(* ===== verification/NetfsSpec.v ===== *)
(** * Well-formedness of the 9P client

    The bounds every operation relies on: the transport buffers, the pools and their
    indices, and for each request in use its path, its open slot and, for a fetched program,
    its place in the staging buffer.  Each operation below the pump has a result from a
    well-formed state, and keeps it well formed. *)

From S2P Require Import Prelude Config Path Proc Pool Fd Guest Wait Arena Process Runtime Event Region Lifecycle.
From S2P Require Import Signal SysSignal Child SignalRoute Loader Image Exec Stat NetfsWire Netfs.
Local Open Scope Z_scope.

Section Spec.
(** The port's staging buffer. *)
Context (stage_buf : Z * Z).
Implicit Types (n : netfs) (r : netfs_req).

Definition req_ok (st : Z * Z) r : Prop :=
  (rq_op r = LXP_NETFSW_OPEN -> rq_oi r < NETFS_NOPEN) /\
  (rq_state r <> REQ_FREE ->
   alen (rq_path r) < LXP_PATH_MAX /\ (rq_op r = LXP_NETFSW_OPEN -> 0 <= rq_oi r) /\
   (rq_op r = LXP_NETFSW_EXECFETCH -> st = stage_buf /\ (rq_step r = 3 -> 0 <= rq_off r <= stage_buf.2))).

Lemma req_live st r :
  req_ok st r -> rq_state r <> REQ_FREE ->
  alen (rq_path r) < LXP_PATH_MAX /\ (rq_op r = LXP_NETFSW_OPEN -> 0 <= rq_oi r < NETFS_NOPEN) /\
  (rq_op r = LXP_NETFSW_EXECFETCH -> st = stage_buf /\ (rq_step r = 3 -> 0 <= rq_off r <= stage_buf.2)).
Proof. intros [Ho Hl] Hs. destruct (Hl Hs) as (Hp & Hi & He). split; [done|]. split; [|done]. intros E. split; [by apply Hi|by apply Ho]. Qed.

Lemma req_ok_live st r :
  alen (rq_path r) < LXP_PATH_MAX -> (rq_op r = LXP_NETFSW_OPEN -> 0 <= rq_oi r < NETFS_NOPEN) ->
  (rq_op r = LXP_NETFSW_EXECFETCH -> st = stage_buf /\ (rq_step r = 3 -> 0 <= rq_off r <= stage_buf.2)) -> req_ok st r.
Proof. intros Hp Ho He. split; [intros E; by apply Ho|]. intros _. split; [done|]. split; [intros E; by apply Ho|done]. Qed.

(** A slot that is released keeps its last request's index. *)
Lemma req_ok_free st r0 r : req_ok st r0 -> rq_state r = REQ_FREE -> rq_op r = rq_op r0 -> rq_oi r = rq_oi r0 -> req_ok st r.
Proof. intros [Ho _] Hs E1 E2. split; [rewrite E1, E2; done|done]. Qed.

Definition negotiated (st : conn_state) : Prop := st = CONN_ATTACH_SEND \/ st = CONN_ATTACH_RECV \/ st = CONN_UP.

Record netfs_ok n : Prop := mk_netfs_ok {
  ok_link : link_ok (nf_link n);
  ok_msize : negotiated (nconn n) -> 512 <= lk_msize (nf_link n) <= NETFS_MSIZE;
  ok_bm : alen (nf_fid_bm n) = 1;
  ok_open : alen (nf_open n) = NETFS_NOPEN;
  ok_clunk : alen (nf_clunk_fid n) = NETFS_NCLUNK /\ 0 <= nf_clunk_head n < NETFS_NCLUNK /\ 0 <= nf_clunk_tail n < NETFS_NCLUNK;
  ok_reqs : alen (nf_req n) = NETFS_NREQ;
  ok_req : Forall (req_ok (nf_exec_buf n, nf_exec_cap n)) (nf_req n);
  ok_inflight : nf_inflight n = -1 \/ (0 <= nf_inflight n < NETFS_NREQ /\ rq_state (req_at n (nf_inflight n)) = REQ_INFLIGHT);
  ok_mnt : alen (mt_uname (nf_mnt n)) < LXP_NETFS_UNAME_CAP /\ alen (mt_aname (nf_mnt n)) < LXP_NETFS_ANAME_CAP;
}.

(** ** Field updates *)

Lemma req_at_put n i j r : 0 <= i < alen (nf_req n) -> 0 <= j -> req_at (put_req n i r) j = if decide (i = j) then r else req_at n j.
Proof. intros. unfold req_at, put_req. cbn [nf_req set_nf_req]. by apply aget_aset. Qed.

Lemma req_at_put_eq n i r : 0 <= i < alen (nf_req n) -> req_at (put_req n i r) i = r.
Proof. intros. by apply aget_aset_eq. Qed.

Lemma open_at_put_eq n i op : 0 <= i < alen (nf_open n) -> open_at (put_open n i op) i = op.
Proof. intros. by apply aget_aset_eq. Qed.

Lemma ok_req_at n i : netfs_ok n -> 0 <= i < NETFS_NREQ -> req_ok (nf_exec_buf n, nf_exec_cap n) (req_at n i).
Proof. intros Hn Hi. apply (Forall_aget (req_ok _)); [apply Hn|]. by rewrite (ok_reqs _ Hn). Qed.

Lemma ok_put_req n i r :
  netfs_ok n -> 0 <= i < NETFS_NREQ -> req_ok (nf_exec_buf n, nf_exec_cap n) r -> (nf_inflight n = i -> rq_state r = REQ_INFLIGHT) ->
  netfs_ok (put_req n i r).
Proof.
  intros Hn Hi Hr Hf. pose proof (ok_reqs _ Hn) as Hlen. destruct Hn. split; try done.
  - cbn. by rewrite alen_aset.
  - cbn. by apply Forall_aset.
  - destruct ok_inflight0 as [E|[Hb Hs]]; [by left|]. right. split; [done|]. rewrite req_at_put; [|lia|exact (proj1 Hb)]. case_decide as E; [|done].
    by apply Hf.
Qed.

(** The request leaves the wire. *)
Lemma ok_finish_req n i r :
  netfs_ok n -> 0 <= i < NETFS_NREQ -> req_ok (nf_exec_buf n, nf_exec_cap n) r -> netfs_ok (set_nf_inflight (put_req n i r) (-1)).
Proof.
  intros Hn Hi Hr. destruct Hn. split; try done.
  - cbn. by rewrite alen_aset.
  - cbn. by apply Forall_aset.
  - by left.
Qed.

(** The request goes on the wire. *)
Lemma ok_start_req n i r :
  netfs_ok n -> 0 <= i < NETFS_NREQ -> req_ok (nf_exec_buf n, nf_exec_cap n) r -> rq_state r = REQ_INFLIGHT ->
  netfs_ok (set_nf_inflight (put_req n i r) i).
Proof.
  intros Hn Hi Hr Hs. pose proof (ok_reqs _ Hn). destruct Hn. split; try done.
  - cbn. by rewrite alen_aset.
  - cbn. by apply Forall_aset.
  - right. split; [done|]. cbn [nf_inflight set_nf_inflight]. change (req_at (set_nf_inflight ?m ?j) ?k) with (req_at m k).
    rewrite req_at_put_eq by lia. done.
Qed.

Lemma ok_put_open n oi op : netfs_ok n -> netfs_ok (put_open n oi op).
Proof. intros []. split; try done. cbn. by rewrite alen_aset. Qed.

Lemma ok_set_link n lk :
  netfs_ok n -> link_ok lk -> (negotiated (lk_conn lk) -> 512 <= lk_msize lk <= NETFS_MSIZE) -> netfs_ok (set_nf_link n lk).
Proof. intros [] Hl Hm. by split. Qed.

Lemma ok_set_link_same n lk :
  netfs_ok n -> link_ok lk -> lk_conn lk = lk_conn (nf_link n) -> lk_msize lk = lk_msize (nf_link n) -> netfs_ok (set_nf_link n lk).
Proof. intros Hn Hl Hc Hm. apply ok_set_link; [done|done|]. rewrite Hc, Hm. apply (ok_msize _ Hn). Qed.

Lemma ok_set_bm n bm : netfs_ok n -> alen bm = 1 -> netfs_ok (set_nf_fid_bm n bm).
Proof. intros [] Hb. by split. Qed.

Lemma ok_fid_free n f : netfs_ok n -> netfs_ok (fid_free n f).
Proof. intros Hn. unfold fid_free. destruct (_ && _); [|done]. apply ok_set_bm; [done|]. rewrite alen_aset. apply Hn. Qed.

Lemma ok_fid_alloc n : netfs_ok n -> netfs_ok (fid_alloc n).2.
Proof. intros Hn. unfold fid_alloc. destruct (List.find _ _); [|done]. apply ok_set_bm; [done|]. rewrite alen_aset. apply Hn. Qed.

Lemma ok_clunk_enqueue n f : netfs_ok n -> netfs_ok (clunk_enqueue n f).
Proof.
  intros Hn. unfold clunk_enqueue. destruct (f <=? 0); [done|]. destruct (_ =? nf_clunk_head n); [by apply ok_fid_free|].
  destruct Hn. split; try done. cbn. rewrite alen_aset. destruct ok_clunk0 as (? & ? & ?). split_and!; try lia; apply Z.mod_pos_bound; done.
Qed.

(** Allocating, freeing and queueing fids touch the bitmap and the queue alone. *)
Definition nf_core n := (nf_mnt n, nf_link n, nf_open n, nf_req n, nf_req_seq n, nf_inflight n, (nf_exec_buf n, nf_exec_cap n, nf_exec_size n)).

Lemma core_fid_free n f : nf_core (fid_free n f) = nf_core n.
Proof. unfold fid_free. by destruct (_ && _). Qed.
Lemma core_fid_alloc n : nf_core (fid_alloc n).2 = nf_core n.
Proof. unfold fid_alloc. by destruct (List.find _ _). Qed.
Lemma core_clunk_enqueue n f : nf_core (clunk_enqueue n f) = nf_core n.
Proof. unfold clunk_enqueue. destruct (f <=? 0); [done|]. destruct (_ =? _); [apply core_fid_free|done]. Qed.

Lemma core_fields n m :
  nf_core m = nf_core n ->
  nf_mnt m = nf_mnt n /\ nf_link m = nf_link n /\ nf_open m = nf_open n /\ nf_req m = nf_req n /\ nf_req_seq m = nf_req_seq n /\
  nf_inflight m = nf_inflight n /\ nf_exec_buf m = nf_exec_buf n /\ nf_exec_cap m = nf_exec_cap n /\ nf_exec_size m = nf_exec_size n.
Proof. unfold nf_core. intros [=]. done. Qed.

Lemma core_req_at n m i : nf_core m = nf_core n -> req_at m i = req_at n i.
Proof. intros E. apply core_fields in E as (_ & _ & _ & E & _). unfold req_at. by rewrite E. Qed.

Lemma core_exec n m : nf_core m = nf_core n -> (nf_exec_buf m, nf_exec_cap m) = (nf_exec_buf n, nf_exec_cap n).
Proof. intros E. apply core_fields in E as (_ & _ & _ & _ & _ & _ & -> & -> & _). done. Qed.

Lemma fid_alloc_range n : (fid_alloc n).1 = -1 \/ 0 < (fid_alloc n).1 < NETFS_NFID.
Proof.
  unfold fid_alloc. destruct (List.find _ _) as [f|] eqn:E; [right|by left]. apply find_some in E as [E _].
  apply list_elem_of_In, elem_of_seqZ in E. cbn [fst]. lia.
Qed.

(** ** The messages of a request *)

Lemma msg_getattr_sends lk fid :
  19 <= alen (lk_tx lk) -> msg_getattr lk fid = Some (sends lk P9_TLGETATTR P9_TAG (le_bytes 4 (u32 fid) ++ le_bytes 8 P9_GETATTR_BASIC)).
Proof.
  intros Hl. unfold msg_getattr. rewrite <- msg_built by (unfold alen in *; rewrite length_app, !length_le_bytes; lia).
  destruct (msg_begin _ _ _) as [c1|]; [|done]. cbn [mbind option_bind]. rewrite put_bytes_app, put32_bytes.
  destruct (put_bytes c1 _) as [c2|]; [|done]. cbn [mbind option_bind]. by rewrite put64_bytes.
Qed.

Lemma msg_lopen_sends lk fid :
  15 <= alen (lk_tx lk) -> msg_lopen lk fid = Some (sends lk P9_TLOPEN P9_TAG (le_bytes 4 (u32 fid) ++ le_bytes 4 0)).
Proof.
  intros Hl. unfold msg_lopen. rewrite <- msg_built by (unfold alen in *; rewrite length_app, !length_le_bytes; lia).
  destruct (msg_begin _ _ _) as [c1|]; [|done]. cbn [mbind option_bind]. rewrite put_bytes_app, put32_bytes.
  destruct (put_bytes c1 _) as [c2|]; [|done]. cbn [mbind option_bind]. by rewrite put32_bytes.
Qed.

Lemma put_names_bytes c names : put_names c names = put_bytes c (concat (map wire_str names)).
Proof.
  revert c. induction names as [|s t IH]; intros c; cbn [put_names map concat]; [done|].
  rewrite put_bytes_app, putstr_bytes. destruct (put_bytes c _); [|done]. apply IH.
Qed.

(** The body of a walk from the root to [fid]. *)
Definition walk_body (fid : Z) (comps : list (list Z)) : list Z :=
  le_bytes 4 P9_ROOT_FID ++ le_bytes 4 (u32 fid) ++ le_bytes 2 (u16 (alen comps)) ++ concat (map wire_str comps).

Lemma walk_body_fits fid path : alen path < LXP_PATH_MAX -> 7 + alen (walk_body fid (components path)) <= NETFS_MSIZE.
Proof.
  intros Hp. pose proof (components_bytes path). unfold walk_body, alen in *. rewrite !length_app, !length_le_bytes.
  unfold LXP_PATH_MAX, NETFS_MSIZE in *. lia.
Qed.

(** What a walk does: too many components or no fid fail the request, otherwise the message
    is ready and the request holds a fresh fid. *)
Lemma msg_walk_spec n i :
  link_ok (nf_link n) -> alen (rq_path (req_at n i)) < LXP_PATH_MAX ->
  msg_walk n i =
    let comps := components (rq_path (req_at n i)) in
    let fid := (fid_alloc n).1 in
    let n1 := put_req (fid_alloc n).2 i (set_rq_fid (req_at n i) fid) in
    if negb (alen comps <=? NETFS_MAXWELEM) then Some (- LXP_ENAMETOOLONG, n)
    else if fid <? 0 then Some (- LXP_EMFILE, n1)
    else Some (0, set_nf_link n1 (sends (nf_link n) P9_TWALK P9_TAG (walk_body fid comps))).
Proof.
  intros Hl Hp. unfold msg_walk. rewrite path_split_components by done. cbv zeta.
  destruct (alen (components _) <=? NETFS_MAXWELEM); cbn [negb]; [|done].
  pose proof (core_fid_alloc n) as Hc. destruct (fid_alloc n) as [fid m]. cbn [fst snd] in *.
  rewrite (core_req_at n m) by done. destruct (fid <? 0); [done|].
  apply core_fields in Hc as (_ & El & _). set (n1 := put_req m i _). change (nf_link n1) with (nf_link m). rewrite El.
  assert (E : (c ← msg_begin (lk_tx (nf_link n)) P9_TWALK P9_TAG; c ← put_bytes c (walk_body fid (components (rq_path (req_at n i)))); msg_end (nf_link n) c) =
              Some (sends (nf_link n) P9_TWALK P9_TAG (walk_body fid (components (rq_path (req_at n i)))))).
  { apply msg_built. rewrite (lo_tx _ Hl). by apply walk_body_fits. }
  destruct (msg_begin _ _ _) as [c1|]; [|done]. cbn [mbind option_bind] in *. unfold walk_body at 1 in E.
  rewrite put_bytes_app, <- put32_bytes in E. destruct (put32 c1 _) as [c2|]; [|done]. cbn [mbind option_bind] in *.
  rewrite put_bytes_app, <- put32_bytes in E. destruct (put32 c2 _) as [c3|]; [|done]. cbn [mbind option_bind] in *.
  rewrite put_bytes_app, <- put16_bytes in E. destruct (put16 c3 _) as [c4|]; [|done]. cbn [mbind option_bind] in *.
  rewrite put_names_bytes. destruct (put_bytes c4 _) as [c5|]; [|done]. cbn [mbind option_bind] in *.
  unfold with_link. by rewrite E.
Qed.

(** A build changes the transmit buffer, and of the request at most its fid. *)
Record build_frame n (i : Z) n' : Prop := mk_build_frame {
  bf_inflight : nf_inflight n' = nf_inflight n;
  bf_conn : nconn n' = nconn n;
  bf_rx : lk_rxlen (nf_link n') = lk_rxlen (nf_link n);
  bf_req : req_at n' i = set_rq_fid (req_at n i) (rq_fid (req_at n' i));
  bf_gen : lk_generation (nf_link n') = lk_generation (nf_link n);
}.

Lemma build_frame_link n i lk :
  lk_conn lk = lk_conn (nf_link n) -> lk_rxlen lk = lk_rxlen (nf_link n) -> lk_generation lk = lk_generation (nf_link n) ->
  build_frame n i (set_nf_link n lk).
Proof. intros Hc Hr Hg. split; [done|exact Hc|exact Hr| |exact Hg]. change (req_at (set_nf_link n lk) i) with (req_at n i). by destruct (req_at n i). Qed.

Lemma build_frame_refl n i : build_frame n i n.
Proof. split; try done. by destruct (req_at n i). Qed.

Lemma built_ok n i lk type tag body :
  netfs_ok n -> lk = Some (sends (nf_link n) type tag body) -> 7 + alen body <= NETFS_MSIZE ->
  exists n', built n lk = Some (0, n') /\ netfs_ok n' /\ build_frame n i n'.
Proof.
  intros Hn -> Hb. eexists. split; [done|]. split; [|by apply build_frame_link].
  apply ok_set_link_same; try done. apply sends_ok; [apply Hn|done].
Qed.

Lemma req_ok_fid st r f : req_ok st r -> req_ok st (set_rq_fid r f).
Proof. done. Qed.

Lemma req_build_ok n i :
  netfs_ok n -> 0 <= i < NETFS_NREQ -> rq_state (req_at n i) <> REQ_FREE ->
  exists e n', req_build n i = Some (e, n') /\ netfs_ok n' /\ build_frame n i n'.
Proof.
  intros Hn Hi Hs. pose proof (lo_tx _ (ok_link _ Hn)) as Htx. unfold NETFS_MSIZE in Htx.
  assert (H4 : forall f, alen (le_bytes 4 f) = 4) by (intros; unfold alen; by rewrite length_le_bytes).
  assert (H8 : forall a b, alen (le_bytes 4 a ++ le_bytes 8 b) = 12) by (intros; unfold alen; by rewrite length_app, !length_le_bytes).
  assert (H44 : forall a b, alen (le_bytes 4 a ++ le_bytes 4 b) = 8) by (intros; unfold alen; by rewrite length_app, !length_le_bytes).
  assert (H16 : forall a b d, alen (le_bytes 4 a ++ le_bytes 8 b ++ le_bytes 4 d) = 16)
    by (intros; unfold alen; by rewrite !length_app, !length_le_bytes).
  assert (Hfid : forall type f, exists n', built n (msg_fid (nf_link n) type f) = Some (0, n') /\ netfs_ok n' /\ build_frame n i n').
  { intros. eapply built_ok; [done|apply msg_fid_sends; lia|]. rewrite H4. done. }
  assert (Hio : forall type f o k, exists n', built n (msg_io (nf_link n) type f o k) = Some (0, n') /\ netfs_ok n' /\ build_frame n i n').
  { intros. eapply built_ok; [done|apply msg_io_sends; lia|]. rewrite H16. done. }
  assert (Hself : forall e : Z, exists (e' : Z) (n' : netfs), Some (e, n) = Some (e', n') /\ netfs_ok n' /\ build_frame n i n').
  { intros e. exists e, n. split; [done|]. split; [done|]. apply build_frame_refl. }
  unfold req_build. destruct (_ || _ || _).
  - destruct (_ =? 0).
    { destruct (req_live _ _ (ok_req_at _ i Hn Hi) Hs) as (Hp & _). rewrite msg_walk_spec by (done || apply Hn). cbv zeta.
      destruct (_ <=? NETFS_MAXWELEM); cbn [negb]; [|apply Hself].
      set (n1 := put_req _ _ _).
      assert (Hc1 := core_fid_alloc n). pose proof (core_fields _ _ Hc1) as (_ & El & _ & Er & _ & Ei & _).
      assert (Hn1 : netfs_ok n1).
      { apply ok_put_req; [by apply ok_fid_alloc|done| |].
        - rewrite (core_exec _ _ Hc1). apply req_ok_fid. by apply ok_req_at.
        - rewrite Ei. intros E. cbn. destruct (ok_inflight _ Hn) as [E'|[_ E']]; [lia|]. by rewrite <- E. }
      assert (Hb1 : build_frame n i n1).
      { split; [done|unfold nconn; cbn; by rewrite El|cbn; by rewrite El| |cbn; by rewrite El].
        unfold n1. rewrite req_at_put_eq by (rewrite Er, (ok_reqs _ Hn); done). done. }
      destruct (_ <? 0); eexists _, _; (split; [done|]); [done|].
      pose proof (walk_body_fits (fid_alloc n).1 _ Hp) as Hfit.
      split; [|destruct Hb1; by split].
      apply ok_set_link_same; [done|apply sends_ok; [apply Hn|done]|cbn; by rewrite El|cbn; by rewrite El]. }
    destruct (_ =? 1).
    { exists 0. eapply built_ok; [done|apply msg_getattr_sends; lia|]. rewrite H8. done. }
    destruct (_ =? 2).
    { exists 0. destruct (_ =? LXP_NETFSW_STAT); [apply Hfid|]. eapply built_ok; [done|apply msg_lopen_sends; lia|]. rewrite H44. done. }
    destruct (_ =? 3); [exists 0; apply Hio|]. destruct (_ =? 4); [exists 0; apply Hfid|]. apply Hself.
  - destruct (_ =? LXP_NETFSW_READ); [destruct (open_slot _ _); [exists 0; apply Hio|apply Hself]|].
    destruct (_ =? LXP_NETFSW_GETDENTS); [destruct (open_slot _ _); [exists 0; apply Hio|apply Hself]|]. exists 0. apply Hfid.
Qed.

(** ** Completing a request *)

Lemma req_ok_same st r r' :
  req_ok st r -> (rq_state r = REQ_FREE -> rq_state r' = REQ_FREE) -> rq_path r' = rq_path r -> rq_op r' = rq_op r -> rq_oi r' = rq_oi r ->
  rq_step r' = rq_step r -> rq_off r' = rq_off r -> req_ok st r'.
Proof. intros [H1 Hr] Hs Hp Ho Hi Ht Hf. split; [rewrite Ho, Hi; done|]. intros Hne. rewrite Hp, Ho, Hi, Ht, Hf. apply Hr. intros E. by apply Hne, Hs. Qed.

Lemma req_complete_ok n i v : netfs_ok n -> 0 <= i < NETFS_NREQ -> rq_state (req_at n i) <> REQ_FREE -> netfs_ok (req_complete n i v).
Proof.
  intros Hn Hi Hs. apply ok_finish_req; [done|done|]. eapply req_ok_same; [by apply (ok_req_at n i)|..]; done.
Qed.

(** What a reply may change: the link stays, and the request either leaves the wire or stays
    on it for the same guest. *)
Record reply_frame n (i : Z) n' : Prop := mk_reply_frame {
  rf_link : nf_link n' = nf_link n;
  rf_wire : nf_inflight n' = -1 \/
    (nf_inflight n' = nf_inflight n /\ rq_owner (req_at n' i) = rq_owner (req_at n i) /\ rq_op (req_at n' i) = rq_op (req_at n i));
}.

Lemma open_release_ok n oi : netfs_ok n -> 0 <= oi < NETFS_NOPEN -> exists n', open_release n oi = Some n' /\ netfs_ok n' /\ n' = set_nf_open n (nf_open n').
Proof.
  intros Hn Ho. unfold open_release. rewrite (proj2 (Z.leb_le 0 oi)), (proj2 (Z.ltb_lt oi _)) by lia. cbn [andb].
  eexists. split; [done|]. split; [by apply ok_put_open|]. by destruct n.
Qed.

(** A fid handed to the clunk queue and the reserved open released. *)
Lemma abandon_ok n i :
  netfs_ok n -> 0 <= i < NETFS_NREQ -> rq_state (req_at n i) = REQ_INFLIGHT ->
  exists n', req_abandon n i = Some n' /\ netfs_ok n' /\ nf_link n' = nf_link n /\ rq_state (req_at n' i) = REQ_INFLIGHT.
Proof.
  intros Hn Hi Hs. unfold req_abandon. set (r := req_at n i) in *.
  set (n1 := if rq_fid r >? 0 then _ else _).
  assert (Hn1 : netfs_ok n1 /\ nf_link n1 = nf_link n /\ rq_state (req_at n1 i) = REQ_INFLIGHT).
  { unfold n1. destruct (rq_fid r >? 0); [|done]. assert (Hc := core_clunk_enqueue n (rq_fid r)).
    split_and!.
    - apply ok_put_req; [by apply ok_clunk_enqueue|done| |done]. rewrite (core_exec _ _ Hc). apply req_ok_fid. by apply ok_req_at.
    - apply core_fields in Hc as (_ & El & _). exact El.
    - rewrite req_at_put_eq; [done|]. apply core_fields in Hc as (_ & _ & _ & -> & _). by rewrite (ok_reqs _ Hn). }
  clearbody n1. destruct Hn1 as (Hok & El & Est).
  destruct (Z.eqb_spec (rq_op r) LXP_NETFSW_OPEN) as [Eop|]; [|by exists n1].
  assert (Hoi : 0 <= rq_oi r < NETFS_NOPEN) by (eapply (req_live _ _ (ok_req_at n i Hn Hi)); [fold r; congruence|done]).
  rewrite Z.geb_leb, (proj2 (Z.leb_le 0 _)) by lia. cbn [andb].
  destruct (open_release_ok n1 (rq_oi r)) as (n2 & -> & Hok2 & E2); [done|done|]. exists n2. split; [done|]. split; [done|].
  rewrite E2. done.
Qed.

Lemma req_fail_ok n i v :
  netfs_ok n -> 0 <= i < NETFS_NREQ -> rq_state (req_at n i) = REQ_INFLIGHT ->
  exists n', req_fail n i v = Some n' /\ netfs_ok n' /\ reply_frame n i n'.
Proof.
  intros Hn Hi Hs. unfold req_fail. destruct (_ =? REQ_OP_CLUNK).
  - eexists. split; [done|]. assert (Hc := core_fid_free n (rq_fid (req_at n i))). split.
    + apply ok_finish_req; [by apply ok_fid_free|done|]. rewrite (core_exec _ _ Hc). eapply req_ok_free; [by apply (ok_req_at n i)|done..].
    + split; [apply core_fields in Hc as (_ & El & _); exact El|by left].
  - destruct (abandon_ok n i Hn Hi Hs) as (n1 & -> & Hok & El & Est). eexists. split; [done|].
    split; [apply req_complete_ok; [done|done|congruence]|]. split; [exact El|by left].
Qed.

Lemma reply_orphan_ok n i :
  netfs_ok n -> 0 <= i < NETFS_NREQ -> rq_state (req_at n i) = REQ_INFLIGHT ->
  exists n', reply_orphan n i = Some n' /\ netfs_ok n' /\ reply_frame n i n'.
Proof.
  intros Hn Hi Hs. unfold reply_orphan. destruct (abandon_ok n i Hn Hi Hs) as (n1 & -> & Hok & El & Est). eexists. split; [done|].
  split; [apply ok_finish_req; [done|done|]; eapply req_ok_free; [by apply (ok_req_at n1 i)|done..]|]. split; [exact El|by left].
Qed.
End Spec.
