(* ===== verification/NetfsPump.v ===== *)
(** * Replies are handled inside their bounds

    For every body a server can send, the reply handlers read inside the message, write
    inside the staging buffer and the pools, and leave a well-formed state. *)

From S2P Require Import Prelude Config Arena Path Proc Guest Wait Pool Fd Process Runtime Event Region Lifecycle.
From S2P Require Import Signal SysSignal Child SignalRoute Loader Image Exec Stat NetfsWire Netfs NetfsSpec.
Local Open Scope Z_scope.

(** ** Parsing *)

Lemma parse_getattr_ok b : exists a, parse_getattr b = Some a.
Proof.
  unfold parse_getattr. destruct (Z.gtb_spec (0 + 97) (alen b)); [eauto|].
  repeat (first [rewrite get64_word by lia | rewrite get8_word by lia | rewrite get32_word by lia]; cbn [mbind option_bind]). eauto.
Qed.

Lemma get_qpath_ok b o : 0 <= o -> o + 13 <= alen b -> exists q, get_qpath b o = Some q.
Proof.
  intros Ho Hb. unfold get_qpath. change (seqZ 0 8) with [0; 1; 2; 3; 4; 5; 6; 7]. cbn [foldl].
  repeat (rewrite get8_word by lia; cbn [mbind option_bind]). eauto.
Qed.

Lemma get_entry_ok b o :
  0 <= o -> o + 24 <= alen b ->
  exists e, get_entry b o = Some e /\ (forall x o', e = Some (x, o') -> o + 24 <= o' <= alen b).
Proof.
  intros Ho Hb. unfold get_entry. rewrite get8_word by lia. cbn [mbind option_bind].
  destruct (get_qpath_ok b o) as [q ->]; [lia|lia|]. cbn [mbind option_bind].
  rewrite get64_word by lia. cbn [mbind option_bind]. rewrite get8_word by lia. cbn [mbind option_bind].
  rewrite get16_word by lia. cbn [mbind option_bind]. pose proof (word_at_range b (o + 13 + 8 + 1) 2).
  match goal with |- context [Z.gtb ?x ?y] => destruct (Z.gtb_spec x y) end; (eexists; split; [done|]); [done|].
  intros x o' [= _ <-]. lia.
Qed.

Lemma entries_loop_ok fuel G m p body o end_ sink last :
  0 <= o -> (Z.to_nat (alen body - o) < fuel)%nat ->
  exists m' sink' last', entries_loop fuel G m p body o end_ sink last = Some (m', sink', last').
Proof.
  revert m o sink last. induction fuel as [|fuel IH]; intros m o sink last Ho Hf; [lia|]. cbn [entries_loop].
  destruct (Z.ltb_spec o end_); cbn [andb negb]; [|eauto].
  destruct (Z.leb_spec (o + 13 + 8 + 1 + 2) (alen body)); cbn [negb]; [|eauto].
  destruct (get_entry_ok body o) as (e & -> & He); [lia|lia|]. cbn [mbind option_bind].
  destruct e as [[[[[[qt qpath] doff] dt9] nm] o']|]; [|eauto]. specialize (He _ _ eq_refl).
  destruct (lxp_dirent_put _ _ _ _ _ _ _ _) as [[ok m1] sink1]. destruct ok; [|eauto]. apply IH; lia.
Qed.

Lemma reply_data_count_ok body :
  exists cnt o, reply_data_count body = Some (cnt, o) /\ 0 <= cnt < 2 ^ 32 /\ 0 <= o /\ o + cnt <= alen body.
Proof.
  unfold reply_data_count. destruct (Z.ltb_spec (alen body) 4).
  - exists 0, 0. split; [done|]. unfold alen. lia.
  - rewrite get32_word by lia. cbn [mbind option_bind]. pose proof (word_at_range body 0 4).
    match goal with |- context [Z.gtb ?x ?y] => destruct (Z.gtb_spec x y) end; eexists _, _; (split; [done|]).
    + pose proof (u32_range (alen body - (0 + 4))). unfold u32 in *. pose proof (Z.mod_le (alen body - (0 + 4)) (2 ^ 32)). lia.
    + lia.
Qed.

Section Reply.
Context {H : Type} (stage_buf : Z * Z).
Implicit Types (n : netfs) (c : coord H).

(** A handler has a result, which is well formed and leaves the tasks alone. *)
Definition replies n c (i : Z) (x : option (netfs * coord H)) : Prop :=
  exists n' c', x = Some (n', c') /\ netfs_ok stage_buf n' /\ reply_frame n i n' /\ (forall p, cproc c' p = cproc c p).

Lemma replies_fail n c i v :
  netfs_ok stage_buf n -> 0 <= i < NETFS_NREQ -> rq_state (req_at n i) = REQ_INFLIGHT ->
  replies n c i (n ← req_fail n i v; Some (n, c)).
Proof. intros Hn Hi Hs. destruct (req_fail_ok stage_buf n i v Hn Hi Hs) as (n' & -> & Hok & Hf). by exists n', c. Qed.

(** A step that keeps the request on the wire. *)
Lemma replies_step n m c c' i r :
  netfs_ok stage_buf m -> 0 <= i < NETFS_NREQ -> nf_link m = nf_link n -> nf_inflight m = nf_inflight n ->
  req_ok stage_buf (nf_exec_buf m, nf_exec_cap m) r -> rq_state r = REQ_INFLIGHT ->
  rq_owner r = rq_owner (req_at n i) -> rq_op r = rq_op (req_at n i) -> (forall p, cproc c' p = cproc c p) ->
  replies n c i (Some (put_req m i r, c')).
Proof.
  intros Hm Hi El Ei Hr Hs Ho Hop Hc. exists (put_req m i r), c'. split; [done|]. split; [by apply ok_put_req|]. split; [|done].
  split; [done|]. right. split; [exact Ei|]. rewrite req_at_put_eq by (rewrite (ok_reqs _ _ Hm); done). done.
Qed.

Lemma replies_done n m c c' i v :
  netfs_ok stage_buf m -> 0 <= i < NETFS_NREQ -> nf_link m = nf_link n -> rq_state (req_at m i) <> REQ_FREE ->
  (forall p, cproc c' p = cproc c p) -> replies n c i (Some (req_complete m i v, c')).
Proof.
  intros Hm Hi El Hs Hc. eexists _, c'. split; [done|]. split; [by apply req_complete_ok|]. split; [|done]. split; [exact El|by left].
Qed.

Lemma reply_walk_ok n c i body :
  netfs_ok stage_buf n -> 0 <= i < NETFS_NREQ -> rq_state (req_at n i) = REQ_INFLIGHT -> rq_step (req_at n i) = 0 ->
  replies n c i (n ← reply_walk_advance n i body; Some (n, c)).
Proof.
  intros Hn Hi Hs Hst. unfold reply_walk_advance. destruct (Z.ltb_spec (alen body) 2); [by apply replies_fail|].
  rewrite get16_word by lia. cbn [mbind option_bind]. destruct (path_split _ _) as [comps|]; [|by apply replies_fail].
  destruct (negb _); [by apply replies_fail|].
  apply replies_step; try done. rewrite Hst. change (u8 (0 + 1)) with 1.
  destruct (req_live _ _ _ (ok_req_at stage_buf n i Hn Hi)) as (Hp & Ho & He); [congruence|].
  apply req_ok_live; [done|done|]. intros Hop. split; [by apply He|]. done.
Qed.

Lemma with_attrs_ok n c i body k :
  netfs_ok stage_buf n -> 0 <= i < NETFS_NREQ -> rq_state (req_at n i) = REQ_INFLIGHT ->
  (forall mode size mtime ino, replies n c i (k mode size mtime ino)) -> replies n c i (with_attrs n c i body k).
Proof.
  intros Hn Hi Hs Hk. unfold with_attrs. destruct (parse_getattr_ok body) as [a ->]. cbn [mbind option_bind].
  destruct a as [[[[mode size] mtime] ino]|]; [apply Hk|by apply replies_fail].
Qed.

Lemma open_ref_ok n oi : 0 <= oi < NETFS_NOPEN -> open_ref n oi = Some (open_at n oi).
Proof. intros Ho. unfold open_ref. by rewrite (proj2 (Z.leb_le 0 oi)), (proj2 (Z.ltb_lt oi _)) by lia. Qed.

Lemma reply_open_ok n c i body :
  netfs_ok stage_buf n -> 0 <= i < NETFS_NREQ -> rq_state (req_at n i) = REQ_INFLIGHT -> rq_op (req_at n i) = LXP_NETFSW_OPEN ->
  replies n c i (reply_open n c i body).
Proof.
  intros Hn Hi Hs Hop. destruct (req_live _ _ _ (ok_req_at stage_buf n i Hn Hi)) as (Hp & Ho & _); [congruence|]. specialize (Ho Hop).
  unfold reply_open. destruct (Z.eqb_spec (rq_step (req_at n i)) 0); [by apply reply_walk_ok|].
  destruct (_ =? 1).
  - apply with_attrs_ok; [done..|]. intros. rewrite open_ref_ok by done. cbn [mbind option_bind].
    apply replies_step; try done; [by apply ok_put_open|]. apply req_ok_live; [done|done|].
    change (rq_op (set_rq_step (req_at n i) 2)) with (rq_op (req_at n i)). rewrite Hop. done.
  - destruct (_ =? 2); [|by apply replies_fail]. rewrite open_ref_ok by done. cbn [mbind option_bind].
    apply replies_done; try done; [by apply ok_put_open|]. change (req_at (put_open ?m ?a ?b) i) with (req_at m i). congruence.
Qed.

Lemma cproc_set_cmem c m p : cproc (set_cmem c m) p = cproc c p.
Proof. done. Qed.

Lemma open_update_ok n oi f :
  netfs_ok stage_buf n ->
  let m := match open_slot n oi with Some op => put_open n oi (f op) | None => n end in
  netfs_ok stage_buf m /\ nf_link m = nf_link n /\ forall j, req_at m j = req_at n j.
Proof. intros Hn. cbv zeta. destruct (open_slot n oi); [|done]. split; [by apply ok_put_open|]. done. Qed.

Lemma reply_read_ok n c owner i body :
  netfs_ok stage_buf n -> 0 <= i < NETFS_NREQ -> rq_state (req_at n i) = REQ_INFLIGHT ->
  replies n c i (reply_read n c owner i body).
Proof.
  intros Hn Hi Hs. unfold reply_read. destruct (reply_data_count_ok body) as (cnt & o & -> & _). cbn [mbind option_bind].
  match goal with |- context [let '(_, _) := ?x in _] => destruct x as [rc m] end.
  destruct (negb _); [apply replies_done; try done; congruence|].
  match goal with |- context [match open_slot n ?oi with Some op => put_open n _ (@?f op) | None => n end] =>
    destruct (open_update_ok n oi f Hn) as (Hm & El & Er) end.
  apply replies_done; try done. rewrite Er. congruence.
Qed.

Lemma reply_getdents_ok n c owner i body :
  netfs_ok stage_buf n -> 0 <= i < NETFS_NREQ -> rq_state (req_at n i) = REQ_INFLIGHT ->
  replies n c i (reply_getdents n c owner i body).
Proof.
  intros Hn Hi Hs. unfold reply_getdents. destruct (reply_data_count_ok body) as (cnt & o & -> & _ & Ho & _). cbn [mbind option_bind].
  match goal with |- context [entries_loop ?a ?b ?d ?e ?f ?g ?h ?k ?l] =>
    destruct (entries_loop_ok a b d e f g h k l) as (m & sink & last & ->); [done|unfold alen; lia|] end.
  cbn [mbind option_bind]. destruct (negb _); [apply replies_done; try done; congruence|].
  match goal with |- context [match open_slot n ?oi with Some op => put_open n _ (@?f op) | None => n end] =>
    destruct (open_update_ok n oi f Hn) as (Hm & El & Er) end.
  apply replies_done; try done. rewrite Er. congruence.
Qed.

Lemma reply_clunked_ok n c i :
  netfs_ok stage_buf n -> 0 <= i < NETFS_NREQ -> rq_state (req_at n i) = REQ_INFLIGHT -> replies n c i (Some (reply_clunked n i, c)).
Proof.
  intros Hn Hi Hs. unfold reply_clunked. assert (Hc := core_fid_free n (rq_fid (req_at n i))).
  pose proof (core_fields _ _ Hc) as (_ & El & _ & Er & _ & Ei & _). apply replies_done; try done.
  - apply ok_put_req; [by apply ok_fid_free|done| |done]. rewrite (core_exec _ _ Hc). apply req_ok_fid. by apply ok_req_at.
  - rewrite req_at_put_eq by (rewrite Er, (ok_reqs _ _ Hn); done). cbn. congruence.
Qed.

Lemma stat_deliver_ok n c p r st :
  p_fs_context (cproc c p) <> None -> exists rc c', stat_deliver n c p r st = Some (rc, c') /\ (forall q, cproc c' q = cproc c q).
Proof.
  intros Hfs. unfold stat_deliver. destruct (_ =? NETFS_STAT_EXISTS); [eauto|].
  destruct (negb (_ =? NETFS_STAT_CHDIR)); [destruct (lxp_stat_copyout _ _ _ _ _ _); eauto|].
  destruct (negb _); [eauto|]. destruct (_ >=? LXP_PATH_MAX); [eauto|].
  destruct (p_fs_context (cproc c p)) as [fi|]; [|done]. cbn [mbind option_bind]. eauto.
Qed.

Lemma req_ok_step n i r :
  req_ok stage_buf (nf_exec_buf n, nf_exec_cap n) (req_at n i) -> rq_state (req_at n i) <> REQ_FREE ->
  rq_path r = rq_path (req_at n i) -> rq_op r = rq_op (req_at n i) -> rq_oi r = rq_oi (req_at n i) ->
  (rq_op r = LXP_NETFSW_EXECFETCH -> rq_step r = 3 -> 0 <= rq_off r <= stage_buf.2) ->
  req_ok stage_buf (nf_exec_buf n, nf_exec_cap n) r.
Proof.
  intros Hr Hs Hp Ho Hi Hoff. destruct (req_live _ _ _ Hr Hs) as (H1 & H2 & H3). apply req_ok_live; [by rewrite Hp|by rewrite Ho, Hi|]. intros E. split; [apply H3; congruence|by apply Hoff].
Qed.

Lemma reply_stat_ok n c p i body :
  netfs_ok stage_buf n -> 0 <= i < NETFS_NREQ -> rq_state (req_at n i) = REQ_INFLIGHT -> rq_op (req_at n i) = LXP_NETFSW_STAT ->
  p_fs_context (cproc c p) <> None -> replies n c i (reply_stat n c p i body).
Proof.
  intros Hn Hi Hs Hop Hfs. unfold reply_stat. destruct (Z.eqb_spec (rq_step (req_at n i)) 0); [by apply reply_walk_ok|].
  destruct (_ =? 1).
  - apply with_attrs_ok; [done..|]. intros mode size mtime ino.
    destruct (stat_deliver_ok n c p (req_at n i) (netfs_stat_record mode size mtime ino) Hfs) as (rc & c' & -> & Hc). cbn [mbind option_bind].
    apply replies_step; try done. apply (req_ok_step n i); try done; [by apply ok_req_at|congruence].
  - destruct (_ =? 2); [by apply reply_clunked_ok|by apply replies_fail].
Qed.

Lemma fetch_chunk_ok n c i body :
  0 <= stage_buf.2 < 2 ^ 32 ->
  netfs_ok stage_buf n -> 0 <= i < NETFS_NREQ -> rq_state (req_at n i) = REQ_INFLIGHT ->
  rq_op (req_at n i) = LXP_NETFSW_EXECFETCH -> rq_step (req_at n i) = 3 -> replies n c i (fetch_chunk n c i body).
Proof.
  intros Hcap Hn Hi Hs Hop Hst. destruct (req_live _ _ _ (ok_req_at stage_buf n i Hn Hi)) as (Hp & _ & He); [congruence|].
  destruct (He Hop) as [Est Hoff]. specialize (Hoff Hst).
  assert (Ecap : nf_exec_cap n = stage_buf.2) by (by rewrite <- Est).
  unfold fetch_chunk. destruct (reply_data_count_ok body) as (cnt & o & -> & Hcnt & Ho & Hoc). cbn [mbind option_bind].
  rewrite Ecap. set (off := rq_off (req_at n i)) in *.
  set (cnt' := if u64 (off + cnt) >? stage_buf.2 then u32 (stage_buf.2 - off) else cnt).
  assert (Hc' : 0 <= cnt' <= cnt /\ off + cnt' <= stage_buf.2).
  { unfold cnt'. rewrite u64_small by lia. destruct (Z.gtb_spec (off + cnt) stage_buf.2); [|lia]. rewrite u32_small by lia. lia. }
  clearbody cnt'. destruct (Z.leb_spec 0 off); [|lia]. destruct (Z.leb_spec (off + cnt') stage_buf.2); [|lia].
  destruct (Z.leb_spec (o + cnt') (alen body)); [|lia]. cbn [andb negb].
  assert (Hn1 : netfs_ok stage_buf (set_nf_exec_size n (u32 (off + cnt')))) by (destruct Hn; by split).
  set (r1 := if _ && negb _ then _ else _). set (r2 := if _ || _ then set_rq_step r1 4 else r1).
  assert (Hr1 : rq_path r1 = rq_path (req_at n i) /\ rq_op r1 = rq_op (req_at n i) /\ rq_oi r1 = rq_oi (req_at n i) /\
                rq_state r1 = rq_state (req_at n i) /\ rq_owner r1 = rq_owner (req_at n i) /\ rq_off r1 = off + cnt')
    by (unfold r1; by destruct (_ && _)).
  clearbody r1. destruct Hr1 as (E1 & E2 & E3 & E4 & E5 & E6).
  assert (Hr2 : rq_path r2 = rq_path r1 /\ rq_op r2 = rq_op r1 /\ rq_oi r2 = rq_oi r1 /\
                rq_state r2 = rq_state r1 /\ rq_owner r2 = rq_owner r1 /\ rq_off r2 = rq_off r1)
    by (unfold r2; by destruct (_ || _)).
  clearbody r2. destruct Hr2 as (F1 & F2 & F3 & F4 & F5 & F6).
  apply replies_step; try done; try congruence.
  change (nf_exec_buf (set_nf_exec_size ?a ?b), nf_exec_cap (set_nf_exec_size ?a ?b)) with (nf_exec_buf a, nf_exec_cap a).
  apply (req_ok_step n i); try congruence; [by apply ok_req_at|]. intros _ _. lia.
Qed.

Lemma reply_execfetch_ok n c i body :
  0 <= stage_buf.2 < 2 ^ 32 ->
  netfs_ok stage_buf n -> 0 <= i < NETFS_NREQ -> rq_state (req_at n i) = REQ_INFLIGHT ->
  rq_op (req_at n i) = LXP_NETFSW_EXECFETCH -> replies n c i (reply_execfetch n c i body).
Proof.
  intros Hcap Hn Hi Hs Hop. unfold reply_execfetch.
  assert (Hok : req_ok stage_buf (nf_exec_buf n, nf_exec_cap n) (req_at n i)) by (by apply ok_req_at).
  assert (Hne : rq_state (req_at n i) <> REQ_FREE) by congruence.
  destruct (Z.eqb_spec (rq_step (req_at n i)) 0); [by apply reply_walk_ok|].
  destruct (_ =? 1).
  { apply with_attrs_ok; [done..|]. intros. destruct (negb _); (apply replies_step; try done; by apply (req_ok_step n i)). }
  destruct (_ =? 2).
  { apply replies_step; try done; [destruct Hn; by split|].
    change (nf_exec_buf (set_nf_exec_size ?a ?b), nf_exec_cap (set_nf_exec_size ?a ?b)) with (nf_exec_buf a, nf_exec_cap a).
    apply (req_ok_step n i); try done. intros _ _. cbn. lia. }
  destruct (Z.eqb_spec (rq_step (req_at n i)) 3); [by apply fetch_chunk_ok|].
  destruct (_ =? 4); [by apply reply_clunked_ok|by apply replies_fail].
Qed.

(** The guest a reply is for, when it needs one. *)
Definition owner_ready c (r : netfs_req) (owner : option Z) : Prop :=
  0 <= ref_index (rq_owner r) -> rq_op r <> REQ_OP_CLUNK -> exists p, owner = Some p /\ p_fs_context (cproc c p) <> None.

Lemma handle_reply_ok n c i owner type body :
  0 <= stage_buf.2 < 2 ^ 32 ->
  netfs_ok stage_buf n -> 0 <= i < NETFS_NREQ -> rq_state (req_at n i) = REQ_INFLIGHT -> owner_ready c (req_at n i) owner ->
  replies n c i (handle_reply n c i owner type body).
Proof.
  intros Hcap Hn Hi Hs Hown. unfold handle_reply. cbv zeta.
  destruct (Z.ltb_spec (ref_index (rq_owner (req_at n i))) 0).
  - destruct (Z.eqb_spec (rq_op (req_at n i)) REQ_OP_CLUNK) as [Eop|]; cbn [andb negb].
    2:{ destruct (reply_orphan_ok stage_buf n i Hn Hi Hs) as (n' & -> & Hok & Hf). by exists n', c. }
    destruct (type =? P9_RLERROR).
    { destruct (Z.ltb_spec (alen body) 4); cbn [mbind option_bind]; [by apply replies_fail|].
      rewrite get32_word by lia. cbn [mbind option_bind]. by apply replies_fail. }
    destruct (negb _); [by apply replies_fail|]. rewrite Eop. change (REQ_OP_CLUNK =? LXP_NETFSW_OPEN) with false.
    change (REQ_OP_CLUNK =? LXP_NETFSW_READ) with false. change (REQ_OP_CLUNK =? LXP_NETFSW_GETDENTS) with false.
    change (REQ_OP_CLUNK =? LXP_NETFSW_STAT) with false. change (REQ_OP_CLUNK =? LXP_NETFSW_EXECFETCH) with false. cbv iota.
    eexists _, c. split; [done|]. assert (Hc := core_fid_free n (rq_fid (req_at n i))). split.
    + apply ok_finish_req; [by apply ok_fid_free|done|]. rewrite (core_exec _ _ Hc). eapply req_ok_free; [by apply (ok_req_at stage_buf n i)|done..].
    + split; [|done]. split; [apply core_fields in Hc as (_ & El & _); exact El|by left].
  - cbn [andb]. destruct (type =? P9_RLERROR).
    { destruct (Z.ltb_spec (alen body) 4); cbn [mbind option_bind]; [by apply replies_fail|].
      rewrite get32_word by lia. cbn [mbind option_bind]. by apply replies_fail. }
    destruct (negb _); [by apply replies_fail|].
    destruct (Z.eqb_spec (rq_op (req_at n i)) LXP_NETFSW_OPEN); [by apply reply_open_ok|].
    assert (Hp : rq_op (req_at n i) <> REQ_OP_CLUNK -> exists p, owner = Some p /\ p_fs_context (cproc c p) <> None) by (by apply Hown).
    destruct (Z.eqb_spec (rq_op (req_at n i)) LXP_NETFSW_READ) as [E|].
    { destruct Hp as (p & -> & _); [by rewrite E|]. cbn [mbind option_bind]. by apply reply_read_ok. }
    destruct (Z.eqb_spec (rq_op (req_at n i)) LXP_NETFSW_GETDENTS) as [E|].
    { destruct Hp as (p & -> & _); [by rewrite E|]. cbn [mbind option_bind]. by apply reply_getdents_ok. }
    destruct (Z.eqb_spec (rq_op (req_at n i)) LXP_NETFSW_STAT) as [E|].
    { destruct Hp as (p & -> & Hfs); [by rewrite E|]. cbn [mbind option_bind]. by apply reply_stat_ok. }
    destruct (Z.eqb_spec (rq_op (req_at n i)) LXP_NETFSW_EXECFETCH); [by apply reply_execfetch_ok|].
    eexists _, c. split; [done|]. assert (Hc := core_fid_free n (rq_fid (req_at n i))). split.
    + apply ok_finish_req; [by apply ok_fid_free|done|]. rewrite (core_exec _ _ Hc). eapply req_ok_free; [by apply (ok_req_at stage_buf n i)|done..].
    + split; [|done]. split; [apply core_fields in Hc as (_ & El & _); exact El|by left].
Qed.
End Reply.

(** * The pump stays inside its bounds

    The connection's state machine, the reply loop and the start of the next request, from a
    well-formed state and for every behaviour of the network: each has a result (so no loop
    exceeds its fuel and no access leaves its buffer), and the state stays well formed. *)

Section Connection.
Context {N : Type} (net : net_ops N) `{!LawfulNet net} (stage_buf : Z * Z).
Implicit Types (n : netfs) (h : N).

(** An outcome of the connection code: a well-formed state. *)
Definition goes (x : option (netfs * N)) : Prop := exists n' h', x = Some (n', h') /\ netfs_ok stage_buf n'.

Lemma ok_link_down n f :
  netfs_ok stage_buf n -> (link_ok (nf_link n) -> link_ok (f (nf_link n))) -> lk_conn (f (nf_link n)) = lk_conn (nf_link n) ->
  lk_msize (f (nf_link n)) = lk_msize (nf_link n) -> netfs_ok stage_buf (link_map f n).
Proof. intros Hn Hf Hc Hm. apply ok_set_link_same; [done|apply Hf, Hn|done|done]. Qed.

Lemma sock_drop_ok n h : netfs_ok stage_buf n -> netfs_ok stage_buf (sock_drop net n h).1.
Proof.
  intros Hn. unfold sock_drop. cbn [fst]. eapply (ok_set_link stage_buf n _ Hn).
  - destruct (ok_link _ _ Hn). split; cbn; try done; lia.
  - intros [?|[?|?]]; done.
Qed.

Lemma conn_attempt_failed_ok n h now : netfs_ok stage_buf n -> netfs_ok stage_buf (conn_attempt_failed net n h now).1.
Proof.
  intros Hn. unfold conn_attempt_failed. pose proof (sock_drop_ok n h Hn) as Hd. destruct (sock_drop net n h) as [n1 h1].
  cbn [fst] in *. apply ok_link_down; [done|by intros []|done|done].
Qed.

Lemma drop_req_ok st r : req_ok stage_buf st r -> req_ok stage_buf st (drop_req r).
Proof.
  intros Hr. unfold drop_req. destruct (_ || _) eqn:E; [|done]. destruct (_ <? 0); [by eapply req_ok_free|].
  eapply req_ok_same; [exact Hr|..]; try done. intros Hf. rewrite Hf in E. done.
Qed.

Lemma conn_drop_ok n h : netfs_ok stage_buf n -> netfs_ok stage_buf (conn_drop net n h).1.
Proof.
  intros Hn. unfold conn_drop. pose proof (sock_drop_ok n h Hn) as Hd. destruct (sock_drop net n h) as [n1 h1]. cbn [fst] in *.
  destruct Hd. split; try done; cbn.
  - unfold alen. rewrite length_map. exact ok_open.
  - unfold alen. rewrite length_map. exact ok_reqs.
  - apply Forall_map. eapply Forall_impl; [exact ok_req|]. intros r. apply drop_req_ok.
  - by left.
Qed.

(** A handshake message is ready and its deadline set. *)
Lemma begin_ok n type tag body st t x :
  netfs_ok stage_buf n -> 7 + alen body <= NETFS_MSIZE -> (negotiated st -> 512 <= lk_msize (nf_link n) <= NETFS_MSIZE) ->
  x = (c ← msg_begin (lk_tx (nf_link n)) type tag; c ← put_bytes c body; n ← with_link n (msg_end (nf_link n) c);
       Some (set_deadline (set_conn n st) t)) ->
  exists n', x = Some n' /\ netfs_ok stage_buf n'.
Proof.
  intros Hn Hb Hst ->. assert (E := msg_built (nf_link n) type tag body). rewrite (lo_tx _ (ok_link _ _ Hn)) in E. specialize (E Hb).
  destruct (msg_begin _ _ _) as [c1|]; [|done]. cbn [mbind option_bind] in *. destruct (put_bytes c1 body) as [c2|]; [|done].
  cbn [mbind option_bind] in *. rewrite E. cbn [with_link mbind option_bind]. eexists. split; [done|].
  eapply (ok_set_link stage_buf n _ Hn); [|done]. destruct (sends_ok (nf_link n) type tag body); [apply Hn|done|]. by split.
Qed.

Lemma conn_begin_version_ok n now : netfs_ok stage_buf n -> exists n', conn_begin_version n now = Some n' /\ netfs_ok stage_buf n'.
Proof.
  intros Hn. eapply (begin_ok n P9_TVERSION P9_NOTAG (le_bytes 4 NETFS_MSIZE ++ wire_str VER) CONN_VERSION_SEND (u64 (now + 3000000))); [done|done| |].
  - intros [?|[?|?]]; done.
  - unfold conn_begin_version. destruct (msg_begin _ _ _) as [c1|]; [|done]. cbn [mbind option_bind].
    rewrite put_bytes_app, put32_bytes. destruct (put_bytes c1 _) as [c2|]; [|done]. cbn [mbind option_bind]. by rewrite putstr_bytes.
Qed.

Lemma wire_str_length s : alen (wire_str s) = 2 + alen s.
Proof. unfold wire_str, alen. rewrite length_app, length_le_bytes. lia. Qed.

Lemma conn_begin_attach_ok n now :
  netfs_ok stage_buf n -> 512 <= lk_msize (nf_link n) <= NETFS_MSIZE ->
  exists n', conn_begin_attach n now = Some n' /\ netfs_ok stage_buf n'.
Proof.
  intros Hn Hm. destruct (ok_mnt _ _ Hn) as [Hu Ha].
  eapply (begin_ok n P9_TATTACH P9_TAG (le_bytes 4 P9_ROOT_FID ++ le_bytes 4 P9_NOFID ++ wire_str (mt_uname (nf_mnt n)) ++
                                        wire_str (mt_aname (nf_mnt n)) ++ le_bytes 4 0) CONN_ATTACH_SEND (u64 (now + 3000000))); [done| |done|].
  - pose proof (wire_str_length (mt_uname (nf_mnt n))). pose proof (wire_str_length (mt_aname (nf_mnt n))).
    unfold alen in *. rewrite !length_app, !length_le_bytes. unfold LXP_NETFS_UNAME_CAP, LXP_NETFS_ANAME_CAP, NETFS_MSIZE in *. lia.
  - unfold conn_begin_attach. destruct (msg_begin _ _ _) as [c1|]; [|done]. cbn [mbind option_bind].
    rewrite put_bytes_app, put32_bytes. destruct (put_bytes c1 _) as [c2|]; [|done]. cbn [mbind option_bind].
    rewrite put_bytes_app, put32_bytes. destruct (put_bytes c2 _) as [c3|]; [|done]. cbn [mbind option_bind].
    rewrite put_bytes_app, putstr_bytes. destruct (put_bytes c3 _) as [c4|]; [|done]. cbn [mbind option_bind].
    rewrite put_bytes_app, putstr_bytes. destruct (put_bytes c4 _) as [c5|]; [|done]. cbn [mbind option_bind]. by rewrite put32_bytes.
Qed.

Lemma conn_established_ok n now : netfs_ok stage_buf n -> exists n', conn_established n now = Some n' /\ netfs_ok stage_buf n'.
Proof.
  intros Hn. apply conn_begin_version_ok. apply ok_link_down; [by apply ok_set_bm| |done|done].
  intros []. split; cbn; try done; lia.
Qed.

Lemma goes_failed n h now : netfs_ok stage_buf n -> goes (Some (conn_attempt_failed net n h now)).
Proof.
  intros Hn. pose proof (conn_attempt_failed_ok n h now Hn). destruct (conn_attempt_failed net n h now) as [n1 h1]. by exists n1, h1.
Qed.

Lemma conn_start_ok n h now : netfs_ok stage_buf n -> goes (conn_start net n h now).
Proof.
  intros Hn. unfold conn_start. destruct (negb (mt_configured _)); [by exists n, h|]. destruct (now <? _); [by exists n, h|].
  set (n1 := link_map _ n). assert (Hn1 : netfs_ok stage_buf n1) by (apply ok_link_down; [done|by intros []|done|done]).
  destruct (sock_open net h _ _ _) as [[rc sk] h1]. clearbody n1.
  destruct (negb _); [eexists _, h1; split; [done|]; apply ok_link_down; [done|by intros []|done|done]|].
  set (n2 := link_map _ n1). assert (Hn2 : netfs_ok stage_buf n2) by (apply ok_link_down; [done|by intros []|done|done]). clearbody n2.
  destruct (sock_set_nonblock net h1 sk 1) as [rc2 h2]. destruct (negb _); [by apply goes_failed|].
  destruct (sock_connect net h2 sk _ 0) as [rc3 h3]. destruct (_ =? LXP_ERR_TIMEOUT).
  { eexists _, h3. split; [done|]. eapply (ok_set_link stage_buf n2 _ Hn2); [|intros [?|[?|?]]; done].
    destruct (ok_link _ _ Hn2). by split. }
  destruct (negb _); [by apply goes_failed|].
  destruct (conn_established_ok n2 now Hn2) as (n3 & -> & Hn3). by exists n3, h3.
Qed.

(** An outcome of one phase. *)
Definition phases (x : option (bool * netfs * N)) : Prop := exists more n' h', x = Some (more, n', h') /\ netfs_ok stage_buf n'.

Lemma phase_failed n h now : netfs_ok stage_buf n -> phases (phase_stop (conn_attempt_failed net n h now)).
Proof. intros Hn. eexists _, _, _. split; [done|]. by apply conn_attempt_failed_ok. Qed.

Lemma phase_connecting_ok n h now : netfs_ok stage_buf n -> phases (phase_connecting net n h now).
Proof.
  intros Hn. unfold phase_connecting. destruct (sock_poll net h _ _ _) as [[rc rev] h1]. destruct (negb _); [by apply phase_failed|].
  destruct (_ =? 0); [by eexists _, _, _|]. destruct (sock_get_error net h1 _) as [err h2]. destruct (negb _); [by apply phase_failed|].
  destruct (conn_established_ok n now Hn) as (n1 & -> & Hn1). by eexists _, _, _.
Qed.

Lemma phase_send_ok n h now next :
  netfs_ok stage_buf n -> (negotiated next -> negotiated (nconn n)) -> phases (phase_send net n h now next).
Proof.
  intros Hn Hnext. unfold phase_send. destruct (tx_flush_ok net (nf_link n) h (ok_link _ _ Hn)) as (f & lk & h1 & -> & Hl & El & _).
  cbn [mbind option_bind].
  assert (Hn1 : netfs_ok stage_buf (set_nf_link n lk)) by (apply ok_set_link_same; [done|done|rewrite El; done..]).
  destruct (f <? 0); [by apply phase_failed|]. destruct (f =? 0); [by eexists _, _, _|]. eexists _, _, _. split; [done|].
  eapply (ok_set_link stage_buf n _ Hn); [by destruct Hl|]. intros Hneg. cbn [lk_msize set_lk_conn nf_link set_nf_link].
  rewrite El. apply (ok_msize _ _ Hn), Hnext, Hneg.
Qed.

Lemma phase_recv_ok n h now k :
  netfs_ok stage_buf n ->
  (forall n' h' len type, netfs_ok stage_buf n' -> nconn n' = nconn n -> 7 <= len <= lk_rxlen (nf_link n') -> phases (k n' h' len type)) ->
  phases (phase_recv net n h now k).
Proof.
  intros Hn Hk. unfold phase_recv. destruct (rx_fill_ok net (nf_link n) h (ok_link _ _ Hn)) as (f & lk & h1 & -> & Hl & El & _).
  cbn [mbind option_bind]. assert (Hc : lk_conn lk = lk_conn (nf_link n)) by (by rewrite El).
  assert (Hn1 : netfs_ok stage_buf (set_nf_link n lk)) by (apply ok_set_link_same; [done|done|rewrite El; done..]). clear El.
  destruct (f <? 0); [by apply phase_failed|]. destruct (rx_message_ok lk Hl) as (len & E & Hlen). cbn [nf_link set_nf_link].
  rewrite E. cbn [mbind option_bind]. destruct (Z.eqb_spec len SIZE_MAX); [by apply phase_failed|].
  destruct (Z.eqb_spec len 0); [by eexists _, _, _|]. rewrite get8_word by (rewrite ?(lo_rx _ Hl); done). cbn [mbind option_bind].
  apply Hk; [done|exact Hc|]. cbn [nf_link set_nf_link]. lia.
Qed.

Lemma version_reply_ok n h now len type :
  netfs_ok stage_buf n -> nconn n = CONN_VERSION_RECV -> 7 <= len <= lk_rxlen (nf_link n) -> phases (version_reply net now n h len type).
Proof.
  intros Hn Hc Hlen. unfold version_reply. destruct (_ || _); [by apply phase_failed|].
  rewrite get32_word by (rewrite ?(lo_rx _ (ok_link _ _ Hn)); done). cbn [mbind option_bind].
  pose proof (word_at_range (lk_rx (nf_link n)) 7 4). set (sm := word_at _ _ _) in *. clearbody sm.
  set (msize := if sm <? NETFS_MSIZE then sm else NETFS_MSIZE).
  set (n1 := link_map (fun lk => set_lk_msize lk msize) n).
  assert (Hn1 : netfs_ok stage_buf n1).
  { apply ok_set_link; [done|by destruct (ok_link _ _ Hn)|]. cbn. fold (nconn n). rewrite Hc. intros [?|[?|?]]; done. }
  destruct (Z.ltb_spec msize 512); [by apply phase_failed|].
  destruct (rx_consume_ok (nf_link n1) len (ok_link _ _ Hn1) Hlen) as (Hl2 & _ & _ & E2).
  assert (Hm2 : lk_msize (rx_consume (nf_link n1) len) = msize) by (by rewrite E2).
  assert (Hc2 : lk_conn (rx_consume (nf_link n1) len) = CONN_VERSION_RECV) by (rewrite E2; exact Hc).
  destruct (conn_begin_attach_ok (link_map (fun lk => rx_consume lk len) n1) now) as (n3 & -> & Hn3).
  - apply ok_set_link; [done|done|]. rewrite Hc2. intros [?|[?|?]]; done.
  - cbn [nf_link link_map set_nf_link]. rewrite Hm2. unfold msize. destruct (Z.ltb_spec sm NETFS_MSIZE); lia.
  - by eexists _, _, _.
Qed.

Lemma attach_reply_ok n h now len type :
  netfs_ok stage_buf n -> nconn n = CONN_ATTACH_RECV -> 7 <= len <= lk_rxlen (nf_link n) -> phases (attach_reply net now n h len type).
Proof.
  intros Hn Hc Hlen. unfold attach_reply. destruct (negb _); [by apply phase_failed|]. eexists _, _, _. split; [done|].
  destruct (rx_consume_ok (nf_link n) len (ok_link _ _ Hn) Hlen) as (Hl2 & _ & _ & E2).
  eapply (ok_set_link stage_buf n _ Hn); [by destruct Hl2|]. intros _.
  change (lk_msize _) with (lk_msize (rx_consume (nf_link n) len)). rewrite E2. apply (ok_msize _ _ Hn). unfold negotiated. auto.
Qed.

Lemma conn_step_ok n h now : netfs_ok stage_buf n -> phases (conn_step net n h now).
Proof.
  intros Hn. unfold conn_step. destruct (nconn n) eqn:Hc.
  - by eexists _, _, _.
  - by apply phase_connecting_ok.
  - apply phase_send_ok; [done|]. intros [?|[?|?]]; done.
  - apply phase_recv_ok; [done|]. intros n1 h1 len type Hn1 Hc1 Hlen. apply version_reply_ok; [done|congruence|done].
  - apply phase_send_ok; [done|]. rewrite Hc. unfold negotiated. auto.
  - apply phase_recv_ok; [done|]. intros n1 h1 len type Hn1 Hc1 Hlen. apply attach_reply_ok; [done|congruence|done].
  - by eexists _, _, _.
Qed.

Lemma conn_steps_ok steps n h now : netfs_ok stage_buf n -> goes (conn_steps net steps n h now).
Proof.
  revert n h. induction steps as [|steps IH]; intros n h Hn; [by exists n, h|]. cbn [conn_steps].
  destruct (conn_step_ok n h now Hn) as (more & n1 & h1 & -> & Hn1). cbn [mbind option_bind]. destruct more; [by apply IH|by exists n1, h1].
Qed.

Lemma conn_advance_ok n h now : netfs_ok stage_buf n -> goes (conn_advance net n h now).
Proof.
  intros Hn. unfold conn_advance. assert (H1 : goes (if decide (nconn n = CONN_DOWN) then conn_start net n h now else Some (n, h))).
  { destruct (decide _); [by apply conn_start_ok|by exists n, h]. }
  destruct H1 as (n1 & h1 & -> & Hn1). cbn [mbind option_bind]. destruct (decide _); [by exists n1, h1|].
  destruct (_ && _); [by apply goes_failed|]. by apply conn_steps_ok.
Qed.
End Connection.

Section Pump.
Context {H N : Type} (net : net_ops N) `{!LawfulNet net} (stage_buf : Z * Z).
Implicit Types (n : netfs) (c : coord H) (h : N).
Local Notation ok := (netfs_ok stage_buf).

(** A flush either loses the connection or moves the send offset. *)
Lemma pump_flush_ok n h :
  ok n ->
  exists stop n' h', pump_flush net n h = Some (stop, n', h') /\ ok n' /\
    (stop = false -> exists t, n' = set_nf_link n (set_lk_txoff (nf_link n) t)).
Proof.
  intros Hn. unfold pump_flush. destruct (tx_flush_ok net (nf_link n) h (ok_link _ _ Hn)) as (f & lk & h1 & -> & Hl & El & _).
  cbn [mbind option_bind]. assert (Hn1 : ok (set_nf_link n lk)) by (apply ok_set_link_same; [done|done|rewrite El; done..]).
  destruct (f <? 0).
  - pose proof (conn_drop_ok net stage_buf (set_nf_link n lk) h1 Hn1). destruct (conn_drop net _ h1) as [n2 h2]. by exists true, n2, h2.
  - exists false, (set_nf_link n lk), h1. split; [done|]. split; [done|]. intros _. exists (lk_txoff lk). by rewrite <- El.
Qed.

(** A well-formed result that leaves the tasks alone. *)
Definition drains c (x : option (bool * netfs * coord H * N)) : Prop :=
  exists stop n' c' h', x = Some (stop, n', c', h') /\ ok n' /\ (forall p, cproc c' p = cproc c p).

Lemma drains_dropped n c c0 h : ok n -> (forall p, cproc c p = cproc c0 p) -> drains c0 (let '(n, h) := conn_drop net n h in Some (true, n, c, h)).
Proof. intros Hn Hc. pose proof (conn_drop_ok net stage_buf n h Hn). destruct (conn_drop net n h) as [n1 h1]. by exists true, n1, c, h1. Qed.

(** The next step of a request that stays on the wire. *)
Lemma advance_ok n h i :
  ok n -> 0 <= i < NETFS_NREQ -> (0 <= nf_inflight n -> nf_inflight n = i) ->
  exists stop n' h',
    (if bool_decide (rq_state (req_at n i) = REQ_INFLIGHT) && (nf_inflight n >=? 0)
     then '(e, n) ← req_build n i; if e <? 0 then Some (false, req_complete n i e, h) else pump_flush net n h
     else Some (false, n, h)) = Some (stop, n', h') /\ ok n' /\
    (stop = false -> nf_inflight n' < 0 \/
       (0 <= nf_inflight n /\ nf_inflight n' = i /\ lk_rxlen (nf_link n') = lk_rxlen (nf_link n) /\ rq_owner (req_at n' i) = rq_owner (req_at n i) /\
        rq_op (req_at n' i) = rq_op (req_at n i))).
Proof.
  intros Hn Hi Hfl. destruct (ok_inflight _ _ Hn) as [E|[Hb Hs]].
  - rewrite E, andb_false_r. exists false, n, h. split; [done|]. split; [done|]. left. lia.
  - rewrite Hfl in Hs by lia. rewrite bool_decide_true by done. rewrite Z.geb_leb, (proj2 (Z.leb_le _ _)) by lia. cbn [andb].
    destruct (req_build_ok stage_buf n i Hn Hi) as (e & n1 & -> & Hn1 & Hf); [congruence|]. cbn [mbind option_bind].
    destruct Hf as [Fi Fc Fr Fq Fg]. assert (Hs1 : rq_state (req_at n1 i) = REQ_INFLIGHT) by (by rewrite Fq).
    destruct (e <? 0).
    + eexists false, _, h. split; [done|]. split; [apply req_complete_ok; [done|done|congruence]|]. left. cbn. lia.
    + destruct (pump_flush_ok n1 h Hn1) as (stop & n2 & h2 & E2 & Hn2 & Hst). exists stop, n2, h2. split; [exact E2|]. split; [done|].
      intros Estop. destruct (Hst Estop) as [t ->]. right. cbn [nf_inflight set_nf_link].
      change (req_at (set_nf_link n1 ?l) i) with (req_at n1 i). rewrite Fq, Fi. split; [lia|]. split; [lia|]. split; [exact Fr|done].
Qed.

Lemma drain_loop_ok fuel n c h owner :
  0 <= stage_buf.2 < 2 ^ 32 -> ok n -> 0 <= nf_inflight n -> owner_ready c (req_at n (nf_inflight n)) owner ->
  (Z.to_nat (lk_rxlen (nf_link n)) < fuel)%nat -> drains c (drain_loop net fuel n c h owner).
Proof.
  intros Hcap. revert n c h. induction fuel as [|fuel IH]; intros n c h Hn Hfl Hown Hf; [lia|]. cbn [drain_loop].
  destruct (rx_message_ok (nf_link n) (ok_link _ _ Hn)) as (len & -> & Hlen). cbn [mbind option_bind].
  destruct (Z.eqb_spec len SIZE_MAX) as [|Hx]; [by apply drains_dropped|]. destruct (Z.eqb_spec len 0) as [|Hz]; [by exists false, n, c, h|].
  assert (Hl : 7 <= len <= lk_rxlen (nf_link n)) by lia. clear Hlen.
  destruct (ok_inflight _ _ Hn) as [E|[Hi Hs]]; [lia|]. set (i := nf_inflight n) in *.
  rewrite (proj2 (Z.leb_le 0 i)), (proj2 (Z.ltb_lt i _)) by lia. cbn [andb negb].
  rewrite get8_word by (rewrite ?(lo_rx _ (ok_link _ _ Hn)); done). cbn [mbind option_bind].
  match goal with |- context [handle_reply n c i owner ?t ?b] =>
    destruct (handle_reply_ok stage_buf n c i owner t b Hcap Hn Hi Hs Hown) as (n1 & c1 & -> & Hn1 & [El Hw] & Hc1) end.
  cbn [mbind option_bind]. rewrite <- El in Hl. destruct (rx_consume_ok (nf_link n1) len (ok_link _ _ Hn1) Hl) as (Hl2 & Hr2 & _ & E2).
  set (n2 := link_map _ n1).
  assert (Hn2 : ok n2) by (apply ok_set_link_same; [done|done|rewrite E2; done..]).
  destruct (advance_ok n2 h i Hn2 Hi) as (stop & n3 & h3 & -> & Hn3 & Hnext).
  { change (nf_inflight n2) with (nf_inflight n1). destruct Hw as [->|[-> _]]; lia. }
  cbn [mbind option_bind]. destruct stop; [by exists true, n3, c1, h3|]. destruct (Z.ltb_spec (nf_inflight n3) 0); [by exists false, n3, c1, h3|].
  destruct Hnext as [?|(Hfl2 & E3 & F1 & F2 & F3)]; [done|lia|]. change (nf_inflight n2) with (nf_inflight n1) in Hfl2.
  destruct Hw as [E1|(E1 & O1 & P1)]; [lia|].
  destruct (IH n3 c1 h3) as (stop & n' & c' & h' & E & Hn' & Hc'); [done|lia| | |].
  - rewrite E3. intros Ho Hop. rewrite F2 in Ho. rewrite F3 in Hop. change (req_at n2 i) with (req_at n1 i) in Ho, Hop.
    rewrite O1 in Ho. rewrite P1 in Hop. destruct (Hown Ho Hop) as (p & -> & Hp). exists p. split; [done|]. by rewrite Hc1.
  - rewrite F1. change (nf_link n2) with (rx_consume (nf_link n1) len). rewrite Hr2, El in *. lia.
  - exists stop, n', c', h'. split; [exact E|]. split; [done|]. intros p. by rewrite Hc', Hc1.
Qed.

Lemma owned_ready c r owner :
  (forall p, owner = Some p -> p_fs_context (cproc c p) <> None) ->
  negb (rq_op r =? REQ_OP_CLUNK) && (ref_index (rq_owner r) >=? 0) && negb (req_owned_by c r owner) = false -> owner_ready c r owner.
Proof.
  intros Hfs E Ho Hop. rewrite Z.geb_leb, (proj2 (Z.leb_le _ _)) in E by done. destruct (Z.eqb_spec (rq_op r) REQ_OP_CLUNK); [done|].
  cbn [negb andb] in E. apply negb_false_iff in E. unfold req_owned_by in E. destruct owner as [p|]; [|by rewrite andb_false_r in E].
  exists p. split; [done|]. by apply Hfs.
Qed.

Lemma pump_drain_ok n c h owner :
  0 <= stage_buf.2 < 2 ^ 32 -> ok n -> (forall p, owner = Some p -> p_fs_context (cproc c p) <> None) -> drains c (pump_drain net n c h owner).
Proof.
  intros Hcap Hn Hfs. unfold pump_drain. destruct (Z.ltb_spec (nf_inflight n) 0); [by exists false, n, c, h|].
  destruct (ok_inflight _ _ Hn) as [E|[Hi Hs]]; [lia|]. rewrite (proj2 (Z.ltb_lt _ _)) by lia. cbn [negb].
  destruct (_ && negb (req_owned_by _ _ _)) eqn:Eo; [by exists true, n, c, h|]. apply owned_ready in Eo; [|done].
  destruct (rx_fill_ok net (nf_link n) h (ok_link _ _ Hn)) as (f & lk & h1 & -> & Hl & El & _). cbn [mbind option_bind].
  assert (Hn1 : ok (set_nf_link n lk)) by (apply ok_set_link_same; [done|done|rewrite El; done..]).
  destruct (f <? 0); [by apply drains_dropped|]. apply drain_loop_ok; try done. cbn [nf_link set_nf_link]. lia.
Qed.

Lemma pick_queued_spec n i : pick_queued n = Some i -> 0 <= i < NETFS_NREQ /\ rq_state (req_at n i) = REQ_QUEUED.
Proof.
  unfold pick_queued.
  enough (forall l best bseq, (forall j, j ∈ l -> 0 <= j < NETFS_NREQ) ->
    (forall j, best = Some j -> 0 <= j < NETFS_NREQ /\ rq_state (req_at n j) = REQ_QUEUED) ->
    forall j, (foldl (fun '(best, bseq) i => let r := req_at n i in
       if bool_decide (rq_state r = REQ_QUEUED) && (rq_seq r <? bseq) then (Some i, rq_seq r) else (best, bseq)) (best, bseq) l).1 = Some j ->
    0 <= j < NETFS_NREQ /\ rq_state (req_at n j) = REQ_QUEUED) as Hall.
  { apply Hall; [|done]. intros j Hj. apply elem_of_seqZ in Hj. lia. }
  induction l as [|x l IH]; intros best bseq Hl Hb j; cbn [foldl]; [cbn; apply Hb|].
  case_bool_decide as Hx; [destruct (rq_seq (req_at n x) <? bseq)|]; cbn [andb]; apply IH; try (intros; apply Hl; by right); try done.
  intros k [= <-]. split; [apply Hl; by left|done].
Qed.

Lemma start_queued_ok n h i :
  ok n -> 0 <= i < NETFS_NREQ -> rq_state (req_at n i) = REQ_QUEUED -> nf_inflight n < 0 ->
  exists n' h', start_queued net n h i = Some (n', h') /\ ok n'.
Proof.
  intros Hn Hi Hs Hfl. unfold start_queued. destruct (req_build_ok stage_buf n i Hn Hi) as (e & n1 & -> & Hn1 & [Fi Fc Fr Fq Fg]); [congruence|].
  cbn [mbind option_bind]. assert (Hs1 : rq_state (req_at n1 i) = REQ_QUEUED) by (by rewrite Fq).
  destruct (e <? 0); [eexists _, h; split; [done|]; apply req_complete_ok; [done|done|congruence]|].
  destruct (pump_flush_ok (set_nf_inflight (put_req n1 i (set_rq_state (req_at n1 i) REQ_INFLIGHT)) i) h) as (stop & n2 & h2 & -> & Hn2 & _).
  - apply ok_start_req; [done|done| |done]. eapply req_ok_same; [by apply (ok_req_at stage_buf n1 i)|..]; try done. congruence.
  - cbn [mbind option_bind]. by exists n2, h2.
Qed.

Lemma start_clunk_ok n h i :
  ok n -> 0 <= i < NETFS_NREQ -> nf_inflight n < 0 -> exists n' h', start_clunk net n h i = Some (n', h') /\ ok n'.
Proof.
  intros Hn Hi Hfl. unfold start_clunk. set (n1 := set_nf_inflight _ i).
  assert (Hn1 : ok n1).
  { assert (Hn0 : ok (set_nf_clunk_head n ((nf_clunk_head n + 1) mod NETFS_NCLUNK))).
    { destruct Hn. split; try done. cbn. destruct ok_clunk as (? & ? & ?). split_and!; try lia; apply Z.mod_pos_bound; done. }
    apply (ok_start_req stage_buf _ i (clunk_request (aget 0 (nf_clunk_fid n) (nf_clunk_head n))) Hn0); [done| |done].
    apply req_ok_live; done. }
  destruct (req_build_ok stage_buf n1 i Hn1 Hi) as (e & n2 & -> & Hn2 & _).
  { unfold n1. change (req_at (set_nf_inflight (set_nf_clunk_head ?m _) _) i) with (req_at m i).
    rewrite req_at_put_eq by (rewrite (ok_reqs _ _ Hn); done). done. }
  cbn [mbind option_bind]. destruct (e =? 0); [|by exists n2, h].
  destruct (pump_flush_ok n2 h Hn2) as (stop & n3 & h3 & -> & Hn3 & _). cbn [mbind option_bind]. by exists n3, h3.
Qed.

Lemma pump_start_ok n c h owner : ok n -> exists n' h', pump_start net n c h owner = Some (n', h') /\ ok n'.
Proof.
  intros Hn. unfold pump_start. destruct (Z.ltb_spec (nf_inflight n) 0); [|by exists n, h]. destruct (_ =? _); cbn [andb]; [|by exists n, h].
  destruct (pick_queued n) as [i|] eqn:Ep.
  - apply pick_queued_spec in Ep as [Hi Hs]. destruct (negb _); [by exists n, h|by apply start_queued_ok].
  - destruct (negb _); [|by exists n, h]. destruct (List.find _ _) as [i|] eqn:Ef; [|by exists n, h].
    apply find_some in Ef as [Ef _]. apply list_elem_of_In, elem_of_seqZ in Ef. apply start_clunk_ok; [done|lia|done].
Qed.

(** The whole pump, for a caller whose task has a file context. *)
Lemma pump_ok n c h owner now :
  0 <= stage_buf.2 < 2 ^ 32 -> ok n -> (forall p, owner = Some p -> p_fs_context (cproc c p) <> None) ->
  exists n' c' h', pump net n c h owner now = Some (n', c', h') /\ ok n' /\ (forall p, cproc c' p = cproc c p).
Proof.
  intros Hcap Hn Hfs. unfold pump.
  assert (H1 : exists n1 h1, (if decide (nconn n = CONN_UP) then Some (n, h) else conn_advance net n h now) = Some (n1, h1) /\ ok n1).
  { destruct (decide _); [by exists n, h|]. by apply conn_advance_ok. }
  destruct H1 as (n1 & h1 & -> & Hn1). cbn [mbind option_bind]. destruct (negb _); [by exists n1, c, h1|].
  destruct (tx_flush_ok net (nf_link n1) h1 (ok_link _ _ Hn1)) as (f & lk & h2 & -> & Hl & El & _). cbn [mbind option_bind].
  assert (Hn2 : ok (set_nf_link n1 lk)) by (apply ok_set_link_same; [done|done|rewrite El; done..]).
  destruct (f <? 0).
  { pose proof (conn_drop_ok net stage_buf (set_nf_link n1 lk) h2 Hn2). destruct (conn_drop net _ h2) as [n3 h3]. by exists n3, c, h3. }
  destruct (f =? 0); [by eexists _, c, h2|].
  destruct (pump_drain_ok (set_nf_link n1 lk) c h2 owner Hcap Hn2 Hfs) as (stop & n3 & c3 & h3 & -> & Hn3 & Hc3). cbn [mbind option_bind].
  destruct stop; [by exists n3, c3, h3|]. destruct (pump_start_ok n3 c3 h3 owner Hn3) as (n4 & h4 & -> & Hn4). cbn [mbind option_bind].
  by exists n4, c3, h4.
Qed.
End Pump.
