(* ===== verification/NetfsProps.v ===== *)
(** * Correctness of the 9P client

    Memory safety and termination against any server, over any sequence of calls; the walk
    message and the framing round-trip; and what goes wrong across a reconnection. *)

From S2P Require Import Prelude Config Arena Path Proc Guest Wait Pool Fd Process Runtime Event Region Lifecycle.
From S2P Require Import Signal SysSignal Child SignalRoute Loader Image Exec Stat NetfsWire Netfs NetfsSpec NetfsPump.
From stdpp Require Import relations.
Local Open Scope Z_scope.

(** ** Entry points keep the client well formed *)

Section Entries.
Context {H : Type} (stage_buf : Z * Z).
Implicit Types (n : netfs) (c : coord H).
Local Notation ok := (netfs_ok stage_buf).

(** The request [req_new] queues. *)
Definition fresh_req n (op : Z) (owner : lxp_ref) : netfs_req :=
  mk_nreq REQ_QUEUED op 0 owner (nf_req_seq n) (-1) (-1) 0 0 0 0 0 false [] 0.

(** A request is queued in a free slot, or nothing is. *)
Lemma req_new_spec tus n c p op :
  ok n ->
  let '(x, n', _) := req_new tus n c p op in
  match x with
  | None => ok n' /\ nf_open n' = nf_open n
  | Some i => 0 <= i < NETFS_NREQ /\ nf_inflight n <> i /\ rq_state (req_at n i) = REQ_FREE /\
      exists owner, lxp_guest_view_slot (cgenv c) p = inr owner /\
        n' = set_nf_req_seq (put_req n i (fresh_req n op owner)) (u32 (nf_req_seq n + 1))
  end.
Proof.
  intros Hn. unfold req_new. destruct (lxp_guest_view_slot _ _) as [|owner]; [done|]. destruct (List.find _ _) as [i|] eqn:Ef; [|done].
  apply find_some in Ef as [Ei Es]. apply list_elem_of_In, elem_of_seqZ in Ei. apply bool_decide_eq_true in Es.
  assert (Hi : 0 <= i < NETFS_NREQ) by lia.
  assert (Hfl : nf_inflight n <> i) by (intros E; destruct (ok_inflight _ _ Hn) as [E'|[_ E']]; [lia|congruence]).
  destruct (lxp_wait_begin _ _ _) as [rc pr]. destruct (negb _); [|by eauto 8].
  split; [|done]. set (r := set_rq_state _ REQ_FREE).
  destruct (ok_put_req stage_buf n i r Hn Hi) as []; [by split|done|].
  split; try done; cbn in *; rewrite aset_aset; done.
Qed.

(** Filling in a queued request. *)
Lemma submit_ok n i r0 s r :
  ok n -> 0 <= i < NETFS_NREQ -> nf_inflight n <> i -> req_ok stage_buf (nf_exec_buf n, nf_exec_cap n) r ->
  ok (put_req (set_nf_req_seq (put_req n i r0) s) i r).
Proof.
  intros Hn Hi Hfl Hr. destruct (ok_put_req stage_buf n i r Hn Hi Hr) as []; [done|].
  split; try done; cbn in *; rewrite aset_aset; done.
Qed.

Lemma submit_req_at n i r0 s : ok n -> 0 <= i < NETFS_NREQ -> req_at (set_nf_req_seq (put_req n i r0) s) i = r0.
Proof. intros Hn Hi. change (req_at (set_nf_req_seq ?m _) i) with (req_at m i). apply req_at_put_eq. by rewrite (ok_reqs _ _ Hn). Qed.

Lemma netfs_open_ok tus n c p path flags : ok n -> ok (lxp_netfs_open tus n c p path flags).1.2.
Proof.
  intros Hn. unfold lxp_netfs_open. destruct (has _ _); [done|]. rewrite Z.geb_leb. destruct (Z.leb_spec LXP_PATH_MAX (alen (relpath n path))); [done|].
  destruct (List.find _ _) as [oi|] eqn:Eo; [|done]. apply find_some in Eo as [Eo _]. apply list_elem_of_In, elem_of_seqZ in Eo.
  pose proof (req_new_spec tus n c p LXP_NETFSW_OPEN Hn) as Hs. destruct (req_new tus n c p _) as [[[i|] n1] c1]; [|apply Hs].
  destruct Hs as (Hi & Hfl & _ & owner & _ & ->). cbn [fst snd].
  change (req_at (put_open ?m ?a ?b) i) with (req_at m i). rewrite submit_req_at by done.
  apply (submit_ok (put_open n oi _) i); [by apply ok_put_open|done|done|]. apply req_ok_live; cbn; [done|lia|done].
Qed.

Lemma netfs_read_ok tus n c p oi ubuf len : ok n -> ok (lxp_netfs_read tus n c p oi ubuf len).1.2.
Proof.
  intros Hn. unfold lxp_netfs_read. destruct (open_slot n oi) as [op|]; [|done]. destruct (no_stale op); [done|]. destruct (no_is_dir op); [done|].
  destruct (len =? 0); [done|]. destruct (negb _); [done|].
  pose proof (req_new_spec tus n c p LXP_NETFSW_READ Hn) as Hs. destruct (req_new tus n c p _) as [[[i|] n1] c1]; [|apply Hs].
  destruct Hs as (Hi & Hfl & _ & owner & _ & ->). cbn [fst snd]. rewrite submit_req_at by done.
  apply submit_ok; try done; by apply req_ok_live.
Qed.

Lemma netfs_getdents_ok tus n c p oi ubuf cap is64 : ok n -> ok (lxp_netfs_getdents tus n c p oi ubuf cap is64).1.2.
Proof.
  intros Hn. unfold lxp_netfs_getdents. destruct (open_slot n oi) as [op|]; [|done]. destruct (no_stale op); [done|].
  destruct (negb (no_is_dir op)); [done|]. destruct (negb _); [done|].
  pose proof (req_new_spec tus n c p LXP_NETFSW_GETDENTS Hn) as Hs. destruct (req_new tus n c p _) as [[[i|] n1] c1]; [|apply Hs].
  destruct Hs as (Hi & Hfl & _ & owner & _ & ->). cbn [fst snd]. rewrite submit_req_at by done.
  apply submit_ok; try done; by apply req_ok_live.
Qed.

Lemma netfs_stat_ok tus n c p path ustat kind : ok n -> ok (lxp_netfs_stat tus n c p path ustat kind).1.2.
Proof.
  intros Hn. unfold lxp_netfs_stat. rewrite Z.geb_leb. destruct (Z.leb_spec LXP_PATH_MAX (alen (relpath n path))); [done|].
  pose proof (req_new_spec tus n c p LXP_NETFSW_STAT Hn) as Hs. destruct (req_new tus n c p _) as [[[i|] n1] c1]; [|apply Hs].
  destruct Hs as (Hi & Hfl & _ & owner & _ & ->). cbn [fst snd]. rewrite submit_req_at by done.
  apply submit_ok; try done; by apply req_ok_live.
Qed.

Lemma netfs_access_ok tus n c p path mode : ok n -> ok (lxp_netfs_access tus n c p path mode).1.2.
Proof. intros Hn. unfold lxp_netfs_access. destruct (has mode 2); [done|by apply netfs_stat_ok]. Qed.

Lemma netfs_lseek_ok n oi off whence : ok n -> ok (lxp_netfs_lseek n oi off whence).2.
Proof.
  intros Hn. unfold lxp_netfs_lseek. destruct (open_slot n oi) as [op|]; [|done]. destruct (no_is_dir op); [done|]. cbv zeta.
  destruct (_ || _); [done|]. destruct (_ <? 0); [done|by apply ok_put_open].
Qed.

Lemma netfs_close_ok n oi : ok n -> ok (lxp_netfs_close n oi).
Proof.
  intros Hn. unfold lxp_netfs_close. destruct (open_slot n oi) as [op|]; [|done]. apply ok_put_open.
  destruct (_ && _); [by apply ok_clunk_enqueue|by apply ok_fid_free].
Qed.

Lemma netfs_cancel_ok n c p : ok n -> exists n' c', lxp_netfs_cancel n c p = Some (n', c') /\ ok n'.
Proof.
  intros Hn. unfold lxp_netfs_cancel. destruct (lxp_guest_view_slot _ _) as [|owner]; [by eauto|]. cbv zeta.
  set (ri := if bool_decide _ then io_request _ else -1). destruct (Z.ltb_spec ri 0); [by eauto|]. rewrite Z.geb_leb.
  destruct (Z.leb_spec NETFS_NREQ ri); [by eauto|]. cbn [orb]. assert (Hi : 0 <= ri < NETFS_NREQ) by lia. clearbody ri.
  destruct (negb _); [by eauto|]. set (r := set_rq_ubuf _ 0).
  assert (Hr : req_ok stage_buf (nf_exec_buf n, nf_exec_cap n) r) by (eapply req_ok_same; [by apply (ok_req_at stage_buf n ri)|..]; done).
  assert (Hst : rq_state r = rq_state (req_at n ri)) by done.
  set (n1 := put_req n ri r).
  assert (Hn1 : ok n1).
  { apply ok_put_req; [done|done|done|]. intros E. rewrite Hst. destruct (ok_inflight _ _ Hn) as [E'|[_ E']]; [lia|congruence]. }
  case_bool_decide as Hfl; [by eauto|].
  set (n2 := if rq_fid r >? 0 then clunk_enqueue n1 (rq_fid r) else n1).
  assert (Hn2 : ok n2) by (unfold n2; destruct (_ >? 0); [by apply ok_clunk_enqueue|done]).
  assert (Hcore : nf_core n2 = nf_core n1) by (unfold n2; destruct (_ >? 0); [apply core_clunk_enqueue|done]). clearbody n2.
  pose proof (core_fields _ _ Hcore) as (_ & _ & _ & _ & _ & Ei & Eb & Ec & _).
  assert (Hif : nf_inflight n2 <> ri).
  { rewrite Ei. cbn. intros E. destruct (ok_inflight _ _ Hn) as [E'|[_ E']]; [lia|congruence]. }
  assert (Hfin : forall m, ok m -> nf_inflight m = nf_inflight n2 -> nf_exec_buf m = nf_exec_buf n -> nf_exec_cap m = nf_exec_cap n ->
                 ok (put_req m ri (set_rq_state (set_rq_fid r (-1)) REQ_FREE))).
  { intros m Hm Em Fb Fc. rewrite <- Fb, <- Fc in Hr. apply ok_put_req; [done|done|exact (req_ok_free stage_buf _ r (set_rq_state (set_rq_fid r (-1)) REQ_FREE) Hr eq_refl eq_refl eq_refl)|]. rewrite Em. done. }
  destruct (_ && _) eqn:Eop; [|eexists _, _; split; [done|]; by apply Hfin].
  apply andb_prop in Eop as [Eop Eoi]. apply Z.eqb_eq in Eop. rewrite Z.geb_leb in Eoi. apply Z.leb_le in Eoi.
  destruct (open_release_ok stage_buf n2 (rq_oi r) Hn2) as (n3 & -> & Hn3 & E3); [split; [done|]; by apply Hr|]. cbn [mbind option_bind].
  eexists _, _. split; [done|]. apply Hfin; [done|by rewrite E3|by rewrite E3|by rewrite E3].
Qed.

(** ** Executables fetched off the mount *)

Lemma ok_exec_claim n size : ok n -> ok (set_nf_exec_size (set_nf_exec_cap (set_nf_exec_buf n stage_buf.1) stage_buf.2) size).
Proof.
  intros Hn. destruct Hn. split; try done. cbn. eapply Forall_impl; [exact ok_req|]. intros r [H1 H2]. split; [done|].
  intros Hs. destruct (H2 Hs) as (Hp & Ho & He). split; [done|]. split; [done|]. intros E. split; [by destruct stage_buf|by apply He].
Qed.

Lemma ok_exec_buf n : ok n -> ok (set_nf_exec_buf n stage_buf.1).
Proof.
  intros Hn. destruct Hn. split; try done. cbn. eapply Forall_impl; [exact ok_req|]. intros r [H1 H2]. split; [done|].
  intros Hs. destruct (H2 Hs) as (Hp & Ho & He). split; [done|]. split; [done|]. intros E. destruct (He E) as [Est Hoff]. split; [|done].
  rewrite <- Est. done.
Qed.

Lemma netfs_exec_fetch_ok tus n c st p path : ok n -> ok (lxp_netfs_exec_fetch stage_buf tus n c st p path).1.1.2.
Proof.
  intros Hn. unfold lxp_netfs_exec_fetch. rewrite Z.geb_leb. destruct (Z.leb_spec LXP_PATH_MAX (alen (relpath n path))); [done|].
  destruct (lxp_exec_stage_claim _ _ _ _) as [claimed st']. destruct (claimed <? 0); [by apply ok_exec_buf|].
  set (n1 := set_nf_exec_size _ 0). assert (Hn1 : ok n1) by (by apply ok_exec_claim).
  pose proof (req_new_spec tus n1 c p LXP_NETFSW_EXECFETCH Hn1) as Hs.
  destruct (req_new tus n1 c p _) as [[[i|] n2] c2]; [|apply Hs].
  destruct Hs as (Hi & Hfl & _ & owner & _ & ->). cbn [fst snd]. rewrite submit_req_at by done.
  apply submit_ok; try done. apply req_ok_live; try done. intros _. split; [by destruct stage_buf|]. done.
Qed.
End Entries.

(** ** Any sequence of calls *)

Section Calls.
Context {H N B : Type} `{FileOps B} (net : net_ops N) `{!LawfulNet net} (stage_buf : Z * Z).
Implicit Types (n : netfs) (c : coord H) (h : N).
Local Notation ok := (netfs_ok stage_buf).

Lemma netfs_retry_ok tus n c h (b : B) st p :
  0 <= stage_buf.2 < 2 ^ 32 -> ok n -> p_fs_context (cproc c p) <> None ->
  exists rc n' c' h' b' st', lxp_netfs_retry net tus n c h b st p = Some (rc, n', c', h', b', st') /\ ok n'.
Proof.
  intros Hcap Hn Hfs. unfold lxp_netfs_retry. destruct (negb _); [by eauto 9|]. destruct (lxp_guest_view_slot _ _) as [|owner]; [by eauto 9|].
  cbv zeta. set (ri := io_request _). destruct (Z.ltb_spec ri 0); [by eauto 9|]. rewrite Z.geb_leb.
  destruct (Z.leb_spec NETFS_NREQ ri); [by eauto 9|]. cbn [orb]. destruct (negb _); [by eauto 9|].
  destruct (pump_ok net stage_buf n c h (Some p) (default 0 tus) Hcap Hn) as (n1 & c1 & h1 & -> & Hn1 & _); [by intros q [= <-]|].
  cbn [mbind option_bind]. case_bool_decide as Hd; cbn [negb]; [|by eauto 9].
  assert (Hn2 : ok (put_req n1 ri (set_rq_state (req_at n1 ri) REQ_FREE))).
  { apply ok_put_req; [done|lia| |].
    - eapply req_ok_free; [by apply (ok_req_at stage_buf n1 ri)|done..].
    - intros E. exfalso. destruct (ok_inflight _ _ Hn1) as [E'|[_ E']]; [lia|]. rewrite E, Hd in E'. done. }
  unfold retry_finish. cbv zeta. set (n2 := put_req n1 ri _) in *. clearbody n2.
  destruct (_ && _).
  { destruct (lxp_fd_install _ _ _ _ _ _) as [[fd k] b1]. destruct (fd <? 0); eexists _, _, _, _, _, _; (split; [done|]); [by apply netfs_close_ok|done]. }
  destruct (_ && _); [|by eauto 9]. destruct (negb _); [by eauto 9|]. destruct (lxp_intent_begin _ _) as [rc pr].
  destruct (negb _); by eauto 9.
Qed.

Lemma netfs_tick_ok n c h now :
  0 <= stage_buf.2 < 2 ^ 32 -> ok n -> exists n' c' h', lxp_netfs_tick net n c h now = Some (n', c', h') /\ ok n'.
Proof.
  intros Hcap Hn. unfold lxp_netfs_tick. destruct (_ && _); [by eauto|]. destruct (existsb _ _); [by eauto|].
  destruct (pump_ok net stage_buf n c h None now Hcap Hn) as (n1 & c1 & h1 & E & Hn1 & _); [done|]. by eauto.
Qed.

Lemma netfs_clear_ok lk : link_ok lk -> lk_conn lk = CONN_DOWN -> ok (netfs_clear lk).
Proof.
  intros Hl Hc. split; try done.
  - unfold nconn. cbn. rewrite Hc. intros [?|[?|?]]; done.
  - apply Forall_replicate. split; done.
  - by left.
Qed.

(** The mount that [lxp_netfs_init] records. *)
Definition configured n (cf : lxp_netfs_config) : netfs :=
  let mp := default [] (nc_mountpoint cf) in
  let uname := match nc_uname cf with Some (x :: t) => x :: t | _ => default_uname end in
  link_map (fun lk => set_lk_reconnect_at_us lk 0)
    (set_nf_mnt n (mk_mnt mp (alen mp) (nc_server_ip cf) (nc_port cf) (default [] (nc_aname cf)) uname true)).

Lemma configured_ok n cf : ok n -> lxp_netfs_config_valid (Some cf) = true -> ok (configured n cf).
Proof.
  intros Hn Ev. unfold lxp_netfs_config_valid in Ev. destruct (nc_mountpoint cf) as [mp|]; [|done].
  rewrite !andb_true_iff in Ev. destruct Ev as [[[_ _] Ea] Eu]. destruct Hn. destruct ok_link. split; try done. cbn. split.
  - destruct (nc_uname cf) as [[|x t]|]; try done. cbn [lxp_netfs_config_string_fits] in Eu. apply andb_prop in Eu as [Eu _]. by apply Z.ltb_lt in Eu.
  - destruct (nc_aname cf) as [a|]; [|done]. cbn [lxp_netfs_config_string_fits] in Ea. apply andb_prop in Ea as [Ea _]. by apply Z.ltb_lt in Ea.
Qed.

(** Initialisation clears the client and, for a valid configuration, dials. *)
Lemma netfs_init_spec tus n h config :
  alen (lk_tx (nf_link n)) = NETFS_MSIZE -> alen (lk_rx (nf_link n)) = NETFS_MSIZE ->
  exists lk h0, link_ok lk /\ lk_conn lk = CONN_DOWN /\
    (exists rc, lxp_netfs_init net tus n h config = Some (rc, netfs_clear lk, h0)) \/
    link_ok lk /\ lk_conn lk = CONN_DOWN /\ exists cf n' h', lxp_netfs_config_valid (Some cf) = true /\
      conn_advance net (configured (netfs_clear lk) cf) h0 (default 0 tus) = Some (n', h') /\
      lxp_netfs_init net tus n h config = Some (LXP_OK, n', h').
Proof.
  intros Ht Hr. unfold lxp_netfs_init, lxp_netfs_shutdown. set (lk := mk_link _ _ _ _ _ _ _ _ _ _ _). set (h0 := if negb _ then _ else _).
  exists lk, h0. assert (Hlk : link_ok lk) by (by split). assert (Hdn : lk_conn lk = CONN_DOWN) by done. clearbody lk h0.
  destruct config as [cf|]; [|left; by eauto]. destruct (lxp_netfs_config_valid (Some cf)) eqn:Ev; cbn [negb]; [|left; by eauto]. right. split; [done|]. split; [done|].
  destruct (conn_advance_ok net stage_buf (configured (netfs_clear lk) cf) h0 (default 0 tus)) as (n3 & h3 & E3 & _).
  { apply configured_ok; [|done]. by apply netfs_clear_ok. }
  exists cf, n3, h3. split; [done|]. split; [exact E3|]. unfold configured in E3. rewrite E3. done.
Qed.

Lemma netfs_init_ok tus n h config :
  alen (lk_tx (nf_link n)) = NETFS_MSIZE -> alen (lk_rx (nf_link n)) = NETFS_MSIZE ->
  exists rc n' h', lxp_netfs_init net tus n h config = Some (rc, n', h') /\ ok n'.
Proof.
  intros Ht Hr. destruct (netfs_init_spec tus n h config Ht Hr) as (lk & h0 & [(Hlk & Hdn & rc & E)|(Hlk & Hdn & cf & n1 & h1 & Ev & E1 & E)]).
  - eexists _, _, _. split; [exact E|]. by apply netfs_clear_ok.
  - eexists _, _, _. split; [exact E|]. destruct (conn_advance_ok net stage_buf (configured (netfs_clear lk) cf) h0 (default 0 tus)) as (n3 & h3 & E3 & Hn3).
    + apply configured_ok; [|done]. by apply netfs_clear_ok.
    + rewrite E1 in E3. by injection E3 as -> _.
Qed.

(** One call into the client.  Between two calls the rest of the system changes the tasks,
    the memory and the network as it likes, so each call brings its own.  [may_close] and
    [may_cancel] say which opens and which requests the system may name. *)
Inductive netfs_call (may_close may_cancel : netfs -> Z -> Prop) n : netfs -> Prop :=
  | call_open tus c p path flags : netfs_call may_close may_cancel n (lxp_netfs_open tus n c p path flags).1.2
  | call_read tus c p oi ubuf len : netfs_call may_close may_cancel n (lxp_netfs_read tus n c p oi ubuf len).1.2
  | call_lseek oi off whence : netfs_call may_close may_cancel n (lxp_netfs_lseek n oi off whence).2
  | call_getdents tus c p oi ubuf cap is64 : netfs_call may_close may_cancel n (lxp_netfs_getdents tus n c p oi ubuf cap is64).1.2
  | call_stat tus c p path ustat kind : netfs_call may_close may_cancel n (lxp_netfs_stat tus n c p path ustat kind).1.2
  | call_access tus c p path mode : netfs_call may_close may_cancel n (lxp_netfs_access tus n c p path mode).1.2
  | call_chdir tus c p path : netfs_call may_close may_cancel n (lxp_netfs_chdir tus n c p path).1.2
  | call_close oi : may_close n oi -> netfs_call may_close may_cancel n (lxp_netfs_close n oi)
  | call_cancel c p n' c' :
      may_cancel n (io_request (p_wait (cproc c p))) -> lxp_netfs_cancel n c p = Some (n', c') -> netfs_call may_close may_cancel n n'
  | call_exec_fetch tus c st p path : netfs_call may_close may_cancel n (lxp_netfs_exec_fetch stage_buf tus n c st p path).1.1.2
  | call_retry tus c h (b : B) st p rc n' c' h' b' st' :
      p_fs_context (cproc c p) <> None -> lxp_netfs_retry net tus n c h b st p = Some (rc, n', c', h', b', st') -> netfs_call may_close may_cancel n n'
  | call_tick c h now n' c' h' : lxp_netfs_tick net n c h now = Some (n', c', h') -> netfs_call may_close may_cancel n n'.

Lemma netfs_call_ok mc mx n n' : 0 <= stage_buf.2 < 2 ^ 32 -> ok n -> netfs_call mc mx n n' -> ok n'.
Proof.
  intros Hcap Hn [].
  - by apply netfs_open_ok.
  - by apply netfs_read_ok.
  - by apply netfs_lseek_ok.
  - by apply netfs_getdents_ok.
  - by apply netfs_stat_ok.
  - by apply netfs_access_ok.
  - by apply netfs_stat_ok.
  - by apply netfs_close_ok.
  - destruct (netfs_cancel_ok stage_buf n c p Hn) as (m & d & E & Hm). rewrite E in *. by simplify_eq.
  - by apply netfs_exec_fetch_ok.
  - destruct (netfs_retry_ok tus n c h b st p Hcap Hn) as (? & m & ? & ? & ? & ? & E & Hm); [done|]. rewrite E in *. by simplify_eq.
  - destruct (netfs_tick_ok n c h now Hcap Hn) as (m & ? & ? & E & Hm). rewrite E in *. by simplify_eq.
Qed.

(** C15: memory safety and termination of the 9P client against any server and any host stack
    that respects the buffer lengths it is given.  Initialisation from the static buffers has
    a result for every configuration, and after any sequence of calls whatsoever the state is
    well formed and every call that touches the transport or an index has a result: no read
    leaves a received message, no write leaves the transmit, receive or staging buffer or a
    pool, and no loop exceeds its bound. *)
Theorem netfs_runs_safely tus n0 h config :
  0 <= stage_buf.2 < 2 ^ 32 -> alen (lk_tx (nf_link n0)) = NETFS_MSIZE -> alen (lk_rx (nf_link n0)) = NETFS_MSIZE ->
  exists rc n1 h1, lxp_netfs_init net tus n0 h config = Some (rc, n1, h1) /\
  forall n, rtc (netfs_call (fun _ _ => True) (fun _ _ => True)) n1 n ->
    ok n /\
    (forall tus c h (b : B) st p, p_fs_context (cproc c p) <> None -> exists x, lxp_netfs_retry net tus n c h b st p = Some x) /\
    (forall c h now, exists x, lxp_netfs_tick net n c h now = Some x) /\
    (forall c p, exists x, lxp_netfs_cancel n c p = Some x).
Proof.
  intros Hcap Ht Hr. destruct (netfs_init_ok tus n0 h config Ht Hr) as (rc & n1 & h1 & E & Hn1).
  exists rc, n1, h1. split; [done|]. intros n Hrun.
  assert (Hn : ok n) by (clear E; induction Hrun as [|x y z Hxy _ IH]; [done|]; apply IH; by eapply netfs_call_ok).
  split; [done|]. split_and!.
  - intros tus' c h' b st p Hp. destruct (netfs_retry_ok tus' n c h' b st p Hcap Hn Hp) as (? & ? & ? & ? & ? & ? & Ex & _). eauto.
  - intros c h' now. destruct (netfs_tick_ok n c h' now Hcap Hn) as (? & ? & ? & Ex & _). eauto.
  - intros c p. destruct (netfs_cancel_ok stage_buf n c p Hn) as (? & ? & Ex & _). eauto.
Qed.
End Calls.

(** *** A scripted network: every send is accepted, each receive takes the next chunk *)

Definition script_recv (h : list (list Z)) (cap : Z) : Z * list Z * list (list Z) :=
  match h with
  | [] => (LXP_ERR_TIMEOUT, [], [])
  | chunk :: t => if alen chunk <=? cap then (LXP_OK, chunk, t) else (LXP_ERR_IO, [], h)
  end.

Definition script_net : net_ops (list (list Z)) :=
  mk_net_ops (fun h _ _ _ => (LXP_OK, 1, h)) (fun h _ => h) (fun h _ _ _ => (LXP_OK, h)) (fun h _ d => (LXP_OK, alen d, h))
    (fun h _ cap _ => script_recv h cap) (fun h _ _ => (LXP_OK, h)) (fun h _ ev _ => (LXP_OK, ev, h)) (fun h _ => (LXP_OK, h)).

#[export] Instance script_lawful : LawfulNet script_net.
Proof.
  split.
  - intros h sk d sent h' [= <- <-]. unfold alen. lia.
  - intros h sk cap t bs h' Hcap E. cbn in E. unfold script_recv in E. destruct h as [|chunk h]; [done|].
    destruct (Z.leb_spec (alen chunk) cap); [|done]. by injection E as <- <-.
Qed.

Definition demo_link : netfs_link := mk_link 0 CONN_DOWN NETFS_MSIZE 0 0 0 (replicate 2048 0) 0 0 (replicate 2048 0) 0.
(** "/mnt" on 10.0.0.1. *)
Definition demo_netfs_config : lxp_netfs_config := mk_netfs_config (Some [47; 109; 110; 116]) [10; 0; 0; 1] 564 None None.
(** Rversion(2048, "9P2000.L") and Rattach. *)
Definition demo_handshake : list (list Z) :=
  [frame P9_RVERSION P9_NOTAG (le_bytes 4 2048 ++ wire_str VER); frame P9_RATTACH P9_TAG (replicate 13 0)].

#[local] Instance netfs_files : FileOps unit := {|
  fops_present := fun k => (k >? 0) && (k <? LXP_FD_KIND_COUNT);
  fops_close := fun b _ => b; fops_node_open := fun b _ => (0, b); fops_node_close := fun b _ => b |}.

Lemma netfs_runs_safely_witness :
  exists n1 h1, lxp_netfs_init script_net (Some 1) (netfs_clear demo_link) demo_handshake (Some demo_netfs_config) = Some (LXP_OK, n1, h1) /\
    nconn n1 = CONN_UP /\ netfs_ok (0x1000, 4096) n1.
Proof.
  destruct (netfs_runs_safely (H := unit) (B := unit) script_net (0x1000, 4096) (Some 1) (netfs_clear demo_link) demo_handshake
    (Some demo_netfs_config) ltac:(cbn; lia) eq_refl eq_refl) as (rc & n1 & h1 & E & Hall).
  assert (Hx : exists n h, lxp_netfs_init script_net (Some 1) (netfs_clear demo_link) demo_handshake (Some demo_netfs_config) =
                 Some (LXP_OK, n, h) /\ nconn n = CONN_UP) by (eexists _, _; split; [vm_compute; reflexivity|reflexivity]).
  destruct Hx as (n & h & E2 & Hup). rewrite E2 in E. injection E as <- <- <-. exists n, h. split; [exact E2|]. split; [exact Hup|].
  destruct (Hall n (rtc_refl _ n)) as [Hok _]. exact Hok.
Defined.

(** * The walk message round-trips

    A decoder for the walk request, written as a server reads it: the size, the type and the
    tag, the two fids, the count of names and each counted name, with nothing left over.  What
    the client builds for a path decodes to that path's components. *)

Fixpoint decode_names (k : nat) (b : list Z) : option (list (list Z)) :=
  match k with
  | O => match b with [] => Some [] | _ => None end
  | S k =>
      '(len, _) ← get16 b 0;
      let rest := drop 2 b in
      if alen rest <? len then None
      else names ← decode_names k (drop (Z.to_nat len) rest); Some (take (Z.to_nat len) rest :: names)
  end.

(** The starting fid, the new fid and the names. *)
Definition decode_walk (msg : list Z) : option (Z * Z * list (list Z)) :=
  '(size, o) ← get32 msg 0; '(type, o) ← get8 msg o; '(tag, o) ← get16 msg o;
  if negb ((size =? alen msg) && (type =? P9_TWALK) && (tag =? P9_TAG)) then None
  else
    '(fid, o) ← get32 msg o; '(newfid, o) ← get32 msg o; '(k, o) ← get16 msg o;
    names ← decode_names (Z.to_nat k) (drop (Z.to_nat o) msg);
    Some (fid, newfid, names).

(** The message waiting to be sent. *)
Definition outgoing (lk : netfs_link) : list Z := take (Z.to_nat (lk_txlen lk)) (lk_tx lk).

Lemma outgoing_sends lk type tag body : outgoing (sends lk type tag body) = frame type tag body.
Proof.
  unfold outgoing, sends. cbn [lk_txlen lk_tx set_lk_txoff set_lk_txlen set_lk_tx].
  replace (Z.to_nat (7 + alen body)) with (length (frame type tag body)); [apply take_app_length|].
  pose proof (frame_length type tag body). unfold alen in *. lia.
Qed.

Lemma get16_bytes v post : 0 <= v < 2 ^ 16 -> get16 (le_bytes 2 v ++ post) 0 = Some (v, 2).
Proof.
  intros Hv. rewrite get16_word by (unfold alen; rewrite ?length_app, ?length_le_bytes; lia).
  pose proof (word_at_bytes [] 2 v post) as E. cbn [app] in E. change (alen []) with 0 in E. rewrite E. rewrite Z.mod_small by done. done.
Qed.

Lemma decode_names_wire names :
  Forall (fun s : list Z => alen s < 2 ^ 16) names -> decode_names (length names) (concat (map wire_str names)) = Some names.
Proof.
  induction names as [|s names IH]; intros Hf; [done|]. apply Forall_cons in Hf as [Hs Hf]. cbn [length decode_names map concat].
  change (wire_str s) with (le_bytes 2 (alen s) ++ s). rewrite <- app_assoc, get16_bytes by (unfold alen in *; lia). cbn [mbind option_bind].
  change (drop 2 (le_bytes 2 (alen s) ++ ?r)) with r.
  replace (alen (s ++ concat (map wire_str names)) <? alen s) with false.
  2:{ symmetry. apply Z.ltb_ge. unfold alen. rewrite length_app. lia. }
  replace (Z.to_nat (alen s)) with (length s) by (unfold alen; lia). rewrite drop_app_length, take_app_length, IH by done. done.
Qed.

Lemma components_short path : Forall (fun s : list Z => alen s <= alen path) (components path).
Proof.
  enough (forall s seg, Forall (fun x : list Z => alen x <= alen seg + alen s) (comp_acc seg s)) as Hall.
  { specialize (Hall path []). change (alen (@nil Z)) with 0 in Hall. exact Hall. }
  assert (Hf : forall (seg : list Z) k, alen seg <= k -> Forall (fun x : list Z => alen x <= k) (flush seg)).
  { intros [|x seg] k Hk; [done|]. by constructor. }
  induction s as [|ch t IH]; intros seg; cbn [comp_acc].
  - apply Hf. change (alen []) with 0. lia.
  - destruct (is_slash ch).
    + apply Forall_app. split; [apply Hf; unfold alen; lia|]. eapply Forall_impl; [apply (IH [])|]. intros x Hx. unfold alen in *. simpl in *. lia.
    + eapply Forall_impl; [apply (IH (seg ++ [ch]))|]. intros x Hx. unfold alen in *. rewrite length_app in Hx. simpl in *. lia.
Qed.

Lemma components_bytes_in path : Forall (fun x => u8 x = x) path -> Forall (Forall (fun x => u8 x = x)) (components path).
Proof.
  intros Hp. enough (forall s seg, Forall (fun x => u8 x = x) s -> Forall (fun x => u8 x = x) seg -> Forall (Forall (fun x => u8 x = x)) (comp_acc seg s)) as Hall
    by (by apply Hall).
  assert (Hf : forall seg, Forall (fun x => u8 x = x) seg -> Forall (Forall (fun x => u8 x = x)) (flush seg)) by (intros [|x seg] Hs; [done|by constructor]).
  induction s as [|ch t IH]; intros seg Hs Hg; cbn [comp_acc]; [by apply Hf|]. apply Forall_cons in Hs as [Hc Ht].
  destruct (is_slash ch); [apply Forall_app; split; [by apply Hf|by apply IH]|]. apply IH; [done|]. apply Forall_app. split; [done|by constructor].
Qed.

Lemma map_u8_wire names :
  Forall (Forall (fun x => u8 x = x)) names -> map u8 (concat (map wire_str names)) = concat (map wire_str names).
Proof.
  induction 1 as [|s names Hs _ IH]; [done|]. cbn [map concat]. rewrite map_app, IH. f_equal. unfold wire_str. rewrite map_app, map_u8_le_bytes. f_equal.
  induction Hs as [|x s Hx Hs IHs]; [done|]. simpl. by rewrite Hx, IHs.
Qed.

Lemma decode_walk_body fid comps :
  alen comps <= NETFS_MAXWELEM -> Forall (fun s : list Z => alen s < 2 ^ 16) comps -> Forall (Forall (fun x => u8 x = x)) comps ->
  7 + alen (walk_body fid comps) <= NETFS_MSIZE ->
  decode_walk (frame P9_TWALK P9_TAG (walk_body fid comps)) = Some (P9_ROOT_FID, u32 fid, comps).
Proof.
  intros Hk Hs Hb Hfit. unfold decode_walk. set (body := walk_body fid comps) in *. set (msg := frame P9_TWALK P9_TAG body).
  assert (Hlen : alen msg = 7 + alen body) by apply frame_length.
  assert (Hbody : alen body = 10 + alen (concat (map wire_str comps)))
    by (unfold body, walk_body, alen; rewrite !length_app, !length_le_bytes; lia).
  assert (Hnn : 0 <= alen (concat (map wire_str comps))) by (unfold alen; lia).
  assert (Emsg : msg = le_bytes 4 (7 + alen body) ++ [u8 P9_TWALK] ++ le_bytes 2 P9_TAG ++ le_bytes 4 P9_ROOT_FID ++ le_bytes 4 (u32 fid) ++
                       le_bytes 2 (u16 (alen comps)) ++ concat (map wire_str comps)).
  { unfold msg, frame, body, walk_body. rewrite !map_app, !map_u8_le_bytes, map_u8_wire by done. done. }
  assert (W : forall o pre k v post, msg = pre ++ le_bytes k v ++ post -> o = alen pre -> word_at msg o k = v mod 2 ^ (8 * Z.of_nat k)).
  { intros o pre k v post E ->. rewrite E. apply word_at_bytes. }
  rewrite get32_word by lia. cbn [mbind option_bind]. rewrite get8_word by lia. cbn [mbind option_bind]. rewrite get16_word by lia. cbn [mbind option_bind].
  rewrite (W 0 [] 4%nat (7 + alen body) _ Emsg eq_refl).
  rewrite (W (0 + 4) (le_bytes 4 (7 + alen body)) 1%nat P9_TWALK _ Emsg eq_refl).
  rewrite (W (0 + 4 + 1) (take 5 msg) 2%nat P9_TAG (drop 7 msg)) by (by rewrite Emsg).
  rewrite Z.mod_small by (change (2 ^ (8 * Z.of_nat 4)) with (2 ^ 32); unfold NETFS_MSIZE, alen in *; lia).
  rewrite Hlen, Z.eqb_refl. change (negb (true && (P9_TWALK mod 2 ^ (8 * Z.of_nat 1) =? P9_TWALK) && (P9_TAG mod 2 ^ (8 * Z.of_nat 2) =? P9_TAG))) with false.
  cbv iota. rewrite get32_word by lia. cbn [mbind option_bind]. rewrite get32_word by lia. cbn [mbind option_bind]. rewrite get16_word by lia. cbn [mbind option_bind].
  rewrite (W (0 + 4 + 1 + 2) (take 7 msg) 4%nat P9_ROOT_FID (drop 11 msg)) by (by rewrite Emsg).
  rewrite (W (0 + 4 + 1 + 2 + 4) (take 11 msg) 4%nat (u32 fid) (drop 15 msg)) by (by rewrite Emsg).
  rewrite (W (0 + 4 + 1 + 2 + 4 + 4) (take 15 msg) 2%nat (u16 (alen comps)) (drop 17 msg)) by (by rewrite Emsg).
  replace (drop (Z.to_nat (0 + 4 + 1 + 2 + 4 + 4 + 2)) msg) with (concat (map wire_str comps)) by (by rewrite Emsg).
  replace (Z.to_nat (u16 (alen comps) mod 2 ^ (8 * Z.of_nat 2))) with (length comps).
  2:{ unfold u16. change (2 ^ (8 * Z.of_nat 2)) with (2 ^ 16). rewrite Z.mod_mod by lia. unfold NETFS_MAXWELEM, alen in *. rewrite Z.mod_small by lia. lia. }
  rewrite decode_names_wire by done. cbn [mbind option_bind]. do 3 f_equal.
  unfold u32. change (2 ^ (8 * Z.of_nat 4)) with (2 ^ 32). apply Z.mod_mod. lia.
Qed.

Lemma fid_alloc_spec n :
  match (fid_alloc n).1 with
  | fid => if fid <? 0 then (forall f, 0 < f < NETFS_NFID -> fid_used n f = true) else 0 < fid < NETFS_NFID /\ fid_used n fid = false
  end.
Proof.
  unfold fid_alloc. destruct (List.find _ _) as [f|] eqn:E; cbn [fst].
  - apply find_some in E as [E1 E2]. apply list_elem_of_In, elem_of_seqZ in E1. rewrite (proj2 (Z.ltb_ge f 0)) by lia.
    split; [lia|]. by apply negb_true_iff in E2.
  - cbn. intros f Hf. eapply find_none in E; [by apply negb_false_iff in E|]. apply list_elem_of_In, elem_of_seqZ. lia.
Qed.

(** opening or examining a path sends its components.  The walk for a request either is
    refused, for more than sixteen components or when all thirty-one fids are taken, or leaves
    in the transmit buffer one message that a server decodes as a walk from the root to a fid
    nobody holds, through exactly the path's non-empty components in order. *)
Theorem netfs_walk_roundtrip stage_buf n i :
  netfs_ok stage_buf n -> 0 <= i < NETFS_NREQ -> rq_state (req_at n i) <> REQ_FREE ->
  Forall (fun x => u8 x = x) (rq_path (req_at n i)) ->
  let comps := components (rq_path (req_at n i)) in
  exists e n', msg_walk n i = Some (e, n') /\
    (NETFS_MAXWELEM < alen comps /\ e = - LXP_ENAMETOOLONG /\ n' = n \/
     alen comps <= NETFS_MAXWELEM /\ e = - LXP_EMFILE /\ (forall f, 0 < f < NETFS_NFID -> fid_used n f = true) \/
     alen comps <= NETFS_MAXWELEM /\ e = 0 /\ exists fid, 0 < fid < NETFS_NFID /\ fid_used n fid = false /\
       rq_fid (req_at n' i) = fid /\ decode_walk (outgoing (nf_link n')) = Some (P9_ROOT_FID, fid, comps)).
Proof.
  intros Hn Hi Hs Hb comps. destruct (req_live _ _ _ (ok_req_at stage_buf n i Hn Hi) Hs) as (Hp & _).
  rewrite msg_walk_spec by (done || apply Hn). cbv zeta. fold comps. destruct (Z.leb_spec (alen comps) NETFS_MAXWELEM) as [Hk|Hk]; cbn [negb].
  2:{ eexists _, _. split; [done|]. by left. }
  pose proof (fid_alloc_spec n) as Hfid. pose proof (core_fid_alloc n) as Hc. destruct (fid_alloc n) as [fid m]. cbn [fst snd] in *.
  destruct (Z.ltb_spec fid 0); (eexists _, _; split; [done|]); right; [by left|right].
  destruct Hfid as [Hf Hu]. split; [done|]. split; [done|]. exists fid. split; [done|]. split; [done|]. split.
  - change (req_at (set_nf_link ?a ?l) i) with (req_at a i). rewrite req_at_put_eq; [done|].
    apply core_fields in Hc as (_ & _ & _ & -> & _). by rewrite (ok_reqs _ _ Hn).
  - cbn [nf_link set_nf_link]. rewrite outgoing_sends, decode_walk_body; [|done| | |].
    + do 3 f_equal. apply u32_small. unfold NETFS_NFID in *. lia.
    + eapply Forall_impl; [apply components_short|]. intros x Hx. unfold LXP_PATH_MAX in *. cbn beta in Hx. lia.
    + by apply components_bytes_in.
    + by apply walk_body_fits.
Qed.

(** *** Witness: a stat of "/a//bc" *)

Definition walk_link : netfs_link := mk_link 1 CONN_UP NETFS_MSIZE 1 0 0 (replicate 2048 0) 0 0 (replicate 2048 0) 0.
Definition walk_netfs : netfs :=
  put_req (netfs_clear walk_link) 2 (mk_nreq REQ_QUEUED LXP_NETFSW_STAT 0 (mk_ref 0 1) 0 (-1) (-1) 0 0 0 0 0 false [47; 97; 47; 47; 98; 99] 0).

Lemma walk_netfs_ok : netfs_ok (0, 0) walk_netfs.
Proof.
  split; try done.
  - unfold walk_netfs. cbn. repeat (constructor; [split; done|]). done.
  - by left.
Qed.

Lemma netfs_walk_roundtrip_witness :
  exists n', msg_walk walk_netfs 2 = Some (0, n') /\ decode_walk (outgoing (nf_link n')) = Some (0, 1, [[97]; [98; 99]]).
Proof.
  destruct (netfs_walk_roundtrip (0, 0) walk_netfs 2 walk_netfs_ok ltac:(done) ltac:(done)
    ltac:(repeat constructor)) as (e & n' & E & Hcases).
  exists n'. assert (E' : option_map fst (msg_walk walk_netfs 2) = Some 0) by (vm_compute; reflexivity).
  rewrite E in E'. injection E' as ->. split; [exact E|].
  destruct Hcases as [(_ & He & _)|[(_ & He & _)|(_ & _ & fid & _ & _ & Hf & Hd)]]; [discriminate He|discriminate He|].
  rewrite Hd. assert (Ef : option_map (fun x => rq_fid (req_at x.2 2)) (msg_walk walk_netfs 2) = Some 1) by (vm_compute; reflexivity).
  rewrite E in Ef. injection Ef as Ef. cbn [snd] in Ef. rewrite <- Hf, Ef. reflexivity.
Defined.
