(* ===== verification/NetfsSession.v ===== *)
(** * Who holds which fid

    Until the first connection is lost, the bitmap of fids is exactly the set of fids held:
    by an open, by a request on its way, or by the queue of background clunks; and no fid has
    two holders.  This file has the counting: what each primitive does to the holders. *)

From S2P Require Import Prelude Config Arena Path Proc Guest Wait Pool Fd Process Runtime Event Region Lifecycle.
From S2P Require Import Signal SysSignal Child SignalRoute Loader Image Exec Stat NetfsWire Netfs NetfsSpec NetfsPump.
From S2P Require Import NetfsProps.
Local Open Scope Z_scope.

Definition is_live (r : netfs_req) : bool := bool_decide (rq_state r = REQ_QUEUED) || bool_decide (rq_state r = REQ_INFLIGHT).

Definition ofid (op : netfs_open) : list Z := if no_used op && (no_fid op >? 0) then [no_fid op] else [].
Definition rfid (r : netfs_req) : list Z := if is_live r && (rq_fid r >? 0) then [rq_fid r] else [].

(** The queue from its head. *)
Definition queue (n : netfs) : list Z :=
  map (fun k => aget 0 (nf_clunk_fid n) ((nf_clunk_head n + k) mod NETFS_NCLUNK))
    (seqZ 0 ((nf_clunk_tail n - nf_clunk_head n) mod NETFS_NCLUNK)).

Definition held (n : netfs) : list Z := concat (map ofid (nf_open n)) ++ concat (map rfid (nf_req n)) ++ queue n.

Definition fids_exact (n : netfs) : Prop :=
  NoDup (held n) /\ forall f, f ∈ held n <-> 0 < f < NETFS_NFID /\ fid_used n f = true.

(** ** The bitmap *)

Lemma fid_used_bit n f : 0 <= f < NETFS_NFID -> fid_used n f = Z.testbit (aget 0 (nf_fid_bm n) 0) f.
Proof.
  intros Hf. unfold fid_used, NETFS_NFID in *. rewrite Z.shiftr_div_pow2 by lia. rewrite (Z.div_small f) by lia.
  replace (Z.land f 31) with f by (change 31 with (Z.ones 5); rewrite Z.land_ones, Z.mod_small by lia; done).
  set (w := aget 0 (nf_fid_bm n) 0). rewrite Z.shiftl_1_l.
  destruct (Z.testbit w f) eqn:E.
  - apply negb_true_iff, Z.eqb_neq. intros Hz. apply (f_equal (fun x => Z.testbit x f)) in Hz.
    rewrite Z.land_spec, E, Z.pow2_bits_true, Z.bits_0 in Hz by lia. done.
  - apply negb_false_iff, Z.eqb_eq. apply Z.bits_inj'. intros k Hk. rewrite Z.land_spec, Z.bits_0.
    destruct (decide (k = f)) as [->|Hne]; [by rewrite E|]. rewrite Z.pow2_bits_false by done. apply andb_false_r.
Qed.

Lemma fid_used_free n f g :
  alen (nf_fid_bm n) = 1 -> 0 < f < NETFS_NFID -> 0 < g < NETFS_NFID -> fid_used (fid_free n f) g = fid_used n g && negb (f =? g).
Proof.
  intros Hb Hf Hg. rewrite !fid_used_bit by lia. unfold fid_free.
  destruct (Z.gtb_spec f 0); [|lia]. destruct (Z.ltb_spec f NETFS_NFID); [|lia]. cbn [andb].
  unfold NETFS_NFID in *. rewrite Z.shiftr_div_pow2 by lia. rewrite (Z.div_small f) by lia. cbn [nf_fid_bm set_nf_fid_bm].
  rewrite aget_aset_eq by lia. replace (Z.land f 31) with f by (change 31 with (Z.ones 5); rewrite Z.land_ones, Z.mod_small by lia; done).
  rewrite Z.land_spec, Z.shiftl_1_l. f_equal. unfold u32. rewrite Z.mod_pow2_bits_low, Z.lnot_spec by lia. f_equal.
  destruct (Z.eqb_spec f g) as [->|Hne]; [apply Z.pow2_bits_true; lia|by apply Z.pow2_bits_false].
Qed.

Lemma fid_used_alloc n g :
  alen (nf_fid_bm n) = 1 -> 0 < g < NETFS_NFID -> 0 < (fid_alloc n).1 ->
  fid_used (fid_alloc n).2 g = fid_used n g || ((fid_alloc n).1 =? g).
Proof.
  intros Hb Hg Hpos. unfold fid_alloc in *. destruct (List.find _ _) as [f|] eqn:E; cbn [fst snd] in *; [|lia].
  apply find_some in E as [E _]. apply list_elem_of_In, elem_of_seqZ in E. rewrite !fid_used_bit by lia.
  unfold NETFS_NFID in *. rewrite Z.shiftr_div_pow2 by lia. rewrite (Z.div_small f) by lia. cbn [nf_fid_bm set_nf_fid_bm].
  rewrite aget_aset_eq by lia. replace (Z.land f 31) with f by (change 31 with (Z.ones 5); rewrite Z.land_ones, Z.mod_small by lia; done).
  rewrite Z.lor_spec, Z.shiftl_1_l. f_equal. destruct (Z.eqb_spec f g) as [->|Hne]; [apply Z.pow2_bits_true; lia|by apply Z.pow2_bits_false].
Qed.

(** ** Holders *)

Lemma concat_aset {A} (g : A -> list Z) (l : list A) i d x :
  0 <= i < alen l -> concat (map g (aset l i x)) ++ g (aget d l i) ≡ₚ concat (map g l) ++ g x.
Proof.
  intros Hi. assert (Hl := lookup_aget d l i Hi). unfold aset. rewrite insert_take_drop by (unfold alen in Hi; lia).
  rewrite <- (take_drop_middle l (Z.to_nat i) (aget d l i) Hl) at 4. rewrite !map_app, !concat_app. cbn [map concat].
  rewrite <- !app_assoc. apply Permutation_app_head. rewrite (Permutation_app_comm (g x)), <- app_assoc.
  rewrite (Permutation_app_comm (g (aget d l i)) (concat _ ++ g x)), <- app_assoc. apply Permutation_app_head, Permutation_app_comm.
Qed.

Lemma perm_middle (a a' b o o' : list Z) : a' ++ o ≡ₚ a ++ o' -> (a' ++ b) ++ o ≡ₚ (a ++ b) ++ o'.
Proof.
  intros E. rewrite <- !app_assoc, (Permutation_app_comm b o), (Permutation_app_comm b o'), !app_assoc. by apply Permutation_app_tail.
Qed.

Lemma held_put_req n i r : 0 <= i < alen (nf_req n) -> held (put_req n i r) ++ rfid (req_at n i) ≡ₚ held n ++ rfid r.
Proof.
  intros Hi. unfold held. cbn [nf_open nf_req put_req set_nf_req]. change (queue (set_nf_req n ?x)) with (queue n).
  pose proof (concat_aset rfid (nf_req n) i nreq_zero r Hi) as E. unfold req_at. rewrite <- !(app_assoc (concat (map ofid _))).
  apply Permutation_app_head. by apply perm_middle.
Qed.

Lemma held_put_open n oi op : 0 <= oi < alen (nf_open n) -> held (put_open n oi op) ++ ofid (open_at n oi) ≡ₚ held n ++ ofid op.
Proof.
  intros Hi. unfold held. cbn [nf_open nf_req put_open set_nf_open]. change (queue (set_nf_open n ?x)) with (queue n).
  apply perm_middle. exact (concat_aset ofid (nf_open n) oi nopen_zero op Hi).
Qed.

Lemma held_enqueue n f :
  alen (nf_clunk_fid n) = NETFS_NCLUNK -> 0 <= nf_clunk_head n < NETFS_NCLUNK -> 0 <= nf_clunk_tail n < NETFS_NCLUNK -> 0 < f ->
  (nf_clunk_tail n + 1) mod NETFS_NCLUNK <> nf_clunk_head n -> held (clunk_enqueue n f) ≡ₚ f :: held n.
Proof.
  intros Hl Hh Ht Hf Hroom. unfold clunk_enqueue. destruct (Z.leb_spec f 0); [lia|]. destruct (Z.eqb_spec ((nf_clunk_tail n + 1) mod NETFS_NCLUNK) (nf_clunk_head n)); [done|].
  set (m := set_nf_clunk_tail _ _).
  assert (Eq : queue m = queue n ++ [f]).
  { unfold queue, m. cbn [nf_clunk_fid nf_clunk_head nf_clunk_tail set_nf_clunk_tail set_nf_clunk_fid].
    set (h := nf_clunk_head n) in *. set (t := nf_clunk_tail n) in *. set (k := (t - h) mod NETFS_NCLUNK).
    assert (Hk : 0 <= k < NETFS_NCLUNK - 1 /\ (h + k) mod NETFS_NCLUNK = t).
    { unfold k, NETFS_NCLUNK in *. split; [lia|]. lia. }
    replace (((t + 1) mod NETFS_NCLUNK - h) mod NETFS_NCLUNK) with (k + 1) by (unfold k, NETFS_NCLUNK in *; lia).
    rewrite seqZ_app by lia. rewrite map_app. cbn [seqZ]. f_equal.
    - apply map_ext_in. intros j Hj. apply list_elem_of_In, elem_of_seqZ in Hj. apply aget_aset_ne; [lia|apply Z.mod_pos_bound; done|].
      destruct Hk as [Hk1 Hk2]. unfold NETFS_NCLUNK in *. lia.
    - replace (seqZ (0 + k) 1) with [k]; [|by rewrite Z.add_0_l]. cbn [map]. f_equal. rewrite (proj2 Hk). apply aget_aset_eq. lia. }
  unfold held. rewrite Eq. change (nf_open m) with (nf_open n). change (nf_req m) with (nf_req n).
  rewrite !app_assoc. by rewrite <- Permutation_cons_append.
Qed.

Lemma held_head n :
  0 <= nf_clunk_head n < NETFS_NCLUNK -> 0 <= nf_clunk_tail n < NETFS_NCLUNK -> nf_clunk_head n <> nf_clunk_tail n ->
  held n ≡ₚ aget 0 (nf_clunk_fid n) (nf_clunk_head n) :: held (set_nf_clunk_head n ((nf_clunk_head n + 1) mod NETFS_NCLUNK)).
Proof.
  intros Hh Ht Hne. set (m := set_nf_clunk_head _ _).
  assert (Eq : queue n = aget 0 (nf_clunk_fid n) (nf_clunk_head n) :: queue m).
  { unfold queue, m. cbn [nf_clunk_fid nf_clunk_head nf_clunk_tail set_nf_clunk_head].
    set (h := nf_clunk_head n) in *. set (t := nf_clunk_tail n) in *. set (k := (t - h) mod NETFS_NCLUNK).
    assert (Hk : 0 < k < NETFS_NCLUNK) by (unfold k, NETFS_NCLUNK in *; lia).
    replace ((t - (h + 1) mod NETFS_NCLUNK) mod NETFS_NCLUNK) with (k - 1) by (unfold k, NETFS_NCLUNK in *; lia).
    rewrite seqZ_cons by lia. cbn [map]. f_equal; [f_equal; rewrite Z.add_0_r; unfold NETFS_NCLUNK in *; lia|].
    replace (seqZ (Z.succ 0) (Z.pred k)) with (map (Z.add 1) (seqZ 0 (k - 1))) by (etrans; [apply (fmap_add_seqZ 1 0 (k - 1))|f_equal; lia]).
    rewrite map_map. apply map_ext. intros j. f_equal. unfold NETFS_NCLUNK in *. lia. }
  unfold held. rewrite Eq. change (nf_open m) with (nf_open n). change (nf_req m) with (nf_req n).
  rewrite !app_assoc. symmetry. apply Permutation_middle.
Qed.

(** ** Exactness *)

Lemma exact_same n m : fids_exact n -> held m ≡ₚ held n -> (forall f, fid_used m f = fid_used n f) -> fids_exact m.
Proof. intros [Hd He] Hp Hu. split; [by rewrite Hp|]. intros f. rewrite Hp, Hu. apply He. Qed.

Lemma exact_drop n m f :
  fids_exact n -> held n ≡ₚ f :: held m -> (forall g, 0 < g < NETFS_NFID -> fid_used m g = fid_used n g && negb (f =? g)) -> fids_exact m.
Proof.
  intros [Hd He] Hp Hu. rewrite Hp in Hd. apply NoDup_cons in Hd as [Hf Hd]. split; [done|]. intros g. split.
  - intros Hg. assert (Hgn : g ∈ held n) by (rewrite Hp; by right). apply He in Hgn as [Hr Hg1]. split; [done|].
    rewrite Hu, Hg1 by done. destruct (Z.eqb_spec f g); [by subst|done].
  - intros [Hr Hg]. rewrite Hu in Hg by done. apply andb_prop in Hg as [Hg Hne]. assert (Hgn : g ∈ held n) by (by apply He).
    rewrite Hp in Hgn. apply elem_of_cons in Hgn as [->|]; [by rewrite Z.eqb_refl in Hne|done].
Qed.

Lemma exact_add n m f :
  fids_exact n -> held m ≡ₚ f :: held n -> 0 < f < NETFS_NFID -> fid_used n f = false ->
  (forall g, 0 < g < NETFS_NFID -> fid_used m g = fid_used n g || (f =? g)) -> fids_exact m.
Proof.
  intros [Hd He] Hp Hf Hu0 Hu. split.
  - rewrite Hp. constructor; [|done]. intros Hin. apply He in Hin as [_ Hin]. congruence.
  - intros g. rewrite Hp, elem_of_cons, He. split.
    + intros [->|[Hr Hg]]; [split; [done|]; rewrite Hu by done; by rewrite Z.eqb_refl, orb_true_r|]. split; [done|]. by rewrite Hu, Hg by done.
    + intros [Hr Hg]. rewrite Hu in Hg by done. apply orb_prop in Hg as [Hg|Hg]; [by right|]. left. by apply Z.eqb_eq in Hg.
Qed.

(** * One session of the 9P client

    The invariant of a session, up to the first lost connection, and that every step of the
    client keeps it: the fids are exactly accounted for, each open that is being opened is
    reserved by one request, and a request holds a fid only while it is on the wire. *)

Section Session.
Context (stage_buf : Z * Z).
Implicit Types (n m : netfs) (r : netfs_req).

Definition walks (op : Z) : bool := (op =? LXP_NETFSW_OPEN) || (op =? LXP_NETFSW_STAT) || (op =? LXP_NETFSW_EXECFETCH).

(** What a request on its way holds. *)
Definition live_ok r : Prop :=
  (rq_state r = REQ_QUEUED -> rq_step r = 0 /\ rq_fid r <= 0) /\
  (rq_op r = LXP_NETFSW_READ \/ rq_op r = LXP_NETFSW_GETDENTS -> rq_fid r <= 0) /\ 0 <= rq_step r <= 4.

Definition opens_at n (i oi : Z) : Prop := rq_op (req_at n i) = LXP_NETFSW_OPEN /\ rq_oi (req_at n i) = oi.

(** The shape of the pools: which opens are reserved, by whom, and what the requests are at. *)
Record shape n : Prop := mk_shape {
  sh_ok : netfs_ok stage_buf n;
  sh_fresh : forall oi, 0 <= oi < NETFS_NOPEN -> no_used (open_at n oi) = true -> no_stale (open_at n oi) = false;
  sh_resv : forall i, 0 <= i < NETFS_NREQ -> is_live (req_at n i) = true -> rq_op (req_at n i) = LXP_NETFSW_OPEN ->
    no_used (open_at n (rq_oi (req_at n i))) = true /\ no_fid (open_at n (rq_oi (req_at n i))) = 0;
  sh_uniq : forall i j oi, 0 <= i < NETFS_NREQ -> 0 <= j < NETFS_NREQ -> i <> j ->
    rq_state (req_at n i) <> REQ_FREE -> rq_state (req_at n j) <> REQ_FREE -> opens_at n i oi -> opens_at n j oi -> False;
  sh_live : forall i, 0 <= i < NETFS_NREQ -> is_live (req_at n i) = true -> live_ok (req_at n i);
}.

(** A session: the shape, the fids exactly accounted for, and none before it is up. *)
Record sess n : Prop := mk_sess {
  se_shape : shape n;
  se_exact : fids_exact n;
  se_down : nconn n <> CONN_UP -> held n = [];
}.

Lemma se_ok n : sess n -> netfs_ok stage_buf n.
Proof. intros Hs. apply Hs. Qed.

Lemma live_state r : is_live r = true <-> rq_state r = REQ_QUEUED \/ rq_state r = REQ_INFLIGHT.
Proof. unfold is_live. rewrite orb_true_iff, !bool_decide_eq_true. done. Qed.

Lemma live_not_free r : is_live r = true -> rq_state r <> REQ_FREE.
Proof. rewrite live_state. intros [->| ->]; done. Qed.

Lemma sess_open_range n i :
  sess n -> 0 <= i < NETFS_NREQ -> rq_state (req_at n i) <> REQ_FREE -> rq_op (req_at n i) = LXP_NETFSW_OPEN -> 0 <= rq_oi (req_at n i) < NETFS_NOPEN.
Proof. intros Hs Hi Hst Hop. by apply (req_live _ _ _ (ok_req_at stage_buf n i (se_ok _ Hs) Hi) Hst). Qed.

(** ** Updates that move no fid *)

Lemma shape_link n lk : shape n -> netfs_ok stage_buf (set_nf_link n lk) -> shape (set_nf_link n lk).
Proof. intros [] Hok. by split. Qed.

Lemma sess_link n lk :
  sess n -> netfs_ok stage_buf (set_nf_link n lk) -> (lk_conn lk = lk_conn (nf_link n) \/ held n = []) -> sess (set_nf_link n lk).
Proof.
  intros [] Hok Hc. split; [by apply shape_link|done|]. change (held (set_nf_link n lk)) with (held n). intros Hd.
  destruct Hc as [E|E]; [|exact E]. apply se_down0. unfold nconn in *. by rewrite <- E.
Qed.

(** ** An open changes *)

Lemma open_at_put n oi op j : 0 <= oi < alen (nf_open n) -> 0 <= j -> open_at (put_open n oi op) j = if decide (oi = j) then op else open_at n j.
Proof. intros. unfold open_at, put_open. cbn [nf_open set_nf_open]. by apply aget_aset. Qed.

Lemma shape_put_open n oi op :
  shape n -> 0 <= oi < NETFS_NOPEN -> (no_used op = true -> no_stale op = false) ->
  (forall i, 0 <= i < NETFS_NREQ -> is_live (req_at n i) = true -> opens_at n i oi -> no_used op = true /\ no_fid op = 0) ->
  shape (put_open n oi op).
Proof.
  intros Hs Hoi Hst Hres. assert (Hlen : alen (nf_open n) = NETFS_NOPEN) by apply Hs.
  destruct Hs. split; try done.
  - by apply ok_put_open.
  - intros j Hj. rewrite open_at_put by lia. case_decide; [by subst|by apply sh_fresh0].
  - intros i Hi Hl Hop. change (req_at (put_open n oi op) i) with (req_at n i) in *.
    assert (Hr : 0 <= rq_oi (req_at n i) < NETFS_NOPEN)
      by (apply (req_live _ _ _ (ok_req_at stage_buf n i sh_ok0 Hi)); [by apply live_not_free|done]).
    rewrite open_at_put by lia. case_decide as E; [|by apply sh_resv0]. apply (Hres i Hi Hl). split; [done|]. by rewrite E.
Qed.

Lemma sess_put_open n oi op :
  sess n -> 0 <= oi < NETFS_NOPEN -> no_used op = no_used (open_at n oi) -> no_fid op = no_fid (open_at n oi) ->
  no_stale op = no_stale (open_at n oi) -> sess (put_open n oi op).
Proof.
  intros Hs Hoi Hu Hf Hst. assert (Hlen : alen (nf_open n) = NETFS_NOPEN) by apply Hs.
  assert (Hheld : held (put_open n oi op) ≡ₚ held n).
  { pose proof (held_put_open n oi op) as E. assert (Eo : ofid op = ofid (open_at n oi)) by (unfold ofid; by rewrite Hu, Hf).
    rewrite Eo in E. eapply Permutation_app_inv_r, E. lia. }
  destruct Hs as [Hsh Hex Hd]. split.
  - apply shape_put_open; [done|done|rewrite Hu, Hst; by apply (sh_fresh _ Hsh)|]. intros i Hi Hl [Hop Eoi].
    rewrite Hu, Hf. pose proof (sh_resv _ Hsh i Hi Hl Hop) as Hr. by rewrite Eoi in Hr.
  - by eapply exact_same.
  - intros Hdn. change (nconn (put_open n oi op)) with (nconn n) in Hdn. rewrite (Hd Hdn) in Hheld. by apply Permutation_nil_r.
Qed.

(** A request keeps or gives up its open. *)
Definition keeps_open r0 r : Prop :=
  rq_state r <> REQ_FREE -> rq_op r = LXP_NETFSW_OPEN ->
  rq_state r0 <> REQ_FREE /\ rq_op r0 = LXP_NETFSW_OPEN /\ rq_oi r = rq_oi r0 /\ (is_live r = true -> is_live r0 = true).

Lemma shape_put_req n m i r :
  shape n -> 0 <= i < NETFS_NREQ -> nf_core m = nf_core n -> netfs_ok stage_buf (put_req m i r) ->
  keeps_open (req_at n i) r -> (is_live r = true -> live_ok r) -> shape (put_req m i r).
Proof.
  intros Hs Hi Hcore Hok Ho Hl. assert (Hlen : alen (nf_req n) = NETFS_NREQ) by apply Hs.
  pose proof (core_fields _ _ Hcore) as (_ & El & Eo & Er & _).
  assert (Hat : forall j, 0 <= j < NETFS_NREQ -> req_at (put_req m i r) j = if decide (i = j) then r else req_at n j).
  { intros j Hj. rewrite req_at_put by (rewrite ?Er; lia). case_decide; [done|]. by apply core_req_at. }
  assert (Hop : forall j, open_at (put_req m i r) j = open_at n j) by (intros j; unfold open_at; cbn; by rewrite Eo).
  destruct Hs. split; try done.
  - intros j. rewrite Hop. apply sh_fresh0.
  - intros j Hj. rewrite Hat, Hop by done. case_decide as E; [|by apply sh_resv0].
    subst j. intros Hlv Hopn. destruct (Ho (live_not_free _ Hlv) Hopn) as (H1 & H2 & -> & H4). apply sh_resv0; [done|by apply H4|done].
  - intros j k oi Hj Hk Hne. rewrite !Hat by done. unfold opens_at. rewrite !Hat by done.
    case_decide as Ej; case_decide as Ek; [lia| | |].
    + subst j. intros Hr Hsk [Hopn Eoi] Hok2. destruct (Ho Hr Hopn) as (H1 & H2 & H3 & _).
      eapply (sh_uniq0 i k oi); try done. split; [done|]. by rewrite <- H3.
    + subst k. intros Hsj Hr Hok1 [Hopn Eoi]. destruct (Ho Hr Hopn) as (H1 & H2 & H3 & _).
      eapply (sh_uniq0 j i oi); try done. split; [done|]. by rewrite <- H3.
    + intros. by eapply (sh_uniq0 j k oi).
  - intros j Hj. rewrite Hat by done. case_decide as E; [by subst|by apply sh_live0].
Qed.

(** A request changes, and with it the holders. *)
Lemma sess_put_req_gen n m i r :
  sess n -> 0 <= i < NETFS_NREQ -> nf_core m = nf_core n -> netfs_ok stage_buf (put_req m i r) -> fids_exact (put_req m i r) ->
  (held n = [] -> held (put_req m i r) = []) -> keeps_open (req_at n i) r -> (is_live r = true -> live_ok r) -> sess (put_req m i r).
Proof.
  intros Hs Hi Hcore Hok Hex Hnil Ho Hl. split; [eapply shape_put_req; try done; apply Hs|done|].
  intros Hd. apply Hnil, (se_down _ Hs). apply core_fields in Hcore as (_ & El & _). unfold nconn in *. by rewrite <- El.
Qed.

Lemma sess_put_req n i r :
  sess n -> 0 <= i < NETFS_NREQ -> netfs_ok stage_buf (put_req n i r) -> rfid r = rfid (req_at n i) -> keeps_open (req_at n i) r ->
  (is_live r = true -> live_ok r) -> sess (put_req n i r).
Proof.
  intros Hs Hi Hok Hf Ho Hl. assert (Hlen : alen (nf_req n) = NETFS_NREQ) by apply Hs.
  assert (Hheld : held (put_req n i r) ≡ₚ held n).
  { pose proof (held_put_req n i r) as E. rewrite Hf in E. eapply Permutation_app_inv_r, E. lia. }
  apply (sess_put_req_gen n n i r); try done.
  - eapply exact_same; [apply Hs|done|done].
  - intros E. rewrite E in Hheld. by apply Permutation_nil_r.
Qed.

(** ** A request gives its fid up *)

Lemma rfid_in_held n i f : 0 <= i < alen (nf_req n) -> rfid (req_at n i) = [f] -> f ∈ held n.
Proof.
  intros Hi E. unfold held. apply elem_of_app. right. apply elem_of_app. left. apply list_elem_of_In, in_concat. exists [f].
  split; [|by left]. rewrite <- E. apply in_map. unfold req_at. apply list_elem_of_In. eapply list_elem_of_lookup_2. by apply lookup_aget.
Qed.

Lemma rfid_cases r : is_live r = true -> rq_fid r <= 0 /\ rfid r = [] \/ 0 < rq_fid r /\ rfid r = [rq_fid r].
Proof. intros Hl. unfold rfid. rewrite Hl. destruct (Z.gtb_spec (rq_fid r) 0); [right|left]; by split. Qed.

Lemma fid_free_none n f : f <= 0 -> fid_free n f = n.
Proof. intros Hf. unfold fid_free. by destruct (Z.gtb_spec f 0); [lia|]. Qed.

Lemma clunk_none n f : f <= 0 -> clunk_enqueue n f = n.
Proof. intros Hf. unfold clunk_enqueue. by destruct (Z.leb_spec f 0); [|lia]. Qed.

Lemma held_fid_free n f : held (fid_free n f) = held n.
Proof. unfold fid_free. by destruct (_ && _). Qed.

(** It is freed. *)
Lemma sess_free_req n i r :
  sess n -> 0 <= i < NETFS_NREQ -> is_live (req_at n i) = true ->
  netfs_ok stage_buf (put_req (fid_free n (rq_fid (req_at n i))) i r) -> rfid r = [] -> keeps_open (req_at n i) r ->
  (is_live r = true -> live_ok r) -> sess (put_req (fid_free n (rq_fid (req_at n i))) i r).
Proof.
  intros Hs Hi Hlv Hok Hr Ho Hl. assert (Hlen : alen (nf_req n) = NETFS_NREQ) by apply Hs.
  destruct (rfid_cases _ Hlv) as [[Hf E]|[Hf E]].
  { rewrite fid_free_none in * by done. apply sess_put_req; try done. congruence. }
  set (f := rq_fid (req_at n i)) in *. assert (Hin := rfid_in_held n i f ltac:(lia) E).
  assert (Hrange : 0 < f < NETFS_NFID) by (by apply (se_exact _ Hs)).
  assert (Hcore := core_fid_free n f). assert (Hreq := core_req_at _ _ i Hcore).
  assert (Hheld : held n ≡ₚ f :: held (put_req (fid_free n f) i r)).
  { pose proof (held_put_req (fid_free n f) i r) as Eh. rewrite Hreq, E, Hr, app_nil_r, held_fid_free in Eh.
    rewrite <- Eh; [by rewrite Permutation_app_comm|]. apply core_fields in Hcore as (_ & _ & _ & -> & _). lia. }
  eapply sess_put_req_gen; try done.
  - eapply exact_drop; [apply Hs|exact Hheld|]. intros g Hg. change (fid_used (put_req ?x i r) g) with (fid_used x g).
    apply fid_used_free; try done. apply Hs.
  - intros En. rewrite En in Hin. by apply not_elem_of_nil in Hin.
Qed.

(** It is queued for a clunk. *)
Lemma sess_queue_req n i r :
  sess n -> 0 <= i < NETFS_NREQ -> is_live (req_at n i) = true ->
  netfs_ok stage_buf (put_req (clunk_enqueue n (rq_fid (req_at n i))) i r) -> rfid r = [] -> keeps_open (req_at n i) r ->
  (is_live r = true -> live_ok r) -> sess (put_req (clunk_enqueue n (rq_fid (req_at n i))) i r).
Proof.
  intros Hs Hi Hlv Hok Hr Ho Hl. assert (Hlen : alen (nf_req n) = NETFS_NREQ) by apply Hs.
  destruct (rfid_cases _ Hlv) as [[Hf E]|[Hf E]].
  { rewrite clunk_none in * by done. apply sess_put_req; try done. congruence. }
  destruct (decide ((nf_clunk_tail n + 1) mod NETFS_NCLUNK = nf_clunk_head n)) as [Hfull|Hroom].
  { assert (Ef : clunk_enqueue n (rq_fid (req_at n i)) = fid_free n (rq_fid (req_at n i))).
    { unfold clunk_enqueue. destruct (Z.leb_spec (rq_fid (req_at n i)) 0); [lia|]. by rewrite Hfull, Z.eqb_refl. }
    rewrite Ef in *. by apply sess_free_req. }
  set (f := rq_fid (req_at n i)) in *. assert (Hin := rfid_in_held n i f ltac:(lia) E).
  assert (Hcore := core_clunk_enqueue n f). assert (Hreq := core_req_at _ _ i Hcore).
  destruct (ok_clunk _ _ (se_ok _ Hs)) as (Hc1 & Hc2 & Hc3).
  assert (Henq := held_enqueue n f Hc1 Hc2 Hc3 Hf Hroom).
  assert (Hheld : held (put_req (clunk_enqueue n f) i r) ≡ₚ held n).
  { pose proof (held_put_req (clunk_enqueue n f) i r) as Eh. rewrite Hreq, E, Hr, app_nil_r, Henq in Eh.
    rewrite Permutation_app_comm in Eh. eapply Permutation_cons_inv, Eh. apply core_fields in Hcore as (_ & _ & _ & -> & _). lia. }
  eapply sess_put_req_gen; try done.
  - eapply exact_same; [apply Hs|exact Hheld|]. intros g. change (fid_used (put_req ?x i r) g) with (fid_used x g).
    unfold clunk_enqueue. destruct (Z.leb_spec f 0); [lia|]. by destruct (Z.eqb_spec ((nf_clunk_tail n + 1) mod NETFS_NCLUNK) (nf_clunk_head n)).
  - intros En. rewrite En in Hin. by apply not_elem_of_nil in Hin.
Qed.

Lemma sess_inflight n i : sess n -> netfs_ok stage_buf (set_nf_inflight n i) -> sess (set_nf_inflight n i).
Proof. intros [[] ? ?] Hok. split; [by split|done|done]. Qed.

Lemma sess_exec n m :
  sess n -> netfs_ok stage_buf m -> nf_link m = nf_link n -> nf_fid_bm m = nf_fid_bm n -> nf_open m = nf_open n -> nf_req m = nf_req n ->
  queue m = queue n -> sess m.
Proof.
  intros [[] Hex Hd] Hok El Eb Eo Er Eq. assert (Hh : held m = held n) by (unfold held; by rewrite Eo, Er, Eq).
  assert (Ho : forall j, open_at m j = open_at n j) by (intros; unfold open_at; by rewrite Eo).
  assert (Hr : forall j, req_at m j = req_at n j) by (intros; unfold req_at; by rewrite Er). split.
  - split; [done|..].
    + intros j. rewrite Ho. apply sh_fresh0.
    + intros j. rewrite Hr, Ho. apply sh_resv0.
    + intros j k oi. unfold opens_at. rewrite !Hr. apply sh_uniq0.
    + intros j. rewrite Hr. apply sh_live0.
  - destruct Hex as [H1 H2]. split; [by rewrite Hh|]. intros f. rewrite Hh, H2. unfold fid_used. by rewrite Eb.
  - unfold nconn. by rewrite El, Hh.
Qed.

(** A reserved open is released once no request reserves it. *)
Lemma sess_release_open n oi :
  sess n -> 0 <= oi < NETFS_NOPEN -> ofid (open_at n oi) = [] ->
  (forall i, 0 <= i < NETFS_NREQ -> is_live (req_at n i) = true -> opens_at n i oi -> False) ->
  sess (put_open n oi (set_no_used (open_at n oi) false)).
Proof.
  intros Hs Hoi Hf Hno. assert (Hlen : alen (nf_open n) = NETFS_NOPEN) by apply Hs.
  assert (Hheld : held (put_open n oi (set_no_used (open_at n oi) false)) ≡ₚ held n).
  { pose proof (held_put_open n oi (set_no_used (open_at n oi) false)) as E. rewrite Hf in E.
    change (ofid (set_no_used (open_at n oi) false)) with (@nil Z) in E. rewrite !app_nil_r in E. apply E. lia. }
  destruct Hs as [Hsh Hex Hd]. split.
  - apply shape_put_open; [done|done|done|]. intros i Hi Hl Ho. by destruct (Hno i Hi Hl Ho).
  - by eapply exact_same.
  - intros Hdn. change (nconn (put_open ?a ?b ?d)) with (nconn a) in Hdn. rewrite (Hd Hdn) in Hheld. by apply Permutation_nil_r.
Qed.
(** ** Finishing a request *)

Lemma not_live_rfid r : is_live r = false -> rfid r = [].
Proof. unfold rfid. by intros ->. Qed.

(** A request that holds nothing leaves the wire. *)
Lemma sess_finish n i r :
  sess n -> 0 <= i < NETFS_NREQ -> rfid (req_at n i) = [] -> is_live r = false -> req_ok stage_buf (nf_exec_buf n, nf_exec_cap n) r ->
  (rq_state r <> REQ_FREE -> rq_state (req_at n i) <> REQ_FREE /\ rq_op r = rq_op (req_at n i) /\ rq_oi r = rq_oi (req_at n i)) ->
  sess (set_nf_inflight (put_req n i r) (-1)).
Proof.
  intros Hs Hi Hf Hl Hr Hk. assert (Hok : netfs_ok stage_buf (set_nf_inflight (put_req n i r) (-1))) by (apply ok_finish_req; [apply Hs|done|done]).
  assert (Hput : sess (set_nf_inflight (put_req (set_nf_inflight n (-1)) i r) (-1))); [|exact Hput].
  apply sess_inflight; [|exact Hok]. apply (sess_put_req (set_nf_inflight n (-1)) i r).
  - apply sess_inflight; [done|]. destruct (se_ok _ Hs). split; try done. by left.
  - done.
  - exact Hok.
  - change (req_at (set_nf_inflight n (-1)) i) with (req_at n i). by rewrite Hf, not_live_rfid.
  - intros Hst Hop. change (req_at (set_nf_inflight n (-1)) i) with (req_at n i). destruct (Hk Hst) as (H1 & H2 & H3).
    split_and!; try congruence.
  - congruence.
Qed.

Lemma sess_abandon n i n1 r :
  sess n -> 0 <= i < NETFS_NREQ -> is_live (req_at n i) = true -> req_abandon n i = Some n1 -> is_live r = false ->
  req_ok stage_buf (nf_exec_buf n, nf_exec_cap n) r ->
  (rq_state r <> REQ_FREE -> rq_op r = rq_op (req_at n i) /\ rq_oi r = rq_oi (req_at n i)) ->
  sess (set_nf_inflight (put_req n1 i r) (-1)).
Proof.
  intros Hs Hi Hlv E Hl Hr Hk. assert (Hlen : alen (nf_req n) = NETFS_NREQ) by apply Hs. pose proof (live_not_free _ Hlv) as Hnf.
  unfold req_abandon in E. set (r0 := req_at n i) in *.
  set (n2 := if rq_fid r0 >? 0 then put_req (clunk_enqueue n (rq_fid r0)) i (set_rq_fid r0 (-1)) else n) in E.
  assert (H2 : sess n2 /\ rfid (req_at n2 i) = [] /\ rq_state (req_at n2 i) = rq_state r0 /\ rq_op (req_at n2 i) = rq_op r0 /\ rq_oi (req_at n2 i) = rq_oi r0 /\
               nf_exec_buf n2 = nf_exec_buf n /\ nf_exec_cap n2 = nf_exec_cap n /\ nf_open n2 = nf_open n /\
               (forall j, 0 <= j < NETFS_NREQ -> j <> i -> req_at n2 j = req_at n j)).
  { assert (Hcore := core_clunk_enqueue n (rq_fid r0)). pose proof (core_fields _ _ Hcore) as (_ & _ & Eo & Er & _ & Ei & Eb & Ec & _).
    unfold n2. destruct (Z.gtb_spec (rq_fid r0) 0).
    - assert (Hat : req_at (put_req (clunk_enqueue n (rq_fid r0)) i (set_rq_fid r0 (-1))) i = set_rq_fid r0 (-1))
        by (apply req_at_put_eq; rewrite Er; lia).
      rewrite Hat. split; [|split_and!; try done].
      + apply sess_queue_req; try done.
        * apply ok_put_req; [apply ok_clunk_enqueue, Hs|done| |].
          -- fold r0. rewrite (core_exec _ _ Hcore). apply req_ok_fid. apply ok_req_at; [apply Hs|done].
          -- fold r0. rewrite Ei. intros E'. cbn. destruct (ok_inflight _ _ (se_ok _ Hs)) as [E2|[_ E2]]; [lia|]. by rewrite E' in E2.
        * unfold rfid. cbn. by rewrite andb_false_r.
        * intros _. destruct (sh_live _ (se_shape _ Hs) i Hi Hlv) as (L1 & L2 & L3). split; [|split; [|done]]; intros HH; cbn in *; [|lia].
          by split; [apply L1|].
      + unfold rfid. cbn. by rewrite andb_false_r.
      + intros j Hj Hne. rewrite req_at_put by (rewrite ?Er; lia). rewrite decide_False by done. by apply core_req_at.
    - split; [done|]. split_and!; try done. destruct (rfid_cases _ Hlv) as [[_ ?]|[? _]]; [done|lia]. }
  clearbody n2. destruct H2 as (Hs2 & Hf2 & St2 & Op2 & Oi2 & Eb2 & Ec2 & Eo2 & Hoth).
  rewrite <- Eb2, <- Ec2 in Hr.
  assert (Hs3 : sess (set_nf_inflight (put_req n2 i r) (-1))).
  { apply sess_finish; try done. intros Hst. destruct (Hk Hst) as [? ?]. split_and!; congruence. }
  destruct ((rq_op r0 =? LXP_NETFSW_OPEN) && (rq_oi r0 >=? 0)) eqn:Eop; [|by injection E as <-].
  apply andb_prop in Eop as [Eop _]. apply Z.eqb_eq in Eop.
  assert (Hoi : 0 <= rq_oi r0 < NETFS_NOPEN) by (apply (req_live _ _ _ (ok_req_at stage_buf n i (se_ok _ Hs) Hi)); done).
  unfold open_release in E. rewrite (proj2 (Z.leb_le 0 _)), (proj2 (Z.ltb_lt (rq_oi r0) _)) in E by lia. cbn [andb] in E. injection E as <-.
  destruct (sh_resv _ (se_shape _ Hs) i Hi Hlv Eop) as [_ Hf0]. fold r0 in Hf0.
  pose proof (sess_release_open (set_nf_inflight (put_req n2 i r) (-1)) (rq_oi r0) Hs3 Hoi) as Hrel.
  change (open_at (set_nf_inflight (put_req n2 i r) (-1)) (rq_oi r0)) with (open_at n2 (rq_oi r0)) in Hrel.
  apply Hrel.
  - unfold ofid, open_at in *. rewrite Eo2, Hf0. by rewrite andb_false_r.
  - intros j Hj Hlj [Hopj Hoij]. change (req_at (set_nf_inflight ?m (-1)) j) with (req_at m j) in *.
    rewrite req_at_put in * by (rewrite ?(ok_reqs _ _ (se_ok _ Hs2)); lia). case_decide as Eij; [congruence|].
    rewrite Hoth in * by lia. apply (sh_uniq _ (se_shape _ Hs) i j (rq_oi r0)); try done. by apply live_not_free.
Qed.

Lemma abandon_frame n i n1 :
  0 <= i < alen (nf_req n) -> req_abandon n i = Some n1 ->
  rq_op (req_at n1 i) = rq_op (req_at n i) /\ rq_oi (req_at n1 i) = rq_oi (req_at n i) /\ rq_state (req_at n1 i) = rq_state (req_at n i) /\
  (nf_exec_buf n1, nf_exec_cap n1) = (nf_exec_buf n, nf_exec_cap n).
Proof.
  intros Hi E. unfold req_abandon in E. set (n2 := if rq_fid _ >? 0 then _ else _) in E.
  assert (H2 : rq_op (req_at n2 i) = rq_op (req_at n i) /\ rq_oi (req_at n2 i) = rq_oi (req_at n i) /\ rq_state (req_at n2 i) = rq_state (req_at n i) /\
               (nf_exec_buf n2, nf_exec_cap n2) = (nf_exec_buf n, nf_exec_cap n)).
  { unfold n2. destruct (rq_fid _ >? 0); [|done]. assert (Hcore := core_clunk_enqueue n (rq_fid (req_at n i))).
    rewrite req_at_put_eq by (pose proof (core_fields _ _ Hcore) as (_ & _ & _ & -> & _); done). split_and!; try done. exact (core_exec _ _ Hcore). }
  clearbody n2. destruct (_ && _); [|by injection E as <-]. unfold open_release in E. destruct (_ && _); [|done]. by injection E as <-.
Qed.

(** A request whose fid is freed leaves the wire. *)
Lemma sess_freed n i r :
  sess n -> 0 <= i < NETFS_NREQ -> is_live (req_at n i) = true -> is_live r = false -> req_ok stage_buf (nf_exec_buf n, nf_exec_cap n) r ->
  (rq_state r <> REQ_FREE -> rq_op r = rq_op (req_at n i) /\ rq_oi r = rq_oi (req_at n i)) ->
  sess (set_nf_inflight (put_req (fid_free n (rq_fid (req_at n i))) i r) (-1)).
Proof.
  intros Hs Hi Hlv Hl Hr Hk. set (n0 := set_nf_inflight n (-1)).
  assert (Hok0 : netfs_ok stage_buf n0) by (destruct (se_ok _ Hs); split; try done; by left).
  change (set_nf_inflight (put_req (fid_free n (rq_fid (req_at n i))) i r) (-1)) with
    (put_req (set_nf_inflight (fid_free n (rq_fid (req_at n i))) (-1)) i r).
  replace (set_nf_inflight (fid_free n (rq_fid (req_at n i))) (-1)) with (fid_free n0 (rq_fid (req_at n0 i)))
    by (unfold fid_free, n0; by destruct (_ && _)).
  apply (sess_free_req n0 i r); try done.
  - by apply sess_inflight.
  - apply ok_put_req; [by apply ok_fid_free|done| |].
    + by rewrite (core_exec _ _ (core_fid_free _ _)).
    + pose proof (core_fields _ _ (core_fid_free n0 (rq_fid (req_at n0 i)))) as (_ & _ & _ & _ & _ & -> & _). cbn. lia.
  - by apply not_live_rfid.
  - intros Hst Hop. destruct (Hk Hst) as [H1 H2]. change (req_at n0 i) with (req_at n i). split_and!; try congruence. by apply live_not_free.
  - congruence.
Qed.

Lemma sess_req_fail n i v n' :
  sess n -> 0 <= i < NETFS_NREQ -> rq_state (req_at n i) = REQ_INFLIGHT -> req_fail n i v = Some n' -> sess n' /\ nf_inflight n' = -1.
Proof.
  intros Hs Hi Hst E. assert (Hlv : is_live (req_at n i) = true) by (apply live_state; by right).
  assert (Hreq := ok_req_at stage_buf n i (se_ok _ Hs) Hi). unfold req_fail in E.
  destruct (_ =? REQ_OP_CLUNK).
  - injection E as <-. split; [|done]. apply sess_freed; try done. by eapply req_ok_free.
  - destruct (req_abandon n i) as [n1|] eqn:Ea; [|done]. cbn [mbind option_bind] in E. injection E as <-. split; [|done].
    destruct (abandon_ok stage_buf n i (se_ok _ Hs) Hi Hst) as (n1' & Ea' & Hok1 & _ & Hst1). rewrite Ea in Ea'. injection Ea' as <-.
    destruct (abandon_frame n i n1) as (O1 & O2 & _ & O3); [rewrite (ok_reqs _ _ (se_ok _ Hs)); done|done|].
    eapply sess_abandon; try done.
    rewrite <- O3. eapply req_ok_same; [by apply (ok_req_at stage_buf n1 i)|..]; try done. cbn. congruence.
Qed.

Lemma sess_orphan n i n' :
  sess n -> 0 <= i < NETFS_NREQ -> rq_state (req_at n i) = REQ_INFLIGHT -> reply_orphan n i = Some n' -> sess n' /\ nf_inflight n' = -1.
Proof.
  intros Hs Hi Hst E. assert (Hlv : is_live (req_at n i) = true) by (apply live_state; by right). unfold reply_orphan in E.
  destruct (req_abandon n i) as [n1|] eqn:Ea; [|done]. cbn [mbind option_bind] in E. injection E as <-. split; [|done].
  destruct (abandon_frame n i n1) as (O1 & O2 & _ & O3); [rewrite (ok_reqs _ _ (se_ok _ Hs)); done|done|].
  eapply sess_abandon; try done. eapply req_ok_free; [by apply (ok_req_at stage_buf n i (se_ok _ Hs))|done|done|done].
Qed.

(** ** Replies *)

(** After a reply the request is off the wire, or past its walk. *)
Definition replied n (i : Z) n' : Prop :=
  sess n' /\ (nf_inflight n' = -1 \/
             nf_inflight n' = i /\ walks (rq_op (req_at n' i)) = true /\ 1 <= rq_step (req_at n' i) /\ rq_state (req_at n' i) = REQ_INFLIGHT).

Lemma replied_fail n i v n' :
  sess n -> 0 <= i < NETFS_NREQ -> rq_state (req_at n i) = REQ_INFLIGHT -> req_fail n i v = Some n' -> replied n i n'.
Proof. intros Hs Hi Hst E. destruct (sess_req_fail n i v n' Hs Hi Hst E). split; [done|by left]. Qed.

(** The request moves on to a later step. *)
Lemma replied_step n m i r :
  sess m -> 0 <= i < NETFS_NREQ -> nf_inflight m = i -> req_at m i = req_at n i -> rq_state (req_at n i) = REQ_INFLIGHT ->
  netfs_ok stage_buf (put_req m i r) -> rq_state r = REQ_INFLIGHT -> rq_op r = rq_op (req_at n i) -> rq_oi r = rq_oi (req_at n i) ->
  rq_fid r = rq_fid (req_at n i) -> walks (rq_op r) = true -> 1 <= rq_step r <= 4 -> replied n i (put_req m i r).
Proof.
  intros Hs Hi Hfl Er Hst Hok Hsr Hop Hoi Hf Hw Hstep. assert (Hlen : alen (nf_req m) = NETFS_NREQ) by apply Hs.
  assert (Hlv : is_live (req_at n i) = true) by (apply live_state; by right).
  assert (Hlr : is_live r = true) by (apply live_state; by right). split.
  - apply sess_put_req; try done.
    + rewrite Er. unfold rfid. by rewrite Hlv, Hlr, Hf.
    + intros _ Ho. rewrite Er. split_and!; try done; congruence.
    + intros _. split; [congruence|]. split; [|lia]. intros [E|E]; rewrite E in Hw; done.
  - right. split; [done|]. rewrite req_at_put_eq by lia. split_and!; try done; lia.
Qed.

Lemma walks_of r : rq_op r = LXP_NETFSW_OPEN \/ rq_op r = LXP_NETFSW_STAT \/ rq_op r = LXP_NETFSW_EXECFETCH -> walks (rq_op r) = true.
Proof. unfold walks. intros [-> |[-> | ->]]; done. Qed.

Section Handlers.
Context {H : Type}.
Implicit Types (c : coord H).

Lemma replies_ok n c i x n' c' : replies stage_buf n c i x -> x = Some (n', c') -> netfs_ok stage_buf n'.
Proof. intros (n1 & c1 & -> & Hok & _) [= <- <-]. done. Qed.

Lemma replied_walk n c i body n' c' :
  sess n -> 0 <= i < NETFS_NREQ -> nf_inflight n = i -> rq_state (req_at n i) = REQ_INFLIGHT -> walks (rq_op (req_at n i)) = true ->
  rq_step (req_at n i) = 0 -> (n ← reply_walk_advance n i body; Some (n, c)) = Some (n', c') -> replied n i n'.
Proof.
  intros Hs Hi Hfl Hst Hw H0 E. assert (Hok := replies_ok _ _ _ _ _ _ (reply_walk_ok stage_buf n c i body (se_ok _ Hs) Hi Hst H0) E).
  unfold reply_walk_advance in E. destruct (alen body <? 2).
  { destruct (req_fail n i _) eqn:Ef; [|done]. injection E as <- <-. by eapply replied_fail. }
  destruct (get16 body 0) as [[walked o]|]; [|done]. cbn [mbind option_bind] in E. destruct (path_split _ _) as [comps|].
  2:{ destruct (req_fail n i _) eqn:Ef; [|done]. injection E as <- <-. by eapply replied_fail. }
  destruct (negb _); [destruct (req_fail n i _) eqn:Ef; [|done]; injection E as <- <-; by eapply replied_fail|].
  injection E as <- <-. apply replied_step; try done. cbn. rewrite H0. done.
Qed.

Lemma replied_attrs n c i body k n' c' :
  sess n -> 0 <= i < NETFS_NREQ -> rq_state (req_at n i) = REQ_INFLIGHT -> with_attrs n c i body k = Some (n', c') ->
  (forall mode size mtime ino, k mode size mtime ino = Some (n', c') -> replied n i n') -> replied n i n'.
Proof.
  intros Hs Hi Hst E Hk. unfold with_attrs in E. destruct (parse_getattr body) as [a|]; [|done]. cbn [mbind option_bind] in E.
  destruct a as [[[[mode size] mtime] ino]|]; [by eapply Hk|]. destruct (req_fail n i _) eqn:Ef; [|done]. injection E as <- <-. by eapply replied_fail.
Qed.

(** The request's fid passes to the open. *)
Lemma sess_opened n i op v :
  sess n -> 0 <= i < NETFS_NREQ -> rq_state (req_at n i) = REQ_INFLIGHT -> rq_op (req_at n i) = LXP_NETFSW_OPEN ->
  no_used op = true -> no_stale op = false -> no_fid op = rq_fid (req_at n i) -> sess (req_complete (put_open n (rq_oi (req_at n i)) op) i v).
Proof.
  intros Hs Hi Hst Hop Hu Hsl Hf. set (oi := rq_oi (req_at n i)) in *. assert (Hlv : is_live (req_at n i) = true) by (apply live_state; by right).
  assert (Hoi : 0 <= oi < NETFS_NOPEN) by (apply (req_live _ _ _ (ok_req_at stage_buf n i (se_ok _ Hs) Hi)); [congruence|done]).
  assert (Hlr : alen (nf_req n) = NETFS_NREQ) by apply Hs. assert (Hlo : alen (nf_open n) = NETFS_NOPEN) by apply Hs.
  destruct (sh_resv _ (se_shape _ Hs) i Hi Hlv Hop) as [Hu0 Hf0]. fold oi in Hu0, Hf0.
  set (r := set_rq_state (set_rq_result (req_at n i) v) REQ_DONE). set (m := set_nf_inflight (put_req n i r) (-1)).
  change (req_complete (put_open n oi op) i v) with (put_open m oi op).
  assert (Hr : req_ok stage_buf (nf_exec_buf n, nf_exec_cap n) r)
    by (eapply req_ok_same; [by apply (ok_req_at stage_buf n i (se_ok _ Hs))|..]; try done; cbn; congruence).
  assert (Hm : shape m).
  { assert (Hokm : netfs_ok stage_buf m) by (apply ok_finish_req; [apply Hs|done|done]).
    assert (Hsh : shape (put_req (set_nf_inflight n (-1)) i r)); [|exact Hsh].
    apply (shape_put_req (set_nf_inflight n (-1)) (set_nf_inflight n (-1)) i r); try done.
    - destruct Hs as [[] ? ?]. split; try done. destruct sh_ok0. split; try done. by left.
    - intros _ _. change (req_at (set_nf_inflight n (-1)) i) with (req_at n i). split_and!; try done. congruence. }
  assert (Hno : forall j, 0 <= j < NETFS_NREQ -> is_live (req_at m j) = true -> opens_at m j oi -> False).
  { intros j Hj Hlj [Hopj Hoij]. change (req_at m j) with (req_at (put_req n i r) j) in *.
    rewrite req_at_put in * by lia. case_decide as Eij; [by subst|].
    apply (sh_uniq _ (se_shape _ Hs) i j oi); try done; [congruence|by apply live_not_free]. }
  assert (Hheld : held (put_open m oi op) ≡ₚ held n).
  { pose proof (held_put_open m oi op) as E1. change (alen (nf_open m)) with (alen (nf_open n)) in E1. specialize (E1 ltac:(lia)).
    pose proof (held_put_req n i r ltac:(lia)) as E2. change (open_at m oi) with (open_at n oi) in E1. change (held m) with (held (put_req n i r)) in E1.
    assert (Eo : ofid (open_at n oi) = []) by (unfold ofid; rewrite Hf0; by rewrite andb_false_r). rewrite Eo, app_nil_r in E1.
    rewrite E1. rewrite app_nil_r in E2. rewrite <- E2. apply Permutation_app_head. unfold ofid, rfid. by rewrite Hu, Hlv, Hf. }
  split; [apply shape_put_open; try done; intros j Hj Hlj Ho; by destruct (Hno j Hj Hlj Ho)|eapply exact_same; [apply Hs|exact Hheld|done]|].
  intros Hd. rewrite (se_down _ Hs Hd) in Hheld. by apply Permutation_nil_r.
Qed.

Lemma replied_open n c i body n' c' :
  sess n -> 0 <= i < NETFS_NREQ -> nf_inflight n = i -> rq_state (req_at n i) = REQ_INFLIGHT -> rq_op (req_at n i) = LXP_NETFSW_OPEN ->
  reply_open n c i body = Some (n', c') -> replied n i n'.
Proof.
  intros Hs Hi Hfl Hst Hop E. assert (Hok := replies_ok _ _ _ _ _ _ (reply_open_ok stage_buf n c i body (se_ok _ Hs) Hi Hst Hop) E).
  assert (Hlv : is_live (req_at n i) = true) by (apply live_state; by right).
  assert (Hoi : 0 <= rq_oi (req_at n i) < NETFS_NOPEN) by (apply (req_live _ _ _ (ok_req_at stage_buf n i (se_ok _ Hs) Hi)); [congruence|done]).
  assert (Hw : walks (rq_op (req_at n i)) = true) by (apply walks_of; auto).
  unfold reply_open in E. destruct (Z.eqb_spec (rq_step (req_at n i)) 0); [by eapply replied_walk|]. destruct (_ =? 1).
  - eapply replied_attrs; [done..|]. intros mode size mtime ino E2. rewrite open_ref_ok in E2 by done. cbn [mbind option_bind] in E2.
    injection E2 as <- <-. apply replied_step; try done. by apply sess_put_open.
  - destruct (_ =? 2); [|destruct (req_fail n i _) eqn:Ef; [|done]; injection E as <- <-; by eapply replied_fail].
    rewrite open_ref_ok in E by done. cbn [mbind option_bind] in E. injection E as <- <-. split; [|by left]. by apply sess_opened.
Qed.

(** A transfer completes; its request holds no fid. *)
Lemma sess_transferred n m i v :
  sess m -> 0 <= i < NETFS_NREQ -> req_at m i = req_at n i -> rq_state (req_at n i) = REQ_INFLIGHT ->
  rq_op (req_at n i) = LXP_NETFSW_READ \/ rq_op (req_at n i) = LXP_NETFSW_GETDENTS -> replied n i (req_complete m i v).
Proof.
  intros Hs Hi Er Hst Hop. assert (Hlv : is_live (req_at m i) = true) by (apply live_state; right; congruence).
  destruct (sh_live _ (se_shape _ Hs) i Hi Hlv) as (_ & Hf & _). rewrite Er in Hf. specialize (Hf Hop). split; [|by left].
  apply sess_finish; try done.
  - destruct (rfid_cases _ Hlv) as [[_ ?]|[? _]]; [done|]. rewrite Er in *. lia.
  - eapply req_ok_same; [by apply (ok_req_at stage_buf m i (se_ok _ Hs))|..]; try done. cbn. congruence.
  - intros _. rewrite Er. split_and!; try done; congruence.
Qed.

Lemma sess_open_update n oi f :
  sess n -> (forall op, no_used (f op) = no_used op /\ no_fid (f op) = no_fid op /\ no_stale (f op) = no_stale op) ->
  sess (match open_slot n oi with Some op => put_open n oi (f op) | None => n end).
Proof.
  intros Hs Hf. unfold open_slot. destruct (Z.ltb_spec oi 0); [done|]. rewrite Z.geb_leb. destruct (Z.leb_spec NETFS_NOPEN oi); [done|].
  destruct (negb _); [done|]. cbn [orb]. destruct (Hf (open_at n oi)) as (F1 & F2 & F3). apply sess_put_open; try done; lia.
Qed.

Lemma replied_read n c p i body n' c' :
  sess n -> 0 <= i < NETFS_NREQ -> rq_state (req_at n i) = REQ_INFLIGHT -> rq_op (req_at n i) = LXP_NETFSW_READ ->
  reply_read n c p i body = Some (n', c') -> replied n i n'.
Proof.
  intros Hs Hi Hst Hop E. unfold reply_read in E. destruct (reply_data_count body) as [[cnt o]|]; [|done]. cbn [mbind option_bind] in E.
  match type of E with context [let '(_, _) := ?x in _] => destruct x as [rc m] end.
  destruct (negb _); injection E as <- <-; [apply sess_transferred; auto|].
  match goal with |- context [match open_slot n ?oi with Some op => put_open n _ (@?f op) | None => n end] =>
    pose proof (sess_open_update n oi f Hs ltac:(done)) as Hs2 end.
  apply sess_transferred; auto. by destruct (open_slot _ _).
Qed.

Lemma replied_getdents n c p i body n' c' :
  sess n -> 0 <= i < NETFS_NREQ -> rq_state (req_at n i) = REQ_INFLIGHT -> rq_op (req_at n i) = LXP_NETFSW_GETDENTS ->
  reply_getdents n c p i body = Some (n', c') -> replied n i n'.
Proof.
  intros Hs Hi Hst Hop E. unfold reply_getdents in E. destruct (reply_data_count body) as [[cnt o]|]; [|done]. cbn [mbind option_bind] in E.
  destruct (entries_loop _ _ _ _ _ _ _ _ _) as [[[m sink] last]|]; [|done]. cbn [mbind option_bind] in E.
  destruct (negb _); injection E as <- <-; [apply sess_transferred; auto|].
  match goal with |- context [match open_slot n ?oi with Some op => put_open n _ (@?f op) | None => n end] =>
    pose proof (sess_open_update n oi f Hs ltac:(done)) as Hs2 end.
  apply sess_transferred; auto. by destruct (open_slot _ _).
Qed.

Lemma replied_clunked n i :
  sess n -> 0 <= i < NETFS_NREQ -> rq_state (req_at n i) = REQ_INFLIGHT -> replied n i (reply_clunked n i).
Proof.
  intros Hs Hi Hst. assert (Hlv : is_live (req_at n i) = true) by (apply live_state; by right). split; [|by left].
  assert (Hlen : alen (nf_req n) = NETFS_NREQ) by apply Hs.
  pose proof (core_fields _ _ (core_fid_free n (rq_fid (req_at n i)))) as (_ & _ & _ & Er & _).
  unfold reply_clunked, req_complete. rewrite req_at_put_eq by (rewrite Er; lia).
  set (r := set_rq_state _ REQ_DONE).
  replace (put_req (put_req (fid_free n (rq_fid (req_at n i))) i (set_rq_fid (req_at n i) (-1))) i r) with (put_req (fid_free n (rq_fid (req_at n i))) i r)
    by (unfold put_req; cbn; by rewrite aset_aset).
  apply sess_freed; try done. eapply req_ok_same; [by apply (ok_req_at stage_buf n i (se_ok _ Hs))|..]; try done. cbn. congruence.
Qed.

Lemma replied_stat n c p i body n' c' :
  sess n -> 0 <= i < NETFS_NREQ -> nf_inflight n = i -> rq_state (req_at n i) = REQ_INFLIGHT -> rq_op (req_at n i) = LXP_NETFSW_STAT ->
  p_fs_context (cproc c p) <> None -> reply_stat n c p i body = Some (n', c') -> replied n i n'.
Proof.
  intros Hs Hi Hfl Hst Hop Hfs E.
  assert (Hok := replies_ok _ _ _ _ _ _ (reply_stat_ok stage_buf n c p i body (se_ok _ Hs) Hi Hst Hop Hfs) E).
  assert (Hw : walks (rq_op (req_at n i)) = true) by (apply walks_of; auto).
  unfold reply_stat in E. destruct (Z.eqb_spec (rq_step (req_at n i)) 0); [by eapply replied_walk|]. destruct (_ =? 1).
  - eapply replied_attrs; [done..|]. intros mode size mtime ino E2. cbv beta in E2. destruct (stat_deliver n c _ _ _) as [[rc c2]|]; [|done]. cbn [mbind option_bind] in E2.
    injection E2 as <- <-. by apply replied_step.
  - destruct (_ =? 2); [injection E as <- <-; by apply replied_clunked|].
    destruct (req_fail n i _) eqn:Ef; [|done]; injection E as <- <-; by eapply replied_fail.
Qed.

Lemma replied_execfetch n c i body n' c' :
  0 <= stage_buf.2 < 2 ^ 32 ->
  sess n -> 0 <= i < NETFS_NREQ -> nf_inflight n = i -> rq_state (req_at n i) = REQ_INFLIGHT -> rq_op (req_at n i) = LXP_NETFSW_EXECFETCH ->
  reply_execfetch n c i body = Some (n', c') -> replied n i n'.
Proof.
  intros Hcap Hs Hi Hfl Hst Hop E.
  assert (Hok := replies_ok _ _ _ _ _ _ (reply_execfetch_ok stage_buf n c i body Hcap (se_ok _ Hs) Hi Hst Hop) E).
  assert (Hw : walks (rq_op (req_at n i)) = true) by (apply walks_of; auto).
  assert (Hsz : forall x, sess (set_nf_exec_size n x)) by (intros x; apply (sess_exec n); try done; by destruct (se_ok _ Hs)).
  unfold reply_execfetch in E. destruct (Z.eqb_spec (rq_step (req_at n i)) 0); [by eapply replied_walk|]. destruct (_ =? 1).
  { eapply replied_attrs; [done..|]. intros mode size mtime ino E2. cbv beta in E2. destruct (negb _); injection E2 as <- <-; by apply replied_step. }
  destruct (_ =? 2); [injection E as <- <-; by apply replied_step|].
  destruct (Z.eqb_spec (rq_step (req_at n i)) 3) as [E3|].
  - unfold fetch_chunk in E. destruct (reply_data_count body) as [[cnt o]|]; [|done]. cbn [mbind option_bind] in E.
    destruct (negb _); [done|]. injection E as <- <-.
    match goal with |- replied _ _ (put_req _ _ ?r) => set (rr := r) in * end.
    assert (Hrr : rq_op rr = rq_op (req_at n i) /\ rq_oi rr = rq_oi (req_at n i) /\ rq_state rr = rq_state (req_at n i) /\
                  rq_fid rr = rq_fid (req_at n i) /\ 1 <= rq_step rr <= 4).
    { unfold rr. destruct (_ || _); destruct (_ && _); cbn; split_and!; try done; lia. }
    clearbody rr. destruct Hrr as (R1 & R2 & R3 & R4 & R5). apply replied_step; try done; congruence.
  - destruct (_ =? 4); [injection E as <- <-; by apply replied_clunked|].
    destruct (req_fail n i _) eqn:Ef; [|done]; injection E as <- <-; by eapply replied_fail.
Qed.

Lemma replied_handle n c i owner type body n' c' :
  0 <= stage_buf.2 < 2 ^ 32 ->
  sess n -> 0 <= i < NETFS_NREQ -> nf_inflight n = i -> rq_state (req_at n i) = REQ_INFLIGHT -> owner_ready c (req_at n i) owner ->
  handle_reply n c i owner type body = Some (n', c') -> replied n i n'.
Proof.
  intros Hcap Hs Hi Hfl Hst Hown E. unfold handle_reply in E. cbv zeta in E.
  assert (Hlv : is_live (req_at n i) = true) by (apply live_state; by right).
  assert (Hfail : forall v, (n ← req_fail n i v; Some (n, c)) = Some (n', c') -> replied n i n').
  { intros v Ev. destruct (req_fail n i v) eqn:Ef; [|done]. injection Ev as <- <-. by eapply replied_fail. }
  assert (Hfree : Some (set_nf_inflight (put_req (fid_free n (rq_fid (req_at n i))) i (set_rq_state (req_at n i) REQ_FREE)) (-1), c) = Some (n', c') ->
            replied n i n').
  { intros [= <- <-]. split; [|by left]. apply sess_freed; try done. eapply req_ok_free; [by apply (ok_req_at stage_buf n i (se_ok _ Hs))|done|done|done]. }
  destruct ((ref_index _ <? 0) && negb _) eqn:Eo.
  { destruct (reply_orphan n i) eqn:Er; [|done]. injection E as <- <-. destruct (sess_orphan _ _ _ Hs Hi Hst Er). split; [done|by left]. }
  destruct (type =? P9_RLERROR).
  { destruct (alen body <? 4); cbn [mbind option_bind] in E; [by eapply Hfail|]. destruct (get32 body 0) as [[e o]|]; [|done].
    cbn [mbind option_bind] in E. by eapply Hfail. }
  destruct (negb (type =? _)); [by eapply Hfail|].
  destruct (Z.eqb_spec (rq_op (req_at n i)) LXP_NETFSW_OPEN); [by eapply replied_open|].
  assert (Hp : rq_op (req_at n i) <> REQ_OP_CLUNK -> exists p, owner = Some p /\ p_fs_context (cproc c p) <> None).
  { intros Hne. apply Hown; [|done]. destruct (Z.ltb_spec (ref_index (rq_owner (req_at n i))) 0); [|done].
    destruct (Z.eqb_spec (rq_op (req_at n i)) REQ_OP_CLUNK); done. }
  destruct (Z.eqb_spec (rq_op (req_at n i)) LXP_NETFSW_READ) as [Eq|].
  { destruct Hp as (p & -> & _); [by rewrite Eq|]. by eapply replied_read. }
  destruct (Z.eqb_spec (rq_op (req_at n i)) LXP_NETFSW_GETDENTS) as [Eq|].
  { destruct Hp as (p & -> & _); [by rewrite Eq|]. by eapply replied_getdents. }
  destruct (Z.eqb_spec (rq_op (req_at n i)) LXP_NETFSW_STAT) as [Eq|].
  { destruct Hp as (p & -> & Hfs); [by rewrite Eq|]. by eapply replied_stat. }
  destruct (Z.eqb_spec (rq_op (req_at n i)) LXP_NETFSW_EXECFETCH); [by eapply replied_execfetch|]. by apply Hfree.
Qed.
End Handlers.
End Session.
