(* ===== verification/NetfsAccount.v ===== *)
(** * The pump carries a session on

    Replies, queued requests and background clunks keep the session's invariant until the
    connection is lost. *)

From S2P Require Import Prelude Config Arena Path Proc Guest Wait Pool Fd Process Runtime Event Region Lifecycle.
From S2P Require Import Signal SysSignal Child SignalRoute Loader Image Exec Stat NetfsWire Netfs NetfsSpec NetfsPump.
From S2P Require Import NetfsProps NetfsSession.
From stdpp Require Import relations.
Local Open Scope Z_scope.

Section Pump.
Context {H N : Type} (net : net_ops N) `{!LawfulNet net} (stage_buf : Z * Z).
Implicit Types (n m : netfs) (c : coord H) (h : N).
Local Notation sess := (sess stage_buf).
Local Notation ok := (netfs_ok stage_buf).

Definition generation n : Z := lk_generation (nf_link n).

(** The connection is lost, or the session goes on. *)
Definition carries n n' : Prop := generation n' = generation n /\ (nconn n' = CONN_DOWN \/ sess n' /\ nconn n' = nconn n).

Lemma carries_refl n : sess n -> carries n n.
Proof. intros Hs. split; [done|]. by right. Qed.

Lemma carries_trans n m n' : carries n m -> nconn m <> CONN_DOWN -> (sess m -> carries m n') -> carries n n'.
Proof. intros [Hg [Hd|[Hs Hc]]] Hne Hm; [done|]. destruct (Hm Hs) as [Hg' [Hd'|[Hs' Hc']]]; (split; [congruence|]); [by left|right; split; [done|congruence]]. Qed.

Lemma dropped n h : nconn (conn_drop net n h).1 = CONN_DOWN /\ generation (conn_drop net n h).1 = generation n.
Proof. done. Qed.

Lemma carries_dropped n m h : generation m = generation n -> carries n (conn_drop net m h).1.
Proof. intros Hg. destruct (dropped m h) as [Hd Hg']. split; [congruence|by left]. Qed.

Lemma carries_link n lk :
  sess n -> ok (set_nf_link n lk) -> lk_conn lk = lk_conn (nf_link n) -> lk_generation lk = lk_generation (nf_link n) -> carries n (set_nf_link n lk).
Proof. intros Hs Hok Hc Hg. split; [exact Hg|right]. split; [apply sess_link; auto|exact Hc]. Qed.

(** The same, by what the step reports: [stop] when the connection was lost. *)
Definition drained n (stop : bool) n' : Prop :=
  generation n' = generation n /\ if stop then nconn n' = CONN_DOWN else sess n' /\ nconn n' = nconn n.

Lemma drained_carries n stop n' : drained n stop n' -> carries n n'.
Proof. intros [Hg Hd]. split; [done|]. destruct stop; auto. Qed.

Lemma drained_trans n m stop n' : drained n false m -> drained m stop n' -> drained n stop n'.
Proof. intros [Hg [_ Hc]] [Hg' Hd]. split; [congruence|]. destruct stop; [done|]. destruct Hd. split; [done|congruence]. Qed.

Lemma drained_link n lk :
  sess n -> ok (set_nf_link n lk) -> lk_conn lk = lk_conn (nf_link n) -> lk_generation lk = lk_generation (nf_link n) -> drained n false (set_nf_link n lk).
Proof. intros Hs Hok Hc Hg. split; [exact Hg|]. split; [apply sess_link; auto|exact Hc]. Qed.

Lemma drained_dropped n m h n' h' : generation m = generation n -> conn_drop net m h = (n', h') -> drained n true n'.
Proof. intros Hg E. pose proof (dropped m h) as [Hd Hg']. rewrite E in Hd, Hg'. cbn [fst] in *. split; [congruence|done]. Qed.

Lemma flush_drained n h stop n' h' : sess n -> pump_flush net n h = Some (stop, n', h') -> drained n stop n'.
Proof.
  intros Hs E. unfold pump_flush in E. destruct (tx_flush_ok net (nf_link n) h (ok_link _ _ (se_ok _ _ Hs))) as (f & lk & h1 & E1 & Hl & El & _).
  rewrite E1 in E. cbn [mbind option_bind] in E.
  assert (Hok : ok (set_nf_link n lk)) by (apply ok_set_link_same; [apply Hs|done|rewrite El; done..]).
  destruct (f <? 0).
  - destruct (conn_drop net (set_nf_link n lk) h1) as [n2 h2] eqn:Ed. injection E as <- <- <-.
    eapply drained_dropped; [|exact Ed]. unfold generation. cbn. by rewrite El.
  - injection E as <- <- <-. apply drained_link; try done; by rewrite El.
Qed.

(** Past the walk a build only writes the message. *)
Lemma build_past_walk n i e n' :
  walks (rq_op (req_at n i)) = true -> 1 <= rq_step (req_at n i) <= 4 -> req_build n i = Some (e, n') -> e = 0 /\ exists lk, n' = set_nf_link n lk.
Proof.
  intros Hw Hst E. unfold req_build in E. unfold walks in Hw. rewrite Hw in E.
  assert (Hb : forall lk, built n lk = Some (e, n') -> e = 0 /\ exists lk', n' = set_nf_link n lk').
  { intros [lk|] Eb; [|done]. injection Eb as <- <-. eauto. }
  destruct (Z.eqb_spec (rq_step (req_at n i)) 0); [lia|]. destruct (Z.eqb_spec (rq_step (req_at n i)) 1); [by eapply Hb|].
  destruct (Z.eqb_spec (rq_step (req_at n i)) 2); [destruct (_ =? LXP_NETFSW_STAT); by eapply Hb|]. destruct (Z.eqb_spec (rq_step (req_at n i)) 3); [by eapply Hb|].
  destruct (Z.eqb_spec (rq_step (req_at n i)) 4); [by eapply Hb|lia].
Qed.

Lemma build_conn n i e n' : ok n -> 0 <= i < NETFS_NREQ -> rq_state (req_at n i) <> REQ_FREE -> req_build n i = Some (e, n') -> ok n' /\ nconn n' = nconn n /\ generation n' = generation n.
Proof. intros Hn Hi Hs E. destruct (req_build_ok stage_buf n i Hn Hi Hs) as (e' & n1 & E' & Hok & [_ Hc _ _ Hg]). rewrite E in E'. by injection E' as <- <-. Qed.
(** ** The reply loop *)

(** The next message of a request that a reply moved on. *)
Lemma advance_drained n h i stop n' h' :
  sess n -> 0 <= i < NETFS_NREQ ->
  nf_inflight n = -1 \/ nf_inflight n = i /\ walks (rq_op (req_at n i)) = true /\ 1 <= rq_step (req_at n i) /\ rq_state (req_at n i) = REQ_INFLIGHT ->
  (if bool_decide (rq_state (req_at n i) = REQ_INFLIGHT) && (nf_inflight n >=? 0)
   then '(e, n) ← req_build n i; if e <? 0 then Some (false, req_complete n i e, h) else pump_flush net n h
   else Some (false, n, h)) = Some (stop, n', h') ->
  drained n stop n' /\ (stop = false -> nf_inflight n' = nf_inflight n /\ req_at n' i = req_at n i).
Proof.
  intros Hs Hi Hw E. destruct Hw as [Ew|(Ew & Hwk & Hstep & Hst)].
  { rewrite Ew, andb_false_r in E. by injection E as <- <- <-. }
  rewrite bool_decide_true, Ew, Z.geb_leb, (proj2 (Z.leb_le 0 i)) in E by (done || lia). cbn [andb] in E.
  destruct (req_build n i) as [[e n1]|] eqn:Eb; [|done]. cbn [mbind option_bind] in E.
  assert (Hlv : is_live (req_at n i) = true) by (apply live_state; by right).
  destruct (build_past_walk n i e n1 Hwk) as (-> & lk & En1); [split; [done|apply (sh_live _ _ (se_shape _ _ Hs) i Hi Hlv)]|done|].
  destruct (build_conn n i 0 n1) as (Hok1 & Hcn1 & Hg1); [apply Hs|done|congruence|done|].
  change (0 <? 0) with false in E. cbv iota in E. assert (Hd1 : drained n false n1) by (rewrite En1 in *; by apply drained_link).
  assert (Hs1 : sess n1) by apply Hd1. split; [eapply drained_trans; [exact Hd1|by eapply flush_drained]|].
  destruct (pump_flush_ok net stage_buf n1 h Hok1) as (stop' & n2 & h2 & E2 & _ & Hlk). rewrite E in E2. injection E2 as <- <- <-.
  intros Estop. destruct (Hlk Estop) as [t ->]. rewrite En1. done.
Qed.

(** A message taken off the receive buffer. *)
Lemma consumed n len : sess n -> 7 <= len <= lk_rxlen (nf_link n) -> drained n false (link_map (fun lk => rx_consume lk len) n).
Proof.
  intros Hs Hl. destruct (rx_consume_ok (nf_link n) len (ok_link _ _ (se_ok _ _ Hs)) Hl) as (Hl2 & _ & _ & E2).
  apply drained_link; [done| |by rewrite E2..]. apply ok_set_link_same; [apply Hs|done|by rewrite E2..].
Qed.

Lemma drain_drained fuel n c h owner stop n' c' h' :
  0 <= stage_buf.2 < 2 ^ 32 -> sess n -> 0 <= nf_inflight n -> owner_ready c (req_at n (nf_inflight n)) owner ->
  drain_loop net fuel n c h owner = Some (stop, n', c', h') -> drained n stop n'.
Proof.
  intros Hcap. revert n c h. induction fuel as [|fuel IH]; intros n c h Hs Hfl Hown E; [done|]. cbn [drain_loop] in E.
  destruct (rx_message_ok (nf_link n) (ok_link _ _ (se_ok _ _ Hs))) as (len & Em & Hlen). rewrite Em in E. cbn [mbind option_bind] in E.
  destruct (Z.eqb_spec len SIZE_MAX) as [|Hx].
  { destruct (conn_drop net n h) as [n2 h2] eqn:Ed. injection E as <- <- <- <-. by eapply drained_dropped. }
  destruct (Z.eqb_spec len 0) as [|Hz]; [by injection E as <- <- <- <-|].
  assert (Hl : 7 <= len <= lk_rxlen (nf_link n)) by lia. clear Hlen.
  destruct (ok_inflight _ _ (se_ok _ _ Hs)) as [Ei|[Hi Hst]]; [lia|].
  rewrite (proj2 (Z.leb_le 0 _)), (proj2 (Z.ltb_lt (nf_inflight n) _)) in E by lia. cbn [andb negb] in E.
  destruct (get8 _ 4) as [[type o]|]; [|done]. cbn [mbind option_bind] in E.
  match type of E with context [handle_reply n c ?i owner ?t ?b] =>
    destruct (handle_reply_ok stage_buf n c i owner t b Hcap (se_ok _ _ Hs) Hi Hst Hown) as (n1 & c1 & E1 & Hok1 & [El Hw'] & Hc1);
    destruct (replied_handle stage_buf n c i owner t b n1 c1 Hcap Hs Hi eq_refl Hst Hown E1) as [Hs1 Hw1] end.
  rewrite E1 in E. cbn [mbind option_bind] in E. rewrite <- El in Hl. set (i := nf_inflight n) in *.
  assert (Hd2 := consumed n1 len Hs1 Hl). set (n2 := link_map _ n1) in *.
  assert (H02 : drained n false n2).
  { destruct Hd2 as (Hg & Hs2 & Hc). unfold generation, nconn in *. rewrite El in *. done. }
  match type of E with context [mbind _ ?x] => destruct x as [[[stop3 n3] h3]|] eqn:E3; [|done] end. cbn [mbind option_bind] in E.
  destruct (advance_drained n2 h i stop3 n3 h3 ltac:(apply Hd2) Hi Hw1 E3) as [Hd3 Hk3].
  assert (H03 := drained_trans _ _ _ _ H02 Hd3). destruct stop3; [by injection E as <- <- <- <-|]. destruct (Hk3 eq_refl) as [Hif3 Hrq3].
  destruct (Z.ltb_spec (nf_inflight n3) 0) as [Hlt|Hge]; [by injection E as <- <- <- <-|].
  destruct Hw1 as [Ew|(Ew & _)]; [change (nf_inflight n2) with (nf_inflight n1) in Hif3; lia|].
  eapply drained_trans; [exact H03|]. apply (IH n3 c1 h3); [apply H03|done| |exact E].
  change (nf_inflight n2) with (nf_inflight n1) in Hif3. rewrite Hif3, Ew, Hrq3. change (req_at n2 i) with (req_at n1 i). intros Ho Hop.
  destruct Hw' as [Ew'|(_ & O1 & P1)]; [lia|].
  rewrite O1 in Ho. rewrite P1 in Hop. destruct (Hown Ho Hop) as (p & -> & Hp). exists p. split; [done|]. by rewrite Hc1.
Qed.
(** ** Starting the next request *)

Lemma queued_holds n i :
  sess n -> 0 <= i < NETFS_NREQ -> rq_state (req_at n i) = REQ_QUEUED -> is_live (req_at n i) = true /\ rfid (req_at n i) = [] /\ rq_step (req_at n i) = 0.
Proof.
  intros Hs Hi Hst. assert (Hlv : is_live (req_at n i) = true) by (apply live_state; by left).
  destruct (sh_live _ _ (se_shape _ _ Hs) i Hi Hlv) as (L1 & _ & _). destruct (L1 Hst) as [L2 L3]. split; [done|]. split; [|done].
  destruct (rfid_cases _ Hlv) as [[_ ?]|[? _]]; [done|lia].
Qed.

(** A queued request that cannot be built completes. *)
Lemma sess_refused n i v :
  sess n -> 0 <= i < NETFS_NREQ -> rq_state (req_at n i) = REQ_QUEUED -> sess (req_complete n i v).
Proof.
  intros Hs Hi Hst. destruct (queued_holds n i Hs Hi Hst) as (Hlv & Hf & _). apply sess_finish; try done.
  - eapply req_ok_same; [by apply (ok_req_at stage_buf n i (se_ok _ _ Hs))|..]; try done. cbn. congruence.
  - intros _. split_and!; try done. congruence.
Qed.

(** A queued request goes on the wire; [f] is the fid it holds there. *)
Lemma sess_started n m i r lk :
  sess n -> nconn n = CONN_UP -> 0 <= i < NETFS_NREQ -> nf_core m = nf_core n -> rq_state (req_at n i) = REQ_QUEUED ->
  rq_state r = REQ_INFLIGHT -> rq_op r = rq_op (req_at n i) -> rq_oi r = rq_oi (req_at n i) -> rq_path r = rq_path (req_at n i) ->
  rq_step r = 0 -> (rq_op r = LXP_NETFSW_READ \/ rq_op r = LXP_NETFSW_GETDENTS -> rq_fid r <= 0) ->
  ok m -> ok (set_nf_link m lk) -> lk_conn lk = lk_conn (nf_link n) ->
  fids_exact (put_req m i r) -> sess (set_nf_inflight (put_req (set_nf_link m lk) i r) i).
Proof.
  intros Hs Hup Hi Hcore Hst Hsr Hop Hoi Hpa Hstep Hfid Hokm Hokl Hcn Hex.
  destruct (queued_holds n i Hs Hi Hst) as (Hlv & Hf & _). pose proof (core_fields _ _ Hcore) as (_ & El & _ & _ & _ & Ei & _).
  destruct (req_live _ _ _ (ok_req_at stage_buf n i (se_ok _ _ Hs) Hi)) as (Q1 & Q2 & Q3); [congruence|].
  assert (Hr : req_ok stage_buf (nf_exec_buf m, nf_exec_cap m) r).
  { rewrite (core_exec _ _ Hcore). apply req_ok_live; [by rewrite Hpa|by rewrite Hop, Hoi|]. rewrite Hop, Hstep. intros E. split; [by apply Q3|done]. }
  assert (Hsm : sess (put_req (set_nf_inflight m i) i r)).
  { assert (Hoki : ok (put_req (set_nf_inflight m i) i r)) by (apply (ok_start_req stage_buf m i r); done).
    split.
    - assert (Hsh : shape stage_buf (put_req m i r)).
      { eapply (shape_put_req stage_buf n m i r); try done; [apply Hs|apply ok_put_req; try done|..].
        - intros _ Ho. split_and!; try done; congruence.
        - intros _. split; [congruence|]. split; [done|]. rewrite Hstep. lia. }
      destruct Hsh. by split.
    - exact Hex.
    - intros Hd. exfalso. apply Hd. unfold nconn in *. cbn. by rewrite El. }
  change (set_nf_inflight (put_req (set_nf_link m lk) i r) i) with (set_nf_link (put_req (set_nf_inflight m i) i r) lk).
  apply sess_link; [done| |left; cbn; by rewrite El].
  exact (ok_start_req stage_buf (set_nf_link m lk) i r Hokl Hi Hr Hsr).
Qed.

(** What building a queued request leads to: refused, or on the wire. *)
Definition built_queued n (i e : Z) n1 : Prop :=
  sess (req_complete n1 i e) /\ e < 0 \/ sess (set_nf_inflight (put_req n1 i (set_rq_state (req_at n1 i) REQ_INFLIGHT)) i) /\ 0 <= e.

Lemma built_walk n i e n1 :
  sess n -> nconn n = CONN_UP -> 0 <= i < NETFS_NREQ -> rq_state (req_at n i) = REQ_QUEUED -> walks (rq_op (req_at n i)) = true ->
  msg_walk n i = Some (e, n1) -> built_queued n i e n1.
Proof.
  intros Hs Hup Hi Hst Hw E. destruct (queued_holds n i Hs Hi Hst) as (Hlv & Hf & H0). assert (Hlen : alen (nf_req n) = NETFS_NREQ) by apply Hs.
  destruct (req_live _ _ _ (ok_req_at stage_buf n i (se_ok _ _ Hs) Hi)) as (Hp & _); [congruence|].
  rewrite msg_walk_spec in E by (done || apply Hs). cbv zeta in E. destruct (negb _).
  { injection E as <- <-. left. split; [by apply sess_refused|done]. }
  pose proof (fid_alloc_spec n) as Hfs. pose proof (core_fid_alloc n) as Hcore. pose proof (ok_fid_alloc stage_buf n (se_ok _ _ Hs)) as Hokm.
  destruct (Z.ltb_spec (fid_alloc n).1 0).
  - injection E as <- <-. left. split; [|done].
    assert (En : fid_alloc n = (-1, n)).
    { unfold fid_alloc in *. destruct (List.find _ _) as [f|] eqn:Ef; [|done]. apply find_some in Ef as [Ef _].
      apply list_elem_of_In, elem_of_seqZ in Ef. cbn in *. lia. }
    rewrite En. cbn [fst snd]. set (r := set_rq_fid (req_at n i) (-1)).
    assert (Hsr : sess (put_req n i r)).
    { apply sess_put_req; try done.
      - apply ok_put_req; [apply Hs|done| |].
        + apply req_ok_fid. by apply ok_req_at; [apply Hs|].
        + intros Ei. destruct (ok_inflight _ _ (se_ok _ _ Hs)) as [E2|[_ E2]]; [lia|]. rewrite Ei in E2. done.
      - rewrite Hf. unfold rfid. cbn. by rewrite andb_false_r.
      - intros _. destruct (sh_live _ _ (se_shape _ _ Hs) i Hi Hlv) as (L1 & L2 & L3). split; [intros HH; split; [by apply L1|done]|]. split; [done|done]. }
    apply sess_refused; try done. by rewrite req_at_put_eq by lia.
  - injection E as <- <-. right. split; [|done]. destruct Hfs as [Hfr Hun]. set (f := (fid_alloc n).1) in *. set (m := (fid_alloc n).2) in *.
    set (lk := sends _ _ _ _). pose proof (core_fields _ _ Hcore) as (_ & El & _ & Er & _).
    change (req_at (set_nf_link ?a lk) i) with (req_at a i). rewrite req_at_put_eq by (rewrite Er; lia).
    set (r := set_rq_state (set_rq_fid (req_at n i) f) REQ_INFLIGHT).
    replace (put_req (set_nf_link (put_req m i (set_rq_fid (req_at n i) f)) lk) i r) with (put_req (set_nf_link m lk) i r)
      by (unfold put_req; cbn; by rewrite aset_aset).
    assert (Hlk : link_ok lk) by (apply sends_ok; [apply Hs|by apply walk_body_fits]).
    apply (sess_started n m i r lk); try done.
    + intros [Ex|Ex]; cbn in Ex; rewrite Ex in Hw; done.
    + apply ok_set_link_same; [done|done|by rewrite El|by rewrite El].
    + apply (exact_add n _ f); [apply Hs| |done|done|].
      * pose proof (held_put_req m i r) as Eh. rewrite (core_req_at _ _ i Hcore), Hf, app_nil_r in Eh.
        rewrite Eh by (rewrite Er; lia). assert (Erf : rfid r = [f]).
        { unfold rfid, r. cbn. destruct (Z.gtb_spec f 0); [done|lia]. }
        rewrite Erf, <- Permutation_cons_append. constructor. unfold m, fid_alloc. by destruct (List.find _ _).
      * intros g Hg. change (fid_used (put_req m i r) g) with (fid_used m g). apply fid_used_alloc; [apply Hs|done|lia].
Qed.

Lemma built_plain n i lk :
  sess n -> nconn n = CONN_UP -> 0 <= i < NETFS_NREQ -> rq_state (req_at n i) = REQ_QUEUED -> walks (rq_op (req_at n i)) = false ->
  ok (set_nf_link n lk) -> lk_conn lk = lk_conn (nf_link n) -> built_queued n i 0 (set_nf_link n lk).
Proof.
  intros Hs Hup Hi Hst Hw Hok Hcn. destruct (queued_holds n i Hs Hi Hst) as (Hlv & Hf & H0). assert (Hlen : alen (nf_req n) = NETFS_NREQ) by apply Hs.
  destruct (sh_live _ _ (se_shape _ _ Hs) i Hi Hlv) as (L1 & L2 & _). right. split; [|done].
  change (req_at (set_nf_link n lk) i) with (req_at n i). set (r := set_rq_state (req_at n i) REQ_INFLIGHT).
  apply (sess_started n n i r lk); try done; [by apply Hs|].
  assert (Hheld : held (put_req n i r) ≡ₚ held n).
  { pose proof (held_put_req n i r) as Eh. rewrite Hf, app_nil_r in Eh. rewrite Eh by lia.
    assert (Erf : rfid r = []) by (unfold rfid in *; rewrite Hlv in Hf; exact Hf). by rewrite Erf, app_nil_r. }
  by eapply exact_same; [apply Hs|exact Hheld|].
Qed.

Lemma req_build_queued n i e n1 :
  sess n -> nconn n = CONN_UP -> 0 <= i < NETFS_NREQ -> rq_state (req_at n i) = REQ_QUEUED -> req_build n i = Some (e, n1) -> built_queued n i e n1.
Proof.
  intros Hs Hup Hi Hst E. destruct (queued_holds n i Hs Hi Hst) as (Hlv & Hf & H0).
  destruct (build_conn n i e n1 (se_ok _ _ Hs) Hi ltac:(congruence) E) as (Hok1 & Hcn1 & _).
  destruct (walks (rq_op (req_at n i))) eqn:Hw.
  - unfold req_build in E. pose proof Hw as Hw'. unfold walks in Hw'. rewrite Hw', H0 in E. by apply built_walk.
  - assert (Hb : forall lk, built n lk = Some (e, n1) -> built_queued n i e n1).
    { intros [lk|] Eb; [|done]. injection Eb as <- <-. by apply built_plain. }
    assert (Hbad : Some (- LXP_EBADF, n) = Some (e, n1) -> built_queued n i e n1).
    { intros [= <- <-]. left. split; [by apply sess_refused|done]. }
    unfold req_build in E. unfold walks in Hw. rewrite Hw in E.
    destruct (_ =? LXP_NETFSW_READ); [destruct (open_slot _ _); [by eapply Hb|by apply Hbad]|].
    destruct (_ =? LXP_NETFSW_GETDENTS); [destruct (open_slot _ _); [by eapply Hb|by apply Hbad]|]. by eapply Hb.
Qed.

Lemma start_queued_carries n h i n' h' :
  sess n -> nconn n = CONN_UP -> 0 <= i < NETFS_NREQ -> rq_state (req_at n i) = REQ_QUEUED -> start_queued net n h i = Some (n', h') -> carries n n'.
Proof.
  intros Hs Hup Hi Hst E. destruct (queued_holds n i Hs Hi Hst) as (Hlv & Hf & H0). unfold start_queued in E.
  destruct (req_build n i) as [[e n1]|] eqn:Eb; [|done]. cbn [mbind option_bind] in E.
  destruct (build_conn n i e n1 (se_ok _ _ Hs) Hi ltac:(congruence) Eb) as (Hok1 & Hcn1 & Hg1).
  destruct (req_build_queued n i e n1 Hs Hup Hi Hst Eb) as [[Hs1 He]|[Hs1 He]].
  - rewrite (proj2 (Z.ltb_lt e 0)) in E by lia. injection E as <- <-. split; [exact Hg1|right; split; [done|exact Hcn1]].
  - rewrite (proj2 (Z.ltb_ge e 0)) in E by lia. destruct (pump_flush net _ h) as [[[stop n2] h2]|] eqn:E2; [|done]. cbn [mbind option_bind] in E.
    injection E as <- <-. destruct (drained_carries _ _ _ (flush_drained _ _ _ _ _ Hs1 E2)) as [Hg2 Hc2]. split; [rewrite Hg2; exact Hg1|].
    destruct Hc2 as [?|[? Hc2]]; [by left|right]. split; [done|]. rewrite Hc2. exact Hcn1.
Qed.

(** The clunk at the head of the queue goes on the wire. *)
Lemma start_clunk_carries n h i n' h' :
  sess n -> nconn n = CONN_UP -> 0 <= i < NETFS_NREQ -> rq_state (req_at n i) = REQ_FREE -> nf_inflight n < 0 ->
  nf_clunk_head n <> nf_clunk_tail n -> start_clunk net n h i = Some (n', h') -> carries n n'.
Proof.
  intros Hs Hup Hi Hst Hfl Hq E. assert (Hlen : alen (nf_req n) = NETFS_NREQ) by apply Hs.
  destruct (ok_clunk _ _ (se_ok _ _ Hs)) as (Hc1 & Hc2 & Hc3). pose proof (held_head n Hc2 Hc3 Hq) as Hh.
  unfold start_clunk in E. cbv zeta in E. set (f := aget 0 (nf_clunk_fid n) (nf_clunk_head n)) in *. set (hd := (nf_clunk_head n + 1) mod NETFS_NCLUNK) in *.
  set (m := set_nf_clunk_head n hd) in *. set (r := clunk_request f) in *.
  assert (Hf : 0 < f < NETFS_NFID) by (apply (se_exact _ _ Hs); rewrite Hh; by left).
  assert (Hokm : ok m).
  { destruct (se_ok _ _ Hs). split; try done. cbn. split_and!; try lia; apply Z.mod_pos_bound; done. }
  assert (Hreq : req_ok stage_buf (nf_exec_buf m, nf_exec_cap m) r) by (by apply req_ok_live).
  assert (Hs1 : sess (put_req (set_nf_inflight m i) i r)).
  { assert (Hok1 : ok (put_req (set_nf_inflight m i) i r)) by (by apply (ok_start_req stage_buf m i r)). split.
    - assert (Hsh : shape stage_buf (put_req m i r)).
      { assert (Hsm : shape stage_buf m) by (destruct Hs as [[] _ _]; by split).
        apply (shape_put_req stage_buf m m i r); try done; [by apply ok_put_req|].
        intros _. split; [done|]. split; [by intros [?|?]|]. cbn. lia. }
      destruct Hsh. by split.
    - apply (exact_same n); [apply Hs| |done]. change (held (put_req (set_nf_inflight m i) i r)) with (held (put_req m i r)).
      pose proof (held_put_req m i r) as Eh. change (req_at m i) with (req_at n i) in Eh.
      rewrite (not_live_rfid (req_at n i)), app_nil_r in Eh by (unfold is_live; by rewrite Hst).
      rewrite Eh by (change (nf_req m) with (nf_req n); lia). assert (Er : rfid r = [f]).
      { unfold rfid, r. cbn. destruct (Z.gtb_spec f 0); [done|lia]. }
      rewrite Er, <- Permutation_cons_append. by symmetry.
    - done. }
  set (n1 := put_req (set_nf_inflight m i) i r) in *. match type of E with context [req_build ?x i] => change x with n1 in E end.
  destruct (req_build n1 i) as [[e n2]|] eqn:Eb; [|done]. cbn [mbind option_bind] in E.
  assert (Hat : req_at n1 i = r) by (unfold n1; apply req_at_put_eq; change (nf_req (set_nf_inflight m i)) with (nf_req n); lia).
  destruct (build_conn n1 i e n2 (se_ok _ _ Hs1) Hi) as (Hok2 & Hcn2 & Hg2); [by rewrite Hat|done|].
  assert (Hlk : e = 0 /\ exists lk, n2 = set_nf_link n1 lk).
  { unfold req_build in Eb. rewrite Hat in Eb. cbn -[msg_fid] in Eb. destruct (msg_fid _ _ _) as [lk|]; [|done]. injection Eb as <- <-. eauto. }
  destruct Hlk as (-> & lk & En2). assert (Hs2 : sess n2) by (rewrite En2 in *; apply sess_link; [done|done|by left]).
  change (0 =? 0) with true in E. cbv iota in E. destruct (pump_flush net n2 h) as [[[stop n3] h3]|] eqn:E3; [|done]. cbn [mbind option_bind] in E.
  injection E as <- <-. destruct (drained_carries _ _ _ (flush_drained _ _ _ _ _ Hs2 E3)) as [Hg3 Hc3']. split; [rewrite Hg3; exact Hg2|].
  destruct Hc3' as [?|[? Hc']]; [by left|right]. split; [done|]. rewrite Hc', Hcn2. done.
Qed.

Lemma pump_start_carries n c h owner n' h' : sess n -> nconn n = CONN_UP -> pump_start net n c h owner = Some (n', h') -> carries n n'.
Proof.
  intros Hs Hup E. unfold pump_start in E. assert (Hstay : Some (n, h) = Some (n', h') -> carries n n') by (intros [= <- _]; by apply carries_refl).
  destruct (Z.ltb_spec (nf_inflight n) 0); [|by apply Hstay]. destruct (lk_txoff _ =? _); cbn [andb] in E; [|by apply Hstay].
  destruct (pick_queued n) as [i|] eqn:Ep.
  - apply pick_queued_spec in Ep as [Hi Hst]. destruct (negb _); [by apply Hstay|by eapply start_queued_carries].
  - destruct (Z.eqb_spec (nf_clunk_head n) (nf_clunk_tail n)); cbn [negb] in E; [by apply Hstay|]. destruct (List.find _ _) as [i|] eqn:Ef; [|by apply Hstay].
    apply find_some in Ef as [Ei Es]. apply list_elem_of_In, elem_of_seqZ in Ei. apply bool_decide_eq_true in Es.
    by eapply start_clunk_carries.
Qed.

Lemma pump_drain_carries n c h owner stop n' c' h' :
  0 <= stage_buf.2 < 2 ^ 32 -> sess n -> (forall p, owner = Some p -> p_fs_context (cproc c p) <> None) ->
  pump_drain net n c h owner = Some (stop, n', c', h') -> carries n n' /\ (stop = false -> drained n false n').
Proof.
  intros Hcap Hs Hfs E. unfold pump_drain in E. destruct (Z.ltb_spec (nf_inflight n) 0); [injection E as <- <- <- <-; split; [by apply carries_refl|done]|].
  destruct (negb (_ <? _)); [done|].
  destruct (_ && negb (req_owned_by _ _ _)) eqn:Eo; [injection E as <- <- <- <-; split; [by apply carries_refl|done]|]. apply owned_ready in Eo; [|done].
  destruct (rx_fill_ok net (nf_link n) h (ok_link _ _ (se_ok _ _ Hs))) as (f & lk & h1 & E1 & Hl & El & _). rewrite E1 in E. cbn [mbind option_bind] in E.
  assert (Hok : ok (set_nf_link n lk)) by (apply ok_set_link_same; [apply Hs|done|rewrite El; done..]).
  assert (Hd1 : drained n false (set_nf_link n lk)) by (apply drained_link; try done; by rewrite El).
  enough (Hd : drained n stop n') by (split; [by eapply drained_carries|by intros ->]).
  destruct (f <? 0).
  - destruct (conn_drop net _ h1) as [n2 h2] eqn:Ed. injection E as <- <- <- <-. eapply drained_dropped; [|exact Ed]. apply Hd1.
  - eapply drained_trans; [exact Hd1|]. eapply drain_drained; [done|apply Hd1|done|exact Eo|exact E].
Qed.

(** Once the connection is up. *)
Lemma pump_up_carries n c h owner now n' c' h' :
  0 <= stage_buf.2 < 2 ^ 32 -> sess n -> nconn n = CONN_UP -> (forall p, owner = Some p -> p_fs_context (cproc c p) <> None) ->
  pump net n c h owner now = Some (n', c', h') -> carries n n'.
Proof.
  intros Hcap Hs Hup Hfs E. unfold pump in E. rewrite decide_True in E by done. cbn [mbind option_bind] in E. rewrite bool_decide_true in E by done. cbn [negb] in E.
  destruct (tx_flush_ok net (nf_link n) h (ok_link _ _ (se_ok _ _ Hs))) as (f & lk & h1 & E1 & Hl & El & _). rewrite E1 in E. cbn [mbind option_bind] in E.
  assert (Hok : ok (set_nf_link n lk)) by (apply ok_set_link_same; [apply Hs|done|rewrite El; done..]).
  assert (Hd1 : drained n false (set_nf_link n lk)) by (apply drained_link; try done; by rewrite El).
  destruct (f <? 0).
  { destruct (conn_drop net _ h1) as [n2 h2] eqn:Ed. injection E as <- <- <-. eapply drained_carries, drained_dropped; [|exact Ed]. apply Hd1. }
  destruct (f =? 0); [injection E as <- <- <-; by eapply drained_carries|].
  destruct (pump_drain net _ c h1 owner) as [[[[stop n2] c2] h2]|] eqn:E2; [|done]. cbn [mbind option_bind] in E.
  destruct (pump_drain_carries _ _ _ _ _ _ _ _ Hcap (proj1 (proj2 Hd1)) Hfs E2) as [Hc2 Hd2].
  assert (Hup1 : nconn (set_nf_link n lk) = CONN_UP) by (rewrite (proj2 (proj2 Hd1)); done).
  destruct stop.
  { injection E as <- <- <-. eapply carries_trans; [eapply drained_carries, Hd1|by rewrite Hup1|done]. }
  destruct (pump_start net n2 c2 h2 owner) as [[n3 h3]|] eqn:E3; [|done]. cbn [mbind option_bind] in E. injection E as <- <- <-.
  assert (H02 := drained_trans _ _ _ _ Hd1 (Hd2 eq_refl)). destruct H02 as (Hg2 & Hs2 & Hcn2).
  eapply carries_trans; [split; [exact Hg2|right; split; [done|exact Hcn2]]|by rewrite Hcn2, Hup|]. intros _.
  eapply pump_start_carries; [done|congruence|exact E3].
Qed.
End Pump.

(** * The fids of a session are exactly accounted for

    The handshake, the pump and every entry point keep the session's invariant, so that from
    initialisation to the first lost connection each fid of the bitmap has exactly one holder.
    The last part shows what a reconnection does to it. *)

(** ** The handshake *)

Section Handshake.
Context {N : Type} (net : net_ops N) `{!LawfulNet net} (stage_buf : Z * Z).
Implicit Types (n m : netfs) (h : N).
Local Notation ok := (netfs_ok stage_buf).

(** The handshake moves the link, and clears the bitmap at most. *)
Definition silent n n' : Prop := exists lk b, n' = set_nf_link (set_nf_fid_bm n b) lk /\ (b = nf_fid_bm n \/ b = [0]).

(** One more session when it ends up, the same count otherwise. *)
Definition greets n n' : Prop :=
  silent n n' /\ (nconn n' <> CONN_UP /\ generation n' = generation n \/ nconn n' = CONN_UP /\ generation n' = u32 (generation n + 1)).

Lemma silent_link n lk : silent n (set_nf_link n lk).
Proof. exists lk, (nf_fid_bm n). split; [by destruct n|by left]. Qed.

Lemma silent_trans n m n' : silent n m -> silent m n' -> silent n n'.
Proof.
  intros (lk & b & -> & Hb) (lk' & b' & -> & Hb'). exists lk', b'. split; [done|]. destruct Hb' as [->|]; [exact Hb|by right].
Qed.

Lemma greets_link n lk : lk_conn lk <> CONN_UP -> lk_generation lk = generation n -> greets n (set_nf_link n lk).
Proof. intros Hc Hg. split; [apply silent_link|]. by left. Qed.

Lemma greets_refl n : nconn n <> CONN_UP -> greets n n.
Proof. intros Hc. split; [|by left]. exists (nf_link n), (nf_fid_bm n). split; [by destruct n|by left]. Qed.

Lemma greets_trans n m n' : greets n m -> nconn m <> CONN_UP -> greets m n' -> greets n n'.
Proof.
  intros [Hq [[_ Hg]|[Hc _]]] Hm [Hq' Hd]; [|done]. split; [by eapply silent_trans|]. rewrite Hg in Hd. done.
Qed.

Lemma greets_failed n m h now : greets n m -> nconn m <> CONN_UP -> greets n (conn_attempt_failed net m h now).1.
Proof. intros Hg Hc. eapply greets_trans; [done|done|]. by apply (greets_link m). Qed.

Lemma rx_consume_conn lk len : lk_conn (rx_consume lk len) = lk_conn lk /\ lk_generation (rx_consume lk len) = lk_generation lk.
Proof. unfold rx_consume. destruct (len =? 0); [done|]. by destruct (_ <=? _). Qed.

(** A handshake message written into the link. *)
Lemma greets_message n c st t n' :
  (n ← with_link n (msg_end (nf_link n) c); Some (set_deadline (set_conn n st) t)) = Some n' -> st <> CONN_UP -> greets n n' /\ nconn n' <> CONN_UP.
Proof.
  intros E Hst. unfold msg_end in E. destruct (put32 _ _) as [[tx o]|]; [|done]. cbn [mbind option_bind with_link] in E. injection E as <-.
  split; [by apply (greets_link n)|done].
Qed.

Lemma greets_version n now n' : conn_begin_version n now = Some n' -> greets n n' /\ nconn n' <> CONN_UP.
Proof.
  intros E. unfold conn_begin_version in E. destruct (msg_begin _ _ _); [|done]. cbn [mbind option_bind] in E. destruct (put32 _ _); [|done].
  cbn [mbind option_bind] in E. destruct (putstr _ _); [|done]. cbn [mbind option_bind] in E. by apply greets_message in E.
Qed.

Lemma greets_attach n now n' : conn_begin_attach n now = Some n' -> greets n n' /\ nconn n' <> CONN_UP.
Proof.
  intros E. unfold conn_begin_attach in E. destruct (msg_begin _ _ _); [|done]. cbn [mbind option_bind] in E. destruct (put32 _ P9_ROOT_FID); [|done].
  cbn [mbind option_bind] in E. destruct (put32 _ P9_NOFID); [|done]. cbn [mbind option_bind] in E. destruct (putstr _ _); [|done].
  cbn [mbind option_bind] in E. destruct (putstr _ _); [|done]. cbn [mbind option_bind] in E. destruct (put32 _ 0); [|done].
  cbn [mbind option_bind] in E. by apply greets_message in E.
Qed.

Lemma greets_established n now n' : nconn n <> CONN_UP -> conn_established n now = Some n' -> greets n n' /\ nconn n' <> CONN_UP.
Proof.
  intros Hc E. apply greets_version in E as [Hg Hc']. split; [|done]. eapply (greets_trans _ (buffers_clear (fids_clear n))); [|done|exact Hg].
  split; [|by left]. eexists _, [0]. split; [reflexivity|by right].
Qed.

Lemma greets_start n h now n' h' : nconn n <> CONN_UP -> conn_start net n h now = Some (n', h') -> greets n n' /\ nconn n' <> CONN_UP.
Proof.
  intros Hc E. unfold conn_start in E. assert (Hstay : Some (n, h) = Some (n', h') -> greets n n' /\ nconn n' <> CONN_UP) by (intros [= <- _]; split; [by apply greets_refl|done]).
  destruct (negb (mt_configured _)); [by apply Hstay|]. destruct (now <? _); [by apply Hstay|]. clear Hstay. cbv zeta in E.
  destruct (sock_open net h _ _ _) as [[rc sk] h1]. destruct (negb _); [injection E as <- <-; split; [by apply (greets_link n)|done]|].
  set (n2 := link_map (fun lk => set_lk_sk lk sk) _) in E. assert (H2 : greets n n2) by (by apply (greets_link n)).
  assert (Hc2 : nconn n2 <> CONN_UP) by exact Hc. clearbody n2.
  assert (Hfail : forall h, Some (conn_attempt_failed net n2 h now) = Some (n', h') -> greets n n' /\ nconn n' <> CONN_UP).
  { intros h0 E0. pose proof (greets_failed n n2 h0 now H2 Hc2) as Hg. unfold conn_attempt_failed, sock_drop in *. injection E0 as <- <-. split; [exact Hg|done]. }
  destruct (sock_set_nonblock net h1 sk 1) as [rc2 h2]. destruct (negb _); [by eapply Hfail|].
  destruct (sock_connect net h2 sk _ 0) as [rc3 h3]. destruct (_ =? LXP_ERR_TIMEOUT).
  { injection E as <- <-. split; [|done]. eapply greets_trans; [done|done|]. by apply (greets_link n2). }
  destruct (negb _); [by eapply Hfail|]. destruct (conn_established n2 now) as [n3|] eqn:E3; [|done]. injection E as <- <-.
  apply greets_established in E3 as [H3 Hc3]; [|done]. split; [by eapply greets_trans|done].
Qed.

(** One phase: it greets, and goes on only below the top. *)
Definition phase_greets n (x : option (bool * netfs * N)) : Prop :=
  forall more n' h', x = Some (more, n', h') -> greets n n' /\ (more = true -> nconn n' <> CONN_UP).

Lemma phase_greets_failed n m h now : greets n m -> nconn m <> CONN_UP -> phase_greets n (phase_stop (conn_attempt_failed net m h now)).
Proof. intros Hg Hc more n' h' [= <- <- <-]. split; [exact (greets_failed n m h now Hg Hc)|done]. Qed.

Lemma phase_greets_stay n m h : greets n m -> phase_greets n (phase_stop (m, h)).
Proof. intros Hg more n' h' [= <- <- <-]. done. Qed.

Lemma phase_send_greets n h now next : ok n -> nconn n <> CONN_UP -> next <> CONN_UP -> phase_greets n (phase_send net n h now next).
Proof.
  intros Hn Hc Hnext. unfold phase_send. destruct (tx_flush_ok net (nf_link n) h (ok_link _ _ Hn)) as (f & lk & h1 & -> & _ & El & _).
  cbn [mbind option_bind]. assert (H1 : greets n (set_nf_link n lk)) by (apply greets_link; by rewrite El).
  assert (Hc1 : nconn (set_nf_link n lk) <> CONN_UP) by (unfold nconn; cbn; by rewrite El).
  destruct (f <? 0); [by apply phase_greets_failed|]. destruct (f =? 0); [by apply phase_greets_stay|].
  intros more n' h' [= <- <- <-]. split; [|done]. eapply greets_trans; [exact H1|done|]. by apply (greets_link (set_nf_link n lk)).
Qed.

Lemma phase_recv_greets n h now k :
  ok n -> nconn n <> CONN_UP ->
  (forall m h' len type, greets n m -> nconn m <> CONN_UP -> phase_greets n (k m h' len type)) -> phase_greets n (phase_recv net n h now k).
Proof.
  intros Hn Hc Hk. unfold phase_recv. destruct (rx_fill_ok net (nf_link n) h (ok_link _ _ Hn)) as (f & lk & h1 & -> & _ & El & _).
  cbn [mbind option_bind]. assert (H1 : greets n (set_nf_link n lk)) by (apply greets_link; by rewrite El).
  assert (Hc1 : nconn (set_nf_link n lk) <> CONN_UP) by (unfold nconn; cbn; by rewrite El).
  destruct (f <? 0); [by apply phase_greets_failed|]. destruct (rx_message _) as [len|]; [|done]. cbn [mbind option_bind].
  destruct (len =? SIZE_MAX); [by apply phase_greets_failed|]. destruct (len =? 0); [by apply phase_greets_stay|].
  destruct (get8 _ 4) as [[type o]|]; [|done]. cbn [mbind option_bind]. by apply Hk.
Qed.

Lemma version_reply_greets n m h now len type : greets n m -> nconn m <> CONN_UP -> phase_greets n (version_reply net now m h len type).
Proof.
  intros Hg Hc. unfold version_reply. destruct (_ || _); [by apply phase_greets_failed|]. destruct (get32 _ 7) as [[sm o]|]; [|done].
  cbn [mbind option_bind]. set (msize := if sm <? _ then _ else _). set (m1 := link_map _ m).
  assert (H1 : greets n m1) by (eapply greets_trans; [done|done|by apply (greets_link m)]). assert (Hc1 : nconn m1 <> CONN_UP) by exact Hc. clearbody m1.
  destruct (_ <? 512); [by apply phase_greets_failed|]. destruct (rx_consume_conn (nf_link m1) len) as [R1 R2].
  set (m2 := link_map _ m1). assert (Hc2 : nconn m2 <> CONN_UP) by (unfold nconn; cbn; by rewrite R1).
  assert (H2 : greets n m2) by (eapply greets_trans; [done|done|apply (greets_link m1); [by rewrite R1|exact R2]]). clearbody m2.
  destruct (conn_begin_attach m2 now) as [m3|] eqn:E3; [|done]. apply greets_attach in E3 as [H3 Hc3]. intros more n' h' [= <- <- <-].
  split; [by eapply greets_trans|done].
Qed.

Lemma attach_reply_greets n m h now len type : greets n m -> nconn m <> CONN_UP -> phase_greets n (attach_reply net now m h len type).
Proof.
  intros Hg Hc. unfold attach_reply. destruct (negb _); [by apply phase_greets_failed|]. destruct (rx_consume_conn (nf_link m) len) as [R1 R2].
  apply phase_greets_stay. eapply greets_trans; [done|done|]. split; [apply (silent_link m)|]. right. split; [done|].
  unfold generation. cbn. by rewrite R2.
Qed.

Lemma conn_step_greets n h now : ok n -> nconn n <> CONN_UP -> phase_greets n (conn_step net n h now).
Proof.
  intros Hn Hc. unfold conn_step. assert (Hr := greets_refl n Hc). destruct (nconn n) eqn:Ec; [| | | | | |done].
  - by apply phase_greets_stay.
  - unfold phase_connecting. destruct (sock_poll net h _ _ _) as [[rc rev] h1]. destruct (negb _); [apply phase_greets_failed; congruence|].
    destruct (_ =? 0); [by apply phase_greets_stay|]. destruct (sock_get_error net h1 _) as [err h2]. destruct (negb _); [apply phase_greets_failed; congruence|].
    destruct (conn_established n now) as [n1|] eqn:E1; [|done]. apply greets_established in E1 as [H1 Hc1]; [|congruence].
    intros more n' h' [= <- <- <-]. done.
  - apply phase_send_greets; congruence.
  - apply phase_recv_greets; [done|congruence|]. intros. by apply version_reply_greets.
  - apply phase_send_greets; congruence.
  - apply phase_recv_greets; [done|congruence|]. intros. by apply attach_reply_greets.
Qed.

Lemma conn_steps_greets steps n h now n' h' : ok n -> nconn n <> CONN_UP -> conn_steps net steps n h now = Some (n', h') -> greets n n'.
Proof.
  revert n h. induction steps as [|steps IH]; intros n h Hn Hc E; cbn [conn_steps] in E; [injection E as <- <-; by apply greets_refl|].
  destruct (conn_step_ok net stage_buf n h now Hn) as (more & n1 & h1 & E1 & Hn1). rewrite E1 in E. cbn [mbind option_bind] in E.
  destruct (conn_step_greets n h now Hn Hc _ _ _ E1) as [H1 Hm]. destruct more; [|by injection E as <- <-].
  eapply greets_trans; [done|by apply Hm|]. eapply IH; [done|by apply Hm|exact E].
Qed.

Lemma conn_advance_greets n h now n' h' : ok n -> nconn n <> CONN_UP -> conn_advance net n h now = Some (n', h') -> greets n n'.
Proof.
  intros Hn Hc E. unfold conn_advance in E.
  destruct (if decide (nconn n = CONN_DOWN) then conn_start net n h now else Some (n, h)) as [[n1 h1]|] eqn:E1; [|done]. cbn [mbind option_bind] in E.
  assert (H1 : greets n n1 /\ nconn n1 <> CONN_UP /\ ok n1).
  { destruct (decide (nconn n = CONN_DOWN)).
    - destruct (conn_start_ok net stage_buf n h now Hn) as (n2 & h2 & E2 & Hn2). rewrite E1 in E2. injection E2 as <- <-.
      by apply greets_start in E1 as [? ?].
    - injection E1 as <- <-. split; [by apply greets_refl|done]. }
  destruct H1 as (H1 & Hc1 & Hn1). destruct (decide (nconn n1 = CONN_DOWN)); [by injection E as <- <-|].
  destruct (_ && _); [|eapply greets_trans; [done|done|by eapply conn_steps_greets]].
  pose proof (greets_failed n n1 h1 now H1 Hc1) as Hg. unfold conn_attempt_failed, sock_drop in *. by injection E as <- <-.
Qed.

(** With nothing held, a greeting keeps the session. *)
Lemma sess_greets n n' : sess stage_buf n -> nconn n <> CONN_UP -> ok n' -> greets n n' -> sess stage_buf n'.
Proof.
  intros [Hsh [_ Hex] Hd] Hc Hok [(lk & b & -> & Hb) _]. specialize (Hd Hc). set (n' := set_nf_link _ _) in *.
  assert (Hh : held n' = []) by exact Hd. split.
  - destruct Hsh. by split.
  - split; [rewrite Hh; constructor|]. intros f. rewrite Hh. split; [by intros ?%elem_of_nil|]. intros [Hf Hu]. exfalso.
    destruct Hb as [-> | ->].
    + assert (Hin : f ∈ held n) by (apply Hex; done). rewrite Hd in Hin. by apply elem_of_nil in Hin.
    + rewrite fid_used_bit in Hu by (unfold NETFS_NFID in *; lia). cbn in Hu. by rewrite Z.bits_0 in Hu.
  - done.
Qed.
End Handshake.

(** ** Pools changing between calls *)

Section Pools.
Context (stage_buf : Z * Z).
Implicit Types (n m : netfs) (r : netfs_req).
Local Notation ok := (netfs_ok stage_buf).
Local Notation sess := (sess stage_buf).

(** No finished request is left uncollected. *)
Definition settled n : Prop := forall i, 0 <= i < NETFS_NREQ -> rq_state (req_at n i) <> REQ_DONE.

(** No request that is queued, on the wire or finished opens [oi]. *)
Definition unopened n (oi : Z) : Prop := forall i, 0 <= i < NETFS_NREQ -> rq_state (req_at n i) <> REQ_FREE -> opens_at n i oi -> False.

Lemma shape_core n m : shape stage_buf n -> nf_core m = nf_core n -> ok m -> shape stage_buf m.
Proof.
  intros [] Hcore Hok. pose proof (core_fields _ _ Hcore) as (_ & _ & Eo & Er & _).
  assert (Ho : forall j, open_at m j = open_at n j) by (intros; unfold open_at; by rewrite Eo).
  assert (Hr : forall j, req_at m j = req_at n j) by (intros; by apply core_req_at). split; [done|..].
  - intros j. rewrite Ho. apply sh_fresh.
  - intros j. rewrite Hr, Ho. apply sh_resv.
  - intros j k oi. unfold opens_at. rewrite !Hr. apply sh_uniq.
  - intros j. rewrite Hr. apply sh_live.
Qed.

Lemma sess_seq n s : sess n -> sess (set_nf_req_seq n s).
Proof. intros Hs. apply (sess_exec stage_buf n); try done. by destruct (se_ok _ _ Hs). Qed.

Lemma free_rfid r : rq_state r = REQ_FREE -> rfid r = [].
Proof. intros E. unfold rfid, is_live. by rewrite E. Qed.

(** What a request is when it is queued. *)
Definition queued r : Prop := rq_state r = REQ_QUEUED /\ rq_step r = 0 /\ rq_fid r <= 0.

Lemma queued_live r : queued r -> live_ok r.
Proof. intros (_ & Hs & Hf). split; [done|]. split; [done|]. rewrite Hs. lia. Qed.

Lemma queued_rfid r : queued r -> rfid r = [].
Proof. intros (_ & _ & Hf). unfold rfid. destruct (Z.gtb_spec (rq_fid r) 0); [lia|]. by rewrite andb_false_r. Qed.

(** A free slot takes a request that opens nothing. *)
Lemma sess_submit n i r0 s r :
  sess n -> 0 <= i < NETFS_NREQ -> rq_state (req_at n i) = REQ_FREE -> ok (put_req (set_nf_req_seq (put_req n i r0) s) i r) ->
  queued r -> rq_op r <> LXP_NETFSW_OPEN -> sess (put_req (set_nf_req_seq (put_req n i r0) s) i r).
Proof.
  intros Hs Hi Hst Hok Hq Hop.
  assert (Eq : put_req (set_nf_req_seq (put_req n i r0) s) i r = set_nf_req_seq (put_req n i r) s) by (unfold put_req; cbn; by rewrite aset_aset).
  rewrite Eq in *. apply sess_seq, sess_put_req; try done.
  - by destruct Hok.
  - by rewrite (queued_rfid r Hq), free_rfid.
  - intros _. by apply queued_live.
Qed.

(** A free slot takes the request that opens the open [oi] just reserved. *)
Lemma shape_new_open n i r :
  shape stage_buf n -> 0 <= i < NETFS_NREQ -> ok (put_req n i r) -> queued r -> unopened n (rq_oi r) ->
  no_used (open_at n (rq_oi r)) = true -> no_fid (open_at n (rq_oi r)) = 0 -> shape stage_buf (put_req n i r).
Proof.
  intros Hs Hi Hok Hq Hun Hu Hf. assert (Hlen : alen (nf_req n) = NETFS_NREQ) by apply Hs.
  assert (Hat : forall j, 0 <= j < NETFS_NREQ -> req_at (put_req n i r) j = if decide (i = j) then r else req_at n j)
    by (intros j Hj; rewrite req_at_put by lia; done).
  destruct Hs. split; try done.
  - intros j Hj. rewrite Hat by done. case_decide as E; [done|by apply sh_resv].
  - intros j k oi Hj Hk Hne. rewrite !Hat by done. unfold opens_at. rewrite !Hat by done.
    case_decide as Ej; case_decide as Ek; [lia| | |].
    + intros _ Hsk [_ <-] Ho. by apply (Hun k).
    + intros Hsj _ Ho [_ <-]. by apply (Hun j).
    + intros. by eapply (sh_uniq j k oi).
  - intros j Hj. rewrite Hat by done. case_decide as E; [intros _; by apply queued_live|by apply sh_live].
Qed.

Lemma sess_open_submit n i oi r0 s r :
  sess n -> settled n -> 0 <= i < NETFS_NREQ -> 0 <= oi < NETFS_NOPEN -> rq_state (req_at n i) = REQ_FREE -> no_used (open_at n oi) = false ->
  ok (put_req (put_open (set_nf_req_seq (put_req n i r0) s) oi (set_no_used nopen_zero true)) i r) -> queued r -> rq_oi r = oi ->
  sess (put_req (put_open (set_nf_req_seq (put_req n i r0) s) oi (set_no_used nopen_zero true)) i r).
Proof.
  intros Hs Hset Hi Hoi Hst Hfr Hok Hq Er. set (op := set_no_used nopen_zero true) in *.
  assert (Hlo : alen (nf_open n) = NETFS_NOPEN) by apply Hs. assert (Hlr : alen (nf_req n) = NETFS_NREQ) by apply Hs.
  set (m := put_open n oi op).
  assert (Eq : put_req (put_open (set_nf_req_seq (put_req n i r0) s) oi op) i r = set_nf_req_seq (put_req m i r) s)
    by (unfold m, put_req, put_open; cbn; by rewrite aset_aset).
  rewrite Eq in *.
  assert (Hun : unopened n oi).
  { intros j Hj Hns [Hop Hoij]. destruct (is_live (req_at n j)) eqn:Hlv.
    - destruct (sh_resv _ _ (se_shape _ _ Hs) j Hj Hlv Hop) as [Hu _]. rewrite Hoij in Hu. congruence.
    - specialize (Hset j Hj). unfold is_live in Hlv. destruct (rq_state (req_at n j)); done. }
  assert (Hm : sess m).
  { assert (Hh : held m ≡ₚ held n).
    { pose proof (held_put_open n oi op ltac:(lia)) as E. unfold ofid in E. rewrite Hfr in E. cbn in E. by rewrite !app_nil_r in E. }
    assert (Hres : forall j, 0 <= j < NETFS_NREQ -> is_live (req_at n j) = true -> opens_at n j oi -> no_used op = true /\ no_fid op = 0) by done.
    split; [exact (shape_put_open stage_buf n oi op (se_shape _ _ Hs) Hoi (fun _ => eq_refl) Hres)|eapply exact_same; [apply Hs|exact Hh|done]|].
    intros Hd. rewrite (se_down _ _ Hs Hd) in Hh. by apply Permutation_nil_r. }
  apply sess_seq. assert (Hh : held (put_req m i r) ≡ₚ held m).
  { pose proof (held_put_req m i r) as E. change (req_at m i) with (req_at n i) in E. rewrite (queued_rfid r Hq), free_rfid, !app_nil_r in E by done.
    apply E. change (nf_req m) with (nf_req n). lia. }
  assert (Hop : open_at m oi = op) by (apply open_at_put_eq; lia).
  split; [|eapply exact_same; [apply Hm|exact Hh|done]|].
  - apply shape_new_open; rewrite ?Er, ?Hop; try done; [apply Hm|by destruct Hok].
  - intros Hd. rewrite (se_down _ _ Hm Hd) in Hh. by apply Permutation_nil_r.
Qed.

Lemma sess_free_slot n i r :
  sess n -> 0 <= i < NETFS_NREQ -> is_live (req_at n i) = false -> is_live r = false -> ok (put_req n i r) -> rq_state r = REQ_FREE -> sess (put_req n i r).
Proof. intros Hs Hi Hl Hlr Hok Hst. apply sess_put_req; try done; [by rewrite !not_live_rfid|congruence]. Qed.

(** ** Closing and cancelling *)

Lemma ofid_in_held n oi f : 0 <= oi < alen (nf_open n) -> ofid (open_at n oi) = [f] -> f ∈ held n.
Proof.
  intros Hi E. unfold held. apply elem_of_app. left. apply list_elem_of_In, in_concat. exists [f].
  split; [|by left]. rewrite <- E. apply in_map. unfold open_at. apply list_elem_of_In. eapply list_elem_of_lookup_2. by apply lookup_aget.
Qed.

(** What a clunk does to the holders and the bitmap: the fid is queued, or freed when the
    queue is full. *)
Lemma enqueue_cases n f :
  ok n -> 0 < f < NETFS_NFID ->
  held (clunk_enqueue n f) ≡ₚ f :: held n /\ (forall g, fid_used (clunk_enqueue n f) g = fid_used n g) \/
  held (clunk_enqueue n f) = held n /\ (forall g, 0 < g < NETFS_NFID -> fid_used (clunk_enqueue n f) g = fid_used n g && negb (f =? g)).
Proof.
  intros Hn Hf. destruct (ok_clunk _ _ Hn) as (Hc1 & Hc2 & Hc3).
  destruct (decide ((nf_clunk_tail n + 1) mod NETFS_NCLUNK = nf_clunk_head n)) as [Hfull|Hroom].
  - right. assert (Ef : clunk_enqueue n f = fid_free n f).
    { unfold clunk_enqueue. destruct (Z.leb_spec f 0); [lia|]. by rewrite Hfull, Z.eqb_refl. }
    rewrite Ef. split; [apply held_fid_free|]. intros g Hg. apply fid_used_free; [apply Hn|done|done].
  - left. split; [apply held_enqueue; (done || lia)|]. intros g. unfold clunk_enqueue. destruct (Z.leb_spec f 0); [lia|].
    by destruct (Z.eqb_spec ((nf_clunk_tail n + 1) mod NETFS_NCLUNK) (nf_clunk_head n)).
Qed.

(** An open that no request is opening is closed. *)
Lemma sess_close n oi : sess n -> unopened n oi -> sess (lxp_netfs_close n oi).
Proof.
  intros Hs Hun. pose proof (netfs_close_ok stage_buf n oi (se_ok _ _ Hs)) as Hok. revert Hok. unfold lxp_netfs_close, open_slot.
  destruct (Z.ltb_spec oi 0); [done|]. rewrite Z.geb_leb. destruct (Z.leb_spec NETFS_NOPEN oi); [done|].
  destruct (no_used (open_at n oi)) eqn:Hu; [|done]. cbn [orb negb]. assert (Hoi : 0 <= oi < NETFS_NOPEN) by lia.
  assert (Hlo : alen (nf_open n) = NETFS_NOPEN) by apply Hs. rewrite (sh_fresh _ _ (se_shape _ _ Hs) oi Hoi Hu). cbn [negb andb].
  set (op := set_no_used (open_at n oi) false). set (f := no_fid (open_at n oi)).
  assert (Hres : forall m, nf_core m = nf_core n -> forall j, 0 <= j < NETFS_NREQ -> is_live (req_at m j) = true -> opens_at m j oi -> no_used op = true /\ no_fid op = 0).
  { intros m Hc j Hj. unfold opens_at. rewrite (core_req_at _ _ j Hc). intros Hlv Ho. by destruct (Hun j Hj (live_not_free _ Hlv) Ho). }
  destruct (Z.gtb_spec f 0) as [Hf|Hf].
  2:{ intros _. rewrite fid_free_none by done. apply sess_release_open; try done; [unfold ofid; rewrite Hu; cbn [andb]; by destruct (Z.gtb_spec (no_fid (open_at n oi)) 0); [lia|]|].
      intros j Hj Hlv Ho. by apply (Hun j Hj (live_not_free _ Hlv)). }
  intros Hok. assert (Eo : ofid (open_at n oi) = [f]) by (unfold ofid; rewrite Hu; cbn [andb]; by destruct (Z.gtb_spec (no_fid (open_at n oi)) 0); [|lia]).
  assert (Hin := ofid_in_held n oi f ltac:(lia) Eo). assert (Hr : 0 < f < NETFS_NFID) by (by apply (se_exact _ _ Hs)).
  assert (Hcore := core_clunk_enqueue n f). pose proof (core_fields _ _ Hcore) as (_ & El & Eop & _). assert (Hokm := ok_clunk_enqueue stage_buf n f (se_ok _ _ Hs)).
  pose proof (held_put_open (clunk_enqueue n f) oi op) as Eh. rewrite Eop in Eh. specialize (Eh ltac:(lia)).
  assert (Eat : open_at (clunk_enqueue n f) oi = open_at n oi) by (unfold open_at; by rewrite Eop).
  rewrite Eat, Eo in Eh. change (ofid op) with (@nil Z) in Eh. rewrite app_nil_r in Eh.
  split; [apply shape_put_open; try done; [by apply (shape_core n); [apply Hs|..]|by apply Hres]| |].
  - destruct (enqueue_cases n f (se_ok _ _ Hs) Hr) as [[Hh Hb]|[Hh Hb]]; rewrite Hh in Eh.
    + eapply exact_same; [apply Hs| |exact Hb]. rewrite Permutation_app_comm in Eh. by eapply Permutation_cons_inv.
    + eapply exact_drop; [apply Hs| |exact Hb]. by rewrite <- Eh, Permutation_app_comm.
  - intros Hd. exfalso. change (nconn (put_open ?a ?b ?c)) with (nconn a) in Hd. unfold nconn in Hd. rewrite El in Hd.
    rewrite (se_down _ _ Hs Hd) in Hin. by apply elem_of_nil in Hin.
Qed.
End Pools.

(** ** Entry points *)

Section Entries.
Context {H N B : Type} `{FileOps B} (net : net_ops N) `{!LawfulNet net} (stage_buf : Z * Z).
Implicit Types (n m : netfs) (c : coord H) (h : N).
Local Notation ok := (netfs_ok stage_buf).
Local Notation sess := (sess stage_buf).

(** A request that is not queued leaves the session as it was. *)
Lemma sess_req_new tus n c p op : sess n ->
  let '(x, n', _) := req_new tus n c p op in
  match x with
  | None => sess n'
  | Some i => 0 <= i < NETFS_NREQ /\ rq_state (req_at n i) = REQ_FREE /\
      exists owner, n' = set_nf_req_seq (put_req n i (fresh_req n op owner)) (u32 (nf_req_seq n + 1))
  end.
Proof.
  intros Hs. pose proof (req_new_spec stage_buf tus n c p op (se_ok _ _ Hs)) as Hnew. revert Hnew. unfold req_new.
  destruct (lxp_guest_view_slot _ _) as [|owner]; [done|]. destruct (List.find _ _) as [i|] eqn:Ef; [|done].
  apply find_some in Ef as [Ei Es]. apply list_elem_of_In, elem_of_seqZ in Ei. apply bool_decide_eq_true in Es.
  destruct (lxp_wait_begin _ _ _) as [rc pr]. destruct (negb _).
  - intros [Hok _]. set (r := set_rq_state _ REQ_FREE) in *.
    assert (Eq : forall r0 s, put_req (set_nf_req_seq (put_req n i r0) s) i r = set_nf_req_seq (put_req n i r) s) by (intros; unfold put_req; cbn; by rewrite aset_aset).
    rewrite Eq in *. apply sess_seq, sess_free_slot; try done; try lia; [unfold is_live; by rewrite Es|by destruct Hok].
  - intros (Hi & _ & Hst & o & _ & Eq). eauto.
Qed.

Lemma sess_open tus n c p path flags : sess n -> settled n -> sess (lxp_netfs_open tus n c p path flags).1.2.
Proof.
  intros Hs Hset. pose proof (netfs_open_ok stage_buf tus n c p path flags (se_ok _ _ Hs)) as Hok. revert Hok. unfold lxp_netfs_open.
  destruct (has _ _); [done|]. destruct (_ >=? _); [done|]. destruct (List.find _ _) as [oi|] eqn:Eo; [|done].
  apply find_some in Eo as [Eo Eu]. apply list_elem_of_In, elem_of_seqZ in Eo. apply negb_true_iff in Eu.
  pose proof (sess_req_new tus n c p LXP_NETFSW_OPEN Hs) as Hnew. destruct (req_new tus n c p _) as [[[i|] n1] c1]; [|done].
  destruct Hnew as (Hi & Hst & owner & ->). cbn [fst snd]. change (req_at (put_open ?m ?a ?b) i) with (req_at m i).
  rewrite (submit_req_at stage_buf) by (done || apply Hs). intros Hok. by apply sess_open_submit.
Qed.

(** The other requests. *)
Lemma sess_read tus n c p oi ubuf len : sess n -> sess (lxp_netfs_read tus n c p oi ubuf len).1.2.
Proof.
  intros Hs. pose proof (netfs_read_ok stage_buf tus n c p oi ubuf len (se_ok _ _ Hs)) as Hok. revert Hok. unfold lxp_netfs_read.
  destruct (open_slot n oi) as [op|]; [|done]. destruct (no_stale op); [done|]. destruct (no_is_dir op); [done|]. destruct (len =? 0); [done|]. destruct (negb _); [done|].
  pose proof (sess_req_new tus n c p LXP_NETFSW_READ Hs) as Hnew. destruct (req_new tus n c p _) as [[[i|] n1] c1]; [|done].
  destruct Hnew as (Hi & Hst & owner & ->). cbn [fst snd]. rewrite (submit_req_at stage_buf) by (done || apply Hs). intros Hok. by apply sess_submit.
Qed.

Lemma sess_getdents tus n c p oi ubuf cap is64 : sess n -> sess (lxp_netfs_getdents tus n c p oi ubuf cap is64).1.2.
Proof.
  intros Hs. pose proof (netfs_getdents_ok stage_buf tus n c p oi ubuf cap is64 (se_ok _ _ Hs)) as Hok. revert Hok. unfold lxp_netfs_getdents.
  destruct (open_slot n oi) as [op|]; [|done]. destruct (no_stale op); [done|]. destruct (negb (no_is_dir op)); [done|]. destruct (negb _); [done|].
  pose proof (sess_req_new tus n c p LXP_NETFSW_GETDENTS Hs) as Hnew. destruct (req_new tus n c p _) as [[[i|] n1] c1]; [|done].
  destruct Hnew as (Hi & Hst & owner & ->). cbn [fst snd]. rewrite (submit_req_at stage_buf) by (done || apply Hs). intros Hok. by apply sess_submit.
Qed.

Lemma sess_stat tus n c p path ustat kind : sess n -> sess (lxp_netfs_stat tus n c p path ustat kind).1.2.
Proof.
  intros Hs. pose proof (netfs_stat_ok stage_buf tus n c p path ustat kind (se_ok _ _ Hs)) as Hok. revert Hok. unfold lxp_netfs_stat.
  destruct (_ >=? _); [done|].
  pose proof (sess_req_new tus n c p LXP_NETFSW_STAT Hs) as Hnew. destruct (req_new tus n c p _) as [[[i|] n1] c1]; [|done].
  destruct Hnew as (Hi & Hst & owner & ->). cbn [fst snd]. rewrite (submit_req_at stage_buf) by (done || apply Hs). intros Hok. by apply sess_submit.
Qed.

Lemma sess_access tus n c p path mode : sess n -> sess (lxp_netfs_access tus n c p path mode).1.2.
Proof. intros Hs. unfold lxp_netfs_access. destruct (has mode 2); [done|by apply sess_stat]. Qed.

Lemma sess_exec_fetch tus n c st p path : sess n -> sess (lxp_netfs_exec_fetch stage_buf tus n c st p path).1.1.2.
Proof.
  intros Hs. pose proof (netfs_exec_fetch_ok stage_buf tus n c st p path (se_ok _ _ Hs)) as Hok. revert Hok. unfold lxp_netfs_exec_fetch.
  destruct (_ >=? _); [done|]. destruct (lxp_exec_stage_claim _ _ _ _) as [claimed st'].
  destruct (claimed <? 0); [intros Hok; by apply (sess_exec stage_buf n)|].
  set (n1 := set_nf_exec_size _ 0). assert (Hs1 : sess n1) by (apply (sess_exec stage_buf n); try done; apply ok_exec_claim, Hs).
  pose proof (sess_req_new tus n1 c p LXP_NETFSW_EXECFETCH Hs1) as Hnew. destruct (req_new tus n1 c p _) as [[[i|] n2] c1]; [|done].
  destruct Hnew as (Hi & Hst & owner & ->). cbn [fst snd]. rewrite (submit_req_at stage_buf) by (done || apply Hs1). intros Hok. by apply sess_submit.
Qed.

Lemma sess_lseek n oi off whence : sess n -> sess (lxp_netfs_lseek n oi off whence).2.
Proof.
  intros Hs. unfold lxp_netfs_lseek, open_slot. destruct (Z.ltb_spec oi 0); [done|]. rewrite Z.geb_leb. destruct (Z.leb_spec NETFS_NOPEN oi); [done|].
  destruct (negb _); [done|]. cbn [orb]. destruct (no_is_dir _); [done|]. cbv zeta. destruct (_ || _); [done|]. destruct (_ <? 0); [done|].
  apply sess_put_open; try done; lia.
Qed.

(** A request that waits or is on the wire is cancelled. *)
Lemma sess_cancel n c p n' c' :
  sess n -> settled n -> rq_state (req_at n (io_request (p_wait (cproc c p)))) <> REQ_FREE -> lxp_netfs_cancel n c p = Some (n', c') -> sess n'.
Proof.
  intros Hs Hset Hnf E. unfold lxp_netfs_cancel in E. assert (Hstay : forall c0, Some (n, c0) = Some (n', c') -> sess n') by (by intros c0 [= <- _]).
  destruct (lxp_guest_view_slot _ _) as [|owner]; [cbn [orb] in E; eapply Hstay, E|]. cbv zeta in E. case_bool_decide as Hw; [|change (-1 <? 0) with true in E; cbn [orb] in E; eapply Hstay, E].
  set (ri := io_request _) in *. destruct (Z.ltb_spec ri 0); [cbn [orb] in E; eapply Hstay, E|]. rewrite Z.geb_leb in E.
  destruct (Z.leb_spec NETFS_NREQ ri); [cbn [orb] in E; eapply Hstay, E|]. cbn [orb] in E. assert (Hi : 0 <= ri < NETFS_NREQ) by lia. clearbody ri. clear Hw Hstay.
  destruct (negb _); [by injection E as <- _|]. set (r0 := req_at n ri) in *. set (r := set_rq_ubuf _ 0) in *.
  assert (Hlen : alen (nf_req n) = NETFS_NREQ) by apply Hs. assert (Hreq := ok_req_at stage_buf n ri (se_ok _ _ Hs) Hi). fold r0 in Hreq.
  assert (Hlv : is_live r0 = true) by (specialize (Hset ri Hi); fold r0 in Hset; unfold is_live; destruct (rq_state r0); done).
  assert (Hin : nf_inflight n = ri -> rq_state r0 = REQ_INFLIGHT) by (intros Ei; destruct (ok_inflight _ _ (se_ok _ _ Hs)) as [?|[_ Hst]]; [lia|by rewrite Ei in Hst]).
  case_bool_decide as Hfl.
  { injection E as <- _. apply sess_put_req; try done.
    - apply ok_put_req; [apply Hs|done|by eapply req_ok_same|exact Hin].
    - intros _. exact (sh_live _ _ (se_shape _ _ Hs) ri Hi Hlv). }
  change (rq_state r) with (rq_state r0) in Hfl. assert (Hst : rq_state r0 = REQ_QUEUED) by (apply live_state in Hlv as [?|?]; done).
  destruct (sh_live _ _ (se_shape _ _ Hs) ri Hi Hlv) as (L1 & _ & _). destruct (L1 Hst) as [_ Hfid]. fold r0 in Hfid. change (rq_fid r) with (rq_fid r0) in E.
  destruct (Z.gtb_spec (rq_fid r0) 0); [lia|]. set (rf := set_rq_state _ REQ_FREE) in E.
  assert (Hs1 : sess (put_req n ri rf)).
  { apply sess_put_req; try done.
    - apply ok_put_req; [apply Hs|done|by eapply req_ok_free|]. intros Ei. specialize (Hin Ei). done.
    - fold r0. unfold rfid. rewrite Hlv. cbn. by destruct (Z.gtb_spec (rq_fid r0) 0); [lia|]. }
  change (rq_op r) with (rq_op r0) in E. change (rq_oi r) with (rq_oi r0) in E.
  destruct ((rq_op r0 =? LXP_NETFSW_OPEN) && _) eqn:Eop; cbn [mbind option_bind] in E.
  2:{ injection E as <- _. assert (Eq : put_req (put_req n ri r) ri rf = put_req n ri rf) by (unfold put_req; cbn; by rewrite aset_aset). by rewrite Eq. }
  apply andb_prop in Eop as [Eop _]. apply Z.eqb_eq in Eop. destruct (sh_resv _ _ (se_shape _ _ Hs) ri Hi Hlv Eop) as [_ Hf0]. fold r0 in Hf0.
  assert (Hoi : 0 <= rq_oi r0 < NETFS_NOPEN) by (by apply (req_live _ _ _ Hreq)).
  unfold open_release in E. rewrite (proj2 (Z.leb_le 0 _)), (proj2 (Z.ltb_lt (rq_oi r0) _)) in E by lia. cbn [andb mbind option_bind] in E. injection E as <- _.
  set (op := set_no_used _ false).
  assert (Eq : put_req (put_open (put_req n ri r) (rq_oi r0) op) ri rf = put_open (put_req n ri rf) (rq_oi r0) op) by (unfold put_req, put_open; cbn; by rewrite aset_aset).
  rewrite Eq. apply sess_release_open; try done.
  - change (open_at (put_req n ri rf) ?o) with (open_at n o). unfold ofid. rewrite Hf0. by rewrite andb_false_r.
  - intros j Hj Hlj [Hopj Hoij]. rewrite req_at_put in * by lia. case_decide as Ej; [done|].
    apply (sh_uniq _ _ (se_shape _ _ Hs) ri j (rq_oi r0)); try done. by apply live_not_free.
Qed.

(** ** Until the first lost connection *)

(** The call ends with the connection up, or has not brought one up. *)
Definition keeps_session n n' : Prop := nconn n' = CONN_UP \/ nconn n <> CONN_UP /\ generation n' = generation n.

Lemma u32_succ_ne g : u32 (g + 1) <> g.
Proof. unfold u32. intros E. pose proof (Z.mod_pos_bound (g + 1) (2 ^ 32) ltac:(lia)). lia. Qed.

Lemma sess_pump n c h owner now n' c' h' :
  0 <= stage_buf.2 < 2 ^ 32 -> sess n -> (forall p, owner = Some p -> p_fs_context (cproc c p) <> None) ->
  pump net n c h owner now = Some (n', c', h') -> keeps_session n n' -> sess n'.
Proof.
  intros Hcap Hs Hfs E Hk.
  assert (Hup : forall m h, sess m -> nconn m = CONN_UP -> pump net m c h owner now = Some (n', c', h') -> nconn n' <> CONN_DOWN -> sess n').
  { intros m h0 Hm Hu Em Hne. destruct (pump_up_carries net stage_buf m c h0 owner now n' c' h' Hcap Hm Hu Hfs Em) as [_ [?|[? _]]]; done. }
  destruct (decide (nconn n = CONN_UP)) as [Hu|Hu].
  { eapply Hup; [exact Hs|done|exact E|]. destruct Hk as [->|[? _]]; done. }
  pose proof E as E0. unfold pump in E. rewrite decide_False in E by done.
  destruct (conn_advance_ok net stage_buf n h now (se_ok _ _ Hs)) as (n1 & h1 & E1 & Hn1). rewrite E1 in E. cbn [mbind option_bind] in E.
  pose proof (conn_advance_greets net stage_buf n h now n1 h1 (se_ok _ _ Hs) Hu E1) as Hg. assert (Hs1 := sess_greets stage_buf n n1 Hs Hu Hn1 Hg).
  case_bool_decide as Hu1; cbn [negb] in E; [|by injection E as <- _ _].
  assert (E2 : pump net n1 c h1 owner now = Some (n', c', h')).
  { unfold pump. rewrite decide_True by done. cbn [mbind option_bind]. rewrite bool_decide_true by done. exact E. }
  eapply Hup; [exact Hs1|done|exact E2|]. destruct Hk as [->|[_ Hgen]]; [done|]. intros _.
  destruct (pump_up_carries net stage_buf n1 c h1 owner now n' c' h' Hcap Hs1 Hu1 Hfs E2) as [Hg2 _].
  destruct Hg as [_ [[? _]|[_ Hg1]]]; [done|]. apply (u32_succ_ne (generation n)). congruence.
Qed.

Lemma close_link n oi : nf_link (lxp_netfs_close n oi) = nf_link n.
Proof.
  unfold lxp_netfs_close. destruct (open_slot n oi) as [op|]; [|done]. cbn. destruct (_ && _).
  - by pose proof (core_fields _ _ (core_clunk_enqueue n (no_fid op))) as (_ & -> & _).
  - by pose proof (core_fields _ _ (core_fid_free n (no_fid op))) as (_ & -> & _).
Qed.

(** A finished request is collected. *)
Lemma sess_finished n c (b : B) st p i rc n' c' b' st' :
  sess n -> 0 <= i < NETFS_NREQ -> rq_state (req_at n i) = REQ_DONE -> retry_finish n c b st p i = (rc, n', c', b', st') -> sess n' /\ nf_link n' = nf_link n.
Proof.
  intros Hs Hi Hst E. unfold retry_finish in E. cbv zeta in E. assert (Hlen : alen (nf_req n) = NETFS_NREQ) by apply Hs.
  set (r := set_rq_state (req_at n i) REQ_FREE) in *.
  assert (Hs1 : sess (put_req n i r)).
  { apply sess_free_slot; try done; [unfold is_live; by rewrite Hst|]. apply ok_put_req; [apply Hs|done| |].
    - eapply req_ok_free; [by apply (ok_req_at stage_buf n i (se_ok _ _ Hs))|done..].
    - intros Ei. exfalso. destruct (ok_inflight _ _ (se_ok _ _ Hs)) as [?|[_ E2]]; [lia|]. rewrite Ei, Hst in E2. done. }
  assert (Hstay : n' = put_req n i r -> sess n' /\ nf_link n' = nf_link n) by (by intros ->).
  destruct ((rq_op (req_at n i) =? LXP_NETFSW_OPEN) && _) eqn:Eop.
  - apply andb_prop in Eop as [Eop _]. apply Z.eqb_eq in Eop. destruct (lxp_fd_install _ _ _ _ _ _) as [[fd k] b1].
    destruct (fd <? 0); injection E as <- <- <- <- <-; [|by apply Hstay]. split; [|by rewrite close_link]. apply sess_close; [done|].
    intros j Hj Hns [Hopj Hoij]. rewrite req_at_put in * by lia. case_decide as Ej; [done|].
    apply (sh_uniq _ _ (se_shape _ _ Hs) i j (rq_oi (req_at n i))); try done. by rewrite Hst.
  - clear Eop. destruct (_ && _); [|injection E as <- <- <- <- <-; by apply Hstay].
    destruct (negb _); [injection E as <- <- <- <- <-; by apply Hstay|]. destruct (lxp_intent_begin _ _) as [rc1 pr].
    destruct (negb _); injection E as <- <- <- <- <-; by apply Hstay.
Qed.

Lemma sess_retry tus n c h (b : B) st p rc n' c' h' b' st' :
  0 <= stage_buf.2 < 2 ^ 32 -> sess n -> p_fs_context (cproc c p) <> None ->
  lxp_netfs_retry net tus n c h b st p = Some (rc, n', c', h', b', st') -> keeps_session n n' -> sess n'.
Proof.
  intros Hcap Hs Hfs E Hk. unfold lxp_netfs_retry in E.
  assert (Hstay : forall rc0, Some (rc0, n, c, h, b, st) = Some (rc, n', c', h', b', st') -> sess n') by (intros rc0 E0; by injection E0 as _ <- _ _ _ _).
  destruct (negb _); [by eapply Hstay|]. destruct (lxp_guest_view_slot _ _) as [|owner]; [by eapply Hstay|]. cbv zeta in E. set (ri := io_request _) in *.
  destruct (Z.ltb_spec ri 0); [cbn [orb] in E; eapply Hstay, E|]. rewrite Z.geb_leb in E.
  destruct (Z.leb_spec NETFS_NREQ ri); [cbn [orb] in E; eapply Hstay, E|]. cbn [orb] in E. destruct (negb _); [by eapply Hstay|].
  destruct (pump net n c h (Some p) _) as [[[n1 c1] h1]|] eqn:E1; [|done]. cbn [mbind option_bind] in E.
  assert (Hp : keeps_session n n1 -> sess n1) by (intros Hk1; eapply sess_pump; [done|exact Hs| |exact E1|done]; by intros q [= <-]).
  case_bool_decide as Hd; cbn [negb] in E; [|injection E as _ <- _ _ _ _; by apply Hp].
  destruct (retry_finish n1 c1 b st p ri) as [[[[rc2 n2] c2] b2] st2] eqn:E2. injection E as _ <- _ _ _ _.
  assert (Hlk : nf_link n2 = nf_link n1).
  { unfold retry_finish in E2. cbv zeta in E2. destruct (_ && _).
    - destruct (lxp_fd_install _ _ _ _ _ _) as [[fd k] b1]. destruct (fd <? 0); injection E2 as <- <- <- <- <-; [by rewrite close_link|done].
    - destruct (_ && _); [|by injection E2 as <- <- <- <- <-]. destruct (negb _); [by injection E2 as <- <- <- <- <-|].
      destruct (lxp_intent_begin _ _) as [rc1 pr]. destruct (negb _); by injection E2 as <- <- <- <- <-. }
  eapply sess_finished; [|split|exact Hd|exact E2]; [|lia|lia]. apply Hp. unfold keeps_session, nconn, generation in *. by rewrite <- Hlk.
Qed.

Lemma sess_tick n c h now n' c' h' :
  0 <= stage_buf.2 < 2 ^ 32 -> sess n -> lxp_netfs_tick net n c h now = Some (n', c', h') -> keeps_session n n' -> sess n'.
Proof.
  intros Hcap Hs E Hk. unfold lxp_netfs_tick in E. destruct (_ && _); [by injection E as <- _ _|]. destruct (existsb _ _); [by injection E as <- _ _|].
  by eapply sess_pump; [done|exact Hs| |exact E|].
Qed.

(** A call of the system while the session lasts: it closes an open that no request is
    opening, cancels a request that has not been collected, does not lose the connection and
    leaves no finished request uncollected. *)
Definition session_call n n' : Prop :=
  netfs_call (H := H) (B := B) net stage_buf unopened (fun n ri => rq_state (req_at n ri) <> REQ_FREE) n n' /\ keeps_session n n' /\ settled n'.

Lemma sess_call n n' : 0 <= stage_buf.2 < 2 ^ 32 -> sess n -> settled n -> session_call n n' -> sess n'.
Proof.
  intros Hcap Hs Hset (Hcall & Hk & _). destruct Hcall.
  - by apply sess_open.
  - by apply sess_read.
  - by apply sess_lseek.
  - by apply sess_getdents.
  - by apply sess_stat.
  - by apply sess_access.
  - by apply sess_stat.
  - by apply sess_close.
  - by eapply sess_cancel.
  - by apply sess_exec_fetch.
  - by eapply sess_retry.
  - by eapply sess_tick.
Qed.

Lemma sess_clear lk : link_ok lk -> lk_conn lk = CONN_DOWN -> sess (netfs_clear lk).
Proof.
  intros Hl Hc. assert (Hok := netfs_clear_ok stage_buf lk Hl Hc).
  assert (Hreq : forall i, 0 <= i < NETFS_NREQ -> req_at (netfs_clear lk) i = nreq_zero).
  { intros i Hi. unfold req_at, aget. cbn [nf_req netfs_clear]. by rewrite nth_lookup, lookup_replicate_2 by lia. }
  assert (Hop : forall i, 0 <= i < NETFS_NOPEN -> open_at (netfs_clear lk) i = nopen_zero).
  { intros i Hi. unfold open_at, aget. cbn [nf_open netfs_clear]. by rewrite nth_lookup, lookup_replicate_2 by lia. }
  assert (Hh : held (netfs_clear lk) = []) by reflexivity. split.
  - split; [done|..].
    + intros oi Hoi. by rewrite Hop.
    + intros i Hi. by rewrite Hreq.
    + intros i j oi Hi Hj _ Hn. by rewrite Hreq in Hn.
    + intros i Hi. by rewrite Hreq.
  - unfold fids_exact. rewrite Hh. split; [constructor|]. intros f. split; [by intros ?%elem_of_nil|]. intros [Hf Hu].
    rewrite fid_used_bit in Hu by (unfold NETFS_NFID in *; lia). cbn in Hu. by rewrite Z.bits_0 in Hu.
  - done.
Qed.

Lemma settled_silent n n' : silent n n' -> settled n -> settled n'.
Proof. intros (lk & b & -> & _) Hs i Hi. by apply (Hs i). Qed.

Lemma settled_clear lk : settled (netfs_clear lk).
Proof. intros i Hi. unfold req_at, aget. cbn [nf_req netfs_clear]. by rewrite nth_lookup, lookup_replicate_2 by lia. Qed.

(** Initialisation starts a session. *)
Lemma sess_init tus n0 h config rc n1 h1 :
  alen (lk_tx (nf_link n0)) = NETFS_MSIZE -> alen (lk_rx (nf_link n0)) = NETFS_MSIZE ->
  lxp_netfs_init net tus n0 h config = Some (rc, n1, h1) -> sess n1 /\ settled n1.
Proof.
  intros Ht Hr E. destruct (netfs_init_spec net stage_buf tus n0 h config Ht Hr) as (lk & h0 & [(Hlk & Hdn & rc' & E')|(Hlk & Hdn & cf & n2 & h2 & Ev & E1 & E')]);
    rewrite E in E'.
  - injection E' as -> -> ->. split; [by apply sess_clear|apply settled_clear].
  - injection E' as -> -> ->. set (m := configured (netfs_clear lk) cf) in *. assert (Hokc := netfs_clear_ok stage_buf lk Hlk Hdn).
    assert (Hok : ok m) by (by apply configured_ok). assert (Hc : nconn m <> CONN_UP) by (unfold nconn; cbn; by rewrite Hdn).
    assert (Hm : sess m).
    { destruct (sess_clear lk Hlk Hdn) as [[] ? ?]. split; [by split|done|by intros _]. }
    destruct (conn_advance_ok net stage_buf m h0 (default 0 tus) Hok) as (n3 & h3 & E3 & Hok3). rewrite E1 in E3. injection E3 as <- <-.
    pose proof (conn_advance_greets net stage_buf m h0 _ n2 h2 Hok Hc E1) as Hg.
    split; [by eapply sess_greets|]. apply (settled_silent m); [apply Hg|]. exact (settled_clear lk).
Qed.

(** C16: fid accounting of the 9P client, on the client's side.  From initialisation, over any
    sequence of calls until the first connection is lost, in which the system closes no open
    that is still being opened, cancels no request twice and collects each finished request in
    the call that finished it, the bitmap of fids holds exactly the fids that an open, a
    request on the wire or the clunk queue holds, and each of them has one holder.  So no fid
    stays marked without a holder, and none is given to a second holder.  What the server
    holds is not claimed: a fid released while the clunk queue is full is dropped without a
    message and can be given out again ([full_queue_reuses_fid]). *)
Theorem session_fids_exact tus n0 h config rc n1 h1 n :
  0 <= stage_buf.2 < 2 ^ 32 -> alen (lk_tx (nf_link n0)) = NETFS_MSIZE -> alen (lk_rx (nf_link n0)) = NETFS_MSIZE ->
  lxp_netfs_init net tus n0 h config = Some (rc, n1, h1) -> rtc session_call n1 n -> fids_exact n.
Proof.
  intros Hcap Ht Hr E Hrun. destruct (sess_init tus n0 h config rc n1 h1 Ht Hr E) as [Hs Hset]. clear E.
  induction Hrun as [x|x y z Hxy _ IH]; [apply Hs|]. apply IH; [by eapply sess_call|apply Hxy].
Qed.
End Entries.

(** *** A file is opened *)

#[local] Instance account_files : FileOps unit := {|
  fops_present := fun k => (k >? 0) && (k <? LXP_FD_KIND_COUNT);
  fops_close := fun b _ => b; fops_node_open := fun b _ => (0, b); fops_node_close := fun b _ => b |}.

(** A task in slot 0 with a file context, seen through view 0. *)
Definition demo_caller : coord unit :=
  let p := set_p_guest_view (set_p_fs_context demo_proc (Some 0)) (Some 0) in
  mk_coord tt (set_rt_views (put_proc demo_rt 0 p) [mk_view (Some 0) (Some 0) (mk_ref 0 7) (mm_region (aget mm_zero (k_mm (rt_k demo_rt)) 0)) (Some 0) 3 true]) (replicate 12 stack_zero).

(** The mount, up; "/mnt/a" asked for; and what a retry leads to when the server sends [replies]. *)
Definition demo_up : netfs :=
  match lxp_netfs_init script_net (Some 1) (netfs_clear demo_link) demo_handshake (Some demo_netfs_config) with Some (_, n, _) => n | None => netfs_clear demo_link end.
Definition demo_asked : Z * netfs * coord unit := lxp_netfs_open (Some 2) demo_up demo_caller 0 [47; 109; 110; 116; 47; 97] 0.
Definition demo_retry (n : netfs) (c : coord unit) (replies : list (list Z)) :=
  lxp_netfs_retry script_net (Some 3) n c replies tt (mk_stage None 0) 0.
Definition demo_retried (n : netfs) (c : coord unit) (replies : list (list Z)) : netfs * coord unit :=
  match demo_retry n c replies with Some (_, n', c', _, _, _) => (n', c') | None => (n, c) end.
Definition demo_walking : netfs * coord unit := demo_retried demo_asked.1.2 demo_asked.2 [].
(** Rwalk of one name, and no more yet. *)
Definition demo_walked : netfs * coord unit := demo_retried demo_walking.1 demo_walking.2 [frame P9_RWALK P9_TAG (le_bytes 2 1 ++ replicate 13 0)].

Lemma settled_all n : alen (nf_req n) = NETFS_NREQ -> forallb (fun r => negb (bool_decide (rq_state r = REQ_DONE))) (nf_req n) = true -> settled n.
Proof.
  intros Hl Ha i Hi. rewrite forallb_forall in Ha. specialize (Ha (req_at n i)).
  assert (Hin : In (req_at n i) (nf_req n)) by (unfold req_at; apply list_elem_of_In; eapply list_elem_of_lookup_2, lookup_aget; lia).
  specialize (Ha Hin). by case_bool_decide.
Qed.

Lemma demo_retry_call n c replies :
  is_Some (demo_retry n c replies) -> p_fs_context (cproc c 0) <> None -> nconn (demo_retried n c replies).1 = CONN_UP ->
  settled (demo_retried n c replies).1 -> session_call (H := unit) (B := unit) script_net (0x1000, 4096) n (demo_retried n c replies).1.
Proof.
  intros [x E] Hfs Hup Hset. split; [|split; [by left|done]]. revert Hup Hset. unfold demo_retried. rewrite E. destruct x as [[[[[rc n'] c'] h'] b'] st']. intros _ _.
  eapply call_retry; [exact Hfs|exact E].
Qed.

Lemma session_fids_exact_witness : held demo_walked.1 = [1] /\ fids_exact demo_walked.1.
Proof.
  split; [vm_compute; reflexivity|].
  assert (E : exists rc h, lxp_netfs_init script_net (Some 1) (netfs_clear demo_link) demo_handshake (Some demo_netfs_config) = Some (rc, demo_up, h)).
  { unfold demo_up. destruct (lxp_netfs_init _ _ _ _ _) as [[[rc n] h]|] eqn:E; [by eauto|]. exfalso. vm_compute in E. discriminate E. }
  destruct E as (rc & h & E).
  eapply (session_fids_exact (H := unit) (B := unit) script_net (0x1000, 4096) (Some 1) (netfs_clear demo_link) demo_handshake
    (Some demo_netfs_config) rc demo_up h _ ltac:(cbn; lia) eq_refl eq_refl E).
  apply (rtc_l _ _ demo_asked.1.2).
  { split; [apply call_open|]. split; [left; vm_compute; reflexivity|]. apply settled_all; vm_compute; reflexivity. }
  apply (rtc_l _ _ demo_walking.1).
  { apply demo_retry_call; [|vm_compute; discriminate|vm_compute; reflexivity|apply settled_all; vm_compute; reflexivity].
    destruct (demo_retry _ _ _) eqn:Ex; [by eexists|]. exfalso. vm_compute in Ex. discriminate Ex. }
  apply rtc_once.
  apply demo_retry_call; [|vm_compute; discriminate|vm_compute; reflexivity|apply settled_all; vm_compute; reflexivity].
  destruct (demo_retry _ _ _) eqn:Ex; [by eexists|]. exfalso. vm_compute in Ex. discriminate Ex.
Defined.

(** ** Across a reconnection

    A lost connection leaves the opens of the old session in use, marked stale, while the new
    session starts with an empty bitmap.  Closing a stale open then frees a fid number that
    the new session has given to another open, and the next open takes it a second time. *)

Definition demo_holder : coord unit :=
  let k := set_k_files (set_k_ofd (rt_k (c_rt demo_caller)) (replicate (Z.to_nat LXP_MAX_OFD) ofd_zero)) (replicate (Z.to_nat LXP_RESOURCE_POOL_COUNT) files_zero) in
  let R := set_rt_k (c_rt demo_caller) k in
  set_c_rt demo_caller (put_proc R 0 (set_p_files (cproc demo_caller 0) (Some 0))).

(** Rwalk, Rgetattr of a regular file, Rlopen. *)
Definition demo_open_replies : list (list Z) :=
  [frame P9_RWALK P9_TAG (le_bytes 2 1 ++ replicate 13 0);
   frame P9_RLGETATTR P9_TAG (replicate 21 0 ++ le_bytes 4 LXP_S_IFREG ++ replicate 128 0); frame P9_RLOPEN P9_TAG (replicate 17 0)].

(** A guest opens "/mnt/a" to the end. *)
Definition demo_open_file (nc : netfs * coord unit) : netfs * coord unit :=
  let '(_, n, c) := lxp_netfs_open (Some 2) nc.1 nc.2 0 [47; 109; 110; 116; 47; 97] 0 in
  let '(n, c) := demo_retried n c [] in
  let '(n, c) := demo_retried n c demo_open_replies in
  (n, put_cproc c 0 (set_p_wait (cproc c 0) wait_zero)).

(** A stat during which the server hangs up, and the next dial. *)
Definition demo_reconnect (nc : netfs * coord unit) : netfs * coord unit :=
  let '(_, n, c) := lxp_netfs_stat (Some 2) nc.1 nc.2 0 [47; 109; 110; 116; 47; 97] 0 NETFS_STAT_EXISTS in
  let '(n, c) := demo_retried n c [] in
  let '(n, c) := demo_retried n c [[]] in
  let c := put_cproc c 0 (set_p_wait (cproc c 0) wait_zero) in
  match lxp_netfs_tick script_net n c demo_handshake 1000000000 with Some (n, c, _) => (n, c) | None => (n, c) end.

Lemma reconnect_shares_fid :
  let first := demo_open_file (demo_up, demo_holder) in
  let second := demo_open_file (demo_reconnect first) in
  let third := demo_open_file (lxp_netfs_close second.1 0, second.2) in
  held first.1 = [1] /\ fid_used second.1 1 = true /\ fid_used (lxp_netfs_close second.1 0) 1 = false /\ held third.1 = [1; 1] /\ nconn third.1 = CONN_UP.
Proof. vm_compute. repeat split. Qed.

(** A fid is released while the clunk queue is full: it is free at once, no Tclunk is queued
    or sent for it, and it is the next fid given out. *)
Lemma full_queue_reuses_fid :
  let n := set_nf_clunk_head (fid_alloc (netfs_clear demo_link)).2 1 in
  let n' := clunk_enqueue n 1 in
  fid_used n 1 = true /\ nf_link n' = nf_link n /\ nf_clunk_fid n' = nf_clunk_fid n /\ nf_clunk_tail n' = nf_clunk_tail n /\
  (fid_alloc n').1 = 1.
Proof. vm_compute. repeat split. Qed.
