(* ===== verification/SysFd.v ===== *)
(** * Descriptor system calls (src/sys/lxp_sys_fd.c)

    Reads, writes, positioned I/O, seeks, duplication, pipes, fcntl, ioctl and directory
    reads, dispatched through a kind's table of file operations (struct lxp_file_ops,
    src/fs/lxp_vfs.h).  The tables are a parameter: what the calls guarantee must not depend
    on a kind.  An operation gets the task, the pool index of the open-file description and
    its arguments; the description is updated through the pool. *)

From S2P Require Import Prelude Config Proc Pool Path Fd Guest Pipe Vfs Arena Process Runtime Signal SysSignal Stat.
Local Open Scope Z_scope.

Definition LXP_SYSCALL_MAX_IOV : Z := 1024.
Definition LXP_SYSCALL_QUANTUM_BYTES : Z := 4096.
Definition LXP_F_DUPFD : Z := 0.
Definition LXP_F_GETFD : Z := 1.
Definition LXP_F_SETFD : Z := 2.
Definition LXP_F_GETFL : Z := 3.
Definition LXP_F_SETFL : Z := 4.
Definition LXP_F_DUPFD_CLOEXEC : Z := 1030.
Definition LXP_FD_CLOEXEC : Z := 1.
Definition INT32_MAX : Z := 2 ^ 31 - 1.

(** What statfs reports of a volume; the other words of the structure are zero. *)
Record lxp_statfs64 := mk_statfs64 {
  sf_type : Z; sf_bsize : Z; sf_blocks : Z; sf_bfree : Z; sf_bavail : Z; sf_files : Z; sf_ffree : Z;
  sf_fsid0 : Z; sf_fsid1 : Z; sf_namelen : Z; sf_frsize : Z; sf_flags : Z;
}.

(** One kind's operations; [None] for NULL. *)
Record lxp_file_ops (H B : Type) := mk_file_ops {
  op_read : option (coord H -> B -> Z -> Z -> Z -> Z -> Z * coord H * B);
  op_write : option (coord H -> B -> Z -> Z -> Z -> Z -> Z * coord H * B);
  op_pread : option (coord H -> B -> Z -> Z -> Z -> Z -> Z -> Z * coord H * B);
  op_pwrite : option (coord H -> B -> Z -> Z -> Z -> Z -> Z -> Z * coord H * B);
  op_lseek : option (coord H -> B -> Z -> Z -> Z -> Z -> Z * coord H * B);
  op_getdents : option (coord H -> B -> Z -> Z -> lxp_dirent_sink -> Z * coord H * B);
  op_ftruncate : option (coord H -> B -> Z -> Z -> Z -> Z * coord H * B);
  op_fsync : option (coord H -> B -> Z -> Z -> Z * coord H * B);
  op_ioctl : option (coord H -> B -> Z -> Z -> Z -> Z -> Z * coord H * B);
  op_poll : option (coord H -> B -> Z -> Z -> Z * coord H * B);
  op_mmap : option (coord H -> B -> Z -> Z -> Z -> Z -> Z -> Z * coord H * B);
  op_setfl : option (coord H -> B -> Z -> Z -> coord H * B);
  op_dir_path : option (coord H -> B -> Z -> lxp_ofd -> Z -> path_result);
  op_fstat : option (coord H -> B -> Z -> lxp_ofd -> Z + lxp_stat);
  op_fstatfs : option (coord H -> B -> Z -> lxp_ofd -> Z + lxp_statfs64);
}.
Arguments op_read {H B}.
Arguments op_write {H B}.
Arguments op_pread {H B}.
Arguments op_pwrite {H B}.
Arguments op_lseek {H B}.
Arguments op_getdents {H B}.
Arguments op_ftruncate {H B}.
Arguments op_fsync {H B}.
Arguments op_ioctl {H B}.
Arguments op_poll {H B}.
Arguments op_mmap {H B}.
Arguments op_setfl {H B}.
Arguments op_dir_path {H B}.
Arguments op_fstat {H B}.
Arguments op_fstatfs {H B}.
Arguments mk_file_ops {H B}.

(** What the calls use of the kinds: their tables, the pipe and eventfd pools within the
    backing objects, and the host file system's flush. *)
Class FileTable (H B : Type) := {
  g_lxp_file_ops : Z -> option (lxp_file_ops H B);
  ft_pipes : B -> list lxp_pipe;
  ft_put_pipes : B -> list lxp_pipe -> B;
  ft_efds : B -> list efd;
  ft_put_efds : B -> list efd -> B;
  ft_hostfs_sync_all : B -> Z * B;
}.

Section SysFd.
Context {H B : Type} `{FileOps B} `{FileTable H B}.
Implicit Types (c : coord H) (b : B) (p fd : Z).

Definition cfiles c p : option Z := p_files (cproc c p).
Definition ckst c : kst := rt_k (c_rt c).
Definition put_ckst c (k : kst) : coord H := set_c_rt c (set_rt_k (c_rt c) k).

(** [lxp_fd_description] and [lxp_vfs_ops]. *)
Definition cdesc c p fd : option Z := lxp_fd_description (ckst c) (cfiles c p) fd.
Definition cofd c (o : Z) : lxp_ofd := ofd_at (ckst c) o.
Definition lxp_vfs_ops c (o : Z) : option (lxp_file_ops H B) :=
  if ofd_kind (cofd c o) <? LXP_FD_KIND_COUNT then g_lxp_file_ops (ofd_kind (cofd c o)) else None.
(** [ops && ops->op]. *)
Definition vfs_op {X} c (o : Z) (sel : lxp_file_ops H B -> option X) : option X :=
  match lxp_vfs_ops c o with Some t => sel t | None => None end.

(** ** Reads and writes *)

Definition sys_write c b p fd (buf len : Z) : Z * coord H * B :=
  match cdesc c p fd with
  | None => (- LXP_EBADF, c, b)
  | Some o =>
      if negb (lxp_guest_access_ok (cgenv c) p buf len false) then (- LXP_EFAULT, c, b)
      else if negb (lxp_vfs_writable (cofd c o)) then (- LXP_EBADF, c, b)
      else match vfs_op c o op_write with
           | Some write => write c b p o buf len
           | None => (- LXP_EBADF, c, b)
           end
  end.

(** The kinds whose write may park stop after one segment. *)
Definition single_segment (kind : Z) : bool :=
  (kind =? LXP_FD_PIPE) || (kind =? LXP_FD_DEV) || (kind =? LXP_FD_SOCKET) || (kind =? LXP_FD_PTY) || (kind =? LXP_FD_NET).

Definition iovec_size : Z := 8.

(** [n] entries left, the next one at [iov]. *)
Fixpoint writev_loop (n : nat) c b p fd (iov total budget : Z) (single : bool) : Z * coord H * B :=
  match n with
  | O => (total, c, b)
  | S n =>
      match lxp_copy_from_guest (cgenv c) (cmem c) p iov iovec_size with
      | inl _ => (if negb (total =? 0) then total else - LXP_EFAULT, c, b)
      | inr e =>
          let base := le_val (take 4 e) in
          let iov_len := le_val (drop 4 e) in
          if iov_len =? 0 then writev_loop n c b p fd (iov + iovec_size) total budget single
          else
            let len := if iov_len <? budget then iov_len else budget in
            let '(r, c, b) := sys_write c b p fd base len in
            if r <? 0 then (if negb (total =? 0) then total else r, c, b)
            else if r >? len then (if negb (total =? 0) then total else - LXP_EIO, c, b)
            else
              let total := total + r in
              let budget := budget - r in
              if single || (r <? len) || (len <? iov_len) || (budget =? 0) then (total, c, b)
              else writev_loop n c b p fd (iov + iovec_size) total budget single
      end
  end.

Definition sys_writev c b p fd (iov iovcnt : Z) : Z * coord H * B :=
  if (iovcnt <? 0) || (iovcnt >? LXP_SYSCALL_MAX_IOV) then (- LXP_EINVAL, c, b)
  else if negb (iovcnt =? 0) && negb (lxp_guest_access_ok (cgenv c) p iov (iovcnt * iovec_size) false) then (- LXP_EFAULT, c, b)
  else match cdesc c p fd with
       | None => (- LXP_EBADF, c, b)
       | Some o => writev_loop (Z.to_nat iovcnt) c b p fd iov 0 LXP_SYSCALL_QUANTUM_BYTES (single_segment (ofd_kind (cofd c o)))
       end.

Definition sys_read c b p fd (buf len : Z) : Z * coord H * B :=
  match cdesc c p fd with
  | None => (- LXP_EBADF, c, b)
  | Some o =>
      if negb (lxp_guest_access_ok (cgenv c) p buf len true) then (- LXP_EFAULT, c, b)
      else if negb (lxp_vfs_readable (cofd c o)) then (- LXP_EBADF, c, b)
      else match vfs_op c o op_read with
           | Some read => read c b p o buf len
           | None => (- LXP_EBADF, c, b)
           end
  end.

Definition sys_pwrite c b p fd (buf len off : Z) : Z * coord H * B :=
  match cdesc c p fd with
  | None => (- LXP_EBADF, c, b)
  | Some o =>
      if negb (lxp_guest_access_ok (cgenv c) p buf len false) then (- LXP_EFAULT, c, b)
      else match vfs_op c o op_pread, vfs_op c o op_pwrite with
           | None, None => (- LXP_ESPIPE, c, b)
           | _, pwrite =>
               if negb (lxp_vfs_writable (cofd c o)) then (- LXP_EBADF, c, b)
               else match pwrite with
                    | Some pwrite => pwrite c b p o buf len off
                    | None => (- LXP_EBADF, c, b)
                    end
           end
  end.

Definition lxp_sys_fd_pread c b p fd (buf len off : Z) : Z * coord H * B :=
  match cdesc c p fd with
  | None => (- LXP_EBADF, c, b)
  | Some o =>
      if negb (lxp_guest_access_ok (cgenv c) p buf len true) then (- LXP_EFAULT, c, b)
      else match vfs_op c o op_pread with
           | None => (- LXP_ESPIPE, c, b)
           | Some pread => if negb (lxp_vfs_readable (cofd c o)) then (- LXP_EBADF, c, b) else pread c b p o buf len off
           end
  end.

(** ** Descriptors *)

Definition sys_close c b p fd : Z * coord H * B :=
  let '(rc, k, b) := lxp_fd_close (ckst c) b (cfiles c p) fd in (rc, put_ckst c k, b).

Definition cfd_alloc c b p (kind idx off flags : Z) : Z * coord H * B :=
  let '(fd, k, b) := lxp_sys_fd_alloc (ckst c) b (cfiles c p) kind idx off flags in (fd, put_ckst c k, b).

Definition sys_pipe c b p (fds flags : Z) : Z * coord H * B :=
  if negb (lxp_guest_access_ok (cgenv c) p fds 8 true) then (- LXP_EFAULT, c, b)
  else
    let shared := Z.land flags (Z.lor LXP_O_NONBLOCK LXP_O_CLOEXEC) in
    let '(pi, g) := lxp_pipe_alloc (ft_pipes b) in
    let b := ft_put_pipes b g in
    let discard b := ft_put_pipes b (lxp_pipe_discard (ft_pipes b) pi) in
    let end_open b w := ft_put_pipes b (lxp_pipe_end_open (ft_pipes b) pi w) in
    if pi <? 0 then (- LXP_EMFILE, c, b)
    else if lxp_fd_free_count (ckst c) (cfiles c p) <? 2 then (- LXP_EMFILE, c, discard b)
    else
      let '(rfd, c, b) := cfd_alloc c b p LXP_FD_PIPE pi 0 (Z.lor LXP_O_RDONLY shared) in
      if rfd <? 0 then (- LXP_EMFILE, c, discard b)
      else
        let b := end_open b false in
        let '(wfd, c, b) := cfd_alloc c b p LXP_FD_PIPE pi 0 (Z.lor LXP_O_WRONLY shared) in
        if wfd <? 0 then let '(_, c, b) := sys_close c b p rfd in (- LXP_EMFILE, c, b)
        else
          let c := put_ckst c (lxp_fd_set_end (ckst c) (cfiles c p) wfd 1).2 in
          let b := end_open b true in
          let '(rc, m) := lxp_copy_to_guest (cgenv c) (cmem c) p fds (bytes32 rfd ++ bytes32 wfd) in
          let c := set_cmem c m in
          if negb (rc =? 0)
          then let '(_, c, b) := sys_close c b p rfd in
               let '(_, c, b) := sys_close c b p wfd in (- LXP_EFAULT, c, b)
          else (0, c, b).

Definition cdup_to c b p (oldfd newfd cloexec : Z) : Z * coord H * B :=
  let '(r, k, b) := lxp_fd_dup_to (ckst c) b (cfiles c p) oldfd newfd cloexec in (r, put_ckst c k, b).
Definition cdup_min c b p (oldfd minfd cloexec : Z) : Z * coord H * B :=
  let '(r, k) := lxp_fd_dup_min (ckst c) (cfiles c p) oldfd minfd cloexec in (r, put_ckst c k, b).

Definition sys_dup2 c b p (oldfd newfd : Z) : Z * coord H * B := cdup_to c b p oldfd newfd 0.
Definition sys_dup c b p (oldfd : Z) : Z * coord H * B := cdup_min c b p oldfd 0 0.

(** ** Seeks *)

Definition fd_seek c b p fd (off whence : Z) : Z * coord H * B :=
  match cdesc c p fd with
  | None => (- LXP_EBADF, c, b)
  | Some o => match vfs_op c o op_lseek with
              | None => (- LXP_ESPIPE, c, b)
              | Some lseek => lseek c b p o off whence
              end
  end.

Definition sys_lseek c b p fd (off whence : Z) : Z * coord H * B :=
  let '(pos, c, b) := fd_seek c b p fd (s32 off) whence in
  (if pos >? INT32_MAX then - LXP_EOVERFLOW else s32 pos, c, b).

Definition sys_llseek c b p fd (off_hi off_lo result whence : Z) : Z * coord H * B :=
  let offset := s64 (Z.lor (u32 off_lo) (Z.shiftl (u32 off_hi) 32)) in
  let '(pos, c, b) := fd_seek c b p fd offset (s32 whence) in
  if pos <? 0 then (s32 pos, c, b)
  else if negb (result =? 0)
  then let '(rc, m) := lxp_copy_to_guest (cgenv c) (cmem c) p result (le_bytes 8 pos) in
       (if negb (rc =? 0) then - LXP_EFAULT else 0, set_cmem c m, b)
  else (0, c, b).

(** ** The rest *)

Definition sys_ftruncate c b p fd (length : Z) : Z * coord H * B :=
  if s64 length <? 0 then (- LXP_EINVAL, c, b)
  else match cdesc c p fd with
       | None => (- LXP_EBADF, c, b)
       | Some o =>
           if negb (lxp_vfs_writable (cofd c o)) then (- LXP_EINVAL, c, b)
           else match vfs_op c o op_ftruncate with
                | Some ftruncate => ftruncate c b p o length
                | None => (- LXP_EINVAL, c, b)
                end
       end.

Definition sys_sync_fd c b p fd : Z * coord H * B :=
  match cdesc c p fd with
  | None => (- LXP_EBADF, c, b)
  | Some o => match vfs_op c o op_fsync with Some fsync => fsync c b p o | None => (0, c, b) end
  end.

Definition sys_fcntl c b p (a0 a1 a2 : Z) : Z * coord H * B :=
  match cdesc c p a0 with
  | None => (- LXP_EBADF, c, b)
  | Some o =>
      if (a1 =? LXP_F_DUPFD) || (a1 =? LXP_F_DUPFD_CLOEXEC)
      then let from := if (a2 <? 0) || (a2 >=? LXP_MAX_FDS) then 0 else a2 in
           cdup_min c b p a0 from (b2z (a1 =? LXP_F_DUPFD_CLOEXEC))
      else if a1 =? LXP_F_SETFL
      then let c := put_ckst c (set_ofd (ckst c) o (set_ofd_nonblock (cofd c o) (b2z (has a2 LXP_O_NONBLOCK)))) in
           match vfs_op c o op_setfl with
           | Some setfl => let '(c, b) := setfl c b p o in (0, c, b)
           | None => (0, c, b)
           end
      else if a1 =? LXP_F_GETFL
      then (Z.lor (ofd_accmode (cofd c o)) (if negb (ofd_nonblock (cofd c o) =? 0) then LXP_O_NONBLOCK else 0), c, b)
      else if a1 =? LXP_F_SETFD
      then let '(r, k) := lxp_fd_set_cloexec (ckst c) (cfiles c p) a0 (b2z (has a2 LXP_FD_CLOEXEC)) in (r, put_ckst c k, b)
      else if a1 =? LXP_F_GETFD
      then let cloexec := lxp_fd_get_cloexec (ckst c) (cfiles c p) a0 in
           (if cloexec >? 0 then LXP_FD_CLOEXEC else cloexec, c, b)
      else (0, c, b)
  end.

Definition sys_ioctl c b p (a0 a1 a2 : Z) : Z * coord H * B :=
  match cdesc c p a0 with
  | None => (- LXP_ENOTTY, c, b)
  | Some o => match vfs_op c o op_ioctl with
              | Some ioctl => ioctl c b p o (u32 a1) (u32 a2)
              | None => (- LXP_ENOTTY, c, b)
              end
  end.

Definition sys_getdents64 c b p fd (buf count : Z) (is64 : bool) : Z * coord H * B :=
  match cdesc c p fd with
  | None => (- LXP_EBADF, c, b)
  | Some o =>
      if negb (lxp_guest_access_ok (cgenv c) p buf count true) then (- LXP_EFAULT, c, b)
      else match vfs_op c o op_getdents with
           | None => (- LXP_ENOTDIR, c, b)
           | Some getdents => getdents c b p o (mk_sink buf count 0 0 is64)
           end
  end.

(** ** The handlers: six argument registers, each a 32-bit pattern read as the type wanted *)

Implicit Types a : Z -> Z.
Definition pair64 (lo hi : Z) : Z := Z.lor (u32 lo) (Z.shiftl (u32 hi) 32).

Definition lxp_sys_read c b p a := sys_read c b p (s32 (a 0)) (u32 (a 1)) (u32 (a 2)).
Definition lxp_sys_write c b p a := sys_write c b p (s32 (a 0)) (u32 (a 1)) (u32 (a 2)).
Definition lxp_sys_writev c b p a := sys_writev c b p (s32 (a 0)) (u32 (a 1)) (s32 (a 2)).
Definition lxp_sys_pread64 c b p a := lxp_sys_fd_pread c b p (s32 (a 0)) (u32 (a 1)) (u32 (a 2)) (pair64 (a 4) (a 5)).
Definition lxp_sys_pwrite64 c b p a := sys_pwrite c b p (s32 (a 0)) (u32 (a 1)) (u32 (a 2)) (pair64 (a 4) (a 5)).
Definition lxp_sys_close c b p a := sys_close c b p (s32 (a 0)).
Definition lxp_sys_pipe c b p a := sys_pipe c b p (u32 (a 0)) 0.
Definition lxp_sys_pipe2 c b p a := sys_pipe c b p (u32 (a 0)) (s32 (a 1)).
Definition lxp_sys_dup c b p a := sys_dup c b p (s32 (a 0)).
Definition lxp_sys_dup2 c b p a := sys_dup2 c b p (s32 (a 0)) (s32 (a 1)).
Definition lxp_sys_dup3 c b p a : Z * coord H * B :=
  if s32 (a 0) =? s32 (a 1) then (- LXP_EINVAL, c, b)
  else cdup_to c b p (s32 (a 0)) (s32 (a 1)) (b2z (has (a 2) LXP_O_CLOEXEC)).
Definition lxp_sys_lseek c b p a := sys_lseek c b p (s32 (a 0)) (a 1) (s32 (a 2)).
Definition lxp_sys_llseek c b p a := sys_llseek c b p (s32 (a 0)) (a 1) (a 2) (u32 (a 3)) (a 4).
Definition lxp_sys_ftruncate64 c b p a := sys_ftruncate c b p (s32 (a 0)) (pair64 (a 2) (a 3)).
Definition lxp_sys_fsync c b p a := sys_sync_fd c b p (s32 (a 0)).
Definition lxp_sys_sync c b p a : Z * coord H * B := (0, c, (ft_hostfs_sync_all b).2).
Definition lxp_sys_syncfs c b p a : Z * coord H * B :=
  match cdesc c p (s32 (a 0)) with
  | None => (- LXP_EBADF, c, b)
  | Some o => if ofd_kind (cofd c o) =? LXP_FD_HOSTFS then let '(rc, b) := ft_hostfs_sync_all b in (rc, c, b) else (0, c, b)
  end.
Definition lxp_sys_fcntl c b p a := sys_fcntl c b p (s32 (a 0)) (s32 (a 1)) (s32 (a 2)).
Definition lxp_sys_ioctl c b p a := sys_ioctl c b p (s32 (a 0)) (a 1) (a 2).
Definition lxp_sys_getdents c b p a := sys_getdents64 c b p (s32 (a 0)) (u32 (a 1)) (u32 (a 2)) false.
Definition lxp_sys_getdents64 c b p a := sys_getdents64 c b p (s32 (a 0)) (u32 (a 1)) (u32 (a 2)) true.
Definition lxp_sys_eventfd2 c b p a : Z * coord H * B :=
  let install (s : coord H * B) ei flags := let '(fd, c, b) := cfd_alloc s.1 s.2 p LXP_FD_EVENTFD ei 0 flags in (fd, (c, b)) in
  let '(fd, s, g) := lxp_eventfd_open install (c, b) (ft_efds b) (u32 (a 0)) (s32 (a 1)) in
  (fd, s.1, ft_put_efds s.2 g).
End SysFd.

(** * What a vector write delivers *)

(** The bytes the first [n] entries of the vector at [iov] name. *)
Fixpoint payload (m : mem) (iov : Z) (n : nat) : list Z :=
  match n with
  | O => []
  | S n => mem_read m (le_val (mem_read m iov 4)) (Z.to_nat (le_val (mem_read m (iov + 4) 4))) ++ payload m (iov + iovec_size) n
  end.

(** What a kind's write promises of one description: it takes a prefix of the buffer, appends
    it to the description's stream, and leaves memory, the task's access and its descriptors
    alone. *)
Class StreamWrite {H B} `{FileTable H B} (p fd o : Z) (stream : B -> list Z) := {
  sw_keeps : forall c b write buf len r c' b', vfs_op c o op_write = Some write -> write c b p o buf len = (r, c', b') ->
    cmem c' = cmem c /\ (forall a n w, lxp_guest_access_ok (cgenv c') p a n w = lxp_guest_access_ok (cgenv c) p a n w) /\
    cdesc c' p fd = cdesc c p fd /\ ofd_kind (cofd c' o) = ofd_kind (cofd c o) /\ ofd_accmode (cofd c' o) = ofd_accmode (cofd c o);
  sw_takes : forall c b write buf len r c' b', vfs_op c o op_write = Some write -> 0 <= len -> write c b p o buf len = (r, c', b') -> 0 <= r ->
    r <= len /\ stream b' = stream b ++ take (Z.to_nat r) (mem_read (cmem c) buf (Z.to_nat len));
  sw_refuses : forall c b write buf len r c' b', vfs_op c o op_write = Some write -> write c b p o buf len = (r, c', b') -> r < 0 -> stream b' = stream b;
}.

Section Writev.
Context {H B : Type} `{FileOps B} `{FileTable H B} (p fd o : Z) (stream : B -> list Z) `{!StreamWrite p fd o stream}.
Implicit Types (c : coord H) (b : B).

(** What a step of the loop leaves for the next. *)
Definition same_view c c' : Prop :=
  cmem c' = cmem c /\ (forall a n w, lxp_guest_access_ok (cgenv c') p a n w = lxp_guest_access_ok (cgenv c) p a n w) /\ cdesc c' p fd = cdesc c p fd.

Lemma sys_write_spec c b buf len r c' b' :
  cdesc c p fd = Some o -> 0 <= len -> sys_write c b p fd buf len = (r, c', b') ->
  same_view c c' /\ (0 <= r -> r <= len /\ stream b' = stream b ++ take (Z.to_nat r) (mem_read (cmem c) buf (Z.to_nat len))) /\ (r < 0 -> stream b' = stream b).
Proof.
  intros Hd Hl E. unfold sys_write in E. rewrite Hd in E.
  assert (Herr : forall e, 0 < e -> (- e, c, b) = (r, c', b') ->
    same_view c c' /\ (0 <= r -> r <= len /\ stream b' = stream b ++ take (Z.to_nat r) (mem_read (cmem c) buf (Z.to_nat len))) /\ (r < 0 -> stream b' = stream b)).
  { intros e He [= <- <- <-]. split; [done|]. split; [lia|done]. }
  destruct (negb _); [by eapply Herr; [|exact E]|]. destruct (negb _); [by eapply Herr; [|exact E]|].
  destruct (vfs_op c o op_write) as [write|] eqn:Ew; [|by eapply Herr; [|exact E]].
  destruct (sw_keeps _ _ _ _ _ _ _ _ Ew E) as (K1 & K2 & K3 & _). split; [done|]. split.
  - intros Hr. by eapply sw_takes.
  - intros Hr. by eapply sw_refuses.
Qed.

Lemma payload_len_nonneg m iov n : 0 <= alen (payload m iov n).
Proof. unfold alen. lia. Qed.

(** The loop delivers a prefix of what is left of the vector, within the budget. *)
Lemma writev_loop_spec n c b iov total budget single r c' b' :
  cdesc c p fd = Some o -> 0 <= total -> 0 <= budget -> writev_loop n c b p fd iov total budget single = (r, c', b') ->
  exists k, 0 <= k <= budget /\ k <= alen (payload (cmem c) iov n) /\ stream b' = stream b ++ take (Z.to_nat k) (payload (cmem c) iov n) /\
    (r = total + k \/ r < 0 /\ total = 0 /\ k = 0).
Proof.
  revert c b iov total budget. induction n as [|n IH]; intros c b iov total budget Hd Ht Hb E; cbn [writev_loop payload] in *.
  { injection E as <- <- <-. exists 0. split_and!; [lia|lia|done|by rewrite app_nil_r|left; lia]. }
  set (rest := payload (cmem c) (iov + iovec_size) n). set (base := le_val (mem_read (cmem c) iov 4)). set (ln := le_val (mem_read (cmem c) (iov + 4) 4)).
  assert (Hstop : forall b2 c2 v, stream b2 = stream b -> v < 0 -> (if negb (total =? 0) then total else v, c2, b2) = (r, c', b') ->
    exists k, 0 <= k <= budget /\ k <= alen (mem_read (cmem c) base (Z.to_nat ln) ++ rest) /\
      stream b' = stream b ++ take (Z.to_nat k) (mem_read (cmem c) base (Z.to_nat ln) ++ rest) /\ (r = total + k \/ r < 0 /\ total = 0 /\ k = 0)).
  { intros b2 c2 v Hs Hv [= <- <- <-]. exists 0. split_and!; [lia|lia|unfold alen; lia|by rewrite Hs, app_nil_r|].
    destruct (Z.eqb_spec total 0); cbn; [right; lia|left; lia]. }
  unfold lxp_copy_from_guest in E. destruct (lxp_guest_access_ok (cgenv c) p iov iovec_size false); cbn [negb] in E;
    [|by refine (Hstop _ _ _ _ _ E)].
  assert (Hsplit : mem_read (cmem c) iov (Z.to_nat iovec_size) = mem_read (cmem c) iov 4 ++ mem_read (cmem c) (iov + 4) 4).
  { change (Z.to_nat iovec_size) with (4 + 4)%nat. by rewrite mem_read_app. }
  rewrite Hsplit, take_app_length', drop_app_length' in E by (by rewrite length_mem_read). fold base ln in E.
  pose proof (le_val_range (mem_read (cmem c) (iov + 4) 4)) as Hln. fold ln in Hln.
  assert (Hmr : alen (mem_read (cmem c) base (Z.to_nat ln)) = ln) by (unfold alen; rewrite length_mem_read; lia).
  destruct (Z.eqb_spec ln 0) as [E0|Hn0].
  { destruct (IH _ _ _ _ _ Hd Ht Hb E) as (k & K1 & K2 & K3 & K4). exists k. rewrite E0. cbn [Z.to_nat mem_read app]. done. }
  set (len := if ln <? budget then ln else budget) in *.
  assert (Hlen : 0 <= len <= ln /\ len <= budget) by (unfold len; destruct (Z.ltb_spec ln budget); lia).
  destruct (sys_write c b p fd base len) as [[w c1] b1] eqn:Ew.
  destruct (sys_write_spec c b base len w c1 b1 Hd ltac:(lia) Ew) as ((V1 & V2 & V3) & Htake & Href).
  destruct (Z.ltb_spec w 0) as [Hw|Hw]; [by refine (Hstop _ _ _ (Href Hw) Hw E)|].
  destruct (Htake Hw) as [Hwl Hst].
  destruct (Z.gtb_spec w len); [lia|].
  assert (Hpre : take (Z.to_nat w) (mem_read (cmem c) base (Z.to_nat len)) = take (Z.to_nat w) (mem_read (cmem c) base (Z.to_nat ln))).
  { replace (Z.to_nat ln) with (Z.to_nat len + Z.to_nat (ln - len))%nat by lia. rewrite mem_read_app, take_app_le; [done|]. rewrite length_mem_read. lia. }
  destruct (_ || _ || _ || _) eqn:Ebrk.
  { injection E as <- <- <-. exists w. split_and!; [lia|lia|unfold alen in *; rewrite length_app; lia| |by left].
    rewrite Hst, Hpre. rewrite take_app_le; [done|]. rewrite length_mem_read. lia. }
  rewrite !orb_false_iff in Ebrk. destruct Ebrk as [[[_ Eb1] Eb2] _]. apply Z.ltb_ge in Eb1, Eb2.
  assert (Hwn : w = ln) by lia.
  destruct (IH c1 b1 (iov + iovec_size) (total + w) (budget - w)) as (k & K1 & K2 & K3 & K4); [congruence|lia|lia|exact E|].
  rewrite V1 in K2, K3. fold rest in K2, K3. exists (w + k). split_and!; [lia|lia|unfold alen in *; rewrite length_app; lia| |].
  - rewrite K3, Hst, Hpre, <- app_assoc. f_equal. replace (Z.to_nat (w + k)) with (length (mem_read (cmem c) base (Z.to_nat ln)) + Z.to_nat k)%nat
      by (rewrite length_mem_read; lia).
    rewrite take_app_add. f_equal. apply take_ge. rewrite length_mem_read. lia.
  - left. destruct K4 as [->|(_ & ? & _)]; lia.
Qed.
End Writev.

(** C27: a vector write is one write of the concatenated segments.  Over any kind whose write
    takes a prefix of its buffer, writev never exceeds its quantum, and when it returns [r >= 0]
    the description's stream has grown by exactly the first [r] bytes of the vector's payload,
    in order and without a gap; when it fails the stream is as it was. *)
Theorem writev_delivers_prefix {H B} `{FileOps B} `{FileTable H B} (p fd o : Z) (stream : B -> list Z) `{!StreamWrite p fd o stream} (c : coord H) (b : B) iov iovcnt r c' b' :
  cdesc c p fd = Some o -> sys_writev c b p fd iov iovcnt = (r, c', b') ->
  (0 <= r -> r <= LXP_SYSCALL_QUANTUM_BYTES /\ r <= alen (payload (cmem c) iov (Z.to_nat iovcnt)) /\
     stream b' = stream b ++ take (Z.to_nat r) (payload (cmem c) iov (Z.to_nat iovcnt))) /\
  (r < 0 -> stream b' = stream b).
Proof.
  intros Hd E. unfold sys_writev in E. destruct (_ || _); [injection E as <- <- <-; split; [done|done]|].
  destruct (_ && _); [injection E as <- <- <-; split; [done|done]|]. rewrite Hd in E.
  destruct (writev_loop_spec p fd o stream _ _ _ _ 0 LXP_SYSCALL_QUANTUM_BYTES _ _ _ _ Hd ltac:(lia) ltac:(done) E) as (k & K1 & K2 & K3 & K4).
  split; intros Hr; destruct K4 as [->|(? & _ & ->)]; try lia.
  - rewrite Z.add_0_l. split_and!; [lia|done|done].
  - by rewrite K3, app_nil_r.
Qed.

(** *** A kind that takes at most five bytes at a time *)

#[local] Instance log_files : FileOps (list Z) := {|
  fops_present := fun k => (k >? 0) && (k <? LXP_FD_KIND_COUNT);
  fops_close := fun b _ => b; fops_node_open := fun b _ => (0, b); fops_node_close := fun b _ => b |}.

Definition log_write (c : coord unit) (b : list Z) (p o buf len : Z) : Z * coord unit * list Z :=
  let r := Z.min len 5 in (r, c, b ++ take (Z.to_nat r) (mem_read (cmem c) buf (Z.to_nat len))).

#[local] Instance log_table : FileTable unit (list Z) := {|
  g_lxp_file_ops := fun k => if k =? LXP_FD_TMPFS
    then Some (mk_file_ops None (Some log_write) None None None None None None None None None None None None None) else None;
  ft_pipes := fun _ => []; ft_put_pipes := fun b _ => b; ft_efds := fun _ => []; ft_put_efds := fun b _ => b; ft_hostfs_sync_all := fun b => (0, b) |}.

Lemma log_op c o w : vfs_op c o op_write = Some w -> w = log_write.
Proof.
  unfold vfs_op, lxp_vfs_ops. destruct (_ <? _); [|done]. cbn. destruct (_ =? LXP_FD_TMPFS); [|done]. cbn. by intros [= <-].
Qed.

#[local] Instance log_stream p fd o : StreamWrite (H := unit) p fd o (fun b : list Z => b).
Proof.
  split.
  - intros c b w buf len r c' b' ->%log_op [= <- <- <-]. done.
  - intros c b w buf len r c' b' ->%log_op Hl [= <- <- <-] Hr. split; [lia|done].
  - intros c b w buf len r c' b' ->%log_op [= <- <- <-] Hr. destruct (decide (len < 0)); [|lia].
    replace (Z.to_nat (Z.min len 5)) with 0%nat by lia. apply app_nil_r.
Qed.

(** "hello" and " world" as two segments at 0x20001000. *)
Definition demo_vec_coord : coord unit :=
  let k := mk_kst [mk_ofd 1 LXP_FD_TMPFS 0 0 LXP_O_RDWR 0 0] [files_zero] [] [] [demo_mm] [] in
  let k := set_entry k 0 0 (mk_fd 1 0) in
  let m := mem_write (fun _ => 0) 0x20001000 (bytes32 0x20001100 ++ bytes32 5 ++ bytes32 0x20001200 ++ bytes32 6) in
  let m := mem_write m 0x20001100 [104; 101; 108; 108; 111] in
  let m := mem_write m 0x20001200 [32; 119; 111; 114; 108; 100] in
  mk_coord tt (put_proc (set_rt_mem (set_rt_k demo_rt k) m) 0 (set_p_files demo_proc (Some 0))) [].

Lemma writev_delivers_prefix_witness :
  (sys_writev demo_vec_coord [] 0 0 0x20001000 2).1.1 = 10 /\ (sys_writev demo_vec_coord [] 0 0 0x20001000 2).2 = [104; 101; 108; 108; 111; 32; 119; 111; 114; 108].
Proof.
  destruct (sys_writev demo_vec_coord [] 0 0 0x20001000 2) as [[r c'] b'] eqn:E.
  assert (Hr : r = 10) by (apply (f_equal (fun x => x.1.1)) in E; vm_compute in E; congruence). subst r.
  destruct (writev_delivers_prefix (H := unit) 0 0 0 (fun b : list Z => b) demo_vec_coord [] 0x20001000 2 10 c' b' eq_refl E) as [Hok _].
  split; [reflexivity|]. destruct (Hok ltac:(lia)) as (_ & _ & Hs). rewrite Hs. vm_compute. reflexivity.
Defined.
