(* ===== verification/SysMm.v ===== *)
(** * Memory system calls (src/sys/lxp_sys_mm.c)

    The program break, anonymous and file mappings in the task's arena, and munmap, whose
    authority is the list of live mappings kept outside the arena.  A mapping of a file is the
    kind's own mapping or a private copy filled by a positioned read. *)

From S2P Require Import Prelude Config Proc Pool Fd Guest Pipe Vfs Arena ArenaSpec ArenaClient Process Runtime Region.
From S2P Require Import Signal SysSignal Stat SysFd.
Local Open Scope Z_scope.

Definition LXP_MAP_SHARED : Z := 0x01.
Definition LXP_MAP_ANONYMOUS : Z := 0x20.
Definition LXP_PROT_WRITE : Z := 0x2.

Section SysMm.
Context {H B : Type} `{FileOps B} `{FileTable H B}.
Implicit Types (c : coord H) (b : B) (p fd : Z).

Definition cmm c (mi : Z) : lxp_mm := aget mm_zero (k_mm (ckst c)) mi.
Definition put_cmm c (mi : Z) (mm : lxp_mm) : coord H := put_ckst c (set_k_mm (ckst c) (aset (k_mm (ckst c)) mi mm)).
Definition carena c (ai : Z) : lxp_arena := aget arena_zero (rt_arenas (c_rt c)) ai.
(** The arena and the memory it manages, stored back. *)
Definition put_carena c (m : mem) (ai : Z) (A : lxp_arena) : coord H := set_c_rt (set_cmem c m) (put_arena (c_rt (set_cmem c m)) ai A).
(** [p->mm->arena]. *)
Definition arena_of c p : option Z := match p_mm (cproc c p) with Some mi => mm_arena (cmm c mi) | None => None end.

Definition sys_mprotect (addr len prot : Z) : Z := 0.

Definition sys_brk c p (addr : Z) : Z * coord H :=
  match p_mm (cproc c p) with
  | None => (0, c)
  | Some mi =>
      let mm := cmm c mi in
      let mm' := if (addr >=? mm_brk_base mm) && (addr <=? mm_brk_max mm) then set_mm_brk_cur mm addr else mm in
      (s32 (mm_brk_cur mm'), put_cmm c mi mm')
  end.

(** The file's own answer, or [inr]: a private copy is made. *)
Definition mmap_file c b p (len prot flags fd pgoff : Z) : Z * coord H * B + coord H * B :=
  match cdesc c p fd with
  | None => inl (- LXP_EBADF, c, b)
  | Some o =>
      if negb (lxp_vfs_readable (cofd c o)) ||
         (has flags LXP_MAP_SHARED && has prot LXP_PROT_WRITE && negb (lxp_vfs_writable (cofd c o)))
      then inl (- LXP_EACCES, c, b)
      else match vfs_op c o op_mmap with
           | Some mmap => let '(r, c, b) := mmap c b p o len prot pgoff in
                          if negb (r =? - LXP_ENODEV) then inl (r, c, b) else inr (c, b)
           | None => inr (c, b)
           end
  end.

(** The copy in the arena [ai], filled from the file when [file]. *)
Definition mmap_copy c b p (ai len : Z) (file : bool) (fd pgoff : Z) : Z * coord H * B :=
  let '(a, m, A) := lxp_arena_alloc_tracked (cmem c) (carena c ai) len in
  if a =? 0 then (- LXP_ENOMEM, put_carena c m ai A, b)
  else
    let c := put_carena c (mem_set m a 0 len) ai A in
    if file
    then let '(r, c, b) := lxp_sys_fd_pread c b p fd a len (u32 (pgoff * 4096)) in
         if r <? 0
         then let '(_, m, A) := lxp_arena_free_tracked (cmem c) (carena c ai) a len in (r, put_carena c m ai A, b)
         else (s32 a, c, b)
    else (s32 a, c, b).

Definition sys_mmap2 c b p (addr len prot flags fd pgoff : Z) : Z * coord H * B :=
  match arena_of c p with
  | None => (- LXP_EINVAL, c, b)
  | Some ai =>
      if len =? 0 then (- LXP_EINVAL, c, b)
      else
        let file := negb (has flags LXP_MAP_ANONYMOUS) && (fd >=? 0) in
        match (if file then mmap_file c b p len prot flags fd pgoff else inr (c, b)) with
        | inl x => x
        | inr (c, b) => mmap_copy c b p ai len file fd pgoff
        end
  end.

Definition sys_munmap c p (addr len : Z) : Z * coord H :=
  match arena_of c p with
  | None => (- LXP_EINVAL, c)
  | Some ai =>
      if len =? 0 then (- LXP_EINVAL, c)
      else if negb (lxp_arena_owns (carena c ai) addr) then (0, c)
      else let '(ok, m, A) := lxp_arena_free_tracked (cmem c) (carena c ai) addr len in
           (if (ok : bool) then 0 else - LXP_EINVAL, put_carena c m ai A)
  end.

Implicit Types a : Z -> Z.
Definition lxp_sys_brk c p a := sys_brk c p (u32 (a 0)).
Definition lxp_sys_mmap2 c b p a := sys_mmap2 c b p (u32 (a 0)) (u32 (a 1)) (s32 (a 2)) (s32 (a 3)) (s32 (a 4)) (u32 (a 5)).
Definition lxp_sys_munmap c p a := sys_munmap c p (u32 (a 0)) (u32 (a 1)).
Definition lxp_sys_mprotect a := sys_mprotect (u32 (a 0)) (u32 (a 1)) (s32 (a 2)).
End SysMm.

(** * The mapping records and the arena *)

(** The live records. *)
Definition records (l : list (Z * Z)) : list (Z * Z) := filter (fun r => r.1 <> 0) l.

Lemma find_record (f : Z * Z -> bool) l i :
  find_first f l = Some i ->
  exists l1 (x : Z * Z) l2, l = l1 ++ x :: l2 /\ f x = true /\ forall y, aset l i y = l1 ++ y :: l2.
Proof.
  intros (l1 & x & l2 & -> & -> & Hf & _)%find_from_some. exists l1, x, l2. split_and!; [done|done|].
  intros y. unfold aset. replace (Z.to_nat (0 + alen l1)) with (length l1 + 0)%nat by (unfold alen; lia).
  by rewrite insert_app_r.
Qed.

Lemma records_mid l1 x l2 :
  x.1 <> 0 -> records (l1 ++ x :: l2) ≡ₚ x :: records (l1 ++ l2).
Proof.
  intros Hx. unfold records. rewrite !filter_app, filter_cons_True by done. by rewrite Permutation_middle.
Qed.

Lemma records_skip l1 x l2 : x.1 = 0 -> records (l1 ++ x :: l2) = records (l1 ++ l2).
Proof. intros Hx. unfold records. rewrite !filter_app, filter_cons_False by lia. done. Qed.

(** Every record names a live extent of the arena that holds its length, and no extent has two
    records. *)
Definition mapped (m : mem) (A : lxp_arena) (M : list (Z * Z)) : Prop :=
  exists L, arena_rep false m A L /\ records (ar_mappings A) ≡ₚ M /\ NoDup M.*1 /\
    forall a n, (a, n) ∈ M -> 0 < n /\ exists q, (a, q) ∈ L /\ n <= q.

(** Distinct mappings are disjoint: their extents are. *)
Lemma mapped_apart m A M a n M0 :
  mapped m A M -> M ≡ₚ (a, n) :: M0 -> forall e, e ∈ M0 -> apart (a, n) e.
Proof.
  intros (L & HR & _ & Hnd & Hin) HP [a' n'] He.
  destruct (Hin a n) as (_ & q & Hq & Hle); [rewrite HP; left|].
  destruct (Hin a' n') as (_ & q' & Hq' & Hle'); [rewrite HP; by right|].
  rewrite HP in Hnd. cbn [fmap list_fmap] in Hnd. apply NoDup_cons in Hnd as [Hn _].
  assert (a' <> a). { intros ->. apply Hn. apply list_elem_of_fmap. by exists (a, n'). }
  apply list_elem_of_split in Hq as (k1 & k2 & ->).
  assert (HP2 : k1 ++ (a, q) :: k2 ≡ₚ (a, q) :: (k1 ++ k2)) by by rewrite Permutation_middle.
  assert (Hq2 : (a', q') ∈ k1 ++ k2).
  { rewrite HP2 in Hq'. apply elem_of_cons in Hq' as [[=]|]; done. }
  pose proof (rep_disjoint _ _ _ _ _ _ _ HR HP2 _ Hq2) as D. unfold apart in *. cbn [fst snd] in *. lia.
Qed.

(** What an operation keeps of a set of mappings. *)
Lemma preserves_records m m' L M :
  preserves m m' L -> (forall a n, (a, n) ∈ M -> 0 < n /\ exists q, (a, q) ∈ L /\ n <= q) -> preserves m m' M.
Proof.
  intros HP Hin. apply preserves_intro. intros a n x Hm Hx. destruct (Hin a n Hm) as (_ & q & Hq & Hle).
  eapply preserves_load8; [done|exact Hq|lia].
Qed.

(** A tracked allocation adds one mapping, or fails and changes nothing. *)
Lemma alloc_tracked_mapped m A M len :
  mapped m A M -> 0 < len < 2 ^ 32 ->
  let '(a, m', A') := lxp_arena_alloc_tracked m A len in
  (a = 0 /\ m' = m /\ A' = A) \/
  0 < a /\ a mod 16 = 0 /\ ar_base A <= a /\ a + len <= ar_base A + ar_size A /\ ar_base A' = ar_base A /\ ar_size A' = ar_size A /\
    mapped m' A' ((a, len) :: M) /\ preserves m m' M /\ inside A m m'.
Proof.
  intros (L & HR & HM & Hnd & Hin) Hlen. unfold lxp_arena_alloc_tracked.
  destruct (find_first _ _) as [slot|] eqn:Ef; [|by left].
  destruct (find_record _ _ _ Ef) as (l1 & x & l2 & El & Hx & Hset). apply Z.eqb_eq in Hx.
  pose proof (alloc_client false m A L len HR ltac:(lia)) as HA.
  destruct (lxp_arena_alloc m A len) as [[a m'] A'] eqn:Ea.
  destruct HA as [(-> & -> & ->)|(cap & L' & Hcap & Ha & Ha16 & Hlo & Hhi & HR' & HL' & (Cb & Cs & _ & Cm) & Hap & Hpr & Hins)]; [by left|].
  destruct (Z.eqb_spec a 0) as [->|_]; [lia|]. right.
  assert (Hfresh : a ∉ M.*1).
  { intros ([a' n] & -> & Hi)%list_elem_of_fmap. cbn [fst] in *. destruct (Hin _ _ Hi) as (Hn & q & Hq & Hnq).
    specialize (Hap _ Hq). pose proof (rep_in_range false m A L _ _ HR Hq). unfold apart in Hap. cbn [fst snd] in Hap. lia. }
  split_and!; [done|done|lia|lia|done|done| |by eapply preserves_records|done].
  exists L'. split_and!.
  - by apply rep_mappings.
  - rewrite Cm. cbn [ar_mappings arena_set_mappings]. rewrite Hset, records_mid by (cbn; lia).
    rewrite <- (records_skip l1 x l2 Hx), <- El. by rewrite HM.
  - cbn [fmap list_fmap fst]. by apply NoDup_cons.
  - intros a' n [[= -> ->]|Hi]%elem_of_cons; [split; [lia|]; exists cap; rewrite HL'; split; [left|lia]|].
    destruct (Hin _ _ Hi) as (Hn & q & Hq & Hle). split; [done|]. exists q. rewrite HL'. split; [by right|done].
Qed.

(** A tracked release takes exactly a live record; anything else changes nothing. *)
Lemma free_tracked_mapped m A M a n :
  mapped m A M ->
  let '(ok, m', A') := lxp_arena_free_tracked m A a n in
  ((a, n) ∈ M /\ ok = true /\ ar_base A' = ar_base A /\ ar_size A' = ar_size A /\
     (exists M', M ≡ₚ (a, n) :: M' /\ mapped m' A' M') /\ preserves m m' M /\ inside A m m') \/
  (((a, n) ∉ M) /\ ok = false /\ m' = m /\ A' = A).
Proof.
  intros (L & HR & HM & Hnd & Hin). unfold lxp_arena_free_tracked.
  assert (Hz : forall n, (0, n) ∉ M).
  { intros n0 Hi. destruct (Hin _ _ Hi) as (_ & q & Hq & _). pose proof (rep_in_range _ _ _ _ _ _ HR Hq).
    pose proof (arena_rep_typed _ _ _ _ HR). lia. }
  destruct (Z.eqb_spec a 0) as [->|Ha]; [by right|].
  destruct (find_first _ _) as [i|] eqn:Ef.
  2:{ right. split_and!; try done. intros Hi. rewrite find_first_none_iff, Forall_forall in Ef.
      rewrite <- HM in Hi. unfold records in Hi. apply list_elem_of_filter in Hi as [_ Hi].
      specialize (Ef _ Hi). cbn [fst snd] in Ef. rewrite !Z.eqb_refl in Ef. done. }
  destruct (find_record _ _ _ Ef) as (l1 & [a0 n0] & l2 & El & Hx & Hset). cbn [fst snd] in Hx.
  apply andb_prop in Hx as [->%Z.eqb_eq ->%Z.eqb_eq].
  assert (HMeq : M ≡ₚ (a, n) :: records (l1 ++ l2)) by (rewrite <- HM, El; by apply records_mid).
  assert (Hi : (a, n) ∈ M) by (rewrite HMeq; left).
  destruct (Hin _ _ Hi) as (Hn & q & Hq & Hle).
  destruct (free_client _ _ _ _ _ _ HR Hq) as (m' & A' & L' & -> & HR' & HL & (Cb & Cs & _ & Cm) & _ & Hpr & Hins). cbn [negb]. left.
  split_and!; [done|done|done|done| |by eapply preserves_records|done].
  exists (records (l1 ++ l2)). split; [done|]. exists L'. split_and!.
  - by apply rep_mappings.
  - rewrite Cm. cbn [ar_mappings arena_set_mappings]. rewrite Hset, records_skip by done. done.
  - rewrite HMeq in Hnd. cbn [fmap list_fmap] in Hnd. by apply NoDup_cons in Hnd as [_ ?].
  - intros a' n' Hi'. destruct (Hin a' n') as (Hn' & q' & Hq' & Hle'); [rewrite HMeq; by right|].
    split; [done|]. exists q'. split; [|done]. rewrite HL in Hq'. apply elem_of_cons in Hq' as [[= -> ->]|]; [|done].
    exfalso. rewrite HMeq in Hnd. cbn [fmap list_fmap fst] in Hnd. apply NoDup_cons in Hnd as [Hd _]. apply Hd.
    apply list_elem_of_fmap. by exists (a, n').
Qed.

(** Zeroing a new mapping keeps every record and every other mapping. *)
Lemma mapped_zero m A M a n :
  mapped m A ((a, n) :: M) ->
  mapped (mem_set m a 0 n) A ((a, n) :: M) /\ preserves m (mem_set m a 0 n) M /\ inside A m (mem_set m a 0 n).
Proof.
  intros HM. pose proof (mapped_apart _ _ _ _ _ M HM ltac:(done)) as Hap.
  destruct HM as (L & HR & HP & Hnd & Hin). destruct (Hin a n) as (Hn & q & Hq & Hle); [left|].
  pose proof (rep_in_range _ _ _ _ _ _ HR Hq). unfold mem_set. split_and!.
  - exists L. split_and!; try done. eapply rep_write; [done|exact Hq|lia|]. rewrite length_replicate. lia.
  - apply preserves_intro. intros a' n' x Hi Hx. apply load8_write_out. specialize (Hap _ Hi). unfold apart in Hap. cbn [fst snd] in Hap.
    rewrite length_replicate. lia.
  - apply inside_write; [lia|]. rewrite length_replicate. lia.
Qed.

(** * The calls on the set of mappings *)

(** An anonymous mapping with its length and its other arguments, and an unmapping. *)
Inductive mm_call := MmapAnon (len : Z) (addr prot flags fd pgoff : Z) | Munmap (addr len : Z).

Definition mm_call_ok (call : mm_call) : Prop :=
  match call with
  | MmapAnon len _ _ flags fd _ => 0 <= len < 2 ^ 32 /\ (has flags LXP_MAP_ANONYMOUS = true \/ fd < 0)
  | Munmap _ len => 0 <= len < 2 ^ 32
  end.

(** What the calls promise, on the set of mappings alone. *)
Inductive mm_spec (owns : Z -> bool) (M : list (Z * Z)) : mm_call -> Z -> list (Z * Z) -> Prop :=
  | Spec_nomem len addr prot flags fd pgoff : 0 < len -> mm_spec owns M (MmapAnon len addr prot flags fd pgoff) (- LXP_ENOMEM) M
  | Spec_map len addr prot flags fd pgoff a : 0 < len -> a mod 16 = 0 -> owns a = true -> owns (a + len - 1) = true ->
      (forall e, e ∈ M -> apart (a, len) e) -> mm_spec owns M (MmapAnon len addr prot flags fd pgoff) (s32 a) ((a, len) :: M)
  | Spec_empty_map addr prot flags fd pgoff : mm_spec owns M (MmapAnon 0 addr prot flags fd pgoff) (- LXP_EINVAL) M
  | Spec_unmap a n M' : M ≡ₚ (a, n) :: M' -> mm_spec owns M (Munmap a n) 0 M'
  | Spec_refused a n : (a, n) ∉ M -> owns a = true -> mm_spec owns M (Munmap a n) (- LXP_EINVAL) M
  | Spec_foreign a n : (a, n) ∉ M -> owns a = false -> 0 < n -> mm_spec owns M (Munmap a n) 0 M
  | Spec_empty_unmap a : mm_spec owns M (Munmap a 0) (- LXP_EINVAL) M.

Section MmCalls.
Context {H B : Type} `{FileOps B} `{FileTable H B}.
Implicit Types (c : coord H) (b : B) (p : Z).

Definition run_mm c b p (call : mm_call) : Z * coord H * B :=
  match call with
  | MmapAnon len addr prot flags fd pgoff => sys_mmap2 c b p addr len prot flags fd pgoff
  | Munmap addr len => let '(r, c) := sys_munmap c p addr len in (r, c, b)
  end.

(** Task [p] owns the arena [ai], and its mappings are [M]. *)
Definition maps c p (ai : Z) (M : list (Z * Z)) : Prop :=
  arena_of c p = Some ai /\ 0 <= ai < alen (rt_arenas (c_rt c)) /\ mapped (cmem c) (carena c ai) M.

(** What a call leaves: the new set of mappings, the bytes of the old ones and everything
    outside the arena, and zeros in a new mapping. *)
Definition mm_outcome c p ai M call r c' : Prop :=
  exists M', mm_spec (lxp_arena_owns (carena c ai)) M call r M' /\ maps c' p ai M' /\
    preserves (cmem c) (cmem c') M /\ inside (carena c ai) (cmem c) (cmem c') /\
    (forall a n, M' = (a, n) :: M -> mem_read (cmem c') a (Z.to_nat n) = replicate (Z.to_nat n) 0).

Lemma maps_put c p ai m A M : 0 <= ai < alen (rt_arenas (c_rt c)) -> arena_of c p = Some ai -> mapped m A M -> maps (put_carena c m ai A) p ai M.
Proof.
  intros Hai Hof HM. split_and!; [done| | |].
  1,2: change (rt_arenas (c_rt (put_carena c m ai A))) with (aset (rt_arenas (c_rt c)) ai A); rewrite ?alen_aset; lia.
  change (carena (put_carena c m ai A) ai) with (aget arena_zero (aset (rt_arenas (c_rt c)) ai A) ai). by rewrite aget_aset_eq.
Qed.

Lemma put_carena_same c ai : 0 <= ai < alen (rt_arenas (c_rt c)) -> put_carena c (cmem c) ai (carena c ai) = c.
Proof.
  intros Hai. destruct c as [h R s]. unfold put_carena, put_arena, carena, cmem, set_cmem. cbn. rewrite aset_aget by done. by destruct R.
Qed.

Lemma outcome_same c p ai M call r :
  maps c p ai M -> mm_spec (lxp_arena_owns (carena c ai)) M call r M -> mm_outcome c p ai M call r c.
Proof.
  intros HM HS. exists M. split_and!; try done. intros a n E. apply (f_equal length) in E. cbn in E. lia.
Qed.

Lemma owns_range A a : 0 < ar_base A -> ar_base A + ar_size A < 2 ^ 32 -> ar_base A <= a < ar_base A + ar_size A -> lxp_arena_owns A a = true.
Proof.
  intros Hb He Ha. unfold lxp_arena_owns, UINTPTR_MAX. destruct (Z.eqb_spec a 0); [lia|]. destruct (Z.gtb_spec (ar_base A) (2 ^ 32 - 1 - ar_size A)); [lia|]. lia.
Qed.

Lemma mmap_exact c b p ai M len addr prot flags fd pgoff r c' b' :
  maps c p ai M -> mm_call_ok (MmapAnon len addr prot flags fd pgoff) -> sys_mmap2 c b p addr len prot flags fd pgoff = (r, c', b') ->
  mm_outcome c p ai M (MmapAnon len addr prot flags fd pgoff) r c' /\ b' = b.
Proof.
  intros HM [Hlen Hanon] E. pose proof HM as (Hof & Hai & Hmap). unfold sys_mmap2 in E. rewrite Hof in E.
  destruct (Z.eqb_spec len 0) as [->|Hl0]; [injection E as <- <- <-; split; [apply outcome_same; [done|constructor]|done]|].
  assert (Hf : negb (has flags LXP_MAP_ANONYMOUS) && (fd >=? 0) = false).
  { destruct Hanon as [->|]; [done|]. apply andb_false_intro2. lia. }
  rewrite Hf in E. unfold mmap_copy in E.
  pose proof (alloc_tracked_mapped _ _ _ len Hmap ltac:(lia)) as HA.
  destruct (lxp_arena_alloc_tracked (cmem c) (carena c ai) len) as [[a m] A] eqn:Ea.
  destruct HA as [(-> & -> & ->)|(Ha & H16 & Hlo & Hhi & Cb & Cs & Hmap' & Hpr & Hins)].
  { cbn [Z.eqb] in E. injection E as <- <- <-. rewrite put_carena_same by done. split; [|done]. apply outcome_same; [done|constructor; lia]. }
  destruct (Z.eqb_spec a 0); [lia|]. injection E as <- <- <-. split; [|done].
  destruct (mapped_zero _ _ _ _ _ Hmap') as (Hz & Hzp & Hzi).
  destruct Hmap as (L & HR & _). pose proof (arena_rep_typed _ _ _ _ HR) as (Tb & Ts & Te).
  exists ((a, len) :: M). split_and!.
  - constructor; [lia|done|apply owns_range; lia|apply owns_range; lia|]. by eapply mapped_apart.
  - by apply maps_put.
  - intros a' n' Hi. change (cmem (put_carena c (mem_set m a 0 len) ai A)) with (mem_set m a 0 len). rewrite Hzp by done. by apply Hpr.
  - by eapply inside_trans.
  - intros a' n' [= <- <-]. change (cmem (put_carena c (mem_set m a 0 len) ai A)) with (mem_set m a 0 len). unfold mem_set.
    pose proof (mem_read_write_same m a (replicate (Z.to_nat len) 0)) as Hrw. rewrite length_replicate in Hrw. by rewrite Hrw, fmap_replicate.
Qed.

Lemma munmap_exact c p ai M addr len r c' :
  maps c p ai M -> mm_call_ok (Munmap addr len) -> sys_munmap c p addr len = (r, c') -> mm_outcome c p ai M (Munmap addr len) r c'.
Proof.
  intros HM Hlen E. pose proof HM as (Hof & Hai & Hmap). unfold sys_munmap in E. rewrite Hof in E. cbn [mm_call_ok] in Hlen.
  destruct (Z.eqb_spec len 0) as [->|Hl0]; [injection E as <- <-; apply outcome_same; [done|apply Spec_empty_unmap]|].
  pose proof Hmap as (L & HR & HP & Hnd & Hin). pose proof (arena_rep_typed _ _ _ _ HR) as (Tb & Ts & Te).
  destruct (lxp_arena_owns (carena c ai) addr) eqn:Eo; cbn [negb] in E.
  2:{ injection E as <- <-. apply outcome_same; [done|]. apply Spec_foreign; [|done|lia].
      intros Hi. destruct (Hin _ _ Hi) as (_ & q & Hq & _). pose proof (rep_in_range _ _ _ _ _ _ HR Hq).
      rewrite owns_range in Eo by lia. done. }
  pose proof (free_tracked_mapped _ _ _ addr len Hmap) as HF.
  destruct (lxp_arena_free_tracked (cmem c) (carena c ai) addr len) as [[ok m] A].
  destruct HF as [(Hi & -> & Cb & Cs & (M' & HM' & Hmap') & Hpr & Hins)|(Hi & -> & -> & ->)]; injection E as <- <-.
  - exists M'. split_and!; [by apply Spec_unmap|by apply maps_put|done|done|].
    intros a n ->. apply Permutation_length in HM'. cbn in HM'. lia.
  - rewrite put_carena_same by done. apply outcome_same; [done|by apply Spec_refused].
Qed.
End MmCalls.

(** C14: the memory calls refine the set of mappings.  From an arena whose block headers are
    sound and whose records are the set, an anonymous mmap of no bytes is EINVAL; any other
    fails with ENOMEM and changes nothing, or adds one aligned, zero-filled mapping inside the
    arena that overlaps no other; munmap of an arena address succeeds exactly when the address
    and the length are those of a live mapping, and otherwise changes nothing (EINVAL inside
    the arena or for no bytes, a successful no-op outside).  No call changes a byte of another
    mapping or outside the arena. *)
Theorem mm_calls_exact {H B} `{FileOps B} `{FileTable H B} (c : coord H) (b : B) p ai M call r c' b' :
  maps c p ai M -> mm_call_ok call -> run_mm c b p call = (r, c', b') -> mm_outcome c p ai M call r c' /\ b' = b.
Proof.
  intros HM Hc E. destruct call as [len addr prot flags fd pgoff|addr len]; [by eapply mmap_exact|].
  cbn [run_mm] in E. destruct (sys_munmap c p addr len) as [r1 c1] eqn:Eu. injection E as <- <- <-.
  split; [|done]. by eapply munmap_exact.
Qed.

(** A task whose arena of 256 bytes at 4096 has two free mapping records. *)
Definition demo_arena : mem * lxp_arena :=
  let '(_, m, A) := lxp_arena_init (fun _ => 0) (mk_arena 0 0 0 0 0 [(0, 0); (0, 0)]) 4096 256 in (m, A).
Definition demo_maps : coord unit :=
  let mm := mk_mm 1 1 1 (Some 0) 0 0 0 (mk_ref 0 1) 0 0 0 0 0 0 0 0 [0; 0] [0; 0] [0; 0] in
  let k := mk_kst [] [files_zero] [] [] [mm] [] in
  let R := set_rt_arenas (set_rt_mem (set_rt_k demo_rt k) demo_arena.1) [demo_arena.2] in
  mk_coord tt (put_proc R 0 demo_proc) [].
#[local] Existing Instances log_files log_table.

Lemma mm_calls_exact_witness :
  let '(r, c, _) := run_mm demo_maps [] 0 (MmapAnon 20 0 3 0x22 (-1) 0) in
  r = 4112 /\ mm_outcome demo_maps 0 0 [] (MmapAnon 20 0 3 0x22 (-1) 0) r c /\ (run_mm c [] 0 (Munmap 4112 20)).1.1 = 0 /\ (run_mm c [] 0 (Munmap 4112 16)).1.1 = - LXP_EINVAL.
Proof.
  destruct (run_mm demo_maps [] 0 (MmapAnon 20 0 3 0x22 (-1) 0)) as [[r c] b] eqn:E.
  assert (Hc : c = (run_mm demo_maps [] 0 (MmapAnon 20 0 3 0x22 (-1) 0)).1.2) by (rewrite E; reflexivity).
  assert (HM : maps demo_maps 0 0 []).
  { split; [reflexivity|]. split; [vm_compute; split; [discriminate|reflexivity]|]. exists []. split; [|split; [|split]].
    - exists [(240, true)]. split; [|split; [discriminate|reflexivity]].
      unfold arena_inv. split_and!; try (vm_compute; congruence); try (vm_compute; reflexivity).
      + repeat constructor; vm_compute; congruence.
      + cbn [tiles]. unfold hdr_ok. split_and!; vm_compute; reflexivity.
    - reflexivity.
    - constructor.
    - intros a n Hi. inversion Hi. }
  destruct (mm_calls_exact demo_maps [] 0 0 [] (MmapAnon 20 0 3 0x22 (-1) 0) r c b HM) as [HO _]; [|exact E|].
  { split; [lia|left; reflexivity]. }
  assert (Hr : r = 4112) by (apply (f_equal (fun x => x.1.1)) in E; vm_compute in E; congruence).
  split; [exact Hr|]. split; [exact HO|]. subst c. split; vm_compute; reflexivity.
Defined.
