(* ===== verification/Overlay.v ===== *)
(** * The root mount and the mount table (src/fs/lxp_overlay.c, src/fs/lxp_mount.c)

    The root mount is the writable tmpfs over the read-only rootfs; the mount table picks the
    namespace that answers a path.  [fs] is the task's rootfs table and [b] the backing state
    that holds the tmpfs (class [RootMount]).  A copy out of a rootfs entry takes the bytes of
    the entry, which are none where the table has a NULL. *)

From S2P Require Import Prelude Config Proc Pool Path Guest Fd Vfs Arena Tmpfs Stat.
Local Open Scope Z_scope.

Definition LXP_O_CREAT : Z := 0x40.
Definition LXP_O_TRUNC : Z := 0x200.
Definition LXP_O_APPEND : Z := 0x400.
Definition LXP_INO_ROOTFS : Z := 0x000001.
Definition LXP_INO_TMPFS : Z := 0x100000.

(** Where the backing state keeps the tmpfs. *)
Class RootMount (B : Type) := { rm_wfs : B -> wfs; rm_put : B -> wfs -> B }.

Definition set_w_mode (w : lxp_wnode) (v : Z) : lxp_wnode :=
  mk_wnode (w_path w) v (w_data w) (w_size w) (w_cap w) (w_used w) (w_open_refs w) (w_linked w).

Section Overlay.
Context (pool : Z) (fs : list lxp_file).
Implicit Types (F : wfs) (path : list Z).

Definition is_dir (mode : Z) : bool := Z.land mode LXP_S_IFMT =? LXP_S_IFDIR.
Definition is_lnk (mode : Z) : bool := Z.land mode LXP_S_IFMT =? LXP_S_IFLNK.
Definition lxp_fs_lookup path : Z := fsx_lookup fs path.
Definition lxp_fs_follow (idx : Z) : Z := fsx_follow fs idx.
Definition file_at (i : Z) : lxp_file := aget no_file fs i.

(** ** Opening *)

(** What a write or creating open of [path] opens: the node, created or truncated. *)
Definition open_write_node F path (flags : Z) : (Z + Z) * wfs :=
  let wi := lxp_wfs_find F path in
  if wi <? 0
  then
    let fi := lxp_fs_lookup path in
    if fi >=? 0
    then let fi := lxp_fs_follow fi in
         (inl (if (fi >=? 0) && is_dir (lxp_file_mode (file_at fi)) then - LXP_EISDIR else - LXP_EROFS), F)
    else if negb (has flags LXP_O_CREAT) then (inl (- LXP_ENOENT), F)
    else let '(wi, F) := lxp_wfs_create F path (Z.lor LXP_S_IFREG 0x1a4) in
         if wi <? 0 then (inl (- LXP_EMFILE), F) else (inr wi, F)
  else if is_dir (w_mode (lxp_wnode_at F wi)) then (inl (- LXP_EISDIR), F)
  else (inr wi, if has flags LXP_O_TRUNC then put_wnode F wi (set_w_size (lxp_wnode_at F wi) 0) else F).

Definition overlay_open {B} `{FileOps B} `{RootMount B} (k : kst) (b : B) (t : option Z) path (flags : Z) : Z * kst * B :=
  if negb (Z.land flags LXP_O_ACCMODE =? LXP_O_RDONLY) || has flags LXP_O_CREAT
  then match open_write_node (rm_wfs b) path flags with
       | (inl e, F) => (e, k, rm_put b F)
       | (inr wi, F) =>
           lxp_sys_fd_alloc k (rm_put b F) t LXP_FD_TMPFS wi
             (if has flags LXP_O_APPEND then w_size (lxp_wnode_at F wi) else 0) flags
       end
  else
    let wi := lxp_wfs_find (rm_wfs b) path in
    if wi >=? 0 then lxp_sys_fd_alloc k b t LXP_FD_TMPFS wi 0 flags
    else let fi := lxp_fs_follow (lxp_fs_lookup path) in
         if fi >=? 0 then lxp_sys_fd_alloc k b t LXP_FD_FILE fi 0 flags else (- LXP_ENOENT, k, b).

(** ** Attributes and name changes *)

Definition overlay_stat F path (follow : bool) : Z + lxp_stat :=
  let wi := lxp_wfs_find F path in
  if wi >=? 0 then inr (lxp_stat_init (u32 (LXP_INO_TMPFS + wi)) (w_mode (lxp_wnode_at F wi)) (w_size (lxp_wnode_at F wi)))
  else
    let fi := lxp_fs_lookup path in
    let fi := if (fi >=? 0) && follow then lxp_fs_follow fi else fi in
    if fi >=? 0 then inr (lxp_stat_init (u32 (LXP_INO_ROOTFS + fi)) (lxp_file_mode (file_at fi)) (f_size (file_at fi)))
    else if (aget 0 path 0 =? SLASH) && (aget 0 path 1 =? 0)
    then inr (lxp_stat_init (u32 (LXP_INO_ROOTFS + alen fs)) (Z.lor LXP_S_IFDIR 0x1ed) 0)
    else inl (- LXP_ENOENT).

Definition overlay_exists F path : bool := match overlay_stat F path false with inr _ => true | inl _ => false end.

Definition overlay_mkdir F path (mode : Z) : Z * wfs :=
  if overlay_exists F path then (- LXP_EEXIST, F)
  else let '(wi, F) := lxp_wfs_create F path (Z.lor LXP_S_IFDIR (Z.land mode 0x1ff)) in
       (if wi <? 0 then - LXP_ENOSPC else 0, F).

Definition overlay_remove F path (dir : bool) : Z * wfs :=
  let wi := lxp_wfs_find F path in
  if wi <? 0 then (if lxp_fs_lookup path >=? 0 then - LXP_EROFS else - LXP_ENOENT, F)
  else
    let node_is_dir := is_dir (w_mode (lxp_wnode_at F wi)) in
    if dir && negb node_is_dir then (- LXP_ENOTDIR, F)
    else if negb dir && node_is_dir then (- LXP_EISDIR, F)
    else if node_is_dir && existsb (fun w => w_used w && match lxp_path_child_name path (w_path w) with Some _ => true | None => false end) (f_nodes F)
    then (- LXP_ENOTEMPTY, F)
    else (0, lxp_wfs_free F wi).

(** Reserve, copy and set the size of a node just created; on failure the node goes. *)
Definition fill_node F (wi : Z) (bytes : list Z) (len : Z) : Z * wfs :=
  let '(r, F) := lxp_wfs_reserve pool F wi len in
  if r <? 0 then (- LXP_ENOSPC, lxp_wfs_free F wi)
  else let F := set_f_mem F (mem_write (f_mem F) (w_data (lxp_wnode_at F wi)) (take (Z.to_nat len) bytes)) in
       (0, put_wnode F wi (set_w_size (lxp_wnode_at F wi) len)).

Definition overlay_symlink F (target : list Z) (target_len : Z) path : Z * wfs :=
  if overlay_exists F path then (- LXP_EEXIST, F)
  else let '(wi, F) := lxp_wfs_create F path (Z.lor LXP_S_IFLNK 0x1ff) in
       if wi <? 0 then (- LXP_ENOSPC, F) else fill_node F wi target target_len.

(** The bytes, size and mode of a tmpfs or rootfs name. *)
Definition name_data F path : option (option (list Z) * Z * Z) :=
  let wi := lxp_wfs_find F path in
  if wi >=? 0
  then let w := lxp_wnode_at F wi in
       Some (if w_data w =? 0 then None else Some (mem_read (f_mem F) (w_data w) (Z.to_nat (w_size w))), w_size w, w_mode w)
  else let fi := lxp_fs_lookup path in
       if fi <? 0 then None else Some (f_data (file_at fi), f_size (file_at fi), lxp_file_mode (file_at fi)).

Definition overlay_link F (from to : list Z) : Z * wfs :=
  if overlay_exists F to then (- LXP_EEXIST, F)
  else match name_data F from with
       | None => (- LXP_ENOENT, F)
       | Some (src, len, mode) =>
           if is_dir mode then (- LXP_EPERM, F)
           else let '(ni, F) := lxp_wfs_create F to (Z.lor LXP_S_IFREG (Z.land mode 0x1ff)) in
                if ni <? 0 then (- LXP_ENOSPC, F)
                else if len >? 0 then fill_node F ni (default [] src) len
                else (0, F)
       end.

Definition overlay_rename F (from to : list Z) : Z * wfs :=
  let wi := lxp_wfs_find F from in
  if wi <? 0 then (if lxp_fs_lookup from >=? 0 then - LXP_EROFS else - LXP_ENOENT, F)
  else if (lxp_wfs_find F to <? 0) && (lxp_fs_lookup to >=? 0) then (- LXP_EROFS, F)
  else lxp_wfs_rename F wi to.

Definition overlay_chmod F path (mode : Z) : Z * wfs :=
  let wi := lxp_wfs_find F path in
  if wi >=? 0
  then let w := lxp_wnode_at F wi in
       (0, put_wnode F wi (set_w_mode w (Z.lor (Z.land (w_mode w) LXP_S_IFMT) (Z.land mode 0x1ff))))
  else (if overlay_exists F path then 0 else - LXP_ENOENT, F).

Definition overlay_utimens F path : Z := if overlay_exists F path then 0 else - LXP_ENOENT.

(** ** Lookups *)

Definition overlay_readlink F path (cap : Z) : Z + list Z :=
  match name_data F path with
  | None => inl (if overlay_exists F path then - LXP_EINVAL else - LXP_ENOENT)
  | Some (data, size, mode) =>
      match data with
      | Some bytes => if negb (is_lnk mode) then inl (- LXP_EINVAL)
                      else inr (take (Z.to_nat (if size <? cap then size else cap)) bytes)
      | None => inl (- LXP_EINVAL)
      end
  end.

(** The target, or [[]] for any other name. *)
Definition lxp_overlay_foreign_link F path (cap : Z) : list Z :=
  let wi := lxp_wfs_find F path in
  let foreign :=
    if wi >=? 0 then is_lnk (w_mode (lxp_wnode_at F wi))
    else let fi := lxp_fs_lookup path in
         negb ((fi <? 0) || negb (is_lnk (lxp_file_mode (file_at fi))) || (lxp_fs_follow fi >=? 0)) in
  if foreign then match overlay_readlink F path cap with inr t => t | inl _ => [] end else [].

Definition overlay_access F path (mode : Z) : Z :=
  match overlay_stat F path false with
  | inl e => e
  | inr st => if has mode 2 && (lxp_wfs_find F path <? 0) && negb (is_dir (st_mode st)) then - LXP_EROFS else 0
  end.

(** The new working directory. *)
Definition overlay_chdir F path : Z + list Z :=
  match overlay_stat F path true with
  | inl e => inl e
  | inr st =>
      if negb (is_dir (st_mode st)) then inl (- LXP_ENOTDIR)
      else
        let dir := if lxp_wfs_find F path <? 0
                   then let fi := lxp_fs_follow (lxp_fs_lookup path) in if fi >=? 0 then f_path (file_at fi) else path
                   else path in
        if alen dir >=? LXP_PATH_MAX then inl (- LXP_ENAMETOOLONG) else inr dir
  end.

(** The program's bytes, its size and its rootfs index or -1. *)
Definition overlay_exec F path : Z + (option (list Z) * Z * Z) :=
  let wi := lxp_wfs_find F path in
  if wi >=? 0
  then let w := lxp_wnode_at F wi in
       if is_dir (w_mode w) then inl (- LXP_EACCES)
       else inr (if w_data w =? 0 then None else Some (mem_read (f_mem F) (w_data w) (Z.to_nat (w_size w))), w_size w, -1)
  else
    let fi := lxp_fs_follow (lxp_fs_lookup path) in
    if fi <? 0 then inl (- LXP_ENOENT)
    else if is_dir (lxp_file_mode (file_at fi)) then inl (- LXP_EACCES)
    else inr (f_data (file_at fi), f_size (file_at fi), fi).
End Overlay.

(** * The mount table *)

(** The namespaces, in the order of [g_mounts] (hostfs and netfs built in). *)
Inductive mount_id := M_procfs | M_devfs | M_hostfs | M_netfs | M_overlay.
#[export] Instance mount_id_eq : EqDecision mount_id.
Proof. solve_decision. Defined.

Definition proc_point : list Z := [47; 112; 114; 111; 99].
Definition dev_point : list Z := [47; 100; 101; 118].
Definition root_point : list Z := [47].
Definition g_mounts : list mount_id := [M_procfs; M_devfs; M_hostfs; M_netfs; M_overlay].

Section Mounts.
(** The mountpoints that move, and the nodes of /dev. *)
Context (hostfs_point : list Z) (netfs_point : option (list Z)) (devfs_holds : list Z -> bool).

Definition point (m : mount_id) : option (list Z) :=
  match m with
  | M_procfs => Some proc_point
  | M_devfs => Some dev_point
  | M_hostfs => Some hostfs_point
  | M_netfs => netfs_point
  | M_overlay => Some root_point
  end.

(** [!ops->holds || ops->holds(p, path)]. *)
Definition answers (path : list Z) (m : mount_id) : bool :=
  match m with M_devfs => devfs_holds path | _ => true end.

(** The length of the mountpoint when it is above the path, or 0. *)
Definition above (path : list Z) (m : mount_id) : Z :=
  match point m with Some pt => lxp_path_under path pt | None => 0 end.

Fixpoint best_mount (path : list Z) (below : Z) (ms : list mount_id) (best : option mount_id) (best_len : Z) : option mount_id * Z :=
  match ms with
  | [] => (best, best_len)
  | m :: ms => let n := above path m in
               if (n >? best_len) && (n <? below) then best_mount path below ms (Some m) n
               else best_mount path below ms best best_len
  end.

Fixpoint mount_loop (fuel : nat) (path : list Z) (below : Z) : option mount_id :=
  match fuel with
  | O => None
  | S fuel => match best_mount path below g_mounts None 0 with
              | (None, _) => Some M_overlay
              | (Some m, len) => if answers path m then Some m else mount_loop fuel path len
              end
  end.

(** Each round passes over at least one mount. *)
Definition lxp_mount_of (path : list Z) : mount_id :=
  match mount_loop (S (length g_mounts)) path SIZE_MAX with Some m => m | None => M_overlay end.

Definition lxp_mount_occupied (path : list Z) : bool :=
  existsb (fun m => match m with M_overlay | M_hostfs => false | _ => negb (above path m =? 0) end) g_mounts.

Section Follow.
Context (foreign_link : list Z -> list Z).

(** [hops] links may still be followed. *)
Fixpoint follow_mounts (hops : nat) (abspath : list Z) : path_result :=
  let target := if decide (lxp_mount_of abspath = M_overlay) then foreign_link abspath else [] in
  match target with
  | [] => inr abspath
  | _ => match hops with
         | O => inl (- LXP_ELOOP)
         | S hops => match lxp_path_link_target abspath target (alen target) LXP_PATH_MAX with
                     | inl rc => inl rc
                     | inr next => follow_mounts hops next
                     end
         end
  end.

Definition lxp_mount_follow (abspath : list Z) : path_result := follow_mounts (Z.to_nat LXP_SYMLOOP_MAX) abspath.
End Follow.

(** ** The longest mountpoint wins *)

Lemma best_mount_spec path below ms : forall best len r n,
  0 <= len -> best_mount path below ms best len = (r, n) ->
  (r = best /\ n = len /\ Forall (fun m => above path m < below -> above path m <= len) ms) \/
  exists l1 m l2, ms = l1 ++ m :: l2 /\ r = Some m /\ n = above path m /\ len < n < below /\
    Forall (fun m' => above path m' < below -> above path m' < n) l1 /\ Forall (fun m' => above path m' < below -> above path m' <= n) l2.
Proof.
  induction ms as [|m ms IH]; intros best len r n Hlen E; cbn [best_mount] in E; [injection E as <- <-; by left|].
  set (x := above path m) in *. destruct (Z.gtb_spec x len) as [Hx|Hx]; [destruct (Z.ltb_spec x below) as [Hb|Hb]|]; cbn [andb] in E.
  - right. destruct (IH (Some m) x r n ltac:(lia) E) as [(-> & -> & HF)|(l1 & m' & l2 & -> & -> & -> & Hn & H1 & H2)].
    + exists [], m, ms. split_and!; try done; lia.
    + exists (m :: l1), m', l2. split_and!; try done; try lia. constructor; [fold x; lia|done].
  - destruct (IH _ _ _ _ Hlen E) as [(-> & -> & HF)|(l1 & m' & l2 & -> & -> & -> & Hn & H1 & H2)].
    + left. split_and!; try done. constructor; [fold x; lia|done].
    + right. exists (m :: l1), m', l2. split_and!; try done; try lia. constructor; [fold x; lia|done].
  - destruct (IH _ _ _ _ Hlen E) as [(-> & -> & HF)|(l1 & m' & l2 & -> & -> & -> & Hn & H1 & H2)].
    + left. split_and!; try done. constructor; [fold x; lia|done].
    + right. exists (m :: l1), m', l2. split_and!; try done; try lia. constructor; [fold x; lia|done].
Qed.

(** The mounts a round can still pass over. *)
Definition candidates (path : list Z) (below : Z) : list mount_id := filter (fun m => 0 < above path m < below) g_mounts.

Lemma above_le path m : above path m <= match point m with Some pt => alen pt | None => 0 end.
Proof.
  unfold above. destruct (point m) as [pt|]; [|done]. unfold lxp_path_under.
  assert (0 <= alen pt) by (unfold alen; lia). destruct (Z.eqb_spec (alen pt) 1); repeat case_match; lia.
Qed.

(** Two mountpoints of equal length above one path are equal. *)
Lemma above_same path m1 m2 p1 p2 :
  point m1 = Some p1 -> point m2 = Some p2 -> 1 < above path m1 -> above path m1 = above path m2 -> p1 = p2.
Proof.
  unfold above. intros -> ->. unfold lxp_path_under. intros H1 H2.
  destruct ((alen p1 =? 1) && _) eqn:E1; [destruct (aget 0 path 0 =? SLASH); lia|].
  destruct ((alen p2 =? 1) && _) eqn:E2; [destruct (aget 0 path 0 =? SLASH); destruct (_ || negb _); try destruct (_ || _); lia|].
  destruct (bool_decide_reflect (take (length p1) path = p1)) as [T1|T1]; [|rewrite orb_true_r in H1; lia].
  destruct (alen p1 =? 0); cbn [negb orb] in *; [lia|]. destruct (_ || _) in H1, H2; [|lia].
  destruct (bool_decide_reflect (take (length p2) path = p2)) as [T2|T2]; [|rewrite orb_true_r in H2; lia].
  destruct (alen p2 =? 0); cbn [negb orb] in *; [lia|]. destruct (_ || _) in H2; [|lia].
  unfold alen in H2. rewrite <- T1, <- T2. f_equal. lia.
Qed.

(** What the lookup promises: the mount that answers the path and has the longest mountpoint
    above it, the first listed on a tie. *)
Definition longest (path : list Z) (m : mount_id) : Prop :=
  exists l1 l2, g_mounts = l1 ++ m :: l2 /\ answers path m = true /\ 0 < above path m /\
    Forall (fun m' => answers path m' = true -> above path m' < above path m) l1 /\
    Forall (fun m' => answers path m' = true -> above path m' <= above path m) l2.

Lemma length_filter_mono {A} (P Q : A -> Prop) `{!forall x, Decision (P x)} `{!forall x, Decision (Q x)} (l : list A) :
  (forall x, P x -> Q x) -> (length (filter P l) <= length (filter Q l))%nat.
Proof.
  intros HPQ. induction l as [|x l IH]; [done|]. rewrite !filter_cons. destruct (decide (P x)) as [p|p].
  - rewrite decide_True by auto. cbn. lia.
  - destruct (decide (Q x)); cbn; lia.
Qed.

Lemma candidates_shrink path below m l1 l2 :
  g_mounts = l1 ++ m :: l2 -> 0 < above path m < below -> (length (candidates path (above path m)) < length (candidates path below))%nat.
Proof.
  unfold candidates. intros -> Hm. rewrite !filter_app, !filter_cons, !length_app.
  rewrite decide_False by lia. rewrite decide_True by done. cbn [length].
  pose proof (length_filter_mono (fun x => 0 < above path x < above path m) (fun x => 0 < above path x < below) l1) as M1.
  pose proof (length_filter_mono (fun x => 0 < above path x < above path m) (fun x => 0 < above path x < below) l2) as M2.
  specialize (M1 ltac:(intros x; cbv beta; lia)). specialize (M2 ltac:(intros x; cbv beta; lia)). lia.
Qed.

Lemma dev_above path : 0 < above path M_devfs -> 1 < above path M_devfs.
Proof.
  unfold above, lxp_path_under. cbn [point]. change (alen dev_point) with 4. change (4 =? 1) with false. change (4 =? 0) with false.
  cbn [andb orb]. repeat case_match; lia.
Qed.

(** Only /dev declines a path, and no other mountpoint is /dev: a mount that declines shares
    its mountpoint with none. *)
Lemma declines_alone path m m' :
  hostfs_point <> dev_point -> netfs_point <> Some dev_point -> answers path m = false -> 0 < above path m -> above path m' = above path m -> m' = m.
Proof.
  intros Hh Hn Hm Hp He. destruct m; cbn [answers] in Hm; try done. destruct (decide (m' = M_devfs)) as [|Hne]; [done|]. exfalso.
  pose proof (dev_above path Hp) as Hd.
  destruct (point m') as [pt|] eqn:Ep; [|unfold above in He at 1; rewrite Ep in He; lia].
  assert (Hpt : dev_point = pt) by (eapply (above_same path M_devfs m'); [done|exact Ep|done|done]). subst pt.
  destruct m'; cbn in Ep; first [congruence|discriminate].
Qed.

Lemma mount_loop_spec path fuel below :
  hostfs_point <> dev_point -> netfs_point <> Some dev_point -> aget 0 path 0 = SLASH ->
  (length (candidates path below) < fuel)%nat -> (forall m, m ∈ g_mounts -> below <= above path m -> answers path m = false) -> 1 < below ->
  exists m, mount_loop fuel path below = Some m /\ longest path m.
Proof.
  intros Hh Hn Hs. revert below. induction fuel as [|fuel IH]; intros below Hf Hdec Hb; [lia|]. cbn [mount_loop].
  assert (Hroot : above path M_overlay = 1) by (unfold above, lxp_path_under; cbn; by rewrite Hs).
  destruct (best_mount path below g_mounts None 0) as [r n] eqn:E.
  destruct (best_mount_spec path below g_mounts None 0 r n ltac:(lia) E) as [(-> & -> & HF)|(l1 & m & l2 & El & -> & -> & Hn' & H1 & H2)].
  { exfalso. rewrite Forall_forall in HF. specialize (HF M_overlay ltac:(by apply (bool_decide_unpack _))). lia. }
  assert (Hmem : m ∈ g_mounts) by (rewrite El; apply elem_of_app; right; left).
  destruct (answers path m) eqn:Ea.
  - exists m. split; [done|]. exists l1, l2. rewrite Forall_forall in H1, H2. split_and!; [done|done|lia| |];
      apply Forall_forall; intros m' Hin Hans;
      (destruct (decide (above path m' < below)) as [Hlt|Hge]; [by auto|]);
      (rewrite Hdec in Hans; [done| |lia]); rewrite El; apply elem_of_app; [by left|right; by right].
  - pose proof (declines_alone path m) as Halone.
    assert (Hd : m = M_devfs) by (destruct m; done).
    apply IH.
    + pose proof (candidates_shrink path below m l1 l2 El ltac:(lia)). lia.
    + intros m' Hin Hle. destruct (decide (below <= above path m')); [by apply Hdec|].
      destruct (decide (above path m' = above path m)) as [He|He]; [by rewrite (Halone m' Hh Hn Ea ltac:(lia) He)|].
      exfalso. rewrite El in Hin. rewrite Forall_forall in H1, H2.
      apply elem_of_app in Hin as [Hin|[->|Hin]%elem_of_cons]; [specialize (H1 _ Hin)| |specialize (H2 _ Hin)]; lia.
    + subst m. apply dev_above. lia.
Qed.
End Mounts.

(** For an absolute path, and as long as nothing is mounted on /dev, the lookup's loop ends
    within its fuel and picks the mount that answers the path and has the longest mountpoint
    above it: a name /dev does not hold goes to the next mount outward, and never past one
    that would answer. *)
Lemma mount_of_longest hostfs_point netfs_point devfs_holds path :
  hostfs_point <> dev_point -> netfs_point <> Some dev_point -> aget 0 path 0 = SLASH ->
  alen hostfs_point < SIZE_MAX -> alen (default [] netfs_point) < SIZE_MAX ->
  mount_loop hostfs_point netfs_point devfs_holds (S (length g_mounts)) path SIZE_MAX = Some (lxp_mount_of hostfs_point netfs_point devfs_holds path) /\
  longest hostfs_point netfs_point devfs_holds path (lxp_mount_of hostfs_point netfs_point devfs_holds path).
Proof.
  intros Hh Hn Hs Lh Ln. unfold lxp_mount_of.
  destruct (mount_loop_spec hostfs_point netfs_point devfs_holds path (S (length g_mounts)) SIZE_MAX Hh Hn Hs) as (m & -> & Hm); [| |done|done].
  - unfold candidates. pose proof (length_filter (fun m => 0 < above hostfs_point netfs_point path m < SIZE_MAX) g_mounts). lia.
  - intros m _ Hle. exfalso. pose proof (above_le hostfs_point netfs_point devfs_holds path m) as Ha.
    assert (Hp : match point hostfs_point netfs_point m with Some pt => alen pt | None => 0 end < SIZE_MAX); [|lia].
    destruct m; cbn [point]; try done. by destruct netfs_point.
Qed.

(** ** Links out of the root *)

Section Links.
Context (hostfs_point : list Z) (netfs_point : option (list Z)) (devfs_holds : list Z -> bool) (foreign_link : list Z -> list Z).

(** The link a name is, if it must be followed by the mount table. *)
Definition link_at (a : list Z) : list Z := if decide (lxp_mount_of hostfs_point netfs_point devfs_holds a = M_overlay) then foreign_link a else [].

(** [a'] is reached from [a] through [n] links. *)
Inductive link_chain : nat -> list Z -> list Z -> Prop :=
  | chain_refl a : link_chain 0 a a
  | chain_step n a t next a' : link_at a = t -> t <> [] -> lxp_path_link_target a t (alen t) LXP_PATH_MAX = inr next ->
      link_chain n next a' -> link_chain (S n) a a'.

Lemma follow_mounts_unfold hops a :
  follow_mounts hostfs_point netfs_point devfs_holds foreign_link hops a =
  match link_at a with
  | [] => inr a
  | t => match hops with
         | O => inl (- LXP_ELOOP)
         | S hops => match lxp_path_link_target a t (alen t) LXP_PATH_MAX with
                     | inl rc => inl rc
                     | inr next => follow_mounts hostfs_point netfs_point devfs_holds foreign_link hops next
                     end
         end
  end.
Proof. destruct hops; cbn [follow_mounts]; unfold link_at; by destruct (if decide _ then _ else _). Qed.

Lemma follow_mounts_chain hops a a' :
  follow_mounts hostfs_point netfs_point devfs_holds foreign_link hops a = inr a' <->
  exists n, (n <= hops)%nat /\ link_chain n a a' /\ link_at a' = [].
Proof.
  revert a. induction hops as [|hops IH]; intros a; rewrite follow_mounts_unfold.
  - destruct (link_at a) as [|x t] eqn:E.
    + split; [intros [= <-]; exists 0%nat; split_and!; [done|constructor|done]|].
      intros (n & Hn & Hc & He). destruct n; [|lia]. by inversion Hc.
    + split; [done|]. intros (n & Hn & Hc & He). destruct n; [|lia]. inversion Hc; subst. congruence.
  - destruct (link_at a) as [|x t] eqn:E.
    + split; [intros [= <-]; exists 0%nat; split_and!; [lia|constructor|done]|].
      intros (n & Hn & Hc & He). inversion Hc; subst; [done|congruence].
    + cbv zeta. destruct (lxp_path_link_target a (x :: t) (alen (x :: t)) LXP_PATH_MAX) as [rc|next] eqn:El.
      * split; [done|]. intros (n & Hn & Hc & He). inversion Hc; subst; [congruence|]. rewrite E in *. congruence.
      * rewrite IH. split.
        -- intros (n & Hn & Hc & He). exists (S n). split_and!; [lia| |done]. by econstructor.
        -- intros (n & Hn & Hc & He). inversion Hc as [|k ? t' next' ? Ht Hne Hl Hk]; subst; [congruence|].
           rewrite E, El in Hl. injection Hl as <-. exists k. split_and!; [lia|done|done].
Qed.
End Links.

(** links out of the root are followed exactly.  [lxp_mount_follow] returns [a'] if and only
    if [a'] is reached through at most eight links and is not itself a link the overlay leaves
    to the mount table, so the operation that runs next never sees such a link's own name, and
    a longer chain or a cycle is refused. *)
Theorem mount_follow_exact hostfs_point netfs_point devfs_holds foreign_link a a' :
  lxp_mount_follow hostfs_point netfs_point devfs_holds foreign_link a = inr a' <->
  exists n, (n <= Z.to_nat LXP_SYMLOOP_MAX)%nat /\ link_chain hostfs_point netfs_point devfs_holds foreign_link n a a' /\
    link_at hostfs_point netfs_point devfs_holds foreign_link a' = [].
Proof. apply follow_mounts_chain. Qed.

(** * The rootfs is never shadowed *)

(** What lies behind the interface: the tmpfs is where [rm_wfs] says, and holding or releasing
    a node is [lxp_wfs_open] and [lxp_wfs_close]. *)
Class RootMountLaws (B : Type) `{FileOps B} `{RootMount B} := {
  rm_get_put : forall b F, rm_wfs (rm_put b F) = F;
  rm_node_open : forall b i, fops_node_open b i = let '(r, F) := lxp_wfs_open (rm_wfs b) i in (r, rm_put b F);
  rm_node_close : forall b i, fops_node_close b i = rm_put b (lxp_wfs_close (rm_wfs b) i);
}.

(** A rootfs image: it has a root entry and the parent of every entry, and its names are C
    strings. *)
Definition rootfs_ok (fs : list lxp_file) : Prop :=
  0 <= fsx_lookup fs root_point /\
  (forall d s, 0 <= fsx_lookup fs (d ++ SLASH :: s) -> d <> [] -> 0 <= fsx_lookup fs d) /\
  (forall path, 0 <= fsx_lookup fs path -> Forall (fun x => x <> 0) path).

Definition linked (w : lxp_wnode) : bool := w_used w && w_linked w.
(** No tmpfs name is a rootfs name. *)
Definition unshadowed (fs : list lxp_file) (F : wfs) : Prop :=
  Forall (fun w => linked w = true -> fsx_lookup fs (w_path w) = -1) (f_nodes F).

Section Shadow.
Context (pool : Z) (fs : list lxp_file).
Implicit Types (F : wfs) (path : list Z).

Lemma unshadowed_find F path : unshadowed fs F -> 0 <= fsx_lookup fs path -> lxp_wfs_find F path = -1.
Proof.
  intros HU Hl. unfold lxp_wfs_find. destruct (find_first _ _) as [i|] eqn:E; [|done]. exfalso.
  apply (find_first_some wnode_zero) in E as (Hi & En & _). pose proof (Forall_aget _ wnode_zero _ _ HU Hi) as Hw. cbv beta in Hw.
  unfold named in En. apply andb_prop in En as [El Ep%bool_decide_eq_true]. specialize (Hw El). rewrite Ep in Hw. lia.
Qed.

(** A name the tmpfs holds is not a rootfs name. *)
Lemma find_unshadowed F path : unshadowed fs F -> 0 <= lxp_wfs_find F path -> fsx_lookup fs path = -1.
Proof.
  intros HU Hf. pose proof (fsx_lookup_range fs path). destruct (decide (0 <= fsx_lookup fs path)) as [Hl|Hl]; [|lia].
  rewrite (unshadowed_find F path HU Hl) in Hf. lia.
Qed.

Lemma unshadowed_nodes F F' : f_nodes F' = f_nodes F -> unshadowed fs F -> unshadowed fs F'.
Proof. unfold unshadowed. by intros ->. Qed.

Lemma unshadowed_put F i w : unshadowed fs F -> (linked w = true -> fsx_lookup fs (w_path w) = -1) -> unshadowed fs (put_wnode F i w).
Proof. intros HU Hw. by apply Forall_aset. Qed.

(** A node that keeps its name. *)
Lemma unshadowed_same F i w :
  unshadowed fs F -> w_path w = w_path (lxp_wnode_at F i) -> linked w = linked (lxp_wnode_at F i) -> unshadowed fs (put_wnode F i w).
Proof.
  intros HU Hp Hl. apply unshadowed_put; [done|]. rewrite Hl, Hp. unfold lxp_wnode_at, aget. rewrite nth_lookup.
  destruct (f_nodes F !! Z.to_nat i) as [y|] eqn:E; [|done]. cbn [default from_option]. by apply (Forall_lookup_1 _ _ _ _ HU E).
Qed.

Lemma unshadowed_create F path mode : unshadowed fs F -> fsx_lookup fs path = -1 -> unshadowed fs (lxp_wfs_create F path mode).2.
Proof.
  intros HU Hl. unfold lxp_wfs_create. destruct (_ >=? _); [done|]. destruct (find_first _ _); [|done]. by apply unshadowed_put.
Qed.

Lemma unshadowed_reclaim F i : unshadowed fs F -> unshadowed fs (wfs_reclaim F i).
Proof.
  intros HU. unfold wfs_reclaim. apply unshadowed_put; [|done]. destruct (negb _); [|done]. by destruct (lxp_arena_free _ _ _).
Qed.

Lemma unshadowed_free F i : unshadowed fs F -> unshadowed fs (lxp_wfs_free F i).
Proof.
  intros HU. unfold lxp_wfs_free. destruct (_ || _); [done|].
  assert (HU' : unshadowed fs (put_wnode F i (set_w_path (set_w_linked (lxp_wnode_at F i) false) []))).
  { apply unshadowed_put; [done|]. unfold linked. cbn. by rewrite andb_false_r. }
  destruct (_ =? _); [by apply unshadowed_reclaim|done].
Qed.

Lemma unshadowed_close F i : unshadowed fs F -> unshadowed fs (lxp_wfs_close F i).
Proof.
  intros HU. unfold lxp_wfs_close. destruct (_ || _ || _); [done|].
  assert (HU' := unshadowed_same F i (set_w_open_refs (lxp_wnode_at F i) (w_open_refs (lxp_wnode_at F i) - 1)) HU eq_refl eq_refl).
  destruct (_ && _); [by apply unshadowed_reclaim|done].
Qed.

Lemma unshadowed_open F i : unshadowed fs F -> unshadowed fs (lxp_wfs_open F i).2.
Proof. intros HU. unfold lxp_wfs_open. destruct (_ || _ || _); [done|]. by apply unshadowed_same. Qed.

Lemma reserve_nodes F i need :
  let F' := (lxp_wfs_reserve pool F i need).2 in
  f_nodes F' = f_nodes F \/ exists nd cap, f_nodes F' = aset (f_nodes F) i (set_w_block (lxp_wnode_at F i) nd cap).
Proof.
  unfold lxp_wfs_reserve. destruct (_ <=? _); [by left|]. destruct (_ >? MAX_PAYLOAD); [by left|]. destruct (_ >? _); [by left|].
  set (w := lxp_wnode_at F i). set (nc := wfs_ncap _ _).
  assert (He : f_nodes (wfs_ensure_ready pool F) = f_nodes F).
  { unfold wfs_ensure_ready. destruct (f_ready F); [done|]. by destruct (lxp_arena_init _ _ _ _) as [[? ?] ?]. }
  assert (Hr : forall F1 d cap, f_nodes (wfs_realloc F1 d cap).2 = f_nodes F1).
  { intros. unfold wfs_realloc. by destruct (lxp_arena_realloc _ _ _ _) as [[? ?] ?]. }
  pose proof (Hr (wfs_ensure_ready pool F) (w_data w) nc) as H1.
  destruct (wfs_realloc (wfs_ensure_ready pool F) (w_data w) nc) as [nd F1]. cbn [snd] in H1. rewrite He in H1.
  destruct (negb (nd =? 0)); [right; exists nd, nc; cbn; by rewrite H1|]. destruct (nc =? _); [by left|].
  pose proof (Hr F1 (w_data w) (wfs_mincap need)) as H2. destruct (wfs_realloc F1 _ _) as [nd2 F2]. cbn [snd] in H2. rewrite H1 in H2.
  destruct (nd2 =? 0); [by left|]. right. exists nd2, (wfs_mincap need). cbn. by rewrite H2.
Qed.

Lemma unshadowed_reserve F i need : unshadowed fs F -> unshadowed fs (lxp_wfs_reserve pool F i need).2.
Proof.
  intros HU. destruct (reserve_nodes F i need) as [E|(nd & cap & E)]; [by apply (unshadowed_nodes F)|].
  apply (unshadowed_nodes (put_wnode F i (set_w_block (lxp_wnode_at F i) nd cap))); [done|]. by apply unshadowed_same.
Qed.

Lemma unshadowed_fill F wi bytes len : unshadowed fs F -> unshadowed fs (fill_node pool F wi bytes len).2.
Proof.
  intros HU. unfold fill_node. pose proof (unshadowed_reserve F wi len HU) as HR. destruct (lxp_wfs_reserve pool F wi len) as [r F1]. cbn [snd] in HR.
  destruct (r <? 0); [by apply unshadowed_free|]. cbn [snd]. by apply unshadowed_same.
Qed.

(** A name that does not exist is not in the rootfs. *)
Lemma exists_lookup F path : overlay_exists fs F path = false -> fsx_lookup fs path = -1.
Proof.
  unfold overlay_exists, overlay_stat, lxp_fs_lookup. pose proof (fsx_lookup_range fs path).
  destruct (_ >=? 0); [done|]. rewrite andb_false_r. destruct (Z.geb_spec (fsx_lookup fs path) 0); [done|]. lia.
Qed.

(** A directory's children move below a name the rootfs does not hold. *)
Lemma moved_unshadowed old newabs p :
  rootfs_ok fs -> old <> root_point -> fsx_lookup fs newabs = -1 -> newabs <> [] -> lxp_path_under p old <> 0 ->
  fsx_lookup fs (newabs ++ drop (length old) p) = -1.
Proof.
  intros (_ & Hpar & Htxt) Ho Hn Hne Hu. pose proof (fsx_lookup_range fs (newabs ++ drop (length old) p)).
  destruct (decide (0 <= fsx_lookup fs (newabs ++ drop (length old) p))) as [Hq|]; [|lia]. exfalso.
  destruct (drop (length old) p) as [|x s] eqn:Ed; [rewrite app_nil_r in Hq; lia|].
  assert (Hx : aget 0 p (alen old) = x).
  { unfold aget, alen. rewrite Nat2Z.id, nth_lookup. pose proof (lookup_drop p (length old) 0) as L. rewrite Ed, Nat.add_0_r in L. by rewrite <- L. }
  unfold lxp_path_under in Hu.
  destruct ((alen old =? 1) && (aget 0 old 0 =? SLASH)) eqn:Er.
  { apply Ho. apply andb_prop in Er as [El%Z.eqb_eq Es%Z.eqb_eq]. destruct old as [|y [|]]; cbn in *; unfold alen in El; cbn in El; try lia.
    change (y = SLASH) in Es. by subst y. }
  destruct (_ || negb _); [done|]. rewrite Hx in Hu. destruct (Z.eqb_spec x 0) as [E0|Hx0].
  { rewrite E0 in Hq. specialize (Htxt _ Hq). rewrite Forall_app in Htxt. destruct Htxt as [_ Ht]. inversion Ht. done. }
  destruct (Z.eqb_spec x SLASH) as [E1|]; [|done]. rewrite E1 in Hq. specialize (Hpar newabs s Hq Hne). lia.
Qed.

Lemma unshadowed_rename F i to :
  rootfs_ok fs -> unshadowed fs F -> w_path (lxp_wnode_at F i) <> root_point -> fsx_lookup fs to = -1 -> to <> [] -> unshadowed fs (lxp_wfs_rename F i to).2.
Proof.
  intros Hok HU Hroot Hto Hne. unfold lxp_wfs_rename. set (old := w_path (lxp_wnode_at F i)) in *.
  destruct (bool_decide _); [done|]. destruct (_ >=? _); [done|]. destruct (_ && negb _); [done|].
  destruct (_ && wfs_has_descendant _ _); [done|]. destruct (existsb _ _); [done|].
  set (F1 := if lxp_wfs_find F to >=? 0 then lxp_wfs_free F (lxp_wfs_find F to) else F).
  assert (HU1 : unshadowed fs F1) by (unfold F1; destruct (_ >=? 0); [by apply unshadowed_free|done]).
  cbn [snd]. apply unshadowed_put; [|done]. unfold unshadowed. cbn [f_nodes set_f_nodes].
  apply Forall_lookup_2. intros j w Hw. rewrite list_lookup_imap in Hw.
  destruct (f_nodes F1 !! j) as [w0|] eqn:E; [|done]. cbn in Hw. injection Hw as <-.
  pose proof (Forall_lookup_1 _ _ _ _ HU1 E) as H0. cbv beta in H0.
  destruct (_ && below _ _ _ _) eqn:Eb; [|done]. intros _. cbn [w_path set_w_path].
  apply moved_unshadowed; try done. apply andb_prop in Eb as [_ Eb]. unfold below in Eb.
  apply andb_prop in Eb as [_ Eb]. apply negb_true_iff, Z.eqb_neq in Eb. done.
Qed.

(** ** The operations of the mount *)

Inductive ov_op :=
  | OvOpen (t : option Z) (path : list Z) (flags : Z)
  | OvMkdir (path : list Z) (mode : Z)
  | OvRemove (path : list Z) (dir : bool)
  | OvSymlink (target : list Z) (len : Z) (path : list Z)
  | OvLink (from to : list Z)
  | OvRename (from to : list Z)
  | OvChmod (path : list Z) (mode : Z)
  | OvRelease (node : Z).

Section Ops.
Context {B : Type} `{RootMountLaws B}.

Definition run_ov (x : kst * B) (op : ov_op) : kst * B :=
  let '(k, b) := x in
  let F := rm_wfs b in
  match op with
  | OvOpen t path flags => let '(_, k, b) := overlay_open fs k b t path flags in (k, b)
  | OvMkdir path mode => (k, rm_put b (overlay_mkdir fs F path mode).2)
  | OvRemove path dir => (k, rm_put b (overlay_remove fs F path dir).2)
  | OvSymlink target len path => (k, rm_put b (overlay_symlink pool fs F target len path).2)
  | OvLink from to => (k, rm_put b (overlay_link pool fs F from to).2)
  | OvRename from to => (k, rm_put b (overlay_rename fs F from to).2)
  | OvChmod path mode => (k, rm_put b (overlay_chmod fs F path mode).2)
  | OvRelease node => (k, fops_node_close b node)
  end.

(** Resolved names are absolute, so not empty. *)
Definition ov_op_ok (op : ov_op) : Prop := match op with OvRename _ to => to <> [] | _ => True end.

Lemma alloc_unshadowed k b t kind i off flags r k' b' :
  unshadowed fs (rm_wfs b) -> lxp_sys_fd_alloc k b t kind i off flags = (r, k', b') -> unshadowed fs (rm_wfs b').
Proof.
  intros HU. unfold lxp_sys_fd_alloc. destruct (kind =? LXP_FD_TMPFS).
  - rewrite rm_node_open. pose proof (unshadowed_open (rm_wfs b) i HU) as HO. destruct (lxp_wfs_open (rm_wfs b) i) as [rc F]. cbn [snd] in HO.
    destruct (negb _); [intros [= <- <- <-]; by rewrite rm_get_put|]. destruct (lxp_fd_open _ _ _ _ _ _) as [fd k1]. intros [= <- <- <-].
    destruct (_ && _); [|by rewrite rm_get_put]. rewrite rm_node_close, !rm_get_put. by apply unshadowed_close.
  - cbn [negb Z.eqb]. destruct (lxp_fd_open _ _ _ _ _ _) as [fd k1]. intros [= <- <- <-]. by rewrite andb_false_r.
Qed.

Lemma open_unshadowed k b t path flags r k' b' :
  unshadowed fs (rm_wfs b) -> overlay_open fs k b t path flags = (r, k', b') -> unshadowed fs (rm_wfs b').
Proof.
  intros HU. unfold overlay_open. destruct (_ || has _ _).
  - assert (HW : unshadowed fs (open_write_node fs (rm_wfs b) path flags).2).
    { unfold open_write_node, lxp_fs_lookup. destruct (Z.ltb_spec (lxp_wfs_find (rm_wfs b) path) 0).
      - destruct (Z.geb_spec (fsx_lookup fs path) 0); [done|]. destruct (negb _); [done|].
        pose proof (fsx_lookup_range fs path).
        pose proof (unshadowed_create (rm_wfs b) path (Z.lor LXP_S_IFREG 0x1a4) HU ltac:(lia)) as HC.
        destruct (lxp_wfs_create _ _ _) as [wi F]. cbn [snd] in HC. by destruct (wi <? 0).
      - destruct (is_dir _); [done|]. cbn [snd]. destruct (has _ _); [by apply unshadowed_same|done]. }
    destruct (open_write_node fs (rm_wfs b) path flags) as [[e|wi] F]; cbn [snd] in HW.
    + intros [= <- <- <-]. by rewrite rm_get_put.
    + apply alloc_unshadowed. by rewrite rm_get_put.
  - destruct (_ >=? 0); [by apply alloc_unshadowed|]. destruct (_ >=? 0); [by apply alloc_unshadowed|]. by intros [= <- <- <-].
Qed.

Lemma run_ov_unshadowed x op : rootfs_ok fs -> ov_op_ok op -> unshadowed fs (rm_wfs x.2) -> unshadowed fs (rm_wfs (run_ov x op).2).
Proof.
  intros Hfs Hop HU. destruct x as [k b]. cbn [snd] in HU. set (F := rm_wfs b) in *.
  destruct op as [t path flags|path mode|path dir|target len path|from to|from to|path mode|node]; cbn [run_ov]; fold F.
  - destruct (overlay_open fs k b t path flags) as [[r k'] b'] eqn:E. by eapply open_unshadowed.
  - cbn [snd]. rewrite rm_get_put. unfold overlay_mkdir. destruct (overlay_exists fs F path) eqn:Ex; [done|].
    pose proof (unshadowed_create F path (Z.lor LXP_S_IFDIR (Z.land mode 0x1ff)) HU (exists_lookup F path Ex)) as HC. by destruct (lxp_wfs_create _ _ _).
  - cbn [snd]. rewrite rm_get_put. unfold overlay_remove. repeat (case_match; try done). by apply unshadowed_free.
  - cbn [snd]. rewrite rm_get_put. unfold overlay_symlink. destruct (overlay_exists fs F path) eqn:Ex; [done|].
    pose proof (unshadowed_create F path (Z.lor LXP_S_IFLNK 0x1ff) HU (exists_lookup F path Ex)) as HC. destruct (lxp_wfs_create _ _ _) as [wi F1]. cbn [snd] in HC.
    destruct (wi <? 0); [done|]. by apply unshadowed_fill.
  - cbn [snd]. rewrite rm_get_put. unfold overlay_link. destruct (overlay_exists fs F to) eqn:Ex; [done|].
    destruct (name_data fs F from) as [[[src len] mode]|]; [|done]. destruct (is_dir mode); [done|].
    pose proof (unshadowed_create F to (Z.lor LXP_S_IFREG (Z.land mode 0x1ff)) HU (exists_lookup F to Ex)) as HC. destruct (lxp_wfs_create _ _ _) as [wi F1]. cbn [snd] in HC.
    destruct (wi <? 0); [done|]. destruct (len >? 0); [by apply unshadowed_fill|done].
  - cbn [snd]. rewrite rm_get_put. unfold overlay_rename, lxp_fs_lookup. destruct (Z.ltb_spec (lxp_wfs_find F from) 0) as [|Hwi]; [done|].
    destruct (_ && _) eqn:Ero; [done|]. apply unshadowed_rename; try done.
    + unfold lxp_wfs_find in Hwi |- *. destruct (find_first (named from) (f_nodes F)) as [i|] eqn:Ef; [|lia].
      apply (find_first_some wnode_zero) in Ef as (Hi & En & _). unfold named in En. apply andb_prop in En as [El Ep%bool_decide_eq_true].
      unfold lxp_wnode_at. intros Hr. pose proof (Forall_aget _ wnode_zero _ _ HU Hi El) as Hw. cbv beta in Hw. rewrite Hr in Hw. destruct Hfs as [Hroot _]. lia.
    + pose proof (fsx_lookup_range fs to). destruct (Z.ltb_spec (lxp_wfs_find F to) 0) as [|Hf]; [|by apply (find_unshadowed F)].
      destruct (Z.geb_spec (fsx_lookup fs to) 0); [done|]. lia.
  - cbn [snd]. rewrite rm_get_put. unfold overlay_chmod. destruct (_ >=? 0); [|done]. by apply unshadowed_same.
  - cbn [snd]. rewrite rm_node_close, rm_get_put. by apply unshadowed_close.
Qed.
End Ops.
End Shadow.

(** C13: a name of a complete rootfs image is never written.  The image must have an entry for
    the root and for the parent directory of every entry, and names that are C strings without
    an embedded NUL; [orphan_shadowed] shows an image without a parent entry for which the
    claim fails.  Then, from a state in which no tmpfs name is a rootfs name (such as the empty
    tmpfs), no sequence of opens, name and mode changes and releases makes one, a rename's
    target being a non-empty path, as resolved paths are; so for every name of the image, what
    stat, readlink and execve answer is the image's own, unchanged whatever the guests did in
    between. *)
Theorem rootfs_never_shadowed {B} `{RootMountLaws B} pool fs k (b : B) ops :
  rootfs_ok fs -> unshadowed fs (rm_wfs b) -> Forall ov_op_ok ops ->
  let F' := rm_wfs (foldl (run_ov pool fs) (k, b) ops).2 in
  unshadowed fs F' /\
  forall path, 0 <= fsx_lookup fs path ->
    (forall follow, overlay_stat fs F' path follow = overlay_stat fs (rm_wfs b) path follow) /\
    (forall cap, overlay_readlink fs F' path cap = overlay_readlink fs (rm_wfs b) path cap) /\
    overlay_exec fs F' path = overlay_exec fs (rm_wfs b) path.
Proof.
  intros Hfs HU Hops F'. assert (HU' : unshadowed fs F').
  { unfold F'. clear F'. set (x := (k, b)). change (rm_wfs b) with (rm_wfs x.2) in HU. clearbody x. revert x HU.
    induction Hops as [|op ops Hop _ IH]; intros x HU; [done|]. cbn [foldl]. apply IH. by apply run_ov_unshadowed. }
  split; [done|]. intros path Hp. pose proof (unshadowed_find fs _ path HU' Hp) as E1. pose proof (unshadowed_find fs _ path HU Hp) as E2.
  unfold overlay_stat, overlay_readlink, overlay_exec, name_data. rewrite E1, E2. cbn [Z.geb Z.compare].
  split_and!; try done. intros cap. unfold lxp_fs_lookup. destruct (Z.ltb_spec (fsx_lookup fs path) 0); [lia|]. done.
Qed.

(** *** A small image: "/", "/a" and the file "/a/b" *)

#[local] Instance wfs_files : FileOps wfs := {|
  fops_present := fun k => (k >? 0) && (k <? LXP_FD_KIND_COUNT);
  fops_close := fun F _ => F; fops_node_open := lxp_wfs_open; fops_node_close := lxp_wfs_close |}.
#[local] Instance wfs_root : RootMount wfs := {| rm_wfs := id; rm_put := fun _ F => F |}.
#[local] Instance wfs_root_laws : RootMountLaws wfs.
Proof. split; [done| |done]. intros b i. change (rm_wfs b) with b. cbn [fops_node_open wfs_files rm_put wfs_root]. by destruct (lxp_wfs_open b i). Qed.

Definition demo_image : list lxp_file :=
  [mk_file [47] None 0 0x41ed; mk_file [47; 97] None 0 0x41ed; mk_file [47; 97; 47; 98] (Some [1; 2]) 2 0x81a4].
Definition demo_empty : wfs := mk_wfs (replicate 32 wnode_zero) arena_zero false (fun _ => 0).
(** mkdir /a and a creating open of /a/b, both refused; mkdir /c, /c/b, and /c renamed to /a/c. *)
Definition demo_ops : list ov_op :=
  [OvMkdir [47; 97] 0x1ff; OvOpen (Some 0) [47; 97; 47; 98] 0x42; OvMkdir [47; 99] 0x1ff; OvMkdir [47; 99; 47; 98] 0x1ff; OvRename [47; 99] [47; 97; 47; 99]].

Lemma demo_image_ok : rootfs_ok demo_image.
Proof.
  assert (Hin : forall path, 0 <= fsx_lookup demo_image path -> path = [47] \/ path = [47; 97] \/ path = [47; 97; 47; 98]).
  { intros path. unfold fsx_lookup, find_first. cbn [demo_image find_from f_path].
    destruct (bool_decide_reflect ([47] = path)); [auto|]. destruct (bool_decide_reflect ([47; 97] = path)); [auto|].
    destruct (bool_decide_reflect ([47; 97; 47; 98] = path)); [auto|]. lia. }
  split; [vm_compute; discriminate|]. split.
  - intros d s Hl Hd. apply Hin in Hl. destruct d as [|x0 [|x1 [|x2 [|x3 [|x4 d]]]]]; cbn in Hl; try done;
      destruct Hl as [Hl|[Hl|Hl]]; simplify_eq; try done; vm_compute; discriminate.
  - intros path Hl. apply Hin in Hl as [->|[->| ->]]; repeat (apply Forall_cons; split; [discriminate|]); apply Forall_nil; done.
Qed.

Lemma rootfs_never_shadowed_witness :
  let F' := (foldl (run_ov 0x60000000 demo_image) (mk_kst [] [] [] [] [] [], demo_empty) demo_ops).2 in
  lxp_wfs_find F' [47; 97; 47; 99; 47; 98] = 1 /\ overlay_exec demo_image F' [47; 97; 47; 98] = inr (Some [1; 2], 2, 2).
Proof.
  destruct (rootfs_never_shadowed 0x60000000 demo_image (mk_kst [] [] [] [] [] []) demo_empty demo_ops demo_image_ok) as [_ HR].
  - apply Forall_replicate. discriminate.
  - repeat constructor. discriminate.
  - split; [vm_compute; reflexivity|]. destruct (HR [47; 97; 47; 98]) as (_ & _ & HE); [vm_compute; discriminate|].
    etransitivity; [exact HE|]. vm_compute. reflexivity.
Defined.

(** Without a root entry in the image (which [overlay_stat] provides for), a creating open of
    "/" makes a regular file the root. *)
Lemma root_replaced :
  let fs := [mk_file [47; 97] (Some [1]) 1 0x81a4] in
  let F := (run_ov 0x60000000 fs (mk_kst [] [] [] [] [] [], demo_empty) (OvOpen (Some 0) [47] 0x42)).2 in
  overlay_stat fs demo_empty [47] false = inr (lxp_stat_init 2 0x41ed 0) /\ overlay_stat fs F [47] false = inr (lxp_stat_init 0x100000 0x81a4 0).
Proof. split; vm_compute; reflexivity. Qed.

(** Names are created without their parents, so a renamed directory's children can meet a
    node that is already there: two nodes then have one name. *)
Lemma rename_duplicates :
  let F := (foldl (run_ov 0x60000000 demo_image) (mk_kst [] [] [] [] [] [], demo_empty)
              [OvMkdir [47; 99] 0x1ff; OvMkdir [47; 99; 47; 120] 0x1ff; OvMkdir [47; 100; 47; 120] 0x1ff; OvRename [47; 99] [47; 100]]).2 in
  filter (fun w => linked w = true) (f_nodes F) = [mk_wnode [47; 100] 0x41ff 0 0 0 true 0 true; mk_wnode [47; 100; 47; 120] 0x41ff 0 0 0 true 0 true;
    mk_wnode [47; 100; 47; 120] 0x41ff 0 0 0 true 0 true].
Proof. vm_compute. reflexivity. Qed.

(** The rename checks only its target against the image.  When the image has "/a/b" but no
    entry for "/a", a directory renamed to "/a" brings its own "b", which hides the image's. *)
Lemma orphan_shadowed :
  let fs := [mk_file [47] None 0 0x41ed; mk_file [47; 97; 47; 98] (Some [1; 2]) 2 0x81a4] in
  let F := (foldl (run_ov 0x60000000 fs) (mk_kst [] [] [] [] [] [], demo_empty)
              [OvMkdir [47; 99] 0x1ff; OvMkdir [47; 99; 47; 98] 0x1ff; OvRename [47; 99] [47; 97]]).2 in
  overlay_exec fs demo_empty [47; 97; 47; 98] = inr (Some [1; 2], 2, 1) /\
  overlay_exec fs F [47; 97; 47; 98] = inl (- LXP_EACCES).
Proof. split; vm_compute; reflexivity. Qed.
