(* ===== verification/SysPath.v ===== *)
(** * Path system calls (src/sys/lxp_sys_path.c)

    Each call resolves a guest path, finds the mount that answers it and asks that mount's
    operation table (struct lxp_mount_ops, src/fs/lxp_mount.h).  The tables are a parameter,
    as are the host file system's mount operations; the mount table and the symlinks that
    lead out of the root overlay are those of [Overlay].  [0] is a NULL guest pointer.  The
    build has hostfs and block devices, so mount(2) can move the hostfs mountpoint. *)

From Stdlib Require Import String Ascii.
From S2P Require Import Prelude Config Proc Pool Path Fd Guest Vfs Arena Tmpfs Process Runtime Signal SysSignal Stat SysFd Overlay.
Local Open Scope Z_scope.

Definition LXP_O_NOFOLLOW : Z := 0x8000.
Definition LXP_AT_SYMLINK_NOFOLLOW : Z := 0x100.
Definition LXP_AT_REMOVEDIR : Z := 0x200.
Definition LXP_AT_EMPTY_PATH : Z := 0x1000.
Definition LXP_TMPFS_MAGIC : Z := 0x01021994.
Definition LXP_INO_DEV : Z := 0x300000.
Definition LXP_MS_RDONLY : Z := 0x00000001.
Definition LXP_MS_NOSUID : Z := 0x00000002.
Definition LXP_MS_NODEV : Z := 0x00000004.
Definition LXP_MS_NOEXEC : Z := 0x00000008.
Definition LXP_MS_REMOUNT : Z := 0x00000020.
Definition LXP_MS_NOATIME : Z := 0x00000400.
Definition LXP_MS_NODIRATIME : Z := 0x00000800.
Definition LXP_MS_SILENT : Z := 0x00008000.
Definition LXP_MS_RELATIME : Z := 0x00200000.
Definition LXP_MS_MGC_MSK : Z := 0xffff0000.
Definition LXP_MS_MGC_VAL : Z := 0xc0ed0000.

(** A C string literal. *)
Definition lit (s : string) : list Z := map (fun a => Z.of_nat (nat_of_ascii a)) (list_ascii_of_string s).
Definition streq (a b : list Z) : bool := bool_decide (a = b).
Definition LXP_HOSTFS_DEFAULT_MOUNT : list Z := lit "/data".

(** One mount's operations; [None] for NULL.  A stat may consult the mount's own state. *)
Record lxp_mount_ops (H B : Type) := mk_mount_ops {
  mo_open : coord H -> B -> Z -> list Z -> Z -> Z * coord H * B;
  mo_stat : option (coord H -> B -> Z -> list Z -> bool -> (Z + lxp_stat) * B);
  mo_stat_park : option (coord H -> B -> Z -> list Z -> Z -> bool -> Z * coord H * B);
  mo_mkdir : option (coord H -> B -> Z -> list Z -> Z -> Z * coord H * B);
  mo_remove : option (coord H -> B -> Z -> list Z -> bool -> Z * coord H * B);
  mo_symlink : option (coord H -> B -> Z -> list Z -> list Z -> Z * coord H * B);
  mo_link : option (coord H -> B -> Z -> list Z -> list Z -> Z * coord H * B);
  mo_rename : option (coord H -> B -> Z -> list Z -> list Z -> Z * coord H * B);
  mo_chmod : option (coord H -> B -> Z -> list Z -> Z -> Z * coord H * B);
  mo_utimens : option (coord H -> B -> Z -> list Z -> Z * coord H * B);
  mo_statfs : option (coord H -> B -> Z -> list Z -> (Z + lxp_statfs64) * B);
  mo_readlink : option (coord H -> B -> Z -> list Z -> Z -> (Z + list Z) * B);
  mo_access : option (coord H -> B -> Z -> list Z -> Z -> Z * coord H * B);
  mo_chdir : option (coord H -> B -> Z -> list Z -> Z * coord H * B);
  mo_magic : Z;
  mo_name_errno : Z;
}.
Arguments mk_mount_ops {H B}.
Arguments mo_open {H B}.
Arguments mo_stat {H B}.
Arguments mo_stat_park {H B}.
Arguments mo_mkdir {H B}.
Arguments mo_remove {H B}.
Arguments mo_symlink {H B}.
Arguments mo_link {H B}.
Arguments mo_rename {H B}.
Arguments mo_chmod {H B}.
Arguments mo_utimens {H B}.
Arguments mo_statfs {H B}.
Arguments mo_readlink {H B}.
Arguments mo_access {H B}.
Arguments mo_chdir {H B}.
Arguments mo_magic {H B}.
Arguments mo_name_errno {H B}.

(** What the calls use of the namespaces. *)
Class MountTable (H B : Type) := {
  mt_ops : mount_id -> lxp_mount_ops H B;
  mt_fs : list lxp_file;
  mt_hostfs_mount_path : B -> list Z;
  mt_netfs_mountpoint : B -> option (list Z);
  mt_devfs_holds : B -> list Z -> bool;
  mt_hostfs_mount : coord H -> B -> Z -> list Z -> list Z -> bool -> Z * coord H * B;
  mt_hostfs_remount : coord H -> B -> Z -> bool -> Z * coord H * B;
  mt_hostfs_unmount : coord H -> B -> Z -> list Z -> Z * coord H * B;
}.

(** ** Mount options *)

Definition mount_type_supported (type : list Z) : bool :=
  streq type [] || streq type (lit "auto") || streq type (lit "vfat") || streq type (lit "msdos") || streq type (lit "fat").

(** One option's effect on the flags. *)
Definition mount_option (flags : Z) (option : list Z) : Z + Z :=
  if streq option [] || streq option (lit "defaults") || streq option (lit "rw")
  then inr (if streq option (lit "rw") then Z.ldiff flags LXP_MS_RDONLY else flags)
  else if streq option (lit "ro") then inr (Z.lor flags LXP_MS_RDONLY)
  else if streq option (lit "nosuid") then inr (Z.lor flags LXP_MS_NOSUID)
  else if streq option (lit "nodev") then inr (Z.lor flags LXP_MS_NODEV)
  else if streq option (lit "noexec") then inr (Z.lor flags LXP_MS_NOEXEC)
  else if streq option (lit "noatime") then inr (Z.lor flags LXP_MS_NOATIME)
  else if streq option (lit "nodiratime") then inr (Z.lor flags LXP_MS_NODIRATIME)
  else if streq option (lit "relatime") then inr (Z.lor flags LXP_MS_RELATIME)
  else if streq option (lit "remount") then inr (Z.lor flags LXP_MS_REMOUNT)
  else inl (- LXP_EOPNOTSUPP).

Definition not_comma (c : Z) : bool := negb (c =? 44).

(** Each round takes an option and its comma, so the length of the string bounds the rounds. *)
Fixpoint parse_options (fuel : nat) (cursor : list Z) (flags : Z) : option (Z + Z) :=
  match cursor with
  | [] => Some (inr flags)
  | _ => match fuel with
         | O => None
         | S fuel => let '(option, rest) := span not_comma cursor in
                     match mount_option flags option with
                     | inl e => Some (inl e)
                     | inr flags => parse_options fuel (drop 1 rest) flags
                     end
         end
  end.

Definition mount_parse_options (options : list Z) (flags : Z) : Z + Z :=
  default (inr flags) (parse_options (List.length options) options flags).

Definition mount_supported : Z :=
  Z.lor (Z.lor (Z.lor LXP_MS_RDONLY LXP_MS_NOSUID) (Z.lor LXP_MS_NODEV LXP_MS_NOEXEC))
    (Z.lor (Z.lor LXP_MS_REMOUNT LXP_MS_NOATIME) (Z.lor LXP_MS_NODIRATIME (Z.lor LXP_MS_SILENT LXP_MS_RELATIME))).

Section SysPath.
Context {H B : Type} `{FileOps B} `{FileTable H B} `{RootMount B} `{MountTable H B}.
Implicit Types (c : coord H) (b : B) (p fd : Z) (path abspath : list Z).

(** ** Resolution *)

(** [p->fs_context->cwd]; a live task has a context. *)
Definition cwd_of c p : list Z :=
  match p_fs_context (cproc c p) with Some fi => fsc_cwd (aget fs_context_zero (k_fs_context (ckst c)) fi) | None => [] end.
Definition put_cwd c p (cwd : list Z) : coord H :=
  match p_fs_context (cproc c p) with
  | Some fi => put_ckst c (set_k_fs_context (ckst c)
                 (aset (k_fs_context (ckst c)) fi (set_fsc_cwd (aget fs_context_zero (k_fs_context (ckst c)) fi) cwd)))
  | None => c
  end.

(** A kind's operation on an open-file description. *)
Definition kind_op {X} (sel : lxp_file_ops H B -> option X) (kind : Z) : option X :=
  if kind <? LXP_FD_KIND_COUNT then match g_lxp_file_ops kind with Some t => sel t | None => None end else None.
Definition dir_path_of c b p fd : path_result :=
  lxp_vfs_dir_path (ckst c) (cfiles c p) (fun kind => option_map (fun op => op c b p) (kind_op op_dir_path kind))
    (fun kind => option_map (fun op o => match op c b p o with inr st => inr (st_mode st) | inl e => inl e end) (kind_op op_fstat kind)) fd LXP_PATH_MAX.

Definition resolve_at c b p (dirfd src : Z) : path_result :=
  lxp_resolve_path_at (cgenv c) (cmem c) p (cwd_of c p) (dir_path_of c b p) dirfd src LXP_PATH_MAX.

Definition mount_of b path : mount_id := lxp_mount_of (mt_hostfs_mount_path b) (mt_netfs_mountpoint b) (mt_devfs_holds b) path.
Definition mount_follow b abspath : path_result :=
  lxp_mount_follow (mt_hostfs_mount_path b) (mt_netfs_mountpoint b) (mt_devfs_holds b)
    (fun path => lxp_overlay_foreign_link mt_fs (rm_wfs b) path LXP_PATH_MAX) abspath.

Definition resolve_in_mount c b p (dirfd path : Z) : Z + list Z * mount_id :=
  if path =? 0 then inl (- LXP_EFAULT)
  else match resolve_at c b p dirfd path with inl e => inl e | inr a => inr (a, mount_of b a) end.

(** A mount's stat; [None] is never called by a mount that answers later. *)
Definition mstat (m : mount_id) c b p path (follow : bool) : (Z + lxp_stat) * B :=
  match mo_stat (mt_ops m) with Some stat => stat c b p path follow | None => (inl (- LXP_EFAULT), b) end.

Definition sys_openat c b p (dirfd path flags : Z) : Z * coord H * B :=
  if path =? 0 then (- LXP_EFAULT, c, b)
  else match resolve_at c b p dirfd path with
       | inl e => (e, c, b)
       | inr a =>
           let m := mount_of b a in
           if has flags LXP_O_NOFOLLOW
           then match mo_stat (mt_ops m) with
                | None => mo_open (mt_ops m) c b p a flags
                | Some stat => match stat c b p a false with
                               | (inr st, b) => if is_lnk (st_mode st) then (- LXP_ELOOP, c, b) else mo_open (mt_ops m) c b p a flags
                               | (inl _, b) => mo_open (mt_ops m) c b p a flags
                               end
                end
           else match mount_follow b a with
                | inl e => (e, c, b)
                | inr a => mo_open (mt_ops (mount_of b a)) c b p a flags
                end
       end.

(** ** mount and umount *)

Definition mount_copy_string c p (guest capacity : Z) : Z + list Z :=
  if guest =? 0 then inr [] else lxp_copy_string_from_guest (cgenv c) (cmem c) p capacity guest.

Definition mount_target_is_dir b (target : list Z) : bool :=
  if streq target LXP_HOSTFS_DEFAULT_MOUNT then true
  else let wi := lxp_wfs_find (rm_wfs b) target in
       if wi >=? 0 then is_dir (w_mode (lxp_wnode_at (rm_wfs b) wi))
       else let fi := lxp_fs_follow mt_fs (lxp_fs_lookup mt_fs target) in
            (fi >=? 0) && is_dir (lxp_file_mode (file_at mt_fs fi)).

(** The mount of a volume, its flags decoded. *)
Definition mount_volume c b p (source : Z) (target_path type : list Z) (flags : Z) : Z * coord H * B :=
  if negb (Z.ldiff flags mount_supported =? 0) then (- LXP_EOPNOTSUPP, c, b)
  else if negb (mount_type_supported type) then (- LXP_ENODEV, c, b)
  else if has flags LXP_MS_REMOUNT
  then if negb (streq target_path (mt_hostfs_mount_path b)) then (- LXP_EINVAL, c, b)
       else mt_hostfs_remount c b p (has flags LXP_MS_RDONLY)
  else if source =? 0 then (- LXP_EINVAL, c, b)
  else if lxp_mount_occupied (mt_hostfs_mount_path b) (mt_netfs_mountpoint b) target_path then (- LXP_EBUSY, c, b)
  else if streq target_path root_point || negb (mount_target_is_dir b target_path) then (- LXP_ENOTDIR, c, b)
  else match lxp_resolve_path (cgenv c) (cmem c) p (cwd_of c p) source LXP_PATH_MAX with
       | inl e => (e, c, b)
       | inr source_path => mt_hostfs_mount c b p source_path target_path (has flags LXP_MS_RDONLY)
       end.

Definition sys_mount c b p (source target filesystem_type flags data : Z) : Z * coord H * B :=
  if target =? 0 then (- LXP_EFAULT, c, b)
  else match lxp_resolve_path (cgenv c) (cmem c) p (cwd_of c p) target LXP_PATH_MAX with
       | inl e => (e, c, b)
       | inr target_path =>
           if streq target_path proc_point
           then match mount_copy_string c p filesystem_type 16 with
                | inl e => (e, c, b)
                | inr type => (if streq type [] || streq type (lit "proc") then 0 else - LXP_ENODEV, c, b)
                end
           else match mount_copy_string c p filesystem_type 16, mount_copy_string c p data 128 with
                | inl e, _ => (e, c, b)
                | inr _, inl e => (e, c, b)
                | inr type, inr options =>
                    let flags := if Z.land flags LXP_MS_MGC_MSK =? LXP_MS_MGC_VAL then Z.ldiff flags LXP_MS_MGC_MSK else flags in
                    match mount_parse_options options flags with
                    | inl e => (e, c, b)
                    | inr flags => mount_volume c b p source target_path type flags
                    end
                end
       end.

Definition sys_umount c b p (target flags : Z) : Z * coord H * B :=
  if target =? 0 then (- LXP_EFAULT, c, b)
  else if negb (flags =? 0) then (- LXP_EOPNOTSUPP, c, b)
  else match lxp_resolve_path (cgenv c) (cmem c) p (cwd_of c p) target LXP_PATH_MAX with
       | inl e => (e, c, b)
       | inr target_path =>
           if streq target_path proc_point then (0, c, b)
           else if streq target_path (mt_hostfs_mount_path b) then mt_hostfs_unmount c b p target_path
           else (- LXP_EINVAL, c, b)
       end.

(** ** Attributes *)

Definition fd_stat c b p (o : Z) : Z + lxp_stat :=
  match vfs_op c o op_fstat with
  | Some fstat => fstat c b p (cofd c o)
  | None => inr (lxp_stat_init (u32 (LXP_INO_DEV + ofd_file_idx (cofd c o))) (Z.lor LXP_S_IFCHR 0x190) 0)
  end.

Definition copyout c b p (buf : Z) (statx : bool) (st : lxp_stat) : Z * coord H * B :=
  let '(rc, m) := lxp_stat_copyout (cgenv c) (cmem c) p buf statx st in (rc, set_cmem c m, b).

Definition sys_fstat64 c b p fd (statbuf : Z) : Z * coord H * B :=
  match cdesc c p fd with
  | None => (- LXP_EBADF, c, b)
  | Some o =>
      if negb (lxp_guest_access_ok (cgenv c) p statbuf 104 true) then (- LXP_EFAULT, c, b)
      else match fd_stat c b p o with inl e => (e, c, b) | inr st => copyout c b p statbuf false st end
  end.

Definition path_stat c b p abspath (follow : bool) (buf : Z) (statx : bool) : Z * coord H * B :=
  let m := mount_of b abspath in
  match mo_stat_park (mt_ops m) with
  | Some stat_park => stat_park c b p abspath buf statx
  | None => match mstat m c b p abspath follow with
            | (inl e, b) => (e, c, b)
            | (inr st, b) => copyout c b p buf statx st
            end
  end.

Definition resolve_follow c b p (dirfd path : Z) (follow : bool) : path_result :=
  match resolve_at c b p dirfd path with
  | inl e => inl e
  | inr a => if follow then mount_follow b a else inr a
  end.

Definition sys_stat_path c b p (dirfd path : Z) (follow : bool) (statbuf : Z) : Z * coord H * B :=
  if negb (lxp_guest_access_ok (cgenv c) p statbuf 104 true) then (- LXP_EFAULT, c, b)
  else match resolve_follow c b p dirfd path follow with
       | inl e => (e, c, b)
       | inr a => path_stat c b p a follow statbuf false
       end.

Definition sys_statx c b p (dirfd path flags buf : Z) : Z * coord H * B :=
  if negb (lxp_guest_access_ok (cgenv c) p buf 256 true) then (- LXP_EFAULT, c, b)
  else
    let plen := if path =? 0 then 0 else lxp_guest_strnlen (cgenv c) (cmem c) p path LXP_PATH_MAX in
    if plen <? 0 then (- LXP_EFAULT, c, b)
    else if (plen >? 0) && negb (has flags LXP_AT_EMPTY_PATH)
    then let follow := negb (has flags LXP_AT_SYMLINK_NOFOLLOW) in
         match resolve_follow c b p dirfd path follow with
         | inl e => (e, c, b)
         | inr a => path_stat c b p a follow buf true
         end
    else match cdesc c p dirfd with
         | None => (- LXP_EBADF, c, b)
         | Some o => match fd_stat c b p o with inl e => (e, c, b) | inr st => copyout c b p buf true st end
         end.

(** ** Name changes *)

Inductive name_change := NAME_CREATE | NAME_REMOVE | NAME_ATTR.

Definition name_unsupported c b p (m : mount_id) path (change : name_change) : Z * coord H * B :=
  match mo_stat (mt_ops m) with
  | None => (- mo_name_errno (mt_ops m), c, b)
  | Some stat =>
      let '(st, b) := stat c b p path false in
      let exists_ := match st with inr _ => true | inl _ => false end in
      (match change with
       | NAME_CREATE => if exists_ then - LXP_EEXIST else - mo_name_errno (mt_ops m)
       | NAME_REMOVE => if exists_ then - mo_name_errno (mt_ops m) else - LXP_ENOENT
       | NAME_ATTR => if exists_ then 0 else - LXP_ENOENT
       end, c, b)
  end.

(** One name: the mount's operation, or what its absence means. *)
Definition name_call c b p (dirfd path : Z) (change : name_change)
    (sel : lxp_mount_ops H B -> option (coord H -> B -> Z -> list Z -> Z * coord H * B)) : Z * coord H * B :=
  match resolve_in_mount c b p dirfd path with
  | inl e => (e, c, b)
  | inr (a, m) => match sel (mt_ops m) with Some op => op c b p a | None => name_unsupported c b p m a change end
  end.

Definition sys_mkdir c b p (dirfd path mode : Z) : Z * coord H * B :=
  name_call c b p dirfd path NAME_CREATE (fun ops => option_map (fun op c b p a => op c b p a mode) (mo_mkdir ops)).
Definition sys_unlink c b p (dirfd path : Z) (is_rmdir : bool) : Z * coord H * B :=
  name_call c b p dirfd path NAME_REMOVE (fun ops => option_map (fun op c b p a => op c b p a is_rmdir) (mo_remove ops)).
Definition sys_chmod c b p (dirfd path mode : Z) : Z * coord H * B :=
  name_call c b p dirfd path NAME_ATTR (fun ops => option_map (fun op c b p a => op c b p a mode) (mo_chmod ops)).
Definition sys_utimensat c b p (dirfd path : Z) : Z * coord H * B :=
  if path =? 0 then (0, c, b) else name_call c b p dirfd path NAME_ATTR mo_utimens.

Definition sys_symlink c b p (target dirfd linkp : Z) : Z * coord H * B :=
  if target =? 0 then (- LXP_EFAULT, c, b)
  else match lxp_copy_string_from_guest (cgenv c) (cmem c) p LXP_PATH_MAX target with
       | inl _ => (- LXP_EFAULT, c, b)
       | inr tbuf => name_call c b p dirfd linkp NAME_CREATE (fun ops => option_map (fun op c b p a => op c b p tbuf a) (mo_symlink ops))
       end.

Definition two_names c b p (olddirfd oldp newdirfd newp : Z) : Z + list Z * list Z * mount_id :=
  match resolve_in_mount c b p olddirfd oldp with
  | inl e => inl e
  | inr (oldabs, m) =>
      match resolve_in_mount c b p newdirfd newp with
      | inl e => inl e
      | inr (newabs, to) => if decide (m = to) then inr (oldabs, newabs, m) else inl (- LXP_EXDEV)
      end
  end.

Definition sys_rename c b p (olddirfd oldp newdirfd newp flags : Z) : Z * coord H * B :=
  match two_names c b p olddirfd oldp newdirfd newp with
  | inl e => (e, c, b)
  | inr (oldabs, newabs, m) =>
      if negb (flags =? 0) then (- LXP_EINVAL, c, b)
      else match mo_rename (mt_ops m) with
           | Some rename => rename c b p oldabs newabs
           | None => name_unsupported c b p m oldabs NAME_REMOVE
           end
  end.

Definition sys_link c b p (olddirfd oldp newdirfd newp : Z) : Z * coord H * B :=
  match two_names c b p olddirfd oldp newdirfd newp with
  | inl e => (e, c, b)
  | inr (oldabs, newabs, m) =>
      match mo_link (mt_ops m) with
      | Some link => link c b p oldabs newabs
      | None => name_unsupported c b p m oldabs NAME_REMOVE
      end
  end.

(** ** Lookups *)

Definition sys_readlink c b p (dirfd path buf bufsiz : Z) : Z * coord H * B :=
  if negb (lxp_guest_access_ok (cgenv c) p buf bufsiz true) then (- LXP_EFAULT, c, b)
  else match resolve_in_mount c b p dirfd path with
       | inl e => (e, c, b)
       | inr (a, m) =>
           let cap := if bufsiz <? LXP_PATH_MAX then bufsiz else LXP_PATH_MAX in
           let '(n, b) := match mo_readlink (mt_ops m) with
                          | Some readlink => readlink c b p a cap
                          | None => match mo_stat (mt_ops m) with
                                    | Some stat => match stat c b p a false with
                                                   | (inl _, b) => (inl (- LXP_ENOENT), b)
                                                   | (inr _, b) => (inl (- LXP_EINVAL), b)
                                                   end
                                    | None => (inl (- LXP_EINVAL), b)
                                    end
                          end in
           match n with
           | inl e => (e, c, b)
           | inr target => let '(rc, m) := lxp_copy_to_guest (cgenv c) (cmem c) p buf target in
                           (if negb (rc =? 0) then - LXP_EFAULT else alen target, set_cmem c m, b)
           end
       end.

(** A resolved name, followed out of the root overlay. *)
Definition resolve_mounted c b p (dirfd path : Z) : path_result :=
  match resolve_in_mount c b p dirfd path with inl e => inl e | inr (a, _) => mount_follow b a end.

Definition sys_access c b p (dirfd path mode : Z) : Z * coord H * B :=
  if negb (Z.ldiff mode 7 =? 0) then (- LXP_EINVAL, c, b)
  else match resolve_mounted c b p dirfd path with
       | inl e => (e, c, b)
       | inr a =>
           let m := mount_of b a in
           match mo_access (mt_ops m) with
           | Some access => access c b p a mode
           | None => let '(st, b) := mstat m c b p a true in (match st with inl e => e | inr _ => 0 end, c, b)
           end
       end.

Definition statfs_synthetic (magic : Z) : lxp_statfs64 := mk_statfs64 magic 4096 256 192 192 64 48 0 0 255 4096 0.

(** The 88 bytes of struct lxp_statfs64. *)
Definition statfs_bytes (s : lxp_statfs64) : list Z :=
  bytes32 (sf_type s) ++ bytes32 (sf_bsize s) ++ bytes64 (sf_blocks s) ++ bytes64 (sf_bfree s) ++ bytes64 (sf_bavail s) ++
  bytes64 (sf_files s) ++ bytes64 (sf_ffree s) ++ bytes32 (sf_fsid0 s) ++ bytes32 (sf_fsid1 s) ++ bytes32 (sf_namelen s) ++
  bytes32 (sf_frsize s) ++ bytes32 (sf_flags s) ++ zeros 16.

Definition statfs_copy c b p (size buf : Z) (st : lxp_statfs64) : Z * coord H * B :=
  if size <? 88 then (- LXP_EINVAL, c, b)
  else if negb (lxp_guest_access_ok (cgenv c) p buf 88 true) then (- LXP_EFAULT, c, b)
  else let '(rc, m) := lxp_copy_to_guest (cgenv c) (cmem c) p buf (statfs_bytes st) in (rc, set_cmem c m, b).

Definition sys_statfs_path c b p (path size buf : Z) : Z * coord H * B :=
  if negb (lxp_guest_access_ok (cgenv c) p buf 88 true) then (- LXP_EFAULT, c, b)
  else match resolve_in_mount c b p LXP_AT_FDCWD path with
       | inl e => (e, c, b)
       | inr (a, m) =>
           let '(st, b) := match mo_statfs (mt_ops m) with
                           | Some statfs => statfs c b p a
                           | None => match mo_stat (mt_ops m) with
                                     | Some stat => match stat c b p a true with
                                                    | (inl e, b) => (inl e, b)
                                                    | (inr _, b) => (inr (statfs_synthetic (mo_magic (mt_ops m))), b)
                                                    end
                                     | None => (inr (statfs_synthetic (mo_magic (mt_ops m))), b)
                                     end
                           end in
           match st with inl e => (e, c, b) | inr st => statfs_copy c b p size buf st end
       end.

Definition sys_fstatfs c b p fd (size buf : Z) : Z * coord H * B :=
  if negb (lxp_guest_access_ok (cgenv c) p buf 88 true) then (- LXP_EFAULT, c, b)
  else match cdesc c p fd with
       | None => (- LXP_EBADF, c, b)
       | Some o => match vfs_op c o op_fstatfs with
                   | Some fstatfs => match fstatfs c b p (cofd c o) with inl e => (e, c, b) | inr st => statfs_copy c b p size buf st end
                   | None => statfs_copy c b p size buf (statfs_synthetic LXP_TMPFS_MAGIC)
                   end
       end.

(** ** Handlers *)

Implicit Types a : Z -> Z.
Definition lxp_sys_open c b p a := sys_openat c b p LXP_AT_FDCWD (u32 (a 0)) (s32 (a 1)).
Definition lxp_sys_openat c b p a := sys_openat c b p (s32 (a 0)) (u32 (a 1)) (s32 (a 2)).
Definition lxp_sys_fstat64 c b p a := sys_fstat64 c b p (s32 (a 0)) (u32 (a 1)).
Definition lxp_sys_stat64 c b p a := sys_stat_path c b p LXP_AT_FDCWD (u32 (a 0)) true (u32 (a 1)).
Definition lxp_sys_lstat64 c b p a := sys_stat_path c b p LXP_AT_FDCWD (u32 (a 0)) false (u32 (a 1)).
Definition lxp_sys_fstatat64 c b p a :=
  sys_stat_path c b p (s32 (a 0)) (u32 (a 1)) (negb (has (s32 (a 3)) LXP_AT_SYMLINK_NOFOLLOW)) (u32 (a 2)).
Definition lxp_sys_statx c b p a := sys_statx c b p (s32 (a 0)) (u32 (a 1)) (s32 (a 2)) (u32 (a 4)).
Definition lxp_sys_readlink c b p a := sys_readlink c b p LXP_AT_FDCWD (u32 (a 0)) (u32 (a 1)) (u32 (a 2)).
Definition lxp_sys_readlinkat c b p a := sys_readlink c b p (s32 (a 0)) (u32 (a 1)) (u32 (a 2)) (u32 (a 3)).
Definition lxp_sys_access c b p a := sys_access c b p LXP_AT_FDCWD (u32 (a 0)) (s32 (a 1)).
Definition lxp_sys_faccessat c b p a := sys_access c b p (s32 (a 0)) (u32 (a 1)) (s32 (a 2)).
Definition lxp_sys_mkdir c b p a := sys_mkdir c b p LXP_AT_FDCWD (u32 (a 0)) (u32 (a 1)).
Definition lxp_sys_mkdirat c b p a := sys_mkdir c b p (s32 (a 0)) (u32 (a 1)) (u32 (a 2)).
Definition lxp_sys_rmdir c b p a := sys_unlink c b p LXP_AT_FDCWD (u32 (a 0)) true.
Definition lxp_sys_unlink c b p a := sys_unlink c b p LXP_AT_FDCWD (u32 (a 0)) false.
Definition lxp_sys_unlinkat c b p a : Z * coord H * B :=
  if negb (Z.ldiff (s32 (a 2)) LXP_AT_REMOVEDIR =? 0) then (- LXP_EINVAL, c, b)
  else sys_unlink c b p (s32 (a 0)) (u32 (a 1)) (has (s32 (a 2)) LXP_AT_REMOVEDIR).
Definition lxp_sys_rename c b p a := sys_rename c b p LXP_AT_FDCWD (u32 (a 0)) LXP_AT_FDCWD (u32 (a 1)) 0.
Definition lxp_sys_renameat c b p a := sys_rename c b p (s32 (a 0)) (u32 (a 1)) (s32 (a 2)) (u32 (a 3)) 0.
Definition lxp_sys_renameat2 c b p a := sys_rename c b p (s32 (a 0)) (u32 (a 1)) (s32 (a 2)) (u32 (a 3)) (u32 (a 4)).
Definition lxp_sys_symlink c b p a := sys_symlink c b p (u32 (a 0)) LXP_AT_FDCWD (u32 (a 1)).
Definition lxp_sys_symlinkat c b p a := sys_symlink c b p (u32 (a 0)) (s32 (a 1)) (u32 (a 2)).
Definition lxp_sys_link c b p a := sys_link c b p LXP_AT_FDCWD (u32 (a 0)) LXP_AT_FDCWD (u32 (a 1)).
Definition lxp_sys_linkat c b p a := sys_link c b p (s32 (a 0)) (u32 (a 1)) (s32 (a 2)) (u32 (a 3)).
Definition lxp_sys_chmod c b p a := sys_chmod c b p LXP_AT_FDCWD (u32 (a 0)) (u32 (a 1)).
Definition lxp_sys_fchmodat c b p a := sys_chmod c b p (s32 (a 0)) (u32 (a 1)) (u32 (a 2)).
Definition lxp_sys_utimensat c b p a := sys_utimensat c b p (s32 (a 0)) (u32 (a 1)).
Definition lxp_sys_mount c b p a := sys_mount c b p (u32 (a 0)) (u32 (a 1)) (u32 (a 2)) (u32 (a 3)) (u32 (a 4)).
Definition lxp_sys_umount2 c b p a := sys_umount c b p (u32 (a 0)) (s32 (a 1)).
Definition lxp_sys_statfs64 c b p a := sys_statfs_path c b p (u32 (a 0)) (u32 (a 1)) (u32 (a 2)).
Definition lxp_sys_fstatfs64 c b p a := sys_fstatfs c b p (s32 (a 0)) (u32 (a 1)) (u32 (a 2)).

Definition lxp_sys_getcwd c b p a : Z * coord H * B :=
  let buf := u32 (a 0) in
  if buf =? 0 then (- LXP_EFAULT, c, b)
  else let len := alen (cwd_of c p) + 1 in
       if u32 (a 1) <? len then (- LXP_ERANGE, c, b)
       else let '(rc, m) := lxp_copy_to_guest (cgenv c) (cmem c) p buf (cwd_of c p ++ [0]) in
            (if negb (rc =? 0) then - LXP_EFAULT else len, set_cmem c m, b).

Definition lxp_sys_chdir c b p a : Z * coord H * B :=
  match resolve_mounted c b p LXP_AT_FDCWD (u32 (a 0)) with
  | inl e => (e, c, b)
  | inr abspath =>
      let m := mount_of b abspath in
      match mo_chdir (mt_ops m) with
      | Some chdir => chdir c b p abspath
      | None => match mstat m c b p abspath true with
                | (inl e, b) => (e, c, b)
                | (inr st, b) => if negb (is_dir (st_mode st)) then (- LXP_ENOTDIR, c, b) else (0, put_cwd c p abspath, b)
                end
      end
  end.
End SysPath.

(** * Mount options *)

(** The options of a string, joined by commas. *)
Fixpoint join_options (opts : list (list Z)) : list Z :=
  match opts with
  | [] => []
  | [o] => o
  | o :: opts => o ++ 44 :: join_options opts
  end.

Definition apply_options (opts : list (list Z)) (flags : Z) : Z + Z :=
  fold_left (fun acc o => match acc with inl e => inl e | inr f => mount_option f o end) opts (inr flags).

Lemma apply_stops opts e : fold_left (fun acc o => match acc with inl e => inl e | inr f => mount_option f o end) opts (inl e) = inl e.
Proof. by induction opts. Qed.

Lemma apply_cons o opts flags :
  apply_options (o :: opts) flags = match mount_option flags o with inl e => inl e | inr f => apply_options opts f end.
Proof. unfold apply_options. cbn [fold_left]. destruct (mount_option flags o); [by rewrite apply_stops|done]. Qed.

Definition comma_free (o : list Z) : Prop := Forall (fun x => not_comma x = true) o.

Lemma parse_join opts fuel flags :
  Forall comma_free opts -> (List.length (join_options opts) <= fuel)%nat -> parse_options fuel (join_options opts) flags = Some (apply_options opts flags).
Proof.
  intros Hc. revert fuel flags. induction Hc as [|o opts Ho Hc IH]; intros fuel flags Hf; [by destruct fuel|].
  rewrite apply_cons. destruct opts as [|o2 opts].
  - cbn [join_options] in *. destruct o as [|x o]; [by destruct fuel|]. destruct fuel as [|fuel]; [cbn in Hf; lia|].
    assert (Hs : span not_comma (x :: o) = (x :: o, [])) by (rewrite <- (app_nil_r (x :: o)) at 1; by apply span_app).
    cbn [parse_options]. rewrite Hs. destruct (mount_option flags (x :: o)); [done|]. by destruct fuel.
  - set (rest := join_options (o2 :: opts)) in *. change (join_options (o :: o2 :: opts)) with (o ++ 44 :: rest) in *.
    rewrite length_app in Hf. cbn [List.length] in Hf. destruct fuel as [|fuel]; [lia|].
    assert (Hs : span not_comma (o ++ 44 :: rest) = (o, 44 :: rest)) by (by apply span_app).
    assert (Hp : parse_options (S fuel) (o ++ 44 :: rest) flags =
      match mount_option flags o with inl e => Some (inl e) | inr f => parse_options fuel rest f end).
    { destruct (o ++ 44 :: rest) as [|y s] eqn:E; [by destruct o|]. cbn [parse_options]. rewrite Hs. by destruct (mount_option flags o). }
    rewrite Hp. destruct (mount_option flags o) as [e|f]; [done|]. apply IH. lia.
Qed.

(** the option string is the sequence of its options.  [mount_parse_options] on any
    comma-separated list (empty options and a trailing comma included) is the fold of the
    options' effects from left to right, so a later rw or ro overrides an earlier one and the
    first unknown option refuses the whole string; the parse ends within the string's length. *)
Theorem mount_options_exact opts flags :
  Forall comma_free opts -> mount_parse_options (join_options opts) flags = apply_options opts flags.
Proof. intros Hc. unfold mount_parse_options. by rewrite (parse_join opts _ flags Hc). Qed.

Lemma mount_options_exact_witness :
  mount_parse_options (lit "ro,noatime,,rw") 0 = inr LXP_MS_NOATIME /\ mount_parse_options (lit "ro,bad,rw") 0 = inl (- LXP_EOPNOTSUPP).
Proof.
  split.
  - exact (mount_options_exact [lit "ro"; lit "noatime"; []; lit "rw"] 0 ltac:(repeat constructor)).
  - exact (mount_options_exact [lit "ro"; lit "bad"; lit "rw"] 0 ltac:(repeat constructor)).
Defined.

(** * Routing survives mount and umount *)

(** The host file system mounts at the target it is given, unmounts back to its default
    point, and moves no other mount. *)
Class HostfsMounts (H B : Type) `{MountTable H B} := {
  hm_mount : forall c b p s t ro r c' b', mt_hostfs_mount c b p s t ro = (r, c', b') ->
    (mt_hostfs_mount_path b' = mt_hostfs_mount_path b \/ mt_hostfs_mount_path b' = t) /\ mt_netfs_mountpoint b' = mt_netfs_mountpoint b;
  hm_remount : forall c b p ro r c' b', mt_hostfs_remount c b p ro = (r, c', b') ->
    mt_hostfs_mount_path b' = mt_hostfs_mount_path b /\ mt_netfs_mountpoint b' = mt_netfs_mountpoint b;
  hm_unmount : forall c b p t r c' b', mt_hostfs_unmount c b p t = (r, c', b') ->
    (mt_hostfs_mount_path b' = mt_hostfs_mount_path b \/ mt_hostfs_mount_path b' = LXP_HOSTFS_DEFAULT_MOUNT) /\ mt_netfs_mountpoint b' = mt_netfs_mountpoint b;
}.

Inductive mount_call :=
  | CallMount (p source target type flags data : Z)
  | CallUmount (p target flags : Z).

Section Routing.
Context {H B : Type} `{FileOps B} `{FileTable H B} `{RootMount B} `{HM : HostfsMounts H B}.
Implicit Types (c : coord H) (b : B).

Definition run_mount (x : coord H * B) (call : mount_call) : coord H * B :=
  let '(c, b) := x in
  let '(_, c, b) := match call with
                    | CallMount p source target type flags data => sys_mount c b p source target type flags data
                    | CallUmount p target flags => sys_umount c b p target flags
                    end in (c, b).

(** No moving mount is at /dev. *)
Definition mounts_ok b : Prop :=
  mt_hostfs_mount_path b <> dev_point /\ alen (mt_hostfs_mount_path b) < SIZE_MAX /\
  mt_netfs_mountpoint b <> Some dev_point /\ alen (default [] (mt_netfs_mountpoint b)) < SIZE_MAX.

Lemma mounts_ok_moved b b' t :
  mounts_ok b -> mt_netfs_mountpoint b' = mt_netfs_mountpoint b -> mt_hostfs_mount_path b' = mt_hostfs_mount_path b \/ mt_hostfs_mount_path b' = t ->
  t <> dev_point -> alen t < SIZE_MAX -> mounts_ok b'.
Proof. unfold mounts_ok. intros (? & ? & ? & ?) -> [-> | ->] ? ?; done. Qed.

Lemma occupied_dev hp np : lxp_mount_occupied hp np dev_point = true.
Proof. done. Qed.

Lemma sys_mount_ok c b p source target type flags data r c' b' :
  mounts_ok b -> sys_mount c b p source target type flags data = (r, c', b') -> mounts_ok b'.
Proof.
  intros Hok E. unfold sys_mount in E.
  assert (Hsame : forall x : Z, (x, c, b) = (r, c', b') -> mounts_ok b') by (by intros x [= <- <- <-]).
  destruct (target =? 0); [by eapply Hsame|]. destruct (lxp_resolve_path _ _ _ _ target _) as [e|t] eqn:Et; [by eapply Hsame|].
  assert (Hlen : alen t < SIZE_MAX).
  { unfold lxp_resolve_path in Et. destruct (_ <? 0); [done|]. destruct (resolve_from_plain _ _ LXP_PATH_MAX t ltac:(done) Et) as (st & _ & _ & Hl).
    unfold SIZE_MAX, LXP_PATH_MAX in *. lia. }
  destruct (streq t proc_point); [destruct (mount_copy_string _ _ _ _); by eapply Hsame|].
  destruct (mount_copy_string c p type 16) as [|ty]; [by eapply Hsame|]. destruct (mount_copy_string c p data 128) as [|os]; [by eapply Hsame|].
  destruct (mount_parse_options _ _) as [|fl]; [by eapply Hsame|]. unfold mount_volume in E.
  destruct (negb _); [by eapply Hsame|]. destruct (negb _); [by eapply Hsame|]. destruct (has fl LXP_MS_REMOUNT).
  { destruct (negb _); [by eapply Hsame|]. apply hm_remount in E as [E1 E2]. by apply (mounts_ok_moved b b' (mt_hostfs_mount_path b)); auto; apply Hok. }
  destruct (source =? 0); [by eapply Hsame|]. destruct (lxp_mount_occupied _ _ t) eqn:Eo; [by eapply Hsame|].
  destruct (_ || _); [by eapply Hsame|]. destruct (lxp_resolve_path _ _ _ _ source _) as [e|s]; [by eapply Hsame|].
  apply hm_mount in E as [E1 E2]. apply (mounts_ok_moved b b' t); try done. intros ->. by rewrite occupied_dev in Eo.
Qed.

Lemma sys_umount_ok c b p target flags r c' b' :
  mounts_ok b -> sys_umount c b p target flags = (r, c', b') -> mounts_ok b'.
Proof.
  intros Hok E. unfold sys_umount in E.
  assert (Hsame : forall x : Z, (x, c, b) = (r, c', b') -> mounts_ok b') by (by intros x [= <- <- <-]).
  destruct (target =? 0); [by eapply Hsame|]. destruct (negb _); [by eapply Hsame|].
  destruct (lxp_resolve_path _ _ _ _ _ _) as [e|t]; [by eapply Hsame|].
  destruct (streq t proc_point); [by eapply Hsame|]. destruct (streq t _); [|by eapply Hsame].
  apply hm_unmount in E as [E1 E2]. by apply (mounts_ok_moved b b' LXP_HOSTFS_DEFAULT_MOUNT).
Qed.

Lemma run_mount_ok x call : mounts_ok x.2 -> mounts_ok (run_mount x call).2.
Proof.
  destruct x as [c b]. cbn [snd]. intros Hok. unfold run_mount. destruct call as [p s t ty fl d|p t fl].
  - destruct (sys_mount c b p s t ty fl d) as [[r c'] b'] eqn:E. by eapply sys_mount_ok.
  - destruct (sys_umount c b p t fl) as [[r c'] b'] eqn:E. by eapply sys_umount_ok.
Qed.
End Routing.

(** C25: mount(2) and umount(2) never break routing.  From a state in which no moving mount is
    at /dev, after any sequence of mount and umount calls by any tasks, every absolute path is
    still answered by the mount with the longest mountpoint above it that holds it: mount(2)
    refuses the one target (/dev) at which a volume would be skipped for the names /dev
    declines. *)
Theorem mounts_route_longest {H B} `{FileOps B} `{FileTable H B} `{RootMount B} `{HM : HostfsMounts H B} (c : coord H) (b : B) calls path :
  mounts_ok b -> aget 0 path 0 = SLASH ->
  let b' := (foldl run_mount (c, b) calls).2 in
  longest (mt_hostfs_mount_path b') (mt_netfs_mountpoint b') (mt_devfs_holds b') path (mount_of b' path).
Proof.
  intros Hok Hp b'. assert (Hok' : mounts_ok b').
  { unfold b'. clear b'. change (mounts_ok (c, b).2) in Hok. generalize dependent (c, b). induction calls as [|call calls IH]; intros x Hok; [done|].
    cbn [foldl]. apply IH. by apply run_mount_ok. }
  destruct Hok' as (? & ? & ? & ?). by apply mount_of_longest.
Qed.

(** *** A host file system that accepts every mount *)

Definition demo_mount_ops : lxp_mount_ops unit (list Z * wfs) :=
  mk_mount_ops (fun c b _ _ _ => (- LXP_ENOENT, c, b)) None None None None None None None None None None None None None 0 LXP_EROFS.
#[local] Instance demo_files : FileOps (list Z * wfs) := {|
  fops_present := fun k => (k >? 0) && (k <? LXP_FD_KIND_COUNT);
  fops_close := fun b _ => b; fops_node_open := fun b i => let '(r, F) := lxp_wfs_open b.2 i in (r, (b.1, F));
  fops_node_close := fun b i => (b.1, lxp_wfs_close b.2 i) |}.
#[local] Instance demo_table : FileTable unit (list Z * wfs) := {|
  g_lxp_file_ops := fun _ => None; ft_pipes := fun _ => []; ft_put_pipes := fun b _ => b; ft_efds := fun _ => []; ft_put_efds := fun b _ => b;
  ft_hostfs_sync_all := fun b => (0, b) |}.
#[local] Instance demo_root : RootMount (list Z * wfs) := {| rm_wfs := snd; rm_put := fun b F => (b.1, F) |}.
#[local] Instance demo_mounts : MountTable unit (list Z * wfs) := {|
  mt_ops := fun _ => demo_mount_ops; mt_fs := demo_image; mt_hostfs_mount_path := fst; mt_netfs_mountpoint := fun _ => None; mt_devfs_holds := fun _ _ => false;
  mt_hostfs_mount := fun c b _ _ t _ => (0, c, (t, b.2)); mt_hostfs_remount := fun c b _ _ => (0, c, b);
  mt_hostfs_unmount := fun c b _ _ => (0, c, (LXP_HOSTFS_DEFAULT_MOUNT, b.2)) |}.
#[local] Instance demo_hostfs : HostfsMounts unit (list Z * wfs).
Proof.
  split.
  - intros c b p s t ro r c' b' [= <- <- <-]. split; [by right|done].
  - intros c b p ro r c' b' [= <- <- <-]. done.
  - intros c b p t r c' b' [= <- <- <-]. split; [by right|done].
Qed.

(** "/dev" at 0x20001000, "/a" at 0x20001100 and "/dev/sd" at 0x20001200. *)
Definition demo_mount_coord : coord unit :=
  let m := mem_write (fun _ => 0) 0x20001000 (lit "/dev") in
  let m := mem_write m 0x20001100 (lit "/a") in
  let m := mem_write m 0x20001200 (lit "/dev/sd") in
  let k := mk_kst [] [files_zero] [mk_fs_context 1 18 [47]] [] [demo_mm] [] in
  mk_coord tt (put_proc (set_rt_mem (set_rt_k demo_rt k) m) 0 (set_p_fs_context demo_proc (Some 0))) [].
Definition demo_calls : list mount_call := [CallMount 0 0x20001200 0x20001000 0 0 0; CallMount 0 0x20001200 0x20001100 0 0 0].

Lemma mounts_route_longest_witness :
  let b' := (foldl run_mount (demo_mount_coord, (LXP_HOSTFS_DEFAULT_MOUNT, demo_empty)) demo_calls).2 in
  b'.1 = lit "/a" /\ longest (lit "/a") None (fun _ => false) (lit "/a/b") M_hostfs /\ longest (lit "/a") None (fun _ => false) (lit "/dev/x") M_overlay.
Proof.
  assert (Hok : mounts_ok (LXP_HOSTFS_DEFAULT_MOUNT, demo_empty)) by (split_and!; vm_compute; congruence).
  split; [vm_compute; reflexivity|]. split.
  - exact (mounts_route_longest demo_mount_coord (LXP_HOSTFS_DEFAULT_MOUNT, demo_empty) demo_calls (lit "/a/b") Hok eq_refl).
  - exact (mounts_route_longest demo_mount_coord (LXP_HOSTFS_DEFAULT_MOUNT, demo_empty) demo_calls (lit "/dev/x") Hok eq_refl).
Defined.
