(* ===== verification/Poll.v ===== *)
(** * Readiness: poll, ppoll and pselect6 (src/fs/lxp_poll.c)

    A call scans its descriptors through each kind's poll operation and parks the task when
    nothing is ready; the coordinator's retry scans again.  The kinds' tables are the
    parameter of [SysFd]; [k] is the console and [now] what [lxp_time_us] stores ([None] when
    it stores nothing).  A pollfd's event masks are the 16-bit values. *)

From S2P Require Import Prelude Config Proc Pool Path Fd Guest Pipe Vfs Arena Process Runtime Wait Signal SysSignal Stat Console SysFd.
Local Open Scope Z_scope.

Definition LXP_POLLNVAL : Z := 0x20.
Definition LXP_POLL_EVENTS : Z := Z.lor LXP_POLLIN LXP_POLLOUT.
Definition LXP_SEL_MAXFDS : Z := 32.
Definition LXP_NR_poll : Z := 168.
Definition LXP_NR_ppoll_time64 : Z := 414.

Record lxp_pollfd := mk_pollfd { pf_fd : Z; pf_events : Z; pf_revents : Z }.

(** The eight bytes of an entry. *)
Definition pollfd_of (bs : list Z) : lxp_pollfd := mk_pollfd (s32 (le_val (take 4 bs))) (le_val (take 2 (drop 4 bs))) (le_val (take 2 (drop 6 bs))).
Definition pollfd_bytes (pf : lxp_pollfd) : list Z := bytes32 (pf_fd pf) ++ le_bytes 2 (pf_events pf) ++ le_bytes 2 (pf_revents pf).
Fixpoint pollfds_of (n : nat) (bs : list Z) : list lxp_pollfd :=
  match n with O => [] | S n => pollfd_of (take 8 bs) :: pollfds_of n (drop 8 bs) end.
Definition pollfds_bytes (pfs : list lxp_pollfd) : list Z := concat (map pollfd_bytes pfs).

Section Poll.
Context {H B : Type} (cons : os_console H) `{FileOps B} `{FileTable H B} (now : option Z) (k : console).
Implicit Types (c : coord H) (b : B) (p fd : Z).

Definition now_us : Z := default 0 now.

(** [probe] is the caller's timeout on poll's first pass. *)
Definition console_ready c p (probe : option Z) : bool * coord H :=
  match probe with
  | None => if p_console_poll (cproc c p) =? 0 then (true, c) else lxp_console_input_ready cons c k p
  | Some tmo =>
      if tmo <? 0 then (true, c)
      else if negb (p_console_poll (cproc c p) =? 0) then lxp_console_input_ready cons c k p
      else (tmo >? 100, c)
  end.

Definition poll_waitable c p (o : Z) : bool :=
  if ofd_kind (cofd c o) =? LXP_FD_CONSOLE then negb (p_console_poll (cproc c p) =? 0)
  else match vfs_op c o op_poll with Some _ => true | None => false end.

(** The events an open descriptor has. *)
Definition poll_mask c b p (o : Z) (probe : option Z) : Z * coord H * B :=
  if ofd_kind (cofd c o) =? LXP_FD_CONSOLE
  then let '(r, c) := console_ready c p probe in (if (r : bool) then LXP_POLL_EVENTS else 0, c, b)
  else match vfs_op c o op_poll with Some poll => poll c b p o | None => (LXP_POLL_EVENTS, c, b) end.

(** The entries with their events, how many have any, and whether waiting can help. *)
Fixpoint poll_scan c b p (pfs : list lxp_pollfd) (probe : option Z) : list lxp_pollfd * Z * bool * coord H * B :=
  match pfs with
  | [] => ([], 0, false, c, b)
  | pf :: pfs =>
      let put r := mk_pollfd (pf_fd pf) (pf_events pf) r in
      if pf_fd pf <? 0
      then let '(l, n, w, c, b) := poll_scan c b p pfs probe in (put 0 :: l, n, w, c, b)
      else match cdesc c p (pf_fd pf) with
           | None => let '(l, n, w, c, b) := poll_scan c b p pfs probe in (put LXP_POLLNVAL :: l, n + 1, w, c, b)
           | Some o =>
               let '(mask, c, b) := poll_mask c b p o probe in
               let r := Z.land (Z.land (pf_events pf) mask) LXP_POLL_EVENTS in
               let waits := (r =? 0) && poll_waitable c p o in
               let '(l, n, w, c, b) := poll_scan c b p pfs probe in
               (put r :: l, if r =? 0 then n else n + 1, waits || w, c, b)
           end
  end.

Definition park c b p (wait : lxp_wait) : Z * coord H * B :=
  let '(rc, pr) := lxp_wait_park now (cproc c p) wait in (rc, put_cproc c p pr, b).

Definition poll_deadline (tmo_ms : Z) : Z := if tmo_ms >? 0 then u64 (now_us + tmo_ms * 1000) else UINT64_MAX.

Definition poll_timed_out c p : bool :=
  match w_data (p_wait (cproc c p)) with
  | WD_POLL _ _ deadline _ _ _ => if deadline =? UINT64_MAX then false else now_us >=? deadline
  | _ => false
  end.

(** A time64 timespec in milliseconds, in 64 bits. *)
Definition timespec_ms (bs : list Z) : Z :=
  s64 (s64 (le_val (take 8 bs)) * 1000 + Z.quot (s64 (le_val (drop 8 bs))) 1000000).

(** ** poll and ppoll *)

Definition poll_timeout c p (nr a2 : Z) : Z + Z :=
  if nr =? LXP_NR_poll then inr (s32 a2)
  else if a2 =? 0 then inr (-1)
  else match lxp_copy_from_guest (cgenv c) (cmem c) p (u32 a2) 16 with
       | inl _ => inl (- LXP_EFAULT)
       | inr bs => inr (s32 (timespec_ms bs))
       end.

Definition load_pollfds c p (upfds nfds : Z) : option (list lxp_pollfd) :=
  if nfds =? 0 then Some []
  else match lxp_copy_from_guest (cgenv c) (cmem c) p upfds (nfds * 8) with
       | inl _ => None
       | inr bs => Some (pollfds_of (Z.to_nat nfds) bs)
       end.
Definition store_pollfds c p (upfds nfds : Z) (pfs : list lxp_pollfd) : option (coord H) :=
  if nfds =? 0 then Some c
  else let '(rc, m) := lxp_copy_to_guest (cgenv c) (cmem c) p upfds (pollfds_bytes pfs) in
       if negb (rc =? 0) then None else Some (set_cmem c m).

Definition poll_entry c b p (nr a0 a1 a2 : Z) : Z * coord H * B :=
  let upfds := u32 a0 in
  let nfds := u32 a1 in
  if nfds >? LXP_MAX_FDS then (- LXP_EINVAL, c, b)
  else match poll_timeout c p nr a2 with
       | inl e => (e, c, b)
       | inr tmo_ms =>
           match load_pollfds c p upfds nfds with
           | None => (- LXP_EFAULT, c, b)
           | Some pfs =>
               let '(pfs, ready, waitable, c, b) := poll_scan c b p pfs (Some tmo_ms) in
               match store_pollfds c p upfds nfds pfs with
               | None => (- LXP_EFAULT, c, b)
               | Some c =>
                   if (ready >? 0) || (tmo_ms =? 0) then (ready, c, b)
                   else if waitable
                   then park c b p (mk_wait LXP_WAIT_POLL 0 0 0 (WD_POLL upfds nfds (poll_deadline tmo_ms) 0 0 0))
                   else if negb (p_console_poll (cproc c p) =? 0) && (tmo_ms >? 0)
                   then let '(rc, pr) := lxp_wait_begin now (cproc c p) (mk_wait LXP_WAIT_TIMER 0 0 0 (WD_TIMER (poll_deadline tmo_ms))) in
                        (if negb (rc =? 0) then - LXP_EAGAIN else 0, put_cproc c p pr, b)
                   else (0, c, b)
               end
           end
       end.

Definition poll_retry c b p : Z * coord H * B :=
  match w_data (p_wait (cproc c p)) with
  | WD_POLL upfds nfds _ _ _ _ =>
      match load_pollfds c p upfds nfds with
      | None => (- LXP_EFAULT, c, b)
      | Some pfs =>
          let '(pfs, ready, _, c, b) := poll_scan c b p pfs None in
          if (ready =? 0) && negb (poll_timed_out c p) then (- LXP_EAGAIN, c, b)
          else match store_pollfds c p upfds nfds pfs with
               | None => (- LXP_EFAULT, c, b)
               | Some c => (ready, c, b)
               end
      end
  | _ => (- LXP_EINVAL, c, b)
  end.

Implicit Types a : Z -> Z.
Definition lxp_sys_poll c b p a := poll_entry c b p LXP_NR_poll (a 0) (a 1) (a 2).
Definition lxp_sys_ppoll_time64 c b p a := poll_entry c b p LXP_NR_ppoll_time64 (a 0) (a 1) (a 2).

(** ** pselect6 *)

(** The sets of a wait: readfds, writefds, exceptfds and the number of descriptors. *)
Record sel_wait := mk_sel { sw_nfds : Z; sw_read : Z; sw_write : Z; sw_except : Z }.

Definition sel_load c p (uset : Z) : Z + Z := if uset =? 0 then inr 0 else lxp_guest_get_u32 (cgenv c) (cmem c) p uset.

Definition sel_events (r w fd : Z) : Z :=
  Z.lor (if Z.testbit r fd then LXP_POLLIN else 0) (if Z.testbit w fd then LXP_POLLOUT else 0).

(** The entries of the words [r] and [w] from descriptor [fd], [n] of them. *)
Fixpoint sel_entries (n : nat) (fd r w : Z) : list lxp_pollfd :=
  match n with
  | O => []
  | S n => (if sel_events r w fd =? 0 then [] else [mk_pollfd fd (sel_events r w fd) 0]) ++ sel_entries n (fd + 1) r w
  end.

Definition sel_build c p (s : sel_wait) : option (list lxp_pollfd) :=
  match sel_load c p (sw_read s), sel_load c p (sw_write s) with
  | inr r, inr w => Some (sel_entries (Z.to_nat (sw_nfds s)) 0 r w)
  | _, _ => None
  end.

(** The ready descriptors' words and the count. *)
Fixpoint sel_collect (pfs : list lxp_pollfd) (r w ready : Z) : Z * Z * Z :=
  match pfs with
  | [] => (r, w, ready)
  | pf :: pfs =>
      let bit := u32 (Z.shiftl 1 (pf_fd pf)) in
      let '(r, ready) := if has (pf_revents pf) LXP_POLLIN then (Z.lor r bit, ready + 1) else (r, ready) in
      let '(w, ready) := if has (pf_revents pf) LXP_POLLOUT then (Z.lor w bit, ready + 1) else (w, ready) in
      sel_collect pfs r w ready
  end.

(** Store [word] at [uset] unless the set is absent. *)
Definition sel_store c p (uset word : Z) : option (coord H) :=
  if uset =? 0 then Some c
  else let '(rc, m) := lxp_guest_put_u32 (cgenv c) (cmem c) p uset word in
       if negb (rc =? 0) then None else Some (set_cmem c m).

(** On a fault the sets already stored stay stored. *)
Definition sel_put c p (s : sel_wait) (r w ready : Z) : Z * coord H :=
  match sel_store c p (sw_read s) r with
  | None => (- LXP_EFAULT, c)
  | Some c => match sel_store c p (sw_write s) w with
              | None => (- LXP_EFAULT, c)
              | Some c => match sel_store c p (sw_except s) 0 with
                          | None => (- LXP_EFAULT, c)
                          | Some c => (ready, c)
                          end
              end
  end.

Definition sel_writeback c p (s : sel_wait) (pfs : list lxp_pollfd) : Z * coord H :=
  let '(r, w, ready) := sel_collect pfs 0 0 0 in sel_put c p s r w ready.

Definition sel_scan c b p (s : sel_wait) (may_wait : bool) : Z * coord H * B :=
  match sel_build c p s with
  | None => (- LXP_EFAULT, c, b)
  | Some pfs =>
      let '(pfs, ready, _, c, b) := poll_scan c b p pfs None in
      if existsb (fun pf => has (pf_revents pf) LXP_POLLNVAL) pfs then (- LXP_EBADF, c, b)
      else if (ready =? 0) && may_wait then (- LXP_EAGAIN, c, b)
      else let '(r, c) := sel_writeback c p s pfs in (r, c, b)
  end.

Definition pselect6_entry c b p (nfds urfds uwfds uefds utimeout : Z) : Z * coord H * B :=
  if nfds <? 0 then (- LXP_EINVAL, c, b)
  else
    let nfds := if nfds >? LXP_SEL_MAXFDS then LXP_SEL_MAXFDS else nfds in
    match (if utimeout =? 0 then inr (-1)
           else match lxp_copy_from_guest (cgenv c) (cmem c) p utimeout 16 with
                | inl _ => inl (- LXP_EFAULT)
                | inr bs => let ms := timespec_ms bs in inr (if ms <? 0 then 0 else s32 ms)
                end) with
    | inl e => (e, c, b)
    | inr tmo_ms =>
        let '(rc, c, b) := sel_scan c b p (mk_sel nfds urfds uwfds uefds) (negb (tmo_ms =? 0)) in
        if negb (rc =? - LXP_EAGAIN) then (rc, c, b)
        else park c b p (mk_wait LXP_WAIT_POLL 0 1 0 (WD_POLL 0 nfds (poll_deadline tmo_ms) urfds uwfds uefds))
    end.

Definition lxp_sys_pselect6_time64 c b p a := pselect6_entry c b p (s32 (a 0)) (u32 (a 1)) (u32 (a 2)) (u32 (a 3)) (u32 (a 4)).

Definition lxp_poll_retry c b p : Z * coord H * B :=
  let w := p_wait (cproc c p) in
  if bool_decide (w_kind w <> LXP_WAIT_POLL) then (- LXP_EINVAL, c, b)
  else if has (w_flags w) 1
  then match w_data w with
       | WD_POLL _ nfds _ r wr ex => sel_scan c b p (mk_sel nfds r wr ex) (negb (poll_timed_out c p))
       | _ => (- LXP_EINVAL, c, b)
       end
  else poll_retry c b p.
End Poll.

(** * select over sets of descriptors *)

(** The descriptors from [fd], [n] of them. *)
Fixpoint fds_from (n : nat) (fd : Z) : list Z := match n with O => [] | S n => fd :: fds_from n (fd + 1) end.
(** The word of a set, and its size. *)
Definition word_of (P : Z -> bool) (l : list Z) : Z := foldr (fun i acc => if P i then Z.lor (Z.shiftl 1 i) acc else acc) 0 l.
Definition size_of (P : Z -> bool) (l : list Z) : Z := alen (List.filter P l).

Lemma word_of_cons P i l : word_of P (i :: l) = Z.lor (if P i then Z.shiftl 1 i else 0) (word_of P l).
Proof. unfold word_of. cbn [foldr]. destruct (P i); [done|]. by rewrite Z.lor_0_l. Qed.

Lemma size_of_cons P i l : size_of P (i :: l) = b2z (P i) + size_of P l.
Proof. unfold size_of, alen. cbn [List.filter]. destruct (P i); cbn [length b2z]; lia. Qed.

(** Membership of a word: its bits are the set. *)
Lemma word_of_bits P l i : Forall (fun j => 0 <= j) l -> Z.testbit (word_of P l) i = existsb (fun j => (i =? j) && P j) l.
Proof.
  intros Hl. induction Hl as [|j l Hj Hl IH]; [cbn; by rewrite Z.bits_0|]. rewrite word_of_cons, Z.lor_spec, IH. cbn [existsb]. f_equal.
  destruct (P j); [|by rewrite Z.bits_0, andb_false_r]. rewrite andb_true_r. rewrite Z.shiftl_1_l.
  destruct (Z.eqb_spec i j) as [->|Hn]; [by apply Z.pow2_bits_true|]. apply Z.pow2_bits_false. done.
Qed.

Lemma events_in ev m : ev = LXP_POLLIN \/ ev = LXP_POLLOUT \/ ev = Z.lor LXP_POLLIN LXP_POLLOUT \/ ev = 0 ->
  let r := Z.land (Z.land ev m) LXP_POLL_EVENTS in
  has r LXP_POLLIN = has ev LXP_POLLIN && has m LXP_POLLIN /\ has r LXP_POLLOUT = has ev LXP_POLLOUT && has m LXP_POLLOUT /\
  has r LXP_POLLNVAL = false /\ (r =? 0) = negb (has r LXP_POLLIN) && negb (has r LXP_POLLOUT).
Proof.
  intros Hev r. assert (Hr : r = Z.land (Z.land ev LXP_POLL_EVENTS) m).
  { unfold r. rewrite <- !Z.land_assoc. f_equal. apply Z.land_comm. }
  assert (Hb : forall x, Z.land r x = Z.land (Z.land (Z.land ev LXP_POLL_EVENTS) x) m).
  { intros x. rewrite Hr, <- !Z.land_assoc. do 2 f_equal. apply Z.land_comm. }
  unfold has. rewrite !Hb.
  assert (Hz : (r =? 0) = (Z.land (Z.land (Z.land ev LXP_POLL_EVENTS) LXP_POLLIN) m =? 0) && (Z.land (Z.land (Z.land ev LXP_POLL_EVENTS) LXP_POLLOUT) m =? 0)).
  { rewrite <- !Hb. assert (He : r = Z.lor (Z.land r LXP_POLLIN) (Z.land r LXP_POLLOUT)).
    { rewrite <- Z.land_lor_distr_r. change (Z.lor LXP_POLLIN LXP_POLLOUT) with LXP_POLL_EVENTS. unfold r. by rewrite <- (Z.land_assoc (Z.land ev m) LXP_POLL_EVENTS LXP_POLL_EVENTS), Z.land_diag. }
    apply eq_iff_eq_true. rewrite andb_true_iff, !Z.eqb_eq. rewrite He at 1. apply Z.lor_eq_0_iff. }
  rewrite Hz, !negb_involutive. rewrite (Z.land_comm m LXP_POLLIN), (Z.land_comm m LXP_POLLOUT).
  destruct Hev as [->|[->|[->| ->]]]; cbn; split_and!; rewrite ?andb_true_r, ?andb_false_r; done.
Qed.

Lemma sel_events_cases r w fd :
  let ev := sel_events r w fd in
  (ev = LXP_POLLIN \/ ev = LXP_POLLOUT \/ ev = Z.lor LXP_POLLIN LXP_POLLOUT \/ ev = 0) /\
  has ev LXP_POLLIN = Z.testbit r fd /\ has ev LXP_POLLOUT = Z.testbit w fd /\ (ev =? 0) = negb (Z.testbit r fd) && negb (Z.testbit w fd).
Proof. unfold sel_events. destruct (Z.testbit r fd), (Z.testbit w fd); cbn; tauto. Qed.

Section Select.
Context {H B : Type} (cons : os_console H) `{FileOps B} `{FileTable H B} (k : console) (c : coord H) (b : B) (p : Z).
(** Asking descriptor [fd], if it is open, changes nothing. *)
Definition observes (fd : Z) : Prop := forall o, cdesc c p fd = Some o -> exists m, poll_mask cons k c b p o None = (m, c, b).

(** The events descriptor [fd] has, [None] when it is not open. *)
Definition mask_at (fd : Z) : option Z :=
  match cdesc c p fd with Some o => Some (poll_mask cons k c b p o None).1.1 | None => None end.

(** A kind without a poll operation, and the console of a task without a poll hook, only observe. *)
Lemma observes_plain fd :
  (forall o poll, cdesc c p fd = Some o -> vfs_op c o op_poll = Some poll -> exists m, poll c b p o = (m, c, b)) ->
  (forall o, cdesc c p fd = Some o -> ofd_kind (cofd c o) = LXP_FD_CONSOLE -> p_console_poll (cproc c p) = 0) -> observes fd.
Proof.
  intros Hops Hcon o Ho. unfold poll_mask, console_ready. destruct (Z.eqb_spec (ofd_kind (cofd c o)) LXP_FD_CONSOLE) as [E|_].
  { rewrite (Hcon o Ho E). by eexists. }
  destruct (vfs_op c o op_poll) as [poll|] eqn:E; [by eapply Hops|by eexists].
Qed.

(** An entry with the events it is answered with. *)
Definition seen (pf : lxp_pollfd) : lxp_pollfd :=
  mk_pollfd (pf_fd pf) (pf_events pf)
    (if pf_fd pf <? 0 then 0
     else match mask_at (pf_fd pf) with None => LXP_POLLNVAL | Some m => Z.land (Z.land (pf_events pf) m) LXP_POLL_EVENTS end).

Lemma scan_pure pfs :
  Forall (fun pf => observes (pf_fd pf)) pfs ->
  exists w, poll_scan cons k c b p pfs None = (map seen pfs, size_of (fun r => negb (r =? 0)) (map pf_revents (map seen pfs)), w, c, b).
Proof.
  induction 1 as [|pf pfs Hpf _ [w IH]]; [by exists false|]. cbn [poll_scan map]. rewrite size_of_cons. unfold seen at 1 3. cbn [pf_revents]. unfold mask_at.
  set (N := size_of _ _) in *. destruct (pf_fd pf <? 0); [rewrite IH; by exists w|].
  destruct (cdesc c p (pf_fd pf)) as [o|] eqn:Ed; [|rewrite IH; exists w; by rewrite Z.add_comm].
  destruct (Hpf o Ed) as [m Hm]. rewrite Hm. cbn [fst]. set (x := Z.land (Z.land (pf_events pf) m) LXP_POLL_EVENTS). rewrite IH.
  eexists. replace (if x =? 0 then N else N + 1) with (b2z (negb (x =? 0)) + N) by (destruct (x =? 0); cbn [negb b2z]; lia). done.
Qed.

Context (r w : Z).
(** The descriptors asked for and ready. *)
Definition ready_in (fd : Z) : bool := Z.testbit r fd && match mask_at fd with Some m => has m LXP_POLLIN | None => false end.
Definition ready_out (fd : Z) : bool := Z.testbit w fd && match mask_at fd with Some m => has m LXP_POLLOUT | None => false end.
(** Asked for and not open. *)
Definition asked_closed (fd : Z) : bool := (Z.testbit r fd || Z.testbit w fd) && match mask_at fd with Some _ => false | None => true end.

Lemma seen_entry fd :
  0 <= fd -> let pf := seen (mk_pollfd fd (sel_events r w fd) 0) in
  has (pf_revents pf) LXP_POLLIN = ready_in fd /\ has (pf_revents pf) LXP_POLLOUT = ready_out fd /\
  (sel_events r w fd =? 0 = false -> has (pf_revents pf) LXP_POLLNVAL = asked_closed fd) /\
  (asked_closed fd = false -> (sel_events r w fd =? 0) = false -> (pf_revents pf =? 0) = negb (ready_in fd) && negb (ready_out fd)).
Proof.
  intros Hfd. destruct (sel_events_cases r w fd) as (Hev & V1 & V2 & V3). unfold seen, ready_in, ready_out, asked_closed. cbn [pf_fd pf_events pf_revents].
  destruct (Z.ltb_spec fd 0); [lia|]. destruct (mask_at fd) as [m|].
  - destruct (events_in _ m Hev) as (E1 & E2 & E3 & E4). rewrite E4, E1, E2, V1, V2, E3. rewrite andb_false_r. done.
  - rewrite !andb_false_r, andb_true_r. rewrite V3. split_and!; [done|done| |].
    + intros Hn. destruct (Z.testbit r fd), (Z.testbit w fd); done.
    + intros Hc Hn. destruct (Z.testbit r fd), (Z.testbit w fd); done.
Qed.

(** A descriptor not asked for is in no set. *)
Lemma unasked fd : (sel_events r w fd =? 0) = true -> ready_in fd = false /\ ready_out fd = false /\ asked_closed fd = false.
Proof.
  destruct (sel_events_cases r w fd) as (_ & _ & _ & ->). unfold ready_in, ready_out, asked_closed.
  destruct (Z.testbit r fd), (Z.testbit w fd); done.
Qed.

Lemma collect_sets n fd r0 w0 k0 :
  0 <= fd -> fd + Z.of_nat n <= 32 ->
  sel_collect (map seen (sel_entries n fd r w)) r0 w0 k0 =
  (Z.lor r0 (word_of ready_in (fds_from n fd)), Z.lor w0 (word_of ready_out (fds_from n fd)), k0 + size_of ready_in (fds_from n fd) + size_of ready_out (fds_from n fd)).
Proof.
  revert fd r0 w0 k0. induction n as [|n IH]; intros fd r0 w0 k0 Hf Hn.
  { cbn. rewrite !Z.lor_0_r. unfold size_of, alen. cbn. (repeat match goal with |- (_, _) = (_, _) => f_equal end); lia. }
  cbn [sel_entries fds_from]. rewrite !word_of_cons, !size_of_cons.
  destruct (sel_events r w fd =? 0) eqn:Ev.
  - destruct (unasked fd Ev) as (-> & -> & _). cbn [app]. rewrite IH by lia. rewrite !Z.lor_0_l. cbn [b2z]. (repeat match goal with |- (_, _) = (_, _) => f_equal end); lia.
  - destruct (seen_entry fd Hf) as (E1 & E2 & _). cbn [app map sel_collect]. rewrite E1, E2.
    change (pf_fd (seen (mk_pollfd fd (sel_events r w fd) 0))) with fd.
    assert (Hbit : u32 (Z.shiftl 1 fd) = Z.shiftl 1 fd).
    { rewrite Z.shiftl_1_l. unfold u32. apply Z.mod_small. split; [apply Z.pow_nonneg; lia|]. apply Z.pow_lt_mono_r; lia. }
    rewrite Hbit. destruct (ready_in fd), (ready_out fd); rewrite IH by lia; rewrite ?Z.lor_0_l, ?Z.lor_assoc; cbn [b2z]; (repeat match goal with |- (_, _) = (_, _) => f_equal end); lia.
Qed.

Lemma nval_sets n fd :
  0 <= fd -> existsb (fun pf => has (pf_revents pf) LXP_POLLNVAL) (map seen (sel_entries n fd r w)) = existsb asked_closed (fds_from n fd).
Proof.
  revert fd. induction n as [|n IH]; intros fd Hf; [done|]. cbn [sel_entries fds_from existsb].
  destruct (sel_events r w fd =? 0) eqn:Ev.
  - destruct (unasked fd Ev) as (_ & _ & ->). cbn [app orb]. apply IH. lia.
  - destruct (seen_entry fd Hf) as (_ & _ & E3 & _). cbn [app map existsb]. rewrite (E3 Ev). f_equal. apply IH. lia.
Qed.

(** The entries are the asked descriptors below the limit. *)
Lemma entries_asked n fd :
  Forall (fun pf => fd <= pf_fd pf < fd + Z.of_nat n /\ Z.testbit r (pf_fd pf) || Z.testbit w (pf_fd pf) = true) (sel_entries n fd r w).
Proof.
  revert fd. induction n as [|n IH]; intros fd; [constructor|]. cbn [sel_entries]. apply Forall_app. split.
  - destruct (sel_events r w fd =? 0) eqn:Ev; [constructor|]. apply Forall_singleton. cbn [pf_fd]. split; [lia|].
    destruct (sel_events_cases r w fd) as (_ & _ & _ & V). rewrite V in Ev. by destruct (Z.testbit r fd), (Z.testbit w fd).
  - eapply Forall_impl; [apply IH|]. cbn beta. intros pf [? ?]. split; [lia|done].
Qed.

Lemma size_of_nonneg P l : 0 <= size_of P l.
Proof. unfold size_of, alen. lia. Qed.

Lemma none_ready n fd :
  0 <= fd -> existsb asked_closed (fds_from n fd) = false ->
  (size_of (fun r => negb (r =? 0)) (map pf_revents (map seen (sel_entries n fd r w))) =? 0) = negb (existsb (fun i => ready_in i || ready_out i) (fds_from n fd)).
Proof.
  revert fd. induction n as [|n IH]; intros fd Hf Hc; [done|]. cbn [sel_entries fds_from existsb] in *. apply orb_false_elim in Hc as [Hc1 Hc2].
  destruct (sel_events r w fd =? 0) eqn:Ev.
  - destruct (unasked fd Ev) as (-> & -> & _). cbn [app orb]. apply IH; [lia|done].
  - destruct (seen_entry fd Hf) as (_ & _ & _ & E4). cbn [app map]. rewrite size_of_cons. rewrite (E4 Hc1 Ev). rewrite <- negb_orb, negb_involutive.
    destruct (ready_in fd || ready_out fd); cbn [b2z orb negb]; [|apply IH; [lia|done]].
    pose proof (size_of_nonneg (fun r => negb (r =? 0)) (map pf_revents (map seen (sel_entries n (fd + 1) r w)))). lia.
Qed.
End Select.

(** C24: select answers with the sets of ready descriptors.  Once both the read and the write
    word have been loaded, and where asking each descriptor they name below nfds only observes
    (every kind without a poll operation, a console of a task without a poll hook, and any poll
    operation or hook that leaves the state as it is), a select scan is EBADF exactly when the
    read or the write set names a descriptor below nfds that is not open (the exception set and
    the bits from nfds up are never looked at); else EAGAIN exactly when it may wait and no
    asked descriptor is ready; and otherwise it stores into the caller's words the sets of the
    asked descriptors below nfds that are ready to read and to write (and an empty exception
    set), and returns the sizes of the two sets, a descriptor ready for both counting twice
    (EFAULT when a word cannot be stored). *)
Theorem select_exact {H B} (cons : os_console H) `{FileOps B} `{FileTable H B} (k : console) (c : coord H) (b : B) p s may_wait r w :
  (forall fd, 0 <= fd < sw_nfds s -> Z.testbit r fd || Z.testbit w fd = true -> observes cons k c b p fd) ->
  0 <= sw_nfds s <= LXP_SEL_MAXFDS -> sel_load c p (sw_read s) = inr r -> sel_load c p (sw_write s) = inr w ->
  let fds := fds_from (Z.to_nat (sw_nfds s)) 0 in
  let R := ready_in cons k c b p r in
  let W := ready_out cons k c b p w in
  sel_scan cons k c b p s may_wait =
    if existsb (asked_closed cons k c b p r w) fds then (- LXP_EBADF, c, b)
    else if negb (existsb (fun i => R i || W i) fds) && may_wait then (- LXP_EAGAIN, c, b)
    else let '(rc, c) := sel_put c p s (word_of R fds) (word_of W fds) (size_of R fds + size_of W fds) in (rc, c, b).
Proof.
  intros Hobs Hn Hr Hw fds R W. unfold LXP_SEL_MAXFDS in Hn. unfold sel_scan, sel_build. rewrite Hr, Hw.
  destruct (scan_pure cons k c b p (sel_entries (Z.to_nat (sw_nfds s)) 0 r w)) as [wt ->].
  { eapply Forall_impl; [apply entries_asked|]. cbn beta. intros pf [? ?]. apply Hobs; [lia|done]. }
  rewrite (nval_sets cons k c b p r w _ 0 ltac:(lia)). fold fds. destruct (existsb (asked_closed cons k c b p r w) fds) eqn:Ec; [done|].
  rewrite (none_ready cons k c b p r w _ 0 ltac:(lia) Ec). fold fds. fold R W. destruct (_ && may_wait); [done|].
  unfold sel_writeback. rewrite (collect_sets cons k c b p r w) by lia. fold fds. fold R W. by rewrite !Z.lor_0_l, Z.add_0_l.
Qed.

(** *** A regular file, always ready, and an empty pipe *)

#[local] Instance unit_files : FileOps unit := {|
  fops_present := fun kind => (kind >? 0) && (kind <? LXP_FD_KIND_COUNT);
  fops_close := fun b _ => b; fops_node_open := fun b _ => (0, b); fops_node_close := fun b _ => b |}.
#[local] Instance unit_table : FileTable unit unit := {|
  g_lxp_file_ops := fun kind =>
    if kind =? LXP_FD_PIPE
    then Some (mk_file_ops None None None None None None None None None (Some (fun c b _ _ => (0, c, b))) None None None None None) else None;
  ft_pipes := fun _ => []; ft_put_pipes := fun b _ => b; ft_efds := fun _ => []; ft_put_efds := fun b _ => b; ft_hostfs_sync_all := fun b => (0, b) |}.
Definition no_console : os_console unit := mk_os_console (fun _ h _ => (0, h)) (fun _ h _ _ _ => (0, [], h)) (fun _ h _ _ _ => (0, h)) (fun h _ => (0, [], h)) None.

(** Descriptors 0 and 1 of a task whose console has a poll hook; the read set {0, 1} at
    0x20001000 and the write set {0} after it. *)
Definition demo_select : coord unit :=
  let st := mk_kst [mk_ofd 1 LXP_FD_TMPFS 0 0 LXP_O_RDWR 0 0; mk_ofd 1 LXP_FD_PIPE 0 0 0 0 0] [files_zero] [] [] [demo_mm] [] in
  let st := set_entry (set_entry st 0 0 (mk_fd 1 0)) 0 1 (mk_fd 2 0) in
  let m := mem_write (fun _ => 0) 0x20001000 (bytes32 3 ++ bytes32 1) in
  mk_coord tt (put_proc (set_rt_mem (set_rt_k demo_rt st) m) 0 (set_p_console_poll (set_p_files demo_proc (Some 0)) 1)) [].
Definition demo_sets : sel_wait := mk_sel 2 0x20001000 0x20001004 0.

Lemma select_exact_witness :
  (sel_scan no_console (lxp_console_reset (mk_console lxp_tty_init [] 0 0)) demo_select tt 0 demo_sets true).1.1 = 2 /\
  mem_read (cmem (sel_scan no_console (lxp_console_reset (mk_console lxp_tty_init [] 0 0)) demo_select tt 0 demo_sets true).1.2) 0x20001000 8 = bytes32 1 ++ bytes32 1.
Proof.
  rewrite (select_exact no_console (lxp_console_reset (mk_console lxp_tty_init [] 0 0)) demo_select tt 0 demo_sets true 3 1).
  - split; vm_compute; reflexivity.
  - intros fd Hfd _. assert (Hc : fd = 0 \/ fd = 1) by (cbn in Hfd; lia). destruct Hc as [-> | ->]; intros o [= <-]; eexists; reflexivity.
  - cbn. unfold LXP_SEL_MAXFDS. lia.
  - vm_compute. reflexivity.
  - vm_compute. reflexivity.
Defined.

(** A ppoll timeout is computed in 64 bits and cut to the 32-bit [long]: 2147484 seconds are a
    negative count, which blocks without a deadline. *)
Lemma long_timeout_blocks : s32 (timespec_ms (le_bytes 8 2147484 ++ le_bytes 8 0)) < 0 /\ poll_deadline (Some 5) (s32 (timespec_ms (le_bytes 8 2147484 ++ le_bytes 8 0))) = UINT64_MAX.
Proof. split; vm_compute; reflexivity. Qed.
