(* ===== verification/SysTime.v ===== *)
(** * Time system calls (src/sys/lxp_sys_time.c)

    Clocks, sleeps, the interval timer behind alarm() and times().  The state of the file is
    the wall clock's offset, [off]; [ns] and [us] are what [lxp_time_ns] and [lxp_time_us]
    leave in the caller's zeroed variable.  Signed 64-bit sums are taken modulo 2^64. *)

From S2P Require Import Prelude Config Proc Pool Fd Guest Process Runtime Wait Signal SysSignal.
Local Open Scope Z_scope.

Definition LXP_BOOT_EPOCH_NS : Z := 1782172800 * 1000000000.
Definition LXP_NS_PER_SEC : Z := 1000000000.
Definition INT64_MAX : Z := 2 ^ 63 - 1.
Definition LXP_ITIMER_REAL : Z := 0.

Section SysTime.
Context {H : Type}.
Implicit Types (c : coord H) (p off ns us : Z).

Definition uptime_ns ns : Z := s64 ns.

Definition now_sec_nsec off ns (clockid : Z) : Z * Z :=
  let t := uptime_ns ns in
  let t := if clockid =? 0 then s64 (t + (LXP_BOOT_EPOCH_NS + off)) else t in
  (u64 (Z.quot t LXP_NS_PER_SEC), u32 (Z.rem t LXP_NS_PER_SEC)).

(** The answer and the new offset. *)
Definition set_realtime off ns (sec nsec : Z) : Z * Z :=
  if (sec <? 0) || (sec >? INT64_MAX / LXP_NS_PER_SEC - 1) || (nsec <? 0) || (nsec >=? LXP_NS_PER_SEC) then (- LXP_EINVAL, off)
  else (0, s64 (sec * LXP_NS_PER_SEC + nsec - LXP_BOOT_EPOCH_NS - uptime_ns ns)).

(** The two words of a time32 or time64 structure in guest memory. *)
Definition guest_pair c p (addr : Z) (n : nat) : option (Z * Z) :=
  match lxp_copy_from_guest (cgenv c) (cmem c) p addr (2 * Z.of_nat n) with
  | inl _ => None
  | inr bs => Some (le_val (take n bs), le_val (drop n bs))
  end.
Definition put_bytes c p (addr : Z) (bs : list Z) : Z * coord H :=
  let '(rc, m) := lxp_copy_to_guest (cgenv c) (cmem c) p addr bs in
  (if negb (rc =? 0) then - LXP_EFAULT else 0, set_cmem c m).

Definition sleep_for (now : option Z) us c p (reqp : Z) (time64 : bool) : Z * coord H :=
  match guest_pair c p reqp (if time64 then 8 else 4) with
  | None => (- LXP_EFAULT, c)
  | Some (sec, nsec) =>
      let dur_us := u64 (sec * 1000000 + nsec / 1000) in
      let dur_us := if dur_us >? 100000000 then 100000000 else dur_us in
      let '(rc, pr) := lxp_wait_park now (cproc c p) (mk_wait LXP_WAIT_TIMER 0 0 0 (WD_TIMER (u64 (us + dur_us)))) in
      (rc, put_cproc c p pr)
  end.

Implicit Types a : Z -> Z.

Definition lxp_sys_clock_gettime off ns c p a : Z * coord H :=
  let '(sec, nsec) := now_sec_nsec off ns (s32 (a 0)) in put_bytes c p (u32 (a 1)) (bytes32 sec ++ bytes32 nsec).
Definition lxp_sys_clock_gettime64 off ns c p a : Z * coord H :=
  let '(sec, nsec) := now_sec_nsec off ns (s32 (a 0)) in put_bytes c p (u32 (a 1)) (le_bytes 8 sec ++ le_bytes 8 nsec).
Definition lxp_sys_gettimeofday off ns c p a : Z * coord H :=
  let '(sec, nsec) := now_sec_nsec off ns 0 in put_bytes c p (u32 (a 0)) (bytes32 sec ++ bytes32 (nsec / 1000)).

Definition lxp_sys_clock_settime off ns c p a : Z * Z :=
  if negb (s32 (a 0) =? 0) then (- LXP_EINVAL, off)
  else match guest_pair c p (u32 (a 1)) 4 with
       | None => (- LXP_EFAULT, off)
       | Some (sec, nsec) => set_realtime off ns (s32 sec) (s32 nsec)
       end.
Definition lxp_sys_clock_settime64 off ns c p a : Z * Z :=
  if negb (s32 (a 0) =? 0) then (- LXP_EINVAL, off)
  else match guest_pair c p (u32 (a 1)) 8 with
       | None => (- LXP_EFAULT, off)
       | Some (sec, nsec) => set_realtime off ns (s64 sec) (s64 nsec)
       end.
Definition lxp_sys_settimeofday off ns c p a : Z * Z :=
  if u32 (a 0) =? 0 then (0, off)
  else match guest_pair c p (u32 (a 0)) 4 with
       | None => (- LXP_EFAULT, off)
       | Some (sec, usec) =>
           if (s32 usec <? 0) || (s32 usec >=? 1000000) then (- LXP_EINVAL, off)
           else set_realtime off ns (s32 sec) (s32 usec * 1000)
       end.

Definition lxp_sys_nanosleep now us c p a := sleep_for now us c p (u32 (a 0)) false.
Definition lxp_sys_clock_nanosleep now us c p a := sleep_for now us c p (u32 (a 2)) false.
Definition lxp_sys_clock_nanosleep_time64 now us c p a := sleep_for now us c p (u32 (a 2)) true.

(** What is left of the alarm. *)
Definition alarm_left us (pr : lxp_proc) : Z :=
  if negb (p_alarm_deadline_us pr =? 0) && (p_alarm_deadline_us pr >? us) then p_alarm_deadline_us pr - us else 0.
Definition itimer_bytes us (pr : lxp_proc) : list Z :=
  bytes32 (p_alarm_interval_us pr / 1000000) ++ bytes32 (p_alarm_interval_us pr mod 1000000) ++
  bytes32 (alarm_left us pr / 1000000) ++ bytes32 (alarm_left us pr mod 1000000).

Definition lxp_sys_setitimer us c p a : Z * coord H :=
  if negb (s32 (a 0) =? LXP_ITIMER_REAL) then (0, c)
  else
    let '(rc, c) := if u32 (a 2) =? 0 then (0, c) else put_bytes c p (u32 (a 2)) (itimer_bytes us (cproc c p)) in
    if negb (rc =? 0) then (rc, c)
    else if u32 (a 1) =? 0 then (0, c)
    else match lxp_copy_from_guest (cgenv c) (cmem c) p (u32 (a 1)) 16 with
         | inl _ => (- LXP_EFAULT, c)
         | inr bs =>
             let word i := le_val (take 4 (drop (4 * i)%nat bs)) in
             let pr := set_p_alarm_interval_us (cproc c p) (word 0%nat * 1000000 + word 1%nat) in
             let val_us := word 2%nat * 1000000 + word 3%nat in
             (0, put_cproc c p (set_p_alarm_deadline_us pr (if negb (val_us =? 0) then u64 (us + val_us) else 0)))
         end.

Definition lxp_sys_times us c p a : Z * coord H :=
  let ticks := s32 (us / 10000) in
  if u32 (a 0) =? 0 then (ticks, c)
  else let '(rc, c) := put_bytes c p (u32 (a 0)) (bytes32 ticks ++ bytes32 0 ++ bytes32 0 ++ bytes32 0) in
       (if negb (rc =? 0) then rc else ticks, c).
End SysTime.

(** * The wall clock keeps what it was set to *)

Lemma s64_small z : - 2 ^ 63 <= z < 2 ^ 63 -> s64 z = z.
Proof. intros Hz. unfold s64. rewrite Z.mod_small by lia. lia. Qed.

(** A time [clock_settime] takes. *)
Definition settable (sec nsec : Z) : Prop := 0 <= sec <= INT64_MAX / LXP_NS_PER_SEC - 1 /\ 0 <= nsec < LXP_NS_PER_SEC.

Lemma settable_range sec nsec : settable sec nsec -> 0 <= sec * LXP_NS_PER_SEC + nsec < 2 ^ 63.
Proof. unfold settable, INT64_MAX, LXP_NS_PER_SEC. intros [Hs Hn]. change ((2 ^ 63 - 1) / 1000000000) with 9223372036 in Hs. lia. Qed.

Lemma set_realtime_spec off ns sec nsec :
  0 <= ns < 2 ^ 62 -> settable sec nsec -> set_realtime off ns sec nsec = (0, sec * LXP_NS_PER_SEC + nsec - LXP_BOOT_EPOCH_NS - ns).
Proof.
  intros Hns Hset. pose proof (settable_range _ _ Hset) as HT. destruct Hset as [Hs Hn]. unfold set_realtime, uptime_ns.
  destruct (Z.ltb_spec sec 0); [lia|]. destruct (Z.gtb_spec sec (INT64_MAX / LXP_NS_PER_SEC - 1)); [lia|].
  destruct (Z.ltb_spec nsec 0); [lia|]. destruct (Z.geb_spec nsec LXP_NS_PER_SEC); [lia|]. cbn [orb].
  rewrite (s64_small ns) by lia. rewrite s64_small; [done|]. unfold LXP_BOOT_EPOCH_NS. lia.
Qed.

Lemma set_realtime_refused off ns sec nsec : ~ settable sec nsec -> set_realtime off ns sec nsec = (- LXP_EINVAL, off).
Proof.
  unfold settable, set_realtime. intros Hn. destruct (Z.ltb_spec sec 0); [done|]. destruct (Z.gtb_spec sec (INT64_MAX / LXP_NS_PER_SEC - 1)); [done|].
  destruct (Z.ltb_spec nsec 0); [done|]. destruct (Z.geb_spec nsec LXP_NS_PER_SEC); [done|]. exfalso. apply Hn. lia.
Qed.

(** Reading [CLOCK_REALTIME] when the offset makes it [t]. *)
Lemma now_realtime ns off t :
  0 <= ns < 2 ^ 62 -> 0 <= t < 2 ^ 63 -> ns + (LXP_BOOT_EPOCH_NS + off) = t ->
  now_sec_nsec off ns 0 = (t / LXP_NS_PER_SEC, t mod LXP_NS_PER_SEC).
Proof.
  intros Hns Ht E. unfold now_sec_nsec, uptime_ns. cbn [Z.eqb]. rewrite (s64_small ns) by lia. rewrite E, (s64_small t) by lia.
  unfold LXP_NS_PER_SEC. rewrite Z.quot_div_nonneg, Z.rem_mod_nonneg by lia. unfold u64, u32. by rewrite !Z.mod_small by lia.
Qed.

(** the wall clock keeps what it was set to.  [clock_settime64] refuses a time before 1970,
    past 64-bit nanoseconds or with a bad sub-second part and leaves the clock alone; a time it
    takes is what [clock_gettime64] then reads, advanced by exactly the uptime that passed in
    between, as a normalized pair. *)
Theorem clock_set_get {H} (c : coord H) p a off ns sec nsec rc off' :
  s32 (a 0) = 0 -> guest_pair c p (u32 (a 1)) 8 = Some (sec, nsec) -> 0 <= ns < 2 ^ 62 ->
  lxp_sys_clock_settime64 off ns c p a = (rc, off') ->
  (rc = 0 /\ settable (s64 sec) (s64 nsec) \/ rc = - LXP_EINVAL /\ off' = off /\ ~ settable (s64 sec) (s64 nsec)) /\
  (rc = 0 -> forall (c1 : coord H) p1 a1 ns1,
     s32 (a1 0) = 0 -> lxp_guest_access_ok (cgenv c1) p1 (u32 (a1 1)) 16 true = true -> ns <= ns1 < 2 ^ 62 ->
     s64 sec * LXP_NS_PER_SEC + s64 nsec + (ns1 - ns) < 2 ^ 63 ->
     exists sec1 nsec1, lxp_sys_clock_gettime64 off' ns1 c1 p1 a1 = (0, set_cmem c1 (mem_write (cmem c1) (u32 (a1 1)) (le_bytes 8 sec1 ++ le_bytes 8 nsec1))) /\
       0 <= nsec1 < LXP_NS_PER_SEC /\ sec1 * LXP_NS_PER_SEC + nsec1 = s64 sec * LXP_NS_PER_SEC + s64 nsec + (ns1 - ns)).
Proof.
  intros Ha Hg Hns E. unfold lxp_sys_clock_settime64 in E. rewrite Ha, Hg in E. cbn [Z.eqb negb] in E.
  assert (Hdec : settable (s64 sec) (s64 nsec) \/ ~ settable (s64 sec) (s64 nsec)) by (unfold settable; lia).
  destruct Hdec as [Hset|Hbad].
  2:{ rewrite (set_realtime_refused _ _ _ _ Hbad) in E. injection E as <- <-. split; [by right|done]. }
  rewrite (set_realtime_spec _ _ _ _ Hns Hset) in E. injection E as <- <-. split; [by left|]. intros _ c1 p1 a1 ns1 Ha1 Hok Hn1 Ht.
  pose proof (settable_range _ _ Hset). set (t := s64 sec * LXP_NS_PER_SEC + s64 nsec + (ns1 - ns)) in *.
  exists (t / LXP_NS_PER_SEC), (t mod LXP_NS_PER_SEC). unfold lxp_sys_clock_gettime64. rewrite Ha1.
  rewrite (now_realtime ns1 _ t) by (unfold t; lia). unfold put_bytes, lxp_copy_to_guest.
  change (alen (le_bytes 8 (t / LXP_NS_PER_SEC) ++ le_bytes 8 (t mod LXP_NS_PER_SEC))) with 16. rewrite Hok. split; [done|].
  unfold LXP_NS_PER_SEC. pose proof (Z.div_mod t 1000000000). pose proof (Z.mod_pos_bound t 1000000000). lia.
Qed.

(** 2030-01-01 and half a second, in guest memory at 0x20001000. *)
Definition demo_clock : coord unit :=
  let m := mem_write (fun _ => 0) 0x20001000 (le_bytes 8 1893456000 ++ le_bytes 8 500000000) in
  mk_coord tt (put_proc (set_rt_mem (set_rt_k demo_rt (mk_kst [] [files_zero] [] [] [demo_mm] [])) m) 0 demo_proc) [].
Definition demo_args (i : Z) : Z := if i =? 1 then 0x20001000 else 0.

Lemma clock_set_get_witness :
  let '(rc, off) := lxp_sys_clock_settime64 0 1000 demo_clock 0 demo_args in
  rc = 0 /\ exists sec nsec, (lxp_sys_clock_gettime64 off 600001000 demo_clock 0 demo_args).1 = 0 /\ 0 <= nsec < LXP_NS_PER_SEC /\
    sec * LXP_NS_PER_SEC + nsec = 1893456001 * LXP_NS_PER_SEC + 100000000.
Proof.
  destruct (lxp_sys_clock_settime64 0 1000 demo_clock 0 demo_args) as [rc off] eqn:E.
  assert (Hrc : rc = 0) by (apply (f_equal fst) in E; vm_compute in E; congruence).
  destruct (clock_set_get demo_clock 0 demo_args 0 1000 1893456000 500000000 rc off) as [_ HR];
    [reflexivity|vm_compute; reflexivity|lia|exact E|].
  split; [exact Hrc|]. destruct (HR Hrc demo_clock 0 demo_args 600001000) as (sec & nsec & Eg & Hn & Hs);
    [reflexivity|vm_compute; reflexivity|lia|vm_compute; reflexivity|].
  exists sec, nsec. rewrite Eg. split; [reflexivity|]. split; [exact Hn|]. rewrite Hs. vm_compute. reflexivity.
Defined.

(** The ticks of times() are cut to the 32-bit [long]: negative after 2^31 ticks of uptime. *)
Lemma times_negative : (lxp_sys_times (2147483648 * 10000) demo_clock 0 (fun _ => 0)).1 < 0.
Proof. vm_compute. reflexivity. Qed.
