(* ===== verification/Dir.v ===== *)
(** * Directory listings and the rootfs kind (src/fs/lxp_dir.c, src/fs/lxp_rootfs.c)

    A local directory lists the union of everything directly below its path: rootfs entries,
    tmpfs nodes (which shadow rootfs entries of the same path), the host mountpoint, the
    registered devices, the live pty slaves and synthetic /proc entries.  The sources that
    are not modelled elsewhere are a record of their answers.  The loops of the listing stop
    when the buffer is full and otherwise only read, so the listing is the emission of one
    list of entries.  The tmpfs kind's listing and attributes are here too. *)

From S2P Require Import Prelude Config Proc Pool Path Fd Guest Vfs Arena Tmpfs Stat Overlay.
Local Open Scope Z_scope.

Definition LXP_PROT_WRITE_BIT : Z := 0x2.
Definition LXP_DIR_INO_DEV : Z := 0x300000.

(** An entry: its inode number, name and mode. *)
Record dir_entry := mk_entry { de_ino : Z; de_name : list Z; de_mode : Z }.

(** What the other namespaces answer. *)
Record dir_sources := mk_sources {
  ds_host_mount : list Z;                      (* lxp_hostfs_mount_path *)
  ds_host_inode : list Z -> Z;                 (* lxp_hostfs_path_inode *)
  ds_devices : list (option (list Z) * Z);     (* lxp_dev_path of each device *)
  ds_ptys : list (option (Z * Z));             (* the live ptys' inode and mode *)
  ds_proc_is : list Z -> bool;                 (* lxp_proc_is *)
  ds_proc_pid : list Z -> Z * bool;            (* lxp_proc_pid, and whether a file follows *)
  ds_pid_known : Z -> bool;                    (* lxp_proc_pid_known *)
  ds_proc_files : list (list Z);               (* g_lxp_proc_files *)
  ds_child_inode : list Z -> list Z -> Z;      (* lxp_procfs_child_inode *)
  ds_pents : list (option Z);                  (* the pids of the process snapshot *)
}.

(** ** Decimal numbers ([lxp_text_u64]) *)

Fixpoint digits (fuel : nat) (value : Z) (acc : list Z) : list Z :=
  match fuel with
  | O => acc
  | S fuel => if value =? 0 then acc else digits fuel (value / 10) ((48 + value mod 10) :: acc)
  end.
(** Twenty digits hold any 64-bit value. *)
Definition text_u64 (value : Z) : list Z := if value =? 0 then [48] else digits 20 value [].

(** A number in a buffer of [cap] characters. *)
Definition number (value cap : Z) : list Z := take (Z.to_nat cap) (text_u64 (u64 value)).

(** ** The entries of a directory *)

Section Entries.
Context (fs : list lxp_file) (F : wfs) (D : dir_sources) (pid : Z) (dirpath : list Z).

Definition rootfs_children : list dir_entry :=
  concat (imap (fun i f => match lxp_path_child_name dirpath (f_path f) with
                           | Some name => if (lxp_wfs_find F (f_path f) >=? 0) || bool_decide (f_path f = ds_host_mount D) then []
                                          else [mk_entry (LXP_INO_ROOTFS + Z.of_nat i) name (lxp_file_mode f)]
                           | None => []
                           end) fs).

Definition tmpfs_children : list dir_entry :=
  concat (imap (fun i w => if negb (w_used w) || bool_decide (w_path w = ds_host_mount D) then []
                           else match lxp_path_child_name dirpath (w_path w) with
                                | Some name => [mk_entry (LXP_INO_TMPFS + Z.of_nat i) name (w_mode w)]
                                | None => []
                                end) (f_nodes F)).

Definition host_child : list dir_entry :=
  match lxp_path_child_name dirpath (ds_host_mount D) with
  | Some name => [mk_entry (ds_host_inode D (ds_host_mount D)) name LXP_S_IFDIR]
  | None => []
  end.

Definition device_children : list dir_entry :=
  concat (imap (fun i d => match d with
                           | (Some dp, dmode) => match lxp_path_child_name dirpath dp with
                                                 | Some name => [mk_entry (LXP_DIR_INO_DEV + Z.of_nat i) name dmode]
                                                 | None => []
                                                 end
                           | (None, _) => []
                           end) (ds_devices D)).

(** "/dev/pts". *)
Definition dev_pts : list Z := [47; 100; 101; 118; 47; 112; 116; 115].
Definition pty_children : list dir_entry :=
  if bool_decide (dirpath = dev_pts)
  then concat (imap (fun n st => match st with Some (ino, mode) => [mk_entry ino (number (Z.of_nat n) 11) mode] | None => [] end) (ds_ptys D))
  else [].

Definition proc_entry (name : list Z) (mode : Z) : dir_entry := mk_entry (ds_child_inode D dirpath name) name mode.

(** The pids of the snapshot up to its first missing record. *)
Fixpoint pents (l : list (option Z)) : list Z := match l with Some x :: l => x :: pents l | _ => [] end.

Definition proc_children : list dir_entry :=
  if negb (ds_proc_is D dirpath) then []
  else
    let '(dpid, file) := ds_proc_pid D dirpath in
    if bool_decide (dirpath = proc_point)
    then
      let seen := pents (ds_pents D) in
      map (fun n => proc_entry n LXP_S_IFREG) (ds_proc_files D) ++ [proc_entry [115; 101; 108; 102] LXP_S_IFLNK] ++
      map (fun e => proc_entry (number e 11) LXP_S_IFDIR) seen ++
      (if existsb (Z.eqb 1) seen then [] else [proc_entry [49] LXP_S_IFDIR]) ++
      (if existsb (Z.eqb pid) seen || (pid =? 1) then [] else [proc_entry (number pid 11) LXP_S_IFDIR])
    else if (dpid >? 0) && negb file && ds_pid_known D dpid
    then map (fun n => proc_entry n LXP_S_IFREG)
           [[115; 116; 97; 116]; [99; 109; 100; 108; 105; 110; 101]; [115; 116; 97; 116; 117; 115]; [99; 111; 109; 109]]
    else [].

Definition dir_entries : list dir_entry :=
  rootfs_children ++ tmpfs_children ++ host_child ++ device_children ++ pty_children ++ proc_children.
End Entries.

(** ** Emission *)

Section Emit.
Context (G : genv) (p : Z).

(** [dirent_emit] of the entries from index [pos]; [off] were returned by earlier calls. *)
Fixpoint dirent_emit (m : mem) (sink : lxp_dirent_sink) (pos off : Z) (l : list dir_entry) : bool * mem * lxp_dirent_sink * Z :=
  match l with
  | [] => (false, m, sink, off)
  | e :: l =>
      if pos <? off then dirent_emit m sink (pos + 1) off l
      else
        let '(ok, m, sink) := lxp_dirent_put G m p sink (de_ino e) (u64 (pos + 1)) (lxp_dirent_type (de_mode e)) (de_name e) in
        if negb ok then (true, m, sink, off) else dirent_emit m sink (pos + 1) (off + 1) l
  end.

Definition lxp_dir_list (m : mem) (s : lxp_ofd) (entries : list dir_entry) (sink : lxp_dirent_sink) : Z * mem * lxp_ofd * lxp_dirent_sink :=
  let '(full, m, sink, off) := dirent_emit m sink 0 (ofd_offset s) entries in
  let r := if negb (sk_error sink =? 0) then sk_error sink
           else if full && (sk_filled sink =? 0) then - LXP_EINVAL
           else sk_filled sink in
  (r, m, set_ofd_offset s off, sink).
End Emit.

(** ** The rootfs and tmpfs kinds *)

Section Kinds.
Context (fs : list lxp_file) (D : dir_sources) (pid : Z).
(** Where the image maps each entry's bytes. *)
Context (image : Z -> Z).
Implicit Types (G : genv) (m : mem) (p : Z) (s : lxp_ofd) (F : wfs).

Definition rootfs_file s : lxp_file := file_at fs (ofd_file_idx s).

Definition fop_pread_rootfs G m p s (buf len off : Z) : Z * mem :=
  if is_dir (lxp_file_mode (rootfs_file s)) then (- LXP_EISDIR, m)
  else lxp_vfs_read_mem G m p (image (ofd_file_idx s)) (f_size (rootfs_file s)) buf len off.

Definition fop_read_rootfs G m p s (buf len : Z) : Z * mem * lxp_ofd :=
  let '(n, m) := fop_pread_rootfs G m p s buf len (ofd_offset s) in
  (n, m, if n >? 0 then set_ofd_offset s (u32 (ofd_offset s + n)) else s).

Definition fop_lseek_rootfs s (off whence : Z) : Z * lxp_ofd := lxp_vfs_seek s (f_size (rootfs_file s)) off whence.

Definition fop_mmap_rootfs s (len prot pgoff : Z) : Z :=
  let f := rootfs_file s in
  let foff := u32 (pgoff * 4096) in
  if has prot LXP_PROT_WRITE_BIT || negb (foff / 4096 =? pgoff) || (foff >? f_size f) || (f_size f - foff <? len) then - LXP_ENODEV
  else s32 (image (ofd_file_idx s) + foff).

Definition fop_getdents_rootfs G m p F s (sink : lxp_dirent_sink) : Z * mem * lxp_ofd * lxp_dirent_sink :=
  if negb (is_dir (lxp_file_mode (rootfs_file s))) then (- LXP_ENOTDIR, m, s, sink)
  else lxp_dir_list G p m s (dir_entries fs F D pid (f_path (rootfs_file s))) sink.

Definition fop_fstat_rootfs s : lxp_stat :=
  lxp_stat_init (u32 (LXP_INO_ROOTFS + ofd_file_idx s)) (lxp_file_mode (rootfs_file s)) (f_size (rootfs_file s)).

Definition fop_dir_path_rootfs s (cap : Z) : path_result :=
  if negb (is_dir (lxp_file_mode (rootfs_file s))) then inl (- LXP_ENOTDIR) else lxp_vfs_copy_path (f_path (rootfs_file s)) cap.

Definition fop_getdents_tmpfs G m p F s (sink : lxp_dirent_sink) : Z * mem * lxp_ofd * lxp_dirent_sink :=
  let t := lxp_wnode_at F (ofd_file_idx s) in
  if negb (is_dir (w_mode t)) then (- LXP_ENOTDIR, m, s, sink)
  else lxp_dir_list G p m s (dir_entries fs F D pid (w_path t)) sink.

Definition set_st_nlink (s : lxp_stat) (v : Z) : lxp_stat :=
  mk_stat (st_mode s) (st_ino s) v (st_dev_major s) (st_dev_minor s) (st_rdev s) (st_size s) (st_mtime s).
Definition fop_fstat_tmpfs F s : lxp_stat :=
  let node := lxp_wnode_at F (ofd_file_idx s) in
  let st := lxp_stat_init (u32 (LXP_INO_TMPFS + ofd_file_idx s)) (w_mode node) (w_size node) in
  if negb (w_linked node) then set_st_nlink st 0 else st.
End Kinds.

(** * A directory is listed once, in order *)

(** The records of the entries [l], the first at index [k]. *)
Fixpoint records (is64 : bool) (k : Z) (l : list dir_entry) : list Z :=
  match l with
  | [] => []
  | e :: l => dirent_record is64 (de_ino e) (u64 (k + 1)) (lxp_dirent_type (de_mode e)) (de_name e) ++ records is64 (k + 1) l
  end.

Definition name_ok (e : dir_entry) : Prop := alen (de_name e) < LXP_PATH_MAX.

(** The record of a path component holds its head, its name and at least a terminator. *)
Lemma reclen_bounds (is64 : bool) n :
  0 <= n < LXP_PATH_MAX -> (if is64 then LXP_DIRENT64_HEAD + n + 1 else LXP_DIRENT32_HEAD + n + 2) <= dirent_reclen is64 n <= LXP_DIRENT_RECORD_MAX.
Proof.
  set (ok := fun (is64 : bool) (n : Z) => ((if is64 then LXP_DIRENT64_HEAD + n + 1 else LXP_DIRENT32_HEAD + n + 2) <=? dirent_reclen is64 n) &&
    (dirent_reclen is64 n <=? LXP_DIRENT_RECORD_MAX)).
  assert (HA : forallb (fun i => ok true (Z.of_nat i) && ok false (Z.of_nat i)) (seq 0 256) = true) by (vm_compute; reflexivity).
  intros Hn. rewrite forallb_forall in HA. specialize (HA (Z.to_nat n)). rewrite Z2Nat.id in HA by lia.
  assert (Hin : In (Z.to_nat n) (seq 0 256)) by (apply in_seq; unfold LXP_PATH_MAX in Hn; lia). specialize (HA Hin).
  apply andb_prop in HA as [H1 H2]. destruct is64; [unfold ok in H1|unfold ok in H2]; lia.
Qed.

Lemma length_record (is64 : bool) ino off type name :
  alen name < LXP_PATH_MAX -> alen (dirent_record is64 ino off type name) = dirent_reclen is64 (alen name).
Proof.
  intros Hn. assert (H0 : 0 <= alen name) by (unfold alen; lia). pose proof (reclen_bounds is64 (alen name) ltac:(lia)) as HB.
  unfold dirent_record. set (body := _ ++ name).
  assert (Hb : alen body <= dirent_reclen is64 (alen name)).
  { unfold body, alen in *. rewrite !length_app, !length_le_bytes. destruct is64; cbn [length]; unfold LXP_DIRENT64_HEAD, LXP_DIRENT32_HEAD in HB; lia. }
  assert (Hr : alen (body ++ replicate (Z.to_nat (dirent_reclen is64 (alen name) - alen body)) 0) = dirent_reclen is64 (alen name)).
  { unfold alen in *. rewrite length_app, length_replicate. lia. }
  destruct is64; [done|]. by rewrite alen_aset.
Qed.

Section Emitted.
Context (G : genv) (p : Z).

(** What one put leaves: the record in the buffer after what it held, or an unchanged buffer. *)
Lemma dirent_put_spec m sink ino off type name ok m' sink' :
  lxp_dirent_put G m p sink ino off type name = (ok, m', sink') -> alen name < LXP_PATH_MAX ->
  0 <= sk_filled sink <= sk_cap sink -> 0 <= sk_ubuf sink -> sk_cap sink < 2 ^ 31 -> sk_ubuf sink + sk_cap sink < 2 ^ 32 -> sk_error sink = 0 ->
  sk_ubuf sink' = sk_ubuf sink /\ sk_cap sink' = sk_cap sink /\ sk_is64 sink' = sk_is64 sink /\
  if (ok : bool)
  then sk_error sink' = 0 /\ sk_filled sink' = sk_filled sink + dirent_reclen (sk_is64 sink) (alen name) /\ sk_filled sink' <= sk_cap sink /\
       m' = mem_write m (sk_ubuf sink + sk_filled sink) (dirent_record (sk_is64 sink) ino off type name)
  else sk_error sink' <> 0 \/ sink' = sink /\ m' = m /\ sk_cap sink < sk_filled sink + dirent_reclen (sk_is64 sink) (alen name).
Proof.
  intros E Hn Hf Hu Hc Huc He. unfold lxp_dirent_put in E. rewrite He in E. cbn [Z.eqb negb] in E.
  assert (H0 : 0 <= alen name) by (unfold alen; lia). pose proof (reclen_bounds (sk_is64 sink) (alen name) ltac:(lia)) as HB.
  set (rl := dirent_reclen (sk_is64 sink) (alen name)) in *. unfold LXP_DIRENT_RECORD_MAX, LXP_PATH_MAX in *.
  assert (Hrl : 0 <= rl) by (unfold LXP_DIRENT64_HEAD, LXP_DIRENT32_HEAD in HB; destruct (sk_is64 sink); lia).
  replace (u32 (sk_filled sink + rl)) with (sk_filled sink + rl) in E by (unfold u32; rewrite Z.mod_small; lia).
  destruct (Z.gtb_spec (sk_filled sink + rl) (sk_cap sink)) as [Hfull|Hfit]; cbn [orb] in E.
  { injection E as <- <- <-. split_and!; try done. right. split_and!; try done; lia. }
  destruct (Z.gtb_spec rl (256 + 32)); [lia|]. unfold lxp_copy_to_guest in E. destruct (negb (lxp_guest_access_ok _ _ _ _ _)).
  { injection E as <- <- <-. split_and!; try done. by left. }
  injection E as <- <- <-. split_and!; try done. replace (u32 (sk_ubuf sink + sk_filled sink)) with (sk_ubuf sink + sk_filled sink); [done|].
  unfold u32. rewrite Z.mod_small; lia.
Qed.

(** Earlier entries are passed over. *)
Lemma emit_skip m sink pos off l :
  pos <= off -> off - pos <= alen l -> dirent_emit G p m sink pos off l = dirent_emit G p m sink off off (drop (Z.to_nat (off - pos)) l).
Proof.
  revert pos. induction l as [|e l IH]; intros pos Hp Hl.
  { unfold alen in Hl. cbn in Hl. replace pos with off by lia. by rewrite drop_nil. }
  destruct (decide (pos = off)) as [->|Hne]; [by rewrite Z.sub_diag|]. cbn [dirent_emit]. destruct (Z.ltb_spec pos off); [|lia].
  rewrite IH by (unfold alen in *; cbn [length] in Hl; lia). replace (Z.to_nat (off - pos)) with (S (Z.to_nat (off - (pos + 1)))) by lia. done.
Qed.

(** The entries emitted are a prefix, as long as fits. *)
Lemma emit_spec l m sink off full m' sink' off' :
  dirent_emit G p m sink off off l = (full, m', sink', off') -> Forall name_ok l ->
  0 <= sk_filled sink <= sk_cap sink -> 0 <= sk_ubuf sink -> sk_cap sink < 2 ^ 31 -> sk_ubuf sink + sk_cap sink < 2 ^ 32 -> sk_error sink = 0 -> sk_error sink' = 0 ->
  exists l1 l2, l = l1 ++ l2 /\ off' = off + alen l1 /\ sk_filled sink' = sk_filled sink + alen (records (sk_is64 sink) off l1) /\ sk_filled sink' <= sk_cap sink /\
    mem_read m' (sk_ubuf sink + sk_filled sink) (length (records (sk_is64 sink) off l1)) = map u8 (records (sk_is64 sink) off l1) /\
    (forall x, x < sk_ubuf sink + sk_filled sink -> load8 m' x = load8 m x) /\
    (full = false -> l2 = []) /\ (full = true -> exists e l3, l2 = e :: l3 /\ sk_cap sink < sk_filled sink' + dirent_reclen (sk_is64 sink) (alen (de_name e))).
Proof.
  revert m sink off. induction l as [|e l IH]; intros m sink off E Hn Hf Hu Hc Huc He He'; cbn [dirent_emit] in E.
  { injection E as <- <- <- <-. exists [], []. unfold alen. cbn. split_and!; try done; lia. }
  apply Forall_cons in Hn as [Hne Hn]. rewrite Z.ltb_irrefl in E.
  destruct (lxp_dirent_put G m p sink (de_ino e) (u64 (off + 1)) (lxp_dirent_type (de_mode e)) (de_name e)) as [[ok m1] sink1] eqn:Ep.
  pose proof (dirent_put_spec _ _ _ _ _ _ _ _ _ Ep Hne Hf Hu Hc Huc He) as (K1 & K2 & K3 & HP). destruct ok; cbn [negb] in E.
  2:{ injection E as <- <- <- <-. destruct HP as [HP|(-> & -> & Hfull)]; [done|]. exists [], (e :: l). unfold alen in *. cbn.
      split_and!; try done; try lia. intros _. exists e, l. split; [done|lia]. }
  destruct HP as (P1 & P2 & P3 & P4). pose proof (length_record (sk_is64 sink) (de_ino e) (u64 (off + 1)) (lxp_dirent_type (de_mode e)) (de_name e) Hne) as HL.
  set (rec := dirent_record (sk_is64 sink) (de_ino e) (u64 (off + 1)) (lxp_dirent_type (de_mode e)) (de_name e)) in *.
  assert (Hrl : 0 <= alen rec) by (unfold alen; lia).
  destruct (IH m1 sink1 (off + 1) E Hn) as (l1 & l2 & -> & -> & Q3 & Q4 & Q5 & Q6 & Q7 & Q8); try (rewrite ?K1, ?K2; lia).
  rewrite K3 in *. rewrite K2 in *. rewrite K1 in *.
  exists (e :: l1), l2. cbn [records]. fold rec. rewrite length_app. split_and!; try done.
  - unfold alen. cbn [length]. lia.
  - rewrite Q3, P2, <- HL. unfold alen. rewrite length_app. lia.
  - rewrite mem_read_app, map_app. f_equal.
    + rewrite <- (mem_read_write_same m (sk_ubuf sink + sk_filled sink) rec), <- P4. apply mem_read_ext. intros x Hx. apply Q6. change (Z.of_nat (length rec)) with (alen rec) in Hx. lia.
    + rewrite <- Q5. f_equal. change (Z.of_nat (length rec)) with (alen rec). lia.
  - intros x Hx. rewrite Q6 by lia. rewrite P4. apply load8_write_out. lia.
Qed.

Lemma put_error m sink ino off type name :
  sk_error sink = 0 -> let '(_, _, sink') := lxp_dirent_put G m p sink ino off type name in sk_error sink' = 0 \/ sk_error sink' = - LXP_EFAULT.
Proof.
  intros He. unfold lxp_dirent_put. rewrite He. cbn [Z.eqb negb]. destruct (_ || _); [by left|].
  destruct (lxp_copy_to_guest _ _ _ _ _) as [rc m']. destruct (negb _); [by right|by left].
Qed.

Lemma emit_error m sink pos off l full m' sink' off' :
  sk_error sink = 0 -> dirent_emit G p m sink pos off l = (full, m', sink', off') -> sk_error sink' = 0 \/ sk_error sink' = - LXP_EFAULT.
Proof.
  revert m sink pos off. induction l as [|e l IH]; intros m sink pos off He E; cbn [dirent_emit] in E; [injection E as <- <- <- <-; by left|].
  destruct (pos <? off); [by eapply IH|].
  pose proof (put_error m sink (de_ino e) (u64 (pos + 1)) (lxp_dirent_type (de_mode e)) (de_name e) He) as HP.
  destruct (lxp_dirent_put _ _ _ _ _ _ _ _) as [[ok m1] sink1] eqn:Ep. destruct ok; cbn [negb] in E; [|by injection E as <- <- <- <-].
  eapply IH; [|exact E]. destruct HP as [|HP]; [done|]. exfalso. unfold lxp_dirent_put in Ep. rewrite He in Ep. cbn [Z.eqb negb] in Ep.
  destruct (_ || _); [done|]. destruct (lxp_copy_to_guest _ _ _ _ _) as [rc m2]. destruct (negb _); [done|]. injection Ep as <- <-.
  cbn in HP. rewrite He in HP. done.
Qed.

(** ** Successive calls *)

(** getdents calls with the buffers [bufs] (address and capacity): the results, what each left
    in its buffer, and the position. *)
Fixpoint getdents_calls (m : mem) (s : lxp_ofd) (entries : list dir_entry) (is64 : bool) (bufs : list (Z * Z)) : list (Z * list Z) * lxp_ofd * mem :=
  match bufs with
  | [] => ([], s, m)
  | (ubuf, cap) :: bufs =>
      let '(r, m, s, _) := lxp_dir_list G p m s entries (mk_sink ubuf cap 0 0 is64) in
      let out := mem_read m ubuf (Z.to_nat r) in
      let '(rs, s, m) := getdents_calls m s entries is64 bufs in ((r, out) :: rs, s, m)
  end.

Definition buf_ok (b : Z * Z) : Prop := 0 <= b.1 /\ 0 <= b.2 < 2 ^ 31 /\ b.1 + b.2 < 2 ^ 32.

Lemma records_app is64 k l1 l2 : records is64 k (l1 ++ l2) = records is64 k l1 ++ records is64 (k + alen l1) l2.
Proof.
  revert k. induction l1 as [|e l1 IH]; intros k; [unfold alen; cbn; f_equal; lia|]. cbn [app records]. rewrite IH, <- app_assoc. do 2 f_equal.
  f_equal. unfold alen. cbn [length]. lia.
Qed.

Lemma call_spec m s entries is64 b r m' s' sink' :
  lxp_dir_list G p m s entries (mk_sink b.1 b.2 0 0 is64) = (r, m', s', sink') -> Forall name_ok entries -> buf_ok b -> 0 <= ofd_offset s <= alen entries -> 0 <= r ->
  exists l0 l1 l2, entries = l0 ++ l1 ++ l2 /\ alen l0 = ofd_offset s /\ ofd_offset s' = ofd_offset s + alen l1 /\
    r = alen (records is64 (ofd_offset s) l1) /\ r <= b.2 /\ mem_read m' b.1 (Z.to_nat r) = map u8 (records is64 (ofd_offset s) l1) /\ (r = 0 -> l2 = []).
Proof.
  intros E Hn (B1 & B2 & B3) Ho Hr. unfold lxp_dir_list in E.
  rewrite emit_skip in E by lia. rewrite Z.sub_0_r in E.
  destruct (dirent_emit G p m _ (ofd_offset s) (ofd_offset s) (drop (Z.to_nat (ofd_offset s)) entries)) as [[[full m1] sink1] off1] eqn:Ee.
  injection E as <- <- <- <-.
  destruct (emit_error m (mk_sink b.1 b.2 0 0 is64) _ _ _ _ _ _ _ eq_refl Ee) as [He|He]; rewrite He in Hr |- *; [|done]. cbn [Z.eqb negb] in *.
  assert (Hd : Forall name_ok (drop (Z.to_nat (ofd_offset s)) entries)) by (by apply Forall_drop).
  destruct (emit_spec _ _ _ _ _ _ _ _ Ee Hd) as (l1 & l2 & El & -> & Q3 & Q4 & Q5 & _ & Q7 & _); cbn in *; try lia.
  exists (take (Z.to_nat (ofd_offset s)) entries), l1, l2.
  assert (Hrr : (if full && (sk_filled sink1 =? 0) then - LXP_EINVAL else sk_filled sink1) = sk_filled sink1).
  { destruct (full && (sk_filled sink1 =? 0)); [unfold LXP_EINVAL in Hr; lia|done]. }
  rewrite Hrr in *. rewrite Z.add_0_l, Z.add_0_r in *. split_and!.
  - by rewrite <- El, take_drop.
  - unfold alen in *. rewrite length_take. lia.
  - done.
  - done.
  - lia.
  - rewrite Q3. unfold alen. by rewrite Nat2Z.id.
  - intros Hz. apply Q7. destruct full; [|done]. rewrite Hz in Hrr. done.
Qed.

(** A run of calls that all succeed leaves the records of the entries passed, in order. *)
Lemma calls_spec entries is64 bufs : forall m s rs s' m',
  getdents_calls m s entries is64 bufs = (rs, s', m') -> Forall name_ok entries -> Forall buf_ok bufs -> 0 <= ofd_offset s <= alen entries ->
  Forall (fun x => 0 <= x.1) rs ->
  exists l0 l1 l2, entries = l0 ++ l1 ++ l2 /\ alen l0 = ofd_offset s /\ ofd_offset s' = ofd_offset s + alen l1 /\
    concat (map snd rs) = map u8 (records is64 (ofd_offset s) l1) /\ (Exists (fun x => x.1 = 0) rs -> l2 = []).
Proof.
  induction bufs as [|[ubuf cap] bufs IH]; intros m s rs s' m' E Hn Hb Ho Hr; cbn [getdents_calls] in E.
  { injection E as <- <- <-. exists (take (Z.to_nat (ofd_offset s)) entries), [], (drop (Z.to_nat (ofd_offset s)) entries). cbn [app].
    split_and!; [by rewrite take_drop|unfold alen in *; rewrite length_take; lia|unfold alen; cbn; lia|done|]. intros HE. by inversion HE. }
  apply Forall_cons in Hb as [Hb1 Hb].
  destruct (lxp_dir_list G p m s entries (mk_sink ubuf cap 0 0 is64)) as [[[r m1] s1] sk1] eqn:E1.
  destruct (getdents_calls m1 s1 entries is64 bufs) as [[rs1 s2] m2] eqn:E2. injection E as <- <- <-.
  apply Forall_cons in Hr as [Hr1 Hr]. cbn [fst] in Hr1.
  destruct (call_spec m s entries is64 (ubuf, cap) r m1 s1 sk1 E1 Hn Hb1 Ho Hr1) as (l0 & l1 & l2 & El & L0 & O1 & R1 & _ & M1 & Z1). cbn [fst snd] in *.
  assert (Hle : alen entries = alen l0 + alen l1 + alen l2) by (rewrite El; unfold alen; rewrite !length_app; lia).
  assert (Hnn : 0 <= alen l1 /\ 0 <= alen l2) by (unfold alen; lia).
  destruct (IH _ _ _ _ _ E2 Hn Hb ltac:(lia) Hr) as (k0 & k1 & k2 & Ek & K0 & O2 & C2 & Z2).
  assert (Hk : k0 = l0 ++ l1 /\ l2 = k1 ++ k2).
  { rewrite El, app_assoc in Ek. apply app_inj_1 in Ek as [-> ->]; [done|]. unfold alen in *. rewrite length_app. lia. }
  destruct Hk as [-> ->]. exists l0, (l1 ++ k1), k2. rewrite records_app, map_app. cbn [map concat]. rewrite M1, C2, O1.
  split_and!; [by rewrite El, <- !app_assoc|done|rewrite O2, O1; unfold alen; rewrite length_app; lia|done|].
  intros HE. apply Exists_cons in HE as [Hz|HE]; [|by apply Z2]. specialize (Z1 Hz). by apply app_eq_nil in Z1 as [_ ?].
Qed.
End Emitted.

(** C26: a directory is listed once, in order.  For a directory that does not change, read by any
    number of getdents calls with any buffers from its start: while the calls succeed, the
    bytes they leave are together the records of the first entries of the union listing, each
    once, with no gap and no repetition at the call boundaries, as many as the position says;
    and once a call returns 0 they are all of them. *)
Theorem getdents_lists_once G p fs F D pid dirpath is64 bufs m s rs s' m' :
  let entries := dir_entries fs F D pid dirpath in
  Forall name_ok entries -> Forall buf_ok bufs -> ofd_offset s = 0 ->
  getdents_calls G p m s entries is64 bufs = (rs, s', m') -> Forall (fun x => 0 <= x.1) rs ->
  0 <= ofd_offset s' <= alen entries /\
  concat (map snd rs) = map u8 (records is64 0 (take (Z.to_nat (ofd_offset s')) entries)) /\
  (Exists (fun x => x.1 = 0) rs -> ofd_offset s' = alen entries).
Proof.
  intros entries Hn Hb Hs E Hr. assert (Hlen : 0 <= alen entries) by (unfold alen; lia).
  destruct (calls_spec G p entries is64 bufs _ _ _ _ _ E Hn Hb ltac:(lia) Hr) as (l0 & l1 & l2 & El & L0 & O1 & C & HZ). rewrite Hs in *.
  assert (l0 = []) as -> by (destruct l0; [done|unfold alen in L0; cbn in L0; lia]). cbn [app] in El. rewrite Z.add_0_l in O1.
  assert (Hl : alen entries = alen l1 + alen l2) by (rewrite El; unfold alen; rewrite length_app; lia).
  assert (Hnn : 0 <= alen l1 /\ 0 <= alen l2) by (unfold alen; lia).
  split_and!; [lia|lia| |].
  - rewrite C, O1, El. unfold alen. by rewrite Nat2Z.id, take_app_length.
  - intros HE. rewrite (HZ HE) in Hl. unfold alen in Hl at 3. cbn in Hl. lia.
Qed.

(** The root of the small image, with the host mount "/data": one record fits the first
    buffer. *)
Definition demo_sources : dir_sources :=
  mk_sources [47; 100; 97; 116; 97] (fun _ => 7) [] [] (fun _ => false) (fun _ => (0, false)) (fun _ => false) [] (fun _ _ => 0) [].
Definition demo_bufs : list (Z * Z) := [(4096, 24); (5000, 100); (6000, 100)].
Definition demo_dir_ofd : lxp_ofd := mk_ofd 1 LXP_FD_FILE 0 0 0 0 0.

Lemma getdents_lists_once_witness :
  let entries := dir_entries demo_image demo_empty demo_sources 1 [47] in
  let '(rs, s, _) := getdents_calls demo_genv 0 (fun _ => 0) demo_dir_ofd entries true demo_bufs in
  map fst rs = [24; 24; 0] /\ ofd_offset s = 2 /\ concat (map snd rs) = map u8 (records true 0 entries).
Proof.
  intros entries.
  destruct (getdents_calls demo_genv 0 (fun _ => 0) demo_dir_ofd entries true demo_bufs) as [[rs s] m'] eqn:E.
  assert (Hrs : map fst rs = [24; 24; 0]) by (change rs with ((rs, s, m').1.1); rewrite <- E; vm_compute; reflexivity).
  assert (Hf : forall P : Z -> Prop, P 24 -> P 0 -> Forall (fun x : Z * list Z => P x.1) rs /\ Exists (fun x : Z * list Z => x.1 = 0) rs).
  { intros P P1 P2. destruct rs as [|[r1 o1] [|[r2 o2] [|[r3 o3] [|? ?]]]]; cbn in Hrs; try discriminate. injection Hrs as -> -> ->.
    split; [repeat constructor; assumption|]. apply Exists_cons. right. apply Exists_cons. right. apply Exists_cons. left. reflexivity. }
  destruct (Hf (fun r => 0 <= r) ltac:(cbv beta; lia) ltac:(cbv beta; lia)) as [Hpos Hzero].
  destruct (getdents_lists_once demo_genv 0 demo_image demo_empty demo_sources 1 [47] true demo_bufs (fun _ => 0) demo_dir_ofd rs s m') as (_ & Hc & Hz).
  - vm_compute. repeat constructor.
  - repeat constructor; vm_compute; congruence.
  - reflexivity.
  - exact E.
  - exact Hpos.
  - specialize (Hz Hzero). split; [exact Hrs|]. split; [rewrite Hz; vm_compute; reflexivity|]. rewrite Hc, Hz. vm_compute. reflexivity.
Defined.
